(* ===== verification/_CoqProject ===== *)
-Q . S2P
Prelude.v
PyDict.v
PyPath.v
Types.v
Utils.v
Json.v
CloudFront.v
SystemLimits.v
Url.v
PathMapping.v
Config.v
Rclone.v
Retry.v
Listing.v
ListingProofs.v
Replica.v
Telemetry.v
MetricReader.v
Certificates.v
ProviderMetrics.v
Provider.v
MemStore.v
ProviderProofs.v
Cloud.v
CloudProofs.v
S3.v
MemCloud.v
S3Proofs.v
Azure.v
Gcs.v
Oci.v
Ais.v
Huggingface.v
S3Variants.v
FileCredentials.v
TransferProofs.v
PosixFs.v
PosixFile.v
PosixProofs.v
PosixListing.v
Eviction.v
Cache.v
RangeCache.v
CacheMaintenance.v
ConfigLoader.v
ConfigProofs.v
ProviderRegistry.v
Shortcuts.v
Cli.v
CliMain.v
Benchmark.v
Explorer.v
Mcp.v
Adapters.v
Pathlib.v
Codecs.v
Manifest.v
ManifestProofs.v
ManifestFiles.v
ManifestQueries.v
Generator.v
Client.v
ClientProofs.v
Files.v
FileProofs.v
ClientFiles.v
PosixHandle.v
Composite.v
Producer.v
ProducerProofs.v
Worker.v
WorkerProofs.v
Sync.v
SyncProofs.v
SyncRun.v
SyncManager.v
RayShared.v
ProgressBar.v
ClientLifecycle.v
Facade.v
