(* ===== verification/Prelude.v ===== *)
(** * A verification of the multi-storage client

    The multi-storage client ([src/multi-storage-client/src/multistorageclient],
    the root of every Python path below) gives one interface to local files and
    object stores.  A client delegates to a storage provider, optionally through
    a metadata provider that maps logical to physical paths, a local file cache
    and a retry policy; [sync] copies the difference between two clients with a
    producer, a pool of workers and two monitors.  This library models the parts
    that carry logic of their own and proves them correct.

    ** Files

    - [Prelude]: exceptions and results ([exc], [res]), the state and error
      monad [M] with [try]/[finally]/loops, Python's [str] operations, sorting,
      the shared tactics and the generic lemmas.
    - [PyDict], [PyPath], [Json]: ordered dictionaries, [posixpath] and the
      [json] module, with the laws the components need.
    - [Types] ([types.py]): [ObjectMetadata] and the other dataclasses.
    - [Utils] ([utils.py]): glob and pattern matching, attribute filters,
      directories of a listing, merging, environment expansion, worker counts.
    - [Retry] ([retry.py]): the retry loop, [retry] and [batch_retry].
    - [Listing] ([providers/base.py]): the recursive listing with its prefix
      expander and heap; proofs in [ListingProofs].
    - [Provider] ([providers/base.py], [BaseStorageProvider]): the operations
      shared by the storage providers, over the interface [StorageBackend] of
      the abstract methods.  [ProviderProofs] has the proofs on paths, symlinks
      and listings, [TransferProofs] those on batch transfers; [MemStore] is a
      store in memory, an instance of [StorageBackend] for the examples.
    - [PosixFs], [PosixFile] ([providers/posix_file.py]): a file system with
      directories, symbolic links and extended attributes, and the POSIX
      provider over it, an instance of [StorageBackend]; proofs in
      [PosixProofs] and [PosixListing].
    - [Replica] ([replica_manager.py]): reads from replicas and the background
      uploads on a pool of workers, with its proofs.
    - [Eviction] ([caching/]): size strings, eviction policies, eviction plan.
    - [Cache] ([cache.py], [CacheManager]): every operation of the cache over a
      file system that maps paths to files with extended attributes.
      [RangeCache] and [CacheMaintenance] hold its proofs.
    - [Manifest] ([providers/manifest_metadata.py], [manifest_formats.py],
      [manifest_object_metadata.py]): the manifest metadata provider over the
      interface [ManifestStorage] of its storage provider.  [ManifestProofs],
      [ManifestFiles] and [ManifestQueries] hold its proofs.
    - [Client] ([client/single.py], [SingleStorageClient]): every operation on
      objects, over the interfaces [StorageProvider] and [MetadataProvider] of
      [types.py], which the components above implement ([base_provider],
      [posix_provider], [manifest_provider]), with the cache, the replicas and
      the retries; proofs in [ClientProofs].  [ClientLifecycle]: construction,
      pickling, the committer thread and the start of a sync.
    - [Composite] ([client/composite.py]): the routing of reads to the clients
      of several profiles.  [Facade] ([client/client.py], [client/types.py]): the
      interface of clients as a record of operations, its implementations by the
      single and the composite client, and the facade that forwards to one.
    - [Files], [PosixHandle] ([file.py]): open files of an object store, over an
      interface for the client that [ClientFiles] implements with [Client], and
      open files of a POSIX store; proofs in [FileProofs].
    - [Cloud] (the parts that the object store providers share, and the contract
      of a delimited listing; [CloudProofs] derives the recursive one from it),
      [S3] with [S3Proofs], [Azure], [Gcs], [Oci], [Ais], [Huggingface],
      [S3Variants] ([providers/s8k.py], [gcs_s3.py], [ais_s3.py]): the providers
      over interfaces for the SDKs and the native client.  [MemCloud] is an
      instance of these interfaces in memory.  [FileCredentials]
      ([providers/file_credentials.py]), [ProviderRegistry]
      ([providers/__init__.py]), [CloudFront]
      ([signers/cloudfront.py]): credentials, lazy imports, signed URLs.
    - [Url], [PathMapping], [Config], [Rclone], [ConfigLoader]
      ([config.py], [schema.py], [rclone.py]): URLs and path mappings, finding and
      merging configuration files, and the loader; proofs in [ConfigProofs].
    - [Shortcuts] ([shortcuts.py]) and [Pathlib] ([pathlib.py]): the functions on
      URLs with their caches of clients, and the path class.
    - [Producer] ([sync/types.py], [sync/producer.py]): the merge of two
      listings into batches of operations; proofs in [ProducerProofs].
    - [Worker] ([sync/worker.py], [sync/metadata_proxy.py]): the processing of
      batches over the interface [SyncClients]; proofs in [WorkerProofs].
    - [Sync] ([sync/worker.py]'s loops, [sync/monitors.py],
      [sync/manager.py]): the workers around the shared queue as a step
      relation, the monitors, the dry run; proofs in [SyncProofs].  [SyncRun] and
      [SyncManager] compose them: [sync_objects] from its arguments to its
      result.  [RayShared] ([contrib/ray/utils.py]): the queue and the event of a
      distributed sync.  [ProgressBar] ([sync/progress_bar.py]).
    - [Generator] ([generators/manifest_metadata.py]): generating a manifest.
    - [Telemetry] ([telemetry/__init__.py], [telemetry/attributes]),
      [MetricReader] ([telemetry/metrics/readers]), [ProviderMetrics]
      (the metrics of [providers/base.py]), [Certificates]
      ([instrumentation/auth.py] and the exporters), [SystemLimits] (processors
      and descriptors in [utils.py]).
    - [Cli], [CliMain] ([commands/cli]), [Benchmark]
      ([commands/msc_benchmark.py]), [Explorer] ([explorer/api]), [Mcp]
      ([mcp/tools.py], [mcp/utils.py]): the programs around the library.
    - [Adapters] ([contrib/zarr.py], [async_fs.py], [hydra.py]), [Codecs]
      ([contrib/pickle.py], [numpy.py], [torch/core.py], [torch/filesystem.py]):
      adapters to other libraries.

    ** Correspondence

    Definitions keep the names of the functions and methods they translate,
    without leading underscores.  A method that changes state is a function in
    the monad [M], which keeps the state changes made before an exception.  A
    Python [str] is a string of 8-bit characters, an [int] is [Z], a float is a
    binary64 value of [SpecFloat] where it decides a branch, a [dict] is an
    association list in insertion order, a timestamp is a number of
    microseconds.  Logging and messages of exceptions are left out, except where
    a program shows them.  Code outside the repository is a parameter: the glob
    library, the parser of filter expressions, date parsing, pyarrow, the SDKs of
    the cloud vendors, OpenTelemetry, FastAPI, zarr, torch and the like.  The
    clients of a sync, the storage provider below a manifest, the providers below
    a client and the operations below a provider are interfaces: type
    classes of operations, with their laws in a class of their own.  What is
    assumed of either is stated as laws or as hypotheses, and concrete instances
    ([memory_storage] of [ManifestFiles], [mem_backend] of [MemStore],
    [posix_backend] of [PosixFile], those of [MemCloud] and [WorkerProofs], and
    the small worlds at the end of the other files) show that the laws can
    hold.  A thread pool is a function that permutes its
    tasks into the order in which they complete, and the theorems hold for
    every such function; what a thread of the prefix expander has finished when
    it is asked is an arbitrary predicate.  Programs whose threads share state
    (the workers of a sync, the uploads to replicas, the consumer and the threads
    of the prefix expander, the daemons of the metric reader) are step relations
    or run by an arbitrary schedule; a file that another process writes
    ([FileCredentials]) may change between any two system calls.

    ** What the theorems show

    - Client: a read through a cache that checks versions, whole or of a range,
      returns exactly the object's bytes; a batch download with retries is
      complete up to the failures that it raises; what is written under a
      manifest is found after a commit.  A client with replicas and without a
      committing thread that is pickled arrives as it was: its configuration is
      rebuilt by the loader from the dictionary that is sent.
    - Composite client and facade: batch downloads put the bytes of the profile
      and path that hold each file into its local file; the facade keeps its delegate, and a composite client changes
      no object whatever is called.
    - Open files: a file opened for reading in binary mode answers like a file
      in memory, on every route; what is written is uploaded when the file is closed; a POSIX
      file is written atomically.
    - Storage providers: base paths are undone by stripping them; reads follow
      symlinks within the depth limit and end on cycles; a recursive listing is
      complete and sorted however its threads run, and never has more requests
      in flight than allowed, and one while its consumer waits; batch transfers report every item that was not
      transferred.
    - Cloud providers: recursive listings are complete and sorted for every
      division into pages; uploads are exact on every route and downloads without
      the native client atomic; batch deletes are complete; credentials follow
      their file where its modification time tells its contents apart; a signed
      URL verifies under the key and covers only the origin.
    - Configuration: merging keeps every definition or reports a conflict; a
      configuration that is built is well formed; the longest path mapping wins;
      a URL resolves to the profile of its bucket; one client per profile and
      process.
    - POSIX provider: writes are atomic; what is put is read back; listings are
      complete and sorted.
    - Replicas: a read returns the object and queues its upload to the replicas
      that it found to lack it, with one upload per path at any time, however
      reads and workers interleave.
    - Cache: a range read through the chunk cache returns exactly the requested
      bytes, whatever valid, stale or damaged entries it finds; what [set]
      stores [read] returns; deletions stay below the profile's directory;
      eviction removes files in the order of the policy and no more than needed.
    - Retry: a retried call ends within the configured attempts; a retried
      batch transfers every item, reports it under its own index, or raises the
      error of the last call for the items still pending.
    - Manifest: a commit followed by a reload gives the same files; pending
      changes are applied as the pending view showed them; symlinks resolve
      along their chain within the depth limit and cycles are told apart from
      long chains; both listings are complete,
      sorted and restricted to what was asked for.
    - Sync: the producer emits exactly the difference of two sorted listings in
      well-formed batches and always ends with its sentinels; the workers
      neither deadlock nor run forever and take each batch once; together, a
      sync without errors carries out exactly the difference, and a second
      sync finds nothing to do; without deletions a file is never lost without
      an error; results and errors are reported and counted;
      a dry run lists what a sync would do.  [sync_objects] as a whole can
      always end with at least one process and thread, and is exact when it
      returns and no batch of the run raised in its worker.
    - Generator: a generated manifest tracks every object, for all ascending
      partitions and all interleavings.
    - Telemetry: metrics are exported at most once and in order; measurements are
      recorded, queued or counted as dropped; cached certificates belong together.
    - Programs and adapters: the explorer serves every request with a client of
      the configuration in force; what an adapter saves
      it loads; a benchmark leaves no object behind; the tools and commands
      answer every error.
    - Utilities: pattern matching against its denotation, the directories of a
      listing, precedence of merging, resolved environment references.
    - Some theorems record behaviour that differs from what the code or its
      documentation intends.  They stand beside the theorems of their component
      and say so in their comments: for example [manifest_symlink_lost] and
      [replica_read_ignores_range] in [ClientProofs],
      [failed_commit_not_retried] in [ManifestFiles], [dead_workers_unnoticed]
      in [SyncProofs], [recursive_delete_keeps_hidden] in [SyncRun],
      [partial_replica_corrupts] and [refused_upload_stays_marked] in [Replica],
      [expander_exceeds_capacity] in [ListingProofs], [eighth_link_refused] in
      [ManifestQueries], [native_download_in_place] in [S3Proofs],
      [zarr_missing_key] in [Adapters], [failed_download_reads_empty] in
      [FileProofs], [rename_to_itself_deletes] in [Pathlib],
      [double_slash_not_listed] in [S3Proofs], [ais_listing_keys_wrong] in
      [Ais], [refused_config_replaces] in [Explorer], and
      [manifest_benchmark_leaves_objects] in [Benchmark].

    ** Bounds

    [run_loop] of [Producer] takes as fuel one more than the length of both
    listings, which every iteration shortens; that it never runs out is part
    of the theorems.  [retry_loop] counts down the attempts of the
    configuration, [realpath_loop] the depth limit of the source and
    [safe_makedirs] its five attempts, as the code does.  [loads],
    [expandvars] and [fn_parse] take the length of their input as fuel, of
    which every call consumes a character.  [heap_loop] of [Listing] takes the
    number of prefixes and objects below the path, each of which is taken from
    the heap once; that this is enough is part of the theorems on listings.
    [explore_directory] takes a recursion limit, as the interpreter has one,
    and [walk] of [PosixFs] the 40 links that the operating system follows.
    [copy_chunks] takes the length of the source, of which every chunk but the
    last takes a part.  The step relation of [Sync] has a measure
    that every step decreases.  The listings of [Oci] need at most two requests
    for each object and one more, which is part of the theorem on them; the rewrite loop of
    [Gcs] counts the rounds that the service asks for, and [Certificates] counts
    down [MAX_RETRIES] as the code does.  [replace_all] of [ProgressBar] takes
    the length of the text.

    ** Not modelled

    The declarations of argparse, the prompts and the start-up code of the
    servers, [rust_utils.py] (a thread with an event loop for the native client),
    [contrib/xarray.py] (one call), the sessions and retries of the exporters and
    the abstract classes of [types.py], which have no code.  The schema of the
    configuration is data for a validator, which is a parameter.  Of the cloud
    providers, the construction of SDK clients is kept to the choice of options,
    text buffers are bytes, and the directory check of [ais_s3.py], which depends
    on the text of an error, is left out.  Descriptors ([fileno], [isatty]) and
    line iteration of local files belong to the operating system.  Locks order
    operations, which are modelled as atomic.  Threads of a sync are modelled by
    the step relation; processes and Ray tasks are such threads, and differ in
    where a raising worker ends. *)
From Stdlib Require Export Init.Byte Ascii ZArith Lia.
From stdpp Require Export base gmap strings list sorting pretty.

(** ** Python exceptions and results

    The exceptions the modelled code raises, catches or classifies.  Messages
    are dropped: no modelled branch inspects them.  [BatchTransferError] keeps
    its failures because [retry.py] reads them. *)
Inductive exc : Type :=
  | FileNotFoundError
  | FileExistsError
  | OSError
  | ValueError
  | RuntimeError
  | KeyError
  | IndexError
  | ZeroDivisionError
  | TypeError
  | NotImplementedError
  | AttributeError
  | UnsupportedOperation
  | LockTimeout
  | RetryableError
  | PreconditionFailedError
  | NotModifiedError
  | PermissionError
  (** the exceptions of the storage SDKs and of the native client *)
  | ClientError (status_code : Z) (code : string)
  | ReadTimeoutError
  | IncompleteReadError
  | ResponseStreamingError
  | HttpResponseError (status_code : option Z)
  | AzureError
  | GoogleAPICallError (status_code : option Z)
  | InvalidResponse (text : string)
  | ServiceError (status : Z)
  | OciConnectionError
  | AISError (status_code : Z)
  | HTTPError (status_code : Z)
  | RepositoryNotFoundError
  | RevisionNotFoundError
  | EntryNotFoundError
  | HfHubHTTPError (status_code : option Z)
  | JSONDecodeError
  (** the connection to the telemetry server, and the timeouts of the metrics SDK *)
  | EOFError
  | ConnectionError
  | BrokenPipeError
  | ImportError
  | MetricsTimeoutError
  (** the web framework of the explorer, the queues shared between Ray tasks,
      and the configuration sources of Hydra *)
  | HTTPException (status_code : Z) (detail : string)
  | QueueFull
  | QueueEmpty
  | ConfigLoadError
  (** an instance of [Exception] itself *)
  | PlainException
  | RustClientError (status_code : Z)
  | RustRetryableError
  | BatchTransferError (failures : list BatchTransferFailure)
  | OtherError (tag : N)
with BatchTransferFailure : Type :=
  | mkBatchTransferFailure
      (index : Z) (source_path destination_path : string) (error : exc).

(** A call either returns a value or raises. *)
Inductive res (A : Type) : Type :=
  | Ok (a : A)
  | Err (e : exc).
Arguments Ok {A} _.
Arguments Err {A} _.

Definition res_bind {A B} (r : res A) (f : A -> res B) : res B :=
  match r with
  | Ok a => f a
  | Err e => Err e
  end.

Definition is_ok {A} (r : res A) : bool :=
  match r with Ok _ => true | Err _ => false end.

(** [except OSError]: the subclasses of [OSError] the code can meet. *)
Definition is_OSError (e : exc) : bool :=
  match e with
  | FileNotFoundError | FileExistsError | OSError | UnsupportedOperation | PermissionError | ConnectionError | BrokenPipeError => true
  | _ => false
  end.

(** State passing with exceptions: state changes made before a raise stay. *)
Definition M (W A : Type) : Type := W -> res A * W.

Definition mret {W A} (a : A) : M W A := fun w => (Ok a, w).
Definition mraise {W A} (e : exc) : M W A := fun w => (Err e, w).
Definition mbind {W A B} (m : M W A) (f : A -> M W B) : M W B :=
  fun w => match m w with
           | (Ok a, w') => f a w'
           | (Err e, w') => (Err e, w')
           end.
(** [try: m except E: h] where [catches] decides which exceptions are [E]. *)
Definition mtry {W A} (catches : exc -> bool) (m : M W A) (h : exc -> M W A) : M W A :=
  fun w => match m w with
           | (Err e, w') => if catches e then h e w' else (Err e, w')
           | r => r
           end.
(** [try: m finally: f]: an exception of [f] replaces the outcome of [m]. *)
Definition mfinally {W A} (m : M W A) (f : M W unit) : M W A :=
  fun w => let '(r, w') := m w in
           match f w' with
           | (Ok _, w'') => (r, w'')
           | (Err e, w'') => (Err e, w'')
           end.
Definition mget {W} : M W W := fun w => (Ok w, w).
Definition mput {W} (w' : W) : M W unit := fun _ => (Ok tt, w').
Definition mlift {W A} (r : res A) : M W A := fun w => (r, w).

(** [for x in l: f(x)] *)
Fixpoint mfor {W A} (l : list A) (f : A -> M W unit) : M W unit :=
  match l with
  | [] => mret tt
  | x :: l' => mbind (f x) (fun _ => mfor l' f)
  end.

Declare Scope py_scope.
Delimit Scope py_scope with py.
Notation "'let!' x ':=' m 'in' k" := (mbind m (fun x => k))
  (at level 10, x name, m at level 100, k at level 200) : py_scope.
Notation "m1 ';;;' m2" := (mbind m1 (fun _ => m2))
  (at level 199, right associativity) : py_scope.
Open Scope py_scope.

(** ** Python [str] operations

    A [str] is a [string]: a sequence of 8-bit characters compared
    character by character, as Python compares code points. *)
Definition slash : ascii := "/"%char.
Definition dot : ascii := "."%char.

(** [s.startswith(p)] *)
Fixpoint startswith (s p : string) {struct p} : bool :=
  match p, s with
  | EmptyString, _ => true
  | String a p', String b s' => if decide (a = b) then startswith s' p' else false
  | String _ _, EmptyString => false
  end.

(** [s[n:]] *)
Fixpoint str_drop (n : nat) (s : string) {struct n} : string :=
  match n, s with
  | 0, _ => s
  | S n', String _ s' => str_drop n' s'
  | S _, EmptyString => EmptyString
  end.

(** [s[:n]] *)
Fixpoint str_take (n : nat) (s : string) : string :=
  match n, s with
  | 0, _ => EmptyString
  | S n', String a s' => String a (str_take n' s')
  | S _, EmptyString => EmptyString
  end.

Fixpoint str_rev_app (s acc : string) : string :=
  match s with
  | EmptyString => acc
  | String a s' => str_rev_app s' (String a acc)
  end.
Definition str_rev (s : string) : string := str_rev_app s EmptyString.

(** [s.lstrip(c)] and [s.rstrip(c)] for a one-character argument *)
Fixpoint lstrip (c : ascii) (s : string) : string :=
  match s with
  | String a s' => if decide (a = c) then lstrip c s' else s
  | EmptyString => EmptyString
  end.
Fixpoint rstrip (c : ascii) (s : string) : string :=
  match s with
  | EmptyString => EmptyString
  | String a s' =>
      match rstrip c s' with
      | EmptyString => if decide (a = c) then EmptyString else String a EmptyString
      | r => String a r
      end
  end.

(** [s.endswith(t)] *)
Definition endswith (s t : string) : bool := startswith (str_rev s) (str_rev t).

(** [c in s] for a character *)
Fixpoint has_char (c : ascii) (s : string) : bool :=
  match s with
  | EmptyString => false
  | String a s' => if decide (a = c) then true else has_char c s'
  end.

(** [t in s] for a string *)
Fixpoint has_substr (t s : string) : bool :=
  startswith s t ||
  match s with
  | EmptyString => false
  | String _ s' => has_substr t s'
  end.

(** [s.split(c)]: always at least one part *)
Fixpoint split (c : ascii) (s : string) : list string :=
  match s with
  | EmptyString => [EmptyString]
  | String a s' =>
      if decide (a = c) then EmptyString :: split c s'
      else match split c s' with
           | p :: ps => String a p :: ps
           | [] => [String a EmptyString]
           end
  end.

(** [s.split(c, 1)] *)
Fixpoint split1 (c : ascii) (s : string) : string * option string :=
  match s with
  | EmptyString => (EmptyString, None)
  | String a s' =>
      if decide (a = c) then (EmptyString, Some s')
      else let '(h, t) := split1 c s' in (String a h, t)
  end.

(** [sep.join(parts)] *)
Fixpoint join (sep : string) (parts : list string) : string :=
  match parts with
  | [] => EmptyString
  | [p] => p
  | p :: ps => p +:+ sep +:+ join sep ps
  end.

(** [s.lower()] and [s.upper()] on ASCII letters *)
Definition lower_char (a : ascii) : ascii :=
  let n := Ascii.nat_of_ascii a in
  if (65 <=? n)%nat && (n <=? 90)%nat then Ascii.ascii_of_nat (n + 32) else a.
Definition upper_char (a : ascii) : ascii :=
  let n := Ascii.nat_of_ascii a in
  if (97 <=? n)%nat && (n <=? 122)%nat then Ascii.ascii_of_nat (n - 32) else a.
Fixpoint str_map (f : ascii -> ascii) (s : string) : string :=
  match s with
  | EmptyString => EmptyString
  | String a s' => String (f a) (str_map f s')
  end.
Definition lower (s : string) : string := str_map lower_char s.
Definition upper (s : string) : string := str_map upper_char s.

(** [s1 < s2] and [s1 <= s2] *)
Definition str_ltb (s1 s2 : string) : bool := String.ltb s1 s2.
Definition str_leb (s1 s2 : string) : bool := String.leb s1 s2.
Definition str_lt (s1 s2 : string) : Prop := str_ltb s1 s2 = true.

(** ** Lists *)

(** [l[i]] with Python's negative indices; [None] is [IndexError]. *)
Definition py_nth {A} (l : list A) (i : Z) : option A :=
  if (0 <=? i)%Z then l !! Z.to_nat i
  else if (- Z.of_nat (length l) <=? i)%Z then l !! Z.to_nat (Z.of_nat (length l) + i)
  else None.

(** [l[off : off + n]] on a non-negative offset: short at the end of [l]. *)
Definition slice {A} (l : list A) (off n : Z) : list A :=
  take (Z.to_nat n) (drop (Z.to_nat off) l).

(** [range(a, b + 1)] *)
Definition Zrange (a b : Z) : list Z :=
  map (fun i => (a + Z.of_nat i)%Z) (seq 0 (Z.to_nat (b + 1 - a))).

(** Python's [list.sort(key=...)]: the stable sort for a total preorder
    [le]; [insert_by] puts an element before its equals, which follow it in
    the input. *)
Fixpoint insert_by {A} (le : A -> A -> bool) (x : A) (l : list A) : list A :=
  match l with
  | [] => [x]
  | y :: l' => if le x y then x :: y :: l' else y :: insert_by le x l'
  end.
Fixpoint sort_by {A} (le : A -> A -> bool) (l : list A) : list A :=
  match l with
  | [] => []
  | x :: l' => insert_by le x (sort_by le l')
  end.

(** [sorted(l)] on strings *)
Definition sorted_str (l : list string) : list string := sort_by str_leb l.

Fixpoint Zsum (l : list Z) : Z :=
  match l with
  | [] => 0
  | x :: l' => (x + Zsum l')%Z
  end.

(** ** Automation *)
Create HintDb py.
Create Rewrite HintDb py.

(** Split every [if] and [match] of the goal or of a hypothesis. *)
Ltac py_cases :=
  repeat (match goal with
          | |- context [decide ?P] => destruct (decide P)
          | H : context [decide ?P] |- _ => destruct (decide P)
          | |- context [if ?b then _ else _] => destruct b eqn:?
          | H : context [if ?b then _ else _] |- _ => destruct b eqn:?
          end; simplify_eq/=; try done).

(** Decide equalities of literals. *)
Ltac decide_lit :=
  repeat match goal with
         | |- context [decide (?a = ?b)] =>
             first [rewrite (decide_True (P := (a = b))) by reflexivity
                   |rewrite (decide_False (P := (a = b))) by discriminate]
         end.

(** Turn boolean comparisons into propositions that [lia] reads. *)
Ltac bool_to_prop :=
  repeat match goal with
         | H : _ && _ = true |- _ => apply andb_true_iff in H; destruct H
         | H : _ || _ = false |- _ => apply orb_false_iff in H; destruct H
         | H : negb _ = true |- _ => apply negb_true_iff in H
         | H : negb _ = false |- _ => apply negb_false_iff in H
         | H : (_ <=? _)%Z = true |- _ => apply Z.leb_le in H
         | H : (_ <=? _)%Z = false |- _ => apply Z.leb_gt in H
         | H : (_ <? _)%Z = true |- _ => apply Z.ltb_lt in H
         | H : (_ <? _)%Z = false |- _ => apply Z.ltb_ge in H
         | H : (_ =? _)%Z = true |- _ => apply Z.eqb_eq in H
         | H : (_ =? _)%Z = false |- _ => apply Z.eqb_neq in H
         | H : (_ <=? _)%nat = true |- _ => apply Nat.leb_le in H
         | H : (_ <=? _)%nat = false |- _ => apply Nat.leb_gt in H
         | H : (_ <? _)%nat = true |- _ => apply Nat.ltb_lt in H
         | H : (_ <? _)%nat = false |- _ => apply Nat.ltb_ge in H
         end.

(** ** Strings *)
#[global] Arguments String.append !_ _ / : simpl nomatch.

Lemma str_app_assoc (a b c : string) : (a +:+ b) +:+ c = a +:+ (b +:+ c).
Proof. induction a as [|x a IH]; [done|]. cbn. by f_equal. Qed.

Lemma str_app_nil_r (a : string) : a +:+ "" = a.
Proof. induction a as [|x a IH]; [done|]. cbn. by f_equal. Qed.

Lemma str_app_cons x (a b : string) : String x a +:+ b = String x (a +:+ b).
Proof. done. Qed.

Lemma str_app_inj_l (p a b : string) : p +:+ a = p +:+ b -> a = b.
Proof. induction p as [|x p IH]; [done|]. cbn. intros [= H]. by apply IH. Qed.

Lemma str_length_app (a b : string) :
  String.length (a +:+ b) = String.length a + String.length b.
Proof. induction a as [|x a IH]; [done|]. cbn. by f_equal. Qed.

Lemma startswith_app (p t : string) : startswith (p +:+ t) p = true.
Proof. induction p as [|x p IH]; [by destruct t|]. cbn. by rewrite decide_True. Qed.

Lemma startswith_spec (s p : string) :
  startswith s p = true <-> exists t, s = p +:+ t.
Proof.
  split; [|intros [t ->]; apply startswith_app].
  revert s. induction p as [|a p IH]; intros s H; [by exists s|].
  destruct s as [|b s]; [done|]. cbn in H. py_cases.
  destruct (IH _ H) as [t ->]. by exists t.
Qed.

Lemma startswith_refl (s : string) : startswith s s = true.
Proof. apply startswith_spec. exists "". by rewrite str_app_nil_r. Qed.

Lemma str_drop_app (p t : string) : str_drop (String.length p) (p +:+ t) = t.
Proof. induction p as [|x p IH]; [by destruct t|done]. Qed.

Lemma has_char_app c (a b : string) : has_char c (a +:+ b) = has_char c a || has_char c b.
Proof. induction a as [|x a IH]; [done|]. cbn. by destruct (decide (x = c)). Qed.

Lemma lstrip_no_lead c (s : string) : startswith (lstrip c s) (String c "") = false.
Proof.
  induction s as [|a s IH]; [done|]. cbn. case_decide as H; [done|].
  cbn. case_decide; [by subst|done].
Qed.

Lemma lstrip_id c (s : string) : startswith s (String c "") = false -> lstrip c s = s.
Proof. destruct s as [|a s]; [done|]. cbn. intros H. by py_cases. Qed.

Lemma lstrip_has_char c d (s : string) : has_char d (lstrip c s) = true -> has_char d s = true.
Proof. induction s as [|a s IH]; [done|]. cbn. intros H. py_cases; auto. Qed.

Lemma rstrip_id c (s : string) : has_char c s = false -> rstrip c s = s.
Proof.
  induction s as [|a s IH]; [done|]. cbn. intros H. case_decide; [done|].
  rewrite (IH H). by destruct s.
Qed.

Lemma rstrip_snoc c (s : string) : rstrip c (s +:+ String c "") = rstrip c s.
Proof.
  induction s as [|a s IH]; cbn; [by rewrite decide_True|].
  by rewrite IH.
Qed.

(** *** [split] and [join] *)
Lemma split_not_nil c s : split c s <> [].
Proof. destruct s as [|a s]; [done|]. cbn. case_decide; [done|]. by destruct (split c s). Qed.

Lemma join_cons sep p ps : ps <> [] -> join sep (p :: ps) = p +:+ sep +:+ join sep ps.
Proof. by destruct ps. Qed.

Lemma join_split c s : join (String c "") (split c s) = s.
Proof.
  induction s as [|a s IH]; [done|]. cbn.
  pose proof (split_not_nil c s) as Hne. case_decide as H.
  - subst. rewrite join_cons by done. cbn. by rewrite IH.
  - destruct (split c s) as [|p ps]; [done|].
    destruct ps; cbn in *; by f_equal.
Qed.

Lemma split_no_char c s : Forall (fun p => has_char c p = false) (split c s).
Proof.
  induction s as [|a s IH]; [by repeat constructor|]. cbn. case_decide as H.
  - by constructor.
  - destruct (split c s) as [|p ps]; [by repeat constructor; cbn; rewrite decide_False|].
    inversion IH; subst. constructor; [|done]. cbn. by rewrite decide_False.
Qed.

Lemma split_noop c s : has_char c s = false -> split c s = [s].
Proof.
  induction s as [|a s IH]; [done|]. cbn. case_decide; [done|]. intros Hs.
  by rewrite IH.
Qed.

Lemma split_app_sep c p s :
  has_char c p = false -> split c (p +:+ String c s) = p :: split c s.
Proof.
  induction p as [|a p IH]; cbn; [by rewrite decide_True|].
  case_decide; [done|]. intros Hp. by rewrite IH.
Qed.

Lemma split_app_slash (d r : string) :
  split slash (d +:+ "/" +:+ r) = split slash d ++ split slash r.
Proof.
  induction d as [|a d IH]; [done|]. cbn [String.append split].
  change (split slash (d +:+ String "/" r)) with (split slash (d +:+ "/" +:+ r)). rewrite IH.
  pose proof (split_not_nil slash d). case_decide; [done|]. by destruct (split slash d).
Qed.

Lemma split_join c ps :
  ps <> [] -> Forall (fun p => has_char c p = false) ps ->
  split c (join (String c "") ps) = ps.
Proof.
  induction ps as [|p ps IH]; [done|]. intros _ Hall.
  inversion Hall as [|? ? Hp Hps]; subst.
  destruct ps as [|q ps]; [by apply split_noop|].
  rewrite join_cons by done.
  change (String c "" +:+ join (String c "") (q :: ps))
    with (String c (join (String c "") (q :: ps))).
  by rewrite split_app_sep, IH.
Qed.

(** *** The order on strings *)
Lemma ascii_compare_refl a : Ascii.compare a a = Eq.
Proof. apply N.compare_refl. Qed.

Lemma str_compare_refl (a : string) : String.compare a a = Eq.
Proof. induction a as [|x a IH]; cbn; [done|]. by rewrite ascii_compare_refl. Qed.

Lemma str_compare_app (p a b : string) :
  String.compare (p +:+ a) (p +:+ b) = String.compare a b.
Proof. induction p as [|x p IH]; [done|]. cbn. by rewrite ascii_compare_refl. Qed.

Lemma str_ltb_app (p a b : string) : str_ltb (p +:+ a) (p +:+ b) = str_ltb a b.
Proof. unfold str_ltb, String.ltb. by rewrite str_compare_app. Qed.

Lemma str_leb_le s1 s2 : str_leb s1 s2 = true <-> String.le s1 s2.
Proof. unfold str_leb, String.le. by destruct (String.leb s1 s2). Qed.

Lemma str_ltb_leb s1 s2 : str_ltb s1 s2 = negb (str_leb s2 s1).
Proof.
  unfold str_ltb, str_leb, String.ltb, String.leb.
  rewrite (String.compare_antisym s2 s1). by destruct (String.compare s1 s2).
Qed.

Lemma str_leb_refl s : str_leb s s = true.
Proof. apply str_leb_le. reflexivity. Qed.

Lemma str_leb_trans s1 s2 s3 :
  str_leb s1 s2 = true -> str_leb s2 s3 = true -> str_leb s1 s3 = true.
Proof. rewrite !str_leb_le. apply transitivity. Qed.

Lemma str_leb_total s1 s2 : str_leb s1 s2 = true \/ str_leb s2 s1 = true.
Proof. apply String.leb_total. Qed.

Lemma str_leb_antisym s1 s2 : str_leb s1 s2 = true -> str_leb s2 s1 = true -> s1 = s2.
Proof. apply String.leb_antisym. Qed.

Lemma str_lt_irrefl s : ~ str_lt s s.
Proof. unfold str_lt. by rewrite str_ltb_leb, str_leb_refl. Qed.

(** A list sorted by a key is determined by its keys. *)
Lemma sorted_inj {A} (f : A -> string) l x y :
  StronglySorted (fun a b => str_lt (f a) (f b)) l -> x ∈ l -> y ∈ l -> f x = f y -> x = y.
Proof.
  induction 1 as [|a l Hl IH Ha]; intros Hx Hy E; [by apply elem_of_nil in Hx|].
  rewrite Forall_forall in Ha.
  apply elem_of_cons in Hx as [->|Hx]; apply elem_of_cons in Hy as [->|Hy]; [done| | |auto].
  - specialize (Ha _ Hy). rewrite E in Ha. by apply str_lt_irrefl in Ha.
  - specialize (Ha _ Hx). rewrite E in Ha. by apply str_lt_irrefl in Ha.
Qed.

Lemma str_lt_leb s1 s2 : str_lt s1 s2 -> str_leb s1 s2 = true.
Proof.
  unfold str_lt. rewrite str_ltb_leb. intros H%negb_true_iff.
  destruct (str_leb_total s1 s2); congruence.
Qed.

Lemma str_lt_trans s1 s2 s3 : str_lt s1 s2 -> str_lt s2 s3 -> str_lt s1 s3.
Proof.
  intros H1 H2. unfold str_lt in *. rewrite str_ltb_leb in *.
  rewrite negb_true_iff in *. destruct (str_leb s3 s1) eqn:E; [|done].
  rewrite <- H2. symmetry. apply str_leb_trans with s1; [done|].
  apply str_lt_leb. unfold str_lt. by rewrite str_ltb_leb, H1.
Qed.

Lemma str_lt_trichotomy s1 s2 : str_lt s1 s2 \/ s1 = s2 \/ str_lt s2 s1.
Proof.
  unfold str_lt. rewrite !str_ltb_leb.
  destruct (str_leb s1 s2) eqn:E1, (str_leb s2 s1) eqn:E2; auto.
  right; left. by apply str_leb_antisym.
Qed.

Lemma str_leb_not_lt s1 s2 : str_leb s1 s2 = true -> ~ str_lt s2 s1.
Proof. unfold str_lt. rewrite str_ltb_leb. intros ->. done. Qed.
Lemma str_lt_leb_trans s1 s2 s3 : str_lt s1 s2 -> str_leb s2 s3 = true -> str_lt s1 s3.
Proof.
  intros H12 H23. destruct (str_lt_trichotomy s2 s3) as [H|[<-|H]]; [by eapply str_lt_trans|done|].
  by destruct (str_leb_not_lt _ _ H23).
Qed.
Lemma str_leb_lt_trans s1 s2 s3 : str_leb s1 s2 = true -> str_lt s2 s3 -> str_lt s1 s3.
Proof.
  intros H12 H23. destruct (str_lt_trichotomy s1 s2) as [H|[->|H]]; [by eapply str_lt_trans|done|].
  by destruct (str_leb_not_lt _ _ H12).
Qed.
#[export] Instance str_lt_Transitive : Transitive str_lt.
Proof. exact str_lt_trans. Qed.

(** ** Stable sorting *)
Section sort_by.
Context {A : Type} (le : A -> A -> bool).
Hypothesis le_total : forall x y, le x y = true \/ le y x = true.
Hypothesis le_trans : forall x y z, le x y = true -> le y z = true -> le x z = true.

Lemma insert_by_perm x l : insert_by le x l ≡ₚ x :: l.
Proof using Type.
  induction l as [|y l IH]; [done|]. cbn. destruct (le x y); [done|].
  rewrite IH. apply Permutation_swap.
Qed.

Lemma sort_by_perm l : sort_by le l ≡ₚ l.
Proof using Type. induction l as [|x l IH]; [done|]. cbn. by rewrite insert_by_perm, IH. Qed.

Lemma insert_by_sorted x l :
  StronglySorted (fun a b => le a b = true) l ->
  StronglySorted (fun a b => le a b = true) (insert_by le x l).
Proof using le_total le_trans.
  induction 1 as [|y l Hl IH Hy]; cbn; [repeat constructor|].
  destruct (le x y) eqn:E.
  - constructor; [by constructor|]. constructor; [done|].
    eapply Forall_impl; [exact Hy|]. intros z Hz. cbn in Hz. eauto.
  - constructor; [done|]. rewrite insert_by_perm. constructor; [|done].
    destruct (le_total x y); congruence.
Qed.

Lemma sort_by_sorted l : StronglySorted (fun a b => le a b = true) (sort_by le l).
Proof using le_total le_trans.
  induction l as [|x l IH]; [constructor|]. by apply insert_by_sorted.
Qed.

(** Elements that compare equal to [k] keep their relative order. *)
Lemma insert_by_stable k x l :
  StronglySorted (fun a b => le a b = true) l ->
  filter (fun y => le k y && le y k = true) (insert_by le x l) =
  filter (fun y => le k y && le y k = true) (x :: l).
Proof using le_total le_trans.
  induction 1 as [|y l Hl IH Hy]; [done|]. cbn [insert_by].
  destruct (le x y) eqn:E; [done|].
  rewrite filter_cons, IH, !filter_cons. repeat case_decide; try done.
  exfalso. bool_to_prop.
  assert (le x y = true) by eauto. congruence.
Qed.

Lemma sort_by_stable k l :
  filter (fun y => le k y && le y k = true) (sort_by le l) =
  filter (fun y => le k y && le y k = true) l.
Proof using le_total le_trans.
  induction l as [|x l IH]; [done|]. cbn [sort_by].
  rewrite insert_by_stable by apply sort_by_sorted.
  rewrite !filter_cons. by rewrite IH.
Qed.
End sort_by.

Lemma sorted_str_perm l : sorted_str l ≡ₚ l.
Proof. apply sort_by_perm. Qed.

Lemma sorted_str_sorted l : StronglySorted (fun a b => str_leb a b = true) (sorted_str l).
Proof. apply sort_by_sorted; [apply str_leb_total|apply str_leb_trans]. Qed.

(** Without duplicates the order is strict. *)
Lemma sorted_leb_lt l :
  NoDup l -> StronglySorted (fun a b => str_leb a b = true) l -> StronglySorted str_lt l.
Proof.
  intros Hnd. induction 1 as [|x l Hl IH Hx]; [constructor|].
  apply NoDup_cons in Hnd as [Hni Hnd]. constructor; [auto|].
  rewrite Forall_forall in Hx |- *. intros y Hy.
  destruct (str_lt_trichotomy x y) as [Hlt|[->|Hlt]]; [done|done|].
  destruct Hni. rewrite (str_leb_antisym x y); auto using str_lt_leb.
Qed.

Lemma sorted_str_strict l : NoDup l -> StronglySorted str_lt (sorted_str l).
Proof.
  intros Hnd. apply sorted_leb_lt; [|apply sorted_str_sorted]. by rewrite sorted_str_perm.
Qed.

(** ** Slices and ranges *)
Lemma length_slice {A} (l : list A) off n :
  length (slice l off n) = Z.to_nat n `min` (length l - Z.to_nat off).
Proof. unfold slice. rewrite length_take, length_drop. lia. Qed.

Lemma slice_nonpos {A} (l : list A) off n : (n <= 0)%Z -> slice l off n = [].
Proof. intros H. unfold slice. by replace (Z.to_nat n) with 0%nat by lia. Qed.

(** A slice beyond the end is empty. *)
Lemma slice_past {A} (l : list A) off n :
  (Z.of_nat (length l) <= off)%Z -> slice l off n = [].
Proof. intros H. unfold slice. rewrite drop_ge by lia. apply take_nil. Qed.

(** Only the part before the end of [l] matters. *)
Lemma slice_clamp {A} (l : list A) off n :
  (0 <= off)%Z ->
  slice l off n = slice l off (Z.min n (Z.of_nat (length l) - off)).
Proof.
  intros H. unfold slice.
  destruct (decide (n <= Z.of_nat (length l) - off)%Z); [by rewrite Z.min_l|].
  rewrite Z.min_r by lia. rewrite !take_ge; rewrite ?length_drop; try lia. done.
Qed.

(** Consecutive slices concatenate. *)
Lemma slice_app {A} (l : list A) off n m :
  (0 <= off)%Z -> (0 <= n)%Z -> (0 <= m)%Z ->
  slice l off n ++ slice l (off + n) m = slice l off (n + m).
Proof.
  intros Ho Hn Hm. unfold slice.
  rewrite (Z2Nat.inj_add n m), (Z2Nat.inj_add off n) by lia.
  by rewrite <- take_take_drop, drop_drop.
Qed.

(** A slice of a slice. *)
Lemma slice_slice {A} (l : list A) off n off' n' :
  (0 <= off)%Z -> (0 <= off')%Z -> (off' + n' <= n)%Z ->
  slice (slice l off n) off' n' = slice l (off + off') n'.
Proof.
  intros Ho Ho' Hn. unfold slice.
  rewrite skipn_firstn_comm, drop_drop, take_take.
  rewrite (Z2Nat.inj_add off off') by lia. f_equal. lia.
Qed.

Lemma elem_of_Zrange a b i : i ∈ Zrange a b <-> (a <= i <= b)%Z.
Proof.
  unfold Zrange. rewrite list_elem_of_fmap. setoid_rewrite elem_of_seq. split.
  - intros (j & -> & Hj). lia.
  - intros H. exists (Z.to_nat (i - a)). lia.
Qed.

Lemma Zrange_nil a b : (b < a)%Z -> Zrange a b = [].
Proof. intros H. unfold Zrange. by replace (Z.to_nat (b + 1 - a)) with 0%nat by lia. Qed.

Lemma Zrange_cons a b : (a <= b)%Z -> Zrange a b = a :: Zrange (a + 1) b.
Proof.
  intros H. unfold Zrange.
  replace (Z.to_nat (b + 1 - a)) with (S (Z.to_nat (b + 1 - (a + 1)))) by lia.
  cbn [seq map]. f_equal; [lia|]. rewrite <- seq_shift, map_map.
  apply map_ext. intros. lia.
Qed.

Lemma NoDup_Zrange a b : NoDup (Zrange a b).
Proof. apply NoDup_fmap; [intros ?? ?; lia|apply NoDup_seq]. Qed.

Lemma Zsum_app l1 l2 : Zsum (l1 ++ l2) = (Zsum l1 + Zsum l2)%Z.
Proof. induction l1 as [|x l1 IH]; cbn; lia. Qed.

Lemma Zsum_perm l1 l2 : l1 ≡ₚ l2 -> Zsum l1 = Zsum l2.
Proof. induction 1; cbn; lia. Qed.

Lemma Zsum_nonneg l : Forall (fun x => 0 <= x)%Z l -> (0 <= Zsum l)%Z.
Proof. induction 1; cbn; lia. Qed.

#[export] Hint Resolve str_leb_refl str_leb_trans str_leb_total str_lt_leb : py.
#[export] Hint Rewrite str_app_assoc str_app_nil_r : py.

(** ** Chains of a deterministic relation *)
Definition deterministic {A} (R : relation A) : Prop := forall a b b', R a b -> R a b' -> b = b'.

Section Deterministic.
Context {A : Type} `{Countable A} (R : relation A) (HR : deterministic R).

Lemma nsteps_split n m a b c : n <= m -> nsteps R n a b -> nsteps R m a c -> nsteps R (m - n) b c.
Proof using HR.
  intros Hle Hn. revert m Hle. induction Hn as [a|n a x b Hl Hn IH]; intros m Hle Hm.
  - by rewrite Nat.sub_0_r.
  - destruct Hm as [|m a' x' c Hl' Hm]; [lia|]. rewrite (HR _ _ _ Hl' Hl) in Hm. apply IH; [lia|done].
Qed.

(** A node on a cycle reaches no normal form. *)
Lemma cycle_not_nf k a n q : nsteps R (S k) a a -> nsteps R n a q -> ~ nf R q.
Proof using HR.
  intros Hcyc. induction (lt_wf n) as [n _ IH]. intros Hn Hq.
  destruct (le_lt_dec (S k) n) as [Hle|Hlt].
  - apply (IH (n - S k)); [lia| |done]. by apply (nsteps_split (S k) n a).
  - pose proof (nsteps_split n (S k) a q a ltac:(lia) Hn Hcyc) as Hs.
    destruct (S k - n) as [|d] eqn:E; [lia|]. inversion Hs. apply Hq. by eexists.
Qed.

(** Each visited node leads to the current one. *)
Definition visited_ok (visited : gset A) (cur : A) : Prop :=
  forall v, v ∈ visited -> exists k, nsteps R (S k) v cur.

Lemma visited_step visited cur nxt : visited_ok visited cur -> R cur nxt -> visited_ok ({[cur]} ∪ visited) nxt.
Proof using Type.
  intros Hvis Hl v [->%elem_of_singleton|Hv]%elem_of_union.
  - exists 0. econstructor; [exact Hl|constructor].
  - destruct (Hvis v Hv) as [k Hk]. exists (S k). replace (S (S k)) with (S k + 1) by lia.
    eapply nsteps_trans; [exact Hk|]. by apply nsteps_once.
Qed.
Lemma visited_cycle visited cur : visited_ok visited cur -> cur ∈ visited -> forall n q, nsteps R n cur q -> ~ nf R q.
Proof using HR. intros Hvis Hv n q Hn. destruct (Hvis cur Hv) as [k Hk]. by eapply cycle_not_nf. Qed.
End Deterministic.
