(* ===== verification/PyDict.v ===== *)
(** * Python dictionaries

    A [dict] with [str] keys keeps its insertion order, so it is an
    association list that binds each key once.  The lemmas relate the
    operations to lookup, as for finite maps. *)
From S2P Require Import Prelude.

(** ** Definitions *)
Section PyDict.
Context {V : Type}.
Implicit Types (d : list (string * V)) (k : string) (v : V).

(** [d.get(k)] *)
Fixpoint dget (d : list (string * V)) (k : string) : option V :=
  match d with
  | [] => None
  | (k', v) :: d' => if decide (k = k') then Some v else dget d' k
  end.
(** [k in d] *)
Definition dmem d k : bool := match dget d k with Some _ => true | None => false end.
(** [d[k] = v] keeps the place of an existing key *)
Fixpoint dset (d : list (string * V)) (k : string) (v : V) : list (string * V) :=
  match d with
  | [] => [(k, v)]
  | (k', v') :: d' => if decide (k = k') then (k', v) :: d' else (k', v') :: dset d' k v
  end.
(** [del d[k]] of a present key *)
Definition ddel d k : list (string * V) := filter (fun kv => kv.1 <> k) d.
(** [d.update(e)] *)
Definition dupdate d (e : list (string * V)) : list (string * V) :=
  fold_left (fun d kv => dset d kv.1 kv.2) e d.
(** [d[m.key] = m for m in ms] *)
Definition dset_all d (f : V -> string) (l : list V) : list (string * V) :=
  fold_left (fun d v => dset d (f v) v) l d.

Definition wf_dict d : Prop := NoDup d.*1.

(** ** Lemmas *)
Lemma dget_dset d k v k' : dget (dset d k v) k' = if decide (k' = k) then Some v else dget d k'.
Proof.
  induction d as [|[q w] d IH]; cbn; [done|].
  destruct (decide (k = q)) as [->|Hq]; cbn.
  - by destruct (decide (k' = q)).
  - rewrite IH. destruct (decide (k' = q)), (decide (k' = k)); congruence.
Qed.

Lemma dget_ddel d k k' : dget (ddel d k) k' = if decide (k' = k) then None else dget d k'.
Proof.
  unfold ddel. induction d as [|[q w] d IH]; [by case_decide|]. rewrite filter_cons. cbn [fst].
  destruct (decide (q <> k)) as [Hq|Hq]; cbn.
  - rewrite IH. destruct (decide (k' = q)), (decide (k' = k)); congruence.
  - rewrite IH. destruct (decide (k' = q)), (decide (k' = k)); try done. subst. by destruct Hq.
Qed.

Lemma dset_fst d k v : (dset d k v).*1 = if bool_decide (k ∈ d.*1) then d.*1 else d.*1 ++ [k].
Proof.
  induction d as [|[q w] d IH]; [done|]. cbn [dset].
  destruct (decide (k = q)) as [->|Hq]; rewrite !fmap_cons.
  - by rewrite bool_decide_eq_true_2 by (cbn; set_solver).
  - rewrite IH. cbn [fst]. rewrite (bool_decide_ext (k ∈ q :: d.*1) (k ∈ d.*1)) by set_solver.
    by case_bool_decide.
Qed.

Lemma wf_dset d k v : wf_dict d -> wf_dict (dset d k v).
Proof.
  unfold wf_dict. rewrite dset_fst. intros H. case_bool_decide as Hk; [done|].
  apply NoDup_app. split_and!; [done|set_solver|]. apply NoDup_singleton.
Qed.

Lemma wf_ddel d k : wf_dict d -> wf_dict (ddel d k).
Proof.
  unfold wf_dict, ddel. induction d as [|x d IH]; [done|]. rewrite fmap_cons.
  intros [Hx Hd]%NoDup_cons. rewrite filter_cons. case_decide; [|auto].
  rewrite fmap_cons. apply NoDup_cons. split; [|auto].
  intros (y & Hy & Hin)%list_elem_of_fmap. apply list_elem_of_filter in Hin as [_ Hin].
  apply Hx. rewrite Hy. by apply list_elem_of_fmap_2.
Qed.

Lemma dget_Some d k v : dget d k = Some v -> (k, v) ∈ d.
Proof.
  induction d as [|[q w] d IH]; cbn; [done|].
  destruct (decide (k = q)) as [->|]; [intros [= ->]; left|intros H; right; auto].
Qed.

Lemma elem_of_dget d k v : wf_dict d -> (k, v) ∈ d <-> dget d k = Some v.
Proof.
  intros Hd. split; [|apply dget_Some]. unfold wf_dict in Hd.
  induction d as [|[q w] d IH]; cbn; [by intros ?%elem_of_nil|].
  apply NoDup_cons in Hd as [Hq Hd]. intros [[= -> ->]|Hin]%elem_of_cons; [by rewrite decide_True|].
  rewrite decide_False; [auto|]. intros ->. apply Hq. by apply (list_elem_of_fmap_2 fst) in Hin.
Qed.

Lemma dget_None d k : dget d k = None <-> k ∉ d.*1.
Proof.
  induction d as [|[q w] d IH]; cbn; [split; [intros _ ?%elem_of_nil|]; done|].
  destruct (decide (k = q)) as [->|]; [split; [done|set_solver]|]. rewrite IH. set_solver.
Qed.

Lemma dmem_true d k : dmem d k = true <-> k ∈ d.*1.
Proof.
  unfold dmem. destruct (dget d k) eqn:E.
  - split; [intros _|done]. destruct (decide (k ∈ d.*1)) as [|Hn]; [done|].
    apply dget_None in Hn. congruence.
  - apply dget_None in E. by split.
Qed.

(** Later bindings of an update win. *)
Lemma dget_dupdate d e k :
  wf_dict e -> dget (dupdate d e) k = match dget e k with Some v => Some v | None => dget d k end.
Proof.
  unfold dupdate, wf_dict. revert d. induction e as [|[q w] e IH]; intros d; cbn; [done|].
  intros [Hq He]%NoDup_cons. rewrite IH by done. rewrite dget_dset.
  destruct (decide (k = q)) as [->|]; [|done].
  by rewrite (proj2 (dget_None e q)).
Qed.

Lemma wf_dupdate d e : wf_dict d -> wf_dict (dupdate d e).
Proof.
  unfold dupdate. revert d. induction e as [|[q w] e IH]; intros d Hd; [done|].
  cbn. apply IH. by apply wf_dset.
Qed.

Lemma wf_dset_all d f l : wf_dict d -> wf_dict (dset_all d f l).
Proof.
  unfold dset_all. revert d. induction l as [|v l IH]; intros d Hd; [done|].
  cbn. apply IH. by apply wf_dset.
Qed.

Lemma dset_fresh d k v : k ∉ d.*1 -> dset d k v = d ++ [(k, v)].
Proof.
  induction d as [|[q w] d IH]; [done|]. cbn. intros H.
  rewrite decide_False by set_solver. f_equal. apply IH. set_solver.
Qed.

(** Loading distinct keys into an empty dictionary keeps their order. *)
Lemma dset_all_fresh f l : NoDup (map f l) -> dset_all [] f l = map (fun v => (f v, v)) l.
Proof.
  intros Hl. unfold dset_all.
  assert (forall d, NoDup (d.*1 ++ map f l) ->
    fold_left (fun d v => dset d (f v) v) l d = d ++ map (fun v => (f v, v)) l) as H;
    [|by apply (H [])].
  clear Hl. induction l as [|v l IH]; intros d Hd; cbn; [by rewrite app_nil_r|].
  rewrite dset_fresh.
  2:{ apply NoDup_app in Hd as (_ & H & _). intros Hin. apply (H _ Hin). cbn. set_solver. }
  rewrite IH, <- app_assoc; [done|]. rewrite fmap_app, <- app_assoc. exact Hd.
Qed.
End PyDict.
#[export] Hint Resolve wf_dset wf_ddel wf_dupdate wf_dset_all : py.
