(* ===== verification/PyPath.v ===== *)
(** * [posixpath] (the [os.path] of the platforms the client runs on)

    The functions of Python's [posixpath] that the client calls: [join],
    [dirname], [basename], [isabs], [splitext], [normpath] and [relpath], on
    the component lists that [split "/"] gives.  [relpath] needs the current
    directory, which is an argument. *)
From S2P Require Import Prelude.

(** ** Definitions *)

(** [posixpath.isabs] *)
Definition isabs (p : string) : bool := startswith p "/".

(** [p.endswith("/")] for the one-character suffix *)
Fixpoint ends_slash (p : string) : bool :=
  match p with
  | EmptyString => false
  | String a EmptyString => bool_decide (a = slash)
  | String _ p' => ends_slash p'
  end.

(** [posixpath.join(a, b)] *)
Definition path_join (a b : string) : string :=
  if isabs b then b
  else if bool_decide (a = "") || ends_slash a then a +:+ b
  else a +:+ "/" +:+ b.

(** [p.rfind("/") + 1] as a split: the part up to and including the last
    slash, and the rest. *)
Fixpoint rsplit_slash (p : string) : string * string :=
  match p with
  | EmptyString => (EmptyString, EmptyString)
  | String a p' =>
      let '(h, t) := rsplit_slash p' in
      if bool_decide (h = "") then
        if bool_decide (a = slash) then (String a EmptyString, t) else (EmptyString, String a t)
      else (String a h, t)
  end.

(** [posixpath.basename] *)
Definition basename (p : string) : string := (rsplit_slash p).2.

(** [posixpath.dirname]: trailing slashes go unless the head is all slashes *)
Definition dirname (p : string) : string :=
  let head := (rsplit_slash p).1 in
  if bool_decide (rstrip slash head = "") then head else rstrip slash head.

(** The component loop of [posixpath.normpath]; [acc] is [new_comps] reversed. *)
Fixpoint norm_comps (absolute : bool) (comps acc : list string) : list string :=
  match comps with
  | [] => reverse acc
  | c :: cs =>
      if bool_decide (c = "") || bool_decide (c = ".") then norm_comps absolute cs acc
      else if negb (bool_decide (c = ".."))
              || (negb absolute && bool_decide (acc = []))
              || bool_decide (head acc = Some "..")
           then norm_comps absolute cs (c :: acc)
           else norm_comps absolute cs (tail acc)
  end.

(** Leading slashes kept by [normpath]: POSIX keeps exactly two *)
Definition initial_slashes (p : string) : string :=
  if startswith p "//" && negb (startswith p "///") then "//"
  else if startswith p "/" then "/"
  else "".

(** [posixpath.normpath] *)
Definition normpath (p : string) : string :=
  if bool_decide (p = "") then "."
  else
    let init := initial_slashes p in
    let q := init +:+ join "/" (norm_comps (negb (bool_decide (init = ""))) (split slash p) []) in
    if bool_decide (q = "") then "." else q.

(** [posixpath.abspath] under the current directory [cwd] *)
Definition abspath (cwd p : string) : string :=
  normpath (if isabs p then p else path_join cwd p).

(** [[x for x in p.split("/") if x]] *)
Definition components (p : string) : list string :=
  filter (fun c => c <> "") (split slash p).

(** Length of the longest common prefix of two component lists *)
Fixpoint common_len (l1 l2 : list string) : nat :=
  match l1, l2 with
  | x :: l1', y :: l2' => if bool_decide (x = y) then S (common_len l1' l2') else 0
  | _, _ => 0
  end.

(** [posixpath.relpath(path, start)]; an empty [path] is a [ValueError] *)
Definition relpath (cwd path start : string) : res string :=
  if bool_decide (path = "") then Err ValueError
  else
    let start_list := components (abspath cwd start) in
    let path_list := components (abspath cwd path) in
    let i := common_len start_list path_list in
    let rel_list := replicate (length start_list - i) ".." ++ drop i path_list in
    Ok (if bool_decide (rel_list = []) then "." else join "/" rel_list).

(** The extension [posixpath.splitext] returns, of a final component: the
    part from the last dot, unless only dots precede it. *)
Fixpoint rsplit_dot (p : string) : option (string * string) :=
  match p with
  | EmptyString => None
  | String a p' =>
      match rsplit_dot p' with
      | Some (h, t) => Some (String a h, t)
      | None => if bool_decide (a = dot) then Some (EmptyString, p) else None
      end
  end.
Definition splitext_ext (p : string) : string :=
  match rsplit_dot (basename p) with
  | Some (h, t) => if bool_decide (lstrip dot h = "") then "" else t
  | None => ""
  end.

(** A component that [normpath] keeps as it is. *)
Definition clean (c : string) : bool :=
  negb (has_char slash c) && negb (bool_decide (c = "")) &&
  negb (bool_decide (c = ".")) && negb (bool_decide (c = "..")).

(** A relative path in normal form without parent references: the logical
    keys of objects. *)
Definition clean_path (p : string) : bool := forallb clean (split slash p).

(** ** Lemmas *)
Lemma clean_spec c :
  clean c = true <-> has_char slash c = false /\ c <> "" /\ c <> "." /\ c <> "..".
Proof.
  unfold clean. rewrite !andb_true_iff, !negb_true_iff, !bool_decide_eq_false. tauto.
Qed.

Lemma forallb_clean cs : forallb clean cs = true <-> Forall (fun c => clean c = true) cs.
Proof. rewrite forallb_forall, Forall_forall. by setoid_rewrite list_elem_of_In. Qed.

Lemma clean_no_slash cs :
  Forall (fun c => clean c = true) cs -> Forall (fun c => has_char slash c = false) cs.
Proof. intros H. eapply Forall_impl; [exact H|]. intros c Hc. by apply clean_spec in Hc as []. Qed.

Lemma split_join_clean cs :
  cs <> [] -> Forall (fun c => clean c = true) cs -> split slash (join "/" cs) = cs.
Proof. intros Hne H. apply split_join; [done|by apply clean_no_slash]. Qed.

Lemma join_inj_clean cs ds :
  cs <> [] -> ds <> [] ->
  Forall (fun c => clean c = true) cs -> Forall (fun c => clean c = true) ds ->
  join "/" cs = join "/" ds -> cs = ds.
Proof.
  intros ???? H. by rewrite <- (split_join_clean cs), <- (split_join_clean ds), H.
Qed.

Lemma clean_path_join p :
  clean_path p = true -> exists cs,
    cs <> [] /\ Forall (fun c => clean c = true) cs /\ p = join "/" cs.
Proof.
  intros H. exists (split slash p). unfold clean_path in H.
  rewrite forallb_clean in H. split; [apply split_not_nil|].
  split; [done|]. symmetry. apply join_split.
Qed.

(** Clean components are pushed one by one. *)
Lemma norm_comps_clean absolute cs rest acc :
  Forall (fun c => clean c = true) cs ->
  norm_comps absolute (cs ++ rest) acc = norm_comps absolute rest (reverse cs ++ acc).
Proof.
  intros H. revert acc. induction H as [|c cs Hc Hcs IH]; intros acc; [done|].
  apply clean_spec in Hc as (_ & H1 & H2 & H3). cbn [app norm_comps].
  rewrite !(bool_decide_eq_false_2 _ H1), !(bool_decide_eq_false_2 _ H2),
    !(bool_decide_eq_false_2 _ H3). cbn [orb negb].
  rewrite IH, reverse_cons, <- app_assoc. done.
Qed.

Lemma norm_comps_clean_nil absolute cs :
  Forall (fun c => clean c = true) cs -> norm_comps absolute cs [] = cs.
Proof.
  intros H. pose proof (norm_comps_clean absolute cs [] [] H) as E.
  rewrite !app_nil_r in E. rewrite E. cbn. by rewrite reverse_involutive.
Qed.

(** Each [".."] pops one clean component. *)
Lemma norm_comps_dotdot absolute cs rest acc :
  Forall (fun c => clean c = true) cs ->
  norm_comps absolute (replicate (length cs) ".." ++ rest) (cs ++ acc) =
  norm_comps absolute rest acc.
Proof.
  induction 1 as [|c cs Hc Hcs IH]; [done|].
  apply clean_spec in Hc as (_ & _ & _ & H3).
  cbn [length replicate app norm_comps head tail].
  rewrite (bool_decide_eq_false_2 (Some c = Some "..")) by congruence.
  rewrite (bool_decide_eq_false_2 (c :: cs ++ acc = [])) by done.
  rewrite andb_false_r. exact IH.
Qed.

Lemma join_not_nil cs : cs <> [] -> Forall (fun c => clean c = true) cs -> join "/" cs <> "".
Proof.
  intros Hne H. destruct H as [|c cs Hc Hcs]; [done|].
  apply clean_spec in Hc as (_ & Hc & _). destruct cs; cbn; [done|].
  by destruct c.
Qed.

Lemma join_not_abs cs : Forall (fun c => clean c = true) cs -> isabs (join "/" cs) = false.
Proof.
  intros H. destruct H as [|c cs Hc Hcs]; [done|].
  apply clean_spec in Hc as (Hs & Hc & _). unfold isabs.
  destruct c as [|a c]; [done|]. cbn in Hs.
  destruct cs; cbn; py_cases; by destruct (decide (a = slash)).
Qed.

Lemma initial_slashes_rel p : isabs p = false -> initial_slashes p = "".
Proof.
  unfold isabs, initial_slashes. destruct p as [|a p]; [done|].
  cbn [startswith]. intros H. by py_cases.
Qed.

(** A clean relative path is its own normal form. *)
Lemma normpath_join comps cs :
  cs <> [] -> Forall (fun c => clean c = true) cs ->
  forall p, p <> "" -> isabs p = false -> split slash p = comps ->
  norm_comps false comps [] = cs -> normpath p = join "/" cs.
Proof.
  intros Hne Hcs p Hp Habs Hsplit Hn. unfold normpath.
  rewrite (bool_decide_eq_false_2 (p = "")) by done.
  rewrite initial_slashes_rel by done.
  rewrite (bool_decide_eq_true_2 ("" = "")) by done. cbn [negb]. rewrite Hsplit, Hn.
  change ("" +:+ join "/" cs) with (join "/" cs).
  rewrite bool_decide_eq_false_2 by (by apply join_not_nil). done.
Qed.

Lemma normpath_clean p : clean_path p = true -> normpath p = p.
Proof.
  intros (cs & Hne & Hcs & ->)%clean_path_join.
  eapply (normpath_join cs);
    auto using join_not_nil, join_not_abs, split_join_clean, norm_comps_clean_nil.
Qed.

Lemma common_len_app l k1 k2 :
  common_len (l ++ k1) (l ++ k2) = length l + common_len k1 k2.
Proof. induction l as [|x l IH]; [done|]. cbn. rewrite bool_decide_eq_true_2 by done. by rewrite IH. Qed.

Lemma common_len_take l1 l2 : take (common_len l1 l2) l1 = take (common_len l1 l2) l2.
Proof.
  revert l2. induction l1 as [|x l1 IH]; intros [|y l2]; [done..|]. cbn.
  case_bool_decide; [|done]. subst. cbn. by rewrite IH.
Qed.

Lemma common_len_le_l l1 l2 : common_len l1 l2 <= length l1.
Proof.
  revert l2. induction l1 as [|x l1 IH]; intros [|y l2]; cbn; try lia.
  case_bool_decide; [|lia]. specialize (IH l2). lia.
Qed.

Lemma join_app_slash ps cs :
  ps <> [] -> cs <> [] -> join "/" (ps ++ cs) = join "/" ps +:+ "/" +:+ join "/" cs.
Proof.
  intros Hps Hcs. induction ps as [|p ps IH]; [done|].
  destruct ps as [|q ps]; [by destruct cs|].
  change ((p :: q :: ps) ++ cs) with (p :: ((q :: ps) ++ cs)).
  rewrite !join_cons by done. rewrite IH by done. by rewrite !str_app_assoc.
Qed.

(** [rsplit_slash] on a last component without slashes. *)
Lemma rsplit_slash_base b : has_char slash b = false -> rsplit_slash b = ("", b).
Proof.
  induction b as [|a b IH]; [done|]. cbn. case_decide; [done|]. intros Hb.
  rewrite IH by done. rewrite bool_decide_eq_true_2 by done.
  by rewrite bool_decide_eq_false_2.
Qed.

Lemma rsplit_slash_app d b :
  has_char slash b = false -> rsplit_slash (d +:+ "/" +:+ b) = (d +:+ "/", b).
Proof.
  intros Hb. induction d as [|a d IH].
  - cbn. rewrite rsplit_slash_base by done. rewrite bool_decide_eq_true_2 by done.
    by rewrite bool_decide_eq_true_2.
  - rewrite str_app_cons. cbn [rsplit_slash]. rewrite IH.
    rewrite bool_decide_eq_false_2 by (by destruct d). done.
Qed.

Lemma basename_app d b : has_char slash b = false -> basename (d +:+ "/" +:+ b) = b.
Proof. intros Hb. unfold basename. by rewrite rsplit_slash_app. Qed.

Lemma basename_no_slash b : has_char slash b = false -> basename b = b.
Proof. intros Hb. unfold basename. by rewrite rsplit_slash_base. Qed.

Lemma rsplit_slash_spec p :
  p = (rsplit_slash p).1 +:+ (rsplit_slash p).2 /\
  has_char slash (rsplit_slash p).2 = false /\
  ((rsplit_slash p).1 = "" \/ ends_slash (rsplit_slash p).1 = true).
Proof.
  induction p as [|a p (IH1 & IH2 & IH3)]; [by repeat split; left|].
  cbn. destruct (rsplit_slash p) as [h t]. cbn in *. case_bool_decide as Hh.
  - subst h. cbn in IH1. subst t. case_bool_decide as Ha; cbn; [subst|].
    + repeat split; [done|]. by right.
    + rewrite decide_False by done. repeat split; [done|]. by left.
  - cbn. rewrite IH1 at 1. repeat split; [done|]. right.
    destruct IH3 as [|IH3]; [done|]. by destruct h.
Qed.

Lemma basename_no_char p : has_char slash (basename p) = false.
Proof. apply rsplit_slash_spec. Qed.

Lemma ends_slash_snoc d : ends_slash (d +:+ "/") = true.
Proof.
  induction d as [|a d IH]; [done|]. cbn. destruct d; [done|]. exact IH.
Qed.

Lemma ends_slash_inv d : ends_slash d = true -> exists d', d = d' +:+ "/".
Proof.
  induction d as [|a d IH]; [done|]. cbn. destruct d as [|b d].
  - intros H%bool_decide_eq_true. subst. by exists "".
  - intros H. destruct (IH H) as [d' Hd]. exists (String a d'). cbn. by rewrite Hd.
Qed.

Lemma rstrip_app c a b : b <> "" -> has_char c b = false -> rstrip c (a +:+ b) = a +:+ b.
Proof.
  intros Hb Hc. induction a as [|x a IH]; cbn; [by apply rstrip_id|]. rewrite IH.
  destruct (a +:+ b) eqn:E; [|done]. destruct a; [by cbn in E|done].
Qed.
Lemma ends_slash_app a b : b <> "" -> has_char slash b = false -> ends_slash (a +:+ b) = false.
Proof.
  intros Hb Hc. destruct (ends_slash (a +:+ b)) eqn:E; [|done]. exfalso. destruct (ends_slash_inv _ E) as [d Hd].
  pose proof (rstrip_app slash a b Hb Hc) as Hr. rewrite Hd in Hr. change "/" with (String slash "") in Hr.
  rewrite rstrip_snoc in Hr.
  assert (forall s, String.length (rstrip slash s) <= String.length s) as Hlen.
  { intros s. induction s as [|x s IHs]; [done|]. cbn. destruct (rstrip slash s); [destruct (decide _)|]; cbn in *; lia. }
  specialize (Hlen d). rewrite Hr, str_length_app in Hlen. cbn in Hlen. lia.
Qed.

(** [join] with a name (no slash, so relative) puts it as the last component. *)
Lemma path_join_name d b :
  has_char slash b = false -> basename (path_join d b) = b.
Proof.
  intros Hb. unfold path_join, isabs.
  assert (startswith b "/" = false) as ->.
  { destruct b as [|c b]; [done|]. cbn in Hb |- *. by py_cases. }
  case_bool_decide as Hd; cbn [orb].
  - subst. by apply basename_no_slash.
  - destruct (ends_slash d) eqn:E.
    + apply ends_slash_inv in E as [d' ->]. rewrite str_app_assoc. by apply basename_app.
    + by apply basename_app.
Qed.

Lemma path_join_inj d b b' :
  has_char slash b = false -> has_char slash b' = false ->
  path_join d b = path_join d b' -> b = b'.
Proof. intros Hb Hb' H. by rewrite <- (path_join_name d b), H, path_join_name. Qed.

Lemma rstrip_join cs :
  cs <> [] -> Forall (fun c => clean c = true) cs -> rstrip slash (join "/" cs) = join "/" cs.
Proof.
  intros Hne H. induction H as [|c cs Hc Hcs IH]; [done|].
  apply clean_spec in Hc as (Hs & Hc & _). destruct cs as [|d cs]; [by apply rstrip_id|].
  rewrite join_cons by done. specialize (IH ltac:(done)).
  pose proof (join_not_nil (d :: cs) ltac:(done) Hcs) as Hnn.
  revert IH Hnn. generalize (join "/" (d :: cs)) as r. intros r IH Hnn.
  clear Hs Hc Hne. induction c as [|a c IHc]; cbn -[rstrip].
  - cbn. rewrite IH. by destruct r.
  - cbn. fold (rstrip slash (c +:+ String "/" r)). cbn in IHc. rewrite IHc.
    by destruct c.
Qed.

(** The parent of a clean path with at least two components. *)
Lemma dirname_join ps c :
  ps <> [] -> Forall (fun c => clean c = true) (ps ++ [c]) ->
  dirname (join "/" (ps ++ [c])) = join "/" ps.
Proof.
  intros Hne H. apply Forall_app in H as [Hps Hc]. inversion Hc as [|? ? Hc' _]; subst.
  apply clean_spec in Hc' as (Hs & _). rewrite join_app_slash by done. cbn [join].
  unfold dirname. rewrite rsplit_slash_app by done. cbn [fst].
  rewrite (rstrip_snoc slash (join "/" ps) : rstrip slash (join "/" ps +:+ "/") = _).
  rewrite rstrip_join by done. by rewrite bool_decide_eq_false_2 by (by apply join_not_nil).
Qed.

Lemma dirname_single c : has_char slash c = false -> dirname c = "".
Proof. intros H. unfold dirname. by rewrite rsplit_slash_base. Qed.

(** *** Absolute paths in normal form *)
Lemma split_abs cs :
  cs <> [] -> Forall (fun c => clean c = true) cs ->
  split slash ("/" +:+ join "/" cs) = "" :: cs.
Proof.
  intros Hne Hcs. change ("/" +:+ join "/" cs) with ("" +:+ String slash (join "/" cs)).
  rewrite split_app_sep by done. by rewrite split_join_clean.
Qed.

Lemma ends_slash_join ds cs :
  cs <> [] -> Forall (fun c => clean c = true) cs -> ends_slash (ds +:+ join "/" cs) = false.
Proof.
  intros Hne Hcs. destruct (ends_slash (ds +:+ join "/" cs)) eqn:E; [|done]. exfalso.
  revert E. induction ds as [|a ds IH]; cbn.
  - intros [d Hd]%ends_slash_inv. pose proof (rstrip_join cs Hne Hcs) as Hr.
    rewrite Hd in Hr. change "/" with (String slash "") in Hr. rewrite rstrip_snoc in Hr.
    assert (forall s, String.length (rstrip slash s) <= String.length s) as Hlen.
    { clear. induction s as [|a s IH]; cbn; [lia|].
      destruct (rstrip slash s); cbn in *; [case_decide|]; cbn; lia. }
    specialize (Hlen d). rewrite Hr, str_length_app in Hlen. cbn in Hlen. lia.
  - destruct (ds +:+ join "/" cs) eqn:E; [|done].
    destruct ds; [|done]. cbn in E. by apply join_not_nil in E.
Qed.

Lemma normpath_abs cs :
  cs <> [] -> Forall (fun c => clean c = true) cs ->
  normpath ("/" +:+ join "/" cs) = "/" +:+ join "/" cs.
Proof.
  intros Hne Hcs. unfold normpath. rewrite (bool_decide_eq_false_2 (_ +:+ _ = "")) by done.
  rewrite split_abs by done.
  assert (initial_slashes ("/" +:+ join "/" cs) = "/") as ->.
  { unfold initial_slashes. pose proof (join_not_abs _ Hcs) as Ha. unfold isabs in Ha.
    destruct (join "/" cs) as [|a s]; [done|]. cbn in Ha |- *. by py_cases. }
  rewrite (bool_decide_eq_false_2 ("/" = "")) by done. cbn [negb norm_comps orb].
  rewrite (bool_decide_eq_true_2 ("" = "")) by done. cbn [orb].
  rewrite norm_comps_clean_nil by done. by rewrite bool_decide_eq_false_2.
Qed.

Lemma components_abs cs :
  cs <> [] -> Forall (fun c => clean c = true) cs -> components ("/" +:+ join "/" cs) = cs.
Proof.
  intros Hne Hcs. unfold components. rewrite split_abs by done. rewrite filter_cons_False by auto.
  clear Hne. induction Hcs as [|c l Hc Hl IH]; [done|].
  rewrite filter_cons_True; [by rewrite IH|]. by apply clean_spec in Hc as (_ & ? & _).
Qed.

Lemma path_join_abs ds cs :
  ds <> [] -> Forall (fun c => clean c = true) ds ->
  cs <> [] -> Forall (fun c => clean c = true) cs ->
  path_join ("/" +:+ join "/" ds) (join "/" cs) = "/" +:+ join "/" (ds ++ cs).
Proof.
  intros Hd Hds Hc Hcs. unfold path_join. rewrite join_not_abs by done.
  rewrite (ends_slash_join "/" ds) by done.
  rewrite bool_decide_eq_false_2 by done. cbn [orb]. by rewrite join_app_slash, !str_app_assoc.
Qed.

(** *** [relpath] on clean paths *)
Section relpath.
Context (cwd_comps : list string).
Hypothesis cwd_ne : cwd_comps <> [].
Hypothesis cwd_clean : Forall (fun c => clean c = true) cwd_comps.
Let cwd := "/" +:+ join "/" cwd_comps.

Lemma components_abspath cs :
  cs <> [] -> Forall (fun c => clean c = true) cs ->
  components (abspath cwd (join "/" cs)) = cwd_comps ++ cs.
Proof using cwd_ne cwd_clean.
  intros Hne Hcs. unfold abspath, cwd. rewrite join_not_abs by done.
  assert (Forall (fun c => clean c = true) (cwd_comps ++ cs)) as Hall by (by apply Forall_app).
  assert (cwd_comps ++ cs <> []) as Hne' by (by destruct cwd_comps).
  by rewrite path_join_abs, normpath_abs, components_abs.
Qed.

(** The relative path of one clean path from another: climb out of the part
    of [start] that is not shared, then descend. *)
Lemma relpath_clean ts ps :
  ts <> [] -> ps <> [] ->
  Forall (fun c => clean c = true) ts -> Forall (fun c => clean c = true) ps ->
  relpath cwd (join "/" ts) (join "/" ps) =
  Ok (let i := common_len ps ts in
      let rel := replicate (length ps - i) ".." ++ drop i ts in
      if bool_decide (rel = []) then "." else join "/" rel).
Proof using cwd_ne cwd_clean.
  intros Hts Hps Ht Hp. unfold relpath.
  rewrite bool_decide_eq_false_2 by (by apply join_not_nil).
  rewrite !components_abspath by done. rewrite common_len_app, length_app.
  replace (length cwd_comps + length ps - (length cwd_comps + common_len ps ts))
    with (length ps - common_len ps ts) by lia.
  rewrite drop_app_ge by lia.
  by replace (length cwd_comps + common_len ps ts - length cwd_comps)
    with (common_len ps ts) by lia.
Qed.
End relpath.

(** Walking [rel] from the components [ps] arrives at [ts]. *)
Lemma norm_comps_relative ps ts :
  Forall (fun c => clean c = true) ps -> Forall (fun c => clean c = true) ts ->
  norm_comps false
    (ps ++ replicate (length ps - common_len ps ts) ".." ++ drop (common_len ps ts) ts) [] = ts.
Proof.
  intros Hp Ht. rewrite norm_comps_clean by done. rewrite app_nil_r.
  set (i := common_len ps ts).
  assert (reverse ps = reverse (drop i ps) ++ reverse (take i ps)) as ->.
  { by rewrite <- reverse_app, take_drop. }
  assert (length ps - i = length (reverse (drop i ps))) as ->.
  { by rewrite length_reverse, length_drop. }
  rewrite norm_comps_dotdot by (rewrite reverse_Permutation; by apply Forall_drop).
  rewrite <- (app_nil_r (drop i ts)). rewrite norm_comps_clean by (by apply Forall_drop).
  cbn [norm_comps]. rewrite <- reverse_app, reverse_involutive.
  unfold i. by rewrite common_len_take, take_drop.
Qed.
