(* ===== verification/Types.v ===== *)
(** * Data types ([multistorageclient/types.py])

    The dataclasses and enums the components exchange: [ObjectMetadata] with
    its dictionary form and its symlink encoding, byte ranges, resolved paths,
    the retry configuration with its validation, batch errors and sync results.

    A timestamp is a number of microseconds since the epoch (every
    [last_modified] the code compares is timezone-aware).  [dateutil]'s parser
    is third-party code and is a parameter. *)
From Stdlib Require Import QArith_base.
From S2P Require Import Prelude PyPath.

(** ** Definitions *)

(** Values of JSON documents and of attribute dictionaries. *)
Inductive json : Type :=
  | JNull
  | JBool (b : bool)
  | JInt (z : Z)
  | JStr (s : string)
  | JList (l : list json)
  | JDict (d : list (string * json)).

Abbreviation dict := (list (string * json)).
Abbreviation attributes := (gmap string json).
Abbreviation bytes := (list byte).

(** [d.get(k)] and [k in d]: a dictionary binds each key once. *)
Fixpoint dict_get (d : dict) (k : string) : option json :=
  match d with
  | [] => None
  | (k', v) :: d' => if decide (k = k') then Some v else dict_get d' k
  end.

(** [{k: v for k, v in d.items() if k != key}]: [d.pop(key)] without its result *)
Definition dict_del (d : dict) (key : string) : dict :=
  filter (fun kv => kv.1 <> key) d.

(** The earliest date, in microseconds from the epoch *)
Definition AWARE_DATETIME_MIN : Z := (-62135596800000000)%Z.

Inductive SymlinkHandling := FOLLOW | SKIP | PRESERVE.
Definition MSC_PROTOCOL : string := "msc://".
Definition MAX_SYMLINK_DEPTH : nat := 8.

Inductive SignerType := SignerS3 | SignerCLOUDFRONT | SignerAZURE.

Record Credentials := mkCredentials {
  access_key : string;
  secret_key : string;
  token : option string;
  expiration : option string;
  custom_fields : attributes;
}.

Record ObjectMetadata := mkObjectMetadata {
  key : string;
  content_length : Z;
  last_modified : Z;
  type : string;
  content_type : option string;
  etag : option string;
  storage_class : option string;
  metadata : option attributes;
  symlink_target : option string;
}.

(** The dataclass constructor with its defaults. *)
Definition new_ObjectMetadata (k : string) (len lm : Z) : ObjectMetadata :=
  mkObjectMetadata k len lm "file" None None None None None.

(** An iterator over objects: those it yields, then an exception or the end *)
Record listing := mkListing { yielded : list ObjectMetadata; raised : option exc }.
Definition yield (o : ObjectMetadata) (l : listing) : listing := mkListing (o :: yielded l) (raised l).
Definition yield_all (os : list ObjectMetadata) (l : listing) : listing := mkListing (os ++ yielded l) (raised l).

Record Range := mkRange { offset : Z; size : Z }.

Inductive ResolvedPathState := EXISTS | DELETED | UNTRACKED.
Record ResolvedPath := mkResolvedPath {
  physical_path : string;
  state : ResolvedPathState;
  profile : option string;
}.
(** [ResolvedPath.exists] *)
Definition resolved_exists (r : ResolvedPath) : bool :=
  match state r with EXISTS => true | _ => false end.

(** A finite Python float is a rational number. *)
Record RetryConfig := mkRetryConfig {
  attempts : Z;
  delay : Q;
  backoff_multiplier : Q;
}.
Definition DEFAULT_RETRY_ATTEMPTS : Z := 3.
Definition DEFAULT_RETRY_DELAY : Q := 1.
Definition DEFAULT_RETRY_BACKOFF_MULTIPLIER : Q := 2.
Definition default_RetryConfig : RetryConfig :=
  mkRetryConfig DEFAULT_RETRY_ATTEMPTS DEFAULT_RETRY_DELAY DEFAULT_RETRY_BACKOFF_MULTIPLIER.
(** [RetryConfig.__post_init__] *)
Definition make_RetryConfig (a : Z) (d b : Q) : res RetryConfig :=
  if (a <? 1)%Z then Err ValueError
  else if negb (Qle_bool 0 d) then Err ValueError
  else if negb (Qle_bool 1 b) then Err ValueError
  else Ok (mkRetryConfig a d b).

(** [BatchTransferError.__init__] *)
Definition make_BatchTransferError (failures : list BatchTransferFailure) : exc :=
  match failures with
  | [] => ValueError
  | _ => BatchTransferError failures
  end.

Inductive SourceVersionCheckMode := INHERIT | ENABLE | DISABLE.
Inductive ExecutionMode := LOCAL | RAY.
Inductive PatternType := INCLUDE | EXCLUDE.
Abbreviation PatternList := (list (PatternType * string)).

Record Replica := mkReplica { replica_profile : string; read_priority : Z }.

Record DryrunResult := mkDryrunResult { files_to_add : string; files_to_delete : string }.
Record SyncResult := mkSyncResult {
  total_work_units : Z;
  total_files_added : Z;
  total_files_deleted : Z;
  total_bytes_added : Z;
  total_bytes_deleted : Z;
  dryrun : option DryrunResult;
}.

#[export] Instance SymlinkHandling_eq_dec : EqDecision SymlinkHandling.
Proof. solve_decision. Defined.
#[export] Instance PatternType_eq_dec : EqDecision PatternType.
Proof. solve_decision. Defined.
#[export] Instance ExecutionMode_eq_dec : EqDecision ExecutionMode.
Proof. solve_decision. Defined.
#[export] Instance SourceVersionCheckMode_eq_dec : EqDecision SourceVersionCheckMode.
Proof. solve_decision. Defined.
#[export] Instance ResolvedPathState_eq_dec : EqDecision ResolvedPathState.
Proof. solve_decision. Defined.

Fixpoint json_eqb (a b : json) {struct a} : bool :=
  match a, b with
  | JNull, JNull => true
  | JBool x, JBool y => Bool.eqb x y
  | JInt x, JInt y => Z.eqb x y
  | JStr x, JStr y => String.eqb x y
  | JList l, JList m =>
      (fix go l m {struct l} := match l, m with
                     | [], [] => true
                     | x :: l', y :: m' => json_eqb x y && go l' m'
                     | _, _ => false
                     end) l m
  | JDict l, JDict m =>
      (fix go l m {struct l} := match l, m with
                     | [], [] => true
                     | (k, x) :: l', (k', y) :: m' => String.eqb k k' && json_eqb x y && go l' m'
                     | _, _ => false
                     end) l m
  | _, _ => false
  end.

(** *** [ObjectMetadata.to_dict] and [from_dict] *)

(** The civil date of a day number: [datetime]'s proleptic Gregorian calendar. *)
Definition civil_from_days (z0 : Z) : Z * Z * Z :=
  let z := (z0 + 719468)%Z in
  let era := (z / 146097)%Z in
  let doe := (z - era * 146097)%Z in
  let yoe := ((doe - doe / 1460 + doe / 36524 - doe / 146096) / 365)%Z in
  let doy := (doe - (365 * yoe + yoe / 4 - yoe / 100))%Z in
  let mp := ((5 * doy + 2) / 153)%Z in
  let d := (doy - (153 * mp + 2) / 5 + 1)%Z in
  let m := if (mp <? 10)%Z then (mp + 3)%Z else (mp - 9)%Z in
  let y := (yoe + era * 400 + (if (m <=? 2)%Z then 1 else 0))%Z in
  (y, m, d).

(** Decimal digits, padded with zeros to [w] places. *)
Definition pad (w : nat) (z : Z) : string :=
  let s := pretty z in
  String.concat "" (replicate (w - String.length s) "0") +:+ s.

(** [strftime("%Y-%m-%dT%H:%M:%S.%fZ")] of a UTC timestamp *)
Definition strftime_utc (t : Z) : string :=
  let us := (t mod 1000000)%Z in
  let secs := (t / 1000000)%Z in
  let '(y, m, d) := civil_from_days (secs / 86400)%Z in
  let s := (secs mod 86400)%Z in
  pretty y +:+ "-" +:+ pad 2 m +:+ "-" +:+ pad 2 d +:+ "T" +:+
  pad 2 (s / 3600)%Z +:+ ":" +:+ pad 2 (s / 60 mod 60)%Z +:+ ":" +:+ pad 2 (s mod 60)%Z
  +:+ "." +:+ pad 6 us +:+ "Z".

Definition opt_field (k : string) (v : option json) : dict :=
  match v with Some x => [(k, x)] | None => [] end.

(** [ObjectMetadata.to_dict]: [asdict] without the [None] fields *)
Definition to_dict (m : ObjectMetadata) : dict :=
  [("key", JStr (key m)); ("content_length", JInt (content_length m));
   ("last_modified", JStr (strftime_utc (last_modified m))); ("type", JStr (type m))]
  ++ opt_field "content_type" (JStr <$> content_type m)
  ++ opt_field "etag" (JStr <$> etag m)
  ++ opt_field "storage_class" (JStr <$> storage_class m)
  ++ opt_field "metadata" ((fun a : attributes => JDict (map_to_list a)) <$> metadata m)
  ++ opt_field "symlink_target" (JStr <$> symlink_target m).

(** [data.get(k)] where the dataclass holds an optional string.  [None] and a
    missing key give [None]; the dataclass does not check other types, which
    are outside the model and raise here. *)
Definition get_opt_str (d : dict) (k : string) : res (option string) :=
  match dict_get d k with
  | None | Some JNull => Ok None
  | Some (JStr s) => Ok (Some s)
  | Some _ => Err TypeError
  end.
Definition get_opt_attrs (d : dict) (k : string) : res (option attributes) :=
  match dict_get d k with
  | None | Some JNull => Ok None
  | Some (JDict a) => Ok (Some (list_to_map a))
  | Some _ => Err TypeError
  end.

(** [data.get("type", "file")] *)
Definition get_type (d : dict) : res string :=
  match dict_get d "type" with
  | None => Ok "file"
  | Some (JStr s) => Ok s
  | Some _ => Err TypeError
  end.

(** [ObjectMetadata.from_dict]; [dateutil_parser] is [dateutil.parser.parse],
    [None] where it raises its [ValueError]. *)
Definition from_dict (dateutil_parser : string -> option Z) (d : dict) : res ObjectMetadata :=
  match dict_get d "last_modified" with
  | None => Err ValueError
  | Some (JStr lm) =>
      match dateutil_parser lm with
      | None => Err ValueError
      | Some t =>
          match dict_get d "key" with
          | None | Some JNull => Err ValueError
          | Some (JStr k) =>
              match dict_get d "content_length" with
              | None => Err ValueError
              | Some (JInt n) =>
                  res_bind (get_type d) (fun ty =>
                  res_bind (get_opt_str d "content_type") (fun ct =>
                  res_bind (get_opt_str d "etag") (fun et =>
                  res_bind (get_opt_str d "storage_class") (fun sc =>
                  res_bind (get_opt_attrs d "metadata") (fun md =>
                  res_bind (get_opt_str d "symlink_target") (fun sl =>
                  Ok (mkObjectMetadata k n t ty ct et sc md sl)))))))
              | Some _ => Err TypeError
              end
          | Some _ => Err TypeError
          end
      end
  | Some _ => Err TypeError
  end.

(** *** Symlink targets *)

(** [ObjectMetadata.encode_symlink_target] *)
Definition encode_symlink_target (cwd symlink_key target : string) : res string :=
  let parent := dirname symlink_key in
  if bool_decide (parent = "") then Ok target else relpath cwd target parent.

(** [ObjectMetadata.resolve_symlink_target] *)
Definition resolve_symlink_target (symlink_key symlink_target : string) : string :=
  normpath (path_join (dirname symlink_key) symlink_target).

(** [Credentials.is_expired] at time [now] *)
Definition is_expired (dateutil_parser : string -> option Z) (c : Credentials) (now : Z) : res bool :=
  match expiration c with
  | None => Ok false
  | Some e =>
      if bool_decide (e = "") then Ok false
      else match dateutil_parser e with
           | None => Err ValueError
           | Some t => Ok (t <=? now)%Z
           end
  end.

(** [SyncResult.__str__] without the elapsed time, which is not modelled *)
Definition sync_result_lines (r : SyncResult) : list string :=
  [(if dryrun r is Some _ then "Sync dryrun statistics:" else "Sync statistics:");
   "  Work units: " +:+ pretty (total_work_units r);
   "  Files added: " +:+ pretty (total_files_added r);
   "  Files deleted: " +:+ pretty (total_files_deleted r);
   "  Bytes added: " +:+ pretty (total_bytes_added r);
   "  Bytes deleted: " +:+ pretty (total_bytes_deleted r)] ++
  match dryrun r with
  | Some d => ["  Files to add: " +:+ files_to_add d; "  Files to delete: " +:+ files_to_delete d]
  | None => []
  end.

(** ** Theorems *)
Lemma dict_get_app (d1 d2 : dict) k :
  dict_get (d1 ++ d2) k =
  match dict_get d1 k with Some v => Some v | None => dict_get d2 k end.
Proof.
  induction d1 as [|[k' v] d1 IH]; [done|]. cbn. by case_decide.
Qed.

Lemma dict_get_opt_field k k' v :
  dict_get (opt_field k v) k' = if decide (k' = k) then v else None.
Proof. destruct v; cbn; by case_decide. Qed.

(** A record written by [to_dict] is read back unchanged by [from_dict],
    whenever the timestamp parser inverts the timestamp format. *)
Lemma from_dict_to_dict (dateutil_parser : string -> option Z) (m : ObjectMetadata)
  (Hparse : dateutil_parser (strftime_utc (last_modified m)) = Some (last_modified m)) :
  from_dict dateutil_parser (to_dict m) = Ok m.
Proof.
  destruct m as [k n t ty ct et sc md sl]. cbn [last_modified] in Hparse.
  unfold from_dict, to_dict, get_type, get_opt_str, get_opt_attrs.
  cbn [key content_length last_modified type content_type etag storage_class metadata symlink_target].
  rewrite !dict_get_app, !dict_get_opt_field. cbn -[strftime_utc].
  decide_lit. rewrite Hparse. destruct ct, et, sc, md, sl; cbn -[strftime_utc map_to_list list_to_map];
    by rewrite ?list_to_map_to_list.
Qed.

Definition example_metadata : ObjectMetadata :=
  mkObjectMetadata "a/b.txt" 42 1700000000123456 "file" None (Some "v1") None
    (Some {["k" := JStr "v"]}) (Some "../c").

Lemma path_join_clean ps rel :
  ps <> [] -> Forall (fun c => clean c = true) ps -> isabs rel = false ->
  path_join (join "/" ps) rel = join "/" ps +:+ "/" +:+ rel.
Proof.
  intros Hne Hps Hrel. unfold path_join. rewrite Hrel.
  rewrite bool_decide_eq_false_2 by (by apply join_not_nil).
  pose proof (ends_slash_join "" ps Hne Hps) as E. cbn in E. by rewrite E.
Qed.

Lemma split_path_join ps c :
  ps <> [] -> Forall (fun c => clean c = true) ps ->
  split slash (join "/" ps +:+ "/" +:+ c) = ps ++ split slash c.
Proof.
  intros Hne Hps. induction Hps as [|q qs Hq Hqs IH]; [done|]. clear Hne.
  apply clean_spec in Hq as (Hq & _). destruct qs as [|r rs].
  - cbn [join]. by apply split_app_sep.
  - rewrite join_cons, !str_app_assoc by done.
    change ("/" +:+ join "/" (r :: rs) +:+ "/" +:+ c)
      with (String slash (join "/" (r :: rs) +:+ "/" +:+ c)).
    rewrite split_app_sep by done. by rewrite (IH ltac:(done)).
Qed.

(** The relative path from [ps] to [ts], walked from [ps], normalises to [ts]. *)
Lemma resolve_relative ps ts :
  ps <> [] -> ts <> [] ->
  Forall (fun c => clean c = true) ps -> Forall (fun c => clean c = true) ts ->
  let rel := replicate (length ps - common_len ps ts) ".." ++ drop (common_len ps ts) ts in
  normpath (path_join (join "/" ps) (if bool_decide (rel = []) then "." else join "/" rel))
  = join "/" ts.
Proof.
  intros Hps Hts Hp Ht rel.
  pose proof (norm_comps_relative ps ts Hp Ht) as Hn. fold rel in Hn.
  assert (Forall (fun c => has_char slash c = false) rel) as Hrel.
  { apply Forall_app. split; [|by apply clean_no_slash, Forall_drop].
    apply Forall_replicate. done. }
  case_bool_decide as Hnil.
  - rewrite path_join_clean by done.
    eapply normpath_join; [done|done|by destruct (join "/" ps)| |apply split_path_join; done|].
    + pose proof (join_not_abs ps Hp) as Ha. unfold isabs in *.
      pose proof (join_not_nil ps Hps Hp). destruct (join "/" ps); [done|].
      cbn in *. by py_cases.
    + rewrite Hnil, app_nil_r in Hn.
      rewrite norm_comps_clean by done.
      rewrite norm_comps_clean_nil in Hn by done.
      change (split slash ".") with ["."]. cbn. rewrite app_nil_r.
      rewrite reverse_involutive. by rewrite Hn.
  - assert (isabs (join "/" rel) = false) as Habs.
    { unfold rel. destruct (length ps - common_len ps ts) as [|k] eqn:E.
      - cbn. by apply join_not_abs, Forall_drop.
      - cbn [replicate app]. destruct (replicate k ".." ++ _); done. }
    rewrite path_join_clean by done.
    eapply normpath_join; [done|done|by destruct (join "/" ps)| |apply split_path_join; done|].
    + pose proof (join_not_abs ps Hp) as Ha. unfold isabs in *.
      pose proof (join_not_nil ps Hps Hp). destruct (join "/" ps); [done|].
      cbn in *. by py_cases.
    + by rewrite split_join.
Qed.

(** resolving an encoded symlink target gives back the logical key, for
    clean keys (no empty, ["."] or [".."] component) under any clean absolute
    working directory. *)
Theorem symlink_roundtrip (cwd_comps : list string) (symlink_key target : string)
  (Hne : cwd_comps <> []) (Hcwd : Forall (fun c => clean c = true) cwd_comps)
  (Hkey : clean_path symlink_key = true) (Htarget : clean_path target = true) :
  res_bind (encode_symlink_target ("/" +:+ join "/" cwd_comps) symlink_key target)
           (fun t => Ok (resolve_symlink_target symlink_key t)) = Ok target.
Proof.
  apply clean_path_join in Hkey as (ks & Hks & Hk & ->).
  pose proof Htarget as (ts & Hts & Ht & Htgt)%clean_path_join.
  destruct (exists_last Hks) as (ps & c & ->).
  unfold encode_symlink_target, resolve_symlink_target.
  apply Forall_app in Hk as [Hp Hc]. inversion Hc as [|? ? Hc' _]; subst c.
  destruct (decide (ps = [])) as [->|Hps].
  - cbn [app join]. apply clean_spec in Hc' as (Hs & _).
    rewrite dirname_single by done. cbn [res_bind].
    rewrite bool_decide_eq_true_2 by done. cbn [res_bind]. f_equal.
    subst target. unfold path_join. rewrite join_not_abs by done.
    rewrite bool_decide_eq_true_2 by done. cbn. by apply normpath_clean.
  - rewrite dirname_join by (done || (apply Forall_app; by repeat constructor)).
    rewrite bool_decide_eq_false_2 by (by apply join_not_nil).
    subst target. rewrite relpath_clean by done. cbn [res_bind]. f_equal.
    by apply resolve_relative.
Qed.

Lemma symlink_roundtrip_witness :
  encode_symlink_target "/home/user" "data/links/l" "data/real/file" = Ok "../real/file" /\
  res_bind (encode_symlink_target "/home/user" "data/links/l" "data/real/file")
    (fun t => Ok (resolve_symlink_target "data/links/l" t)) = Ok "data/real/file".
Proof.
  split; [vm_compute; reflexivity|].
  apply (symlink_roundtrip ["home"; "user"]);
    [discriminate|repeat constructor|vm_compute; reflexivity|vm_compute; reflexivity].
Defined.
