(* ===== verification/Utils.v ===== *)
(** * Utilities ([multistorageclient/utils.py])

    Path and key helpers, include/exclude filtering with Python's [fnmatch],
    attribute filters, dictionary merging, environment expansion and the
    worker-count computation.

    Parameters: [wcmatch]'s [globmatch], the Lark parser (the evaluator works on
    the tree it returns) and float parsing and comparison. *)
From S2P Require Import Prelude PyPath Types.

(** ** Small helpers *)

(** [resolve_symlink_handling] *)
Definition resolve_symlink_handling (follow_symlinks : option bool)
    (symlink_handling : SymlinkHandling) : res SymlinkHandling :=
  match follow_symlinks with
  | None => Ok symlink_handling
  | Some b =>
      if bool_decide (symlink_handling <> FOLLOW) then Err ValueError
      else Ok (if b then FOLLOW else SKIP)
  end.

(** The loop of [safe_makedirs] from [attempt] on, [left] attempts remaining;
    [makedirs n] is the outcome of the [n]-th call of [os.makedirs]. *)
Fixpoint safe_makedirs_loop (makedirs : nat -> res unit) (exist_ok : bool)
    (left attempt : nat) : res unit :=
  match left with
  | 0 => Ok tt
  | S left' =>
      match makedirs attempt with
      | Ok _ => Ok tt
      | Err FileExistsError => if exist_ok then Ok tt else Err FileExistsError
      | Err FileNotFoundError =>
          if (attempt <? 5 - 1)%nat
          then safe_makedirs_loop makedirs exist_ok left' (S attempt)
          else Err FileNotFoundError
      | Err e => Err e
      end
  end.
Definition safe_makedirs (makedirs : nat -> res unit) (exist_ok : bool) : res unit :=
  safe_makedirs_loop makedirs exist_ok 5 0.

(** [split_path] *)
Definition split_path (path : string) : string * string :=
  match split1 slash (lstrip slash path) with
  | (bucket, Some k) => (bucket, k)
  | (bucket, None) => (bucket, "")
  end.

(** [glob]; [globmatch] is [wcmatch.glob.globmatch] with [GLOBSTAR] *)
Definition glob (globmatch : string -> string -> bool) (keys : list string) (pattern : string)
    : list string :=
  filter (fun k => globmatch k pattern = true) keys.

(** ["/".join(parts[: i + 1])] for every [i] *)
Definition key_prefixes (k : string) : list string :=
  map (fun i => join "/" (take (S i) (split slash k))) (seq 0 (length (split slash k))).

(** [insert_directories] *)
Definition insert_directories (keys : list string) : list string :=
  sorted_str (elements (list_to_set (concat (map key_prefixes keys)) : gset string)).

(** [join_paths] *)
Definition join_paths (base path : string) : string :=
  path_join (rstrip slash base) (lstrip slash path).

(** [extract_prefix_from_glob] *)
Definition glob_chars : list ascii := ["*"; "?"; "["; "]"; "{"; "}"]%char.
Definition is_glob_part (part : string) : bool := existsb (fun c => has_char c part) glob_chars.
Fixpoint take_until_glob (parts : list string) : list string :=
  match parts with
  | [] => []
  | p :: ps => if is_glob_part p then [] else p :: take_until_glob ps
  end.
Definition extract_prefix_from_glob (s : string) : string :=
  join "/" (take_until_glob (split slash s)).

(** ** [expand_env_vars] *)
Definition is_alpha_ (a : ascii) : bool :=
  let n := Ascii.nat_of_ascii a in
  ((65 <=? n) && (n <=? 90) || (97 <=? n) && (n <=? 122) || (n =? 95))%nat.
Definition is_word (a : ascii) : bool :=
  let n := Ascii.nat_of_ascii a in is_alpha_ a || ((48 <=? n) && (n <=? 57))%nat.

(** The longest prefix of word characters, and the rest. *)
Fixpoint span_word (s : string) : string * string :=
  match s with
  | String a s' => if is_word a then let '(w, r) := span_word s' in (String a w, r) else ("", s)
  | EmptyString => ("", "")
  end.
(** The part before the first closing brace and the part after it. *)
Fixpoint span_brace (s : string) : option (string * string) :=
  match s with
  | EmptyString => None
  | String a s' =>
      if decide (a = "}"%char) then Some ("", s')
      else match span_brace s' with
           | Some (w, r) => Some (String a w, r)
           | None => None
           end
  end.

(** [posixpath.expandvars]: a variable that is not set stays as written, and an
    inserted value is not scanned again. *)
Fixpoint expandvars (fuel : nat) (env : gmap string string) (s : string) : string :=
  match fuel with
  | 0 => s
  | S f =>
      match s with
      | EmptyString => EmptyString
      | String a s' =>
          if decide (a = "$"%char) then
            match s' with
            | String "{"%char s'' =>
                match span_brace s'' with
                | Some (name, rest) =>
                    match env !! name with
                    | Some v => v +:+ expandvars f env rest
                    | None => "${" +:+ name +:+ "}" +:+ expandvars f env rest
                    end
                | None => String a (expandvars f env s')
                end
            | _ =>
                let '(name, rest) := span_word s' in
                if bool_decide (name = "") then String a (expandvars f env s')
                else match env !! name with
                     | Some v => v +:+ expandvars f env rest
                     | None => String a (name +:+ expandvars f env rest)
                     end
            end
          else String a (expandvars f env s')
      end
  end.

(** Does [re.findall(r"\$\{[^}]+\}|\$[A-Za-z_][A-Za-z0-9_]*", s)] find anything? *)
Fixpoint has_unresolved (s : string) : bool :=
  match s with
  | EmptyString => false
  | String a s' =>
      (if decide (a = "$"%char) then
         match s' with
         | String b s'' =>
             is_alpha_ b ||
             (bool_decide (b = "{"%char) &&
              match span_brace s'' with
              | Some (name, _) => negb (bool_decide (name = ""))
              | None => false
              end)
         | EmptyString => false
         end
       else false) || has_unresolved s'
  end.

(** [expand_env_vars] *)
Fixpoint expand_env_vars (env : gmap string string) (data : json) : res json :=
  match data with
  | JDict d =>
      res_bind ((fix go d := match d with
                   | [] => Ok []
                   | (k, v) :: d' => res_bind (expand_env_vars env v) (fun v' =>
                                     res_bind (go d') (fun r => Ok ((k, v') :: r)))
                   end) d) (fun r => Ok (JDict r))
  | JList l =>
      res_bind ((fix go l := match l with
                   | [] => Ok []
                   | v :: l' => res_bind (expand_env_vars env v) (fun v' =>
                                res_bind (go l') (fun r => Ok (v' :: r)))
                   end) l) (fun r => Ok (JList r))
  | JStr s =>
      let expanded := expandvars (S (String.length s)) env s in
      if has_unresolved expanded then Err ValueError else Ok (JStr expanded)
  | _ => Ok data
  end.

(** ** [merge_dictionaries_no_overwrite] *)

(** [d[k] = v] on an existing key *)
Fixpoint dict_set (d : dict) (k : string) (v : json) : dict :=
  match d with
  | [] => [(k, v)]
  | (k', v') :: d' => if decide (k = k') then (k', v) :: d' else (k', v') :: dict_set d' k v
  end.

(** Python's [==]: the order of the keys does not count, and [True == 1]. *)
Definition json_int (j : json) : option Z :=
  match j with JBool b => Some (if b then 1 else 0)%Z | JInt z => Some z | _ => None end.
Fixpoint py_eqb (a b : json) : bool :=
  match a, b with
  | JNull, JNull => true
  | JStr s, JStr t => bool_decide (s = t)
  | JList l, JList m =>
      (fix go l m := match l, m with
                     | [], [] => true
                     | x :: l', y :: m' => py_eqb x y && go l' m'
                     | _, _ => false
                     end) l m
  | JDict d, JDict e =>
      (length d =? length e)%nat &&
      (fix go d := match d with
                   | [] => true
                   | (k, x) :: d' => match dict_get e k with Some y => py_eqb x y | None => false end && go d'
                   end) d
  | _, _ => match json_int a, json_int b with Some x, Some y => (x =? y)%Z | _, _ => false end
  end.

(** The merge of [value2 = JDict items] into [dict1]; the second component is
    what the call appends to [conflicted_keys]. *)
Fixpoint merge_into (allow_idempotent : bool) (dict1 : dict) (value2 : json)
    : dict * list string :=
  match value2 with
  | JDict items =>
      (fix go (dict1 : dict) (items : dict) : dict * list string :=
         match items with
         | [] => (dict1, [])
         | (k, v2) :: rest =>
             let '(d, c) :=
               match dict_get dict1 k with
               | None => (dict1 ++ [(k, v2)], [])
               | Some v1 =>
                   match v1, v2 with
                   | JDict d1, JDict _ =>
                       let '(d1', c) := merge_into allow_idempotent d1 v2 in
                       (dict_set dict1 k (JDict d1'), c)
                   | _, _ =>
                       if allow_idempotent && py_eqb v1 v2 then (dict1, []) else (dict1, [k])
                   end
               end in
             let '(d', c') := go d rest in (d', c ++ c')
         end) dict1 items
  | _ => (dict1, [])
  end.
Definition merge_dictionaries_no_overwrite (dict1 dict2 : option dict)
    (conflicted_keys : option (list string)) (allow_idempotent : bool) : dict * list string :=
  let '(d, c) := merge_into allow_idempotent (default [] dict1) (JDict (default [] dict2)) in
  (d, default [] conflicted_keys ++ c).

(** ** [validate_attributes] *)
Definition bad_attribute (kv : string * json) : bool :=
  (32 <? String.length kv.1)%nat ||
  match kv.2 with JStr v => (128 <? String.length v)%nat | _ => false end.
Definition validate_attributes (attrs : option attributes) : res (option attributes) :=
  match attrs with
  | None => Ok None
  | Some a =>
      if bool_decide (a = ∅) then Ok None
      else if existsb bad_attribute (map_to_list a) then Err ValueError
      else Ok (Some a)
  end.

(** ** Worker counts *)

(** [int(s)]: surrounding whitespace, a sign, digits with single underscores *)
Fixpoint strip_spaces_l (s : string) : string :=
  match s with
  | String a s' => if stdpp.strings.Ascii.is_space a then strip_spaces_l s' else s
  | EmptyString => EmptyString
  end.
Definition strip_spaces (s : string) : string :=
  str_rev (strip_spaces_l (str_rev (strip_spaces_l s))).
Fixpoint digits_value (s : string) (acc : Z) (after_digit : bool) : option Z :=
  match s with
  | EmptyString => if after_digit then Some acc else None
  | String a s' =>
      match stdpp.strings.Ascii.is_nat a with
      | Some d => digits_value s' (10 * acc + Z.of_nat d)%Z true
      | None => if bool_decide (a = "_"%char) && after_digit
                   && match s' with String _ _ => true | _ => false end
                then digits_value s' acc false else None
      end
  end.
Definition py_int (s : string) : option Z :=
  match strip_spaces s with
  | String "-"%char s' => Z.opp <$> digits_value s' 0 false
  | String "+"%char s' => digits_value s' 0 false
  | s' => digits_value s' 0 false
  end.

(** What [calculate_worker_processes_and_threads] asks of a client. *)
Record ClientKind := mkClientKind {
  is_rust_client_enabled : bool;
  is_posix_file_storage_provider : bool;
}.

(** [int(os.getenv(name, default))] *)
Definition getenv_int (env : gmap string string) (name : string) (dflt : Z) : res Z :=
  match env !! name with
  | None => Ok dflt
  | Some s => match py_int s with Some z => Ok z | None => Err ValueError end
  end.

(** [calculate_worker_processes_and_threads]; [cpu_count] is the result of
    [get_available_cpu_count] *)
Definition calculate_worker_processes_and_threads (cpu_count : Z) (env : gmap string string)
    (num_worker_processes : option Z) (mode : ExecutionMode)
    (source_client target_client : option ClientKind) : res (Z * Z) :=
  let default_processes := if (8 <? cpu_count)%Z then 8%Z else cpu_count in
  res_bind (match num_worker_processes with
            | Some n => Ok n
            | None => getenv_int env "MSC_NUM_PROCESSES" default_processes
            end) (fun processes =>
  if (processes =? 0)%Z then Err ZeroDivisionError else
  res_bind (getenv_int env "MSC_NUM_THREADS_PER_PROCESS"
              (Z.max (cpu_count / processes) 16)) (fun threads =>
  match mode with
  | LOCAL =>
      match source_client, target_client with
      | Some s, Some t =>
          if (is_rust_client_enabled s || is_posix_file_storage_provider s)
             && (is_rust_client_enabled t || is_posix_file_storage_provider t)
          then res_bind (getenv_int env "MSC_NUM_THREADS_PER_PROCESS" 8) (fun th => Ok (1%Z, th))
          else Ok (processes, threads)
      | _, _ => Ok (processes, threads)
      end
  | RAY => res_bind (getenv_int env "MSC_NUM_THREADS_PER_PROCESS" 8) (fun th => Ok (processes, th))
  end)).

(** ** Attribute filters *)

(** The operators of the grammar. *)
Inductive FilterOp := OpEq | OpNe | OpGt | OpGe | OpLt | OpLe.

Section AttributeFilter.
(** Python floats: parsing and comparison. *)
Context {F : Type} (py_float : string -> option F) (fltb fleb : F -> F -> bool).
(** [str] of a metadata value that is not a string *)
Context (py_str : json -> string).

(** The literal of a comparison: [string] returns a [str], [number] a [float]. *)
Inductive FilterValue := VString (s : string) | VNumber (f : F).

(** The parse tree, after Lark has dropped the tokens. *)
Inductive FilterExpr :=
  | Compare (k : string) (op : FilterOp) (v : FilterValue)
  | AndExpr (a b : FilterExpr)
  | OrExpr (a b : FilterExpr)
  | NotExpr (a : FilterExpr).

Definition str_of (v : json) : string :=
  match v with JStr s => s | _ => py_str v end.

Definition float_cmp (op : FilterOp) (a b : F) : bool :=
  match op with
  | OpGt => fltb b a
  | OpGe => fleb b a
  | OpLt => fltb a b
  | OpLe => fleb a b
  | _ => false
  end.
Definition string_cmp (op : FilterOp) (a b : string) : bool :=
  match op with
  | OpGt => str_ltb b a
  | OpGe => str_leb b a
  | OpLt => str_ltb a b
  | OpLe => str_leb a b
  | _ => false
  end.

(** [_compare_values]: equality is Python's [==], which is false between a
    [str] and a [float]; ordering tries floats first, and the string fallback
    raises [TypeError] when the literal is a float. *)
Definition compare_values (actual : string) (op : FilterOp) (expected : FilterValue) : res bool :=
  match op with
  | OpEq => Ok (match expected with VString s => bool_decide (actual = s) | VNumber _ => false end)
  | OpNe => Ok (match expected with VString s => negb (bool_decide (actual = s)) | VNumber _ => true end)
  | _ =>
      match py_float actual, (match expected with VString s => py_float s | VNumber f => Some f end) with
      | Some a, Some b => Ok (float_cmp op a b)
      | _, _ =>
          match expected with
          | VString s => Ok (string_cmp op actual s)
          | VNumber _ => Err TypeError
          end
      end
  end.

(** The callable the transformer builds; [and] and [or] short-circuit. *)
Fixpoint evaluate (e : FilterExpr) (m : attributes) : res bool :=
  match e with
  | Compare k op v =>
      match m !! k with
      | None => Ok false
      | Some x => compare_values (str_of x) op v
      end
  | AndExpr a b => res_bind (evaluate a m) (fun x => if x then evaluate b m else Ok false)
  | OrExpr a b => res_bind (evaluate a m) (fun x => if x then Ok true else evaluate b m)
  | NotExpr a => res_bind (evaluate a m) (fun x => Ok (negb x))
  end.

(** [create_attribute_filter_evaluator]; [parse] is the Lark parser, [None]
    where it raises.  An empty expression accepts everything. *)
Definition create_attribute_filter_evaluator (parse : string -> option FilterExpr)
    (expression : string) : res (attributes -> res bool) :=
  if bool_decide (expression = "") then Ok (fun _ => Ok true)
  else match parse expression with
       | Some e => Ok (evaluate e)
       | None => Err ValueError
       end.
End AttributeFilter.
Arguments VString {F} _.
Arguments VNumber {F} _.
Arguments Compare {F} _ _ _.
Arguments AndExpr {F} _ _.
Arguments OrExpr {F} _ _.
Arguments NotExpr {F} _.

(** [matches_attribute_filter_expression] *)
Definition matches_attribute_filter_expression (m : ObjectMetadata)
    (evaluator : option (attributes -> res bool)) : res bool :=
  match evaluator with
  | None => Ok true
  | Some ev =>
      match metadata m with
      | None => Ok false
      | Some a => if bool_decide (a = ∅) then Ok false else ev a
      end
  end.

(** ** [fnmatch] and [PatternMatcher] *)

(** A pattern, as [fnmatch.translate] reads it. *)
Inductive FnToken :=
  | FStar
  | FAny
  | FLit (a : ascii)
  | FClass (negated : bool) (items : list (ascii * ascii)).

(** The body of a bracket expression up to its closing bracket. *)
Fixpoint find_close (s : string) : option (string * string) :=
  match s with
  | EmptyString => None
  | String a s' =>
      if decide (a = "]"%char) then Some ("", s')
      else match find_close s' with
           | Some (b, r) => Some (String a b, r)
           | None => None
           end
  end.
(** A closing bracket in first position is an ordinary member. *)
Definition bracket_body (s : string) : option (string * string) :=
  match s with
  | String "]"%char s' =>
      match find_close s' with Some (b, r) => Some (String "]" b, r) | None => None end
  | _ => find_close s
  end.
(** Members and ranges [a-b]; a hyphen without both ends is a member. *)
Fixpoint class_items (s : string) : list (ascii * ascii) :=
  match s with
  | EmptyString => []
  | String a (String "-"%char (String b s')) => (a, b) :: class_items s'
  | String a s' => (a, a) :: class_items s'
  end.

Fixpoint fn_parse (fuel : nat) (pat : string) : list FnToken :=
  match fuel with
  | 0 => []
  | S f =>
      match pat with
      | EmptyString => []
      | String "*"%char p => FStar :: fn_parse f p
      | String "?"%char p => FAny :: fn_parse f p
      | String "["%char p =>
          let '(neg, q) := match p with String "!"%char q => (true, q) | _ => (false, p) end in
          match bracket_body q with
          | Some (b, rest) => FClass neg (class_items b) :: fn_parse f rest
          | None => FLit "[" :: fn_parse f p
          end
      | String a p => FLit a :: fn_parse f p
      end
  end.

Definition in_class (a : ascii) (items : list (ascii * ascii)) : bool :=
  existsb (fun '(lo, hi) => (Ascii.nat_of_ascii lo <=? Ascii.nat_of_ascii a)%nat &&
                            (Ascii.nat_of_ascii a <=? Ascii.nat_of_ascii hi)%nat) items.

Fixpoint fn_match (toks : list FnToken) : string -> bool :=
  match toks with
  | [] => fun s => bool_decide (s = "")
  | FStar :: ts =>
      fix star s := fn_match ts s || match s with String _ s' => star s' | EmptyString => false end
  | FAny :: ts => fun s => match s with String _ s' => fn_match ts s' | EmptyString => false end
  | FLit a :: ts => fun s => match s with
                             | String b s' => bool_decide (a = b) && fn_match ts s'
                             | EmptyString => false
                             end
  | FClass neg items :: ts => fun s => match s with
                                       | String b s' => xorb neg (in_class b items) && fn_match ts s'
                                       | EmptyString => false
                                       end
  end.

(** [fnmatch.fnmatch(name, pat)] *)
Definition fnmatch (name pat : string) : bool :=
  fn_match (fn_parse (S (String.length pat)) pat) name.

(** [PatternMatcher._matches_pattern] *)
Definition matches_pattern (file_path pattern : string) : bool := fnmatch file_path pattern.

(** [PatternMatcher.should_include_file] *)
Definition initially_included (patterns : PatternList) : bool :=
  let has_exclude := existsb (fun p => bool_decide (p.1 = EXCLUDE)) patterns in
  let has_include := existsb (fun p => bool_decide (p.1 = INCLUDE)) patterns in
  if has_include && negb has_exclude then false else true.
Fixpoint apply_patterns (file_path : string) (patterns : PatternList) (included : bool) : bool :=
  match patterns with
  | [] => included
  | (pt, p) :: ps =>
      apply_patterns file_path ps
        (if matches_pattern file_path p
         then match pt with EXCLUDE => false | INCLUDE => true end
         else included)
  end.
Definition should_include_file (patterns : PatternList) (file_path : string) : bool :=
  apply_patterns file_path patterns (initially_included patterns).

(** [PatternMatcher.has_patterns] *)
Definition has_patterns (patterns : PatternList) : bool :=
  match patterns with [] => false | _ => true end.

(** [NullStorageClient]: lists nothing, so that every target file is unmatched. *)
Definition null_list : list ObjectMetadata := [].
Definition null_client_kind : ClientKind := mkClientKind false true.

(** ** Lemmas: decimal numbers *)
Lemma str_rev_app_spec s acc : str_rev_app s acc = str_rev s +:+ acc.
Proof.
  unfold str_rev. revert acc. induction s as [|a s IH]; intros acc; [done|]. cbn.
  rewrite IH, (IH (String a "")), str_app_assoc. done.
Qed.

Lemma str_rev_cons a s : str_rev (String a s) = str_rev s +:+ String a "".
Proof. unfold str_rev at 1. cbn. apply str_rev_app_spec. Qed.

Lemma str_rev_append s t : str_rev (s +:+ t) = str_rev t +:+ str_rev s.
Proof.
  induction s as [|a s IH]; [cbn; by rewrite str_app_nil_r|].
  by rewrite str_app_cons, !str_rev_cons, IH, str_app_assoc.
Qed.

Lemma str_rev_involutive s : str_rev (str_rev s) = s.
Proof. induction s as [|a s IH]; [done|]. by rewrite str_rev_cons, str_rev_append, IH. Qed.

Fixpoint all_chars (P : ascii -> bool) (s : string) : bool :=
  match s with EmptyString => true | String a s' => P a && all_chars P s' end.

Lemma all_chars_app P s t : all_chars P (s +:+ t) = all_chars P s && all_chars P t.
Proof. induction s as [|a s IH]; [done|]. cbn. by rewrite IH, andb_assoc. Qed.

Lemma all_chars_rev P s : all_chars P (str_rev s) = all_chars P s.
Proof.
  induction s as [|a s IH]; [done|]. rewrite str_rev_cons, all_chars_app, IH. cbn.
  by rewrite andb_true_r, andb_comm.
Qed.

Lemma has_char_all P c s : P c = false -> all_chars P s = true -> has_char c s = false.
Proof.
  intros Hc. induction s as [|a s IH]; [done|]. cbn. intros [Ha Hs]%andb_true_iff.
  rewrite decide_False by congruence. auto.
Qed.

Definition is_digit (a : ascii) : bool := bool_decide (is_Some (stdpp.strings.Ascii.is_nat a)).

Lemma strip_spaces_digits s : all_chars is_digit s = true -> strip_spaces s = s.
Proof.
  assert (forall t, all_chars is_digit t = true -> strip_spaces_l t = t) as Hl.
  { intros [|a t]; [done|]. cbn. intros [Ha _]%andb_true_iff.
    destruct a as [[] [] [] [] [] [] [] []]; try done; cbn in Ha;
      by rewrite bool_decide_eq_true in Ha; destruct Ha. }
  intros H. unfold strip_spaces. rewrite (Hl s H), (Hl (str_rev s)).
  - apply str_rev_involutive.
  - by rewrite all_chars_rev.
Qed.

Lemma is_nat_pretty_char x :
  (x < 10)%N -> stdpp.strings.Ascii.is_nat (pretty_N_char x) = Some (N.to_nat x).
Proof.
  intros H. assert (x = 0 \/ x = 1 \/ x = 2 \/ x = 3 \/ x = 4 \/ x = 5 \/ x = 6 \/ x = 7 \/
    x = 8 \/ x = 9)%N as Hx by lia.
  by repeat (destruct Hx as [->|Hx]; [done|]); subst.
Qed.

Lemma pretty_N_go_digits x s :
  all_chars is_digit (pretty_N_go x s) = all_chars is_digit s /\
  ((0 < x)%N -> forall b, digits_value (pretty_N_go x s) 0 b = digits_value s (Z.of_N x) true).
Proof.
  revert s. induction (N.lt_wf_0 x) as [x _ IH]; intros s.
  destruct (decide (x = 0%N)) as [->|Hx]; [by rewrite pretty_N_go_0|].
  rewrite pretty_N_go_step by lia.
  assert (x mod 10 < 10)%N as Hm by (apply N.mod_upper_bound; lia).
  assert (x / 10 < x)%N as Hd by (apply N.div_lt; lia).
  destruct (IH _ Hd (String (pretty_N_char (x `mod` 10)) s)) as [H1 H2].
  assert (is_digit (pretty_N_char (x `mod` 10)) = true) as Hdig.
  { unfold is_digit. rewrite is_nat_pretty_char by done. by apply bool_decide_eq_true. }
  split; [rewrite H1; cbn; by rewrite Hdig|]. intros _ b.
  assert (forall acc b', digits_value (String (pretty_N_char (x `mod` 10)) s) acc b' =
    digits_value s (10 * acc + Z.of_N (x mod 10)) true) as Hstep.
  { intros acc b'. cbn [digits_value]. rewrite is_nat_pretty_char by done.
    by rewrite N_nat_Z. }
  destruct (decide (x / 10 = 0)%N) as [E|E].
  - rewrite E, pretty_N_go_0, Hstep. f_equal. pose proof (N.div_mod x 10). lia.
  - rewrite H2 by (by apply N.neq_0_lt_0). rewrite Hstep. f_equal. pose proof (N.div_mod x 10). lia.
Qed.

Lemma pretty_Z_nonneg z : (0 <= z)%Z ->
  all_chars is_digit (pretty z) = true /\ digits_value (pretty z) 0 false = Some z.
Proof.
  intros Hz. destruct z as [|p|p]; [done| |lia].
  change (pretty (Z.pos p)) with (pretty_N_go (Npos p) "").
  destruct (pretty_N_go_digits (Npos p) "") as [H1 H2].
  split; [by rewrite H1|]. by rewrite H2.
Qed.

(** [int(str(n)) == n] *)
Lemma py_int_pretty z : (0 <= z)%Z -> py_int (pretty z) = Some z.
Proof.
  intros [H1 H2]%pretty_Z_nonneg. unfold py_int. rewrite strip_spaces_digits by done.
  destruct (pretty z) as [|a s]; [done|]. cbn in H1. apply andb_true_iff in H1 as [Ha _].
  destruct a as [[] [] [] [] [] [] [] []]; try exact H2;
    by unfold is_digit in Ha; rewrite bool_decide_eq_true in Ha; destruct Ha.
Qed.

Lemma pretty_no_slash z : (0 <= z)%Z -> has_char slash (pretty z) = false.
Proof. intros [H _]%pretty_Z_nonneg. by apply (has_char_all is_digit). Qed.

(** ** Theorems: paths and keys *)
Lemma split1_no_char c (b k : string) :
  has_char c b = false -> split1 c (b +:+ String c k) = (b, Some k).
Proof.
  induction b as [|a b IH]; cbn; [by rewrite decide_True|].
  case_decide; [done|]. intros Hb. by rewrite IH.
Qed.

(** A path made of a bucket and a key splits back into them, whatever slashes
    precede it. *)
Theorem split_path_roundtrip (bucket k : string)
  (Hne : bucket <> "") (Hslash : has_char slash bucket = false) :
  split_path ("/" +:+ bucket +:+ "/" +:+ k) = (bucket, k).
Proof.
  unfold split_path.
  change ("/" +:+ bucket +:+ "/" +:+ k) with (String slash (bucket +:+ String slash k)).
  cbn [lstrip]. rewrite decide_True by done.
  rewrite lstrip_id; [by rewrite split1_no_char|].
  destruct bucket as [|a b]; [done|]. cbn in *. by py_cases.
Qed.

Lemma elem_of_key_prefixes d k :
  d ∈ key_prefixes k <-> exists i, i < length (split slash k) /\ d = join "/" (take (S i) (split slash k)).
Proof.
  unfold key_prefixes. rewrite list_elem_of_fmap. setoid_rewrite elem_of_seq.
  split; intros (i & H1 & H2); exists i; [|]; split; (done || lia).
Qed.

(** [insert_directories] returns, in strictly ascending order, exactly the
    given keys and the directories that lead to them: a path [d] is listed iff
    some key is [d] itself or continues it after a slash. *)
Theorem insert_directories_spec (keys : list string) :
  StronglySorted str_lt (insert_directories keys) /\
  forall d, d ∈ insert_directories keys <->
            exists k, k ∈ keys /\ (k = d \/ exists rest, k = d +:+ "/" +:+ rest).
Proof.
  split.
  { apply sorted_str_strict. apply NoDup_elements. }
  intros d. unfold insert_directories. rewrite sorted_str_perm.
  rewrite elem_of_elements, elem_of_list_to_set, list_elem_of_In, in_concat.
  split.
  - intros (l & Hl & Hd). apply in_map_iff in Hl as (k & <- & Hk).
    exists k. split; [by apply list_elem_of_In|].
    apply list_elem_of_In, elem_of_key_prefixes in Hd as (i & Hi & ->).
    pose proof (join_split slash k) as Hj. change (String slash "") with "/" in Hj.
    destruct (decide (S i = length (split slash k))) as [E|E].
    + left. by rewrite E, firstn_all, Hj.
    + right. exists (join "/" (drop (S i) (split slash k))).
      rewrite <- join_app_slash, take_drop, Hj; [done|..].
      * intros H%(f_equal length). rewrite length_take in H. cbn [length] in H. lia.
      * intros H%(f_equal length). rewrite length_drop in H. cbn [length] in H. lia.
  - intros (k & Hk & Hd). exists (key_prefixes k).
    split; [apply in_map; by apply list_elem_of_In|].
    apply list_elem_of_In, elem_of_key_prefixes.
    pose proof (split_not_nil slash k) as Hne. destruct Hd as [<-|[rest ->]].
    + exists (length (split slash k) - 1). destruct (split slash k) eqn:E; [done|].
      split; [cbn; lia|]. replace (S (length (s :: l) - 1)) with (length (s :: l)) by (cbn; lia).
      rewrite firstn_all, <- E. symmetry. apply (join_split slash).
    + pose proof (split_app_slash d rest) as E. rewrite E.
      exists (length (split slash d) - 1). rewrite length_app.
      pose proof (split_not_nil slash d). pose proof (split_not_nil slash rest).
      destruct (split slash d) as [|x l] eqn:Ed; [done|].
      split; [cbn; destruct (split slash rest); cbn in *; try done; lia|].
      replace (S (length (x :: l) - 1)) with (length (x :: l)) by (cbn; lia).
      rewrite take_app_length, <- Ed. symmetry. apply (join_split slash).
Qed.

(** The prefix returned by [extract_prefix_from_glob] has no glob
    character, is a path prefix of the pattern, and is maximal: either it is
    the whole pattern or the next component is a glob. *)
Theorem extract_prefix_from_glob_spec (s : string) :
  exists pre rest,
    split slash s = pre ++ rest /\ extract_prefix_from_glob s = join "/" pre /\
    Forall (fun p => is_glob_part p = false) pre /\
    match rest with [] => extract_prefix_from_glob s = s | p :: _ => is_glob_part p = true end.
Proof.
  exists (take_until_glob (split slash s)).
  assert (forall parts, exists rest, parts = take_until_glob parts ++ rest /\
    match rest with [] => True | p :: _ => is_glob_part p = true end /\
    Forall (fun p => is_glob_part p = false) (take_until_glob parts)) as Hg.
  { induction parts as [|p ps (rest & E & Hr & Hf)]; [by exists []|]. cbn [take_until_glob].
    destruct (is_glob_part p) eqn:Ep; [exists (p :: ps); split_and!; (done || constructor)|].
    exists rest. split; [cbn; by rewrite <- E|]. split; [done|by constructor]. }
  destruct (Hg (split slash s)) as (rest & E & Hr & Hf). exists rest.
  split; [done|]. split; [done|]. split; [done|]. destruct rest; [|done].
  unfold extract_prefix_from_glob. rewrite app_nil_r in E. rewrite <- E.
  apply (join_split slash).
Qed.

(** ** Theorems: retries of [safe_makedirs] *)
Lemma safe_makedirs_loop_spec makedirs exist_ok left attempt :
  left + attempt = 5 -> left > 0 ->
  (safe_makedirs_loop makedirs exist_ok left attempt = Ok tt <->
   exists n, attempt <= n < 5 /\
     (forall m, attempt <= m < n -> makedirs m = Err FileNotFoundError) /\
     (makedirs n = Ok tt \/ (exist_ok = true /\ makedirs n = Err FileExistsError))).
Proof.
  revert attempt. induction left as [|left IH]; intros attempt Hsum Hpos; [lia|].
  cbn [safe_makedirs_loop]. destruct (makedirs attempt) as [[]|e] eqn:E.
  - split; [intros _|done]. exists attempt. split; [lia|]. split; [intros; lia|auto].
  - assert (forall P : Prop, (exists n, attempt <= n < 5 /\
       (forall m, attempt <= m < n -> makedirs m = Err FileNotFoundError) /\
       (makedirs n = Ok tt \/ (exist_ok = true /\ makedirs n = Err FileExistsError))) ->
       e <> FileNotFoundError -> (exist_ok = true -> e = FileExistsError -> P) -> P) as Hinv.
    { intros P (n & Hn & Hbefore & Hlast) He HP.
      destruct (decide (n = attempt)) as [->|]; [destruct Hlast as [|[? ?]]; [congruence|]|].
      - apply HP; congruence.
      - specialize (Hbefore attempt ltac:(lia)). congruence. }
    destruct e; try (split; [done|]; intros H; apply (Hinv _ H); done).
    + (* FileNotFoundError *)
      destruct (attempt <? 5 - 1)%nat eqn:Ea; bool_to_prop.
      * rewrite IH by lia. split; intros (n & Hn & Hb & Hl).
        -- exists n. split; [lia|]. split; [|done]. intros m Hm.
           destruct (decide (m = attempt)) as [->|]; [done|]. apply Hb. lia.
        -- exists n. destruct (decide (n = attempt)) as [->|].
           ++ destruct Hl as [|[]]; congruence.
           ++ split; [lia|]. split; [|done]. intros m Hm. apply Hb. lia.
      * split; [done|]. intros (n & Hn & Hb & Hl). replace n with attempt in * by lia.
        destruct Hl as [|[]]; congruence.
    + (* FileExistsError *)
      destruct exist_ok; split; try done.
      * intros _. exists attempt. split; [lia|]. split; [intros; lia|auto].
      * intros H. apply (Hinv _ H); done.
Qed.

(** [safe_makedirs] succeeds iff one of its five attempts creates the
    directory (or, with [exist_ok], finds it) after only [FileNotFoundError]s. *)
Theorem safe_makedirs_spec (makedirs : nat -> res unit) (exist_ok : bool) :
  safe_makedirs makedirs exist_ok = Ok tt <->
  exists n, n < 5 /\
    (forall m, m < n -> makedirs m = Err FileNotFoundError) /\
    (makedirs n = Ok tt \/ (exist_ok = true /\ makedirs n = Err FileExistsError)).
Proof.
  unfold safe_makedirs. rewrite safe_makedirs_loop_spec by lia.
  split; intros (n & Hn & Hb & Hl); exists n; (split; [lia|]; split; [|done]);
    intros m Hm; apply Hb; lia.
Qed.

(** ** Theorems: include and exclude patterns *)

(** The verdict of the last pattern that matches, if any. *)
Definition last_match (patterns : PatternList) (file_path : string) : option PatternType :=
  fst <$> last (filter (fun p => matches_pattern file_path p.2 = true) patterns).

Lemma apply_patterns_last file_path patterns included :
  apply_patterns file_path patterns included =
  match last_match patterns file_path with
  | Some INCLUDE => true
  | Some EXCLUDE => false
  | None => included
  end.
Proof.
  unfold last_match. revert included.
  induction patterns as [|[pt p] ps IH]; intros included; [done|].
  cbn [apply_patterns]. rewrite IH, filter_cons. cbn [snd].
  destruct (matches_pattern file_path p) eqn:E.
  - rewrite decide_True by done. rewrite last_cons.
    destruct (last (filter _ ps)) as [[[] ?]|]; by destruct pt.
  - by rewrite decide_False by done.
Qed.

(** The last pattern that matches a path decides; a path no pattern matches
    is kept unless there are only include patterns. *)
Theorem should_include_file_spec (patterns : PatternList) (file_path : string) :
  should_include_file patterns file_path =
  match last_match patterns file_path with
  | Some INCLUDE => true
  | Some EXCLUDE => false
  | None => negb (has_patterns patterns && forallb (fun p => bool_decide (p.1 = INCLUDE)) patterns)
  end.
Proof.
  unfold should_include_file. rewrite apply_patterns_last.
  destruct (last_match patterns file_path) as [[]|]; [done..|].
  unfold initially_included. induction patterns as [|[[] p] ps IH];
    [done| |cbn; by rewrite andb_false_r].
  cbn -[bool_decide] in *. destruct (existsb (fun p => bool_decide (p.1 = EXCLUDE)) ps) eqn:E;
    cbn -[bool_decide] in *.
  - destruct (forallb _ ps) eqn:Ef; [|done]. exfalso.
    apply existsb_exists in E as (x & Hx & Hx').
    rewrite forallb_forall in Ef. specialize (Ef x Hx).
    rewrite bool_decide_eq_true in *. congruence.
  - destruct (forallb _ ps) eqn:Ef; [done|]. exfalso.
    apply not_true_iff_false in Ef. apply Ef. apply forallb_forall. intros x Hx.
    destruct (x.1) eqn:Ex; [done|]. exfalso. apply not_true_iff_false in E. apply E.
    apply existsb_exists. exists x. split; [done|]. by rewrite bool_decide_eq_true.
Qed.

(** What a sequence of tokens matches, declaratively. *)
Inductive fn_denotes : list FnToken -> string -> Prop :=
  | den_nil : fn_denotes [] ""
  | den_star ts s t : fn_denotes ts t -> fn_denotes (FStar :: ts) (s +:+ t)
  | den_any ts a s : fn_denotes ts s -> fn_denotes (FAny :: ts) (String a s)
  | den_lit ts a s : fn_denotes ts s -> fn_denotes (FLit a :: ts) (String a s)
  | den_class ts neg items a s :
      in_class a items = negb neg -> fn_denotes ts s ->
      fn_denotes (FClass neg items :: ts) (String a s).
#[export] Hint Constructors fn_denotes : py.

Lemma fn_match_star ts s :
  fn_match (FStar :: ts) s = true <-> exists p t, s = p +:+ t /\ fn_match ts t = true.
Proof.
  induction s as [|a s IH].
  - cbn. rewrite orb_false_r. split.
    + intros H. by exists "", "".
    + intros (p & t & E & H). destruct p; [|done]. cbn in E. by subst t.
  - change (fn_match (FStar :: ts) (String a s)) with
      (fn_match ts (String a s) || fn_match (FStar :: ts) s).
    rewrite orb_true_iff, IH. split.
    + intros [H|(p & t & -> & H)]; [by exists "", (String a s)|by exists (String a p), t].
    + intros (p & t & E & H). destruct p as [|b p]; cbn in E; [subst; by left|].
      injection E as <- ->. right. by exists p, t.
Qed.

(** The backtracking matcher accepts exactly the strings its pattern
    denotes: a star stands for any string, a question mark for any character, a
    bracket expression for the characters in (or not in) its ranges. *)
Theorem fnmatch_correct (name pat : string) :
  fnmatch name pat = true <-> fn_denotes (fn_parse (S (String.length pat)) pat) name.
Proof.
  unfold fnmatch. generalize (fn_parse (S (String.length pat)) pat) as toks. intros toks.
  revert name. induction toks as [|[| |a|neg items] ts IH]; intros s.
  - cbn. rewrite bool_decide_eq_true. split; [intros ->; constructor|by inversion 1].
  - rewrite fn_match_star. split.
    + intros (p & t & -> & H%IH). by constructor.
    + inversion 1; subst. eexists _, _. split; [done|]. by apply IH.
  - destruct s as [|b s]; cbn; [by split; inversion 1|]. rewrite IH.
    split; [by constructor|by inversion 1].
  - destruct s as [|b s]; cbn; [by split; inversion 1|].
    rewrite andb_true_iff, bool_decide_eq_true, IH. split.
    + intros [-> H]. by constructor.
    + inversion 1; by subst.
  - destruct s as [|b s]; cbn; [by split; inversion 1|].
    rewrite andb_true_iff, IH. split.
    + intros [Hx H]. constructor; [|done]. by destruct neg, (in_class b items).
    + inversion 1 as [| | | |? ? ? ? ? Hc]; subst. rewrite Hc. by destruct neg.
Qed.

(** ** Theorems: attribute filters *)

(** An equality against a numeric literal never matches and an inequality
    always does, whatever the stored value: the literal is a float and the
    stored value is compared as a string. *)
Theorem numeric_equality_never_matches {F : Type} (py_float : string -> option F)
    (fltb fleb : F -> F -> bool) (py_str : json -> string)
    (k : string) (f : F) (m : attributes) :
  evaluate py_float fltb fleb py_str (Compare k OpEq (VNumber f)) m = Ok false /\
  evaluate py_float fltb fleb py_str (Compare k OpNe (VNumber f)) m =
    Ok (bool_decide (is_Some (m !! k))).
Proof.
  cbn [evaluate]. by destruct (m !! k).
Qed.

(** Filters that compare only with string literals never raise. *)
Fixpoint string_literals {F} (e : FilterExpr (F := F)) : bool :=
  match e with
  | Compare _ _ (VString _) => true
  | Compare _ _ (VNumber _) => false
  | AndExpr a b | OrExpr a b => string_literals a && string_literals b
  | NotExpr a => string_literals a
  end.

(** A filter without numeric literals evaluates on every metadata without
    raising, and conjunction, disjunction and negation have their boolean
    meaning. *)
Theorem evaluate_total {F : Type} (py_float : string -> option F) (fltb fleb : F -> F -> bool)
    (py_str : json -> string) (e : FilterExpr (F := F)) (m : attributes)
    (Hlit : string_literals e = true) :
  exists v, evaluate py_float fltb fleb py_str e m = Ok v /\
    match e with
    | AndExpr a b => exists x y, evaluate py_float fltb fleb py_str a m = Ok x /\
                       evaluate py_float fltb fleb py_str b m = Ok y /\ v = x && y
    | OrExpr a b => exists x y, evaluate py_float fltb fleb py_str a m = Ok x /\
                       evaluate py_float fltb fleb py_str b m = Ok y /\ v = x || y
    | NotExpr a => exists x, evaluate py_float fltb fleb py_str a m = Ok x /\ v = negb x
    | Compare k _ _ => m !! k = None -> v = false
    end.
Proof.
  revert Hlit. induction e as [k op v|a IHa b IHb|a IHa b IHb|a IHa]; cbn; intros Hlit.
  - destruct v as [s|f]; [|done]. destruct (m !! k) as [j|]; [|by exists false].
    destruct op; cbn; [by eexists..| | | |];
      destruct (py_float (str_of py_str j)), (py_float s); by eexists.
  - apply andb_true_iff in Hlit as [Ha Hb].
    destruct (IHa Ha) as (x & Ex & _), (IHb Hb) as (y & Ey & _). rewrite Ex, Ey.
    exists (x && y). cbn. split; [by destruct x|]. by exists x, y.
  - apply andb_true_iff in Hlit as [Ha Hb].
    destruct (IHa Ha) as (x & Ex & _), (IHb Hb) as (y & Ey & _). rewrite Ex, Ey.
    exists (x || y). cbn. split; [by destruct x|]. by exists x, y.
  - destruct (IHa Hlit) as (x & Ex & _). rewrite Ex. exists (negb x). cbn. eauto.
Qed.

Lemma evaluate_total_witness :
  exists v, evaluate (F := Z) py_int Z.ltb Z.leb (fun _ => "")
    (AndExpr (Compare "model" OpEq (VString "gpt")) (Compare "version" OpGt (VString "1")))
    {["model" := JStr "gpt"; "version" := JStr "2"]} = Ok v /\ v = true.
Proof.
  destruct (evaluate_total (F := Z) py_int Z.ltb Z.leb (fun _ => "")
    (AndExpr (Compare "model" OpEq (VString "gpt")) (Compare "version" OpGt (VString "1")))
    {["model" := JStr "gpt"; "version" := JStr "2"]} eq_refl) as (v & Hv & _).
  exists v. split; [exact Hv|]. vm_compute in Hv. congruence.
Defined.

(** ** Theorems: dictionaries and configuration values *)
Lemma dict_get_set (d : dict) k v k' :
  dict_get (dict_set d k v) k' = if decide (k' = k) then Some v else dict_get d k'.
Proof.
  induction d as [|[q w] d IH]; cbn; [done|].
  destruct (decide (k = q)) as [->|Hq]; cbn.
  - by destruct (decide (k' = q)).
  - rewrite IH. destruct (decide (k' = q)), (decide (k' = k)); congruence.
Qed.

(** One step of the loop over [dict2.items()]. *)
Definition merge_item (allow_idempotent : bool) (dict1 : dict) (k : string) (v2 : json)
    : dict * list string :=
  match dict_get dict1 k with
  | None => (dict1 ++ [(k, v2)], [])
  | Some v1 =>
      match v1, v2 with
      | JDict d1, JDict _ =>
          let '(d1', c) := merge_into allow_idempotent d1 v2 in (dict_set dict1 k (JDict d1'), c)
      | _, _ => if allow_idempotent && py_eqb v1 v2 then (dict1, []) else (dict1, [k])
      end
  end.

Lemma merge_into_cons al d k v items :
  merge_into al d (JDict ((k, v) :: items)) =
  (let '(d', c) := merge_item al d k v in
   let '(d'', c') := merge_into al d' (JDict items) in (d'', c ++ c')).
Proof. reflexivity. Qed.

Lemma merge_item_get al d k v k' :
  dict_get (merge_item al d k v).1 k' =
  if decide (k' = k) then
    match dict_get d k, v with
    | None, _ => Some v
    | Some (JDict d1), JDict _ => Some (JDict (merge_into al d1 v).1)
    | Some v1, _ => Some v1
    end
  else dict_get d k'.
Proof.
  unfold merge_item. destruct (dict_get d k) as [v1|] eqn:E.
  - assert (forall c : list string, dict_get (d, c).1 k' =
      if decide (k' = k) then Some v1 else dict_get d k') as Hid.
    { intros c. cbn. destruct (decide (k' = k)) as [->|]; done. }
    destruct v1; try (destruct (al && _); apply Hid).
    destruct v; try (destruct (al && _); apply Hid).
    destruct (merge_into al d0 (JDict d1)) as [d1' c]. cbn [fst].
    rewrite dict_get_set by congruence. done.
  - cbn [fst]. rewrite dict_get_app. cbn.
    destruct (decide (k' = k)) as [->|]; [by rewrite E|]. by destruct (dict_get d k').
Qed.

Lemma merge_into_get al items d k :
  NoDup items.*1 ->
  dict_get (merge_into al d (JDict items)).1 k =
  match dict_get d k, dict_get items k with
  | None, o => o
  | Some (JDict d1), Some (JDict d2) => Some (JDict (merge_into al d1 (JDict d2)).1)
  | Some v1, _ => Some v1
  end.
Proof.
  revert d. induction items as [|[k2 v2] items IH]; intros d Hnd.
  - cbn. by destruct (dict_get d k) as [[]|].
  - rewrite merge_into_cons. inversion Hnd as [|? ? Hni Hnd']; subst.
    pose proof (merge_item_get al d k2 v2 k) as Hi.
    destruct (merge_item al d k2 v2) as [d' c]. cbn [fst] in Hi.
    specialize (IH d' Hnd'). destruct (merge_into al d' (JDict items)) as [d'' c'].
    cbn [fst] in *. rewrite IH, Hi. clear IH Hi. cbn [dict_get].
    destruct (decide (k = k2)) as [->|]; [|done].
    assert (dict_get items k2 = None) as ->.
    { clear -Hni. induction items as [|[q w] items IH]; [done|]. cbn in *.
      rewrite decide_False by set_solver. apply IH. set_solver. }
    destruct (dict_get d k2) as [[]|]; [..|by destruct v2]; try done. by destruct v2.
Qed.

(** Merging never overwrites: a key only in the second dictionary is
    adopted, a key of the first keeps its value unless both values are
    dictionaries, which are merged by the same rule. *)
Theorem merge_no_overwrite (allow_idempotent : bool) (d1 d2 : dict)
    (conflicted_keys : option (list string)) (k : string) (Hnd : NoDup d2.*1) :
  dict_get (merge_dictionaries_no_overwrite (Some d1) (Some d2) conflicted_keys allow_idempotent).1 k =
  match dict_get d1 k, dict_get d2 k with
  | None, o => o
  | Some (JDict a), Some (JDict b) =>
      Some (JDict (merge_dictionaries_no_overwrite (Some a) (Some b) None allow_idempotent).1)
  | Some v, _ => Some v
  end.
Proof.
  unfold merge_dictionaries_no_overwrite. cbn [default id].
  pose proof (merge_into_get allow_idempotent d2 d1 k Hnd) as H.
  destruct (merge_into allow_idempotent d1 (JDict d2)) as [d c]. cbn [fst] in *. rewrite H.
  destruct (dict_get d1 k) as [[]|], (dict_get d2 k) as [[]|]; try done.
  by destruct (merge_into allow_idempotent d0 (JDict d3)).
Qed.

Lemma merge_no_overwrite_witness :
  dict_get (merge_dictionaries_no_overwrite
     (Some [("a", JInt 1); ("b", JDict [("x", JInt 2)])])
     (Some [("a", JInt 9); ("b", JDict [("y", JInt 3)]); ("c", JInt 4)]) None false).1 "b"
  = Some (JDict [("x", JInt 2); ("y", JInt 3)]).
Proof.
  rewrite merge_no_overwrite.
  - reflexivity.
  - apply (bool_decide_unpack _). vm_compute. exact I.
Defined.

Fixpoint json_has_unresolved (v : json) : bool :=
  match v with
  | JStr s => has_unresolved s
  | JList l => (fix go l := match l with [] => false | x :: l' => json_has_unresolved x || go l' end) l
  | JDict d => (fix go d := match d with [] => false | (_, x) :: d' => json_has_unresolved x || go d' end) d
  | _ => false
  end.

(** A value that [expand_env_vars] returns has no environment reference
    left in any string, however deeply nested. *)
Theorem expand_env_vars_resolved (env : gmap string string) :
  forall data v, expand_env_vars env data = Ok v -> json_has_unresolved v = false.
Proof.
  fix IH 1. intros data v. destruct data as [|b|z|s|l|d]; cbn [expand_env_vars].
  - by intros [= <-].
  - by intros [= <-].
  - by intros [= <-].
  - destruct (has_unresolved _) eqn:E; [done|]. by intros [= <-].
  - match goal with |- res_bind ?g _ = _ -> _ => destruct g as [r|] eqn:E end; [|done].
    intros [= <-]. cbn [json_has_unresolved]. revert r E.
    induction l as [|x l IHl]; intros r; [by intros [= <-]|].
    destruct (expand_env_vars env x) as [x'|] eqn:Ex; cbn [res_bind]; [|done].
    match goal with |- res_bind ?g _ = _ -> _ => destruct g as [r'|] eqn:E end; [|done].
    intros [= <-]. by rewrite (IH _ _ Ex), (IHl _ eq_refl).
  - match goal with |- res_bind ?g _ = _ -> _ => destruct g as [r|] eqn:E end; [|done].
    intros [= <-]. cbn [json_has_unresolved]. revert r E.
    induction d as [|[k x] d IHd]; intros r; [by intros [= <-]|].
    destruct (expand_env_vars env x) as [x'|] eqn:Ex; cbn [res_bind]; [|done].
    match goal with |- res_bind ?g _ = _ -> _ => destruct g as [r'|] eqn:E end; [|done].
    intros [= <-]. by rewrite (IH _ _ Ex), (IHd _ eq_refl).
Qed.

Lemma expand_env_vars_resolved_witness :
  exists v, expand_env_vars {["HOME" := "/root"]}
      (JDict [("path", JList [JStr "${HOME}/x"; JStr "$HOME"])]) = Ok v /\
    json_has_unresolved v = false.
Proof.
  eexists. split; [vm_compute; reflexivity|].
  apply (expand_env_vars_resolved {["HOME" := "/root"]}
      (JDict [("path", JList [JStr "${HOME}/x"; JStr "$HOME"])])).
  vm_compute. reflexivity.
Defined.

(** Without environment overrides the computed pool has between one and
    eight processes and at least eight threads per process, for every
    execution mode and every pair of clients. *)
Theorem worker_counts_bounds (cpu_count : Z) (mode : ExecutionMode) (s t : option ClientKind)
    (Hcpu : (1 <= cpu_count)%Z) :
  exists p th, calculate_worker_processes_and_threads cpu_count ∅ None mode s t = Ok (p, th) /\
    (1 <= p <= 8)%Z /\ (p <= cpu_count)%Z /\ (8 <= th)%Z.
Proof.
  unfold calculate_worker_processes_and_threads, getenv_int.
  rewrite !lookup_empty. cbn [res_bind].
  destruct (8 <? cpu_count)%Z eqn:E; bool_to_prop.
  - rewrite (proj2 (Z.eqb_neq _ _)) by lia. cbn [res_bind].
    destruct mode, s as [s|], t as [t|]; try destruct (_ && _); eexists _, _; (split; [done|lia]).
  - rewrite (proj2 (Z.eqb_neq _ _)) by lia. cbn [res_bind].
    destruct mode, s as [s|], t as [t|]; try destruct (_ && _); eexists _, _; (split; [done|lia]).
Qed.

Lemma worker_counts_bounds_witness :
  exists p th, calculate_worker_processes_and_threads 96 ∅ None LOCAL None None = Ok (p, th) /\
    (1 <= p <= 8)%Z /\ (p <= 96)%Z /\ (8 <= th)%Z.
Proof. apply worker_counts_bounds. lia. Defined.

(** ** Expansion is idempotent *)
(** The names that POSIX allows for environment variables *)
Definition well_named (env : gmap string string) : Prop :=
  forall n v, env !! n = Some v -> exists a r, n = String a r /\ is_alpha_ a = true.
Lemma has_unresolved_suffix p s : has_unresolved (p +:+ s) = false -> has_unresolved s = false.
Proof. induction p as [|a p IH]; [done|]. cbn. intros [_ H]%orb_false_iff. by apply IH. Qed.
Lemma span_word_app s : s = (span_word s).1 +:+ (span_word s).2.
Proof. induction s as [|a s IH]; [done|]. cbn. destruct (is_word a); [|done]. destruct (span_word s). cbn in *. by rewrite IH at 1. Qed.
Lemma span_brace_app s w r : span_brace s = Some (w, r) -> s = w +:+ "}" +:+ r.
Proof.
  revert w. induction s as [|a s IH]; [done|]. intros w. cbn. destruct (decide _) as [->|]; [by intros [= <- <-]|].
  destruct (span_brace s) as [[w' r']|]; [|done]. intros [= <- <-]. cbn. f_equal. by apply IH.
Qed.
Lemma expandvars_resolved fuel env s : well_named env -> has_unresolved s = false -> expandvars fuel env s = s.
Proof.
  intros Henv. revert s. induction fuel as [|f IH]; [done|]. intros [|a s] H; [done|]. cbn [expandvars].
  pose proof (has_unresolved_suffix (String a "") s H) as Hs.
  destruct (decide (a = "$"%char)) as [->|]; [|by rewrite IH].
  assert (forall name rest, span_word s = (name, rest) -> name <> "" -> env !! name = None) as Hword.
  { intros name rest Hsp Hne. destruct (env !! name) as [v|] eqn:E; [|done]. destruct (Henv _ _ E) as (b & r & -> & Hb).
    pose proof (span_word_app s) as Happ. rewrite Hsp in Happ. cbn in Happ. rewrite Happ in H. cbn in H. by rewrite Hb in H. }
  assert ((let '(name, rest) := span_word s in
           if bool_decide (name = "") then String "$" (expandvars f env s)
           else match env !! name with Some v => v +:+ expandvars f env rest | None => String "$" (name +:+ expandvars f env rest) end)
          = String "$" s) as Hplain.
  { destruct (span_word s) as [name rest] eqn:Esp. case_bool_decide as Hn; [by rewrite IH|].
    rewrite (Hword name rest eq_refl Hn). pose proof (span_word_app s) as Happ. rewrite Esp in Happ. cbn in Happ.
    rewrite IH; [by rewrite <- Happ|]. apply (has_unresolved_suffix name). by rewrite <- Happ. }
  destruct s as [|b s]; [done|].
  destruct (decide (b = "{"%char)) as [->|Hb].
  - destruct (span_brace s) as [[name rest]|] eqn:Eb; [|by rewrite IH]. cbn in H. rewrite Eb in H.
    assert (name = "") as ->. { destruct (decide (name = "")) as [|Hn]; [done|]. by rewrite (bool_decide_false (name = "") Hn) in H. }
    assert (env !! "" = None) as ->. { destruct (env !! "") as [v|] eqn:E; [|done]. by destruct (Henv _ _ E) as (? & ? & ? & _). }
    pose proof (span_brace_app s _ _ Eb) as ->. cbn. rewrite IH; [done|]. apply (has_unresolved_suffix "{}"). exact Hs.
  - rewrite <- Hplain. destruct b as [[] [] [] [] [] [] [] []]; try done.
Qed.
Lemma expand_env_vars_idempotent env v : well_named env -> json_has_unresolved v = false -> expand_env_vars env v = Ok v.
Proof.
  intros Henv. revert v. fix IH 1. intros [|b|z|s|l|d] H; try done; cbn [expand_env_vars].
  - cbn in H. by rewrite expandvars_resolved, H.
  - match goal with |- res_bind ?g _ = _ => assert (g = Ok l) as -> end; [|done].
    induction l as [|x l IHl]; [done|]. cbn in H. apply orb_false_iff in H as [Hx Hl]. rewrite (IH x Hx). cbn.
    by rewrite IHl.
  - match goal with |- res_bind ?g _ = _ => assert (g = Ok d) as -> end; [|done].
    induction d as [|[k x] d IHd]; [done|]. cbn in H. apply orb_false_iff in H as [Hx Hd]. rewrite (IH x Hx). cbn.
    by rewrite IHd.
Qed.
