(* ===== verification/Json.v ===== *)
(** * The [json] module

    [json.dumps] with its default settings and [json.loads], as the manifest
    code uses them, on the [json] values of [Types].  [dumps] escapes every
    character outside printable ASCII, so its output is one ASCII line;
    [loads] reads the full syntax except floating-point numbers, the
    constants [NaN] and [Infinity] and characters above U+00FF, which have no
    [json] value here and are rejected.  The round trip is proved for every
    value whose dictionaries bind each key once. *)
From S2P Require Import Prelude PyPath Types Utils.

(** ** Definitions: writing *)
Definition dquote : ascii := "034"%char.
Definition bslash : ascii := "\"%char.
Definition hex_digit (n : nat) : ascii :=
  if (n <? 10)%nat then Ascii.ascii_of_nat (48 + n) else Ascii.ascii_of_nat (87 + n).

(** [json.encoder.py_encode_basestring_ascii] on one character *)
Definition esc_char (c : ascii) : string :=
  let n := Ascii.nat_of_ascii c in
  if (n =? 34)%nat then String bslash (String dquote "")
  else if (n =? 92)%nat then String bslash (String bslash "")
  else if (n =? 10)%nat then String bslash "n"
  else if (n =? 13)%nat then String bslash "r"
  else if (n =? 9)%nat then String bslash "t"
  else if (n =? 12)%nat then String bslash "f"
  else if (n =? 8)%nat then String bslash "b"
  else if (32 <=? n)%nat && (n <=? 126)%nat then String c ""
  else String bslash (String "u" (String "0" (String "0"
         (String (hex_digit (n / 16)) (String (hex_digit (n mod 16)) ""))))).
Fixpoint esc (s : string) : string :=
  match s with EmptyString => EmptyString | String c s' => esc_char c +:+ esc s' end.
Definition quote (s : string) : string := String dquote (esc s +:+ String dquote "").

(** [json.dumps] *)
Fixpoint dumps (j : json) : string :=
  match j with
  | JNull => "null"
  | JBool true => "true"
  | JBool false => "false"
  | JInt z => pretty z
  | JStr s => quote s
  | JList l => "[" +:+ join ", " (map dumps l) +:+ "]"
  | JDict d => "{" +:+ join ", " (map (fun kv => quote kv.1 +:+ ": " +:+ dumps kv.2) d) +:+ "}"
  end.

(** ** Definitions: reading *)
Fixpoint skip_ws (s : string) : string :=
  match s with
  | String c s' => if bool_decide (c ∈ [" "; "009"; "010"; "013"]%char) then skip_ws s' else s
  | EmptyString => EmptyString
  end.
(** The next character is [c]. *)
Definition expect (c : ascii) (s : string) : option string :=
  match s with
  | String a s' => if decide (a = c) then Some s' else None
  | EmptyString => None
  end.

Definition hex_value (c : ascii) : option nat :=
  let n := Ascii.nat_of_ascii c in
  if (48 <=? n)%nat && (n <=? 57)%nat then Some (n - 48)
  else if (97 <=? n)%nat && (n <=? 102)%nat then Some (n - 87)
  else if (65 <=? n)%nat && (n <=? 70)%nat then Some (n - 55)
  else None.
Definition simple_escape (c : ascii) : option ascii :=
  let n := Ascii.nat_of_ascii c in
  if (n =? 34)%nat then Some dquote
  else if (n =? 92)%nat then Some bslash
  else if (n =? 47)%nat then Some slash
  else if (n =? 110)%nat then Some "010"%char
  else if (n =? 114)%nat then Some "013"%char
  else if (n =? 116)%nat then Some "009"%char
  else if (n =? 102)%nat then Some "012"%char
  else if (n =? 98)%nat then Some "008"%char
  else None.

(** The rest of a string literal after its opening quote *)
Fixpoint parse_string (s : string) : option (string * string) :=
  match s with
  | EmptyString => None
  | String c s1 =>
      if decide (c = dquote) then Some (EmptyString, s1)
      else if decide (c = bslash) then
        match s1 with
        | EmptyString => None
        | String e s2 =>
            match simple_escape e with
            | Some x =>
                match parse_string s2 with Some (t, r) => Some (String x t, r) | None => None end
            | None =>
                if decide (e = "u"%char) then
                  match s2 with
                  | String h1 (String h2 (String h3 (String h4 s3))) =>
                      match hex_value h1, hex_value h2, hex_value h3, hex_value h4 with
                      | Some 0, Some 0, Some a, Some b =>
                          match parse_string s3 with
                          | Some (t, r) => Some (String (Ascii.ascii_of_nat (16 * a + b)) t, r)
                          | None => None
                          end
                      | _, _, _, _ => None
                      end
                  | _ => None
                  end
                else None
            end
        end
      else if (Ascii.nat_of_ascii c <? 32)%nat then None
      else match parse_string s1 with Some (t, r) => Some (String c t, r) | None => None end
  end.

Fixpoint span_digits (s : string) : string * string :=
  match s with
  | String c s' => if is_digit c then let '(d, r) := span_digits s' in (String c d, r) else (EmptyString, s)
  | EmptyString => (EmptyString, EmptyString)
  end.
(** An integer literal: no leading zero, no fraction, no exponent *)
Definition parse_int (s : string) : option (json * string) :=
  let '(sign, t) := match expect "-"%char s with Some t => ((-1)%Z, t) | None => (1%Z, s) end in
  let '(ds, r) := span_digits t in
  if startswith ds "0" && negb (bool_decide (ds = "0")) then None
  else if startswith r "." || startswith r "e" || startswith r "E" then None
  else match digits_value ds 0 false with
       | Some z => Some (JInt (sign * z)%Z, r)
       | None => None
       end.

(** A dictionary literal: a later binding of a key replaces an earlier one *)
Definition dict_of_pairs (ps : list (string * json)) : dict :=
  fold_left (fun d kv => dict_set d kv.1 kv.2) ps [].

(** The value at the start of the text, and the rest.  The fuel bounds the
    number of values and members read. *)
Fixpoint parse_value (n : nat) (s : string) {struct n} : option (json * string) :=
  match n with
  | 0 => None
  | S m =>
      match expect dquote s with
      | Some s1 => match parse_string s1 with Some (x, r) => Some (JStr x, r) | None => None end
      | None =>
      match expect "["%char s with
      | Some s1 =>
          match expect "]"%char (skip_ws s1) with
          | Some r => Some (JList [], r)
          | None => match parse_elements m (skip_ws s1) with Some (l, r) => Some (JList l, r) | None => None end
          end
      | None =>
      match expect "{"%char s with
      | Some s1 =>
          match expect "}"%char (skip_ws s1) with
          | Some r => Some (JDict [], r)
          | None => match parse_members m (skip_ws s1) with
                    | Some (l, r) => Some (JDict (dict_of_pairs l), r)
                    | None => None
                    end
          end
      | None =>
          if startswith s "null" then Some (JNull, str_drop 4 s)
          else if startswith s "true" then Some (JBool true, str_drop 4 s)
          else if startswith s "false" then Some (JBool false, str_drop 5 s)
          else parse_int s
      end end end
  end
with parse_elements (n : nat) (s : string) {struct n} : option (list json * string) :=
  match n with
  | 0 => None
  | S m =>
      match parse_value m s with
      | None => None
      | Some (x, r) =>
          match expect ","%char (skip_ws r) with
          | Some r1 => match parse_elements m (skip_ws r1) with Some (l, r2) => Some (x :: l, r2) | None => None end
          | None => match expect "]"%char (skip_ws r) with Some r1 => Some ([x], r1) | None => None end
          end
      end
  end
with parse_members (n : nat) (s : string) {struct n} : option (list (string * json) * string) :=
  match n with
  | 0 => None
  | S m =>
      match expect dquote s with
      | None => None
      | Some s1 =>
      match parse_string s1 with
      | None => None
      | Some (k, s2) =>
      match expect ":"%char (skip_ws s2) with
      | None => None
      | Some s3 =>
      match parse_value m (skip_ws s3) with
      | None => None
      | Some (x, r) =>
          match expect ","%char (skip_ws r) with
          | Some r1 => match parse_members m (skip_ws r1) with Some (l, r2) => Some ((k, x) :: l, r2) | None => None end
          | None => match expect "}"%char (skip_ws r) with Some r1 => Some ([(k, x)], r1) | None => None end
          end
      end end end end
  end.

(** [json.loads]: [None] is [JSONDecodeError], a [ValueError] *)
Definition loads (s : string) : option json :=
  match parse_value (S (2 * String.length s)) (skip_ws s) with
  | Some (j, r) => if bool_decide (skip_ws r = "") then Some j else None
  | None => None
  end.

(** ** Values whose dictionaries bind each key once *)
Fixpoint wf_json (j : json) : Prop :=
  match j with
  | JList l => fold_right (fun x P => wf_json x /\ P) True l
  | JDict d => NoDup d.*1 /\ fold_right (fun kv P => wf_json kv.2 /\ P) True d
  | _ => True
  end.

(** Induction with the hypothesis for every element and member. *)
Section json_ind.
Context (P : json -> Prop).
Hypothesis Hnull : P JNull.
Hypothesis Hbool : forall b, P (JBool b).
Hypothesis Hint : forall z, P (JInt z).
Hypothesis Hstr : forall s, P (JStr s).
Hypothesis Hlist : forall l, Forall P l -> P (JList l).
Hypothesis Hdict : forall d, Forall (fun kv => P kv.2) d -> P (JDict d).
Fixpoint json_nested_ind (j : json) : P j :=
  match j with
  | JNull => Hnull
  | JBool b => Hbool b
  | JInt z => Hint z
  | JStr s => Hstr s
  | JList l => Hlist l ((fix go l : Forall P l :=
      match l with [] => List.Forall_nil _ | x :: l' => List.Forall_cons _ _ _ (json_nested_ind x) (go l') end) l)
  | JDict d => Hdict d ((fix go d : Forall (fun kv => P kv.2) d :=
      match d with [] => List.Forall_nil _ | kv :: d' => List.Forall_cons _ _ _ (json_nested_ind kv.2) (go d') end) d)
  end.
End json_ind.

(** ** Strings *)
Lemma parse_esc_char c t :
  parse_string (esc_char c +:+ t) =
  match parse_string t with Some (x, r) => Some (String c x, r) | None => None end.
Proof. destruct c as [[] [] [] [] [] [] [] []]; reflexivity. Qed.

Lemma parse_string_esc s rest : parse_string (esc s +:+ String dquote rest) = Some (s, rest).
Proof.
  induction s as [|c s IH]; [done|]. cbn [esc]. by rewrite str_app_assoc, parse_esc_char, IH.
Qed.

(** ** Numbers *)
(** What can follow a value inside a document. *)
Definition follow (r : string) : bool :=
  match r with
  | EmptyString => true
  | String c _ => bool_decide (c ∈ [","; "]"; "}"]%char)
  end.

Lemma follow_spec c r :
  follow (String c r) = true -> c = ","%char \/ c = "]"%char \/ c = "}"%char.
Proof. cbn. rewrite bool_decide_eq_true. set_solver. Qed.

Lemma follow_digit c r : follow (String c r) = true -> is_digit c = false.
Proof. by intros [->|[->| ->]]%follow_spec. Qed.

Lemma follow_ws r : follow r = true -> skip_ws r = r.
Proof. destruct r as [|c r]; [done|]. by intros [->|[->| ->]]%follow_spec. Qed.

Lemma span_digits_app d r :
  all_chars is_digit d = true -> follow r = true -> span_digits (d +:+ r) = (d, r).
Proof.
  intros Hd Hr. induction d as [|c d IH]; cbn in *.
  - destruct r as [|c r]; [done|]. cbn. by rewrite (follow_digit c r).
  - apply andb_true_iff in Hd as [Hc Hd]. rewrite Hc. by rewrite IH.
Qed.

Lemma pretty_N_go_head x s :
  (0 < x)%N -> startswith (pretty_N_go x s) "0" = false.
Proof.
  revert s. induction (N.lt_wf_0 x) as [x _ IH]; intros s Hx.
  rewrite pretty_N_go_step by lia. destruct (decide (x / 10 = 0)%N) as [E|E].
  - rewrite E, pretty_N_go_0.
    assert (x < 10)%N as Hlt by (apply N.div_small_iff in E; lia).
    rewrite N.mod_small by done.
    assert (x = 1 \/ x = 2 \/ x = 3 \/ x = 4 \/ x = 5 \/ x = 6 \/ x = 7 \/ x = 8 \/ x = 9)%N as H by lia.
    by repeat (destruct H as [->|H]; [done|]); subst.
  - apply IH; [apply N.div_lt; lia|by apply N.neq_0_lt_0].
Qed.

Lemma parse_digits sign ds z r :
  follow r = true -> all_chars is_digit ds = true -> digits_value ds 0 false = Some z ->
  startswith ds "0" && negb (bool_decide (ds = "0")) = false ->
  (let '(ds, r) := span_digits (ds +:+ r) in
   if startswith ds "0" && negb (bool_decide (ds = "0")) then None
   else if startswith r "." || startswith r "e" || startswith r "E" then None
   else match digits_value ds 0 false with
        | Some z => Some (JInt (sign * z)%Z, r)
        | None => None
        end) = Some (JInt (sign * z)%Z, r).
Proof.
  intros Hr Hd Hz H0. rewrite span_digits_app by done. rewrite H0, Hz.
  destruct r as [|c r]; [done|]. by apply follow_spec in Hr as [->|[->| ->]].
Qed.

Lemma pretty_pos_head p : startswith (pretty (Z.pos p)) "0" = false.
Proof. by apply (pretty_N_go_head (N.pos p) ""). Qed.

Lemma expect_digit c s r : is_digit c = false -> all_chars is_digit s = true -> s <> "" ->
  expect c (s +:+ r) = None.
Proof.
  destruct s as [|a s]; [done|]. cbn. intros Hc [Ha _]%andb_true_iff _.
  case_decide; [congruence|done].
Qed.

Lemma parse_int_pretty z r :
  follow r = true -> parse_int (pretty z +:+ r) = Some (JInt z, r).
Proof.
  intros Hr. unfold parse_int. destruct z as [|p|p].
  - destruct (pretty_Z_nonneg 0) as [H1 H2]; [done|].
    rewrite (expect_digit "-"%char (pretty 0%Z)) by done. by apply (parse_digits 1 "0" 0).
  - destruct (pretty_Z_nonneg (Z.pos p)) as [H1 H2]; [done|].
    rewrite expect_digit; [|done|done|by intros E; rewrite E in H2].
    rewrite (parse_digits 1 _ (Z.pos p)) by (try done; by rewrite pretty_pos_head). by rewrite Z.mul_1_l.
  - destruct (pretty_Z_nonneg (Z.pos p)) as [H1 H2]; [done|].
    change (pretty (Z.neg p) +:+ r) with (String "-" (pretty (Z.pos p) +:+ r)).
    cbn [expect]. rewrite decide_True by done.
    by rewrite (parse_digits (-1) _ (Z.pos p)) by (try done; by rewrite pretty_pos_head).
Qed.

(** ** The round trip *)
Fixpoint jsize (j : json) : nat :=
  match j with
  | JList l => S (fold_right (fun x n => S (jsize x + n)) 0 l)
  | JDict d => S (fold_right (fun kv n => S (jsize kv.2 + n)) 0 d)
  | _ => 1
  end.

Definition parses (j : json) : Prop :=
  wf_json j -> forall n r, jsize j <= n -> follow r = true ->
  parse_value n (dumps j +:+ r) = Some (j, r).

(** The first character of a document is not white space or a bracket. *)
Lemma dumps_head j r :
  skip_ws (dumps j +:+ r) = dumps j +:+ r /\
  expect "]"%char (dumps j +:+ r) = None /\ expect "}"%char (dumps j +:+ r) = None.
Proof.
  destruct j as [|[]|z|s|l|d]; try done. cbn [dumps].
  destruct z as [|p|p]; [done| |done].
  destruct (pretty_Z_nonneg (Z.pos p)) as [H1 H2]; [done|].
  destruct (pretty (Z.pos p)) as [|c s]; [done|]. clear H2. cbn in H1.
  apply andb_true_iff in H1 as [Hc _]. destruct c as [[] [] [] [] [] [] [] []]; done.
Qed.

Lemma parse_value_leaf n z r : follow r = true -> parse_value (S n) (pretty z +:+ r) = Some (JInt z, r).
Proof.
  intros Hr. rewrite <- (parse_int_pretty z r Hr). destruct z as [|p|p]; [done| |done].
  destruct (pretty_Z_nonneg (Z.pos p)) as [H1 H2]; [done|].
  destruct (pretty (Z.pos p)) as [|c s]; [done|]. clear H2. cbn in H1.
  apply andb_true_iff in H1 as [Hc _]. destruct c as [[] [] [] [] [] [] [] []]; done.
Qed.

Lemma parse_elements_dumps l n r :
  Forall parses l -> l <> [] -> fold_right (fun x P => wf_json x /\ P) True l ->
  fold_right (fun x n => S (jsize x + n)) 0 l <= n ->
  parse_elements n (join ", " (map dumps l) +:+ "]" +:+ r) = Some (l, r).
Proof.
  intros Hl. revert n. induction Hl as [|x l Hx Hl IH]; intros n Hne Hwf Hn; [done|].
  cbn in Hwf, Hn. destruct Hwf as [Hwx Hwl]. destruct n as [|n]; [lia|]. cbn [parse_elements].
  destruct l as [|y l].
  - cbn [map join]. rewrite Hx by (try done; lia). done.
  - cbn [map]. rewrite join_cons by done. rewrite !str_app_assoc.
    rewrite Hx by (try done; cbn in Hn; lia). cbn [expect skip_ws].
    replace (skip_ws (", " +:+ _)) with (", " +:+ join ", " (map dumps (y :: l)) +:+ "]" +:+ r) by done.
    change (expect ","%char (", " +:+ ?t)) with (Some (" " +:+ t)). cbv iota.
    assert (forall t, skip_ws (" " +:+ t) = skip_ws t) as -> by done.
    assert (skip_ws (join ", " (map dumps (y :: l)) +:+ "]" +:+ r) = join ", " (map dumps (y :: l)) +:+ "]" +:+ r) as ->.
    { cbn [map]. destruct l; cbn [map]; [apply dumps_head|].
      rewrite join_cons by done. rewrite !str_app_assoc. apply dumps_head. }
    by rewrite IH by (try done; lia).
Qed.

Definition member (kv : string * json) : string := quote kv.1 +:+ ": " +:+ dumps kv.2.

Lemma parse_members_dumps d n r :
  Forall (fun kv => parses kv.2) d -> d <> [] -> fold_right (fun kv P => wf_json kv.2 /\ P) True d ->
  fold_right (fun kv n => S (jsize kv.2 + n)) 0 d <= n ->
  parse_members n (join ", " (map member d) +:+ "}" +:+ r) = Some (d, r).
Proof.
  intros Hd. revert n. induction Hd as [|[k x] d Hx Hd IH]; intros n Hne Hwf Hn; [done|].
  cbn in Hwf, Hn, Hx. destruct Hwf as [Hwx Hwl]. destruct n as [|n]; [lia|]. cbn [parse_members].
  assert (forall t, expect dquote (quote k +:+ ": " +:+ dumps x +:+ t) =
    Some (esc k +:+ String dquote (": " +:+ dumps x +:+ t))) as Hq.
  { intros t. unfold quote. cbn [String.append expect]. rewrite decide_True by done. by rewrite str_app_assoc. }
  assert (forall t, skip_ws (" " +:+ dumps x +:+ t) = dumps x +:+ t) as Hws.
  { intros t. apply (dumps_head x t). }
  destruct d as [|kv d].
  - cbn [map join]. unfold member. cbn [fst snd]. rewrite !str_app_assoc, Hq, parse_string_esc.
    change (expect ":"%char (skip_ws (": " +:+ ?t))) with (Some (" " +:+ t)). cbv iota.
    rewrite Hws, Hx by (try done; lia). done.
  - change (map member ((k, x) :: kv :: d)) with (member (k, x) :: map member (kv :: d)).
    rewrite join_cons by done. unfold member at 1. cbn [fst snd].
    rewrite !str_app_assoc, Hq, parse_string_esc.
    change (expect ":"%char (skip_ws (": " +:+ ?t))) with (Some (" " +:+ t)). cbv iota.
    rewrite Hws, Hx by (try done; cbn in Hn; lia).
    change (expect ","%char (skip_ws (", " +:+ ?t))) with (Some (" " +:+ t)). cbv iota.
    assert (skip_ws (" " +:+ join ", " (map member (kv :: d)) +:+ "}" +:+ r)
            = join ", " (map member (kv :: d)) +:+ "}" +:+ r) as ->.
    { cbn [map]. destruct d; cbn [map]; [done|]. by rewrite join_cons by done. }
    by rewrite IH by (try done; lia).
Qed.

Lemma dict_set_fresh (d : dict) k v : k ∉ d.*1 -> dict_set d k v = d ++ [(k, v)].
Proof.
  induction d as [|[k' v'] d IH]; [done|]. cbn. intros H.
  rewrite decide_False by set_solver. f_equal. apply IH. set_solver.
Qed.

Lemma dict_of_pairs_NoDup d : NoDup d.*1 -> dict_of_pairs d = d.
Proof.
  unfold dict_of_pairs. intros Hd.
  assert (forall acc : dict, NoDup (acc.*1 ++ d.*1) ->
    fold_left (fun d kv => dict_set d kv.1 kv.2) d acc = acc ++ d) as H; [|by apply (H [])].
  clear Hd. induction d as [|[k v] d IH]; intros acc Hnd; cbn; [by rewrite app_nil_r|].
  rewrite dict_set_fresh.
  2:{ apply NoDup_app in Hnd as (_ & H & _). intros Hin. apply (H _ Hin). cbn. set_solver. }
  rewrite IH, <- app_assoc; [done|]. rewrite fmap_app, <- app_assoc. exact Hnd.
Qed.

Lemma parse_value_dumps j : parses j.
Proof.
  induction j as [|b|z|s|l IH|d IH] using json_nested_ind; intros Hwf n r Hn Hr;
    (destruct n as [|n]; [cbn in Hn; lia|]).
  - done.
  - by destruct b.
  - by apply parse_value_leaf.
  - cbn [dumps parse_value]. unfold quote. cbn [String.append expect]. rewrite decide_True by done.
    rewrite str_app_assoc, (parse_string_esc s r : parse_string (_ +:+ (String dquote "" +:+ r)) = _).
    done.
  - cbn in Hwf, Hn. cbn [dumps]. rewrite !str_app_assoc.
    destruct l as [|x l]; [done|].
    pose proof (parse_elements_dumps (x :: l) n r IH ltac:(done) Hwf (le_S_n _ _ Hn)) as H.
    change (parse_value (S n) ("[" +:+ ?t)) with
      (match expect "]"%char (skip_ws t) with
       | Some r => Some (JList [], r)
       | None => match parse_elements n (skip_ws t) with Some (l, r) => Some (JList l, r) | None => None end
       end).
    assert (skip_ws (join ", " (map dumps (x :: l)) +:+ "]" +:+ r) = join ", " (map dumps (x :: l)) +:+ "]" +:+ r
      /\ expect "]"%char (join ", " (map dumps (x :: l)) +:+ "]" +:+ r) = None) as [-> ->].
    { cbn [map]. destruct l; cbn [map]; [split; apply dumps_head|].
      rewrite join_cons by done. rewrite !str_app_assoc. split; apply dumps_head. }
    by rewrite H.
  - cbn in Hwf, Hn. destruct Hwf as [Hnd Hwf]. cbn [dumps]. rewrite !str_app_assoc.
    destruct d as [|kv d]; [done|].
    pose proof (parse_members_dumps (kv :: d) n r IH ltac:(done) Hwf (le_S_n _ _ Hn)) as H.
    change (parse_value (S n) ("{" +:+ ?t)) with
      (match expect "}"%char (skip_ws t) with
       | Some r => Some (JDict [], r)
       | None => match parse_members n (skip_ws t) with
                 | Some (l, r) => Some (JDict (dict_of_pairs l), r) | None => None end
       end).
    change (map (fun kv => quote kv.1 +:+ ": " +:+ dumps kv.2)) with (map member).
    assert (skip_ws (join ", " (map member (kv :: d)) +:+ "}" +:+ r) = join ", " (map member (kv :: d)) +:+ "}" +:+ r
      /\ expect "}"%char (join ", " (map member (kv :: d)) +:+ "}" +:+ r) = None) as [-> ->].
    { cbn [map]. destruct d; cbn [map]; [done|]. by rewrite join_cons by done. }
    rewrite H. by rewrite dict_of_pairs_NoDup.
Qed.

(** The fuel of [loads] is enough. *)
Lemma join_length l : Forall (fun s => 1 <= String.length s) l ->
  fold_right (fun s n => S (2 * String.length s + n)) 0 l <= 2 * String.length (join ", " l) + 2.
Proof.
  induction 1 as [|s l Hs Hl IH]; [cbn; lia|]. destruct l as [|t l]; [cbn in *; lia|].
  rewrite join_cons by done. rewrite !str_length_app. cbn [fold_right] in *. cbn [String.length]. lia.
Qed.

Lemma fold_size_le {A} (size : A -> nat) (f : A -> string) l :
  Forall (fun x => size x <= 2 * String.length (f x)) l ->
  fold_right (fun x n => S (size x + n)) 0 l <=
  fold_right (fun s n => S (2 * String.length s + n)) 0 (map f l).
Proof. induction 1; cbn in *; lia. Qed.

Lemma jsize_length j : jsize j <= 2 * String.length (dumps j) /\ 1 <= String.length (dumps j).
Proof.
  induction j as [|[]|z|s|l IH|d IH] using json_nested_ind; cbn [jsize dumps]; try (cbn; lia).
  - assert (1 <= String.length (pretty z)); [|lia].
    destruct z as [|p|p]; [cbn; lia| |cbn; lia].
    destruct (pretty_Z_nonneg (Z.pos p)) as [_ H]; [done|]. destruct (pretty (Z.pos p)); [done|cbn; lia].
  - rewrite !str_length_app. cbn [String.length].
    assert (Forall (fun s => 1 <= String.length s) (map dumps l)) as Hpos.
    { apply Forall_map. eapply Forall_impl; [exact IH|]. naive_solver. }
    pose proof (join_length _ Hpos). pose proof (fold_size_le jsize dumps l) as H'.
    rewrite Forall_forall in IH, H'. specialize (H' (fun x Hx => proj1 (IH x Hx))). lia.
  - change (map (fun kv => quote kv.1 +:+ ": " +:+ dumps kv.2)) with (map member).
    rewrite !str_length_app. cbn [String.length].
    assert (Forall (fun s => 1 <= String.length s) (map member d)) as Hpos.
    { apply Forall_map, Forall_forall. intros [k x] _. cbn. lia. }
    pose proof (join_length _ Hpos). pose proof (fold_size_le (fun kv => jsize kv.2) member d) as H'.
    rewrite Forall_forall in IH, H'.
    assert (forall x, x ∈ d -> jsize x.2 <= 2 * String.length (member x)) as Hm.
    { intros x Hx. destruct (IH x Hx) as [Hj _]. unfold member. rewrite !str_length_app. lia. }
    specialize (H' Hm). lia.
Qed.

(** [json.loads(json.dumps(j)) == j] *)
Lemma loads_dumps j : wf_json j -> loads (dumps j) = Some j.
Proof.
  intros Hwf. unfold loads. destruct (dumps_head j "") as [Hws _]. rewrite str_app_nil_r in Hws.
  rewrite Hws. pose proof (jsize_length j) as [Hs _].
  pose proof (parse_value_dumps j Hwf (S (2 * String.length (dumps j))) "" ltac:(lia) eq_refl) as H.
  rewrite str_app_nil_r in H. by rewrite H.
Qed.

(** ** The output is one line of printable ASCII *)
Definition printable (c : ascii) : bool :=
  let n := Ascii.nat_of_ascii c in (32 <=? n)%nat && (n <=? 126)%nat.

Lemma all_chars_join P l : P ","%char = true -> P " "%char = true ->
  Forall (fun s => all_chars P s = true) l -> all_chars P (join ", " l) = true.
Proof.
  intros H1 H2. induction 1 as [|s l Hs Hl IH]; [done|]. destruct l as [|t l]; [done|].
  rewrite join_cons by done. rewrite !all_chars_app, Hs, IH. cbn. by rewrite H1, H2.
Qed.

Lemma quote_printable s : all_chars printable (quote s) = true.
Proof.
  assert (all_chars printable (esc s) = true) as H; [|unfold quote; cbn [all_chars];
    by rewrite all_chars_app, H].
  induction s as [|c s IH]; [done|]. cbn [esc]. rewrite all_chars_app, IH, andb_true_r.
  by destruct c as [[] [] [] [] [] [] [] []].
Qed.

Lemma is_digit_printable s : all_chars is_digit s = true -> all_chars printable s = true.
Proof.
  induction s as [|c s IH]; [done|]. cbn. intros [Hc Hs]%andb_true_iff. rewrite IH by done.
  rewrite andb_true_r. by destruct c as [[] [] [] [] [] [] [] []].
Qed.

Lemma dumps_printable j : all_chars printable (dumps j) = true.
Proof.
  induction j as [|[]|z|s|l IH|d IH] using json_nested_ind; try done; cbn [dumps].
  - destruct z as [|p|p]; [done|by apply is_digit_printable, pretty_Z_nonneg|].
    change (pretty (Z.neg p)) with (String "-" (pretty (Z.pos p))).
    change (all_chars printable (pretty (Z.pos p)) = true). by apply is_digit_printable, pretty_Z_nonneg.
  - apply quote_printable.
  - rewrite !all_chars_app, all_chars_join; [done|done|done|]. by apply Forall_map.
  - rewrite !all_chars_app, all_chars_join; [done|done|done|]. apply Forall_map.
    eapply Forall_impl; [exact IH|]. intros [k x] Hx. cbn [fst snd] in *.
    by rewrite !all_chars_app, quote_printable, Hx.
Qed.

(** ** Decidable equality *)
Lemma json_eqb_eq a b : json_eqb a b = true <-> a = b.
Proof.
  revert b. induction a as [|x|z|s|l IH|d IH] using json_nested_ind; intros b; destruct b; try done; cbn.
  - rewrite Bool.eqb_true_iff. split; congruence.
  - rewrite Z.eqb_eq. split; congruence.
  - rewrite String.eqb_eq. split; congruence.
  - revert l0. induction IH as [|x l Hx Hl IHl]; intros [|y m]; try done.
    rewrite andb_true_iff, Hx, IHl. split; [intros [-> [= ->]]; done|]. by intros [= -> ->].
  - revert d0. induction IH as [|[k x] l Hx Hl IHl]; intros [|[k' y] m]; try done.
    rewrite !andb_true_iff, String.eqb_eq, Hx, IHl. cbn.
    split; [intros [[-> ->] [= ->]]; done|]. by intros [= -> -> ->].
Qed.
#[export] Instance json_eq_dec : EqDecision json.
Proof. intros a b. destruct (json_eqb a b) eqn:E; [left|right]; rewrite <- json_eqb_eq, E; done. Defined.
