(* ===== verification/CloudFront.v ===== *)
(** * Signed CloudFront URLs ([signers/cloudfront.py])

    Base64, as the signers and the explorer use it, with its inverse and the
    alphabet that CloudFront puts in URLs; the signer with its cached key, and
    the canned policy that is signed.  The cryptography package is a parameter:
    loading a private key and signing with it. *)
From S2P Require Import Prelude PyPath Types Utils Json.

Section Base64.
Local Open Scope N_scope.

(** ** Definitions: Base64 *)
Definition b64_char (n : N) : ascii :=
  Ascii.ascii_of_N (if n <? 26 then n + 65 else if n <? 52 then n + 71 else if n <? 62 then n - 4 else if n =? 62 then 43 else 47).
Definition b64_value (c : ascii) : option N :=
  let n := Ascii.N_of_ascii c in
  if (65 <=? n) && (n <=? 90) then Some (n - 65)
  else if (97 <=? n) && (n <=? 122) then Some (n - 71)
  else if (48 <=? n) && (n <=? 57) then Some (n + 4)
  else if n =? 43 then Some 62 else if n =? 47 then Some 63 else None.
Definition sextet (n i : N) : ascii := b64_char (n / 64 ^ i mod 64).
(** [base64.b64encode] *)
Fixpoint b64encode (l : bytes) : string :=
  match l with
  | [] => ""
  | [a] => let n := Byte.to_N a * 65536 in String (sextet n 3) (String (sextet n 2) "==")
  | [a; b] =>
      let n := Byte.to_N a * 65536 + Byte.to_N b * 256 in
      String (sextet n 3) (String (sextet n 2) (String (sextet n 1) "="))
  | a :: b :: c :: l' =>
      let n := Byte.to_N a * 65536 + Byte.to_N b * 256 + Byte.to_N c in
      String (sextet n 3) (String (sextet n 2) (String (sextet n 1) (String (sextet n 0) (b64encode l'))))
  end.
Definition octet (n i : N) : option byte := Byte.of_N (n / 256 ^ i mod 256).
Definition padding (c : ascii) : bool := bool_decide (c = "="%char).
(** [base64.b64decode] of a text without other characters *)
Fixpoint b64decode (s : string) : option bytes :=
  match s with
  | EmptyString => Some []
  | String c3 (String c2 (String c1 (String c0 s'))) =>
      v3 ← b64_value c3; v2 ← b64_value c2;
      if padding c1 then
        if padding c0 && bool_decide (s' = "") then a ← octet (v3 * 262144 + v2 * 4096) 2; Some [a] else None
      else
        v1 ← b64_value c1;
        if padding c0 then
          if bool_decide (s' = "") then
            let n := v3 * 262144 + v2 * 4096 + v1 * 64 in a ← octet n 2; b ← octet n 1; Some [a; b]
          else None
        else
          v0 ← b64_value c0;
          let n := v3 * 262144 + v2 * 4096 + v1 * 64 + v0 in
          a ← octet n 2; b ← octet n 1; c ← octet n 0; l ← b64decode s'; Some (a :: b :: c :: l)
  | _ => None
  end.
(** [_cf_b64encode] *)
Definition cf_char (c : ascii) : ascii :=
  if bool_decide (c = "+"%char) then "-"%char else if bool_decide (c = "="%char) then "_"%char else if bool_decide (c = "/"%char) then "~"%char else c.
Definition cf_b64encode (l : bytes) : string := str_map cf_char (b64encode l).
Definition cf_char_back (c : ascii) : ascii :=
  if bool_decide (c = "-"%char) then "+"%char else if bool_decide (c = "_"%char) then "="%char else if bool_decide (c = "~"%char) then "/"%char else c.
Definition cf_b64decode (s : string) : option bytes := b64decode (str_map cf_char_back s).

(** ** Decoding inverts encoding *)
Definition below_64 : list N := map N.of_nat (seq 0 64).
Lemma below_64_spec n : n < 64 -> n ∈ below_64.
Proof. intros H. apply list_elem_of_fmap. exists (N.to_nat n). split; [lia|]. apply elem_of_seq. lia. Qed.
Lemma b64_chars : Forall (fun n => b64_value (b64_char n) = Some n /\ padding (b64_char n) = false /\ cf_char_back (cf_char (b64_char n)) = b64_char n) below_64.
Proof. repeat constructor. Qed.
Lemma b64_char_spec n :
  n < 64 -> b64_value (b64_char n) = Some n /\ padding (b64_char n) = false /\ cf_char_back (cf_char (b64_char n)) = b64_char n.
Proof. intros H%below_64_spec. by apply (proj1 (Forall_forall _ _) b64_chars). Qed.
Lemma sextet_value n i : b64_value (sextet n i) = Some (n / 64 ^ i mod 64).
Proof. apply b64_char_spec, N.mod_lt. done. Qed.
Lemma sextet_padding n i : padding (sextet n i) = false.
Proof. apply b64_char_spec, N.mod_lt. done. Qed.
Lemma sextet_back n i : cf_char_back (cf_char (sextet n i)) = sextet n i.
Proof. apply b64_char_spec, N.mod_lt. done. Qed.
Lemma sextets n : n < 16777216 ->
  n / 64 ^ 3 mod 64 * 262144 + n / 64 ^ 2 mod 64 * 4096 + n / 64 ^ 1 mod 64 * 64 + n / 64 ^ 0 mod 64 = n.
Proof.
  change (64 ^ 3) with 262144. change (64 ^ 2) with 4096. change (64 ^ 1) with 64. change (64 ^ 0) with 1.
  intros H. zify. Z.to_euclidean_division_equations. lia.
Qed.
Lemma byte_bound a : Byte.to_N a < 256.
Proof. pose proof (Byte.to_N_bounded a). lia. Qed.
Lemma octet_byte n i a : n / 256 ^ i mod 256 = Byte.to_N a -> octet n i = Some a.
Proof. unfold octet. intros ->. apply Byte.of_to_N. Qed.
Lemma octets a b c :
  let n := Byte.to_N a * 65536 + Byte.to_N b * 256 + Byte.to_N c in octet n 2 = Some a /\ octet n 1 = Some b /\ octet n 0 = Some c.
Proof.
  pose proof (byte_bound a). pose proof (byte_bound b). pose proof (byte_bound c).
  cbn zeta. split_and!; apply octet_byte; [change (256 ^ 2) with 65536|change (256 ^ 1) with 256|change (256 ^ 0) with 1];
    zify; Z.to_euclidean_division_equations; lia.
Qed.
Lemma some_bind {A B} (a : A) (f : A -> option B) : (Some a ≫= f) = f a.
Proof. done. Qed.
Ltac euclid :=
  change (64 ^ 3) with 262144; change (64 ^ 2) with 4096; change (64 ^ 1) with 64; zify; Z.to_euclidean_division_equations; lia.
Lemma sextets_1 a : let n := Byte.to_N a * 65536 in n / 64 ^ 3 mod 64 * 262144 + n / 64 ^ 2 mod 64 * 4096 = n.
Proof. pose proof (byte_bound a). cbn zeta. euclid. Qed.
Lemma sextets_2 a b :
  let n := Byte.to_N a * 65536 + Byte.to_N b * 256 in n / 64 ^ 3 mod 64 * 262144 + n / 64 ^ 2 mod 64 * 4096 + n / 64 ^ 1 mod 64 * 64 = n.
Proof. pose proof (byte_bound a). pose proof (byte_bound b). cbn zeta. euclid. Qed.
Lemma b64decode_encode l : b64decode (b64encode l) = Some l.
Proof.
  induction l as [l IH] using (well_founded_induction (well_founded_ltof _ (@length byte))).
  destruct l as [|a [|b [|c l]]]; [done| | |]; cbn [b64encode b64decode]; rewrite !sextet_value; rewrite ?some_bind.
  - change (padding "=") with true. cbn [andb]. rewrite sextets_1.
    destruct (octets a Byte.x00 Byte.x00) as (E & _). cbn zeta in E. rewrite !N.mul_0_l, !N.add_0_r in E. by rewrite E.
  - change (padding "=") with true. rewrite !sextet_padding. rewrite ?some_bind. rewrite sextets_2.
    destruct (octets a b Byte.x00) as (E1 & E2 & _). cbn zeta in E1, E2. rewrite !N.add_0_r in E1, E2. cbn zeta. by rewrite E1, E2.
  - rewrite !sextet_padding. rewrite ?some_bind. pose proof (byte_bound a). pose proof (byte_bound b). pose proof (byte_bound c).
    rewrite sextets by lia. destruct (octets a b c) as (E1 & E2 & E3). cbn zeta in E1, E2, E3 |- *. rewrite E1, E2, E3, !some_bind.
    rewrite IH; [done|]. unfold ltof. cbn. lia.
Qed.
Lemma cf_back l : str_map cf_char_back (cf_b64encode l) = b64encode l.
Proof.
  unfold cf_b64encode. induction l as [l IH] using (well_founded_induction (well_founded_ltof _ (@length byte))).
  destruct l as [|a [|b [|c l]]]; [done| | |]; cbn [b64encode str_map]; rewrite !sextet_back; [done|done|].
  rewrite IH; [done|]. unfold ltof. cbn. lia.
Qed.
(** What CloudFront decodes is the signature that was encoded. *)
Theorem cf_b64_roundtrip (l : bytes) : cf_b64decode (cf_b64encode l) = Some l.
Proof. unfold cf_b64decode. by rewrite cf_back, b64decode_encode. Qed.

(** The characters that need no escaping in a query *)
Definition url_safe (c : ascii) : bool :=
  let n := Ascii.N_of_ascii c in
  (65 <=? n) && (n <=? 90) || (97 <=? n) && (n <=? 122) || (48 <=? n) && (n <=? 57) || bool_decide (c ∈ ["-"; "_"; "~"]%char).
Fixpoint all_chars (f : ascii -> bool) (s : string) : bool := match s with EmptyString => true | String c s' => f c && all_chars f s' end.
Lemma cf_chars_safe : Forall (fun n => url_safe (cf_char (b64_char n)) = true) below_64.
Proof. repeat constructor. Qed.
Lemma sextet_safe n i : url_safe (cf_char (sextet n i)) = true.
Proof. apply (proj1 (Forall_forall _ _) cf_chars_safe), below_64_spec, N.mod_lt. done. Qed.
(** The encoded signature needs no escaping in the query of a URL. *)
Theorem cf_b64_url_safe (l : bytes) : all_chars url_safe (cf_b64encode l) = true.
Proof.
  unfold cf_b64encode. induction l as [l IH] using (well_founded_induction (well_founded_ltof _ (@length byte))).
  destruct l as [|a [|b [|c l]]]; [done| | |]; cbn [b64encode str_map all_chars]; rewrite !sextet_safe; [done|done|].
  rewrite IH; [done|]. unfold ltof. cbn. lia.
Qed.
End Base64.

(** ** Definitions: the signer *)
Definition DEFAULT_CLOUDFRONT_EXPIRES_IN : Z := 3600.
Record cf_signer := mkSigner {
  cf_key_pair_id : string;
  cf_private_key_path : string;
  cf_domain : string;
  cf_expires_in : Z;
  cf_origin_path : string;
  cf_origin_prefix : string;
}.
(** [__init__]; [installed] is whether the cryptography package is *)
Definition new_signer (installed : bool) (key_pair_id private_key_path domain : string) (expires_in : option Z) (origin_path : string) : res cf_signer :=
  if installed then
    let origin := rstrip slash (lstrip slash origin_path) in
    Ok (mkSigner key_pair_id private_key_path (rstrip slash domain) (default DEFAULT_CLOUDFRONT_EXPIRES_IN expires_in) origin
          (if bool_decide (origin = "") then "" else origin +:+ "/"))
  else Err ImportError.
(** [json.dumps(..., separators=(",", ":"))] *)
Fixpoint dumps_compact (j : json) : string :=
  match j with
  | JList l => "[" +:+ join "," (map dumps_compact l) +:+ "]"
  | JDict d => "{" +:+ join "," (map (fun kv => quote kv.1 +:+ ":" +:+ dumps_compact kv.2) d) +:+ "}"
  | _ => dumps j
  end.
Definition policy (url : string) (epoch : Z) : string :=
  dumps_compact (JDict [("Statement", JList [JDict [("Resource", JStr url);
    ("Condition", JDict [("DateLessThan", JDict [("AWS:EpochTime", JInt epoch)])])]])]).
Section Signer.
Context {W K : Type} (load_pem_private_key : string -> M W K) (sign : K -> string -> bytes).
(** [_get_private_key] on the cached key *)
Definition get_private_key (s : cf_signer) : M (option K * W) K :=
  fun '(cached, w) =>
  match cached with
  | Some k => (Ok k, (cached, w))
  | None => match load_pem_private_key (cf_private_key_path s) w with
            | (Ok k, w') => (Ok k, (Some k, w'))
            | (Err e, w') => (Err e, (None, w'))
            end
  end.
(** The path below the origin path of the distribution *)
Definition effective_path (s : cf_signer) (path : string) : res string :=
  let effective := lstrip slash path in
  if bool_decide (cf_origin_prefix s = "") then Ok effective
  else if startswith effective (cf_origin_prefix s) then Ok (str_drop (String.length (cf_origin_prefix s)) effective)
  else Err ValueError.
(** [generate_presigned_url]; [now] in microseconds.  The method is not used. *)
Definition generate_presigned_url (s : cf_signer) (path : string) (now : Z) : M (option K * W) string :=
  let! k := get_private_key s in
  let! effective := mlift (effective_path s path) in
  let url := "https://" +:+ cf_domain s +:+ "/" +:+ effective in
  let epoch := ((now + cf_expires_in s * 1000000) / 1000000)%Z in
  let separator := if has_char "?" url then "&" else "?" in
  mret (url +:+ separator +:+ "Expires=" +:+ pretty epoch +:+ "&Signature=" +:+ cf_b64encode (sign k (policy url epoch)) +:+
        "&Key-Pair-Id=" +:+ cf_key_pair_id s).
End Signer.

(** ** A signed URL is accepted *)
(** Of an object below the origin path the URL names the rest of its key in the
    distribution, and the signature in it, decoded, is the one of the policy
    for this URL and the time that it expires, by the key that was loaded. *)
Theorem signed_url_verifies {W K P : Type} (load_pem_private_key : string -> M W K) (sign : K -> string -> bytes)
    (public : K -> P) (verify : P -> string -> bytes -> bool) (Hverify : forall k m, verify (public k) m (sign k m) = true)
    (s : cf_signer) (key : string) (now : Z) (k : K) (st st' : option K * W)
    (Hkey : get_private_key load_pem_private_key s st = (Ok k, st'))
    (Hslash : startswith (cf_origin_prefix s +:+ key) "/" = false) :
  exists url sep signature,
    generate_presigned_url load_pem_private_key sign s (cf_origin_prefix s +:+ key) now st =
      (Ok (url +:+ sep +:+ "Expires=" +:+ pretty ((now + cf_expires_in s * 1000000) / 1000000)%Z +:+ "&Signature=" +:+ signature +:+
           "&Key-Pair-Id=" +:+ cf_key_pair_id s), st') /\
    url = "https://" +:+ cf_domain s +:+ "/" +:+ key /\ all_chars url_safe signature = true /\
    exists d, cf_b64decode signature = Some d /\ verify (public k) (policy url ((now + cf_expires_in s * 1000000) / 1000000)%Z) d = true.
Proof.
  unfold generate_presigned_url, mbind at 1. rewrite Hkey. unfold mbind, mlift.
  assert (effective_path s (cf_origin_prefix s +:+ key) = Ok key) as ->.
  { unfold effective_path. rewrite lstrip_id by done. case_bool_decide as E; [by rewrite E|]. rewrite startswith_app. by rewrite str_drop_app. }
  eexists _, _, _. split_and!; [reflexivity|done|apply cf_b64_url_safe|]. eexists. split; [apply cf_b64_roundtrip|]. apply Hverify.
Qed.
Definition example_signer : cf_signer := mkSigner "K1" "/key.pem" "d.cloudfront.net" 60 "data" "data/".
Definition length_sign (k : nat) (m : string) : bytes := replicate k Byte.x41.
Lemma length_verifies k m : (length (length_sign k m) =? id k)%nat = true.
Proof. unfold length_sign. rewrite length_replicate. apply Nat.eqb_refl. Qed.
Lemma signed_url_verifies_witness :
  exists url sep signature,
    generate_presigned_url (W := unit) (fun _ => mret 3) length_sign example_signer "data/a.bin" 5000000 (None, tt) =
      (Ok (url +:+ sep +:+ "Expires=" +:+ pretty 65%Z +:+ "&Signature=" +:+ signature +:+ "&Key-Pair-Id=K1"), (Some 3, tt)) /\
    url = "https://d.cloudfront.net/a.bin" /\ all_chars url_safe signature = true /\
    exists d, cf_b64decode signature = Some d /\ (length d =? 3)%nat = true.
Proof.
  apply (signed_url_verifies (W := unit) (fun _ => mret 3) length_sign id (fun k _ d => (length d =? k)%nat) length_verifies
    example_signer "a.bin" 5000000 3 (None, tt) (Some 3, tt)); reflexivity.
Defined.
(** An object outside the origin path is refused, and the key is loaded once. *)
Theorem outside_origin_refused {W K : Type} (load_pem_private_key : string -> M W K) (sign : K -> string -> bytes) (s : cf_signer) (path : string) (now : Z)
    (k : K) (w : W) (Hprefix : cf_origin_prefix s <> "") (Hout : startswith (lstrip slash path) (cf_origin_prefix s) = false) :
  generate_presigned_url load_pem_private_key sign s path now (Some k, w) = (Err ValueError, (Some k, w)).
Proof. unfold generate_presigned_url, mbind, mlift, effective_path. cbn. rewrite bool_decide_eq_false_2 by done. by rewrite Hout. Qed.
