(* ===== verification/SystemLimits.v ===== *)
(** * Limits of the machine ([utils.py])

    The number of processors that a job may use, from the scheduler, the
    control groups or the machine, and the limit on open files. *)
From S2P Require Import Prelude PyPath Types Utils.

(** ** Definitions *)
(** [s.split()]: the words between white space *)
Fixpoint words_of (s : string) (word : string) : list string :=
  let flush := if bool_decide (word = "") then [] else [str_rev word] in
  match s with
  | EmptyString => flush
  | String a s' => if stdpp.strings.Ascii.is_space a then flush ++ words_of s' "" else words_of s' (String a word)
  end.
Definition split_words (s : string) : list string := words_of s "".
(** [math.ceil(quota / period)] for a positive period *)
Definition ceil_div (quota period : Z) : Z := (- (- quota / period))%Z.

(** The files: [None] where there is none, the error of reading it, or its text *)
Definition files_of : Type := string -> option (res string).
Inductive limit := Limited (cpus : Z) | Unlimited | NoAnswer.
(** The file of version 2 *)
Definition cgroup_v2 (read : files_of) : limit :=
  match read "/sys/fs/cgroup/cpu.max" with
  | Some (Ok content) =>
      let content := strip_spaces content in
      if bool_decide (content = "max") then Unlimited
      else match split_words content with
      | [q; p] =>
          match py_int q, py_int p with
          | Some quota, Some period => if (0 <? period)%Z then Limited (ceil_div quota period) else NoAnswer
          | _, _ => NoAnswer
          end
      | _ => NoAnswer
      end
  | _ => NoAnswer
  end.
(** The two files of version 1 *)
Definition cgroup_v1 (read : files_of) : limit :=
  match read "/sys/fs/cgroup/cpu/cpu.cfs_quota_us" with
  | Some (Ok content) =>
      match py_int (strip_spaces content) with
      | Some quota =>
          if (quota =? -1)%Z then Unlimited
          else match read "/sys/fs/cgroup/cpu/cpu.cfs_period_us" with
          | Some (Ok content) =>
              match py_int (strip_spaces content) with
              | Some period => if (0 <? period)%Z then Limited (ceil_div quota period) else NoAnswer
              | None => NoAnswer
              end
          | _ => NoAnswer
          end
      | None => NoAnswer
      end
  | _ => NoAnswer
  end.
(** [_get_cgroup_cpu_limit] *)
Definition get_cgroup_cpu_limit (read : files_of) : option Z :=
  match cgroup_v2 read with
  | Limited c => Some c
  | Unlimited => None
  | NoAnswer => match cgroup_v1 read with Limited c => Some c | _ => None end
  end.
(** [get_available_cpu_count] *)
Definition get_available_cpu_count (environ : gmap string string) (read : files_of) (cpu_count : Z) : Z :=
  match (match environ !! "SLURM_JOB_ID", environ !! "SLURM_CPUS_PER_TASK" with Some _, Some s => py_int s | _, _ => None end) with
  | Some z => z
  | None => default cpu_count (get_cgroup_cpu_limit read)
  end.

(** [ensure_adequate_file_descriptors]; the limits are numbers, with -1 for
    [RLIM_INFINITY]; [setrlimit] may refuse *)
Definition ensure_adequate_file_descriptors (setrlimit : Z * Z -> res unit) (target : Z) (limits : res (Z * Z)) : option Z * option (Z * Z) :=
  match limits with
  | Err _ => (None, None)
  | Ok (soft, hard) =>
      if (target <=? soft)%Z then (Some soft, Some (soft, hard))
      else
        let new_soft := Z.min target hard in
        match setrlimit (new_soft, hard) with
        | Ok _ => (Some new_soft, Some (new_soft, hard))
        | Err _ => (None, Some (soft, hard))
        end
  end.

(** ** Properties *)
Lemma ceil_div_spec q p : (0 < p)%Z -> ((ceil_div q p - 1) * p < q <= ceil_div q p * p)%Z.
Proof. intros Hp. unfold ceil_div. pose proof (Z.div_mod (- q) p). pose proof (Z.mod_pos_bound (- q) p). nia. Qed.
(** A quota of a container is rounded up to whole processors, whichever
    version of control groups states it, and stands for at least one. *)
Theorem cgroup_quota_rounded_up (read : files_of) (environ : gmap string string) (cpu_count q p : Z)
    (Hslurm : environ !! "SLURM_JOB_ID" = None) (Hp : (0 < p)%Z) (Hq : (0 < q)%Z)
    (Hfile : cgroup_v2 read = Limited (ceil_div q p) \/ cgroup_v2 read = NoAnswer /\ cgroup_v1 read = Limited (ceil_div q p)) :
  let n := get_available_cpu_count environ read cpu_count in (1 <= n)%Z /\ ((n - 1) * p < q <= n * p)%Z.
Proof.
  unfold get_available_cpu_count, get_cgroup_cpu_limit. rewrite Hslurm. cbv zeta iota.
  pose proof (ceil_div_spec q p Hp). assert (1 <= ceil_div q p)%Z by nia.
  destruct Hfile as [->|[-> ->]]; cbn [default]; done.
Qed.
Definition container (f : string) : option (res string) :=
  if decide (f = "/sys/fs/cgroup/cpu.max") then Some (Ok ("250000 100000" +:+ String "010" "")) else None.
Lemma cgroup_quota_rounded_up_witness :
  get_available_cpu_count ∅ container 64 = 3%Z /\ (2 * 100000 < 250000 <= 3 * 100000)%Z.
Proof.
  assert (get_available_cpu_count ∅ container 64 = 3%Z) as E by (vm_compute; reflexivity). split; [exact E|].
  pose proof (cgroup_quota_rounded_up container ∅ 64 250000 100000) as H. cbv zeta in H. rewrite E in H.
  apply H; [reflexivity|reflexivity|reflexivity|left; vm_compute; reflexivity].
Defined.
(** A container without a limit uses what the machine has, also when the file
    states the period of the missing quota. *)
Theorem unlimited_container_uses_machine (read : files_of) (cpu_count : Z)
    (Hfile : read "/sys/fs/cgroup/cpu.max" = Some (Ok ("max 100000" +:+ String "010" ""))) (Hv1 : read "/sys/fs/cgroup/cpu/cpu.cfs_quota_us" = None) :
  get_available_cpu_count ∅ read cpu_count = cpu_count.
Proof.
  unfold get_available_cpu_count, get_cgroup_cpu_limit, cgroup_v2, cgroup_v1. rewrite Hfile, Hv1. reflexivity.
Qed.
Lemma unlimited_container_uses_machine_witness :
  get_available_cpu_count ∅ (fun f => if decide (f = "/sys/fs/cgroup/cpu.max") then Some (Ok ("max 100000" +:+ String "010" "")) else None) 64 = 64%Z.
Proof. apply unlimited_container_uses_machine; reflexivity. Defined.

(** The limit is raised to the target or to the hard limit, and never above
    a hard limit that is a number. *)
Theorem descriptors_within_hard_limit (setrlimit : Z * Z -> res unit) (target soft hard : Z) (Hsoft : (0 <= soft <= hard)%Z) (Htarget : (0 <= target)%Z) :
  match ensure_adequate_file_descriptors setrlimit target (Ok (soft, hard)) with
  | (Some n, Some (s, h)) => n = s /\ h = hard /\ (soft <= s <= hard)%Z /\ (target <= s \/ s = hard)%Z
  | (_, now) => now = Some (soft, hard)
  end.
Proof.
  unfold ensure_adequate_file_descriptors. destruct (Z.leb_spec target soft); [lia|].
  destruct (setrlimit _); [lia|done].
Qed.
Lemma descriptors_within_hard_limit_witness : ensure_adequate_file_descriptors (fun _ => Ok tt) 4096 (Ok (1024, 2048)%Z) = (Some 2048%Z, Some (2048, 2048)%Z) /\
  match ensure_adequate_file_descriptors (fun _ => Ok tt) 4096 (Ok (1024, 2048)%Z) with
  | (Some n, Some (s, h)) => n = s /\ h = 2048%Z /\ (1024 <= s <= 2048)%Z /\ (4096 <= s \/ s = 2048)%Z
  | (_, now) => now = Some (1024, 2048)%Z
  end.
Proof. split; [reflexivity|]. apply (descriptors_within_hard_limit (fun _ => Ok tt) 4096 1024 2048); lia. Defined.
(** Where the hard limit is infinity, which is the number -1, the soft limit
    becomes infinity and -1 is returned. *)
Theorem infinite_hard_limit_taken_for_minimum (soft : Z) (Hsoft : (0 <= soft < 4096)%Z) :
  ensure_adequate_file_descriptors (fun _ => Ok tt) 4096 (Ok (soft, -1)%Z) = (Some (-1)%Z, Some (-1, -1)%Z).
Proof. unfold ensure_adequate_file_descriptors. destruct (Z.leb_spec 4096 soft); [lia|done]. Qed.
Lemma infinite_hard_limit_taken_for_minimum_witness :
  ensure_adequate_file_descriptors (fun _ => Ok tt) 4096 (Ok (1024, -1)%Z) = (Some (-1)%Z, Some (-1, -1)%Z).
Proof. apply infinite_hard_limit_taken_for_minimum. lia. Defined.
