(* ===== verification/Url.v ===== *)
(** * [urllib.parse.urlparse]

    What the configuration and the shortcuts use of Python's [urllib.parse]:
    the split of a URL into its components.  A network location in brackets is
    an IPv6 address; no bucket or profile is one, and it is rejected here, as
    Python rejects every other use of brackets. *)
From S2P Require Import Prelude PyPath Types Utils.

(** [urlparse] without [params], which no caller looks at *)
Record ParseResult := mkParseResult {
  scheme : string;
  netloc : string;
  url_path : string;
  query : string;
  fragment : string;
}.

Definition newline_chars : list ascii := ["009"; "010"; "013"]%char.
Fixpoint str_filter (f : ascii -> bool) (s : string) : string :=
  match s with
  | EmptyString => ""
  | String a s' => if f a then String a (str_filter f s') else str_filter f s'
  end.
(** [url.lstrip(_WHATWG_C0_CONTROL_OR_SPACE)] *)
Fixpoint strip_control (s : string) : string :=
  match s with
  | String a s' => if (nat_of_ascii a <=? 32)%nat then strip_control s' else s
  | EmptyString => ""
  end.
Definition is_letter (a : ascii) : bool :=
  let n := nat_of_ascii a in ((65 <=? n) && (n <=? 90) || (97 <=? n) && (n <=? 122))%nat.
Definition scheme_char (a : ascii) : bool :=
  is_letter a || ((48 <=? nat_of_ascii a) && (nat_of_ascii a <=? 57))%nat || bool_decide (a ∈ ["+"; "-"; "."]%char).

(** The part before the first character that satisfies [f], and the rest *)
Fixpoint str_break (f : ascii -> bool) (s : string) : string * string :=
  match s with
  | EmptyString => ("", "")
  | String a s' => if f a then ("", s) else let '(x, y) := str_break f s' in (String a x, y)
  end.
Definition is_char (c a : ascii) : bool := bool_decide (a = c).

(** The scheme, in lower case, and what follows the colon *)
Definition split_scheme (s : string) : string * string :=
  match str_break (is_char ":"%char) s with
  | (String a p as t, String _ rest) =>
      if is_letter a && all_chars scheme_char t then (lower t, rest) else ("", s)
  | _ => ("", s)
  end.
(** [_splitnetloc(url, 2)] *)
Definition split_netloc (s : string) : string * string :=
  match s with
  | String "/" (String "/" s') => str_break (fun a => bool_decide (a ∈ ["/"; "?"; "#"]%char)) s'
  | _ => ("", s)
  end.
(** [url.split(c, 1)] *)
Definition split_at (c : ascii) (s : string) : string * string :=
  match str_break (is_char c) s with (a, String _ b) => (a, b) | (a, "") => (a, "") end.

Definition uses_params : list string :=
  [""; "ftp"; "hdl"; "prospero"; "http"; "https"; "shttp"; "rtsp"; "sip"; "sips"; "mms"; "sftp"; "tel"].
(** [_splitparams]: the part of the last segment from its first semicolon on *)
Definition strip_params (s : string) : string :=
  let '(d, b) := rsplit_slash s in d +:+ (split_at ";"%char b).1.

Definition urlparse (url : string) : res ParseResult :=
  let url := str_filter (fun a => negb (bool_decide (a ∈ newline_chars))) (strip_control url) in
  let '(sch, rest) := split_scheme url in
  let '(loc, rest) := split_netloc rest in
  if has_char "[" loc || has_char "]" loc then Err ValueError
  else
    let '(rest, frag) := split_at "#" rest in
    let '(p, q) := split_at "?" rest in
    Ok (mkParseResult sch loc (if bool_decide (sch ∈ uses_params) then strip_params p else p) q frag).

Example urlparse_examples :
  urlparse "S3://bucket/a/b?x#y" = Ok (mkParseResult "s3" "bucket" "/a/b" "x" "y") /\
  urlparse "/data/a;b" = Ok (mkParseResult "" "" "/data/a" "" "") /\
  urlparse "msc://p" = Ok (mkParseResult "msc" "p" "" "" "") /\
  urlparse "file:///x" = Ok (mkParseResult "file" "" "/x" "" "") /\
  urlparse "1a:b" = Ok (mkParseResult "" "" "1a:b" "" "").
Proof. vm_compute. repeat split; reflexivity. Qed.

(** ** Lemmas *)
Lemma str_filter_id f s : all_chars f s = true -> str_filter f s = s.
Proof. induction s as [|a s IH]; [done|]. cbn. destruct (f a); [|done]. intros H. by rewrite IH. Qed.
Lemma str_break_app f a c r :
  all_chars (fun x => negb (f x)) a = true -> f c = true -> str_break f (a +:+ String c r) = (a, String c r).
Proof.
  intros Ha Hc. induction a as [|x a IH]; cbn; [by rewrite Hc|]. cbn in Ha. apply andb_true_iff in Ha as [Hx Ha].
  apply negb_true_iff in Hx. by rewrite Hx, IH.
Qed.
Lemma str_break_none f a : all_chars (fun x => negb (f x)) a = true -> str_break f a = (a, "").
Proof.
  intros Ha. induction a as [|x a IH]; cbn; [done|]. cbn in Ha. apply andb_true_iff in Ha as [Hx Ha].
  apply negb_true_iff in Hx. by rewrite Hx, IH.
Qed.
Lemma str_break_spec f s :
  s = (str_break f s).1 +:+ (str_break f s).2 /\ all_chars (fun x => negb (f x)) (str_break f s).1 = true /\
  ((str_break f s).2 = "" \/ exists c r, (str_break f s).2 = String c r /\ f c = true).
Proof.
  induction s as [|a s (IH1 & IH2 & IH3)]; [split_and!; [done|done|by left]|]. cbn. destruct (f a) eqn:E.
  - split_and!; [done|done|]. right. by exists a, s.
  - destruct (str_break f s) as [x y]. cbn in *. rewrite E. split_and!; [by rewrite IH1 at 1|done|done].
Qed.
Lemma all_chars_mono (P Q : ascii -> bool) s : (forall a, P a = true -> Q a = true) -> all_chars P s = true -> all_chars Q s = true.
Proof. intros H. induction s as [|a s IH]; [done|]. cbn. intros [? ?]%andb_true_iff. rewrite H, IH; done. Qed.
Lemma all_chars_has_char c s : all_chars (fun a => negb (is_char c a)) s = negb (has_char c s).
Proof.
  induction s as [|a s IH]; [done|]. cbn. rewrite IH. unfold is_char. destruct (decide (a = c)); [by rewrite bool_decide_true|].
  by rewrite bool_decide_false.
Qed.
Lemma split_at_absent c s : has_char c s = false -> split_at c s = (s, "").
Proof. intros H. unfold split_at. rewrite str_break_none; [done|]. by rewrite all_chars_has_char, H. Qed.
Lemma split_at_spec c s : has_char c s = true -> s = (split_at c s).1 +:+ String c (split_at c s).2.
Proof.
  unfold split_at. destruct (str_break_spec (is_char c) s) as (H1 & H2 & H3). destruct (str_break (is_char c) s) as [x y]. cbn in *.
  rewrite all_chars_has_char in H2. destruct H3 as [->|(b & r & -> & Hb)]; cbn.
  - rewrite str_app_nil_r in H1. subst x. intros H. by rewrite H in H2.
  - unfold is_char in Hb. apply bool_decide_eq_true in Hb as ->. done.
Qed.

(** The characters of a bucket or profile name that a URL can carry *)
Definition location_char (a : ascii) : bool := negb (bool_decide (a ∈ ["/"; "?"; "#"; "["; "]"]%char ++ newline_chars)).
Definition line_char (a : ascii) : bool := negb (bool_decide (a ∈ newline_chars)).

(** A URL with a scheme and a location is taken apart at the slashes. *)
Lemma urlparse_url sch loc rest :
  sch <> "" -> is_letter (match sch with String a _ => a | _ => " " end) = true -> all_chars scheme_char sch = true ->
  all_chars location_char loc = true -> all_chars line_char rest = true -> (rest = "" \/ exists r, rest = String "/" r) ->
  urlparse (sch +:+ "://" +:+ loc +:+ rest) =
  (let '(r, f) := split_at "#" rest in let '(p, q) := split_at "?" r in
   Ok (mkParseResult (lower sch) loc (if bool_decide (lower sch ∈ uses_params) then strip_params p else p) q f)).
Proof.
  intros Hne Hletter Hsch Hloc Hrest Hslash. unfold urlparse.
  assert (forall a, scheme_char a = true -> line_char a = true /\ is_char ":" a = false) as Hsc.
  { intros [[] [] [] [] [] [] [] []] H; vm_compute in H |- *; done. }
  assert (forall a, location_char a = true -> line_char a = true /\ bool_decide (a ∈ ["/"; "?"; "#"]%char) = false /\
    is_char "[" a = false /\ is_char "]" a = false) as Hlc.
  { intros [[] [] [] [] [] [] [] []] H; vm_compute in H |- *; done. }
  assert (strip_control (sch +:+ "://" +:+ loc +:+ rest) = sch +:+ "://" +:+ loc +:+ rest) as ->.
  { destruct sch as [|a sch]; [done|]. cbn in Hletter |- *. destruct (nat_of_ascii a <=? 32)%nat eqn:E; [|done].
    exfalso. revert Hletter E. destruct a as [[] [] [] [] [] [] [] []]; vm_compute; done. }
  rewrite str_filter_id; [|change (fun a => negb (bool_decide (a ∈ newline_chars))) with line_char; rewrite !all_chars_app, Hrest;
    rewrite (all_chars_mono _ line_char _ (fun a H => proj1 (Hsc a H)) Hsch),
      (all_chars_mono _ line_char _ (fun a H => proj1 (Hlc a H)) Hloc); done].
  assert (split_scheme (sch +:+ "://" +:+ loc +:+ rest) = (lower sch, "//" +:+ loc +:+ rest)) as ->.
  { unfold split_scheme. change ("://" +:+ loc +:+ rest) with (String ":" ("//" +:+ loc +:+ rest)). rewrite str_break_app.
    - destruct sch as [|a sch]; [done|]. by rewrite Hletter, Hsch.
    - eapply all_chars_mono; [|exact Hsch]. intros a H. by rewrite (proj2 (Hsc a H)).
    - done. }
  assert (split_netloc ("//" +:+ loc +:+ rest) = (loc, rest)) as ->.
  { cbn [String.append split_netloc]. change (String.append "//" (loc +:+ rest)) with ("//" +:+ loc +:+ rest).
    cbn. assert (all_chars (fun x => negb (bool_decide (x ∈ ["/"; "?"; "#"]%char))) loc = true) as Hl.
    { eapply all_chars_mono; [|exact Hloc]. intros a H. by rewrite (proj1 (proj2 (Hlc a H))). }
    destruct Hslash as [->|[r ->]]; [rewrite str_app_nil_r; by apply str_break_none|by apply str_break_app]. }
  assert (has_char "[" loc = false /\ has_char "]" loc = false) as [-> ->].
  { split; apply negb_true_iff; rewrite <- all_chars_has_char; (eapply all_chars_mono; [|exact Hloc]); intros a H;
    destruct (Hlc a H) as (_ & _ & H1 & H2); [by rewrite H1|by rewrite H2]. }
  done.
Qed.
