(* ===== verification/PathMapping.v ===== *)
(** * Path mappings ([multistorageclient/config.py], [PathMapping])

    The [path_mapping] section of the configuration maps URL prefixes to
    profiles: protocol -> bucket -> prefixes, longest first.  The theorem says
    that the lookup finds the longest configured prefix of a URL. *)
From S2P Require Import Prelude PyDict PyPath Types Utils Url.

(** ** Definitions *)
(** [self._mapping]; a [defaultdict] without its empty entries *)
Definition path_mapping : Type := list (string * list (string * list (string * string))).
Definition bucket_mapping (m : path_mapping) (protocol bucket : string) : list (string * string) :=
  default [] (dget (default [] (dget m protocol)) bucket).
(** [self._mapping[protocol][bucket].append((prefix, dest_profile))] *)
Definition add_mapping (m : path_mapping) (protocol bucket : string) (e : string * string) : path_mapping :=
  dset m protocol (dset (default [] (dget m protocol)) bucket (bucket_mapping m protocol bucket ++ [e])).

Definition url_protocol (pr : ParseResult) : string :=
  if bool_decide (scheme pr = "") then "file" else lower (scheme pr).
Definition is_file_url (url : string) (pr : ParseResult) : bool :=
  bool_decide (url_protocol pr = "file") || startswith url "/".
(** [if p.startswith("/"): p = p[1:]] *)
Definition drop_slash (p : string) : string := if startswith p "/" then str_drop 1 p else p.

(** Protocol, bucket and path of a URL, as both methods take them apart *)
Definition url_parts (url : string) : res (string * string * string) :=
  res_bind (urlparse url) (fun pr =>
  Ok (if is_file_url url pr then (url_protocol pr, "", if startswith url "/" then url else url_path pr)
      else (url_protocol pr, netloc pr, drop_slash (url_path pr)))).

(** The loop of [_load_mapping] *)
Fixpoint load_entries (items : dict) (m : path_mapping) : res path_mapping :=
  match items with
  | [] => Ok m
  | (source_path, dest) :: items' =>
      if negb (endswith source_path "/") then load_entries items' m
      else
        match dest with
        | JStr dest_path =>
            if negb (startswith dest_path MSC_PROTOCOL) then load_entries items' m
            else if negb (endswith dest_path "/") then load_entries items' m
            else
              res_bind (urlparse dest_path) (fun pr_dest =>
              res_bind (url_parts source_path) (fun '(protocol, bucket, prefix) =>
              load_entries items' (add_mapping m protocol bucket (prefix, netloc pr_dest))))
        | _ => Err AttributeError
        end
  end.
(** [sorted(prefixes, key=lambda x: len(x[0]), reverse=True)], which is stable *)
Definition longer (a b : string * string) : bool := (String.length b.1 <=? String.length a.1)%nat.
Definition sort_mapping (m : path_mapping) : path_mapping :=
  map (fun pb => (pb.1, map (fun be => (be.1, sort_by longer be.2)) pb.2)) m.
Definition load_mapping (config_dict : dict) : res path_mapping :=
  match dict_get config_dict "path_mapping" with
  | None | Some JNull => Ok []
  | Some (JDict items) => res_bind (load_entries items []) (fun m => Ok (sort_mapping m))
  | Some _ => Err AttributeError
  end.

(** The two loops of [find_mapping] *)
Definition first_prefix (l : list (string * string)) (path : string) : option (string * string) :=
  find (fun e => startswith path e.1) l.
Definition relative_file (rest : string) : string := if startswith rest "/" then rest else "/" +:+ rest.
Definition find_mapping (m : path_mapping) (url : string) : res (option (string * string)) :=
  res_bind (urlparse url) (fun pr =>
  let protocol := url_protocol pr in
  Ok (if is_file_url url pr then
        let path := if startswith url "/" then url else url_path pr in
        match first_prefix (bucket_mapping m protocol "") path with
        | Some (prefix, profile) => Some (profile, relative_file (str_drop (String.length prefix) path))
        | None => None
        end
      else
        let path := drop_slash (url_path pr) in
        match first_prefix (bucket_mapping m protocol (netloc pr)) path with
        | Some (prefix, profile) => Some (profile, drop_slash (str_drop (String.length prefix) path))
        | None => None
        end)).

(** [PathMapping.from_config] and [StorageClientConfig.read_path_mapping]: any
    exception, of reading the configuration too, gives an empty mapping *)
Definition from_config (config_dict : dict) : res path_mapping :=
  if bool_decide (config_dict = []) then Ok [] else load_mapping config_dict.
Definition read_path_mapping (read_config : res dict) : path_mapping :=
  match res_bind read_config from_config with Ok m => m | Err _ => [] end.

(** ** The longest prefix wins *)
(** The usable entries of the section, as protocol, bucket, prefix and profile *)
Definition entry_of (source_path : string) (dest : json) (e : string * string * string * string) : Prop :=
  exists dest_path pr, dest = JStr dest_path /\ endswith source_path "/" = true /\ startswith dest_path MSC_PROTOCOL = true /\
    endswith dest_path "/" = true /\ urlparse dest_path = Ok pr /\ url_parts source_path = Ok e.1 /\ e.2 = netloc pr.
Definition entries (items : dict) (e : string * string * string * string) : Prop :=
  exists s d, (s, d) ∈ items /\ entry_of s d e.
(** An entry matches the URL with the parts [u] *)
Definition matches (u : string * string * string) (e : string * string * string * string) : Prop :=
  e.1.1 = u.1 /\ startswith u.2 e.1.2 = true.

Lemma bucket_mapping_add m p b e p' b' :
  bucket_mapping (add_mapping m p b e) p' b' =
  if decide (p' = p /\ b' = b) then bucket_mapping m p b ++ [e] else bucket_mapping m p' b'.
Proof.
  unfold add_mapping. unfold bucket_mapping at 1. rewrite dget_dset.
  destruct (decide (p' = p)) as [->|]; cbn [from_option id].
  - rewrite dget_dset. destruct (decide (b' = b)) as [->|].
    + by rewrite decide_True.
    + rewrite decide_False by naive_solver. done.
  - by rewrite decide_False by naive_solver.
Qed.
Lemma bucket_mapping_sort m p b : bucket_mapping (sort_mapping m) p b = sort_by longer (bucket_mapping m p b).
Proof.
  unfold bucket_mapping, sort_mapping.
  assert (forall {A} (f : A -> A) (d : list (string * A)) k, dget (map (fun kv => (kv.1, f kv.2)) d) k = f <$> dget d k) as Hmap.
  { intros A f d k. induction d as [|[q v] d IH]; [done|]. cbn. by destruct (decide (k = q)). }
  rewrite (Hmap _ (fun l => map (fun be => (be.1, sort_by longer be.2)) l)).
  destruct (dget m p) as [l|]; cbn; [|done]. rewrite Hmap. by destruct (dget l b).
Qed.

Lemma load_entries_spec items m m' p b pre prof :
  load_entries items m = Ok m' ->
  (pre, prof) ∈ bucket_mapping m' p b <-> (pre, prof) ∈ bucket_mapping m p b \/ entries items (p, b, pre, prof).
Proof.
  revert m. induction items as [|[s d] items IH]; intros m.
  { intros [= <-]. split; [by left|]. intros [?|(s & d & Hin & _)]; [done|]. by apply elem_of_nil in Hin. }
  assert (forall e, entries ((s, d) :: items) e <-> entry_of s d e \/ entries items e) as Hcons.
  { intros e. unfold entries. setoid_rewrite elem_of_cons. naive_solver. }
  rewrite Hcons. cbn [load_entries].
  assert (~ entry_of s d (p, b, pre, prof) -> load_entries items m = Ok m' ->
    (pre, prof) ∈ bucket_mapping m' p b <->
    (pre, prof) ∈ bucket_mapping m p b \/ entry_of s d (p, b, pre, prof) \/ entries items (p, b, pre, prof)) as Hskip.
  { intros Hno Hl. rewrite (IH m Hl). naive_solver. }
  destruct (endswith s "/") eqn:E1; cbn [negb]; [|apply Hskip; intros (? & ? & ? & ? & ? & ? & _); congruence].
  destruct d as [| | |dp| |]; try done.
  destruct (startswith dp MSC_PROTOCOL) eqn:E2; cbn [negb]; [|apply Hskip; intros (? & ? & ? & ? & ? & ? & _); congruence].
  destruct (endswith dp "/") eqn:E3; cbn [negb]; [|apply Hskip; intros (? & ? & ? & ? & ? & ? & _); congruence].
  destruct (urlparse dp) as [pr|e] eqn:E4; cbn [res_bind]; [|done].
  destruct (url_parts s) as [[[p1 b1] pre1]|e] eqn:E5; cbn [res_bind]; [|done].
  intros Hl. rewrite (IH _ Hl), bucket_mapping_add.
  assert (entry_of s (JStr dp) (p, b, pre, prof) <-> (p, b, pre, prof) = (p1, b1, pre1, netloc pr)) as ->.
  { unfold entry_of. split; [|intros [= -> -> -> ->]; exists dp, pr; auto 10].
    intros (? & ? & [= <-] & _ & _ & _ & ? & Hu & Hp). cbn in Hu, Hp. congruence. }
  destruct (decide (p = p1 /\ b = b1)) as [[-> ->]|Hne]; [|naive_solver].
  rewrite elem_of_app, list_elem_of_singleton. naive_solver.
Qed.

Lemma find_sorted l path e :
  StronglySorted (fun a b => longer a b = true) l -> first_prefix l path = Some e ->
  forall e', e' ∈ l -> startswith path e'.1 = true -> String.length e'.1 <= String.length e.1.
Proof.
  induction 1 as [|x l Hs IH Hf]; [done|]. unfold first_prefix. cbn. destruct (startswith path x.1) eqn:Ex.
  - intros [= <-] e' [->|He']%elem_of_cons _; [done|]. rewrite Forall_forall in Hf.
    specialize (Hf e' He'). unfold longer in Hf. by apply Nat.leb_le in Hf.
  - intros He e' [->|He']%elem_of_cons Hm; [congruence|]. by apply IH.
Qed.

Lemma slash_url_protocol url pr : startswith url "/" = true -> urlparse url = Ok pr -> url_protocol pr = "file".
Proof.
  destruct url as [|a url]; [done|]. cbn [startswith]. case_decide as Ha; [subst a|done]. intros _.
  unfold urlparse. cbn [strip_control]. change (nat_of_ascii "/" <=? 32)%nat with false. cbn [str_filter].
  change (negb (bool_decide ("/"%char ∈ newline_chars))) with true. cbv iota.
  set (t := str_filter _ url). assert (split_scheme (String "/" t) = ("", String "/" t)) as ->.
  { unfold split_scheme. cbn [str_break]. change (is_char ":" "/") with false. cbv iota.
    destruct (str_break (is_char ":") t) as [x y]. by destruct y. }
  destruct (split_netloc _) as [loc rest]. destruct (_ || _); [done|].
  destruct (split_at _ _) as [r f], (split_at _ _) as [p q]. by intros [= <-].
Qed.
Lemma is_file_url_spec url pr : urlparse url = Ok pr -> is_file_url url pr = bool_decide (url_protocol pr = "file").
Proof.
  intros H. unfold is_file_url. destruct (startswith url "/") eqn:E; [|by rewrite orb_false_r].
  by rewrite (slash_url_protocol url pr E H).
Qed.

(** The path below the prefix: absolute for files, relative in a bucket *)
Definition below (protocol rest : string) : string :=
  if bool_decide (protocol = "file") then relative_file rest else drop_slash rest.
Lemma find_mapping_parts m url u :
  url_parts url = Ok u ->
  find_mapping m url = Ok (match first_prefix (bucket_mapping m u.1.1 u.1.2) u.2 with
    | Some (prefix, profile) => Some (profile, below u.1.1 (str_drop (String.length prefix) u.2)) | None => None end).
Proof.
  unfold url_parts, find_mapping, below. destruct (urlparse url) as [pr|] eqn:E; [|done]. cbn [res_bind]. intros [= <-].
  rewrite (is_file_url_spec url pr E).
  destruct (bool_decide (url_protocol pr = "file")) eqn:Eb; cbn [fst snd]; by rewrite Eb.
Qed.

(** C21: a path mapping finds the longest configured prefix of a URL: if it
    answers with a profile, an entry of the configuration maps a prefix of the
    URL's path, in its protocol and bucket, to that profile, the path returned
    is what follows this prefix, and no matching entry has a longer prefix; if
    it finds nothing, no entry matches. *)
Theorem longest_mapping_wins (config_dict items : dict) (m : path_mapping) (url : string) (u : string * string * string)
    (Hsection : dict_get config_dict "path_mapping" = Some (JDict items)) (Hload : load_mapping config_dict = Ok m)
    (Hurl : url_parts url = Ok u) :
  match find_mapping m url with
  | Ok (Some (profile, path)) =>
      exists prefix rest, entries items (u.1, prefix, profile) /\ u.2 = prefix +:+ rest /\ path = below u.1.1 rest /\
        forall e, entries items e -> matches u e -> String.length e.1.2 <= String.length prefix
  | Ok None => forall e, entries items e -> ~ matches u e
  | Err _ => False
  end.
Proof.
  unfold load_mapping in Hload. rewrite Hsection in Hload. destruct (load_entries items []) as [m0|] eqn:E0; [|done].
  injection Hload as <-. rewrite (find_mapping_parts _ _ _ Hurl), bucket_mapping_sort.
  destruct u as [[p b] path]. cbn [fst snd]. set (l := sort_by longer (bucket_mapping m0 p b)).
  assert (forall pre prof, (pre, prof) ∈ l <-> entries items (p, b, pre, prof)) as Hl.
  { intros pre prof. unfold l. rewrite sort_by_perm. rewrite (load_entries_spec items [] m0 p b pre prof E0).
    split; [|by right]. intros [H|?]; [by apply elem_of_nil in H|done]. }
  assert (StronglySorted (fun a b => longer a b = true) l) as Hs.
  { apply sort_by_sorted; unfold longer; intros; rewrite ?Nat.leb_le in *; lia. }
  destruct (first_prefix l path) as [[prefix profile]|] eqn:Ef.
  - pose proof Ef as [Hin Hm]%find_some. rewrite <- list_elem_of_In in Hin. cbn [fst] in Hm.
    destruct (startswith_spec path prefix) as [Hsp _]. destruct (Hsp Hm) as [rest ->].
    exists prefix, rest. rewrite str_drop_app. split; [by apply Hl|]. split; [done|]. split; [done|].
    intros [[[p' b'] pre'] prof'] He [Hpb Hpre]. cbn in Hpb, Hpre. injection Hpb as -> ->.
    apply (find_sorted l _ _ Hs Ef (pre', prof')); [by apply Hl|done].
  - intros [[[p' b'] pre'] prof'] He [Hpb Hpre]. cbn in Hpb, Hpre. injection Hpb as -> ->.
    apply Hl in He. rewrite list_elem_of_In in He. pose proof (find_none _ _ Ef _ He) as Hn. cbn in Hn. congruence.
Qed.

Definition example_section : dict :=
  [("s3://bucket/", JStr "msc://all/"); ("s3://bucket/a/", JStr "msc://some/"); ("/data/", JStr "msc://local/")].
Definition example_mapping : path_mapping :=
  match load_mapping [("path_mapping", JDict example_section)] with Ok m => m | Err _ => [] end.
Example find_mapping_examples :
  map (find_mapping example_mapping) ["s3://bucket/a/b"; "s3://bucket/c"; "S3://bucket"; "/data/x/y"; "file:///data/x"; "s3://other/a"]
  = [Ok (Some ("some", "b")); Ok (Some ("all", "c")); Ok (Some ("all", "")); Ok (Some ("local", "/x/y"));
     Ok (Some ("local", "/x")); Ok None].
Proof. vm_compute. reflexivity. Qed.

Lemma longest_mapping_wins_witness :
  exists prefix rest, entries example_section ("s3", "bucket", prefix, "some") /\ "a/b" = prefix +:+ rest /\
    "b" = below "s3" rest /\ forall e, entries example_section e -> matches ("s3", "bucket", "a/b") e ->
      String.length e.1.2 <= String.length prefix.
Proof.
  exact (longest_mapping_wins [("path_mapping", JDict example_section)] example_section example_mapping "s3://bucket/a/b"
    ("s3", "bucket", "a/b") eq_refl eq_refl eq_refl).
Defined.

(** The query and the fragment of a URL are dropped: a key with a question mark
    or a hash is mapped to another object. *)
Theorem mapping_truncates_keys :
  find_mapping example_mapping "s3://bucket/a/part#1.txt" = Ok (Some ("some", "part")) /\
  find_mapping example_mapping "s3://bucket/a/what?.txt" = Ok (Some ("some", "what")).
Proof. vm_compute. split; reflexivity. Qed.
