(* ===== verification/Config.v ===== *)
(** * Configuration files ([multistorageclient/config.py], [schema.py])

    Finding, reading and merging the configuration files: the search path, the
    included files, and the rules by which two files are merged.  The
    configuration is a [json] dictionary.  Parameters: the environment, the
    current directory, the files, the YAML parser, the check of the JSON schema
    (a library) and the order in which Python iterates over a set. *)
From S2P Require Import Prelude PyDict PyPath Types Utils Json Url PathMapping.

(** ** Definitions *)
Definition truthy (j : json) : bool :=
  match j with
  | JNull => false
  | JBool b => b
  | JInt z => negb (z =? 0)%Z
  | JStr s => negb (bool_decide (s = ""))
  | JList l => match l with [] => false | _ => true end
  | JDict d => match d with [] => false | _ => true end
  end.
(** [value or {}] where a dictionary is expected *)
Definition or_empty (j : json) : res dict :=
  match j with
  | JDict d => Ok d
  | _ => if truthy j then Err AttributeError else Ok []
  end.

(** *** Implicit profiles *)
Definition SUPPORTED_IMPLICIT_PROFILE_PROTOCOLS : list string := ["s3"; "gs"; "ais"; "file"].
Definition PROTOCOL_TO_PROVIDER_TYPE_MAPPING : list (string * string) :=
  [("s3", "s3"); ("gs", "gcs"); ("ais", "ais"); ("file", "file")].
Definition LEGACY_POSIX_PROFILE_NAME : string := "default".
Definition RESERVED_POSIX_PROFILE_NAME : string := "__filesystem__".

Definition implicit_profile (provider_type base_path : string) : json :=
  JDict [("storage_provider", JDict [("type", JStr provider_type); ("options", JDict [("base_path", JStr base_path)])])].
Definition create_implicit_profile_config (profile_name protocol base_path : string) : res dict :=
  match dget PROTOCOL_TO_PROVIDER_TYPE_MAPPING protocol with
  | None => Err KeyError
  | Some provider_type => Ok [("profiles", JDict [(profile_name, implicit_profile provider_type base_path)])]
  end.
(** [DEFAULT_POSIX_PROFILE["profiles"][RESERVED_POSIX_PROFILE_NAME]] *)
Definition DEFAULT_POSIX_PROFILE : json := implicit_profile "file" "/".

Definition normalize_profile_name (profile : string) (config_dict : dict) : res string :=
  if bool_decide (profile = LEGACY_POSIX_PROFILE_NAME) then
    match dict_get config_dict "profiles" with
    | None => Ok RESERVED_POSIX_PROFILE_NAME
    | Some (JDict ps) => Ok (if dmem ps profile then profile else RESERVED_POSIX_PROFILE_NAME)
    | Some _ => Err TypeError
    end
  else Ok profile.

(** *** Merging *)
(** The loop of [_merge_profiles] *)
Fixpoint merge_profile_items (items result : dict) : dict * list string :=
  match items with
  | [] => (result, [])
  | (name, new_profile) :: items' =>
      match dict_get result name with
      | Some old =>
          let '(r, c) := merge_profile_items items' result in
          (r, if py_eqb old new_profile then c else name :: c)
      | None => merge_profile_items items' (result ++ [(name, new_profile)])
      end
  end.
Definition merge_profiles (base_profiles new_profiles : dict) : res dict :=
  match merge_profile_items new_profiles base_profiles with
  | (r, []) => Ok r
  | (_, _ :: _) => Err ValueError
  end.

(** [otel.get("metrics", {}).get("attributes", [])] *)
Definition metrics_attributes (otel : dict) : res (list json) :=
  match dict_get otel "metrics" with
  | None => Ok []
  | Some (JDict m) =>
      match dict_get m "attributes" with
      | None => Ok []
      | Some (JList l) => Ok l
      | Some _ => Err TypeError
      end
  | Some _ => Err AttributeError
  end.
Definition without_attributes (otel : dict) : dict :=
  match dict_get otel "metrics" with
  | Some (JDict m) => dict_set otel "metrics" (JDict (dict_del m "attributes"))
  | _ => otel
  end.
Definition merge_opentelemetry (base_otel new_otel : dict) : res dict :=
  res_bind (metrics_attributes base_otel) (fun base_attrs =>
  res_bind (metrics_attributes new_otel) (fun new_attrs =>
  let merged_attrs := base_attrs ++ new_attrs in
  match merge_dictionaries_no_overwrite (Some (without_attributes base_otel)) (Some (without_attributes new_otel)) None true with
  | (merged, []) =>
      match dict_get merged "metrics" with
      | Some (JDict m) => Ok (dict_set merged "metrics" (JDict (dict_set m "attributes" (JList merged_attrs))))
      | Some _ => Err TypeError
      | None =>
          Ok (match merged_attrs with
              | [] => merged
              | _ => merged ++ [("metrics", JDict [("attributes", JList merged_attrs)])]
              end)
      end
  | (_, _ :: _) => Err ValueError
  end)).

(** One key of [_merge_configs] that both files have; [None] for a key that is left out *)
Definition merge_field (key : string) (base_value new_value : json) : res (option json) :=
  if bool_decide (key = "profiles") then
    res_bind (or_empty base_value) (fun b => res_bind (or_empty new_value) (fun n =>
    res_bind (merge_profiles b n) (fun d => Ok (Some (JDict d)))))
  else if bool_decide (key ∈ ["path_mapping"; "experimental_features"]) then
    res_bind (or_empty base_value) (fun b => res_bind (or_empty new_value) (fun n =>
    match merge_dictionaries_no_overwrite (Some b) (Some n) None true with
    | (merged, []) => Ok (Some (JDict merged))
    | (_, _ :: _) => Err ValueError
    end))
  else if bool_decide (key = "opentelemetry") then
    res_bind (or_empty base_value) (fun b => res_bind (or_empty new_value) (fun n =>
    res_bind (merge_opentelemetry b n) (fun d => Ok (Some (JDict d)))))
  else if bool_decide (key ∈ ["cache"; "posix"]) then
    if py_eqb base_value new_value then Ok (Some base_value) else Err ValueError
  else if bool_decide (key = "include") then Ok None
  else Err ValueError.

(** The loop of [_merge_configs] *)
Fixpoint merge_keys (keys : list string) (base_config new_config result : dict) : res dict :=
  match keys with
  | [] => Ok result
  | k :: keys' =>
      match dict_get base_config k, dict_get new_config k with
      | Some b, None => merge_keys keys' base_config new_config (dict_set result k b)
      | None, Some n => merge_keys keys' base_config new_config (dict_set result k n)
      | Some b, Some n =>
          res_bind (merge_field k b n) (fun v =>
          merge_keys keys' base_config new_config (match v with Some v => dict_set result k v | None => result end))
      | None, None => merge_keys keys' base_config new_config result
      end
  end.

Section Files.
(** [set_order]: the order in which Python iterates over the set with these elements *)
Context (set_order : list string -> list string).
Definition all_keys (base_config new_config : dict) : list string :=
  set_order (base_config.*1 ++ filter (fun k => k ∉ base_config.*1) new_config.*1).
Definition merge_configs (base_config new_config : dict) : res dict :=
  merge_keys (all_keys base_config new_config) base_config new_config [].

(** *** Reading files *)
(** The files: [Some None] is a path that exists and cannot be read *)
Context (cwd : string) (env : gmap string string) (files : gmap string (option string)).
Context (yaml_load : string -> res json) (schema_valid : json -> bool).

(** [validate_config] *)
Definition replica_names (p : json) : list (option json) :=
  match p with
  | JDict d =>
      match dict_get d "replicas" with
      | Some (JList rs) => map (fun r => match r with JDict rd => dict_get rd "replica_profile" | _ => None end) rs
      | _ => []
      end
  | _ => []
  end.
Definition duplicate_replicas (config : dict) : bool :=
  match dict_get config "profiles" with
  | Some (JDict ps) => existsb (fun kv => negb (bool_decide (NoDup (replica_names kv.2)))) ps
  | _ => false
  end.
Definition validate_config (config : json) : res dict :=
  if negb (schema_valid config) then Err RuntimeError
  else
    match config with
    | JDict d => if duplicate_replicas d then Err ValueError else Ok d
    | _ => Err AttributeError
    end.

Definition resolve_include_path (include_path parent_config_path : string) : string :=
  if isabs include_path then abspath cwd include_path
  else abspath cwd (path_join (dirname parent_config_path) include_path).

(** Opening and parsing a file; what fails is caught by the callers *)
Definition load_config_file (path : string) : res json :=
  match files !! path with
  | Some (Some text) =>
      if endswith path ".json" then match loads text with Some j => Ok j | None => Err ValueError end
      else yaml_load text
  | _ => Err OSError
  end.

Fixpoint merge_includes (main_config_path : string) (include_paths : list json) (merged : dict) : res dict :=
  match include_paths with
  | [] => Ok merged
  | JStr include_path :: rest =>
      let resolved_path := resolve_include_path include_path main_config_path in
      match files !! resolved_path with
      | None => Err ValueError
      | Some _ =>
          match load_config_file resolved_path with
          | Err _ => Err ValueError
          | Ok included =>
              res_bind (validate_config included) (fun d =>
              if dmem d "include" then Err ValueError
              else res_bind (merge_configs merged d) (fun m => merge_includes main_config_path rest m))
          end
      end
  | _ :: _ => Err TypeError
  end.
Definition load_and_merge_includes (main_config_path : string) (main_config : dict) : res dict :=
  match dict_get main_config "include" with
  | Some (JList l) => merge_includes main_config_path l (dict_del main_config "include")
  | Some j => if truthy j then Err TypeError else Ok (dict_del main_config "include")
  | None => Ok main_config
  end.

Definition join3 (a b c : string) : string := path_join (path_join a b) c.
Definition find_config_file_paths : list string :=
  (match env !! "XDG_CONFIG_HOME" with
   | Some h => if bool_decide (h = "") then [] else [join3 h "msc" "config.yaml"; join3 h "msc" "config.json"]
   | None => []
   end) ++
  (match env !! "HOME" with
   | Some h =>
       if bool_decide (h = "") then []
       else [path_join h ".msc_config.yaml"; path_join h ".msc_config.json";
             path_join (join3 h ".config" "msc") "config.yaml"; path_join (join3 h ".config" "msc") "config.json"]
   | None => []
   end) ++
  concat (map (fun d => let d := strip_spaces d in
                        if bool_decide (d = "") then [] else [join3 d "msc" "config.yaml"; join3 d "msc" "config.json"])
              (split ":" (match env !! "XDG_CONFIG_DIRS" with
                          | Some d => if bool_decide (d = "") then "/etc/xdg" else d
                          | None => "/etc/xdg"
                          end))) ++
  ["/etc/msc_config.yaml"; "/etc/msc_config.json"].

(** The loop over the search path: the first file that exists is used *)
Fixpoint first_config_file (paths : list string) : res (json * option string) :=
  match paths with
  | [] => Ok (JDict [], None)
  | p :: paths' =>
      match files !! p with
      | None => first_config_file paths'
      | Some _ => match load_config_file p with Ok j => Ok (j, Some p) | Err _ => Err ValueError end
      end
  end.
Definition search_paths (config_file_paths : list string) : list string :=
  map (abspath cwd)
    (match config_file_paths with
     | [] => (match env !! "MSC_CONFIG" with Some p => [p] | None => [] end) ++ find_config_file_paths
     | _ => config_file_paths
     end).
Definition read_msc_config (config_file_paths : list string) : res (json * option string) :=
  res_bind (first_config_file (search_paths config_file_paths)) (fun '(config, path) =>
  if truthy config then
    res_bind (validate_config config) (fun d =>
    match path with
    | Some p => if dmem d "include" then res_bind (load_and_merge_includes p d) (fun m => Ok (JDict m, path)) else Ok (config, path)
    | None => Ok (config, path)
    end)
  else Ok (config, path)).
End Files.

(** ** Merging keeps every definition *)
(** [d[k][s]] *)
Definition entry_in (d : dict) (k s : string) : option json :=
  match dict_get d k with Some (JDict x) => dict_get x s | _ => None end.
Definition is_dict (j : json) : bool := match j with JDict _ => true | _ => false end.
(** The entries that are merged one by one *)
Definition merged_entry (k : string) (v : json) : Prop :=
  k = "profiles" \/ (k ∈ ["path_mapping"; "experimental_features"] /\ is_dict v = false).
Definition same (a b : json) : Prop := a = b \/ py_eqb a b = true.
(** The attribute providers of a configuration *)
Definition attributes_of (d : dict) : list json :=
  match dict_get d "opentelemetry" with
  | Some (JDict o) => match metrics_attributes o with Ok l => l | Err _ => [] end
  | _ => []
  end.

Record keeps (R : json -> json -> Prop) (d m : dict) : Prop := {
  keeps_entry : forall k s v, entry_in d k s = Some v -> merged_entry k v -> exists v', entry_in m k s = Some v' /\ R v' v;
  keeps_global : forall k v, k ∈ ["cache"; "posix"] -> dict_get d k = Some v -> exists v', dict_get m k = Some v' /\ R v' v;
}.

Lemma same_dict a b : same a b -> is_dict a = is_dict b.
Proof. intros [->|H]; [done|]. by destruct a, b. Qed.
Lemma keeps_trans d b m : keeps same d b -> keeps eq b m -> keeps same d m.
Proof.
  intros [H1 H2] [H3 H4]. split.
  - intros k s v Hv Hk. destruct (H1 k s v Hv Hk) as (v' & Hv' & Hs).
    destruct (H3 k s v' Hv') as (v2 & Hv2 & ->); [|by exists v'].
    destruct Hk as [->|[? ?]]; [by left|right]. by rewrite (same_dict _ _ Hs).
  - intros k v Hk Hv. destruct (H2 k v Hk Hv) as (v' & Hv' & Hs). destruct (H4 k v' Hk Hv') as (v2 & ? & ->). by exists v'.
Qed.

Lemma dict_get_dict_set d k v k' : dict_get (dict_set d k v) k' = if decide (k' = k) then Some v else dict_get d k'.
Proof. exact (dget_dset d k v k'). Qed.
Lemma dict_get_dict_del d k k' : dict_get (dict_del d k) k' = if decide (k' = k) then None else dict_get d k'.
Proof. exact (dget_ddel d k k'). Qed.

Lemma dict_del_fresh d k : dict_get d k = None -> dict_del d k = d.
Proof.
  induction d as [|[q v] d IH]; [done|]. cbn [dict_get]. destruct (decide (k = q)) as [|Hne]; [done|]. intros H.
  unfold dict_del. rewrite filter_cons_True by (cbn; congruence). f_equal. by apply IH.
Qed.
Lemma merge_profile_items_get items result r s :
  merge_profile_items items result = (r, []) ->
  match dict_get result s, dict_get items s with
  | Some v, Some v' => dict_get r s = Some v /\ py_eqb v v' = true
  | Some v, None => dict_get r s = Some v
  | None, Some v' => dict_get r s = Some v'
  | None, None => dict_get r s = None
  end.
Proof.
  revert result. induction items as [|[name p] items IH]; intros result; cbn [merge_profile_items].
  { intros [= <-]. cbn. by destruct (dict_get result s). }
  cbn [dict_get]. destruct (dict_get result name) as [old|] eqn:E.
  - destruct (merge_profile_items items result) as [r' c] eqn:Er. destruct (py_eqb old p) eqn:Ep; [|done].
    intros [= -> ->]. specialize (IH _ Er). destruct (decide (s = name)) as [->|]; [|done].
    rewrite E in IH |- *. split; [|done]. destruct (dict_get items name); [apply IH|done].
  - intros H. specialize (IH _ H). rewrite dict_get_app in IH. cbn in IH.
    destruct (decide (s = name)) as [->|]; [|by destruct (dict_get result s)].
    rewrite E in IH |- *. destruct (dict_get items name); [apply IH|done].
Qed.

Lemma merge_into_conflicts items d s v1 v2 :
  NoDup items.*1 -> (merge_into true d (JDict items)).2 = [] -> dict_get d s = Some v1 -> dict_get items s = Some v2 ->
  is_dict v1 && is_dict v2 = false -> py_eqb v1 v2 = true.
Proof.
  revert d. induction items as [|[k2 w] items IH]; intros d Hnd; [done|].
  rewrite merge_into_cons. inversion Hnd as [|? ? Hni Hnd']; subst.
  pose proof (merge_item_get true d k2 w s) as Hi. destruct (merge_item true d k2 w) as [d' c] eqn:Em. cbn [fst] in Hi.
  specialize (IH d' Hnd'). destruct (merge_into true d' (JDict items)) as [d'' c'] eqn:Ei. cbn [fst snd] in *.
  intros [-> ->]%app_nil H1 H2 Hv. cbn [dict_get] in H2. destruct (decide (s = k2)) as [->|Hne].
  - injection H2 as ->. clear -Em H1 Hv. unfold merge_item in Em. rewrite H1 in Em.
    destruct v1, v2; try done; destruct (true && py_eqb _ _) eqn:E; try done; by rewrite andb_true_l in E.
  - apply IH; [done|congruence|done|done].
Qed.

(** What [_merge_configs] puts under a key *)
Definition merged_value (b n : dict) (k : string) : res (option json) :=
  match dict_get b k, dict_get n k with
  | Some x, None => Ok (Some x)
  | None, Some y => Ok (Some y)
  | Some x, Some y => merge_field k x y
  | None, None => Ok None
  end.
Lemma merge_keys_cons k keys b n r :
  merge_keys (k :: keys) b n r =
  res_bind (merged_value b n k) (fun v => merge_keys keys b n (match v with Some v => dict_set r k v | None => r end)).
Proof. cbn [merge_keys]. unfold merged_value. by destruct (dict_get b k), (dict_get n k). Qed.
Lemma merge_keys_get keys b n r m k :
  merge_keys keys b n r = Ok m ->
  if decide (k ∈ keys) then exists o, merged_value b n k = Ok o /\ dict_get m k = match o with Some v => Some v | None => dict_get r k end
  else dict_get m k = dict_get r k.
Proof.
  revert r. induction keys as [|q keys IH]; intros r; [by intros [= ->]|]. rewrite merge_keys_cons.
  destruct (merged_value b n q) as [o|] eqn:Eo; [|done]. cbn [res_bind]. intros H. specialize (IH _ H).
  destruct (decide (k = q)) as [->|Hne].
  - rewrite decide_True by set_solver. exists o. split; [done|]. destruct (decide (q ∈ keys)).
    + destruct IH as (o' & Ho' & ->). assert (o' = o) as -> by congruence.
      destruct o; [done|]. done.
    + rewrite IH. destruct o; [|done]. by rewrite dict_get_dict_set, decide_True.
  - assert (dict_get (match o with Some v => dict_set r q v | None => r end) k = dict_get r k) as Hr.
    { destruct o; [|done]. by rewrite dict_get_dict_set, decide_False. }
    destruct (decide (k ∈ keys)).
    + rewrite decide_True by set_solver. destruct IH as (o' & ? & ->). exists o'. by rewrite Hr.
    + rewrite decide_False by set_solver. by rewrite IH.
Qed.

Section Merging.
Context (set_order : list string -> list string) (Horder : forall l k, k ∈ set_order l <-> k ∈ l).
Abbreviation merge_configs := (merge_configs set_order).

Lemma merge_configs_get b n m k : merge_configs b n = Ok m -> merged_value b n k = Ok (dict_get m k).
Proof.
  unfold Config.merge_configs, all_keys. intros H. pose proof (merge_keys_get _ _ _ _ _ k H) as Hk.
  destruct (decide _) as [_|Hno].
  - destruct Hk as (o & -> & ->). by destruct o.
  - rewrite Hk. rewrite Horder, elem_of_app, list_elem_of_filter in Hno.
    assert (dget b k = None /\ dget n k = None) as [Hb Hn].
    { rewrite !dget_None. split; [naive_solver|]. destruct (decide (k ∈ b.*1)); naive_solver. }
    unfold merged_value. change (dict_get b k) with (dget b k). change (dict_get n k) with (dget n k). by rewrite Hb, Hn.
Qed.

Lemma or_empty_get j d s : or_empty j = Ok d -> dict_get d s = match j with JDict x => dict_get x s | _ => None end.
Proof. unfold or_empty. destruct j; cbn; repeat case_match; intros; by simplify_eq. Qed.

(** The merged value of a section, entry by entry *)
Lemma merge_configs_entry b n m k s :
  merge_configs b n = Ok m -> NoDup (match dict_get n k with Some (JDict x) => x.*1 | _ => [] end) ->
  k ∈ ["profiles"; "path_mapping"; "experimental_features"] ->
  match entry_in b k s, entry_in n k s with
  | Some v, Some v' => merged_entry k v \/ merged_entry k v' -> entry_in m k s = Some v /\ py_eqb v v' = true
  | Some v, None => entry_in m k s = Some v
  | None, Some v' => entry_in m k s = Some v'
  | None, None => entry_in m k s = None
  end.
Proof.
  intros H Hnd Hk. pose proof (merge_configs_get b n m k H) as Hm. unfold merged_value in Hm. unfold entry_in.
  destruct (dict_get b k) as [bv|] eqn:Eb; [|destruct (dict_get n k) as [nv|]; injection Hm as <-; [|done];
    destruct nv; try done; by destruct (dict_get d s)].
  destruct (dict_get n k) as [nv|] eqn:En; [|injection Hm as <-; destruct bv; try done; by destruct (dict_get d s)].
  assert (exists db dn, or_empty bv = Ok db /\ or_empty nv = Ok dn /\
    (k = "profiles" /\ (exists d, dict_get m k = Some (JDict d) /\ merge_profiles db dn = Ok d) \/
     k <> "profiles" /\ exists d, dict_get m k = Some (JDict d) /\ merge_into true db (JDict dn) = (d, [])))
    as (db & dn & Hb & Hn & Hd).
  { unfold merge_field in Hm. destruct (or_empty bv) as [db|] eqn:Ob; [|repeat (case_bool_decide; [done|]); set_solver].
    destruct (or_empty nv) as [dn|] eqn:On; [|repeat (case_bool_decide; [done|]); set_solver].
    cbn [res_bind] in Hm. exists db, dn. split; [done|]. split; [done|]. case_bool_decide.
    - left. split; [done|]. destruct (merge_profiles db dn) as [d|] eqn:E; [|done]. injection Hm as Hm. by exists d.
    - right. split; [done|]. rewrite bool_decide_true in Hm by set_solver. unfold merge_dictionaries_no_overwrite in Hm.
      cbn [default from_option id app] in Hm. destruct (merge_into true db (JDict dn)) as [d [|]] eqn:E; [|done].
      injection Hm as Hm. by exists d. }
  rewrite <- (or_empty_get bv db s Hb), <- (or_empty_get nv dn s Hn).
  destruct Hd as [[-> (d & -> & Hd)]|[Hne (d & -> & Hd)]].
  - unfold merge_profiles in Hd. destruct (merge_profile_items dn db) as [r [|]] eqn:E; [|done]. injection Hd as ->.
    pose proof (merge_profile_items_get dn db d s E) as Hg. by destruct (dict_get db s), (dict_get dn s).
  - assert (NoDup dn.*1) as Hnd'. { destruct nv; cbn in Hn; repeat case_match; simplify_eq; done || constructor. }
    pose proof (merge_into_get true dn db s Hnd') as Hg. rewrite Hd in Hg. cbn [fst] in Hg. rewrite Hg.
    destruct (dict_get db s) as [v1|] eqn:E1, (dict_get dn s) as [v2|] eqn:E2; try done.
    + intros Hme. assert (is_dict v1 && is_dict v2 = false) as Hno.
      { destruct Hme as [[?|[_ ->]]|[?|[_ ->]]]; [done|done|done|]. apply andb_false_r. }
      split; [by destruct v1, v2|]. apply (merge_into_conflicts dn db s v1 v2); try done. by rewrite Hd.
    + by destruct v1.
Qed.

Lemma wf_section n k : wf_json (JDict n) -> NoDup (match dict_get n k with Some (JDict x) => x.*1 | _ => [] end).
Proof.
  intros [_ Hwf]. assert (forall v, dict_get n k = Some v -> wf_json v) as Hv.
  { clear -Hwf. induction n as [|[q w] n IH]; [done|]. cbn in Hwf |- *. destruct Hwf as [Hw Hn].
    intros v. destruct (decide (k = q)); [by intros [= <-]|]. by apply IH. }
  destruct (dict_get n k) as [[]|]; try constructor. by destruct (Hv _ eq_refl).
Qed.

Lemma merge_configs_keeps b n m :
  merge_configs b n = Ok m -> wf_json (JDict n) -> keeps eq b m /\ keeps same n m.
Proof.
  intros H Hwf.
  assert (forall k v, merged_entry k v -> k ∈ ["profiles"; "path_mapping"; "experimental_features"]) as Hin.
  { intros k v [->|[? _]]; set_solver. }
  assert (forall k v, k ∈ ["cache"; "posix"] -> (dict_get b k = Some v -> dict_get m k = Some v) /\
    (dict_get n k = Some v -> exists v', dict_get m k = Some v' /\ same v' v)) as Hglob.
  { intros k v Hk. pose proof (merge_configs_get b n m k H) as Hm. unfold merged_value in Hm.
    destruct (dict_get b k) as [x|] eqn:Eb, (dict_get n k) as [y|] eqn:En; cbn in Hm; simplify_eq; [|..|done].
    - unfold merge_field in Hm. rewrite bool_decide_false in Hm by set_solver. rewrite bool_decide_false in Hm by set_solver.
      rewrite bool_decide_false in Hm by set_solver. rewrite bool_decide_true in Hm by done.
      destruct (py_eqb x y) eqn:E; [|done]. injection Hm as Hm. rewrite <- Hm.
      split; [done|]. intros [= <-]. exists x. split; [done|]. by right.
    - rewrite <- Hm. split; [done|]. done.
    - rewrite <- Hm. split; [done|]. intros [= <-]. exists y. split; [done|]. by left. }
  split; split.
  - intros k s v Hv Hk. pose proof (merge_configs_entry b n m k s H (wf_section n k Hwf) (Hin k v Hk)) as He. rewrite Hv in He.
    exists v. split; [|done]. destruct (entry_in n k s); [|done]. apply He. by left.
  - intros k v Hk Hv. exists v. split; [by apply Hglob|done].
  - intros k s v Hv Hk. pose proof (merge_configs_entry b n m k s H (wf_section n k Hwf) (Hin k v Hk)) as He. rewrite Hv in He.
    destruct (entry_in b k s) as [v1|].
    + exists v1. destruct He as [-> He]; [by right|]. split; [done|]. by right.
    + exists v. split; [done|]. by left.
  - intros k v Hk Hv. by apply Hglob.
Qed.

Lemma merge_opentelemetry_attributes b n m :
  merge_opentelemetry b n = Ok m ->
  exists ab an, metrics_attributes b = Ok ab /\ metrics_attributes n = Ok an /\ metrics_attributes m = Ok (ab ++ an).
Proof.
  unfold merge_opentelemetry. destruct (metrics_attributes b) as [ab|]; [|done]. destruct (metrics_attributes n) as [an|]; [|done].
  cbn [res_bind]. destruct (merge_dictionaries_no_overwrite _ _ _ _) as [merged [|]]; [|done].
  destruct (dict_get merged "metrics") as [[]|] eqn:Em; intros H; simplify_eq; exists ab, an; split_and!; try done.
  - unfold metrics_attributes. rewrite dict_get_dict_set, decide_True, dict_get_dict_set, decide_True by done. done.
  - unfold metrics_attributes. destruct (ab ++ an) as [|x l] eqn:E; [by rewrite Em|]. rewrite dict_get_app, Em. cbn. done.
Qed.
Lemma merge_configs_attributes b n m : merge_configs b n = Ok m -> attributes_of m = attributes_of b ++ attributes_of n.
Proof.
  intros H. pose proof (merge_configs_get b n m "opentelemetry" H) as Hm. unfold merged_value in Hm. unfold attributes_of.
  destruct (dict_get b "opentelemetry") as [x|], (dict_get n "opentelemetry") as [y|].
  - change (res_bind (or_empty x) (fun b => res_bind (or_empty y) (fun n =>
      res_bind (merge_opentelemetry b n) (fun d => Ok (Some (JDict d))))) = Ok (dict_get m "opentelemetry")) in Hm.
    destruct (or_empty x) as [dx|] eqn:Ex; [|done]. destruct (or_empty y) as [dy|] eqn:Ey; [|done]. cbn [res_bind] in Hm.
    destruct (merge_opentelemetry dx dy) as [d|] eqn:E; [|done]. injection Hm as <-.
    destruct (merge_opentelemetry_attributes _ _ _ E) as (ab & an & Ha & Hn & ->).
    assert (forall j d l, or_empty j = Ok d -> metrics_attributes d = Ok l ->
      match j with JDict o => match metrics_attributes o with Ok l => l | Err _ => [] end | _ => [] end = l) as Hj.
    { intros j d0 l. unfold or_empty. destruct j; [..|by intros [= ->] ->]; destruct (truthy _); intros [= <-] [= <-]; done. }
    by rewrite (Hj x dx ab Ex Ha), (Hj y dy an Ey Hn).
  - injection Hm as <-. by rewrite app_nil_r.
  - by injection Hm as <-.
  - by injection Hm as <-.
Qed.
End Merging.

(** What a merge of the configurations [ds] keeps of them *)
Definition merge_of (ds : list dict) (m : dict) : Prop :=
  (forall d, d ∈ ds -> keeps same d m) /\
  (forall s v, entry_in m "profiles" s = Some v -> exists d, d ∈ ds /\ entry_in d "profiles" s = Some v) /\
  attributes_of m = concat (map attributes_of ds) /\ dict_get m "include" = None.

Lemma merge_of_single d : dict_get d "include" = None -> merge_of [d] d.
Proof.
  intros Hd. split_and!; [|intros s v Hv; exists d; split; [set_solver|done]|cbn; by rewrite app_nil_r|done].
  intros d' ->%list_elem_of_singleton. split; [intros k s v Hv _|intros k v _ Hv]; exists v; (split; [done|by left]).
Qed.

Section Includes.
Context (set_order : list string -> list string) (Horder : forall l k, k ∈ set_order l <-> k ∈ l).
Context (cwd : string) (files : gmap string (option string)) (yaml_load : string -> res json) (schema_valid : json -> bool).
Context (Hwf : forall p j, load_config_file files yaml_load p = Ok j -> wf_json j).

(** The configurations that the include directives name, in order *)
Definition included (main_config_path : string) (include_paths : list json) : list dict :=
  omap (fun j => match j with
                 | JStr p => match load_config_file files yaml_load (resolve_include_path cwd p main_config_path) with
                             | Ok (JDict d) => Some d
                             | _ => None
                             end
                 | _ => None
                 end) include_paths.
Definition include_paths (config : dict) : list json :=
  match dict_get config "include" with Some (JList l) => l | _ => [] end.

Lemma merge_of_step ds b n m :
  merge_of ds b -> merge_configs set_order b n = Ok m -> wf_json (JDict n) -> dict_get n "include" = None -> merge_of (ds ++ [n]) m.
Proof.
  intros (H1 & H2 & H3 & H4) Hm Hn Hi. destruct (merge_configs_keeps set_order Horder b n m Hm Hn) as [Kb Kn]. split_and!.
  - intros d [Hd| ->%list_elem_of_singleton]%elem_of_app; [|done]. eapply keeps_trans; [by apply H1|done].
  - intros s v Hv. pose proof (merge_configs_entry set_order Horder b n m "profiles" s Hm (wf_section n _ Hn) ltac:(set_solver)) as He.
    setoid_rewrite elem_of_app. destruct (entry_in b "profiles" s) as [v1|] eqn:E1.
    + assert (v1 = v) as ->. { destruct (entry_in n "profiles" s); [destruct He as [He _]; [by left; left|]|]; congruence. }
      destruct (H2 s v E1) as (d & ? & ?). exists d. auto.
    + destruct (entry_in n "profiles" s) as [v2|] eqn:E2; [|congruence]. exists n. split; [right; set_solver|congruence].
  - rewrite (merge_configs_attributes set_order Horder b n m Hm), map_app, concat_app, H3. cbn. by rewrite app_nil_r.
  - pose proof (merge_configs_get set_order Horder b n m "include" Hm) as He. unfold merged_value in He. rewrite H4, Hi in He.
    by injection He as <-.
Qed.
Lemma merge_includes_of path l ds b m :
  merge_of ds b -> merge_includes set_order cwd files yaml_load schema_valid path l b = Ok m -> merge_of (ds ++ included path l) m.
Proof.
  revert ds b. induction l as [|j l IH]; intros ds b Hb; cbn [merge_includes].
  { intros [= <-]. cbn. by rewrite app_nil_r. }
  destruct j as [| | |p| |]; try done. destruct (files !! _) as [t|] eqn:Ef; [|done].
  destruct (load_config_file files yaml_load (resolve_include_path cwd p path)) as [j|] eqn:Ej; [|done].
  destruct (validate_config schema_valid j) as [d|] eqn:Ev; [|done]. cbn [res_bind].
  assert (j = JDict d) as ->. { unfold validate_config in Ev. repeat case_match; by simplify_eq. }
  destruct (dmem d "include") eqn:Ei; [done|].
  destruct (merge_configs set_order b d) as [m1|] eqn:Em; [|done]. cbn [res_bind]. intros H.
  assert (included path (JStr p :: l) = [d] ++ included path l) as -> by (unfold included; cbn; by rewrite Ej).
  rewrite app_assoc.
  eapply IH; [|exact H]. eapply merge_of_step; [done|done|by eapply Hwf|].
  unfold dmem in Ei. change (dict_get d "include") with (dget d "include"). by destruct (dget d "include").
Qed.
End Includes.

(** C19: merging the included files keeps every definition: if it succeeds, each
    profile, path mapping, experimental feature and cache or mount section of
    the main file and of every included file is in the result, unchanged up to
    Python's equality, so definitions that differ are never overwritten; no
    profile comes from elsewhere, and the attribute providers are those of the
    files, in their order. *)
Theorem includes_keep_definitions (set_order : list string -> list string) (cwd : string) (files : gmap string (option string))
    (yaml_load : string -> res json) (schema_valid : json -> bool) (main_config_path : string) (main m : dict)
    (Horder : forall l k, k ∈ set_order l <-> k ∈ l) (Hwf : forall p j, load_config_file files yaml_load p = Ok j -> wf_json j)
    (Hload : load_and_merge_includes set_order cwd files yaml_load schema_valid main_config_path main = Ok m) :
  let ds := main :: included cwd files yaml_load main_config_path (include_paths main) in
  (forall d, d ∈ ds -> keeps same d m) /\
  (forall s v, entry_in m "profiles" s = Some v -> exists d, d ∈ ds /\ entry_in d "profiles" s = Some v) /\
  attributes_of m = concat (map attributes_of ds) /\ dict_get m "include" = None.
Proof.
  cbn zeta. set (main' := dict_del main "include").
  assert (forall k, k <> "include" -> dict_get main' k = dict_get main k) as Hk.
  { intros k ?. unfold main'. by rewrite dict_get_dict_del, decide_False. }
  assert (merge_of (main' :: included cwd files yaml_load main_config_path (include_paths main)) m) as (H1 & H2 & H3 & H4).
  { assert (merge_of [main'] main'). { apply merge_of_single. unfold main'. by rewrite dict_get_dict_del, decide_True. }
    unfold load_and_merge_includes in Hload. unfold include_paths.
    destruct (dict_get main "include") as [j|] eqn:E.
    - destruct j; try (destruct (truthy _); [done|]; injection Hload as <-; done).
      by apply (merge_includes_of set_order Horder cwd files yaml_load schema_valid Hwf main_config_path l [main'] main' m).
    - injection Hload as <-. unfold main' in *. replace (dict_del main "include") with main; [by apply merge_of_single|].
      symmetry. by apply dict_del_fresh. }
  assert (forall k s, k <> "include" -> entry_in main' k s = entry_in main k s) as He.
  { intros k s ?. unfold entry_in. by rewrite Hk. }
  split_and!; [|intros s v Hv|rewrite H3; cbn; unfold attributes_of at 1 3; by rewrite Hk|done].
  - intros d [->|Hd]%elem_of_cons; [|apply H1; by right]. destruct (H1 main' ltac:(by left)) as [K1 K2]. split.
    + intros k s v Hv Hm. apply K1; [|done]. rewrite He; [done|]. intros ->. destruct Hm as [?|[? _]]; set_solver.
    + intros k v Hc Hv. apply K2; [done|]. rewrite Hk; [done|]. set_solver.
  - destruct (H2 s v Hv) as (d & [->|Hd]%elem_of_cons & Hp); [exists main|exists d]; (split; [by left || by right|]); [|done].
    by rewrite He in Hp.
Qed.

Definition included_example : dict :=
  [("profiles", JDict [("b", implicit_profile "s3" "bucket")]); ("cache", JDict [("size", JStr "1G")])].
Definition main_example : dict :=
  [("include", JList [JStr "b.json"]); ("profiles", JDict [("a", implicit_profile "file" "/data"); ("b", implicit_profile "s3" "bucket")])].
Definition files_example (d : dict) : gmap string (option string) := {[ "/c/b.json" := Some (dumps (JDict d)) ]}.
Definition load_example (main d : dict) : res dict :=
  load_and_merge_includes id "/" (files_example d) (fun _ => Err ValueError) (fun _ => true) "/c/a.yaml" main.
Definition merged_example : dict := match load_example main_example included_example with Ok m => m | Err _ => [] end.

Lemma includes_keep_definitions_witness :
  keeps same included_example merged_example /\ attributes_of merged_example = [].
Proof.
  destruct (includes_keep_definitions id "/" (files_example included_example) (fun _ => Err ValueError) (fun _ => true) "/c/a.yaml"
    main_example merged_example) as (H & _ & Ha & _).
  - done.
  - intros p j. unfold load_config_file, files_example. destruct (decide (p = "/c/b.json")) as [->|Hp].
    + rewrite lookup_singleton_eq. change (endswith "/c/b.json" ".json") with true. cbv iota. rewrite loads_dumps.
      * intros [= <-]. cbn. repeat split; by apply (bool_decide_unpack _); vm_compute.
      * cbn. repeat split; by apply (bool_decide_unpack _); vm_compute.
    + by rewrite lookup_singleton_ne.
  - vm_compute. reflexivity.
  - split; [|exact Ha]. apply H. right. vm_compute. left.
Defined.

(** A file that defines the profile differently is rejected. *)
Example conflicting_include_rejected :
  load_example main_example [("profiles", JDict [("b", implicit_profile "s3" "other")])] = Err ValueError.
Proof. vm_compute. reflexivity. Qed.
