(* ===== verification/Rclone.v ===== *)
(** * Profiles from an rclone configuration ([multistorageclient/rclone.py])

    The translation of the sections of an [rclone.conf] file to profiles.  The
    sections are those that Python's [configparser] reads: name, then keys (in
    lower case) and values in order. *)
From S2P Require Import Prelude PyDict PyPath Types Utils Json Config.

(** ** Definitions *)
Definition section : Type := list (string * string).

(** [_get_rclone_config_path]: [rclone_exe] is the executable found in the path *)
Definition first_file (is_file : string -> bool) (paths : list string) : option string := find is_file paths.
Definition get_rclone_config_path (is_file is_dir : string -> bool) (rclone_exe : option string) (env : gmap string string)
    : option string :=
  let home := default "" (env !! "HOME") in
  let defaults := ["/etc/rclone.conf"; path_join (join3 home ".config" "rclone") "rclone.conf"; path_join home ".rclone.conf"] in
  let beside := match rclone_exe with
                | Some e => if is_file e then [path_join (dirname e) "rclone.conf"] else []
                | None => []
                end in
  let xdg := match env !! "XDG_CONFIG_HOME" with
             | Some h => if negb (bool_decide (h = "")) && is_dir h then [join3 h "rclone" "rclone.conf"] else []
             | None => []
             end in
  first_file is_file (beside ++ xdg ++ defaults).

(** [_set_if_exists] *)
Definition set_if_exists (s : section) (target : dict) (msc_key rclone_key : string) : dict :=
  match dget s rclone_key with Some v => dict_set target msc_key (JStr v) | None => target end.
Definition set_all (s : section) (keys : list (string * string)) : dict :=
  fold_left (fun d kk => set_if_exists s d kk.1 kk.2) keys [].
(** [if options: credentials_provider["options"] = options] *)
Definition credentials_options (options : dict) : dict :=
  match options with [] => [] | _ => [("options", JDict options)] end.

Definition parse_s3_storage_provider_config (s : section) : dict * dict :=
  let storage_provider_options := set_all s
    [("region_name", "region"); ("endpoint_url", "endpoint"); ("base_path", "base_path"); ("profile_name", "profile_name");
     ("request_checksum_calculation", "request_checksum_calculation");
     ("response_checksum_validation", "response_checksum_validation")] in
  let credentials_provider_options := set_all s
    [("access_key", "access_key_id"); ("secret_key", "secret_access_key"); ("session_token", "session_token")] in
  (storage_provider_options,
   credentials_options credentials_provider_options ++
   (if dmem credentials_provider_options "access_key" then [("type", JStr "S3Credentials")] else [])).

Definition parse_azure_storage_provider_config (s : section) : dict * dict :=
  let storage_provider_options := set_all s [("endpoint_url", "endpoint"); ("base_path", "base_path")] in
  let credentials_provider_options := set_all s
    [("connection", "connection"); ("workload_identity_tenant_id", "workload_identity_tenant_id");
     ("workload_identity_client_id", "workload_identity_client_id")] in
  (storage_provider_options,
   credentials_options credentials_provider_options ++
   (if dmem credentials_provider_options "connection" then [("type", JStr "AzureCredentials")]
    else if dmem credentials_provider_options "workload_identity_tenant_id" ||
            dmem credentials_provider_options "workload_identity_client_id"
         then [("type", JStr "DefaultAzureCredentials")] else [])).

Definition parse_gcs_storage_provider_config (s : section) : dict * dict :=
  (set_all s [("project_id", "project_number"); ("endpoint_url", "endpoint"); ("base_path", "base_path")], []).
Definition parse_oci_storage_provider_config (s : section) : dict * dict :=
  (set_all s [("namespace", "namespace"); ("base_path", "base_path")], []).
Definition parse_ais_storage_provider_config (s : section) : dict * dict :=
  (set_all s [("endpoint", "endpoint"); ("base_path", "base_path")], []).

(** The storage type of the client, its options and the credentials of a
    section; [storage_type in ("file")] is a test for a substring *)
Definition section_options (s : section) : option (string * dict * dict) :=
  let storage_type := lower (default "" (dget s "type")) in
  if bool_decide (storage_type ∈ ["s3"; "s8k"; "gcs_s3"]) then
    let '(o, c) := parse_s3_storage_provider_config s in Some (storage_type, o, c)
  else if bool_decide (storage_type ∈ ["azure"; "azureblob"]) then
    let '(o, c) := parse_azure_storage_provider_config s in Some ("azure", o, c)
  else if bool_decide (storage_type ∈ ["gcs"; "google cloud storage"]) then
    let '(o, c) := parse_gcs_storage_provider_config s in Some ("gcs", o, c)
  else if bool_decide (storage_type ∈ ["oci"; "oracleobjectstorage"]) then
    let '(o, c) := parse_oci_storage_provider_config s in Some ("oci", o, c)
  else if bool_decide (storage_type = "ais") then
    let '(o, c) := parse_ais_storage_provider_config s in Some (storage_type, o, c)
  else if has_substr storage_type "file" then Some (storage_type, map (fun kv => (kv.1, JStr kv.2)) s, [])
  else None.
(** [_parse_config_section] *)
Definition parse_config_section (s : section) : dict :=
  match section_options s with
  | None => []
  | Some (storage_type, options, credentials_provider) =>
      let options := dict_set options "base_path" (default (JStr "") (dict_get options "base_path")) in
      ("storage_provider", JDict [("type", JStr storage_type); ("options", JDict options)]) ::
      match credentials_provider with [] => [] | _ => [("credentials_provider", JDict credentials_provider)] end
  end.

(** [_parse_from_config_parser] *)
Definition config_entries (sections : list (string * section)) : dict :=
  fold_left (fun d ns => match parse_config_section ns.2 with
                         | [] => d
                         | e => dict_set d ns.1 (JDict (dict_set e "name" (JStr ns.1)))
                         end) sections [].
Definition parse_from_config_parser (sections : list (string * section)) : dict :=
  [("profiles", JDict (config_entries sections))].

(** [read_rclone_config] without its memory: [None] when there is no file *)
Definition read_rclone_config (cwd : string) (config_path : option string) (read : string -> res (list (string * section)))
    : res (option (dict * string)) :=
  match config_path with
  | None => Ok None
  | Some p => res_bind (read p) (fun sections => Ok (Some (parse_from_config_parser sections, abspath cwd p)))
  end.

(** ** Properties *)
(** The options that the schema requires: a type and a base path *)
Definition provider_of (e : json) : option (json * json) :=
  match e with
  | JDict d => match dict_get d "storage_provider" with
               | Some (JDict p) => match dict_get p "type", dict_get p "options" with
                                   | Some t, Some (JDict o) => pair t <$> dict_get o "base_path"
                                   | _, _ => None
                                   end
               | _ => None
               end
  | _ => None
  end.
Lemma parse_config_section_provider s e :
  parse_config_section s = e -> e <> [] -> exists t o c,
    section_options s = Some (t, o, c) /\
    provider_of (JDict e) = Some (JStr t, default (JStr "") (dict_get o "base_path")).
Proof.
  unfold parse_config_section. destruct (section_options s) as [[[t o] c]|]; [|by intros <-].
  intros <- _. exists t, o, c. split; [done|]. remember (dict_set o "base_path" _) as o' eqn:Ho. cbn [provider_of dict_get]. decide_lit.
  cbn. decide_lit. by rewrite Ho, dict_get_dict_set, decide_True.
Qed.

(** A section becomes a profile of the same name with a storage type and a
    base path, the empty one when the section gives none; later sections of
    other names do not change it. *)
Theorem rclone_profile_complete (sections : list (string * section)) (name : string) (s : section) (t : string) (o c : dict)
    (Hin : (name, s) ∈ sections) (Hnd : NoDup sections.*1) (Hs : section_options s = Some (t, o, c)) :
  exists e, entry_in (parse_from_config_parser sections) "profiles" name = Some e /\
    provider_of e = Some (JStr t, default (JStr "") (dict_get o "base_path")).
Proof.
  change (entry_in (parse_from_config_parser sections) "profiles" name) with (dict_get (config_entries sections) name).
  unfold config_entries. generalize (@nil (string * json)) as d. revert Hin Hnd.
  induction sections as [|[n s'] sections IH]; intros Hin Hnd d; [by apply elem_of_nil in Hin|].
  inversion Hnd as [|? ? Hni Hnd']; subst. cbn [fold_left fst snd].
  apply elem_of_cons in Hin as [[= <- <-]|Hin]; [|by apply IH].
  destruct (parse_config_section s) as [|x e] eqn:Ee; [unfold parse_config_section in Ee; by rewrite Hs in Ee|].
  destruct (parse_config_section_provider s (x :: e) Ee ltac:(done)) as (t' & o' & c' & Hs' & Hp).
  rewrite Hs in Hs'. injection Hs' as <- <- <-.
  exists (JDict (dict_set (x :: e) "name" (JStr name))). split.
  - clear -Hni. set (d' := dict_set _ _ _). assert (dict_get d' name = Some (JDict (dict_set (x :: e) "name" (JStr name)))) as Hd'.
    { unfold d'. by rewrite dict_get_dict_set, decide_True. }
    revert Hd'. generalize d'. clear d d'. induction sections as [|[n s2] sections IH]; intros d Hd; [done|].
    cbn [fold_left fst snd]. cbn in Hni. apply IH; [set_solver|].
    destruct (parse_config_section s2); [done|]. rewrite dict_get_dict_set, decide_False; [done|]. set_solver.
  - unfold provider_of in Hp |- *. rewrite dict_get_dict_set, decide_False by done. exact Hp.
Qed.

(** A section without a type, or with a type like [f] or [il], is taken for a
    section of type [file]: the profile has a storage provider that does not
    exist. *)
Theorem rclone_unknown_type_accepted :
  parse_config_section [("provider", "x")] =
    [("storage_provider", JDict [("type", JStr ""); ("options", JDict [("provider", JStr "x"); ("base_path", JStr "")])])] /\
  parse_config_section [("type", "il")] =
    [("storage_provider", JDict [("type", JStr "il"); ("options", JDict [("type", JStr "il"); ("base_path", JStr "")])])].
Proof. vm_compute. split; reflexivity. Qed.
