(* ===== verification/Retry.v ===== *)
(** * Retries ([multistorageclient/retry.py])

    The common retry loop, the [retry] decorator and [batch_retry], which
    attempts again only the items that failed.  An operation is a
    state-passing call; sleeping before an attempt is recorded as an event (the
    attempt that just failed), its duration is not modelled. *)
From S2P Require Import Prelude Types.

(** ** Definitions *)

Record RetryDecision := mkRetryDecision {
  retryable : bool;
  error : exc;
  log_non_retryable : bool;
}.

(** What the loop returns: [None] is Python's implicit [None] when the loop
    body never runs (no attempt allowed). *)
Record RetryOutcome (A W : Type) := mkRetryOutcome {
  outcome : option (res A);
  final_state : W;
  sleeps : list nat;
}.
Arguments mkRetryOutcome {A W} _ _ _.
Arguments outcome {A W} _.
Arguments final_state {A W} _.
Arguments sleeps {A W} _.

Section RunWithRetry.
Context {A W : Type}.
(** One attempt, and the classification of an exception; the classifier may
    change its closure's variables and may itself raise. *)
Context (call : M W A) (classify_error : exc -> M W RetryDecision).

(** The body of [for attempt in range(attempts)], from [attempt] on, with
    [remaining] iterations left. *)
Fixpoint retry_loop (retry_config : option RetryConfig) (n_attempts : nat)
    (remaining attempt : nat) (w : W) : RetryOutcome A W :=
  match remaining with
  | 0 => mkRetryOutcome None w []
  | S remaining' =>
      match call w with
      | (Ok a, w1) => mkRetryOutcome (Some (Ok a)) w1 []
      | (Err e, w1) =>
          match classify_error e w1 with
          | (Err e', w2) => mkRetryOutcome (Some (Err e')) w2 []
          | (Ok decision, w2) =>
              if negb (retryable decision) then mkRetryOutcome (Some (Err (error decision))) w2 []
              else match retry_config with
                   | None => mkRetryOutcome (Some (Err (error decision))) w2 []
                   | Some _ =>
                       if (attempt <? n_attempts - 1)%nat then
                         let r := retry_loop retry_config n_attempts remaining' (S attempt) w2 in
                         mkRetryOutcome (outcome r) (final_state r) (attempt :: sleeps r)
                       else mkRetryOutcome (Some (Err (error decision))) w2 []
                   end
          end
      end
  end.

(** [_run_with_retry] *)
Definition run_with_retry (retry_config : option RetryConfig) (w : W) : RetryOutcome A W :=
  let n_attempts := match retry_config with Some c => Z.to_nat (attempts c) | None => 1 end in
  retry_loop retry_config n_attempts n_attempts 0 w.
End RunWithRetry.

(** The classifier of the [retry] decorator. *)
Definition retry_classify {W} (e : exc) : M W RetryDecision :=
  match e with
  | RetryableError => mret (mkRetryDecision true e true)
  | FileNotFoundError => mret (mkRetryDecision false e false)
  | _ => mret (mkRetryDecision false e true)
  end.

(** The [retry] decorator around [func] *)
Definition retry {W A} (retry_config : option RetryConfig) (func : M W A) (w : W)
    : RetryOutcome A W :=
  run_with_retry func retry_classify retry_config w.

(** [_remap_batch_transfer_error]: [pending_indices[failure.index]] raises
    [IndexError] when out of range. *)
Fixpoint remap_failures (failures : list BatchTransferFailure) (pending_indices : list Z)
    : res (list BatchTransferFailure * list Z) :=
  match failures with
  | [] => Ok ([], [])
  | mkBatchTransferFailure i src dst err :: fs =>
      match py_nth pending_indices i with
      | None => Err IndexError
      | Some original_index =>
          res_bind (remap_failures fs pending_indices) (fun '(rs, ids) =>
            Ok (mkBatchTransferFailure original_index src dst err :: rs, original_index :: ids))
      end
  end.
Definition remap_batch_transfer_error (failures : list BatchTransferFailure)
    (pending_indices : list Z) : res (exc * list BatchTransferFailure * list Z) :=
  res_bind (remap_failures failures pending_indices) (fun '(rs, ids) =>
    match make_BatchTransferError rs with
    | BatchTransferError _ as e => Ok (e, rs, ids)
    | e => Err e
    end).

Definition is_retryable_error (e : exc) : bool :=
  match e with RetryableError => true | _ => false end.
Definition failure_retryable (f : BatchTransferFailure) : bool :=
  match f with mkBatchTransferFailure _ _ _ e => is_retryable_error e end.

(** The closure variable [pending_indices] beside the world of the provider. *)
Record BatchState (W : Type) := mkBatchState { pending : list Z; world : W }.
Arguments mkBatchState {W} _ _.
Arguments pending {W} _.
Arguments world {W} _.

Section BatchRetry.
Context {W A : Type}.
(** The decorated method: it receives the indices to attempt. *)
Context (batch_func : list Z -> M W A).

(** [_call_batch] *)
Definition call_batch : M (BatchState W) A :=
  fun s => let '(r, w) := batch_func (pending s) (world s) in (r, mkBatchState (pending s) w).

(** The classifier of [batch_retry] *)
Definition batch_classify (e : exc) : M (BatchState W) RetryDecision :=
  fun s =>
  match e with
  | BatchTransferError failures =>
      match remap_batch_transfer_error failures (pending s) with
      | Err e' => (Err e', s)
      | Ok (batch_error, remapped, failed_indices) =>
          if existsb (fun f => negb (failure_retryable f)) remapped
          then (Ok (mkRetryDecision false batch_error true), s)
          else (Ok (mkRetryDecision true batch_error true), mkBatchState failed_indices (world s))
      end
  | RetryableError => (Ok (mkRetryDecision true e true), s)
  | _ => (Ok (mkRetryDecision false e true), s)
  end.

(** The [batch_retry] decorator around [batch_func] *)
Definition batch_retry (retry_config : option RetryConfig) (indices : list Z) (w : W)
    : RetryOutcome A (BatchState W) :=
  run_with_retry call_batch batch_classify retry_config (mkBatchState indices w).
End BatchRetry.

(** ** Theorems: the retry loop *)

(** One attempt followed by the classification of its error. *)
Definition attempt_result {W A} (call : M W A) (classify : exc -> M W RetryDecision) (w : W)
    : (res A * option (res RetryDecision)) * W :=
  match call w with
  | (Ok a, w1) => ((Ok a, None), w1)
  | (Err e, w1) => let '(d, w2) := classify e w1 in ((Err e, Some d), w2)
  end.

(** The states at the start of the attempts: each earlier attempt failed and
    was classified as retryable. *)
Inductive retried {W A} (call : M W A) (classify : exc -> M W RetryDecision) : nat -> W -> W -> Prop :=
  | retried_0 w : retried call classify 0 w w
  | retried_S n w e d w1 w2 :
      attempt_result call classify w = ((Err e, Some (Ok d)), w1) -> retryable d = true ->
      retried call classify n w1 w2 -> retried call classify (S n) w w2.

(** How the last attempt, number [n] of [total], ends the loop. *)
Definition ends_with {W A} (call : M W A) (classify : exc -> M W RetryDecision)
    (config : option RetryConfig) (total n : nat) (w w' : W) (r : res A) : Prop :=
  match attempt_result call classify w with
  | ((Ok a, _), w1) => r = Ok a /\ w' = w1
  | ((Err _, Some (Err e)), w1) => r = Err e /\ w' = w1
  | ((Err _, Some (Ok d)), w1) =>
      r = Err (error d) /\ w' = w1 /\
      (retryable d = false \/ config = None \/ S n = total)
  | ((Err _, None), _) => False
  end.

Lemma retry_loop_spec {W A} (call : M W A) classify config total remaining attempt w :
  attempt + remaining = total -> remaining > 0 ->
  exists k r w1,
    k < remaining /\ retried call classify k w w1 /\ (k = 0 \/ config <> None) /\
    outcome (retry_loop call classify config total remaining attempt w) = Some r /\
    ends_with call classify config total (attempt + k) w1
      (final_state (retry_loop call classify config total remaining attempt w)) r /\
    sleeps (retry_loop call classify config total remaining attempt w) = seq attempt k.
Proof.
  revert attempt w. induction remaining as [|m IH]; intros attempt w Hsum Hpos; [lia|].
  cbn [retry_loop].
  assert (forall r wf, ends_with call classify config total attempt w wf r ->
    exists k r' w1, k < S m /\ retried call classify k w w1 /\ (k = 0 \/ config <> None) /\
      outcome (mkRetryOutcome (Some r) wf []) = Some r' /\
      ends_with call classify config total (attempt + k) w1
        (final_state (mkRetryOutcome (Some r) wf [])) r' /\
      sleeps (mkRetryOutcome (Some r) wf []) = seq attempt k) as Hstop.
  { intros r wf H. exists 0, r, w. rewrite Nat.add_0_r.
    split_and!; [lia|constructor|by left|done|done|done]. }
  unfold ends_with in Hstop. unfold attempt_result in Hstop at 1.
  destruct (call w) as [[a|e] w1] eqn:Ec; [by apply Hstop|].
  destruct (classify e w1) as [[d|e'] w2] eqn:Ed; [|by apply Hstop].
  destruct (retryable d) eqn:Er; cbn [negb]; [|apply Hstop; auto].
  destruct config as [c|]; [|apply Hstop; auto].
  destruct (attempt <? total - 1)%nat eqn:Ea; bool_to_prop;
    [|apply Hstop; split_and!; [done|done|right; right; lia]].
  destruct (IH (S attempt) w2 ltac:(lia) ltac:(lia)) as (k & r & w3 & Hk & Hret & _ & Ho & He & Hs).
  exists (S k), r, w3. cbn [outcome final_state sleeps]. split_and!.
  - lia.
  - econstructor; [|exact Er|exact Hret]. unfold attempt_result. by rewrite Ec, Ed.
  - by right.
  - done.
  - by replace (attempt + S k) with (S attempt + k) by lia.
  - cbn [seq]. by rewrite Hs.
Qed.

(** The retry loop always returns or raises, after at most
    [attempts] attempts: all attempts but the last failed with errors
    classified as retryable (one sleep after each), and the last one succeeded,
    or failed with a non-retryable error, or exhausted the attempts (or there
    is no retry configuration); a raised error is the classified one. *)
Lemma run_with_retry_outcome {W A} (call : M W A) (classify : exc -> M W RetryDecision)
    (config : option RetryConfig) (w : W)
    (Hconfig : forall c, config = Some c -> (1 <= attempts c)%Z) :
  let total := match config with Some c => Z.to_nat (attempts c) | None => 1 end in
  let run := run_with_retry call classify config w in
  exists k r w1,
    k < total /\ retried call classify k w w1 /\ outcome run = Some r /\
    ends_with call classify config total k w1 (final_state run) r /\ sleeps run = seq 0 k.
Proof.
  cbn zeta. unfold run_with_retry.
  destruct (retry_loop_spec call classify config
    (match config with Some c => Z.to_nat (attempts c) | None => 1 end)
    (match config with Some c => Z.to_nat (attempts c) | None => 1 end) 0 w)
    as (k & r & w1 & ? & ? & ? & ? & ? & ?); [lia| |by eauto 10].
  destruct config as [c|]; [|lia]. specialize (Hconfig c eq_refl). lia.
Qed.

(** A call that fails with [RetryableError] as many times as its state says. *)
Definition flaky : M nat string :=
  fun n => match n with 0 => (Ok "done", 0) | S m => (Err RetryableError, m) end.

(** [n] successive attempts that all raised [RetryableError]. *)
Inductive flaked {W A} (func : M W A) : nat -> W -> W -> Prop :=
  | flaked_0 w : flaked func 0 w w
  | flaked_S n w w1 w2 :
      func w = (Err RetryableError, w1) -> flaked func n w1 w2 -> flaked func (S n) w w2.

Lemma retried_flaked {W A} (func : M W A) n w w' :
  retried func retry_classify n w w' -> flaked func n w w'.
Proof.
  induction 1 as [|n w e d w1 w2 Ha Hd _ IH]; [constructor|]. econstructor; [|exact IH].
  unfold attempt_result in Ha. destruct (func w) as [[a|e'] w0]; [done|].
  destruct e'; cbn in Ha; simplify_eq/=; done.
Qed.

(** A call decorated with [retry] always returns or raises, and makes at most
    [attempts] attempts: all but the last raised [RetryableError], with one
    sleep after each; the result is that of the last attempt, which raised
    [RetryableError] only if no attempt was left or no retry is configured. *)
Theorem retry_spec {W A} (func : M W A) (config : option RetryConfig) (w : W)
    (Hconfig : forall c, config = Some c -> (1 <= attempts c)%Z) :
  let total := match config with Some c => Z.to_nat (attempts c) | None => 1 end in
  let run := retry config func w in
  exists k r w1,
    k < total /\ flaked func k w w1 /\ sleeps run = seq 0 k /\
    outcome run = Some r /\ func w1 = (r, final_state run) /\
    (r = Err RetryableError -> config = None \/ S k = total).
Proof.
  cbn zeta. unfold retry.
  destruct (run_with_retry_outcome func retry_classify config w Hconfig)
    as (k & r & w1 & Hk & Hr & Ho & He & Hs).
  exists k, r, w1. split; [done|]. split; [by apply retried_flaked|]. split; [done|]. split; [done|].
  clear Ho Hs. revert He. generalize (final_state (run_with_retry func retry_classify config w)).
  intros wf He. unfold ends_with, attempt_result in He.
  destruct (func w1) as [[a|e] w2]; [by destruct He as [-> ->]|].
  destruct e; cbn in He; destruct He as (-> & -> & [Hd|Hd]); split; try done; try by intros _.
Qed.

Lemma retry_spec_witness :
  exists k r w1, k < 3 /\ flaked flaky k 2 w1 /\
    outcome (retry (Some default_RetryConfig) flaky 2) = Some r /\ r = Ok "done".
Proof.
  destruct (retry_spec flaky (Some default_RetryConfig) 2)
    as (k & r & w1 & Hk & Hf & _ & Ho & _); [intros c [= <-]; vm_compute; discriminate|].
  exists k, r, w1. split; [exact Hk|]. split; [exact Hf|]. split; [exact Ho|].
  vm_compute in Ho. congruence.
Defined.

(** ** Theorems: batch retries *)

Definition failure_index (f : BatchTransferFailure) : Z :=
  match f with mkBatchTransferFailure i _ _ _ => i end.

Section BatchSpec.
Context {W A : Type} (batch_func : list Z -> M W A).
(** [transferred w i]: item [i] of the request has been transferred in [w]. *)
Context (transferred : W -> Z -> Prop).

(** The contract of the batch methods of a storage provider: nothing that was
    transferred is lost; a call that returns has transferred every item; a
    [BatchTransferError] names by position every item that was not. *)
Record batch_contract : Prop := {
  contract_mono : forall idxs w r w' i,
    batch_func idxs w = (r, w') -> transferred w i -> transferred w' i;
  contract_ok : forall idxs w a w' i,
    batch_func idxs w = (Ok a, w') -> i ∈ idxs -> transferred w' i;
  contract_err : forall idxs w fs w' p i,
    batch_func idxs w = (Err (BatchTransferError fs), w') -> idxs !! p = Some i ->
    Z.of_nat p ∈ map failure_index fs \/ transferred w' i;
}.
Hypothesis contract : batch_contract.

(** Every requested item is still pending or already transferred. *)
Definition batch_inv (indices : list Z) (s : BatchState W) : Prop :=
  (forall i, i ∈ indices -> i ∈ pending s \/ transferred (world s) i) /\
  (forall i, i ∈ pending s -> i ∈ indices).

Lemma remap_failures_spec failures idxs rs ids :
  remap_failures failures idxs = Ok (rs, ids) ->
  ids = map failure_index rs /\
  Forall2 (fun f i => py_nth idxs (failure_index f) = Some i) failures ids /\
  length rs = length failures.
Proof using Type.
  revert rs ids. induction failures as [|[i src dst e] fs IH]; intros rs ids; cbn.
  { intros [= <- <-]. repeat split; constructor. }
  destruct (py_nth idxs i) as [o|] eqn:E; [|done].
  destruct (remap_failures fs idxs) as [[rs' ids']|]; cbn; [|done].
  intros [= <- <-]. destruct (IH _ _ eq_refl) as (-> & H2 & H3). cbn.
  repeat split; [by constructor|by f_equal].
Qed.

Lemma py_nth_elem {B} (l : list B) i x : py_nth l i = Some x -> x ∈ l.
Proof using Type.
  unfold py_nth. destruct (0 <=? i)%Z; [apply list_elem_of_lookup_2|].
  destruct (_ <=? _)%Z; [apply list_elem_of_lookup_2|done].
Qed.

(** The failed items of a remapped error are requested items, and every other
    requested item has been transferred. *)
Lemma remap_inv indices s fs rs ids w :
  batch_inv indices s ->
  batch_func (pending s) (world s) = (Err (BatchTransferError fs), w) ->
  remap_failures fs (pending s) = Ok (rs, ids) ->
  ids = map failure_index rs /\ batch_inv indices (mkBatchState ids w).
Proof using contract.
  intros [Hinv Hsub] Hcall Hr. apply remap_failures_spec in Hr as (-> & Hf2 & Hlen).
  split; [done|]. split; cbn [pending world].
  - intros i Hi. destruct (Hinv i Hi) as [Hp|Ht]; [|by right; eapply contract_mono].
    apply list_elem_of_lookup in Hp as [p Hp].
    destruct (contract_err contract _ _ _ _ _ _ Hcall Hp) as [Hin|]; [|by right]. left.
    apply list_elem_of_In, in_map_iff in Hin as (f & Hfi & Hf%list_elem_of_In).
    apply list_elem_of_lookup in Hf as [q Hq].
    destruct (Forall2_lookup_l _ _ _ _ _ Hf2 Hq) as (x & Hx & Hnth).
    rewrite Hfi in Hnth. unfold py_nth in Hnth.
    rewrite (proj2 (Z.leb_le 0 (Z.of_nat p))), Nat2Z.id, Hp in Hnth by lia.
    injection Hnth as ->. by eapply list_elem_of_lookup_2.
  - intros i Hi. apply Hsub. apply list_elem_of_lookup in Hi as [q Hq].
    destruct (Forall2_lookup_r _ _ _ _ _ Hf2 Hq) as (f & _ & Hnth). by eapply py_nth_elem.
Qed.

(** What one classified attempt leaves. *)
Lemma attempt_inv indices s e d s' :
  batch_inv indices s ->
  attempt_result (call_batch batch_func) batch_classify s = ((Err e, Some (Ok d)), s') ->
  retryable d = true -> batch_inv indices s'.
Proof using contract.
  intros Hinv H Hd. unfold attempt_result, call_batch in H.
  destruct (batch_func (pending s) (world s)) as [[a|e0] w] eqn:Hc; [done|].
  assert (batch_inv indices (mkBatchState (pending s) w)) as Hsame.
  { destruct Hinv as [H1 H2]. split; cbn; [|done]. intros i Hi.
    destruct (H1 i Hi); [by left|]. right. by eapply contract_mono. }
  destruct e0; cbn in H; simplify_eq/=; try done.
  unfold remap_batch_transfer_error in H.
  destruct (remap_failures failures (pending s)) as [[rs ids]|] eqn:Hr; cbn in H; [|done].
  destruct (remap_inv _ _ _ _ _ _ Hinv Hc Hr) as [_ Hinv'].
  destruct rs as [|r rs]; cbn in H; [done|].
  destruct (negb (failure_retryable r) || _); by simplify_eq/=.
Qed.

Lemma retried_inv indices n s s' :
  retried (call_batch batch_func) batch_classify n s s' ->
  batch_inv indices s -> batch_inv indices s'.
Proof using contract. induction 1; eauto using attempt_inv. Qed.

Lemma batch_inv_init indices w : batch_inv indices (mkBatchState indices w).
Proof using Type. split; cbn; auto. Qed.
End BatchSpec.

(** What remapping raises is no error of a batch. *)
Lemma remap_error_kind failures idxs e :
  remap_batch_transfer_error failures idxs = Err e -> match e with BatchTransferError _ => False | _ => True end.
Proof.
  unfold remap_batch_transfer_error. destruct (remap_failures failures idxs) as [[rs ids]|e'] eqn:Hr; cbn.
  - destruct (make_BatchTransferError rs) eqn:Em; intros [= <-]; done.
  - intros [= <-]. revert Hr. induction failures as [|[] fs IH]; cbn; [done|].
    destruct (py_nth _ _); [|by intros [= <-]].
    destruct (remap_failures fs idxs) as [[]|]; cbn; [done|]. intros [= ->]. by apply IH.
Qed.

(** What a retried batch leaves *)
Lemma batch_retry_outcome {W A} (batch_func : list Z -> M W A)
    (transferred : W -> Z -> Prop) (config : option RetryConfig) (indices : list Z) (w : W)
    (Hcontract : batch_contract batch_func transferred)
    (Hconfig : forall c, config = Some c -> (1 <= attempts c)%Z) :
  let run := batch_retry batch_func config indices w in
  match outcome run with
  | Some (Ok _) => forall i, i ∈ indices -> transferred (world (final_state run)) i
  | Some (Err (BatchTransferError fs)) =>
      (forall i, i ∈ map failure_index fs -> i ∈ indices) /\
      (forall i, i ∈ indices -> i ∈ map failure_index fs \/ transferred (world (final_state run)) i)
  | Some (Err e) =>
      let s := final_state run in
      (exists w1 e1, batch_func (pending s) w1 = (Err e1, world s) /\
         (e = e1 \/ exists fs, e1 = BatchTransferError fs /\ remap_batch_transfer_error fs (pending s) = Err e)) /\
      (forall i, i ∈ pending s -> i ∈ indices) /\
      (forall i, i ∈ indices -> i ∈ pending s \/ transferred (world s) i)
  | None => False
  end.
Proof.
  cbn zeta. unfold batch_retry.
  destruct (run_with_retry_outcome (call_batch batch_func) batch_classify config
    (mkBatchState indices w) Hconfig) as (k & r & s & Hk & Hret & Ho & He & _).
  pose proof (retried_inv batch_func transferred Hcontract indices _ _ _ Hret
    (batch_inv_init transferred indices w)) as Hinv.
  rewrite Ho. clear Ho Hret Hk. revert He.
  generalize (final_state (run_with_retry (call_batch batch_func) batch_classify config
    (mkBatchState indices w))). intros sf He. unfold ends_with, attempt_result, call_batch in He.
  destruct (batch_func (pending s) (world s)) as [[a|e] w1] eqn:Hc; cbn in He.
  { destruct He as [-> ->]. intros i Hi. cbn.
    destruct (proj1 Hinv i Hi); [by eapply contract_ok|by eapply contract_mono]. }
  assert (batch_inv transferred indices (mkBatchState (pending s) w1)) as [Hsame Hsub].
  { destruct Hinv as [H1 H2]. split; cbn; [|done]. intros i Hi.
    destruct (H1 i Hi); [by left|]. right. by eapply contract_mono. }
  cbn [pending world] in Hsame, Hsub.
  destruct e; cbn in He;
    try (destruct He as (-> & -> & _); cbn [pending world]; split; [|by split]; by eexists _, _; split; [exact Hc|left]).
  destruct (remap_batch_transfer_error failures (pending s)) as [[[e rs] ids]|e'] eqn:Hm; cbn in He.
  - unfold remap_batch_transfer_error in Hm.
    destruct (remap_failures failures (pending s)) as [[rs0 ids0]|e'] eqn:Hr; cbn in Hm; [|done].
    destruct (remap_inv _ _ Hcontract _ _ _ _ _ _ Hinv Hc Hr) as [-> Hinv'].
    destruct rs0 as [|r0 rs0]; cbn in Hm; [done|]. injection Hm as <- <- <-. cbn in He.
    destruct (negb (failure_retryable r0) || _); cbn in He;
      destruct He as (-> & -> & _); cbn; split; by apply Hinv'.
  - destruct He as [-> ->]. pose proof (remap_error_kind _ _ _ Hm) as Hk. cbn [pending world].
    destruct e'; try done; (split; [|by split]); eexists _, _; (split; [exact Hc|right]); by eexists.
Qed.

(** C33: over a batch method that names in its [BatchTransferError] every item it
    did not transfer, [batch_retry] with at least one attempt ends; if it
    returns, every requested item has been transferred; if it raises a
    [BatchTransferError], the indices in it are indices of the original request
    and every requested item that it does not name has been transferred.  Any
    other error is what the last call of the method raised, for the items that
    were still pending (or [IndexError] or [ValueError] for failures of it that
    name no item): every other requested item has been transferred, and the
    error itself names none. *)
Theorem batch_retry_complete {W A} (batch_func : list Z -> M W A)
    (transferred : W -> Z -> Prop) (config : option RetryConfig) (indices : list Z) (w : W)
    (Hcontract : batch_contract batch_func transferred)
    (Hconfig : forall c, config = Some c -> (1 <= attempts c)%Z) :
  let run := batch_retry batch_func config indices w in
  match outcome run with
  | Some (Ok _) => forall i, i ∈ indices -> transferred (world (final_state run)) i
  | Some (Err (BatchTransferError fs)) =>
      (forall i, i ∈ map failure_index fs -> i ∈ indices) /\
      (forall i, i ∈ indices -> i ∈ map failure_index fs \/ transferred (world (final_state run)) i)
  | Some (Err e) =>
      let s := final_state run in
      (exists w1 e1, batch_func (pending s) w1 = (Err e1, world s) /\
         (e = e1 \/ exists fs, e1 = BatchTransferError fs /\ remap_batch_transfer_error fs (pending s) = Err e)) /\
      (forall i, i ∈ pending s -> i ∈ indices) /\
      (forall i, i ∈ indices -> i ∈ pending s \/ transferred (world s) i)
  | None => False
  end.
Proof. by apply batch_retry_outcome. Qed.

(** A provider that transfers the even positions of a request at each call. *)
Definition half_batch : list Z -> M (gset Z) unit :=
  fun idxs w =>
    let ok := filter (fun p => Z.even p.1 = true) (imap (fun p i => (Z.of_nat p, i)) idxs) in
    let bad := filter (fun p => Z.even p.1 = false) (imap (fun p i => (Z.of_nat p, i)) idxs) in
    let w' := list_to_set (snd <$> ok) ∪ w in
    match bad with
    | [] => (Ok tt, w')
    | _ => (Err (BatchTransferError
             ((fun p => mkBatchTransferFailure p.1 "" "" RetryableError) <$> bad)), w')
    end.

Lemma half_batch_contract : batch_contract half_batch (fun w i => i ∈ w).
Proof.
  assert (forall (idxs : list Z) (p : nat) (i : Z), idxs !! p = Some i ->
    (Z.of_nat p, i) ∈ imap (fun p i => (Z.of_nat p, i)) idxs) as Hin.
  { intros idxs p i H. apply list_elem_of_lookup. exists p.
    by rewrite list_lookup_imap, H. }
  split.
  - intros idxs w r w' i H Hi. unfold half_batch in H.
    destruct (filter (fun p => Z.even p.1 = false) (imap _ idxs)) as [|x l];
      injection H as _ <-; by apply elem_of_union_r.
  - intros idxs w a w' i H [p Hp]%list_elem_of_lookup. unfold half_batch in H.
    destruct (filter (fun p => Z.even p.1 = false) (imap _ idxs)) as [|x l] eqn:E; simplify_eq/=.
    apply elem_of_union_l, elem_of_list_to_set, list_elem_of_fmap. exists (Z.of_nat p, i).
    split; [done|]. apply list_elem_of_filter. split; [|by apply Hin].
    destruct (Z.even (Z.of_nat p, i).1) eqn:Ev; [done|]. exfalso.
    assert ((Z.of_nat p, i) ∈ ([] : list (Z * Z))) as Hx; [|by apply elem_of_nil in Hx].
    rewrite <- E. apply list_elem_of_filter. auto.
  - intros idxs w fs w' p i H Hp. unfold half_batch in H.
    destruct (filter (fun p => Z.even p.1 = false) (imap _ idxs)) as [|x l] eqn:E;
      injection H as H1 H2; [done|].
    destruct (Z.even (Z.of_nat p)) eqn:Ev.
    + right. rewrite <- H2. apply elem_of_union_l, elem_of_list_to_set, list_elem_of_fmap.
      exists (Z.of_nat p, i). split; [done|]. apply list_elem_of_filter. auto.
    + left. rewrite <- H1.
      assert ((Z.of_nat p, i) ∈ x :: l) as Hl.
      { rewrite <- E. apply list_elem_of_filter. auto. }
      apply (list_elem_of_fmap_2 (fun q : Z * Z => mkBatchTransferFailure q.1 "" "" RetryableError)) in Hl.
      by apply (list_elem_of_fmap_2 failure_index) in Hl.
Qed.

Lemma batch_retry_complete_witness :
  outcome (batch_retry half_batch (Some default_RetryConfig) [10; 11; 12; 13]%Z ∅) = Some (Ok tt) /\
  forall i, i ∈ [10; 11; 12; 13]%Z ->
    i ∈ world (final_state (batch_retry half_batch (Some default_RetryConfig) [10; 11; 12; 13]%Z ∅)).
Proof.
  assert (outcome (batch_retry half_batch (Some default_RetryConfig) [10; 11; 12; 13]%Z ∅)
          = Some (Ok tt)) as Ho by (vm_compute; reflexivity).
  split; [exact Ho|].
  pose proof (batch_retry_complete half_batch (fun w i => i ∈ w) (Some default_RetryConfig)
    [10; 11; 12; 13]%Z ∅ half_batch_contract) as H.
  cbn zeta in H. rewrite Ho in H. apply H. intros c [= <-]. vm_compute. discriminate.
Defined.
