(* ===== verification/Listing.v ===== *)
(** * Recursive listing ([providers/base.py])

    [_PrefixExpander] and [_list_objects_recursive_impl]: prefixes are expanded
    by a thread pool ahead of a consumer that merges objects and prefixes in a
    heap, so that objects come out in key order.

    A shallow listing is a parameter: the child prefixes and the objects of a
    prefix, or an exception.  Which futures have completed when the expander
    looks is an oracle.  A heap is kept as its ascending list: the code reads
    [heap[0]], pops it, and pushes. *)
From S2P Require Import Prelude Types.

Definition shallow_result : Type := list string * list ObjectMetadata.

(** ** Definitions: [_PrefixExpander] *)
Record expander := mkExpander {
  pending : list string;
  inflight : list string;
  ready : list (string * shallow_result);
}.
Definition new_expander : expander := mkExpander [] [] [].

Section Expander.
Context (fn : string -> res shallow_result) (max_inflight : nat).

(** [p in self._ready] and [self._ready.pop(p)] *)
Fixpoint ready_get (r : list (string * shallow_result)) (p : string) : option shallow_result :=
  match r with
  | [] => None
  | (q, x) :: r' => if decide (q = p) then Some x else ready_get r' p
  end.
Definition ready_del (r : list (string * shallow_result)) (p : string) : list (string * shallow_result) :=
  filter (fun qx => qx.1 <> p) r.

(** [_fill] on the ascending list of pending prefixes *)
Fixpoint fill_loop (todo running : list string) (r : list (string * shallow_result)) : list string * list string :=
  match todo with
  | [] => ([], running)
  | p :: todo' =>
      if (length running <? max_inflight)%nat then
        if bool_decide (p ∈ running) || match ready_get r p with Some _ => true | None => false end
        then fill_loop todo' running r
        else fill_loop todo' (running ++ [p]) r
      else (todo, running)
  end.
Definition fill (e : expander) : expander :=
  let '(todo, running) := fill_loop (pending e) (inflight e) (ready e) in mkExpander todo running (ready e).

(** [enqueue] *)
Definition enqueue (prefixes : list string) (e : expander) : expander :=
  fill (mkExpander (sorted_str (prefixes ++ pending e)) (inflight e) (ready e)).

(** The loop of [_collect] over the futures in flight, [finished] being those
    that are done; a failed one raises out of [result()] *)
Fixpoint collect_loop (finished : string -> bool) (running : list string) (e : expander) : res unit * expander :=
  match running with
  | [] => (Ok tt, fill e)
  | p :: ps =>
      if finished p then
        let e1 := mkExpander (pending e) (filter (fun q => q <> p) (inflight e)) (ready e) in
        match fn p with
        | Err x => (Err x, e1)
        | Ok r => collect_loop finished ps (mkExpander (pending e1) (inflight e1) (ready_del (ready e1) p ++ [(p, r)]))
        end
      else collect_loop finished ps e
  end.
Definition collect (finished : string -> bool) (e : expander) : res unit * expander :=
  collect_loop finished (inflight e) e.

(** [get] up to the point where it waits: a result that is ready, or the prefix
    is among the futures in flight, submitted now if it was not, whatever the
    capacity *)
Definition get_submit (finished : string -> bool) (p : string) (e : expander) : res (option shallow_result) * expander :=
  match collect finished e with
  | (Err x, e1) => (Err x, e1)
  | (Ok _, e1) =>
      match ready_get (ready e1) p with
      | Some r => (Ok (Some r), mkExpander (pending e1) (inflight e1) (ready_del (ready e1) p))
      | None => (Ok None, mkExpander (pending e1)
                   (if bool_decide (p ∈ inflight e1) then inflight e1 else inflight e1 ++ [p]) (ready e1))
      end
  end.
(** [self._inflight.pop(prefix)], whose future is then waited for *)
Definition get_pop (p : string) (e : expander) : expander :=
  mkExpander (pending e) (filter (fun q => q <> p) (inflight e)) (ready e).
(** [get] *)
Definition get (finished : string -> bool) (p : string) (e : expander) : res shallow_result * expander :=
  match get_submit finished p e with
  | (Err x, e1) => (Err x, e1)
  | (Ok (Some r), e1) => (Ok r, e1)
  | (Ok None, e1) => (fn p, get_pop p e1)
  end.
End Expander.

(** ** Definitions: the heap *)
Inductive heap_item := Prefix (p : string) | Object (o : ObjectMetadata).
Definition item_key (x : heap_item) : string := match x with Prefix p => p | Object o => key o end.
Definition item_le (x y : heap_item) : bool := str_leb (item_key x) (item_key y).
Definition heappush (x : heap_item) (h : list heap_item) : list heap_item := insert_by item_le x h.
Definition heapify (l : list heap_item) : list heap_item := sort_by item_le l.

(** [if s:] on an optional string *)
Definition truthy (s : option string) : option string :=
  match s with Some "" => None | _ => s end.
(** [start_after and key <= start_after] *)
Definition skipped (start_after : option string) (k : string) : bool :=
  match truthy start_after with Some s => str_leb k s | None => false end.
(** [end_at and key > end_at] *)
Definition past_end (end_at : option string) (k : string) : bool :=
  match truthy end_at with Some e => str_ltb e k | None => false end.
Definition prune (end_at : option string) (ps : list string) : list string :=
  filter (fun p => past_end end_at p = false) ps.

(** ** Definitions: [_list_objects_recursive_impl] *)
Section Recursive.
Context (shallow : string -> res shallow_result) (max_workers look_ahead : nat).
Context (start_after end_at : option string).

(** The objects of a leaf prefix, yielded without the heap *)
Fixpoint leaf_objects (os : list ObjectMetadata) : list ObjectMetadata :=
  match os with
  | [] => []
  | o :: os' =>
      if skipped start_after (key o) then leaf_objects os'
      else if past_end end_at (key o) then []
      else o :: leaf_objects os'
  end.

(** [while heap]; the [i]-th call of [get] sees the futures [finished i];
    [None] is out of fuel *)
Fixpoint heap_loop (finished : nat -> string -> bool) (fuel i : nat) (heap : list heap_item) (e : expander)
    : option listing :=
  match fuel with
  | 0 => None
  | S f =>
      match heap with
      | [] => Some (mkListing [] None)
      | x :: h =>
          if past_end end_at (item_key x) then Some (mkListing [] None)
          else
            match x with
            | Object o =>
                match heap_loop finished f i h e with
                | Some l => Some (if skipped start_after (key o) then l else yield o l)
                | None => None
                end
            | Prefix p =>
                match get shallow (max_workers * look_ahead) (finished i) p e with
                | (Err err, _) => Some (mkListing [] (Some err))
                | (Ok (child_prefixes, child_objects), e1) =>
                    match prune end_at child_prefixes with
                    | [] =>
                        match heap_loop finished f (S i) h e1 with
                        | Some l => Some (yield_all (leaf_objects child_objects) l)
                        | None => None
                        end
                    | cps =>
                        heap_loop finished f (S i)
                          (fold_left (fun h o => heappush (Object o) h) child_objects
                             (fold_left (fun h cp => heappush (Prefix cp) h) cps h))
                          (enqueue (max_workers * look_ahead) cps e1)
                    end
                end
            end
      end
  end.

Definition list_objects_recursive_impl (supports_parallel_listing : bool) (list_objects : string -> listing)
    (finished : nat -> string -> bool) (fuel : nat) (path : string) : option listing :=
  if negb supports_parallel_listing then Some (list_objects path)
  else
    match shallow path with
    | Err err => Some (mkListing [] (Some err))
    | Ok (prefixes0, objects) =>
        match prune end_at prefixes0 with
        | [] => Some (mkListing (leaf_objects objects) None)
        | prefixes =>
            heap_loop finished fuel 0 (heapify (map Prefix prefixes ++ map Object objects))
              (enqueue (max_workers * look_ahead) prefixes new_expander)
        end
    end.
End Recursive.
