(* ===== verification/ListingProofs.v ===== *)
(** * Correctness of recursive listing

    The expander is transparent: whatever completes when, it returns what the
    shallow listing returns, and it keeps no more than the configured number of
    expansions in flight.  The merge yields every object below the path that
    lies in the range, each once, in strictly ascending key order. *)
From S2P Require Import Prelude Types Listing.

(** ** The expander *)
Section Expander.
Context (fn : string -> res shallow_result) (max_inflight : nat).

(** Results kept are those of the shallow listing; nothing scheduled fails. *)
Record expander_ok (e : expander) : Prop := {
  ok_ready : forall p r, (p, r) ∈ ready e -> fn p = Ok r;
  ok_inflight : forall p, p ∈ inflight e -> is_ok (fn p) = true;
  ok_pending : forall p, p ∈ pending e -> is_ok (fn p) = true;
}.

Lemma ready_get_elem r p x : ready_get r p = Some x -> (p, x) ∈ r.
Proof.
  induction r as [|[q y] r IH]; cbn; [done|]. case_decide as E; [intros [= ->]; subst; set_solver|].
  intros H. right. auto.
Qed.

Lemma fill_loop_elem todo running r todo' running' p :
  fill_loop max_inflight todo running r = (todo', running') ->
  (p ∈ todo' -> p ∈ todo) /\ (p ∈ running' -> p ∈ todo \/ p ∈ running).
Proof.
  revert running. induction todo as [|q todo IH]; intros running; cbn [fill_loop].
  - intros [= <- <-]. auto.
  - destruct (length running <? max_inflight)%nat; [|intros [= <- <-]; auto].
    destruct (_ || _); intros H; apply IH in H; set_solver.
Qed.

Lemma fill_ok e : expander_ok e -> expander_ok (fill max_inflight e).
Proof.
  intros [H1 H2 H3]. unfold fill. destruct (fill_loop _ _ _ _) as [todo running] eqn:E.
  split; cbn; [done| |]; intros p Hp; destruct (fill_loop_elem _ _ _ _ _ p E) as [Ht Hr]; [|auto].
  destruct (Hr Hp); auto.
Qed.

Lemma enqueue_ok ps e :
  (forall p, p ∈ ps -> is_ok (fn p) = true) -> expander_ok e -> expander_ok (enqueue max_inflight ps e).
Proof.
  intros Hps [H1 H2 H3]. apply fill_ok. split; cbn; [done|done|]. intros p Hp.
  rewrite sorted_str_perm, elem_of_app in Hp. destruct Hp; auto.
Qed.

Lemma collect_loop_ok finished running e :
  (forall p, p ∈ running -> is_ok (fn p) = true) -> expander_ok e ->
  exists e', collect_loop fn max_inflight finished running e = (Ok tt, e') /\ expander_ok e'.
Proof.
  revert e. induction running as [|p ps IH]; intros e Hrun Hok; cbn.
  - eexists. split; [done|]. by apply fill_ok.
  - destruct (finished p); [|apply IH; [intros q Hq; apply Hrun; set_solver|done]].
    assert (is_ok (fn p) = true) as Hp by (apply Hrun; set_solver).
    destruct (fn p) as [r|x] eqn:Ep; [|done].
    apply IH; [intros q Hq; apply Hrun; set_solver|]. destruct Hok as [H1 H2 H3]. split; cbn; [| |done].
    2: { intros q Hq. apply list_elem_of_filter in Hq as [_ Hq]. auto. }
    intros q y Hq. apply elem_of_app in Hq as [Hq|Hq].
    + apply list_elem_of_filter in Hq as [_ Hq]. auto.
    + apply list_elem_of_singleton in Hq. by simplify_eq.
Qed.

(** What [get] leaves does not depend on when the prefix was submitted. *)
Lemma get_eq finished p e :
  get fn max_inflight finished p e =
  match collect fn max_inflight finished e with
  | (Err x, e1) => (Err x, e1)
  | (Ok _, e1) =>
      match ready_get (ready e1) p with
      | Some r => (Ok r, mkExpander (pending e1) (inflight e1) (ready_del (ready e1) p))
      | None => (fn p, get_pop p e1)
      end
  end.
Proof.
  unfold get, get_submit. destruct (collect _ _ _ _) as [[u|x] e1]; [|done].
  destruct (ready_get _ _) as [r|]; [done|]. unfold get_pop. cbn [pending inflight ready].
  case_bool_decide as Hp; [done|]. rewrite filter_app, filter_cons_False by (by intros H; apply H). by rewrite app_nil_r.
Qed.

Lemma get_transparent finished p e :
  expander_ok e -> is_ok (fn p) = true ->
  exists e', get fn max_inflight finished p e = (fn p, e') /\ expander_ok e'.
Proof.
  intros Hok Hp. rewrite get_eq. unfold collect.
  destruct (collect_loop_ok finished (inflight e) e (ok_inflight e Hok) Hok) as (e1 & -> & Hok1).
  destruct (ready_get (ready e1) p) as [r|] eqn:Er.
  - rewrite (ok_ready e1 Hok1 p r) by by apply ready_get_elem. eexists. split; [done|].
    destruct Hok1 as [H1 H2 H3]. split; cbn; [|done|done]. intros q y Hq.
    apply list_elem_of_filter in Hq as [_ Hq]. auto.
  - eexists. split; [done|]. destruct Hok1 as [H1 H2 H3]. split; cbn; [done| |done].
    intros q Hq. apply list_elem_of_filter in Hq as [_ Hq]. auto.
Qed.

(** *** Bounds *)
Lemma fill_bound e : length (inflight e) <= max_inflight -> length (inflight (fill max_inflight e)) <= max_inflight.
Proof.
  unfold fill. destruct (fill_loop _ _ _ _) as [todo running] eqn:E. cbn. revert E.
  generalize (inflight e). induction (pending e) as [|p ps IH]; intros run; cbn [fill_loop]; [by intros [= <- <-]|].
  destruct (length run <? max_inflight)%nat eqn:El; [|by intros [= <- <-]]. bool_to_prop. destruct (_ || _); intros H Hlen.
  - by apply (IH run).
  - apply (IH (run ++ [p])); [done|]. rewrite length_app. cbn. lia.
Qed.
Lemma enqueue_bound ps e : length (inflight e) <= max_inflight -> length (inflight (enqueue max_inflight ps e)) <= max_inflight.
Proof. intros H. by apply fill_bound. Qed.
Lemma collect_bound finished running e :
  length (inflight e) <= max_inflight -> length (inflight (collect_loop fn max_inflight finished running e).2) <= max_inflight.
Proof.
  revert e. induction running as [|p ps IH]; intros e H; cbn; [by apply fill_bound|].
  assert (length (filter (fun q => q <> p) (inflight e)) <= max_inflight) as Hf.
  { etransitivity; [apply length_filter|done]. }
  destruct (finished p); [|by apply IH]. destruct (fn p); [|done]. by apply IH.
Qed.
Lemma get_submit_bound finished p e :
  length (inflight e) <= max_inflight ->
  match get_submit fn max_inflight finished p e with
  | (Ok None, e1) => length (inflight e1) <= S max_inflight
  | (_, e1) => length (inflight e1) <= max_inflight
  end.
Proof.
  intros H. apply (collect_bound finished (inflight e)) in H. unfold get_submit, collect.
  destruct (collect_loop _ _ _ _ _) as [[u|x] e1]; cbn in *; [|done].
  destruct (ready_get _ _); cbn; [done|]. case_bool_decide; [lia|]. rewrite length_app. cbn. lia.
Qed.
Lemma get_pop_bound p e : p ∈ inflight e -> S (length (inflight (get_pop p e))) <= length (inflight e).
Proof.
  cbn. induction (inflight e) as [|q l IH]; [by intros ?%not_elem_of_nil|]. intros [->|Hp]%elem_of_cons.
  - rewrite filter_cons_False by (by intros H; apply H). cbn. pose proof (length_filter (fun r => r <> q) l). lia.
  - rewrite filter_cons. specialize (IH Hp). destruct (decide _); cbn; lia.
Qed.
End Expander.

(** ** Zones: the keys an item of the heap stands for *)
Definition in_zone (x : heap_item) (s : string) : Prop :=
  match x with Prefix p => startswith s p = true | Object o => s = key o end.
Definition separate (x y : heap_item) : Prop := forall s, in_zone x s -> in_zone y s -> False.
Definition zone_below (x y : heap_item) : Prop := forall s t, in_zone x s -> in_zone y t -> str_lt s t.

Lemma separate_sym x y : separate x y -> separate y x.
Proof. intros H s Hy Hx. eauto. Qed.
Lemma in_zone_key x : in_zone x (item_key x).
Proof. destruct x; cbn; [apply startswith_refl|done]. Qed.

Lemma str_leb_prefix p s : str_leb p (p +:+ s) = true.
Proof.
  rewrite <- (str_app_nil_r p) at 1. apply negb_false_iff. rewrite <- str_ltb_leb, str_ltb_app. by destruct s.
Qed.
Lemma in_zone_leb x s : in_zone x s -> str_leb (item_key x) s = true.
Proof.
  destruct x as [p|o]; cbn; [|intros ->; apply str_leb_refl].
  intros [t ->]%startswith_spec. apply str_leb_prefix.
Qed.

(** A string above a prefix that does not start with it is above everything
    that does. *)
Lemma str_lt_extend p t s : str_lt p t -> startswith t p = false -> str_lt (p +:+ s) t.
Proof.
  revert t. induction p as [|a p IH]; intros [|b t] Hlt Hno; try done.
  unfold str_lt, str_ltb, String.ltb in *. cbn in *.
  destruct (Ascii.compare a b) eqn:E; try done.
  apply Ascii.compare_eq_iff in E as ->. rewrite decide_True in Hno by done. by apply IH.
Qed.

Lemma separate_below x y :
  separate x y -> str_leb (item_key x) (item_key y) = true -> zone_below x y.
Proof.
  intros Hsep Hle s t Hs Ht.
  assert (str_lt (item_key x) (item_key y)) as Hlt.
  { destruct (str_lt_trichotomy (item_key x) (item_key y)) as [H|[H|H]]; [done| |].
    - destruct (Hsep (item_key x)); [apply in_zone_key|]. rewrite H. apply in_zone_key.
    - by destruct (str_leb_not_lt _ _ Hle). }
  apply in_zone_leb in Ht as Hyt. destruct x as [p|o]; cbn in *.
  - apply startswith_spec in Hs as [s' ->].
    assert (startswith (item_key y) p = false) as Hno.
    { destruct (startswith (item_key y) p) eqn:E; [|done]. destruct (Hsep (item_key y)); [done|apply in_zone_key]. }
    eapply str_lt_leb_trans; [by apply str_lt_extend|done].
  - subst. by eapply str_lt_leb_trans.
Qed.

(** Pairwise separation does not depend on the order. *)
Lemma separated_perm l k : l ≡ₚ k -> StronglySorted separate l -> StronglySorted separate k.
Proof.
  induction 1 as [|x l k Hp IH|x y l|l1 l2 l3 _ IH1 _ IH2]; intros Hs; [done| | |auto].
  - apply StronglySorted_inv in Hs as [Hs Hx]. constructor; [auto|]. by rewrite <- Hp.
  - apply StronglySorted_inv in Hs as [Hs Hy]. apply StronglySorted_inv in Hs as [Hs Hx].
    inversion Hy as [|? ? Hyx Hy']. subst.
    constructor; [by constructor|]. constructor; [by apply separate_sym|done].
Qed.

(** ** The tree below a prefix *)
Section Tree.
Context (shallow : string -> res shallow_result).

Definition key_lt (a b : ObjectMetadata) : Prop := str_lt (key a) (key b).

(** [tree_at p n os]: the shallow listings from [p] on form a finite tree of
    [n] prefixes and objects with the objects [os]; within one listing the
    objects are sorted by key, everything listed lies below the prefix, and
    the zones are disjoint. *)
Inductive tree_at : string -> nat -> list ObjectMetadata -> Prop :=
  | tree_node p cps cos (ts : list (nat * list ObjectMetadata)) :
      shallow p = Ok (cps, cos) ->
      Forall2 (fun cp t => tree_at cp t.1 t.2) cps ts ->
      Forall (fun x => forall s, in_zone x s -> startswith s p = true) (map Prefix cps ++ map Object cos) ->
      StronglySorted separate (map Prefix cps ++ map Object cos) ->
      StronglySorted key_lt cos ->
      tree_at p (S (sum_list (ts.*1) + length cos)) (concat (ts.*2) ++ cos).

(** An item of the heap with its size and its objects *)
Definition item_tree (x : heap_item) (t : nat * list ObjectMetadata) : Prop :=
  match x with Prefix p => tree_at p t.1 t.2 | Object o => t = (1, [o]) end.

Lemma tree_zone p n os : tree_at p n os -> Forall (fun o => startswith (key o) p = true) os.
Proof.
  revert p n os. fix IH 4. intros p n os [p' cps cos ts Hsh Hts Hin _ _].
  apply Forall_app in Hin as [Hcps Hcos]. apply Forall_app. split.
  - clear Hcos Hsh. revert Hcps. induction Hts as [|cp t cps ts Ht Hts IHts]; intros Hcps; [constructor|].
    cbn in Hcps |- *. apply Forall_cons in Hcps as [Hcp Hcps]. apply Forall_app. split; [|auto].
    specialize (IH cp t.1 t.2 Ht). clear -IH Hcp. induction IH as [|o os Ho _ IHo]; constructor; auto.
  - rewrite Forall_map in Hcos. eapply Forall_impl; [exact Hcos|]. cbn. intros o H. by apply H.
Qed.

Lemma item_zone x t : item_tree x t -> Forall (fun o => in_zone x (key o)) t.2.
Proof. destruct x as [p|o]; cbn; [apply tree_zone|]. intros ->. by constructor. Qed.
Lemma item_pos x t : item_tree x t -> 0 < t.1.
Proof. destruct x as [p|o]; cbn; [intros []; lia|]. intros ->. cbn. lia. Qed.
End Tree.

(** ** The range *)
Definition in_range (start_after end_at : option string) (k : string) : Prop :=
  skipped start_after k = false /\ past_end end_at k = false.

Lemma past_end_mono end_at k k' : str_leb k k' = true -> past_end end_at k = true -> past_end end_at k' = true.
Proof. unfold past_end. destruct (truthy end_at); [|done]. intros H1 H2. exact (str_lt_leb_trans _ _ _ H2 H1). Qed.

Lemma leaf_objects_spec start_after end_at os :
  StronglySorted key_lt os ->
  StronglySorted key_lt (leaf_objects start_after end_at os) /\
  forall o, o ∈ leaf_objects start_after end_at os <-> o ∈ os /\ in_range start_after end_at (key o).
Proof.
  unfold in_range. induction 1 as [|x os Hos [IH1 IH2] Hx]; cbn; [split; [constructor|]; set_solver|].
  destruct (skipped start_after (key x)) eqn:Es.
  - split; [done|]. intros o. rewrite IH2, elem_of_cons. split; [tauto|]. intros [[->|H] [H1 H2]]; [congruence|done].
  - destruct (past_end end_at (key x)) eqn:Ep.
    + split; [constructor|]. intros o. rewrite elem_of_nil, elem_of_cons. split; [done|].
      intros [[->|H] [H1 H2]]; [congruence|]. rewrite Forall_forall in Hx.
      rewrite (past_end_mono end_at (key x)) in H2; [done|apply str_lt_leb; by apply Hx|done].
    + split.
      * constructor; [done|]. rewrite Forall_forall in Hx |- *. intros o Ho. apply Hx. by apply IH2.
      * intros o. rewrite !elem_of_cons, IH2. split; [intros [->|]; tauto|tauto].
Qed.

Lemma foldl_push {A} (f : A -> heap_item) (l : list A) h :
  fold_left (fun h a => heappush (f a) h) l h ≡ₚ map f l ++ h.
Proof.
  revert h. induction l as [|a l IH]; intros h; [done|]. cbn. rewrite IH. unfold heappush.
  rewrite insert_by_perm. by rewrite Permutation_middle.
Qed.
Lemma item_le_total x y : item_le x y = true \/ item_le y x = true.
Proof. apply str_leb_total. Qed.
Lemma item_le_trans x y z : item_le x y = true -> item_le y z = true -> item_le x z = true.
Proof. apply str_leb_trans. Qed.
Definition heap_sorted : list heap_item -> Prop := StronglySorted (fun a b => item_le a b = true).
Lemma foldl_push_sorted {A} (f : A -> heap_item) (l : list A) h :
  heap_sorted h -> heap_sorted (fold_left (fun h a => heappush (f a) h) l h).
Proof.
  revert h. induction l as [|a l IH]; intros h Hh; [done|]. cbn. apply IH.
  apply insert_by_sorted; [apply item_le_total|apply item_le_trans|done].
Qed.

(** ** The merge *)
Section Merge.
Context (shallow : string -> res shallow_result) (max_workers look_ahead : nat).
Context (start_after end_at : option string) (finished : nat -> string -> bool).

(** Heap items with their trees *)
Definition forest : Type := list (heap_item * (nat * list ObjectMetadata)).
Definition objs (f : forest) : list ObjectMetadata := concat (map (fun xt => xt.2.2) f).
Definition weight (f : forest) : nat := sum_list (map (fun xt => xt.2.1) f).
Record forest_ok (f : forest) : Prop := {
  forest_trees : Forall (fun xt => item_tree shallow xt.1 xt.2) f;
  forest_separate : StronglySorted separate f.*1;
}.

Lemma elem_of_objs o f : o ∈ objs f <-> exists x t, (x, t) ∈ f /\ o ∈ t.2.
Proof.
  unfold objs. rewrite list_elem_of_In, in_concat. setoid_rewrite in_map_iff. setoid_rewrite <- list_elem_of_In. split.
  - intros (l & ([x t] & <- & H) & Ho). eauto.
  - intros (x & t & H & Ho). exists t.2. split; [|done]. by exists (x, t).
Qed.
Lemma objs_app f g : objs (f ++ g) = objs f ++ objs g.
Proof. unfold objs. by rewrite map_app, concat_app. Qed.
Lemma weight_app f g : weight (f ++ g) = weight f + weight g.
Proof. unfold weight. rewrite map_app. apply sum_list_with_app. Qed.
Lemma weight_perm f g : f ≡ₚ g -> weight f = weight g.
Proof. induction 1; cbn in *; unfold weight in *; cbn in *; lia. Qed.

Lemma forest_perm f g : f ≡ₚ g -> forest_ok f -> forest_ok g.
Proof.
  intros Hp [H1 H2]. split; [by rewrite <- Hp|]. eapply separated_perm; [|exact H2]. by rewrite Hp.
Qed.
Lemma objs_perm f g o : f ≡ₚ g -> o ∈ objs f -> o ∈ objs g.
Proof. intros Hp. rewrite !elem_of_objs. by setoid_rewrite Hp. Qed.

(** The first item of an ascending heap lies below the others. *)
Lemma forest_head x t f :
  forest_ok ((x, t) :: f) -> heap_sorted (x :: f.*1) ->
  forest_ok f /\ (forall o s, o ∈ objs f -> in_zone x s -> str_lt s (key o)).
Proof.
  intros [Ht Hsep] Hs. apply Forall_cons in Ht as [Hx Ht]. cbn in Hsep, Hs.
  apply StronglySorted_inv in Hsep as [Hsep Hxs]. apply StronglySorted_inv in Hs as [_ Hle].
  split; [done|]. intros o s (y & u & Hy & Ho)%elem_of_objs Hz.
  rewrite Forall_forall in Ht. rewrite Forall_forall in Hxs. rewrite Forall_forall in Hle.
  assert (y ∈ f.*1) as Hy1 by (apply list_elem_of_fmap; by exists (y, u)).
  specialize (Ht _ Hy). cbn in Ht. apply item_zone in Ht. rewrite Forall_forall in Ht.
  apply (separate_below x y (Hxs y Hy1) (Hle y Hy1)); [done|by apply Ht].
Qed.

Lemma forest_past_end f :
  forest_ok f -> heap_sorted f.*1 ->
  match f with (x, _) :: _ => past_end end_at (item_key x) = true | [] => True end ->
  forall o, o ∈ objs f -> past_end end_at (key o) = true.
Proof.
  destruct f as [|[x t] f]; [intros _ _ _ o Ho; by apply elem_of_nil in Ho|].
  intros [Ht _] Hs Hp o (y & u & Hy & Ho)%elem_of_objs. rewrite Forall_forall in Ht.
  pose proof (Ht _ Hy) as Hz. cbn in Hz. apply item_zone in Hz. rewrite Forall_forall in Hz.
  specialize (Hz _ Ho). apply in_zone_leb in Hz. apply (past_end_mono end_at (item_key y)); [done|].
  apply elem_of_cons in Hy as [[= -> ->]|Hy]; [done|].
  apply StronglySorted_inv in Hs as [_ Hle]. rewrite Forall_forall in Hle.
  apply (past_end_mono end_at (item_key x)); [|done]. apply Hle, list_elem_of_fmap. by exists (y, u).
Qed.

(** What the loop must return on a forest *)
Definition merges (f : forest) (l : listing) : Prop :=
  raised l = None /\ StronglySorted key_lt (yielded l) /\
  forall o, o ∈ yielded l <-> o ∈ objs f /\ in_range start_after end_at (key o).

Lemma merges_nil f :
  (forall o, o ∈ objs f -> past_end end_at (key o) = true) -> merges f (mkListing [] None).
Proof.
  intros H. split; [done|]. split; [constructor|]. intros o. cbn. rewrite elem_of_nil. split; [done|].
  intros [Ho [_ Hp]]. by rewrite H in Hp.
Qed.

(** Yielding the wanted objects of the first item, then the rest *)
Lemma merges_head x t f os l :
  forest_ok ((x, t) :: f) -> heap_sorted (x :: f.*1) -> StronglySorted key_lt os ->
  (forall o, o ∈ os <-> o ∈ t.2 /\ in_range start_after end_at (key o)) ->
  merges f l -> merges ((x, t) :: f) (yield_all os l).
Proof.
  intros Hok Hs Hos Hin (Hr & Hl & Hl').
  destruct (forest_head x t f Hok Hs) as [_ Hbelow].
  assert (item_tree shallow x t) as Hx by (destruct Hok as [Ht _]; by apply Forall_inv in Ht).
  apply item_zone in Hx. rewrite Forall_forall in Hx.
  split; [done|]. cbn [yielded yield_all]. split.
  - apply StronglySorted_app_2; [|done|done]. intros a b Ha Hb.
    apply Hbelow; [by apply Hl'|]. apply Hx. by apply Hin.
  - intros o. rewrite elem_of_app, Hin, Hl'. unfold objs. cbn. rewrite elem_of_app. tauto.
Qed.

(** The children of an expanded prefix, those past the end left out *)
Definition children (cps : list string) (ts : list (nat * list ObjectMetadata)) (cos : list ObjectMetadata) : forest :=
  filter (fun xt => past_end end_at (item_key xt.1) = false) (zip (map Prefix cps) ts) ++
  map (fun o => (Object o, (1, [o]))) cos.

Lemma weight_objects cos : weight (map (fun o => (Object o, (1, [o]))) cos) = length cos.
Proof. unfold weight. induction cos as [|o cos IH]; cbn in *; lia. Qed.
Lemma objs_objects cos : objs (map (fun o => (Object o, (1, [o]))) cos) = cos.
Proof. unfold objs. induction cos as [|o cos IH]; cbn in *; [done|]. by rewrite IH. Qed.

Lemma pruned_fst cps (ts : list (nat * list ObjectMetadata)) :
  length cps = length ts ->
  (filter (fun xt => past_end end_at (item_key xt.1) = false) (zip (map Prefix cps) ts)).*1 = map Prefix (prune end_at cps).
Proof.
  revert ts. induction cps as [|cp cps IH]; intros [|t ts] Hlen; try done. cbn [map zip zip_with].
  rewrite filter_cons. unfold prune. rewrite filter_cons. cbn. case_decide; cbn; f_equal; apply IH; by injection Hlen.
Qed.
Lemma children_fst cps ts cos :
  length cps = length ts -> (children cps ts cos).*1 = map Prefix (prune end_at cps) ++ map Object cos.
Proof.
  intros Hlen. unfold children. rewrite fmap_app, pruned_fst by done. f_equal. by rewrite <- list_fmap_compose.
Qed.
Lemma children_leaf cps ts cos o :
  length cps = length ts -> prune end_at cps = [] -> o ∈ objs (children cps ts cos) -> o ∈ cos.
Proof.
  intros Hlen Hp. pose proof (pruned_fst cps ts Hlen) as Hfst. rewrite Hp in Hfst. apply fmap_nil_inv in Hfst.
  unfold children. by rewrite Hfst, objs_app, objs_objects.
Qed.
Lemma children_weight cps ts cos : length cps = length ts -> weight (children cps ts cos) <= sum_list ts.*1 + length cos.
Proof.
  intros Hlen. unfold children. rewrite weight_app, weight_objects. apply Nat.add_le_mono_r.
  revert ts Hlen. induction cps as [|cp cps IH]; intros [|t ts] Hlen; try (cbn in *; lia). cbn [map zip zip_with].
  rewrite filter_cons. injection Hlen as Hlen. specialize (IH ts Hlen). unfold weight in *.
  case_decide; cbn in *; unfold zip in *; lia.
Qed.
Lemma children_trees cps ts cos :
  Forall2 (fun cp t => tree_at shallow cp t.1 t.2) cps ts ->
  Forall (fun xt => item_tree shallow xt.1 xt.2) (children cps ts cos).
Proof.
  intros Hts. apply Forall_app. split; [|by apply Forall_map, Forall_forall].
  apply Forall_forall. intros xt [_ Hxt]%list_elem_of_filter. revert xt Hxt.
  apply Forall_forall. induction Hts; cbn; constructor; done.
Qed.

(** In range, the children have the objects of the prefix. *)
Lemma children_objs cps ts cos o :
  Forall2 (fun cp t => tree_at shallow cp t.1 t.2) cps ts -> past_end end_at (key o) = false ->
  o ∈ objs (children cps ts cos) <-> o ∈ concat ts.*2 ++ cos.
Proof.
  intros Hts Hp. unfold children. rewrite objs_app, objs_objects, !elem_of_app. f_equiv.
  induction Hts as [|cp t cps ts Ht Hts IH]; [done|]. cbn [map zip zip_with fmap list_fmap concat].
  rewrite filter_cons. case_decide as E; cbn in E; rewrite elem_of_app, <- IH; [unfold objs; cbn; by rewrite elem_of_app|].
  split; [by right|]. intros [Ho|]; [|done]. exfalso. apply E.
  apply tree_zone in Ht. rewrite Forall_forall in Ht. specialize (Ht _ Ho).
  destruct (past_end end_at cp) eqn:Ec; [|done].
  rewrite (past_end_mono end_at cp) in Hp; [done| |done]. by apply (in_zone_leb (Prefix cp)).
Qed.

(** Expanding a prefix: the heap of its children and of the other items *)
Lemma expand_forest p t f cps cos ts :
  forest_ok ((Prefix p, t) :: f) -> length cps = length ts ->
  Forall2 (fun cp t => tree_at shallow cp t.1 t.2) cps ts ->
  Forall (fun x => forall s, in_zone x s -> startswith s p = true) (map Prefix cps ++ map Object cos) ->
  StronglySorted separate (map Prefix cps ++ map Object cos) ->
  forest_ok (children cps ts cos ++ f).
Proof.
  intros [Htrees Hsep] Hlen Hts Hin Hs. apply Forall_cons in Htrees as [_ Htrees].
  split; [apply Forall_app; split; [by apply children_trees|done]|].
  cbn in Hsep. apply StronglySorted_inv in Hsep as [Hf Hp]. rewrite fmap_app, children_fst by done.
  assert (forall x, x ∈ map Prefix (prune end_at cps) ++ map Object cos -> x ∈ map Prefix cps ++ map Object cos) as Hsub.
  { intros x. rewrite !elem_of_app, !list_elem_of_In, !in_map_iff. setoid_rewrite <- list_elem_of_In.
    intros [(cp & <- & H)|H]; [left|by right]. exists cp. split; [done|]. by apply list_elem_of_filter in H as [_ H]. }
  apply StronglySorted_app_2; [|apply (StronglySorted_app separate) in Hs as (H1 & H2 & H3)|done].
  - intros x y Hx Hy s Hxs Hys. rewrite Forall_forall in Hp. apply (Hp y Hy s); [|done].
    rewrite Forall_forall in Hin. cbn. eapply Hin; [by apply Hsub|done].
  - apply StronglySorted_app_2; [|clear -H2|done].
    + intros x y Hx Hy. apply H1; [|done]. rewrite list_elem_of_In, in_map_iff in Hx |- *.
      destruct Hx as (cp & <- & H). exists cp. split; [done|]. rewrite <- list_elem_of_In in H |- *.
      by apply list_elem_of_filter in H as [_ H].
    + induction cps as [|cp cps IH]; [constructor|]. cbn in H2. apply StronglySorted_inv in H2 as [H2 Hcp].
      unfold prune. rewrite filter_cons. case_decide; [|by apply IH]. cbn. constructor; [by apply IH|].
      rewrite Forall_map in Hcp |- *. apply Forall_forall. intros q [_ Hq]%list_elem_of_filter.
      rewrite Forall_forall in Hcp. auto.
Qed.

Lemma tree_ok p n os : tree_at shallow p n os -> is_ok (shallow p) = true.
Proof. by intros [p' cps cos ts -> _ _ _ _]. Qed.

Lemma heap_loop_merges fuel i f e :
  weight f < fuel -> forest_ok f -> heap_sorted f.*1 -> expander_ok shallow e ->
  exists l, heap_loop shallow max_workers look_ahead start_after end_at finished fuel i f.*1 e = Some l /\ merges f l.
Proof.
  revert i f e. induction fuel as [|fuel IH]; intros i f e Hw Hok Hs He; [lia|]. cbn [heap_loop].
  destruct f as [|[x t] f]; cbn [fmap list_fmap fst].
  { eexists. split; [done|]. apply merges_nil. intros o Ho. by apply elem_of_nil in Ho. }
  destruct (past_end end_at (item_key x)) eqn:Ep.
  { eexists. split; [done|]. apply merges_nil. by apply forest_past_end. }
  destruct (forest_head x t f Hok Hs) as [Hokf _].
  pose proof (StronglySorted_inv Hs) as [Hsf _].
  assert (item_tree shallow x t) as Hx by (destruct Hok as [Ht _]; by apply Forall_inv in Ht).
  assert (0 < t.1) as Hpos by (by eapply item_pos).
  unfold weight in Hw. cbn in Hw. fold (weight f) in Hw.
  destruct x as [p|o].
  - cbn in Hx. destruct t as [n os]. cbn in Hx, Hpos, Hw.
    destruct Hx as [p cps cos ts Hsh Hts Hin Hsep Hcos]. pose proof (Forall2_length _ _ _ Hts) as Hlen.
    destruct (get_transparent shallow (max_workers * look_ahead) (finished i) p e He) as (e1 & -> & He1);
      [by rewrite Hsh|]. rewrite Hsh.
    assert (forall q, q ∈ prune end_at cps -> is_ok (shallow q) = true) as Hqs.
    { intros q [_ Hq]%list_elem_of_filter. clear -Hts Hq. induction Hts as [|cp u cps ts Hu _ IHts]; [by apply elem_of_nil in Hq|].
      apply elem_of_cons in Hq as [->|Hq]; [by eapply tree_ok|auto]. }
    pose proof (children_weight cps ts cos Hlen) as Hcw.
    assert (forall l, merges (children cps ts cos ++ f) l -> merges ((Prefix p, (S (sum_list ts.*1 + length cos), concat ts.*2 ++ cos)) :: f) l) as Hgoal.
    { intros l (H1 & H2 & H3). split; [done|]. split; [done|]. intros o. rewrite H3, objs_app.
      unfold objs at 3. cbn [map concat snd]. fold (objs f). rewrite !elem_of_app. unfold in_range.
      split; intros [Ho [Hr Hp]]; (split; [|done]); rewrite (children_objs cps ts cos o Hts Hp), elem_of_app in *; tauto. }
    destruct (prune end_at cps) as [|q qs] eqn:Eq.
    + destruct (IH (S i) f e1) as (l & -> & Hl); [lia|done|done|done|]. eexists. split; [done|].
      destruct (leaf_objects_spec start_after end_at cos Hcos) as [Hls Hlo].
      apply merges_head; try done. intros o. rewrite Hlo. cbn [snd]. split; [set_solver|].
      intros [Ho Hr]. split; [|done]. destruct Hr as [_ Hp]. rewrite <- (children_objs cps ts cos o Hts Hp) in Ho.
      by apply (children_leaf cps ts).
    + set (h := fold_left _ cos _).
      assert (h ≡ₚ (children cps ts cos ++ f).*1) as Hperm.
      { unfold h. rewrite !foldl_push, fmap_app, children_fst, Eq, !app_assoc by done.
        by rewrite (Permutation_app_comm (map Object cos)). }
      apply Permutation_map_inv in Hperm as (f' & Hf' & Hperm). rewrite Hf'.
      destruct (IH (S i) f' (enqueue (max_workers * look_ahead) (q :: qs) e1)) as (l & Hrun & Hl).
      * rewrite <- (weight_perm _ _ Hperm), weight_app. lia.
      * eapply forest_perm; [exact Hperm|]. by eapply expand_forest.
      * change (map fst f') with f'.*1 in Hf'. rewrite <- Hf'. by do 2 apply foldl_push_sorted.
      * by apply enqueue_ok.
      * exists l. split; [done|]. apply Hgoal. destruct Hl as (H1 & H2 & H3). split; [done|]. split; [done|].
        intros o. rewrite H3. split; intros [Ho ?]; (split; [|done]); revert Ho; by apply objs_perm.
  - cbn in Hx. subst t. cbn in Hw. destruct (IH i f e) as (l & -> & Hl); [lia|done|done|done|].
    eexists. split; [done|].
    assert (merges ((Object o, (1, [o])) :: f) (yield_all (leaf_objects start_after end_at [o]) l)) as Hm.
    { destruct (leaf_objects_spec start_after end_at [o]) as [H1 H2]; [repeat constructor|].
      apply merges_head; try done. }
    cbn [leaf_objects] in Hm. cbn in Ep. rewrite Ep in Hm. destruct (skipped start_after (key o)); [|done].
    by destruct l.
Qed.
End Merge.

(** Recursive listing with parallel expansion yields every object below the
    path whose key lies in the range, each once and in strictly ascending key
    order, whatever the number of workers and whenever their requests
    complete; it needs no more steps than there are prefixes and objects. *)
Lemma list_recursive_sorted (shallow : string -> res shallow_result) (max_workers look_ahead : nat)
    (start_after end_at : option string) (list_objects : string -> listing) (finished : nat -> string -> bool)
    (path : string) (n : nat) (os : list ObjectMetadata) (fuel : nat)
    (Htree : tree_at shallow path n os) (Hfuel : n <= fuel) :
  exists l, list_objects_recursive_impl shallow max_workers look_ahead start_after end_at true list_objects
              finished fuel path = Some l /\
    raised l = None /\ StronglySorted key_lt (yielded l) /\
    forall o, o ∈ yielded l <-> o ∈ os /\ in_range start_after end_at (key o).
Proof.
  destruct Htree as [p cps cos ts Hsh Hts Hin Hsep Hcos]. unfold list_objects_recursive_impl. cbn [negb]. rewrite Hsh.
  pose proof (Forall2_length _ _ _ Hts) as Hlen.
  assert (forall o, in_range start_after end_at (key o) ->
    o ∈ objs (children end_at cps ts cos) <-> o ∈ concat ts.*2 ++ cos) as Hobjs.
  { intros o [_ Hp]. by apply (children_objs shallow). }
  destruct (prune end_at cps) as [|q qs] eqn:Eq.
  - eexists. split; [done|]. destruct (leaf_objects_spec start_after end_at cos Hcos) as [H1 H2].
    split; [done|]. split; [done|]. cbn. intros o. rewrite H2. split; [set_solver|].
    intros [Ho Hr]. split; [|done]. apply Hobjs in Ho; [|done]. by apply (children_leaf end_at cps ts).
  - assert (heapify (map Prefix (q :: qs) ++ map Object cos) ≡ₚ (children end_at cps ts cos).*1) as Hperm.
    { unfold heapify. by rewrite sort_by_perm, children_fst, Eq. }
    apply Permutation_map_inv in Hperm as (f & Hf & Hperm). rewrite Hf.
    pose proof (children_weight end_at cps ts cos Hlen) as Hw.
    destruct (heap_loop_merges shallow max_workers look_ahead start_after end_at finished fuel 0 f
      (enqueue (max_workers * look_ahead) (q :: qs) new_expander)) as (l & Hrun & H1 & H2 & H3).
    + rewrite <- (weight_perm _ _ Hperm). lia.
    + eapply forest_perm; [exact Hperm|]. rewrite <- (app_nil_r (children _ _ _ _)).
      apply (expand_forest shallow end_at p (S (sum_list ts.*1 + length cos), concat ts.*2 ++ cos)); try done.
      split; [|repeat constructor]. repeat constructor. by apply (tree_node shallow p cps cos ts).
    + change (map fst f) with f.*1 in Hf. rewrite <- Hf. apply sort_by_sorted; [apply item_le_total|apply item_le_trans].
    + apply enqueue_ok; [|split; cbn; set_solver].
      intros r Hr. rewrite <- Eq in Hr. apply list_elem_of_filter in Hr as [_ Hr].
      clear -Hts Hr. induction Hts as [|cp u cps ts Hu _ IH]; [by apply elem_of_nil in Hr|].
      apply elem_of_cons in Hr as [->|Hr]; [by eapply tree_ok|auto].
    + exists l. split; [done|]. split; [done|]. split; [done|]. intros o. rewrite H3.
      split; intros [Ho Hr]; (split; [|done]).
      * apply Hobjs; [done|]. by eapply objs_perm; [symmetry|].
      * eapply objs_perm; [exact Hperm|]. by apply Hobjs.
Qed.

(** A bucket with [a.txt], [a/b], [a/c/d] and [e]: [a.txt] sorts before [a/b]. *)
Definition example_object (k : string) : ObjectMetadata := new_ObjectMetadata k 1 0.
Definition example_shallow (p : string) : res shallow_result :=
  if decide (p = "b/") then Ok (["b/a/"], [example_object "b/a.txt"; example_object "b/e"])
  else if decide (p = "b/a/") then Ok (["b/a/c/"], [example_object "b/a/b"])
  else if decide (p = "b/a/c/") then Ok ([], [example_object "b/a/c/d"])
  else Err FileNotFoundError.

Lemma separate_object o p : startswith (key o) p = false -> separate (Prefix p) (Object o).
Proof. intros H s Hp Ho. cbn in Hp, Ho. subst. congruence. Qed.

Lemma example_tree : tree_at example_shallow "b/" 7
  [example_object "b/a/c/d"; example_object "b/a/b"; example_object "b/a.txt"; example_object "b/e"].
Proof.
  assert (forall p q s, startswith s (p +:+ q) = true -> startswith s p = true) as Hsub.
  { intros p q s [t ->]%startswith_spec. rewrite str_app_assoc. apply startswith_app. }
  apply (tree_node example_shallow "b/" ["b/a/"] [example_object "b/a.txt"; example_object "b/e"]
    [(4, [example_object "b/a/c/d"; example_object "b/a/b"])]); [done| | | |repeat constructor].
  - constructor; [|constructor].
    apply (tree_node example_shallow "b/a/" ["b/a/c/"] [example_object "b/a/b"] [(2, [example_object "b/a/c/d"])]);
      [done| | | |repeat constructor].
    + constructor; [|constructor].
      apply (tree_node example_shallow "b/a/c/" [] [example_object "b/a/c/d"] []); repeat constructor.
      by intros s ->.
    + repeat constructor; [intros s; apply (Hsub "b/a/" "c/")|by intros s ->].
    + repeat constructor. by apply separate_object.
  - repeat constructor; [intros s; apply (Hsub "b/" "a/")|by intros s ->|by intros s ->].
  - repeat constructor; try by apply separate_object. intros s H1 H2. cbn in *. congruence.
Qed.

(** The tree depends on the shallow listings that it is made of. *)
Lemma tree_at_ext (f g : string -> res shallow_result) p n os :
  (forall q r, f q = Ok r -> g q = Ok r) -> tree_at f p n os -> tree_at g p n os.
Proof.
  intros Hfg. revert p n os. fix IH 4. intros p n os [p' cps cos ts Hsh Hts Hin Hsep Hsort].
  apply (tree_node g p' cps cos ts); [by apply Hfg| |done|done|done]. clear Hsh Hin Hsep. induction Hts; constructor; auto.
Qed.

(** ** Bounds of the expander over its whole life *)

(** What the consumer is doing: [get] has the prefix among the futures in
    flight, or has taken its future out and waits for it *)
Inductive consumer := Idle | Submitted (p : string) | Awaiting (p : string).
Inductive expander_event :=
  | Enqueue (ps : list string)
  | GetSubmit (finished : string -> bool) (p : string)
  | GetPop
  | GetResult.
(** [None] where the event cannot happen: there is one consumer, which makes
    no other call while it waits *)
Definition expander_step (fn : string -> res shallow_result) (max_inflight : nat) (ev : expander_event)
    (s : expander * consumer) : option (expander * consumer) :=
  match ev, s with
  | Enqueue ps, (e, Idle) => Some (enqueue max_inflight ps e, Idle)
  | GetSubmit finished p, (e, Idle) =>
      match get_submit fn max_inflight finished p e with
      | (Ok None, e1) => Some (e1, Submitted p)
      | (_, e1) => Some (e1, Idle)
      end
  | GetPop, (e, Submitted p) => Some (get_pop p e, Awaiting p)
  | GetResult, (e, Awaiting p) => Some (e, Idle)
  | _, _ => None
  end.
Fixpoint run_expander (fn : string -> res shallow_result) (max_inflight : nat) (evs : list expander_event)
    (s : expander * consumer) : option (expander * consumer) :=
  match evs with
  | [] => Some s
  | ev :: evs => match expander_step fn max_inflight ev s with
                 | Some s' => run_expander fn max_inflight evs s'
                 | None => None
                 end
  end.
(** The listings in flight, the one that is waited for among them *)
Definition listings_in_flight (s : expander * consumer) : nat :=
  length (inflight s.1) + match s.2 with Awaiting _ => 1 | _ => 0 end.

Definition expander_within (max_inflight : nat) (s : expander * consumer) : Prop :=
  listings_in_flight s <= max_inflight + match s.2 with Idle => 0 | _ => 1 end /\
  match s.2 with Submitted p => p ∈ inflight s.1 | _ => True end.
Lemma expander_step_within fn max_inflight ev s s' :
  expander_within max_inflight s -> expander_step fn max_inflight ev s = Some s' -> expander_within max_inflight s'.
Proof.
  destruct s as [e [|p|p]]; intros [Hb Hin]; destruct ev as [ps|finished q| |]; cbn [expander_step]; try done;
    unfold listings_in_flight in Hb; cbn [fst snd] in Hb.
  - intros [= <-]. split; [|done]. unfold listings_in_flight. cbn [fst snd].
    rewrite !Nat.add_0_r. apply enqueue_bound. lia.
  - pose proof (get_submit_bound fn max_inflight finished q e ltac:(lia)) as H.
    destruct (get_submit _ _ _ _ _) as [[[r|]|x] e1] eqn:E; intros [= <-];
      (split; [unfold listings_in_flight; cbn [fst snd]; lia|]); cbn [fst snd]; try done.
    revert E. unfold get_submit. destruct (collect _ _ _ _) as [[u|x] e2]; [|done].
    destruct (ready_get _ _); [done|]. intros [= <-]. cbn. case_bool_decide; [done|]. set_solver.
  - intros [= <-]. cbn [fst snd] in Hin. pose proof (get_pop_bound p e Hin) as Hp.
    split; [|done]. unfold listings_in_flight. cbn [fst snd]. lia.
  - intros [= <-]. split; [|done]. unfold listings_in_flight. cbn [fst snd]. lia.
Qed.

(** C18: at every moment the expander has at most [max_workers * look_ahead]
    listings in flight, and one more while the consumer waits in [get], whatever
    is enqueued and retrieved, whichever listings have completed and whatever
    fails. *)
Theorem expander_bounded (fn : string -> res shallow_result) (max_workers look_ahead : nat)
    (events : list expander_event) (s : expander * consumer)
    (Hrun : run_expander fn (max_workers * look_ahead) events (new_expander, Idle) = Some s) :
  listings_in_flight s <= max_workers * look_ahead + match s.2 with Idle => 0 | _ => 1 end.
Proof.
  revert Hrun. generalize (max_workers * look_ahead) as max_inflight. intros max_inflight.
  assert (expander_within max_inflight (new_expander, Idle)) as H by (split; [cbn; lia|done]).
  revert H. generalize (new_expander, Idle). induction events as [|ev evs IH]; intros s0 H; cbn.
  - intros [= <-]. apply H.
  - destruct (expander_step _ _ _ _) as [s1|] eqn:E; [|done].
    apply IH. by eapply expander_step_within.
Qed.

(** Of "a" and "b" the first is listed and retrieved while the second is in
    flight; the children of the first find no capacity and the consumer, which
    needs one of them, submits it all the same. *)
Definition over_capacity : list expander_event :=
  [Enqueue ["a/"; "b/"]; GetSubmit (fun p => bool_decide (p = "a/")) "a/"; Enqueue ["a/x/"]; GetSubmit (fun _ => false) "a/x/"].
Lemma expander_bounded_witness :
  exists s, run_expander (fun _ => Ok ([], [])) (1 * 1) over_capacity (new_expander, Idle) = Some s /\
    inflight s.1 = ["b/"; "a/x/"] /\ listings_in_flight s <= 1 * 1 + 1.
Proof.
  eexists. split; [vm_compute; reflexivity|]. split; [reflexivity|].
  refine (expander_bounded (fun _ => Ok ([], [])) 1 1 over_capacity _ _). vm_compute. reflexivity.
Defined.
(** The capacity itself is exceeded while the consumer waits. *)
Theorem expander_exceeds_capacity :
  exists s, run_expander (fun _ => Ok ([], [])) (1 * 1) (over_capacity ++ [GetPop]) (new_expander, Idle) = Some s /\
    s.2 = Awaiting "a/x/" /\ listings_in_flight s = 1 * 1 + 1.
Proof. eexists. split; [vm_compute; reflexivity|]. split; reflexivity. Qed.

(** What is bounded is only the number of requests in flight: completed results
    that were not retrieved yet accumulate beyond it. *)
Theorem ready_not_bounded :
  exists events e, run_expander (fun _ => Ok ([], [])) 1 events (new_expander, Idle) = Some (e, Idle) /\ length (ready e) = 4.
Proof.
  exists (Enqueue ["a"; "b"; "c"; "d"; "e"] ::
    concat (map (fun p => [GetSubmit (fun _ => true) p; GetPop; GetResult]) ["0"; "1"; "2"; "3"])).
  eexists. split; [vm_compute; reflexivity|reflexivity].
Qed.
