(* ===== verification/Replica.v ===== *)
(** * The replica manager ([multistorageclient/replica_manager.py])

    A read goes to the replicas in order of their priority and falls back to
    the primary store; a replica that misses the file gets it by a background
    job.  A replica is a storage client, of which the manager uses the
    operations of [replica_client]; all of them act on one state [W], which
    holds every store and the local disk.  The reads and the workers of the
    thread pool run side by side: a read marks its path, then submits a job; a
    worker prepares the file, uploads it to one replica after the other, takes
    the mark away and removes the temporary file, and each of these is a step
    of its own ([pool_step]). *)
From stdpp Require Import stringmap.
From S2P Require Import Prelude Types.

(** A download to a file object appends to it, whether it then fails or not. *)
Record replica_client (W : Type) := mkReplicaClient {
  rc_profile : string;
  rc_is_file : string -> W -> res bool;
  rc_download_file : string -> string -> M W unit;
  rc_download_buffer : string -> W -> bytes * res unit;
  rc_upload_file : string -> string -> M W unit;
  rc_delete : string -> M W unit;
}.
Arguments mkReplicaClient {W} _ _ _ _ _ _.
Arguments rc_profile {W} _.
Arguments rc_is_file {W} _ _ _.
Arguments rc_download_file {W} _ _ _.
Arguments rc_download_buffer {W} _ _ _.
Arguments rc_upload_file {W} _ _ _.
Arguments rc_delete {W} _ _.

(** The temporary files of the local disk *)
Class TempFiles (W : Type) := {
  tf_write : bytes -> M W string;
  tf_exists : string -> W -> bool;
  tf_unlink : string -> M W unit;
}.

(** Where a download goes: a local path, or a file object in memory *)
Inductive destination := ToPath (p : string) | ToBuffer.
(** The [file] argument of a background upload: a path, the content of a
    [BytesIO] or [StringIO], or another file object and its [name] *)
Inductive upload_source := SrcPath (p : string) | SrcBuffer (b : bytes) | SrcHandle (name : option string).

(** ** Definitions *)
Section Manager.
Context {W : Type} `{!TempFiles W}.

Record job := mkJob { job_file : upload_source; job_path : string; job_clients : list (replica_client W) }.
(** [_uploading_files], and of the thread pool the manager's jobs that no
    worker has taken yet and whether the pool is shut down *)
Record manager := mkManager { uploading_files : gset string; jobs : list job; pool_shutdown : bool }.
Definition new_manager : manager := mkManager ∅ [] false.

(** A download to [file]; the file object is part of the state *)
Definition download_to (file : destination) (to_path : string -> M W unit) (to_buffer : W -> bytes * res unit)
    : M (W * bytes) unit :=
  fun '(w, buf) =>
  match file with
  | ToPath p => let '(r, w') := to_path p w in (r, (w', buf))
  | ToBuffer => let '(b, r) := to_buffer w in (r, (w, buf ++ b))
  end.

(** The loop over the replicas: whether one had the file, and those that did
    not; every exception moves on to the next replica *)
Fixpoint replica_loop (remote_path : string) (file : destination) (replicas : list (replica_client W)) (s : W * bytes)
    : bool * list (replica_client W) * (W * bytes) :=
  match replicas with
  | [] => (false, [], s)
  | r :: rs =>
      match rc_is_file r remote_path s.1 with
      | Err _ => replica_loop remote_path file rs s
      | Ok false =>
          let '(found, missing, s') := replica_loop remote_path file rs s in (found, r :: missing, s')
      | Ok true =>
          match download_to file (rc_download_file r remote_path) (rc_download_buffer r remote_path) s with
          | (Ok _, s') => (true, [], s')
          | (Err _, s') => replica_loop remote_path file rs s'
          end
      end
  end.

Definition source_of (file : destination) (buf : bytes) : upload_source :=
  match file with ToPath p => SrcPath p | ToBuffer => SrcBuffer buf end.

(** The check-and-add under [_upload_lock]; [None] when the path is being
    uploaded already *)
Definition mark_upload (remote_path : string) (m : manager) : option manager :=
  if bool_decide (remote_path ∈ uploading_files m) then None
  else Some (mkManager ({[remote_path]} ∪ uploading_files m) (jobs m) (pool_shutdown m)).
(** [_REPLICA_THREAD_POOL.submit]: a pool that is shut down takes no job *)
Definition pool_submit (j : job) (m : manager) : res unit * manager :=
  if pool_shutdown m then (Err RuntimeError, m)
  else (Ok tt, mkManager (uploading_files m) (jobs m ++ [j]) (pool_shutdown m)).

(** [download_from_replica_or_primary] with the primary's [download_file]; the
    file object is part of the state *)
Definition download_into (replicas : list (replica_client W)) (remote_path : string)
    (file : destination) (primary_path : string -> M W unit) (primary_buffer : W -> bytes * res unit)
    (m : manager) (s : W * bytes) : res unit * (manager * (W * bytes)) :=
  let '(found, missing, s1) := replica_loop remote_path file replicas s in
  let '(r, (w2, buf)) := if found then (Ok tt, s1) else download_to file primary_path primary_buffer s1 in
  match r with
  | Err e => (Err e, (m, (w2, buf)))
  | Ok _ =>
      if bool_decide (missing = []) then (Ok tt, (m, (w2, buf)))
      else match mark_upload remote_path m with
           | None => (Ok tt, (m, (w2, buf)))
           | Some m1 =>
               let '(r, m2) := pool_submit (mkJob (source_of file buf) remote_path missing) m1 in
               (r, (m2, (w2, buf)))
           end
  end.
(** The same with a new file object, whose content is the result *)
Definition download_from_replica_or_primary (replicas : list (replica_client W)) (remote_path : string)
    (file : destination) (primary_path : string -> M W unit) (primary_buffer : W -> bytes * res unit)
    (m : manager) (w : W) : res bytes * (manager * W) :=
  let '(r, (m', (w', buf))) := download_into replicas remote_path file primary_path primary_buffer m (w, []) in
  (res_bind r (fun _ => Ok buf), (m', w')).

(** [_prepare_file_for_upload]: the path, and whether it is temporary *)
Definition prepare_file_for_upload (file : upload_source) : M W (string * bool) :=
  match file with
  | SrcBuffer b => let! p := tf_write b in mret (p, true)
  | SrcPath p => mret (p, false)
  | SrcHandle (Some n) => if bool_decide (n = "") then mraise TypeError else mret (n, false)
  | SrcHandle None => mraise TypeError
  end.

(** [_uploading_files.discard] under [_upload_lock] *)
Definition discard_upload (remote_path : string) (m : manager) : manager :=
  mkManager (uploading_files m ∖ {[remote_path]}) (jobs m) (pool_shutdown m).
(** The temporary file is removed; an exception of the removal is logged *)
Definition clean_up (local_file_path : string) (created_temp : bool) (w : W) : W :=
  if created_temp && negb (bool_decide (local_file_path = "")) && tf_exists local_file_path w
  then (tf_unlink local_file_path w).2 else w.

(** [_upload_to_replicas] of a worker: the job it has taken, the replicas it
    has still to upload to, or the temporary file it has still to remove *)
Inductive upload :=
  | Preparing (j : job)
  | Uploading (j : job) (local_file_path : string) (created_temp : bool) (rest : list (replica_client W))
  | Cleaning (local_file_path : string) (created_temp : bool).
(** What it does next, [None] once it is done; every exception is logged *)
Definition upload_step (u : upload) (m : manager) (w : W) : option upload * (manager * W) :=
  match u with
  | Preparing j =>
      match prepare_file_for_upload (job_file j) w with
      | (Err _, w') => (Some (Uploading j "" false []), (m, w'))
      | (Ok (p, temp), w') => (Some (Uploading j p temp (job_clients j)), (m, w'))
      end
  | Uploading j p temp (r :: rest) =>
      (Some (Uploading j p temp rest), (m, (rc_upload_file r (job_path j) p w).2))
  | Uploading j p temp [] => (Some (Cleaning p temp), (discard_upload (job_path j) m, w))
  | Cleaning p temp => (None, (m, clean_up p temp w))
  end.

(** [_upload_to_replicas] as a whole, for a worker that is not interrupted *)
Definition upload_to_replicas (j : job) (w : W) : W :=
  match prepare_file_for_upload (job_file j) w with
  | (Err _, w1) => w1
  | (Ok (p, temp), w1) =>
      clean_up p temp (mfor (job_clients j) (fun r =>
        mtry (fun _ => true) (rc_upload_file r (job_path j) p) (fun _ => mret tt)) w1).2
  end.

(** [delete_from_replicas] *)
Definition delete_from_replicas (replicas : list (replica_client W)) (path : string) : M W unit :=
  mfor replicas (fun r => mtry (fun _ => true) (rc_delete r path) (fun _ => mret tt)).

(** ** The thread pool *)

(** The reads that have marked their path and not yet submitted their job, the
    workers, and the paths whose job the pool refused.  The world is that of
    all the clients, and the pool is shared by all the managers: [running]
    holds the workers on this manager's jobs. *)
Record pool := mkPool {
  pool_manager : manager;
  submitting : list job;
  running : list upload;
  refused : list string;
  world : W;
}.
Definition start_pool (w : W) : pool := mkPool new_manager [] [] [] w.

(** What can happen next: the rest of the program changes the world (the
    downloads of the reads included); a read that has replicas to update marks
    its path; one that has marked its path submits its job; a worker takes the
    first job; a worker takes a step; the pool is shut down *)
Inductive pool_event :=
  | EvWorld (w : W)
  | EvMark (j : job)
  | EvSubmit (i : nat)
  | EvStart
  | EvStep (i : nat)
  | EvShutdown.

(** [None] where the event cannot happen; [workers] is the size of the pool *)
Definition pool_step (workers : nat) (e : pool_event) (s : pool) : option pool :=
  let m := pool_manager s in
  match e with
  | EvWorld w => Some (mkPool m (submitting s) (running s) (refused s) w)
  | EvMark j =>
      if bool_decide (job_clients j = []) then None
      else match mark_upload (job_path j) m with
           | None => Some s
           | Some m1 => Some (mkPool m1 (submitting s ++ [j]) (running s) (refused s) (world s))
           end
  | EvSubmit i =>
      match submitting s !! i with
      | None => None
      | Some j =>
          Some match pool_submit j m with
               | (Ok _, m') => mkPool m' (delete i (submitting s)) (running s) (refused s) (world s)
               | (Err _, m') => mkPool m' (delete i (submitting s)) (running s) (job_path j :: refused s) (world s)
               end
      end
  | EvStart =>
      match jobs m with
      | j :: js =>
          if (length (running s) <? workers)%nat
          then Some (mkPool (mkManager (uploading_files m) js (pool_shutdown m)) (submitting s)
                       (running s ++ [Preparing j]) (refused s) (world s))
          else None
      | [] => None
      end
  | EvStep i =>
      match running s !! i with
      | None => None
      | Some u =>
          let '(next, (m', w')) := upload_step u m (world s) in
          Some (mkPool m' (submitting s)
                  (match next with Some u' => <[i := u']> (running s) | None => delete i (running s) end)
                  (refused s) w')
      end
  | EvShutdown =>
      Some (mkPool (mkManager (uploading_files m) (jobs m) true) (submitting s) (running s) (refused s) (world s))
  end.
Fixpoint run_pool (workers : nat) (es : list pool_event) (s : pool) : option pool :=
  match es with
  | [] => Some s
  | e :: es => match pool_step workers e s with Some s' => run_pool workers es s' | None => None end
  end.

(** The path an upload is marked with, until it discards it *)
Definition upload_path (u : upload) : option string :=
  match u with Preparing j | Uploading j _ _ _ => Some (job_path j) | Cleaning _ _ => None end.
(** The paths of the uploads at every stage *)
Definition in_flight (s : pool) : list string :=
  map job_path (submitting s) ++ map job_path (jobs (pool_manager s)) ++ omap upload_path (running s).

(** *** The marks *)

(** Every mark belongs to one upload in flight or to one job that was refused,
    and only a pool that is shut down refuses jobs. *)
Definition pool_inv (workers : nat) (s : pool) : Prop :=
  NoDup (in_flight s ++ refused s) /\
  (forall p, p ∈ uploading_files (pool_manager s) <-> p ∈ in_flight s ++ refused s) /\
  (length (running s) <= workers)%nat /\
  (pool_shutdown (pool_manager s) = false -> refused s = []).

(** An event that moves the marks around, or adds or drops one *)
Definition marks (s : pool) : list string := in_flight s ++ refused s.
Lemma marks_moved workers s s' :
  pool_inv workers s -> uploading_files (pool_manager s') = uploading_files (pool_manager s) -> marks s' ≡ₚ marks s ->
  (length (running s') <= workers)%nat -> (pool_shutdown (pool_manager s') = false -> refused s' = []) ->
  pool_inv workers s'.
Proof.
  intros (H1 & H2 & _ & _) Hu Hp Hr Hs. unfold marks in Hp. split_and!; [by rewrite Hp| |done|done].
  intros p. by rewrite Hp, Hu.
Qed.
Lemma omap_delete {A B} (f : A -> option B) (l : list A) i x :
  l !! i = Some x -> omap f l ≡ₚ option_list (f x) ++ omap f (delete i l).
Proof. intros H. rewrite (delete_Permutation _ _ _ H) at 1. cbn. by destruct (f x). Qed.
Lemma omap_insert {A B} (f : A -> option B) (l : list A) i x y :
  l !! i = Some x -> omap f (<[i := y]> l) ≡ₚ option_list (f y) ++ omap f (delete i l).
Proof.
  intros H. rewrite (omap_delete f _ i y) by (apply list_lookup_insert_eq; by eapply lookup_lt_Some).
  assert (delete i (<[i := y]> l) = delete i l) as ->; [|done].
  revert i H. induction l as [|a l IH]; intros [|i] H; try done. cbn. f_equal. by apply IH.
Qed.
Lemma marks_app s : marks s = map job_path (submitting s) ++ map job_path (jobs (pool_manager s)) ++
  omap upload_path (running s) ++ refused s.
Proof. unfold marks, in_flight. by rewrite <- !app_assoc. Qed.

Lemma mark_inv workers s m1 j :
  pool_inv workers s -> mark_upload (job_path j) (pool_manager s) = Some m1 ->
  pool_inv workers (mkPool m1 (submitting s ++ [j]) (running s) (refused s) (world s)).
Proof.
  intros (H1 & H2 & H3 & H4). unfold mark_upload. case_bool_decide as Hj; [done|]. intros [= <-].
  assert (marks (mkPool (mkManager ({[job_path j]} ∪ uploading_files (pool_manager s)) (jobs (pool_manager s))
      (pool_shutdown (pool_manager s))) (submitting s ++ [j]) (running s) (refused s) (world s)) ≡ₚ job_path j :: marks s) as Hp.
  { rewrite !marks_app. cbn [submitting pool_manager jobs running refused]. rewrite map_app. cbn [map].
    rewrite <- app_assoc. cbn [app]. symmetry. apply Permutation_middle. }
  unfold marks in Hp. split_and!; [|intros p|done|done].
  - rewrite Hp. constructor; [by rewrite <- H2|done].
  - rewrite Hp. cbn. rewrite elem_of_cons, <- H2. set_solver.
Qed.

Lemma submit_inv workers s i j :
  pool_inv workers s -> submitting s !! i = Some j ->
  pool_inv workers match pool_submit j (pool_manager s) with
                   | (Ok _, m') => mkPool m' (delete i (submitting s)) (running s) (refused s) (world s)
                   | (Err _, m') => mkPool m' (delete i (submitting s)) (running s) (job_path j :: refused s) (world s)
                   end.
Proof.
  intros Hinv Hi. pose proof Hinv as (_ & _ & H3 & H4). pose proof (delete_Permutation _ _ _ Hi) as Hd.
  apply (Permutation_map job_path) in Hd. cbn [map] in Hd. unfold pool_submit.
  destruct (pool_shutdown _) eqn:Es; apply (marks_moved _ s); try done; cbn; rewrite ?Es; try done;
    rewrite !marks_app; cbn; rewrite Hd.
  - solve_Permutation.
  - rewrite map_app. cbn. solve_Permutation.
Qed.

Lemma step_inv workers s i u :
  pool_inv workers s -> running s !! i = Some u ->
  let '(next, (m', w')) := upload_step u (pool_manager s) (world s) in
  pool_inv workers (mkPool m' (submitting s)
    (match next with Some u' => <[i := u']> (running s) | None => delete i (running s) end) (refused s) w').
Proof.
  intros Hinv Hi. pose proof Hinv as (H1 & H2 & H3 & H4). pose proof (delete_Permutation _ _ _ Hi) as Hd.
  assert (forall u', upload_path u' = upload_path u -> forall w', pool_inv workers (mkPool (pool_manager s) (submitting s)
      (<[i := u']> (running s)) (refused s) w')) as Hsame.
  { intros u' Hu' w'. apply (marks_moved _ s); try done; [|by cbn; rewrite length_insert].
    rewrite !marks_app. cbn [submitting pool_manager running refused].
    by rewrite (omap_insert _ _ _ u u' Hi), (omap_delete _ _ _ u Hi), Hu'. }
  destruct u as [j|j p temp [|r rest]|p temp]; cbn [upload_step].
  - destruct (prepare_file_for_upload _ _) as [[[p temp]|e] w']; by apply Hsame.
  - assert (marks s ≡ₚ job_path j :: marks (mkPool (discard_upload (job_path j) (pool_manager s)) (submitting s)
      (<[i := Cleaning p temp]> (running s)) (refused s) (world s))) as Hp.
    { rewrite !marks_app. cbn [submitting pool_manager running refused discard_upload jobs].
      rewrite (omap_insert _ _ _ _ (Cleaning p temp) Hi), (omap_delete _ _ _ _ Hi). cbn [upload_path option_list app]. solve_Permutation. }
    unfold marks in Hp. rewrite Hp in H1. apply NoDup_cons in H1 as [Hj H1].
    split_and!; [done| |by cbn; rewrite length_insert|done].
    intros q. cbn [pool_manager discard_upload uploading_files].
    rewrite elem_of_difference, H2, Hp, elem_of_cons, elem_of_singleton. set_solver.
  - by apply Hsame.
  - apply (marks_moved _ s); try done; cbn [running].
    + rewrite !marks_app. cbn [submitting pool_manager running refused]. by rewrite (omap_delete _ (running s) _ _ Hi).
    + apply Permutation_length in Hd. cbn in Hd. lia.
Qed.

Lemma pool_step_inv workers e s s' : pool_inv workers s -> pool_step workers e s = Some s' -> pool_inv workers s'.
Proof.
  intros Hinv. pose proof Hinv as (_ & _ & H3 & H4). destruct e as [w|j|i| |i|]; cbn [pool_step].
  - intros [= <-]. by apply (marks_moved _ s).
  - destruct (bool_decide _); [done|]. destruct (mark_upload _ _) eqn:E; intros [= <-]; [by apply mark_inv|done].
  - destruct (submitting s !! i) as [j|] eqn:Hi; [|done]. intros [= <-]. by apply submit_inv.
  - destruct (jobs _) as [|j js] eqn:Ej; [done|]. destruct (Nat.ltb_spec (length (running s)) workers); [|done].
    intros [= <-]. apply (marks_moved _ s); try done; cbn.
    + rewrite !marks_app. cbn. rewrite omap_app, Ej. cbn. solve_Permutation.
    + rewrite length_app. cbn. lia.
  - destruct (running s !! i) as [u|] eqn:Hi; [|done]. pose proof (step_inv workers s i u Hinv Hi) as H.
    destruct (upload_step _ _ _) as [next [m' w']]. by intros [= <-].
  - intros [= <-]. by apply (marks_moved _ s).
Qed.
Lemma run_pool_inv workers es s s' : pool_inv workers s -> run_pool workers es s = Some s' -> pool_inv workers s'.
Proof.
  revert s. induction es as [|e es IH]; intros s Hs; cbn; [by intros [= <-]|].
  destruct (pool_step workers e s) as [s1|] eqn:E; [|done]. apply IH. by eapply pool_step_inv.
Qed.
Lemma start_pool_inv workers w : pool_inv workers (start_pool w).
Proof. split_and!; cbn; [constructor|set_solver|lia|done]. Qed.

(** *** The operations are schedules of the pool *)
Lemma run_pool_app workers es1 es2 s : run_pool workers (es1 ++ es2) s = match run_pool workers es1 s with Some s' => run_pool workers es2 s' | None => None end.
Proof. revert s. induction es1 as [|e es1 IH]; intros s; cbn; [done|]. by destruct (pool_step workers e s). Qed.

(** A read is its downloads, and its mark and its submission where it gets there. *)
Lemma download_schedule workers replicas path file pp pb s buf :
  let '(r, (m', (w', _))) := download_into replicas path file pp pb (pool_manager s) (world s, buf) in
  exists es ref, run_pool workers es s = Some (mkPool m' (submitting s) (running s) ref w').
Proof.
  unfold download_into. destruct (replica_loop _ _ _ _) as [[found missing] s1].
  destruct (if found then _ else _) as [[u|e] [w2 buf']]; [|by exists [EvWorld w2], (refused s)].
  case_bool_decide as Hm; [by exists [EvWorld w2], (refused s)|].
  destruct (mark_upload path (pool_manager s)) as [m1|] eqn:E; [|by exists [EvWorld w2], (refused s)].
  destruct (pool_submit (mkJob (source_of file buf') path missing) m1) as [r m2] eqn:Es.
  exists [EvWorld w2; EvMark (mkJob (source_of file buf') path missing); EvSubmit (length (submitting s))].
  cbn [run_pool pool_step pool_manager job_clients job_path world].
  rewrite bool_decide_eq_false_2, E by done. cbn [submitting pool_manager].
  rewrite list_lookup_middle by done. cbn [pool_manager]. rewrite Es.
  assert (delete (length (submitting s)) (submitting s ++ [mkJob (source_of file buf') path missing]) = submitting s) as ->.
  { rewrite delete_take_drop, take_app_length, drop_ge by (rewrite length_app; cbn; lia). apply app_nil_r. }
  by destruct r; eexists.
Qed.

(** The first job, run by a worker that is not interrupted *)
Definition run_alone (m : manager) (w : W) : manager * W :=
  match jobs m with
  | [] => (m, w)
  | j :: js => (mkManager (uploading_files m ∖ {[job_path j]}) js (pool_shutdown m), upload_to_replicas j w)
  end.

Lemma upload_rest_schedule workers i j p temp rest s :
  running s !! i = Some (Uploading j p temp rest) ->
  run_pool workers (replicate (S (S (length rest))) (EvStep i)) s =
    Some (mkPool (discard_upload (job_path j) (pool_manager s)) (submitting s) (delete i (running s)) (refused s)
      (clean_up p temp (mfor rest (fun r =>
         mtry (fun _ => true) (rc_upload_file r (job_path j) p) (fun _ => mret tt)) (world s)).2)).
Proof.
  assert (forall (l : list upload) u, delete i (<[i := u]> l) = delete i l) as Hdel.
  { intros l u. generalize i. induction l as [|a l IH]; intros [|k]; try done. cbn. f_equal. apply IH. }
  revert s. induction rest as [|r rest IH]; intros s Hi.
  - cbn [length replicate run_pool pool_step]. rewrite Hi. cbn [upload_step pool_manager running].
    rewrite list_lookup_insert_eq by (by eapply lookup_lt_Some). cbn [upload_step submitting refused world].
    by rewrite Hdel.
  - change (replicate (S (S (length (r :: rest)))) (EvStep i)) with (EvStep i :: replicate (S (S (length rest))) (EvStep i)).
    cbn [run_pool pool_step]. rewrite Hi. cbn [upload_step].
    rewrite IH by (apply list_lookup_insert_eq; by eapply lookup_lt_Some).
    cbn [pool_manager submitting running refused world mfor]. rewrite Hdel. unfold mbind at 1, mtry at 2.
    by destruct (rc_upload_file r (job_path j) p (world s)) as [[u|e] w'].
Qed.
Lemma run_alone_schedule workers s j js :
  jobs (pool_manager s) = j :: js -> (length (running s) < workers)%nat ->
  exists es, run_pool workers es s =
    Some (mkPool (run_alone (pool_manager s) (world s)).1 (submitting s) (running s) (refused s)
            (run_alone (pool_manager s) (world s)).2).
Proof.
  intros Hj Hw. unfold run_alone. rewrite Hj. cbn [fst snd]. unfold upload_to_replicas.
  set (i := length (running s)).
  assert (forall u : upload, (running s ++ [u]) !! i = Some u) as Hi by (intros; by apply list_lookup_middle).
  assert (forall u u' : upload, <[i := u']> (running s ++ [u]) = running s ++ [u']) as Hins
    by (intros; unfold i; by rewrite insert_app_r_alt, Nat.sub_diag by lia).
  assert (forall u : upload, delete i (running s ++ [u]) = running s) as Hdel.
  { intros u. unfold i. rewrite delete_take_drop, take_app_length, drop_ge by (rewrite length_app; cbn; lia).
    apply app_nil_r. }
  set (todo := match prepare_file_for_upload (job_file j) (world s) with (Ok _, _) => job_clients j | _ => [] end).
  exists ([EvStart; EvStep i] ++ replicate (S (S (length todo))) (EvStep i)). rewrite run_pool_app.
  cbn [run_pool pool_step]. rewrite Hj. replace (length (running s) <? workers)%nat with true by (symmetry; by apply Nat.ltb_lt).
  cbn [running]. rewrite Hi. cbn [upload_step world pool_manager]. unfold todo.
  destruct (prepare_file_for_upload (job_file j) (world s)) as [[[p temp]|e] w']; cbn [run_pool];
    (erewrite upload_rest_schedule by (cbn [running]; rewrite Hins; apply Hi));
    cbn [pool_manager submitting running refused world]; by rewrite Hins, Hdel.
Qed.
End Manager.
Arguments manager : clear implicits.
Arguments job : clear implicits.
Arguments upload : clear implicits.
Arguments pool : clear implicits.
Arguments pool_event : clear implicits.

(** C17: whatever reads and uploads run side by side on a pool of any size, at
    every moment each path marked in [_uploading_files] has exactly one upload
    that was marked and not yet submitted, is queued, or runs on a worker
    whatever its progress, or one job that the pool refused because it was shut
    down; no path is uploaded twice at a time, at most as many uploads run as
    the pool has workers, and while the pool is open exactly the paths of the
    uploads in flight are marked. *)
Theorem one_upload_per_path {W} `{!TempFiles W} (workers : nat) (events : list (pool_event W)) (w : W) (s : pool W)
    (Hrun : run_pool workers events (start_pool w) = Some s) :
  NoDup (in_flight s ++ refused s) /\
  (forall p, p ∈ uploading_files (pool_manager s) <-> p ∈ in_flight s \/ p ∈ refused s) /\
  (length (running s) <= workers)%nat /\
  (pool_shutdown (pool_manager s) = false -> forall p, p ∈ uploading_files (pool_manager s) <-> p ∈ in_flight s).
Proof.
  destruct (run_pool_inv workers events _ _ (start_pool_inv workers w) Hrun) as (H1 & H2 & H3 & H4).
  split_and!; [done| |done|]; [intros p; by rewrite H2, elem_of_app|].
  intros Hopen p. by rewrite H2, (H4 Hopen), app_nil_r.
Qed.

(** ** Reading through replicas *)
Section Reading.
Context {W : Type} `{!TempFiles W} (path : string) (obj : bytes) (w : W).

(** A replica that serves the file serves [obj], and one that fails has not
    written anything to the file object yet. *)
Definition coherent_replica (r : replica_client W) : Prop :=
  rc_is_file r path w = Ok true ->
  match rc_download_buffer r path w with (b, Ok _) => b = obj | (b, Err _) => b = [] end.
(** Whether a replica serves the file, or says that it lacks it *)
Definition serves (r : replica_client W) : bool :=
  match rc_is_file r path w, rc_download_buffer r path w with Ok true, (_, Ok _) => true | _, _ => false end.
Definition lacks (r : replica_client W) : bool := match rc_is_file r path w with Ok false => true | _ => false end.
(** The replicas in front of the first that serves the file, if any *)
Fixpoint tried (rs : list (replica_client W)) : list (replica_client W) :=
  match rs with
  | [] => []
  | r :: rs => if serves r then [] else r :: tried rs
  end.

Lemma replica_loop_buffer rs buf :
  Forall coherent_replica rs ->
  replica_loop path ToBuffer rs (w, buf) =
  (existsb serves rs, filter (fun r => lacks r = true) (tried rs), (w, if existsb serves rs then buf ++ obj else buf)).
Proof.
  induction 1 as [|r rs Hr Hrs IH]; [done|]. unfold coherent_replica in Hr. cbn [replica_loop existsb tried fst].
  destruct (rc_is_file r path w) as [[]|e] eqn:Ei.
  - specialize (Hr eq_refl). cbn [download_to].
    destruct (rc_download_buffer r path w) as [b [u|e]] eqn:Eb; subst b.
    + assert (serves r = true) as -> by (unfold serves; by rewrite Ei, Eb). done.
    + assert (serves r = false) as -> by (unfold serves; by rewrite Ei, Eb). rewrite app_nil_r, IH. cbn [orb].
      rewrite filter_cons_False; [done|]. unfold lacks. by rewrite Ei.
  - assert (serves r = false) as -> by (unfold serves; by rewrite Ei). rewrite IH. cbn [orb].
    rewrite filter_cons_True; [done|]. unfold lacks. by rewrite Ei.
  - assert (serves r = false) as -> by (unfold serves; by rewrite Ei). rewrite IH. cbn [orb].
    rewrite filter_cons_False; [done|]. unfold lacks. by rewrite Ei.
Qed.
End Reading.

(** C16: reading through coherent replicas returns the object's data, from the
    first replica that serves it or, when none does, from the primary store.
    One job is queued, with exactly these bytes, for the replicas tried before
    the first that serves the file that say they lack it; nothing is queued
    where there are none or where the path is being uploaded already, and on a
    pool that is shut down the job is refused and the read raises, with the
    path left marked. *)
Theorem replica_read_exact {W} `{!TempFiles W} (replicas : list (replica_client W)) (path : string) (obj : bytes)
    (primary_path : string -> M W unit) (primary_buffer : W -> bytes * res unit) (m : manager W) (w : W)
    (Hcoherent : Forall (coherent_replica path obj w) replicas) (Hprimary : primary_buffer w = (obj, Ok tt)) :
  let missing := filter (fun r => lacks path w r = true) (tried path w replicas) in
  let marks := negb (bool_decide (missing = [])) && negb (bool_decide (path ∈ uploading_files m)) in
  download_from_replica_or_primary replicas path ToBuffer primary_path primary_buffer m w =
    (if marks && pool_shutdown m then Err RuntimeError else Ok obj,
     (mkManager (if marks then {[path]} ∪ uploading_files m else uploading_files m)
        (if marks && negb (pool_shutdown m) then jobs m ++ [mkJob (SrcBuffer obj) path missing] else jobs m)
        (pool_shutdown m), w)).
Proof.
  cbn zeta. unfold download_from_replica_or_primary, download_into. rewrite (replica_loop_buffer path obj w) by done.
  destruct m as [up js closed]. unfold mark_upload, pool_submit. cbn [uploading_files jobs pool_shutdown].
  destruct (existsb (serves path w) replicas); cbn [download_to app]; rewrite ?Hprimary; cbn [app source_of];
    (destruct (bool_decide (_ = [])); [done|]); cbn [negb andb]; (destruct (bool_decide (path ∈ _)); [done|]);
    cbn [negb andb uploading_files jobs pool_shutdown]; by destruct closed.
Qed.

(** ** Stores in memory *)

(** Stores by profile; the local disk is the one with no name. *)
Abbreviation stores := (gmap string (gmap string bytes)).
Definition store_get (w : stores) (s p : string) : option bytes := w !! s ≫= fun m => m !! p.
Definition store_put (s p : string) (b : bytes) (w : stores) : stores := <[s := <[p := b]> (default ∅ (w !! s))]> w.
Definition store_del (s p : string) (w : stores) : stores := <[s := delete p (default ∅ (w !! s))]> w.
Definition store_client (s : string) : replica_client stores :=
  mkReplicaClient s
    (fun p w => Ok (bool_decide (is_Some (store_get w s p))))
    (fun p f w => match store_get w s p with
                  | Some b => (Ok tt, store_put "" f b w)
                  | None => (Err FileNotFoundError, w)
                  end)
    (fun p w => match store_get w s p with Some b => (b, Ok tt) | None => ([], Err FileNotFoundError) end)
    (fun p f w => match store_get w "" f with
                  | Some b => (Ok tt, store_put s p b w)
                  | None => (Err FileNotFoundError, w)
                  end)
    (fun p w => (Ok tt, store_del s p w)).
#[global] Instance stores_temp : TempFiles stores := {|
  tf_write := fun b w =>
    let p := fresh_string "/tmp/t" (default ∅ (w !! "")) in (Ok p, store_put "" p b w);
  tf_exists := fun p w => bool_decide (is_Some (store_get w "" p));
  tf_unlink := fun p w => (Ok tt, store_del "" p w);
|}.

Definition two_replicas : list (replica_client stores) := [store_client "near"; store_client "far"].
Definition primary_buffer (p : string) : stores -> bytes * res unit := rc_download_buffer (store_client "primary") p.
Definition read_stores (p : string) (s : manager stores * stores) : res bytes * (manager stores * stores) :=
  download_from_replica_or_primary two_replicas p ToBuffer (fun f => rc_download_file (store_client "primary") p f)
    (primary_buffer p) s.1 s.2.

Lemma replica_read_exact_witness (w := store_put "primary" "x" [x61] (store_put "far" "x" [x61] ∅)) :
  exists m', read_stores "x" (new_manager, w) = (Ok [x61], (m', w)) /\ map job_path (jobs m') = ["x"] /\
    store_get (run_alone m' w).2 "near" "x" = Some [x61].
Proof.
  pose proof (replica_read_exact two_replicas "x" [x61] (fun f => rc_download_file (store_client "primary") "x" f)
    (primary_buffer "x") new_manager w) as H.
  eexists. split; [apply H|].
  - repeat constructor; intros _; reflexivity.
  - reflexivity.
  - split; vm_compute; reflexivity.
Defined.

(** Two reads mark their paths before either submits, two workers take a step
    each, and the job that was taken last ends first: its path is free again
    while the other is still being uploaded. *)
Definition put_job (p : string) (b : bytes) : job stores := mkJob (SrcBuffer b) p [store_client "near"].
Definition out_of_order : list (pool_event stores) :=
  [EvMark (put_job "x" [x61]); EvMark (put_job "y" [x62]); EvMark (put_job "x" [x61]); EvSubmit 1; EvSubmit 0;
   EvStart; EvStart; EvStep 0; EvStep 1; EvStep 1; EvStep 1; EvStep 1].
Lemma one_upload_per_path_witness :
  exists s, run_pool 8 out_of_order (start_pool ∅) = Some s /\ in_flight s = ["y"] /\
    uploading_files (pool_manager s) = {[ "y" ]} /\ NoDup (in_flight s ++ refused s).
Proof.
  assert ((fun s => (in_flight s, uploading_files (pool_manager s))) <$> run_pool 8 out_of_order (start_pool ∅)
          = Some (["y"], {[ "y" ]})) as H by (vm_compute; reflexivity).
  destruct (run_pool 8 out_of_order (start_pool ∅)) as [s|] eqn:E; [|discriminate]. injection H as H1 H2.
  exists s. split; [reflexivity|]. split; [exact H1|]. split; [exact H2|].
  exact (proj1 (one_upload_per_path 8 out_of_order ∅ s E)).
Defined.
(** The other upload goes on, and both replicas' files are the right ones. *)
Example out_of_order_ends :
  (fun s => (running s, store_get (world s) "near" "x", store_get (world s) "near" "y", store_get (world s) "" "/tmp/t"))
    <$> run_pool 8 (out_of_order ++ [EvStep 0; EvStep 0; EvStep 0]) (start_pool ∅)
  = Some ([], Some [x61], Some [x62], None).
Proof. vm_compute. reflexivity. Qed.

(** A read that reaches a pool that is shut down has its data and raises all
    the same, and its path stays marked: no later read uploads it. *)
Theorem refused_upload_stays_marked (w := store_put "primary" "x" [x61] ∅) (m := mkManager ∅ [] true) :
  let '(r, (m1, w1)) := read_stores "x" (m, w) in
  r = Err RuntimeError /\ uploading_files m1 = {[ "x" ]} /\ jobs m1 = [] /\ (read_stores "x" (m1, w1)).1 = Ok [x61].
Proof. vm_compute. auto. Qed.

(** A replica that fails while it writes to the file object leaves what it
    wrote, and the next source appends the whole object to it. *)
Definition broken_client : replica_client stores :=
  mkReplicaClient "broken" (fun _ _ => Ok true) (fun _ _ => mraise OSError) (fun _ _ => ([x61], Err OSError))
    (fun _ _ => mraise OSError) (fun _ => mraise OSError).
Theorem partial_replica_corrupts (w := store_put "primary" "x" [x61; x62] ∅) :
  (download_from_replica_or_primary [broken_client] "x" ToBuffer (fun f => rc_download_file (store_client "primary") "x" f)
    (primary_buffer "x") (new_manager) w).1 = Ok [x61; x61; x62].
Proof. reflexivity. Qed.

(** A background upload that runs after the file was deleted everywhere puts it
    back into the replica, from where the next read serves it. *)
Theorem upload_resurrects_deleted (w := store_put "primary" "x" [x61] ∅) :
  let '(_, (m1, w1)) := read_stores "x" (new_manager, w) in
  let w2 := (delete_from_replicas two_replicas "x" (store_del "primary" "x" w1)).2 in
  let '(m3, w3) := run_alone m1 w2 in
  (read_stores "x" (m1, w2)).1 = Err FileNotFoundError /\ (read_stores "x" (m3, w3)).1 = Ok [x61].
Proof. split; vm_compute; reflexivity. Qed.
