(* ===== verification/Telemetry.v ===== *)
(** * Telemetry ([telemetry/__init__.py], [telemetry/attributes])

    The instruments with their caches per configuration, the choice between a
    local instance and a telemetry server, and the attributes of the metrics.
    The OpenTelemetry SDK, the classes of exporters and the manager processes
    are interfaces. *)
From S2P Require Import Prelude PyDict Types Utils Json.

(** ** Definitions: attributes *)
(** Where the values come from: the environment variables, the host name and
    the fields of the current process and thread *)
Record environment := mkEnvironment {
  environ : gmap string string;
  gethostname : string;
  current_process : gmap string json;
  current_thread : gmap string json;
}.
Inductive AttributesProvider :=
  | EnvironmentVariablesAttributesProvider (variables : list (string * string))
  | HostAttributesProvider (keys : list string)
  | MSCConfigAttributesProvider (values : attributes)
  | ProcessAttributesProvider (fields : list (string * string))
  | StaticAttributesProvider (values : option attributes)
  | ThreadAttributesProvider (fields : list (string * string)).

(** The constructors: the enums have few values, and the expressions of a
    configuration are evaluated at once *)
Definition check_values (allowed : list string) (l : list (string * string)) : res (list (string * string)) :=
  if forallb (fun kv => bool_decide (kv.2 ∈ allowed)) l then Ok l else Err ValueError.
Definition new_host (l : list (string * string)) : res AttributesProvider :=
  res_bind (check_values ["name"] l) (fun l => Ok (HostAttributesProvider l.*1)).
Definition new_process (l : list (string * string)) : res AttributesProvider :=
  res_bind (check_values ["pid"] l) (fun l => Ok (ProcessAttributesProvider l)).
Definition new_thread (l : list (string * string)) : res AttributesProvider :=
  res_bind (check_values ["ident"; "native_id"] l) (fun l => Ok (ThreadAttributesProvider l)).
Fixpoint search_all (search : string -> res json) (l : list (string * string)) (m : attributes) : res attributes :=
  match l with
  | [] => Ok m
  | (k, e) :: l' => res_bind (search e) (fun v => search_all search l' (<[ k := v ]> m))
  end.
Definition new_msc_config (search : string -> res json) (l : list (string * string)) : res AttributesProvider :=
  res_bind (search_all search l ∅) (fun m => Ok (MSCConfigAttributesProvider m)).

(** [attributes]: fields that are missing are left out *)
Definition fields_of (fs : gmap string json) (l : list (string * string)) : attributes :=
  fold_left (fun m kv => match fs !! kv.2 with Some v => <[ kv.1 := v ]> m | None => m end) l ∅.
Definition environment_variables_attributes (l : list (string * string)) (env : environment) : attributes := fields_of (JStr <$> environ env) l.
Definition host_attributes (ks : list string) (env : environment) : attributes :=
  fold_left (fun m k => <[ k := JStr (gethostname env) ]> m) ks ∅.
Definition process_attributes (l : list (string * string)) (env : environment) : attributes := fields_of (current_process env) l.
Definition thread_attributes (l : list (string * string)) (env : environment) : attributes := fields_of (current_thread env) l.
Definition attributes_of (p : AttributesProvider) (env : environment) : option attributes :=
  match p with
  | EnvironmentVariablesAttributesProvider l => Some (environment_variables_attributes l env)
  | HostAttributesProvider ks => Some (host_attributes ks env)
  | MSCConfigAttributesProvider m => Some m
  | ProcessAttributesProvider l => Some (process_attributes l env)
  | StaticAttributesProvider m => m
  | ThreadAttributesProvider l => Some (thread_attributes l env)
  end.
(** [collect_attributes]: the value of the latest provider is kept *)
Definition collect_attributes (ps : list AttributesProvider) (env : environment) : attributes :=
  fold_left (fun m p => match attributes_of p env with Some a => a ∪ m | None => m end) ps ∅.

(** ** Definitions: instruments *)
Inductive GaugeName := LATENCY | DATA_SIZE | DATA_RATE.
Inductive CounterName := REQUEST_SUM | RESPONSE_SUM | DATA_SIZE_SUM.
Definition gauge_value (n : GaugeName) : string :=
  match n with LATENCY => "multistorageclient.latency" | DATA_SIZE => "multistorageclient.data_size" | DATA_RATE => "multistorageclient.data_rate" end.
Definition gauge_unit (n : GaugeName) : string := match n with LATENCY => "s" | DATA_SIZE => "By" | DATA_RATE => "By/s" end.
Definition counter_value (n : CounterName) : string :=
  match n with
  | REQUEST_SUM => "multistorageclient.request.sum"
  | RESPONSE_SUM => "multistorageclient.response.sum"
  | DATA_SIZE_SUM => "multistorageclient.data_size.sum"
  end.
Definition counter_unit (n : CounterName) : string :=
  match n with REQUEST_SUM => "{request}" | RESPONSE_SUM => "{response}" | DATA_SIZE_SUM => "By" end.
Definition all_gauges : list GaugeName := [LATENCY; DATA_SIZE; DATA_RATE].
Definition all_counters : list CounterName := [REQUEST_SUM; RESPONSE_SUM; DATA_SIZE_SUM].

(** The exporters that are known by a short name *)
Definition METRICS_EXPORTER_MAPPING : gmap string string := list_to_map
  [("console", "opentelemetry.sdk.metrics.export.ConsoleMetricExporter");
   ("otlp", "opentelemetry.exporter.otlp.proto.http.metric_exporter.OTLPMetricExporter");
   ("_otlp_msal", "multistorageclient.telemetry.metrics.exporters.otlp_msal._OTLPMSALMetricExporter");
   ("_otlp_mtls_vault", "multistorageclient.telemetry.metrics.exporters.otlp_mtls_vault._OTLPmTLSVaultMetricExporter")].
Definition TRACE_EXPORTER_MAPPING : gmap string string := list_to_map
  [("console", "opentelemetry.sdk.trace.export.ConsoleSpanExporter");
   ("otlp", "opentelemetry.exporter.otlp.proto.http.trace_exporter.OTLPSpanExporter");
   ("_otlp_msal", "multistorageclient.telemetry.traces.exporters.otlp_msal._OTLPMSALSpanExporter")].
(** [name.rsplit(".", 1)] unpacked into module and class *)
Definition split_class (s : string) : res (string * string) :=
  match reverse (split dot s) with
  | c :: (_ :: _) as rest => Ok (join "." (reverse (tail rest)), c)
  | _ => Err ValueError
  end.

(** The SDK: objects are numbered; a provider is made of the class of the
    exporter, its options and the options of the reader *)
Class Sdk (T : Type) := {
  sdk_meter_provider : string * string -> dict -> dict -> M T nat;
  sdk_get_meter : nat -> string -> M T nat;
  sdk_create_gauge : nat -> string -> string -> M T nat;
  sdk_create_counter : nat -> string -> string -> M T nat;
  sdk_tracer_provider : string * string -> dict -> M T nat;
  sdk_get_tracer : nat -> string -> M T nat;
}.

(** [Telemetry]: the caches, with the configuration as a sorted JSON string *)
Record telemetry := mkTelemetry {
  meter_provider_cache : gmap string nat;
  meter_cache : gmap string nat;
  gauge_cache : gmap (string * string) nat;
  counter_cache : gmap (string * string) nat;
  tracer_provider_cache : gmap string nat;
  tracer_cache : gmap string nat;
}.
Definition empty_telemetry : telemetry := mkTelemetry ∅ ∅ ∅ ∅ ∅ ∅.
(** [json.dumps(config, sort_keys=True)] *)
Fixpoint sort_keys (j : json) : json :=
  match j with
  | JList l => JList (map sort_keys l)
  | JDict d => JDict (sort_by (fun a b => str_leb a.1 b.1) (map (fun kv => (kv.1, sort_keys kv.2)) d))
  | _ => j
  end.
Definition config_json (d : dict) : string := dumps (sort_keys (JDict d)).
Definition as_dict (j : json) : res dict := match j with JDict d => Ok d | _ => Err AttributeError end.
(** [d.get(k, {})] of a dictionary *)
Definition get_dict (d : dict) (k : string) : res dict :=
  match dict_get d k with Some j => as_dict j | None => Ok [] end.
(** [d[k]] where a dictionary, or a string, is expected *)
Definition get_item (d : dict) (k : string) : res dict :=
  match dict_get d k with Some (JDict e) => Ok e | Some _ => Err TypeError | None => Err KeyError end.
Definition get_str (d : dict) (k : string) : res string :=
  match dict_get d k with Some (JStr s) => Ok s | Some _ => Err TypeError | None => Err KeyError end.

Section Instruments.
Context {T : Type} `{!Sdk T}.
Abbreviation MT := (M (telemetry * T)).
Definition on_sdk {A} (m : M T A) : MT A := fun '(t, x) => let '(r, x') := m x in (r, (t, x')).
Definition is_import_failure (e : exc) : bool := match e with AttributeError | ImportError => true | _ => false end.
(** The class of an exporter *)
Definition exporter_class (mapping : gmap string string) (ty : string) : res (string * string) :=
  split_class (default ty (mapping !! ty)).
(** [setdefault] on a cache *)
Definition cached (get : telemetry -> gmap string nat) (put : gmap string nat -> telemetry -> telemetry) (k : string)
    (make : MT (option nat)) : MT (option nat) :=
  fun s =>
  match get s.1 !! k with
  | Some v => (Ok (Some v), s)
  | None =>
      match make s with
      | (Ok (Some v), (t, x)) =>
          let v' := default v (get t !! k) in (Ok (Some v'), (put (<[ k := v' ]> (get t)) t, x))
      | r => r
      end
  end.
Definition put_meter_provider (m : gmap string nat) (t : telemetry) : telemetry :=
  mkTelemetry m (meter_cache t) (gauge_cache t) (counter_cache t) (tracer_provider_cache t) (tracer_cache t).
Definition put_meter (m : gmap string nat) (t : telemetry) : telemetry :=
  mkTelemetry (meter_provider_cache t) m (gauge_cache t) (counter_cache t) (tracer_provider_cache t) (tracer_cache t).
Definition put_tracer_provider (m : gmap string nat) (t : telemetry) : telemetry :=
  mkTelemetry (meter_provider_cache t) (meter_cache t) (gauge_cache t) (counter_cache t) m (tracer_cache t).
Definition put_tracer (m : gmap string nat) (t : telemetry) : telemetry :=
  mkTelemetry (meter_provider_cache t) (meter_cache t) (gauge_cache t) (counter_cache t) (tracer_provider_cache t) m.

Definition meter_provider (config : dict) : MT (option nat) :=
  cached meter_provider_cache put_meter_provider (config_json config)
    (if bool_decide (is_Some (dict_get config "exporter")) then
       mtry is_import_failure
         (let! e := mlift (get_item config "exporter") in
          let! ty := mlift (get_str e "type") in
          let! cls := mlift (exporter_class METRICS_EXPORTER_MAPPING ty) in
          let! options := mlift (get_dict e "options") in
          let! reader := mlift (res_bind (get_dict config "reader") (fun r => get_dict r "options")) in
          let! p := on_sdk (sdk_meter_provider cls options reader) in mret (Some p))
         (fun _ => mret None)
     else mret None).
Definition meter (config : dict) : MT (option nat) :=
  cached meter_cache put_meter (config_json config)
    (let! p := meter_provider config in
     match p with
     | None => mret None
     | Some p => let! m := on_sdk (sdk_get_meter p "multistorageclient") in mret (Some m)
     end).
Definition gauge (config : dict) (n : GaugeName) : MT (option nat) :=
  fun s =>
  let k := (config_json config, gauge_value n) in
  match gauge_cache s.1 !! k with
  | Some g => (Ok (Some g), s)
  | None =>
      (let! m := meter config in
       match m with
       | None => mret None
       | Some m =>
           let! g := on_sdk (sdk_create_gauge m (gauge_value n) (gauge_unit n)) in
           fun '(t, x) =>
             let g' := default g (gauge_cache t !! k) in
             (Ok (Some g'), (mkTelemetry (meter_provider_cache t) (meter_cache t) (<[ k := g' ]> (gauge_cache t)) (counter_cache t)
                              (tracer_provider_cache t) (tracer_cache t), x))
       end) s
  end.
Definition counter (config : dict) (n : CounterName) : MT (option nat) :=
  fun s =>
  let k := (config_json config, counter_value n) in
  match counter_cache s.1 !! k with
  | Some g => (Ok (Some g), s)
  | None =>
      (let! m := meter config in
       match m with
       | None => mret None
       | Some m =>
           let! g := on_sdk (sdk_create_counter m (counter_value n) (counter_unit n)) in
           fun '(t, x) =>
             let g' := default g (counter_cache t !! k) in
             (Ok (Some g'), (mkTelemetry (meter_provider_cache t) (meter_cache t) (gauge_cache t) (<[ k := g' ]> (counter_cache t))
                              (tracer_provider_cache t) (tracer_cache t), x))
       end) s
  end.
Definition tracer_provider (config : dict) : MT (option nat) :=
  cached tracer_provider_cache put_tracer_provider (config_json config)
    (if bool_decide (is_Some (dict_get config "exporter")) then
       mtry is_import_failure
         (let! e := mlift (get_item config "exporter") in
          let! ty := mlift (get_str e "type") in
          let! cls := mlift (exporter_class TRACE_EXPORTER_MAPPING ty) in
          let! options := mlift (get_dict e "options") in
          let! p := on_sdk (sdk_tracer_provider cls options) in mret (Some p))
         (fun _ => mret None)
     else mret None).
Definition tracer (config : dict) : MT (option nat) :=
  cached tracer_cache put_tracer (config_json config)
    (let! p := tracer_provider config in
     match p with
     | None => mret None
     | Some p => let! m := on_sdk (sdk_get_tracer p "multistorageclient") in mret (Some m)
     end).
End Instruments.

(** ** Definitions: the telemetry server *)
Inductive TelemetryMode := LOCAL | SERVER | CLIENT.
Inductive address := Path (s : string) | HostPort (host : string) (port : Z).
Definition mode_value (m : TelemetryMode) : string := match m with LOCAL => "local" | SERVER => "server" | CLIENT => "client" end.
Definition json_of_address (a : address) : json := match a with Path s => JStr s | HostPort h p => JList [JStr h; JInt p] end.
Definition telemetry_proxies_key (m : TelemetryMode) (a : address) : string :=
  config_json [("mode", JStr (mode_value m)); ("address", json_of_address a)].
Definition telemetry_manager_server_port (pid : Z) : Z := (2 ^ 15 + 2 ^ 14 + pid mod (2 ^ 16 - (2 ^ 15 + 2 ^ 14)))%Z.
Definition default_address (pid : Z) : address := HostPort "127.0.0.1" (telemetry_manager_server_port pid).
(** [address or default]: an empty path is no address *)
Definition address_or (a : option address) (d : address) : address :=
  match a with None | Some (Path "") => d | Some a => a end.

(** The process: whether multiprocessing started it, whether it is a daemon,
    and its identifier with those of its ancestors, from the nearest on *)
Record process := mkProcess { has_parent : bool; daemon : bool; pid : Z; parents : list Z }.
(** The instances: numbers stand for objects and proxies; [local] is the global
    [_TELEMETRY] *)
Record instances := mkInstances { local : option nat; proxies : gmap string nat; next_local : nat }.
(** Starting a server at an address, and connecting to one *)
Section Init.
Context {S : Type} (start : address -> M S unit) (connect : address -> M S nat).
Definition in_S {A} (m : M S A) : M (instances * S) A := fun '(i, s) => let '(r, s') := m s in (r, (i, s')).
Definition init_local : M (instances * S) nat :=
  fun '(i, s) =>
  match local i with
  | Some t => (Ok t, (i, s))
  | None => (Ok (next_local i), (mkInstances (Some (next_local i)) (proxies i) (Datatypes.S (next_local i)), s))
  end.
Definition set_proxy (k : string) (t : nat) : M (instances * S) nat :=
  fun '(i, s) => let t' := default t (proxies i !! k) in (Ok t', (mkInstances (local i) (<[ k := t' ]> (proxies i)) (next_local i), s)).
Definition init_server (p : process) (a : option address) : M (instances * S) nat :=
  let a := address_or a (default_address (pid p)) in
  let k := telemetry_proxies_key SERVER a in
  fun '(i, s) =>
  match proxies i !! k with
  | Some t => (Ok t, (i, s))
  | None => (in_S (start a) ;;; let! t := in_S (connect a) in set_proxy k t) (i, s)
  end.
Fixpoint try_connect (l : list address) : M (instances * S) nat :=
  match l with
  | [] => mraise ConnectionError
  | a :: l' =>
      let k := telemetry_proxies_key CLIENT a in
      fun '(i, s) =>
      match proxies i !! k with
      | Some t => (Ok t, (i, s))
      | None =>
          match in_S (connect a) (i, s) with
          | (Ok t, is') => set_proxy k t is'
          | (Err _, is') => try_connect l' is'
          end
      end
  end.
Definition candidate_addresses (p : process) (a : option address) : list address :=
  match a with Some a => [a] | None => map default_address (pid p :: parents p) end.
Definition init_client (p : process) (a : option address) : M (instances * S) nat := try_connect (candidate_addresses p a).
Definition is_ConnectionError (e : exc) : bool := match e with ConnectionError | BrokenPipeError => true | _ => false end.
(** [init] *)
Definition init (p : process) (mode : option TelemetryMode) (a : option address) : M (instances * S) nat :=
  match mode with
  | None =>
      if negb (has_parent p) then (if daemon p then init_local else init_server p a)
      else mtry is_ConnectionError (init_client p a) (fun _ => if daemon p then init_local else init_server p a)
  | Some LOCAL => init_local
  | Some SERVER => init_server p a
  | Some CLIENT => init_client p a
  end.
End Init.

(** ** Attributes: later providers win *)
Lemma collect_attributes_app ps qs env : collect_attributes (ps ++ qs) env = collect_attributes qs env ∪ collect_attributes ps env.
Proof.
  unfold collect_attributes. rewrite fold_left_app. generalize (fold_left (fun (m : attributes) p => match attributes_of p env with Some a => a ∪ m | None => m end) ps ∅).
  induction qs as [|q qs IH] using rev_ind; intros m; cbn; [by rewrite (left_id_L ∅ (∪))|].
  rewrite !fold_left_app. cbn. rewrite IH. destruct (attributes_of q env); [by rewrite (assoc_L (∪))|done].
Qed.
(** A key that a provider gives and no later one gives has that provider's
    value. *)
Theorem latest_attribute_kept (ps qs : list AttributesProvider) (p : AttributesProvider) (env : environment) (a : attributes) (k : string) (v : json)
    (Hp : attributes_of p env = Some a) (Hk : a !! k = Some v)
    (Hlater : Forall (fun q => forall b, attributes_of q env = Some b -> b !! k = None) qs) :
  collect_attributes (ps ++ p :: qs) env !! k = Some v.
Proof.
  change (p :: qs) with ([p] ++ qs). rewrite !collect_attributes_app.
  assert (collect_attributes qs env !! k = None) as Hq.
  { induction Hlater as [|q qs Hq _ IH]; [done|]. change (q :: qs) with ([q] ++ qs). rewrite collect_attributes_app.
    rewrite lookup_union, IH. unfold collect_attributes. cbn. destruct (attributes_of q env) as [b|]; [|done].
    rewrite (right_id_L ∅ (∪)). by rewrite Hq. }
  rewrite !lookup_union, Hq. unfold collect_attributes at 1. cbn. rewrite Hp, (right_id_L ∅ (∪)), Hk. by destruct (collect_attributes ps env !! k).
Qed.
Lemma latest_attribute_kept_witness :
  collect_attributes [StaticAttributesProvider (Some {["k" := JInt 1]}); StaticAttributesProvider (Some {["k" := JInt 2]}); StaticAttributesProvider None]
    (mkEnvironment ∅ "h" ∅ ∅) !! "k" = Some (JInt 2).
Proof.
  apply (latest_attribute_kept [StaticAttributesProvider (Some {["k" := JInt 1]})] [StaticAttributesProvider None]
    (StaticAttributesProvider (Some {["k" := JInt 2]})) (mkEnvironment ∅ "h" ∅ ∅) {["k" := JInt 2]}).
  - reflexivity.
  - reflexivity.
  - constructor; [discriminate|constructor].
Defined.

(** ** Ports *)
(** The default port is in the dynamic range, for every process identifier. *)
Theorem server_port_dynamic (pid : Z) : (49152 <= telemetry_manager_server_port pid < 65536)%Z.
Proof. unfold telemetry_manager_server_port. pose proof (Z.mod_pos_bound pid (2 ^ 16 - (2 ^ 15 + 2 ^ 14))). lia. Qed.
(** Independent interpreters whose identifiers differ by a multiple of the size
    of the range share a port. *)
Theorem server_ports_collide (pid : Z) : telemetry_manager_server_port (pid + 16384) = telemetry_manager_server_port pid.
Proof. unfold telemetry_manager_server_port. change (2 ^ 16 - (2 ^ 15 + 2 ^ 14))%Z with 16384%Z. f_equal. rewrite <- (Z.mul_1_l 16384) at 1. by rewrite Z_mod_plus_full. Qed.

(** ** One object per configuration *)
Section Stable.
Context {T : Type} `{!Sdk T}.
Inductive call :=
  | CMeterProvider (config : dict) | CMeter (config : dict) | CGauge (config : dict) (n : GaugeName) | CCounter (config : dict) (n : CounterName)
  | CTracerProvider (config : dict) | CTracer (config : dict).
Definition do_call (c : call) : M (telemetry * T) (option nat) :=
  match c with
  | CMeterProvider d => meter_provider d | CMeter d => meter d | CGauge d n => gauge d n | CCounter d n => counter d n
  | CTracerProvider d => tracer_provider d | CTracer d => tracer d
  end.
Definition cache_lookup (c : call) (t : telemetry) : option nat :=
  match c with
  | CMeterProvider d => meter_provider_cache t !! config_json d
  | CMeter d => meter_cache t !! config_json d
  | CGauge d n => gauge_cache t !! (config_json d, gauge_value n)
  | CCounter d n => counter_cache t !! (config_json d, counter_value n)
  | CTracerProvider d => tracer_provider_cache t !! config_json d
  | CTracer d => tracer_cache t !! config_json d
  end.
(** Nothing is replaced or forgotten *)
Definition mono {A} (m : M (telemetry * T) A) : Prop := forall s c v, cache_lookup c s.1 = Some v -> cache_lookup c (m s).2.1 = Some v.
Lemma mono_ret {A} (a : A) : mono (mret a).
Proof. by intros s c v. Qed.
Lemma mono_lift {A} (r : res A) : mono (mlift r).
Proof. by intros s c v. Qed.
Lemma mono_bind {A B} (m : M (telemetry * T) A) (k : A -> M (telemetry * T) B) : mono m -> (forall a, mono (k a)) -> mono (mbind m k).
Proof. intros Hm Hk s c v H. unfold mbind. specialize (Hm s c v H). destruct (m s) as [[a|e] s1]; [by apply Hk|done]. Qed.
Lemma mono_try {A} catches (m : M (telemetry * T) A) h : mono m -> (forall e, mono (h e)) -> mono (mtry catches m h).
Proof. intros Hm Hh s c v H. unfold mtry. specialize (Hm s c v H). destruct (m s) as [[a|e] s1]; [done|]. destruct (catches e); [by apply Hh|done]. Qed.
Lemma mono_sdk {A} (m : M T A) : mono (on_sdk m).
Proof. intros [t x] c v H. cbn. by destruct (m x). Qed.
Lemma mono_cached get put k (make : M (telemetry * T) (option nat)) :
  (forall c t v, let t' := put (<[ k := default v (get t !! k) ]> (get t)) t in forall w, cache_lookup c t = Some w -> cache_lookup c t' = Some w) ->
  mono make -> mono (cached get put k make).
Proof.
  intros Hput Hm s c v H. unfold cached. destruct (get s.1 !! k); [done|]. specialize (Hm s c v H).
  destruct (make s) as [[[u|]|e] [t x]]; [|done|done]. by apply Hput.
Qed.
Lemma insert_default_kept {K} `{Countable K} (m : gmap K nat) k v k' w : m !! k' = Some w -> <[ k := default v (m !! k) ]> m !! k' = Some w.
Proof. intros E. destruct (decide (k' = k)) as [->|Hne]; [by rewrite E, lookup_insert_eq|by rewrite lookup_insert_ne]. Qed.
Ltac mono_step := repeat (intros; first
  [ apply mono_bind | apply mono_try | apply mono_ret | apply mono_lift | apply mono_sdk
  | match goal with |- mono (match ?x with _ => _ end) => destruct x end ]).
Lemma mono_meter_provider d : mono (meter_provider d).
Proof. apply mono_cached; [intros [] t v t' w; try done; apply insert_default_kept|mono_step]. Qed.
Lemma mono_meter d : mono (meter d).
Proof.
  apply mono_cached; [intros [] t v t' w; try done; apply insert_default_kept|].
  apply mono_bind; [apply mono_meter_provider|mono_step].
Qed.
Lemma mono_gauge d n : mono (gauge d n).
Proof.
  intros s c v H. unfold gauge. destruct (gauge_cache s.1 !! _); [done|]. revert s c v H.
  apply mono_bind; [apply mono_meter|]. intros [m|]; [|apply mono_ret]. apply mono_bind; [apply mono_sdk|].
  intros g [t x] c v. destruct c; try done. apply insert_default_kept.
Qed.
Lemma mono_counter d n : mono (counter d n).
Proof.
  intros s c v H. unfold counter. destruct (counter_cache s.1 !! _); [done|]. revert s c v H.
  apply mono_bind; [apply mono_meter|]. intros [m|]; [|apply mono_ret]. apply mono_bind; [apply mono_sdk|].
  intros g [t x] c v. destruct c; try done. apply insert_default_kept.
Qed.
Lemma mono_tracer_provider d : mono (tracer_provider d).
Proof. apply mono_cached; [intros [] t v t' w; try done; apply insert_default_kept|mono_step]. Qed.
Lemma mono_tracer d : mono (tracer d).
Proof.
  apply mono_cached; [intros [] t v t' w; try done; apply insert_default_kept|].
  apply mono_bind; [apply mono_tracer_provider|mono_step].
Qed.
Lemma mono_call c : mono (do_call c).
Proof.
  destruct c; [apply mono_meter_provider|apply mono_meter|apply mono_gauge|apply mono_counter|apply mono_tracer_provider|apply mono_tracer].
Qed.

(** What a call returned is in its cache, and what is there is returned *)
Lemma cached_stored get put k (make : M (telemetry * T) (option nat)) s v s1 :
  (forall m t, get (put m t) = m) -> cached get put k make s = (Ok (Some v), s1) -> get s1.1 !! k = Some v.
Proof.
  intros Hput. unfold cached. destruct (get s.1 !! k) eqn:E; [by intros [= <- <-]|].
  destruct (make s) as [[[u|]|e] [t x]]; [|done|done]. intros [= <- <-]. cbn [fst]. by rewrite Hput, lookup_insert_eq.
Qed.
Lemma call_stored c s v s1 : do_call c s = (Ok (Some v), s1) -> cache_lookup c s1.1 = Some v.
Proof.
  destruct c; try by apply cached_stored.
  - cbn [do_call cache_lookup]. unfold gauge. destruct (gauge_cache s.1 !! _) eqn:E; [by intros [= <- <-]|]. unfold mbind, on_sdk.
    destruct (meter config s) as [[[m|]|e] [t x]]; [|done|done]. destruct (sdk_create_gauge _ _ _ x) as [[g|e] x']; [|done].
    intros [= <- <-]. cbn. by rewrite lookup_insert_eq.
  - cbn [do_call cache_lookup]. unfold counter. destruct (counter_cache s.1 !! _) eqn:E; [by intros [= <- <-]|]. unfold mbind, on_sdk.
    destruct (meter config s) as [[[m|]|e] [t x]]; [|done|done]. destruct (sdk_create_counter _ _ _ x) as [[g|e] x']; [|done].
    intros [= <- <-]. cbn. by rewrite lookup_insert_eq.
Qed.
Lemma call_returns_cached c s v : cache_lookup c s.1 = Some v -> do_call c s = (Ok (Some v), s).
Proof.
  destruct c; cbn [do_call cache_lookup]; intros H; unfold meter_provider, meter, gauge, counter, tracer_provider, tracer, cached; by rewrite H.
Qed.
Definition run_calls (cs : list call) (s : telemetry * T) : telemetry * T := fold_left (fun s c => (do_call c s).2) cs s.
End Stable.

(** Instruments, meters and tracers are shared: once a call has returned an
    object for a configuration, the same call returns the same object, without
    calling the SDK again, whatever else was asked for in between. *)
Theorem instruments_shared {T : Type} `{!Sdk T} (c : call) (cs : list call) (s s1 : telemetry * T) (v : nat)
    (Hcall : do_call c s = (Ok (Some v), s1)) :
  do_call c (run_calls cs s1) = (Ok (Some v), run_calls cs s1).
Proof.
  apply call_returns_cached. apply call_stored in Hcall. revert s1 Hcall. unfold run_calls.
  induction cs as [|c' cs IH]; intros s1 H; cbn [fold_left]; [done|]. by apply IH, mono_call.
Qed.
#[export] Instance counting_sdk : Sdk nat := {
  sdk_meter_provider _ _ _ n := (Ok n, S n);
  sdk_get_meter _ _ n := (Ok n, S n);
  sdk_create_gauge _ _ _ n := (Ok n, S n);
  sdk_create_counter _ _ _ n := (Ok n, S n);
  sdk_tracer_provider _ _ n := (Ok n, S n);
  sdk_get_tracer _ _ n := (Ok n, S n);
}.
Definition console_config : dict := [("exporter", JDict [("type", JStr "console")])].
Definition after_latency : telemetry * nat := (do_call (CGauge console_config LATENCY) (empty_telemetry, 0)).2.
Lemma instruments_shared_witness :
  do_call (CGauge console_config LATENCY) (run_calls [CGauge console_config DATA_RATE; CCounter console_config REQUEST_SUM] after_latency)
  = (Ok (Some 2), run_calls [CGauge console_config DATA_RATE; CCounter console_config REQUEST_SUM] after_latency).
Proof.
  apply (instruments_shared (CGauge console_config LATENCY) _ (empty_telemetry, 0) after_latency). vm_compute. reflexivity.
Defined.

(** ** The choice of the server *)
Section Choice.
Context {S : Type} (start : address -> M S unit) (connect : address -> M S nat).
(** A child process uses the nearest ancestor that has a server: one it knows
    already, or one it can connect to. *)
Theorem nearest_server_chosen (l1 l2 : list address) (a : address) (i : instances) (s : S) (t : nat)
    (Hnone : Forall (fun b => proxies i !! telemetry_proxies_key CLIENT b = None /\ exists e, connect b s = (Err e, s)) l1)
    (Hfound : proxies i !! telemetry_proxies_key CLIENT a = Some t \/
              proxies i !! telemetry_proxies_key CLIENT a = None /\ connect a s = (Ok t, s)) :
  exists i', try_connect connect (l1 ++ a :: l2) (i, s) = (Ok t, (i', s)) /\ proxies i' !! telemetry_proxies_key CLIENT a = Some t.
Proof.
  induction Hnone as [|b l1 [Hb [e He]] _ IH]; cbn [app try_connect].
  - destruct Hfound as [H|[H Hc]]; rewrite H; [by exists i|]. unfold in_S. rewrite Hc. unfold set_proxy. rewrite H.
    eexists. split; [reflexivity|]. cbn. by rewrite lookup_insert_eq.
  - rewrite Hb. unfold in_S. rewrite He. exact IH.
Qed.
End Choice.
Definition no_instances : instances := mkInstances None ∅ 0.
(** Only the server of the grandparent is reachable *)
Definition grandparent_only (a : address) (s : unit) : res nat * unit := (if decide (json_of_address a = json_of_address (default_address 7)) then Ok 1 else Err ConnectionError, s).
Lemma nearest_server_chosen_witness :
  exists i', try_connect grandparent_only (candidate_addresses (mkProcess true false 9 [8; 7; 1]%Z) None) (no_instances, tt) = (Ok 1, (i', tt)) /\
    proxies i' !! telemetry_proxies_key CLIENT (default_address 7) = Some 1.
Proof.
  apply (nearest_server_chosen grandparent_only [default_address 9; default_address 8] [default_address 1] (default_address 7) no_instances tt 1).
  - repeat (constructor; [split; [reflexivity|exists ConnectionError; reflexivity]|]). constructor.
  - right. split; reflexivity.
Defined.
