(* ===== verification/MetricReader.v ===== *)
(** * The metric reader ([telemetry/metrics/readers/diperiodic_exporting.py])

    A reader that collects and exports on separate intervals: one daemon
    appends what is collected to a buffer, another takes the buffer and hands
    it to the exporter.  The daemons, callers of [force_flush] and the caller
    of [shutdown] interleave as a step relation whose steps are the sections
    of code under the locks. *)
From S2P Require Import Prelude Types Utils.

(** ** Definitions: the intervals *)
Definition DEFAULT_COLLECT_INTERVAL_MILLIS : Z := 1000.
Definition DEFAULT_COLLECT_TIMEOUT_MILLIS : Z := 10000.
Definition DEFAULT_EXPORT_INTERVAL_MILLIS : Z := 60000.
Definition DEFAULT_EXPORT_TIMEOUT_MILLIS : Z := 30000.
(** A time in milliseconds: a number or infinity *)
Inductive millis := Millis (z : Z) | Infinity.
Record intervals := mkIntervals { collect_interval : millis; collect_timeout : millis; export_interval : millis; export_timeout : millis }.
(** [float(os.environ.get(name, default))] with its fallback; [parse] is [float] *)
Definition from_environ (parse : string -> option millis) (variable : option string) (d : Z) : millis :=
  match variable with Some s => default (Millis d) (parse s) | None => Millis d end.
Definition in_range_millis (m : millis) : bool := match m with Millis z => (0 <? z)%Z | Infinity => false end.
(** [__init__] *)
Definition make_intervals (parse : string -> option millis) (interval_variable timeout_variable : option string)
    (ci ct ei et : option millis) : res intervals :=
  let i := mkIntervals (default (Millis DEFAULT_COLLECT_INTERVAL_MILLIS) ci) (default (Millis DEFAULT_COLLECT_TIMEOUT_MILLIS) ct)
    (default (from_environ parse interval_variable DEFAULT_EXPORT_INTERVAL_MILLIS) ei)
    (default (from_environ parse timeout_variable DEFAULT_EXPORT_TIMEOUT_MILLIS) et) in
  if in_range_millis (collect_interval i) && in_range_millis (export_interval i) then Ok i else Err ValueError.
(** [timeout_millis or self._timeout] *)
Definition timeout_or (t : option millis) (d : millis) : millis :=
  match t with None | Some (Millis 0) => d | Some t => t end.

(** ** Definitions: the buffers *)
Section Reader.
Context {A : Type}.
(** What became of metrics that left the buffers *)
Inductive fate := Exported | Lost.
Record reader := mkReader {
  collect_buffer : option (list A);
  export_buffer : option (list A);
  (** the export lock is held *)
  exporting : bool;
  exporter_down : bool;
  shutdown_event : bool;
  (** what was collected, and what the exporter was given, in order *)
  received : list A;
  handled : list (fate * A);
}.
Definition new_reader : reader := mkReader None None false false false [] [].
Definition buffered (b : option (list A)) : list A := default [] b.

(** [_receive_metrics] *)
Definition receive_metrics (l : list A) (r : reader) : reader :=
  mkReader (Some (buffered (collect_buffer r) ++ l)) (export_buffer r) (exporting r) (exporter_down r) (shutdown_event r)
    (received r ++ l) (handled r).
(** [_collect_iteration]: an exception of the collection is logged *)
Definition collect_iteration (collected : res (list A)) (r : reader) : reader :=
  match collected with Ok l => receive_metrics l r | Err _ => r end.
(** The two halves of [_export_iteration]: the buffers rotate under both locks;
    the exporter runs under the export lock *)
Definition rotate (r : reader) : reader :=
  mkReader None (collect_buffer r) true (exporter_down r) (shutdown_event r) (received r) (handled r).
Definition finish_export (outcome : res unit) (r : reader) : reader :=
  match export_buffer r with
  | None => mkReader (collect_buffer r) None false (exporter_down r) (shutdown_event r) (received r) (handled r)
  | Some l =>
      let f := match outcome with Ok _ => Exported | Err _ => Lost end in
      mkReader (collect_buffer r) None false (exporter_down r) (shutdown_event r) (received r) (handled r ++ map (pair f) l)
  end.
Definition export_iteration (outcome : res unit) (r : reader) : reader := finish_export outcome (rotate r).
(** [force_flush] *)
Definition force_flush (collected : res (list A)) (outcome flushed : res unit) (r : reader) : res unit * reader :=
  match collected with
  | Err e => (Err e, r)
  | Ok l => (flushed, export_iteration outcome (receive_metrics l r))
  end.
(** [_init_daemons], in a forked process as well *)
Definition init_daemons (r : reader) : reader :=
  mkReader None None false (exporter_down r) (shutdown_event r) [] [].
(** A forked process has the locks as they were and no thread to release them:
    [None] if it waits for the export lock for ever *)
Definition fork_child (r : reader) : option reader := if exporting r then None else Some (init_daemons r).
Definition set_exporter_down (r : reader) : reader :=
  mkReader (collect_buffer r) (export_buffer r) (exporting r) true (shutdown_event r) (received r) (handled r).
Definition set_shutdown_event (r : reader) : reader :=
  mkReader (collect_buffer r) (export_buffer r) (exporting r) (exporter_down r) true (received r) (handled r).

(** ** Definitions: the threads *)
(** The collect daemon; the export daemon, which collects and exports once more
    when it ends; the caller of [shutdown], which joins both, shuts the
    exporter down and sets the event *)
Inductive collector := CWaiting | CEnded.
Inductive exporter := EWaiting | EExporting | EFinalCollect | EFinalRotate | EFinalExport | EEnded.
Inductive closer := SIdle | SJoinCollect | SJoinExport | SExporter | SEvent | SDone.
(** A caller of [force_flush] that has collected, and one that exports *)
Inductive flusher := FRotate | FExport.
Record threads := mkThreads { state : reader; col : collector; expo : exporter; clos : closer; flushers : list flusher }.
Definition initial_threads : threads := mkThreads new_reader CWaiting EWaiting SIdle [].
Inductive thread_step : threads -> threads -> Prop :=
  (** the collect daemon *)
  | ts_collect r e c fs collected : shutdown_event r = false -> thread_step (mkThreads r CWaiting e c fs) (mkThreads (collect_iteration collected r) CWaiting e c fs)
  | ts_collect_end r e c fs : shutdown_event r = true -> thread_step (mkThreads r CWaiting e c fs) (mkThreads r CEnded e c fs)
  (** the export daemon *)
  | ts_rotate r k c fs : shutdown_event r = false -> exporting r = false -> thread_step (mkThreads r k EWaiting c fs) (mkThreads (rotate r) k EExporting c fs)
  | ts_export r k c fs outcome : thread_step (mkThreads r k EExporting c fs) (mkThreads (finish_export outcome r) k EWaiting c fs)
  | ts_event r k c fs : shutdown_event r = true -> thread_step (mkThreads r k EWaiting c fs) (mkThreads r k EFinalCollect c fs)
  | ts_final_collect r k c fs collected : thread_step (mkThreads r k EFinalCollect c fs) (mkThreads (collect_iteration collected r) k EFinalRotate c fs)
  | ts_final_rotate r k c fs : exporting r = false -> thread_step (mkThreads r k EFinalRotate c fs) (mkThreads (rotate r) k EFinalExport c fs)
  | ts_final_export r k c fs outcome : thread_step (mkThreads r k EFinalExport c fs) (mkThreads (finish_export outcome r) k EEnded c fs)
  (** [force_flush] of other threads: each collects, rotates the buffers and
      exports; a collection that raises ends it *)
  | ts_flush_collect r k e c fs l : thread_step (mkThreads r k e c fs) (mkThreads (receive_metrics l r) k e c (fs ++ [FRotate]))
  | ts_flush_rotate r k e c fs i : fs !! i = Some FRotate -> exporting r = false ->
      thread_step (mkThreads r k e c fs) (mkThreads (rotate r) k e c (<[i := FExport]> fs))
  | ts_flush_export r k e c fs i outcome : fs !! i = Some FExport ->
      thread_step (mkThreads r k e c fs) (mkThreads (finish_export outcome r) k e c (delete i fs))
  (** [shutdown]: a join returns when the thread has ended or its time is over *)
  | ts_shutdown r k e fs : thread_step (mkThreads r k e SIdle fs) (mkThreads r k e (if shutdown_event r then SDone else SJoinCollect) fs)
  | ts_join_collect r k e fs : thread_step (mkThreads r k e SJoinCollect fs) (mkThreads r k e SJoinExport fs)
  | ts_join_export r k e fs : thread_step (mkThreads r k e SJoinExport fs) (mkThreads r k e SExporter fs)
  | ts_exporter r k e fs : thread_step (mkThreads r k e SExporter fs) (mkThreads (set_exporter_down r) k e SEvent fs)
  | ts_set r k e fs : thread_step (mkThreads r k e SEvent fs) (mkThreads (set_shutdown_event r) k e SDone fs).
(** A flush that is not interrupted is [force_flush]. *)
Lemma flush_alone r k e c l outcome :
  exporting r = false ->
  rtc thread_step (mkThreads r k e c []) (mkThreads (force_flush (Ok l) outcome (Ok tt) r).2 k e c []).
Proof.
  intros He. eapply rtc_l; [by apply (ts_flush_collect r k e c [] l)|].
  eapply rtc_l; [by apply (ts_flush_rotate _ k e c [FRotate] 0)|]. apply rtc_once. by apply (ts_flush_export _ k e c [FExport] 0).
Qed.

(** ** Nothing is exported twice *)
Definition accounted (r : reader) : Prop :=
  received r = map snd (handled r) ++ buffered (export_buffer r) ++ buffered (collect_buffer r) /\
  (exporting r = false -> export_buffer r = None).
Lemma receive_accounted l r : accounted r -> accounted (receive_metrics l r).
Proof. intros [H1 H2]. split; [cbn; by rewrite H1, <- !app_assoc|done]. Qed.
Lemma collect_accounted c r : accounted r -> accounted (collect_iteration c r).
Proof. destruct c; [apply receive_accounted|done]. Qed.
Lemma rotate_accounted r : exporting r = false -> accounted r -> accounted (rotate r).
Proof. intros He [H1 H2]. split; [|done]. cbn. by rewrite H1, H2, app_nil_r. Qed.
Lemma finish_accounted o r : accounted r -> accounted (finish_export o r).
Proof.
  intros [H1 H2]. unfold finish_export. destruct (export_buffer r) as [l|] eqn:E; split; try done; cbn in *.
  rewrite H1, List.map_app, map_map. cbn. by rewrite map_id, <- app_assoc.
Qed.
Lemma step_accounted s s' : thread_step s s' -> accounted (state s) -> accounted (state s').
Proof.
  destruct 1; cbn [state]; intros Ha; try done;
    first [by apply collect_accounted | by apply receive_accounted | by apply rotate_accounted | by apply finish_accounted].
Qed.
End Reader.

(** C29: every metric that is collected is given to the exporter at most once
    and in the order of collection: in every state that the daemons, flushes
    and a shutdown can reach, what was received is what was exported or
    reported as lost, then what is being exported, then what is buffered. *)
Theorem metrics_exported_once {A : Type} (s : threads (A := A)) (Hreach : rtc thread_step initial_threads s) :
  received (state s) = map snd (handled (state s)) ++ buffered (export_buffer (state s)) ++ buffered (collect_buffer (state s)).
Proof.
  assert (forall x y : threads (A := A), rtc thread_step x y -> accounted (state x) -> accounted (state y)) as H.
  { intros x y Hxy. induction Hxy as [|x y z Hxy _ IH]; [done|]. intros Hx. by eapply IH, step_accounted. }
  by destruct (H _ _ Hreach).
Qed.
(** A metric is collected between the collection and the rotation of a flush,
    and another while it exports. *)
Definition flushed : threads (A := nat) :=
  mkThreads (finish_export (Ok tt) (receive_metrics [4] (rotate (receive_metrics [3] (receive_metrics [2] (receive_metrics [1] new_reader))))))
    CWaiting EWaiting SIdle [].
Lemma metrics_exported_once_witness :
  received (state flushed) = map snd (handled (state flushed)) ++ buffered (export_buffer (state flushed)) ++ buffered (collect_buffer (state flushed)) /\
  handled (state flushed) = [(Exported, 1); (Exported, 2); (Exported, 3)].
Proof.
  split; [|reflexivity]. apply (metrics_exported_once flushed).
  eapply rtc_l; [apply (ts_collect _ _ _ _ (Ok [1])); reflexivity|].
  eapply rtc_l; [apply (ts_flush_collect _ _ _ _ _ [2])|].
  eapply rtc_l; [apply (ts_collect _ _ _ _ (Ok [3])); reflexivity|].
  eapply rtc_l; [apply (ts_flush_rotate _ _ _ _ [FRotate] 0); reflexivity|].
  eapply rtc_l; [apply (ts_collect _ _ _ _ (Ok [4])); reflexivity|].
  eapply rtc_l; [apply (ts_flush_export _ _ _ _ [FExport] 0 (Ok tt)); reflexivity|]. apply rtc_refl.
Defined.

(** A flush leaves nothing buffered. *)
Theorem force_flush_empties {A : Type} (l : list A) (outcome : res unit) (r : reader) :
  exists r', force_flush (Ok l) outcome (Ok tt) r = (Ok tt, r') /\ collect_buffer r' = None /\ export_buffer r' = None /\
    handled r' = handled r ++ map (pair (if is_ok outcome then Exported else Lost)) (buffered (collect_buffer r) ++ l).
Proof. eexists. split; [reflexivity|]. by destruct outcome. Qed.

(** ** Shutdown *)
Definition is_final (e : exporter) : bool := match e with EWaiting | EExporting => false | _ => true end.
Record closing {A} (s : threads (A := A)) : Prop := {
  cl_event : shutdown_event (state s) = true -> exporter_down (state s) = true;
  cl_final : is_final (expo s) = true -> shutdown_event (state s) = true;
  cl_ended : col s = CEnded -> shutdown_event (state s) = true;
  cl_joining : clos s = SJoinCollect \/ clos s = SJoinExport \/ clos s = SExporter \/ clos s = SEvent -> shutdown_event (state s) = false;
  cl_set : clos s = SEvent -> exporter_down (state s) = true;
}.
Lemma collect_event {A} c (r : reader (A := A)) : shutdown_event (collect_iteration c r) = shutdown_event r.
Proof. by destruct c. Qed.
Lemma collect_down {A} c (r : reader (A := A)) : exporter_down (collect_iteration c r) = exporter_down r.
Proof. by destruct c. Qed.
Lemma finish_event {A} o (r : reader (A := A)) : shutdown_event (finish_export o r) = shutdown_event r.
Proof. unfold finish_export. by destruct (export_buffer r). Qed.
Lemma finish_down {A} o (r : reader (A := A)) : exporter_down (finish_export o r) = exporter_down r.
Proof. unfold finish_export. by destruct (export_buffer r). Qed.
Lemma step_closing {A} (s s' : threads (A := A)) : thread_step s s' -> closing s -> closing s'.
Proof.
  intros Hstep [H1 H2 H3 H4 H5]. destruct Hstep; cbn [state col expo clos is_final] in *;
    split; cbn [state col expo clos is_final]; rewrite ?collect_event, ?collect_down, ?finish_event, ?finish_down;
    cbn [shutdown_event exporter_down rotate receive_metrics set_exporter_down set_shutdown_event];
    try destruct (shutdown_event r); naive_solver.
Qed.
(** [shutdown] waits for daemons that it has not told to end: while it joins
    them both are running, and the last collection and export of the export
    daemon happen after the exporter was shut down. *)
Theorem final_export_after_exporter_shutdown {A : Type} (s : threads (A := A)) (Hreach : rtc thread_step initial_threads s) :
  (clos s = SJoinCollect \/ clos s = SJoinExport -> col s = CWaiting /\ is_final (expo s) = false) /\
  (is_final (expo s) = true -> exporter_down (state s) = true).
Proof.
  assert (forall x y : threads (A := A), rtc thread_step x y -> closing x -> closing y) as H.
  { intros x y Hxy. induction Hxy as [|x y z Hxy _ IH]; [done|]. intros Hx. by eapply IH, step_closing. }
  destruct (H _ _ Hreach) as [H1 H2 H3 H4 H5]; [by split; cbn; naive_solver|]. split; [|by auto].
  intros Hj. assert (shutdown_event (state s) = false) as He by naive_solver. split.
  - destruct (col s); [done|]. naive_solver congruence.
  - destruct (is_final (expo s)); [|done]. naive_solver congruence.
Qed.
Definition joining : threads (A := nat) := mkThreads new_reader CWaiting EWaiting SJoinCollect [].
Lemma final_export_after_exporter_shutdown_witness :
  (clos joining = SJoinCollect \/ clos joining = SJoinExport -> col joining = CWaiting /\ is_final (expo joining) = false) /\
  (is_final (expo joining) = true -> exporter_down (state joining) = true).
Proof.
  apply (final_export_after_exporter_shutdown joining). eapply rtc_l; [apply (ts_shutdown new_reader)|]. apply rtc_refl.
Defined.

(** ** Forking *)
(** A process forked while the export daemon exports waits for ever. *)
Theorem fork_while_exporting_blocks : exists s : threads (A := nat), rtc thread_step initial_threads s /\ fork_child (state s) = None.
Proof.
  exists (mkThreads (rotate new_reader) CWaiting EExporting SIdle []). split; [|done].
  eapply rtc_l; [apply (ts_rotate new_reader); done|]. apply rtc_refl.
Qed.
