(* ===== verification/Certificates.v ===== *)
(** * Certificates and tokens of the exporters ([instrumentation/auth.py])

    The certificates that are fetched from a vault and kept on disk for all
    processes of the machine, and the access tokens.  The vault, the parser of
    certificates, the hash and the identity provider are parameters.  The
    changes of the disk are a list of writes and removals, so that a process
    can end between any two of them, or within one. *)
From S2P Require Import Prelude PyDict Types Utils Json Telemetry.

(** ** Definitions: retries *)
Definition MAX_RETRIES : nat := 5.
(** [min(BACKOFF_FACTOR * 2**retry_count, 60)] seconds, in halves *)
Definition backoff (retry_count : nat) : Z := Z.min (2 ^ Z.of_nat retry_count) 120.
Section Loops.
Context {W A : Type} (sleep : Z -> W -> W).
(** The loops of [_authenticate_to_vault] and [_fetch_certificates_from_vault] *)
Fixpoint retry_loop (left retry_count : nat) (f : M W A) : M W A :=
  match left with
  | 0 => mraise RuntimeError
  | S left' =>
      fun w =>
      match f w with
      | (Ok a, w') => (Ok a, w')
      | (Err _, w') =>
          let n := S retry_count in
          retry_loop left' n f (if (n <? MAX_RETRIES)%nat then sleep (backoff n) w' else w')
      end
  end.
(** [AzureAccessTokenProvider.get_token]: only connection errors are retried,
    and every failure is [None] *)
Context (is_connection_error : exc -> bool).
Fixpoint token_loop (left retry_count : nat) (acquire : M W (option A)) : W -> option A * W :=
  match left with
  | 0 => fun w => (None, w)
  | S left' =>
      fun w =>
      match acquire w with
      | (Ok t, w') => (t, w')
      | (Err e, w') =>
          if is_connection_error e then
            let n := S retry_count in
            token_loop left' n acquire (if (n <? MAX_RETRIES)%nat then sleep (backoff n) w' else w')
          else (None, w')
      end
  end.
End Loops.

(** ** Definitions: [VaultCertificateProvider] *)
Record vault_config := mkVaultConfig {
  vault_endpoint : string; vault_namespace : string; approle_id : string; approle_secret : string;
  mount_point : string; secret_path : string; cert_key : string; key_key : string; ca_key : string;
}.
(** [_compute_config_fingerprint]; [sha256] is the hexadecimal digest *)
Definition compute_config_fingerprint (sha256 : string -> string) (c : vault_config) : string :=
  sha256 (config_json [("vault_endpoint", JStr (vault_endpoint c)); ("vault_namespace", JStr (vault_namespace c)); ("approle_id", JStr (approle_id c));
    ("approle_secret", JStr (approle_secret c)); ("mount_point", JStr (mount_point c)); ("secret_path", JStr (secret_path c));
    ("cert_key", JStr (cert_key c)); ("key_key", JStr (key_key c)); ("ca_key", JStr (ca_key c))]).
(** The files of the cache directory *)
Inductive cache_file := ClientCert | ClientKey | CaCert | CacheMetadata.
#[export] Instance cache_file_eq_dec : EqDecision cache_file.
Proof. solve_decision. Defined.
Definition disk : Type := cache_file -> option string.
Definition no_files : disk := fun _ => None.
Inductive disk_op := Remove (f : cache_file) | Write (f : cache_file) (content : string).
Definition set_file (f : cache_file) (o : option string) (d : disk) : disk := fun g => if decide (g = f) then o else d g.
Definition run_disk_op (d : disk) (o : disk_op) : disk :=
  match o with Remove f => set_file f None d | Write f s => set_file f (Some s) d end.
Definition run_disk_ops (os : list disk_op) (d : disk) : disk := fold_left run_disk_op os d.

Record cert_data := mkCertData { cd_cert : string; cd_key : string; cd_ca : string }.
(** [_certificates_exist_on_disk] *)
Definition certificates_exist_on_disk (d : disk) : bool :=
  bool_decide (is_Some (d ClientCert)) && bool_decide (is_Some (d ClientKey)) && bool_decide (is_Some (d CaCert)).
(** [_invalidate_disk_cache] *)
Definition invalidate_ops : list disk_op := [Remove ClientCert; Remove ClientKey; Remove CaCert; Remove CacheMetadata].
(** [_write_certificates_to_disk] and [_write_cache_metadata] *)
Definition write_ops (data : cert_data) (metadata : string) : list disk_op :=
  [Write ClientCert (cd_cert data); Write ClientKey (cd_key data); Write CaCert (cd_ca data); Write CacheMetadata metadata].
(** [json.dump] of the metadata, and [_read_cache_metadata] with the fingerprint it holds *)
Definition metadata_text (fingerprint : string) : string := dumps (JDict [("config_fingerprint", JStr fingerprint)]).
Definition read_fingerprint (d : disk) : option json :=
  match d CacheMetadata with
  | None => None
  | Some s => match loads s with Some (JDict m) => dict_get m "config_fingerprint" | _ => None end
  end.

Section Vault.
Context {V : Type} (login : vault_config -> M V (option dict)) (read_secret : vault_config -> string -> M V (option dict)).
Context (sha256 : string -> string) (not_valid_after : string -> option Z).
Record world := mkWorld { files : disk; now : Z; vault : V }.
Definition on_vault {A} (m : M V A) : M world A := fun w => let '(r, v) := m (vault w) in (r, mkWorld (files w) (now w) v).
Definition vault_sleep (half_seconds : Z) (w : world) : world := mkWorld (files w) (now w + half_seconds)%Z (vault w).
(** [_is_client_cert_expired]: what cannot be parsed is expired *)
Definition is_client_cert_expired (now : Z) (d : disk) : bool :=
  match d ClientCert ≫= not_valid_after with Some t => (t <=? now)%Z | None => true end.
(** [_is_cache_valid] *)
Definition is_cache_valid (c : vault_config) (now : Z) (d : disk) : bool :=
  certificates_exist_on_disk d && bool_decide (read_fingerprint d = Some (JStr (compute_config_fingerprint sha256 c))) &&
  negb (is_client_cert_expired now d).
(** [_authenticate_to_vault] *)
Definition token_of (r : option dict) : res string :=
  match r with
  | Some d => match dict_get d "auth" with
              | Some (JDict a) => match dict_get a "client_token" with Some (JStr t) => Ok t | _ => Err RuntimeError end
              | _ => Err RuntimeError
              end
  | None => Err RuntimeError
  end.
Definition authenticate_to_vault (c : vault_config) : M world string :=
  retry_loop vault_sleep MAX_RETRIES 0 (let! r := on_vault (login c) in mlift (token_of r)).
(** [_fetch_certificates_from_vault] *)
Definition secret_string (d : dict) (k : string) : res string := match dict_get d k with Some (JStr s) => Ok s | _ => Err RuntimeError end.
Definition certificates_of (c : vault_config) (r : option dict) : res cert_data :=
  match r with
  | Some d => match dict_get d "data" with
              | Some (JDict e) =>
                  match dict_get e "data" with
                  | Some (JDict s) =>
                      res_bind (secret_string s (cert_key c)) (fun x => res_bind (secret_string s (key_key c)) (fun y =>
                      res_bind (secret_string s (ca_key c)) (fun z => Ok (mkCertData x y z))))
                  | _ => Err RuntimeError
                  end
              | _ => Err RuntimeError
              end
  | None => Err RuntimeError
  end.
Definition fetch_certificates_from_vault (c : vault_config) (token : string) : M world cert_data :=
  retry_loop vault_sleep MAX_RETRIES 0 (let! r := on_vault (read_secret c token) in mlift (certificates_of c r)).
(** The changes of the disk in [get_certificates] under the lock *)
Definition stale_ops (d : disk) : list disk_op := if certificates_exist_on_disk d then invalidate_ops else [].
Definition disk_change (os : list disk_op) : M world unit := fun w => (Ok tt, mkWorld (run_disk_ops os (files w)) (now w) (vault w)).
(** What [get_certificates] does once it has the lock: it checks again *)
Definition locked_section (c : vault_config) : M world bool :=
  fun w =>
  if is_cache_valid c (now w) (files w) then (Ok true, w)
  else
    (disk_change (stale_ops (files w)) ;;;
     let! token := authenticate_to_vault c in
     let! data := fetch_certificates_from_vault c token in
     disk_change (write_ops data (metadata_text (compute_config_fingerprint sha256 c))) ;;;
     mret true) w.
(** [get_certificates]; the paths are the same for every provider, so that
    [cached] is whether they are cached; [meanwhile] is what other processes do
    while it waits for the lock *)
Definition get_certificates (c : vault_config) (cached : bool) (meanwhile : world -> world) : M world bool :=
  fun w =>
  if cached then (Ok true, w)
  else if is_cache_valid c (now w) (files w) then (Ok true, w)
  else locked_section c (meanwhile w).
End Vault.

(** ** Retries end *)
(** A loop makes at most five attempts and sleeps at most fifteen seconds. *)
Fixpoint sleeps (left retry_count : nat) : Z :=
  match left with
  | 0 => 0
  | S left' => (if (S retry_count <? MAX_RETRIES)%nat then backoff (S retry_count) else 0) + sleeps left' (S retry_count)
  end.
Lemma retry_loop_fails {W A} (sleep : Z -> W -> W) (clock : W -> Z) (f : M W A) left n w :
  (forall z w, clock (sleep z w) = (clock w + z)%Z) -> (forall w, exists e, (f w).1 = Err e /\ clock (f w).2 = clock w) ->
  (retry_loop sleep left n f w).1 = Err RuntimeError /\ clock (retry_loop sleep left n f w).2 = (clock w + sleeps left n)%Z.
Proof.
  intros Hs Hf. revert n w. induction left as [|left IH]; intros n w; cbn [retry_loop sleeps]; [by rewrite Z.add_0_r|].
  destruct (Hf w) as (e & He & Hc). destruct (f w) as [[a|e'] w']; [done|]. cbn in Hc.
  destruct (IH (S n) (if (S n <? MAX_RETRIES)%nat then sleep (backoff (S n)) w' else w')) as [-> ->]. split; [done|].
  destruct (S n <? MAX_RETRIES)%nat; rewrite ?Hs; lia.
Qed.
Theorem retries_bounded {W A} (sleep : Z -> W -> W) (clock : W -> Z) (f : M W A) (w : W)
    (Hsleep : forall z w, clock (sleep z w) = (clock w + z)%Z) (Hfail : forall w, exists e, (f w).1 = Err e /\ clock (f w).2 = clock w) :
  (retry_loop sleep MAX_RETRIES 0 f w).1 = Err RuntimeError /\ clock (retry_loop sleep MAX_RETRIES 0 f w).2 = (clock w + 2 * 15)%Z.
Proof. by apply (retry_loop_fails sleep clock f). Qed.
Lemma retries_bounded_witness :
  (retry_loop Z.add MAX_RETRIES 0 (mraise (A := unit) ValueError) 7%Z).1 = Err RuntimeError /\
  (retry_loop Z.add MAX_RETRIES 0 (mraise (A := unit) ValueError) 7%Z).2 = (7 + 2 * 15)%Z.
Proof.
  apply (retries_bounded (W := Z) (A := unit) Z.add (fun w => w) (mraise ValueError) 7%Z).
  - intros z w. lia.
  - intros w. exists ValueError. split; reflexivity.
Defined.

(** ** What is on disk belongs together *)
Section Consistent.
Context (sha256 : string -> string) (fetched : vault_config -> cert_data -> Prop).
Definition holds (d : disk) (data : cert_data) : Prop :=
  d ClientCert = Some (cd_cert data) /\ d ClientKey = Some (cd_key data) /\ d CaCert = Some (cd_ca data).
(** A write that a process was in the middle of leaves anything; metadata that
    was written in part is no JSON *)
Inductive torn : option disk_op -> disk -> disk -> Prop :=
  | torn_not o d : torn o d d
  | torn_write f s junk d : (f = CacheMetadata -> loads junk = None) -> torn (Some (Write f s)) d (run_disk_op d (Write f junk)).
(** The states of the disk: processes refresh the certificates and may end
    within the writes, but not within the removals *)
Inductive reachable_disk : disk -> Prop :=
  | reach_none : reachable_disk no_files
  | reach_refresh d c data n d' :
      reachable_disk d -> fetched c data ->
      torn (write_ops data (metadata_text (compute_config_fingerprint sha256 c)) !! n)
           (run_disk_ops (stale_ops d ++ take n (write_ops data (metadata_text (compute_config_fingerprint sha256 c)))) d) d' ->
      reachable_disk d'.
Definition disk_ok (d : disk) : Prop :=
  d CacheMetadata = None \/
  exists c data, fetched c data /\ holds d data /\
    (d CacheMetadata = Some (metadata_text (compute_config_fingerprint sha256 c)) \/ read_fingerprint d = None).

Lemma holds_exist d data : holds d data -> certificates_exist_on_disk d = true.
Proof. intros (H1 & H2 & H3). unfold certificates_exist_on_disk. by rewrite H1, H2, H3. Qed.
Lemma stale_no_metadata d : disk_ok d -> run_disk_ops (stale_ops d) d CacheMetadata = None.
Proof.
  intros Hok. unfold stale_ops. destruct (certificates_exist_on_disk d) eqn:E; [done|]. destruct Hok as [H|(c & data & _ & Hh & _)]; [done|].
  apply holds_exist in Hh. congruence.
Qed.
Lemma refresh_ok c data n d d' :
  fetched c data -> disk_ok d ->
  torn (write_ops data (metadata_text (compute_config_fingerprint sha256 c)) !! n)
       (run_disk_ops (stale_ops d ++ take n (write_ops data (metadata_text (compute_config_fingerprint sha256 c)))) d) d' ->
  disk_ok d'.
Proof.
  intros Hf Hok%stale_no_metadata. unfold run_disk_ops. rewrite fold_left_app. fold (run_disk_ops (stale_ops d) d).
  set (d1 := run_disk_ops (stale_ops d) d) in *. clearbody d1. set (m := metadata_text _).
  assert (forall junk, loads junk = None -> disk_ok (run_disk_ops (write_ops data junk) d1)) as Htorn.
  { intros junk Hj. right. exists c, data. split_and!; try done. right. unfold read_fingerprint.
    assert (run_disk_ops (write_ops data junk) d1 CacheMetadata = Some junk) as -> by done. by rewrite Hj. }
  destruct n as [|[|[|[|n]]]]; cbn [take write_ops lookup list_lookup fold_left]; intros Ht; inversion Ht; subst; try by left.
  - apply Htorn. auto.
  - rewrite take_nil. right. exists c, data. split_and!; try done. by left.
Qed.
Lemma reachable_ok d : reachable_disk d -> disk_ok d.
Proof. induction 1 as [|d c data n d' _ IH Hf Ht]; [by left|by eapply refresh_ok]. Qed.
End Consistent.

Lemma fingerprint_read d f : d CacheMetadata = Some (metadata_text f) -> read_fingerprint d = Some (JStr f).
Proof.
  intros H. unfold read_fingerprint. rewrite H. unfold metadata_text. rewrite loads_dumps; [done|].
  split; [apply NoDup_singleton|done].
Qed.
(** C30: certificates that are taken from the disk belong together: whatever
    refreshes came before, complete or ended while writing (but not while
    removing stale files), certificate, key
    and authority that pass the check were fetched by one request for a
    configuration with the same fingerprint, and are not expired. *)
Theorem cached_certificates_consistent (sha256 : string -> string) (not_valid_after : string -> option Z) (fetched : vault_config -> cert_data -> Prop)
    (c : vault_config) (now : Z) (d : disk) (Hreach : reachable_disk sha256 fetched d)
    (Hvalid : is_cache_valid sha256 not_valid_after c now d = true) :
  exists c' data, fetched c' data /\ compute_config_fingerprint sha256 c' = compute_config_fingerprint sha256 c /\ holds d data /\
    exists t, not_valid_after (cd_cert data) = Some t /\ (now < t)%Z.
Proof.
  apply reachable_ok in Hreach. unfold is_cache_valid in Hvalid. apply andb_true_iff in Hvalid as [[_ Hf]%andb_true_iff He%negb_true_iff].
  apply bool_decide_eq_true in Hf. destruct Hreach as [Hn|(c' & data & Hfetch & Hh & Hm)].
  { unfold read_fingerprint in Hf. by rewrite Hn in Hf. }
  exists c', data. destruct Hm as [Hm|Hm]; [|congruence]. rewrite (fingerprint_read _ _ Hm) in Hf. injection Hf as Hf.
  split_and!; try done. unfold is_client_cert_expired in He. destruct Hh as (Hc & _). rewrite Hc in He. cbn in He.
  destruct (not_valid_after (cd_cert data)) as [t|]; [|done]. exists t. split; [done|]. apply Z.leb_gt in He. lia.
Qed.

Definition example_vault : vault_config := mkVaultConfig "v" "n" "r" "s" "secret" "p" "cert" "key" "ca".
Definition fresh_data : cert_data := mkCertData "C2" "K2" "A2".
Definition example_expiry (cert : string) : option Z := if decide (cert = "C1") then Some 10%Z else Some 100%Z.
Definition example_metadata : string := metadata_text (compute_config_fingerprint id example_vault).
Definition refreshed : disk := run_disk_ops (write_ops fresh_data example_metadata) no_files.
Lemma cached_certificates_consistent_witness :
  exists c' data, (fun _ d => d = fresh_data) c' data /\ compute_config_fingerprint id c' = compute_config_fingerprint id example_vault /\
    holds refreshed data /\ exists t, example_expiry (cd_cert data) = Some t /\ (50 < t)%Z.
Proof.
  apply (cached_certificates_consistent id example_expiry (fun _ d => d = fresh_data) example_vault 50 refreshed).
  - apply (reach_refresh id _ no_files example_vault fresh_data 4); [constructor|reflexivity|constructor].
  - vm_compute. reflexivity.
Defined.

(** ** Two interrupted refreshes *)
(** The removal of stale certificates takes the metadata last.  When one
    process ends after the first removal, and the next one, which finds
    nothing to remove, after its first write, the new certificate is accepted
    with the key of the old one. *)
Definition old_data : cert_data := mkCertData "C1" "K1" "A1".
Theorem interrupted_refreshes_mismatch :
  let d0 := run_disk_ops (write_ops old_data example_metadata) no_files in
  let d1 := run_disk_ops (take 1 (stale_ops d0)) d0 in
  let d2 := run_disk_ops (take 1 (stale_ops d1 ++ write_ops fresh_data example_metadata)) d1 in
  is_cache_valid id example_expiry example_vault 50 d0 = false /\ is_cache_valid id example_expiry example_vault 50 d2 = true /\
  d2 ClientCert = Some "C2" /\ d2 ClientKey = Some "K1".
Proof. vm_compute. done. Qed.

(** ** One directory for every configuration *)
(** What a fetch leaves on disk is valid, unless it has expired already. *)
Theorem fetched_certificates_stored {V : Type} (login : vault_config -> M V (option dict)) (read_secret : vault_config -> string -> M V (option dict))
    (sha256 : string -> string) (not_valid_after : string -> option Z) (c : vault_config) (w w' : world (V := V))
    (Hinvalid : is_cache_valid sha256 not_valid_after c (now w) (files w) = false)
    (Hget : get_certificates login read_secret sha256 not_valid_after c false id w = (Ok true, w')) :
  exists data, holds (files w') data /\ read_fingerprint (files w') = Some (JStr (compute_config_fingerprint sha256 c)).
Proof.
  unfold get_certificates in Hget. rewrite Hinvalid in Hget. unfold id, locked_section in Hget. rewrite Hinvalid in Hget. unfold mbind at 1, disk_change at 1 in Hget.
  unfold mbind at 1 in Hget. destruct (authenticate_to_vault _ _ _) as [[token|e] w1]; [|done].
  unfold mbind at 1 in Hget. destruct (fetch_certificates_from_vault _ _ _ _) as [[data|e] w2]; [|done].
  unfold mbind, disk_change in Hget. injection Hget as <-. exists data. split; [done|]. by apply fingerprint_read.
Qed.
Definition good_login (_ : vault_config) (v : unit) : res (option dict) * unit := (Ok (Some [("auth", JDict [("client_token", JStr "t")])]), v).
Definition good_secret (_ : vault_config) (_ : string) (v : unit) : res (option dict) * unit :=
  (Ok (Some [("data", JDict [("data", JDict [("cert", JStr "C2"); ("key", JStr "K2"); ("ca", JStr "A2")])])]), v).
Lemma fetched_certificates_stored_witness :
  exists data, holds (files (get_certificates good_login good_secret id example_expiry example_vault false id (mkWorld no_files 50 tt)).2) data /\
    read_fingerprint (files (get_certificates good_login good_secret id example_expiry example_vault false id (mkWorld no_files 50 tt)).2)
      = Some (JStr (compute_config_fingerprint id example_vault)).
Proof.
  apply (fetched_certificates_stored good_login good_secret id example_expiry example_vault (mkWorld no_files 50 tt)); vm_compute; reflexivity.
Defined.
(** The paths that a provider caches lead to the certificates of another
    configuration once a provider for that one has fetched them. *)
Definition other_vault : vault_config := mkVaultConfig "other" "n" "r" "s" "secret" "p" "cert" "key" "ca".
Definition secret_by_endpoint (c : vault_config) (_ : string) (v : unit) : res (option dict) * unit :=
  (Ok (Some [("data", JDict [("data", JDict [("cert", JStr (vault_endpoint c)); ("key", JStr "K"); ("ca", JStr "A")])])]), v).
Theorem configurations_share_directory :
  let get c cached w := (get_certificates good_login secret_by_endpoint id example_expiry c cached id w).2 in
  let w1 := get example_vault false (mkWorld no_files 50 tt) in
  let w2 := get other_vault false w1 in
  let w3 := get example_vault true w2 in
  files w1 ClientCert = Some "v" /\ files w3 ClientCert = Some "other".
Proof. vm_compute. done. Qed.

(** ** Exporters with access tokens ([telemetry/metrics/exporters/otlp_msal.py], [telemetry/traces/exporters/otlp_msal.py]) *)
Inductive signal := Metrics | Spans.
(** The headers of the session: connections are closed after a request, those
    of the metrics unless [MSC_OTEL_EXPORTER_KEEP_ALIVE] is set *)
Definition session_headers (sig : signal) (keep_alive : option string) : gmap string string :=
  match sig with
  | Spans => {[ "Connection" := "close" ]}
  | Metrics => if bool_decide (default "" keep_alive = "") then {[ "Connection" := "close" ]} else ∅
  end.
(** [AccessTokenHTTPAdapter.send]: the headers of the request, and whether a
    warning was logged *)
Definition send_headers {W} (get_token : W -> option string * W) (headers : gmap string string) (w : W) : gmap string string * bool * W :=
  let '(token, w') := get_token w in
  match token with
  | Some t => if bool_decide (t = "") then (headers, true, w') else (<[ "Authorization" := "Bearer " +:+ t ]> headers, false, w')
  | None => (headers, true, w')
  end.
(** A request is always sent, with the token that was acquired within the
    retries, or without one and a warning. *)
Theorem request_carries_token {W} (sleep : Z -> W -> W) (is_connection_error : exc -> bool) (acquire : M W (option string)) (headers : gmap string string) (w w' : W)
    (t : option string) (Htoken : token_loop sleep is_connection_error MAX_RETRIES 0 acquire w = (t, w')) :
  let '(h, warned, w'') := send_headers (token_loop sleep is_connection_error MAX_RETRIES 0 acquire) headers w in
  w'' = w' /\ (warned = false <-> exists x, t = Some x /\ x <> "") /\
  (forall x, t = Some x -> x <> "" -> h !! "Authorization" = Some ("Bearer " +:+ x)) /\ (warned = true -> h = headers).
Proof.
  unfold send_headers. rewrite Htoken. destruct t as [x|]; [case_bool_decide as E|]; split_and!; try done; try split; try done.
  - by intros (y & [= <-] & ?).
  - intros y [= <-]. done.
  - intros _. by exists x.
  - intros y [= <-] _. apply lookup_insert_eq.
  - by intros (y & [=] & _).
Qed.
Lemma request_carries_token_witness :
  let '(h, warned, w'') := send_headers (token_loop (fun _ w => w) (fun _ => true) MAX_RETRIES 0 (fun w => (Ok (Some "abc"), w))) ∅ tt in
  w'' = tt /\ (warned = false <-> exists x, Some "abc" = Some x /\ x <> "") /\
  (forall x, Some "abc" = Some x -> x <> "" -> h !! "Authorization" = Some ("Bearer " +:+ x)) /\ (warned = true -> h = ∅).
Proof. apply (request_carries_token (fun _ w => w) (fun _ => true) (fun w => (Ok (Some "abc"), w)) ∅ tt tt (Some "abc")). reflexivity. Defined.
