(* ===== verification/ProviderMetrics.v ===== *)
(** * Metrics of the storage providers ([providers/base.py])

    Every call of a provider is timed and measured; the measurements go to the
    instruments at once, or to a bounded queue that a worker thread empties.
    The instruments belong to the telemetry of [Telemetry]. *)
From S2P Require Import Prelude PyDict Types Utils Json Telemetry.

Module ProviderMetrics.
(** ** Definitions *)
Definition MAX_ASYNC_QUEUE_SIZE : nat := 100 * 1000.
Inductive Operation := READ | WRITE | COPY | DELETE | INFO | LIST | DELETE_MANY.
Definition operation_value (o : Operation) : string :=
  match o with
  | READ => "read" | WRITE => "write" | COPY => "copy" | DELETE => "delete" | INFO => "info" | LIST => "list" | DELETE_MANY => "delete_many"
  end.
Definition is_data_io (o : Operation) : bool := match o with READ | WRITE | COPY => true | _ => false end.

(** What an operation returns, as far as its size is concerned *)
Inductive payload :=
  | PBytes (b : bytes) | PStr (s : string) | PInt (z : Z) | PBytesList (l : list bytes) | PStrList (l : list string)
  | PBuffer (nbytes : nat) | PEmptyList | POther.
(** [len(s) if s.isascii() else len(s.encode())] *)
Fixpoint utf8_length (s : string) : nat :=
  match s with EmptyString => 0 | String a s' => (if (Ascii.nat_of_ascii a <? 128)%nat then 1 else 2) + utf8_length s' end.
Definition calculate_data_size (r : payload) (o : Operation) (error_type : option string) : option Z :=
  match is_data_io o, error_type with
  | true, None =>
      match r with
      | PBytes b => Some (Z.of_nat (length b))
      | PStr s => Some (Z.of_nat (utf8_length s))
      | PInt z => Some z
      | PBytesList l => Some (Z.of_nat (sum_list_with length l))
      | PStrList l => Some (Z.of_nat (sum_list_with utf8_length l))
      | PBuffer n => Some (Z.of_nat n)
      | PEmptyList | POther => None
      end
  | _, _ => None
  end.

(** A measurement, with the latency in nanoseconds *)
Record metric := mkMetric { operation : Operation; latency : Z; data_size : option Z; error_type : option string }.
(** What an instrument is given: a number, or size per latency *)
Inductive measure := Amount (z : Z) | Rate (size latency : Z).
Class Recorder (T : Type) := {
  gauge_set : nat -> measure -> attributes -> M T unit;
  counter_add : nat -> Z -> attributes -> M T unit;
}.

Inductive worker := NoWorker | Running | Stopped.
Record mstate := mkMState {
  metric_init_event : bool;
  metric_gauges : GaugeName -> option nat;
  metric_counters : CounterName -> option nat;
  metric_attributes_providers : list AttributesProvider;
  async_metrics_enabled : bool;
  (** [None] in the queue is the sentinel *)
  metrics_queue : option (list (option metric));
  metrics_worker : worker;
  metrics_worker_shutdown : bool;
  metrics_dropped_count : nat;
}.
(** [__init__] *)
Definition new_mstate : mstate := mkMState false (fun _ => None) (fun _ => None) [] false None NoWorker false 0.
Definition with_queue (q : list (option metric)) (s : mstate) : mstate :=
  mkMState (metric_init_event s) (metric_gauges s) (metric_counters s) (metric_attributes_providers s) (async_metrics_enabled s) (Some q)
    (metrics_worker s) (metrics_worker_shutdown s) (metrics_dropped_count s).
Definition with_worker (w : worker) (s : mstate) : mstate :=
  mkMState (metric_init_event s) (metric_gauges s) (metric_counters s) (metric_attributes_providers s) (async_metrics_enabled s)
    (metrics_queue s) w (metrics_worker_shutdown s) (metrics_dropped_count s).

(** [_build_base_attributes] and [_build_status_attributes]: reserved names win *)
Definition build_base_attributes (version provider : string) (ps : list AttributesProvider) (env : environment) (o : Operation) : attributes :=
  <[ "multistorageclient.operation" := JStr (operation_value o) ]>
  (<[ "multistorageclient.provider" := JStr provider ]>
  (<[ "multistorageclient.version" := JStr version ]> (collect_attributes ps env))).
Definition build_status_attributes (base : attributes) (error_type : option string) : attributes :=
  <[ "multistorageclient.status" := JStr (match error_type with None => "success" | Some e => "error." +:+ e end) ]> base.

Section Recording.
Context {T : Type} `{!Sdk T, !Recorder T} (version provider : string).
Abbreviation X := (telemetry * T)%type.
Definition on_instruments {A} (m : M T A) : M (mstate * X) A :=
  fun '(s, (t, x)) => let '(r, x') := m x in (r, (s, (t, x'))).
Definition when_some {A} (o : option A) (f : A -> M (mstate * X) unit) : M (mstate * X) unit :=
  match o with Some a => f a | None => mret tt end.
(** [_record_metrics], in the thread of [env] *)
Definition record_with (gauges : GaugeName -> option nat) (counters : CounterName -> option nat) (providers : list AttributesProvider)
    (env : environment) (m : metric) : M (mstate * X) unit :=
  let base := build_base_attributes version provider providers env (operation m) in
  when_some (counters REQUEST_SUM) (fun c => on_instruments (counter_add c 1 base)) ;;;
  let status := build_status_attributes base (error_type m) in
  when_some (gauges LATENCY) (fun g => on_instruments (gauge_set g (Amount (latency m)) status)) ;;;
  when_some (counters RESPONSE_SUM) (fun c => on_instruments (counter_add c 1 status)) ;;;
  when_some (data_size m) (fun z =>
    when_some (gauges DATA_SIZE) (fun g => on_instruments (gauge_set g (Amount z) status)) ;;;
    when_some (gauges DATA_RATE) (fun g =>
      if (latency m =? 0)%Z then mraise ZeroDivisionError else on_instruments (gauge_set g (Rate z (latency m)) status)) ;;;
    when_some (counters DATA_SIZE_SUM) (fun c => on_instruments (counter_add c z status))).
Definition record_metrics (env : environment) (m : metric) : M (mstate * X) unit :=
  let! sx := mget in
  record_with (metric_gauges sx.1) (metric_counters sx.1) (metric_attributes_providers sx.1) env m.
Definition is_closed (e : exc) : bool := match e with EOFError | BrokenPipeError => true | _ => false end.
(** [_record_metric_sync] *)
Definition record_metric_sync (env : environment) (m : metric) : M (mstate * X) unit :=
  mtry (fun e => negb (is_closed e)) (record_metrics env m) (fun _ => mret tt).

(** [_dispatch_metrics] *)
Definition dispatch_metrics (env : environment) (m : metric) : M (mstate * X) unit :=
  fun '(s, x) =>
  match async_metrics_enabled s, metrics_queue s with
  | true, Some q =>
      if (length q <? MAX_ASYNC_QUEUE_SIZE)%nat then (Ok tt, (with_queue (q ++ [Some m]) s, x))
      else (Ok tt, (mkMState (metric_init_event s) (metric_gauges s) (metric_counters s) (metric_attributes_providers s) true (Some q)
              (metrics_worker s) (metrics_worker_shutdown s) (S (metrics_dropped_count s)), x))
  | _, _ => record_metrics env m (s, x)
  end.

(** ** Definitions: initialisation *)
Definition set_instruments (s : mstate) (g : GaugeName -> option nat) (c : CounterName -> option nat) : mstate :=
  mkMState (metric_init_event s) g c (metric_attributes_providers s) (async_metrics_enabled s) (metrics_queue s) (metrics_worker s)
    (metrics_worker_shutdown s) (metrics_dropped_count s).
#[global] Instance gauge_name_eq_dec : EqDecision GaugeName.
Proof. solve_decision. Defined.
#[global] Instance counter_name_eq_dec : EqDecision CounterName.
Proof. solve_decision. Defined.
Definition on_telemetry {A} (m : M X A) : M (mstate * X) A := fun '(s, x) => let '(r, x') := m x in (r, (s, x')).
Definition modify (f : mstate -> mstate) : M (mstate * X) unit := fun '(s, x) => (Ok tt, (f s, x)).
(** The constructor of an attributes provider; [import] makes one of another class *)
Context (import : string -> dict -> res AttributesProvider) (search : string -> res json).
Fixpoint string_items (d : dict) : res (list (string * string)) :=
  match d with
  | [] => Ok []
  | (k, JStr s) :: d' => res_bind (string_items d') (fun l => Ok ((k, s) :: l))
  | _ => Err TypeError
  end.
Fixpoint expression_items (d : dict) : res (list (string * string)) :=
  match d with
  | [] => Ok []
  | (k, JDict o) :: d' => res_bind (get_str o "expression") (fun e => res_bind (expression_items d') (fun l => Ok ((k, e) :: l)))
  | _ => Err TypeError
  end.
Definition new_attributes_provider (ty : string) (options : dict) : res AttributesProvider :=
  let strings f := res_bind (get_item options "attributes") (fun d => res_bind (string_items d) f) in
  if bool_decide (ty = "environment_variables") then strings (fun l => Ok (EnvironmentVariablesAttributesProvider l))
  else if bool_decide (ty = "host") then strings new_host
  else if bool_decide (ty = "process") then strings new_process
  else if bool_decide (ty = "thread") then strings new_thread
  else if bool_decide (ty = "static") then res_bind (get_item options "attributes") (fun d => Ok (StaticAttributesProvider (Some (list_to_map d))))
  else if bool_decide (ty = "msc_config") then res_bind (get_item options "attributes") (fun d => res_bind (expression_items d) (new_msc_config search))
  else import ty options.
Fixpoint new_attributes_providers (l : list json) : res (list AttributesProvider) :=
  match l with
  | [] => Ok []
  | JDict d :: l' =>
      res_bind (get_str d "type") (fun ty => res_bind (get_dict d "options") (fun o => res_bind (new_attributes_provider ty o) (fun p =>
      res_bind (new_attributes_providers l') (fun ps => Ok (p :: ps)))))
  | _ => Err TypeError
  end.
(** [_init_async_telemetry] *)
Definition init_async_telemetry (s : mstate) : mstate := with_worker Running (with_queue [] s).
Definition setup_metrics (mc : dict) : M (mstate * X) unit :=
  mfor all_gauges (fun n =>
    let! g := on_telemetry (gauge mc n) in
    modify (fun s => set_instruments s (fun n' => if decide (n' = n) then g else metric_gauges s n') (metric_counters s))) ;;;
  mfor all_counters (fun n =>
    let! c := on_telemetry (counter mc n) in
    modify (fun s => set_instruments s (metric_gauges s) (fun n' => if decide (n' = n) then c else metric_counters s n'))) ;;;
  match dict_get mc "attributes" with
  | Some (JList l) =>
      let! ps := mlift (new_attributes_providers l) in
      modify (fun s => mkMState (metric_init_event s) (metric_gauges s) (metric_counters s) ps (async_metrics_enabled s) (metrics_queue s)
                         (metrics_worker s) (metrics_worker_shutdown s) (metrics_dropped_count s))
  | _ => mret tt
  end ;;;
  match dict_get mc "reader" with
  | Some (JDict r) =>
      modify (fun s => let enabled := bool_decide (dict_get r "async" = Some (JBool true)) in
        let s := mkMState (metric_init_event s) (metric_gauges s) (metric_counters s) (metric_attributes_providers s) enabled (metrics_queue s)
                   (metrics_worker s) (metrics_worker_shutdown s) (metrics_dropped_count s) in
        if enabled then init_async_telemetry s else s)
  | _ => mret tt
  end.
(** [_init_metrics]: what raises is logged, what was set up before stays *)
Definition init_metrics (config_dict : option dict) (telemetry_provider : option (M X unit)) : M (mstate * X) unit :=
  fun sx =>
  if metric_init_event sx.1 then (Ok tt, sx)
  else
    (match config_dict, telemetry_provider with
     | Some d, Some thunk =>
         match dict_get d "opentelemetry" with
         | Some (JDict o) =>
             mtry (fun _ => true)
               (on_telemetry thunk ;;; match dict_get o "metrics" with Some (JDict mc) => setup_metrics mc | _ => mret tt end)
               (fun _ => mret tt)
         | _ => mret tt
         end
     | _, _ => mret tt
     end ;;;
     modify (fun s => mkMState true (metric_gauges s) (metric_counters s) (metric_attributes_providers s) (async_metrics_enabled s)
                        (metrics_queue s) (metrics_worker s) (metrics_worker_shutdown s) (metrics_dropped_count s))) sx.

(** ** Definitions: the wrapper, the worker and its end *)
(** [_emit_metrics] around [f]; [name] is the class name of an exception and
    [elapsed] the latency; an exception of the [finally] replaces the outcome *)
Definition emit_metrics {W A : Type} (config_dict : option dict) (telemetry_provider : option (M X unit)) (env : environment)
    (name : exc -> string) (elapsed : Z) (size : A -> payload) (o : Operation) (f : M W A) : M (W * (mstate * X)) A :=
  fun '(w, sx) =>
  let sx := (init_metrics config_dict telemetry_provider sx).2 in
  let '(r, w') := f w in
  let error := match r with Err e => Some (name e) | Ok _ => None end in
  let z := calculate_data_size (match r with Ok a => size a | Err _ => POther end) o error in
  match dispatch_metrics env (mkMetric o elapsed z error) sx with
  | (Ok _, sx') => (r, (w', sx'))
  | (Err e, sx') => (Err e, (w', sx'))
  end.

(** One iteration of [_metrics_worker_loop] *)
Definition worker_step (env : environment) (sx : mstate * X) : mstate * X :=
  let s := sx.1 in
  match metrics_worker s with
  | Running =>
      if metrics_worker_shutdown s then (with_worker Stopped s, sx.2)
      else match metrics_queue s with
      | None | Some [] => sx
      | Some (None :: q) => (with_worker Stopped (with_queue q s), sx.2)
      | Some (Some m :: q) =>
          match record_metric_sync env m (with_queue q s, sx.2) with
          | (Ok _, sx') => sx'
          | (Err _, (s', x')) => (with_worker Stopped s', x')
          end
      end
  | _ => sx
  end.
(** The flush at the end of [_shutdown_async_telemetry] *)
Fixpoint flush_queue (env : environment) (n : nat) (sx : mstate * X) : mstate * X :=
  match n with
  | 0 => sx
  | S n' =>
      match metrics_queue sx.1 with
      | None | Some [] => sx
      | Some (None :: q) => flush_queue env n' (with_queue q sx.1, sx.2)
      | Some (Some m :: q) =>
          match record_metric_sync env m (with_queue q sx.1, sx.2) with
          | (Ok _, sx') => flush_queue env n' sx'
          | (Err _, sx') => sx'
          end
      end
  end.
(** [_shutdown_async_telemetry]: the event, the sentinel if there is room,
    [steps] iterations of the worker until it stops or its time is over *)
Definition shutdown_async_telemetry (worker_env env : environment) (steps : nat) (sx : mstate * X) : mstate * X :=
  match metrics_queue sx.1, metrics_worker sx.1 with
  | Some q, Running | Some q, Stopped =>
      let s := sx.1 in
      let q := if (length q <? MAX_ASYNC_QUEUE_SIZE)%nat then q ++ [None] else q in
      let s := mkMState (metric_init_event s) (metric_gauges s) (metric_counters s) (metric_attributes_providers s) (async_metrics_enabled s)
                 (Some q) (metrics_worker s) true (metrics_dropped_count s) in
      let '(s, x) := Nat.iter steps (worker_step worker_env) (s, sx.2) in
      flush_queue env (length (default [] (metrics_queue s))) (s, x)
  | _, _ => sx
  end.

Lemma queue_has_room : 0 < MAX_ASYNC_QUEUE_SIZE.
Proof. unfold MAX_ASYNC_QUEUE_SIZE. lia. Qed.
#[local] Opaque MAX_ASYNC_QUEUE_SIZE.
(** ** Recording does not depend on the queue *)
Definition blind {A} (m : M (mstate * X) A) : Prop := forall s s' x, exists r x', m (s, x) = (r, (s, x')) /\ m (s', x) = (r, (s', x')).
Lemma blind_ret {A} (a : A) : blind (mret a).
Proof. intros s s' x. by eexists _, _. Qed.
Lemma blind_raise {A} e : blind (mraise (A := A) e).
Proof. intros s s' x. by eexists _, _. Qed.
Lemma blind_bind {A B} (m : M (mstate * X) A) (k : A -> M (mstate * X) B) : blind m -> (forall a, blind (k a)) -> blind (mbind m k).
Proof.
  intros Hm Hk s s' x. unfold mbind. destruct (Hm s s' x) as (r & x1 & -> & ->). destruct r as [a|e]; [apply Hk|by eexists _, _].
Qed.
Lemma blind_try {A} catches (m : M (mstate * X) A) h : blind m -> (forall e, blind (h e)) -> blind (mtry catches m h).
Proof.
  intros Hm Hh s s' x. unfold mtry. destruct (Hm s s' x) as (r & x1 & -> & ->). destruct r as [a|e]; [by eexists _, _|].
  destruct (catches e); [apply Hh|by eexists _, _].
Qed.
Lemma blind_instruments {A} (m : M T A) : blind (on_instruments m).
Proof. intros s s' [t x]. unfold on_instruments. destruct (m x) as [r x']. by eexists _, _. Qed.
Lemma blind_when {A} (o : option A) f : (forall a, blind (f a)) -> blind (when_some o f).
Proof. intros H. destruct o; [apply H|apply blind_ret]. Qed.
(** The instruments of a state *)
Definition same_instruments (s s' : mstate) : Prop :=
  metric_gauges s' = metric_gauges s /\ metric_counters s' = metric_counters s /\ metric_attributes_providers s' = metric_attributes_providers s.
Ltac blind_step := repeat (intros; first
  [ apply blind_bind | apply blind_instruments | apply blind_when | apply blind_ret | apply blind_raise
  | match goal with |- blind (if ?b then _ else _) => destruct b end ]).
Lemma blind_record gauges counters providers env m : blind (record_with gauges counters providers env m).
Proof. unfold record_with. blind_step. Qed.
Lemma record_metrics_local env m s s' x :
  same_instruments s s' -> exists r x', record_metrics env m (s, x) = (r, (s, x')) /\ record_metrics env m (s', x) = (r, (s', x')).
Proof.
  intros (Hg & Hc & Hp). unfold record_metrics, mget, mbind. cbn [fst]. rewrite Hg, Hc, Hp. apply blind_record.
Qed.
Lemma record_sync_local env m s s' x :
  same_instruments s s' -> exists r x', record_metric_sync env m (s, x) = (r, (s, x')) /\ record_metric_sync env m (s', x) = (r, (s', x')).
Proof.
  intros Hs. unfold record_metric_sync, mtry. destruct (record_metrics_local env m s s' x Hs) as (r & x' & -> & ->).
  destruct r as [a|e]; [by eexists _, _|]. destruct (negb (is_closed e)); by eexists _, _.
Qed.

(** ** Every metric is recorded, queued or counted as dropped *)
Inductive event := Dispatch (caller : environment) (m : metric) | Work.
Context (worker_env : environment).
Definition run_event (sx : mstate * X) (e : event) : mstate * X :=
  match e with Dispatch env m => (dispatch_metrics env m sx).2 | Work => worker_step worker_env sx end.
Definition dispatched (es : list event) : list metric := omap (fun e => match e with Dispatch _ m => Some m | Work => None end) es.
(** The metrics recorded one after the other with the instruments of [s] *)
Definition record_all (env : environment) (s : mstate) (l : list metric) (x : X) : X :=
  fold_left (fun x m => (record_metric_sync env m (s, x)).2.2) l x.
Record async_state (s0 : mstate) (x0 : X) (ms : list metric) (sx : mstate * X) (taken left : list metric) : Prop := {
  as_instruments : same_instruments s0 sx.1;
  as_enabled : async_metrics_enabled sx.1 = true;
  as_worker : metrics_worker sx.1 <> NoWorker;
  as_queue : metrics_queue sx.1 = Some (map Some left);
  as_bounded : length left <= MAX_ASYNC_QUEUE_SIZE;
  as_recorded : sx.2 = record_all worker_env s0 taken x0;
  as_sublist : sublist (taken ++ left) ms;
  as_count : length ms = length taken + length left + metrics_dropped_count sx.1;
}.
Lemma run_event_state s0 x0 ms sx taken left e :
  async_state s0 x0 ms sx taken left ->
  exists taken' left', async_state s0 x0 (ms ++ dispatched [e]) (run_event sx e) taken' left'.
Proof.
  intros [Hi He Hw Hq Hb Hr Hsub Hc]. destruct sx as [s x]. cbn [fst snd] in *. destruct e as [env m|].
  - change (dispatched [Dispatch env m]) with [m]. cbn [run_event]. unfold dispatch_metrics. rewrite He, Hq, length_map.
    destruct (Nat.ltb_spec (length left) MAX_ASYNC_QUEUE_SIZE) as [Hlt|Hge].
    + exists taken, (left ++ [m]). split; cbn [snd fst]; try done.
      * cbn. by rewrite map_app.
      * rewrite length_app. cbn [length]. lia.
      * rewrite app_assoc. by apply sublist_app.
      * rewrite !length_app. cbn [length metrics_dropped_count with_queue]. lia.
    + exists taken, left. split; cbn [snd fst]; try done.
      * by apply sublist_inserts_r.
      * rewrite length_app. cbn [length metrics_dropped_count]. lia.
  - change (dispatched [Work]) with (@nil metric). cbn [run_event]. rewrite app_nil_r. unfold worker_step. cbn [fst snd].
    destruct (metrics_worker s) eqn:Ew; [done| |by exists taken, left; split; cbn; rewrite ?Ew].
    destruct (metrics_worker_shutdown s); [by exists taken, left|]. rewrite Hq.
    destruct left as [|m left]; [by exists taken, []; split; cbn; rewrite ?Ew|]. cbn [map].
    assert (same_instruments s0 (with_queue (map Some left) s)) as Hi' by done.
    destruct (record_sync_local worker_env m s0 (with_queue (map Some left) s) x Hi') as (r & x' & Hr0 & ->).
    assert (x' = record_all worker_env s0 (taken ++ [m]) x0) as Hx.
    { unfold record_all. rewrite fold_left_app. cbn. fold (record_all worker_env s0 taken x0). by rewrite <- Hr, Hr0. }
    exists (taken ++ [m]), left. cbn [length] in *.
    destruct r; split; try done; cbn [fst snd with_worker with_queue metrics_dropped_count metrics_worker length]; rewrite ?Ew, ?length_app, <- ?app_assoc; cbn [length]; try done; lia.
Qed.
Lemma run_events_state s0 x0 ms sx taken left es :
  async_state s0 x0 ms sx taken left ->
  exists taken' left', async_state s0 x0 (ms ++ dispatched es) (fold_left run_event es sx) taken' left'.
Proof.
  revert ms sx taken left. induction es as [|e es IH]; intros ms sx taken left H; cbn [fold_left].
  { exists taken, left. cbn. by rewrite app_nil_r. }
  destruct (run_event_state s0 x0 ms sx taken left e H) as (t1 & l1 & H1). destruct (IH _ _ _ _ H1) as (t2 & l2 & H2).
  exists t2, l2. rewrite <- app_assoc in H2. replace (dispatched (e :: es)) with (dispatched [e] ++ dispatched es); [done|].
  unfold dispatched. cbn. by destruct e.
Qed.
(** The flush records what is left, unless the connection is closed *)
Lemma flush_all env s0 left tail s x :
  (forall m s x, (record_metric_sync env m (s, x)).1 = Ok tt) -> same_instruments s0 s -> (tail = [] \/ tail = [None]) ->
  metrics_queue s = Some (map Some left ++ tail) ->
  exists s', flush_queue env (length (map Some left ++ tail)) (s, x) = (s', record_all env s0 left x) /\ metrics_queue s' = Some [].
Proof.
  intros Hok. revert s x. induction left as [|m left IH]; intros s x Hs Ht Hq.
  { cbn [map app] in *. destruct Ht as [->| ->]; cbn [length flush_queue fst snd]; [by exists s|]. rewrite Hq. by eexists. }
  cbn [map app length flush_queue fst snd]. rewrite Hq. cbn [map app].
  assert (same_instruments s0 (with_queue (map Some left ++ tail) s)) as Hs' by done.
  destruct (record_sync_local env m s0 (with_queue (map Some left ++ tail) s) x Hs') as (r & x' & Hr0 & Hr1).
  pose proof (Hok m (with_queue (map Some left ++ tail) s) x) as Hm. rewrite Hr1 in Hm |- *. cbn in Hm. subst r.
  destruct (IH (with_queue (map Some left ++ tail) s) x') as (s' & -> & Hq'); [done|done|done|]. exists s'. split; [|done].
  unfold record_all. cbn. by rewrite Hr0.
Qed.
Lemma worker_stops s x n :
  metrics_worker_shutdown s = true -> exists w, Nat.iter n (worker_step worker_env) (s, x) = (with_worker w s, x).
Proof.
  intros Hsh. induction n as [|n [w IH]]; [exists (metrics_worker s); by destruct s|].
  change (Nat.iter (S n) (worker_step worker_env) (s, x)) with (worker_step worker_env (Nat.iter n (worker_step worker_env) (s, x))).
  rewrite IH. unfold worker_step. cbn [fst snd metrics_worker with_worker].
  destruct w; [by exists NoWorker| |by exists Stopped]. change (metrics_worker_shutdown (with_worker Running s)) with (metrics_worker_shutdown s).
  rewrite Hsh. by exists Stopped.
Qed.
Lemma shutdown_records env s0 left s x steps :
  (forall m s x, (record_metric_sync env m (s, x)).1 = Ok tt) -> same_instruments s0 s -> metrics_worker s <> NoWorker ->
  metrics_queue s = Some (map Some left) ->
  exists s', shutdown_async_telemetry worker_env env steps (s, x) = (s', record_all env s0 left x) /\ metrics_queue s' = Some [].
Proof.
  intros Hok Hi Hw Hq. unfold shutdown_async_telemetry. cbn [fst snd]. rewrite Hq, length_map.
  set (q := if (_ <? _)%nat then _ else _).
  assert (exists tail, q = map Some left ++ tail /\ (tail = [] \/ tail = [None])) as (tail & Hqt & Htail).
  { unfold q. destruct (_ <? _)%nat; [exists [None]; auto|exists []; rewrite app_nil_r; auto]. }
  clearbody q. subst q. set (s1 := mkMState _ _ _ _ _ _ _ _ _).
  assert (exists s', (let '(s, x) := Nat.iter steps (worker_step worker_env) (s1, x) in flush_queue env (length (default [] (metrics_queue s))) (s, x))
    = (s', record_all env s0 left x) /\ metrics_queue s' = Some []) as H.
  { destruct (worker_stops s1 x steps eq_refl) as (w & ->). unfold s1. cbn [with_worker metrics_queue default]. by apply (flush_all env s0 left tail). }
  destruct (metrics_worker s); [done|exact H|exact H].
Qed.
End Recording.
#[local] Opaque MAX_ASYNC_QUEUE_SIZE.

(** C28: with asynchronous metrics every measurement is recorded, waits in the
    queue or is counted as dropped: after any interleaving of calls with the
    worker, the instruments have been given the measurements that the worker
    took, in the order of the calls; these and the ones in the queue are those
    of the calls, less as many as were counted as dropped; the queue is within
    its bound; and a shutdown whose connection holds records the rest. *)
Theorem async_metrics_conserved {T : Type} `{!Sdk T, !Recorder T} (version provider : string) (worker_env env : environment)
    (s0 : mstate) (x0 : telemetry * T) (es : list event) (steps : nat)
    (Henabled : async_metrics_enabled s0 = true) (Hqueue : metrics_queue s0 = Some []) (Hdropped : metrics_dropped_count s0 = 0)
    (Hworker : metrics_worker s0 = Running) :
  exists taken left s x, fold_left (run_event version provider worker_env) es (s0, x0) = (s, x) /\
    x = record_all version provider worker_env s0 taken x0 /\ metrics_queue s = Some (map Some left) /\
    sublist (taken ++ left) (dispatched es) /\ length (dispatched es) = length taken + length left + metrics_dropped_count s /\
    length left <= MAX_ASYNC_QUEUE_SIZE /\
    ((forall m s x, (record_metric_sync version provider env m (s, x)).1 = Ok tt) ->
     exists s', shutdown_async_telemetry version provider worker_env env steps (s, x) = (s', record_all version provider env s0 left x) /\
       metrics_queue s' = Some []).
Proof.
  destruct (run_events_state version provider worker_env s0 x0 [] (s0, x0) [] [] es) as (taken & left & [Hi He Hw Hq Hb Hr Hsub Hc]).
  { split; try done; cbn; first [by rewrite Hworker|lia]. }
  destruct (fold_left (run_event version provider worker_env) es (s0, x0)) as [s x]. cbn [fst snd] in *.
  exists taken, left, s, x. split_and!; try done. intros Hok. by apply shutdown_records.
Qed.

(** ** Telemetry must not change the outcome of a call *)
(** With asynchronous metrics the wrapper returns what the call returns and
    does not touch the instruments. *)
Theorem async_wrapper_transparent {T W A : Type} `{!Sdk T, !Recorder T} (version provider : string) (import : string -> dict -> res AttributesProvider)
    (search : string -> res json) (config : option dict) (thunk : option (M (telemetry * T) unit)) (env : environment) (name : exc -> string)
    (elapsed : Z) (size : A -> payload) (o : Operation) (f : M W A) (w : W) (s : mstate) (x : telemetry * T) (q : list (option metric))
    (Hinit : metric_init_event s = true) (Henabled : async_metrics_enabled s = true) (Hqueue : metrics_queue s = Some q) :
  exists s', emit_metrics version provider import search config thunk env name elapsed size o f (w, (s, x)) = ((f w).1, ((f w).2, (s', x))).
Proof.
  unfold emit_metrics, init_metrics. cbn [fst snd]. rewrite Hinit. cbn [snd]. destruct (f w) as [r w'].
  unfold dispatch_metrics. rewrite Henabled, Hqueue. destruct (_ <? _)%nat; by eexists.
Qed.

(** Instruments that keep a log, and fail when the telemetry server is gone *)
Definition sink : Type := bool * list (nat * measure).
#[export] Instance sink_sdk : Sdk sink := {
  sdk_meter_provider _ _ _ := mret 0;
  sdk_get_meter _ _ := mret 0;
  sdk_create_gauge _ _ _ := mret 0;
  sdk_create_counter _ _ _ := mret 1;
  sdk_tracer_provider _ _ := mret 0;
  sdk_get_tracer _ _ := mret 0;
}.
#[export] Instance sink_recorder : Recorder sink := {
  gauge_set g m _ '(up, l) := if up : bool then (Ok tt, (up, l ++ [(g, m)])) else (Err EOFError, (up, l));
  counter_add c z _ '(up, l) := if up : bool then (Ok tt, (up, l ++ [(c, Amount z)])) else (Err EOFError, (up, l));
}.
Definition some_env : environment := mkEnvironment ∅ "host" ∅ ∅.
Definition with_instruments (async : bool) : mstate :=
  mkMState true (fun _ => Some 0) (fun _ => Some 1) [] async (if async then Some [] else None) (if async then Running else NoWorker) false 0.
Definition read_metric : metric := mkMetric READ 5 (Some 3%Z) None.
Lemma async_metrics_conserved_witness :
  exists (taken left : list metric) s x, fold_left (run_event (T := sink) "v" "p" some_env) [Dispatch some_env read_metric; Work; Dispatch some_env read_metric]
      (with_instruments true, (empty_telemetry, (true, []))) = (s, x) /\
    metrics_queue s = Some (map Some left) /\ length taken + length left + metrics_dropped_count s = 2.
Proof.
  destruct (async_metrics_conserved (T := sink) "v" "p" some_env some_env (with_instruments true) (empty_telemetry, (true, []))
    [Dispatch some_env read_metric; Work; Dispatch some_env read_metric] 0) as (taken & left & s & x & Hrun & _ & Hq & _ & Hc & _).
  - reflexivity.
  - reflexivity.
  - reflexivity.
  - reflexivity.
  - exists taken, left, s, x. split; [exact Hrun|]. split; [exact Hq|]. symmetry. exact Hc.
Defined.
Lemma async_wrapper_transparent_witness :
  exists s', emit_metrics (T := sink) (W := nat) "v" "p" (fun _ _ => Err ValueError) (fun _ => Err ValueError) None None some_env (fun _ => "e") 5
      (fun _ : nat => POther) READ (fun w => (Ok w, S w)) (7, (with_instruments true, (empty_telemetry, (false, []))))
    = (Ok 7, (8, (s', (empty_telemetry, (false, []))))).
Proof.
  apply (async_wrapper_transparent (T := sink) (W := nat) (A := nat) "v" "p" (fun _ _ => Err ValueError) (fun _ => Err ValueError) None None some_env
    (fun _ => "e") 5 (fun _ => POther) READ (fun w => (Ok w, S w)) 7 (with_instruments true) (empty_telemetry, (false, [])) []).
  - reflexivity.
  - reflexivity.
  - reflexivity.
Defined.
(** With synchronous metrics a failure of the instruments replaces the result
    of a call that succeeded, although the asynchronous path logs it. *)
Theorem sync_metrics_replace_result :
  (emit_metrics (T := sink) (W := nat) "v" "p" (fun _ _ => Err ValueError) (fun _ => Err ValueError) None None some_env (fun _ => "e") 5
     (fun _ : nat => POther) READ (fun w => (Ok w, S w)) (7, (with_instruments false, (empty_telemetry, (false, []))))).1 = Err EOFError.
Proof. vm_compute. reflexivity. Qed.
(** A latency below the resolution of the clock divides by zero. *)
Theorem zero_latency_fails_read :
  (emit_metrics (T := sink) (W := nat) "v" "p" (fun _ _ => Err ValueError) (fun _ => Err ValueError) None None some_env (fun _ => "e") 0
     (fun _ : nat => PInt 1) READ (fun w => (Ok w, S w)) (7, (with_instruments false, (empty_telemetry, (true, []))))).1 = Err ZeroDivisionError.
Proof. vm_compute. reflexivity. Qed.
(** The attributes of the thread are those of the worker, not those of the
    thread that made the call. *)
Theorem async_thread_is_worker {T : Type} `{!Sdk T, !Recorder T} (version provider : string) (caller worker : environment) (m : metric)
    (s : mstate) (x : telemetry * T) (Hs : async_metrics_enabled s = true) (Hq : metrics_queue s = Some []) (Hw : metrics_worker s = Running)
    (Hsh : metrics_worker_shutdown s = false) :
  (worker_step version provider worker (dispatch_metrics version provider caller m (s, x)).2).2 = (record_metric_sync version provider worker m (s, x)).2.2.
Proof.
  unfold dispatch_metrics. rewrite Hs, Hq. destruct (Nat.ltb_spec (length (@nil (option metric))) MAX_ASYNC_QUEUE_SIZE) as [_|H].
  - cbn [snd app]. unfold worker_step. cbn [fst snd metrics_worker metrics_worker_shutdown metrics_queue with_queue]. rewrite Hw, Hsh.
    destruct (record_sync_local version provider worker m s (with_queue [] (with_queue [Some m] s)) x) as (r & x' & H1 & H2); [done|].
    rewrite H1. unfold with_queue in *. cbn in *. rewrite H2. by destruct r.
  - pose proof queue_has_room. cbn [length] in H. lia.
Qed.
Lemma async_thread_is_worker_witness :
  (worker_step (T := sink) "v" "p" some_env (dispatch_metrics "v" "p" (mkEnvironment ∅ "other" ∅ ∅) read_metric
     (with_instruments true, (empty_telemetry, (true, [])))).2).2
  = (record_metric_sync "v" "p" some_env read_metric (with_instruments true, (empty_telemetry, (true, [])))).2.2.
Proof.
  apply (async_thread_is_worker (T := sink) "v" "p" (mkEnvironment ∅ "other" ∅ ∅) some_env read_metric (with_instruments true) (empty_telemetry, (true, []))).
  - reflexivity.
  - reflexivity.
  - reflexivity.
  - reflexivity.
Defined.
End ProviderMetrics.
