(* ===== verification/Provider.v ===== *)
(** * The base of the storage providers ([providers/base.py])

    [BaseStorageProvider]: the base path in front of every path, symlinks that
    are followed on reads, listing, globbing and the batch transfers, over the
    operations that a concrete provider implements.

    Those operations are the interface [StorageBackend]: one operation for each
    abstract method, and the native client where a provider has one.  Reading
    does not change the state.  Metrics are left out: [_emit_metrics] returns
    what the wrapped call returns and raises what it raises. *)
From S2P Require Import Prelude PyPath Types Utils Json Listing.

(** A local file given by its path, or the content of a file object *)
Inductive io := PathIO (p : string) | BytesIO (b : bytes).

Abbreviation provider_attributes := (gmap string string).

Class StorageBackend (W : Type) := {
  be_put_object : string -> bytes -> option string -> option string -> option provider_attributes -> M W Z;
  be_get_object : string -> option Range -> W -> res bytes;
  be_copy_object : string -> string -> M W Z;
  be_delete_object : string -> option string -> M W unit;
  (** [_delete_objects], where the provider overrides it *)
  be_delete_objects : option (list string -> M W unit);
  be_make_symlink : string -> string -> M W unit;
  be_get_object_metadata : string -> bool -> W -> res ObjectMetadata;
  be_list_objects : string -> option string -> option string -> bool -> SymlinkHandling -> W -> listing;
  be_shallow_list : string -> SymlinkHandling -> W -> res shallow_result;
  be_upload_file : string -> io -> option provider_attributes -> M W Z;
  (** to a local path *)
  be_download_file : string -> string -> option ObjectMetadata -> M W Z;
  (** to a file object: the bytes written to it, and how the call ended *)
  be_download_buffer : string -> option ObjectMetadata -> W -> bytes * res Z;
  be_supports_parallel_listing : bool;
  be_multipart_threshold : Z;
  (** the local file system *)
  be_makedirs : string -> M W unit;
  be_getsize : string -> W -> res Z;
  (** the native client: key, local path, multipart *)
  be_rust_download : option (string -> string -> bool -> M W Z);
  be_rust_upload : option (string -> string -> bool -> M W Z);
}.

(** ** Definitions *)
Definition MiB : Z := (1024 * 1024)%Z.
Definition DEFAULT_MULTIPART_THRESHOLD : Z := (64 * MiB)%Z.

(** [s.removeprefix(p)] *)
Definition removeprefix (p s : string) : string := if startswith s p then str_drop (String.length p) s else s.

(** [_append_delimiter] *)
Definition append_delimiter (s : string) : string := if endswith s "/" then s else s +:+ "/".

(** [json.dumps(value, separators=(",", ":"), sort_keys=True)] *)
Fixpoint dumps_compact (j : json) : string :=
  match j with
  | JList l => "[" +:+ join "," (map dumps_compact l) +:+ "]"
  | JDict d =>
      "{" +:+ join "," (map (fun kv => quote kv.1 +:+ ":" +:+ kv.2)
                (sort_by (fun a b => str_leb a.1 b.1) (map (fun kv => (kv.1, dumps_compact kv.2)) d))) +:+ "}"
  | _ => dumps j
  end.

(** [_prepare_provider_attributes] *)
Definition prepare_provider_attributes (a : option attributes) : option provider_attributes :=
  match a with
  | None => None
  | Some a =>
      if bool_decide (a = ∅) then None
      else Some ((fun v => match v with JStr s => s | _ => dumps_compact v end) <$> a)
  end.

Definition string_attributes (a : option provider_attributes) : option attributes :=
  match a with Some m => Some (JStr <$> m) | None => None end.

(** [_shallow_list] as the base class defines it *)
Definition split_shallow (path : string) (item : ObjectMetadata) (r : shallow_result) : shallow_result :=
  if bool_decide (type item = "directory") && bool_decide (symlink_target item = None) then
    if bool_decide (key item +:+ "/" = path) then r else ((key item +:+ "/") :: r.1, r.2)
  else (r.1, item :: r.2).
Definition shallow_list (path : string) (l : listing) : res shallow_result :=
  match raised l with
  | Some e => Err e
  | None => Ok (foldr (split_shallow path) ([], []) (yielded l))
  end.

(** Tasks of a thread pool in the order in which they complete: the failures by
    index, in that order *)
Fixpoint run_tasks {W} (tasks : list (nat * M W unit)) (w : W) : list (nat * exc) * W :=
  match tasks with
  | [] => ([], w)
  | (i, m) :: ts =>
      let '(r, w1) := m w in
      let '(fs, w2) := run_tasks ts w1 in
      (match r with Ok _ => fs | Err e => (i, e) :: fs end, w2)
  end.
Definition raise_failures {W} (fs : list BatchTransferFailure) : M W unit :=
  match fs with [] => mret tt | _ => mraise (make_BatchTransferError fs) end.

Section Base.
Context {W : Type} `{!StorageBackend W}.
Context (base_path : string).

(** [_prepend_base_path] *)
Definition prepend_base_path (path : string) : string := path_join base_path (lstrip slash path).
(** [key.removeprefix(self._base_path).lstrip("/")] *)
Definition strip_base_path (k : string) : string := lstrip slash (removeprefix base_path k).
Definition with_key (k : string) (o : ObjectMetadata) : ObjectMetadata :=
  mkObjectMetadata k (content_length o) (last_modified o) (type o) (content_type o) (etag o) (storage_class o)
    (metadata o) (symlink_target o).
Definition strip_key (o : ObjectMetadata) : ObjectMetadata := with_key (strip_base_path (key o)) o.

(** *** Objects *)
Definition put_object (path : string) (body : bytes) (if_match if_none_match : option string)
    (a : option attributes) : M W unit :=
  be_put_object (prepend_base_path path) body if_match if_none_match (prepare_provider_attributes a) ;;; mret tt.

(** A symlink target that is set and not empty *)
Definition link_of (m : ObjectMetadata) : option string :=
  match symlink_target m with Some "" => None | t => t end.

(** [_get_object_following_symlinks], [left] links still allowed *)
Fixpoint get_object_following_symlinks (left : nat) (visited : gset string) (path : string)
    (byte_range : option Range) (w : W) : res bytes :=
  res_bind (be_get_object path byte_range w) (fun data =>
  if negb (bool_decide (data = [])) then Ok data
  else
    res_bind (be_get_object_metadata path true w) (fun m =>
    match link_of m with
    | None => Ok data
    | Some t =>
        if bool_decide (path ∈ visited) then Err ValueError
        else match left with
             | 0 => Err ValueError
             | S left' => get_object_following_symlinks left' ({[path]} ∪ visited) (resolve_symlink_target path t)
                            byte_range w
             end
    end)).
Definition get_object (path : string) (byte_range : option Range) (w : W) : res bytes :=
  get_object_following_symlinks MAX_SYMLINK_DEPTH ∅ (prepend_base_path path) byte_range w.

(** [_resolve_symlink_path] *)
Fixpoint resolve_symlink_path (left : nat) (visited : gset string) (path : string) (w : W) : res string :=
  res_bind (be_get_object_metadata path true w) (fun m =>
  match link_of m with
  | None => Ok path
  | Some t =>
      if bool_decide (path ∈ visited) then Err ValueError
      else match left with
           | 0 => Err ValueError
           | S left' => resolve_symlink_path left' ({[path]} ∪ visited) (resolve_symlink_target path t) w
           end
  end).

Definition copy_object (src_path dest_path : string) : M W unit :=
  be_copy_object (prepend_base_path src_path) (prepend_base_path dest_path) ;;; mret tt.
Definition delete_object (path : string) (if_match : option string) : M W unit :=
  be_delete_object (prepend_base_path path) if_match.
Definition is_FileNotFoundError (e : exc) : bool := match e with FileNotFoundError => true | _ => false end.
(** [delete_objects] with the loop of [_delete_objects] of the base class *)
Definition delete_each (paths : list string) : M W unit :=
  mfor paths (fun p => mtry is_FileNotFoundError (be_delete_object p None) (fun _ => mret tt)).
Definition delete_objects (paths : list string) : M W unit :=
  default delete_each be_delete_objects (map prepend_base_path paths).
Definition make_symlink (path target : string) : M W unit :=
  be_make_symlink (prepend_base_path path) (prepend_base_path target).

Definition get_object_metadata (path : string) (strict : bool) (w : W) : res ObjectMetadata :=
  res_bind (be_get_object_metadata (prepend_base_path path) strict w) (fun m => Ok (strip_key m)).

Definition is_file (path : string) (w : W) : res bool :=
  match get_object_metadata path true w with
  | Ok m => Ok (bool_decide (type m = "file"))
  | Err FileNotFoundError => Ok false
  | Err e => Err e
  end.

(** *** Listing *)
(** The checks and the base path in front of a listing *)
Definition listing_args (path : string) (start_after end_at : option string)
    : res (string * option string * option string) :=
  if (match start_after, end_at with Some s, Some e => negb (str_ltb s e) | _, _ => false end)
  then Err ValueError
  else
    let path := prepend_base_path path in
    if bool_decide (strip_spaces path = "") then Err ValueError
    else Ok (path, prepend_base_path <$> truthy start_after, prepend_base_path <$> truthy end_at).

Definition unprefix (o : ObjectMetadata) : ObjectMetadata :=
  if bool_decide (base_path = "") then o else strip_key o.

(** The loop of [list_objects] when attributes are shown or filtered *)
Fixpoint attribute_loop (evaluator : option (attributes -> res bool)) (w : W) (l : list ObjectMetadata)
    (err : option exc) : listing :=
  match l with
  | [] => mkListing [] err
  | o :: l' =>
      match get_object_metadata (key (unprefix o)) true w with
      | Err _ => attribute_loop evaluator w l' err
      | Ok m =>
          match matches_attribute_filter_expression m evaluator with
          | Err e => mkListing [] (Some e)
          | Ok true => yield m (attribute_loop evaluator w l' err)
          | Ok false => attribute_loop evaluator w l' err
          end
      end
  end.

(** [list_objects]; [compile] is [create_attribute_filter_evaluator] *)
Definition list_objects (compile : string -> res (attributes -> res bool)) (path : string)
    (start_after end_at : option string) (include_directories : bool) (filter_expression : option string)
    (show_attributes : bool) (symlink_handling : SymlinkHandling) (w : W) : listing :=
  match listing_args path start_after end_at with
  | Err e => mkListing [] (Some e)
  | Ok (p, s, e) =>
      let objects := be_list_objects p s e include_directories symlink_handling w in
      match (match truthy filter_expression with
             | Some x => res_bind (compile x) (fun ev => Ok (Some ev))
             | None => Ok None
             end) with
      | Err x => mkListing [] (Some x)
      | Ok evaluator =>
          if (match truthy filter_expression with Some _ => true | None => false end) || show_attributes
          then attribute_loop evaluator w (yielded objects) (raised objects)
          else mkListing (map unprefix (yielded objects)) (raised objects)
      end
  end.

(** [list_objects_recursive] *)
Definition list_objects_recursive (path : string) (start_after end_at : option string)
    (max_workers look_ahead : nat) (symlink_handling : SymlinkHandling) (finished : nat -> string -> bool)
    (fuel : nat) (w : W) : option listing :=
  match listing_args path start_after end_at with
  | Err e => Some (mkListing [] (Some e))
  | Ok (p, s, e) =>
      match list_objects_recursive_impl (fun q => be_shallow_list q symlink_handling w) max_workers look_ahead s e
              be_supports_parallel_listing (fun q => be_list_objects q s e false symlink_handling w) finished fuel p with
      | None => None
      | Some l => Some (mkListing (map unprefix (yielded l)) (raised l))
      end
  end.

(** [glob] *)
Fixpoint glob_filter (evaluator : attributes -> res bool) (w : W) (keys : list string) : res (list string) :=
  match keys with
  | [] => Ok []
  | k :: ks =>
      res_bind (get_object_metadata k true w) (fun m =>
      res_bind (matches_attribute_filter_expression m (Some evaluator)) (fun ok =>
      res_bind (glob_filter evaluator w ks) (fun r => Ok (if ok : bool then k :: r else r))))
  end.
Definition provider_glob (globmatch : string -> string -> bool) (compile : string -> res (attributes -> res bool))
    (pattern : string) (filter_expression : option string) (w : W) : res (list string) :=
  let l := list_objects compile (extract_prefix_from_glob pattern) None None false None false FOLLOW w in
  match raised l with
  | Some e => Err e
  | None =>
      let matched := glob globmatch (insert_directories (map key (yielded l))) pattern in
      match truthy filter_expression with
      | Some x => res_bind (compile x) (fun ev => glob_filter ev w matched)
      | None => Ok matched
      end
  end.

(** *** Transfers *)
Definition upload_file (remote_path : string) (f : io) (a : option attributes) : M W unit :=
  be_upload_file (prepend_base_path remote_path) f (prepare_provider_attributes a) ;;; mret tt.

(** The path a download reads from *)
Definition download_source (remote_path : string) (m : option ObjectMetadata) (w : W) : res string :=
  let p := prepend_base_path remote_path in
  if match m with None => true | Some x => bool_decide (symlink_target x <> None) end
  then resolve_symlink_path MAX_SYMLINK_DEPTH ∅ p w else Ok p.
Definition download_file (remote_path local_path : string) (m : option ObjectMetadata) : M W unit :=
  fun w => match download_source remote_path m w with
           | Err e => (Err e, w)
           | Ok p => (be_download_file p local_path m ;;; mret tt) w
           end.
(** [download_file] to a file object: what is written to it and the outcome *)
Definition download_buffer (remote_path : string) (m : option ObjectMetadata) (w : W) : bytes * res unit :=
  match download_source remote_path m w with
  | Err e => ([], Err e)
  | Ok p => let '(b, r) := be_download_buffer p m w in (b, res_bind r (fun _ => Ok tt))
  end.

(** [_resolve_download_metadata]: missing entries are fetched; the first that
    fails raises *)
Fixpoint resolve_download_metadata (remote_paths : list string) (ms : list (option ObjectMetadata)) (w : W)
    : res (list ObjectMetadata) :=
  match remote_paths, ms with
  | rp :: rps, m :: ms' =>
      res_bind (match m with
                | Some m => Ok m
                | None => be_get_object_metadata (prepend_base_path rp) true w
                end) (fun m =>
      res_bind (resolve_download_metadata rps ms' w) (fun l => Ok (m :: l)))
  | _, _ => Ok []
  end.

Definition failure (sources destinations : list string) (fe : nat * exc) : BatchTransferFailure :=
  mkBatchTransferFailure (Z.of_nat fe.1) (nth fe.1 sources "") (nth fe.1 destinations "") fe.2.

(** [_download_files_threaded]; [completion] orders the tasks *)
Definition download_files_threaded (completion : list (nat * M W unit) -> list (nat * M W unit))
    (remote_paths local_paths : list string) (ms : list ObjectMetadata) : M W unit :=
  fun w =>
  let tasks := imap (fun i '(rp, lp, m) => (i, download_file rp lp (Some m)))
                 (zip (zip remote_paths local_paths) ms) in
  let '(fs, w') := run_tasks (completion tasks) w in
  raise_failures (map (failure remote_paths local_paths) fs) w'.

(** The preparation of a native download: the key, and whether in parts *)
Definition async_download_task (rust : string -> string -> bool -> M W Z) (remote_path local_path : string)
    (m : ObjectMetadata) : M W (M W unit) :=
  let key := (split_path (prepend_base_path remote_path)).2 in
  (if bool_decide (dirname local_path = "") then mret tt else be_makedirs (dirname local_path)) ;;;
  mret (rust key local_path (be_multipart_threshold <? content_length m)%Z ;;; mret tt).
(** The preparation of all items: the tasks and the failures so far *)
Fixpoint prepare_tasks {A} (prepare : A -> M W (M W unit)) (i : nat) (items : list A) (w : W)
    : list (nat * M W unit) * list (nat * exc) * W :=
  match items with
  | [] => ([], [], w)
  | x :: xs =>
      let '(r, w1) := prepare x w in
      let '(ts, fs, w2) := prepare_tasks prepare (S i) xs w1 in
      match r with
      | Ok t => ((i, t) :: ts, fs, w2)
      | Err e => (ts, (i, e) :: fs, w2)
      end
  end.
(** [asyncio.gather]: the tasks run in the order [completion]; the failures are
    collected by item *)
Definition gather (completion : list (nat * M W unit) -> list (nat * M W unit))
    (ts : list (nat * M W unit)) (w : W) : list (nat * exc) * W :=
  let '(fs, w') := run_tasks (completion ts) w in
  (sort_by (fun a b => (a.1 <=? b.1)%nat) fs, w').

(** [_download_files_async] *)
Definition download_files_async (rust : string -> string -> bool -> M W Z)
    (completion : list (nat * M W unit) -> list (nat * M W unit))
    (remote_paths local_paths : list string) (ms : list ObjectMetadata) : M W unit :=
  fun w =>
  let '(ts, fs1, w1) := prepare_tasks (fun '(rp, lp, m) => async_download_task rust rp lp m) 0
                          (zip (zip remote_paths local_paths) ms) w in
  let '(fs2, w2) := gather completion ts w1 in
  raise_failures (map (failure remote_paths local_paths) (fs1 ++ fs2)) w2.

(** [download_files]; without metadata every entry is missing *)
Definition download_files (completion : list (nat * M W unit) -> list (nat * M W unit))
    (remote_paths local_paths : list string) (ms : option (list (option ObjectMetadata))) (max_workers : Z)
    : M W unit :=
  fun w =>
  if negb (length remote_paths =? length local_paths)%nat then (Err ValueError, w)
  else if match ms with Some l => negb (length l =? length remote_paths)%nat | None => false end then (Err ValueError, w)
  else if (max_workers <? 1)%Z then (Err ValueError, w)
  else if bool_decide (remote_paths = []) then (Ok tt, w)
  else
    match resolve_download_metadata remote_paths (default (map (fun _ => None) remote_paths) ms) w with
    | Err e => (Err e, w)
    | Ok l =>
        match be_rust_download with
        | Some rust => download_files_async rust completion remote_paths local_paths l w
        | None => download_files_threaded completion remote_paths local_paths l w
        end
    end.

(** [_upload_files_threaded] *)
Definition upload_files_threaded (completion : list (nat * M W unit) -> list (nat * M W unit))
    (local_paths remote_paths : list string) (a : list (option attributes)) : M W unit :=
  fun w =>
  let tasks := imap (fun i '(lp, rp, x) => (i, upload_file rp (PathIO lp) x)) (zip (zip local_paths remote_paths) a) in
  let '(fs, w') := run_tasks (completion tasks) w in
  raise_failures (map (failure local_paths remote_paths) fs) w'.

Definition async_upload_task (rust : string -> string -> bool -> M W Z) (local_path remote_path : string)
    : M W (M W unit) :=
  let key := (split_path (prepend_base_path remote_path)).2 in
  fun w => match be_getsize local_path w with
           | Err e => (Err e, w)
           | Ok n => (Ok (rust local_path key (be_multipart_threshold <? n)%Z ;;; mret tt), w)
           end.

(** [_upload_files_async] *)
Definition upload_files_async (rust : string -> string -> bool -> M W Z)
    (completion : list (nat * M W unit) -> list (nat * M W unit)) (local_paths remote_paths : list string) : M W unit :=
  fun w =>
  let '(ts, fs1, w1) := prepare_tasks (fun '(lp, rp) => async_upload_task rust lp rp) 0
                          (zip local_paths remote_paths) w in
  let '(fs2, w2) := gather completion ts w1 in
  raise_failures (map (failure local_paths remote_paths) (fs1 ++ fs2)) w2.

(** [upload_files] *)
Definition upload_files (completion : list (nat * M W unit) -> list (nat * M W unit))
    (local_paths remote_paths : list string) (a : option (list (option attributes))) (max_workers : Z) : M W unit :=
  fun w =>
  if negb (length local_paths =? length remote_paths)%nat then (Err ValueError, w)
  else if match a with Some l => negb (length l =? length local_paths)%nat | None => false end then (Err ValueError, w)
  else if (max_workers <? 1)%Z then (Err ValueError, w)
  else if bool_decide (local_paths = []) then (Ok tt, w)
  else
    let has_any_attributes :=
      match a with Some l => existsb (fun x => match x with Some _ => true | None => false end) l | None => false end in
    match be_rust_upload, has_any_attributes with
    | Some rust, false => upload_files_async rust completion local_paths remote_paths w
    | _, _ => upload_files_threaded completion local_paths remote_paths (default (map (fun _ => None) local_paths) a) w
    end.
End Base.
