(* ===== verification/MemStore.v ===== *)
(** * A store in memory

    An implementation of [StorageBackend] by two finite maps: the objects of a
    store, by physical path, and the files of the local disk.  The theorems on
    the provider are applied to it, which shows that what they assume of a
    storage backend can hold; it is not a part of the program. *)
From S2P Require Import Prelude PyPath Types Utils Listing Provider Replica.

Record object := mkObject { data : bytes; target : option string; attrs : option provider_attributes }.
Record mem := mkMem { objects : gmap string object; disk : gmap string bytes }.

Definition file_bytes (d : bytes) : Z := Z.of_nat (length d).
Definition ranged (r : option Range) (d : bytes) : bytes :=
  match r with Some r => slice d (offset r) (size r) | None => d end.
(** The version of an object is its attribute [etag], if it has one. *)
Definition object_metadata (p : string) (o : object) : ObjectMetadata :=
  mkObjectMetadata p (file_bytes (data o)) 0 "file" None (attrs o ≫= (.!! "etag")) None None (target o).
Definition store_object (p : string) (o : object) (w : mem) : mem := mkMem (<[p := o]> (objects w)) (disk w).
Definition store_file (f : string) (d : bytes) (w : mem) : mem := mkMem (objects w) (<[f := d]> (disk w)).

(** The keys below a prefix, ascending *)
Definition keys_below (p : string) (w : mem) : list string :=
  filter (fun k => startswith k p = true) (sorted_str (map_to_list (objects w)).*1).
Definition lookup_metadata (w : mem) (k : string) : list ObjectMetadata :=
  match objects w !! k with Some o => [object_metadata k o] | None => [] end.
(** The child prefix that a key below [p] lies in, if any *)
Definition child_prefix (p k : string) : option string :=
  match split1 slash (str_drop (String.length p) k) with
  | (c, Some _) => Some (p +:+ c +:+ "/")
  | (_, None) => None
  end.
Definition mem_shallow (p : string) (w : mem) : shallow_result :=
  let p := append_delimiter p in
  (remove_dups (omap (child_prefix p) (keys_below p w)),
   concat (map (lookup_metadata w) (filter (fun k => child_prefix p k = None) (keys_below p w)))).

(** Upload and download of an object by its path *)
Definition mem_upload (p : string) (f : io) (a : option provider_attributes) : M mem Z := fun w =>
  match f with
  | BytesIO d => (Ok (file_bytes d), store_object p (mkObject d None a) w)
  | PathIO f =>
      match disk w !! f with
      | Some d => (Ok (file_bytes d), store_object p (mkObject d None a) w)
      | None => (Err FileNotFoundError, w)
      end
  end.
Definition mem_download (p f : string) : M mem Z := fun w =>
  match objects w !! p with
  | Some o => (Ok (file_bytes (data o)), store_file f (data o) w)
  | None => (Err FileNotFoundError, w)
  end.
Definition mem_metadata (p : string) (w : mem) : res ObjectMetadata :=
  match objects w !! p with Some o => Ok (object_metadata p o) | None => Err FileNotFoundError end.

(** [native]: the bucket of a native client *)
Definition mem_backend (native : option string) : StorageBackend mem := {|
  be_put_object := fun p d _ _ a w => (Ok (file_bytes d), store_object p (mkObject d None a) w);
  be_get_object := fun p r w =>
    match objects w !! p with Some o => Ok (ranged r (data o)) | None => Err FileNotFoundError end;
  be_copy_object := fun p q w =>
    match objects w !! p with
    | Some o => (Ok (file_bytes (data o)), store_object q o w)
    | None => (Err FileNotFoundError, w)
    end;
  be_delete_object := fun p _ w =>
    match objects w !! p with
    | Some _ => (Ok tt, mkMem (delete p (objects w)) (disk w))
    | None => (Err FileNotFoundError, w)
    end;
  be_delete_objects := None;
  be_multipart_threshold := DEFAULT_MULTIPART_THRESHOLD;
  be_make_symlink := fun p q w =>
    match encode_symlink_target "/" p q with
    | Ok t => (Ok tt, store_object p (mkObject [] (Some t) None) w)
    | Err e => (Err e, w)
    end;
  be_get_object_metadata := fun p _ w => mem_metadata p w;
  be_list_objects := fun p s e _ _ w =>
    mkListing (concat (map (lookup_metadata w)
      (filter (fun k => skipped s k = false /\ past_end e k = false) (keys_below p w)))) None;
  be_shallow_list := fun p _ w => Ok (mem_shallow p w);
  be_upload_file := mem_upload;
  be_download_file := fun p f _ => mem_download p f;
  be_download_buffer := fun p _ w =>
    match objects w !! p with
    | Some o => (data o, Ok (file_bytes (data o)))
    | None => ([], Err FileNotFoundError)
    end;
  be_supports_parallel_listing := true;
  be_makedirs := fun _ => mret tt;
  be_getsize := fun f w => match disk w !! f with Some d => Ok (file_bytes d) | None => Err FileNotFoundError end;
  be_rust_download := (fun b k f _ => mem_download (b +:+ "/" +:+ k) f) <$> native;
  be_rust_upload := (fun b f k _ => mem_upload (b +:+ "/" +:+ k) (PathIO f) None) <$> native;
|}.

Definition mem_put (l : list (string * object)) : mem := mkMem (list_to_map l) ∅.

#[global] Instance mem_temp : TempFiles mem := {|
  tf_write := fun b w => (Ok "/tmp/t", store_file "/tmp/t" b w);
  tf_exists := fun p w => bool_decide (is_Some (disk w !! p));
  tf_unlink := fun p w => (Ok tt, mkMem (objects w) (delete p (disk w)));
|}.
