(* ===== verification/ProviderProofs.v ===== *)
(** * Properties of the provider base

    The base path is transparent to the caller, symlinks are followed along
    their chain within the depth limit, and recursive listings are complete and
    sorted in the caller's keys. *)
From S2P Require Import Prelude PyPath Types Utils Retry Listing ListingProofs Provider MemStore.

(** ** The base path *)
Section BasePath.
Context (base_path : string).

(** What [_prepend_base_path] puts in front of a relative path *)
Definition base_prefix : string :=
  if bool_decide (base_path = "") || ends_slash base_path then base_path else base_path +:+ "/".

Lemma prepend_base_path_eq p : prepend_base_path base_path p = base_prefix +:+ lstrip slash p.
Proof.
  unfold prepend_base_path, path_join, base_prefix. unfold isabs. rewrite lstrip_no_lead.
  destruct (_ || _); [done|]. by rewrite str_app_assoc.
Qed.
Lemma prepend_relative p : startswith p "/" = false -> prepend_base_path base_path p = base_prefix +:+ p.
Proof. intros H. by rewrite prepend_base_path_eq, lstrip_id. Qed.
Lemma lstrip_slash_app s : lstrip slash ("/" +:+ s) = lstrip slash s.
Proof. done. Qed.
Lemma lstrip_idemp s : lstrip slash (lstrip slash s) = lstrip slash s.
Proof. apply lstrip_id, lstrip_no_lead. Qed.
Lemma base_prefix_shape : exists t, base_prefix = base_path +:+ t /\ forall s, lstrip slash (t +:+ s) = lstrip slash s.
Proof.
  unfold base_prefix. destruct (_ || _); [exists ""; by rewrite str_app_nil_r|]. exists "/". split; [done|].
  intros s. apply lstrip_slash_app.
Qed.
Lemma strip_prefixed s : strip_base_path base_path (base_prefix +:+ s) = lstrip slash s.
Proof.
  destruct base_prefix_shape as (t & -> & Ht). unfold strip_base_path, removeprefix.
  by rewrite str_app_assoc, startswith_app, str_drop_app, Ht.
Qed.
Lemma strip_prepend p : strip_base_path base_path (prepend_base_path base_path p) = lstrip slash p.
Proof. by rewrite prepend_base_path_eq, strip_prefixed, lstrip_idemp. Qed.
End BasePath.

(** a key that the provider hands out is the path that leads back to the
    object: removing the base path from the physical path gives the caller's
    path without its leading slashes, and prepending it again gives the same
    physical path. *)
Theorem base_path_roundtrip (base_path path : string) :
  strip_base_path base_path (prepend_base_path base_path path) = lstrip slash path /\
  prepend_base_path base_path (strip_base_path base_path (prepend_base_path base_path path)) =
    prepend_base_path base_path path.
Proof. rewrite strip_prepend. split; [done|]. by rewrite !prepend_base_path_eq, lstrip_idemp. Qed.

(** ** Following symlinks *)

(** A loop that probes a path for a result or for the path it links to *)
Section Follow.
Context {A : Type} (probe : string -> res (A + string)).

Fixpoint follow (left : nat) (visited : gset string) (cur : string) : res A :=
  res_bind (probe cur) (fun r =>
  match r with
  | inl a => Ok a
  | inr nxt =>
      if bool_decide (cur ∈ visited) then Err ValueError
      else match left with 0 => Err ValueError | S left' => follow left' ({[cur]} ∪ visited) nxt end
  end).
Definition probe_link (a b : string) : Prop := probe a = Ok (inr b).

Lemma probe_link_fun : deterministic probe_link.
Proof. unfold probe_link. intros a b b' H1 H2. congruence. Qed.

Lemma probe_follow_spec left visited cur :
  visited_ok probe_link visited cur ->
  match follow left visited cur with
  | Ok a => exists n q, n <= left /\ nsteps probe_link n cur q /\ probe q = Ok (inl a)
  | Err e => (exists n q, n <= left /\ nsteps probe_link n cur q /\ probe q = Err e) \/
             (e = ValueError /\ forall n q, n <= left -> nsteps probe_link n cur q -> ~ nf probe_link q)
  end.
Proof.
  revert visited cur. induction left as [|left IH]; intros visited cur Hvis; cbn [follow];
    (destruct (probe cur) as [[a|nxt]|e] eqn:E; cbn [res_bind];
     [exists 0, cur; split_and!; [lia|constructor|done]| |left; exists 0, cur; split_and!; [lia|constructor|done]]);
    (case_bool_decide as Hv; [right; split; [done|]; intros n q _; by eapply visited_cycle, Hv; [apply probe_link_fun|]|]).
  - right. split; [done|]. intros n q Hn Hs Hq. assert (n = 0) as -> by lia. inversion Hs; subst.
    apply Hq. by exists nxt.
  - specialize (IH _ nxt (visited_step probe_link visited cur nxt Hvis E)).
    destruct (follow left _ nxt) as [a|e].
    + destruct IH as (n & q & Hn & Hs & Hq). exists (S n), q. split_and!; [lia|by econstructor|done].
    + destruct IH as [(n & q & Hn & Hs & Hq)|[-> Hno]].
      * left. exists (S n), q. split_and!; [lia|by econstructor|done].
      * right. split; [done|]. intros n q Hn Hs Hq. inversion Hs as [|n' ? y ? Hy Hs']; subst; [apply Hq; by exists nxt|].
        rewrite (probe_link_fun _ _ _ Hy E) in Hs'. apply (Hno n' q); [lia|done|done].
Qed.
End Follow.

Section Symlinks.
Context {W : Type} `{!StorageBackend W} (w : W).

(** What a path leads to: an object's data, or the next path of its chain.  A
    symlink is an empty object with a target. *)
Definition object_probe (byte_range : option Range) (p : string) : res (bytes + string) :=
  res_bind (be_get_object p byte_range w) (fun data =>
  if negb (bool_decide (data = [])) then Ok (inl data)
  else res_bind (be_get_object_metadata p true w) (fun m =>
    match link_of m with None => Ok (inl data) | Some t => Ok (inr (resolve_symlink_target p t)) end)).
Definition metadata_probe (p : string) : res (string + string) :=
  res_bind (be_get_object_metadata p true w) (fun m =>
  match link_of m with None => Ok (inl p) | Some t => Ok (inr (resolve_symlink_target p t)) end).

Lemma get_object_follow byte_range left visited p :
  get_object_following_symlinks left visited p byte_range w = follow (object_probe byte_range) left visited p.
Proof.
  revert visited p. induction left as [|left IH]; intros visited p; cbn; unfold object_probe;
    (destruct (be_get_object p byte_range w) as [data|e]; cbn; [|done]);
    (destruct (negb _); cbn; [done|]);
    (destruct (be_get_object_metadata p true w) as [m|e]; cbn; [|done]);
    (destruct (link_of m) as [t|]; cbn; [|done]); destruct (bool_decide _); [done|done|done|]. apply IH.
Qed.
Lemma resolve_follow left visited p :
  resolve_symlink_path left visited p w = follow metadata_probe left visited p.
Proof.
  revert visited p. induction left as [|left IH]; intros visited p; cbn; unfold metadata_probe;
    (destruct (be_get_object_metadata p true w) as [m|e]; cbn; [|done]);
    (destruct (link_of m) as [t|]; cbn; [|done]); destruct (bool_decide _); [done|done|done|]. apply IH.
Qed.
Lemma resolve_symlink_path_spec p :
  match resolve_symlink_path MAX_SYMLINK_DEPTH ∅ p w with
  | Ok q => exists n, n <= MAX_SYMLINK_DEPTH /\ nsteps (probe_link metadata_probe) n p q /\
                      nf (probe_link metadata_probe) q
  | Err e => (exists n q, n <= MAX_SYMLINK_DEPTH /\ nsteps (probe_link metadata_probe) n p q /\ metadata_probe q = Err e) \/
             (e = ValueError /\ forall n q, n <= MAX_SYMLINK_DEPTH -> nsteps (probe_link metadata_probe) n p q ->
                                ~ nf (probe_link metadata_probe) q)
  end.
Proof.
  rewrite resolve_follow. pose proof (probe_follow_spec metadata_probe MAX_SYMLINK_DEPTH ∅ p) as H.
  specialize (H ltac:(intros v Hv; set_solver)).
  destruct (follow _ _ _ _) as [q|e]; [|done]. destruct H as (n & q' & Hn & Hs & Hq).
  assert (q' = q) as ->.
  { unfold metadata_probe in Hq. destruct (be_get_object_metadata q' true w) as [m|]; cbn in Hq; [|done].
    destruct (link_of m); congruence. }
  exists n. split_and!; [done|done|]. intros [b Hb]. unfold probe_link in Hb. congruence.
Qed.
End Symlinks.

(** Reading an object follows its symlinks and always ends: the data
    returned is that of the object at the end of a chain of at most eight
    links from the requested path; an error is one that the storage raised on
    that chain, or [ValueError] when no object that is not a link is reached
    within eight links, as on every cycle. *)
Theorem get_object_spec {W} `{!StorageBackend W} (base_path path : string) (byte_range : option Range) (w : W) :
  let links := probe_link (object_probe w byte_range) in
  let start := prepend_base_path base_path path in
  match get_object base_path path byte_range w with
  | Ok d => exists n q, n <= 8 /\ nsteps links n start q /\ nf links q /\ be_get_object q byte_range w = Ok d
  | Err e => (exists n q, n <= 8 /\ nsteps links n start q /\
                (be_get_object q byte_range w = Err e \/ be_get_object_metadata q true w = Err e)) \/
             (e = ValueError /\ forall n q, n <= 8 -> nsteps links n start q -> ~ nf links q)
  end.
Proof.
  cbn zeta. unfold get_object. rewrite get_object_follow.
  pose proof (probe_follow_spec (object_probe w byte_range) MAX_SYMLINK_DEPTH ∅ (prepend_base_path base_path path)) as H.
  specialize (H ltac:(intros v Hv; set_solver)).
  destruct (follow _ _ _ _) as [d|e].
  - destruct H as (n & q & Hn & Hs & Hq). exists n, q. split_and!; [done|done|intros [b Hb]; unfold probe_link in Hb; congruence|].
    unfold object_probe in Hq. destruct (be_get_object q byte_range w) as [data|]; cbn in Hq; [|done].
    destruct (negb _); cbn in Hq; [congruence|].
    destruct (be_get_object_metadata q true w) as [m|]; cbn in Hq; [|done]. destruct (link_of m); congruence.
  - destruct H as [(n & q & Hn & Hs & Hq)|H]; [left; exists n, q; split_and!; [done|done|]|by right].
    unfold object_probe in Hq. destruct (be_get_object q byte_range w) as [data|]; cbn in Hq; [|left; congruence].
    right. destruct (negb _); cbn in Hq; [done|].
    destruct (be_get_object_metadata q true w) as [m|]; cbn in Hq; [|congruence]. destruct (link_of m); congruence.
Qed.

(** ** Recursive listing in the caller's keys *)
Section ProviderListing.
Context (base_path : string).

(** A key below the base path, and the path relative to it *)
Definition below_base (k : string) : Prop :=
  exists rel, startswith rel "/" = false /\ k = base_prefix base_path +:+ rel.

Lemma strip_below k : below_base k -> k = base_prefix base_path +:+ strip_base_path base_path k.
Proof. intros (rel & Hrel & ->). by rewrite strip_prefixed, lstrip_id. Qed.
Lemma unprefix_key o : below_base (key o) -> key o = base_prefix base_path +:+ key (unprefix base_path o).
Proof.
  intros Hb. unfold unprefix. case_bool_decide as E; [|by apply strip_below].
  unfold base_prefix. by rewrite E.
Qed.

Lemma unprefix_sorted os :
  Forall (fun o => below_base (key o)) os -> StronglySorted key_lt os ->
  StronglySorted key_lt (map (unprefix base_path) os).
Proof.
  intros Hb. induction 1 as [|o os Hos IH Ho]; [constructor|]. apply Forall_cons in Hb as [Hb Hbs].
  cbn. constructor; [auto|]. rewrite Forall_map. rewrite Forall_forall in Ho. rewrite Forall_forall in Hbs |- *.
  intros o' Ho'. specialize (Ho o' Ho'). unfold key_lt, str_lt in *.
  by rewrite (unprefix_key o), (unprefix_key o'), str_ltb_app in Ho by auto.
Qed.

(** A bound of a listing that is relative to the base path *)
Definition relative_bound (b : option string) : Prop := forall s, b = Some s -> startswith s "/" = false.

Lemma prepend_nonempty s : s <> "" -> startswith s "/" = false -> prepend_base_path base_path s <> "".
Proof.
  intros Hs Hrel. rewrite prepend_relative by done. destruct (base_prefix base_path); [done|discriminate].
Qed.
Lemma truthy_prepend b :
  relative_bound b ->
  truthy (prepend_base_path base_path <$> truthy b) = (fun s => base_prefix base_path +:+ s) <$> truthy b.
Proof.
  intros Hb. destruct b as [s|]; [|done]. destruct (decide (s = "")) as [->|Hs]; [done|].
  assert (truthy (Some s) = Some s) as -> by (destruct s; done). cbn.
  pose proof (prepend_nonempty s Hs (Hb s eq_refl)) as Hne. rewrite prepend_relative in Hne |- * by auto.
  by destruct (base_prefix base_path +:+ s).
Qed.
Lemma str_leb_app (p a b : string) : str_leb (p +:+ a) (p +:+ b) = str_leb a b.
Proof. apply eq_bool_prop_intro. rewrite <- (negb_involutive (str_leb (p +:+ a) _)), <- (negb_involutive (str_leb a b)).
  by rewrite <- !str_ltb_leb, str_ltb_app. Qed.

Lemma in_range_prepend start_after end_at rel :
  relative_bound start_after -> relative_bound end_at ->
  in_range (prepend_base_path base_path <$> truthy start_after) (prepend_base_path base_path <$> truthy end_at)
    (base_prefix base_path +:+ rel) <-> in_range start_after end_at rel.
Proof.
  intros Hs He. unfold in_range, skipped, past_end. rewrite !truthy_prepend by done.
  destruct (truthy start_after), (truthy end_at); cbn; by rewrite ?str_leb_app, ?str_ltb_app.
Qed.
End ProviderListing.

(** Recursive listing of a provider in the caller's keys *)
Lemma provider_listing_sorted {W} `{!StorageBackend W} (base_path path : string)
    (start_after end_at : option string) (max_workers look_ahead : nat) (symlink_handling : SymlinkHandling)
    (finished : nat -> string -> bool) (n : nat) (os : list ObjectMetadata) (fuel : nat) (w : W)
    (Hparallel : be_supports_parallel_listing = true)
    (Hpath : strip_spaces (prepend_base_path base_path path) <> "")
    (Hrange : forall s e, start_after = Some s -> end_at = Some e -> str_lt s e)
    (Hstart : relative_bound start_after) (Hend : relative_bound end_at)
    (Htree : tree_at (fun q => be_shallow_list q symlink_handling w) (prepend_base_path base_path path) n os)
    (Hbelow : Forall (fun o => below_base base_path (key o)) os) (Hfuel : n <= fuel) :
  exists l, list_objects_recursive base_path path start_after end_at max_workers look_ahead symlink_handling
              finished fuel w = Some l /\
    raised l = None /\ StronglySorted key_lt (yielded l) /\
    forall o, o ∈ yielded l <-> o ∈ map (unprefix base_path) os /\ in_range start_after end_at (key o).
Proof.
  unfold list_objects_recursive, listing_args.
  assert ((match start_after, end_at with Some s, Some e => negb (str_ltb s e) | _, _ => false end) = false) as ->.
  { destruct start_after as [s|], end_at as [e|]; try done. by rewrite (Hrange s e eq_refl eq_refl). }
  rewrite bool_decide_false by done. rewrite Hparallel.
  destruct (list_recursive_sorted _ max_workers look_ahead (prepend_base_path base_path <$> truthy start_after)
    (prepend_base_path base_path <$> truthy end_at)
    (fun q => be_list_objects q (prepend_base_path base_path <$> truthy start_after)
       (prepend_base_path base_path <$> truthy end_at) false symlink_handling w)
    finished _ n os fuel Htree Hfuel) as (l & -> & Hr & Hs & Hm).
  assert (Forall (fun o => below_base base_path (key o)) (yielded l)) as Hb.
  { rewrite Forall_forall in Hbelow |- *. intros o Ho. apply Hbelow. by apply Hm. }
  eexists. split; [done|]. split; [done|]. cbn [yielded]. split; [by apply unprefix_sorted|].
  intros o. setoid_rewrite list_elem_of_In. rewrite !in_map_iff. setoid_rewrite <- list_elem_of_In.
  rewrite Forall_forall in Hbelow. split.
  - intros (o' & <- & Ho'). apply Hm in Ho' as [Ho' Hin]. split; [by exists o'|].
    rewrite (unprefix_key base_path o') in Hin by auto. by apply in_range_prepend in Hin.
  - intros [(o' & <- & Ho') Hin]. exists o'. split; [done|]. apply Hm. split; [done|].
    rewrite (unprefix_key base_path o') by auto. by apply in_range_prepend.
Qed.

(** C3: a recursive listing of a provider yields, in strictly ascending order
    of the caller's keys, exactly the objects below the path whose keys lie in
    the requested range, with the base path removed from every key. *)
Theorem provider_listing_complete {W} `{!StorageBackend W} (base_path path : string)
    (start_after end_at : option string) (max_workers look_ahead : nat) (symlink_handling : SymlinkHandling)
    (finished : nat -> string -> bool) (n : nat) (os : list ObjectMetadata) (fuel : nat) (w : W)
    (Hparallel : be_supports_parallel_listing = true)
    (Hpath : strip_spaces (prepend_base_path base_path path) <> "")
    (Hrange : forall s e, start_after = Some s -> end_at = Some e -> str_lt s e)
    (Hstart : relative_bound start_after) (Hend : relative_bound end_at)
    (Htree : tree_at (fun q => be_shallow_list q symlink_handling w) (prepend_base_path base_path path) n os)
    (Hbelow : Forall (fun o => below_base base_path (key o)) os) (Hfuel : n <= fuel) :
  exists l, list_objects_recursive base_path path start_after end_at max_workers look_ahead symlink_handling
              finished fuel w = Some l /\
    raised l = None /\ StronglySorted key_lt (yielded l) /\
    forall o, o ∈ yielded l <-> o ∈ map (unprefix base_path) os /\ in_range start_after end_at (key o).
Proof. by eapply provider_listing_sorted. Qed.

Section MemListing.
#[local] Instance mem_listing : StorageBackend mem := mem_backend None.

Definition four_objects : mem :=
  mem_put (map (fun k => (k, mkObject [x61] None None)) ["b/a.txt"; "b/a/b"; "b/a/c/d"; "b/e"]).

Lemma four_objects_tree : tree_at (fun q => be_shallow_list q FOLLOW four_objects) "b/" 7
  [example_object "b/a/c/d"; example_object "b/a/b"; example_object "b/a.txt"; example_object "b/e"].
Proof.
  apply (tree_at_ext example_shallow); [|apply example_tree]. intros q r. unfold example_shallow.
  repeat (case_decide; [subst; by intros [= <-]|]). done.
Qed.

Lemma provider_listing_complete_witness :
  exists l, list_objects_recursive "b" "" (Some "a.txt") None 2 2 FOLLOW (fun _ _ => true) 7 four_objects = Some l /\
    raised l = None /\ map key (yielded l) = ["a/b"; "a/c/d"; "e"].
Proof.
  destruct (provider_listing_complete "b" "" (Some "a.txt") None 2 2 FOLLOW (fun _ _ => true) 7
    [example_object "b/a/c/d"; example_object "b/a/b"; example_object "b/a.txt"; example_object "b/e"] 7 four_objects)
    as (l & Hl & Hr & _).
  - reflexivity.
  - vm_compute. discriminate.
  - done.
  - by intros s [= <-].
  - done.
  - apply four_objects_tree.
  - repeat (constructor; [eexists; split; [|reflexivity]; reflexivity|]). constructor.
  - lia.
  - exists l. split; [exact Hl|]. split; [exact Hr|].
    transitivity (match list_objects_recursive "b" "" (Some "a.txt") None 2 2 FOLLOW (fun _ _ => true) 7 four_objects with
      Some l => map key (yielded l) | None => [] end); [rewrite Hl|vm_compute]; reflexivity.
Defined.
End MemListing.
