(* ===== verification/Cloud.v ===== *)
(** * What the object store providers share ([providers/s3.py], [azure.py], [gcs.py])

    The local files that transfers read and write, the grouping of keys for
    batch deletes, and the contract of a listing with a delimiter.  The last
    part is a specification, not code: the providers are shown to implement it,
    and it satisfies what the recursive listing of the base class requires. *)
From S2P Require Import Prelude PyPath Types Utils Json Listing ListingProofs Provider.

(** ** The local disk *)
Class LocalDisk (W : Type) := {
  ld_getsize : string -> W -> res Z;
  ld_read : string -> W -> res bytes;
  ld_makedirs : string -> M W unit;
  (** an empty file with a fresh name in a directory, [NamedTemporaryFile] *)
  ld_mktemp : string -> M W string;
  ld_write : string -> bytes -> M W unit;
  ld_rename : string -> string -> M W unit;
  ld_exists : string -> W -> bool;
  ld_unlink : string -> M W unit;
}.
(** [f(w)] for a call that does not change the state *)
Definition reading {W A} (f : W -> res A) : M W A := fun w => (f w, w).

Section LocalDisk.
Context {W : Type} `{!LocalDisk W}.
(** [if os.path.dirname(f): safe_makedirs(os.path.dirname(f))] *)
Definition make_parent (f : string) : M W unit :=
  if bool_decide (dirname f = "") then mret tt else ld_makedirs (dirname f).
End LocalDisk.

(** ** Attributes *)
(** [validate_attributes] on the strings that the base class prepares *)
Definition validated_attributes (a : option provider_attributes) : res (option provider_attributes) :=
  res_bind (validate_attributes (string_attributes a)) (fun v => Ok (match v with Some _ => a | None => None end)).
(** [if attributes:] *)
Definition has_attributes (a : option provider_attributes) : bool :=
  match a with Some m => negb (bool_decide (m = ∅)) | None => false end.
(** [dict(metadata) if metadata else None] *)
Definition user_metadata (m : option provider_attributes) : option provider_attributes := if has_attributes m then m else None.
(** [s.strip(QUOTE)] for the double quote *)
Definition strip_quotes (s : string) : string := rstrip "034"%char (lstrip "034"%char s).

(** ** Translating exceptions *)
(** [_translate_errors(func)] with the table [f] of a provider *)
Definition translating {W A} (f : exc -> exc) (m : M W A) : M W A := fun w =>
  match m w with (Err e, w') => (Err (f e), w') | r => r end.
(** The exceptions of the native client, the same in every provider *)
Definition translate_rust (status_code : Z) : exc :=
  if (status_code =? 404)%Z then FileNotFoundError
  else if (status_code =? 403)%Z then PermissionError
  else RetryableError.

(** ** Credentials *)
(** The credentials provider of a storage provider and the clock *)
Class CredentialsSource (W : Type) := {
  cs_configured : bool;
  cs_get : W -> res Credentials;
  cs_refresh : M W unit;
  cs_now : W -> Z;
  cs_parse_time : string -> option Z;
  (** creates the client of the SDK from the current credentials *)
  cs_create_client : M W unit;
}.
(** [_refresh_blob_service_client_if_needed], [_refresh_gcs_client_if_needed] *)
Definition refresh_client_if_needed {W} `{!CredentialsSource W} : M W unit :=
  if cs_configured then
    let! c := reading cs_get in
    let! expired := reading (fun w => is_expired cs_parse_time c (cs_now w)) in
    if expired : bool then cs_refresh ;;; cs_create_client else mret tt
  else mret tt.

(** ** The native client *)
Record rust_object := mkRustObject {
  ro_key : string; ro_content_length : Z; ro_last_modified : Z; ro_object_type : string; ro_etag : option string }.
Record RustClient (W : Type) := mkRustClient {
  rc_put : string -> bytes -> M W unit;
  rc_get : string -> option Range -> W -> res bytes;
  rc_upload : string -> string -> M W unit;
  rc_upload_multipart_from_file : string -> string -> M W unit;
  rc_upload_multipart_from_bytes : string -> bytes -> M W unit;
  rc_download : string -> string -> M W unit;
  rc_download_multipart_to_file : string -> string -> M W unit;
  rc_list_recursive : string -> Z -> W -> res (list rust_object);
}.
Arguments rc_put {W} _ _ _ _. Arguments rc_get {W} _ _ _ _. Arguments rc_upload {W} _ _ _ _.
Arguments rc_upload_multipart_from_file {W} _ _ _ _. Arguments rc_upload_multipart_from_bytes {W} _ _ _ _.
Arguments rc_download {W} _ _ _ _. Arguments rc_download_multipart_to_file {W} _ _ _ _.
Arguments rc_list_recursive {W} _ _ _ _.

(** ** Grouping for batch deletes *)
(** [by_bucket.setdefault(bucket, []).append(key)] *)
Fixpoint group_add (b k : string) (g : list (string * list string)) : list (string * list string) :=
  match g with
  | [] => [(b, [k])]
  | (b', ks) :: g' => if decide (b' = b) then (b', ks ++ [k]) :: g' else (b', ks) :: group_add b k g'
  end.
Definition by_bucket (paths : list string) : list (string * list string) :=
  fold_left (fun g p => let '(b, k) := split_path p in group_add b k g) paths [].
(** [keys[i : i + limit] for i in range(0, len(keys), limit)] *)
Definition batches {A} (limit : nat) (l : list A) : list (list A) :=
  map (fun i => take limit (drop (i * limit) l)) (seq 0 ((length l + limit - 1) / limit)).

(** The statuses of a batch: missing objects count as deleted *)
Definition batch_failed (status_code : Z) : bool :=
  negb ((200 <=? status_code)%Z && (status_code <? 300)%Z || (status_code =? 404)%Z).
(** [if start_after: _, start_after = split_path(start_after)] *)
Definition key_bound (b : option string) : option string :=
  match truthy b with Some p => Some (split_path p).2 | None => b end.
(** [start_after < key and key <= end_at] where they are given *)
Definition in_bounds (start_after end_at : option string) (k : string) : bool :=
  match start_after with None => true | Some s => str_ltb s k end && match end_at with None => true | Some e => str_leb k e end.
Definition beyond (end_at : option string) (k : string) : bool := match end_at with None => false | Some e => str_ltb e k end.

(** ** Metadata of a directory *)
Definition directory_metadata (k : string) : ObjectMetadata :=
  mkObjectMetadata k 0 AWARE_DATETIME_MIN "directory" None None None None None.

(** ** The contract of a listing with a delimiter *)
(** The prefix up to the next slash that a key below [p] is rolled up into *)
Definition rollup (p k : string) : option string :=
  match split1 slash (str_drop (String.length p) k) with
  | (c, Some _) => Some (p +:+ c +:+ "/")
  | (_, None) => None
  end.

Section Delimited.
Context {E : Type} (ekey : E -> string).
(** The entries of a bucket below a prefix, its common prefixes and contents *)
Definition below (p : string) (es : list E) : list E := filter (fun e => startswith (ekey e) p = true) es.
Definition common_prefixes (p : string) (es : list E) : list string :=
  remove_dups (omap (fun e => rollup p (ekey e)) (below p es)).
Definition contents (p : string) (es : list E) : list E := filter (fun e => rollup p (ekey e) = None) (below p es).

(** The shallow listing of the path [bucket/prefix]: common prefixes, and the
    contents that are not directory markers *)
Context (meta : E -> ObjectMetadata).
Definition store_shallow (es : list E) (path : string) : shallow_result :=
  let '(b, p) := split_path path in
  (map (fun c => b +:+ "/" +:+ c) (common_prefixes p es),
   map meta (filter (fun e => ends_slash (ekey e) = false) (contents p es))).
End Delimited.

(** A shallow listing that implements the contract: the prefixes may come in any
    order, the objects come in the order of their keys *)
Definition implements (r : res shallow_result) (s : shallow_result) : Prop :=
  exists cps, r = Ok (cps, s.2) /\ cps ≡ₚ s.1.
