(* ===== verification/CloudProofs.v ===== *)
(** * Listings with a delimiter form a tree

    For keys without empty components, the shallow listings of a bucket satisfy
    the contract of the recursive listing ([tree_at]): its objects are exactly
    those below the prefix. *)
From S2P Require Import Prelude PyPath Types Utils Listing ListingProofs Provider ProviderProofs Cloud.

(** ** Keys *)
(** No empty component, except that a directory marker ends with a slash *)
Definition clean_key (k : string) : bool := negb (has_substr "//" k) && negb (startswith k "/").

Lemma has_substr_app t a b : has_substr t (a +:+ t +:+ b) = true.
Proof.
  induction a as [|c a IH]; [|rewrite str_app_cons; cbn [has_substr]; rewrite IH; apply orb_true_r].
  change ("" +:+ t +:+ b) with (t +:+ b). pose proof (startswith_app t b) as H.
  destruct (t +:+ b) as [|c s]; cbn [has_substr]; by rewrite H.
Qed.
Lemma rstrip_no_slash d : ends_slash d = false -> rstrip slash d = d.
Proof.
  induction d as [|a d IH]; [done|]. destruct d as [|b d].
  - cbn. intros H. by rewrite decide_False by (intros ->; done).
  - intros H. cbn [rstrip] in *. change (ends_slash (String a (String b d))) with (ends_slash (String b d)) in H.
    specialize (IH H). cbn [rstrip] in IH. rewrite IH. done.
Qed.

Lemma split1_some c s h t : split1 c s = (h, Some t) <-> has_char c h = false /\ s = h +:+ String c t.
Proof.
  split; [|intros [Hh ->]; by apply split1_no_char].
  revert h. induction s as [|a s IH]; intros h; cbn [split1]; [done|].
  case_decide as Ha; [intros [= <- <-]; by subst|]. destruct (split1 c s) as [h' t'] eqn:E. intros [= <- ->].
  destruct (IH h' eq_refl) as [H1 ->]. split; [|done]. cbn [has_char]. by rewrite decide_False.
Qed.
Lemma split1_none c s : snd (split1 c s) = None <-> has_char c s = false.
Proof.
  induction s as [|a s IH]; [done|]. cbn [split1 has_char]. case_decide; [done|]. by destruct (split1 c s).
Qed.

(** ** Rolled up keys *)
Lemma rollup_some p k c :
  startswith k p = true ->
  rollup p k = Some c <-> exists d r, has_char slash d = false /\ c = p +:+ d +:+ "/" /\ k = c +:+ r.
Proof.
  intros [s ->]%startswith_spec. unfold rollup. rewrite str_drop_app. split.
  - destruct (split1 slash s) as [d [r|]] eqn:E; [|done]. intros [= <-]. apply split1_some in E as [Hd ->].
    exists d, r. split_and!; [done|done|]. by rewrite !str_app_assoc.
  - intros (d & r & Hd & -> & Hk). rewrite !str_app_assoc in Hk. apply str_app_inj_l in Hk as ->.
    by rewrite (proj2 (split1_some slash _ d r)).
Qed.
Lemma rollup_none p k : startswith k p = true -> rollup p k = None <-> exists s, k = p +:+ s /\ has_char slash s = false.
Proof.
  intros [s ->]%startswith_spec. unfold rollup. rewrite str_drop_app.
  pose proof (split1_none slash s) as Hs. destruct (split1 slash s) as [d [r|]] eqn:E; cbn in *.
  - split; [done|]. intros (s' & He%str_app_inj_l & Hs'). subst. by apply Hs in Hs'.
  - split; [|done]. intros _. exists s. split; [done|]. by apply Hs.
Qed.
Lemma rollup_longer p k c : startswith k p = true -> rollup p k = Some c -> startswith c p = true /\ startswith k c = true /\ String.length p < String.length c.
Proof.
  intros Hk (d & r & _ & -> & ->)%rollup_some; [|done]. rewrite !startswith_app. split_and!; [done|done|].
  rewrite !str_length_app. cbn. lia.
Qed.
(** The directory of a common prefix *)
Lemma rollup_clean p k c : clean_key k = true -> startswith k p = true -> rollup p k = Some c ->
  rstrip slash c +:+ "/" = c /\ startswith c "/" = false.
Proof.
  unfold clean_key. rewrite andb_true_iff, !negb_true_iff. intros [Hd Hs] Hp (d & r & _ & -> & ->)%rollup_some; [|done].
  assert (startswith (p +:+ d +:+ "/") "/" = false) as Hrel.
  { rewrite <- str_app_assoc in Hs |- *. destruct ((p +:+ d) +:+ "/") as [|a s] eqn:E; [|done]. by destruct (p +:+ d). }
  split; [|done]. rewrite <- str_app_assoc in Hd, Hrel |- *. change (String.String "/" "") with (String slash "").
  rewrite rstrip_snoc, rstrip_no_slash; [done|].
  destruct (ends_slash (p +:+ d)) eqn:E; [|done]. apply ends_slash_inv in E as [d' E]. rewrite E in Hd.
  rewrite !str_app_assoc in Hd. change ("/" +:+ "/" +:+ r) with ("//" +:+ r) in Hd. by rewrite has_substr_app in Hd.
Qed.
(** Different common prefixes have no keys in common, and no key that is not
    rolled up has one. *)
Lemma rollup_disjoint p k1 k2 c1 c2 s :
  startswith k1 p = true -> startswith k2 p = true -> rollup p k1 = Some c1 -> rollup p k2 = Some c2 ->
  startswith s c1 = true -> startswith s c2 = true -> c1 = c2.
Proof.
  intros H1 H2 (d1 & ? & Hd1 & -> & _)%rollup_some (d2 & ? & Hd2 & -> & _)%rollup_some [r1 ->]%startswith_spec [r2 Hs]%startswith_spec;
    try done. rewrite !str_app_assoc in Hs. apply str_app_inj_l in Hs. do 2 f_equal.
  assert (split1 slash (d1 +:+ "/" +:+ r1) = split1 slash (d2 +:+ "/" +:+ r2)) as E by by rewrite Hs.
  change ("/" +:+ r1) with (String slash r1) in E. change ("/" +:+ r2) with (String slash r2) in E.
  rewrite !split1_no_char in E by done. congruence.
Qed.
Lemma rollup_leaf p k l c :
  startswith k p = true -> startswith l p = true -> rollup p k = Some c -> rollup p l = None -> startswith l c = false.
Proof.
  intros Hk Hl Hc Hn. destruct (startswith l c) eqn:E; [|done]. apply startswith_spec in E as [r Hr].
  apply rollup_some in Hc as (d & r' & Hd & -> & _); [|done].
  assert (rollup p l = Some (p +:+ d +:+ "/")) as Hsome by (apply rollup_some; [done|]; by exists d, r). congruence.
Qed.

(** ** Paths in a bucket *)
Lemma path_join_bucket b k : b <> "" -> has_char slash b = false -> startswith k "/" = false -> path_join b k = b +:+ "/" +:+ k.
Proof.
  intros Hb Hs Hk. unfold path_join, isabs. rewrite Hk, bool_decide_false by done.
  destruct (ends_slash b) eqn:E; [|done]. apply ends_slash_inv in E as [d ->]. rewrite has_char_app in Hs. cbn in Hs.
  by rewrite orb_true_r in Hs.
Qed.
(** A clean key that ends with a slash *)
Lemma marker_clean k : clean_key k = true -> ends_slash k = true -> rstrip slash k +:+ "/" = k /\ startswith (rstrip slash k) "/" = false.
Proof.
  unfold clean_key. rewrite andb_true_iff, !negb_true_iff. intros [Hd Hs] [d ->]%ends_slash_inv.
  change (String.String "/" "") with (String slash "") in *.
  assert (ends_slash d = false) as Hends.
  { destruct (ends_slash d) eqn:E; [|done]. apply ends_slash_inv in E as [d' ->]. rewrite str_app_assoc in Hd.
    change ("/" +:+ String slash "") with ("//" +:+ "") in Hd. by rewrite has_substr_app in Hd. }
  rewrite rstrip_snoc, rstrip_no_slash by done. split; [done|]. by destruct d as [|a d].
Qed.

Lemma split_full bucket p : bucket <> "" /\ has_char slash bucket = false -> split_path (bucket +:+ "/" +:+ p) = (bucket, p).
Proof.
  intros [Hne Hs]. unfold split_path. change ("/" +:+ p) with (String slash p).
  rewrite lstrip_id; [by rewrite split1_no_char|]. destruct bucket as [|a b]; [done|]. cbn in *. by py_cases.
Qed.
Lemma key_bound_full bucket s : bucket <> "" /\ has_char slash bucket = false -> key_bound ((fun k => bucket +:+ "/" +:+ k) <$> s) = s.
Proof.
  intros Hb. destruct s as [s|]; [|done]. unfold key_bound. cbn [fmap option_fmap option_map].
  assert (truthy (Some (bucket +:+ "/" +:+ s)) = Some (bucket +:+ "/" +:+ s)) as -> by (destruct Hb; by destruct bucket).
  by rewrite split_full.
Qed.

(** ** Lists *)
Lemma Forall2_choose {A B} (P : A -> B -> Prop) l : (forall x, x ∈ l -> exists y, P x y) -> exists ys, Forall2 P l ys.
Proof.
  induction l as [|x l IH]; intros H; [by exists []|]. destruct (H x) as [y Hy]; [set_solver|].
  destruct IH as [ys Hys]; [set_solver|]. exists (y :: ys). by constructor.
Qed.
Lemma list_elem_of_Forall2_l {A B} (P : A -> B -> Prop) l k x : Forall2 P l k -> x ∈ l -> exists y, y ∈ k /\ P x y.
Proof. intros H [i Hi]%list_elem_of_lookup. destruct (Forall2_lookup_l _ _ _ _ _ H Hi) as (y & Hy & ?). eauto using list_elem_of_lookup_2. Qed.
Lemma list_elem_of_Forall2_r {A B} (P : A -> B -> Prop) l k y : Forall2 P l k -> y ∈ k -> exists x, x ∈ l /\ P x y.
Proof. intros H [i Hi]%list_elem_of_lookup. destruct (Forall2_lookup_r _ _ _ _ _ H Hi) as (x & Hx & ?). eauto using list_elem_of_lookup_2. Qed.
Lemma StronglySorted_pairwise {A} (R : A -> A -> Prop) l :
  NoDup l -> (forall x y, x ∈ l -> y ∈ l -> x <> y -> R x y) -> StronglySorted R l.
Proof.
  induction 1 as [|x l Hx Hl IH]; intros H; constructor.
  - apply IH. intros a b Ha Hb. apply H; by right.
  - apply Forall_forall. intros y Hy. apply H; [by left|by right|]. by intros ->.
Qed.
Lemma filter_none {A} (P : A -> Prop) `{!forall x, Decision (P x)} l : Forall (fun x => ~ P x) l -> filter P l = [].
Proof. induction 1; [done|]. by rewrite filter_cons_False. Qed.
Lemma filter_every {A} (P : A -> Prop) `{!forall x, Decision (P x)} l : Forall P l -> filter P l = l.
Proof. induction 1 as [|x l Hx Hl IH]; [done|]. by rewrite filter_cons_True, IH. Qed.
Lemma StronglySorted_filter {A} (R : A -> A -> Prop) (P : A -> Prop) `{!forall x, Decision (P x)} l :
  StronglySorted R l -> StronglySorted R (filter P l).
Proof.
  induction 1 as [|x l Hl IH Hx]; [constructor|]. rewrite filter_cons. case_decide; [|done]. constructor; [done|].
  rewrite Forall_forall in Hx |- *. intros y [_ Hy]%list_elem_of_filter. by apply Hx.
Qed.

Lemma StronglySorted_map_in {A B} (f : A -> B) (R : A -> A -> Prop) (S : B -> B -> Prop) l :
  StronglySorted R l -> (forall x y, x ∈ l -> y ∈ l -> R x y -> S (f x) (f y)) -> StronglySorted S (map f l).
Proof.
  induction 1 as [|x l Hl IH Hx]; intros H; cbn; constructor.
  - apply IH. intros a b Ha Hb. apply H; by right.
  - rewrite Forall_map. rewrite Forall_forall in Hx |- *. intros y Hy. apply H; [by left|by right|by apply Hx].
Qed.

Lemma StronglySorted_NoDup {A} (R : A -> A -> Prop) l : (forall x, ~ R x x) -> StronglySorted R l -> NoDup l.
Proof.
  intros Hirr. induction 1 as [|x l Hl IH Hx]; constructor; [|done]. rewrite Forall_forall in Hx. intros H. by apply (Hirr x), Hx.
Qed.

(** ** Membership *)
Section Members.
Context {E : Type} (ekey : E -> string) (es : list E).
Lemma elem_of_below p e : e ∈ below ekey p es <-> e ∈ es /\ startswith (ekey e) p = true.
Proof. unfold below. rewrite list_elem_of_filter. tauto. Qed.
Lemma elem_of_common_prefixes p c :
  c ∈ common_prefixes ekey p es <-> exists e, e ∈ es /\ startswith (ekey e) p = true /\ rollup p (ekey e) = Some c.
Proof.
  unfold common_prefixes. rewrite elem_of_remove_dups, list_elem_of_omap. setoid_rewrite elem_of_below. naive_solver.
Qed.
Lemma elem_of_contents p e :
  e ∈ contents ekey p es <-> e ∈ es /\ startswith (ekey e) p = true /\ rollup p (ekey e) = None.
Proof. unfold contents. rewrite list_elem_of_filter, elem_of_below. tauto. Qed.
End Members.

(** The objects below a prefix *)
Section Objects.
Context {E : Type} (ekey : E -> string) (es : list E) (meta : E -> ObjectMetadata).
Definition objects_below (p : string) : list ObjectMetadata :=
  map meta (filter (fun e => ends_slash (ekey e) = false) (below ekey p es)).
Lemma elem_of_objects_below p o :
  o ∈ objects_below p <-> exists e, o = meta e /\ e ∈ es /\ startswith (ekey e) p = true /\ ends_slash (ekey e) = false.
Proof.
  unfold objects_below. rewrite list_elem_of_fmap. setoid_rewrite list_elem_of_filter. setoid_rewrite elem_of_below. naive_solver.
Qed.
End Objects.

(** ** The tree of a bucket *)
Section Tree.
Context {E : Type} (ekey : E -> string) (meta : E -> ObjectMetadata) (bucket : string) (es : list E).
Context (Hbucket : bucket <> "" /\ has_char slash bucket = false).
Context (Hkey : forall e, e ∈ es -> key (meta e) = bucket +:+ "/" +:+ ekey e).
Context (Hclean : Forall (fun e => clean_key (ekey e) = true) es).
Context (Hsorted : StronglySorted (fun a b => str_lt (ekey a) (ekey b)) es).
Abbreviation full p := (bucket +:+ "/" +:+ p).

Lemma common_prefix_below p c e : c ∈ common_prefixes ekey p es -> startswith (ekey e) c = true -> startswith (ekey e) p = true.
Proof.
  intros (e' & _ & Hp & Hc)%elem_of_common_prefixes [r ->]%startswith_spec.
  destruct (rollup_longer _ _ _ Hp Hc) as ([s ->]%startswith_spec & _). rewrite str_app_assoc. apply startswith_app.
Qed.
Lemma full_startswith p s : startswith (full s) (full p) = startswith s p.
Proof.
  destruct (startswith s p) eqn:E1, (startswith (full s) (full p)) eqn:E2; try done.
  - apply startswith_spec in E1 as [r ->]. rewrite <- E2. change ("/" +:+ p +:+ r) with (("/" +:+ p) +:+ r).
    rewrite <- str_app_assoc. by rewrite startswith_app.
  - apply startswith_spec in E2 as [r E2]. rewrite !str_app_assoc in E2. apply str_app_inj_l, str_app_inj_l in E2 as ->.
    by rewrite startswith_app in E1.
Qed.

(** What one shallow listing yields *)
Abbreviation prefix_items p := (map (fun c => full c) (common_prefixes ekey p es)).
Abbreviation object_items p := (map meta (filter (fun e => ends_slash (ekey e) = false) (contents ekey p es))).
Lemma store_shallow_full p : store_shallow ekey meta es (full p) = (prefix_items p, object_items p).
Proof. unfold store_shallow. by rewrite (split_full bucket p Hbucket). Qed.
Lemma elem_of_object_items p o :
  o ∈ object_items p -> exists e, o = meta e /\ e ∈ es /\ startswith (ekey e) p = true /\ rollup p (ekey e) = None.
Proof.
  rewrite list_elem_of_fmap. intros (e & -> & [_ He]%list_elem_of_filter). apply elem_of_contents in He as (?&?&?). eauto.
Qed.
Lemma object_items_sorted p : StronglySorted key_lt (object_items p).
Proof.
  eapply StronglySorted_map_in; [unfold contents, below; do 3 apply StronglySorted_filter; exact Hsorted|].
  intros x y [_ [Hx _]%elem_of_contents]%list_elem_of_filter [_ [Hy _]%elem_of_contents]%list_elem_of_filter Hlt.
  unfold key_lt, str_lt. rewrite !Hkey by done. by rewrite !str_ltb_app.
Qed.
Lemma items_separate p x y :
  x ∈ map Prefix (prefix_items p) ++ map Object (object_items p) ->
  y ∈ map Prefix (prefix_items p) ++ map Object (object_items p) -> x <> y -> separate x y.
Proof.
  assert (forall c o, c ∈ common_prefixes ekey p es -> o ∈ object_items p -> separate (Prefix (full c)) (Object o)) as Hpo.
  { intros c o (e & He & Hp & Hc)%elem_of_common_prefixes (e' & -> & He' & Hp' & Hn)%elem_of_object_items s Hs ->.
    cbn [in_zone] in Hs. rewrite Hkey, full_startswith in Hs by done. by rewrite (rollup_leaf p (ekey e) (ekey e') c) in Hs. }
  rewrite !elem_of_app, !list_elem_of_fmap. setoid_rewrite list_elem_of_fmap.
  intros [(? & -> & c & -> & Hc)|(o & -> & Ho)] [(? & -> & c' & -> & Hc')|(o' & -> & Ho')] Hne.
  - intros s Hs Hs'. apply Hne. do 2 f_equal. cbn [in_zone] in Hs, Hs'.
    apply elem_of_common_prefixes in Hc as (e & He & Hp & Hc). apply elem_of_common_prefixes in Hc' as (e' & He' & Hp' & Hc').
    apply startswith_spec in Hs as [r Hs]. rewrite Hs in Hs'. rewrite !str_app_assoc in Hs'.
    rewrite full_startswith in Hs'. f_equal. by eapply (rollup_disjoint p (ekey e) (ekey e') c c' (c +:+ r)); [..|apply startswith_app|].
  - apply Hpo; [done|]. by apply list_elem_of_fmap.
  - apply separate_sym, Hpo; [done|]. by apply list_elem_of_fmap.
  - intros s Hs Hs'. cbn [in_zone] in Hs, Hs'. subst s. apply Hne. do 2 f_equal.
    destruct Ho as (e & -> & [_ [He _]%elem_of_contents]%list_elem_of_filter).
    destruct Ho' as (e' & -> & [_ [He' _]%elem_of_contents]%list_elem_of_filter).
    rewrite !Hkey in Hs' by done. apply str_app_inj_l, str_app_inj_l in Hs'. f_equal. by apply (sorted_inj ekey es).
Qed.
Lemma items_nodup p : NoDup (map Prefix (prefix_items p) ++ map Object (object_items p)).
Proof.
  apply NoDup_app. split_and!.
  - apply NoDup_fmap_2; [by intros ? ? [=]|]. apply NoDup_fmap_2; [|apply NoDup_remove_dups].
    intros a b H. by apply str_app_inj_l, str_app_inj_l in H.
  - intros x. rewrite !list_elem_of_fmap. naive_solver.
  - apply NoDup_fmap_2; [by intros ? ? [=]|]. eapply StronglySorted_NoDup, object_items_sorted.
    intros o Ho. by apply str_lt_irrefl in Ho.
Qed.
Lemma items_zone p x s : x ∈ map Prefix (prefix_items p) ++ map Object (object_items p) -> in_zone x s -> startswith s (full p) = true.
Proof.
  rewrite elem_of_app, !list_elem_of_fmap. setoid_rewrite list_elem_of_fmap.
  intros [(? & -> & c & -> & Hc)|(o & -> & Ho)]; cbn [in_zone].
  - intros [r ->]%startswith_spec. rewrite !str_app_assoc, full_startswith.
    apply elem_of_common_prefixes in Hc as (e & He & Hp & Hc).
    destruct (rollup_longer _ _ _ Hp Hc) as ([t ->]%startswith_spec & _). rewrite str_app_assoc. apply startswith_app.
  - intros ->. destruct Ho as (e & -> & [_ (He & Hp & _)%elem_of_contents]%list_elem_of_filter).
    by rewrite Hkey, full_startswith.
Qed.

(** The objects below a prefix are its own and those below its common prefixes. *)
Lemma elem_of_store_children p o :
  o ∈ objects_below ekey es meta p <->
  o ∈ object_items p \/ exists c, c ∈ common_prefixes ekey p es /\ o ∈ objects_below ekey es meta c.
Proof.
  rewrite elem_of_objects_below, list_elem_of_fmap. setoid_rewrite elem_of_objects_below. setoid_rewrite list_elem_of_filter.
  split.
  - intros (e & -> & He & Hp & Hs). destruct (rollup p (ekey e)) as [c|] eqn:Hr.
    + right. exists c. split; [apply elem_of_common_prefixes; eauto|]. exists e. split_and!; try done.
      by destruct (rollup_longer _ _ _ Hp Hr) as (_ & ? & _).
    + left. exists e. split_and!; [done|done|]. by apply elem_of_contents.
  - intros [(e & -> & Hs & (He & Hp & _)%elem_of_contents)|(c & Hc & e & -> & He & Hce & Hs)]; [eauto 6|].
    exists e. split_and!; eauto using common_prefix_below.
Qed.
(** Shallow listings that implement the contract *)
Context (shallow : string -> res shallow_result).
Context (Hshallow : forall p, implements (shallow (full p)) (store_shallow ekey meta es (full p))).
(** A tree of one prefix, as the specification describes it *)
Definition has_tree (p : string) (t : nat * list ObjectMetadata) : Prop :=
  tree_at shallow (full p) t.1 t.2 /\ forall o, o ∈ t.2 <-> o ∈ objects_below ekey es meta p.
Lemma store_node p : (forall c, c ∈ common_prefixes ekey p es -> exists t, has_tree c t) -> exists t, has_tree p t.
Proof.
  intros Hch. destruct (Hshallow p) as (cps & Hsh & Hcps). rewrite store_shallow_full in Hsh, Hcps. cbn [fst snd] in *.
  assert (map Prefix cps ++ map Object (object_items p) ≡ₚ map Prefix (prefix_items p) ++ map Object (object_items p)) as Hitems
    by by rewrite Hcps.
  assert (exists ts, Forall2 (fun q t => exists c, q = full c /\ c ∈ common_prefixes ekey p es /\ has_tree c t) cps ts) as [ts Hts].
  { apply Forall2_choose. intros q. rewrite Hcps. intros (c & -> & Hc)%list_elem_of_fmap. destruct (Hch c Hc) as [t Ht]. exists t. eauto. }
  exists (S (sum_list (ts.*1) + length (object_items p)), concat (ts.*2) ++ object_items p). split; cbn [fst snd].
  - apply (tree_node _ (full p) cps (object_items p) ts); [done| | | |apply object_items_sorted].
    + eapply Forall2_impl; [exact Hts|]. by intros q t (c & -> & _ & [H _]).
    + rewrite Hitems. apply Forall_forall. intros x Hx s. by apply items_zone.
    + eapply separated_perm; [symmetry; exact Hitems|]. apply StronglySorted_pairwise; [apply items_nodup|]. intros x y. apply items_separate.
  - intros o. rewrite elem_of_store_children, elem_of_app.
    enough (o ∈ concat ts.*2 <-> exists c, c ∈ common_prefixes ekey p es /\ o ∈ objects_below ekey es meta c) by tauto.
    rewrite list_elem_of_In, in_concat. setoid_rewrite <- list_elem_of_In. split.
    + intros (l & (t & -> & Ht)%list_elem_of_fmap & Ho).
      destruct (list_elem_of_Forall2_r _ _ _ _ Hts Ht) as (q & _ & c & _ & Hc & _ & Hos). exists c. split; [done|]. by apply Hos.
    + intros (c & Hc & Ho). assert (full c ∈ cps) as Hin by (rewrite Hcps; apply list_elem_of_fmap; by exists c).
      destruct (list_elem_of_Forall2_l _ _ _ _ Hts Hin) as (t & Ht & c' & Heq & _ & _ & Hos). apply str_app_inj_l, str_app_inj_l in Heq as <-.
      exists t.2. split; [apply list_elem_of_fmap; by exists t|]. by apply Hos.
Qed.

(** The shallow listings of the store below a prefix form a tree with exactly
    the objects below the prefix. *)
Lemma store_tree_below m p :
  (forall e, e ∈ below ekey p es -> String.length (ekey e) <= String.length p + m) -> exists t, has_tree p t.
Proof.
  revert p. induction m as [|m IH]; intros p Hlen;
    apply store_node; intros c Hcin; pose proof (proj1 (elem_of_common_prefixes _ _ p c) Hcin) as (e & He & Hp & Hc);
    destruct (rollup_longer _ _ _ Hp Hc) as (_ & [r Hr]%startswith_spec & Hl).
  - pose proof (Hlen e (proj2 (elem_of_below _ _ p e) (conj He Hp))) as H. rewrite Hr, str_length_app in H. lia.
  - apply IH. intros e' [He' Hce']%elem_of_below.
    pose proof (Hlen e' (proj2 (elem_of_below _ _ p e') (conj He' (common_prefix_below p c e' Hcin Hce')))). lia.
Qed.
Lemma store_tree p : exists t, has_tree p t.
Proof.
  apply (store_tree_below (max_list (map (fun e => String.length (ekey e)) es))). intros e [He _]%elem_of_below.
  enough (String.length (ekey e) <= max_list (map (fun e => String.length (ekey e)) es)) by lia.
  apply max_list_elem_of_le. apply list_elem_of_fmap. by exists e.
Qed.
End Tree.

(** ** From a listing to a shallow listing *)
Definition plain_directory (o : ObjectMetadata) : Prop := type o = "directory" /\ symlink_target o = None.
#[export] Instance plain_directory_dec o : Decision (plain_directory o).
Proof. unfold plain_directory. apply _. Defined.
Definition child_of (path : string) (o : ObjectMetadata) : option string :=
  if decide (plain_directory o) then if decide (key o +:+ "/" = path) then None else Some (key o +:+ "/") else None.
Lemma shallow_list_items path l :
  shallow_list path (mkListing l None) = Ok (omap (child_of path) l, filter (fun o => ~ plain_directory o) l).
Proof.
  unfold shallow_list. cbn [raised yielded]. f_equal. induction l as [|o l IH]; [done|]. cbn [foldr]. rewrite IH.
  unfold split_shallow. rewrite filter_cons. cbn [omap list_omap fst snd].
  destruct (decide (plain_directory o)) as [Ho|Ho].
  - assert (child_of path o = if decide (key o +:+ "/" = path) then None else Some (key o +:+ "/")) as ->
      by (unfold child_of; by rewrite decide_True).
    rewrite (decide_False (P := ~ plain_directory o)) by tauto. destruct Ho as [H1 H2]. rewrite !bool_decide_true by done. cbn [andb].
    case_bool_decide; [by rewrite decide_True|by rewrite decide_False].
  - assert (child_of path o = None) as -> by (unfold child_of; by rewrite decide_False).
    rewrite decide_True by done. unfold plain_directory in Ho.
    destruct (bool_decide (type o = "directory")) eqn:E1; [|done]. destruct (bool_decide (symlink_target o = None)) eqn:E2; [|done].
    apply bool_decide_eq_true in E1, E2. tauto.
Qed.
Lemma length_omap_le {A B} (f : A -> option B) l : length (omap f l) <= length l.
Proof. induction l as [|x l IH]; [done|]. change (omap f (x :: l)) with (match f x with Some y => y :: omap f l | None => omap f l end). destruct (f x); cbn; lia. Qed.
Lemma omap_cons_Some {A B} (f : A -> option B) x y l : f x = Some y -> omap f (x :: l) = y :: omap f l.
Proof. intros H. cbn. by rewrite H. Qed.
Lemma omap_concat {A B} (f : A -> option B) ls : omap f (concat ls) = concat (map (omap f) ls).
Proof. induction ls as [|l ls IH]; [done|]. cbn [concat map]. by rewrite omap_app, IH. Qed.
Lemma filter_concat {A} (P : A -> Prop) `{!forall x, Decision (P x)} ls : filter P (concat ls) = concat (map (filter P) ls).
Proof. induction ls as [|l ls IH]; [done|]. cbn [concat map]. by rewrite filter_app, IH. Qed.

(** The two kinds of items of a mixed list *)
Definition lefts {A B} (l : list (A + B)) : list A := omap (fun x => match x with inl a => Some a | inr _ => None end) l.
Definition rights {A B} (l : list (A + B)) : list B := omap (fun x => match x with inl _ => None | inr b => Some b end) l.
Lemma lefts_app {A B} (l l' : list (A + B)) : lefts (l ++ l') = lefts l ++ lefts l'.
Proof. apply omap_app. Qed.
Lemma rights_app {A B} (l l' : list (A + B)) : rights (l ++ l') = rights l ++ rights l'.
Proof. apply omap_app. Qed.
Lemma lefts_inl {A B} (l : list A) : lefts (map (@inl A B) l) = l.
Proof. induction l as [|x l IH]; [done|]. cbn. by f_equal. Qed.
Lemma rights_inl {A B} (l : list A) : rights (map (@inl A B) l) = [].
Proof. by induction l as [|x l IH]. Qed.
Lemma lefts_inr {A B} (l : list B) : lefts (map (@inr A B) l) = [].
Proof. by induction l as [|x l IH]. Qed.
Lemma rights_inr {A B} (l : list B) : rights (map (@inr A B) l) = l.
Proof. induction l as [|x l IH]; [done|]. cbn. by f_equal. Qed.
Lemma lefts_rights_length {A B} (l : list (A + B)) : length l = length (lefts l) + length (rights l).
Proof. unfold lefts, rights. induction l as [|[a|b] l IH]; cbn in *; lia. Qed.

Section ShallowItems.
Context {E : Type} (ekey : E -> string) (bucket p : string) (es : list E).
Context (Hbucket : bucket <> "" /\ has_char slash bucket = false).
Context (Hclean : Forall (fun e => clean_key (ekey e) = true) es).
Abbreviation path := (bucket +:+ "/" +:+ p).
(** The directory of a common prefix is a child, that of a marker is not. *)
Lemma prefix_child c :
  c ∈ common_prefixes ekey p es -> child_of path (directory_metadata (path_join bucket (rstrip slash c))) = Some (bucket +:+ "/" +:+ c).
Proof.
  intros (e & He & Hp & Hc)%elem_of_common_prefixes. rewrite Forall_forall in Hclean.
  destruct (rollup_clean _ _ _ (Hclean e He) Hp Hc) as [Hr Hs]. destruct (rollup_longer _ _ _ Hp Hc) as (_ & _ & Hl).
  assert (startswith (rstrip slash c) "/" = false) as Hs'.
  { rewrite <- Hr in Hs. destruct (rstrip slash c) as [|a d]; [done|]. exact Hs. }
  destruct Hbucket as [Hb1 Hb2]. unfold child_of. rewrite decide_True by done. cbn [key directory_metadata].
  rewrite path_join_bucket by done. rewrite !str_app_assoc, Hr, decide_False; [done|].
  intros Hpath. apply str_app_inj_l, str_app_inj_l in Hpath. subst. lia.
Qed.
Lemma marker_child e o :
  e ∈ contents ekey p es -> ends_slash (ekey e) = true -> plain_directory o -> key o = path_join bucket (rstrip slash (ekey e)) ->
  child_of path o = None.
Proof.
  intros (He & Hp & Hr)%elem_of_contents Hends Ho Hk. apply rollup_none in Hr as (s & Hs & Hns); [|done].
  assert (s = "") as ->. { destruct s as [|a s]; [done|]. rewrite Hs, ends_slash_app in Hends by done. done. }
  rewrite str_app_nil_r in Hs. rewrite Forall_forall in Hclean. destruct (marker_clean _ (Hclean e He) Hends) as [Hm Hms].
  destruct Hbucket as [Hb1 Hb2]. unfold child_of. rewrite decide_True by done. rewrite decide_True; [done|].
  rewrite Hk, path_join_bucket by done. by rewrite !str_app_assoc, Hm, Hs.
Qed.
Lemma common_prefixes_length : length (common_prefixes ekey p es) <= length es.
Proof.
  clear. unfold common_prefixes. transitivity (length (omap (fun e => rollup p (ekey e)) (below ekey p es))).
  - apply submseteq_length, NoDup_submseteq; [apply NoDup_remove_dups|]. intros x. by rewrite elem_of_remove_dups.
  - etransitivity; [apply length_omap_le|]. apply length_filter.
Qed.
Lemma contents_length : length (contents ekey p es) <= length es.
Proof. clear. unfold contents, below. etransitivity; apply length_filter. Qed.

(** A listing that interleaves prefixes and entries: what each one becomes *)
Context (meta marker : E -> ObjectMetadata).
Definition delimited_item (x : string + E) : ObjectMetadata :=
  match x with
  | inl c => directory_metadata (path_join bucket (rstrip slash c))
  | inr e => if ends_slash (ekey e) then marker e else meta e
  end.
Context (Hmarker : forall e, plain_directory (marker e) /\ key (marker e) = path_join bucket (rstrip slash (ekey e))).
Context (Hmeta : forall e, ~ plain_directory (meta e)).
Lemma delimited_items_split items :
  Forall (fun x => match x with inl c => c ∈ common_prefixes ekey p es | inr e => e ∈ contents ekey p es end) items ->
  omap (child_of path) (map delimited_item items) = map (fun c => bucket +:+ "/" +:+ c) (lefts items) /\
  filter (fun o => ~ plain_directory o) (map delimited_item items) = map meta (filter (fun e => ends_slash (ekey e) = false) (rights items)).
Proof.
  induction 1 as [|x items Hx Hl [IH1 IH2]]; [done|]. destruct x as [c|e]; cbn [map delimited_item omap list_omap].
  - change (lefts (inl c :: items)) with (c :: lefts items). change (rights (inl c :: items)) with (rights items).
    rewrite (prefix_child c Hx), filter_cons_False by (intros H; by apply H). cbn [map]. by rewrite IH1, IH2.
  - change (lefts (inr e :: items)) with (lefts items). change (rights (inr e :: items)) with (e :: rights items). rewrite (filter_cons _ e).
    destruct (ends_slash (ekey e)) eqn:Ee.
    + destruct (Hmarker e) as [Hd Hk]. rewrite (marker_child e (marker e) Hx Ee Hd Hk), filter_cons_False by tauto.
      by rewrite decide_False.
    + assert (child_of path (meta e) = None) as -> by (unfold child_of; by rewrite decide_False).
      rewrite filter_cons_True, decide_True by done. cbn [map]. by rewrite IH1, IH2.
Qed.
(** Such a listing implements the contract when it has the common prefixes, in
    any order, and the contents. *)
Lemma delimited_items_implement items :
  lefts items ≡ₚ common_prefixes ekey p es -> rights items = contents ekey p es ->
  implements (shallow_list path (mkListing (map delimited_item items) None)) (store_shallow ekey meta es path).
Proof.
  intros Hc He. destruct (delimited_items_split items) as [H1 H2].
  - apply Forall_forall. intros [c|e] Hx; [rewrite <- Hc|rewrite <- He]; apply list_elem_of_omap; eauto.
  - rewrite shallow_list_items, H1, H2, He, store_shallow_full by done. eexists. split; [done|]. cbn [fst]. by rewrite Hc.
Qed.
End ShallowItems.

(** ** Recursive listings *)
Lemma split_bucket b p q : split_path q = (b, p) -> startswith q "/" = false -> p <> "" -> q = b +:+ "/" +:+ p.
Proof.
  unfold split_path. intros Hs Hq Hp. rewrite lstrip_id in Hs by done. destruct (split1 slash q) as [h [t|]] eqn:E; [|congruence].
  injection Hs as -> ->. by apply split1_some in E as [_ ->].
Qed.
Lemma ends_slash_last x p : p <> "" -> ends_slash (x +:+ p) = ends_slash p.
Proof.
  intros Hp. induction x as [|a x IH]; [done|]. rewrite str_app_cons, <- IH. cbn [ends_slash].
  destruct (x +:+ p) eqn:Ex; [|done]. destruct x; cbn in Ex; [by subst|done].
Qed.
(** Clean keys below a path lie below the base path. *)
Lemma clean_below_base base_path path bucket p k :
  bucket <> "" -> has_char slash bucket = false -> prepend_base_path base_path path = bucket +:+ "/" +:+ p -> clean_key k = true -> startswith k p = true ->
  below_base base_path (bucket +:+ "/" +:+ k).
Proof.
  intros Hb1 Hb2 Hpath Hk [r ->]%startswith_spec. rewrite prepend_base_path_eq in Hpath.
  exists (lstrip slash path +:+ r). split; [|by rewrite <- (str_app_assoc (base_prefix base_path)), Hpath, !str_app_assoc].
  pose proof (lstrip_no_lead slash path) as Hl. destruct (lstrip slash path) as [|a s]; [|exact Hl].
  rewrite str_app_nil_r in Hpath. change ("" +:+ r) with r.
  unfold clean_key in Hk. rewrite andb_true_iff, !negb_true_iff in Hk. destruct Hk as [Hd Hs].
  assert (ends_slash (base_prefix base_path) = true) as Hends.
  { unfold base_prefix in *. destruct (bool_decide (base_path = "")) eqn:E1; cbn [orb] in *.
    - apply bool_decide_eq_true in E1. subst. by destruct bucket.
    - destruct (ends_slash base_path) eqn:E2; [done|]. apply ends_slash_snoc. }
  destruct (decide (p = "")) as [->|Hp]; [done|].
  assert (ends_slash p = true) as [d ->]%ends_slash_inv.
  { rewrite Hpath, <- str_app_assoc, ends_slash_last in Hends by done. done. }
  destruct r as [|a r]; [done|]. cbn [startswith]. case_decide as Ha; [|done]. subst a.
  rewrite str_app_assoc in Hd. change ("/" +:+ String "/" r) with ("//" +:+ r) in Hd. by rewrite has_substr_app in Hd.
Qed.
(** A provider whose shallow listings implement the contract lists a bucket
    completely. *)
Lemma cloud_listing_complete {W E} `{!StorageBackend W} (ekey : E -> string) (meta : E -> ObjectMetadata)
    (bucket p : string) (es : list E) (base_path path : string) (start_after end_at : option string)
    (symlink_handling : SymlinkHandling) (w : W)
    (Hbucket : bucket <> "" /\ has_char slash bucket = false)
    (Hkey : forall e, e ∈ es -> key (meta e) = bucket +:+ "/" +:+ ekey e)
    (Hclean : Forall (fun e => clean_key (ekey e) = true) es)
    (Hsorted : StronglySorted (fun a b => str_lt (ekey a) (ekey b)) es)
    (Hshallow : forall q, implements (be_shallow_list (bucket +:+ "/" +:+ q) symlink_handling w)
       (store_shallow ekey meta es (bucket +:+ "/" +:+ q)))
    (Hparallel : be_supports_parallel_listing = true)
    (Hpath : prepend_base_path base_path path = bucket +:+ "/" +:+ p)
    (Hspaces : strip_spaces (bucket +:+ "/" +:+ p) <> "")
    (Hrange : forall s e, start_after = Some s -> end_at = Some e -> str_lt s e)
    (Hstart : relative_bound start_after) (Hend : relative_bound end_at) :
  exists n, forall fuel max_workers look_ahead finished, n <= fuel ->
  exists l, list_objects_recursive base_path path start_after end_at max_workers look_ahead symlink_handling
              finished fuel w = Some l /\
    raised l = None /\ StronglySorted key_lt (yielded l) /\
    forall o, o ∈ yielded l <-> in_range start_after end_at (key o) /\
      exists e, e ∈ es /\ startswith (ekey e) p = true /\ ends_slash (ekey e) = false /\ o = unprefix base_path (meta e).
Proof.
  destruct (store_tree ekey meta bucket es Hbucket Hkey Hsorted (fun q => be_shallow_list q symlink_handling w) Hshallow p)
    as ([n os] & Htree & Hos). cbn [fst snd] in *. destruct Hbucket as [Hb1 Hb2]. rewrite Forall_forall in Hclean.
  exists n. intros fuel mw la fin Hfuel.
  destruct (provider_listing_sorted base_path path start_after end_at mw la symlink_handling fin n os fuel w) as (l & Hl & Hr & Hs & Hm);
    try done; rewrite ?Hpath; try done.
  - apply Forall_forall. intros o Ho. apply Hos, elem_of_objects_below in Ho as (e & -> & He & Hp & _).
    rewrite Hkey by done. eapply clean_below_base; eauto.
  - exists l. split_and!; [done|done|done|]. intros o. rewrite Hm, list_elem_of_fmap. setoid_rewrite Hos.
    setoid_rewrite elem_of_objects_below. naive_solver.
Qed.

(** ** Batches *)
Lemma take_drop_seq {A} (limit n : nat) (l : list A) :
  concat (map (fun i => take limit (drop (i * limit) l)) (seq 0 n)) = take (n * limit) l.
Proof.
  induction n as [|n IH]; [by rewrite take_0|]. rewrite seq_S, map_app, concat_app, IH. cbn [map concat]. rewrite app_nil_r.
  replace (S n * limit) with (n * limit + limit) by lia. cbn [Nat.add]. by rewrite <- take_take_drop.
Qed.
Lemma batches_concat {A} limit (l : list A) : 0 < limit -> concat (batches limit l) = l.
Proof.
  intros Hl. unfold batches. rewrite take_drop_seq. apply take_ge.
  pose proof (Nat.div_mod_eq (length l + limit - 1) limit) as H. pose proof (Nat.mod_upper_bound (length l + limit - 1) limit). nia.
Qed.
Lemma batches_bounded {A} limit (l : list A) : 0 < limit -> Forall (fun c => 0 < length c <= limit) (batches limit l).
Proof.
  intros Hl. unfold batches. rewrite Forall_map. apply Forall_forall. intros i [_ Hi]%elem_of_seq. rewrite length_take, length_drop.
  assert (i * limit < length l) as Hlt; [|lia].
  pose proof (Nat.div_mod_eq (length l + limit - 1) limit) as H. pose proof (Nat.mod_upper_bound (length l + limit - 1) limit). nia.
Qed.
(** The paths of groups and of requests *)
Definition group_paths (g : list (string * list string)) : list (string * string) :=
  concat (map (fun '(b, ks) => map (fun k => (b, k)) ks) g).
Lemma group_add_paths b k g : group_paths (group_add b k g) ≡ₚ (b, k) :: group_paths g.
Proof.
  induction g as [|[b' ks] g IH]; [done|]. cbn [group_add]. case_decide as E.
  - subst b'. unfold group_paths. cbn [map concat]. rewrite map_app, <- app_assoc. cbn [map app].
    by rewrite <- Permutation_middle.
  - unfold group_paths in *. cbn [map concat]. rewrite IH. by rewrite <- Permutation_middle.
Qed.
Lemma by_bucket_paths paths : group_paths (by_bucket paths) ≡ₚ map split_path paths.
Proof.
  unfold by_bucket. enough (forall l g, group_paths (fold_left (fun g p => let '(b, k) := split_path p in group_add b k g) l g) ≡ₚ
    group_paths g ++ map split_path l) as H by (by rewrite H).
  induction l as [|p l IH]; intros g; cbn [fold_left map]; [by rewrite app_nil_r|]. rewrite IH.
  destruct (split_path p) as [b k]. rewrite group_add_paths. cbn [app]. apply Permutation_middle.
Qed.
(** The requests of a batch delete *)
Definition delete_requests (limit : nat) (paths : list string) : list (string * list string) :=
  concat (map (fun '(b, ks) => map (fun chunk => (b, chunk)) (batches limit ks)) (by_bucket paths)).
Lemma delete_requests_paths limit paths : 0 < limit -> group_paths (delete_requests limit paths) ≡ₚ map split_path paths.
Proof.
  intros Hl. rewrite <- by_bucket_paths. unfold delete_requests. generalize (by_bucket paths) as g. intros g.
  enough (group_paths (concat (map (fun '(b, ks) => map (fun chunk => (b, chunk)) (batches limit ks)) g)) = group_paths g) as -> by done.
  unfold group_paths. induction g as [|[b ks] g IH]; [done|]. cbn [map concat]. rewrite map_app, concat_app, IH. f_equal.
  rewrite map_map. rewrite <- (batches_concat limit ks Hl) at 2. by rewrite concat_map.
Qed.
Lemma delete_requests_bounded limit paths : 0 < limit -> Forall (fun r => 0 < length r.2 <= limit) (delete_requests limit paths).
Proof.
  intros Hl. unfold delete_requests. apply Forall_concat. rewrite Forall_map. apply Forall_forall. intros [b ks] _.
  rewrite Forall_map. eapply Forall_impl; [by apply batches_bounded|]. done.
Qed.
