(* ===== verification/S3.v ===== *)
(** * The S3 provider ([providers/s3.py])

    [S3StorageProvider] over boto3, an interface here, and the optional native
    client.  Both raise their own exceptions, which [_translate_errors] turns
    into those of the library.  Text files ([StringIO]) are
    left out; the CloudFront signer ([CloudFront]) is a parameter. *)
From S2P Require Import Prelude PyDict PyPath Types Utils Json Listing Provider Cloud.

(** ** boto3 *)
(** The keyword arguments of [put_object] and the [ExtraArgs] of an upload *)
Record s3_args := mkS3Args {
  ContentType : option string;
  StorageClass : option string;
  IfMatch : option string;
  IfNoneMatch : option string;
  Metadata : option provider_attributes;
  ChecksumAlgorithm : option string;
}.
(** An element of [Contents], a page of a listing and a [head_object] response *)
Record s3_entry := mkEntry {
  Key : string; Size : Z; LastModified : Z; ETag : string; entry_storage_class : option string }.
Record s3_page := mkPage { CommonPrefixes : list string; Contents : list s3_entry }.
Record s3_head := mkHead {
  head_content_length : Z; head_content_type : option string; head_last_modified : option Z; head_etag : option string;
  head_storage_class : option string; head_metadata : option provider_attributes }.

Class Boto3 (W : Type) := {
  bo_put_object : string -> string -> bytes -> s3_args -> M W unit;
  bo_get_object : string -> string -> option string -> W -> res bytes;
  bo_copy : string -> string -> string -> string -> M W unit;
  bo_delete_object : string -> string -> option string -> M W unit;
  (** the keys of the reported errors *)
  bo_delete_objects : string -> list string -> M W (list string);
  (** bucket, prefix and [MaxKeys], with the delimiter *)
  bo_list_objects_v2 : string -> string -> Z -> W -> res s3_page;
  (** bucket, prefix, [Delimiter] and [StartAfter]: the pages and the exception
      that ends them *)
  bo_paginate : string -> string -> option string -> string -> W -> list s3_page * option exc;
  bo_head_object : string -> string -> W -> res s3_head;
  bo_upload_file : string -> string -> string -> s3_args -> M W unit;
  bo_upload_fileobj : bytes -> string -> string -> s3_args -> M W unit;
  (** what is written to the file object, and the exception *)
  bo_download_fileobj : string -> string -> W -> bytes * option exc;
  bo_generate_presigned_url : string -> string -> string -> Z -> W -> res string;
}.

(** ** Errors *)
Definition s3_translate (e : exc) : exc :=
  match e with
  | ClientError status_code error_code =>
      if (status_code =? 404)%Z then
        if bool_decide (error_code = "NoSuchUpload") then RetryableError else FileNotFoundError
      else if (status_code =? 412)%Z then PreconditionFailedError
      else if (status_code =? 429)%Z then RetryableError
      else if (status_code =? 503)%Z then RetryableError
      else if (status_code =? 501)%Z then NotImplementedError
      else if (status_code =? 408)%Z then RetryableError
      else RuntimeError
  | RustClientError status_code => translate_rust status_code
  | ReadTimeoutError | IncompleteReadError | ResponseStreamingError => RetryableError
  | RustRetryableError => RetryableError
  | _ => RuntimeError
  end.

(** ** Options of the constructor *)
Definition SUPPORTED_CHECKSUM_ALGORITHMS : list string := ["CRC32"; "CRC32C"; "SHA1"; "SHA256"; "CRC64NVME"].
Definition validate_checksum_algorithm (value : option json) : res (option string) :=
  match value with
  | None | Some JNull => Ok None
  | Some (JStr s) =>
      if bool_decide (s = "") then Err ValueError
      else if bool_decide (upper s ∈ SUPPORTED_CHECKSUM_ALGORITHMS) then Ok (Some (upper s)) else Err ValueError
  | Some _ => Err ValueError
  end.
(** [if name in kwargs: options[name] = kwargs[name]] *)
Definition inherit (kwargs : list (string * json)) (options : list (string * json)) (name : string) : list (string * json) :=
  match dget kwargs name with Some v => dset options name v | None => options end.
Definition INHERITED_OPTIONS : list string :=
  ["max_pool_connections"; "max_concurrency"; "multipart_chunksize"; "read_timeout"; "connect_timeout"; "checksum_algorithm"].
(** The options of the native client; [None] without one.  A value that is not a
    dictionary fails at the first assignment, or at [get]. *)
Definition s3_rust_options (signature_version : string) (kwargs : list (string * json)) : res (option (list (string * json))) :=
  match dget kwargs "rust_client" with
  | None => Ok None
  | Some (JDict o) =>
      let o1 := fold_left (inherit kwargs) INHERITED_OPTIONS o in
      let o2 := if bool_decide (signature_version = "UNSIGNED") then dset o1 "skip_signature" (JBool true) else o1 in
      match dget o2 "checksum_algorithm" with
      | None | Some JNull => Ok (Some o2)
      | Some v =>
          if bool_decide (upper (match v with JStr s => s | _ => dumps v end) = "SHA256")
          then Ok (Some (dset o2 "checksum_algorithm" (JStr "sha256"))) else Err ValueError
      end
  | Some _ =>
      Err (if existsb (dmem kwargs) INHERITED_OPTIONS || bool_decide (signature_version = "UNSIGNED") then TypeError else AttributeError)
  end.
(** [if name not in configs: configs[name] = value] *)
Definition setdefault (configs : list (string * json)) (name : string) (value : json) : list (string * json) :=
  if dmem configs name then configs else dset configs name value.
(** The configuration that [_create_rust_client] passes on; [retry] is parsed
    and removed *)
Definition s3_rust_configs (region_name endpoint_url base_path : string) (profile_name : option string)
    (options : list (string * json)) : list (string * json) * option json :=
  let c0 := ddel options "retry" in
  let c1 := if bool_decide (region_name = "") then c0 else setdefault c0 "region_name" (JStr region_name) in
  let c2 := if bool_decide (endpoint_url = "") then c1 else setdefault c1 "endpoint_url" (JStr endpoint_url) in
  let c3 := match truthy profile_name with Some p => setdefault c2 "profile_name" (JStr p) | None => c2 end in
  let c4 := setdefault c3 "bucket" (JStr (split_path base_path).1) in
  (setdefault c4 "max_pool_connections" (JInt 128), dget options "retry").

(** The session that [_create_s3_client] chooses: with credentials that are
    refreshed, or with a profile and possibly static credentials *)
Inductive s3_session :=
  | RefreshableSession (c : Credentials) (signature_version : option string)
  | ProfileSession (profile_name : option string) (static : option (string * string * option string))
      (signature_version : option string).
Definition create_s3_session (creds : option Credentials) (profile_name : option string) (signature_version : string) : s3_session :=
  let signature := if bool_decide (signature_version = "") then None else Some signature_version in
  match creds with
  | Some c =>
      match truthy (expiration c) with
      | Some _ => RefreshableSession c None
      | None => ProfileSession profile_name (Some (access_key c, secret_key c, truthy (token c))) signature
      end
  | None => ProfileSession profile_name None signature
  end.

Definition is_directory_bucket (bucket : string) : bool := has_substr "--x-s3" bucket.
Definition EXPRESS_ONEZONE_STORAGE_CLASS : string := "EXPRESS_ONEZONE".
Definition S3_BATCH_LIMIT : nat := N.to_nat 1000.

Section S3.
Context {W : Type} `{!Boto3 W, !LocalDisk W}.
Context (rust_client : option (RustClient W)) (multipart_threshold : Z) (checksum_algorithm : option string).

Definition s3_call {A} (m : M W A) : M W A := translating s3_translate m.
Definition s3_read {A} (f : W -> res A) (w : W) : res A :=
  match f w with Err e => Err (s3_translate e) | r => r end.

(** ** Objects *)
(** The optional arguments, and whether the native client supports them all *)
Definition upload_args (bucket : string) (attributes : option provider_attributes) (content_type : option string) : s3_args :=
  mkS3Args (truthy content_type) (if is_directory_bucket bucket then Some EXPRESS_ONEZONE_STORAGE_CLASS else None)
    None None attributes None.
Definition with_conditions (a : s3_args) (if_match if_none_match : option string) : s3_args :=
  mkS3Args (ContentType a) (StorageClass a) (truthy if_match) (truthy if_none_match) (Metadata a) (ChecksumAlgorithm a).
Definition with_checksum (a : s3_args) : s3_args :=
  mkS3Args (ContentType a) (StorageClass a) (IfMatch a) (IfNoneMatch a) (Metadata a) (truthy checksum_algorithm).
Definition no_args (a : s3_args) : bool :=
  match a with mkS3Args None None None None None None => true | _ => false end.

Definition s3_put_object (path : string) (body : bytes) (if_match if_none_match : option string)
    (attributes : option provider_attributes) (content_type : option string) : M W Z :=
  let '(bucket, key) := split_path path in
  s3_call (
    let! v := mlift (validated_attributes attributes) in
    let kwargs := with_conditions (upload_args bucket v content_type) if_match if_none_match in
    match rust_client with
    | Some rc =>
        if negb (ends_slash path) && no_args kwargs then rc_put rc key body
        else bo_put_object bucket key body (with_checksum kwargs)
    | None => bo_put_object bucket key body (with_checksum kwargs)
    end ;;;
    mret (Z.of_nat (length body))).

Definition range_header (r : Range) : string := "bytes=" +:+ pretty (offset r) +:+ "-" +:+ pretty (offset r + size r - 1)%Z.
Definition s3_get_object (path : string) (byte_range : option Range) : W -> res bytes :=
  let '(bucket, key) := split_path path in
  s3_read (match rust_client with
           | Some rc => rc_get rc key byte_range
           | None => bo_get_object bucket key (range_header <$> byte_range)
           end).

Definition s3_delete_object (path : string) (if_match : option string) : M W unit :=
  let '(bucket, key) := split_path path in s3_call (bo_delete_object bucket key (truthy if_match)).

(** [_delete_objects]: the batches of every bucket; errors of single keys are
    collected over all batches *)
Fixpoint delete_batches (l : list (string * list string)) : M W (list string) :=
  match l with
  | [] => mret []
  | (bucket, chunk) :: l' =>
      let! errors := bo_delete_objects bucket chunk in
      let! rest := delete_batches l' in mret (errors ++ rest)
  end.
Definition s3_delete_objects (paths : list string) : M W unit :=
  match paths with
  | [] => mret tt
  | _ =>
      s3_call (
        let! all_errors := delete_batches
          (concat (map (fun '(b, ks) => map (fun chunk => (b, chunk)) (batches S3_BATCH_LIMIT ks)) (by_bucket paths))) in
        match all_errors with [] => mret tt | _ => mraise RuntimeError end)
  end.

(** ** Metadata *)
Definition s3_is_dir (path : string) (w : W) : res bool :=
  let '(bucket, key) := split_path (append_delimiter path) in
  s3_read (fun w => res_bind (bo_list_objects_v2 bucket key 1 w) (fun page =>
    Ok (negb (bool_decide (Contents page = []) && bool_decide (CommonPrefixes page = []))))) w.
Definition SYMLINK_METADATA : string := "msc-symlink-target".
Definition symlink_of (m : option provider_attributes) : option string := m ≫= (.!! SYMLINK_METADATA).
Definition head_object_metadata (path : string) (h : s3_head) : ObjectMetadata :=
  mkObjectMetadata path (head_content_length h) (default AWARE_DATETIME_MIN (head_last_modified h)) "file" (head_content_type h)
    (strip_quotes <$> head_etag h) (head_storage_class h) (string_attributes (head_metadata h)) (symlink_of (head_metadata h)).
Definition s3_get_object_metadata (path : string) (strict : bool) (w : W) : res ObjectMetadata :=
  let '(bucket, key) := split_path path in
  if ends_slash path || negb (bool_decide (bucket = "")) && bool_decide (key = "") then
    res_bind (s3_is_dir path w) (fun d => if d : bool then Ok (directory_metadata path) else Err FileNotFoundError)
  else
    match s3_read (fun w => res_bind (bo_head_object bucket key w) (fun h => Ok (head_object_metadata path h))) w with
    | Err FileNotFoundError =>
        if strict then
          res_bind (s3_is_dir (append_delimiter path) w) (fun d =>
            if d : bool then Ok (directory_metadata (append_delimiter path)) else Err FileNotFoundError)
        else Err FileNotFoundError
    | r => r
    end.

Definition s3_copy_object (src_path dest_path : string) : M W Z :=
  let '(src_bucket, src_key) := split_path src_path in
  let '(dest_bucket, dest_key) := split_path dest_path in
  let! src_object := reading (s3_get_object_metadata src_path true) in
  s3_call (bo_copy src_bucket src_key dest_bucket dest_key ;;; mret (content_length src_object)).

(** [cwd]: the working directory, which [os.path.relpath] reads *)
Definition s3_make_symlink (cwd path target : string) : M W unit :=
  let '(bucket, key) := split_path path in
  let '(target_bucket, target_key) := split_path target in
  if negb (bool_decide (bucket = target_bucket)) then mraise ValueError
  else
    let! relative_target := mlift (encode_symlink_target cwd key target_key) in
    s3_call (bo_put_object bucket key [] (mkS3Args None None None None (Some {[ SYMLINK_METADATA := relative_target ]}) None)).

(** ** Listing *)
(** The directories of a page; [true] when the listing ends *)
Fixpoint page_prefixes (bucket : string) (start_after end_at : option string) (l : list string) : list ObjectMetadata * bool :=
  match l with
  | [] => ([], false)
  | p :: l' =>
      let prefix_key := rstrip slash p in
      if in_bounds start_after end_at prefix_key then
        let '(r, stop) := page_prefixes bucket start_after end_at l' in
        (directory_metadata (path_join bucket prefix_key) :: r, stop)
      else if beyond end_at prefix_key then ([], true)
      else page_prefixes bucket start_after end_at l'
  end.
(** The metadata of an empty object is fetched to find out whether it is a symlink *)
Definition entry_metadata (bucket : string) (w : W) (e : s3_entry) : ObjectMetadata :=
  let k := path_join bucket (Key e) in
  mkObjectMetadata k (Size e) (LastModified e) "file" None (Some (strip_quotes (ETag e))) (entry_storage_class e) None
    (if (Size e =? 0)%Z then match s3_get_object_metadata k true w with Ok m => symlink_target m | Err _ => None end else None).
Definition marker_metadata (bucket : string) (e : s3_entry) : ObjectMetadata :=
  mkObjectMetadata (path_join bucket (rstrip slash (Key e))) 0 (LastModified e) "directory" None None None None None.
Fixpoint page_contents (bucket : string) (end_at : option string) (include_directories : bool) (w : W) (l : list s3_entry)
    : list ObjectMetadata * bool :=
  match l with
  | [] => ([], false)
  | e :: l' =>
      if match end_at with None => true | Some x => str_leb (Key e) x end then
        let '(r, stop) := page_contents bucket end_at include_directories w l' in
        if ends_slash (Key e) then (if include_directories then marker_metadata bucket e :: r else r, stop)
        else (entry_metadata bucket w e :: r, stop)
      else ([], true)
  end.
(** [for page in page_iterator]; the generator runs after [_translate_errors]
    has returned, so that the exception that ends the pages is raised as it is *)
Fixpoint list_pages (bucket : string) (start_after end_at : option string) (include_directories : bool) (w : W)
    (pages : list s3_page) (failed : option exc) : listing :=
  match pages with
  | [] => mkListing [] failed
  | p :: pages' =>
      let '(ds, stop) := page_prefixes bucket start_after end_at (CommonPrefixes p) in
      if stop then mkListing ds None
      else
        let '(os, stop) := page_contents bucket end_at include_directories w (Contents p) in
        if stop then mkListing (ds ++ os) None
        else yield_all (ds ++ os) (list_pages bucket start_after end_at include_directories w pages' failed)
  end.
Definition s3_list_objects (path : string) (start_after end_at : option string) (include_directories : bool)
    (symlink_handling : SymlinkHandling) (w : W) : listing :=
  let '(bucket, prefix) := split_path path in
  let '(pages, failed) := bo_paginate bucket prefix (if include_directories then Some "/" else None)
                            (default "" (key_bound start_after)) w in
  list_pages bucket (key_bound start_after) (key_bound end_at) include_directories w pages failed.

(** The objects that the native client lists, without the base path *)
Fixpoint rust_objects (base_path bucket : string) (start_after end_at : option string) (l : list rust_object) : list ObjectMetadata :=
  match l with
  | [] => []
  | o :: l' =>
      let full_key := path_join bucket (ro_key o) in
      if skipped start_after full_key then rust_objects base_path bucket start_after end_at l'
      else if past_end end_at full_key then []
      else mkObjectMetadata (strip_base_path base_path full_key) (ro_content_length o) (ro_last_modified o)
             (if bool_decide (ro_object_type o = "object") then "file" else ro_object_type o) None (ro_etag o) None None None
           :: rust_objects base_path bucket start_after end_at l'
  end.
Definition list_objects_recursive_rust (rc : RustClient W) (base_path full_path bucket : string)
    (start_after end_at : option string) (max_workers : Z) (w : W) : listing :=
  match rc_list_recursive rc (split_path full_path).2 max_workers w with
  | Err e => mkListing [] (Some e)
  | Ok l => mkListing (rust_objects base_path bucket (prepend_base_path base_path <$> truthy start_after)
                         (prepend_base_path base_path <$> truthy end_at) l) None
  end.

(** ** Transfers *)
(** [_upload_file]; [put_object] is the [_put_object] of the class, which a
    subclass may override *)
Definition upload_with (put_object : string -> bytes -> option string -> option string -> option provider_attributes -> option string -> M W Z)
    (remote_path : string) (f : io) (attributes : option provider_attributes) (content_type : option string)
    : M W Z :=
  let '(bucket, key) := split_path remote_path in
  match f with
  | PathIO f =>
      let! file_size := reading (ld_getsize f) in
      if (file_size <=? multipart_threshold)%Z then
        match rust_client with
        | Some rc =>
            if negb (has_attributes attributes) && bool_decide (truthy content_type = None) then rc_upload rc f key
            else let! body := reading (ld_read f) in put_object remote_path body None None attributes content_type ;;; mret tt
        | None => let! body := reading (ld_read f) in put_object remote_path body None None attributes content_type ;;; mret tt
        end ;;;
        mret file_size
      else
        s3_call (
          let! v := mlift (validated_attributes attributes) in
          let extra_args := upload_args bucket v content_type in
          match rust_client with
          | Some rc =>
              if no_args extra_args then rc_upload_multipart_from_file rc f key
              else bo_upload_file f bucket key (with_checksum extra_args)
          | None => bo_upload_file f bucket key (with_checksum extra_args)
          end ;;;
          mret file_size)
  | BytesIO data =>
      let file_size := Z.of_nat (length data) in
      if (file_size <=? multipart_threshold)%Z then
        put_object remote_path data None None attributes content_type ;;; mret file_size
      else
        s3_call (
          let! v := mlift (validated_attributes attributes) in
          let extra_args := upload_args bucket v content_type in
          match rust_client with
          | Some rc =>
              if no_args extra_args then rc_upload_multipart_from_bytes rc key data
              else bo_upload_fileobj data bucket key (with_checksum extra_args)
          | None => bo_upload_fileobj data bucket key (with_checksum extra_args)
          end ;;;
          mret file_size)
  end.
Definition s3_upload_file := upload_with s3_put_object.

(** [if metadata is None: metadata = self._get_object_metadata(remote_path)] *)
Definition source_metadata (remote_path : string) (m : option ObjectMetadata) : M W ObjectMetadata :=
  match m with Some m => mret m | None => reading (s3_get_object_metadata remote_path true) end.
(** [download_fileobj] into an open temporary file *)
Definition download_into (temp bucket key : string) : M W unit := fun w =>
  let '(data, failed) := bo_download_fileobj bucket key w in
  (ld_write temp data ;;; match failed with Some e => mraise e | None => mret tt end) w.
Definition s3_download_file (remote_path f : string) (m : option ObjectMetadata) : M W Z :=
  let! m := source_metadata remote_path m in
  let '(bucket, key) := split_path remote_path in
  make_parent f ;;;
  if (content_length m <=? multipart_threshold)%Z then
    match rust_client with
    | Some rc => rc_download rc key f
    | None =>
        let! temp := ld_mktemp (dirname f) in
        let! data := reading (s3_get_object remote_path None) in
        ld_write temp data ;;; ld_rename temp f
    end ;;;
    mret (content_length m)
  else
    s3_call (
      let! temp := ld_mktemp (dirname f) in
      match rust_client with
      | Some rc => rc_download_multipart_to_file rc key temp
      | None => download_into temp bucket key
      end ;;;
      ld_rename temp f ;;;
      mret (content_length m)).
(** [_download_file] to a file object: what it receives and the outcome *)
Definition s3_download_buffer (remote_path : string) (m : option ObjectMetadata) (w : W) : bytes * res Z :=
  match source_metadata remote_path m w with
  | (Err e, _) => ([], Err e)
  | (Ok m, _) =>
      if (content_length m <=? multipart_threshold)%Z then
        match s3_get_object remote_path None w with
        | Ok data => (data, Ok (content_length m))
        | Err e => ([], Err e)
        end
      else
        let '(bucket, key) := split_path remote_path in
        let '(data, failed) := bo_download_fileobj bucket key w in
        (data, match failed with Some e => Err (s3_translate e) | None => Ok (content_length m) end)
  end.

(** ** Presigned URLs *)
Definition DEFAULT_PRESIGN_EXPIRES_IN : Z := 3600%Z.
Definition S3_METHOD_MAPPING (method : string) : option string :=
  if bool_decide (method = "GET") then Some "get_object" else if bool_decide (method = "PUT") then Some "put_object" else None.
(** [S3URLSigner.generate_presigned_url] *)
Definition s3_sign (bucket : string) (expires_in : Z) (path method : string) (w : W) : res string :=
  match S3_METHOD_MAPPING (upper method) with
  | None => Err ValueError
  | Some client_method => bo_generate_presigned_url client_method bucket path expires_in w
  end.
(** [_generate_presigned_url]; [cloudfront] signs a key for a method *)
Definition s3_generate_presigned_url (cloudfront : string -> string -> res string) (path method : string)
    (signer_type : option SignerType) (expires_in : option Z) (w : W) : res string :=
  let '(bucket, key) := split_path path in
  match signer_type with
  | None | Some SignerS3 => s3_sign bucket (default DEFAULT_PRESIGN_EXPIRES_IN expires_in) key method w
  | Some SignerCLOUDFRONT => cloudfront key method
  | Some SignerAZURE => Err ValueError
  end.

(** ** The provider as a backend of the base class *)
Definition s3_backend (cwd : string) : StorageBackend W := {|
  be_put_object p b im inm a := s3_put_object p b im inm a None;
  be_get_object := s3_get_object;
  be_copy_object := s3_copy_object;
  be_delete_object := s3_delete_object;
  be_delete_objects := Some s3_delete_objects;
  be_multipart_threshold := multipart_threshold;
  be_make_symlink := s3_make_symlink cwd;
  be_get_object_metadata := s3_get_object_metadata;
  be_list_objects := s3_list_objects;
  be_shallow_list p h w := shallow_list p (s3_list_objects p None None true h w);
  be_upload_file p f a := s3_upload_file p f a None;
  be_download_file := s3_download_file;
  be_download_buffer := s3_download_buffer;
  be_supports_parallel_listing := true;
  be_makedirs := ld_makedirs;
  be_getsize := ld_getsize;
  be_rust_download := match rust_client with
    | Some rc => Some (fun k f multipart => (if multipart : bool then rc_download_multipart_to_file rc k f else rc_download rc k f) ;;; mret 0%Z)
    | None => None end;
  be_rust_upload := match rust_client with
    | Some rc => Some (fun f k multipart => (if multipart : bool then rc_upload_multipart_from_file rc f k else rc_upload rc f k) ;;; mret 0%Z)
    | None => None end;
|}.

(** [list_objects_recursive] *)
Definition s3_list_objects_recursive (cwd base_path path : string) (start_after end_at : option string)
    (max_workers look_ahead : nat) (symlink_handling : SymlinkHandling) (finished : nat -> string -> bool)
    (fuel : nat) (w : W) : option listing :=
  if (match start_after, end_at with Some s, Some e => negb (str_ltb s e) | _, _ => false end)
  then Some (mkListing [] (Some ValueError))
  else
    let full_path := prepend_base_path base_path path in
    let '(bucket, prefix) := split_path full_path in
    if is_directory_bucket bucket then
      Some (list_objects (StorageBackend0 := s3_backend cwd) base_path (fun _ => Err ValueError) path start_after end_at
              false None false symlink_handling w)
    else
      match rust_client with
      | Some rc => Some (list_objects_recursive_rust rc base_path full_path bucket start_after end_at (Z.of_nat max_workers) w)
      | None => list_objects_recursive (StorageBackend0 := s3_backend cwd) base_path path start_after end_at max_workers look_ahead
                  symlink_handling finished fuel w
      end.
End S3.
