(* ===== verification/MemCloud.v ===== *)
(** * A cloud in memory

    The interfaces of the SDKs implemented on a finite map of objects, and the
    local disk on a finite map of files.  The theorems on the object store
    providers are applied to it, which shows that what they assume of a service
    can hold; it is not a part of the program. *)
From stdpp Require Import stringmap.
From S2P Require Import Prelude PyPath Types Utils Json Listing Provider Cloud S3.

Record stored := mkStored { st_body : bytes; st_attrs : option provider_attributes; st_etag : string }.
Record cloud := mkCloud { objects : gmap (string * string) stored; disk : gmap string bytes }.
Definition with_objects (o : gmap (string * string) stored) (w : cloud) : cloud := mkCloud o (disk w).
Definition with_disk (d : gmap string bytes) (w : cloud) : cloud := mkCloud (objects w) d.
Definition put_stored (b k : string) (o : stored) (w : cloud) : cloud := with_objects (<[ (b, k) := o ]> (objects w)) w.
Definition put_file (f : string) (d : bytes) (w : cloud) : cloud := with_disk (<[ f := d ]> (disk w)) w.

(** ** The local disk *)
Definition temp_name (dir : string) (d : gmap string bytes) : string := fresh_string (path_join dir ".tmp") d.
#[export] Instance mem_disk : LocalDisk cloud := {|
  ld_getsize f w := match disk w !! f with Some d => Ok (Z.of_nat (length d)) | None => Err FileNotFoundError end;
  ld_read f w := match disk w !! f with Some d => Ok d | None => Err FileNotFoundError end;
  ld_makedirs _ := mret tt;
  ld_mktemp dir w := let t := temp_name dir (disk w) in (Ok t, put_file t [] w);
  ld_write f d w := (Ok tt, put_file f d w);
  ld_rename f g w := match disk w !! f with
    | Some d => (Ok tt, with_disk (<[ g := d ]> (delete f (disk w))) w)
    | None => (Err FileNotFoundError, w) end;
  ld_exists f w := bool_decide (is_Some (disk w !! f));
  ld_unlink f w := match disk w !! f with
    | Some _ => (Ok tt, with_disk (delete f (disk w)) w)
    | None => (Err FileNotFoundError, w) end;
|}.

(** ** Buckets *)
Definition bucket_keys (b : string) (w : cloud) : list string :=
  sorted_str (omap (fun kv : (string * string) * stored => if decide (kv.1.1 = b) then Some kv.1.2 else None) (map_to_list (objects w))).
(** [bytes=first-last] *)
Definition parse_range (h : string) : option (Z * Z) :=
  match split1 "="%char h with
  | (_, Some r) =>
      match split1 "-"%char r with
      | (a, Some z) => match parse_int a, parse_int z with
          | Some (JInt x, ""), Some (JInt y, "") => Some (x, y)
          | _, _ => None end
      | _ => None end
  | _ => None end.
Definition not_found {A} : res A := Err (ClientError 404 "NoSuchKey").
Definition entry_of (b : string) (w : cloud) (k : string) : s3_entry :=
  match objects w !! (b, k) with
  | Some o => mkEntry k (Z.of_nat (length (st_body o))) 0 (st_etag o) None
  | None => mkEntry k 0 0 "" None
  end.
Definition bucket_entries (b : string) (w : cloud) : list s3_entry := map (entry_of b w) (bucket_keys b w).

#[export] Instance mem_boto3 : Boto3 cloud := {|
  bo_put_object b k d a w :=
    match IfMatch a, IfNoneMatch a, objects w !! (b, k) with
    | Some e, _, Some o => if decide (e = st_etag o) then (Ok tt, put_stored b k (mkStored d (Metadata a) "v") w) else (Err (ClientError 412 ""), w)
    | Some _, _, None => (Err (ClientError 412 ""), w)
    | None, Some _, Some _ => (Err (ClientError 412 ""), w)
    | None, _, _ => (Ok tt, put_stored b k (mkStored d (Metadata a) "v") w)
    end;
  bo_get_object b k h w :=
    match objects w !! (b, k) with
    | None => not_found
    | Some o => match h with
        | None => Ok (st_body o)
        | Some h => match parse_range h with
            | Some (x, y) => if (x <? Z.of_nat (length (st_body o)))%Z then Ok (slice (st_body o) x (y - x + 1)) else Err (ClientError 416 "InvalidRange")
            | None => Ok (st_body o) end
        end
    end;
  bo_copy b k b' k' w := match objects w !! (b, k) with Some o => (Ok tt, put_stored b' k' o w) | None => (not_found, w) end;
  bo_delete_object b k _ w := (Ok tt, with_objects (delete (b, k) (objects w)) w);
  bo_delete_objects b ks w := (Ok [], with_objects (foldr (fun k o => delete (b, k) o) (objects w) ks) w);
  bo_list_objects_v2 b p _ w :=
    Ok (mkPage (take 1 (common_prefixes Key p (bucket_entries b w))) (take 1 (contents Key p (bucket_entries b w))));
  bo_paginate b p d s w :=
    ([match d with
      | Some _ => mkPage (common_prefixes Key p (bucket_entries b w)) (filter (fun e => str_ltb s (Key e) = true) (contents Key p (bucket_entries b w)))
      | None => mkPage [] (filter (fun e => str_ltb s (Key e) = true) (below Key p (bucket_entries b w)))
      end], None);
  bo_head_object b k w := match objects w !! (b, k) with
    | Some o => Ok (mkHead (Z.of_nat (length (st_body o))) None None (Some (st_etag o)) None (st_attrs o))
    | None => not_found end;
  bo_upload_file f b k a w := match disk w !! f with
    | Some d => (Ok tt, put_stored b k (mkStored d (Metadata a) "v") w)
    | None => (Err FileNotFoundError, w) end;
  bo_upload_fileobj d b k a w := (Ok tt, put_stored b k (mkStored d (Metadata a) "v") w);
  bo_download_fileobj b k w := match objects w !! (b, k) with Some o => (st_body o, None) | None => ([], Some (ClientError 404 "NoSuchKey")) end;
  bo_generate_presigned_url m b k e _ := Ok ("https://" +:+ b +:+ "/" +:+ k);
|}.

Definition cloud_of (l : list ((string * string) * stored)) : cloud := mkCloud (list_to_map l) ∅.
Definition blob (d : bytes) : stored := mkStored d None "v".

(** ** The native client of a bucket *)
Definition mem_upload_file (b f k : string) (w : cloud) : res unit * cloud :=
  match disk w !! f with Some d => (Ok tt, put_stored b k (blob d) w) | None => (Err RustRetryableError, w) end.
Definition mem_download_file (b k f : string) (w : cloud) : res unit * cloud :=
  match objects w !! (b, k) with Some o => (Ok tt, put_file f (st_body o) w) | None => (Err (RustClientError 404), w) end.
Definition mem_rust (b : string) : RustClient cloud := {|
  rc_put k d w := (Ok tt, put_stored b k (blob d) w);
  rc_get k r w := match objects w !! (b, k) with
    | Some o => Ok (match r with Some r => slice (st_body o) (offset r) (size r) | None => st_body o end)
    | None => Err (RustClientError 404) end;
  rc_upload := mem_upload_file b;
  rc_upload_multipart_from_file := mem_upload_file b;
  rc_upload_multipart_from_bytes k d w := (Ok tt, put_stored b k (blob d) w);
  rc_download := mem_download_file b;
  rc_download_multipart_to_file := mem_download_file b;
  rc_list_recursive p _ w := Ok (map (fun e => mkRustObject (Key e) (Size e) 0 "object" (Some (ETag e))) (below Key p (bucket_entries b w)));
|}.
(** The objects with their attributes *)
Definition visible (w : cloud) : gmap (string * string) (bytes * option provider_attributes) :=
  (fun o => (st_body o, st_attrs o)) <$> objects w.

(** ** Credentials that never expire *)
#[export] Instance mem_credentials : CredentialsSource cloud := {|
  cs_configured := false;
  cs_get _ := Err RuntimeError;
  cs_refresh := mret tt;
  cs_now _ := 0%Z;
  cs_parse_time _ := None;
  cs_create_client := mret tt;
|}.
