(* ===== verification/S3Proofs.v ===== *)
(** * Properties of the S3 provider

    Listings against the contract of a bucket: the flat listing yields exactly
    the objects of the range, the delimited one implements [store_shallow], and
    with the base class the recursive listing is complete.  Transfers store and
    fetch exactly the content on every route. *)
From stdpp Require Import stringmap.
From S2P Require Import Prelude PyDict PyPath Types Utils Json Listing ListingProofs Provider ProviderProofs Cloud CloudProofs S3 MemCloud.

(** ** The contract of a bucket *)
(** What [list_objects_v2] documents: keys in binary order, [StartAfter]
    exclusive, and with a delimiter the rolled up prefixes beside the contents,
    however they are distributed over pages *)
Section Listing.
Context {W : Type} `{!Boto3 W}.
Record bucket_listing (w : W) (b : string) (es : list s3_entry) : Prop := {
  bl_sorted : StronglySorted (fun x y => str_lt (Key x) (Key y)) es;
  bl_nonempty : Forall (fun e => Key e <> "") es;
  bl_flat prefix s : exists pages, bo_paginate b prefix None s w = (pages, None) /\
    Forall (fun p => CommonPrefixes p = []) pages /\
    concat (map Contents pages) = filter (fun e => str_ltb s (Key e) = true) (below Key prefix es);
  bl_delimited prefix : exists pages, bo_paginate b prefix (Some "/") "" w = (pages, None) /\
    concat (map CommonPrefixes pages) = common_prefixes Key prefix es /\
    concat (map Contents pages) = contents Key prefix es;
}.

(** *** The loop over the pages *)
Definition upto (end_at : option string) (e : s3_entry) : bool :=
  match end_at with None => true | Some x => str_leb (Key e) x end.
(** What an entry of a page becomes *)
Definition page_item (b : string) (include_directories : bool) (w : W) (e : s3_entry) : option ObjectMetadata :=
  if ends_slash (Key e) then if include_directories then Some (marker_metadata b e) else None else Some (entry_metadata b w e).
Lemma page_contents_all b d w l : page_contents b None d w l = (omap (page_item b d w) l, false).
Proof.
  induction l as [|e l IH]; [done|]. cbn [page_contents]. rewrite IH. unfold page_item. cbn.
  destruct (ends_slash (Key e)); [|done]. by destruct d.
Qed.
Lemma upto_mono end_at x y : str_lt (Key x) (Key y) -> upto end_at x = false -> upto end_at y = false.
Proof.
  unfold upto. destruct end_at as [e|]; [|done]. intros Hlt Hx. destruct (str_leb (Key y) e) eqn:Hy; [|done].
  by rewrite (str_leb_trans _ _ _ (str_lt_leb _ _ Hlt) Hy) in Hx.
Qed.
Lemma page_contents_sorted b end_at d w l :
  StronglySorted (fun x y => str_lt (Key x) (Key y)) l ->
  page_contents b end_at d w l = (omap (page_item b d w) (filter (fun e => upto end_at e = true) l), existsb (fun e => negb (upto end_at e)) l).
Proof.
  induction 1 as [|e l Hl IH He]; [done|]. cbn [page_contents existsb]. fold (upto end_at e). rewrite filter_cons.
  destruct (upto end_at e) eqn:Eu; cbn [negb orb].
  - rewrite IH, decide_True by done. unfold page_item. cbn. destruct (ends_slash (Key e)); [|done]. by destruct d.
  - rewrite decide_False, filter_none by done || (eapply Forall_impl; [exact He|]; intros y Hy; by rewrite (upto_mono _ _ _ Hy Eu)). done.
Qed.
Lemma list_pages_flat b s end_at w pages :
  Forall (fun p => CommonPrefixes p = []) pages -> StronglySorted (fun x y => str_lt (Key x) (Key y)) (concat (map Contents pages)) ->
  list_pages b s end_at false w pages None =
  mkListing (omap (page_item b false w) (filter (fun e => upto end_at e = true) (concat (map Contents pages)))) None.
Proof.
  induction 1 as [|p pages Hp Hps IH]; [done|]. cbn [map concat]. intros Hs. apply StronglySorted_app in Hs as (Hc & H1 & H2).
  cbn [list_pages]. rewrite Hp. cbn [page_prefixes]. rewrite page_contents_sorted, filter_app by done.
  destruct (existsb _ _) eqn:Eb.
  - apply existsb_exists in Eb as (x & Hx & Hux%negb_true_iff). apply list_elem_of_In in Hx.
    rewrite (filter_none _ (concat _)), app_nil_r; [done|]. apply Forall_forall. intros y Hy.
    by rewrite (upto_mono _ x y (Hc x y Hx Hy) Hux).
  - rewrite IH by done. unfold yield_all. cbn [yielded raised app]. by rewrite omap_app.
Qed.
Lemma page_prefixes_all b l :
  page_prefixes b None None l = (map (fun p => directory_metadata (path_join b (rstrip slash p))) l, false).
Proof. induction l as [|p l IH]; [done|]. cbn [page_prefixes map andb]. by rewrite IH. Qed.
(** The items of the pages in the order in which they are yielded *)
Definition page_items (pages : list s3_page) : list (string + s3_entry) :=
  concat (map (fun p => map inl (CommonPrefixes p) ++ map inr (Contents p)) pages).
Lemma list_pages_delimited b w pages :
  list_pages b None None true w pages None =
  mkListing (map (delimited_item Key b (entry_metadata b w) (marker_metadata b)) (page_items pages)) None.
Proof.
  induction pages as [|p pages IH]; [done|]. unfold page_items in *. cbn [list_pages map concat].
  rewrite page_prefixes_all, page_contents_all, IH, !List.map_app, !map_map. unfold yield_all. cbn [yielded raised]. f_equal.
  rewrite <- !app_assoc. f_equal. f_equal. induction (Contents p) as [|e l IHl]; [done|]. cbn [omap list_omap map delimited_item]. rewrite IHl.
  unfold page_item. by destruct (ends_slash (Key e)).
Qed.
Lemma page_items_lefts pages : lefts (page_items pages) = concat (map CommonPrefixes pages).
Proof.
  induction pages as [|p pages IH]; [done|]. unfold page_items in *. cbn [map concat].
  by rewrite !lefts_app, lefts_inl, lefts_inr, app_nil_r, IH.
Qed.
Lemma page_items_rights pages : rights (page_items pages) = concat (map Contents pages).
Proof.
  induction pages as [|p pages IH]; [done|]. unfold page_items in *. cbn [map concat].
  by rewrite !rights_app, rights_inl, rights_inr, IH.
Qed.

(** *** The delimited listing implements the contract *)
Context (w : W) (b : string) (es : list s3_entry) (Hlist : bucket_listing w b es).
Context (Hbucket : b <> "" /\ has_char slash b = false) (Hclean : Forall (fun e => clean_key (Key e) = true) es).

Lemma entry_key e : e ∈ es -> key (entry_metadata b w e) = b +:+ "/" +:+ Key e.
Proof.
  intros He. rewrite Forall_forall in Hclean. specialize (Hclean e He). unfold clean_key in Hclean.
  rewrite andb_true_iff, !negb_true_iff in Hclean. destruct Hbucket, Hclean. cbn [key entry_metadata]. by apply path_join_bucket.
Qed.
Lemma s3_shallow p symlink_handling :
  implements (shallow_list (b +:+ "/" +:+ p) (s3_list_objects (b +:+ "/" +:+ p) None None true symlink_handling w))
    (store_shallow Key (entry_metadata b w) es (b +:+ "/" +:+ p)).
Proof.
  destruct (bl_delimited _ _ _ Hlist p) as (pages & Hpages & Hcp & Hco). unfold s3_list_objects. rewrite split_full by done.
  cbn [key_bound truthy default]. rewrite Hpages, list_pages_delimited. apply delimited_items_implement; try done.
  - intros e [? _]. done.
  - by rewrite page_items_lefts, Hcp.
  - by rewrite page_items_rights, Hco.
Qed.

(** *** The flat listing *)
Definition after (start_after : option string) (e : s3_entry) : bool :=
  match start_after with None => true | Some s => str_ltb s (Key e) end.
Lemma page_item_files l :
  omap (page_item b false w) l = map (entry_metadata b w) (filter (fun e => ends_slash (Key e) = false) l).
Proof.
  induction l as [|e l IH]; [done|]. rewrite filter_cons. cbn [omap list_omap]. rewrite IH. unfold page_item.
  by destruct (ends_slash (Key e)).
Qed.
Lemma after_empty l : Forall (fun e => Key e <> "") l -> filter (fun e => str_ltb "" (Key e) = true) l = l.
Proof. intros H. apply filter_every. eapply Forall_impl; [exact H|]. intros e He. by destruct (Key e) eqn:Ek. Qed.
Lemma s3_flat p start_after end_at symlink_handling :
  s3_list_objects (b +:+ "/" +:+ p) ((fun k => b +:+ "/" +:+ k) <$> start_after) ((fun k => b +:+ "/" +:+ k) <$> end_at)
    false symlink_handling w =
  mkListing (map (entry_metadata b w) (filter (fun e => ends_slash (Key e) = false /\ upto end_at e = true /\
    after start_after e = true /\ startswith (Key e) p = true) es)) None.
Proof.
  unfold s3_list_objects. rewrite split_full by done. rewrite !key_bound_full by done.
  destruct (bl_flat _ _ _ Hlist p (default "" start_after)) as (pages & -> & Hcp & Hco).
  rewrite list_pages_flat; [|done|].
  2: { rewrite Hco. unfold below. do 2 apply StronglySorted_filter. apply Hlist. }
  rewrite page_item_files, Hco. do 2 f_equal. unfold below.
  assert (forall l, Forall (fun e => Key e <> "") l ->
    filter (fun e => str_ltb (default "" start_after) (Key e) = true) l = filter (fun e => after start_after e = true) l) as Ha.
  { intros l Hl. destruct start_after as [s|]; [done|]. cbn [default]. rewrite after_empty by done. symmetry. apply filter_every.
    apply Forall_forall. done. }
  rewrite Ha. 2: { apply Forall_forall. intros e [_ He]%list_elem_of_filter. pose proof (bl_nonempty _ _ _ Hlist) as H. rewrite Forall_forall in H. by apply H. }
  rewrite !list_filter_filter. apply list_filter_iff. tauto.
Qed.
End Listing.

(** A flat listing of the S3 provider yields exactly the objects of the
    bucket whose keys start with the prefix and lie in the requested range, in
    the order of their keys, directory markers excluded, however the service
    splits the result into pages. *)
Theorem s3_flat_listing_exact {W} `{!Boto3 W} (w : W) (b p : string) (es : list s3_entry)
    (start_after end_at : option string) (symlink_handling : SymlinkHandling)
    (Hlist : bucket_listing w b es) (Hbucket : b <> "" /\ has_char slash b = false) :
  s3_list_objects (b +:+ "/" +:+ p) ((fun k => b +:+ "/" +:+ k) <$> start_after) ((fun k => b +:+ "/" +:+ k) <$> end_at)
    false symlink_handling w =
  mkListing (map (entry_metadata b w) (filter (fun e => ends_slash (Key e) = false /\ upto end_at e = true /\
    after start_after e = true /\ startswith (Key e) p = true) es)) None.
Proof. by apply s3_flat. Qed.

(** C9: a recursive listing of the S3 provider is complete: on a general
    purpose bucket whose keys have no empty components it yields, in ascending
    order, exactly the objects below the path in the requested range, whatever
    the pages, the completion order of the prefix threads and their number. *)
Theorem s3_recursive_listing_complete {W} `{!Boto3 W, !LocalDisk W} (w : W) (bucket p : string) (es : list s3_entry)
    (threshold : Z) (checksum : option string) (cwd base_path path : string) (start_after end_at : option string)
    (symlink_handling : SymlinkHandling)
    (Hlist : bucket_listing w bucket es) (Hbucket : bucket <> "" /\ has_char slash bucket = false)
    (Hgeneral : is_directory_bucket bucket = false) (Hclean : Forall (fun e => clean_key (Key e) = true) es)
    (Hpath : prepend_base_path base_path path = bucket +:+ "/" +:+ p)
    (Hspaces : strip_spaces (bucket +:+ "/" +:+ p) <> "")
    (Hrange : forall s e, start_after = Some s -> end_at = Some e -> str_lt s e)
    (Hstart : relative_bound start_after) (Hend : relative_bound end_at) :
  exists n, forall fuel max_workers look_ahead finished, n <= fuel ->
  exists l, s3_list_objects_recursive None threshold checksum cwd base_path path start_after end_at max_workers look_ahead
              symlink_handling finished fuel w = Some l /\
    raised l = None /\ StronglySorted key_lt (yielded l) /\
    forall o, o ∈ yielded l <-> in_range start_after end_at (key o) /\
      exists e, e ∈ es /\ startswith (Key e) p = true /\ ends_slash (Key e) = false /\
        o = unprefix base_path (entry_metadata bucket w e).
Proof.
  destruct (@cloud_listing_complete W s3_entry (s3_backend None threshold checksum cwd) Key (entry_metadata bucket w) bucket p es
    base_path path start_after end_at symlink_handling w) as [n Hn]; try done.
  - intros e He. by eapply entry_key.
  - apply Hlist.
  - intros q. by apply s3_shallow.
  - exists n. intros fuel mw la fin Hf. destruct (Hn fuel mw la fin Hf) as (l & Hl & H). exists l. split; [|done]. rewrite <- Hl.
    unfold s3_list_objects_recursive. rewrite Hpath, split_full, Hgeneral by done.
    destruct (match start_after, end_at with Some s, Some e => _ | _, _ => _ end) eqn:E; [|done].
    destruct start_after as [s|], end_at as [e|]; try done. by rewrite (Hrange s e eq_refl eq_refl) in E.
Qed.

(** ** Uploads *)
Section Uploads.
Context {W : Type} `{!Boto3 W, !LocalDisk W}.
(** The objects with their attributes, and the local files *)
Context (objects_of : W -> gmap (string * string) (bytes * option provider_attributes)) (files_of : W -> gmap string bytes).
Context (rust : option (RustClient W)) (rust_bucket : string) (threshold : Z) (checksum : option string).

(** A call that stores an object, or fails and stores nothing *)
Definition stores {A} (p : string * string) (d : bytes) (a : option provider_attributes) (w : W) (m : M W A) : Prop :=
  files_of (m w).2 = files_of w /\
  objects_of (m w).2 = match (m w).1 with Ok _ => <[ p := (d, a) ]> (objects_of w) | Err _ => objects_of w end.
Definition stores_file {A} (p : string * string) (f : string) (a : option provider_attributes) (w : W) (m : M W A) : Prop :=
  match files_of w !! f with Some d => stores p d a w m | None => files_of (m w).2 = files_of w /\ objects_of (m w).2 = objects_of w /\ is_ok (m w).1 = false end.
(** Objects appear when their upload is complete; the native client is bound to
    one bucket. *)
Record upload_laws : Prop := {
  ul_getsize f w : ld_getsize f w = match files_of w !! f with Some d => Ok (Z.of_nat (length d)) | None => Err FileNotFoundError end;
  ul_read f w : ld_read f w = match files_of w !! f with Some d => Ok d | None => Err FileNotFoundError end;
  ul_put_object b k d a w : stores (b, k) d (Metadata a) w (bo_put_object b k d a);
  ul_upload_file f b k a w : stores_file (b, k) f (Metadata a) w (bo_upload_file f b k a);
  ul_upload_fileobj d b k a w : stores (b, k) d (Metadata a) w (bo_upload_fileobj d b k a);
  ul_rust rc : rust = Some rc -> forall k d f w,
    stores (rust_bucket, k) d None w (rc_put rc k d) /\ stores_file (rust_bucket, k) f None w (rc_upload rc f k) /\
    stores_file (rust_bucket, k) f None w (rc_upload_multipart_from_file rc f k) /\
    stores (rust_bucket, k) d None w (rc_upload_multipart_from_bytes rc k d);
}.
Context (Hlaws : upload_laws).
(** The attributes that are stored *)
Definition stored_attributes (a : option provider_attributes) : option provider_attributes := if has_attributes a then a else None.
Definition content_of (f : io) (w : W) : option bytes := match f with PathIO f => files_of w !! f | BytesIO d => Some d end.
Definition uploads {A} (p : string * string) (f : io) (a : option provider_attributes) (w : W) (m : M W A) : Prop :=
  match content_of f w with Some d => stores p d a w m | None => files_of (m w).2 = files_of w /\ objects_of (m w).2 = objects_of w /\ is_ok (m w).1 = false end.

Lemma stores_then {A B} p d a w (m : M W A) (x : B) : stores p d a w m -> stores p d a w (m ;;; mret x).
Proof. unfold stores, mbind. destruct (m w) as [[]]; done. Qed.
(** ... and that returns its size *)
Definition delivers (p : string * string) (d : bytes) (a : option provider_attributes) (w : W) (m : M W Z) : Prop :=
  stores p d a w m /\ forall n, (m w).1 = Ok n -> n = Z.of_nat (length d).
Lemma delivers_then {A} p d a w (m : M W A) n : n = Z.of_nat (length d) -> stores p d a w m -> delivers p d a w (m ;;; mret n).
Proof. intros -> H. split; [by apply stores_then|]. unfold mbind. destruct (m w) as [[] ?]; cbn; congruence. Qed.
Lemma delivers_read {A} p d a w (g : W -> res A) x (m : A -> M W Z) :
  g w = Ok x -> delivers p d a w (m x) -> delivers p d a w (let! y := reading g in m y).
Proof. unfold delivers, stores, mbind, reading. by intros ->. Qed.
Lemma stores_read {A B} p d a w (g : W -> res A) x (m : A -> M W B) :
  g w = Ok x -> stores p d a w (m x) -> stores p d a w (let! y := reading g in m y).
Proof. unfold stores, mbind, reading. by intros ->. Qed.
Lemma delivers_call p d a w m : delivers p d a w m -> delivers p d a w (s3_call m).
Proof.
  unfold delivers, stores, s3_call, translating. destruct (m w) as [[] ?]; [done|]. intros [H _]. split; [done|]. by intros n [=].
Qed.
Lemma stores_call {A} p d a w (m : M W A) : stores p d a w m -> stores p d a w (s3_call m).
Proof. unfold stores, s3_call, translating. destruct (m w) as [[]]; done. Qed.
Lemma stores_error {A} p d a w e : stores p d a w (mraise (A := A) e).
Proof. done. Qed.
Lemma validated_spec a v : validated_attributes a = Ok v -> v = stored_attributes a.
Proof.
  unfold validated_attributes, validate_attributes, stored_attributes, has_attributes, string_attributes.
  destruct a as [m|]; [|by intros [= <-]]. cbn.
  destruct (decide (m = ∅)) as [->|Hm]; [rewrite fmap_empty, !bool_decide_true by done; cbn; by intros [= <-]|].
  rewrite !bool_decide_false by (done || by intros H%fmap_empty_inv). cbn. destruct (existsb _ _); cbn; [done|]. by intros [= <-].
Qed.
Lemma no_args_metadata a : no_args a = true -> Metadata a = None.
Proof. by destruct a as [[] [] [] [] [] []]. Qed.

Section Path.
Context (remote b k : string) (Hsplit : split_path remote = (b, k)) (Hrust : rust <> None -> b = rust_bucket).
Lemma put_stores body im inm a ct w :
  stores (b, k) body (stored_attributes a) w (s3_put_object rust checksum remote body im inm a ct).
Proof.
  unfold s3_put_object. rewrite Hsplit. apply stores_call. unfold mlift.
  destruct (validated_attributes a) as [v|e] eqn:Ev; [|by apply stores_error]. apply validated_spec in Ev as ->.
  apply (stores_then (b, k) body (stored_attributes a) w). destruct rust as [rc|] eqn:Er; [|apply (ul_put_object Hlaws)].
  destruct (_ && _) eqn:Eb; [|apply (ul_put_object Hlaws)]. apply andb_true_iff in Eb as [_ Hn%no_args_metadata]. cbn in Hn. rewrite Hn.
  rewrite Hrust by done. by apply (ul_rust Hlaws rc Er).
Qed.

(** The last step of every large upload *)
Lemma large_delivers (send : s3_args -> M W unit) (native : RustClient W -> M W unit) a ct n w d :
  n = Z.of_nat (length d) -> (forall x, stores (b, k) d (Metadata x) w (send x)) ->
  (forall rc, rust = Some rc -> stores (rust_bucket, k) d None w (native rc)) ->
  delivers (b, k) d (stored_attributes a) w (s3_call (
    let! v := mlift (validated_attributes a) in
    let extra_args := upload_args b v ct in
    match rust with
    | Some rc => if no_args extra_args then native rc else send (with_checksum checksum extra_args)
    | None => send (with_checksum checksum extra_args)
    end ;;; mret n)).
Proof.
  intros Hn Hsend Hnative. apply delivers_call. unfold mlift.
  destruct (validated_attributes a) as [v|e] eqn:Ev; [|by split]. apply validated_spec in Ev as ->.
  apply (delivers_then (b, k) d (stored_attributes a) w); [done|]. destruct rust as [rc|] eqn:Er; [|apply Hsend].
  destruct (no_args _) eqn:Eb; [|apply Hsend]. apply no_args_metadata in Eb. cbn in Eb. rewrite Eb, Hrust by done. by apply Hnative.
Qed.
Lemma upload_delivers f a ct w d :
  content_of f w = Some d ->
  delivers (b, k) d (stored_attributes a) w (s3_upload_file rust threshold checksum remote f a ct).
Proof.
  intros Hd. unfold s3_upload_file, upload_with. rewrite Hsplit. destruct f as [f|d']; cbn in Hd.
  - assert (forall p x (m : M W unit), stores_file p f x w m -> stores p d x w m) as Hfile.
    { intros p x m H. unfold stores_file in H. by rewrite Hd in H. }
    eapply delivers_read; [by rewrite (ul_getsize Hlaws), Hd|]. cbn beta. destruct (_ <=? _)%Z.
    + apply delivers_then; [done|].
      assert (stores (b, k) d (stored_attributes a) w
        (let! body := reading (ld_read f) in s3_put_object rust checksum remote body None None a ct ;;; mret tt)) as Hput.
      { eapply stores_read; [by rewrite (ul_read Hlaws), Hd|]. by apply stores_then, put_stores. }
      destruct rust as [rc|] eqn:Er; [|done]. destruct (negb _ && _) eqn:Eb; [|done].
      apply andb_true_iff in Eb as [Ha%negb_true_iff _]. unfold stored_attributes. rewrite Ha, Hrust by done.
      by apply Hfile, (ul_rust Hlaws rc Er).
    + apply large_delivers; [done|intros x; apply Hfile, (ul_upload_file Hlaws)|].
      intros rc Hrc. by apply Hfile, (ul_rust Hlaws rc Hrc).
  - injection Hd as ->. destruct (_ <=? _)%Z; [by apply delivers_then, put_stores|].
    apply large_delivers; [done|intros x; apply (ul_upload_fileobj Hlaws)|]. intros rc Hrc. by apply (ul_rust Hlaws rc Hrc).
Qed.
End Path.
End Uploads.

(** C10: an upload of the S3 provider stores exactly the content of the file or
    buffer and its attributes under the bucket and key of the path, and changes
    no other object, or it fails and changes nothing; on every route: in one
    request or in parts, with the native client or without. *)
Theorem s3_upload_exact {W} `{!Boto3 W, !LocalDisk W}
    (objects_of : W -> gmap (string * string) (bytes * option provider_attributes)) (files_of : W -> gmap string bytes)
    (rust : option (RustClient W)) (rust_bucket : string) (threshold : Z) (checksum : option string)
    (remote : string) (f : io) (a : option provider_attributes) (content_type : option string) (w : W)
    (Hlaws : upload_laws objects_of files_of rust rust_bucket)
    (Hrust : rust <> None -> (split_path remote).1 = rust_bucket) :
  let '(r, w') := s3_upload_file rust threshold checksum remote f a content_type w in
  files_of w' = files_of w /\
  match r with
  | Ok n => exists d, content_of files_of f w = Some d /\ n = Z.of_nat (length d) /\
              objects_of w' = <[ split_path remote := (d, stored_attributes a) ]> (objects_of w)
  | Err _ => objects_of w' = objects_of w
  end.
Proof.
  destruct (split_path remote) as [b k] eqn:Hsplit. cbn [fst] in Hrust.
  destruct (content_of files_of f w) as [d|] eqn:Hd.
  - destruct (upload_delivers objects_of files_of rust rust_bucket threshold checksum Hlaws remote b k Hsplit Hrust f a content_type w d Hd)
      as [[Hf Ho] Hn].
    destruct (s3_upload_file _ _ _ _ _ _ _ w) as [[n|e] w']; cbn in *; [|done]. split; [done|]. exists d. auto.
  - destruct f as [f|]; [|done]. cbn in Hd. unfold s3_upload_file, upload_with. rewrite Hsplit. unfold mbind at 1, reading.
    by rewrite (ul_getsize _ _ _ _ Hlaws), Hd.
Qed.

(** ** Downloads *)
Section Downloads.
Context {W : Type} `{!Boto3 W, !LocalDisk W}.
Context (objects_of : W -> gmap (string * string) (bytes * option provider_attributes)) (files_of : W -> gmap string bytes).
Definition same_objects {A} (w : W) (m : M W A) : Prop := objects_of (m w).2 = objects_of w.
(** Temporary files are new, a failed write touches only the file that is
    written, and renaming is atomic. *)
Record download_laws : Prop := {
  dl_makedirs d w : same_objects w (ld_makedirs d) /\ files_of (ld_makedirs d w).2 = files_of w;
  dl_mktemp d w : same_objects w (ld_mktemp d) /\
    match ld_mktemp d w with
    | (Ok t, w') => files_of w !! t = None /\ files_of w' = <[ t := [] ]> (files_of w)
    | (Err _, w') => files_of w' = files_of w
    end;
  dl_write t d w : same_objects w (ld_write t d) /\
    match ld_write t d w with
    | (Ok _, w') => files_of w' = <[ t := d ]> (files_of w)
    | (Err _, w') => delete t (files_of w') = delete t (files_of w)
    end;
  dl_rename t f w : same_objects w (ld_rename t f) /\
    match ld_rename t f w with
    | (Ok _, w') => exists d, files_of w !! t = Some d /\ files_of w' = <[ f := d ]> (delete t (files_of w))
    | (Err _, w') => files_of w' = files_of w
    end;
  dl_get_object b k w d : bo_get_object b k None w = Ok d -> exists a, objects_of w !! (b, k) = Some (d, a);
  dl_download_fileobj b k w d : bo_download_fileobj b k w = (d, None) -> exists a, objects_of w !! (b, k) = Some (d, a);
}.
Context (Hlaws : download_laws).

(** What a download that writes a temporary file does *)
Definition fetches (p : string * string) (f : string) (w : W) (m : M W unit) : Prop :=
  let '(r, w') := m w in
  objects_of w' = objects_of w /\
  match r with
  | Ok _ => exists d a, objects_of w !! p = Some (d, a) /\ files_of w' = <[ f := d ]> (files_of w)
  | Err _ => files_of w ⊆ files_of w'
  end.
(** From a source that puts the object into the temporary file *)
Lemma temp_fetches b k f w (fill : string -> M W unit) :
  (forall t w, same_objects w (fill t) /\
     match fill t w with
     | (Ok _, w') => exists d a, objects_of w !! (b, k) = Some (d, a) /\ files_of w' = <[ t := d ]> (files_of w)
     | (Err _, w') => delete t (files_of w') = delete t (files_of w)
     end) ->
  fetches (b, k) f w (let! t := ld_mktemp (dirname f) in fill t ;;; ld_rename t f).
Proof.
  intros Hfill. unfold fetches, mbind, same_objects in *. pose proof (dl_mktemp Hlaws (dirname f) w) as [Ho1 H1]. unfold same_objects in Ho1.
  destruct (ld_mktemp (dirname f) w) as [[t|e] w1]; cbn in Ho1; [|by rewrite H1]. destruct H1 as [Hnew Hf1].
  assert (forall m, delete t m = delete t (files_of w1) -> files_of w ⊆ m) as Hsub.
  { intros m Hm. apply map_subseteq_spec. intros g d Hg. assert (g <> t) as Hgt by congruence.
    apply (f_equal (.!! g)) in Hm. rewrite !lookup_delete_ne, Hf1, lookup_insert_ne in Hm by done. congruence. }
  destruct (Hfill t w1) as [Ho2 H2]. destruct (fill t w1) as [[u|e] w2]; cbn in Ho2; [|split; [congruence|by apply Hsub]].
  destruct H2 as (d & a & Hobj & Hf2). pose proof (dl_rename Hlaws t f w2) as [Ho3 H3]. unfold same_objects in Ho3.
  destruct (ld_rename t f w2) as [[v|e] w3]; cbn in Ho3; (split; [congruence|]).
  - destruct H3 as (d' & Hd' & Hf3). rewrite Hf2, lookup_insert_eq in Hd'. injection Hd' as <-. exists d, a. split; [congruence|].
    rewrite Hf3, Hf2, Hf1, !delete_insert_eq. by rewrite delete_id.
  - apply Hsub. rewrite H3, Hf2. by rewrite delete_insert_eq.
Qed.
Lemma fetches_call p f w m : fetches p f w m -> fetches p f w (s3_call m).
Proof. unfold fetches, s3_call, translating. by destruct (m w) as [[] ?]. Qed.
Lemma get_fills remote b k t w : split_path remote = (b, k) ->
  same_objects w (let! d := reading (s3_get_object None remote None) in ld_write t d) /\
  match (let! d := reading (s3_get_object None remote None) in ld_write t d) w with
  | (Ok _, w') => exists d a, objects_of w !! (b, k) = Some (d, a) /\ files_of w' = <[ t := d ]> (files_of w)
  | (Err _, w') => delete t (files_of w') = delete t (files_of w)
  end.
Proof.
  intros Hs. unfold same_objects, mbind, reading, s3_get_object. rewrite Hs. unfold s3_read. cbn [fmap option_fmap option_map].
  destruct (bo_get_object b k None w) as [d|e] eqn:E; [|done]. apply (dl_get_object Hlaws) in E as [a Ha].
  pose proof (dl_write Hlaws t d w) as [Ho Hw]. unfold same_objects in Ho. destruct (ld_write t d w) as [[] w']; split; try done. eauto.
Qed.
Lemma stream_fills b k t w :
  same_objects w (download_into t b k) /\
  match download_into t b k w with
  | (Ok _, w') => exists d a, objects_of w !! (b, k) = Some (d, a) /\ files_of w' = <[ t := d ]> (files_of w)
  | (Err _, w') => delete t (files_of w') = delete t (files_of w)
  end.
Proof.
  unfold same_objects, download_into. destruct (bo_download_fileobj b k w) as [d failed] eqn:E.
  pose proof (dl_write Hlaws t d w) as [Ho Hw]. unfold same_objects in Ho. unfold mbind. destruct (ld_write t d w) as [[] w']; cbn in *; [|done].
  destruct failed as [e|]; cbn; (split; [done|]); [by rewrite Hw, delete_insert_eq|].
  apply (dl_download_fileobj Hlaws) in E as [a' Ha]. eauto.
Qed.
End Downloads.

(** With the native client a small object is written straight to the target: what
    a download that fails in the middle of it leaves there stays. *)
Theorem native_download_in_place {W} `{!Boto3 W, !LocalDisk W} (rc : RustClient W) (threshold : Z) (remote f : string)
    (m : ObjectMetadata) (w w1 w2 : W) (e : exc)
    (Hsmall : (content_length m <= threshold)%Z) (Hparent : make_parent f w = (Ok tt, w1))
    (Hfail : rc_download rc (split_path remote).2 f w1 = (Err e, w2)) :
  s3_download_file (Some rc) threshold remote f (Some m) w = (Err e, w2).
Proof.
  unfold s3_download_file. cbn [source_metadata]. unfold mbind at 1. cbn. destruct (split_path remote) as [b k].
  unfold mbind. rewrite Hparent, (proj2 (Z.leb_le _ _)) by done. cbn in Hfail. by rewrite Hfail.
Qed.

(** ** Batch deletes *)
Section Deletes.
Context {W : Type} `{!Boto3 W} (objects_of : W -> gmap (string * string) (bytes * option provider_attributes)).
(** A request of at most a thousand keys deletes those it does not report. *)
Definition delete_law : Prop := forall b ks w, 0 < length ks <= S3_BATCH_LIMIT ->
  match bo_delete_objects b ks w with
  | (Ok errors, w') => forall q, objects_of w' !! q =
      if decide (q.1 = b /\ q.2 ∈ ks /\ q.2 ∉ errors) then None else objects_of w !! q
  | (Err _, w') => forall q, ~ (q.1 = b /\ q.2 ∈ ks) -> objects_of w' !! q = objects_of w !! q
  end.
Context (Hlaw : delete_law).
Lemma delete_batches_spec l w :
  Forall (fun r => 0 < length r.2 <= S3_BATCH_LIMIT) l ->
  (forall q, q ∉ group_paths l -> objects_of (delete_batches l w).2 !! q = objects_of w !! q) /\
  ((delete_batches l w).1 = Ok [] -> forall q, q ∈ group_paths l -> objects_of (delete_batches l w).2 !! q = None).
Proof.
  intros Hl. revert w. induction Hl as [|[b ks] l Hk Hl IH]; intros w; [split; [done|]; by intros _ q ?%not_elem_of_nil|].
  assert (forall q, q ∈ group_paths ((b, ks) :: l) <-> (q.1 = b /\ q.2 ∈ ks) \/ q ∈ group_paths l) as Hin.
  { intros [x y]. unfold group_paths. cbn [map concat]. rewrite elem_of_app, list_elem_of_fmap. cbn. naive_solver. }
  cbn [delete_batches]. unfold mbind. specialize (Hlaw b ks w Hk). destruct (bo_delete_objects b ks w) as [[errors|e] w1]; cbn [fst snd].
  2: { split; [|done]. intros q Hq. apply Hlaw. rewrite Hin in Hq. tauto. }
  destruct (IH w1) as [IH1 IH2]. destruct (delete_batches l w1) as [[rest|e] w2] eqn:E; cbn [fst snd mret] in *; (split; [|try done]).
  - intros q Hq. rewrite Hin in Hq. rewrite IH1, Hlaw by tauto. by rewrite decide_False by tauto.
  - intros [= He]. apply app_nil in He as [-> ->]. intros q [Hq|Hq]%Hin; [|by apply IH2].
    destruct (decide (q ∈ group_paths l)) as [Hq'|Hq']; [by apply IH2|]. rewrite IH1, Hlaw by done.
    rewrite decide_True; [done|]. split_and!; [tauto|tauto|apply not_elem_of_nil].
  - intros q Hq. rewrite Hin in Hq. rewrite IH1, Hlaw by tauto. by rewrite decide_False by tauto.
Qed.
End Deletes.

(** C12: a batch delete of the S3 provider deletes every object that is named,
    over all buckets and requests of at most a thousand keys each, or raises;
    in either case no other object is touched. *)
Theorem s3_delete_objects_complete {W} `{!Boto3 W} (objects_of : W -> gmap (string * string) (bytes * option provider_attributes))
    (paths : list string) (w : W) (Hlaw : delete_law objects_of) :
  let '(r, w') := s3_delete_objects paths w in
  (forall q, q ∉ map split_path paths -> objects_of w' !! q = objects_of w !! q) /\
  (r = Ok tt -> forall p, p ∈ paths -> objects_of w' !! split_path p = None).
Proof.
  unfold s3_delete_objects. destruct paths as [|p0 paths]; [split; [done|]; by intros _ p ?%not_elem_of_nil|].
  change (concat (map _ (by_bucket (p0 :: paths)))) with (delete_requests S3_BATCH_LIMIT (p0 :: paths)).
  assert (0 < S3_BATCH_LIMIT) as Hpos by (unfold S3_BATCH_LIMIT; lia).
  destruct (delete_batches_spec objects_of Hlaw (delete_requests S3_BATCH_LIMIT (p0 :: paths)) w) as [H1 H2];
    [by apply delete_requests_bounded|].
  unfold s3_call, translating, mbind. destruct (delete_batches _ w) as [[errors|e] w'] eqn:E; cbn [fst snd] in *.
  - destruct errors as [|k errors]; cbn [mret mraise].
    + split; [intros q Hq; apply H1; by rewrite delete_requests_paths|]. intros _ p Hp. apply H2; [done|].
      rewrite delete_requests_paths by done. apply list_elem_of_fmap. by exists p.
    + split; [intros q Hq; apply H1; by rewrite delete_requests_paths|done].
  - split; [intros q Hq; apply H1; by rewrite delete_requests_paths|done].
Qed.

(** ** Examples *)
Lemma mem_bucket_listing b w :
  StronglySorted (fun x y => str_lt (Key x) (Key y)) (bucket_entries b w) -> Forall (fun e => Key e <> "") (bucket_entries b w) ->
  bucket_listing w b (bucket_entries b w).
Proof.
  intros Hs Hn. split; [done|done| |].
  - intros p s. eexists. split; [reflexivity|]. split; [by repeat constructor|]. cbn. by rewrite app_nil_r.
  - intros p. eexists. split; [reflexivity|]. cbn. rewrite !app_nil_r. split; [done|].
    apply after_empty. rewrite Forall_forall in Hn |- *. intros e (He & _)%elem_of_contents. by apply Hn.
Qed.
Definition shelf_world : cloud :=
  cloud_of (map (fun k => (("b", k), blob [x61])) ["d/a.txt"; "d/a/"; "d/a/b"; "d/a/c/d"; "d/e"; "z"]).
Lemma shelf_listing : bucket_listing shelf_world "b" (bucket_entries "b" shelf_world).
Proof.
  apply mem_bucket_listing.
  - apply (bool_decide_unpack (StronglySorted (fun x y => str_ltb (Key x) (Key y) = true) (bucket_entries "b" shelf_world))).
    vm_compute. exact I.
  - apply (bool_decide_unpack _). vm_compute. exact I.
Qed.

Lemma shelf_bucket : "b" <> "" /\ has_char slash "b" = false.
Proof. split; [discriminate|reflexivity]. Qed.

Lemma s3_flat_listing_exact_witness :
  bucket_listing shelf_world "b" (bucket_entries "b" shelf_world) /\
  map key (yielded (s3_list_objects ("b" +:+ "/" +:+ "d/") ((fun k => "b" +:+ "/" +:+ k) <$> Some "d/a.txt")
    ((fun k => "b" +:+ "/" +:+ k) <$> Some "d/a/z") false FOLLOW shelf_world)) = ["b/d/a/b"; "b/d/a/c/d"].
Proof.
  split; [apply shelf_listing|].
  etransitivity; [exact (f_equal (fun l => map key (yielded l)) (s3_flat_listing_exact shelf_world "b" "d/"
    (bucket_entries "b" shelf_world) (Some "d/a.txt") (Some "d/a/z") FOLLOW shelf_listing shelf_bucket))|].
  vm_compute. reflexivity.
Defined.

Lemma s3_recursive_listing_complete_witness :
  exists n, forall fuel max_workers look_ahead finished, n <= fuel ->
  exists l, s3_list_objects_recursive None 10 None "/" "b" "d/" (Some "d/a.txt") None max_workers look_ahead
              FOLLOW finished fuel shelf_world = Some l /\
    raised l = None /\ StronglySorted key_lt (yielded l) /\
    forall o, o ∈ yielded l <-> in_range (Some "d/a.txt") None (key o) /\
      exists e, e ∈ bucket_entries "b" shelf_world /\ startswith (Key e) "d/" = true /\ ends_slash (Key e) = false /\
        o = unprefix "b" (entry_metadata "b" shelf_world e).
Proof.
  apply (s3_recursive_listing_complete shelf_world "b" "d/" (bucket_entries "b" shelf_world) 10 None "/" "b" "d/" (Some "d/a.txt") None FOLLOW).
  - apply shelf_listing.
  - exact shelf_bucket.
  - reflexivity.
  - apply (bool_decide_unpack _). vm_compute. exact I.
  - reflexivity.
  - vm_compute. discriminate.
  - done.
  - by intros s [= <-].
  - done.
Defined.

Lemma mem_stores {A} b k o w (x : A) :
  stores visible disk (b, k) (st_body o) (st_attrs o) w (fun w => (Ok x, put_stored b k o w)).
Proof. split; [done|]. unfold visible. cbn. by rewrite fmap_insert. Qed.
Lemma mem_upload_laws rust b : rust = None \/ rust = Some (mem_rust b) -> upload_laws visible disk rust b.
Proof.
  intros Hr. split; try done.
  - intros b' k d a w. unfold stores. cbn. destruct (IfMatch a) as [e|], (IfNoneMatch a), (objects w !! (b', k)) as [o|] eqn:E; try done;
      repeat case_decide; try done; split; try done; unfold visible; cbn; by rewrite fmap_insert.
  - intros f b' k a w. unfold stores_file, stores. cbn. destruct (disk w !! f) as [d|] eqn:E; [|done].
    apply (mem_stores b' k (mkStored d (Metadata a) "v") w tt).
  - intros d b' k a w. apply (mem_stores b' k (mkStored d (Metadata a) "v") w tt).
  - intros rc Hrc k d f w. assert (rc = mem_rust b) as -> by (destruct Hr; congruence).
    assert (stores_file visible disk (b, k) f None w (mem_upload_file b f k)) as Hf.
    { unfold stores_file, stores, mem_upload_file. destruct (disk w !! f) as [d'|] eqn:E; [|done].
      apply (mem_stores b k (blob d') w tt). }
    split_and!; [apply (mem_stores b k (blob d) w tt)|done|done|apply (mem_stores b k (blob d) w tt)].
Qed.
Lemma s3_upload_exact_witness :
  let w := mkCloud ∅ {[ "/tmp/f" := [x61; x62] ]} in
  let '(r, w') := s3_upload_file (Some (mem_rust "b")) 1 None "b/k" (PathIO "/tmp/f") None None w in
  disk w' = disk w /\
  match r with
  | Ok n => exists d, content_of disk (PathIO "/tmp/f") w = Some d /\ n = Z.of_nat (length d) /\
              visible w' = <[ split_path "b/k" := (d, stored_attributes None) ]> (visible w)
  | Err _ => visible w' = visible w
  end.
Proof.
  apply (s3_upload_exact visible disk (Some (mem_rust "b")) "b" 1 None "b/k" (PathIO "/tmp/f") None None).
  - apply mem_upload_laws. by right.
  - reflexivity.
Defined.

Lemma mem_download_laws : download_laws visible disk.
Proof.
  split; try done.
  - intros d w. split; [done|]. cbn. split; [apply fresh_string_fresh|done].
  - intros t f w. unfold same_objects. cbn. destruct (disk w !! t) as [d|] eqn:E; split; try done. by exists d.
  - intros b k w d. cbn. unfold visible. rewrite lookup_fmap. destruct (objects w !! (b, k)) as [o|]; [|done]. intros [= <-]. by eexists.
  - intros b k w d. cbn. unfold visible. rewrite lookup_fmap. destruct (objects w !! (b, k)) as [o|]; [|done]. intros [= <-]. by eexists.
Qed.

Lemma mem_delete_law : delete_law visible.
Proof.
  intros b ks w _. cbn. intros q. unfold visible. rewrite !lookup_fmap. cbn.
  assert (foldr (fun k o => delete (b, k) o) (objects w) ks !! q = if decide (q.1 = b /\ q.2 ∈ ks) then None else objects w !! q) as ->.
  { induction ks as [|k ks IH]; [by rewrite decide_False by (intros [_ []%not_elem_of_nil])|]. cbn [foldr].
    destruct (decide (q = (b, k))) as [->|Hne]; [rewrite lookup_delete_eq, decide_True; [done|]; by split; [|left]|].
    rewrite lookup_delete_ne, IH by done. apply decide_ext. rewrite elem_of_cons. destruct q; cbn. naive_solver. }
  destruct (decide (q.1 = b /\ q.2 ∈ ks)) as [H|H].
  - rewrite decide_True; [done|]. split_and!; [tauto|tauto|apply not_elem_of_nil].
  - rewrite decide_False by tauto. done.
Qed.
Lemma s3_delete_objects_complete_witness :
  let paths := ["b/d/e"; "c/x"; "b/z"] in
  let '(r, w') := s3_delete_objects paths shelf_world in
  (forall q, q ∉ map split_path paths -> visible w' !! q = visible shelf_world !! q) /\
  (r = Ok tt -> forall p, p ∈ paths -> visible w' !! split_path p = None).
Proof. apply (s3_delete_objects_complete visible ["b/d/e"; "c/x"; "b/z"] shelf_world). apply mem_delete_law. Defined.

(** *** Divergences *)
(** Objects whose key has an empty component are in the flat listing, not in
    the recursive one. *)
Theorem double_slash_not_listed :
  let w := cloud_of [(("b", "a//x"), blob [x61]); (("b", "a/y"), blob [x61])] in
  map key (yielded (s3_list_objects "b/" None None false FOLLOW w)) = ["b/a//x"; "b/a/y"] /\
  (exists l, s3_list_objects_recursive None 10 None "/" "b" "" None None 2 2 FOLLOW (fun _ _ => true) 20 w = Some l /\
     map key (yielded l) = ["a/y"]).
Proof. vm_compute. split; [reflexivity|]. eexists. split; reflexivity. Qed.
(** With [end_at], a listing with directories ends at the first prefix beyond
    it and misses the files of the page. *)
Theorem delimited_end_at_misses_files :
  let w := cloud_of [(("b", "a"), blob [x61]); (("b", "z/x"), blob [x61])] in
  yielded (s3_list_objects "b/" None (Some "b/m") true FOLLOW w) = [] /\
  map key (yielded (s3_list_objects "b/" None (Some "b/m") false FOLLOW w)) = ["b/a"].
Proof. vm_compute. split; reflexivity. Qed.
(** The generator of a listing runs outside of [_translate_errors]: the
    exception of the SDK reaches the caller, where a read raises
    [FileNotFoundError]. *)
Theorem listing_error_not_translated {W} `{!Boto3 W} (w : W) (e : exc) :
  bo_paginate "b" "" None "" w = ([], Some e) -> raised (s3_list_objects "b/" None None false FOLLOW w) = Some e.
Proof. intros H. unfold s3_list_objects. change (split_path "b/") with ("b", ""). cbn. by rewrite H. Qed.
(** The native upload of a small file is not translated either: its retryable
    error is not the [RetryableError] that is retried. *)
Theorem native_error_not_translated :
  let failing := mkRustClient cloud (fun _ _ => mraise RustRetryableError) (fun _ _ _ => Err RustRetryableError)
    (fun _ _ => mraise RustRetryableError) (fun _ _ => mraise RustRetryableError) (fun _ _ => mraise RustRetryableError)
    (fun _ _ => mraise RustRetryableError) (fun _ _ => mraise RustRetryableError) (fun _ _ _ => Err RustRetryableError) in
  let w := mkCloud ∅ {[ "/f" := [x61] ]} in
  (s3_upload_file (Some failing) 10 None "b/k" (PathIO "/f") None None w).1 = Err RustRetryableError /\
  (s3_upload_file (Some failing) 0 None "b/k" (PathIO "/f") None None w).1 = Err RetryableError.
Proof. vm_compute. split; reflexivity. Qed.
(** A download that fails leaves its temporary file. *)
Theorem failed_download_leaves_temp :
  let '(r, w') := s3_download_file None 10 "b/k" "/d/f" (Some (new_ObjectMetadata "k" 1 0)) (cloud_of []) in
  r = Err FileNotFoundError /\ disk w' = {[ "/d/.tmp" := [] ]}.
Proof. vm_compute. split; reflexivity. Qed.
(** With the native client a recursive listing loses the targets of symlinks. *)
Theorem native_listing_drops_symlinks :
  let w := cloud_of [(("b", "l"), mkStored [] (Some {[ SYMLINK_METADATA := "t" ]}) "v")] in
  map symlink_target (yielded (s3_list_objects "b/" None None false FOLLOW w)) = [Some "t"] /\
  (exists l, s3_list_objects_recursive (Some (mem_rust "b")) 10 None "/" "b" "" None None 2 2 FOLLOW (fun _ _ => true) 20 w = Some l /\
     map symlink_target (yielded l) = [None]).
Proof. vm_compute. split; [reflexivity|]. eexists. split; reflexivity. Qed.
(** Credentials that expire make the client ignore [signature_version]. *)
Theorem refreshable_ignores_signature (c : Credentials) (e profile : string) (He : e <> "") (Hc : expiration c = Some e) :
  create_s3_session (Some c) (Some profile) "UNSIGNED" = RefreshableSession c None.
Proof. unfold create_s3_session. rewrite Hc. by destruct e. Qed.
