(* ===== verification/Azure.v ===== *)
(** * The Azure provider ([providers/azure.py])

    [AzureBlobStorageProvider] over the SDK of Azure, an interface here.  Every
    operation first renews the client when the credentials have expired.  Text
    files ([StringIO]) and the computation of a SAS token are left out. *)
From S2P Require Import Prelude PyDict PyPath Types Utils Json Url Listing ListingProofs Provider ProviderProofs Cloud CloudProofs MemCloud.

(** ** The SDK *)
Inductive match_condition := IfNotModified | IfModified.
Record az_blob := mkBlob {
  blob_name : string; blob_size : Z; blob_content_type : option string; blob_last_modified : Z; blob_etag : option string;
  blob_metadata : option provider_attributes }.
Class AzureSdk (W : Type) := {
  (** container, blob, data, metadata and condition; overwrites *)
  az_upload_blob : string -> string -> bytes -> option provider_attributes -> option (match_condition * string) -> M W unit;
  (** container, blob and range: what arrives, and the exception *)
  az_download_blob : string -> string -> option Range -> W -> bytes * option exc;
  az_start_copy : string -> string -> string -> string -> M W unit;
  az_delete_blob : string -> string -> option string -> M W unit;
  (** the status codes of the parts *)
  az_delete_blobs : string -> list string -> M W (list Z);
  (** [BlobPrefix] or blob, up to the exception that ends the iteration *)
  az_walk_blobs : string -> string -> W -> list (string + az_blob) * option exc;
  az_list_blobs : string -> string -> W -> list az_blob * option exc;
  az_get_blob_properties : string -> string -> W -> res az_blob;
}.

(** ** Errors *)
Definition azure_translate (e : exc) : exc :=
  match e with
  | HttpResponseError status_code =>
      match status_code with
      | Some 404%Z => FileNotFoundError
      | Some 412%Z => PreconditionFailedError
      | _ => RuntimeError
      end
  | AzureError => RuntimeError
  | FileNotFoundError => FileNotFoundError
  | _ => RuntimeError
  end.

(** ** Options of the constructor *)
Definition AZURE_CONTENT_MD5_RANGE_LIMIT_BYTES : Z := (4 * MiB)%Z.
Definition validate_content_option (validate_content : json) (io_chunksize : Z) : res bool :=
  match validate_content with
  | JBool v => if v && (AZURE_CONTENT_MD5_RANGE_LIMIT_BYTES <? io_chunksize)%Z then Err ValueError else Ok v
  | _ => Err ValueError
  end.
Definition CLIENT_CONFIGURATION_KEYS : list string :=
  ["retry_total"; "retry_connect"; "retry_read"; "retry_status"; "connection_timeout"; "read_timeout"].
Definition client_configuration (kwargs : list (string * json)) : list (string * json) :=
  let c0 := filter (fun kv => kv.1 ∈ CLIENT_CONFIGURATION_KEYS) kwargs in
  let c1 := if dmem c0 "connection_timeout" then c0 else dset c0 "connection_timeout" (JInt 60) in
  if dmem c1 "read_timeout" then c1 else dset c1 "read_timeout" (JInt 60).

Definition AZURE_BATCH_LIMIT : nat := N.to_nat 256.
Definition AZURE_SYMLINK_METADATA : string := "msc_symlink_target".

(** ** Signed URLs *)
Inductive sas_permission := SasWriteCreate | SasDelete | SasRead.
Definition sas_permissions_for_method (method : string) : sas_permission :=
  let m := upper method in
  if bool_decide (m = "PUT") || bool_decide (m = "POST") then SasWriteCreate
  else if bool_decide (m = "DELETE") then SasDelete else SasRead.
(** [urlparse(url).hostname] *)
Definition after_last_at (s : string) : string := default s (last (split "@"%char s)).
Definition hostname (netloc : string) : option string :=
  let h := after_last_at netloc in
  let h := match split1 "["%char h with (_, Some r) => (split1 "]"%char r).1 | (_, None) => (split1 ":"%char h).1 end in
  if bool_decide (h = "") then None
  else Some (match split1 "%"%char h with (a, Some z) => lower a +:+ "%" +:+ z | (a, None) => lower a end).
Definition parse_account_name_from_url (account_url : string) : res string :=
  res_bind (urlparse account_url) (fun u =>
  match hostname (netloc u) with Some h => Ok (split1 "."%char h).1 | None => Err ValueError end).
Definition parse_connection_string (s : string) : list (string * string) :=
  fold_left (fun d part => match split1 "="%char part with (k, Some v) => dset d k v | (_, None) => d end) (split ";"%char s) [].

(** What [generate_blob_sas] signs; times are in seconds *)
Inductive sas_key := AccountKey (k : string) | UserDelegationKey (k : string).
Record sas_request := mkSas {
  sas_account : string; sas_container : string; sas_blob : string; sas_permissions : sas_permission; sas_expiry : Z; sas_signing_key : sas_key }.
(** [AzureURLSigner.generate_presigned_url]: the request and the URL without the token *)
Definition azure_sign (account_name account_url : string) (k : sas_key) (expires_in now : Z) (path method : string) : sas_request * string :=
  let '(container, blob) := split_path path in
  (mkSas account_name container blob (sas_permissions_for_method method) (now + expires_in)%Z k,
   rstrip slash account_url +:+ "/" +:+ container +:+ "/" +:+ blob).
(** The cached signing material: account name and key, delegation key and its expiry *)
Record signing := mkSigning { account_key_material : option (string * string); delegation_key : option (string * Z) }.
Inductive az_credentials := StaticConnection (connection : string) | DefaultIdentity | OtherCredentials.
Definition DELEGATION_KEY_REFRESH_BUFFER : Z := 300%Z.
Definition DELEGATION_KEY_LIFETIME : Z := (7 * 86400)%Z.
Definition AZURE_PRESIGN_EXPIRES_IN : Z := 3600%Z.
(** [_generate_presigned_url]; [get_user_delegation_key] is the request for a
    key from one time to another *)
Definition az_generate_presigned_url (creds : az_credentials) (account_url : string) (get_user_delegation_key : Z -> Z -> res string)
    (path method : string) (signer_type : option SignerType) (expires_in : option Z) (now : Z) (s : signing)
    : res (sas_request * string) * signing :=
  if match signer_type with None | Some SignerAZURE => false | _ => true end then (Err ValueError, s)
  else
    let expires_in := default AZURE_PRESIGN_EXPIRES_IN expires_in in
    match creds with
    | StaticConnection conn =>
        match match account_key_material s with
              | Some m => Ok m
              | None => let d := parse_connection_string conn in
                        match dget d "AccountName", dget d "AccountKey" with Some n, Some k => Ok (n, k) | _, _ => Err KeyError end
              end with
        | Err e => (Err e, s)
        | Ok (n, k) => (Ok (azure_sign n account_url (AccountKey k) expires_in now path method), mkSigning (Some (n, k)) (delegation_key s))
        end
    | DefaultIdentity =>
        match match delegation_key s with
              | Some (k, expiry) =>
                  if (expiry - DELEGATION_KEY_REFRESH_BUFFER <=? now)%Z
                  then res_bind (get_user_delegation_key now (now + DELEGATION_KEY_LIFETIME)%Z) (fun k => Ok (k, now + DELEGATION_KEY_LIFETIME)%Z)
                  else Ok (k, expiry)
              | None => res_bind (get_user_delegation_key now (now + DELEGATION_KEY_LIFETIME)%Z) (fun k => Ok (k, now + DELEGATION_KEY_LIFETIME)%Z)
              end with
        | Err e => (Err e, s)
        | Ok (k, expiry) =>
            let s' := mkSigning (account_key_material s) (Some (k, expiry)) in
            (res_bind (parse_account_name_from_url account_url) (fun n =>
               Ok (azure_sign n account_url (UserDelegationKey k) expires_in now path method)), s')
        end
    | OtherCredentials => (Err ValueError, s)
    end.

Section Azure.
Context {W : Type} `{!AzureSdk W, !LocalDisk W, !CredentialsSource W}.
Context (multipart_threshold : Z).

(** [self._refresh_blob_service_client_if_needed()] and a translated call *)
Definition az_call {A} (m : M W A) : M W A := refresh_client_if_needed ;;; translating azure_translate m.

(** ** Objects *)
Definition az_put_object (path : string) (body : bytes) (if_match if_none_match : option string)
    (attributes : option provider_attributes) : M W Z :=
  let '(container, blob) := split_path path in
  az_call (
    let! v := mlift (validated_attributes attributes) in
    let condition := (fun e => (IfNotModified, e)) <$> truthy if_match in
    let! condition := match truthy if_none_match with
      | Some e => if bool_decide (e = "*") then mraise NotImplementedError else mret (Some (IfModified, e))
      | None => mret condition
      end in
    az_upload_blob container blob body v condition ;;; mret (Z.of_nat (length body))).
(** [stream.readall()] *)
Definition readall (container blob : string) (r : option Range) (w : W) : res bytes :=
  let '(d, failed) := az_download_blob container blob r w in match failed with Some e => Err e | None => Ok d end.
Definition az_get_object (path : string) (byte_range : option Range) : M W bytes :=
  let '(container, blob) := split_path path in az_call (reading (readall container blob byte_range)).
Definition az_delete_object (path : string) (if_match : option string) : M W unit :=
  let '(container, blob) := split_path path in az_call (az_delete_blob container blob (truthy if_match)).
Definition az_delete_objects (paths : list string) : M W unit :=
  match paths with
  | [] => mret tt
  | _ =>
      az_call (mfor (concat (map (fun '(c, bs) => map (fun chunk => (c, chunk)) (batches AZURE_BATCH_LIMIT bs)) (by_bucket paths)))
        (fun '(container, chunk) =>
          let! statuses := az_delete_blobs container chunk in
          if existsb batch_failed statuses then mraise RuntimeError else mret tt))
  end.

(** ** Metadata *)
Definition az_is_dir (path : string) : M W bool :=
  let '(container, prefix) := split_path (append_delimiter path) in
  az_call (reading (fun w => match az_walk_blobs container prefix w with
                             | (_ :: _, _) => Ok true
                             | ([], Some e) => Err e
                             | ([], None) => Ok false
                             end)).
Definition blob_symlink (m : option provider_attributes) : option string := m ≫= (.!! AZURE_SYMLINK_METADATA).
Definition properties_metadata (path : string) (b : az_blob) : ObjectMetadata :=
  mkObjectMetadata path (blob_size b) (blob_last_modified b) "file" (blob_content_type b)
    (Some (match truthy (blob_etag b) with Some e => strip_quotes e | None => "" end)) None
    (string_attributes (user_metadata (blob_metadata b))) (blob_symlink (user_metadata (blob_metadata b))).
Definition az_get_object_metadata (path : string) (strict : bool) : M W ObjectMetadata :=
  let '(container, blob) := split_path path in
  if ends_slash path || negb (bool_decide (container = "")) && bool_decide (blob = "") then
    let! d := az_is_dir path in
    if d : bool then mret (directory_metadata (append_delimiter path)) else mraise FileNotFoundError
  else
    mtry is_FileNotFoundError
      (az_call (reading (fun w => res_bind (az_get_blob_properties container blob w) (fun b => Ok (properties_metadata path b)))))
      (fun e =>
        if strict then
          let! d := az_is_dir (append_delimiter path) in
          if d : bool then mret (directory_metadata (append_delimiter path)) else mraise e
        else mraise e).
Definition az_copy_object (src_path dest_path : string) : M W Z :=
  let '(src_container, src_blob) := split_path src_path in
  let '(dest_container, dest_blob) := split_path dest_path in
  refresh_client_if_needed ;;;
  let! src_object := az_get_object_metadata src_path true in
  translating azure_translate (az_start_copy src_container src_blob dest_container dest_blob ;;; mret (content_length src_object)).
Definition az_make_symlink (cwd path target : string) : M W unit :=
  let '(container, blob) := split_path path in
  let '(target_container, target_key) := split_path target in
  if negb (bool_decide (container = target_container)) then mraise ValueError
  else
    let! relative_target := mlift (encode_symlink_target cwd blob target_key) in
    az_call (az_upload_blob container blob [] (Some {[ AZURE_SYMLINK_METADATA := relative_target ]}) None).

(** ** Listing *)
Definition az_blob_metadata (container : string) (b : az_blob) : ObjectMetadata :=
  mkObjectMetadata (path_join container (blob_name b)) (blob_size b) (blob_last_modified b) "file" (blob_content_type b)
    (Some (match truthy (blob_etag b) with Some e => strip_quotes e | None => "" end)) None None
    (blob_symlink (user_metadata (blob_metadata b))).
Definition az_marker_metadata (container : string) (b : az_blob) : ObjectMetadata :=
  mkObjectMetadata (path_join container (rstrip slash (blob_name b))) 0 (blob_last_modified b) "directory" None None None None None.
(** [for blob in blobs] *)
Fixpoint walk_items (container : string) (start_after end_at : option string) (include_directories : bool)
    (l : list (string + az_blob)) (failed : option exc) : listing :=
  match l with
  | [] => mkListing [] failed
  | inl prefix :: l' =>
      let prefix_key := rstrip slash prefix in
      if in_bounds start_after end_at prefix_key then
        yield (directory_metadata (path_join container prefix_key)) (walk_items container start_after end_at include_directories l' failed)
      else if beyond end_at prefix_key then mkListing [] None
      else walk_items container start_after end_at include_directories l' failed
  | inr b :: l' =>
      if in_bounds start_after end_at (blob_name b) then
        let rest := walk_items container start_after end_at include_directories l' failed in
        if ends_slash (blob_name b) then if include_directories then yield (az_marker_metadata container b) rest else rest
        else yield (az_blob_metadata container b) rest
      else if beyond end_at (blob_name b) then mkListing [] None
      else walk_items container start_after end_at include_directories l' failed
  end.
Definition az_list_objects (path : string) (start_after end_at : option string) (include_directories : bool)
    (symlink_handling : SymlinkHandling) (w : W) : listing :=
  let '(container, prefix) := split_path path in
  match refresh_client_if_needed w with
  | (Err e, _) => mkListing [] (Some e)
  | (Ok _, w) =>
      let '(items, failed) := if include_directories then az_walk_blobs container prefix w
                              else let '(bs, failed) := az_list_blobs container prefix w in (map inr bs, failed) in
      walk_items container (key_bound start_after) (key_bound end_at) include_directories items failed
  end.

(** ** Transfers *)
(** Small and large files differ only in the concurrency of the SDK *)
Definition az_upload_file (remote_path : string) (f : io) (attributes : option provider_attributes) : M W Z :=
  let '(container, blob) := split_path remote_path in
  refresh_client_if_needed ;;;
  let! v := mlift (validated_attributes attributes) in
  match f with
  | PathIO f =>
      let! file_size := reading (ld_getsize f) in
      translating azure_translate (let! data := reading (ld_read f) in az_upload_blob container blob data v None ;;; mret file_size)
  | BytesIO data =>
      translating azure_translate (az_upload_blob container blob data v None ;;; mret (Z.of_nat (length data)))
  end.
Definition az_source_metadata (remote_path : string) (m : option ObjectMetadata) : M W ObjectMetadata :=
  match m with Some m => mret m | None => az_get_object_metadata remote_path true end.
(** [except BaseException: os.unlink(temp_file_path) if it exists; raise] *)
Definition removing_temp (temp : string) (m : M W unit) : M W unit := fun w =>
  match m w with
  | (Err e, w') => if ld_exists temp w' then (ld_unlink temp ;;; mraise e) w' else (Err e, w')
  | r => r
  end.
(** A small blob is read at once, a large one is streamed into the file *)
Definition az_fill (large : bool) (container blob temp : string) : M W unit := fun w =>
  let '(data, failed) := az_download_blob container blob None w in
  match failed with
  | None => ld_write temp data w
  | Some e => if large then (ld_write temp data ;;; mraise e) w else (Err e, w)
  end.
Definition az_download_file (remote_path f : string) (m : option ObjectMetadata) : M W Z :=
  let! m := az_source_metadata remote_path m in
  let '(container, blob) := split_path remote_path in
  refresh_client_if_needed ;;;
  make_parent f ;;;
  translating azure_translate (
    let! temp := ld_mktemp (dirname f) in
    removing_temp temp (az_fill (multipart_threshold <? content_length m)%Z container blob temp ;;; ld_rename temp f) ;;;
    mret (content_length m)).
Definition az_download_buffer (remote_path : string) (m : option ObjectMetadata) (w : W) : bytes * res Z :=
  match az_source_metadata remote_path m w with
  | (Err e, _) => ([], Err e)
  | (Ok m, w) =>
      let '(container, blob) := split_path remote_path in
      match refresh_client_if_needed w with
      | (Err e, _) => ([], Err e)
      | (Ok _, w) =>
          let '(data, failed) := az_download_blob container blob None w in
          match failed with
          | None => (data, Ok (content_length m))
          | Some e => (if (multipart_threshold <? content_length m)%Z then data else [], Err (azure_translate e))
          end
      end
  end.

(** The provider as a backend of the base class; the renewal of the client
    during a read is not seen by later calls *)
Definition azure_backend (cwd : string) : StorageBackend W := {|
  be_put_object := az_put_object;
  be_get_object p r w := (az_get_object p r w).1;
  be_copy_object := az_copy_object;
  be_delete_object := az_delete_object;
  be_delete_objects := Some az_delete_objects;
  be_make_symlink := az_make_symlink cwd;
  be_get_object_metadata p s w := (az_get_object_metadata p s w).1;
  be_list_objects := az_list_objects;
  be_shallow_list p h w := shallow_list p (az_list_objects p None None true h w);
  be_upload_file := az_upload_file;
  be_download_file := az_download_file;
  be_download_buffer := az_download_buffer;
  be_supports_parallel_listing := true;
  be_multipart_threshold := multipart_threshold;
  be_makedirs := ld_makedirs;
  be_getsize := ld_getsize;
  be_rust_download := None;
  be_rust_upload := None;
|}.
End Azure.

(** ** Listings implement the contract *)
Section Listing.
Context {W : Type} `{!AzureSdk W, !LocalDisk W, !CredentialsSource W}.
(** What the service documents: prefixes and blobs come in the order of their
    names, and only the blobs without a delimiter *)
Record container_listing (w : W) (c : string) (bs : list az_blob) : Prop := {
  cl_sorted : StronglySorted (fun x y => str_lt (blob_name x) (blob_name y)) bs;
  cl_flat prefix : az_list_blobs c prefix w = (below blob_name prefix bs, None);
  cl_delimited prefix : exists items, az_walk_blobs c prefix w = (items, None) /\
    lefts items = common_prefixes blob_name prefix bs /\ rights items = contents blob_name prefix bs;
}.
Context (w w1 : W) (c : string) (bs : list az_blob) (Hrefresh : refresh_client_if_needed w = (Ok tt, w1)).
Context (Hlist : container_listing w1 c bs) (Hc : c <> "" /\ has_char slash c = false).

(** *** The flat listing *)
Lemma walk_flat start_after end_at l :
  StronglySorted (fun x y => str_lt (blob_name x) (blob_name y)) l ->
  walk_items c start_after end_at false (map inr l) None =
  mkListing (map (az_blob_metadata c) (filter (fun b => in_bounds start_after end_at (blob_name b) = true /\ ends_slash (blob_name b) = false) l)) None.
Proof.
  induction 1 as [|b l Hl IH Hb]; [done|]. cbn [map walk_items]. rewrite filter_cons, IH. unfold yield. cbn [yielded raised].
  destruct (in_bounds start_after end_at (blob_name b)) eqn:Ei.
  - destruct (ends_slash (blob_name b)); [by rewrite decide_False by (intros [_ [=]])|by rewrite decide_True].
  - rewrite decide_False by (intros [[=] _]). destruct (beyond end_at (blob_name b)) eqn:Eb; [|done].
    rewrite filter_none; [done|]. eapply Forall_impl; [exact Hb|]. intros y Hy [Hin _]. unfold in_bounds, beyond in *.
    destruct end_at as [e|]; [|done]. apply andb_true_iff in Hin as [_ Hin].
    apply (str_lt_irrefl e). eapply str_lt_leb_trans; [eapply str_lt_trans; [exact Eb|exact Hy]|done].
Qed.
Lemma azure_flat p start_after end_at symlink_handling :
  az_list_objects (c +:+ "/" +:+ p) ((fun k => c +:+ "/" +:+ k) <$> start_after) ((fun k => c +:+ "/" +:+ k) <$> end_at)
    false symlink_handling w =
  mkListing (map (az_blob_metadata c) (filter (fun b => in_bounds start_after end_at (blob_name b) = true /\
    ends_slash (blob_name b) = false /\ startswith (blob_name b) p = true) bs)) None.
Proof.
  unfold az_list_objects. rewrite split_full, Hrefresh, (cl_flat _ _ _ Hlist), !key_bound_full by done.
  rewrite walk_flat by (apply StronglySorted_filter, Hlist). do 2 f_equal. unfold below. rewrite list_filter_filter.
  apply list_filter_iff. tauto.
Qed.

(** *** The delimited listing *)
Context (Hclean : Forall (fun b => clean_key (blob_name b) = true) bs).
Lemma blob_key b : b ∈ bs -> key (az_blob_metadata c b) = c +:+ "/" +:+ blob_name b.
Proof.
  intros Hb. rewrite Forall_forall in Hclean. specialize (Hclean b Hb). unfold clean_key in Hclean.
  rewrite andb_true_iff, !negb_true_iff in Hclean. destruct Hc, Hclean. cbn [key az_blob_metadata]. by apply path_join_bucket.
Qed.
Lemma walk_all l : walk_items c None None true l None = mkListing (map (delimited_item blob_name c (az_blob_metadata c) (az_marker_metadata c)) l) None.
Proof.
  induction l as [|[p|b] l IH]; [done| |]; cbn [walk_items map delimited_item in_bounds andb]; rewrite IH; [done|].
  by destruct (ends_slash (blob_name b)).
Qed.
Lemma azure_shallow p symlink_handling :
  implements (shallow_list (c +:+ "/" +:+ p) (az_list_objects (c +:+ "/" +:+ p) None None true symlink_handling w))
    (store_shallow blob_name (az_blob_metadata c) bs (c +:+ "/" +:+ p)).
Proof.
  destruct (cl_delimited _ _ _ Hlist p) as (items & Hitems & Hcp & Hco). unfold az_list_objects. rewrite split_full, Hrefresh, Hitems by done.
  cbn [key_bound truthy]. rewrite walk_all. apply delimited_items_implement; try done.
  - intros b [? _]. done.
  - by rewrite Hcp.
Qed.
End Listing.

(** The listings of the Azure provider are exact: the flat one yields
    precisely the blobs of the prefix in the requested range, in order and
    without directory markers, and the recursive one, composed of delimited
    listings by the base class, is complete and sorted for names without empty
    components. *)
Theorem azure_listing_exact {W} `{!AzureSdk W, !LocalDisk W, !CredentialsSource W} (w w1 : W) (container p : string)
    (bs : list az_blob) (threshold : Z) (cwd base_path path : string) (start_after end_at : option string)
    (symlink_handling : SymlinkHandling)
    (Hrefresh : refresh_client_if_needed w = (Ok tt, w1)) (Hlist : container_listing w1 container bs)
    (Hc : container <> "" /\ has_char slash container = false) (Hclean : Forall (fun b => clean_key (blob_name b) = true) bs)
    (Hpath : prepend_base_path base_path path = container +:+ "/" +:+ p)
    (Hspaces : strip_spaces (container +:+ "/" +:+ p) <> "")
    (Hrange : forall s e, start_after = Some s -> end_at = Some e -> str_lt s e)
    (Hstart : relative_bound start_after) (Hend : relative_bound end_at) :
  az_list_objects (container +:+ "/" +:+ p) ((fun k => container +:+ "/" +:+ k) <$> start_after)
    ((fun k => container +:+ "/" +:+ k) <$> end_at) false symlink_handling w =
  mkListing (map (az_blob_metadata container) (filter (fun b => in_bounds start_after end_at (blob_name b) = true /\
    ends_slash (blob_name b) = false /\ startswith (blob_name b) p = true) bs)) None /\
  exists n, forall fuel max_workers look_ahead finished, n <= fuel ->
  exists l, list_objects_recursive (StorageBackend0 := azure_backend threshold cwd) base_path path start_after end_at
              max_workers look_ahead symlink_handling finished fuel w = Some l /\
    raised l = None /\ StronglySorted key_lt (yielded l) /\
    forall o, o ∈ yielded l <-> in_range start_after end_at (key o) /\
      exists b, b ∈ bs /\ startswith (blob_name b) p = true /\ ends_slash (blob_name b) = false /\
        o = unprefix base_path (az_blob_metadata container b).
Proof.
  split; [by eapply azure_flat|].
  apply (@cloud_listing_complete W az_blob (azure_backend threshold cwd) blob_name (az_blob_metadata container) container p bs); try done.
  - intros b Hb. by eapply blob_key.
  - apply Hlist.
  - intros q. by eapply azure_shallow.
Qed.

(** ** Examples *)
Definition az_blob_of (c : string) (w : cloud) (k : string) : az_blob :=
  match objects w !! (c, k) with
  | Some o => mkBlob k (Z.of_nat (length (st_body o))) None 0 (Some (st_etag o)) (st_attrs o)
  | None => mkBlob k 0 None 0 None None
  end.
Definition container_blobs (c : string) (w : cloud) : list az_blob := map (az_blob_of c w) (bucket_keys c w).
#[local] Instance mem_azure : AzureSdk cloud := {|
  az_upload_blob c k d a _ w := (Ok tt, put_stored c k (mkStored d a "v") w);
  az_download_blob c k r w := match objects w !! (c, k) with
    | Some o => (match r with Some r => slice (st_body o) (offset r) (size r) | None => st_body o end, None)
    | None => ([], Some (HttpResponseError (Some 404%Z))) end;
  az_start_copy c k c' k' w := match objects w !! (c, k) with
    | Some o => (Ok tt, put_stored c' k' o w) | None => (Err (HttpResponseError (Some 404%Z)), w) end;
  az_delete_blob c k _ w := (Ok tt, with_objects (delete (c, k) (objects w)) w);
  az_delete_blobs c ks w := (Ok (map (fun _ => 202%Z) ks), with_objects (foldr (fun k o => delete (c, k) o) (objects w) ks) w);
  az_walk_blobs c p w := (map inl (common_prefixes blob_name p (container_blobs c w)) ++ map inr (contents blob_name p (container_blobs c w)), None);
  az_list_blobs c p w := (below blob_name p (container_blobs c w), None);
  az_get_blob_properties c k w := match objects w !! (c, k) with Some _ => Ok (az_blob_of c w k) | None => Err (HttpResponseError (Some 404%Z)) end;
|}.
Lemma mem_container_listing c w :
  StronglySorted (fun x y => str_lt (blob_name x) (blob_name y)) (container_blobs c w) -> container_listing w c (container_blobs c w).
Proof.
  intros Hs. split; [done|done|]. intros p. eexists. split; [reflexivity|].
  rewrite lefts_app, rights_app, lefts_inl, lefts_inr, rights_inl, rights_inr. by rewrite app_nil_r.
Qed.
Definition az_world : cloud := cloud_of (map (fun k => (("c", k), blob [x61])) ["d/a.txt"; "d/a/"; "d/a/b"; "d/e"; "z"]).
Lemma azure_listing_exact_witness :
  az_list_objects ("c" +:+ "/" +:+ "d/") ((fun k => "c" +:+ "/" +:+ k) <$> Some "d/a.txt") ((fun k => "c" +:+ "/" +:+ k) <$> None)
    false FOLLOW az_world =
  mkListing (map (az_blob_metadata "c") (filter (fun b => in_bounds (Some "d/a.txt") None (blob_name b) = true /\
    ends_slash (blob_name b) = false /\ startswith (blob_name b) "d/" = true) (container_blobs "c" az_world))) None /\
  exists n, forall fuel max_workers look_ahead finished, n <= fuel ->
  exists l, list_objects_recursive (StorageBackend0 := azure_backend 10 "/") "c" "d/" (Some "d/a.txt") None
              max_workers look_ahead FOLLOW finished fuel az_world = Some l /\
    raised l = None /\ StronglySorted key_lt (yielded l) /\
    forall o, o ∈ yielded l <-> in_range (Some "d/a.txt") None (key o) /\
      exists b, b ∈ container_blobs "c" az_world /\ startswith (blob_name b) "d/" = true /\ ends_slash (blob_name b) = false /\
        o = unprefix "c" (az_blob_metadata "c" b).
Proof.
  apply (azure_listing_exact az_world az_world "c" "d/" (container_blobs "c" az_world) 10 "/" "c" "d/" (Some "d/a.txt") None FOLLOW).
  - reflexivity.
  - apply mem_container_listing.
    apply (bool_decide_unpack (StronglySorted (fun x y => str_ltb (blob_name x) (blob_name y) = true) (container_blobs "c" az_world))).
    vm_compute. exact I.
  - split; [discriminate|reflexivity].
  - apply (bool_decide_unpack _). vm_compute. exact I.
  - reflexivity.
  - vm_compute. discriminate.
  - done.
  - by intros s [= <-].
  - done.
Defined.

(** A URL is signed with a delegation key that is valid for five more minutes. *)
Theorem delegation_key_valid account_url get_key path method signer expires_in now s r s' :
  az_generate_presigned_url DefaultIdentity account_url get_key path method signer expires_in now s = (Ok r, s') ->
  exists k expiry, delegation_key s' = Some (k, expiry) /\ sas_signing_key r.1 = UserDelegationKey k /\
    (now + DELEGATION_KEY_REFRESH_BUFFER < expiry)%Z.
Proof.
  unfold az_generate_presigned_url. destruct (match signer with None | Some SignerAZURE => false | _ => true end); [by intros [=]|].
  destruct (match delegation_key s with Some _ => _ | None => _ end) as [[k expiry]|] eqn:E; [|by intros [=]].
  intros [= Hr <-]. exists k, expiry. split; [done|].
  destruct (parse_account_name_from_url account_url) as [n|]; [|done]. cbn in Hr. injection Hr as <-.
  split; [unfold azure_sign; by destruct (split_path path)|].
  assert (forall g, res_bind g (fun k => Ok (k, now + DELEGATION_KEY_LIFETIME)%Z) = Ok (k, expiry) -> (now + DELEGATION_KEY_REFRESH_BUFFER < expiry)%Z) as Hnew.
  { intros [k'|]; [|done]. cbn. intros [= _ <-]. unfold DELEGATION_KEY_LIFETIME, DELEGATION_KEY_REFRESH_BUFFER. lia. }
  destruct (delegation_key s) as [[k0 e0]|]; [|by eapply Hnew]. destruct (_ <=? now)%Z eqn:El; [by eapply Hnew|]. injection E as -> ->. lia.
Qed.
(** The lifetime of a URL is an hour by default and may exceed that of the key,
    with which the URL expires. *)
Theorem url_outlives_key :
  match az_generate_presigned_url DefaultIdentity "https://acc.blob.core.windows.net" (fun _ _ => Err RuntimeError) "c/k" "GET" None None
          1000 (mkSigning None (Some ("key", 1301%Z))) with
  | (Ok r, s') => sas_signing_key r.1 = UserDelegationKey "key" /\ delegation_key s' = Some ("key", 1301%Z) /\ sas_expiry r.1 = 4600%Z
  | _ => False
  end.
Proof. vm_compute. split_and!; reflexivity. Qed.

