(* ===== verification/Gcs.v ===== *)
(** * The Google Cloud Storage provider ([providers/gcs.py])

    [GoogleStorageProvider] over the SDK of Google, an interface here, and the
    optional native client.  Text files ([StringIO]) are left out. *)
From S2P Require Import Prelude PyDict PyPath Types Utils Json Listing ListingProofs Provider ProviderProofs Cloud CloudProofs MemCloud.

(** ** The SDK *)
Record gc_blob := mkGcBlob {
  gb_name : string; gb_size : option Z; gb_content_type : option string; gb_updated : option Z; gb_generation : Z;
  gb_etag : option string; gb_metadata : option provider_attributes }.
Class GcsSdk (W : Type) := {
  (** bucket, key, data, metadata, [if_generation_match] and [if_generation_not_match] *)
  gc_upload_from_string : string -> string -> bytes -> option provider_attributes -> option Z -> option Z -> M W unit;
  (** bucket, key, first and last byte *)
  gc_download_as_bytes : string -> string -> option (Z * Z) -> W -> res bytes;
  (** source, destination and token: the next token *)
  gc_rewrite : string * string -> string * string -> option string -> M W (option string);
  gc_delete : string -> string -> option Z -> M W unit;
  (** the status codes of the responses *)
  gc_batch_delete : string -> list string -> M W (list Z);
  (** bucket, prefix, [start_offset] and whether with the delimiter: the blobs,
      the prefixes, a set, and the exception that ends the iteration *)
  gc_list_blobs : string -> string -> option string -> bool -> W -> list gc_blob * list string * option exc;
  gc_get_blob : string -> string -> W -> res (option gc_blob);
  (** the transfer manager: from and to a local path *)
  gc_upload_chunks : string -> string -> string -> option provider_attributes -> M W unit;
  gc_download_chunks : string -> string -> string -> M W unit;
}.

(** ** Errors *)
Definition gcs_translate (e : exc) : exc :=
  match e with
  | GoogleAPICallError status_code =>
      match status_code with
      | Some 404%Z => FileNotFoundError
      | Some 412%Z => PreconditionFailedError
      | Some 304%Z => NotModifiedError
      | _ => RuntimeError
      end
  | InvalidResponse response_text => if has_substr "NoSuchUpload" response_text then RetryableError else RuntimeError
  | RustRetryableError => RetryableError
  | RustClientError status_code => translate_rust status_code
  | _ => RuntimeError
  end.
Definition GCS_BATCH_LIMIT : nat := N.to_nat 100.
Definition GCS_SYMLINK_METADATA : string := "msc-symlink-target".

(** ** Credentials and clients *)
Inductive gcs_credentials := IdentityPool (audience token : string) | ServiceAccount (info : json) | OAuth (token : option string).
(** [GoogleServiceAccountCredentialsProvider.__init__]; [load] reads a JSON file *)
Definition service_account (load : string -> res json) (file : option string) (info : option json) : res gcs_credentials :=
  match file, info with
  | Some f, None => res_bind (load f) (fun j => Ok (ServiceAccount j))
  | None, Some i => Ok (ServiceAccount i)
  | _, _ => Err ValueError
  end.
(** The client that [_create_gcs_client] chooses *)
Inductive gcs_client := AnonymousClient | CredentialsClient (c : gcs_credentials) | DefaultClient.
Definition create_gcs_client (skip_signature : bool) (c : option gcs_credentials) : gcs_client :=
  if skip_signature then AnonymousClient else match c with Some c => CredentialsClient c | None => DefaultClient end.
(** [if name not in configs and os.getenv(var): configs[name] = os.getenv(var)] *)
Definition from_env (getenv : string -> option string) (configs : list (string * json)) (nv : string * string) : list (string * json) :=
  match truthy (getenv nv.2) with
  | Some v => if dmem configs nv.1 then configs else dset configs nv.1 (JStr v)
  | None => configs
  end.
(** The configuration of the native client; [None] when it is not used *)
Definition gcs_rust_configs (getenv : string -> option string) (endpoint_url base_path : string) (skip_signature : bool)
    (c : option gcs_credentials) (options : list (string * json)) : option (list (string * json)) :=
  if negb (bool_decide (endpoint_url = "")) then None
  else
    let c0 := ddel options "retry" in
    let c1 := fold_left (from_env getenv)
      [("application_credentials", "GOOGLE_APPLICATION_CREDENTIALS"); ("service_account_key", "GOOGLE_SERVICE_ACCOUNT_KEY");
       ("service_account_path", "GOOGLE_SERVICE_ACCOUNT"); ("service_account_path", "GOOGLE_SERVICE_ACCOUNT_PATH")] c0 in
    let c2 := if skip_signature && negb (dmem c1 "skip_signature") then dset c1 "skip_signature" (JBool true) else c1 in
    let c3 := if dmem c2 "bucket" then c2 else dset c2 "bucket" (JStr (split_path base_path).1) in
    let c4 := if dmem c3 "max_pool_connections" then c3 else dset c3 "max_pool_connections" (JInt 128) in
    match c with
    | Some (IdentityPool _ _) => None
    | Some (ServiceAccount info) => Some (dset c4 "service_account_key" (JStr (dumps info)))
    | _ => Some c4
    end.

Section Gcs.
Context {W : Type} `{!GcsSdk W, !LocalDisk W, !CredentialsSource W}.
Context (rust_client : option (RustClient W)) (multipart_threshold : Z) (gettempdir : string).

Definition gc_call {A} (m : M W A) : M W A := refresh_client_if_needed ;;; translating gcs_translate m.
(** [int(s)] *)
Definition generation (s : option string) : M W (option Z) :=
  match truthy s with
  | None => mret None
  | Some s => match py_int s with Some z => mret (Some z) | None => mraise ValueError end
  end.

(** ** Objects *)
Definition gc_put_object (path : string) (body : bytes) (if_match if_none_match : option string)
    (attributes : option provider_attributes) : M W Z :=
  let '(bucket, key) := split_path path in
  gc_call (
    let! gm := generation if_match in
    let! gnm := if bool_decide (truthy if_none_match = Some "*") then mraise NotImplementedError else generation if_none_match in
    let! v := mlift (validated_attributes attributes) in
    match rust_client with
    | Some rc =>
        if negb (ends_slash path) && bool_decide (gm = None) && bool_decide (gnm = None) && bool_decide (v = None)
        then rc_put rc key body else gc_upload_from_string bucket key body v gm gnm
    | None => gc_upload_from_string bucket key body v gm gnm
    end ;;;
    mret (Z.of_nat (length body))).
(** The native client's [get] takes a path and a range; with a range it is
    called with two integers *)
Definition gc_get_object (path : string) (byte_range : option Range) : M W bytes :=
  let '(bucket, key) := split_path path in
  gc_call (reading (
    match rust_client, byte_range with
    | Some rc, None => rc_get rc key None
    | Some _, Some _ => fun _ => Err TypeError
    | None, r => gc_download_as_bytes bucket key ((fun r => (offset r, offset r + size r - 1)%Z) <$> r)
    end)).
Definition gc_delete_object (path : string) (if_match : option string) : M W unit :=
  let '(bucket, key) := split_path path in
  gc_call (let! g := generation if_match in gc_delete bucket key g).
Definition gc_delete_objects (paths : list string) : M W unit :=
  match paths with
  | [] => mret tt
  | _ =>
      gc_call (mfor (concat (map (fun '(b, ks) => map (fun chunk => (b, chunk)) (batches GCS_BATCH_LIMIT ks)) (by_bucket paths)))
        (fun '(bucket, chunk) =>
          let! statuses := gc_batch_delete bucket chunk in
          if existsb batch_failed statuses then mraise RuntimeError else mret tt))
  end.

(** ** Metadata *)
Definition gc_is_dir (path : string) : M W bool :=
  let '(bucket, key) := split_path (append_delimiter path) in
  gc_call (reading (fun w =>
    let '(blobs, prefixes, failed) := gc_list_blobs bucket key None true w in
    match blobs, failed with
    | _ :: _, _ => Ok true
    | [], Some e => Err e
    | [], None => Ok (negb (bool_decide (prefixes = [])))
    end)).
Definition gc_symlink (m : option provider_attributes) : option string := m ≫= (.!! GCS_SYMLINK_METADATA).
(** [size or 0] and [updated or AWARE_DATETIME_MIN] *)
Definition gc_object_metadata (path : string) (b : gc_blob) : ObjectMetadata :=
  mkObjectMetadata path (default 0%Z (gb_size b)) (default AWARE_DATETIME_MIN (gb_updated b)) "file" (gb_content_type b)
    (Some (pretty (gb_generation b))) None (string_attributes (user_metadata (gb_metadata b))) (gc_symlink (user_metadata (gb_metadata b))).
Definition gc_get_object_metadata (path : string) (strict : bool) : M W ObjectMetadata :=
  let '(bucket, key) := split_path path in
  if ends_slash path || negb (bool_decide (bucket = "")) && bool_decide (key = "") then
    let! d := gc_is_dir path in
    if d : bool then mret (directory_metadata path) else mraise FileNotFoundError
  else
    mtry is_FileNotFoundError
      (gc_call (reading (fun w => res_bind (gc_get_blob bucket key w) (fun b =>
         match b with Some b => Ok (gc_object_metadata path b) | None => Err (GoogleAPICallError (Some 404%Z)) end))))
      (fun e =>
        if strict then
          let! d := gc_is_dir (append_delimiter path) in
          if d : bool then mret (directory_metadata (append_delimiter path)) else mraise e
        else mraise e).
(** [while len(rewrite_tokens) > 0]; [None] when the service needs more rounds *)
Fixpoint rewrite_loop (fuel : nat) (src dst : string * string) (token : option string) (w : W) : option (res unit * W) :=
  match fuel with
  | 0 => None
  | S fuel =>
      match gc_rewrite src dst token w with
      | (Err e, w') => Some (Err e, w')
      | (Ok None, w') => Some (Ok tt, w')
      | (Ok (Some next), w') => rewrite_loop fuel src dst (Some next) w'
      end
  end.
Definition gc_copy_object (fuel : nat) (src_path dest_path : string) (w : W) : option (res Z * W) :=
  match (refresh_client_if_needed ;;; gc_get_object_metadata src_path true) w with
  | (Err e, w1) => Some (Err e, w1)
  | (Ok src_object, w1) =>
      match rewrite_loop fuel (split_path src_path) (split_path dest_path) None w1 with
      | None => None
      | Some (Ok _, w2) => Some (Ok (content_length src_object), w2)
      | Some (Err e, w2) => Some (Err (gcs_translate e), w2)
      end
  end.
Definition gc_make_symlink (cwd path target : string) : M W unit :=
  let '(bucket, key) := split_path path in
  let '(target_bucket, target_key) := split_path target in
  if negb (bool_decide (bucket = target_bucket)) then mraise ValueError
  else
    let! relative_target := mlift (encode_symlink_target cwd key target_key) in
    gc_call (gc_upload_from_string bucket key [] (Some {[ GCS_SYMLINK_METADATA := relative_target ]}) None None).

(** ** Listing *)
Definition gc_blob_metadata (bucket : string) (b : gc_blob) : ObjectMetadata :=
  mkObjectMetadata (path_join bucket (gb_name b)) (default 0%Z (gb_size b)) (default AWARE_DATETIME_MIN (gb_updated b)) "file"
    (gb_content_type b) (gb_etag b) None None (gc_symlink (user_metadata (gb_metadata b))).
Definition gc_marker_metadata (bucket : string) (b : gc_blob) : ObjectMetadata :=
  mkObjectMetadata (path_join bucket (rstrip slash (gb_name b))) 0 (default AWARE_DATETIME_MIN (gb_updated b)) "directory" None None None None None.
(** [for blob in blobs]: the objects, and whether the loop returned *)
Fixpoint gc_blobs (bucket : string) (start_after end_at : option string) (include_directories : bool) (l : list gc_blob)
    : list ObjectMetadata * bool :=
  match l with
  | [] => ([], false)
  | b :: l' =>
      if in_bounds start_after end_at (gb_name b) then
        let '(r, stop) := gc_blobs bucket start_after end_at include_directories l' in
        if ends_slash (gb_name b) then (if include_directories then gc_marker_metadata bucket b :: r else r, stop)
        else (gc_blob_metadata bucket b :: r, stop)
      else if bool_decide (start_after = Some (gb_name b)) then gc_blobs bucket start_after end_at include_directories l'
      else ([], true)
  end.
Definition gc_prefixes (bucket : string) (start_after end_at : option string) (prefixes : list string) : list ObjectMetadata :=
  map (fun p => directory_metadata (path_join bucket (rstrip slash p)))
    (filter (fun p => in_bounds start_after end_at (rstrip slash p) = true) prefixes).
Definition gc_list_objects (path : string) (start_after end_at : option string) (include_directories : bool)
    (symlink_handling : SymlinkHandling) (w : W) : listing :=
  let '(bucket, prefix) := split_path path in
  match refresh_client_if_needed w with
  | (Err e, _) => mkListing [] (Some e)
  | (Ok _, w) =>
      let '(blobs, prefixes, failed) := gc_list_blobs bucket prefix (key_bound start_after) include_directories w in
      let '(os, stop) := gc_blobs bucket (key_bound start_after) (key_bound end_at) include_directories blobs in
      if stop then mkListing os None
      else match failed with
           | Some e => mkListing os (Some e)
           | None => mkListing (os ++ if include_directories then gc_prefixes bucket (key_bound start_after) (key_bound end_at) prefixes else []) None
           end
  end.

(** ** Transfers *)
Definition gc_upload_file (remote_path : string) (f : io) (attributes : option provider_attributes) : M W Z :=
  let '(bucket, key) := split_path remote_path in
  refresh_client_if_needed ;;;
  match f with
  | PathIO f =>
      let! file_size := reading (ld_getsize f) in
      if (file_size <=? multipart_threshold)%Z then
        match rust_client with
        | Some rc =>
            if negb (has_attributes attributes) then rc_upload rc f key
            else let! body := reading (ld_read f) in gc_put_object remote_path body None None attributes ;;; mret tt
        | None => let! body := reading (ld_read f) in gc_put_object remote_path body None None attributes ;;; mret tt
        end ;;;
        mret file_size
      else
        translating gcs_translate (
          match rust_client with
          | Some rc =>
              if negb (has_attributes attributes) then rc_upload_multipart_from_file rc f key
              else let! v := mlift (validated_attributes attributes) in gc_upload_chunks f bucket key v
          | None => let! v := mlift (validated_attributes attributes) in gc_upload_chunks f bucket key v
          end ;;;
          mret file_size)
  | BytesIO data =>
      let file_size := Z.of_nat (length data) in
      if (file_size <=? multipart_threshold)%Z then gc_put_object remote_path data None None attributes ;;; mret file_size
      else
        translating gcs_translate (
          let! v := mlift (validated_attributes attributes) in
          let! temp := ld_mktemp gettempdir in
          ld_write temp data ;;; gc_upload_chunks temp bucket key v ;;; ld_unlink temp ;;; mret file_size)
  end.
Definition gc_source_metadata (remote_path : string) (m : option ObjectMetadata) : M W ObjectMetadata :=
  match m with Some m => mret m | None => gc_get_object_metadata remote_path true end.
Definition gc_download_file (remote_path f : string) (m : option ObjectMetadata) : M W Z :=
  refresh_client_if_needed ;;;
  let! m := gc_source_metadata remote_path m in
  let '(bucket, key) := split_path remote_path in
  make_parent f ;;;
  if (content_length m <=? multipart_threshold)%Z then
    match rust_client with
    | Some rc => rc_download rc key f
    | None =>
        let! temp := ld_mktemp (dirname f) in
        let! data := gc_get_object remote_path None in
        ld_write temp data ;;; ld_rename temp f
    end ;;;
    mret (content_length m)
  else
    translating gcs_translate (
      match rust_client with
      | Some rc => rc_download_multipart_to_file rc key f
      | None =>
          let! temp := ld_mktemp (dirname f) in
          gc_download_chunks bucket key temp ;;; ld_rename temp f
      end ;;;
      mret (content_length m)).
(** To a file object: a large object goes through a temporary file *)
Definition gc_download_buffer (remote_path : string) (m : option ObjectMetadata) (w : W) : bytes * res Z :=
  match (refresh_client_if_needed ;;; gc_source_metadata remote_path m) w with
  | (Err e, _) => ([], Err e)
  | (Ok m, w1) =>
      let '(bucket, key) := split_path remote_path in
      if (content_length m <=? multipart_threshold)%Z then
        match gc_get_object remote_path None w1 with
        | (Ok d, _) => (d, Ok (content_length m))
        | (Err e, _) => ([], Err e)
        end
      else
        match (let! temp := ld_mktemp gettempdir in
               gc_download_chunks bucket key temp ;;; let! d := reading (ld_read temp) in mret (temp, d)) w1 with
        | (Err e, _) => ([], Err (gcs_translate e))
        | (Ok (temp, d), w2) =>
            (d, match (ld_unlink temp w2).1 with Ok _ => Ok (content_length m) | Err e => Err (gcs_translate e) end)
        end
  end.

(** The provider as a backend of the base class; [fuel] bounds the rounds of a
    copy, and the renewal of the client during a read is not seen by later calls *)
Definition gcs_backend (fuel : nat) (cwd : string) : StorageBackend W := {|
  be_put_object := gc_put_object;
  be_get_object p r w := (gc_get_object p r w).1;
  be_copy_object p q w := default (Err (OtherError 0), w) (gc_copy_object fuel p q w);
  be_delete_object := gc_delete_object;
  be_delete_objects := Some gc_delete_objects;
  be_make_symlink := gc_make_symlink cwd;
  be_get_object_metadata p s w := (gc_get_object_metadata p s w).1;
  be_list_objects := gc_list_objects;
  be_shallow_list p h w := shallow_list p (gc_list_objects p None None true h w);
  be_upload_file := gc_upload_file;
  be_download_file := gc_download_file;
  be_download_buffer := gc_download_buffer;
  be_supports_parallel_listing := true;
  be_multipart_threshold := multipart_threshold;
  be_makedirs := ld_makedirs;
  be_getsize := ld_getsize;
  be_rust_download := match rust_client with
    | Some rc => Some (fun k f multipart => (if multipart : bool then rc_download_multipart_to_file rc k f else rc_download rc k f) ;;; mret 0%Z)
    | None => None end;
  be_rust_upload := match rust_client with
    | Some rc => Some (fun f k multipart => (if multipart : bool then rc_upload_multipart_from_file rc f k else rc_upload rc f k) ;;; mret 0%Z)
    | None => None end;
|}.
End Gcs.

(** ** Copies end *)
(** A copy ends when the service sends no further token, however many rounds
    it takes. *)
Inductive rewritten {W} `{!GcsSdk W} (src dst : string * string) : nat -> option string -> W -> W -> Prop :=
  | rewritten_last token w w' : gc_rewrite src dst token w = (Ok None, w') -> rewritten src dst 1 token w w'
  | rewritten_next n token next w w1 w' :
      gc_rewrite src dst token w = (Ok (Some next), w1) -> rewritten src dst n (Some next) w1 w' -> rewritten src dst (S n) token w w'.
Lemma rewrite_loop_complete {W} `{!GcsSdk W} src dst n token (w w' : W) fuel :
  rewritten src dst n token w w' -> n <= fuel -> rewrite_loop fuel src dst token w = Some (Ok tt, w').
Proof.
  intros H. revert fuel. induction H as [token w w' H|n token next w w1 w' H _ IH]; intros [|fuel] Hf; try lia; cbn; rewrite H; [done|].
  apply IH. lia.
Qed.

(** ** Listings implement the contract *)
Section Listing.
Context {W : Type} `{!GcsSdk W, !LocalDisk W, !CredentialsSource W}.
(** What the service documents: blobs in the order of their names from
    [start_offset] on; the prefixes are a set *)
Record gcs_listing (w : W) (b : string) (bs : list gc_blob) : Prop := {
  gl_sorted : StronglySorted (fun x y => str_lt (gb_name x) (gb_name y)) bs;
  gl_flat prefix s : gc_list_blobs b prefix s false w =
    (filter (fun x => match s with Some s => str_leb s (gb_name x) | None => true end = true) (below gb_name prefix bs), [], None);
  gl_delimited prefix : exists prefixes, gc_list_blobs b prefix None true w = (contents gb_name prefix bs, prefixes, None) /\
    prefixes ≡ₚ common_prefixes gb_name prefix bs;
}.
Context (w w1 : W) (b : string) (bs : list gc_blob) (Hrefresh : refresh_client_if_needed w = (Ok tt, w1)).
Context (Hlist : gcs_listing w1 b bs) (Hb : b <> "" /\ has_char slash b = false).

Definition gc_item (include_directories : bool) (x : gc_blob) : option ObjectMetadata :=
  if ends_slash (gb_name x) then if include_directories then Some (gc_marker_metadata b x) else None else Some (gc_blob_metadata b x).
(** The loop on blobs that start at [start_after] *)
Lemma gc_blobs_sorted start_after end_at d l :
  StronglySorted (fun x y => str_lt (gb_name x) (gb_name y)) l ->
  Forall (fun x => match start_after with Some s => str_leb s (gb_name x) | None => true end = true) l ->
  (gc_blobs b start_after end_at d l).1 = omap (gc_item d) (filter (fun x => in_bounds start_after end_at (gb_name x) = true) l) /\
  ((gc_blobs b start_after end_at d l).2 = true -> end_at <> None).
Proof.
  induction 1 as [|x l Hl IH Hx]; intros Hs; [done|]. inversion Hs as [|? ? Hsx Hsl]; subst. specialize (IH Hsl).
  cbn [gc_blobs]. rewrite filter_cons. destruct (in_bounds start_after end_at (gb_name x)) eqn:Ei.
  - rewrite decide_True by done. cbn [omap list_omap]. unfold gc_item at 1.
    destruct (gc_blobs b start_after end_at d l) as [r stop]. cbn [fst snd] in IH. destruct IH as [-> IH2].
    destruct (ends_slash (gb_name x)); [destruct d|]; done.
  - rewrite decide_False by done. case_bool_decide as Hse; [done|]. cbn [fst snd].
    assert (exists e, end_at = Some e /\ str_leb (gb_name x) e = false) as (e & -> & He).
    { unfold in_bounds in Ei. destruct start_after as [s|], end_at as [e|]; cbn in *; try done; [|..|by exists e].
      - destruct (str_ltb s (gb_name x)) eqn:Elt; cbn in Ei; [by exists e|]. exfalso.
        apply Hse. f_equal. apply str_leb_antisym; [done|]. rewrite str_ltb_leb in Elt. by apply negb_false_iff.
      - exfalso. rewrite andb_true_r in Ei. apply Hse. f_equal. apply str_leb_antisym; [done|]. rewrite str_ltb_leb in Ei. by apply negb_false_iff. }
    split; [|done]. rewrite filter_none; [done|]. eapply Forall_impl; [exact Hx|]. intros y Hy Hin. unfold in_bounds in Hin.
    apply andb_true_iff in Hin as [_ Hin]. by rewrite (str_leb_trans _ _ _ (str_lt_leb _ _ Hy) Hin) in He.
Qed.
Lemma gcs_flat p start_after end_at symlink_handling :
  gc_list_objects (b +:+ "/" +:+ p) ((fun k => b +:+ "/" +:+ k) <$> start_after) ((fun k => b +:+ "/" +:+ k) <$> end_at)
    false symlink_handling w =
  mkListing (map (gc_blob_metadata b) (filter (fun x => in_bounds start_after end_at (gb_name x) = true /\
    ends_slash (gb_name x) = false /\ startswith (gb_name x) p = true) bs)) None.
Proof.
  unfold gc_list_objects. rewrite split_full, Hrefresh, !key_bound_full, (gl_flat _ _ _ Hlist) by done.
  set (l := filter _ _). assert (Forall (fun x => match start_after with Some s => str_leb s (gb_name x) | None => true end = true) l) as Hl.
  { apply Forall_forall. by intros x [Hx _]%list_elem_of_filter. }
  destruct (gc_blobs_sorted start_after end_at false l) as [Hos _]; [unfold l, below; do 2 apply StronglySorted_filter; apply Hlist|done|].
  destruct (gc_blobs b start_after end_at false l) as [os stop]. cbn [fst] in Hos. subst os. cbn [gc_prefixes].
  assert (forall m, omap (gc_item false) m = map (gc_blob_metadata b) (filter (fun x => ends_slash (gb_name x) = false) m)) as ->.
  { induction m as [|x m IH]; [done|]. rewrite filter_cons. cbn [omap list_omap]. rewrite IH. unfold gc_item. by destruct (ends_slash (gb_name x)). }
  rewrite app_nil_r. destruct stop; do 2 f_equal; unfold l, below; rewrite !list_filter_filter; apply list_filter_iff; intros x;
    unfold in_bounds; destruct start_after as [s|]; cbn [andb]; rewrite ?andb_true_iff;
    (split; [tauto|]; intros ([H1 H2] & H3 & H4) || intros (H2 & H3 & H4)); split_and!; try done; by apply str_lt_leb.
Qed.

(** *** The delimited listing *)
Context (Hclean : Forall (fun x => clean_key (gb_name x) = true) bs).
Lemma gc_blob_key x : x ∈ bs -> key (gc_blob_metadata b x) = b +:+ "/" +:+ gb_name x.
Proof.
  intros Hx. rewrite Forall_forall in Hclean. specialize (Hclean x Hx). unfold clean_key in Hclean.
  rewrite andb_true_iff, !negb_true_iff in Hclean. destruct Hb, Hclean. cbn [key gc_blob_metadata]. by apply path_join_bucket.
Qed.
Lemma gcs_shallow p symlink_handling :
  implements (shallow_list (b +:+ "/" +:+ p) (gc_list_objects (b +:+ "/" +:+ p) None None true symlink_handling w))
    (store_shallow gb_name (gc_blob_metadata b) bs (b +:+ "/" +:+ p)).
Proof.
  destruct (gl_delimited _ _ _ Hlist p) as (prefixes & Hl & Hp). unfold gc_list_objects. rewrite split_full, Hrefresh by done.
  cbn [key_bound truthy]. rewrite Hl.
  destruct (gc_blobs_sorted None None true (contents gb_name p bs)) as [Hos Hstop];
    [unfold contents, below; do 2 apply StronglySorted_filter; apply Hlist|by apply Forall_forall|].
  destruct (gc_blobs b None None true (contents gb_name p bs)) as [os []]; cbn [fst snd] in *; [by destruct (Hstop eq_refl)|].
  rewrite filter_every in Hos by by apply Forall_forall. subst os.
  unfold gc_prefixes. rewrite (filter_every _ prefixes) by by apply Forall_forall.
  assert (forall l, omap (gc_item true) l = map (delimited_item gb_name b (gc_blob_metadata b) (gc_marker_metadata b)) (map inr l)) as ->.
  { induction l as [|x l IH]; [done|]. cbn [omap list_omap map delimited_item]. rewrite IH. unfold gc_item. by destruct (ends_slash (gb_name x)). }
  change (map (fun c => directory_metadata _) prefixes) with
    (map (fun c => delimited_item gb_name b (gc_blob_metadata b) (gc_marker_metadata b) (inl c)) prefixes).
  rewrite <- (map_map inl (delimited_item gb_name b (gc_blob_metadata b) (gc_marker_metadata b))), <- List.map_app.
  apply delimited_items_implement; try done.
  - intros x [? _]. done.
  - by rewrite lefts_app, lefts_inl, lefts_inr.
  - by rewrite rights_app, rights_inl, rights_inr, app_nil_r.
Qed.
End Listing.

(** The listings of the Google provider are exact: the flat one yields
    precisely the blobs of the prefix in the requested range, although the
    service starts at the bound itself, and the recursive one, composed of
    delimited listings by the base class, is complete and sorted, although the
    service returns the prefixes in no particular order. *)
Theorem gcs_listing_exact {W} `{!GcsSdk W, !LocalDisk W, !CredentialsSource W} (w w1 : W) (bucket p : string)
    (bs : list gc_blob) (rust : option (RustClient W)) (threshold : Z) (gettempdir : string) (rounds : nat)
    (cwd base_path path : string) (start_after end_at : option string) (symlink_handling : SymlinkHandling)
    (Hrefresh : refresh_client_if_needed w = (Ok tt, w1)) (Hlist : gcs_listing w1 bucket bs)
    (Hb : bucket <> "" /\ has_char slash bucket = false) (Hclean : Forall (fun x => clean_key (gb_name x) = true) bs)
    (Hpath : prepend_base_path base_path path = bucket +:+ "/" +:+ p)
    (Hspaces : strip_spaces (bucket +:+ "/" +:+ p) <> "")
    (Hrange : forall s e, start_after = Some s -> end_at = Some e -> str_lt s e)
    (Hstart : relative_bound start_after) (Hend : relative_bound end_at) :
  gc_list_objects (bucket +:+ "/" +:+ p) ((fun k => bucket +:+ "/" +:+ k) <$> start_after)
    ((fun k => bucket +:+ "/" +:+ k) <$> end_at) false symlink_handling w =
  mkListing (map (gc_blob_metadata bucket) (filter (fun x => in_bounds start_after end_at (gb_name x) = true /\
    ends_slash (gb_name x) = false /\ startswith (gb_name x) p = true) bs)) None /\
  exists n, forall fuel max_workers look_ahead finished, n <= fuel ->
  exists l, list_objects_recursive (StorageBackend0 := gcs_backend rust threshold gettempdir rounds cwd) base_path path
              start_after end_at max_workers look_ahead symlink_handling finished fuel w = Some l /\
    raised l = None /\ StronglySorted key_lt (yielded l) /\
    forall o, o ∈ yielded l <-> in_range start_after end_at (key o) /\
      exists x, x ∈ bs /\ startswith (gb_name x) p = true /\ ends_slash (gb_name x) = false /\
        o = unprefix base_path (gc_blob_metadata bucket x).
Proof.
  split; [by eapply gcs_flat|].
  apply (@cloud_listing_complete W gc_blob (gcs_backend rust threshold gettempdir rounds cwd) gb_name (gc_blob_metadata bucket) bucket p bs); try done.
  - intros x Hx. by eapply gc_blob_key.
  - apply Hlist.
  - intros q. by eapply gcs_shallow.
Qed.

(** ** Examples *)
Definition gc_blob_of (b : string) (w : cloud) (k : string) : gc_blob :=
  match objects w !! (b, k) with
  | Some o => mkGcBlob k (Some (Z.of_nat (length (st_body o)))) None None 7 (Some (st_etag o)) (st_attrs o)
  | None => mkGcBlob k None None None 0 None None
  end.
Definition gc_bucket_blobs (b : string) (w : cloud) : list gc_blob := map (gc_blob_of b w) (bucket_keys b w).
#[local] Instance mem_gcs : GcsSdk cloud := {|
  gc_upload_from_string b k d a _ _ w := (Ok tt, put_stored b k (mkStored d a "v") w);
  gc_download_as_bytes b k r w := match objects w !! (b, k) with
    | Some o => Ok (match r with Some (x, y) => slice (st_body o) x (y - x + 1) | None => st_body o end)
    | None => Err (GoogleAPICallError (Some 404%Z)) end;
  gc_rewrite src dst _ w := match objects w !! src with
    | Some o => (Ok None, put_stored dst.1 dst.2 o w) | None => (Err (GoogleAPICallError (Some 404%Z)), w) end;
  gc_delete b k _ w := (Ok tt, with_objects (delete (b, k) (objects w)) w);
  gc_batch_delete b ks w := (Ok (map (fun _ => 204%Z) ks), with_objects (foldr (fun k o => delete (b, k) o) (objects w) ks) w);
  gc_list_blobs b p s d w :=
    let from := filter (fun x => match s with Some s => str_leb s (gb_name x) | None => true end = true) in
    if d : bool then (from (contents gb_name p (gc_bucket_blobs b w)), rev (common_prefixes gb_name p (gc_bucket_blobs b w)), None)
    else (from (below gb_name p (gc_bucket_blobs b w)), [], None);
  gc_get_blob b k w := Ok (match objects w !! (b, k) with Some _ => Some (gc_blob_of b w k) | None => None end);
  gc_upload_chunks f b k a w := match disk w !! f with
    | Some d => (Ok tt, put_stored b k (mkStored d a "v") w) | None => (Err FileNotFoundError, w) end;
  gc_download_chunks b k f w := match objects w !! (b, k) with
    | Some o => (Ok tt, put_file f (st_body o) w) | None => (Err (GoogleAPICallError (Some 404%Z)), w) end;
|}.
Lemma mem_gcs_listing b w :
  StronglySorted (fun x y => str_lt (gb_name x) (gb_name y)) (gc_bucket_blobs b w) -> gcs_listing w b (gc_bucket_blobs b w).
Proof.
  intros Hs. split; [done|done|]. intros p. eexists. split; [cbn; by rewrite filter_every by by apply Forall_forall|].
  symmetry. apply Permutation_rev.
Qed.
Definition gc_world : cloud := cloud_of (map (fun k => (("b", k), blob [x61])) ["d/a.txt"; "d/a/"; "d/a/b"; "d/c/d"; "d/e"; "z"]).
Lemma gcs_listing_exact_witness :
  gc_list_objects ("b" +:+ "/" +:+ "d/") ((fun k => "b" +:+ "/" +:+ k) <$> Some "d/a.txt") ((fun k => "b" +:+ "/" +:+ k) <$> None)
    false FOLLOW gc_world =
  mkListing (map (gc_blob_metadata "b") (filter (fun x => in_bounds (Some "d/a.txt") None (gb_name x) = true /\
    ends_slash (gb_name x) = false /\ startswith (gb_name x) "d/" = true) (gc_bucket_blobs "b" gc_world))) None /\
  exists n, forall fuel max_workers look_ahead finished, n <= fuel ->
  exists l, list_objects_recursive (StorageBackend0 := gcs_backend None 10 "/tmp" 5 "/") "b" "d/" (Some "d/a.txt") None
              max_workers look_ahead FOLLOW finished fuel gc_world = Some l /\
    raised l = None /\ StronglySorted key_lt (yielded l) /\
    forall o, o ∈ yielded l <-> in_range (Some "d/a.txt") None (key o) /\
      exists x, x ∈ gc_bucket_blobs "b" gc_world /\ startswith (gb_name x) "d/" = true /\ ends_slash (gb_name x) = false /\
        o = unprefix "b" (gc_blob_metadata "b" x).
Proof.
  apply (gcs_listing_exact gc_world gc_world "b" "d/" (gc_bucket_blobs "b" gc_world) None 10 "/tmp" 5 "/" "b" "d/" (Some "d/a.txt") None FOLLOW).
  - reflexivity.
  - apply mem_gcs_listing.
    apply (bool_decide_unpack (StronglySorted (fun x y => str_ltb (gb_name x) (gb_name y) = true) (gc_bucket_blobs "b" gc_world))).
    vm_compute. exact I.
  - split; [discriminate|reflexivity].
  - apply (bool_decide_unpack _). vm_compute. exact I.
  - reflexivity.
  - vm_compute. discriminate.
  - done.
  - by intros s [= <-].
  - done.
Defined.

(** *** Divergences *)
(** With [end_at], a listing with directories that meets a file beyond it
    returns before the directories are read. *)
Theorem gcs_end_at_misses_directories :
  let w := cloud_of [(("b", "a/x"), blob [x61]); (("b", "z"), blob [x61])] in
  yielded (gc_list_objects "b/" None (Some "b/m") true FOLLOW w) = [] /\
  map key (yielded (gc_list_objects "b/" None None true FOLLOW w)) = ["b/z"; "b/a"].
Proof. vm_compute. split; reflexivity. Qed.
(** The version of an object in a listing is not the version that its metadata
    and the conditions of a write use. *)
Theorem gcs_listing_etag_differs :
  map etag (yielded (gc_list_objects "b/" None None false FOLLOW (cloud_of [(("b", "a"), blob [x61])]))) = [Some "v"] /\
  match (gc_get_object_metadata "b/a" true (cloud_of [(("b", "a"), blob [x61])])).1 with Ok m => etag m = Some "7" | Err _ => False end.
Proof. vm_compute. split; reflexivity. Qed.
(** With the native client every range read fails. *)
Theorem gcs_native_range_read_fails {W} `{!GcsSdk W, !CredentialsSource W} (rc : RustClient W) (path : string) (r : Range) (w w1 : W) :
  refresh_client_if_needed w = (Ok tt, w1) -> (gc_get_object (Some rc) path (Some r) w).1 = Err RuntimeError.
Proof. intros H. unfold gc_get_object, gc_call. destruct (split_path path). unfold mbind. by rewrite H. Qed.

