(* ===== verification/Oci.v ===== *)
(** * The Oracle provider ([providers/oci.py])

    [OracleStorageProvider] over the SDK of Oracle, an interface here.  Every
    operation first renews the client when the credentials have expired.  Text
    files ([StringIO]) and the construction of the SDK client are left out. *)
From S2P Require Import Prelude PyDict PyPath Types Utils Json Listing ListingProofs Provider ProviderProofs Cloud CloudProofs MemCloud.

(** ** The SDK *)
Record oci_object := mkOciObject { oo_name : string; oo_size : Z; oo_time_modified : Z; oo_etag : option string }.
Record oci_page := mkOciPage { op_prefixes : list string; op_objects : list oci_object; op_next_start_with : option string }.
(** The headers of a response; lookups ignore the case *)
Definition headers : Type := list (string * string).
Definition header (h : headers) (k : string) : option string :=
  match list_find (fun kv : string * string => lower kv.1 = lower k) h with Some (_, kv) => Some kv.2 | None => None end.
Class OciSdk (W : Type) := {
  (** bucket, object, body, [opc_meta], [if_match] and [if_none_match] *)
  oc_put : string -> string -> bytes -> provider_attributes -> option string -> option string -> M W unit;
  (** bucket, object and range header: the stream of the response and the
      exception that ends it *)
  oc_get : string -> string -> option string -> W -> res (bytes * option exc);
  oc_copy : string -> string -> string -> string -> M W unit;
  oc_delete : string -> string -> option string -> M W unit;
  (** bucket, prefix, [start], with the delimiter or without *)
  oc_list : string -> string -> option string -> bool -> W -> res (option oci_page);
  oc_head : string -> string -> W -> res headers;
  (** bucket, object, local file or data, part size of a parallel upload, metadata *)
  oc_upload_path : string -> string -> string -> option Z -> provider_attributes -> M W unit;
  oc_upload_stream : string -> string -> bytes -> option Z -> provider_attributes -> M W unit;
  (** [dateutil.parser.parse] *)
  oc_parse_date : string -> res Z;
}.

(** ** Errors *)
Definition oci_translate (e : exc) : exc :=
  match e with
  | ServiceError status_code =>
      if (status_code =? 404)%Z then FileNotFoundError
      else if (status_code =? 412)%Z then PreconditionFailedError
      else if (status_code =? 429)%Z then RetryableError
      else RuntimeError
  | OciConnectionError => RetryableError
  | FileNotFoundError => FileNotFoundError
  | _ => RuntimeError
  end.

Section Oci.
Context {W : Type} `{!OciSdk W, !LocalDisk W, !CredentialsSource W}.
Context (multipart_threshold multipart_chunksize : Z).

(** [self._refresh_oci_client_if_needed()] and a translated call *)
Definition oc_call {A} (m : M W A) : M W A := refresh_client_if_needed ;;; translating oci_translate m.
(** [validated_attributes or {}] *)
Definition opc_meta (v : option provider_attributes) : provider_attributes := default ∅ v.

(** ** Objects *)
Definition oc_put_object (path : string) (body : bytes) (if_match if_none_match : option string)
    (attributes : option provider_attributes) : M W Z :=
  let '(bucket, key) := split_path path in
  oc_call (
    let! v := mlift (validated_attributes attributes) in
    oc_put bucket key body (opc_meta v) if_match if_none_match ;;; mret (Z.of_nat (length body))).
(** [f"bytes={offset}-{offset + size - 1}"] *)
Definition oc_range (r : Range) : string :=
  "bytes=" +:+ pretty (offset r) +:+ "-" +:+ pretty (offset r + size r - 1)%Z.
(** [response.data.content] *)
Definition oc_content (bucket key : string) (r : option string) (w : W) : res bytes :=
  res_bind (oc_get bucket key r w) (fun '(d, failed) => match failed with Some e => Err e | None => Ok d end).
Definition oc_get_object (path : string) (byte_range : option Range) : M W bytes :=
  let '(bucket, key) := split_path path in oc_call (reading (oc_content bucket key (oc_range <$> byte_range))).
Definition oc_delete_object (path : string) (if_match : option string) : M W unit :=
  let '(bucket, key) := split_path path in oc_call (oc_delete bucket key if_match).

(** ** Metadata *)
Definition oc_is_dir (path : string) : M W bool :=
  let '(bucket, key) := split_path (append_delimiter path) in
  oc_call (reading (fun w => res_bind (oc_list bucket key None true w) (fun r =>
    Ok (match r with
        | Some p => negb (bool_decide (op_objects p = [])) || negb (bool_decide (op_prefixes p = []))
        | None => false
        end)))).
Definition OCI_SYMLINK_METADATA : string := "msc-symlink-target".
(** The custom metadata among the headers *)
Definition opc_attributes (h : headers) : provider_attributes :=
  fold_left (fun a '(k, v) => if startswith k "opc-meta-" then <[ str_drop (String.length "opc-meta-") k := v ]> a else a) h ∅.
Definition head_metadata (path : string) (h : headers) : res ObjectMetadata :=
  let user_metadata := user_metadata (Some (opc_attributes h)) in
  match header h "Content-Length" with
  | None => Err KeyError
  | Some n =>
      match py_int n with
      | None => Err ValueError
      | Some n =>
          match header h "last-modified" with
          | None => Err KeyError
          | Some t =>
              res_bind (oc_parse_date t) (fun t =>
              Ok (mkObjectMetadata path n t "file" (header h "Content-Type") (header h "etag") None
                    (string_attributes user_metadata) (user_metadata ≫= (.!! OCI_SYMLINK_METADATA))))
          end
      end
  end.
Definition oc_get_object_metadata (path : string) (strict : bool) : M W ObjectMetadata :=
  let '(bucket, key) := split_path path in
  if ends_slash path || negb (bool_decide (bucket = "")) && bool_decide (key = "") then
    let! d := oc_is_dir path in
    if d : bool then mret (directory_metadata path) else mraise FileNotFoundError
  else
    mtry is_FileNotFoundError
      (oc_call (reading (fun w => res_bind (oc_head bucket key w) (head_metadata path))))
      (fun e =>
        if strict then
          let! d := oc_is_dir (append_delimiter path) in
          if d : bool then mret (directory_metadata (append_delimiter path)) else mraise e
        else mraise e).
Definition oc_copy_object (src_path dest_path : string) : M W Z :=
  let '(src_bucket, src_key) := split_path src_path in
  let '(dest_bucket, dest_key) := split_path dest_path in
  refresh_client_if_needed ;;;
  let! src_object := oc_get_object_metadata src_path true in
  translating oci_translate (oc_copy src_bucket src_key dest_bucket dest_key ;;; mret (content_length src_object)).
Definition oc_make_symlink (cwd path target : string) : M W unit :=
  let '(bucket, key) := split_path path in
  let '(target_bucket, target_key) := split_path target in
  if negb (bool_decide (bucket = target_bucket)) then mraise ValueError
  else
    let! relative_target := mlift (encode_symlink_target cwd key target_key) in
    oc_call (oc_put bucket key [] {[ OCI_SYMLINK_METADATA := relative_target ]} None None).

(** ** Listing *)
(** An empty object may be a symlink; a failure to find out is ignored *)
Definition oc_symlink (bucket : string) (o : oci_object) (w : W) : option string :=
  if (oo_size o =? 0)%Z then
    match (oc_get_object_metadata (path_join bucket (oo_name o)) true w).1 with Ok m => symlink_target m | Err _ => None end
  else None.
Definition oc_object_metadata (bucket : string) (w : W) (o : oci_object) : ObjectMetadata :=
  mkObjectMetadata (path_join bucket (oo_name o)) (oo_size o) (oo_time_modified o) "file" None (oo_etag o) None None (oc_symlink bucket o w).
Definition oc_marker_metadata (bucket : string) (o : oci_object) : ObjectMetadata :=
  mkObjectMetadata (path_join bucket (rstrip slash (oo_name o))) 0 (oo_time_modified o) "directory" None None None None None.
(** [for directory in response.data.prefixes]: what is yielded, and whether the
    generator returns *)
Fixpoint oc_prefixes (bucket : string) (start_after end_at : option string) (l : list string) : list ObjectMetadata * bool :=
  match l with
  | [] => ([], false)
  | directory :: l' =>
      let prefix_key := rstrip slash directory in
      if in_bounds start_after end_at prefix_key then
        let '(os, stop) := oc_prefixes bucket start_after end_at l' in (directory_metadata (path_join bucket prefix_key) :: os, stop)
      else if beyond end_at prefix_key then ([], true)
      else oc_prefixes bucket start_after end_at l'
  end.
(** [for response_object in response.data.objects] *)
Fixpoint oc_objects (bucket : string) (start_after end_at : option string) (include_directories : bool) (w : W) (l : list oci_object)
    : list ObjectMetadata * bool :=
  match l with
  | [] => ([], false)
  | o :: l' =>
      if in_bounds start_after end_at (oo_name o) then
        let '(os, stop) := oc_objects bucket start_after end_at include_directories w l' in
        (if ends_slash (oo_name o) then if include_directories then oc_marker_metadata bucket o :: os else os
         else oc_object_metadata bucket w o :: os, stop)
      else if bool_decide (start_after <> Some (oo_name o)) then ([], true)
      else oc_objects bucket start_after end_at include_directories w l'
  end.
(** [while True]: one request per page, [None] when the fuel is used up *)
Fixpoint oc_list_loop (fuel : nat) (bucket prefix : string) (start_after end_at : option string) (include_directories : bool)
    (next_start_with : option string) (w : W) : option listing :=
  match fuel with
  | 0 => None
  | S fuel =>
      match oc_list bucket prefix next_start_with include_directories w with
      | Err e => Some (mkListing [] (Some e))
      | Ok None => Some (mkListing [] None)
      | Ok (Some p) =>
          let '(ds, stop) := if include_directories then oc_prefixes bucket start_after end_at (op_prefixes p) else ([], false) in
          if stop : bool then Some (mkListing ds None)
          else
            let '(os, stop) := oc_objects bucket start_after end_at include_directories w (op_objects p) in
            if stop : bool then Some (mkListing (ds ++ os) None)
            else
              match op_next_start_with p with
              | None => Some (mkListing (ds ++ os) None)
              | Some next =>
                  if beyond end_at next then Some (mkListing (ds ++ os) None)
                  else yield_all (ds ++ os) <$> oc_list_loop fuel bucket prefix start_after end_at include_directories (Some next) w
              end
      end
  end.
Definition oc_list_objects (fuel : nat) (path : string) (start_after end_at : option string) (include_directories : bool)
    (symlink_handling : SymlinkHandling) (w : W) : option listing :=
  let '(bucket, prefix) := split_path path in
  match refresh_client_if_needed w with
  | (Err e, _) => Some (mkListing [] (Some e))
  | (Ok _, w) => oc_list_loop fuel bucket prefix start_after end_at include_directories start_after w
  end.

(** ** Transfers *)
(** The part size of an upload that is larger than the threshold *)
Definition oc_part_size (file_size : Z) : option Z := if (multipart_threshold <? file_size)%Z then Some multipart_chunksize else None.
Definition oc_upload_file (remote_path : string) (f : io) (attributes : option provider_attributes) : M W Z :=
  let '(bucket, key) := split_path remote_path in
  refresh_client_if_needed ;;;
  let! v := mlift (validated_attributes attributes) in
  match f with
  | PathIO f =>
      let! file_size := reading (ld_getsize f) in
      translating oci_translate (oc_upload_path bucket key f (oc_part_size file_size) (opc_meta v) ;;; mret file_size)
  | BytesIO data =>
      let file_size := Z.of_nat (length data) in
      translating oci_translate (oc_upload_stream bucket key data (oc_part_size file_size) (opc_meta v) ;;; mret file_size)
  end.
Definition oc_source_metadata (remote_path : string) (m : option ObjectMetadata) : M W ObjectMetadata :=
  match m with Some m => mret m | None => oc_get_object_metadata remote_path true end.
Definition oc_download_file (remote_path f : string) (m : option ObjectMetadata) : M W Z :=
  refresh_client_if_needed ;;;
  let! m := oc_source_metadata remote_path m in
  let '(bucket, key) := split_path remote_path in
  make_parent f ;;;
  translating oci_translate (
    let! response := reading (oc_get bucket key None) in
    let! temp := ld_mktemp (dirname f) in
    ld_write temp response.1 ;;;
    match response.2 with Some e => mraise e | None => mret tt end ;;;
    ld_rename temp f ;;;
    mret (content_length m)).
Definition oc_download_buffer (remote_path : string) (m : option ObjectMetadata) (w : W) : bytes * res Z :=
  match (refresh_client_if_needed ;;; oc_source_metadata remote_path m) w with
  | (Err e, _) => ([], Err e)
  | (Ok m, w) =>
      let '(bucket, key) := split_path remote_path in
      match oc_get bucket key None w with
      | Err e => ([], Err (oci_translate e))
      | Ok (data, failed) => (data, match failed with Some e => Err (oci_translate e) | None => Ok (content_length m) end)
      end
  end.

(** The provider as a backend of the base class, with the fuel of a listing *)
Definition oci_backend (fuel : nat) (cwd : string) : StorageBackend W := {|
  be_put_object := oc_put_object;
  be_get_object p r w := (oc_get_object p r w).1;
  be_copy_object := oc_copy_object;
  be_delete_object := oc_delete_object;
  be_delete_objects := None;
  be_make_symlink := oc_make_symlink cwd;
  be_get_object_metadata p s w := (oc_get_object_metadata p s w).1;
  be_list_objects p s e d h w := default (mkListing [] (Some (OtherError 0))) (oc_list_objects fuel p s e d h w);
  be_shallow_list p h w := shallow_list p (default (mkListing [] (Some (OtherError 0))) (oc_list_objects fuel p None None true h w));
  be_upload_file := oc_upload_file;
  be_download_file := oc_download_file;
  be_download_buffer := oc_download_buffer;
  be_supports_parallel_listing := true;
  be_multipart_threshold := multipart_threshold;
  be_makedirs := ld_makedirs;
  be_getsize := ld_getsize;
  be_rust_download := None;
  be_rust_upload := None;
|}.
End Oci.

(** ** Listings implement the contract *)
Section Listing.
Context {W : Type} `{!OciSdk W, !LocalDisk W, !CredentialsSource W}.
(** What the service documents: the items from [start] on come in pages, each
    with the name to start the next page with; a truncated page is not empty *)
Record oci_listing (w : W) (b : string) (es : list oci_object) : Prop := {
  ol_sorted : StronglySorted (fun x y => str_lt (oo_name x) (oo_name y)) es;
  ol_pages prefix (delimited : bool) : exists items_from : option string -> list (string + oci_object),
    lefts (items_from None) = (if delimited then common_prefixes oo_name prefix es else []) /\
    rights (items_from None) = (if delimited then contents oo_name prefix es else below oo_name prefix es) /\
    forall s, exists page next,
      oc_list b prefix s delimited w = Ok (Some (mkOciPage (lefts page) (rights page) next)) /\
      items_from s = page ++ match next with Some _ => items_from next | None => [] end /\
      (next = None \/ page <> []);
}.
Context (w w1 : W) (b : string) (es : list oci_object) (Hrefresh : refresh_client_if_needed w = (Ok tt, w1)).
Context (Hlist : oci_listing w1 b es) (Hb : b <> "" /\ has_char slash b = false).

(** *** The loop over the pages *)
Abbreviation oc_item := (delimited_item oo_name b (oc_object_metadata b w1) (oc_marker_metadata b)).
Lemma oc_prefixes_all l : oc_prefixes b None None l = (map oc_item (map inl l), false).
Proof. induction l as [|c l IH]; [done|]. cbn [oc_prefixes in_bounds andb]. by rewrite IH. Qed.
Lemma oc_objects_delimited l : oc_objects b None None true w1 l = (map oc_item (map inr l), false).
Proof.
  induction l as [|o l IH]; [done|]. cbn [oc_objects in_bounds andb]. rewrite IH. cbn [map delimited_item].
  by destruct (ends_slash (oo_name o)).
Qed.
Lemma oc_objects_flat l :
  oc_objects b None None false w1 l = (map (oc_object_metadata b w1) (filter (fun o => ends_slash (oo_name o) = false) l), false).
Proof.
  induction l as [|o l IH]; [done|]. cbn [oc_objects in_bounds andb]. rewrite IH, filter_cons. by destruct (ends_slash (oo_name o)).
Qed.
(** Enough fuel walks through all pages. *)
Lemma oc_loop_delimited prefix items_from :
  (forall s, exists page next,
      oc_list b prefix s true w1 = Ok (Some (mkOciPage (lefts page) (rights page) next)) /\
      items_from s = page ++ match next with Some _ => items_from next | None => [] end /\
      (next = None \/ page <> [])) ->
  forall fuel s, length (items_from s) < fuel ->
  exists items, oc_list_loop fuel b prefix None None true s w1 = Some (mkListing (map oc_item items) None) /\
    lefts items = lefts (items_from s) /\ rights items = rights (items_from s).
Proof.
  intros Hpages. induction fuel as [|fuel IH]; intros s Hf; [lia|].
  destruct (Hpages s) as (page & next & Hl & Hi & Hp). cbn [oc_list_loop]. rewrite Hl. cbn [op_prefixes op_objects op_next_start_with].
  rewrite oc_prefixes_all, oc_objects_delimited, <- List.map_app. rewrite Hi in *.
  assert (lefts (map inl (lefts page) ++ map inr (rights page)) = lefts page) as Hle by by rewrite lefts_app, lefts_inl, lefts_inr, app_nil_r.
  assert (rights (map inl (lefts page) ++ map inr (rights page)) = rights page) as Hri by by rewrite rights_app, rights_inl, rights_inr.
  destruct next as [n|]; cbn [beyond].
  - destruct Hp as [|Hp]; [done|]. rewrite length_app in Hf. destruct page as [|x page]; [done|]. cbn [length] in Hf.
    destruct (IH (Some n) ltac:(lia)) as (items & Hit & H1 & H2). rewrite Hit. cbn [fmap option_fmap option_map]. unfold yield_all. cbn [yielded raised].
    rewrite <- List.map_app. eexists. split; [reflexivity|]. rewrite !lefts_app, !rights_app in *. by rewrite Hle, Hri, H1, H2.
  - eexists. split; [reflexivity|]. by rewrite Hle, Hri, app_nil_r.
Qed.
Lemma oc_loop_flat prefix items_from :
  (forall s, exists page next,
      oc_list b prefix s false w1 = Ok (Some (mkOciPage (lefts page) (rights page) next)) /\
      items_from s = page ++ match next with Some _ => items_from next | None => [] end /\
      (next = None \/ page <> [])) ->
  forall fuel s, length (items_from s) < fuel ->
  oc_list_loop fuel b prefix None None false s w1 =
    Some (mkListing (map (oc_object_metadata b w1) (filter (fun o => ends_slash (oo_name o) = false) (rights (items_from s)))) None).
Proof.
  intros Hpages. induction fuel as [|fuel IH]; intros s Hf; [lia|].
  destruct (Hpages s) as (page & next & Hl & Hi & Hp). cbn [oc_list_loop]. rewrite Hl. cbn [op_prefixes op_objects op_next_start_with].
  rewrite oc_objects_flat. rewrite Hi in *. cbn [app]. rewrite rights_app, filter_app, List.map_app.
  destruct next as [n|]; cbn [beyond].
  - destruct Hp as [|Hp]; [done|]. rewrite length_app in Hf. destruct page as [|x page]; [done|]. cbn [length] in Hf.
    rewrite (IH (Some n)) by lia. done.
  - by rewrite app_nil_r.
Qed.
(** The number of items, whatever their kind *)
Lemma items_bounded prefix (items : list (string + oci_object)) (delimited : bool) :
  lefts items = (if delimited then common_prefixes oo_name prefix es else []) ->
  rights items = (if delimited then contents oo_name prefix es else below oo_name prefix es) ->
  length items <= 2 * length es.
Proof.
  intros Hl Hr. rewrite lefts_rights_length, Hl, Hr. destruct delimited.
  - pose proof (common_prefixes_length oo_name prefix es). pose proof (contents_length oo_name prefix es). lia.
  - cbn. unfold below. pose proof (length_filter (fun e => startswith (oo_name e) prefix = true) es). lia.
Qed.
Lemma oci_flat p rounds symlink_handling : 2 * length es < rounds ->
  oc_list_objects rounds (b +:+ "/" +:+ p) None None false symlink_handling w =
  Some (mkListing (map (oc_object_metadata b w1) (filter (fun o => ends_slash (oo_name o) = false /\ startswith (oo_name o) p = true) es)) None).
Proof.
  intros Hn. destruct (ol_pages _ _ _ Hlist p false) as (items_from & Hl & Hr & Hpages). pose proof (items_bounded p _ false Hl Hr).
  unfold oc_list_objects. rewrite split_full, Hrefresh, (oc_loop_flat p items_from Hpages), Hr by (done || lia).
  unfold below. by rewrite list_filter_filter.
Qed.

(** *** The delimited listing *)
Context (Hclean : Forall (fun o => clean_key (oo_name o) = true) es).
Lemma oci_key o : o ∈ es -> key (oc_object_metadata b w1 o) = b +:+ "/" +:+ oo_name o.
Proof.
  intros Ho. rewrite Forall_forall in Hclean. specialize (Hclean o Ho). unfold clean_key in Hclean.
  rewrite andb_true_iff, !negb_true_iff in Hclean. destruct Hb, Hclean. cbn [key oc_object_metadata]. by apply path_join_bucket.
Qed.
Lemma oci_shallow p rounds symlink_handling : 2 * length es < rounds ->
  implements (shallow_list (b +:+ "/" +:+ p) (default (mkListing [] (Some (OtherError 0)))
      (oc_list_objects rounds (b +:+ "/" +:+ p) None None true symlink_handling w)))
    (store_shallow oo_name (oc_object_metadata b w1) es (b +:+ "/" +:+ p)).
Proof.
  intros Hn. destruct (ol_pages _ _ _ Hlist p true) as (items_from & Hl & Hr & Hpages). pose proof (items_bounded p _ true Hl Hr).
  unfold oc_list_objects. rewrite split_full, Hrefresh by done.
  destruct (oc_loop_delimited p items_from Hpages rounds None ltac:(lia)) as (items & -> & H1 & H2). cbn [default].
  apply delimited_items_implement; try done.
  - intros o [? _]. done.
  - by rewrite H1, Hl.
  - by rewrite H2, Hr.
Qed.
End Listing.

(** C13: the listings of the Oracle provider walk through all pages of the
    service, for names without empty components: with more than twice as many
    requests as there are objects the flat listing without bounds has ended and
    has yielded precisely the objects of the prefix, and the recursive one,
    composed of delimited listings by the base class, has ended and is complete
    and sorted within its bounds. *)
Theorem oci_listing_exact {W} `{!OciSdk W, !LocalDisk W, !CredentialsSource W} (w w1 : W) (bucket p : string)
    (es : list oci_object) (threshold chunksize : Z) (rounds : nat) (cwd base_path path : string)
    (start_after end_at : option string) (symlink_handling : SymlinkHandling)
    (Hrefresh : refresh_client_if_needed w = (Ok tt, w1)) (Hlist : oci_listing w1 bucket es)
    (Hb : bucket <> "" /\ has_char slash bucket = false) (Hclean : Forall (fun o => clean_key (oo_name o) = true) es)
    (Hrounds : 2 * length es < rounds)
    (Hpath : prepend_base_path base_path path = bucket +:+ "/" +:+ p)
    (Hspaces : strip_spaces (bucket +:+ "/" +:+ p) <> "")
    (Hrange : forall s e, start_after = Some s -> end_at = Some e -> str_lt s e)
    (Hstart : relative_bound start_after) (Hend : relative_bound end_at) :
  oc_list_objects rounds (bucket +:+ "/" +:+ p) None None false symlink_handling w =
  Some (mkListing (map (oc_object_metadata bucket w1) (filter (fun o => ends_slash (oo_name o) = false /\
    startswith (oo_name o) p = true) es)) None) /\
  exists n, forall fuel max_workers look_ahead finished, n <= fuel ->
  exists l, list_objects_recursive (StorageBackend0 := oci_backend threshold chunksize rounds cwd) base_path path
              start_after end_at max_workers look_ahead symlink_handling finished fuel w = Some l /\
    raised l = None /\ StronglySorted key_lt (yielded l) /\
    forall o, o ∈ yielded l <-> in_range start_after end_at (key o) /\
      exists x, x ∈ es /\ startswith (oo_name x) p = true /\ ends_slash (oo_name x) = false /\
        o = unprefix base_path (oc_object_metadata bucket w1 x).
Proof.
  split; [by eapply oci_flat|].
  apply (@cloud_listing_complete W oci_object (oci_backend threshold chunksize rounds cwd) oo_name (oc_object_metadata bucket w1) bucket p es); try done.
  - intros o Ho. by eapply oci_key.
  - apply Hlist.
  - intros q. by eapply oci_shallow.
Qed.

(** ** Examples *)
Definition oci_object_of (b : string) (w : cloud) (k : string) : oci_object :=
  match objects w !! (b, k) with
  | Some o => mkOciObject k (Z.of_nat (length (st_body o))) 0 (Some (st_etag o))
  | None => mkOciObject k 0 0 None
  end.
Definition oci_bucket_objects (b : string) (w : cloud) : list oci_object := map (oci_object_of b w) (bucket_keys b w).
(** Pages with a single item; the next page starts at a position or a name *)
Definition item_name (x : string + oci_object) : string := match x with inl p => p | inr o => oo_name o end.
Definition mem_items (b p : string) (delimited : bool) (w : cloud) : list (string + oci_object) :=
  if delimited then map inl (common_prefixes oo_name p (oci_bucket_objects b w)) ++ map inr (contents oo_name p (oci_bucket_objects b w))
  else map inr (below oo_name p (oci_bucket_objects b w)).
Definition position (s : option string) (l : list (string + oci_object)) : nat :=
  match s with
  | None => 0
  | Some s => match py_int s with
              | Some z => Z.to_nat z
              | None => length (filter (fun x => str_ltb (item_name x) s = true) l)
              end
  end.
Definition mem_page (s : option string) (l : list (string + oci_object)) : oci_page :=
  let n := position s l in
  mkOciPage (lefts (take 1 (drop n l))) (rights (take 1 (drop n l)))
    (if (S n <? length l)%nat then Some (pretty (Z.of_nat (S n))) else None).
#[local] Instance mem_oci : OciSdk cloud := {|
  oc_put b k d a _ _ w := (Ok tt, put_stored b k (mkStored d (Some a) "v") w);
  oc_get b k r w := match objects w !! (b, k) with
    | Some o => Ok (match r ≫= parse_range with Some (x, y) => slice (st_body o) x (y - x + 1) | None => st_body o end, None)
    | None => Err (ServiceError 404) end;
  oc_copy b k b' k' w := match objects w !! (b, k) with
    | Some o => (Ok tt, put_stored b' k' o w) | None => (Err (ServiceError 404), w) end;
  oc_delete b k _ w := (Ok tt, with_objects (delete (b, k) (objects w)) w);
  oc_list b p s d w := Ok (Some (mem_page s (mem_items b p d w)));
  oc_head b k w := match objects w !! (b, k) with
    | Some o => Ok (("Content-Length", pretty (Z.of_nat (length (st_body o)))) :: ("Last-Modified", "0") :: ("ETag", st_etag o) ::
                    map (fun '(k, v) => ("opc-meta-" +:+ k, v)) (map_to_list (default ∅ (st_attrs o))))
    | None => Err (ServiceError 404) end;
  oc_upload_path b k f _ a w := match disk w !! f with
    | Some d => (Ok tt, put_stored b k (mkStored d (Some a) "v") w) | None => (Err FileNotFoundError, w) end;
  oc_upload_stream b k d _ a w := (Ok tt, put_stored b k (mkStored d (Some a) "v") w);
  oc_parse_date s := match py_int s with Some z => Ok z | None => Err ValueError end;
|}.
Lemma mem_oci_listing b w :
  StronglySorted (fun x y => str_lt (oo_name x) (oo_name y)) (oci_bucket_objects b w) -> oci_listing w b (oci_bucket_objects b w).
Proof.
  intros Hs. split; [done|]. intros p d. exists (fun s => drop (position s (mem_items b p d w)) (mem_items b p d w)).
  split_and!; cbn [position]; rewrite ?drop_0.
  1, 2: unfold mem_items; destruct d; rewrite ?lefts_app, ?rights_app, ?lefts_inl, ?lefts_inr, ?rights_inl, ?rights_inr, ?app_nil_r; done.
  intros s. set (l := mem_items b p d w). set (n := position s l).
  exists (take 1 (drop n l)), (if (S n <? length l)%nat then Some (pretty (Z.of_nat (S n))) else None). split; [done|].
  destruct (Nat.ltb_spec (S n) (length l)) as [Hn|Hn].
  - split.
    + cbn [position]. rewrite py_int_pretty by lia. rewrite Nat2Z.id, <- (Nat.add_1_r n), <- drop_drop. symmetry. apply take_drop.
    + right. intros H. assert (length (take 1 (drop n l)) = 0) as H0 by by rewrite H. rewrite length_take, length_drop in H0. lia.
  - split; [|by left]. rewrite app_nil_r, take_ge; [done|]. rewrite length_drop. lia.
Qed.
Definition oci_world : cloud := cloud_of (map (fun k => (("b", k), blob [x61])) ["d/a.txt"; "d/a/"; "d/a/b"; "d/e"; "z"]).
Lemma oci_listing_exact_witness :
  oc_list_objects 20 ("b" +:+ "/" +:+ "d/") None None false FOLLOW oci_world =
  Some (mkListing (map (oc_object_metadata "b" oci_world) (filter (fun o => ends_slash (oo_name o) = false /\
    startswith (oo_name o) "d/" = true) (oci_bucket_objects "b" oci_world))) None) /\
  exists n, forall fuel max_workers look_ahead finished, n <= fuel ->
  exists l, list_objects_recursive (StorageBackend0 := oci_backend 10 10 20 "/") "b" "d/" (Some "d/a.txt") None
              max_workers look_ahead FOLLOW finished fuel oci_world = Some l /\
    raised l = None /\ StronglySorted key_lt (yielded l) /\
    forall o, o ∈ yielded l <-> in_range (Some "d/a.txt") None (key o) /\
      exists x, x ∈ oci_bucket_objects "b" oci_world /\ startswith (oo_name x) "d/" = true /\ ends_slash (oo_name x) = false /\
        o = unprefix "b" (oc_object_metadata "b" oci_world x).
Proof.
  apply (oci_listing_exact oci_world oci_world "b" "d/" (oci_bucket_objects "b" oci_world) 10 10 20 "/" "b" "d/" (Some "d/a.txt") None FOLLOW).
  - reflexivity.
  - apply mem_oci_listing.
    apply (bool_decide_unpack (StronglySorted (fun x y => str_ltb (oo_name x) (oo_name y) = true) (oci_bucket_objects "b" oci_world))).
    vm_compute. exact I.
  - split; [discriminate|reflexivity].
  - apply (bool_decide_unpack _). vm_compute. exact I.
  - apply Nat.ltb_lt. vm_compute. reflexivity.
  - reflexivity.
  - vm_compute. discriminate.
  - done.
  - by intros s [= <-].
  - done.
Defined.

(** ** What the code does not do *)
(** The bounds of a listing are compared with the keys although they contain
    the bucket: a flat listing up to [z] of a bucket [b] does not return [c]. *)
Theorem oci_bounds_contain_bucket :
  let w := cloud_of (map (fun k => (("b", k), blob [x61])) ["a"; "apple"; "c"]) in
  let list := @list_objects _ (oci_backend 10 10 20 "/") "b" (fun _ => Err ValueError) "" in
  map key (yielded (list None None false None false FOLLOW w)) = ["a"; "apple"; "c"] /\
  map key (yielded (list (Some "a") None false None false FOLLOW w)) = ["c"] /\
  map key (yielded (list None (Some "z") false None false FOLLOW w)) = ["a"; "apple"].
Proof. vm_compute. split_and!; reflexivity. Qed.
