(* ===== verification/Ais.v ===== *)
(** * The AIStore provider ([providers/ais.py])

    [AIStoreStorageProvider] over the SDK of AIStore, an interface here, and its
    credentials.  Text files ([StringIO]) are left out: they are encoded and
    handled as bytes. *)
From stdpp Require Import stringmap.
From S2P Require Import Prelude PyDict PyPath Types Utils Json Listing ListingProofs Provider ProviderProofs Cloud CloudProofs MemCloud.

(** ** The SDK *)
Record ais_props := mkAisProps {
  ap_size : Z; ap_access_time : option string; ap_checksum_value : option string; ap_custom_metadata : option provider_attributes }.
Class AisSdk (W : Type) := {
  ais_put_content : string -> string -> bytes -> M W unit;
  (** replaces the existing properties *)
  ais_set_custom_props : string -> string -> provider_attributes -> M W unit;
  (** bucket, object and range header *)
  ais_get : string -> string -> option string -> W -> res bytes;
  ais_copy : string -> string -> string -> string -> M W unit;
  ais_head : string -> string -> W -> res ais_props;
  ais_delete : string -> string -> M W unit;
  (** bucket, prefix and page size: the entries up to the exception *)
  ais_list_objects_iter : string -> string -> Z -> W -> list (string * ais_props) * option exc;
  (** [datetime.fromtimestamp(int(t) / 1e9)] and [dateutil.parser.parse] *)
  ais_from_nanos : string -> res Z;
  ais_parse_date : string -> res Z;
}.

(** ** Errors *)
Definition ais_translate (e : exc) : exc :=
  match e with
  | AISError status_code => if (status_code =? 404)%Z then FileNotFoundError else RuntimeError
  | HTTPError status_code => if (status_code =? 404)%Z then FileNotFoundError else RuntimeError
  | _ => RuntimeError
  end.

(** ** Credentials *)
(** [StaticAISCredentialProvider]; [login] is a request to the service *)
Record ais_credential_provider := mkAisCredentials {
  ac_username : option string; ac_password : option string; ac_authn_endpoint : option string; ac_token : option string }.
Definition ais_get_credentials (login : string -> string -> string -> res string) (c : ais_credential_provider)
    : res Credentials * ais_credential_provider :=
  let credentials t := mkCredentials "" "" t None ∅ in
  match truthy (ac_username c), truthy (ac_password c), truthy (ac_authn_endpoint c) with
  | Some u, Some p, Some e =>
      match login e u p with
      | Ok t => (Ok (credentials (Some t)), mkAisCredentials (ac_username c) (ac_password c) (ac_authn_endpoint c) (Some t))
      | Err x => (Err x, c)
      end
  | _, _, _ => (Ok (credentials (ac_token c)), c)
  end.

Section Ais.
Context {W : Type} `{!AisSdk W, !LocalDisk W}.

Definition ais_call {A} (m : M W A) : M W A := translating ais_translate m.
Definition ais_read {A} (f : W -> res A) (w : W) : res A := match f w with Ok a => Ok a | Err e => Err (ais_translate e) end.

(** ** Objects *)
Definition ais_put_object (path : string) (body : bytes) (if_match if_none_match : option string)
    (attributes : option provider_attributes) : M W Z :=
  let '(bucket, key) := split_path path in
  ais_call (
    ais_put_content bucket key body ;;;
    let! v := mlift (validated_attributes attributes) in
    match user_metadata v with Some a => ais_set_custom_props bucket key a | None => mret tt end ;;;
    mret (Z.of_nat (length body))).
Definition ais_range (r : Range) : string := "bytes=" +:+ pretty (offset r) +:+ "-" +:+ pretty (offset r + size r - 1)%Z.
Definition ais_get_object (path : string) (byte_range : option Range) : W -> res bytes :=
  let '(bucket, key) := split_path path in ais_read (ais_get bucket key (ais_range <$> byte_range)).
Definition ais_copy_object (src_path dest_path : string) : M W Z :=
  let '(src_bucket, src_key) := split_path src_path in
  let '(dest_bucket, dest_key) := split_path dest_path in
  ais_call (
    let! props := reading (ais_head src_bucket src_key) in
    ais_copy src_bucket src_key dest_bucket dest_key ;;;
    mret (ap_size props)).
Definition ais_delete_object (path : string) (if_match : option string) : M W unit :=
  let '(bucket, key) := split_path path in
  ais_call (match truthy if_match with Some _ => mraise NotImplementedError | None => ais_delete bucket key end).

(** ** Metadata *)
Definition ais_is_dir (path : string) : W -> res bool :=
  let '(bucket, prefix) := split_path (append_delimiter path) in
  ais_read (fun w => match ais_list_objects_iter bucket prefix 1 w with
                     | (_ :: _, _) => Ok true
                     | ([], Some e) => Err e
                     | ([], None) => Ok false
                     end).
Definition AIS_SYMLINK_METADATA : string := "msc-symlink-target".
Definition ais_make_symlink (cwd path target : string) : M W unit :=
  let '(bucket, key) := split_path path in
  let '(target_bucket, target_key) := split_path target in
  if negb (bool_decide (bucket = target_bucket)) then mraise ValueError
  else
    let! relative_target := mlift (encode_symlink_target cwd key target_key) in
    ais_call (ais_put_content bucket key [] ;;; ais_set_custom_props bucket key {[ AIS_SYMLINK_METADATA := relative_target ]}).
(** The access time is not always present *)
Definition access_time (parse : string -> res Z) (p : ais_props) : res Z :=
  match truthy (ap_access_time p) with Some t => parse t | None => Ok AWARE_DATETIME_MIN end.
Definition props_metadata (key : string) (p : ais_props) : res ObjectMetadata :=
  res_bind (access_time ais_from_nanos p) (fun t =>
  Ok (mkObjectMetadata key (ap_size p) t "file" None (ap_checksum_value p) None (string_attributes (ap_custom_metadata p))
        (user_metadata (ap_custom_metadata p) ≫= (.!! AIS_SYMLINK_METADATA)))).
Definition ais_not_found (e : exc) : bool :=
  match e with AISError s => (s =? 404)%Z | HTTPError s => (s =? 404)%Z | _ => false end.
(** [strict] is ignored *)
Definition ais_get_object_metadata (path : string) (strict : bool) (w : W) : res ObjectMetadata :=
  let '(bucket, key) := split_path path in
  if ends_slash path || negb (bool_decide (bucket = "")) && bool_decide (key = "") then
    res_bind (ais_is_dir path w) (fun d => if d : bool then Ok (directory_metadata path) else Err FileNotFoundError)
  else
    ais_read (fun w =>
      match res_bind (ais_head bucket key w) (props_metadata key) with
      | Ok m => Ok m
      | Err e =>
          if ais_not_found e then
            res_bind (ais_is_dir path w) (fun d => if d : bool then Ok (directory_metadata (path +:+ "/")) else Err e)
          else Err e
      end) w.

(** ** Listing *)
Definition ais_entry_metadata (key : string) (p : ais_props) (t : Z) : ObjectMetadata :=
  mkObjectMetadata key (ap_size p) t "file" None (ap_checksum_value p) None None None.
(** [for bucket_entry in all_objects] *)
Fixpoint ais_entries (start_after end_at : option string) (l : list (string * ais_props)) (failed : option exc) : listing :=
  match l with
  | [] => mkListing [] failed
  | (key, props) :: l' =>
      match access_time ais_parse_date props with
      | Err e => mkListing [] (Some e)
      | Ok t =>
          if in_bounds start_after end_at key then yield (ais_entry_metadata key props t) (ais_entries start_after end_at l' failed)
          else if beyond end_at key then mkListing [] None
          else ais_entries start_after end_at l' failed
      end
  end.
Definition DEFAULT_PAGE_SIZE : Z := 1000%Z.
Definition ais_list_objects (path : string) (start_after end_at : option string) (include_directories : bool)
    (symlink_handling : SymlinkHandling) (w : W) : listing :=
  let '(bucket, prefix) := split_path path in
  let '(l, failed) := ais_list_objects_iter bucket prefix DEFAULT_PAGE_SIZE w in
  ais_entries (key_bound start_after) (key_bound end_at) l failed.

(** ** Transfers *)
Definition ais_upload_file (remote_path : string) (f : io) (attributes : option provider_attributes) : M W Z :=
  let! body := match f with PathIO f => reading (ld_read f) | BytesIO body => mret body end in
  ais_put_object remote_path body None None attributes ;;;
  mret (Z.of_nat (length body)).
Definition ais_source_metadata (remote_path : string) (m : option ObjectMetadata) : W -> res ObjectMetadata :=
  match m with Some m => fun _ => Ok m | None => ais_get_object_metadata remote_path true end.
(** The file is truncated when it is opened, before the object is fetched *)
Definition ais_download_file (remote_path f : string) (m : option ObjectMetadata) : M W Z :=
  let! m := reading (ais_source_metadata remote_path m) in
  make_parent f ;;;
  ld_write f [] ;;;
  let! data := reading (ais_get_object remote_path None) in
  ld_write f data ;;;
  mret (content_length m).
Definition ais_download_buffer (remote_path : string) (m : option ObjectMetadata) (w : W) : bytes * res Z :=
  match ais_source_metadata remote_path m w with
  | Err e => ([], Err e)
  | Ok m => match ais_get_object remote_path None w with
            | Ok data => (data, Ok (content_length m))
            | Err e => ([], Err e)
            end
  end.

Definition ais_backend (cwd : string) : StorageBackend W := {|
  be_put_object := ais_put_object;
  be_get_object := ais_get_object;
  be_copy_object := ais_copy_object;
  be_delete_object := ais_delete_object;
  be_delete_objects := None;
  be_make_symlink := ais_make_symlink cwd;
  be_get_object_metadata := ais_get_object_metadata;
  be_list_objects := ais_list_objects;
  be_shallow_list p h w := shallow_list p (ais_list_objects p None None true h w);
  be_upload_file := ais_upload_file;
  be_download_file := ais_download_file;
  be_download_buffer := ais_download_buffer;
  be_supports_parallel_listing := false;
  be_multipart_threshold := DEFAULT_MULTIPART_THRESHOLD;
  be_makedirs := ld_makedirs;
  be_getsize := ld_getsize;
  be_rust_download := None;
  be_rust_upload := None;
|}.

(** ** The listing *)
(** The service returns the objects of a prefix in the order of their names,
    with valid times *)
Definition entry_time (e : string * ais_props) : Z := match access_time ais_parse_date e.2 with Ok t => t | Err _ => AWARE_DATETIME_MIN end.
Record ais_listing (w : W) (b : string) (es : list (string * ais_props)) : Prop := {
  al_sorted : StronglySorted (fun x y => str_lt x.1 y.1) es;
  al_times : Forall (fun e => is_ok (access_time ais_parse_date e.2) = true) es;
  al_list prefix n : ais_list_objects_iter b prefix n w = (below fst prefix es, None);
}.
Lemma ais_entries_exact start_after end_at l :
  StronglySorted (fun x y => str_lt x.1 y.1) l -> Forall (fun e => is_ok (access_time ais_parse_date e.2) = true) l ->
  ais_entries start_after end_at l None =
  mkListing (map (fun e => ais_entry_metadata e.1 e.2 (entry_time e)) (filter (fun e => in_bounds start_after end_at e.1 = true) l)) None.
Proof.
  induction 1 as [|[k p] l Hl IH Hk]; [done|]. intros [Ht Hts]%Forall_cons. cbn [ais_entries]. cbn [snd] in Ht.
  rewrite filter_cons. cbn [fst]. destruct (access_time ais_parse_date p) as [t|] eqn:Et; [|done]. rewrite IH by done.
  destruct (in_bounds start_after end_at k) eqn:Ei.
  - rewrite decide_True by done. unfold yield. cbn [map yielded raised fst snd]. unfold entry_time at 2. cbn [snd]. by rewrite Et.
  - rewrite decide_False by done. destruct (beyond end_at k) eqn:Eb; [|done].
    rewrite filter_none; [done|]. eapply Forall_impl; [exact Hk|]. intros [k' p'] Hy Hin. cbn [fst] in *. unfold in_bounds, beyond in *.
    destruct end_at as [e|]; [|done]. apply andb_true_iff in Hin as [_ Hin].
    apply (str_lt_irrefl e). eapply str_lt_leb_trans; [eapply str_lt_trans; [exact Eb|exact Hy]|done].
Qed.
End Ais.

(** A listing of the AIStore provider yields exactly the objects of the bucket
    with the prefix and in the range, in order; its keys lack the bucket. *)
Theorem ais_listing_exact {W} `{!AisSdk W} (w : W) (b p : string) (es : list (string * ais_props))
    (start_after end_at : option string) (include_directories : bool) (symlink_handling : SymlinkHandling)
    (Hlist : ais_listing w b es) (Hb : b <> "" /\ has_char slash b = false) :
  ais_list_objects (b +:+ "/" +:+ p) ((fun k => b +:+ "/" +:+ k) <$> start_after) ((fun k => b +:+ "/" +:+ k) <$> end_at)
    include_directories symlink_handling w =
  mkListing (map (fun e => ais_entry_metadata e.1 e.2 (entry_time e))
    (filter (fun e => in_bounds start_after end_at e.1 = true /\ startswith e.1 p = true) es)) None.
Proof.
  unfold ais_list_objects. rewrite split_full, (al_list _ _ _ Hlist), !key_bound_full by done.
  rewrite ais_entries_exact.
  - do 2 f_equal. unfold below. by rewrite list_filter_filter.
  - unfold below. apply StronglySorted_filter, Hlist.
  - unfold below. apply Forall_forall. intros e [_ He]%list_elem_of_filter. pose proof (al_times _ _ _ Hlist) as H. rewrite Forall_forall in H. by apply H.
Qed.
(** A token of a login is kept and returned; without a complete login the
    configured token is. *)
Theorem ais_credentials_token login c r c' :
  ais_get_credentials login c = (Ok r, c') -> token r = ac_token c' /\ expiration r = None /\
  (ac_token c' <> ac_token c -> exists e u p t, login e u p = Ok t /\ ac_token c' = Some t).
Proof.
  unfold ais_get_credentials. destruct (truthy (ac_username c)) as [u|]; [|by intros [= <- <-]].
  destruct (truthy (ac_password c)) as [p|]; [|by intros [= <- <-]]. destruct (truthy (ac_authn_endpoint c)) as [e|]; [|by intros [= <- <-]].
  destruct (login e u p) as [t|] eqn:El; [|by intros [=]]. intros [= <- <-]. cbn. split_and!; eauto 10.
Qed.

(** ** Examples *)
Definition ais_props_of (o : stored) : ais_props := mkAisProps (Z.of_nat (length (st_body o))) None (Some (st_etag o)) (st_attrs o).
Definition ais_bucket_entries (b : string) (w : cloud) : list (string * ais_props) :=
  omap (fun k => match objects w !! (b, k) with Some o => Some (k, ais_props_of o) | None => None end) (bucket_keys b w).
(** The bucket ["missing"] does not exist *)
#[local] Instance mem_ais : AisSdk cloud := {|
  ais_put_content b k d w := (Ok tt, put_stored b k (blob d) w);
  ais_set_custom_props b k a w := match objects w !! (b, k) with
    | Some o => (Ok tt, put_stored b k (mkStored (st_body o) (Some a) (st_etag o)) w) | None => (Err (AISError 404), w) end;
  ais_get b k r w := match objects w !! (b, k) with
    | Some o => Ok (match r ≫= parse_range with Some (x, y) => slice (st_body o) x (y - x + 1) | None => st_body o end)
    | None => Err (AISError 404) end;
  ais_copy b k b' k' w := match objects w !! (b, k) with
    | Some o => (Ok tt, put_stored b' k' o w) | None => (Err (AISError 404), w) end;
  ais_head b k w := match objects w !! (b, k) with Some o => Ok (ais_props_of o) | None => Err (HTTPError 404) end;
  ais_delete b k w := (Ok tt, with_objects (delete (b, k) (objects w)) w);
  ais_list_objects_iter b p _ w := if decide (b = "missing") then ([], Some (AISError 404)) else (below fst p (ais_bucket_entries b w), None);
  ais_from_nanos _ := Ok 0%Z;
  ais_parse_date _ := Ok 0%Z;
|}.
Definition ais_world : cloud := cloud_of (map (fun k => (("b", k), blob [x61])) ["a"; "book"; "sub/x"; "z"]).
Lemma ais_listing_exact_witness :
  ais_list_objects ("b" +:+ "/" +:+ "") ((fun k => "b" +:+ "/" +:+ k) <$> Some "a") ((fun k => "b" +:+ "/" +:+ k) <$> None) false FOLLOW ais_world =
  mkListing (map (fun e => ais_entry_metadata e.1 e.2 (entry_time e))
    (filter (fun e => in_bounds (Some "a") None e.1 = true /\ startswith e.1 "" = true) (ais_bucket_entries "b" ais_world))) None.
Proof.
  apply (ais_listing_exact ais_world "b" "" (ais_bucket_entries "b" ais_world) (Some "a") None false FOLLOW).
  - split.
    + apply (bool_decide_unpack (StronglySorted (fun x y => str_ltb x.1 y.1 = true) (ais_bucket_entries "b" ais_world))). vm_compute. exact I.
    + apply (bool_decide_unpack _). vm_compute. exact I.
    + reflexivity.
  - split; [discriminate|reflexivity].
Defined.

(** ** What the code does not do *)
(** The keys of a listing lack the bucket, which the base class removes from
    them: a key that starts with the name of the bucket loses it, and a base
    path below the bucket is not removed. *)
Theorem ais_listing_keys_wrong :
  let keys base := map key (yielded (@list_objects _ (ais_backend "/") base (fun _ => Err ValueError) "" None None false None false FOLLOW ais_world)) in
  keys "b" = ["a"; "ook"; "sub/x"; "z"] /\ keys "b/sub" = ["sub/x"].
Proof. vm_compute. split; reflexivity. Qed.
(** The file at the target is truncated before the object is fetched: a failed
    download destroys it. *)
Theorem ais_failed_download_truncates :
  let w := put_file "f" [x61] ais_world in
  let '(r, w') := ais_download_file "b/gone" "f" (Some (directory_metadata "gone")) w in
  r = Err FileNotFoundError /\ disk w' !! "f" = Some [].
Proof. vm_compute. split; reflexivity. Qed.
(** The content is stored before the attributes are validated. *)
Theorem ais_invalid_attributes_after_put {W} `{!AisSdk W} b k body im inm a e (w w1 : W) :
  b <> "" /\ has_char slash b = false ->
  ais_put_content b k body w = (Ok tt, w1) -> validated_attributes a = Err e ->
  ais_put_object (b +:+ "/" +:+ k) body im inm a w = (Err (ais_translate e), w1).
Proof. intros Hb Hp Hv. unfold ais_put_object, ais_call, translating, mbind. rewrite split_full by done. rewrite Hp, Hv. done. Qed.
(** The condition of a write is ignored; that of a delete is reported, as a
    failure of the service. *)
Theorem ais_conditions {W} `{!AisSdk W} path body im inm e a (w : W) :
  ais_put_object path body im inm a w = ais_put_object path body None None a w /\
  (e <> "" -> ais_delete_object path (Some e) w = (Err RuntimeError, w)).
Proof.
  split; [done|]. intros He. unfold ais_delete_object. destruct (split_path path). destruct e as [|c e]; [done|]. done.
Qed.
(** The check for a directory translates its error, and the surrounding call
    translates it again: a missing bucket is not reported as such. *)
Theorem ais_missing_bucket_is_runtime_error :
  ais_get_object_metadata "missing/k" true ais_world = Err RuntimeError /\
  ais_get_object_metadata "missing/k/" true ais_world = Err FileNotFoundError.
Proof. vm_compute. split; reflexivity. Qed.
