(* ===== verification/Huggingface.v ===== *)
(** * The HuggingFace provider ([providers/huggingface.py])

    [HuggingFaceStorageProvider] over the client of the Hub, an interface here:
    objects are files of a repository, transfers go through local files.  Text
    files are left out: they are encoded and handled as bytes. *)
From stdpp Require Import stringmap.
From S2P Require Import Prelude PyDict PyPath Types Utils Json Listing Provider Cloud S3 MemCloud.

(** ** The Hub *)
Inductive repo_item :=
  | RepoFile (path : string) (size : Z) (blob_id : string)
  | RepoFolder (path : string) (tree_id : string).
Definition item_path (i : repo_item) : string := match i with RepoFile p _ _ => p | RepoFolder p _ => p end.
Definition is_RepoFile (i : repo_item) : bool := match i with RepoFile _ _ _ => true | RepoFolder _ _ => false end.
Class HubSdk (W : Type) := {
  (** local file and path in the repository *)
  hub_upload_file : string -> string -> M W unit;
  hub_delete_file : string -> M W unit;
  (** a commit with one [CommitOperationCopy] *)
  hub_copy : string -> string -> M W unit;
  hub_get_paths_info : string -> W -> res (list repo_item);
  (** directory, and whether recursively *)
  hub_list_repo_tree : option string -> bool -> W -> res (list repo_item);
  (** file name and local directory: the path of the downloaded file *)
  hub_download : string -> string -> M W string;
  (** [tempfile.TemporaryDirectory] *)
  hub_mkdtemp : M W string;
  hub_rmtree : string -> M W unit;
}.

(** ** Options of the constructor *)
Definition validate_repository (repo_type repository_id : string) : res unit :=
  if negb (bool_decide (repo_type ∈ ["dataset"; "model"; "space"])) then Err ValueError
  else if bool_decide (repository_id = "") || negb (has_char slash repository_id) then Err ValueError
  else Ok tt.
(** [HF_HUB_ENABLE_HF_TRANSFER] and whether the package is installed *)
Definition validate_hf_transfer_availability (enabled : option string) (installed : bool) : res unit :=
  if bool_decide (lower (default "" enabled) ∈ ["1"; "on"; "true"; "yes"]) && negb installed then Err ValueError else Ok tt.
Definition hf_credentials (access_token : string) : Credentials := mkCredentials "" "" (Some access_token) None ∅.

(** ** Errors *)
(** The last value of a field [name] that is a number *)
Definition rate_field (name value : string) : option Z :=
  fold_left (fun acc part =>
    let part := strip_spaces part in
    if startswith part name then match py_int (str_drop (String.length name) part) with Some z => Some z | None => acc end else acc)
    (split ";"%char value) None.
(** [f"{seconds / 60:.0f}"]: rounded half to even *)
Definition minutes (seconds : Z) : Z :=
  let '(q, r) := Z.div_eucl seconds 60 in
  if (r <? 30)%Z then q else if (30 <? r)%Z then (q + 1)%Z else if Z.even q then q else (q + 1)%Z.
Definition parse_rate_limit_headers (headers : list (string * string)) : string :=
  let limit := match dget headers "RateLimit" with
    | Some v =>
        match rate_field "r=" v with Some n => ["Requests remaining in current window: " +:+ pretty n] | None => [] end ++
        match rate_field "t=" v with Some n => ["Rate limit resets in: " +:+ pretty n +:+ " seconds"] | None => [] end
    | None => [] end in
  let policy := match dget headers "RateLimit-Policy" with
    | Some v =>
        match rate_field "q=" v, rate_field "w=" v with
        | Some q, Some s => ["Rate limit policy: " +:+ pretty q +:+ " requests per " +:+ pretty (minutes s) +:+ "-minute window"]
        | _, _ => [] end
    | None => [] end in
  join " | " (limit ++ policy).
Definition hf_translate (e : exc) : exc :=
  match e with
  | RepositoryNotFoundError | RevisionNotFoundError | EntryNotFoundError => FileNotFoundError
  | FileNotFoundError => FileNotFoundError
  | HfHubHTTPError status_code =>
      match status_code with
      | Some 404%Z => FileNotFoundError
      | Some 409%Z | Some 429%Z | Some 503%Z => RetryableError
      | Some 408%Z | Some 500%Z | Some 502%Z | Some 504%Z => RetryableError
      | _ => RuntimeError
      end
  | e => if is_OSError e then RetryableError else RuntimeError
  end.

(** [_normalize_path] *)
Definition normalize_path (path : string) : string := lstrip slash path.

Section Hub.
Context {W : Type} `{!HubSdk W, !LocalDisk W}.
(** [tempfile.gettempdir()] and the working directory *)
Context (gettempdir cwd : string).
Definition hf_call {A} (m : M W A) : M W A := translating hf_translate m.

(** ** Objects *)
(** The content goes through a temporary file, which is removed in any case *)
Definition upload_bytes (body : bytes) (path : string) : M W unit :=
  let! temp := ld_mktemp gettempdir in
  ld_write temp body ;;;
  mfinally (hub_upload_file temp path) (ld_unlink temp).
Definition hf_put_object (path : string) (body : bytes) (if_match if_none_match : option string)
    (attributes : option provider_attributes) : M W Z :=
  if bool_decide (if_match <> None) || bool_decide (if_none_match <> None) then mraise ValueError
  else if bool_decide (attributes <> None) then mraise ValueError
  else if ends_slash path then mraise ValueError
  else hf_call (upload_bytes body (normalize_path path) ;;; mret (Z.of_nat (length body))).
(** Through a temporary directory *)
Definition read_remote (path : string) : M W bytes :=
  let! dir := hub_mkdtemp in
  mfinally (let! p := hub_download path dir in reading (ld_read p)) (hub_rmtree dir).
Definition hf_get_object (path : string) (byte_range : option Range) : M W bytes :=
  if bool_decide (byte_range <> None) then mraise ValueError else hf_call (read_remote (normalize_path path)).
Definition hf_delete_object (path : string) (if_match : option string) : M W unit :=
  if bool_decide (if_match <> None) then mraise ValueError else hf_call (hub_delete_file (normalize_path path)).
Definition hf_make_symlink (path target : string) : M W unit := mraise NotImplementedError.

(** ** Metadata *)
Definition item_to_metadata (i : repo_item) : ObjectMetadata :=
  match i with
  | RepoFile p n b => mkObjectMetadata p n AWARE_DATETIME_MIN "file" None (Some b) None None None
  | RepoFolder p t => mkObjectMetadata p 0 AWARE_DATETIME_MIN "directory" None (Some t) None None None
  end.
(** [_is_dir]: errors other than a missing repository become an [Exception] *)
Definition hf_is_dir (path : string) (w : W) : res bool :=
  let path := rstrip slash path in
  if bool_decide (path = "") then Ok true
  else
    match hub_get_paths_info path w with
    | Ok [] => Ok false
    | Ok (i :: _) => Ok (negb (is_RepoFile i))
    | Err (RepositoryNotFoundError | RevisionNotFoundError) => Err FileNotFoundError
    | Err IndexError => Ok false
    | Err _ => Err PlainException
    end.
Definition paths_info (path : string) (w : W) : res ObjectMetadata :=
  match hub_get_paths_info path w with
  | Ok [] => Err FileNotFoundError
  | Ok (i :: _) => Ok (item_to_metadata i)
  | Err e => Err (hf_translate e)
  end.
Definition hf_get_object_metadata (path : string) (strict : bool) (w : W) : res ObjectMetadata :=
  let path := normalize_path path in
  match paths_info path w with
  | Err FileNotFoundError =>
      if strict then
        let dir_path := rstrip slash path +:+ "/" in
        res_bind (hf_is_dir dir_path w) (fun d => if d : bool then Ok (directory_metadata dir_path) else Err FileNotFoundError)
      else Err FileNotFoundError
  | r => r
  end.
Definition hf_copy_object (src_path dest_path : string) : M W Z :=
  let src_path := normalize_path src_path in
  let dest_path := normalize_path dest_path in
  let! src_object := reading (hf_get_object_metadata src_path true) in
  hf_call (hub_copy src_path dest_path ;;; mret (content_length src_object)).

(** ** Listing *)
(** The loop with its two cursors: [seen_start] *)
Fixpoint hf_items (start_after end_at : option string) (include_directories seen_start : bool) (l : list repo_item) : list ObjectMetadata :=
  match l with
  | [] => []
  | i :: l' =>
      if negb seen_start then hf_items start_after end_at include_directories (bool_decide (start_after = Some (item_path i))) l'
      else
        let rest := if bool_decide (end_at = Some (item_path i)) then [] else hf_items start_after end_at include_directories true l' in
        if include_directories || is_RepoFile i then item_to_metadata i :: rest else rest
  end.
Definition hf_list_objects (path : string) (start_after end_at : option string) (include_directories : bool)
    (symlink_handling : SymlinkHandling) (w : W) : listing :=
  let path := normalize_path path in
  let list_directory :=
    let dir_path := rstrip slash path in
    match hub_list_repo_tree (if bool_decide (dir_path = "") then None else Some (dir_path +:+ "/")) (negb include_directories) w with
    | Ok items => mkListing (hf_items start_after end_at include_directories (bool_decide (start_after = None)) items) None
    | Err e => match hf_translate e with FileNotFoundError => mkListing [] None | e => mkListing [] (Some e) end
    end in
  match hf_get_object_metadata (rstrip slash path) false w with
  | Ok m => if bool_decide (type m = "file") then mkListing [m] None else list_directory
  | Err FileNotFoundError => list_directory
  | Err e => mkListing [] (Some e)
  end.

(** ** Transfers *)
Definition hf_upload_file (remote_path : string) (f : io) (attributes : option provider_attributes) : M W Z :=
  if bool_decide (attributes <> None) then mraise ValueError
  else if ends_slash remote_path then mraise ValueError
  else
    let remote_path := normalize_path remote_path in
    hf_call (
      match f with
      | PathIO f => let! file_size := reading (ld_getsize f) in hub_upload_file f remote_path ;;; mret file_size
      | BytesIO content => upload_bytes content remote_path ;;; mret (Z.of_nat (length content))
      end).
Definition hf_download_file (remote_path f : string) (m : option ObjectMetadata) : M W Z :=
  hf_call (
    make_parent f ;;;
    let! downloaded_path := hub_download (normalize_path remote_path) (if bool_decide (dirname f = "") then "." else dirname f) in
    (if bool_decide (abspath cwd downloaded_path <> abspath cwd f) then ld_rename downloaded_path f else mret tt) ;;;
    reading (ld_getsize f)).
Definition hf_download_buffer (remote_path : string) (m : option ObjectMetadata) (w : W) : bytes * res Z :=
  match hf_call (read_remote (normalize_path remote_path)) w with
  | (Ok data, _) => (data, Ok (Z.of_nat (length data)))
  | (Err e, _) => ([], Err e)
  end.

Definition hf_backend : StorageBackend W := {|
  be_put_object := hf_put_object;
  be_get_object p r w := (hf_get_object p r w).1;
  be_copy_object := hf_copy_object;
  be_delete_object := hf_delete_object;
  be_delete_objects := None;
  be_make_symlink := hf_make_symlink;
  be_get_object_metadata := hf_get_object_metadata;
  be_list_objects := hf_list_objects;
  be_shallow_list p h w := shallow_list p (hf_list_objects p None None true h w);
  be_upload_file := hf_upload_file;
  be_download_file := hf_download_file;
  be_download_buffer := hf_download_buffer;
  be_supports_parallel_listing := false;
  be_multipart_threshold := DEFAULT_MULTIPART_THRESHOLD;
  be_makedirs := ld_makedirs;
  be_getsize := ld_getsize;
  be_rust_download := None;
  be_rust_upload := None;
|}.
End Hub.

(** ** Writing and reading *)
Section Roundtrip.
Context {W : Type} `{!HubSdk W, !LocalDisk W}.
Context (files_of repo_of : W -> gmap string bytes).
Definition keeps_repo {A} (w : W) (m : M W A) : Prop := repo_of (m w).2 = repo_of w.
Definition inside (dir f : string) : bool := startswith f (dir +:+ "/").
(** What the local file system and the Hub document: a temporary file is new and
    a temporary directory is empty; a download is put below its directory *)
Record hub_laws : Prop := {
  hl_mktemp d w : keeps_repo w (ld_mktemp d) /\
    match ld_mktemp d w with
    | (Ok t, w') => files_of w !! t = None /\ files_of w' = <[ t := [] ]> (files_of w)
    | (Err _, w') => files_of w' = files_of w
    end;
  hl_write t d w : keeps_repo w (ld_write t d) /\
    match ld_write t d w with
    | (Ok _, w') => files_of w' = <[ t := d ]> (files_of w)
    | (Err _, w') => delete t (files_of w') = delete t (files_of w)
    end;
  hl_unlink t w : is_Some (files_of w !! t) ->
    keeps_repo w (ld_unlink t) /\ (ld_unlink t w).1 = Ok tt /\ files_of (ld_unlink t w).2 = delete t (files_of w);
  hl_read t w : ld_read t w = match files_of w !! t with Some d => Ok d | None => Err FileNotFoundError end;
  hl_upload f p w : files_of (hub_upload_file f p w).2 = files_of w /\
    match hub_upload_file f p w with
    | (Ok _, w') => exists d, files_of w !! f = Some d /\ repo_of w' = <[ p := d ]> (repo_of w)
    | (Err _, w') => repo_of w' = repo_of w
    end;
  hl_mkdtemp w : keeps_repo w hub_mkdtemp /\ files_of (hub_mkdtemp w).2 = files_of w /\
    forall dir, (hub_mkdtemp w).1 = Ok dir -> forall f, inside dir f = true -> files_of w !! f = None;
  hl_download p dir w : keeps_repo w (hub_download p dir) /\
    (forall f, inside dir f = false -> files_of (hub_download p dir w).2 !! f = files_of w !! f) /\
    forall f, (hub_download p dir w).1 = Ok f -> exists d, repo_of w !! p = Some d /\ files_of (hub_download p dir w).2 !! f = Some d;
  hl_rmtree dir w : keeps_repo w (hub_rmtree dir) /\ (hub_rmtree dir w).1 = Ok tt /\
    forall f, files_of (hub_rmtree dir w).2 !! f = if inside dir f then None else files_of w !! f;
}.
Context (Hlaws : hub_laws).

Lemma upload_bytes_exact gettempdir body path w :
  match upload_bytes gettempdir body path w with
  | (Ok _, w') => files_of w' = files_of w /\ repo_of w' = <[ path := body ]> (repo_of w)
  | (Err _, w') => repo_of w' = repo_of w /\ files_of w ⊆ files_of w'
  end.
Proof.
  unfold upload_bytes, mbind. destruct (hl_mktemp Hlaws gettempdir w) as [Hr Ht]. unfold keeps_repo in Hr.
  destruct (ld_mktemp gettempdir w) as [[t|e] w1]; cbn [snd] in Hr; [|by rewrite Ht, Hr]. destruct Ht as [Hnew Hf1].
  destruct (hl_write Hlaws t body w1) as [Hr2 Hw]. unfold keeps_repo in Hr2.
  destruct (ld_write t body w1) as [[[]|e] w2]; cbn [snd] in Hr2.
  2: { split; [congruence|]. apply map_subseteq_spec. intros f x Hf. assert (t <> f) by congruence.
       rewrite <- (lookup_delete_ne (files_of w2) t f), Hw, Hf1, lookup_delete_ne, lookup_insert_ne by done. done. }
  assert (files_of w2 = <[ t := body ]> (files_of w)) as Hf2 by (rewrite Hw, Hf1; apply insert_insert_eq).
  unfold mfinally. destruct (hl_upload Hlaws t path w2) as [Hf3 Hu]. destruct (hub_upload_file t path w2) as [r w3]. cbn [snd] in Hf3.
  destruct (hl_unlink Hlaws t w3) as (Hr4 & Hok & Hf4); [rewrite Hf3, Hf2, lookup_insert_eq; by eexists|]. unfold keeps_repo in Hr4.
  assert (files_of (ld_unlink t w3).2 = files_of w) as Hf by by rewrite Hf4, Hf3, Hf2, delete_insert_id.
  destruct (ld_unlink t w3) as [[[]|] w4]; [|done]. cbn [snd fst] in *. destruct r as [[]|e].
  - destruct Hu as (d & Hd & Hrepo). rewrite Hf2, lookup_insert_eq in Hd. injection Hd as <-. split; [done|]. rewrite Hr4, Hrepo. congruence.
  - split; [congruence|by rewrite Hf].
Qed.
Lemma read_remote_exact path w :
  let '(r, w') := read_remote path w in
  files_of w' = files_of w /\ repo_of w' = repo_of w /\ (forall d, r = Ok d -> repo_of w !! path = Some d).
Proof.
  unfold read_remote, mbind. destruct (hl_mkdtemp Hlaws w) as (Hr1 & Hf1 & Hempty). unfold keeps_repo in Hr1.
  destruct (hub_mkdtemp w) as [[dir|e] w1]; cbn [fst snd] in *; [|by split_and!]. specialize (Hempty dir eq_refl).
  unfold mfinally. destruct (hl_download Hlaws path dir w1) as (Hr2 & Hout & Hd). unfold keeps_repo in Hr2.
  destruct (hub_download path dir w1) as [r w2]. cbn [fst snd] in *.
  destruct (hl_rmtree Hlaws dir w2) as (Hr3 & Hok & Hrm). unfold keeps_repo in Hr3.
  assert (files_of (hub_rmtree dir w2).2 = files_of w) as Hf.
  { apply map_eq. intros f. rewrite Hrm. destruct (inside dir f) eqn:Ei; [by rewrite Hempty|]. by rewrite Hout, Hf1. }
  destruct r as [f|e].
  - destruct (Hd f eq_refl) as (d & Hp & Hfd). unfold reading. rewrite (hl_read Hlaws), Hfd.
    destruct (hub_rmtree dir w2) as [[[]|] w3]; [|done]. cbn [snd] in *. split_and!; [done|congruence|]. intros ? [= <-]. by rewrite <- Hr1.
  - destruct (hub_rmtree dir w2) as [[[]|] w3]; [|done]. cbn [snd] in *. split_and!; [done|congruence|done].
Qed.
Lemma not_given {A} (H : Decision (@None A <> None)) : bool_decide (@None A <> None) = false.
Proof. apply bool_decide_eq_false. intros Hn. by apply Hn. Qed.
Lemma hf_call_ok {A} (m : M W A) w a w' : hf_call m w = (Ok a, w') -> m w = (Ok a, w').
Proof. unfold hf_call, translating. destruct (m w) as [[]]; [done|by intros [=]]. Qed.
End Roundtrip.

(** What the HuggingFace provider puts, it gets, and neither leaves a
    temporary file behind: after a put that returned, the file of the repository
    holds the body and every local file is as it was; a read of the path then
    returns the body or raises, and changes nothing. *)
Theorem hf_put_get {W} `{!HubSdk W, !LocalDisk W} (files_of repo_of : W -> gmap string bytes)
    (gettempdir path : string) (body : bytes) (n : Z) (w w1 : W)
    (Hlaws : hub_laws files_of repo_of)
    (Hput : hf_put_object gettempdir path body None None None w = (Ok n, w1)) :
  n = Z.of_nat (length body) /\ repo_of w1 = <[ normalize_path path := body ]> (repo_of w) /\ files_of w1 = files_of w /\
  let '(r, w2) := hf_get_object path None w1 in
  files_of w2 = files_of w /\ repo_of w2 = repo_of w1 /\ (forall d, r = Ok d -> d = body).
Proof.
  unfold hf_put_object in Hput. rewrite !not_given in Hput.
  cbn [orb] in Hput. destruct (ends_slash path); [done|]. apply hf_call_ok in Hput. unfold mbind at 1 in Hput.
  pose proof (upload_bytes_exact files_of repo_of Hlaws gettempdir body (normalize_path path) w) as Hu.
  destruct (upload_bytes _ _ _ w) as [[[]|e] w']; [|discriminate]. injection Hput as <- <-. destruct Hu as [Hf Hr].
  split_and!; [done|done|done|]. unfold hf_get_object. rewrite not_given. unfold hf_call, translating.
  pose proof (read_remote_exact files_of repo_of Hlaws (normalize_path path) w') as Hg.
  destruct (read_remote _ w') as [[d|e] w2]; destruct Hg as (H1 & H2 & H3); (split_and!; [congruence|done|]); [|done].
  intros d' [= <-]. specialize (H3 d eq_refl). rewrite Hr, lookup_insert_eq in H3. congruence.
Qed.

(** ** Cursors *)
(** A listing starts behind the first item whose path is [start_after], or never. *)
Theorem hf_cursor_spec s end_at d l :
  hf_items (Some s) end_at d false l =
  match list_find (fun i => item_path i = s) l with
  | Some (n, _) => hf_items (Some s) end_at d true (drop (S n) l)
  | None => []
  end.
Proof.
  induction l as [|i l IH]; [done|]. cbn [hf_items negb list_find]. case_bool_decide as Hs.
  - rewrite decide_True by congruence. cbn [drop]. by rewrite drop_0.
  - rewrite decide_False by congruence. rewrite IH. destruct (list_find _ l) as [[n x]|]; done.
Qed.
(** Without [end_at] it yields every file that follows. *)
Theorem hf_listing_complete start_after l :
  hf_items start_after None false true l = map item_to_metadata (filter (fun i => is_RepoFile i = true) l).
Proof.
  induction l as [|i l IH]; [done|]. cbn [hf_items negb orb]. rewrite bool_decide_false by done. rewrite IH, filter_cons.
  by destruct (is_RepoFile i).
Qed.

(** ** Examples *)
(** A repository in memory with local files *)
Record hub := mkHub { hub_files : gmap string bytes; hub_repo : gmap string bytes }.
Definition with_files (d : gmap string bytes) (w : hub) : hub := mkHub d (hub_repo w).
#[local] Instance hub_disk : LocalDisk hub := {|
  ld_getsize f w := match hub_files w !! f with Some d => Ok (Z.of_nat (length d)) | None => Err FileNotFoundError end;
  ld_read f w := match hub_files w !! f with Some d => Ok d | None => Err FileNotFoundError end;
  ld_makedirs _ := mret tt;
  ld_mktemp dir w := let t := temp_name dir (hub_files w) in (Ok t, with_files (<[ t := [] ]> (hub_files w)) w);
  ld_write f d w := (Ok tt, with_files (<[ f := d ]> (hub_files w)) w);
  ld_rename f g w := match hub_files w !! f with
    | Some d => (Ok tt, with_files (<[ g := d ]> (delete f (hub_files w))) w)
    | None => (Err FileNotFoundError, w) end;
  ld_exists f w := bool_decide (is_Some (hub_files w !! f));
  ld_unlink f w := match hub_files w !! f with
    | Some _ => (Ok tt, with_files (delete f (hub_files w)) w)
    | None => (Err FileNotFoundError, w) end;
|}.
(** A directory name that is longer than every file name *)
Fixpoint repeat_char (a : ascii) (n : nat) : string := match n with 0 => "" | S n => String a (repeat_char a n) end.
Definition fresh_directory (d : gmap string bytes) : string :=
  "/" +:+ repeat_char "t" (max_list (map (fun kv => String.length kv.1) (map_to_list d))).
Definition items_of (w : hub) : list repo_item := map (fun kv => RepoFile kv.1 (Z.of_nat (length kv.2)) "id") (map_to_list (hub_repo w)).
#[local] Instance mem_hub : HubSdk hub := {|
  hub_upload_file f p w := match hub_files w !! f with
    | Some d => (Ok tt, mkHub (hub_files w) (<[ p := d ]> (hub_repo w))) | None => (Err FileNotFoundError, w) end;
  hub_delete_file p w := (Ok tt, mkHub (hub_files w) (delete p (hub_repo w)));
  hub_copy p q w := match hub_repo w !! p with
    | Some d => (Ok tt, mkHub (hub_files w) (<[ q := d ]> (hub_repo w))) | None => (Err EntryNotFoundError, w) end;
  hub_get_paths_info p w := match hub_repo w !! p with
    | Some d => Ok [RepoFile p (Z.of_nat (length d)) "id"]
    | None => if existsb (fun kv => inside p kv.1) (map_to_list (hub_repo w)) then Ok [RepoFolder p "tree"] else Ok [] end;
  hub_list_repo_tree p _ w := Ok (filter (fun i => startswith (item_path i) (default "" p) = true) (items_of w));
  hub_download p dir w := match hub_repo w !! p with
    | Some d => (Ok (dir +:+ "/" +:+ p), with_files (<[ dir +:+ "/" +:+ p := d ]> (hub_files w)) w)
    | None => (Err EntryNotFoundError, w) end;
  hub_mkdtemp w := (Ok (fresh_directory (hub_files w)), w);
  hub_rmtree dir w := (Ok tt, with_files (filter (fun kv : string * bytes => inside dir kv.1 = false) (hub_files w)) w);
|}.
Lemma repeat_char_length a n : String.length (repeat_char a n) = n.
Proof. induction n; cbn; congruence. Qed.
Lemma inside_spec dir f : inside dir f = true -> exists k, f = dir +:+ "/" +:+ k.
Proof. intros [k ->]%startswith_spec. exists k. by rewrite str_app_assoc. Qed.
Lemma fresh_directory_empty d f : inside (fresh_directory d) f = true -> d !! f = None.
Proof.
  intros [k ->]%inside_spec. destruct (d !! _) as [x|] eqn:E; [|done]. exfalso. apply elem_of_map_to_list in E.
  assert (String.length (fresh_directory d +:+ "/" +:+ k) <= max_list (map (fun kv => String.length kv.1) (map_to_list d))) as H.
  { apply max_list_elem_of_le. apply list_elem_of_fmap. by eexists (_, _). }
  unfold fresh_directory in H at 1. rewrite !str_length_app, repeat_char_length in H. cbn in H. lia.
Qed.
Lemma mem_hub_laws : hub_laws hub_files hub_repo.
Proof.
  split; try done.
  - intros d w. split; [done|]. cbn. split; [apply fresh_string_fresh|done].
  - intros t w [d Hd]. unfold keeps_repo. cbn. by rewrite Hd.
  - intros f p w. cbn. destruct (hub_files w !! f) as [d|]; [|done]. split; [done|]. by exists d.
  - intros w. split; [done|]. split; [done|]. intros dir [= <-]. apply fresh_directory_empty.
  - intros p dir w. unfold keeps_repo. cbn. destruct (hub_repo w !! p) as [d|] eqn:E; split_and!; try done.
    + intros f Hf. cbn. apply lookup_insert_ne. intros <-. unfold inside in Hf. change (String "/" p) with ("/" +:+ p) in Hf.
      by rewrite <- str_app_assoc, startswith_app in Hf.
    + intros f [= <-]. cbn. exists d. by rewrite lookup_insert_eq.
  - intros dir w. split; [done|]. split; [done|]. intros f. cbn. destruct (inside dir f) eqn:E.
    + apply map_lookup_filter_None. right. cbn. by rewrite E.
    + destruct (hub_files w !! f) as [x|] eqn:Ef; [by apply map_lookup_filter_Some|]. apply map_lookup_filter_None. by left.
Qed.
Definition hub_world : hub := mkHub {[ "data/a.txt" := [x61] ]} {[ "a.txt" := [x62]; "z/b" := [x63] ]}.
Lemma hf_put_get_witness :
  let w1 := (hf_put_object "/tmp" "/a.txt" [x64; x65] None None None hub_world).2 in
  2%Z = Z.of_nat (length [x64; x65]) /\ hub_repo w1 = <[ normalize_path "/a.txt" := [x64; x65] ]> (hub_repo hub_world) /\
  hub_files w1 = hub_files hub_world /\
  let '(r, w2) := hf_get_object "/a.txt" None w1 in
  hub_files w2 = hub_files hub_world /\ hub_repo w2 = hub_repo w1 /\ (forall d, r = Ok d -> d = [x64; x65]).
Proof.
  apply (hf_put_get hub_files hub_repo "/tmp" "/a.txt" [x64; x65] 2 hub_world); [apply mem_hub_laws|]. vm_compute. reflexivity.
Defined.
Example rate_limit_message :
  parse_rate_limit_headers [("RateLimit", "api;r=0; t=142"); ("RateLimit-Policy", "fixed window;q=10000;w=300")] =
  "Requests remaining in current window: 0 | Rate limit resets in: 142 seconds | Rate limit policy: 10000 requests per 5-minute window".
Proof. vm_compute. reflexivity. Qed.

(** ** What the code does not do *)
(** A download first puts the file into the directory of the target under its
    path in the repository: another local file of that name is lost. *)
Theorem hf_download_overwrites_other_file :
  let '(r, w') := hf_download_file "/" "a.txt" "data/b.txt" None hub_world in
  r = Ok 1%Z /\ hub_files hub_world !! "data/a.txt" = Some [x61] /\
  hub_files w' !! "data/a.txt" = None /\ hub_files w' !! "data/b.txt" = Some [x62].
Proof. vm_compute. split_and!; reflexivity. Qed.
(** A listing after a key that is not in the repository is empty. *)
Theorem hf_unknown_cursor_lists_nothing :
  map key (yielded (hf_list_objects "" None None false FOLLOW hub_world)) = ["a.txt"; "z/b"] /\
  map key (yielded (hf_list_objects "" (Some "a") None false FOLLOW hub_world)) = [].
Proof. vm_compute. split; reflexivity. Qed.
(** A transient error of the directory check is not retryable. *)
Theorem hf_directory_check_not_retried {W} `{!HubSdk W} path (w : W) :
  rstrip slash path <> "" -> hub_get_paths_info (rstrip slash path) w = Err (HfHubHTTPError (Some 429%Z)) ->
  hf_is_dir path w = Err PlainException /\ hf_translate (HfHubHTTPError (Some 429%Z)) = RetryableError.
Proof. intros Hp H. unfold hf_is_dir. by rewrite bool_decide_false, H. Qed.
