(* ===== verification/S3Variants.v ===== *)
(** * The variants of the S3 provider ([providers/s8k.py], [gcs_s3.py], [ais_s3.py])

    Subclasses of [S3StorageProvider]: SwiftStack infers content types, the S3
    interface of Google has no batch delete, and AIStore is sent a token instead
    of a signature.  The directory check that [ais_s3.py] adds to
    [_get_object_metadata] depends on the text of an error and is left out. *)
From S2P Require Import Prelude PyDict PyPath Types Utils Json Listing Provider Cloud S3 MemCloud.

(** ** SwiftStack *)
Section S8k.
Context {W : Type} `{!Boto3 W, !LocalDisk W}.
Context (rust_client : option (RustClient W)) (multipart_threshold : Z) (checksum_algorithm : option string).
(** [mimetypes.guess_type] *)
Context (infer_content_type : bool) (guess_type : string -> option string).
Definition guess_content_type (file_path : string) : option string := if infer_content_type then guess_type file_path else None.
Definition s8k_put_object (path : string) (body : bytes) (if_match if_none_match : option string)
    (attributes : option provider_attributes) (content_type : option string) : M W Z :=
  s3_put_object rust_client checksum_algorithm path body if_match if_none_match attributes
    (match content_type with Some t => Some t | None => guess_content_type path end).
Definition s8k_upload_file (remote_path : string) (f : io) (attributes : option provider_attributes) (content_type : option string) : M W Z :=
  upload_with rust_client multipart_threshold checksum_algorithm s8k_put_object remote_path f attributes
    (match content_type with
     | Some t => Some t
     | None => guess_content_type (match f with PathIO f => f | BytesIO _ => remote_path end)
     end).
Definition s8k_backend (cwd : string) : StorageBackend W :=
  let s3 := s3_backend rust_client multipart_threshold checksum_algorithm cwd in {|
  be_put_object p b im inm a := s8k_put_object p b im inm a None;
  be_get_object := @be_get_object W s3;
  be_copy_object := @be_copy_object W s3;
  be_delete_object := @be_delete_object W s3;
  be_delete_objects := @be_delete_objects W s3;
  be_multipart_threshold := multipart_threshold;
  be_make_symlink := @be_make_symlink W s3;
  be_get_object_metadata := @be_get_object_metadata W s3;
  be_list_objects := @be_list_objects W s3;
  be_shallow_list := @be_shallow_list W s3;
  be_upload_file p f a := s8k_upload_file p f a None;
  be_download_file := @be_download_file W s3;
  be_download_buffer := @be_download_buffer W s3;
  be_supports_parallel_listing := true;
  be_makedirs := ld_makedirs;
  be_getsize := ld_getsize;
  be_rust_download := @be_rust_download W s3;
  be_rust_upload := @be_rust_upload W s3;
|}.
End S8k.
(** [kwargs.get("retries", {}) | {"mode": "legacy"}] *)
Definition s8k_retries (retries : option (list (string * json))) : list (string * json) := dset (default [] retries) "mode" (JStr "legacy").

(** ** The S3 interface of Google *)
Definition gcs_s3_options (checksum_algorithm rust_checksum_algorithm : option json) (kwargs : list (string * json)) : res (list (string * json)) :=
  let given j := match j with None | Some JNull => false | Some _ => true end in
  if given checksum_algorithm || given rust_checksum_algorithm then Err ValueError
  else Ok (dset (dset kwargs "request_checksum_calculation" (JStr "when_required")) "response_checksum_validation" (JStr "when_required")).
Section GcsS3.
Context {W : Type} `{!Boto3 W}.
Definition gcs_s3_delete_objects (paths : list string) : M W unit :=
  mfor paths (fun p => mtry is_FileNotFoundError (s3_delete_object p None) (fun _ => mret tt)).
End GcsS3.

(** ** AIStore *)
Definition DEFAULT_ACCESS_KEY : string := "FAKEKEY".
Definition DEFAULT_SECRET_KEY : string := "FAKESECRET".
Definition ais_s3_region (region_name : string) : string := if bool_decide (region_name = "") then "us-east-1" else region_name.
(** [_inject_auth_header] replaces the signature of a request *)
Definition inject_auth_header (credentials : option Credentials) (headers : list (string * string)) : list (string * string) :=
  match credentials with
  | Some c => match truthy (token c) with Some t => dset headers "Authorization" ("Bearer " +:+ t) | None => headers end
  | None => headers
  end.

(** ** Properties *)
(** Whatever was configured, requests are retried in the legacy mode, and no
    other option of the retries changes. *)
Theorem s8k_legacy_retries retries k :
  dget (s8k_retries retries) "mode" = Some (JStr "legacy") /\
  (k <> "mode" -> dget (s8k_retries retries) k = dget (default [] retries) k).
Proof. unfold s8k_retries. split; [by rewrite dget_dset, decide_True|]. intros Hk. by rewrite dget_dset, decide_False. Qed.

Section DeleteEach.
Context {W : Type} `{!Boto3 W} (objects_of : W -> gmap (string * string) bytes).
Definition deletes_one : Prop := forall b k w,
  match bo_delete_object b k None w with
  | (Ok _, w') => objects_of w' = delete (b, k) (objects_of w)
  | (Err e, w') => objects_of w' = objects_of w /\ (s3_translate e = FileNotFoundError -> objects_of w !! (b, k) = None)
  end.
Context (Hlaw : deletes_one).
(** A delete of every path on its own: what is missing counts as deleted. *)
Theorem gcs_s3_delete_objects_complete paths w :
  let '(r, w') := gcs_s3_delete_objects paths w in
  (forall q, q ∉ map split_path paths -> objects_of w' !! q = objects_of w !! q) /\
  (forall q, objects_of w !! q = None -> objects_of w' !! q = None) /\
  (r = Ok tt -> forall p, p ∈ paths -> objects_of w' !! split_path p = None).
Proof.
  unfold gcs_s3_delete_objects. revert w. induction paths as [|p paths IH]; intros w.
  { split_and!; [done|done|]. by intros _ p ?%not_elem_of_nil. }
  cbn [mfor map]. unfold mbind, mtry, s3_delete_object, s3_call, translating. destruct (split_path p) as [b k] eqn:Hp. cbn [truthy].
  specialize (Hlaw b k w). destruct (bo_delete_object b k None w) as [[[]|e] w1].
  - specialize (IH w1). destruct (mfor _ _ w1) as [r w']. rewrite Hlaw in IH. destruct IH as (H1 & H2 & H3). split_and!.
    + intros q [Hq Hqs]%not_elem_of_cons. by rewrite H1, lookup_delete_ne by done.
    + intros q Hq. apply H2. destruct (decide (q = (b, k))) as [->|]; [apply lookup_delete_eq|by rewrite lookup_delete_ne by done].
    + intros Hr p' [->|Hin]%elem_of_cons; [|by apply H3]. rewrite Hp. apply H2, lookup_delete_eq.
  - destruct Hlaw as [Hsame Hmissing]. destruct (is_FileNotFoundError (s3_translate e)) eqn:En.
    + specialize (IH w1). unfold mret. destruct (mfor _ _ w1) as [r w']. rewrite Hsame in IH. destruct IH as (H1 & H2 & H3). split_and!.
      * intros q [_ Hqs]%not_elem_of_cons. by apply H1.
      * done.
      * intros Hr p' [->|Hin]%elem_of_cons; [|by apply H3]. rewrite Hp. apply H2, Hmissing. by destruct (s3_translate e).
    + rewrite Hsame. by split_and!.
Qed.
End DeleteEach.

(** ** What the code does not do *)
(** A batch upload with the native client does not infer content types: its
    requests are those of the plain S3 provider. *)
Theorem s8k_batch_upload_without_content_type {W} `{!Boto3 W, !LocalDisk W} (rc : RustClient W) threshold checksum infer guess cwd :
  @be_rust_upload W (s8k_backend (Some rc) threshold checksum infer guess cwd) = @be_rust_upload W (s3_backend (Some rc) threshold checksum cwd).
Proof. done. Qed.
(** ... while a single upload of the same file sets it. *)
Theorem s8k_upload_infers_type {W} `{!Boto3 W, !LocalDisk W} (rc : RustClient W) threshold checksum guess t cwd remote data (w : W) :
  guess remote = Some t ->
  @be_upload_file W (s8k_backend (Some rc) threshold checksum true guess cwd) remote (BytesIO data) None w =
  s3_upload_file (Some rc) threshold checksum remote (BytesIO data) None (Some t) w.
Proof.
  intros Ht. cbn [be_upload_file s8k_backend]. unfold s8k_upload_file, guess_content_type. rewrite Ht.
  unfold s3_upload_file, upload_with, s8k_put_object. by destruct (split_path remote).
Qed.
