(* ===== verification/FileCredentials.v ===== *)
(** * Credentials from a file ([providers/file_credentials.py])

    [FileBasedCredentialsProvider] reads credentials that an external process
    writes.  The file and the clock are an interface.  The external process runs
    side by side with the provider: the file may change between any two system
    calls of an operation, and what happens after each of them is an argument
    of the operations ([drift]).  Times are in microseconds. *)
From S2P Require Import Prelude Types Json.

Class CredentialFile (W : Type) := {
  cf_exists : W -> bool;
  cf_is_file : W -> bool;
  (** [stat().st_mtime] *)
  cf_mtime : W -> res Z;
  (** [json.load] *)
  cf_load : W -> res json;
  cf_time : W -> Z;
  (** the world after a time has passed *)
  cf_sleep : Z -> W -> W;
}.
(** The moments of an operation at which the external process may step in *)
Inductive moment :=
  | AfterExists | AfterIsFile | AfterValidation | AfterCheck | AfterStat | AfterTime | AfterSleep | AfterSecondStat.
#[global] Instance moment_eq_dec : EqDecision moment.
Proof. solve_decision. Defined.

(** [_cached_credentials] and [_last_mtime]; 0 is the time of no file *)
Record file_credentials := mkFileCredentials { cached_credentials : option Credentials; last_mtime : Z }.

Definition is_JStr (j : json) : bool := match j with JStr _ => true | _ => false end.
(** [data["Version"] != 1]: [True] equals 1 *)
Definition equals_one (j : json) : bool := match j with JInt z => (z =? 1)%Z | JBool b => b | _ => false end.
(** Absent, [null] or a string *)
Definition optional_string (d : dict) (k : string) : bool :=
  match dict_get d k with None | Some JNull | Some (JStr _) => true | Some _ => false end.
Definition validate_credential_schema (data : json) : res unit :=
  match data with
  | JDict d =>
      match dict_get d "Version" with
      | None => Err ValueError
      | Some v =>
          if negb (equals_one v) then Err ValueError
          else
            match dict_get d "AccessKeyId" with
            | None => Err ValueError
            | Some a =>
                match dict_get d "SecretAccessKey" with
                | None => Err ValueError
                | Some s =>
                    if negb (is_JStr a) then Err ValueError
                    else if negb (is_JStr s) then Err ValueError
                    else if negb (optional_string d "SessionToken") then Err ValueError
                    else if negb (optional_string d "Expiration") then Err ValueError
                    else Ok tt
                end
            end
      end
  | _ => Err ValueError
  end.
(** [Credentials(...)] from the validated data *)
Definition json_string (j : option json) : option string := match j with Some (JStr s) => Some s | _ => None end.
Definition credentials_of (data : json) : Credentials :=
  let d := match data with JDict d => d | _ => [] end in
  mkCredentials (default "" (json_string (dict_get d "AccessKeyId"))) (default "" (json_string (dict_get d "SecretAccessKey")))
    (json_string (dict_get d "SessionToken")) (json_string (dict_get d "Expiration")) ∅.

Section Provider.
Context {W : Type} `{!CredentialFile W} (drift : moment -> W -> W).
(** [json.JSONDecodeError] becomes [ValueError] *)
Definition load_json (w : W) : res json := match cf_load w with Err JSONDecodeError => Err ValueError | r => r end.
Definition validate_credential_file (w : W) : res unit * W :=
  if negb (cf_exists w) then (Err FileNotFoundError, w)
  else
    let w := drift AfterExists w in
    if negb (cf_is_file w) then (Err ValueError, w)
    else
      let w := drift AfterIsFile w in
      (res_bind (load_json w) validate_credential_schema, drift AfterValidation w).
Definition SETTLE_TIME : Z := 1000000%Z.
(** [_load_credentials]: a file that was written less than a second ago is read
    after a second; the recorded time is that of the last [stat], before the
    file is opened *)
Definition load_credentials (s : file_credentials) (w : W) : res Credentials * file_credentials * W :=
  match cf_mtime w with
  | Err e => (Err e, s, w)
  | Ok t =>
      let w := drift AfterStat w in
      let '(mtime, w) := if (cf_time w - t <? SETTLE_TIME)%Z
                         then let w := drift AfterSleep (cf_sleep SETTLE_TIME w) in (cf_mtime w, drift AfterSecondStat w)
                         else (Ok t, drift AfterTime w) in
      match res_bind mtime (fun t => res_bind (load_json w) (fun data =>
              res_bind (validate_credential_schema data) (fun _ => Ok (t, data)))) with
      | Err e => (Err e, s, w)
      | Ok (t, data) => (Ok (credentials_of data), mkFileCredentials (cached_credentials s) t, w)
      end
  end.
Definition store_loaded (r : res Credentials * file_credentials * W) : res Credentials * file_credentials * W :=
  match r with
  | (Ok c, s, w) => (Ok c, mkFileCredentials (Some c) (last_mtime s), w)
  | r => r
  end.
Definition new_file_credentials (w : W) : res file_credentials * W :=
  match validate_credential_file w with
  | (Err e, w) => (Err e, w)
  | (Ok _, w) => match store_loaded (load_credentials (mkFileCredentials None 0) w) with
                 | (Ok _, s, w) => (Ok s, w)
                 | (Err e, _, w) => (Err e, w)
                 end
  end.
Definition file_get_credentials (s : file_credentials) (w : W) : res Credentials * file_credentials * W :=
  match cached_credentials s with
  | Some c => (Ok c, s, w)
  | None => store_loaded (load_credentials s w)
  end.
(** Loading as [refresh_credentials] does it *)
Definition reload (s : file_credentials) (w : W) : res unit * file_credentials * W :=
  match store_loaded (load_credentials s w) with (Ok _, s, w) => (Ok tt, s, w) | (Err e, s, w) => (Err e, s, w) end.
Definition file_refresh_credentials (s : file_credentials) (w : W) : res unit * file_credentials * W :=
  if cf_exists w then
    let w := drift AfterExists w in
    match cf_mtime w with
    | Err e => (Err e, s, w)
    | Ok t => if negb (last_mtime s =? 0)%Z && (t =? last_mtime s)%Z then (Ok tt, s, w) else reload s (drift AfterCheck w)
    end
  else reload s (drift AfterExists w).
End Provider.

(** ** The credentials follow the file *)
Section Follows.
Context {W : Type} `{!CredentialFile W} (changes : W -> W -> Prop) (content_at : Z -> json).

(** The contents that the external process writes are told apart by their
    modification time, which never goes back, not even when the file is away in
    between. *)
Record timed_file : Prop := {
  tf_content : forall w data, cf_load w = Ok data -> exists t, cf_mtime w = Ok t /\ data = content_at t;
  tf_monotone : forall w w' t t', rtc changes w w' -> cf_mtime w = Ok t -> cf_mtime w' = Ok t' -> (t <= t')%Z;
  tf_sleep : forall d w, rtc changes w (cf_sleep d w);
}.
(** What the external process may do during an operation *)
Definition drifts (drift : moment -> W -> W) : Prop := forall m w, rtc changes w (drift m w).

(** The cached credentials are those that the file had at a moment between [w0]
    and [w], not older than the recorded time. *)
Definition had_credentials (w0 : W) (s : file_credentials) (w : W) : Prop :=
  exists wm t, rtc changes w0 wm /\ rtc changes wm w /\ cf_mtime wm = Ok t /\ (last_mtime s <= t)%Z /\
    cached_credentials s = Some (credentials_of (content_at t)) /\ validate_credential_schema (content_at t) = Ok tt.
Lemma had_credentials_later w0 s w w' : had_credentials w0 s w -> rtc changes w w' -> had_credentials w0 s w'.
Proof. intros (wm & t & H1 & H2 & H3) H. exists wm, t. split; [done|]. split; [by etrans|done]. Qed.
Lemma had_credentials_earlier w0 w1 s w : had_credentials w1 s w -> rtc changes w0 w1 -> had_credentials w0 s w.
Proof. intros (wm & t & H1 & H2) H. exists wm, t. split; [by etrans|done]. Qed.

Context (Hfile : timed_file).

(** Reading the file: the content belongs to the moment of the reading, the
    recorded time to an earlier one. *)
Lemma load_credentials_spec drift s w r s' w' (Hd : drifts drift) :
  load_credentials drift s w = (r, s', w') ->
  rtc changes w w' /\
  match r with
  | Ok c => exists t, cf_mtime w' = Ok t /\ (last_mtime s' <= t)%Z /\ c = credentials_of (content_at t) /\
      validate_credential_schema (content_at t) = Ok tt
  | Err _ => s' = s
  end.
Proof.
  unfold load_credentials. destruct (cf_mtime w) as [t0|e] eqn:Et; [|by intros [= <- <- <-]].
  assert (forall ws m w1, rtc changes w ws -> m = cf_mtime ws -> rtc changes ws w1 ->
    match res_bind m (fun t => res_bind (load_json w1) (fun data =>
      res_bind (validate_credential_schema data) (fun _ => Ok (t, data)))) with
    | Err e => (Err e, s, w1)
    | Ok (t, data) => (Ok (credentials_of data), mkFileCredentials (cached_credentials s) t, w1) end = (r, s', w') ->
    rtc changes w w' /\ match r with
      | Ok c => exists t, cf_mtime w' = Ok t /\ (last_mtime s' <= t)%Z /\ c = credentials_of (content_at t) /\
          validate_credential_schema (content_at t) = Ok tt
      | Err _ => s' = s end) as Hread.
  { intros ws m w1 Hws -> Hw1. destruct (cf_mtime ws) as [ts|] eqn:Em; cbn [res_bind]; [|intros [= <- <- <-]; split; [by etrans|done]].
    unfold load_json. destruct (cf_load w1) as [data|[]] eqn:El; cbn [res_bind]; try (intros [= <- <- <-]; split; [by etrans|done]).
    destruct (validate_credential_schema data) as [[]|] eqn:Ev; cbn [res_bind]; intros [= <- <- <-]; (split; [by etrans|]); [|done].
    destruct (tf_content Hfile w1 data El) as (t & Ht & ->). exists t. split_and!; try done. cbn.
    by apply (tf_monotone Hfile ws w1). }
  destruct (_ <? _)%Z.
  - apply (Hread (drift AfterSleep (cf_sleep SETTLE_TIME (drift AfterStat w)))); [|done|apply Hd].
    etrans; [apply (Hd AfterStat)|]. etrans; [apply (tf_sleep Hfile)|]. apply Hd.
  - apply (Hread w); [done|by rewrite Et|]. etrans; [apply (Hd AfterStat)|]. apply Hd.
Qed.
Lemma store_loaded_spec drift s w r s' w' (Hd : drifts drift) :
  store_loaded (load_credentials drift s w) = (r, s', w') ->
  rtc changes w w' /\ match r with Ok _ => had_credentials w s' w' | Err _ => s' = s end.
Proof.
  destruct (load_credentials drift s w) as [[r1 s1] w1] eqn:El. apply load_credentials_spec in El as [Hw Hr]; [|done].
  destruct r1 as [c|e]; cbn [store_loaded]; intros [= <- <- <-]; split; try done.
  destruct Hr as (t & H1 & H2 & -> & H4). exists w1, t. by split_and!.
Qed.
Lemma new_follows drift w s w' (Hd : drifts drift) : new_file_credentials drift w = (Ok s, w') -> had_credentials w s w'.
Proof.
  unfold new_file_credentials. destruct (validate_credential_file drift w) as [[u|e] w1] eqn:Ev; [|by intros [=]].
  assert (rtc changes w w1) as Hw1.
  { revert Ev. unfold validate_credential_file. destruct (negb (cf_exists w)); [by intros [= _ <-]|].
    destruct (negb (cf_is_file _)); intros [= _ <-]. etrans; [apply (Hd AfterExists)|].
    etrans; [apply (Hd AfterIsFile)|]. apply Hd. }
  destruct (store_loaded _) as [[[c|e] s1] w2] eqn:El; intros [= <- <-].
  apply store_loaded_spec in El as [_ H]; [|done]. by eapply had_credentials_earlier.
Qed.
Lemma reload_spec drift s w r s' w' (Hd : drifts drift) :
  reload drift s w = (r, s', w') -> rtc changes w w' /\ match r with Ok _ => had_credentials w s' w' | Err _ => s' = s end.
Proof.
  unfold reload. destruct (store_loaded _) as [[r1 s1] w1] eqn:E. apply store_loaded_spec in E as [Hw H]; [|done].
  destruct r1; by intros [= <- <- <-].
Qed.
(** A refresh reloads, or the file still has the recorded time, and then its
    content is the one that is cached. *)
Lemma refresh_spec drift w0 s w r s' w' (Hd : drifts drift) :
  had_credentials w0 s w -> file_refresh_credentials drift s w = (r, s', w') ->
  rtc changes w w' /\ match r with Ok _ => had_credentials w s' w' | Err _ => s' = s end.
Proof.
  intros (wm & t & H1 & H2 & H3 & H4 & H5 & H6). unfold file_refresh_credentials.
  assert (forall w1, rtc changes w w1 -> reload drift s w1 = (r, s', w') ->
    rtc changes w w' /\ match r with Ok _ => had_credentials w s' w' | Err _ => s' = s end) as Hload.
  { intros w1 Hw1 [Hw Hr]%reload_spec; [|done]. split; [by etrans|]. destruct r; [|done]. by eapply had_credentials_earlier. }
  destruct (cf_exists w); [|apply Hload, Hd].
  destruct (cf_mtime (drift AfterExists w)) as [t'|] eqn:Et; [|intros [= <- <- <-]; split; [apply Hd|done]].
  destruct (negb _ && _) eqn:Eb; [|apply Hload; etrans; apply Hd]. intros [= <- <- <-]. split; [apply Hd|].
  apply andb_true_iff in Eb as [_ ->%Z.eqb_eq].
  assert (t = last_mtime s) as ->.
  { apply Z.le_antisymm; [|done]. apply (tf_monotone Hfile wm (drift AfterExists w)); try done. etrans; [done|apply Hd]. }
  exists (drift AfterExists w), (last_mtime s). split_and!; try done; apply Hd.
Qed.

(** *** A provider over time *)

(** The external process and the owner of the provider take turns, and the
    external process may step in during each operation. *)
Inductive credential_step : file_credentials * W -> file_credentials * W -> Prop :=
  | step_file s w w' : changes w w' -> credential_step (s, w) (s, w')
  | step_refresh drift s w r s' w' :
      drifts drift -> file_refresh_credentials drift s w = (r, s', w') -> credential_step (s, w) (s', w')
  | step_get drift s w r s' w' :
      drifts drift -> file_get_credentials drift s w = (r, s', w') -> credential_step (s, w) (s', w').
Lemma credential_step_inv w0 s w s' w' : had_credentials w0 s w -> credential_step (s, w) (s', w') -> had_credentials w0 s' w'.
Proof.
  intros Hs Hstep. inversion Hstep as [? ? ? Hc|? ? ? r ? ? Hd Hr|? ? ? r ? ? Hd Hg]; subst.
  - eapply had_credentials_later; [done|by apply rtc_once].
  - pose proof Hs as (wm & t & H1 & H2 & _). apply (refresh_spec _ w0) in Hr as [Hw Hr]; [|done|done]. destruct r as [u|e].
    + eapply had_credentials_earlier; [done|by etrans].
    + subst. by eapply had_credentials_later.
  - pose proof Hs as (wm & t & _ & _ & _ & _ & Hc & _). unfold file_get_credentials in Hg. rewrite Hc in Hg. by injection Hg as _ <- <-.
Qed.
End Follows.

(** C14: where the contents of the file are told apart by a modification time
    that never goes back, a credentials provider that was constructed always
    has valid credentials, which the file had at a moment since then.  A
    refresh that returns leaves it with the credentials that the file had at a
    moment during the refresh, and one that raises changes nothing.  The file
    may change between any two system calls, also between the [stat] whose
    time is recorded and the opening of the file. *)
Theorem credentials_follow_file {W} `{!CredentialFile W} (changes : W -> W -> Prop) (content_at : Z -> json)
    (drift0 drift : moment -> W -> W) (w0 w1 : W) (s0 s : file_credentials) (w : W)
    (Hfile : timed_file changes content_at) (Hdrift0 : drifts changes drift0) (Hdrift : drifts changes drift)
    (Hnew : new_file_credentials drift0 w0 = (Ok s0, w1))
    (Hreach : rtc (credential_step changes) (s0, w1) (s, w)) :
  (exists wm t, rtc changes w0 wm /\ rtc changes wm w /\ cf_mtime wm = Ok t /\
     validate_credential_schema (content_at t) = Ok tt /\
     file_get_credentials drift s w = (Ok (credentials_of (content_at t)), s, w)) /\
  match file_refresh_credentials drift s w with
  | (Ok _, s', w') => exists wm t, rtc changes w wm /\ rtc changes wm w' /\ cf_mtime wm = Ok t /\
      validate_credential_schema (content_at t) = Ok tt /\ cached_credentials s' = Some (credentials_of (content_at t))
  | (Err _, s', _) => s' = s
  end.
Proof.
  assert (had_credentials changes content_at w0 s w) as Hs.
  { apply (new_follows changes content_at Hfile) in Hnew; [|done]. remember (s0, w1) as x. remember (s, w) as y.
    revert s0 w1 s w Hnew Heqx Heqy. induction Hreach as [|x [s2 w2] y Hstep _ IH]; intros s0 w1 s w Hs0 -> Hy;
      [by injection Hy as -> ->|].
    apply (IH s2 w2 s w); [|done|done]. by apply (credential_step_inv changes content_at Hfile w0 s0 w1). }
  split.
  - destruct Hs as (wm & t & H1 & H2 & H3 & _ & Hc & Hv). exists wm, t. split_and!; try done.
    unfold file_get_credentials. by rewrite Hc.
  - destruct (file_refresh_credentials drift s w) as [[r s'] w'] eqn:Er.
    apply (refresh_spec changes content_at Hfile drift w0) in Er as [_ Er]; [|done|done]. destruct r as [u|e]; [|done].
    destruct Er as (wm & t & H1 & H2 & H3 & _ & Hc & Hv). by exists wm, t.
Qed.

(** ** Examples *)
(** A file that is rewritten with new keys or removed, and the clock *)
Definition rotating (t : Z) : json :=
  JDict [("Version", JInt 1); ("AccessKeyId", JStr (pretty t)); ("SecretAccessKey", JStr "s"); ("Expiration", JNull)].
Record key_file := mkKeyFile { present : bool; mtime : Z; clock : Z }.
#[local] Instance mem_credential_file : CredentialFile key_file := {|
  cf_exists w := present w;
  cf_is_file w := true;
  cf_mtime w := if present w then Ok (mtime w) else Err FileNotFoundError;
  cf_load w := if present w then Ok (rotating (mtime w)) else Err FileNotFoundError;
  cf_time w := clock w;
  cf_sleep d w := mkKeyFile (present w) (mtime w) (Z.max (clock w) (clock w + d));
|}.
Definition key_changes (w w' : key_file) : Prop := (mtime w <= mtime w' /\ clock w <= clock w')%Z.
Lemma key_changes_rtc w w' : rtc key_changes w w' -> (mtime w <= mtime w')%Z.
Proof. induction 1 as [|x y z [H1 _] _ IH]; lia. Qed.
Lemma rotating_timed : timed_file key_changes rotating.
Proof.
  split.
  - intros [[] t n] data; cbn; [|done]. intros [= <-]. by exists t.
  - intros [[] t n] [[] t' n'] a b; cbn; try done. intros H%key_changes_rtc [= <-] [= <-]. exact H.
  - intros d w. apply rtc_once. split; cbn; lia.
Qed.
(** The process rewrites the file right after it was looked at. *)
Definition rewrites_after (m : moment) (t : Z) (m' : moment) (w : key_file) : key_file :=
  if decide (m' = m) then mkKeyFile true (Z.max t (mtime w)) (clock w) else w.
Lemma rewrites_after_drifts m t : drifts key_changes (rewrites_after m t).
Proof. intros m' w. apply rtc_once. unfold rewrites_after. case_decide; split; cbn; lia. Qed.

(** Keys 7 are written between the [stat] and the opening of a refresh: they
    are read under the recorded time 6. *)
Lemma credentials_follow_file_witness :
  let s := mkFileCredentials (Some (credentials_of (rotating 5))) 5 in
  let w := mkKeyFile true 6 2000020 in
  let drift := rewrites_after AfterTime 7 in
  (exists wm t, rtc key_changes (mkKeyFile true 5 10) wm /\ rtc key_changes wm w /\ cf_mtime wm = Ok t /\
     validate_credential_schema (rotating t) = Ok tt /\
     file_get_credentials drift s w = (Ok (credentials_of (rotating t)), s, w)) /\
  file_refresh_credentials drift s w =
    (Ok tt, mkFileCredentials (Some (credentials_of (rotating 7))) 6, mkKeyFile true 7 2000020).
Proof.
  split; [|vm_compute; reflexivity].
  refine (proj1 (credentials_follow_file key_changes rotating (fun _ w => w) (rewrites_after AfterTime 7)
    (mkKeyFile true 5 10) (mkKeyFile true 5 1000010) (mkFileCredentials (Some (credentials_of (rotating 5))) 5)
    (mkFileCredentials (Some (credentials_of (rotating 5))) 5) (mkKeyFile true 6 2000020) rotating_timed _ _ _ _)).
  - intros m w. reflexivity.
  - apply rewrites_after_drifts.
  - vm_compute. reflexivity.
  - apply rtc_once, step_file. split; cbn; lia.
Defined.
(** The next refresh sees a time that differs from the recorded one and reads
    the file again. *)
Example refresh_after_race :
  file_refresh_credentials (fun _ w => w) (mkFileCredentials (Some (credentials_of (rotating 7))) 6) (mkKeyFile true 7 3000000) =
    (Ok tt, mkFileCredentials (Some (credentials_of (rotating 7))) 7, mkKeyFile true 7 3000000).
Proof. vm_compute. reflexivity. Qed.
(** A file that takes the place of another and has the same time is not read. *)
Theorem same_mtime_not_refreshed {W} `{!CredentialFile W} (drift : moment -> W -> W) s w :
  cf_exists w = true -> cf_mtime (drift AfterExists w) = Ok (last_mtime s) -> last_mtime s <> 0%Z ->
  file_refresh_credentials drift s w = (Ok tt, s, drift AfterExists w).
Proof.
  intros H1 H2 H3. unfold file_refresh_credentials. rewrite H1, H2, Z.eqb_refl.
  by replace (last_mtime s =? 0)%Z with false by (symmetry; by apply Z.eqb_neq).
Qed.
