(* ===== verification/TransferProofs.v ===== *)
(** * Batch transfers of a provider

    A batch transfer names exactly the items that were not transferred,
    whatever order its tasks complete in; the laws that this assumes of a
    storage backend are the classes [DownloadLaws] and [UploadLaws]. *)
From S2P Require Import Prelude PyPath Types Utils Retry Listing ListingProofs Provider MemStore.

(** ** Tasks *)
Section Tasks.
Context {W K : Type} (inv : W -> Prop) (fin : W -> K -> Prop) (item : nat -> K).

(** While [inv] holds, a task that succeeds finishes its item, and no task
    undoes an item or [inv]. *)
Definition keeps (w w' : W) : Prop := inv w -> inv w' /\ forall x, fin w x -> fin w' x.
Record task_ok (t : nat * M W unit) : Prop := {
  task_fin : forall w w', inv w -> t.2 w = (Ok tt, w') -> fin w' (item t.1);
  task_keeps : forall w r w', t.2 w = (r, w') -> keeps w w';
}.

#[global] Instance keeps_PreOrder : PreOrder keeps.
Proof. split; [by intros w|]. intros w1 w2 w3 H1 H2 [I2 F2]%H1. apply H2 in I2 as [I3 F3]. auto. Qed.

Lemma run_tasks_spec ts w fs w' :
  Forall task_ok ts -> inv w -> run_tasks ts w = (fs, w') ->
  keeps w w' /\
  (forall i, i ∈ ts.*1 -> i ∈ fs.*1 \/ fin w' (item i)) /\
  (forall i, i ∈ fs.*1 -> i ∈ ts.*1).
Proof.
  intros Hts. revert w fs w'. induction Hts as [|[i m] ts [Hf Hm] _ IH]; intros w fs w' Hinv; cbn.
  { intros [= <- <-]. split; [done|]. set_solver. }
  destruct (m w) as [r w1] eqn:Em. destruct (run_tasks ts w1) as [fs1 w2] eqn:Er. cbn in Hf, Hm.
  pose proof (Hm w r w1 Em) as Hk. destruct (Hk Hinv) as [Hinv1 _].
  destruct (IH w1 fs1 w2 Hinv1 Er) as (H1 & H2 & H3). intros [= <- <-].
  split; [by transitivity w1|]. destruct r as [[]|e]; cbn; (split; [|set_solver]); intros j [->|Hj]%elem_of_cons.
  - right. destruct (H1 Hinv1) as [_ Hmono]. eauto.
  - auto.
  - left. left.
  - destruct (H2 j Hj); [left; by right|by right].
Qed.

Lemma gather_spec completion ts w fs w' :
  completion ts ≡ₚ ts -> Forall task_ok ts -> inv w -> gather completion ts w = (fs, w') ->
  keeps w w' /\
  (forall i, i ∈ ts.*1 -> i ∈ fs.*1 \/ fin w' (item i)) /\
  (forall i, i ∈ fs.*1 -> i ∈ ts.*1).
Proof.
  intros Hc Hts Hinv. unfold gather. destruct (run_tasks _ _) as [fs1 w1] eqn:E. intros [= <- <-].
  apply run_tasks_spec in E as (H1 & H2 & H3); [|by rewrite Hc|done]. split; [done|].
  split; intros i; rewrite (sort_by_perm _ fs1); rewrite <- Hc; auto.
Qed.

(** Preparing an item keeps what is finished; a prepared item is a task. *)
Lemma prepare_tasks_spec {B} (prepare : B -> M W (M W unit)) items start w ts fs w' :
  (forall i x w r w1, items !! i = Some x -> prepare x w = (r, w1) -> keeps w w1) ->
  (forall i x w t w1, items !! i = Some x -> prepare x w = (Ok t, w1) -> task_ok (start + i, t)) ->
  prepare_tasks prepare start items w = (ts, fs, w') ->
  keeps w w' /\ Forall task_ok ts /\
  (forall i, start <= i < start + length items <-> i ∈ ts.*1 \/ i ∈ fs.*1).
Proof.
  revert start w ts fs w'. induction items as [|x xs IH]; intros start w ts fs w' Hkeep Hok; cbn [prepare_tasks].
  { intros [= <- <- <-]. split; [done|]. split; [done|]. intros i. cbn. split; [lia|]. set_solver. }
  destruct (prepare x w) as [r w1] eqn:Ex. destruct (prepare_tasks prepare (S start) xs w1) as [[ts1 fs1] w2] eqn:Er.
  destruct (IH (S start) w1 ts1 fs1 w2) as (H1 & H2 & H3); [| |done|].
  { intros i y. apply (Hkeep (S i)). }
  { intros i y. specialize (Hok (S i) y). by rewrite Nat.add_succ_r in Hok. }
  pose proof (Hkeep 0 x w r w1 eq_refl Ex) as Hk. cbn.
  assert (forall i, start <= i < start + S (length xs) <-> i = start \/ (S start <= i < S start + length xs)) as Hi by lia.
  destruct r as [t|e]; intros [= <- <- <-]; (split; [by transitivity w1|]).
  - split; [|intros i; rewrite Hi, H3; set_solver]. constructor; [|done].
    specialize (Hok 0 x w t w1 eq_refl Ex). by rewrite Nat.add_0_r in Hok.
  - split; [done|]. intros i. rewrite Hi, H3. set_solver.
Qed.
End Tasks.

(** What a batch call promises for the items from [sources] to
    [destinations], when it starts in [begin] *)
Definition batch_result {W K} (fin : W -> K -> Prop) (item : nat -> K) (sources destinations : list string)
    (begin : W) (o : res unit * W) : Prop :=
  let '(r, w') := o in
  (forall x, fin begin x -> fin w' x) /\
  match r with
  | Ok _ => forall i, i < length sources -> fin w' (item i)
  | Err (BatchTransferError fs) =>
      fs <> [] /\
      (forall f, f ∈ fs -> exists i e, i < length sources /\ f = failure sources destinations (i, e)) /\
      (forall i, i < length sources -> Z.of_nat i ∈ map failure_index fs \/ fin w' (item i))
  | Err _ => w' = begin
  end.

Lemma failure_indices sources destinations (fs : list (nat * exc)) i :
  i ∈ fs.*1 -> Z.of_nat i ∈ map failure_index (map (failure sources destinations) fs).
Proof.
  intros ([i' e] & -> & Hin)%list_elem_of_fmap. rewrite map_map.
  apply (list_elem_of_fmap_2 (fun x => failure_index (failure sources destinations x)) _ (i', e) Hin).
Qed.
Lemma raise_failures_spec {W K} (fin : W -> K -> Prop) item sources destinations (begin w : W) fs :
  (forall x, fin begin x -> fin w x) ->
  (forall i, i < length sources -> i ∈ fs.*1 \/ fin w (item i)) ->
  (forall i, i ∈ fs.*1 -> i < length sources) ->
  batch_result fin item sources destinations begin (raise_failures (map (failure sources destinations) fs) w).
Proof.
  intros H1 H2 H3. unfold batch_result, raise_failures. destruct fs as [|f fs].
  { cbn. split; [done|]. intros i Hi. destruct (H2 i Hi) as [H|H]; [by apply elem_of_nil in H|done]. }
  cbn [map mraise make_BatchTransferError]. split; [done|]. split; [done|]. split.
  - intros g Hg. change (g ∈ map (failure sources destinations) (f :: fs)) in Hg.
    apply list_elem_of_fmap in Hg as ([i e] & -> & Hin). exists i, e. split; [|done].
    apply H3. apply list_elem_of_fmap. by exists (i, e).
  - intros i Hi. destruct (H2 i Hi) as [Hin|]; [left|by right]. by apply (failure_indices sources destinations (f :: fs)).
Qed.

(** A batch on a thread pool: one task for each item *)
Lemma threaded_spec {W K B} (inv : W -> Prop) (fin : W -> K -> Prop) item sources destinations
    (completion : list (nat * M W unit) -> list (nat * M W unit)) (task : nat -> B -> nat * M W unit) (items : list B) w :
  (forall ts, completion ts ≡ₚ ts) -> inv w -> length items = length sources ->
  (forall i x, items !! i = Some x -> (task i x).1 = i /\ task_ok inv fin item (task i x)) ->
  batch_result fin item sources destinations w
    (let '(fs, w') := run_tasks (completion (imap task items)) w in
     raise_failures (map (failure sources destinations) fs) w').
Proof.
  intros Hc Hinv Hlen Htask. destruct (run_tasks _ _) as [fs w'] eqn:Hrun.
  assert (forall i t, imap task items !! i = Some t -> i < length sources /\ t.1 = i /\ task_ok inv fin item t) as Ht.
  { intros i t H. rewrite list_lookup_imap in H. destruct (items !! i) as [x|] eqn:E; [|done]. injection H as <-.
    rewrite <- Hlen. split; [by eapply lookup_lt_Some|auto]. }
  assert (forall i, i ∈ (imap task items).*1 <-> i < length sources) as Hidx.
  { intros i. rewrite list_elem_of_fmap. split.
    - intros (t & -> & [j Hj]%list_elem_of_lookup). by destruct (Ht j t Hj) as (Hlt & -> & _).
    - intros Hi. assert (is_Some (imap task items !! i)) as [t H].
      { apply lookup_lt_is_Some. by rewrite length_imap, Hlen. }
      exists t. split; [by destruct (Ht i t H) as (_ & -> & _)|by eapply list_elem_of_lookup_2]. }
  apply (run_tasks_spec inv fin item) in Hrun as (H1 & H2 & H3); [| |done].
  - apply raise_failures_spec; [by apply H1| |].
    + intros i Hi. apply H2. rewrite Hc. by apply Hidx.
    + intros i Hi. apply Hidx. rewrite <- Hc. auto.
  - rewrite Hc. apply Forall_lookup. intros i t H. by apply (Ht i).
Qed.

(** A batch on the native client: the items are prepared, then gathered *)
Lemma async_spec {W K B} (inv : W -> Prop) (fin : W -> K -> Prop) item sources destinations
    (completion : list (nat * M W unit) -> list (nat * M W unit)) (prepare : B -> M W (M W unit)) (items : list B) w :
  (forall ts, completion ts ≡ₚ ts) -> inv w -> length items = length sources ->
  (forall i x w r w1, items !! i = Some x -> prepare x w = (r, w1) -> keeps inv fin w w1) ->
  (forall i x w t w1, items !! i = Some x -> prepare x w = (Ok t, w1) -> task_ok inv fin item (i, t)) ->
  batch_result fin item sources destinations w
    (let '(ts, fs1, w1) := prepare_tasks prepare 0 items w in
     let '(fs2, w2) := gather completion ts w1 in
     raise_failures (map (failure sources destinations) (fs1 ++ fs2)) w2).
Proof.
  intros Hc Hinv Hlen Hkeep Hok. destruct (prepare_tasks _ _ _ _) as [[ts fs1] w1] eqn:Hp.
  apply (prepare_tasks_spec inv fin item) in Hp as (H1 & H2 & H3); [|done|done]. cbn in H3. rewrite Hlen in H3.
  destruct (H1 Hinv) as [Hinv1 Hmono1]. destruct (gather _ _ _) as [fs2 w2] eqn:Hg.
  apply (gather_spec inv fin item) in Hg as (G1 & G2 & G3); [|done|done|done].
  destruct (G1 Hinv1) as [_ Hmono2].
  apply raise_failures_spec; [auto| |]; intros i; rewrite fmap_app, elem_of_app.
  - intros Hi. destruct (proj1 (H3 i) (conj (Nat.le_0_l i) Hi)) as [Hi'|Hi']; [destruct (G2 i Hi')|]; auto.
  - intros [Hi|Hi]; [by apply H3; right|]. apply H3. left. auto.
Qed.

(** *** Downloads *)

(** What a download promises: [stored w p f] is that the local file [f] holds
    the object at the path [p].  A download that returns has stored its
    object, replaces no other file, does not harm a file that already holds
    the object, and changes no object.  A metadata request never raises the
    error of a batch. *)
Class DownloadLaws W `{!StorageBackend W} (stored : W -> string -> string -> Prop) : Prop := {
  download_stores : forall p f m w n w', be_download_file p f m w = (Ok n, w') -> stored w' p f;
  download_keeps : forall p f m w r w' p' f', be_download_file p f m w = (r, w') -> stored w p' f' ->
    (f' = f -> p' = p) -> stored w' p' f';
  download_reads : forall p f m w r w' q s, be_download_file p f m w = (r, w') ->
    be_get_object_metadata q s w' = be_get_object_metadata q s w;
  metadata_single : forall q s w fs, be_get_object_metadata q s w <> Err (BatchTransferError fs);
}.

Section Downloads.
Context {W : Type} `{HL : DownloadLaws W stored} (base_path : string).

Definition same_objects (w w' : W) : Prop := forall q s, be_get_object_metadata q s w' = be_get_object_metadata q s w.

Lemma resolve_same_objects left visited p w w' :
  same_objects w w' -> resolve_symlink_path left visited p w' = resolve_symlink_path left visited p w.
Proof using Type.
  intros H. revert visited p. induction left as [|left IH]; intros visited p; cbn; rewrite H;
    (destruct (be_get_object_metadata p true w); cbn; [|done]); (destruct (link_of _); [|done]);
    destruct (bool_decide _); [done|done|done|apply IH].
Qed.
Lemma download_source_same rp m w w' :
  same_objects w w' -> download_source base_path rp m w' = download_source base_path rp m w.
Proof using Type. intros H. unfold download_source. destruct (match m with None => _ | _ => _ end); [|done]. by apply resolve_same_objects. Qed.

(** Metadata that was just fetched leads to the same source as none. *)
Lemma fetched_source rp m w :
  be_get_object_metadata (prepend_base_path base_path rp) true w = Ok m ->
  download_source base_path rp (Some m) w = download_source base_path rp None w.
Proof using Type.
  intros H. unfold download_source. case_bool_decide as E; [done|]. cbn. rewrite H. cbn. unfold link_of.
  by rewrite E.
Qed.

Definition downloaded (w : W) (rp lp : string) (m : option ObjectMetadata) : Prop :=
  exists p, download_source base_path rp m w = Ok p /\ stored w p lp.

Lemma download_file_ok rp lp m w w' :
  download_file base_path rp lp m w = (Ok tt, w') -> downloaded w' rp lp m.
Proof using HL.
  unfold download_file. destruct (download_source base_path rp m w) as [p|e] eqn:Es; [|done].
  unfold mbind. destruct (be_download_file p lp m w) as [[n|e] w1] eqn:Ed; [|done]. intros [= <-].
  exists p. split; [|by eapply download_stores]. rewrite <- Es. apply download_source_same.
  intros q s. by eapply download_reads.
Qed.
Lemma download_file_same rp lp m w r w' : download_file base_path rp lp m w = (r, w') -> same_objects w w'.
Proof using HL.
  unfold download_file. destruct (download_source base_path rp m w) as [p|e]; [|by intros [= _ <-]].
  unfold mbind. destruct (be_download_file p lp m w) as [[n|e] w1] eqn:Ed; intros [= _ <-] q s; by eapply download_reads.
Qed.
Lemma download_file_keeps rp lp m w r w' rp' lp' m' :
  download_file base_path rp lp m w = (r, w') -> downloaded w rp' lp' m' ->
  (lp' = lp -> download_source base_path rp' m' w = download_source base_path rp m w) -> downloaded w' rp' lp' m'.
Proof using HL.
  intros Hd (p' & Hs & Hst) Hsame. exists p'. split.
  { rewrite <- Hs. apply download_source_same. by eapply download_file_same. }
  unfold download_file in Hd. destruct (download_source base_path rp m w) as [p|e] eqn:Es; [|by injection Hd as _ <-].
  assert (lp' = lp -> p' = p) as Hpp by (intros E; rewrite (Hsame E) in Hs; congruence).
  unfold mbind in Hd. destruct (be_download_file p lp m w) as [[n|e] w1] eqn:Ed; injection Hd as _ <-;
    by eapply download_keeps.
Qed.

Lemma resolve_download_metadata_spec rps ms w l :
  resolve_download_metadata base_path rps ms w = Ok l -> length ms = length rps ->
  length l = length rps /\
  forall i rp m m', rps !! i = Some rp -> ms !! i = Some m -> l !! i = Some m' ->
    download_source base_path rp (Some m') w = download_source base_path rp m w.
Proof using Type.
  revert ms l. induction rps as [|rp rps IH]; intros [|m ms] l; cbn; [by intros [= <-]|done|done|].
  intros H Hlen. injection Hlen as Hlen.
  destruct (match m with Some m => Ok m | None => _ end) as [m1|e] eqn:Em; cbn in H; [|done].
  destruct (resolve_download_metadata base_path rps ms w) as [l1|e] eqn:El; cbn in H; [|done]. injection H as <-.
  destruct (IH ms l1 El Hlen) as [H1 H2]. split; [cbn; lia|].
  intros [|i] rp' m' m'' Hrp Hm Hl; cbn in Hrp, Hm, Hl; [|by eapply H2]. simplify_eq.
  destruct m' as [m'|]; [congruence|]. by apply fetched_source.
Qed.

Lemma resolve_download_metadata_error rps ms w fs :
  resolve_download_metadata base_path rps ms w <> Err (BatchTransferError fs).
Proof using HL.
  revert ms. induction rps as [|rp rps IH]; intros [|m ms]; cbn; try done.
  destruct m as [m|]; cbn.
  - specialize (IH ms). by destruct (resolve_download_metadata _ _ ms w) as [|[]]; cbn.
  - destruct (be_get_object_metadata _ _ w) as [m|e] eqn:E; cbn; [|intros [= ->]; by eapply metadata_single].
    specialize (IH ms). by destruct (resolve_download_metadata _ _ ms w) as [|[]]; cbn.
Qed.

(** *** A batch of downloads *)
Context (completion : list (nat * M W unit) -> list (nat * M W unit)).
Context (Hcompletion : forall ts, completion ts ≡ₚ ts).
Context (remote_paths local_paths : list string) (ms : list (option ObjectMetadata)).

Definition download_item (i : nat) : string * string * option ObjectMetadata :=
  (nth i remote_paths "", nth i local_paths "", nth i ms None).
(** An item that has been downloaded, and that no item of the batch with the
    same local file can replace by something else *)
Definition download_done (w : W) (x : string * string * option ObjectMetadata) : Prop :=
  downloaded w x.1.1 x.1.2 x.2 /\
  forall i, i < length remote_paths -> nth i local_paths "" = x.1.2 -> download_item i = x.

(** Items with the same local file are the same item. *)
Definition distinct_files : Prop :=
  forall i j, i < length remote_paths -> j < length remote_paths ->
    nth i local_paths "" = nth j local_paths "" -> download_item i = download_item j.

Lemma download_task_ok w0 i m :
  distinct_files -> i < length remote_paths ->
  download_source base_path (nth i remote_paths "") (Some m) w0 =
    download_source base_path (nth i remote_paths "") (nth i ms None) w0 ->
  task_ok (same_objects w0) download_done download_item
    (i, download_file base_path (nth i remote_paths "") (nth i local_paths "") (Some m)).
Proof using HL.
  intros Hdist Hi Hsrc.
  assert (forall w, same_objects w0 w ->
    download_source base_path (nth i remote_paths "") (Some m) w =
    download_source base_path (nth i remote_paths "") (nth i ms None) w) as Hsrc'.
  { intros w Hw. by rewrite !(download_source_same _ _ _ _ Hw). }
  split; cbn.
  - intros w w' Hw Hd. split; [|intros j Hj Heq; by apply Hdist].
    pose proof (download_file_same _ _ _ _ _ _ Hd) as Hsame. apply download_file_ok in Hd as (p & Hp & Hst).
    exists p. split; [|done]. cbn. rewrite <- Hsrc'; [done|]. intros q s. by rewrite Hsame, Hw.
  - intros w r w' Hd Hw. split.
    { pose proof (download_file_same _ _ _ _ _ _ Hd) as Hsame. intros q s. by rewrite Hsame, Hw. }
    intros [[rp lp] m'] [Hdone Hx]. split; [|done]. cbn in *. eapply download_file_keeps; [exact Hd|done|].
    intros ->. specialize (Hx i Hi eq_refl). unfold download_item in Hx. injection Hx as <- <-.
    symmetry. by apply Hsrc'.
Qed.

Lemma download_files_threaded_spec l w :
  distinct_files -> length local_paths = length remote_paths -> length ms = length remote_paths ->
  resolve_download_metadata base_path remote_paths ms w = Ok l ->
  batch_result download_done download_item remote_paths local_paths w
    (download_files_threaded base_path completion remote_paths local_paths l w).
Proof using HL Hcompletion.
  intros Hdist Hlp Hms Hl. apply resolve_download_metadata_spec in Hl as [Hlen Hsrc]; [|done].
  apply (threaded_spec (same_objects w)); [done|done|rewrite !length_zip_with; lia|].
  intros i [[rp lp] m] [[E1 E2]%lookup_zip_Some E3]%lookup_zip_Some. cbn. split; [done|].
  pose proof (lookup_lt_Some _ _ _ E1) as Hi.
  destruct (lookup_lt_is_Some_2 ms i ltac:(lia)) as [m' Hm'].
  pose proof (download_task_ok w i m Hdist Hi) as Hok.
  rewrite (nth_lookup_Some _ _ _ _ E1), (nth_lookup_Some _ _ _ _ E2), (nth_lookup_Some _ _ _ _ Hm') in Hok.
  apply Hok. by eapply Hsrc.
Qed.
End Downloads.

(** *** Uploads *)

(** What an upload promises: [uploaded w f p a] is that the object at the path
    [p] holds the local file [f] with the attributes [a].  An upload that
    returns has stored its file, and touches no other object. *)
Class UploadLaws W `{!StorageBackend W} (uploaded : W -> string -> string -> option provider_attributes -> Prop) : Prop := {
  upload_stores : forall p f a w n w', be_upload_file p (PathIO f) a w = (Ok n, w') -> uploaded w' f p a;
  upload_keeps : forall p f a w r w' p' f' a', be_upload_file p (PathIO f) a w = (r, w') -> uploaded w f' p' a' ->
    (p' = p -> f' = f /\ a' = a) -> uploaded w' f' p' a';
  rust_upload_stores : forall rust p f b w n w', be_rust_upload = Some rust ->
    rust f (split_path p).2 b w = (Ok n, w') -> uploaded w' f p None;
  rust_upload_keeps : forall rust p f b w r w' p' f' a', be_rust_upload = Some rust ->
    rust f (split_path p).2 b w = (r, w') -> uploaded w f' p' a' -> (p' = p -> f' = f /\ a' = None) -> uploaded w' f' p' a';
}.

Section Uploads.
Context {W : Type} `{HL : UploadLaws W uploaded} (base_path : string).
Context (completion : list (nat * M W unit) -> list (nat * M W unit)).
Context (Hcompletion : forall ts, completion ts ≡ₚ ts).
Context (local_paths remote_paths : list string) (a : list (option attributes)).

Definition upload_item (i : nat) : string * string * option attributes :=
  (nth i local_paths "", nth i remote_paths "", nth i a None).
Definition physical (x : string * string * option attributes) : string := prepend_base_path base_path x.1.2.
Definition upload_done (w : W) (x : string * string * option attributes) : Prop :=
  uploaded w x.1.1 (physical x) (prepare_provider_attributes x.2) /\
  forall i, i < length local_paths -> physical (upload_item i) = physical x -> upload_item i = x.
(** Items with the same physical path are the same item. *)
Definition distinct_objects : Prop :=
  forall i j, i < length local_paths -> j < length local_paths ->
    physical (upload_item i) = physical (upload_item j) -> upload_item i = upload_item j.

Lemma upload_task_ok i :
  distinct_objects -> i < length local_paths ->
  task_ok (fun _ => True) upload_done upload_item
    (i, upload_file base_path (nth i remote_paths "") (PathIO (nth i local_paths "")) (nth i a None)).
Proof using HL.
  intros Hdist Hi. unfold upload_file, mbind. split; cbn.
  - intros w w' _ H. split; [|intros j Hj Heq; by apply Hdist]. cbn.
    destruct (be_upload_file _ _ _ w) as [[n|e] w1] eqn:E; [|done]. injection H as <-. by eapply upload_stores.
  - intros w r w' H _. split; [done|]. intros x [Hx1 Hx2]. split; [|done].
    destruct (be_upload_file _ _ _ w) as [q w1] eqn:E.
    assert (w1 = w') as -> by (destruct q; by injection H). eapply upload_keeps; [exact E|done|].
    intros Hp. by rewrite <- (Hx2 i Hi (eq_sym Hp)).
Qed.
Lemma upload_files_threaded_spec w :
  distinct_objects -> length remote_paths = length local_paths -> length a = length local_paths ->
  batch_result upload_done upload_item local_paths remote_paths w
    (upload_files_threaded base_path completion local_paths remote_paths a w).
Proof using HL Hcompletion.
  intros Hdist Hrp Ha. unfold upload_files_threaded.
  apply (threaded_spec (fun _ => True)); [done|done|rewrite !length_zip_with; lia|].
  intros i [[lp rp] x] [[E1 E2]%lookup_zip_Some E3]%lookup_zip_Some. cbn. split; [done|].
  pose proof (upload_task_ok i Hdist (lookup_lt_Some _ _ _ E1)) as Hok.
  by rewrite (nth_lookup_Some _ _ _ _ E1), (nth_lookup_Some _ _ _ _ E2), (nth_lookup_Some _ _ _ _ E3) in Hok.
Qed.

Lemma async_upload_task_ok rust b i :
  be_rust_upload = Some rust -> distinct_objects -> i < length local_paths -> nth i a None = None ->
  task_ok (fun _ => True) upload_done upload_item
    (i, rust (nth i local_paths "") (split_path (prepend_base_path base_path (nth i remote_paths ""))).2 b ;;; mret tt).
Proof using HL.
  intros Hr Hdist Hi Hnone. unfold mbind. split; cbn.
  - intros w w' _ H. split; [|intros j Hj Heq; by apply Hdist]. cbn. rewrite Hnone.
    destruct (rust _ _ b w) as [[n|e] w1] eqn:E; [|done]. injection H as <-.
    by eapply (rust_upload_stores rust (prepend_base_path base_path (nth i remote_paths ""))).
  - intros w r w' H _. split; [done|]. intros x [Hx1 Hx2]. split; [|done].
    destruct (rust _ _ b w) as [q w1] eqn:E.
    assert (w1 = w') as -> by (destruct q; by injection H). eapply rust_upload_keeps; [done|exact E|done|].
    intros Hp. rewrite <- (Hx2 i Hi (eq_sym Hp)). cbn. by rewrite Hnone.
Qed.
Lemma upload_files_async_spec rust w :
  be_rust_upload = Some rust -> distinct_objects -> length remote_paths = length local_paths ->
  (forall i, nth i a None = None) ->
  batch_result upload_done upload_item local_paths remote_paths w
    (upload_files_async base_path rust completion local_paths remote_paths w).
Proof using HL Hcompletion.
  intros Hr Hdist Hrp Ha. unfold upload_files_async.
  apply (async_spec (fun _ => True)); [done|done|rewrite length_zip_with; lia| |];
    unfold async_upload_task; intros i [lp rp] w1.
  - intros r w2 _. destruct (be_getsize lp w1); intros [= _ <-]; done.
  - intros t w2 [E1 E2]%lookup_zip_Some. destruct (be_getsize lp w1) as [n|e]; intros [= <- _].
    pose proof (async_upload_task_ok rust (be_multipart_threshold <? n)%Z i Hr Hdist (lookup_lt_Some _ _ _ E1) (Ha i)) as Hok.
    by rewrite (nth_lookup_Some _ _ _ _ E1), (nth_lookup_Some _ _ _ _ E2) in Hok.
Qed.
End Uploads.

Lemma nth_lookup_None_or {A} (l : list (option A)) i : (forall x, l !! i = Some x -> x = None) -> nth i l None = None.
Proof.
  intros H. destruct (l !! i) as [x|] eqn:E; [rewrite (nth_lookup_Some _ _ _ _ E); by apply H|].
  apply nth_overflow. by apply lookup_ge_None.
Qed.

(** What the checks in front of a batch leave *)
Definition batch_args_ok {A} (sources destinations : list string) (extra : option (list A)) (max_workers : Z) : Prop :=
  length destinations = length sources /\ (forall l, extra = Some l -> length l = length sources) /\ (1 <= max_workers)%Z.
Lemma batch_args_checked {A} sources destinations (extra : option (list A)) max_workers :
  batch_args_ok sources destinations extra max_workers ->
  (length sources =? length destinations)%nat = true /\
  match extra with Some l => negb (length l =? length sources)%nat | None => false end = false /\
  (max_workers <? 1)%Z = false.
Proof.
  intros (H1 & H2 & H3). split; [apply Nat.eqb_eq; lia|]. split; [|apply Z.ltb_ge; lia].
  destruct extra as [l|]; [|done]. apply negb_false_iff, Nat.eqb_eq. by apply H2.
Qed.

(** What a batch download leaves *)
Lemma download_files_result {W} `{HL : DownloadLaws W stored} (base_path : string)
    (completion : list (nat * M W unit) -> list (nat * M W unit)) (remote_paths local_paths : list string)
    (ms : option (list (option ObjectMetadata))) (max_workers : Z) (w : W)
    (Hcompletion : forall ts, completion ts ≡ₚ ts) (Hpool : be_rust_download = None)
    (Hargs : batch_args_ok remote_paths local_paths ms max_workers) :
  let metadata := default (map (fun _ => None) remote_paths) ms in
  distinct_files remote_paths local_paths metadata ->
  batch_result (download_done (stored := stored) base_path remote_paths local_paths metadata)
    (download_item remote_paths local_paths metadata) remote_paths local_paths w
    (download_files base_path completion remote_paths local_paths ms max_workers w).
Proof.
  cbn zeta. intros Hdist. unfold download_files.
  destruct (batch_args_checked _ _ _ _ Hargs) as (-> & -> & ->). cbn [negb].
  case_bool_decide as E; [subst; split; [done|intros i Hi; cbn in Hi; lia]|].
  destruct (resolve_download_metadata _ _ _ _) as [l|e] eqn:El.
  - rewrite Hpool. destruct Hargs as (H1 & H2 & _). apply download_files_threaded_spec; try done.
    destruct ms as [l'|]; cbn; [by apply H2|by rewrite length_map].
  - split; [done|]. pose proof (resolve_download_metadata_error (stored := stored) base_path remote_paths
      (default (map (fun _ => None) remote_paths) ms) w) as Hno. rewrite El in Hno. by destruct e; try destruct (Hno _ eq_refl).
Qed.

(** C15: a batch download on a thread pool reports exactly: if it returns, every
    item has been downloaded; if it raises a [BatchTransferError], each failure
    carries the index, the source and the destination of an item, and every
    item that it does not name has been downloaded; any other error means that
    nothing was started.  Downloads that had been completed stay completed. *)
Theorem download_files_spec {W} `{HL : DownloadLaws W stored} (base_path : string)
    (completion : list (nat * M W unit) -> list (nat * M W unit)) (remote_paths local_paths : list string)
    (ms : option (list (option ObjectMetadata))) (max_workers : Z) (w : W)
    (Hcompletion : forall ts, completion ts ≡ₚ ts) (Hpool : be_rust_download = None)
    (Hargs : batch_args_ok remote_paths local_paths ms max_workers) :
  let metadata := default (map (fun _ => None) remote_paths) ms in
  distinct_files remote_paths local_paths metadata ->
  batch_result (download_done (stored := stored) base_path remote_paths local_paths metadata)
    (download_item remote_paths local_paths metadata) remote_paths local_paths w
    (download_files base_path completion remote_paths local_paths ms max_workers w).
Proof. by apply download_files_result. Qed.

(** a batch upload, on a thread pool or on the native client, reports
    exactly: if it returns, every item has been uploaded with its attributes;
    if it raises a [BatchTransferError], each failure carries the index, the
    source and the destination of an item, and every item that it does not
    name has been uploaded. *)
Theorem upload_files_spec {W} `{HL : UploadLaws W uploaded} (base_path : string)
    (completion : list (nat * M W unit) -> list (nat * M W unit)) (local_paths remote_paths : list string)
    (a : option (list (option attributes))) (max_workers : Z) (w : W)
    (Hcompletion : forall ts, completion ts ≡ₚ ts)
    (Hargs : batch_args_ok local_paths remote_paths a max_workers) :
  let attributes := default (map (fun _ => None) local_paths) a in
  distinct_objects base_path local_paths remote_paths attributes ->
  batch_result (upload_done (uploaded := uploaded) base_path local_paths remote_paths attributes)
    (upload_item local_paths remote_paths attributes) local_paths remote_paths w
    (upload_files base_path completion local_paths remote_paths a max_workers w).
Proof.
  cbn zeta. intros Hdist. unfold upload_files.
  destruct (batch_args_checked _ _ _ _ Hargs) as (-> & -> & ->). cbn [negb].
  case_bool_decide as E; [subst; split; [done|intros i Hi; cbn in Hi; lia]|].
  destruct Hargs as (H1 & H2 & _).
  assert (length (default (map (fun _ => None) local_paths) a) = length local_paths) as Hlen.
  { destruct a as [l|]; cbn; [by apply H2|by rewrite length_map]. }
  pose proof (upload_files_threaded_spec (uploaded := uploaded) base_path completion Hcompletion local_paths remote_paths
    (default (map (fun _ => None) local_paths) a) w Hdist H1 Hlen) as Hpool.
  destruct be_rust_upload as [rust|] eqn:Er; [|done].
  destruct (match a with Some l => existsb _ l | None => false end) eqn:Ea; [done|].
  apply upload_files_async_spec; [done|done|done|done|].
  intros i. apply nth_lookup_None_or. intros x Hx. destruct a as [l|]; cbn in Hx.
  - destruct x as [x|]; [|done]. apply list_elem_of_lookup_2 in Hx. exfalso.
    assert (existsb (fun x => match x with Some _ => true | None => false end) l = true) as Ht; [|congruence].
    apply existsb_exists. exists (Some x). split; [by apply list_elem_of_In|done].
  - apply list_elem_of_lookup_2, list_elem_of_fmap in Hx as (y & -> & _). done.
Qed.

(** ** The store in memory *)
Section Mem.
#[local] Instance mem_store : StorageBackend mem := mem_backend None.

Definition mem_stored (w : mem) (p f : string) : Prop := exists o, objects w !! p = Some o /\ disk w !! f = Some (data o).
Definition mem_uploaded (w : mem) (f p : string) (a : option provider_attributes) : Prop :=
  exists d, disk w !! f = Some d /\ objects w !! p = Some (mkObject d None a).

#[local] Instance mem_DownloadLaws : DownloadLaws mem mem_stored.
Proof.
  split; cbn; unfold mem_download, mem_metadata.
  - intros p f m w n w'. destruct (objects w !! p) as [o|] eqn:E; [|done]. intros [= _ <-]. exists o.
    cbn. by rewrite lookup_insert_eq.
  - intros p f m w r w' p' f'. destruct (objects w !! p) as [o|] eqn:E; [|by intros [= _ <-]].
    intros [= _ <-] (o' & H1 & H2) Hsame. exists o'. split; [done|]. cbn.
    destruct (decide (f' = f)) as [->|Hne]; [|by rewrite lookup_insert_ne].
    rewrite lookup_insert_eq. rewrite (Hsame eq_refl) in H1. congruence.
  - intros p f m w r w' q s. by destruct (objects w !! p); intros [= _ <-].
  - intros q s w fs. by destruct (objects w !! q).
Qed.
#[local] Instance mem_UploadLaws : UploadLaws mem mem_uploaded.
Proof.
  split; cbn; [| |done|done].
  - intros p f a w n w'. destruct (disk w !! f) as [d|] eqn:E; [|done]. intros [= _ <-]. exists d.
    cbn. by rewrite lookup_insert_eq.
  - intros p f a w r w' p' f' a'. destruct (disk w !! f) as [d|] eqn:E; [|by intros [= _ <-]].
    intros [= _ <-] (d' & H1 & H2) Hsame. exists d'. split; [done|]. cbn.
    destruct (decide (p' = p)) as [->|Hne]; [|by rewrite lookup_insert_ne].
    destruct (Hsame eq_refl) as [-> ->]. rewrite lookup_insert_eq. congruence.
Qed.

Definition two_objects : mem := mem_put [("b/x", mkObject [x61] None None); ("b/l", mkObject [] (Some "x") None)].

(** The second of three downloads fails; the third follows a symlink. *)
Lemma download_files_spec_witness :
  exists fs w', download_files "b" (@rev _) ["x"; "none"; "l"] ["/x"; "/n"; "/l"] (Some [None; Some (example_object "b/none"); None]) 4
                  two_objects = (Err (BatchTransferError fs), w') /\
    map failure_index fs = [1%Z] /\ disk w' !! "/l" = Some [x61].
Proof.
  pose proof (download_files_spec (stored := mem_stored) "b" (@rev _) ["x"; "none"; "l"] ["/x"; "/n"; "/l"]
    (Some [None; Some (example_object "b/none"); None]) 4 two_objects) as H. cbn zeta in H.
  destruct (download_files "b" (@rev _) ["x"; "none"; "l"] ["/x"; "/n"; "/l"] (Some [None; Some (example_object "b/none"); None]) 4
    two_objects) as [r w'] eqn:E.
  specialize (H ltac:(intros ts; by rewrite <- Permutation_rev) eq_refl).
  destruct H as [_ H].
  { split; [done|]. split; [by intros l [= <-]|lia]. }
  { intros i j Hi Hj. destruct i as [|[|[|i]]], j as [|[|[|j]]]; cbn in *; try lia; try done. }
  vm_compute in E. injection E as <- <-. destruct H as (_ & _ & H).
  eexists _, _. split; [reflexivity|]. split; vm_compute; reflexivity.
Defined.

Lemma upload_files_spec_witness :
  exists fs w', upload_files "b" (@rev _) ["/f"; "/none"] ["y"; "z"] None 4 (mkMem ∅ {["/f" := [x61]]})
                  = (Err (BatchTransferError fs), w') /\
    map failure_index fs = [1%Z] /\ objects w' !! "b/y" = Some (mkObject [x61] None None).
Proof.
  pose proof (upload_files_spec (uploaded := mem_uploaded) "b" (@rev _) ["/f"; "/none"] ["y"; "z"] None 4
    (mkMem ∅ {["/f" := [x61]]})) as H. cbn zeta in H.
  destruct (upload_files "b" (@rev _) ["/f"; "/none"] ["y"; "z"] None 4 (mkMem ∅ {["/f" := [x61]]})) as [r w'] eqn:E.
  specialize (H ltac:(intros ts; by rewrite <- Permutation_rev)).
  destruct H as [_ H].
  { split; [done|]. split; [by intros l [=]|lia]. }
  { intros i j Hi Hj. destruct i as [|[|i]], j as [|[|j]]; cbn in *; try lia; try done. }
  vm_compute in E. injection E as <- <-. destruct H as (_ & _ & H).
  eexists _, _. split; [reflexivity|]. split; vm_compute; reflexivity.
Defined.
End Mem.

(** The native client does not follow symlinks: downloaded alone, [l] gives
    the data of [x] that it points to; in a batch it gives an empty file. *)
Theorem native_batch_ignores_symlinks (backend := mem_backend (Some "b")) :
  disk (download_file "b" "l" "/f" None two_objects).2 !! "/f" = Some [x61] /\
  (download_files "b" (fun ts => ts) ["l"] ["/f"] None 4 two_objects).1 = Ok tt /\
  disk (download_files "b" (fun ts => ts) ["l"] ["/f"] None 4 two_objects).2 !! "/f" = Some [].
Proof. vm_compute. auto. Qed.
