(* ===== verification/PosixFs.v ===== *)
(** * A POSIX file system

    The calls of [os], [os.path], [tempfile] and [xattr] that
    [providers/posix_file.py] makes, on a file system of regular files,
    directories and symbolic links.  A node is named by the list of the
    components of its real path; a path is walked component by component and
    symbolic links are followed, at most forty of them as on Linux.  Every
    access is permitted.  All calls of one operation see the same state. *)
From S2P Require Import Prelude PyPath Types Utils.

Inductive node :=
  | NFile (content : bytes) (xattr : gmap string string) (mtime : Z)
  | NDir (mtime : Z)
  | NLink (target : string).

Record posix := mkPosix {
  nodes : gmap (list string) node;
  cwd : list string;
  clock : Z;
  xattr_works : bool;
}.
Definition with_nodes (n : gmap (list string) node) (w : posix) : posix :=
  mkPosix n (cwd w) (clock w) (xattr_works w).

(** ** Walking a path *)
Definition names (p : string) : list string := filter (fun c => c <> "" /\ c <> ".") (split slash p).
Definition node_at (w : posix) (cs : list string) : option node :=
  match cs with [] => Some (NDir 0) | _ => nodes w !! cs end.
Definition MAX_LINKS : nat := 40.

(** The real path that [todo] leads to from [cur]; its last component need not
    exist.  A final symlink is followed if [follow]. *)
Fixpoint walk (w : posix) (follow : bool) (links : nat) : list string -> list string -> res (list string) :=
  fix go (cur todo : list string) {struct todo} : res (list string) :=
    match todo with
    | [] => Ok cur
    | c :: rest =>
        if bool_decide (c = "..") then go (removelast cur) rest
        else
          let next := cur ++ [c] in
          match node_at w next with
          | Some (NLink t) =>
              if negb follow && bool_decide (rest = []) then Ok next
              else match links with
                   | 0 => Err OSError
                   | S links' => walk w follow links' (if isabs t then [] else cur) (names t ++ rest)
                   end
          | Some (NDir _) => go next rest
          | Some (NFile _ _ _) => if bool_decide (rest = []) then Ok next else Err OSError
          | None => if bool_decide (rest = []) then Ok next else Err FileNotFoundError
          end
    end.

(** A path with a trailing slash names what a final link points to, which must
    be a directory. *)
Definition locate (w : posix) (follow : bool) (p : string) : res (list string) :=
  if bool_decide (p = "") then Err FileNotFoundError
  else walk w (follow || ends_slash p) MAX_LINKS (if isabs p then [] else cwd w) (names p).
Definition found (w : posix) (follow : bool) (p : string) : res (list string * node) :=
  res_bind (locate w follow p) (fun cs =>
  match node_at w cs with
  | Some (NDir t) => Ok (cs, NDir t)
  | Some n => if ends_slash p then Err OSError else Ok (cs, n)
  | None => Err FileNotFoundError
  end).

(** ** Queries *)
Definition os_stat (w : posix) (p : string) : res node := res_bind (found w true p) (fun x => Ok x.2).
Definition os_lstat (w : posix) (p : string) : res node := res_bind (found w false p) (fun x => Ok x.2).
Definition os_exists (w : posix) (p : string) : bool := is_ok (os_stat w p).
Definition os_lexists (w : posix) (p : string) : bool := is_ok (os_lstat w p).
Definition os_isfile (w : posix) (p : string) : bool := match os_stat w p with Ok (NFile _ _ _) => true | _ => false end.
Definition os_isdir (w : posix) (p : string) : bool := match os_stat w p with Ok (NDir _) => true | _ => false end.
Definition os_islink (w : posix) (p : string) : bool := match os_lstat w p with Ok (NLink _) => true | _ => false end.
Definition os_readlink (w : posix) (p : string) : res string :=
  res_bind (os_lstat w p) (fun n => match n with NLink t => Ok t | _ => Err OSError end).
Definition os_getmtime (w : posix) (p : string) : res Z :=
  res_bind (os_stat w p) (fun n => Ok match n with NFile _ _ t | NDir t => t | NLink _ => 0%Z end).
Definition os_size (w : posix) (p : string) : res Z :=
  res_bind (os_stat w p) (fun n => Ok match n with NFile d _ _ => Z.of_nat (length d) | _ => 0%Z end).
(** [os.path.realpath] of a path whose links all resolve *)
Definition os_realpath (w : posix) (p : string) : res string :=
  res_bind (locate w true p) (fun cs => Ok ("/" +:+ join "/" cs)).
(** The whole content of a file opened for reading *)
Definition os_open_read (w : posix) (p : string) : res bytes :=
  res_bind (os_stat w p) (fun n => match n with NFile d _ _ => Ok d | _ => Err OSError end).
Definition os_getxattr (w : posix) (p k : string) : res string :=
  if negb (xattr_works w) then Err OSError
  else res_bind (os_stat w p) (fun n =>
    match n with
    | NFile _ x _ => match x !! k with Some v => Ok v | None => Err OSError end
    | _ => Err OSError
    end).

(** The name of a node in the directory [d] *)
Definition child_name (d : list string) (cs : list string) : option string :=
  match last cs with
  | Some c => if bool_decide (cs = d ++ [c]) then Some c else None
  | None => None
  end.
Definition children (w : posix) (d : list string) : list string := omap (child_name d) (map_to_list (nodes w)).*1.
Definition os_listdir (w : posix) (p : string) : res (list string) :=
  res_bind (found w true p) (fun '(d, n) => match n with NDir _ => Ok (children w d) | _ => Err OSError end).

(** ** Changes *)
Definition put_node (cs : list string) (n : node) (w : posix) : posix := with_nodes (<[cs := n]> (nodes w)) w.

Definition os_mkdir (p : string) : M posix unit := fun w =>
  match locate w false p with
  | Err e => (Err e, w)
  | Ok cs => match node_at w cs with
             | Some _ => (Err FileExistsError, w)
             | None => (Ok tt, put_node cs (NDir (clock w)) w)
             end
  end.
(** [os.makedirs(p, exist_ok=True)]: the directories on the way to [p] that do
    not exist, then [p] *)
Fixpoint make_dirs (prefix : string) (cs : list string) : M posix unit :=
  match cs with
  | [] => mret tt
  | c :: cs' =>
      let p := prefix +:+ c in
      (fun w => if os_isdir w p then (Ok tt, w) else os_mkdir p w) ;;; make_dirs (p +:+ "/") cs'
  end.
Definition os_makedirs (p : string) : M posix unit :=
  if bool_decide (p = "") then mraise FileNotFoundError
  else make_dirs (if isabs p then "/" else "") (names p).
(** [safe_makedirs]: a second call of [os.makedirs] ends as the first one *)
Definition posix_makedirs (p : string) : M posix unit := fun w =>
  let '(r, w') := os_makedirs p w in (safe_makedirs (fun _ => r) true, w').

Definition os_remove (p : string) : M posix unit := fun w =>
  match found w false p with
  | Err e => (Err e, w)
  | Ok (_, NDir _) => (Err OSError, w)
  | Ok (cs, _) => (Ok tt, with_nodes (delete cs (nodes w)) w)
  end.
Definition os_symlink (target p : string) : M posix unit := fun w =>
  match locate w false p with
  | Err e => (Err e, w)
  | Ok cs => match node_at w cs with
             | Some _ => (Err FileExistsError, w)
             | None => (Ok tt, put_node cs (NLink target) w)
             end
  end.
(** [os.rename] of the file at the real path [src] *)
Definition os_rename (src : list string) (dst : string) : M posix unit := fun w =>
  match nodes w !! src, locate w false dst with
  | None, _ => (Err FileNotFoundError, w)
  | _, Err e => (Err e, w)
  | Some n, Ok cs =>
      match node_at w cs with
      | Some (NDir _) => (Err OSError, w)
      | _ => (Ok tt, put_node cs n (with_nodes (delete src (nodes w)) w))
      end
  end.
(** [shutil.rmtree] *)
Definition os_rmtree (p : string) : M posix unit := fun w =>
  match found w false p with
  | Err e => (Err e, w)
  | Ok (cs, NDir _) => (Ok tt, with_nodes (filter (fun kn => ~ cs `prefix_of` kn.1) (nodes w)) w)
  | Ok _ => (Err OSError, w)
  end.

(** The name of a temporary file in the directory [d]: the first candidate
    that does not exist *)
Definition temp_candidate (n : nat) : string := ".tmp" +:+ pretty n.
Definition temp_name (w : posix) (d : list string) : string :=
  temp_candidate (default 0 (list_find (fun n => nodes w !! (d ++ [temp_candidate n]) = None)
    (seq 0 (S (base.size (nodes w)))) ≫= fun x => Some x.2)).
(** [tempfile.NamedTemporaryFile(delete=False, dir=...)]: the real path of a
    new empty file *)
Definition make_temp (dir : string) : M posix (list string) := fun w =>
  match (if bool_decide (dir = "") then Ok (cwd w, NDir 0) else found w true dir) with
  | Err e => (Err e, w)
  | Ok (d, NDir _) =>
      let cs := d ++ [temp_name w d] in (Ok cs, put_node cs (NFile [] ∅ (clock w)) w)
  | Ok _ => (Err OSError, w)
  end.
