(* ===== verification/PosixFile.v ===== *)
(** * The POSIX provider ([providers/posix_file.py])

    [atomic_write] and the methods of [PosixFileStorageProvider] on the file
    system of [PosixFs], and the provider as an instance of
    [StorageBackend]. *)
From S2P Require Import Prelude PyPath Types Utils Json Listing Provider PosixFs.

(** ** Definitions *)
Definition READ_CHUNK_SIZE : nat := 8192.
Inductive EntryType := FILE | DIRECTORY | DIRECTORY_TO_EXPLORE | SYMLINK.

(** [while chunk := source.read(READ_CHUNK_SIZE): fp.write(chunk)] with
    [written] so far; every iteration reads at least one byte *)
Fixpoint copy_chunks (fuel : nat) (source written : bytes) : bytes :=
  match fuel with
  | 0 => written
  | S fuel' =>
      match take READ_CHUNK_SIZE source with
      | [] => written
      | chunk => copy_chunks fuel' (drop READ_CHUNK_SIZE source) (written ++ chunk)
      end
  end.
Definition copy_data (source : bytes) : bytes := copy_chunks (S (length source)) source [].

Definition read_source (source : io) (w : posix) : res bytes :=
  match source with PathIO p => os_open_read w p | BytesIO b => Ok b end.

(** The attributes on the temporary file; a failure to set them is logged *)
Definition set_attributes (cs : list string) (a : option attributes) : M posix unit := fun w =>
  match a, nodes w !! cs with
  | Some a, Some (NFile d x t) =>
      if xattr_works w
      then (Ok tt, put_node cs (NFile d (<["user.json" := dumps (JDict (map_to_list a))]> x) t) w)
      else (Ok tt, w)
  | _, _ => (Ok tt, w)
  end.

Definition atomic_write (source : io) (destination : string) (a : option attributes) : M posix unit :=
  let! temp := make_temp (dirname destination) in
  (fun w => match read_source source w with
            | Err e => (Err e, w)
            | Ok b => (Ok tt, put_node temp (NFile (copy_data b) ∅ (clock w)) w)
            end) ;;;
  let! validated := mlift (validate_attributes a) in
  set_attributes temp validated ;;;
  os_rename temp destination.

(** [_translate_errors] *)
Definition translate {A} (m : M posix A) : M posix A := fun w =>
  match m w with
  | (Err FileNotFoundError, w') => (Err FileNotFoundError, w')
  | (Err _, w') => (Err RuntimeError, w')
  | r => r
  end.
Definition translate_res {A} (r : res A) : res A :=
  match r with Err FileNotFoundError => Err FileNotFoundError | Err _ => Err RuntimeError | _ => r end.

(** [__init__] *)
Definition posix_base_path (base_path : string) : res string :=
  let b := if bool_decide (base_path = "") then "/" else base_path in
  if startswith b "/" then Ok b else Err ValueError.

Section Posix.
Context (base_path : string) (recursion_limit : nat).

Definition posix_put_object (path : string) (body : bytes) (if_match if_none_match : option string)
    (a : option provider_attributes) : M posix Z :=
  translate (posix_makedirs (dirname path) ;;;
             atomic_write (BytesIO body) path (string_attributes a) ;;;
             mret (Z.of_nat (length body))).

(** [f.seek(offset)] and [f.read(size)]; a negative size reads to the end *)
Definition posix_get_object (path : string) (byte_range : option Range) (w : posix) : res bytes :=
  translate_res (res_bind (os_open_read w path) (fun d =>
    match byte_range with
    | None => Ok d
    | Some r =>
        if (offset r <? 0)%Z then Err OSError
        else if (size r <? 0)%Z then Ok (drop (Z.to_nat (offset r)) d)
        else Ok (slice d (offset r) (size r))
    end)).

Definition cwd_path (w : posix) : string := "/" +:+ join "/" (cwd w).

(** The attributes of a file; any failure to read them is logged *)
Definition read_attributes (path : string) (w : posix) : option attributes :=
  match os_getxattr w path "user.json" with
  | Ok s => match loads s with
            | Some (JDict ((_ :: _) as d)) => Some (list_to_map d)
            | _ => None
            end
  | Err _ => None
  end.
Definition posix_symlink_target (path : string) (w : posix) : res (option string) :=
  if os_islink w path then
    res_bind (os_readlink w path) (fun raw =>
    if isabs raw then res_bind (encode_symlink_target (cwd_path w) path raw) (fun t => Ok (Some t)) else Ok (Some raw))
  else Ok None.
Definition posix_get_object_metadata (path : string) (strict : bool) (w : posix) : res ObjectMetadata :=
  let is_dir := os_isdir w path in
  let path := if is_dir then append_delimiter path else path in
  translate_res (
    res_bind (posix_symlink_target path w) (fun link =>
    res_bind (if is_dir then Ok 0%Z else os_size w path) (fun n =>
    res_bind (os_getmtime w path) (fun t =>
    Ok (mkObjectMetadata path n t (if is_dir then "directory" else "file") None None None
          (read_attributes path w) link))))).

Definition posix_copy_object (src_path dest_path : string) : M posix Z := fun w =>
  match posix_get_object_metadata src_path true w with
  | Err e => (Err e, w)
  | Ok m => translate (posix_makedirs (dirname dest_path) ;;;
                       atomic_write (PathIO src_path) dest_path (metadata m) ;;;
                       mret (content_length m)) w
  end.

Definition posix_delete_object (path : string) (if_match : option string) : M posix unit :=
  translate (fun w => if os_exists w path && os_isfile w path then os_remove path w else (Ok tt, w)).

Definition posix_make_symlink (path target : string) : M posix unit :=
  translate (
    posix_makedirs (dirname path) ;;;
    (fun w => match encode_symlink_target (cwd_path w) path target with
              | Err e => (Err e, w)
              | Ok t =>
                  ((fun w => if os_lexists w path then os_remove path w else (Ok tt, w)) ;;;
                   os_symlink t path) w
              end)).

(** *** Listing *)
Definition relative (w : posix) (p : string) : res string := relpath (cwd_path w) p base_path.

Record entry := mkEntry { relative_path : string; full_path : string; entry_type : EntryType; link_info : string * string }.

Definition in_bounds (start_after end_at : option string) (k : string) : bool :=
  match start_after with None => true | Some s => str_ltb s k end &&
  match end_at with None => true | Some e => str_leb k e end.

(** A symlink under [PRESERVE]: it must resolve, inside the base path *)
Definition preserved_link (w : posix) (start_after end_at : option string) (full : string) : res (list entry) :=
  res_bind (relative w full) (fun rel =>
  match os_realpath w full with
  | Err _ => Err FileNotFoundError
  | Ok real =>
      if negb (os_exists w real) then Err FileNotFoundError
      else match relative w real with
           | Err _ => Err ValueError
           | Ok target_key =>
               if startswith target_key ".." then Err ValueError
               else
                 res_bind (os_readlink w full) (fun raw =>
                 res_bind (encode_symlink_target (cwd_path w) full
                   (if isabs raw then raw else normpath (path_join (dirname full) raw))) (fun t =>
                 Ok (if in_bounds start_after end_at rel
                     then [mkEntry rel full SYMLINK (t, if os_isdir w full then "directory" else "file")]
                     else [])))
           end
  end).

(** One iteration of the loop over the names of a directory *)
Definition scan_entry (w : posix) (start_after end_at : option string) (include_directories : bool)
    (symlink_handling : SymlinkHandling) (full : string) : res (list entry) :=
  let visit :=
    res_bind (relative w full) (fun rel =>
    Ok (if in_bounds start_after end_at rel then
          if os_isfile w full then [mkEntry rel full FILE ("", "")]
          else if os_isdir w full
          then [mkEntry rel full (if include_directories then DIRECTORY else DIRECTORY_TO_EXPLORE) ("", "")]
          else []
        else [])) in
  if os_islink w full then
    match symlink_handling with
    | SKIP => Ok []
    | PRESERVE => preserved_link w start_after end_at full
    | FOLLOW =>
        match os_realpath w full with
        | Ok real => if os_exists w real then visit else Err FileNotFoundError
        | Err _ => Err FileNotFoundError
        end
    end
  else visit.
Fixpoint scan (w : posix) (start_after end_at : option string) (include_directories : bool)
    (symlink_handling : SymlinkHandling) (dir_path : string) (names : list string) : res (list entry) :=
  match names with
  | [] => Ok []
  | n :: ns =>
      res_bind (scan_entry w start_after end_at include_directories symlink_handling (path_join dir_path n)) (fun es =>
      res_bind (scan w start_after end_at include_directories symlink_handling dir_path ns) (fun es' => Ok (es ++ es')))
  end.

Definition sort_key (e : entry) : string :=
  match entry_type e with
  | DIRECTORY | DIRECTORY_TO_EXPLORE => relative_path e +:+ "/"
  | _ => relative_path e
  end.

(** What the handlers of [_explore_directory] do with an exception: only an
    [OSError] other than [FileNotFoundError] ends the listing quietly *)
Definition listing_error (e : exc) : listing :=
  match e with
  | FileNotFoundError => mkListing [] (Some FileNotFoundError)
  | _ => if is_OSError e then mkListing [] None else mkListing [] (Some e)
  end.

(** The object an entry stands for; a directory to explore is left to the
    recursion *)
Definition emit_entry (w : posix) (e : entry) : res ObjectMetadata :=
  match entry_type e with
  | FILE =>
      res_bind (os_size w (full_path e)) (fun n =>
      res_bind (os_getmtime w (full_path e)) (fun t => Ok (new_ObjectMetadata (relative_path e) n t)))
  | SYMLINK =>
      res_bind (os_getmtime w (full_path e)) (fun t =>
      Ok (mkObjectMetadata (relative_path e) 0 t (link_info e).2 None None None None (Some (link_info e).1)))
  | _ => Ok (mkObjectMetadata (relative_path e) 0 AWARE_DATETIME_MIN "directory" None None None None None)
  end.

(** The second loop, with [explore] for the subdirectories: the rest is not
    produced once a subdirectory raised *)
Fixpoint emit (explore : string -> listing) (w : posix) (es : list entry) : listing :=
  match es with
  | [] => mkListing [] None
  | e :: es' =>
      match entry_type e with
      | DIRECTORY_TO_EXPLORE =>
          let l := explore (full_path e) in
          match raised l with
          | Some x => mkListing (yielded l) (Some x)
          | None => yield_all (yielded l) (emit explore w es')
          end
      | _ =>
          match emit_entry w e with
          | Ok o => yield o (emit explore w es')
          | Err x => listing_error x
          end
      end
  end.

(** [_explore_directory]; nesting beyond the limit is a [RecursionError], which
    is a [RuntimeError] *)
Fixpoint explore_directory (depth : nat) (w : posix) (start_after end_at : option string)
    (include_directories : bool) (symlink_handling : SymlinkHandling) (dir_path : string) : listing :=
  match depth with
  | 0 => mkListing [] (Some RuntimeError)
  | S depth' =>
      match res_bind (os_listdir w dir_path) (fun ns =>
              scan w start_after end_at include_directories symlink_handling dir_path (sorted_str ns)) with
      | Err e => listing_error e
      | Ok entries =>
          emit (explore_directory depth' w start_after end_at include_directories symlink_handling) w
            (sort_by (fun a b => str_leb (sort_key a) (sort_key b)) entries)
      end
  end.

(** [_list_objects]: the path itself if it is a file, then its directory *)
Definition relative_opt (w : posix) (p : option string) : res (option string) :=
  match truthy p with None => Ok None | Some s => res_bind (relative w s) (fun r => Ok (Some r)) end.
Definition posix_list_objects (path : string) (start_after end_at : option string) (include_directories : bool)
    (symlink_handling : SymlinkHandling) (w : posix) : listing :=
  match relative_opt w start_after, relative_opt w end_at with
  | Ok s, Ok e =>
      let self :=
        if os_isfile w path then
          res_bind (relative w path) (fun k =>
          res_bind (os_size w path) (fun n =>
          res_bind (os_getmtime w path) (fun t => Ok [new_ObjectMetadata k n t])))
        else Ok [] in
      match self with
      | Err x => mkListing [] (Some x)
      | Ok os =>
          let dir_path := rstrip slash path +:+ "/" in
          yield_all os
            (if os_isdir w dir_path
             then explore_directory recursion_limit w s e include_directories symlink_handling dir_path
             else mkListing [] None)
      end
  | Err x, _ | _, Err x => mkListing [] (Some x)
  end.

(** [_shallow_list] *)
Definition shallow_item (path : string) (item : ObjectMetadata) (r : shallow_result) : shallow_result :=
  let full_key := prepend_base_path base_path (key item) in
  if bool_decide (type item = "directory") && bool_decide (symlink_target item = None) then
    if bool_decide (full_key +:+ "/" = rstrip slash path +:+ "/") then r else ((full_key +:+ "/") :: r.1, r.2)
  else (r.1, with_key full_key item :: r.2).
Definition posix_shallow_list (path : string) (symlink_handling : SymlinkHandling) (w : posix) : res shallow_result :=
  let l := posix_list_objects path None None true symlink_handling w in
  match raised l with
  | Some e => Err e
  | None => Ok (foldr (shallow_item path) ([], []) (yielded l))
  end.

(** *** Transfers *)
Definition posix_upload_file (remote_path : string) (f : io) (a : option provider_attributes) : M posix Z :=
  posix_makedirs (dirname remote_path) ;;;
  (fun w =>
   match (match f with PathIO p => os_size w p | BytesIO b => Ok (Z.of_nat (length b)) end) with
   | Err e => (Err e, w)
   | Ok n => translate (atomic_write f remote_path (string_attributes a) ;;; mret n) w
   end).

Definition download_size (remote_path : string) (m : option ObjectMetadata) (w : posix) : res Z :=
  match m with Some m => Ok (content_length m) | None => os_size w remote_path end.
Definition posix_download_file (remote_path f : string) (m : option ObjectMetadata) : M posix Z := fun w =>
  match download_size remote_path m w with
  | Err e => (Err e, w)
  | Ok n =>
      translate ((if bool_decide (dirname f = "") then mret tt else posix_makedirs (dirname f)) ;;;
                 atomic_write (PathIO remote_path) f None ;;;
                 mret n) w
  end.
(** To a binary file object *)
Definition posix_download_buffer (remote_path : string) (m : option ObjectMetadata) (w : posix) : bytes * res Z :=
  match download_size remote_path m w with
  | Err e => ([], Err e)
  | Ok n => match os_open_read w remote_path with
            | Err e => ([], translate_res (Err e))
            | Ok d => (copy_data d, Ok n)
            end
  end.

(** *** The methods that the provider overrides *)

(** [glob]; [glob_glob] is [glob.glob(..., recursive=True)] *)
Fixpoint replace1 (old s : string) : string :=
  if startswith s old then str_drop (String.length old) s
  else match s with String c s' => String c (replace1 old s') | EmptyString => EmptyString end.
Fixpoint posix_glob_filter (evaluator : attributes -> res bool) (w : posix) (keys : list string) : res (list string) :=
  match keys with
  | [] => Ok []
  | k :: ks =>
      res_bind (posix_get_object_metadata k true w) (fun m =>
      res_bind (matches_attribute_filter_expression m (Some evaluator)) (fun ok =>
      res_bind (posix_glob_filter evaluator w ks) (fun r => Ok (if ok : bool then k :: r else r))))
  end.
Definition posix_glob (glob_glob : string -> posix -> list string) (compile : string -> res (attributes -> res bool))
    (pattern : string) (filter_expression : option string) (w : posix) : res (list string) :=
  let keys := glob_glob (prepend_base_path base_path pattern) w in
  res_bind (match truthy filter_expression with
            | Some x => res_bind (compile x) (fun ev => posix_glob_filter ev w keys)
            | None => Ok keys
            end) (fun keys =>
  Ok (if bool_decide (base_path = "/") then keys else map (fun k => lstrip slash (replace1 base_path k)) keys)).
Definition posix_is_file (path : string) (w : posix) : bool := os_isfile w (prepend_base_path base_path path).
Definition posix_rmtree (path : string) : M posix unit := os_rmtree (prepend_base_path base_path path).

(** The provider as a backend of the base class *)
#[global] Instance posix_backend : StorageBackend posix := {|
  be_put_object := posix_put_object;
  be_get_object := posix_get_object;
  be_copy_object := posix_copy_object;
  be_delete_object := posix_delete_object;
  be_make_symlink := posix_make_symlink;
  be_get_object_metadata := posix_get_object_metadata;
  be_list_objects := posix_list_objects;
  be_shallow_list := posix_shallow_list;
  be_upload_file := posix_upload_file;
  be_download_file := posix_download_file;
  be_download_buffer := posix_download_buffer;
  be_supports_parallel_listing := true;
  be_makedirs := posix_makedirs;
  be_getsize := fun p w => os_size w p;
  be_rust_download := None;
  be_rust_upload := None;
  be_delete_objects := None;
  be_multipart_threshold := DEFAULT_MULTIPART_THRESHOLD;
|}.
End Posix.
