(* ===== verification/PosixProofs.v ===== *)
(** * Properties of the POSIX provider

    Writes are atomic, an object written is the object read, and the recursive
    listing of a directory tree is complete and sorted. *)
From S2P Require Import Prelude PyPath Types Utils Json Listing ListingProofs Provider ProviderProofs PosixFs PosixFile.

(** ** Walking *)
Lemma walk_nil w f l cur : walk w f l cur [] = Ok cur.
Proof. by destruct l. Qed.
Lemma walk_cons w f l cur c rest :
  walk w f l cur (c :: rest) =
  if bool_decide (c = "..") then walk w f l (removelast cur) rest
  else
    match node_at w (cur ++ [c]) with
    | Some (NLink t) =>
        if negb f && bool_decide (rest = []) then Ok (cur ++ [c])
        else match l with
             | 0 => Err OSError
             | S l' => walk w f l' (if isabs t then [] else cur) (names t ++ rest)
             end
    | Some (NDir _) => walk w f l (cur ++ [c]) rest
    | Some (NFile _ _ _) => if bool_decide (rest = []) then Ok (cur ++ [c]) else Err OSError
    | None => if bool_decide (rest = []) then Ok (cur ++ [c]) else Err FileNotFoundError
    end.
Proof. by destruct l. Qed.

Lemma node_at_put w t n cs : t <> [] -> node_at (put_node t n w) cs = if decide (cs = t) then Some n else node_at w cs.
Proof.
  intros Ht. destruct cs as [|c cs]; cbn; [by rewrite decide_False by congruence|].
  case_decide as E; [subst; by rewrite lookup_insert_eq|by rewrite lookup_insert_ne by congruence].
Qed.

(** A new file changes no other path. *)
Lemma walk_new_file w t d x m f l cur todo cs :
  t <> [] -> nodes w !! t = None ->
  walk (put_node t (NFile d x m) w) f l cur todo = Ok cs <-> walk w f l cur todo = Ok cs.
Proof.
  intros Ht Hnew. revert cur todo. induction l as [|l IHl].
  all: intros cur todo; revert cur; induction todo as [|c rest IH]; intros cur; [by rewrite !walk_nil|].
  all: rewrite !walk_cons; destruct (bool_decide (c = "..")); [apply IH|].
  all: rewrite node_at_put by done; case_decide as E;
    [rewrite E; destruct t; [done|]; cbn [node_at]; rewrite Hnew; by destruct (bool_decide _)|].
  all: destruct (node_at w (cur ++ [c])) as [[]|]; [done|apply IH| |done].
  all: destruct (negb f && _); [done|].
  - done.
  - apply IHl.
Qed.
Lemma locate_new_file w t d x m f p cs :
  t <> [] -> nodes w !! t = None ->
  locate (put_node t (NFile d x m) w) f p = Ok cs <-> locate w f p = Ok cs.
Proof. intros Ht Hnew. unfold locate. destruct (bool_decide (p = "")); [done|]. by apply walk_new_file. Qed.

(** The candidate names of temporary files are distinct, so one is free. *)
Lemma temp_candidate_inj n m : temp_candidate n = temp_candidate m -> n = m.
Proof. intros H. by apply str_app_inj_l, pretty_nat_inj in H. Qed.
Lemma temp_name_fresh w d : nodes w !! (d ++ [temp_name w d]) = None.
Proof.
  unfold temp_name.
  destruct (list_find (fun n => nodes w !! (d ++ [temp_candidate n]) = None) (seq 0 (S (base.size (nodes w)))))
    as [[i n]|] eqn:E; cbn [mbind default].
  { cbn. by apply list_find_Some in E as (_ & Hn & _). }
  exfalso. apply list_find_None in E. rewrite Forall_forall in E.
  set (ps := (fun n => d ++ [temp_candidate n]) <$> seq 0 (S (base.size (nodes w)))).
  assert (NoDup ps) as Hnd.
  { apply NoDup_fmap_2, NoDup_seq. intros n m H. apply app_inj_2 in H as [_ H]; [|done].
    by apply temp_candidate_inj; congruence. }
  assert (list_to_set ps ⊆ dom (nodes w)) as Hsub.
  { intros q Hq. apply elem_of_list_to_set, list_elem_of_fmap in Hq as (n & -> & Hn).
    apply elem_of_dom. apply not_eq_None_Some. by apply E. }
  apply subseteq_size in Hsub. rewrite size_list_to_set, size_dom in Hsub by done.
  unfold ps in Hsub. rewrite length_fmap, length_seq in Hsub. lia.
Qed.

(** ** Atomic writes *)
Lemma copy_chunks_eq fuel source written :
  length source < fuel -> copy_chunks fuel source written = written ++ source.
Proof.
  revert source written. induction fuel as [|fuel IH]; intros source written Hlen; [lia|]. cbn [copy_chunks].
  destruct (take READ_CHUNK_SIZE source) as [|b chunk] eqn:E.
  - destruct source; [by rewrite app_nil_r|done].
  - rewrite <- E. rewrite IH; [by rewrite <- app_assoc, take_drop|]. rewrite length_drop.
    assert (0 < READ_CHUNK_SIZE) by (by apply Nat.ltb_lt).
    destruct source; [by rewrite take_nil in E|]. cbn [length] in *. lia.
Qed.
(** Copying in chunks copies everything. *)
Lemma copy_data_eq source : copy_data source = source.
Proof. unfold copy_data. by rewrite copy_chunks_eq by lia. Qed.

Lemma read_source_new_file w t d x m source b :
  t <> [] -> nodes w !! t = None ->
  read_source source w = Ok b -> read_source source (put_node t (NFile d x m) w) = Ok b.
Proof.
  intros Ht Hnew. destruct source as [p|b']; cbn; [|done].
  unfold os_open_read, os_stat, found. destruct (locate w true p) as [cs|] eqn:E; cbn; [|done].
  apply (locate_new_file w t d x m) in E as ->; [|done|done]. cbn. rewrite node_at_put by done.
  case_decide as Ec; [subst; destruct t; [done|]; cbn [node_at]; by rewrite Hnew|done].
Qed.

(** What setting attributes leaves: the same data under the same path *)
Lemma set_attributes_spec t a w d x m :
  nodes w !! t = Some (NFile d x m) ->
  exists x', set_attributes t a w = (Ok tt, put_node t (NFile d x' m) w).
Proof.
  intros Ht. unfold set_attributes. destruct a as [a|]; [rewrite Ht; destruct (xattr_works w); [by eexists|]|];
    exists x; f_equal; unfold put_node, with_nodes; rewrite insert_id by done; by destruct w.
Qed.

Lemma put_put t n n' w : put_node t n (put_node t n' w) = put_node t n w.
Proof. unfold put_node, with_nodes. cbn. by rewrite insert_insert_eq. Qed.
Lemma put_other t n w cs : cs <> t -> nodes (put_node t n w) !! cs = nodes w !! cs.
Proof. intros H. cbn. by rewrite lookup_insert_ne. Qed.

Lemma make_temp_spec dir w r w1 :
  make_temp dir w = (r, w1) ->
  match r with
  | Ok t => t <> [] /\ nodes w !! t = None /\ w1 = put_node t (NFile [] ∅ (clock w)) w
  | Err _ => w1 = w
  end.
Proof.
  unfold make_temp. destruct (if bool_decide (dir = "") then _ else _) as [[d []]|]; intros [= <- <-]; try done.
  split; [by destruct d|]. split; [apply temp_name_fresh|done].
Qed.

(** What a write leaves, whether it succeeds or fails *)
Lemma atomic_write_cases (source : io) (destination : string) (a : option attributes) (w : posix) :
  let '(r, w') := atomic_write source destination a w in
  match r with
  | Ok _ => exists cs, locate w false destination = Ok cs /\
      (forall d, read_source source w = Ok d -> exists x, nodes w' !! cs = Some (NFile d x (clock w))) /\
      (forall cs', cs' <> cs -> nodes w' !! cs' = nodes w !! cs')
  | Err _ => forall cs n, nodes w !! cs = Some n -> nodes w' !! cs = Some n
  end.
Proof.
  unfold atomic_write, mbind. destruct (make_temp _ w) as [[t|e] w1] eqn:Et; apply make_temp_spec in Et; [|by subst].
  destruct Et as (Ht & Hnew & ->).
  assert (forall n cs n', nodes w !! cs = Some n' -> nodes (put_node t n w) !! cs = Some n') as Hkeep.
  { intros n cs n' Hcs. rewrite put_other by congruence. done. }
  destruct (read_source source _) as [b|e] eqn:Eb; [|auto]. rewrite put_put, copy_data_eq. cbn [clock put_node with_nodes].
  unfold mlift. destruct (validate_attributes a) as [v|e]; [|auto].
  destruct (set_attributes_spec t v (put_node t (NFile b ∅ (clock w)) w) b ∅ (clock w)) as [x ->];
    [cbn; by rewrite lookup_insert_eq|]. rewrite put_put.
  unfold os_rename.
  assert (nodes (put_node t (NFile b x (clock w)) w) !! t = Some (NFile b x (clock w))) as -> by (cbn; by rewrite lookup_insert_eq).
  destruct (locate (put_node t (NFile b x (clock w)) w) false destination) as [cs|e] eqn:El; [|auto].
  pose proof El as El'. apply locate_new_file in El' as Hcs; [|done|done].
  assert (forall d, read_source source w = Ok d -> b = d) as Hd.
  { intros d Hd. apply (read_source_new_file w t [] ∅ (clock w)) in Hd; [congruence|done|done]. }
  destruct (node_at (put_node t (NFile b x (clock w)) w) cs) as [[]|]; [|auto|..];
    (exists cs; split; [done|]; split;
      [intros d <-%Hd; exists x; cbn; by rewrite lookup_insert_eq
      |intros cs' Hne; cbn; rewrite lookup_insert_ne by done; rewrite delete_insert_id by done; done]).
Qed.

(** ** Absolute paths and real directories *)
Abbreviation all_clean := (Forall (fun c => clean c = true)).
Definition abs (cs : list string) : string := "/" +:+ join "/" cs.

Lemma names_abs cs : all_clean cs -> names (abs cs) = cs.
Proof.
  intros Hcs. destruct cs as [|c cs]; [done|]. unfold names, abs. rewrite split_abs by done.
  rewrite filter_cons_False by naive_solver. induction Hcs as [|d l Hd Hl IH]; [done|].
  rewrite filter_cons_True; [by rewrite IH|]. apply clean_spec in Hd. naive_solver.
Qed.
Lemma abs_ends cs : cs <> [] -> all_clean cs -> ends_slash (abs cs) = false.
Proof. apply ends_slash_join. Qed.
Lemma locate_abs w f cs : cs <> [] -> all_clean cs -> locate w f (abs cs) = walk w f MAX_LINKS [] cs.
Proof.
  intros Hne Hcs. unfold locate. rewrite abs_ends, orb_false_r by done.
  rewrite names_abs by done. by rewrite bool_decide_eq_false_2 by done.
Qed.
Lemma abs_snoc ds c : ds <> [] -> abs (ds ++ [c]) = abs ds +:+ "/" +:+ c.
Proof. intros Hne. unfold abs. by rewrite join_app_slash, !str_app_assoc by done. Qed.
Lemma rstrip_abs ds : ds <> [] -> all_clean ds -> rstrip slash (abs ds) = abs ds.
Proof.
  intros Hne Hds. unfold abs. cbn. rewrite rstrip_join by done. by destruct (join "/" ds) eqn:E; [apply join_not_nil in E|].
Qed.
Lemma dirname_abs ds c : all_clean (ds ++ [c]) -> dirname (abs (ds ++ [c])) = abs ds.
Proof.
  intros [Hds [Hc _]%Forall_cons]%Forall_app. apply clean_spec in Hc as (Hs & _).
  destruct (decide (ds = [])) as [->|Hne].
  - unfold dirname. by rewrite (rsplit_slash_app "" c Hs : rsplit_slash (abs ([] ++ [c])) = _).
  - rewrite abs_snoc by done. unfold dirname. rewrite rsplit_slash_app by done. cbn [fst].
    rewrite (rstrip_snoc slash (abs ds) : rstrip slash (abs ds +:+ "/") = _).
    rewrite rstrip_abs by done. by rewrite bool_decide_eq_false_2 by done.
Qed.

(** Every directory on the way to [ds] and [ds] itself is a directory, not a
    link to one. *)
Definition real_dir (w : posix) (ds : list string) : Prop :=
  forall k, 0 < k <= length ds -> exists t, nodes w !! take k ds = Some (NDir t).
Lemma real_dir_snoc w ds c :
  real_dir w (ds ++ [c]) <-> real_dir w ds /\ exists t, nodes w !! (ds ++ [c]) = Some (NDir t).
Proof.
  unfold real_dir. rewrite length_app. cbn. split.
  - intros H. split; [intros k Hk; specialize (H k ltac:(lia)); by rewrite take_app_le in H by lia|].
    specialize (H (length ds + 1) ltac:(lia)). rewrite take_ge in H; [done|]. rewrite length_app. cbn. lia.
  - intros [H1 H2] k Hk. destruct (decide (k = length ds + 1)) as [->|].
    + rewrite take_ge; [done|]. rewrite length_app. cbn. lia.
    + rewrite take_app_le by lia. apply H1. lia.
Qed.
Lemma walk_real w f l ds rest :
  all_clean ds -> real_dir w ds -> walk w f l [] (ds ++ rest) = walk w f l ds rest.
Proof.
  intros Hc. revert rest. induction ds as [|c ds IH] using rev_ind; intros rest Hr; [done|].
  apply Forall_app in Hc as [Hds [Hc _]%Forall_cons]. apply real_dir_snoc in Hr as [Hr [t Ht]].
  rewrite <- app_assoc, IH by done. cbn [app]. rewrite walk_cons.
  apply clean_spec in Hc as (_ & _ & _ & Hdd). rewrite bool_decide_eq_false_2 by done.
  assert (node_at w (ds ++ [c]) = Some (NDir t)) as -> by (by destruct ds). done.
Qed.
Lemma locate_child w f ds c :
  all_clean (ds ++ [c]) -> real_dir w ds -> (f = true -> forall t, nodes w !! (ds ++ [c]) <> Some (NLink t)) ->
  locate w f (abs (ds ++ [c])) = Ok (ds ++ [c]).
Proof.
  intros Hcs Hr Hl. rewrite locate_abs by (done || by destruct ds). pose proof Hcs as [Hds [Hc _]%Forall_cons]%Forall_app.
  rewrite walk_real, walk_cons by done. apply clean_spec in Hc as (_ & _ & _ & Hdd).
  rewrite bool_decide_eq_false_2 by done.
  assert (node_at w (ds ++ [c]) = nodes w !! (ds ++ [c])) as -> by (by destruct ds).
  destruct (nodes w !! (ds ++ [c])) as [[]|]; try done.
  destruct f; [|done]. by destruct (Hl eq_refl target).
Qed.
Lemma found_child w f ds c n :
  all_clean (ds ++ [c]) -> real_dir w ds -> nodes w !! (ds ++ [c]) = Some n ->
  (f = true -> forall t, n <> NLink t) -> found w f (abs (ds ++ [c])) = Ok (ds ++ [c], n).
Proof.
  intros Hcs Hr Hn Hl. unfold found. rewrite locate_child; [|done|done|intros ? t; rewrite Hn; injection 1; by apply Hl].
  cbn [res_bind]. assert (node_at w (ds ++ [c]) = Some n) as -> by (by destruct ds).
  rewrite abs_ends by (done || by destruct ds). by destruct n.
Qed.
Lemma stat_child w ds c n :
  all_clean (ds ++ [c]) -> real_dir w ds -> nodes w !! (ds ++ [c]) = Some n -> (forall t, n <> NLink t) ->
  os_stat w (abs (ds ++ [c])) = Ok n.
Proof. intros. unfold os_stat. by rewrite (found_child w true ds c n) by auto. Qed.
Lemma stat_missing w ds c :
  all_clean (ds ++ [c]) -> real_dir w ds -> nodes w !! (ds ++ [c]) = None ->
  os_stat w (abs (ds ++ [c])) = Err FileNotFoundError.
Proof.
  intros Hcs Hr Hn. unfold os_stat, found. rewrite locate_child; [|done|done|intros ? t; by rewrite Hn]. cbn.
  by assert (node_at w (ds ++ [c]) = None) as -> by (by destruct ds).
Qed.

(** ** Creating directories *)

(** No node on the way to [ds] is anything but a directory. *)
Definition free_way (w : posix) (ds : list string) : Prop :=
  forall k n, 0 < k <= length ds -> nodes w !! take k ds = Some n -> exists t, n = NDir t.
(** The prefix that [os.makedirs] puts in front of the next component *)
Definition dir_prefix (ds : list string) : string := match ds with [] => "/" | _ => abs ds +:+ "/" end.
Lemma dir_prefix_app ds c : dir_prefix ds +:+ c = abs (ds ++ [c]).
Proof. destruct ds as [|d ds]; [done|]. cbn [dir_prefix]. by rewrite abs_snoc, str_app_assoc by done. Qed.

(** What creating the directories on the way to [ds] changes: only missing
    nodes on the way, which become directories *)
Definition dirs_added (ds : list string) (w w' : posix) : Prop :=
  clock w' = clock w /\
  forall cs, nodes w' !! cs = nodes w !! cs \/
    (nodes w !! cs = None /\ cs `prefix_of` ds /\ exists t, nodes w' !! cs = Some (NDir t)).

Lemma dirs_added_trans ds w1 w2 w3 : dirs_added ds w1 w2 -> dirs_added ds w2 w3 -> dirs_added ds w1 w3.
Proof.
  intros [C1 H1] [C2 H2]. split; [congruence|]. intros cs. destruct (H2 cs) as [E2|(E2 & Hp & t & Ht)].
  - rewrite E2. apply H1.
  - destruct (H1 cs) as [E1|(E1 & _ & t' & Ht')]; [right; rewrite <- E1; eauto|congruence].
Qed.
Lemma dirs_added_free ds w w' : dirs_added ds w w' -> free_way w ds -> free_way w' ds.
Proof.
  intros [_ Ha] Hf k n Hk Hn. destruct (Ha (take k ds)) as [E|(_ & _ & t & Ht)]; [|exists t; congruence].
  apply (Hf k); [done|congruence].
Qed.

(** One step of [make_dirs] *)
Definition step_dir (p : string) : M posix unit := fun w => if os_isdir w p then (Ok tt, w) else os_mkdir p w.

Lemma make_dir_step w ds c rest :
  all_clean (ds ++ [c]) -> real_dir w ds -> free_way w ((ds ++ [c]) ++ rest) ->
  exists w', step_dir (abs (ds ++ [c])) w = (Ok tt, w') /\ real_dir w' (ds ++ [c]) /\ dirs_added ((ds ++ [c]) ++ rest) w w'.
Proof.
  intros Hcs Hr Hf. unfold step_dir, os_isdir. specialize (Hf (length (ds ++ [c]))). rewrite take_app_length in Hf.
  destruct (nodes w !! (ds ++ [c])) as [n|] eqn:En.
  - destruct (Hf n) as [t ->]; [rewrite !length_app; cbn; lia|done|]. rewrite (stat_child w ds c (NDir t)) by done.
    exists w. split; [done|]. split; [apply real_dir_snoc; eauto|]. split; [done|]. intros cs. by left.
  - rewrite stat_missing by done. unfold os_mkdir.
    rewrite locate_child by done.
    assert (node_at w (ds ++ [c]) = None) as -> by (by destruct ds).
    eexists. split; [done|]. split.
    + apply real_dir_snoc. split; [|eexists; cbn; by rewrite lookup_insert_eq].
      intros k Hk. destruct (Hr k Hk) as [t Ht]. exists t. rewrite put_other; [done|congruence].
    + split; [done|]. intros cs. destruct (decide (cs = ds ++ [c])) as [->|Hne]; [|left; by apply put_other].
      right. split; [done|]. split; [by eexists|]. eexists. cbn. by rewrite lookup_insert_eq.
Qed.

Lemma make_dirs_spec todo w ds :
  all_clean (ds ++ todo) -> real_dir w ds -> free_way w (ds ++ todo) ->
  exists w', make_dirs (dir_prefix ds) todo w = (Ok tt, w') /\ real_dir w' (ds ++ todo) /\ dirs_added (ds ++ todo) w w'.
Proof.
  revert w ds. induction todo as [|c todo IH]; intros w ds Hcs Hr Hf; cbn [make_dirs].
  { exists w. rewrite app_nil_r. split; [done|]. split; [done|]. split; [done|]. intros cs. by left. }
  rewrite cons_middle, app_assoc in Hcs, Hf |- *. pose proof Hcs as [Hc _]%Forall_app.
  destruct (make_dir_step w ds c todo Hc Hr Hf) as (w1 & H1 & H2 & H3).
  unfold mbind. rewrite dir_prefix_app. unfold step_dir in H1. cbn beta zeta. rewrite H1.
  assert (abs (ds ++ [c]) +:+ "/" = dir_prefix (ds ++ [c])) as -> by (by destruct ds).
  destruct (IH w1 (ds ++ [c]) Hcs H2) as (w2 & G1 & G2 & G3); [by eapply dirs_added_free|].
  exists w2. split; [done|]. split; [done|]. by eapply dirs_added_trans.
Qed.

Lemma posix_makedirs_spec w ds :
  all_clean ds -> free_way w ds ->
  exists w', posix_makedirs (abs ds) w = (Ok tt, w') /\ real_dir w' ds /\ dirs_added ds w w'.
Proof.
  intros Hcs Hf. destruct (make_dirs_spec ds w [] Hcs) as (w' & H1 & H2 & H3); [intros k Hk; cbn in Hk; lia|done|].
  exists w'. split; [|done]. unfold posix_makedirs, os_makedirs. rewrite bool_decide_eq_false_2 by done.
  rewrite names_abs by done. cbn [dir_prefix isabs] in H1.
  assert ((if isabs (abs ds) then "/" else "") = "/") as -> by done. by rewrite H1.
Qed.

(** C8: a write to the file system is atomic: whether it succeeds or fails, at
    any point, no file but the destination changes; if it succeeds the
    destination holds exactly the source's data and nothing else was added; if
    it fails every file is as before. *)
Theorem atomic_write_atomic (source : io) (destination : string) (a : option attributes) (w : posix) :
  let '(r, w') := atomic_write source destination a w in
  match r with
  | Ok _ => exists cs, locate w false destination = Ok cs /\
      (forall d, read_source source w = Ok d -> exists x, nodes w' !! cs = Some (NFile d x (clock w))) /\
      (forall cs', cs' <> cs -> nodes w' !! cs' = nodes w !! cs')
  | Err _ => forall cs n, nodes w !! cs = Some n -> nodes w' !! cs = Some n
  end.
Proof. apply atomic_write_cases. Qed.

(** ** Reading what was written *)
Lemma found_real w f ds : all_clean ds -> real_dir w ds -> exists t, found w f (abs ds) = Ok (ds, NDir t).
Proof.
  destruct ds as [|c ds _] using rev_ind; [intros _ _; by exists 0%Z|].
  intros Hcs [Hr [t Ht]]%real_dir_snoc. exists t. by apply found_child.
Qed.

Lemma atomic_write_ok w ds c source a b :
  all_clean (ds ++ [c]) -> real_dir w ds -> (forall t, nodes w !! (ds ++ [c]) <> Some (NDir t)) ->
  is_ok (validate_attributes a) = true -> read_source source w = Ok b ->
  exists x w', atomic_write source (abs (ds ++ [c])) a w = (Ok tt, w') /\
    nodes w' !! (ds ++ [c]) = Some (NFile b x (clock w)) /\
    (forall cs, cs <> ds ++ [c] -> nodes w' !! cs = nodes w !! cs).
Proof.
  intros Hcs Hr Hn Ha Hb. pose proof Hcs as [Hds _]%Forall_app.
  pose proof (atomic_write_cases source (abs (ds ++ [c])) a w) as Hcases.
  assert (exists w', atomic_write source (abs (ds ++ [c])) a w = (Ok tt, w')) as [w' Hw'].
  - unfold atomic_write, mbind. rewrite dirname_abs by done. unfold make_temp.
    rewrite (bool_decide_eq_false_2 (abs ds = "")) by done.
    destruct (found_real w true ds Hds Hr) as [t ->]. set (tmp := ds ++ [temp_name w ds]).
    assert (tmp <> []) as Htmp by (by destruct ds). pose proof (temp_name_fresh w ds) as Hnew. fold tmp in Hnew.
    rewrite (read_source_new_file w tmp _ _ _ _ _ Htmp Hnew Hb), put_put. unfold mlift.
    destruct (validate_attributes a) as [v|]; [|done]. rewrite copy_data_eq. cbn [clock put_node with_nodes].
    destruct (set_attributes_spec tmp v (put_node tmp (NFile b ∅ (clock w)) w) b ∅ (clock w)) as [x ->];
      [cbn; by rewrite lookup_insert_eq|]. rewrite put_put. unfold os_rename.
    assert (nodes (put_node tmp (NFile b x (clock w)) w) !! tmp = Some (NFile b x (clock w))) as ->
      by (cbn; by rewrite lookup_insert_eq).
    rewrite (proj2 (locate_new_file w tmp b x (clock w) false _ _ Htmp Hnew) (locate_child w false ds c Hcs Hr ltac:(done))).
    rewrite node_at_put by done. case_decide; [by eexists|].
    assert (node_at w (ds ++ [c]) = nodes w !! (ds ++ [c])) as -> by (by destruct ds).
    destruct (nodes w !! (ds ++ [c])) as [[]|]; try by eexists. by destruct (Hn mtime).
  - rewrite Hw' in Hcases. destruct Hcases as (cs & Hloc & Hd & Hother).
    rewrite (locate_child w false ds c Hcs Hr ltac:(done)) in Hloc. injection Hloc as <-.
    destruct (Hd b Hb) as [x Hx]. by exists x, w'.
Qed.

Lemma real_dir_mono w w' ds :
  real_dir w ds -> (forall cs, cs `prefix_of` ds -> nodes w' !! cs = nodes w !! cs) -> real_dir w' ds.
Proof. intros Hr He k Hk. rewrite He; [by apply Hr|]. exists (drop k ds). by rewrite take_drop. Qed.
Lemma snoc_not_prefix {A} (ds : list A) c : ~ (ds ++ [c]) `prefix_of` ds.
Proof. intros H%prefix_length. rewrite length_app in H. cbn in H. lia. Qed.

(** An object of a regular file *)
Lemma posix_get_file w ds c b x t r :
  all_clean (ds ++ [c]) -> real_dir w ds -> nodes w !! (ds ++ [c]) = Some (NFile b x t) ->
  (forall r', r = Some r' -> 0 <= offset r' /\ 0 <= size r')%Z ->
  posix_get_object (abs (ds ++ [c])) r w = Ok (match r with Some r => slice b (offset r) (size r) | None => b end).
Proof.
  intros Hcs Hr Hn Hrange. unfold posix_get_object, os_open_read. rewrite (stat_child w ds c _ Hcs Hr Hn) by done.
  cbn [res_bind]. destruct r as [r|]; [|done]. destruct (Hrange r eq_refl) as [H1 H2].
  by rewrite (proj2 (Z.ltb_ge _ _) H1), (proj2 (Z.ltb_ge _ _) H2).
Qed.
Lemma posix_file_metadata w ds c b x t s :
  all_clean (ds ++ [c]) -> real_dir w ds -> nodes w !! (ds ++ [c]) = Some (NFile b x t) ->
  exists a, posix_get_object_metadata (abs (ds ++ [c])) s w =
    Ok (mkObjectMetadata (abs (ds ++ [c])) (Z.of_nat (length b)) t "file" None None None a None).
Proof.
  intros Hcs Hr Hn. unfold posix_get_object_metadata, os_isdir, posix_symlink_target, os_islink, os_lstat, os_size, os_getmtime.
  rewrite (stat_child w ds c _ Hcs Hr Hn) by done. cbv beta zeta iota.
  rewrite (found_child w false ds c _ Hcs Hr Hn) by done. rewrite (stat_child w ds c _ Hcs Hr Hn) by done. by eexists.
Qed.

(** An object that is put on the file system can be read back: when the way
    to its path leads through nothing but directories or missing directories
    and its attributes are valid, [put_object] succeeds, [get_object] then
    returns the body, or the requested range of it, and no other file has
    changed. *)
Theorem posix_put_get (base_path path : string) (limit : nat) (ds : list string) (c : string) (body : bytes)
    (a : option attributes) (r : option Range) (w : posix) (backend := posix_backend base_path limit)
    (Hpath : prepend_base_path base_path path = abs (ds ++ [c])) (Hclean : all_clean (ds ++ [c]))
    (Hway : free_way w ds) (Hfile : forall t, nodes w !! (ds ++ [c]) <> Some (NDir t))
    (Ha : is_ok (validate_attributes (string_attributes (prepare_provider_attributes a))) = true)
    (Hrange : forall r', r = Some r' -> (0 <= offset r' /\ 0 <= size r')%Z) :
  exists w', put_object base_path path body None None a w = (Ok tt, w') /\
    get_object base_path path r w' = Ok (match r with Some r => slice body (offset r) (size r) | None => body end) /\
    forall cs d x t, cs <> ds ++ [c] -> nodes w !! cs = Some (NFile d x t) -> nodes w' !! cs = Some (NFile d x t).
Proof.
  pose proof Hclean as [Hds _]%Forall_app.
  destruct (posix_makedirs_spec w ds Hds Hway) as (w1 & H1 & Hr1 & Hc1 & Hadd).
  assert (forall t, nodes w1 !! (ds ++ [c]) <> Some (NDir t)) as Hfile1.
  { destruct (Hadd (ds ++ [c])) as [E|(_ & Hp & _)]; [by rewrite E|by apply snoc_not_prefix in Hp]. }
  destruct (atomic_write_ok w1 ds c (BytesIO body) _ body Hclean Hr1 Hfile1 Ha eq_refl) as (x & w2 & H2 & Hx & Hother).
  assert (real_dir w2 ds) as Hr2.
  { eapply real_dir_mono; [done|]. intros cs Hp. apply Hother. intros ->. by apply snoc_not_prefix in Hp. }
  exists w2. split; [|split].
  - unfold put_object. rewrite Hpath. cbn [be_put_object backend posix_backend]. unfold posix_put_object, mbind, translate.
    by rewrite dirname_abs, H1, H2.
  - unfold get_object. rewrite Hpath, get_object_follow. cbn [follow MAX_SYMLINK_DEPTH]. unfold object_probe.
    cbn [be_get_object be_get_object_metadata backend posix_backend].
    rewrite (posix_get_file w2 ds c body x (clock w1) r Hclean Hr2 Hx Hrange). cbn [res_bind].
    destruct (negb _); [done|]. destruct (posix_file_metadata w2 ds c body x (clock w1) true Hclean Hr2 Hx) as [at' ->]. done.
  - intros cs d y t Hne Hcs. rewrite Hother by done. destruct (Hadd cs) as [->|(Hno & _)]; [done|congruence].
Qed.

Lemma posix_put_get_witness :
  exists w', put_object (StorageBackend0 := posix_backend "/d" 1) "/d" "a/x" [x61; x62] None None None (mkPosix ∅ [] 0 true)
      = (Ok tt, w') /\
    get_object (StorageBackend0 := posix_backend "/d" 1) "/d" "a/x" (Some (mkRange 1 5)) w' = Ok [x62].
Proof.
  destruct (posix_put_get "/d" "a/x" 1 ["d"; "a"] "x" [x61; x62] None (Some (mkRange 1 5)) (mkPosix ∅ [] 0 true))
    as (w' & H1 & H2 & _).
  - reflexivity.
  - by repeat constructor.
  - intros k n _ H. cbn [nodes] in H. by rewrite lookup_empty in H.
  - intros t H. cbn [nodes] in H. by rewrite lookup_empty in H.
  - reflexivity.
  - intros r' [= <-]. cbn. lia.
  - exists w'. split; [exact H1|exact H2].
Defined.

(** The attributes are validated only after the temporary file was written,
    which then stays: a write that fails for its attributes adds a file to the
    store. *)
Theorem failed_put_leaves_temp (backend := posix_backend "/d" 10)
    (a : attributes := {[ "a-key-of-more-than-thirty-two-chars" := JStr "v" ]}) (w := mkPosix {[ ["d"] := NDir 0 ]} [] 0 true) :
  (put_object "/d" "x" [x61] None None (Some a) w).1 = Err RuntimeError /\
  map key (yielded (list_objects "/d" (fun _ => Err ValueError) "" None None false None false FOLLOW
    (put_object "/d" "x" [x61] None None (Some a) w).2)) = [".tmp0"].
Proof. split; vm_compute; reflexivity. Qed.
