(* ===== verification/PosixListing.v ===== *)
(** * Recursive listing of a directory tree

    A directory tree without symbolic links satisfies what the recursive
    listing of the provider base assumes of shallow listings, so that listing
    a POSIX store recursively yields every file below a directory, in key
    order. *)
From S2P Require Import Prelude PyPath Types Utils Listing ListingProofs Provider ProviderProofs.
From S2P Require Import PosixFs PosixFile PosixProofs.

(** ** Paths below the base path *)
Lemma abspath_abs cwd cs : all_clean cs -> components (abspath cwd (abs cs)) = cs.
Proof.
  intros Hcs. unfold abspath. assert (isabs (abs cs) = true) as -> by done.
  destruct cs as [|c cs]; [done|]. unfold abs. by rewrite normpath_abs, components_abs.
Qed.
Lemma common_len_prefix l k : common_len l (l ++ k) = length l.
Proof. induction l as [|x l IH]; cbn; [by destruct k|]. by rewrite bool_decide_eq_true_2, IH. Qed.
Lemma relpath_abs cwd bs ts :
  ts <> [] -> all_clean (bs ++ ts) -> relpath cwd (abs (bs ++ ts)) (abs bs) = Ok (join "/" ts).
Proof.
  intros Hne Hc. pose proof Hc as [Hb Ht]%Forall_app. unfold relpath. rewrite bool_decide_eq_false_2 by done.
  rewrite !abspath_abs, common_len_prefix, Nat.sub_diag, drop_app_length by done. cbn [replicate app].
  by rewrite bool_decide_eq_false_2 by done.
Qed.
Lemma prepend_abs bs ts :
  ts <> [] -> all_clean (bs ++ ts) -> prepend_base_path (abs bs) (join "/" ts) = abs (bs ++ ts).
Proof.
  intros Hne [Hb Ht]%Forall_app. rewrite prepend_base_path_eq. pose proof (join_not_abs ts Ht) as Ha.
  rewrite lstrip_id by done. unfold base_prefix. rewrite bool_decide_eq_false_2 by done. cbn [orb].
  destruct bs as [|b bs]; [done|]. rewrite abs_ends by done. unfold abs. rewrite join_app_slash by done.
  by rewrite !str_app_assoc.
Qed.
Lemma names_dir_prefix ds : all_clean ds -> names (dir_prefix ds) = ds.
Proof.
  intros Hds. destruct ds as [|d ds]; [done|]. cbn [dir_prefix]. unfold names.
  rewrite (split_app_slash (abs (d :: ds)) "" : split slash (abs (d :: ds) +:+ "/") = _), filter_app. fold (names (abs (d :: ds))). rewrite names_abs by done.
  cbn. by rewrite app_nil_r.
Qed.
Lemma dir_prefix_ends ds : ends_slash (dir_prefix ds) = true.
Proof. destruct ds; [done|]. apply ends_slash_snoc. Qed.
Lemma found_dir w ds : all_clean ds -> real_dir w ds -> exists t, found w true (dir_prefix ds) = Ok (ds, NDir t).
Proof.
  intros Hds Hr. unfold found, locate. rewrite names_dir_prefix by done.
  rewrite bool_decide_eq_false_2 by (by destruct ds).
  assert (isabs (dir_prefix ds) = true) as -> by (by destruct ds).
  pose proof (walk_real w (true || ends_slash (dir_prefix ds)) MAX_LINKS ds [] Hds Hr) as Hw.
  rewrite app_nil_r, walk_nil in Hw. rewrite Hw. cbn [res_bind].
  destruct ds as [|d ds _] using rev_ind; [by exists 0%Z|]. apply real_dir_snoc in Hr as [_ [t Ht]].
  exists t. by assert (node_at w (ds ++ [d]) = Some (NDir t)) as -> by (by destruct ds).
Qed.
Lemma join_dir ds n : clean n = true -> path_join (dir_prefix ds) n = abs (ds ++ [n]).
Proof.
  intros Hn. unfold path_join. assert (isabs n = false) as ->.
  { apply clean_spec in Hn as (Hs & _). unfold isabs. destruct n as [|a n]; [done|]. cbn in *. by py_cases. }
  by rewrite dir_prefix_ends, orb_true_r, dir_prefix_app.
Qed.

(** ** A directory without links *)
Section Tree.
Context (bs : list string) (limit : nat) (w : posix).

(** Below [ds] there are files and directories with proper names, each in a
    directory, at most [k] levels deep. *)
Record tree_below (k : nat) (ds : list string) : Prop := {
  below_clean : forall cs, is_Some (nodes w !! (ds ++ cs)) -> all_clean (ds ++ cs);
  below_no_link : forall cs t, nodes w !! (ds ++ cs) <> Some (NLink t);
  below_closed : forall cs c, is_Some (nodes w !! (ds ++ cs ++ [c])) -> real_dir w (ds ++ cs);
  below_depth : forall cs, is_Some (nodes w !! (ds ++ cs)) -> length cs <= k;
}.

(** A child of a directory, with its node *)
Definition child (ds : list string) (n : string) (x : node) : Prop := nodes w !! (ds ++ [n]) = Some x.

Lemma elem_of_children ds n : n ∈ children w ds <-> exists x, child ds n x.
Proof.
  unfold children, child. rewrite list_elem_of_omap. setoid_rewrite list_elem_of_fmap. split.
  - intros (cs & ([cs' x] & -> & Hx) & Hn). unfold child_name in Hn. cbn in Hn. destruct (last cs') as [c|] eqn:E; [|done].
    case_bool_decide as Ec; [|done]. injection Hn as <-. apply elem_of_map_to_list in Hx. exists x. congruence.
  - intros [x Hx]. exists (ds ++ [n]). split.
    + exists (ds ++ [n], x). split; [done|]. by apply elem_of_map_to_list.
    + unfold child_name. rewrite last_snoc. by rewrite bool_decide_eq_true_2.
Qed.
Lemma NoDup_children ds : NoDup (children w ds).
Proof.
  unfold children. pose proof (NoDup_fst_map_to_list (nodes w)) as Hnd.
  induction Hnd as [|cs l Hcs Hl IH]; cbn; [constructor|].
  destruct (child_name ds cs) as [n|] eqn:E; [|done]. constructor; [|done].
  rewrite list_elem_of_omap. intros (cs' & Hin & E').
  assert (forall x, child_name ds x = Some n -> x = ds ++ [n]) as Hinv.
  { intros x. unfold child_name. destruct (last x); [|done]. case_bool_decide; [|done]. by intros [= <-]. }
  rewrite (Hinv cs E), (Hinv cs' E') in *. done.
Qed.

(** The entry of a child in a shallow listing *)
Definition child_entry (rs ds : list string) (n : string) : entry :=
  mkEntry (join "/" (rs ++ [n])) (abs (ds ++ [n])) (if os_isfile w (abs (ds ++ [n])) then FILE else DIRECTORY) ("", "").

Lemma child_stat k ds n x :
  tree_below k ds -> real_dir w ds -> child ds n x ->
  all_clean (ds ++ [n]) /\ os_stat w (abs (ds ++ [n])) = Ok x /\ os_islink w (abs (ds ++ [n])) = false.
Proof.
  intros Ht Hr Hx. assert (all_clean (ds ++ [n])) as Hc by (eapply below_clean; [done|by eexists]).
  assert (forall t, x <> NLink t) as Hl by (intros t ->; by apply (below_no_link k ds Ht [n] t)).
  split; [done|]. split; [by apply stat_child|]. unfold os_islink, os_lstat.
  rewrite (found_child w false ds n x) by done. cbn. destruct x; try done. by destruct (Hl target).
Qed.

Lemma scan_children k rs ns :
  tree_below k (bs ++ rs) -> real_dir w (bs ++ rs) -> (forall n, n ∈ ns -> exists x, child (bs ++ rs) n x) ->
  scan (abs bs) w None None true FOLLOW (dir_prefix (bs ++ rs)) ns = Ok (map (child_entry rs (bs ++ rs)) ns).
Proof.
  intros Ht Hr. induction ns as [|n ns IH]; intros Hns; [done|]. cbn [scan map].
  destruct (Hns n ltac:(set_solver)) as [x Hx]. destruct (child_stat k _ n x Ht Hr Hx) as (Hc & Hst & Hl).
  rewrite IH by set_solver. pose proof Hc as [_ [Hn _]%Forall_cons]%Forall_app. rewrite join_dir by done.
  assert (relpath (cwd_path w) (abs ((bs ++ rs) ++ [n])) (abs bs) = Ok (join "/" (rs ++ [n]))) as Hrel.
  { rewrite <- app_assoc in Hc |- *. apply relpath_abs; [by destruct rs|done]. }
  unfold scan_entry, relative, child_entry, os_isdir, os_isfile. rewrite Hl, Hrel, Hst. cbn [res_bind in_bounds andb].
  destruct x as [d y t|t|t]; [done|done|]. by destruct (below_no_link k _ Ht [n] t).
Qed.

(** *** The shallow listing of a directory *)
Definition file_object (cs : list string) (b : bytes) (t : Z) : ObjectMetadata :=
  new_ObjectMetadata (abs cs) (Z.of_nat (length b)) t.
Definition is_file_at (cs : list string) : bool :=
  match nodes w !! cs with Some (NFile _ _ _) => true | _ => false end.
Definition object_at (k : string) (cs : list string) : ObjectMetadata :=
  match nodes w !! cs with
  | Some (NFile b _ t) => new_ObjectMetadata k (Z.of_nat (length b)) t
  | _ => mkObjectMetadata k 0 AWARE_DATETIME_MIN "directory" None None None None None
  end.

Lemma object_at_file cs : is_file_at cs = true -> exists n t, forall k, object_at k cs = new_ObjectMetadata k n t.
Proof. unfold is_file_at, object_at. destruct (nodes w !! cs) as [[]|]; by eauto. Qed.
Lemma object_at_dir k cs :
  is_file_at cs = false -> object_at k cs = mkObjectMetadata k 0 AWARE_DATETIME_MIN "directory" None None None None None.
Proof. unfold is_file_at, object_at. by destruct (nodes w !! cs) as [[]|]. Qed.

Lemma child_isfile k ds n x :
  tree_below k ds -> real_dir w ds -> child ds n x -> os_isfile w (abs (ds ++ [n])) = is_file_at (ds ++ [n]).
Proof.
  intros Ht Hr Hx. destruct (child_stat k ds n x Ht Hr Hx) as (_ & Hst & _).
  unfold os_isfile, is_file_at. by rewrite Hst, Hx.
Qed.

Lemma emit_children k rs explore ns :
  tree_below k (bs ++ rs) -> real_dir w (bs ++ rs) -> (forall n, n ∈ ns -> exists x, child (bs ++ rs) n x) ->
  emit explore w (map (child_entry rs (bs ++ rs)) ns) =
    mkListing (map (fun n => object_at (join "/" (rs ++ [n])) ((bs ++ rs) ++ [n])) ns) None.
Proof.
  intros Ht Hr. induction ns as [|n ns IH]; intros Hns; [done|]. cbn [map emit].
  destruct (Hns n ltac:(set_solver)) as [x Hx]. destruct (child_stat k _ n x Ht Hr Hx) as (_ & Hst & _).
  rewrite IH by set_solver. unfold object_at, emit_entry, child_entry, os_isfile, os_size, os_getmtime.
  cbn [entry_type full_path relative_path]. rewrite Hst, Hx. destruct x as [d y t|t|t]; try done.
Qed.

Lemma dir_prefix_snoc ds n : dir_prefix (ds ++ [n]) = abs (ds ++ [n]) +:+ "/".
Proof. by destruct ds. Qed.
Lemma dir_prefix_longer ds n : dir_prefix (ds ++ [n]) <> dir_prefix ds.
Proof.
  intros H%(f_equal String.length). rewrite dir_prefix_snoc, <- dir_prefix_app, !str_length_app in H. cbn in H. lia.
Qed.

Lemma shallow_children rs p ns :
  all_clean (bs ++ rs) -> rstrip slash p +:+ "/" = dir_prefix (bs ++ rs) -> (forall n, n ∈ ns -> clean n = true) ->
  foldr (shallow_item (abs bs) p) ([], []) (map (fun n => object_at (join "/" (rs ++ [n])) ((bs ++ rs) ++ [n])) ns) =
  (map (fun n => dir_prefix ((bs ++ rs) ++ [n])) (filter (fun n => is_file_at ((bs ++ rs) ++ [n]) = false) ns),
   map (fun n => object_at (abs ((bs ++ rs) ++ [n])) ((bs ++ rs) ++ [n]))
     (filter (fun n => is_file_at ((bs ++ rs) ++ [n]) = true) ns)).
Proof.
  intros Hc Hp. induction ns as [|n ns IH]; intros Hns; [done|]. cbn [map foldr]. rewrite IH by set_solver.
  unfold shallow_item.
  assert (key (object_at (join "/" (rs ++ [n])) ((bs ++ rs) ++ [n])) = join "/" (rs ++ [n])) as ->.
  { unfold object_at. by destruct (nodes w !! _) as [[]|]. }
  assert (prepend_base_path (abs bs) (join "/" (rs ++ [n])) = abs ((bs ++ rs) ++ [n])) as ->.
  { rewrite <- app_assoc. apply prepend_abs; [by destruct rs|]. rewrite app_assoc. apply Forall_app. split; [done|].
    constructor; [apply Hns; set_solver|done]. }
  rewrite Hp, <- dir_prefix_snoc. rewrite (bool_decide_eq_false_2 (_ = dir_prefix (bs ++ rs))) by apply dir_prefix_longer.
  destruct (is_file_at ((bs ++ rs) ++ [n])) eqn:Ef.
  - rewrite filter_cons_False, filter_cons_True by congruence. cbn [map].
    destruct (object_at_file _ Ef) as (m & t & Ho). by rewrite !Ho.
  - rewrite filter_cons_True, filter_cons_False by congruence. cbn [map]. by rewrite (object_at_dir _ _ Ef).
Qed.

(** A path of the directory [ds], with or without a slash at its end *)
Definition dir_path (ds : list string) (p : string) : Prop := p = abs ds \/ p = dir_prefix ds.
Lemma dir_path_slash ds p : all_clean ds -> dir_path ds p -> rstrip slash p +:+ "/" = dir_prefix ds.
Proof.
  intros Hds Hp. destruct (decide (ds = [])) as [->|Hne]; [by destruct Hp as [->| ->]|].
  assert (dir_prefix ds = abs ds +:+ "/") as Hd by (by destruct ds). unfold dir_path in Hp. rewrite Hd in Hp |- *.
  destruct Hp as [->| ->]; rewrite ?(rstrip_snoc slash (abs ds) : rstrip slash (abs ds +:+ "/") = _); by rewrite rstrip_abs.
Qed.
Lemma dir_path_not_file ds p : all_clean ds -> real_dir w ds -> dir_path ds p -> os_isfile w p = false.
Proof.
  intros Hds Hr Hp. unfold os_isfile, os_stat. destruct Hp as [->| ->].
  - by destruct (found_real w true ds Hds Hr) as [t ->].
  - by destruct (found_dir w ds Hds Hr) as [t ->].
Qed.

Definition entry_le (rs ds : list string) (a b : string) : Prop :=
  str_leb (sort_key (child_entry rs ds a)) (sort_key (child_entry rs ds b)) = true.

Lemma shallow_dir k rs p :
  tree_below k (bs ++ rs) -> real_dir w (bs ++ rs) -> all_clean (bs ++ rs) -> dir_path (bs ++ rs) p ->
  exists ns, ns ≡ₚ children w (bs ++ rs) /\ StronglySorted (entry_le rs (bs ++ rs)) ns /\
    posix_shallow_list (abs bs) (S limit) p FOLLOW w =
    Ok (map (fun n => dir_prefix ((bs ++ rs) ++ [n])) (filter (fun n => is_file_at ((bs ++ rs) ++ [n]) = false) ns),
        map (fun n => object_at (abs ((bs ++ rs) ++ [n])) ((bs ++ rs) ++ [n]))
          (filter (fun n => is_file_at ((bs ++ rs) ++ [n]) = true) ns)).
Proof.
  intros Ht Hr Hc Hp. set (ds := bs ++ rs) in *.
  set (es := sort_by (fun a b => str_leb (sort_key a) (sort_key b)) (map (child_entry rs ds) (sorted_str (children w ds)))).
  assert (es ≡ₚ map (child_entry rs ds) (sorted_str (children w ds))) as Hperm by apply sort_by_perm.
  apply Permutation_map_inv in Hperm as (ns & Hes & Hns). rewrite (sorted_str_perm (children w ds)) in Hns.
  assert (forall n, n ∈ ns -> exists x, child ds n x) as Hch.
  { intros n Hn. apply elem_of_children. by rewrite Hns. }
  exists ns. split; [done|]. split.
  { assert (StronglySorted (fun a b => str_leb (sort_key a) (sort_key b) = true) es) as Hs
      by (apply sort_by_sorted; intros; [apply str_leb_total|by eapply str_leb_trans]).
    rewrite Hes in Hs. clear -Hs. induction ns as [|n ns IH]; [constructor|]. cbn in Hs.
    apply StronglySorted_inv in Hs as [Hs Hn]. constructor; [auto|]. by rewrite Forall_map in Hn. }
  unfold posix_shallow_list, posix_list_objects. cbn [relative_opt truthy].
  rewrite (dir_path_not_file ds p Hc Hr Hp), (dir_path_slash ds p Hc Hp).
  unfold os_isdir, os_stat. destruct (found_dir w ds Hc Hr) as [t Hf]. rewrite Hf. cbn [res_bind snd yield_all yielded raised app].
  cbn [explore_directory]. unfold os_listdir. rewrite Hf. cbn [res_bind].
  unfold ds. rewrite (scan_children k rs); [|done|done|].
  2: { intros n Hn. apply elem_of_children. by rewrite (sorted_str_perm (children w (bs ++ rs))) in Hn. }
  fold ds. fold es. rewrite Hes. unfold ds. rewrite (emit_children k rs) by done. cbn [raised yielded].
  rewrite shallow_children; [done|done|by apply dir_path_slash|].
  intros n Hn. destruct (Hch n Hn) as [x Hx]. destruct (child_stat k ds n x Ht Hr Hx) as [[_ [H _]%Forall_cons]%Forall_app _].
  done.
Qed.

(** *** Zones of the children *)
Lemma snoc_key ds n : abs (ds ++ [n]) = dir_prefix ds +:+ n.
Proof. by rewrite dir_prefix_app. Qed.
Lemma dir_zone ds n s : startswith s (dir_prefix (ds ++ [n])) = true -> exists u, s = dir_prefix ds +:+ (n +:+ String slash u).
Proof.
  intros [u ->]%startswith_spec. exists u. by rewrite dir_prefix_snoc, snoc_key, !str_app_assoc.
Qed.
Lemma separate_dirs ds n m :
  clean n = true -> clean m = true -> n <> m ->
  separate (Prefix (dir_prefix (ds ++ [n]))) (Prefix (dir_prefix (ds ++ [m]))).
Proof.
  intros [Hn _]%clean_spec [Hm _]%clean_spec Hne s [u ->]%dir_zone [v Hv]%dir_zone. apply str_app_inj_l in Hv.
  apply Hne. apply (f_equal (split slash)) in Hv. rewrite !split_app_sep in Hv by done. congruence.
Qed.
Lemma separate_dir_file ds n m k cs :
  clean m = true -> key (object_at k cs) = abs (ds ++ [m]) ->
  separate (Prefix (dir_prefix (ds ++ [n]))) (Object (object_at k cs)).
Proof.
  intros [Hm _]%clean_spec Hk s [u Hu]%dir_zone Ho. cbn in Ho. rewrite Hk, snoc_key in Ho. subst.
  apply str_app_inj_l in Ho. rewrite <- Ho, has_char_app in Hm. cbn in Hm. by rewrite orb_true_r in Hm.
Qed.
Lemma object_key k cs : key (object_at k cs) = k.
Proof. unfold object_at. by destruct (nodes w !! cs) as [[]|]. Qed.

Lemma sorted_pairwise {A B} (R : relation B) (f : A -> B) (l : list A) :
  NoDup l -> (forall a b, a ∈ l -> b ∈ l -> a <> b -> R (f a) (f b)) -> StronglySorted R (map f l).
Proof.
  induction 1 as [|a l Ha _ IH]; intros HR; cbn; constructor.
  - apply IH. intros x y Hx Hy. apply HR; by right.
  - rewrite Forall_map, Forall_forall. intros b Hb. apply HR; [by left|by right|by intros ->].
Qed.

Lemma zones_separate ds dirs files :
  NoDup dirs -> NoDup files -> (forall n, n ∈ dirs -> clean n = true) -> (forall n, n ∈ files -> clean n = true) ->
  StronglySorted separate (map Prefix (map (fun n => dir_prefix (ds ++ [n])) dirs) ++
    map Object (map (fun n => object_at (abs (ds ++ [n])) (ds ++ [n])) files)).
Proof.
  intros Hd Hf Hcd Hcf. rewrite !map_map. apply StronglySorted_app_2.
  - intros x y Hx Hy. apply list_elem_of_fmap in Hx as (n & -> & Hn), Hy as (m & -> & Hm).
    apply separate_dir_file with m; [auto|apply object_key].
  - apply sorted_pairwise; [done|]. intros n m Hn Hm. apply separate_dirs; auto.
  - apply sorted_pairwise; [done|]. intros n m Hn Hm Hne s H1 H2. unfold in_zone in H1, H2. rewrite object_key, snoc_key in H1. rewrite object_key, snoc_key in H2.
    subst. apply str_app_inj_l in H2. congruence.
Qed.

Lemma files_sorted rs ds ns :
  StronglySorted (entry_le rs ds) ns -> NoDup ns ->
  (forall n, n ∈ ns -> os_isfile w (abs (ds ++ [n])) = is_file_at (ds ++ [n])) ->
  StronglySorted key_lt (map (fun n => object_at (abs (ds ++ [n])) (ds ++ [n])) (filter (fun n => is_file_at (ds ++ [n]) = true) ns)).
Proof.
  induction 1 as [|n ns Hns IH Hn]; intros Hnd Hf; [constructor|]. apply NoDup_cons in Hnd as [Hni Hnd].
  rewrite filter_cons. case_decide as E; [|apply IH; [done|]; intros; apply Hf; by right].
  cbn [map]. constructor; [apply IH; [done|]; intros; apply Hf; by right|].
  rewrite Forall_map. rewrite Forall_forall in Hn |- *. intros m [Em Hm]%list_elem_of_filter.
  unfold key_lt. rewrite !object_key, !snoc_key. unfold str_lt. rewrite str_ltb_app.
  specialize (Hn m Hm). unfold entry_le, sort_key, child_entry in Hn. cbn [entry_type relative_path] in Hn.
  rewrite (Hf n), (Hf m), E, Em in Hn by (by left || by right).
  assert (str_leb n m = true) as Hle.
  { destruct (decide (rs = [])) as [->|Hne]; [done|]. by rewrite !join_app_slash, !str_leb_app in Hn by done. }
  destruct (str_lt_trichotomy n m) as [|[->|H]]; [done|done|by destruct (str_leb_not_lt _ _ Hle)].
Qed.

(** *** The tree of shallow listings *)
Definition below_object (ds : list string) (o : ObjectMetadata) : Prop :=
  exists cs b x t, cs <> [] /\ nodes w !! (ds ++ cs) = Some (NFile b x t) /\ o = file_object (ds ++ cs) b t.
Abbreviation shallow := (fun q => posix_shallow_list (abs bs) (S limit) q FOLLOW w).

Lemma tree_below_child k ds n : tree_below (S k) ds -> tree_below k (ds ++ [n]).
Proof.
  intros [H1 H2 H3 H4]. split; intros cs; rewrite <- app_assoc; cbn [app].
  - apply H1.
  - apply H2.
  - intros c H. rewrite <- app_assoc in H. by apply (H3 (n :: cs) c).
  - intros H%H4. cbn in H. lia.
Qed.

(** The trees of some subdirectories *)
Lemma subtrees ds dirs :
  (forall n, n ∈ dirs -> exists m os, tree_at shallow (dir_prefix (ds ++ [n])) m os /\ forall o, o ∈ os <-> below_object (ds ++ [n]) o) ->
  exists ts, Forall2 (fun cp t => tree_at shallow cp t.1 t.2) (map (fun n => dir_prefix (ds ++ [n])) dirs) ts /\
    forall o, o ∈ concat ts.*2 <-> exists n, n ∈ dirs /\ below_object (ds ++ [n]) o.
Proof.
  induction dirs as [|n dirs IH]; intros Hsub.
  { exists []. split; [constructor|]. set_solver. }
  destruct IH as (ts & H1 & H2); [intros m Hm; apply Hsub; by right|].
  destruct (Hsub n ltac:(by left)) as (m & os & Ht & Hos).
  exists ((m, os) :: ts). split; [by constructor|]. intros o. cbn. rewrite elem_of_app, H2, Hos. set_solver.
Qed.

Lemma below_object_split k ds o :
  tree_below k ds -> real_dir w ds ->
  below_object ds o <->
  (exists n, n ∈ children w ds /\ is_file_at (ds ++ [n]) = false /\ below_object (ds ++ [n]) o) \/
  (exists n, n ∈ children w ds /\ is_file_at (ds ++ [n]) = true /\ o = object_at (abs (ds ++ [n])) (ds ++ [n])).
Proof.
  intros Ht Hr. split.
  - intros (cs & b & x & t & Hne & Hn & ->). destruct cs as [|n cs]; [done|]. destruct cs as [|c cs _] using rev_ind.
    + right. exists n. split; [apply elem_of_children; by eexists|]. unfold is_file_at, object_at. by rewrite Hn.
    + left. exists n. rewrite (app_assoc ds [n] (cs ++ [c]) : ds ++ n :: cs ++ [c] = _) in Hn |- *.
      assert (real_dir w (ds ++ n :: cs)) as Hd.
      { apply (below_closed k ds Ht (n :: cs) c). rewrite <- app_assoc in Hn. by eexists. }
      destruct (Hd (length ds + 1)) as [u Hu]; [rewrite length_app; cbn; lia|].
      rewrite take_app_add in Hu. cbn in Hu. rewrite take_0 in Hu.
      split; [apply elem_of_children; by eexists|]. split; [unfold is_file_at; by rewrite Hu|].
      exists (cs ++ [c]), b, x, t. split; [by destruct cs|done].
  - intros [(n & _ & _ & cs & b & x & t & Hne & Hn & ->)|(n & _ & Hf & ->)].
    + rewrite <- app_assoc in Hn |- *. by exists ([n] ++ cs), b, x, t.
    + unfold is_file_at in Hf. unfold object_at. destruct (nodes w !! (ds ++ [n])) as [[b x t| |]|] eqn:E; try done.
      by exists [n], b, x, t.
Qed.

(** The tree of a directory from those of its subdirectories *)
Lemma tree_step k rs p (ds := bs ++ rs) :
  tree_below k ds -> real_dir w ds -> all_clean ds -> dir_path ds p ->
  (forall n, n ∈ children w ds -> is_file_at (ds ++ [n]) = false ->
    exists m os, tree_at shallow (dir_prefix (ds ++ [n])) m os /\ forall o, o ∈ os <-> below_object (ds ++ [n]) o) ->
  exists n os, tree_at shallow p n os /\ forall o, o ∈ os <-> below_object ds o.
Proof.
  intros Ht Hr Hc Hp Hsub. destruct (shallow_dir k rs p Ht Hr Hc Hp) as (ns & Hns & Hsort & Hsh). fold ds in Hns, Hsort, Hsh.
  set (dirs := filter (fun n => is_file_at (ds ++ [n]) = false) ns) in *.
  set (files := filter (fun n => is_file_at (ds ++ [n]) = true) ns) in *.
  assert (forall n, n ∈ ns -> exists x, child ds n x) as Hch by (intros n Hn; apply elem_of_children; by rewrite <- Hns).
  assert (NoDup ns) as Hnd by (rewrite Hns; apply NoDup_children).
  assert (forall n, n ∈ ns -> clean n = true) as Hcl.
  { intros n Hn. destruct (Hch n Hn) as [x Hx]. by destruct (child_stat k ds n x Ht Hr Hx) as [[_ [H _]%Forall_cons]%Forall_app _]. }
  destruct (subtrees ds dirs) as (ts & Hts & Hos).
  { intros n [Hf Hn]%list_elem_of_filter. apply Hsub; [by rewrite <- Hns|done]. }
  assert (forall u, startswith (dir_prefix ds +:+ u) p = true) as Hzone.
  { intros u. destruct Hp as [-> | ->]; [|apply startswith_app]. apply startswith_spec.
    destruct (decide (ds = [])) as [E|Hne]; [exists u; by rewrite E|]. exists ("/" +:+ u).
    assert (dir_prefix ds = abs ds +:+ "/") as -> by (by destruct ds). by rewrite str_app_assoc. }
  eexists _, _. split.
  - apply (tree_node shallow p _ _ ts Hsh Hts).
    + rewrite !map_map. apply Forall_app. split; rewrite Forall_map, Forall_forall; intros n _ s Hs.
      * apply dir_zone in Hs as [u ->]. apply Hzone.
      * unfold in_zone in Hs. rewrite object_key, snoc_key in Hs. subst. apply Hzone.
    + apply zones_separate; try (by apply NoDup_filter); intros n [_ Hn]%list_elem_of_filter; auto.
    + apply (files_sorted rs); [done|done|]. intros n Hn. destruct (Hch n Hn) as [x Hx]. by eapply child_isfile.
  - intros o. rewrite elem_of_app, Hos, (below_object_split k ds o Ht Hr). setoid_rewrite <- Hns.
    assert (o ∈ map (fun n => object_at (abs (ds ++ [n])) (ds ++ [n])) files <->
      exists n, o = object_at (abs (ds ++ [n])) (ds ++ [n]) /\ n ∈ files) as -> by apply list_elem_of_fmap.
    unfold dirs, files. setoid_rewrite list_elem_of_filter. naive_solver.
Qed.

(** A directory tree without links is a tree of shallow listings, whose objects
    are the files below the directory. *)
Lemma posix_tree k rs p :
  tree_below k (bs ++ rs) -> real_dir w (bs ++ rs) -> all_clean (bs ++ rs) -> dir_path (bs ++ rs) p ->
  exists n os, tree_at shallow p n os /\ forall o, o ∈ os <-> below_object (bs ++ rs) o.
Proof.
  revert rs p. induction k as [|k IH]; intros rs p Ht Hr Hc Hp; apply (tree_step _ rs p Ht Hr Hc Hp);
    intros n [x Hx]%elem_of_children Hf.
  - pose proof (below_depth 0 _ Ht [n] ltac:(by eexists)) as Hd. cbn in Hd. lia.
  - destruct (child_stat _ _ n x Ht Hr Hx) as (Hcn & _). unfold child in Hx. unfold is_file_at in Hf. rewrite Hx in Hf.
    destruct x as [|t|t]; [done| |by destruct (below_no_link _ _ Ht [n] t)].
    rewrite <- app_assoc in *. apply IH; [by rewrite app_assoc; apply tree_below_child| |done|by right].
    rewrite app_assoc in *. apply real_dir_snoc. eauto.
Qed.
End Tree.

(** ** Paths are not blank *)
Lemma strip_spaces_l_last t : strip_spaces_l (t +:+ "/") <> "".
Proof. induction t as [|a t IH]; [done|]. cbn. by destruct (stdpp.strings.Ascii.is_space a). Qed.
Lemma strip_spaces_abs s : strip_spaces ("/" +:+ s) <> "".
Proof.
  unfold strip_spaces.
  assert (strip_spaces_l ("/" +:+ s) = String "/" s) as -> by done. rewrite str_rev_cons.
  pose proof (strip_spaces_l_last (str_rev s)) as H.
  destruct (strip_spaces_l (str_rev s +:+ "/")) as [|a u]; [done|]. rewrite str_rev_cons. by destruct (str_rev u).
Qed.

(** The metadata of a file in the caller's keys *)
Definition listed_file (cs : list string) (b : bytes) (t : Z) : ObjectMetadata :=
  new_ObjectMetadata (join "/" cs) (Z.of_nat (length b)) t.

Lemma below_base_abs bs ts :
  ts <> [] -> all_clean (bs ++ ts) -> below_base (abs bs) (abs (bs ++ ts)).
Proof.
  intros Hne Hc. pose proof Hc as [_ Ht]%Forall_app. exists (join "/" ts). split; [by apply join_not_abs|].
  rewrite <- prepend_abs by done. apply prepend_relative. by apply join_not_abs.
Qed.
Lemma unprefix_file bs ts b t :
  ts <> [] -> all_clean (bs ++ ts) -> unprefix (abs bs) (file_object (bs ++ ts) b t) = listed_file ts b t.
Proof.
  intros Hne Hc. pose proof Hc as [_ Ht]%Forall_app. unfold unprefix. rewrite bool_decide_eq_false_2 by done.
  unfold strip_key, file_object, listed_file. cbn [key new_ObjectMetadata]. rewrite <- prepend_abs, strip_prepend by done.
  rewrite lstrip_id by (by apply join_not_abs). done.
Qed.
Lemma prepend_dir_path bs rs : all_clean (bs ++ rs) -> dir_path (bs ++ rs) (prepend_base_path (abs bs) (join "/" rs)).
Proof.
  intros Hc. destruct (decide (rs = [])) as [->|Hne]; [|left; by apply prepend_abs]. right. rewrite app_nil_r in *.
  rewrite prepend_base_path_eq. cbn [join lstrip]. rewrite str_app_nil_r. unfold base_prefix. rewrite bool_decide_eq_false_2 by done.
  destruct bs as [|b bs]; [done|]. by rewrite abs_ends.
Qed.

(** C38: listing a POSIX store recursively from a directory that holds no symbolic
    links, without bounds and in the mode that follows links, ends without an
    error and yields exactly the regular files below the directory, each once,
    with the key that leads to it and with its size and modification time, in
    strictly ascending key order, however the prefix threads are scheduled. *)
Theorem posix_listing_complete (bs rs : list string) (limit max_workers look_ahead : nat)
    (finished : nat -> string -> bool) (k : nat) (w : posix) (backend := posix_backend (abs bs) (S limit))
    (Hclean : all_clean (bs ++ rs)) (Hdir : real_dir w (bs ++ rs)) (Htree : tree_below w k (bs ++ rs)) :
  exists n, forall fuel, n <= fuel ->
  exists l, list_objects_recursive (abs bs) (join "/" rs) None None max_workers look_ahead FOLLOW finished fuel w = Some l /\
    raised l = None /\ StronglySorted key_lt (yielded l) /\
    forall o, o ∈ yielded l <->
      exists cs b x t, cs <> [] /\ nodes w !! (bs ++ rs ++ cs) = Some (NFile b x t) /\ o = listed_file (rs ++ cs) b t.
Proof.
  destruct (posix_tree bs limit w k rs _ Htree Hdir Hclean (prepend_dir_path bs rs Hclean)) as (n & os & Ht & Hos).
  exists n. intros fuel Hfuel.
  assert (forall cs, cs <> [] -> is_Some (nodes w !! (bs ++ rs ++ cs)) -> rs ++ cs <> [] /\ all_clean (bs ++ rs ++ cs)) as Hcs.
  { intros cs Hne Hn. split; [by destruct rs|]. rewrite app_assoc in Hn |- *. by apply (below_clean w k _ Htree). }
  destruct (provider_listing_sorted (abs bs) (join "/" rs) None None max_workers look_ahead FOLLOW finished n os fuel w)
    as (l & Hl & Hr & Hs & Hm); try done.
  - destruct (prepend_dir_path bs rs Hclean) as [-> | ->]; [apply strip_spaces_abs|].
    destruct (bs ++ rs); [done|]. cbn [dir_prefix]. unfold abs. rewrite str_app_assoc. apply strip_spaces_abs.
  - apply Forall_forall. intros o (cs & b & x & t & Hne & Hn & ->)%Hos. rewrite <- app_assoc in Hn |- *.
    destruct (Hcs cs Hne ltac:(by eexists)). by apply below_base_abs.
  - exists l. split; [done|]. split; [done|]. split; [done|]. intros o. rewrite Hm.
    assert (in_range None None (key o)) as Hin by done. split.
    + intros [Ho _]. apply list_elem_of_fmap in Ho as (o' & -> & (cs & b & x & t & Hne & Hn & ->)%Hos).
      rewrite <- app_assoc in Hn |- *. destruct (Hcs cs Hne ltac:(by eexists)). exists cs, b, x, t.
      split; [done|]. split; [done|]. by apply unprefix_file.
    + intros (cs & b & x & t & Hne & Hn & ->). split; [|done]. destruct (Hcs cs Hne ltac:(by eexists)).
      rewrite <- (unprefix_file bs) by done. apply (list_elem_of_fmap_2 (unprefix (abs bs))). apply Hos.
      exists cs, b, x, t. rewrite <- app_assoc. done.
Qed.

(** ** Examples *)
Definition example_fs : posix :=
  mkPosix (list_to_map [(["d"], NDir 0); (["d"; "a"], NDir 0); (["d"; "a"; "b"], NFile [x61] ∅ 1);
                        (["d"; "a"; "c"], NFile [x61] ∅ 2); (["d"; "a.txt"], NFile [] ∅ 3)]) ["d"] 7 true.

Lemma example_fs_inv cs n :
  nodes example_fs !! (["d"] ++ cs) = Some n ->
  (cs = [] /\ n = NDir 0) \/ (cs = ["a"] /\ n = NDir 0) \/ (cs = ["a"; "b"] /\ n = NFile [x61] ∅ 1) \/
  (cs = ["a"; "c"] /\ n = NFile [x61] ∅ 2) \/ (cs = ["a.txt"] /\ n = NFile [] ∅ 3).
Proof. intros H%elem_of_list_to_map_2. cbn in H. set_unfold in H. naive_solver. Qed.
Lemma example_fs_dir : real_dir example_fs ["d"].
Proof. intros k Hk. cbn in Hk. assert (k = 1) as -> by lia. by exists 0%Z. Qed.
Lemma example_fs_tree : tree_below example_fs 2 ["d"].
Proof.
  split.
  - intros cs [n Hn%example_fs_inv]. destruct Hn as [[-> _]|[[-> _]|[[-> _]|[[-> _]|[-> _]]]]]; by repeat constructor.
  - intros cs t Hn%example_fs_inv. naive_solver.
  - intros cs c [n Hn%example_fs_inv].
    assert (cs = [] \/ cs = ["a"]) as [-> | ->]; [|apply example_fs_dir|].
    + destruct Hn as [[H _]|[[H _]|[[H _]|[[H _]|[H _]]]]]; destruct cs as [|x [|y cs]]; simplify_eq/=; auto;
        by destruct cs.
    + intros k Hk. cbn in Hk. assert (k = 1 \/ k = 2) as [-> | ->] by lia; by exists 0%Z.
  - intros cs [n Hn%example_fs_inv]. destruct Hn as [[-> _]|[[-> _]|[[-> _]|[[-> _]|[-> _]]]]]; cbn; lia.
Qed.

Lemma posix_listing_complete_witness :
  exists n l, list_objects_recursive (StorageBackend0 := posix_backend "/d" 1) "/d" "" None None 2 2 FOLLOW (fun _ _ => false)
                (n + 7) example_fs = Some l /\ raised l = None /\ listed_file ["a.txt"] [] 3 ∈ yielded l.
Proof.
  destruct (posix_listing_complete ["d"] [] 0 2 2 (fun _ _ => false) 2 example_fs) as [n H].
  - by repeat constructor.
  - apply example_fs_dir.
  - apply example_fs_tree.
  - destruct (H (n + 7) ltac:(lia)) as (l & Hl & Hr & _ & Hm). exists n, l. split; [exact Hl|]. split; [exact Hr|].
    apply Hm. exists ["a.txt"], [], ∅, 3%Z. split; [done|]. split; [vm_compute; reflexivity|done].
Defined.

(** The flat listing takes a start key for the name of a directory: it leaves
    out the directory [a] when it starts after [a/b], and with it [a/c], which
    the recursive listing yields. *)
Theorem flat_listing_skips_directory (backend := posix_backend "/d" 10) :
  map key (yielded (list_objects "/d" (fun _ => Err ValueError) "" (Some "a/b") None false None false FOLLOW example_fs)) = [] /\
  (map key ∘ yielded) <$> list_objects_recursive "/d" "" (Some "a/b") None 2 2 FOLLOW (fun _ _ => false) 10 example_fs
    = Some ["a/c"].
Proof. split; vm_compute; reflexivity. Qed.
