(* ===== verification/Eviction.v ===== *)
(** * Cache configuration and eviction policies ([multistorageclient/caching/])

    Size strings, the eviction policies (stable sorts over [CacheItem]s) and
    the loop of [CacheManager.evict_files] that deletes items in policy order
    until the cache fits its target size.

    The target size is a Python float: it is computed here with the binary64
    operations of [SpecFloat], and compared exactly with the integer cache
    size, as Python compares an [int] with a [float].  [random.shuffle] and
    float parsing are parameters. *)
From Stdlib Require Import SpecFloat QArith_base.
From S2P Require Import Prelude Types Utils.

(** ** Definitions *)

(** *** [cache_config.py] *)
Record EvictionPolicyConfig := mkEvictionPolicyConfig {
  policy : string;
  refresh_interval : Z;
  purge_factor : Z;
}.
Definition default_eviction_policy : EvictionPolicyConfig := mkEvictionPolicyConfig "fifo" 300 0.

Record CacheConfig := mkCacheConfig {
  cc_size : string;
  cc_cache_line_size : string;
  cc_check_source_version : bool;
  cc_prefetch_file : bool;
  cc_location : option string;
  cc_eviction_policy : EvictionPolicyConfig;
}.

(** [conversion_factors] *)
Definition conversion_factor (unit : string) : option Z :=
  if decide (unit = "M") then Some (1024 ^ 2)%Z
  else if decide (unit = "G") then Some (1024 ^ 3)%Z
  else if decide (unit = "T") then Some (1024 ^ 4)%Z
  else if decide (unit = "P") then Some (1024 ^ 5)%Z
  else if decide (unit = "E") then Some (1024 ^ 6)%Z
  else None.

(** [CacheConfig._convert_to_bytes]; [py_float] is [float(s)] as the rational
    number it denotes.  Multiplying a float by a power of two is exact, and
    [int] truncates toward zero. *)
Definition convert_to_bytes (py_float : string -> option Q) (size_str : string) : res Z :=
  match size_str with
  | EmptyString => Err IndexError
  | _ =>
      let n := String.length size_str - 1 in
      let unit := upper (str_drop n size_str) in
      let numeric_part := str_take n size_str in
      let size :=
        if has_char dot numeric_part then py_float numeric_part
        else inject_Z <$> py_int numeric_part in
      match size with
      | None => Err ValueError
      | Some q =>
          match conversion_factor unit with
          | None => Err ValueError
          | Some f => Ok (Z.quot (Qnum q * f) (Zpos (Qden q)))
          end
      end
  end.

(** *** [cache_item.py] *)
Record CacheItem := mkCacheItem {
  file_path : string;
  file_size : Z;
  atime : Z;
  mtime : Z;
  hashed_key : string;
}.

(** *** [eviction_policy.py] *)
Inductive EvictionPolicy := LRU | MRU | FIFO | RANDOM | NO_EVICTION.

(** [EvictionPolicyFactory.create] and [_check_if_eviction_policy_is_valid] *)
Definition policy_map (p : string) : option EvictionPolicy :=
  if decide (p = "lru") then Some LRU
  else if decide (p = "mru") then Some MRU
  else if decide (p = "fifo") then Some FIFO
  else if decide (p = "random") then Some RANDOM
  else if decide (p = "no_eviction") then Some NO_EVICTION
  else None.
Definition create_policy (policy_type : string) : res EvictionPolicy :=
  match policy_map (lower policy_type) with
  | Some p => Ok p
  | None => Err ValueError
  end.
Definition eviction_policy_is_valid (p : string) : bool :=
  bool_decide (lower p ∈ ["lru"; "mru"; "fifo"; "random"; "no_eviction"]).

Definition sort_items_lru (items : list CacheItem) : list CacheItem :=
  sort_by (fun a b => (atime a <=? atime b)%Z) items.
(** [reverse=True] keeps the order of equal elements. *)
Definition sort_items_mru (items : list CacheItem) : list CacheItem :=
  sort_by (fun a b => (atime b <=? atime a)%Z) items.
Definition sort_items_fifo (items : list CacheItem) : list CacheItem :=
  sort_by (fun a b => (mtime a <=? mtime b)%Z) items.
Definition sort_items_random (shuffle : list CacheItem -> list CacheItem)
    (items : list CacheItem) : list CacheItem :=
  let sorted := sort_items_fifo items in
  match last sorted with
  | None => sorted
  | Some newest =>
      if (1 <? length sorted)%nat
      then shuffle (take (length sorted - 1) sorted) ++ [newest]
      else sorted
  end.

(** [self._eviction_policy.sort_items(cache_items)] *)
Definition sort_items (shuffle : list CacheItem -> list CacheItem) (p : EvictionPolicy)
    (items : list CacheItem) : list CacheItem :=
  match p with
  | LRU => sort_items_lru items
  | MRU => sort_items_mru items
  | FIFO => sort_items_fifo items
  | RANDOM => sort_items_random shuffle items
  | NO_EVICTION => items
  end.

(** *** The eviction loop of [CacheManager.evict_files] *)

(** Binary64. *)
Definition float_of_Z (z : Z) : spec_float := binary_normalize 53 1024 z 0 false.
Definition fsub := SFsub 53 1024.
Definition fmul := SFmul 53 1024.
Definition fdiv := SFdiv 53 1024.

(** [n > f] for an [int] and a [float]: exact *)
Definition Z_gt_float (n : Z) (f : spec_float) : bool :=
  match f with
  | S754_zero _ => (0 <? n)%Z
  | S754_infinity s => s
  | S754_nan => false
  | S754_finite s m e =>
      let v := (if s then Z.neg m else Z.pos m) in
      if (0 <=? e)%Z then (v * 2 ^ e <? n)%Z else (v <? n * 2 ^ (- e))%Z
  end.

(** [self._max_cache_size * (1.0 - purge_factor / 100.0)] *)
Definition target_size (max_cache_size purge_factor : Z) : spec_float :=
  fmul (float_of_Z max_cache_size)
       (fsub (float_of_Z 1) (fdiv (float_of_Z purge_factor) (float_of_Z 100))).

(** [cache[path] = size] on an [OrderedDict] *)
Fixpoint od_set (cache : list (string * Z)) (k : string) (v : Z) : list (string * Z) :=
  match cache with
  | [] => [(k, v)]
  | (k', v') :: c => if decide (k = k') then (k', v) :: c else (k', v') :: od_set c k v
  end.

(** The dictionary and the total size rebuilt from the sorted items. *)
Definition rebuild_cache (items : list CacheItem) : list (string * Z) * Z :=
  fold_left (fun '(c, n) it => (od_set c (file_path it) (file_size it), (n + file_size it)%Z))
            items ([], 0%Z).

(** [while cache_size > target_size and cache]: the paths deleted, and what
    remains of the dictionary and of the size *)
Fixpoint evict_loop (target : spec_float) (cache : list (string * Z)) (cache_size : Z)
    : list string * (list (string * Z) * Z) :=
  match cache with
  | [] => ([], ([], cache_size))
  | (p, n) :: c =>
      if Z_gt_float cache_size target then
        let '(ps, r) := evict_loop target c (cache_size - n) in (p :: ps, r)
      else ([], (cache, cache_size))
  end.

(** The paths [evict_files] deletes, in order. *)
Definition evict_plan (shuffle : list CacheItem -> list CacheItem) (p : EvictionPolicy)
    (max_cache_size purge_factor : Z) (items : list CacheItem)
    : list string * (list (string * Z) * Z) :=
  let '(cache, cache_size) := rebuild_cache (sort_items shuffle p items) in
  if (max_cache_size <? cache_size)%Z
  then evict_loop (target_size max_cache_size purge_factor) cache cache_size
  else ([], (cache, cache_size)).

(** ** Theorems *)

(** The documentation of [_convert_to_bytes] gives [200K] as an example. *)
Theorem convert_to_bytes_K_rejected (py_float : string -> option Q) :
  convert_to_bytes py_float "200K" = Err ValueError /\
  convert_to_bytes py_float "200M" = Ok 209715200%Z.
Proof. split; vm_compute; reflexivity. Qed.

(** A policy name is accepted by the constructor's check iff the factory can
    build the policy, for every spelling. *)
Lemma policy_check_spec (p : string) :
  eviction_policy_is_valid p = is_ok (create_policy p).
Proof.
  unfold eviction_policy_is_valid, create_policy, policy_map.
  generalize (lower p) as q. intros q.
  destruct (decide (q = "lru")) as [->|]; [reflexivity|].
  destruct (decide (q = "mru")) as [->|]; [reflexivity|].
  destruct (decide (q = "fifo")) as [->|]; [reflexivity|].
  destruct (decide (q = "random")) as [->|]; [reflexivity|].
  destruct (decide (q = "no_eviction")) as [->|]; [reflexivity|].
  apply bool_decide_eq_false_2. set_solver.
Qed.

Lemma Zle_total_b (f : CacheItem -> Z) x y : (f x <=? f y)%Z = true \/ (f y <=? f x)%Z = true.
Proof. rewrite !Z.leb_le. lia. Qed.
Lemma Zle_trans_b (f : CacheItem -> Z) x y z :
  (f x <=? f y)%Z = true -> (f y <=? f z)%Z = true -> (f x <=? f z)%Z = true.
Proof. rewrite !Z.leb_le. lia. Qed.
#[export] Hint Resolve Zle_total_b Zle_trans_b : py.

Section Evict.
Context (shuffle : list CacheItem -> list CacheItem).
Hypothesis shuffle_perm : forall l, shuffle l ≡ₚ l.

Lemma sort_items_perm p items : sort_items shuffle p items ≡ₚ items.
Proof using shuffle_perm.
  destruct p; try apply sort_by_perm; [|done].
  unfold sort_items, sort_items_random.
  destruct (last (sort_items_fifo items)) as [x|] eqn:E; [|apply sort_by_perm].
  destruct (1 <? length (sort_items_fifo items))%nat; [|apply sort_by_perm].
  rewrite shuffle_perm.
  apply last_Some in E as [l E]. rewrite E, length_app. cbn [length].
  replace (length l + 1 - 1) with (length l) by lia. rewrite take_app_length, <- E.
  apply sort_by_perm.
Qed.
End Evict.

Lemma od_set_fresh c k v : k ∉ c.*1 -> od_set c k v = c ++ [(k, v)].
Proof.
  induction c as [|[k' v'] c IH]; [done|]. cbn. intros H.
  rewrite decide_False by set_solver. f_equal. apply IH. set_solver.
Qed.

Lemma rebuild_cache_spec items :
  NoDup (map file_path items) ->
  rebuild_cache items =
    (map (fun it => (file_path it, file_size it)) items, Zsum (map file_size items)).
Proof.
  unfold rebuild_cache. intros Hnd.
  assert (forall pre n, NoDup (pre.*1 ++ map file_path items) ->
    fold_left (fun '(c, n) it => (od_set c (file_path it) (file_size it), (n + file_size it)%Z))
      items (pre, n) =
    (pre ++ map (fun it => (file_path it, file_size it)) items,
     (n + Zsum (map file_size items))%Z)) as H.
  { clear Hnd. induction items as [|it items IH]; intros pre n Hnd; cbn.
    { rewrite app_nil_r. f_equal. lia. }
    rewrite od_set_fresh.
    2:{ apply NoDup_app in Hnd as (_ & H & _). intros Hin. apply (H _ Hin). cbn. set_solver. }
    rewrite IH, <- app_assoc; [cbn; f_equal; lia|].
    rewrite fmap_app, <- app_assoc. exact Hnd. }
  rewrite H; [done|exact Hnd].
Qed.

(** The entry of the dictionary for an item. *)
Definition entry (it : CacheItem) : string * Z := (file_path it, file_size it).

(** The loop deletes a prefix: just enough of it. *)
Lemma evict_loop_spec target items n :
  exists ev kept,
    items = ev ++ kept /\
    evict_loop target (map entry items) n =
      (map file_path ev, (map entry kept, (n - Zsum (map file_size ev))%Z)) /\
    (kept = [] \/ Z_gt_float (n - Zsum (map file_size ev)) target = false) /\
    (forall ev' x rest, ev = ev' ++ x :: rest -> Z_gt_float (n - Zsum (map file_size ev')) target = true).
Proof.
  revert n. induction items as [|it items IH]; intros n.
  - exists [], []. cbn. rewrite Z.sub_0_r. split_and!; [done|done|by left|].
    intros ev' x rest H. by destruct ev'.
  - cbn [evict_loop map]. unfold entry at 1. destruct (Z_gt_float n target) eqn:E.
    + destruct (IH (n - file_size it)%Z) as (ev & kept & -> & Hrun & Hstop & Hmin).
      rewrite Hrun. exists (it :: ev), kept. cbn [map app Zsum].
      rewrite Z.sub_add_distr. split_and!; [done|done|done|].
      intros [|y ev'] x rest H; cbn in H |- *; [by rewrite Z.sub_0_r|].
      injection H as <- ->. rewrite Z.sub_add_distr. by apply (Hmin ev' x rest).
    + exists [], (it :: items). cbn [map app Zsum]. rewrite Z.sub_0_r.
      split_and!; [done|done|by right|]. intros ev' x rest H. by destruct ev'.
Qed.

(** Eviction deletes a prefix of the items in policy order and nothing when
    the cache fits; otherwise it goes on exactly until the remaining size is
    not above the target (or nothing is left), and no deletion was
    unnecessary. *)
Lemma evict_plan_spec (shuffle : list CacheItem -> list CacheItem) (p : EvictionPolicy)
    (max_cache_size purge_factor : Z) (items : list CacheItem)
    (Hshuffle : forall l, shuffle l ≡ₚ l) (Hnd : NoDup (map file_path items)) :
  let total := Zsum (map file_size items) in
  let target := target_size max_cache_size purge_factor in
  exists evicted kept,
    sort_items shuffle p items = evicted ++ kept /\
    evict_plan shuffle p max_cache_size purge_factor items =
      (map file_path evicted, (map entry kept, Zsum (map file_size kept))) /\
    ((total <= max_cache_size)%Z -> evicted = []) /\
    ((max_cache_size < total)%Z ->
       (kept = [] \/ Z_gt_float (Zsum (map file_size kept)) target = false) /\
       forall ev x rest, evicted = ev ++ x :: rest ->
         Z_gt_float (total - Zsum (map file_size ev)) target = true).
Proof.
  cbn zeta. pose proof (sort_items_perm shuffle Hshuffle p items) as Hperm.
  unfold evict_plan. set (sorted := sort_items shuffle p items) in *.
  rewrite <- (Zsum_perm _ _ (Permutation_map file_size Hperm)).
  rewrite rebuild_cache_spec by (by rewrite Hperm). fold (map entry sorted).
  destruct (max_cache_size <? Zsum (map file_size sorted))%Z eqn:E; bool_to_prop.
  2:{ exists [], sorted. split_and!; [done|done|done|lia]. }
  destruct (evict_loop_spec (target_size max_cache_size purge_factor) sorted
    (Zsum (map file_size sorted))) as (ev & kept & Hsplit & Hrun & Hstop & Hmin).
  assert (Zsum (map file_size sorted) - Zsum (map file_size ev) = Zsum (map file_size kept))%Z as Hk.
  { rewrite Hsplit, map_app, Zsum_app. lia. }
  rewrite Hk in *. exists ev, kept. change (map (fun it => _) sorted) with (map entry sorted).
  split_and!; [done|exact Hrun|lia|auto].
Qed.

Definition example_items : list CacheItem :=
  [mkCacheItem "/c/a" 40 3 1 "a"; mkCacheItem "/c/b" 50 1 2 "b"; mkCacheItem "/c/d" 30 2 3 "d"].

Lemma StronglySorted_split {A} (R : A -> A -> Prop) l1 l2 :
  StronglySorted R (l1 ++ l2) -> forall x y, x ∈ l1 -> y ∈ l2 -> R x y.
Proof. intros H. apply StronglySorted_app in H as [H _]. auto. Qed.

(** the policies evict what their names promise: under LRU no evicted item
    was accessed after a kept one, under MRU none before, under FIFO no evicted
    item is newer than a kept one, and under the random policy the newest item
    is evicted last. *)
Theorem policies_order (shuffle : list CacheItem -> list CacheItem) (items evicted kept : list CacheItem)
    (e k : CacheItem) (He : e ∈ evicted) (Hk : k ∈ kept) :
  (sort_items shuffle LRU items = evicted ++ kept -> (atime e <= atime k)%Z) /\
  (sort_items shuffle MRU items = evicted ++ kept -> (atime k <= atime e)%Z) /\
  (sort_items shuffle FIFO items = evicted ++ kept -> (mtime e <= mtime k)%Z) /\
  (sort_items shuffle RANDOM items = evicted ++ kept ->
     exists newest, last kept = Some newest /\ forall it, it ∈ items -> (mtime it <= mtime newest)%Z).
Proof.
  split_and!; intros H.
  - apply Z.leb_le. eapply (StronglySorted_split (fun a b => (atime a <=? atime b)%Z = true)); eauto.
    rewrite <- H. apply sort_by_sorted; eauto with py.
  - apply Z.leb_le. eapply (StronglySorted_split (fun a b => (atime b <=? atime a)%Z = true)); eauto.
    rewrite <- H. apply sort_by_sorted; eauto with py.
  - apply Z.leb_le. eapply (StronglySorted_split (fun a b => (mtime a <=? mtime b)%Z = true)); eauto.
    rewrite <- H. apply sort_by_sorted; eauto with py.
  - assert (forall x it, it ∈ items -> last (sort_items_fifo items) = Some x ->
      (mtime it <= mtime x)%Z) as Hlast.
    { intros x it Hit Hx. apply last_Some in Hx as [l Hl].
      assert (it ∈ l ++ [x]) as Hin by (rewrite <- Hl; unfold sort_items_fifo; by rewrite sort_by_perm).
      apply elem_of_app in Hin as [Hin|Hin]; [|set_solver].
      apply Z.leb_le. eapply (StronglySorted_split (fun a b => (mtime a <=? mtime b)%Z = true)
        l [x]); [|done|set_solver]. rewrite <- Hl. apply sort_by_sorted; eauto with py. }
    unfold sort_items, sort_items_random in H.
    destruct (last (sort_items_fifo items)) as [x|] eqn:E.
    + assert (last kept = Some x) as Hx.
      { destruct (last kept) as [z|] eqn:Ek; [|apply last_None in Ek; subst; set_solver].
        assert (last (evicted ++ kept) = Some z) as Hz by (by rewrite last_app, Ek).
        rewrite <- H in Hz. destruct (1 <? _)%nat; [rewrite last_snoc in Hz|]; congruence. }
      exists x. split; [done|]. intros it Hit. by apply Hlast.
    + apply last_None in E. rewrite E in H. destruct evicted; [set_solver|done].
Qed.

Lemma policies_order_witness :
  sort_items id LRU example_items =
    [mkCacheItem "/c/b" 50 1 2 "b"] ++ [mkCacheItem "/c/d" 30 2 3 "d"; mkCacheItem "/c/a" 40 3 1 "a"] /\
  (atime (mkCacheItem "/c/b" 50 1 2 "b") <= atime (mkCacheItem "/c/d" 30 2 3 "d"))%Z.
Proof.
  split; [reflexivity|].
  refine (proj1 (policies_order id example_items [mkCacheItem "/c/b" 50 1 2 "b"]
    [mkCacheItem "/c/d" 30 2 3 "d"; mkCacheItem "/c/a" 40 3 1 "a"] _ _
    (list_elem_of_here _ _) (list_elem_of_here _ _)) _).
  reflexivity.
Defined.
