(* ===== verification/Cache.v ===== *)
(** * The local file cache ([multistorageclient/cache.py])

    [CacheManager] over a local file system: whole-file caching, the
    chunk-based range cache, deletion and eviction.

    The file system is a map from paths to files (content, extended
    attributes, times, permission).  Directories are implicit, so that
    [safe_makedirs] has no effect here.  A temporary file has a fresh name, so
    it is a [file] value until [os.rename] or [os.replace] gives it its final
    path.  Lock files live in a set of their own: every scan of the code skips
    names ending in [.lock].  Operations run one after the other; a background
    refresh is scheduled by one operation and run as another.  The storage
    provider is a parameter. *)
From S2P Require Import Prelude PyPath Types Utils Eviction.

(** ** Definitions: the file system *)
Record file := mkFile {
  f_data : bytes;
  f_xattr : gmap string string;
  f_atime : Z;
  f_mtime : Z;
  f_writable : bool;
}.

Record world := mkWorld {
  fs : gmap string file;
  locks : gset string;
  now : Z;
  last_refresh_time : Z;
  refresh_scheduled : bool;
  refresh_lock_held : bool;
  xattr_supported : bool;
}.

Definition with_fs (f : gmap string file) (w : world) : world :=
  mkWorld f (locks w) (now w) (last_refresh_time w) (refresh_scheduled w)
    (refresh_lock_held w) (xattr_supported w).
Definition with_locks (l : gset string) (w : world) : world :=
  mkWorld (fs w) l (now w) (last_refresh_time w) (refresh_scheduled w)
    (refresh_lock_held w) (xattr_supported w).
Definition with_refresh (t : Z) (scheduled : bool) (w : world) : world :=
  mkWorld (fs w) (locks w) (now w) t scheduled (refresh_lock_held w) (xattr_supported w).

Definition path_exists (w : world) (p : string) : bool := bool_decide (is_Some (fs w !! p)).

Definition os_getsize (p : string) : M world Z :=
  fun w => match fs w !! p with
           | Some f => (Ok (Z.of_nat (length (f_data f))), w)
           | None => (Err FileNotFoundError, w)
           end.
Definition os_unlink (p : string) : M world unit :=
  fun w => match fs w !! p with
           | Some _ => (Ok tt, with_fs (delete p (fs w)) w)
           | None => (Err FileNotFoundError, w)
           end.
(** [os.rename] replaces an existing destination *)
Definition os_rename (src dst : string) : M world unit :=
  fun w => match fs w !! src with
           | Some f => (Ok tt, with_fs (<[dst := f]> (delete src (fs w))) w)
           | None => (Err FileNotFoundError, w)
           end.
(** Update the file at [p] in place. *)
Definition os_modify (p : string) (g : file -> file) : M world unit :=
  fun w => match fs w !! p with
           | Some f => (Ok tt, with_fs (<[p := g f]> (fs w)) w)
           | None => (Err FileNotFoundError, w)
           end.
Definition os_read (p : string) (off n : Z) : M world bytes :=
  fun w => match fs w !! p with
           | Some f => (Ok (slice (f_data f) off n), w)
           | None => (Err FileNotFoundError, w)
           end.
Definition os_read_all (p : string) : M world bytes :=
  fun w => match fs w !! p with
           | Some f => (Ok (f_data f), w)
           | None => (Err FileNotFoundError, w)
           end.

Definition set_mode (b : bool) (f : file) : file :=
  mkFile (f_data f) (f_xattr f) (f_atime f) (f_mtime f) b.
Definition set_atime (t : Z) (f : file) : file :=
  mkFile (f_data f) (f_xattr f) t (f_mtime f) (f_writable f).
Definition set_xattr (k v : string) (f : file) : file :=
  mkFile (f_data f) (<[k := v]> (f_xattr f)) (f_atime f) (f_mtime f) (f_writable f).

(** [xattr.getxattr] raises an [OSError] where the attribute or the support is missing *)
Definition getxattr (w : world) (p k : string) : res string :=
  match fs w !! p with
  | None => Err FileNotFoundError
  | Some f => if xattr_supported w
              then match f_xattr f !! k with Some v => Ok v | None => Err OSError end
              else Err OSError
  end.
Definition os_setxattr (p k v : string) : M world unit :=
  fun w => if xattr_supported w then os_modify p (set_xattr k v) w else (Err OSError, w).

(** A file just written by this process. *)
Definition new_file (w : world) (data : bytes) : file := mkFile data ∅ (now w) (now w) true.

(** ** Definitions: [CacheManager] *)
Module CacheManager.

(** The fields set by [__init__] that do not change afterwards. *)
Record cfg := mkCfg {
  cache_dir : string;
  profile : string;
  max_cache_size : Z;
  check_source_version : bool;
  prefetch_file : bool;
  eviction_policy : EvictionPolicyConfig;
  cache_line_size : Z;
}.

(** [__init__] up to the first refresh: sizes from the configuration, the
    absolute cache directory, and the check of the policy name *)
Definition init (py_float : string -> option QArith_base.Q) (cwd tempdir profile : string)
    (c : CacheConfig) : res cfg :=
  res_bind (convert_to_bytes py_float (cc_size c)) (fun max =>
  res_bind (convert_to_bytes py_float (cc_cache_line_size c)) (fun line =>
  let location := match cc_location c with
                  | Some l => if bool_decide (l = "") then path_join tempdir "msc-cache" else l
                  | None => path_join tempdir "msc-cache"
                  end in
  if eviction_policy_is_valid (policy (cc_eviction_policy c))
  then Ok (mkCfg (abspath cwd location) profile max (cc_check_source_version c)
             (cc_prefetch_file c) (cc_eviction_policy c) line)
  else Err ValueError)).

Definition get_cache_dir (c : cfg) : string := path_join (cache_dir c) (profile c).

(** [os.path.relpath(key, "/")] of an absolute key does not read the current
    directory *)
Definition get_cache_file_path (c : cfg) (key : string) : string :=
  let relative_key :=
    if isabs key then match relpath "/" key "/" with Ok r => r | Err _ => key end else key in
  path_join (get_cache_dir c) relative_key.

Definition get_file_size (w : world) (p : string) : option Z :=
  match os_getsize p w with (Ok n, _) => Some n | _ => None end.

Definition make_writable (p : string) : M world unit := os_modify p (set_mode true).
Definition make_readonly (p : string) : M world unit := os_modify p (set_mode false).

(** [_update_access_time]: the [finally] clause makes the file read-only again,
    and raises when the file is gone. *)
Definition update_access_time (p : string) : M world unit :=
  mfinally
    (mtry is_OSError
       (make_writable p ;;;
        (let! w := mget in os_modify p (set_atime (now w))))
       (fun _ => mret tt))
    (make_readonly p).

(** [_should_refresh_cache]: times are in microseconds *)
Definition should_refresh_cache (c : cfg) (w : world) : bool :=
  (refresh_interval (eviction_policy c) * 1000000 <? now w - last_refresh_time w)%Z.

(** [_schedule_refresh_if_needed]: starting the thread is recorded; the thread
    runs [run_refresh_cache] *)
Definition schedule_refresh_if_needed (c : cfg) : M world unit :=
  fun w => if negb (should_refresh_cache c w) then (Ok tt, w)
           else if refresh_scheduled w then (Ok tt, w)
           else (Ok tt, with_refresh (last_refresh_time w) true w).

(** [contains] *)
Definition contains (c : cfg) (w : world) (key : string) (mode : SourceVersionCheckMode)
    (source_version : option string) : bool :=
  let p := get_cache_file_path c key in
  if negb (path_exists w p) then false
  else if (match mode with
           | INHERIT => negb (check_source_version c)
           | DISABLE => true
           | ENABLE => false
           end) then true
  else match getxattr w p "user.etag" with
       | Ok stored => bool_decide (Some stored = source_version)
       | Err _ => false
       end.

(** [set]: the source is a local file to move, or bytes *)
Inductive source := FromPath (p : string) | FromBytes (b : bytes).
Definition set (c : cfg) (key : string) (src : source) (source_version : option string)
    : M world unit :=
  let p := get_cache_file_path c key in
  match src with
  | FromPath s => os_rename s p
  | FromBytes b => fun w => (Ok tt, with_fs (<[p := new_file w b]> (fs w)) w)
  end ;;;
  match source_version with
  | Some v => if bool_decide (v = "") then mret tt
              else mtry is_OSError (os_setxattr p "user.etag" v) (fun _ => mret tt)
  | None => mret tt
  end ;;;
  make_readonly p ;;;
  update_access_time p ;;;
  schedule_refresh_if_needed c.

(** [open]: the result is the content the returned file object reads *)
Definition open (c : cfg) (key : string) (source_version : option string)
    (mode : SourceVersionCheckMode) : M world (option bytes) :=
  fun w =>
  if contains c w key mode source_version then
    mtry is_OSError
      (update_access_time (get_cache_file_path c key) ;;;
       (let! d := os_read_all (get_cache_file_path c key) in mret (Some d)))
      (fun _ => mret None) w
  else (Ok None, w).

(** *** Deletion *)

(** [_delete_cache_file_at_path]: the file and its sibling lock file *)
Definition lock_path (p : string) : string :=
  path_join (dirname p) ("." +:+ basename p +:+ ".lock").
Definition delete_cache_file_at_path (p : string) : M world unit :=
  mtry is_OSError (os_unlink p) (fun _ => mret tt) ;;;
  (fun w => (Ok tt, with_locks (locks w ∖ {[lock_path p]}) w)).

(** [os.path.commonpath([root, p]) == root] for absolute paths in normal form *)
Definition under_root (root p : string) : bool :=
  bool_decide (take (length (components root)) (components p) = components root).

(** [_resolve_profile_cache_delete_path]; [realpath] is the normal form where
    the cache directory holds no symbolic links *)
Definition resolve_profile_cache_delete_path (c : cfg) (file_path : string) : res string :=
  if isabs file_path then Err ValueError
  else
    let normalized := normpath file_path in
    if bool_decide (normalized = "") || bool_decide (normalized = ".") then Err ValueError
    else
      let root := normpath (get_cache_dir c) in
      let abs_path := normpath (path_join root normalized) in
      if negb (under_root root abs_path) || bool_decide (abs_path = root) then Err ValueError
      else Ok abs_path.

Definition delete_file (c : cfg) (file_path : string) : M world unit :=
  let! p := mlift (resolve_profile_cache_delete_path c file_path) in
  delete_cache_file_at_path p.
Definition delete (c : cfg) (key : string) : M world unit := delete_file c key.

(** *** Eviction *)

(** The paths of [os.walk(self._cache_dir)] *)
Definition walk (c : cfg) (w : world) : list (string * file) :=
  filter (fun pf => startswith pf.1 (cache_dir c +:+ "/") = true) (map_to_list (fs w)).

(** Lock files and hidden files that are not chunks are skipped. *)
Definition evictable_name (name : string) : bool :=
  negb (endswith name ".lock") && negb (startswith name "." && negb (has_substr "#chunk" name)).

(** The items [evict_files] collects: files of size zero are ignored *)
Definition cache_items (c : cfg) (w : world) : list CacheItem :=
  map (fun pf => mkCacheItem pf.1 (Z.of_nat (length (f_data pf.2))) (f_atime pf.2) (f_mtime pf.2)
                   (match relpath "/" pf.1 (get_cache_dir c) with Ok r => r | Err _ => pf.1 end))
    (filter (fun pf => evictable_name (basename pf.1) = true /\ f_data pf.2 <> []) (walk c w)).

Definition evict_files (shuffle : list CacheItem -> list CacheItem) (c : cfg) : M world unit :=
  fun w =>
  match create_policy (policy (eviction_policy c)) with
  | Err e => (Err e, w)
  | Ok p =>
      let '(evicted, _) :=
        evict_plan shuffle p (max_cache_size c) (purge_factor (eviction_policy c)) (cache_items c w) in
      mfor evicted delete_cache_file_at_path w
  end.

(** [cache_size] *)
Definition cache_size (c : cfg) (w : world) : Z :=
  Zsum (map (fun pf => Z.of_nat (length (f_data pf.2)))
    (filter (fun pf => endswith (basename pf.1) ".lock" = false) (walk c w))).

(** [refresh_cache]: skipped without eviction; gives up when another process
    holds the refresh lock *)
Definition refresh_cache (shuffle : list CacheItem -> list CacheItem) (c : cfg) : M world bool :=
  fun w =>
  if bool_decide (lower (policy (eviction_policy c)) = "no_eviction")
  then (Ok true, with_refresh (now w) (refresh_scheduled w) w)
  else if refresh_lock_held w then (Ok false, w)
  else (evict_files shuffle c ;;;
        (fun w' => (Ok true, with_refresh (now w') (refresh_scheduled w') w'))) w.

(** [_run_refresh_cache]: the body of the refresh thread *)
Definition run_refresh_cache (shuffle : list CacheItem -> list CacheItem) (c : cfg) : M world unit :=
  mfinally (refresh_cache shuffle c ;;; mret tt)
    (fun w => (Ok tt, with_refresh (last_refresh_time w) false w)).

(** *** The range cache *)

Definition get_chunk_path (cache_path : string) (chunk_idx : Z) : string :=
  path_join (dirname cache_path) ("." +:+ basename cache_path +:+ "#chunk" +:+ pretty chunk_idx).

Definition remove_invalid_chunk (p : string) : M world unit :=
  mtry is_OSError (os_unlink p) (fun _ => mret tt).

(** The two attributes a valid chunk carries. *)
Definition chunk_attributes_match (w : world) (p v : string) (line : Z) : bool :=
  match getxattr w p "user.etag" with
  | Ok e =>
      match getxattr w p "user.cache_line_size" with
      | Ok s => match py_int s with
                | Some n => bool_decide (e = v) && (n =? line)%Z
                | None => false
                end
      | Err _ => false
      end
  | Err _ => false
  end.

(** [_is_chunk_valid]: an invalid chunk is removed *)
Definition is_chunk_valid (p : string) (source_version : option string) (line : Z) : M world bool :=
  fun w =>
  if negb (path_exists w p) then (Ok false, w)
  else match source_version with
       | None => (Ok true, w)
       | Some v =>
           if bool_decide (v = "") then (Ok true, w)
           else if chunk_attributes_match w p v line then (Ok true, w)
           else (remove_invalid_chunk p ;;; mret false) w
       end.

Fixpoint identify_loop (cache_path : string) (idxs : list Z) (line : Z)
    (source_version : option string) : M world (list Z) :=
  match idxs with
  | [] => mret []
  | i :: idxs' =>
      let! valid := is_chunk_valid (get_chunk_path cache_path i) source_version line in
      let! rest := identify_loop cache_path idxs' line source_version in
      mret (if valid then rest else i :: rest)
  end.
Definition identify_missing_chunks (cache_path : string) (start_chunk end_chunk line : Z)
    (source_version : option string) : M world (list Z) :=
  identify_loop cache_path (Zrange start_chunk end_chunk) line source_version.

(** [_set_chunk_metadata] on the temporary file: best effort *)
Definition set_chunk_metadata (w : world) (source_version : option string) (line : Z)
    (object_size : option Z) (f : file) : file :=
  if xattr_supported w then
    let f1 := match source_version with
              | Some v => if bool_decide (v = "") then f else set_xattr "user.etag" v f
              | None => f
              end in
    let f2 := set_xattr "user.cache_line_size" (pretty line) f1 in
    match object_size with
    | Some n => set_xattr "user.size" (pretty n) f2
    | None => f2
    end
  else f.

(** [_write_chunk_to_cache]: a short chunk implies the object size *)
Definition chunk_object_size (source_size : option Z) (chunk_idx line : Z) (data : bytes) : option Z :=
  match source_size with
  | Some n => Some n
  | None => if (Z.of_nat (length data) <? line)%Z
            then Some (chunk_idx * line + Z.of_nat (length data))%Z else None
  end.
Definition write_chunk_to_cache (chunk_path : string) (data : bytes)
    (source_version : option string) (chunk_idx line : Z) (source_size : option Z) : M world unit :=
  fun w =>
  let tmp := set_chunk_metadata w source_version line
               (chunk_object_size source_size chunk_idx line data) (new_file w data) in
  (Ok tt, with_fs (<[chunk_path := tmp]> (fs w)) w).

(** [_handle_chunk0_renaming] *)
Definition handle_chunk0_renaming (cache_path chunk_path : string) (chunk_idx line : Z)
    : M world unit :=
  fun w =>
  if (chunk_idx =? 0)%Z && negb (path_exists w cache_path) then
    mtry is_OSError
      (let! n := os_getsize chunk_path in
       if (n <? line)%Z then os_rename chunk_path cache_path else mret tt)
      (fun _ => mret tt) w
  else (Ok tt, w).

(** [_update_chunk_access_time] *)
Definition update_chunk_access_time (cache_path chunk_path : string) (chunk_idx : Z) : M world unit :=
  fun w =>
  if (chunk_idx =? 0)%Z && path_exists w cache_path && negb (path_exists w chunk_path)
  then update_access_time cache_path w
  else update_access_time chunk_path w.

(** What the range cache asks of a storage provider. *)
Definition get_object_fn := string -> Range -> res bytes.

Definition fetch_and_cache_chunk (c : cfg) (get_object : get_object_fn) (cache_path original_key : string)
    (chunk_idx line : Z) (source_version : option string) (source_size : option Z) : M world unit :=
  let chunk_path := get_chunk_path cache_path chunk_idx in
  let! data := mlift (get_object original_key (mkRange (chunk_idx * line) line)) in
  write_chunk_to_cache chunk_path data source_version chunk_idx line source_size ;;;
  handle_chunk0_renaming cache_path chunk_path chunk_idx line ;;;
  update_chunk_access_time cache_path chunk_path chunk_idx ;;;
  schedule_refresh_if_needed c.

(** [acquire_lock(f"{cache_path}#chunk{idx}")] creates the lock file, and
    [_cleanup_lock_file] removes it *)
Definition acquire_lock_path (c : cfg) (key : string) : string :=
  path_join (dirname (path_join (get_cache_dir c) key)) ("." +:+ basename key +:+ ".lock").
Definition download_single_chunk (c : cfg) (get_object : get_object_fn)
    (cache_path original_key : string) (chunk_idx line : Z)
    (source_version : option string) (source_size : option Z) : M world unit :=
  let lock_key := cache_path +:+ "#chunk" +:+ pretty chunk_idx in
  (fun w => (Ok tt, with_locks ({[acquire_lock_path c lock_key]} ∪ locks w) w)) ;;;
  (fun w =>
     if path_exists w (get_chunk_path cache_path chunk_idx) then (Ok tt, w)
     else (fetch_and_cache_chunk c get_object cache_path original_key chunk_idx line
             source_version source_size ;;;
           (fun w' => (Ok tt, with_locks (locks w' ∖ {[lock_path lock_key]}) w'))) w).

Definition download_missing_chunks (c : cfg) (get_object : get_object_fn)
    (cache_path original_key : string) (start_chunk end_chunk line : Z)
    (source_version : option string) (source_size : option Z) : M world unit :=
  let! missing := identify_missing_chunks cache_path start_chunk end_chunk line source_version in
  mfor missing (fun i =>
    download_single_chunk c get_object cache_path original_key i line source_version source_size).

(** [_get_chunk_object_size] *)
Definition get_chunk_object_size (w : world) (p : string) : option Z :=
  match getxattr w p "user.size" with Ok s => py_int s | Err _ => None end.

(** The body of the loop of [_assemble_result_from_chunks] for one chunk: the
    bytes it contributes *)
Definition assemble_chunk (cache_path : string) (line : Z) (r : Range) (chunk_idx : Z) : M world bytes :=
  fun w =>
  let chunk_path := get_chunk_path cache_path chunk_idx in
  let actual := if (chunk_idx =? 0)%Z && path_exists w cache_path && negb (path_exists w chunk_path)
                then cache_path else chunk_path in
  let chunk_start := (chunk_idx * line)%Z in
  let chunk_end := (chunk_start + line - 1)%Z in
  let overlap_start := Z.max (offset r) chunk_start in
  let overlap_end := Z.min (offset r + size r - 1) chunk_end in
  if (overlap_start <=? overlap_end)%Z then
    let chunk_offset := (overlap_start - chunk_start)%Z in
    let len := (overlap_end - overlap_start + 1)%Z in
    let read_exactly (expected : Z) : M world bytes :=
      let! data := os_read actual chunk_offset expected in
      if (Z.of_nat (length data) =? expected)%Z then mret data
      else (remove_invalid_chunk actual ;;; mraise OSError) in
    (let! file_size := os_getsize actual in
     if (file_size <? chunk_offset + len)%Z then
       match get_chunk_object_size w actual with
       | None => remove_invalid_chunk actual ;;; mraise OSError
       | Some object_size =>
           if (file_size <? Z.min line (Z.max (object_size - chunk_start) 0))%Z
           then (remove_invalid_chunk actual ;;; mraise OSError)
           else
             let expected := Z.max (Z.min len (object_size - overlap_start)) 0 in
             if (expected =? 0)%Z then mret [] else read_exactly expected
       end
     else read_exactly len) w
  else (Ok [], w).

Fixpoint assemble_loop (cache_path : string) (line : Z) (r : Range) (idxs : list Z) : M world bytes :=
  match idxs with
  | [] => mret []
  | i :: idxs' =>
      let! d := assemble_chunk cache_path line r i in
      let! rest := assemble_loop cache_path line r idxs' in
      mret (d ++ rest)
  end.
Definition assemble_result_from_chunks (cache_path : string) (start_chunk end_chunk line : Z)
    (r : Range) : M world bytes :=
  assemble_loop cache_path line r (Zrange start_chunk end_chunk).

(** [_invalidate_chunks]: every file named [.{base}#chunk*] beside the cached file *)
Definition is_chunk_of (cache_path p : string) : bool :=
  bool_decide (dirname p = dirname cache_path) &&
  startswith (basename p) ("." +:+ basename cache_path +:+ "#chunk").
Definition invalidate_chunks (cache_path : string) : M world unit :=
  fun w => (Ok tt, with_fs (filter (fun pf => is_chunk_of cache_path pf.1 = false) (fs w)) w).

(** [_read_range_from_full_cached_file] *)
Definition read_range_from_full_cached_file (cache_path : string) (r : Range)
    (source_version : option string) : M world (option bytes) :=
  fun w =>
  if path_exists w cache_path then
    mtry is_OSError
      (let! cached_etag := mlift (getxattr w cache_path "user.etag") in
       if bool_decide (Some cached_etag = source_version) || bool_decide (source_version = None) then
         let! data := os_read cache_path (offset r) (size r) in
         update_access_time cache_path ;;; mret (Some data)
       else mret None)
      (fun _ => mret None) w
  else (Ok None, w).

(** [_read_range] *)
Definition read_range (c : cfg) (get_object : get_object_fn) (cache_path : string) (r : Range)
    (source_version : option string) (source_size : option Z) (original_key : string) : M world bytes :=
  let line := cache_line_size c in
  if (line =? 0)%Z then mraise ZeroDivisionError else
  let start_chunk := (offset r / line)%Z in
  let end_chunk := ((offset r + size r - 1) / line)%Z in
  mtry (fun _ => true)
    (download_missing_chunks c get_object cache_path original_key start_chunk end_chunk line
       source_version source_size ;;;
     assemble_result_from_chunks cache_path start_chunk end_chunk line r)
    (fun _ =>
       match source_size with
       | Some n =>
           let remaining := (n - offset r)%Z in
           if (remaining <=? 0)%Z then mret []
           else mlift (get_object original_key (mkRange (offset r) (Z.min (size r) remaining)))
       | None => mlift (get_object original_key r)
       end).

(** [read] *)
Definition read (c : cfg) (get_object : get_object_fn) (key : string) (source_version : option string)
    (byte_range : option Range) (source_size : option Z) : M world (option bytes) :=
  fun w =>
  let p := get_cache_file_path c key in
  match byte_range with
  | Some r =>
      (let! full := read_range_from_full_cached_file p r source_version in
       match full with
       | Some d => mret (Some d)
       | None => let! d := read_range c get_object p r source_version source_size key in mret (Some d)
       end) w
  | None =>
      if contains c w key INHERIT source_version then
        mtry is_OSError
          (let! d := os_read_all p in update_access_time p ;;; mret (Some d))
          (fun _ => mret None) w
      else (Ok None, w)
  end.
End CacheManager.
