(* ===== verification/RangeCache.v ===== *)
(** * Correctness of the cache

    The main theorem: a range read through the cache returns exactly the
    requested bytes of the source object, whatever mix of full file, chunks,
    stale entries and missing extended attributes the cache holds, and leaves
    the cache coherent.  Then: whole-file round trips, containment of
    deletions, and eviction. *)
From S2P Require Import Prelude PyPath Types Utils Eviction Cache.
Import CacheManager.

(** ** Paths of chunks *)
Definition chunk_name (base : string) (i : Z) : string := "." +:+ base +:+ "#chunk" +:+ pretty i.

Lemma chunk_name_no_slash base i :
  (0 <= i)%Z -> has_char slash base = false -> has_char slash (chunk_name base i) = false.
Proof.
  intros Hi Hb. unfold chunk_name. rewrite !has_char_app, Hb, pretty_no_slash by done. done.
Qed.

Lemma basename_chunk_path p i :
  (0 <= i)%Z -> basename (get_chunk_path p i) = chunk_name (basename p) i.
Proof.
  intros Hi. unfold get_chunk_path. apply path_join_name.
  apply chunk_name_no_slash; [done|apply basename_no_char].
Qed.

Lemma chunk_path_inj p i j :
  (0 <= i)%Z -> (0 <= j)%Z -> get_chunk_path p i = get_chunk_path p j -> i = j.
Proof.
  intros Hi Hj H%(f_equal basename). rewrite !basename_chunk_path in H by done.
  unfold chunk_name in H. do 3 apply str_app_inj_l in H. by apply (inj pretty) in H.
Qed.

Lemma chunk_path_ne p i : (0 <= i)%Z -> get_chunk_path p i <> p.
Proof.
  intros Hi H%(f_equal basename). rewrite basename_chunk_path in H by done.
  apply (f_equal String.length) in H. unfold chunk_name in H.
  rewrite !str_length_app in H. cbn in H. lia.
Qed.

(** ** Touching a file keeps its content *)
Definition touched (t : Z) (f : file) : file := set_mode false (set_atime t (set_mode true f)).

Lemma update_access_time_spec p w f :
  fs w !! p = Some f ->
  exists m, update_access_time p w = (Ok tt, with_fs m w) /\
    m !! p = Some (touched (now w) f) /\ forall q, q <> p -> m !! q = fs w !! q.
Proof.
  intros H. unfold update_access_time, mfinally, mtry, make_writable, make_readonly, mbind, os_modify.
  rewrite H. cbn. rewrite lookup_insert_eq. cbn. rewrite lookup_insert_eq.
  eexists. split; [reflexivity|]. split; [by rewrite lookup_insert_eq|].
  intros q Hq. by rewrite !lookup_insert_ne.
Qed.

(** Updating the access time of a file that another process has deleted
    raises, although the handler is written to continue: the [finally] clause
    changes the mode of the missing file. *)
Theorem update_access_time_missing (w : world) (p : string) :
  fs w !! p = None -> update_access_time p w = (Err FileNotFoundError, w).
Proof.
  intros H. unfold update_access_time, mfinally, mtry, make_writable, make_readonly, mbind, os_modify.
  rewrite H. cbn. by rewrite H.
Qed.

Definition empty_world : world := mkWorld ∅ ∅ 0 0 false false true.

Lemma update_access_time_missing_witness :
  update_access_time "/cache/gone" empty_world = (Err FileNotFoundError, empty_world).
Proof. apply update_access_time_missing. reflexivity. Defined.

(** ** Coherence with a source object *)
Section RangeCache.
Context (c : cfg) (get_object : get_object_fn) (key : string) (obj : bytes) (v : string).
Let line := cache_line_size c.
Let L := Z.of_nat (length obj).
Context (p : string).
Hypothesis line_pos : (0 < cache_line_size c)%Z.
Hypothesis v_ne : v <> "".
(** The provider reads the object; past its end it returns nothing or raises. *)
Hypothesis provider_reads : forall off n, (0 <= off)%Z -> (0 < n)%Z ->
  get_object key (mkRange off n) = Ok (slice obj off n) \/
  ((Z.of_nat (length obj) <= off)%Z /\ exists e, get_object key (mkRange off n) = Err e).

(** A chunk file holds its part of the object, and the object size recorded
    with it, if any, is the object's (or the chunk starts past the end). *)
Definition chunk_good (i : Z) (f : file) : Prop :=
  f_data f = slice obj (i * line) line /\
  forall s z, f_xattr f !! "user.size" = Some s -> py_int s = Some z ->
    z = L \/ ((L <= i * line)%Z /\ z = (i * line)%Z).

(** The files that carry the version [v] agree with the object. *)
Definition coherent (w : world) : Prop :=
  (forall i f s, (0 <= i)%Z -> fs w !! get_chunk_path p i = Some f ->
     f_xattr f !! "user.etag" = Some v -> f_xattr f !! "user.cache_line_size" = Some s ->
     py_int s = Some line -> chunk_good i f) /\
  (forall f, fs w !! p = Some f -> f_xattr f !! "user.etag" = Some v -> f_data f = obj).

(** The file the assembly step reads for chunk [i]. *)
Definition actual (w : world) (i : Z) : string :=
  if (i =? 0)%Z && path_exists w p && negb (path_exists w (get_chunk_path p i))
  then p else get_chunk_path p i.
Definition available (w : world) (i : Z) : Prop :=
  exists f, fs w !! actual w i = Some f /\ chunk_good i f.

Lemma path_exists_true w q : path_exists w q = true <-> is_Some (fs w !! q).
Proof. apply bool_decide_eq_true. Qed.
Lemma path_exists_false w q : path_exists w q = false <-> fs w !! q = None.
Proof. unfold path_exists. rewrite bool_decide_eq_false. symmetry. apply eq_None_not_Some. Qed.

(** Removing files keeps the cache coherent. *)
Lemma coherent_delete w w' :
  coherent w -> (forall q f, fs w' !! q = Some f -> fs w !! q = Some f) -> coherent w'.
Proof. intros [H1 H2] Hsub. split; eauto. Qed.

Lemma remove_invalid_chunk_spec q w :
  exists w', remove_invalid_chunk q w = (Ok tt, w') /\ fs w' = base.delete q (fs w) /\
    xattr_supported w' = xattr_supported w.
Proof.
  unfold remove_invalid_chunk, mtry, os_unlink. destruct (fs w !! q) eqn:E; cbn.
  - by eexists.
  - exists w. by rewrite delete_id.
Qed.

Lemma delete_sub (m : gmap string file) q r f : base.delete q m !! r = Some f -> m !! r = Some f.
Proof. by intros [_ H]%lookup_delete_Some. Qed.

(** *** Identifying the missing chunks *)
Lemma attributes_match_good w i f :
  (0 <= i)%Z -> coherent w -> fs w !! get_chunk_path p i = Some f ->
  chunk_attributes_match w (get_chunk_path p i) v line = true -> chunk_good i f.
Proof.
  intros Hi [H1 _] Hf. unfold chunk_attributes_match, getxattr. rewrite Hf.
  destruct (xattr_supported w); [|done].
  destruct (f_xattr f !! "user.etag") as [e|] eqn:Ee; [|done].
  destruct (f_xattr f !! "user.cache_line_size") as [s|] eqn:Es; [|done].
  destruct (py_int s) as [n|] eqn:En; [|done].
  intros [He%bool_decide_eq_true Hn%Z.eqb_eq]%andb_true_iff. subst. eauto.
Qed.

Lemma is_chunk_valid_spec i w :
  (0 <= i)%Z -> coherent w ->
  exists b w', is_chunk_valid (get_chunk_path p i) (Some v) line w = (Ok b, w') /\
    coherent w' /\ fs w' = (if b then fs w else base.delete (get_chunk_path p i) (fs w)) /\
    (b = true -> exists f, fs w !! get_chunk_path p i = Some f /\ chunk_good i f).
Proof.
  intros Hi Hc. unfold is_chunk_valid. destruct (path_exists w (get_chunk_path p i)) eqn:E; cbn [negb].
  - apply path_exists_true in E as [f Hf]. rewrite bool_decide_eq_false_2 by done.
    destruct (chunk_attributes_match w (get_chunk_path p i) v line) eqn:Em.
    + exists true, w. split_and!; [done|done|done|]. intros _. exists f. split; [done|].
      by eapply attributes_match_good.
    + destruct (remove_invalid_chunk_spec (get_chunk_path p i) w) as (w' & Hr & Hfs & _).
      unfold mbind. rewrite Hr. exists false, w'. cbn. split_and!; [done| |done|done].
      eapply coherent_delete; [exact Hc|]. rewrite Hfs. intros. by eapply delete_sub.
  - exists false, w. split_and!; [done|done| |done]. apply path_exists_false in E.
    by rewrite delete_id.
Qed.

(** After identification a chunk of the range is good, or listed and absent. *)
Lemma identify_loop_spec idxs w :
  NoDup idxs -> Forall (fun i => 0 <= i)%Z idxs -> coherent w ->
  exists missing w', identify_loop p idxs line (Some v) w = (Ok missing, w') /\ coherent w' /\
    NoDup missing /\ (forall i, i ∈ missing -> i ∈ idxs /\ fs w' !! get_chunk_path p i = None) /\
    (forall i, i ∈ idxs -> i ∉ missing ->
       exists f, fs w' !! get_chunk_path p i = Some f /\ chunk_good i f) /\
    (forall j, (0 <= j)%Z -> j ∉ idxs -> fs w' !! get_chunk_path p j = fs w !! get_chunk_path p j).
Proof.
  intros Hnd Hpos. revert w. induction idxs as [|i idxs IH]; intros w Hc.
  { exists [], w. cbn. split_and!; try done; try constructor; set_solver. }
  apply NoDup_cons in Hnd as [Hni Hnd]. inversion Hpos as [|? ? Hi Hpos']; subst.
  destruct (is_chunk_valid_spec i w Hi Hc) as (b & w1 & Hv & Hc1 & Hfs & Hb).
  destruct (IH Hnd Hpos' w1 Hc1) as (ms & w2 & Hl & Hc2 & Hndm & Hm & Hg & Ho).
  cbn [identify_loop]. unfold mbind, mret. rewrite Hv, Hl.
  assert (fs w2 !! get_chunk_path p i = fs w1 !! get_chunk_path p i) as Hsame by auto.
  rewrite Forall_forall in Hpos'.
  assert (forall j, (0 <= j)%Z -> j <> i ->
    fs w1 !! get_chunk_path p j = fs w !! get_chunk_path p j) as Hother.
  { intros j Hj Hne. rewrite Hfs. destruct b; [done|]. apply lookup_delete_ne.
    intros H. apply Hne. symmetry. by eapply chunk_path_inj. }
  exists (if b then ms else i :: ms), w2. split; [done|]. split; [done|].
  assert (forall j, (0 <= j)%Z -> j ∉ i :: idxs ->
    fs w2 !! get_chunk_path p j = fs w !! get_chunk_path p j) as Hout.
  { intros j Hj Hnj. rewrite Ho, Hother; set_solver. }
  destruct b.
  - split_and!; [done| | |done].
    + intros j Hj. destruct (Hm j Hj). set_solver.
    + intros j [->|Hj]%elem_of_cons Hnm; [|by apply Hg]. rewrite Hsame, Hfs. auto.
  - assert (fs w1 !! get_chunk_path p i = None) as Hnone by (rewrite Hfs; apply lookup_delete_eq).
    split_and!; [| | |done].
    + apply NoDup_cons. split; [|done]. intros Hin. destruct (Hm i Hin). done.
    + intros j [->|Hj]%elem_of_cons; [set_solver by congruence|]. destruct (Hm j Hj). set_solver.
    + intros j [->|Hj]%elem_of_cons Hnm; [set_solver|]. apply Hg; set_solver.
Qed.

(** *** Downloading one chunk *)

(** The part of the object a new chunk holds. *)
Lemma provider_chunk i :
  (0 <= i)%Z ->
  (exists e, get_object key (mkRange (i * line) line) = Err e) \/
  get_object key (mkRange (i * line) line) = Ok (slice obj (i * line) line).
Proof.
  intros Hi. destruct (provider_reads (i * line)%Z line) as [H|(_ & e & H)]; eauto; unfold line; nia.
Qed.

Lemma new_chunk_good w i source_size :
  (0 <= i)%Z -> (source_size = None \/ source_size = Some L) ->
  chunk_good i (set_chunk_metadata w (Some v) line
    (chunk_object_size source_size i line (slice obj (i * line) line))
    (new_file w (slice obj (i * line) line))).
Proof.
  intros Hi Hs. assert (0 < line)%Z as Hl by done. unfold set_chunk_metadata.
  rewrite bool_decide_eq_false_2 by done. unfold chunk_good.
  destruct (xattr_supported w); [|split; [done|by intros]].
  set (d := slice obj (i * line) line).
  assert (Z.of_nat (length d) = Z.max 0 (Z.min line (L - i * line))) as Hd.
  { unfold d. rewrite length_slice. unfold L. nia. }
  destruct (chunk_object_size source_size i line d) as [n|] eqn:E; split; try done; cbn [f_xattr set_xattr].
  intros s z. rewrite lookup_insert_eq. intros [= <-].
  assert (n = L \/ ((L <= i * line)%Z /\ n = (i * line)%Z)) as Hn.
  { unfold chunk_object_size in E. destruct Hs as [->| ->]; [|left; congruence].
    destruct (_ <? _)%Z eqn:El; [|done]. bool_to_prop. injection E as <-. lia. }
  rewrite py_int_pretty by (unfold L in *; nia). by intros [= <-].
Qed.

Lemma touched_good t i f : chunk_good i f -> chunk_good i (touched t f).
Proof. done. Qed.

(** A change of the chunk path [i] (to a good chunk) and nothing else. *)
Lemma coherent_new_chunk w w' i f :
  (0 <= i)%Z -> coherent w -> chunk_good i f -> fs w' !! get_chunk_path p i = Some f ->
  (forall q, q <> get_chunk_path p i -> fs w' !! q = fs w !! q) -> coherent w'.
Proof.
  intros Hi [H1 H2] Hf Hnew Hother. split.
  - intros j g s Hj Hg He Hs Hn. destruct (decide (j = i)) as [->|Hne]; [congruence|].
    rewrite Hother in Hg by (intros H; apply Hne; by eapply chunk_path_inj). eauto.
  - intros g Hg. rewrite Hother in Hg by (intros H; symmetry in H; by eapply chunk_path_ne). eauto.
Qed.

(** The outcome of a download: the chunk is available, the others are as before. *)
Definition downloaded (w w' : world) (i : Z) : Prop :=
  coherent w' /\ available w' i /\
  (forall j, (0 <= j)%Z -> j <> i -> fs w' !! get_chunk_path p j = fs w !! get_chunk_path p j) /\
  (i <> 0%Z -> fs w' !! p = fs w !! p).

Lemma downloaded_plain w w' i f :
  (0 <= i)%Z -> coherent w -> chunk_good i f -> fs w' !! get_chunk_path p i = Some f ->
  (forall q, q <> get_chunk_path p i -> fs w' !! q = fs w !! q) -> downloaded w w' i.
Proof.
  intros Hi Hc Hf Hnew Hother. split; [by eapply coherent_new_chunk|]. split_and!.
  - exists f. unfold actual. assert (path_exists w' (get_chunk_path p i) = true) as ->.
    { apply path_exists_true. eauto. }
    by rewrite andb_false_r.
  - intros j Hj Hne. apply Hother. intros H. apply Hne. by eapply chunk_path_inj.
  - intros _. apply Hother. intros H. symmetry in H. by eapply chunk_path_ne.
Qed.

(** Chunk 0 of a small object becomes the full file. *)
Lemma downloaded_renamed w w' f :
  coherent w -> fs w !! p = None -> fs w !! get_chunk_path p 0 = None -> chunk_good 0 f ->
  (Z.of_nat (length (f_data f)) < line)%Z ->
  fs w' !! p = Some f -> fs w' !! get_chunk_path p 0 = None ->
  (forall q, q <> p -> q <> get_chunk_path p 0 -> fs w' !! q = fs w !! q) -> downloaded w w' 0.
Proof.
  intros [H1 H2] Hp H0 Hf Hshort Hnew Hgone Hother.
  assert (f_data f = obj) as Hobj.
  { destruct Hf as [Hf _]. rewrite Hf in *. rewrite length_slice in Hshort.
    unfold slice. rewrite Z.mul_0_l in *. cbn [Z.to_nat drop]. apply take_ge. lia. }
  assert (forall j, (0 <= j)%Z -> j <> 0%Z ->
    fs w' !! get_chunk_path p j = fs w !! get_chunk_path p j) as Hj.
  { intros j Hj Hne. apply Hother; [by apply chunk_path_ne|].
    intros H. apply Hne. by eapply chunk_path_inj. }
  split_and!.
  - split; [|by intros g Hg _; simplify_eq].
    intros j g s Hj0 Hg. destruct (decide (j = 0%Z)) as [->|Hne]; [congruence|].
    rewrite Hj in Hg by done. eauto.
  - exists f. unfold actual. assert (path_exists w' p = true) as ->.
    { apply path_exists_true. eauto. }
    assert (path_exists w' (get_chunk_path p 0) = false) as -> by (by apply path_exists_false).
    done.
  - auto.
  - done.
Qed.

Lemma schedule_spec w :
  exists b, schedule_refresh_if_needed c w = (Ok tt, with_refresh (last_refresh_time w) b w).
Proof.
  unfold schedule_refresh_if_needed. destruct w as [a1 a2 a3 a4 a5 a6 a7].
  destruct (negb _); [by exists a5|]. cbn. destruct a5; by eexists.
Qed.

(** Touching after the rename, and scheduling the refresh. *)
Lemma finish_chunk_spec w i q f :
  fs w !! q = Some f ->
  q = (if (i =? 0)%Z && path_exists w p && negb (path_exists w (get_chunk_path p i))
       then p else get_chunk_path p i) ->
  exists w', (update_chunk_access_time p (get_chunk_path p i) i ;;; schedule_refresh_if_needed c) w
    = (Ok tt, w') /\ fs w' !! q = Some (touched (now w) f) /\
    forall r, r <> q -> fs w' !! r = fs w !! r.
Proof.
  intros Hf Hq. unfold mbind, update_chunk_access_time.
  destruct (update_access_time_spec q w f Hf) as (m & Hu & Hm & Ho).
  assert ((if (i =? 0)%Z && path_exists w p && negb (path_exists w (get_chunk_path p i))
           then update_access_time p w else update_access_time (get_chunk_path p i) w)
          = update_access_time q w) as ->.
  { rewrite Hq. by destruct (_ && _ && _). }
  rewrite Hu. destruct (schedule_spec (with_fs m w)) as [b Hb]. rewrite Hb.
  eexists. split; [reflexivity|]. by cbn.
Qed.

Lemma fetch_chunk_spec w i source_size :
  (0 <= i)%Z -> coherent w -> (source_size = None \/ source_size = Some L) ->
  fs w !! get_chunk_path p i = None ->
  match fetch_and_cache_chunk c get_object p key i line (Some v) source_size w with
  | (Ok _, w') => downloaded w w' i
  | (Err _, w') => coherent w'
  end.
Proof.
  intros Hi Hc Hs Hnone. unfold fetch_and_cache_chunk. unfold mbind at 1, mlift.
  destruct (provider_chunk i Hi) as [[e ->]| ->]; [done|].
  pose proof (new_chunk_good w i source_size Hi Hs) as Hgood.
  set (d := slice obj (i * line) line) in *.
  unfold write_chunk_to_cache. unfold mbind at 1.
  set (f := set_chunk_metadata w (Some v) line _ _) in *.
  set (w1 := with_fs (<[get_chunk_path p i := f]> (fs w)) w).
  assert (fs w1 !! get_chunk_path p i = Some f) as Hf1 by apply lookup_insert_eq.
  assert (forall q, q <> get_chunk_path p i -> fs w1 !! q = fs w !! q) as Ho1.
  { intros q Hq. by apply lookup_insert_ne. }
  assert (f_data f = d) as Hdata.
  { unfold f, set_chunk_metadata. destruct (xattr_supported w); [|done].
    destruct (bool_decide _), (chunk_object_size _ _ _ _); done. }
  clearbody f. unfold mbind at 1, handle_chunk0_renaming.
  destruct ((i =? 0)%Z && negb (path_exists w1 p)) eqn:Ei.
  - apply andb_true_iff in Ei as [Hi0%Z.eqb_eq Hp%negb_true_iff%path_exists_false]. subst i.
    unfold mtry, mbind at 1, os_getsize, mret. rewrite Hf1, Hdata.
    destruct (Z.of_nat (length d) <? line)%Z eqn:Eshort; bool_to_prop.
    + unfold os_rename. rewrite Hf1.
      set (w2 := with_fs (<[p := f]> (base.delete (get_chunk_path p 0) (fs w1))) w1).
      assert (fs w2 !! p = Some f) as Hp2 by apply lookup_insert_eq.
      assert (fs w2 !! get_chunk_path p 0 = None) as Hg2.
      { cbn. rewrite lookup_insert_ne by (intros H; symmetry in H; by eapply chunk_path_ne).
        apply lookup_delete_eq. }
      assert (forall q, q <> p -> q <> get_chunk_path p 0 -> fs w2 !! q = fs w !! q) as Ho2.
      { intros q H1 H2. rewrite <- Ho1 by done. cbn. by rewrite lookup_insert_ne, lookup_delete_ne. }
      clearbody w2. destruct (finish_chunk_spec w2 0 p f Hp2) as (w' & -> & Hn & Ho).
      { rewrite (proj2 (path_exists_true w2 p)) by eauto.
        by rewrite (proj2 (path_exists_false w2 _)) by done. }
      assert (get_chunk_path p 0 <> p) as Hne by (by apply chunk_path_ne).
      eapply downloaded_renamed; [done| |done|by apply touched_good| |exact Hn| |].
      * rewrite <- Ho1 by done. done.
      * cbn. by rewrite Hdata.
      * by rewrite Ho.
      * intros q H1 H2. by rewrite Ho, Ho2.
    + destruct (finish_chunk_spec w1 0 (get_chunk_path p 0) f Hf1) as (w' & -> & Hn & Ho).
      { rewrite (proj2 (path_exists_true w1 (get_chunk_path p 0))) by eauto. by rewrite andb_false_r. }
      eapply downloaded_plain; [done|done| |exact Hn|]; [by apply touched_good|].
      intros q Hq. by rewrite Ho, Ho1.
  - destruct (finish_chunk_spec w1 i (get_chunk_path p i) f Hf1) as (w' & -> & Hn & Ho).
    { rewrite (proj2 (path_exists_true w1 (get_chunk_path p i))) by eauto. by rewrite andb_false_r. }
    eapply downloaded_plain; [done|done| |exact Hn|]; [by apply touched_good|].
    intros q Hq. by rewrite Ho, Ho1.
Qed.

(** Lock files do not matter to the cached content. *)
Lemma coherent_locks w l : coherent (with_locks l w) <-> coherent w.
Proof. done. Qed.
Lemma downloaded_locks w w' i l l' :
  downloaded w w' i -> downloaded (with_locks l w) (with_locks l' w') i.
Proof. done. Qed.

Lemma download_single_spec w i source_size :
  (0 <= i)%Z -> coherent w -> (source_size = None \/ source_size = Some L) ->
  fs w !! get_chunk_path p i = None ->
  match download_single_chunk c get_object p key i line (Some v) source_size w with
  | (Ok _, w') => downloaded w w' i
  | (Err _, w') => coherent w'
  end.
Proof.
  intros Hi Hc Hs Hnone. unfold download_single_chunk. unfold mbind at 1.
  set (l := {[_]} ∪ locks w).
  rewrite (proj2 (path_exists_false (with_locks l w) _)) by done.
  pose proof (fetch_chunk_spec (with_locks l w) i source_size Hi Hc Hs Hnone) as H.
  unfold mbind. destruct (fetch_and_cache_chunk _ _ _ _ _ _ _ _ _) as [[[]|e] w']; [|done].
  exact H.
Qed.

Lemma downloaded_available w w' i j :
  (0 <= i)%Z -> (0 <= j)%Z -> downloaded w w' i -> j = i \/ available w j -> available w' j.
Proof.
  intros Hi Hj (_ & Hav & Hother & Hp) [->|(f & Hf & Hg)]; [done|].
  destruct (decide (j = i)) as [->|Hne]; [done|].
  exists f. split; [|done]. unfold actual, path_exists in *.
  rewrite Hother by done. destruct (decide (j = 0%Z)) as [->|Hj0].
  - rewrite Hp by done. destruct (_ && _ && _); [by rewrite Hp|by rewrite Hother].
  - rewrite (proj2 (Z.eqb_neq j 0)) in * by done. cbn in *. by rewrite Hother.
Qed.

(** Downloading every missing chunk makes the whole range available. *)
Lemma download_loop_spec idxs source_size w :
  NoDup idxs -> Forall (fun i => 0 <= i)%Z idxs -> coherent w ->
  (source_size = None \/ source_size = Some L) ->
  (forall i, i ∈ idxs -> fs w !! get_chunk_path p i = None) ->
  match mfor idxs (fun i => download_single_chunk c get_object p key i line (Some v) source_size) w with
  | (Ok _, w') => coherent w' /\
      forall j, (0 <= j)%Z -> j ∈ idxs \/ available w j -> available w' j
  | (Err _, w') => coherent w'
  end.
Proof.
  intros Hnd Hpos Hc Hs. revert w Hc. induction idxs as [|i idxs IH]; intros w Hc Hnone.
  { cbn. split; [done|]. intros j _ [H|H]; [by apply elem_of_nil in H|done]. }
  apply NoDup_cons in Hnd as [Hni Hnd]. inversion Hpos as [|? ? Hi Hpos']; subst.
  cbn [mfor]. unfold mbind at 1.
  pose proof (download_single_spec w i source_size Hi Hc Hs (Hnone i (list_elem_of_here _ _))) as Hd.
  destruct (download_single_chunk c get_object p key i line (Some v) source_size w) as [[[]|e] w1]; [|done].
  pose proof Hd as (Hc1 & _ & Hother & _).
  specialize (IH Hnd Hpos' w1 Hc1). destruct (mfor idxs _ w1) as [[[]|e] w2].
  - destruct IH as [Hc2 Hav].
    { intros j Hj. rewrite Forall_forall in Hpos'. rewrite Hother; [|auto|by intros ->].
      apply Hnone. by apply list_elem_of_further. }
    split; [done|]. intros j Hj Hcase. apply Hav; [done|].
    destruct Hcase as [[Heq|Hin]%elem_of_cons|Hw]; [right|by left|right].
    + apply (downloaded_available w w1 i j); auto.
    + apply (downloaded_available w w1 i j); auto.
  - apply IH. intros j Hj. rewrite Forall_forall in Hpos'. rewrite Hother; [|auto|by intros ->].
    apply Hnone. by apply list_elem_of_further.
Qed.

Lemma download_missing_spec a b source_size w :
  (0 <= a)%Z -> coherent w -> (source_size = None \/ source_size = Some L) ->
  match download_missing_chunks c get_object p key a b line (Some v) source_size w with
  | (Ok _, w') => coherent w' /\ forall j, (a <= j <= b)%Z -> available w' j
  | (Err _, w') => coherent w'
  end.
Proof.
  intros Ha Hc Hs. unfold download_missing_chunks, identify_missing_chunks. unfold mbind at 1.
  assert (Forall (fun i => 0 <= i)%Z (Zrange a b)) as Hpos.
  { apply Forall_forall. intros i Hi%elem_of_Zrange. lia. }
  destruct (identify_loop_spec (Zrange a b) w (NoDup_Zrange a b) Hpos Hc)
    as (ms & w1 & -> & Hc1 & Hnd & Hm & Hg & _).
  rewrite Forall_forall in Hpos.
  assert (Forall (fun i => 0 <= i)%Z ms) as Hposm.
  { apply Forall_forall. intros i Hi. destruct (Hm i Hi). auto. }
  pose proof (download_loop_spec ms source_size w1 Hnd Hposm Hc1 Hs
    (fun i Hi => proj2 (Hm i Hi))) as H.
  destruct (mfor ms _ w1) as [[[]|e] w2]; [|done].
  destruct H as [Hc2 Hav]. split; [done|]. intros j Hj. apply Hav; [lia|].
  destruct (decide (j ∈ ms)) as [|Hn]; [by left|right].
  destruct (Hg j (proj2 (elem_of_Zrange a b j) Hj) Hn) as (f & Hf & Hgood).
  exists f. split; [|done]. unfold actual.
  rewrite (proj2 (path_exists_true w1 (get_chunk_path p j))) by eauto. by rewrite andb_false_r.
Qed.

(** *** Assembling the result *)
Lemma remove_then_raise w q : coherent w ->
  exists w' e, (remove_invalid_chunk q ;;; mraise (A := bytes) OSError) w = (Err e, w') /\ coherent w'.
Proof.
  intros Hc. destruct (remove_invalid_chunk_spec q w) as (w' & Hr & Hfs & _).
  unfold mbind. rewrite Hr. eexists w', _. split; [done|].
  eapply coherent_delete; [exact Hc|]. rewrite Hfs. intros. by eapply delete_sub.
Qed.

(** One chunk contributes its overlap with the range, or raises. *)
Lemma assemble_chunk_spec w i r :
  (0 <= i)%Z -> (0 <= offset r)%Z -> coherent w -> available w i ->
  let lo := Z.max (offset r) (i * line) in
  let hi := Z.min (offset r + size r - 1) (i * line + line - 1) in
  assemble_chunk p line r i w = (Ok (slice obj lo (hi - lo + 1)), w) \/
  exists e w', assemble_chunk p line r i w = (Err e, w') /\ coherent w'.
Proof.
  intros Hi Ho Hc (f & Hf & Hdata & Hsize) lo hi. assert (0 < line)%Z as Hl by done.
  unfold assemble_chunk. fold lo. fold hi. fold (actual w i).
  destruct (lo <=? hi)%Z eqn:Elh; bool_to_prop; [|left; by rewrite slice_nonpos by lia].
  set (co := (lo - i * line)%Z). set (len := (hi - lo + 1)%Z).
  assert (0 <= co)%Z by lia. assert (co + len <= line)%Z by lia.
  assert (Z.of_nat (length (f_data f)) = Z.max 0 (Z.min line (L - i * line))) as Hlen.
  { rewrite Hdata, length_slice. unfold L. nia. }
  assert (forall n, (0 <= n <= len)%Z -> slice (f_data f) co n = slice obj lo n) as Hslice.
  { intros n Hn. rewrite Hdata, slice_slice by nia. f_equal. lia. }
  assert (forall n, (0 <= n <= len)%Z -> (co + n <= Z.of_nat (length (f_data f)))%Z ->
    Z.of_nat (length (slice (f_data f) co n)) = n) as Hfull.
  { intros n Hn Hle. rewrite length_slice. lia. }
  match goal with |- ?x = _ \/ _ => remember x as run eqn:Hrun end. revert Hrun.
  unfold mbind at 1, os_getsize. rewrite Hf.
  assert (run = (remove_invalid_chunk (actual w i) ;;; mraise OSError) w ->
    run = (Ok (slice obj lo len), w) \/ exists e w', run = (Err e, w') /\ coherent w') as Hraise.
  { intros ->. destruct (remove_then_raise w (actual w i) Hc) as (w' & e & -> & ?). eauto. }
  destruct (Z.of_nat (length (f_data f)) <? co + len)%Z eqn:Eshort; bool_to_prop.
  - destruct (get_chunk_object_size w (actual w i)) as [z|] eqn:Ez; [|done].
    unfold get_chunk_object_size, getxattr in Ez. rewrite Hf in Ez.
    destruct (xattr_supported w); [|done].
    destruct (f_xattr f !! "user.size") as [s|] eqn:Es; [|done].
    specialize (Hsize s z eq_refl Ez).
    destruct (_ <? Z.min _ _)%Z eqn:Etrunc; [done|]. bool_to_prop. clear Hraise.
    set (ex := Z.max (Z.min len (z - lo)) 0).
    destruct (ex =? 0)%Z eqn:Eex; bool_to_prop; intros ->; left.
    + unfold mret. rewrite slice_past; [done|]. unfold L in *. lia.
    + unfold mbind, os_read, mret. rewrite Hf.
      assert (z = L) as -> by lia.
      assert (ex = Z.min len (L - lo)) as Hex by lia.
      rewrite Hfull by lia. rewrite Z.eqb_refl, Hslice by lia.
      rewrite (slice_clamp obj lo len) by lia. fold L. by rewrite Hex.
  - intros ->. left. unfold mbind, os_read, mret. rewrite Hf, Hfull by lia.
    by rewrite Z.eqb_refl, Hslice by lia.
Qed.

Lemma assemble_loop_spec w r a :
  (0 <= offset r)%Z -> (0 < size r)%Z -> coherent w ->
  let b := ((offset r + size r - 1) / line)%Z in
  (offset r / line <= a <= b + 1)%Z ->
  (forall j, (a <= j <= b)%Z -> available w j) ->
  let lo := Z.max (offset r) (a * line) in
  assemble_loop p line r (Zrange a b) w = (Ok (slice obj lo (offset r + size r - lo)), w) \/
  exists e w', assemble_loop p line r (Zrange a b) w = (Err e, w') /\ coherent w'.
Proof.
  intros Ho Hsz Hc b Ha Hav. assert (0 < line)%Z as Hl by done.
  assert (b * line <= offset r + size r - 1 < (b + 1) * line)%Z as Hb.
  { unfold b. pose proof (Z.div_mod (offset r + size r - 1) line).
    pose proof (Z.mod_pos_bound (offset r + size r - 1) line). nia. }
  assert (offset r < (offset r / line + 1) * line /\ offset r / line * line <= offset r)%Z as Hs.
  { pose proof (Z.div_mod (offset r) line). pose proof (Z.mod_pos_bound (offset r) line). nia. }
  assert (0 <= offset r / line)%Z by (apply Z.div_pos; lia).
  remember (Z.to_nat (b + 1 - a)) as n eqn:En. revert a Ha Hav En.
  induction n as [|n IH]; intros a Ha Hav En; cbn zeta.
  - rewrite Zrange_nil by lia. left. cbn. unfold mret. by rewrite slice_nonpos by nia.
  - rewrite Zrange_cons by lia. cbn [assemble_loop]. unfold mbind, mret.
    destruct (assemble_chunk_spec w a r) as [->|(e & w' & -> & Hc')];
      [lia|done|done|apply Hav; lia| |by eauto].
    specialize (IH (a + 1)%Z ltac:(lia) (fun j Hj => Hav j ltac:(lia)) ltac:(lia)).
    destruct IH as [->|(e & w' & -> & Hc')]; [|by eauto].
    left. f_equal. f_equal.
    set (lo := Z.max (offset r) (a * line)).
    assert (Z.max (offset r) ((a + 1) * line) = (a + 1) * line)%Z as -> by nia.
    destruct (decide (a = b)) as [->|Hne].
    + rewrite (slice_nonpos _ ((b + 1) * line)) by lia. rewrite app_nil_r.
      f_equal. nia.
    + replace (Z.min (offset r + size r - 1) (a * line + line - 1))%Z with (a * line + line - 1)%Z by nia.
      replace ((a + 1) * line)%Z with (lo + (a * line + line - 1 - lo + 1))%Z by lia.
      rewrite slice_app by nia. f_equal. lia.
Qed.

(** *** The range read *)
Lemma read_range_correct r source_size w :
  (0 <= offset r < L)%Z -> (0 < size r)%Z -> coherent w ->
  (source_size = None \/ source_size = Some L) ->
  exists w', read_range c get_object p r (Some v) source_size key w
             = (Ok (slice obj (offset r) (size r)), w') /\ coherent w'.
Proof.
  intros Ho Hsz Hc Hs. assert (0 < line)%Z as Hl by done.
  unfold read_range. fold line. rewrite (proj2 (Z.eqb_neq line 0)) by lia.
  set (a := (offset r / line)%Z). set (b := ((offset r + size r - 1) / line)%Z).
  assert (forall w1, coherent w1 -> exists w',
    (match source_size with
     | Some n => if (n - offset r <=? 0)%Z then mret []
                 else mlift (get_object key (mkRange (offset r) (Z.min (size r) (n - offset r))))
     | None => mlift (get_object key r)
     end) w1 = (Ok (slice obj (offset r) (size r)), w') /\ coherent w') as Hfall.
  { intros w1 Hc1. exists w1. split; [|done].
    assert (forall n, (0 < n)%Z -> get_object key (mkRange (offset r) n) = Ok (slice obj (offset r) n)) as Hget.
    { intros n Hn. destruct (provider_reads (offset r) n) as [->|[? _]]; [lia|done|done|].
      unfold L in *. lia. }
    destruct Hs as [->| ->].
    - unfold mlift. destruct r as [off n]. cbn in *. by rewrite Hget.
    - rewrite (proj2 (Z.leb_gt _ _)) by lia. unfold mlift. rewrite Hget by lia.
      by rewrite (slice_clamp obj (offset r) (size r)) by lia. }
  assert (0 <= a)%Z by (apply Z.div_pos; lia).
  assert (a <= b)%Z by (apply Z.div_le_mono; lia).
  unfold mtry, mbind.
  pose proof (download_missing_spec a b source_size w ltac:(lia) Hc Hs) as Hd.
  destruct (download_missing_chunks _ _ _ _ _ _ _ _ _ _) as [[[]|e] w1].
  - destruct Hd as [Hc1 Hav]. unfold assemble_result_from_chunks.
    destruct (assemble_loop_spec w1 r a ltac:(lia) Hsz Hc1) as [Hrun|(e & w2 & Hrun & Hc2)].
    + fold a b. lia.
    + fold b. exact Hav.
    + fold b in Hrun. rewrite Hrun. exists w1. split; [|done]. f_equal. f_equal.
      assert (a * line <= offset r)%Z.
      { unfold a. pose proof (Z.div_mod (offset r) line). pose proof (Z.mod_pos_bound (offset r) line). nia. }
      rewrite Z.max_l by lia. f_equal. lia.
    + fold b in Hrun. rewrite Hrun. by apply Hfall.
  - by apply Hfall.
Qed.

(** A valid full file answers the range itself. *)
Lemma full_file_spec r w :
  coherent w ->
  exists o w', read_range_from_full_cached_file p r (Some v) w = (Ok o, w') /\ coherent w' /\
    (o = None \/ o = Some (slice obj (offset r) (size r))).
Proof.
  intros Hc. unfold read_range_from_full_cached_file.
  destruct (path_exists w p) eqn:E; [|by exists None, w; eauto].
  apply path_exists_true in E as [f Hf]. unfold mtry, mbind, mlift, getxattr. rewrite Hf.
  destruct (xattr_supported w); [|by exists None, w; eauto].
  destruct (f_xattr f !! "user.etag") as [e|] eqn:Ee; [|by exists None, w; eauto].
  rewrite (bool_decide_eq_false_2 (Some v = None)) by done. rewrite orb_false_r.
  case_bool_decide as He; [|by exists None, w; eauto]. injection He as ->.
  unfold os_read. rewrite Hf. destruct (update_access_time_spec p w f Hf) as (m & -> & Hm & Ho).
  unfold mret. exists (Some (slice (f_data f) (offset r) (size r))), (with_fs m w).
  destruct Hc as [H1 H2]. split; [done|]. split.
  - split.
    + intros i g s Hi Hg. cbn in Hg. rewrite Ho in Hg by (by apply chunk_path_ne). eauto.
    + intros g Hg. cbn in Hg. rewrite Hm in Hg. injection Hg as <-. cbn. eauto.
  - right. by rewrite (H2 f Hf Ee).
Qed.
End RangeCache.

(** ** Range reads *)

(** A range read through a coherent cache *)
Lemma cached_range_read (c : cfg) (get_object : get_object_fn) (key : string) (obj : bytes)
    (v : string) (r : Range) (source_size : option Z) (w : world)
    (Hline : (0 < cache_line_size c)%Z) (Hv : v <> "")
    (Hprovider : forall off n, (0 <= off)%Z -> (0 < n)%Z ->
       get_object key (mkRange off n) = Ok (slice obj off n) \/
       ((Z.of_nat (length obj) <= off)%Z /\ exists e, get_object key (mkRange off n) = Err e))
    (Hoff : (0 <= offset r < Z.of_nat (length obj))%Z) (Hsize : (0 < size r)%Z)
    (Hsource : source_size = None \/ source_size = Some (Z.of_nat (length obj)))
    (Hcoh : coherent c obj v (get_cache_file_path c key) w) :
  exists w', read c get_object key (Some v) (Some r) source_size w
             = (Ok (Some (slice obj (offset r) (size r))), w') /\
             coherent c obj v (get_cache_file_path c key) w'.
Proof.
  unfold read. set (p := get_cache_file_path c key) in *.
  destruct (full_file_spec c obj v p r w Hcoh) as (o & w1 & Hrun & Hc1 & Ho).
  unfold mbind. rewrite Hrun. destruct o as [d|].
  - destruct Ho as [|[= ->]]; [done|]. by exists w1.
  - destruct (read_range_correct c get_object key obj v p Hline Hv Hprovider r source_size w1)
      as (w2 & -> & Hc2); try done. by exists w2.
Qed.

(** C31: a range read through the cache returns exactly the requested bytes of
    the source object, never an error and never stale or truncated data, from
    any coherent cache: with a full file, with some chunks, with chunks of
    other versions or line sizes, with or without extended attributes, with or
    without the object's size.  The cache is coherent afterwards. *)
Theorem range_read_exact (c : cfg) (get_object : get_object_fn) (key : string) (obj : bytes)
    (v : string) (r : Range) (source_size : option Z) (w : world)
    (Hline : (0 < cache_line_size c)%Z) (Hv : v <> "")
    (Hprovider : forall off n, (0 <= off)%Z -> (0 < n)%Z ->
       get_object key (mkRange off n) = Ok (slice obj off n) \/
       ((Z.of_nat (length obj) <= off)%Z /\ exists e, get_object key (mkRange off n) = Err e))
    (Hoff : (0 <= offset r < Z.of_nat (length obj))%Z) (Hsize : (0 < size r)%Z)
    (Hsource : source_size = None \/ source_size = Some (Z.of_nat (length obj)))
    (Hcoh : coherent c obj v (get_cache_file_path c key) w) :
  exists w', read c get_object key (Some v) (Some r) source_size w
             = (Ok (Some (slice obj (offset r) (size r))), w') /\
             coherent c obj v (get_cache_file_path c key) w'.
Proof. by eapply cached_range_read. Qed.

Definition example_cfg : cfg :=
  mkCfg "/cache" "prof" 100 true false default_eviction_policy 4.
Definition example_obj : bytes := String.list_byte_of_string "abcdefghij".
(** The provider raises on a range that starts past the end. *)
Definition example_get : get_object_fn := fun _ r =>
  if (Z.of_nat (length example_obj) <=? offset r)%Z then Err ValueError
  else Ok (slice example_obj (offset r) (size r)).

Lemma range_read_exact_witness :
  exists w', read example_cfg example_get "k" (Some "v1") (Some (mkRange 3 6)) None empty_world
             = (Ok (Some (String.list_byte_of_string "defghi")), w').
Proof.
  destruct (range_read_exact example_cfg example_get "k" example_obj "v1" (mkRange 3 6) None
    empty_world) as (w' & H & _).
  - reflexivity.
  - discriminate.
  - intros off n Ho Hn. unfold example_get. cbn [offset size].
    destruct (_ <=? _)%Z eqn:E; [right|left; reflexivity].
    apply Z.leb_le in E. split; [exact E|]. eexists. reflexivity.
  - cbn. lia.
  - reflexivity.
  - left. reflexivity.
  - split; intros; discriminate.
  - exists w'. exact H.
Defined.

(** ** Whole files *)

(** The file [set] leaves behind. *)
Lemma set_bytes_spec c key b v w :
  let p := get_cache_file_path c key in
  exists f w', set c key (FromBytes b) v w = (Ok tt, w') /\ fs w' !! p = Some f /\
    f_data f = b /\ f_writable f = false /\ xattr_supported w' = xattr_supported w /\
    (forall q, q <> p -> fs w' !! q = fs w !! q) /\
    (xattr_supported w = true ->
       f_xattr f !! "user.etag" = if bool_decide (v = Some "") then None else v).
Proof.
  intros p. unfold set. unfold mbind at 1. cbv zeta beta. fold p.
  set (w1 := with_fs (<[p := new_file w b]> (fs w)) w).
  assert (exists g w2, (match v with
    | Some v => if bool_decide (v = "") then mret tt
                else mtry is_OSError (os_setxattr p "user.etag" v) (fun _ => mret tt)
    | None => mret tt end) w1 = (Ok tt, w2) /\ fs w2 !! p = Some g /\ f_data g = b /\
    xattr_supported w2 = xattr_supported w /\ (forall q, q <> p -> fs w2 !! q = fs w !! q) /\
    (xattr_supported w = true -> f_xattr g !! "user.etag" = if bool_decide (v = Some "") then None else v))
    as (g & w2 & Hrun & Hg & Hd & Hx & Ho & He).
  { assert (fs w1 !! p = Some (new_file w b)) as H1 by apply lookup_insert_eq.
    assert (forall q, q <> p -> fs w1 !! q = fs w !! q) as H2.
    { intros q Hq. by apply lookup_insert_ne. }
    destruct v as [v|]; [|by exists (new_file w b), w1].
    case_bool_decide as Hv; [subst; by exists (new_file w b), w1|].
    unfold mtry, os_setxattr, os_modify. change (xattr_supported w1) with (xattr_supported w).
    destruct (xattr_supported w) eqn:Ex; [|by exists (new_file w b), w1].
    rewrite H1. eexists _, _. split; [reflexivity|]. cbn [fs with_fs].
    rewrite lookup_insert_eq. split; [done|]. split_and!; [done|done| |].
    - intros q Hq. rewrite lookup_insert_ne by done. auto.
    - intros _. cbn. rewrite bool_decide_eq_false_2 by congruence. by rewrite lookup_insert_eq. }
  unfold mbind. rewrite Hrun. unfold make_readonly at 1, os_modify. rewrite Hg.
  set (w3 := with_fs _ w2).
  destruct (update_access_time_spec p w3 (set_mode false g)) as (m & -> & Hm & Hmo);
    [apply lookup_insert_eq|].
  destruct (schedule_spec c (with_fs m w3)) as [s ->].
  eexists _, _. split; [reflexivity|]. split; [exact Hm|]. split_and!; try done.
  intros q Hq. cbn. rewrite Hmo by done. cbn. rewrite lookup_insert_ne by done. auto.
Qed.

Lemma contains_spec c w key f sv :
  fs w !! get_cache_file_path c key = Some f ->
  contains c w key INHERIT sv =
    negb (check_source_version c) ||
    (xattr_supported w && bool_decide (is_Some (f_xattr f !! "user.etag") /\ f_xattr f !! "user.etag" = sv)).
Proof.
  intros Hf. unfold contains. rewrite (proj2 (path_exists_true w _)) by eauto. cbn [negb].
  destruct (check_source_version c); [|done]. cbn [negb orb]. unfold getxattr. rewrite Hf.
  destruct (xattr_supported w); [|done]. cbn.
  destruct (f_xattr f !! "user.etag") as [e|]; [apply bool_decide_ext; naive_solver|].
  symmetry. apply bool_decide_eq_false_2. intros [[]]. done.
Qed.

(** what [set] stores, [read] gives back: the same bytes for the same
    version, nothing for another version, and the bytes for every version where
    source versions are not checked.  No other cached file changes. *)
Theorem set_then_read (c : cfg) (g : get_object_fn) (key : string) (b : bytes) (v v' : string)
    (w : world) (Hx : xattr_supported w = true) (Hv : v <> "") :
  exists w1 w2,
    set c key (FromBytes b) (Some v) w = (Ok tt, w1) /\
    (forall q, q <> get_cache_file_path c key -> fs w1 !! q = fs w !! q) /\
    read c g key (Some v') None None w1
    = (Ok (if negb (check_source_version c) || bool_decide (v = v') then Some b else None), w2).
Proof.
  destruct (set_bytes_spec c key b (Some v) w) as (f & w1 & Hs & Hf & Hd & _ & Hx1 & Ho & He).
  specialize (He Hx). rewrite bool_decide_eq_false_2 in He by congruence.
  exists w1. unfold read. rewrite (contains_spec c w1 key f) by done. rewrite Hx1, Hx, He. cbn [andb].
  replace (bool_decide (is_Some (Some v) /\ Some v = Some v')) with (bool_decide (v = v'))
    by (apply bool_decide_ext; naive_solver).
  destruct (_ || _); [|by exists w1].
  unfold mtry, mbind, os_read_all. rewrite Hf.
  destruct (update_access_time_spec _ _ _ Hf) as (m & -> & _). rewrite Hd. by eexists.
Qed.

Lemma set_then_read_witness :
  exists w1 w2,
    set example_cfg "k" (FromBytes example_obj) (Some "v1") empty_world = (Ok tt, w1) /\
    read example_cfg example_get "k" (Some "v2") None None w1 = (Ok None, w2).
Proof.
  destruct (set_then_read example_cfg example_get "k" example_obj "v1" "v2" empty_world)
    as (w1 & w2 & H1 & _ & H2).
  - reflexivity.
  - discriminate.
  - exists w1, w2. split; [exact H1|exact H2].
Defined.
