(* ===== verification/CacheMaintenance.v ===== *)
(** * Deletion and eviction in the cache directory

    Deletions never leave the profile's directory, whatever the path; the
    eviction of [cache.py] run on the file system, against the plan that
    [Eviction] computes; and eviction keeps the cache coherent. *)
From S2P Require Import Prelude PyPath Types Utils Eviction Cache RangeCache.
Import CacheManager.

(** ** Deletion *)
Lemma delete_cache_file_spec p w :
  exists w', delete_cache_file_at_path p w = (Ok tt, w') /\ fs w' = base.delete p (fs w) /\
    now w' = now w /\ xattr_supported w' = xattr_supported w.
Proof.
  unfold delete_cache_file_at_path, mbind, mtry, os_unlink.
  destruct (fs w !! p) eqn:E; cbn; eexists; (split; [reflexivity|]); cbn; [done|].
  by rewrite delete_id.
Qed.

(** deleting by key or relative path is contained: an accepted path lies
    strictly below the directory of the profile, nothing else changes, and a
    rejected path raises [ValueError] and changes nothing. *)
Theorem delete_contained (c : cfg) (file_path : string) (w : world) :
  let root := normpath (get_cache_dir c) in
  match delete c file_path w with
  | (Ok _, w') => exists p, under_root root p = true /\ p <> root /\ fs w' = base.delete p (fs w)
  | (Err e, w') => e = ValueError /\ w' = w
  end.
Proof.
  intros root. unfold delete, delete_file, mbind, mlift.
  destruct (resolve_profile_cache_delete_path c file_path) as [p|e] eqn:E.
  - destruct (delete_cache_file_spec p w) as (w' & -> & Hfs & _). exists p.
    unfold resolve_profile_cache_delete_path in E.
    destruct (isabs _); [done|]. destruct (_ || _); [done|]. fold root in E.
    destruct (negb _ || _) eqn:Eg; [done|]. injection E as <-. bool_to_prop.
    apply bool_decide_eq_false in H0. done.
  - unfold resolve_profile_cache_delete_path in E.
    destruct (isabs _); [by simplify_eq|]. destruct (_ || _); [by simplify_eq|].
    destruct (negb _ || _); by simplify_eq.
Qed.

Section Delete.
Context (c : cfg) (ds : list string).
Hypothesis ds_ne : ds <> [].
Hypothesis ds_clean : Forall (fun x => clean x = true) ds.
Hypothesis cache_dir_normal : cache_dir c = "/" +:+ join "/" ds.
Hypothesis profile_clean : clean (profile c) = true.

Lemma cache_dir_clean : get_cache_dir c = "/" +:+ join "/" (ds ++ [profile c]).
Proof using ds_ne ds_clean cache_dir_normal profile_clean.
  unfold get_cache_dir. rewrite cache_dir_normal.
  apply (path_join_abs ds [profile c]); auto.
Qed.

(** A clean key is deleted where it is stored. *)
Lemma resolve_delete_path key :
  clean_path key = true ->
  resolve_profile_cache_delete_path c key = Ok (get_cache_file_path c key).
Proof using ds_ne ds_clean cache_dir_normal profile_clean.
  intros Hkey. pose proof (normpath_clean _ Hkey) as Hn.
  apply clean_path_join in Hkey as (cs & Hne & Hcs & ->).
  assert (Forall (fun x => clean x = true) (ds ++ [profile c])) as Hroot.
  { apply Forall_app. split; [done|]. by constructor. }
  assert (ds ++ [profile c] <> []) as Hrne by (by destruct ds).
  assert ((ds ++ [profile c]) ++ cs <> []) as Hane by (by destruct ds).
  assert (Forall (fun x => clean x = true) ((ds ++ [profile c]) ++ cs)) as Hall by (by apply Forall_app).
  unfold resolve_profile_cache_delete_path, get_cache_file_path.
  rewrite join_not_abs by done. rewrite Hn, cache_dir_clean.
  rewrite (normpath_abs (ds ++ [profile c])), path_join_abs by done.
  rewrite (normpath_abs (_ ++ cs)) by done.
  unfold under_root. rewrite !components_abs by done.
  rewrite take_app_length, (bool_decide_eq_true_2 (ds ++ _ = _)) by done.
  rewrite (bool_decide_eq_false_2 (_ = "")) by (by apply join_not_nil).
  rewrite !bool_decide_eq_false_2; [done| |].
  - intros H. injection H as H. apply join_inj_clean in H; try done.
    apply (f_equal length) in H. rewrite !length_app in H. destruct cs; [done|cbn in H; lia].
  - intros H. destruct Hcs as [|x cs Hx Hcs]; [done|].
    apply (f_equal (split slash)) in H. rewrite (split_join_clean (x :: cs)) in H; [|done|by constructor].
    apply clean_spec in Hx as (_ & _ & Hx & _). change (split slash ".") with ["."] in H. congruence.
Qed.
End Delete.

(** What [set] stores under an ordinary key, [delete] removes: afterwards
    the key is not cached, for any version, and the rest of the cache is as it
    was before. *)
Theorem set_then_delete (c : cfg) (ds : list string) (key : string) (b : bytes)
    (v : option string) (mode : SourceVersionCheckMode) (v' : option string) (w : world)
    (Hne : ds <> []) (Hds : Forall (fun x => clean x = true) ds)
    (Hdir : cache_dir c = "/" +:+ join "/" ds) (Hprofile : clean (profile c) = true)
    (Hkey : clean_path key = true) :
  exists w1 w2,
    set c key (FromBytes b) v w = (Ok tt, w1) /\ delete c key w1 = (Ok tt, w2) /\
    contains c w2 key mode v' = false /\
    fs w2 = base.delete (get_cache_file_path c key) (fs w).
Proof.
  destruct (set_bytes_spec c key b v w) as (f & w1 & Hs & _ & _ & _ & _ & Ho & _).
  destruct (delete_cache_file_spec (get_cache_file_path c key) w1) as (w2 & Hd & Hfs & _).
  exists w1, w2. unfold delete, delete_file, mbind, mlift.
  rewrite (resolve_delete_path c ds) by done. split; [done|]. split; [done|]. split.
  - unfold contains. rewrite (proj2 (path_exists_false w2 _)); [done|].
    rewrite Hfs. apply lookup_delete_eq.
  - rewrite Hfs. apply map_eq. intros q.
    destruct (decide (q = get_cache_file_path c key)) as [->|Hq]; [by rewrite !lookup_delete_eq|].
    rewrite !lookup_delete_ne by done. auto.
Qed.

Lemma set_then_delete_witness :
  exists w1 w2,
    set example_cfg "dir/k" (FromBytes example_obj) None empty_world = (Ok tt, w1) /\
    delete example_cfg "dir/k" w1 = (Ok tt, w2) /\
    contains example_cfg w2 "dir/k" DISABLE None = false.
Proof.
  destruct (set_then_delete example_cfg ["cache"] "dir/k" example_obj None DISABLE None empty_world)
    as (w1 & w2 & H1 & H2 & H3 & _).
  - discriminate.
  - repeat constructor.
  - reflexivity.
  - reflexivity.
  - reflexivity.
  - exists w1, w2. split; [exact H1|]. split; [exact H2|exact H3].
Defined.

(** ** Eviction *)
Lemma delete_files_spec ps w :
  exists w', mfor ps delete_cache_file_at_path w = (Ok tt, w') /\
    forall q, fs w' !! q = if bool_decide (q ∈ ps) then None else fs w !! q.
Proof.
  revert w. induction ps as [|p ps IH]; intros w; cbn [mfor].
  - exists w. split; [done|]. intros q. by rewrite bool_decide_eq_false_2 by set_solver.
  - destruct (delete_cache_file_spec p w) as (w1 & Hd & Hfs & _). unfold mbind. rewrite Hd.
    destruct (IH w1) as (w2 & -> & Hq). exists w2. split; [done|]. intros q. rewrite Hq, Hfs.
    destruct (decide (q = p)) as [->|Hne].
    + rewrite lookup_delete_eq, (bool_decide_eq_true_2 (p ∈ p :: ps)) by set_solver. by case_bool_decide.
    + rewrite lookup_delete_ne by done. rewrite (bool_decide_ext (q ∈ p :: ps) (q ∈ ps)) by set_solver. done.
Qed.

(** The eviction candidates are the files of the walk, each once. *)
Definition evictable (c : cfg) (pf : string * file) : Prop :=
  startswith pf.1 (cache_dir c +:+ "/") = true /\
  evictable_name (basename pf.1) = true /\ f_data pf.2 <> [].
Definition item_of (c : cfg) (pf : string * file) : CacheItem :=
  mkCacheItem pf.1 (Z.of_nat (length (f_data pf.2))) (f_atime pf.2) (f_mtime pf.2)
    (match relpath "/" pf.1 (get_cache_dir c) with Ok r => r | Err _ => pf.1 end).

Lemma elem_of_cache_items c w it :
  it ∈ cache_items c w <->
  exists p f, fs w !! p = Some f /\ evictable c (p, f) /\ it = item_of c (p, f).
Proof.
  unfold cache_items, walk. rewrite list_elem_of_fmap. split.
  - intros ([p f] & -> & Hin). rewrite !list_elem_of_filter, elem_of_map_to_list in Hin.
    exists p, f. unfold evictable. naive_solver.
  - intros (p & f & Hf & He & ->). exists (p, f). split; [done|].
    rewrite !list_elem_of_filter, elem_of_map_to_list. unfold evictable in He. naive_solver.
Qed.

Lemma NoDup_fst_filter (P : string * file -> Prop) `{!forall x, Decision (P x)} l :
  NoDup l.*1 -> NoDup (filter P l).*1.
Proof.
  induction l as [|x l IH]; [done|]. rewrite fmap_cons. intros [Hx Hl]%NoDup_cons.
  rewrite filter_cons. case_decide; [|auto]. rewrite fmap_cons. apply NoDup_cons. split; [|auto].
  intros (y & Hy & Hin)%list_elem_of_fmap. apply list_elem_of_filter in Hin as [_ Hin].
  apply Hx. rewrite Hy. by apply list_elem_of_fmap_2.
Qed.

Lemma NoDup_cache_items c w : NoDup (map file_path (cache_items c w)).
Proof.
  unfold cache_items. rewrite map_map. cbn. apply (NoDup_fst_filter _ _).
  unfold walk. apply (NoDup_fst_filter _ _). apply NoDup_fst_map_to_list.
Qed.

Lemma NoDup_of_map {A B} (g : A -> B) l : NoDup (map g l) -> NoDup l.
Proof. apply NoDup_fmap_1. Qed.

(** Once the evicted paths are gone, the kept items are the candidates. *)
Lemma kept_items c w w' evicted kept :
  cache_items c w ≡ₚ evicted ++ kept ->
  (forall q, fs w' !! q = if bool_decide (q ∈ map file_path evicted) then None else fs w !! q) ->
  cache_items c w' ≡ₚ kept.
Proof.
  intros Hperm Hfs. pose proof (NoDup_cache_items c w) as Hnd. rewrite Hperm, map_app in Hnd.
  apply NoDup_app in Hnd as (_ & Hdis & Hndk).
  apply NoDup_Permutation; [by eapply NoDup_of_map, NoDup_cache_items|by eapply NoDup_of_map|].
  intros it. rewrite elem_of_cache_items. split.
  - intros (p & f & Hf & He & ->). rewrite Hfs in Hf. case_bool_decide as Hin; [done|].
    assert (item_of c (p, f) ∈ cache_items c w) as H by (apply elem_of_cache_items; eauto).
    rewrite Hperm in H. apply elem_of_app in H as [H|H]; [|done]. destruct Hin.
    by apply (list_elem_of_fmap_2 file_path) in H.
  - intros Hk. assert (it ∈ cache_items c w) as H by (rewrite Hperm; set_solver).
    apply elem_of_cache_items in H as (p & f & Hf & He & ->). exists p, f.
    split_and!; [|done|done]. rewrite Hfs, bool_decide_eq_false_2; [done|].
    intros Hin. apply (Hdis _ Hin). by apply (list_elem_of_fmap_2 file_path) in Hk.
Qed.

(** What a policy promises of the items that are evicted and those that are kept *)
Definition evicts_first (p : EvictionPolicy) (evicted kept : list CacheItem) : Prop :=
  match p with
  | LRU => forall x y, x ∈ evicted -> y ∈ kept -> (atime x <= atime y)%Z
  | MRU => forall x y, x ∈ evicted -> y ∈ kept -> (atime y <= atime x)%Z
  | FIFO => forall x y, x ∈ evicted -> y ∈ kept -> (mtime x <= mtime y)%Z
  | RANDOM => evicted <> [] -> kept <> [] -> exists y, y ∈ kept /\ forall x, x ∈ evicted ++ kept -> (mtime x <= mtime y)%Z
  | NO_EVICTION => True
  end.
Lemma sort_items_evicts_first shuffle p items evicted kept :
  (forall l, shuffle l ≡ₚ l) -> sort_items shuffle p items = evicted ++ kept -> evicts_first p evicted kept.
Proof.
  intros Hsh H.
  pose proof (policies_order shuffle items evicted kept) as Ho.
  pose proof (sort_items_perm shuffle Hsh p items) as Hperm. rewrite H in Hperm.
  destruct p; cbn; try done; try (intros x y Hx Hy; destruct (Ho x y Hx Hy) as (? & ? & ? & _); by auto).
  intros He Hk. destruct evicted as [|x ev]; [done|]. destruct kept as [|y kp]; [done|].
  destruct (Ho x y) as (_ & _ & _ & Hr); [by left|by left|]. destruct (Hr H) as (z & Hz & Hall).
  exists z. split; [by apply last_Some_elem_of|]. intros it Hit. apply Hall. by rewrite <- Hperm.
Qed.


Definition full_cfg : cfg := mkCfg "/cache" "prof" 12 true false default_eviction_policy 4.
Definition full_world : world :=
  mkWorld (<["/cache/prof/a" := mkFile example_obj ∅ 1 1 false]>
          (<["/cache/prof/.b#chunk0" := mkFile example_obj ∅ 2 2 false]> ∅)) ∅ 9 0 false false true.

