(* ===== verification/ConfigLoader.v ===== *)
(** * Building a client's configuration ([multistorageclient/config.py])

    [ImmutableDict], [StorageClientConfigLoader] and the constructors of
    [StorageClientConfig].  The classes of the providers are an interface: their
    constructors return an object or raise.  The configuration is a [json]
    dictionary, whose numbers are integers.  Two objects are shared by all
    loaders of a process and changed through aliases: the dictionary of the
    reserved POSIX profile and the cached rclone configuration. *)
From S2P Require Import Prelude PyDict PyPath Types Utils Json Url PathMapping Config Rclone Eviction Cache.
From Stdlib Require Import QArith_base.
Local Close Scope Q_scope.

(** ** [ImmutableDict] *)
Module ImmutableDict.
(** Python values: scalars, lists, tuples, dictionaries and immutable ones *)
Inductive pyval :=
  | VScalar (j : json)
  | VList (l : list pyval)
  | VTuple (l : list pyval)
  | VDict (d : list (string * pyval))
  | VImmutable (d : list (string * pyval)).

(** [ImmutableDict(d)] and [_freeze_list] on a value that is put into one *)
Fixpoint freeze (v : pyval) : pyval :=
  match v with
  | VDict d => VImmutable (map (fun kv => (kv.1, freeze kv.2)) d)
  | VList l => VTuple (map freeze l)
  | _ => v
  end.
(** [_copy_value] *)
Fixpoint copy_value (v : pyval) : pyval :=
  match v with
  | VImmutable d => VDict (map (fun kv => (kv.1, copy_value kv.2)) d)
  | VTuple l => VList (map copy_value l)
  | _ => v
  end.
(** [copy.deepcopy] *)
Fixpoint deepcopy (v : pyval) : pyval :=
  match v with
  | VImmutable d | VDict d => VDict (map (fun kv => (kv.1, deepcopy kv.2)) d)
  | VTuple l => VTuple (map deepcopy l)
  | VList l => VList (map deepcopy l)
  | VScalar _ => v
  end.
(** [ImmutableDict.__init__], [__getitem__], [get] and the methods that change a dictionary *)
Definition new (d : list (string * pyval)) : list (string * pyval) := map (fun kv => (kv.1, freeze kv.2)) d.
Definition getitem (d : list (string * pyval)) (k : string) : res pyval :=
  match dget d k with Some v => Ok (copy_value v) | None => Err KeyError end.
Definition get (d : list (string * pyval)) (k : string) (dflt : pyval) : pyval :=
  match getitem d k with Ok v => v | Err _ => dflt end.
Definition mutate (d : list (string * pyval)) : res unit := Err TypeError.

Fixpoint of_json (j : json) : pyval :=
  match j with
  | JList l => VList (map of_json l)
  | JDict d => VDict (map (fun kv => (kv.1, of_json kv.2)) d)
  | _ => VScalar j
  end.

Lemma copy_freeze j : copy_value (freeze (of_json j)) = of_json j.
Proof.
  induction j as [| | | |l IH|d IH] using json_nested_ind; try done; cbn; f_equal; rewrite !map_map.
  - by apply map_ext_Forall.
  - apply map_ext_Forall. eapply Forall_impl; [exact IH|]. intros [k v] Hv. cbn in *. by rewrite Hv.
Qed.
(** Reading from a frozen configuration gives what was put into it. *)
Theorem getitem_new (d : dict) (k : string) :
  getitem (new (map (fun kv => (kv.1, of_json kv.2)) d)) k =
  match dict_get d k with Some v => Ok (of_json v) | None => Err KeyError end.
Proof.
  unfold getitem, new. induction d as [|[q v] d IH]; [done|]. cbn. destruct (decide (k = q)); [by rewrite copy_freeze|done].
Qed.
(** A deep copy, which promises a regular dictionary, keeps the tuples that
    replace the lists. *)
Theorem deepcopy_keeps_tuples (x : json) :
  deepcopy (freeze (of_json (JDict [("include", JList [JStr "a"])]))) = VDict [("include", VTuple [VScalar (JStr "a")])].
Proof. reflexivity. Qed.
End ImmutableDict.

(** ** Data *)
Record AutoCommitConfig := mkAutoCommit { interval_minutes : json; at_exit : json }.
Record StorageProviderConfig := mkStorageProviderConfig { sp_type : string; sp_options : dict }.
Record StorageBackend (CP : Type) := mkBackend {
  storage_provider_config : StorageProviderConfig;
  backend_credentials : option CP;
  backend_replicas : list Replica;
}.
Arguments mkBackend {CP} _ _ _.
Arguments storage_provider_config {CP} _.
Arguments backend_credentials {CP} _.
Arguments backend_replicas {CP} _.
(** [ProviderBundleV2] *)
Record ProviderBundle (CP MP : Type) := mkBundle {
  storage_backends : list (string * StorageBackend CP);
  bundle_metadata_provider : option MP;
}.
Arguments mkBundle {CP MP} _ _.
Arguments storage_backends {CP MP} _.
Arguments bundle_metadata_provider {CP MP} _.
(** The classes that the loader imports and calls *)
Class Providers (SP CP MP : Type) := {
  new_storage_provider : string -> dict -> option CP -> dict -> res SP;
  credentials_params : string -> res (list string);
  new_credentials : string -> dict -> res CP;
  new_manifest_provider : SP -> dict -> res MP;
  new_metadata_provider : string -> dict -> res MP;
  (** [None] for the profile of a bundle of the first version *)
  new_bundle : string -> dict -> res (string -> ProviderBundle CP MP);
}.

Section Loader.
Context {SP CP MP : Type} `{!Providers SP CP MP}.
Context (env : gmap string string) (cwd tempdir : string) (py_float : string -> option Q).

(** [StorageClientConfig]; a child of a composite one has no children itself *)
Record child_config := mkChildConfig {
  ch_storage_provider : SP;
  ch_credentials : option CP;
  ch_retry : RetryConfig;
  ch_replicas : list Replica;
  ch_config_dict : dict;
}.
Record client_config := mkClientConfig {
  cf_profile : string;
  cf_storage_provider : option SP;
  cf_credentials : option CP;
  cf_storage_provider_profiles : list string;
  cf_child_configs : list (string * child_config);
  cf_metadata_provider : option MP;
  cf_cache_config : option CacheConfig;
  cf_cache_manager : option CacheManager.cfg;
  cf_retry : RetryConfig;
  cf_replicas : list Replica;
  cf_autocommit : AutoCommitConfig;
  cf_config_dict : option dict;
}.
(** [StorageClientConfig.__init__] *)
Definition make_client_config (c : client_config) : res client_config :=
  match cf_storage_provider c, cf_storage_provider_profiles c with
  | Some _, _ :: _ => Err ValueError
  | None, [] => Err ValueError
  | _, _ => Ok c
  end.

(** The objects that the loaders of a process share *)
Record globals := mkGlobals {
  posix_profile : json;
  rclone_cache : option (option dict);
}.
Definition initial_globals : globals := mkGlobals DEFAULT_POSIX_PROFILE None.

(** ** The loader *)
Record loader := mkLoader {
  resolved_config_dict : dict;
  profiles : dict;
  (** whether the reserved profile in [profiles] is the shared object *)
  posix_is_shared : bool;
  ld_profile : string;
  profile_dict : dict;
  cache_dict : option json;
  experimental_features : option json;
}.
Definition STORAGE_PROVIDER_MAPPING : list (string * string) :=
  [("file", "PosixFileStorageProvider"); ("s3", "S3StorageProvider"); ("gcs", "GoogleStorageProvider");
   ("oci", "OracleStorageProvider"); ("azure", "AzureBlobStorageProvider"); ("ais", "AIStoreStorageProvider");
   ("ais_s3", "AIStoreS3StorageProvider"); ("s8k", "S8KStorageProvider"); ("gcs_s3", "GoogleS3StorageProvider");
   ("huggingface", "HuggingFaceStorageProvider")].
Definition CREDENTIALS_PROVIDER_MAPPING : list (string * string) :=
  [("S3Credentials", "StaticS3CredentialsProvider"); ("AzureCredentials", "StaticAzureCredentialsProvider");
   ("DefaultAzureCredentials", "DefaultAzureCredentialsProvider"); ("AISCredentials", "StaticAISCredentialProvider");
   ("GoogleIdentityPoolCredentialsProvider", "GoogleIdentityPoolCredentialsProvider");
   ("GoogleServiceAccountCredentialsProvider", "GoogleServiceAccountCredentialsProvider");
   ("HuggingFaceCredentials", "HuggingFaceCredentialsProvider"); ("FileBasedCredentials", "FileBasedCredentialsProvider")].

(** [d.get(k, {})] for a nested dictionary, and [d[k]] for a string *)
Definition get_dict (d : dict) (k : string) : res dict :=
  match dict_get d k with Some (JDict x) => Ok x | Some _ => Err AttributeError | None => Ok [] end.
Definition item_str (d : dict) (k : string) : res string :=
  match dict_get d k with Some (JStr s) => Ok s | Some _ => Err TypeError | None => Err KeyError end.
(** [d.get(k, None)] with its truth value: a dictionary that is not empty *)
Definition get_section (d : dict) (k : string) : res (option dict) :=
  match dict_get d k with
  | Some (JDict (x :: y)) => Ok (Some (x :: y))
  | Some j => if truthy j then Err TypeError else Ok None
  | None => Ok None
  end.

(** [_build_storage_provider]; the options are not changed here: the keys that
    the method adds to them are overwritten by every further call *)
Definition build_storage_provider (resolved : dict) (name : string) (options : dict) (c : option CP) : res SP :=
  match dget STORAGE_PROVIDER_MAPPING name with
  | None => Err ValueError
  | Some class_name => new_storage_provider class_name options c resolved
  end.
(** The options with what [_build_storage_provider] adds to them, as far as a
    comparison with a configuration can see it: the function
    [telemetry_provider] equals no value of a configuration file *)
Definition injected_options (resolved options : dict) : dict :=
  dict_set (dict_set options "config_dict" (JDict resolved)) "telemetry_provider" JNull.

(** The class path of [rsplit(".", 1)] *)
Definition qualified (class_type : string) : res string :=
  if has_char dot class_type then Ok class_type else Err ValueError.
Definition scope_options (params : list string) (options storage_options : dict) : dict :=
  fold_left (fun o kv => if bool_decide (kv.1 ∈ params) && negb (dmem o kv.1) then o ++ [kv] else o) storage_options options.
Definition build_credentials_provider (d : option dict) (storage_options : dict) : res (option CP) :=
  match d with
  | None => Ok None
  | Some d =>
      res_bind (item_str d "type") (fun t =>
      res_bind (match dget CREDENTIALS_PROVIDER_MAPPING t with Some c => Ok c | None => qualified t end) (fun cls =>
      res_bind (credentials_params cls) (fun params =>
      res_bind (get_dict d "options") (fun options =>
      res_bind (new_credentials cls (scope_options params options storage_options)) (fun c => Ok (Some c))))))
  end.

(** [_build_storage_provider_from_profile]; on the shared POSIX profile the
    added options stay *)
Definition build_storage_provider_from_profile (ld : loader) (name : string) : M globals SP :=
  match dict_get (profiles ld) name with
  | Some (JDict p) =>
      match p with
      | [] => mraise ValueError
      | _ =>
          let! md := mlift (get_section p "metadata_provider") in
          match md with
          | Some _ => mraise ValueError
          | None =>
              let! cd := mlift (get_section p "credentials_provider") in
              let! c := mlift (build_credentials_provider cd []) in
              let! sp := mlift (get_section p "storage_provider") in
              match sp with
              | None => mraise ValueError
              | Some sp =>
                  let! t := mlift (item_str sp "type") in
                  let! options := mlift (get_dict sp "options") in
                  let! g := mget in
                  (if bool_decide (name = RESERVED_POSIX_PROFILE_NAME) && posix_is_shared ld && dmem STORAGE_PROVIDER_MAPPING t
                      && dmem sp "options"
                   then mput (mkGlobals (JDict (dict_set p "storage_provider"
                                (JDict (dict_set sp "options" (JDict (injected_options (resolved_config_dict ld) options))))))
                              (rclone_cache g))
                   else mret tt) ;;;
                  mlift (build_storage_provider (resolved_config_dict ld) t options c)
              end
          end
      end
  | Some j => if truthy j then mraise AttributeError else mraise ValueError
  | None => mraise ValueError
  end.

(** The metadata provider of a profile *)
Definition build_metadata_provider (ld : loader) (name : string) (options : dict) (c : option CP) (md : dict) : M globals MP :=
  let! t := mlift (item_str md "type") in
  let! mo := mlift (get_dict md "options") in
  if bool_decide (t = "manifest") then
    let! sp :=
      match dict_get mo "storage_provider_profile" with
      | Some (JStr p) => if bool_decide (p = "") then mlift (build_storage_provider (resolved_config_dict ld) name options c)
                         else build_storage_provider_from_profile ld p
      | Some j => if truthy j then mraise TypeError else mlift (build_storage_provider (resolved_config_dict ld) name options c)
      | None => mlift (build_storage_provider (resolved_config_dict ld) name options c)
      end in
    mlift (new_manifest_provider sp (dict_del mo "storage_provider_profile"))
  else let! cls := mlift (qualified t) in mlift (new_metadata_provider cls mo).

(** The [replicas] of a profile, by priority *)
Definition replica_of (j : json) : res Replica :=
  match j with
  | JDict d =>
      res_bind (item_str d "replica_profile") (fun p =>
      match dict_get d "read_priority" with
      | None => Err KeyError
      | Some j => match json_int j with Some z => Ok (mkReplica p z) | None => Err TypeError end
      end)
  | _ => Err TypeError
  end.
Fixpoint replicas_of (l : list json) : res (list Replica) :=
  match l with
  | [] => Ok []
  | j :: l' => res_bind (replica_of j) (fun r => res_bind (replicas_of l') (fun rs => Ok (r :: rs)))
  end.
Definition by_priority (a b : Replica) : bool := (read_priority a <=? read_priority b)%Z.
Definition build_replicas (p : dict) : res (list Replica) :=
  match dict_get p "replicas" with
  | Some (JList l) => res_bind (replicas_of l) (fun rs => Ok (sort_by by_priority rs))
  | Some j => if truthy j then Err TypeError else Ok []
  | None => Ok []
  end.

(** [_build_provider_bundle_from_config], as the bundle of one backend that
    [SimpleProviderBundleV2.from_v1_bundle] makes of it *)
Definition build_provider_bundle_from_config (ld : loader) : M globals (ProviderBundle CP MP) :=
  let p := profile_dict ld in
  let! sp := mlift (get_section p "storage_provider") in
  match sp with
  | None => mraise ValueError
  | Some sp =>
      let! name := mlift (item_str sp "type") in
      let! options := mlift (get_dict sp "options") in
      let! cd := mlift (get_section p "credentials_provider") in
      let! c := mlift (build_credentials_provider cd options) in
      let! md := mlift (get_section p "metadata_provider") in
      let! meta :=
        match md with
        | None => mret None
        | Some md => let! m := build_metadata_provider ld name options c md in mret (Some m)
        end in
      let! rs := mlift (build_replicas p) in
      mret (mkBundle [(ld_profile ld, mkBackend (mkStorageProviderConfig name options) c rs)] meta)
  end.

(** [_build_provider_bundle] *)
Definition build_provider_bundle (ld : loader) (bundle : option (ProviderBundle CP MP)) : M globals (ProviderBundle CP MP) :=
  match bundle with
  | Some b => mret b
  | None =>
      let! bd := mlift (get_section (profile_dict ld) "provider_bundle") in
      match bd with
      | Some d =>
          let! t := mlift (item_str d "type") in
          let! cls := mlift (qualified t) in
          let! options := mlift (get_dict d "options") in
          let! b := mlift (new_bundle cls options) in
          mret (b (ld_profile ld))
      | None => build_provider_bundle_from_config ld
      end
  end.

(** [_build_retry_config] and [_build_autocommit_config] *)
Definition number (d : dict) (k : string) (dflt : Q) : res Q :=
  match dict_get d k with
  | None => Ok dflt
  | Some j => match json_int j with Some z => Ok (inject_Z z) | None => Err TypeError end
  end.
Definition build_retry_config (ld : loader) : res RetryConfig :=
  res_bind (get_section (profile_dict ld) "retry") (fun o =>
  match o with
  | None => make_RetryConfig DEFAULT_RETRY_ATTEMPTS DEFAULT_RETRY_DELAY DEFAULT_RETRY_BACKOFF_MULTIPLIER
  | Some d =>
      res_bind (number d "attempts" (inject_Z DEFAULT_RETRY_ATTEMPTS)) (fun a =>
      res_bind (number d "delay" DEFAULT_RETRY_DELAY) (fun dl =>
      res_bind (number d "backoff_multiplier" DEFAULT_RETRY_BACKOFF_MULTIPLIER) (fun b =>
      make_RetryConfig (Qnum a) dl b)))
  end).
Definition build_autocommit_config (ld : loader) : res AutoCommitConfig :=
  res_bind (get_section (profile_dict ld) "autocommit") (fun o =>
  Ok (match o with
      | None => mkAutoCommit JNull (JBool false)
      | Some d => mkAutoCommit (default JNull (dict_get d "interval_minutes")) (default (JBool false) (dict_get d "at_exit"))
      end)).

(** *** Validation *)
Definition DEFAULT_CACHE_SIZE : string := "10G".
Definition DEFAULT_CACHE_LINE_SIZE : string := "64M".
Definition DEFAULT_CACHE_REFRESH_INTERVAL : Z := 300.
Definition get_str (d : dict) (k dflt : string) : res string :=
  match dict_get d k with None => Ok dflt | Some (JStr s) => Ok s | Some _ => Err TypeError end.
Definition get_int (d : dict) (k : string) (dflt : Z) : res Z :=
  match dict_get d k with
  | None => Ok dflt
  | Some j => match json_int j with Some z => Ok z | None => Err TypeError end
  end.
(** [_verify_cache_config] *)
Definition verify_cache_config (cache : dict) : res unit :=
  if dmem cache "size_mb" then Err ValueError
  else
    res_bind (get_str cache "size" DEFAULT_CACHE_SIZE) (fun size =>
    res_bind (get_str cache "cache_line_size" DEFAULT_CACHE_LINE_SIZE) (fun line =>
    res_bind (convert_to_bytes py_float size) (fun size_bytes =>
    res_bind (convert_to_bytes py_float line) (fun line_bytes =>
    if (size_bytes <? line_bytes)%Z then Err ValueError else Ok tt)))).

(** [_validate_replicas] *)
Definition validate_replica (ld : loader) (r : Replica) : res unit :=
  if bool_decide (replica_profile r = ld_profile ld) then Err ValueError
  else
    match dict_get (profiles ld) (replica_profile r) with
    | None => Err ValueError
    | Some (JDict p) =>
        match dict_get p "replicas" with
        | Some j => if truthy j then Err ValueError else Ok tt
        | None => Ok tt
        end
    | Some _ => Err TypeError
    end.
Fixpoint validate_replicas (ld : loader) (rs : list Replica) : res unit :=
  match rs with
  | [] => Ok tt
  | r :: rs' => res_bind (validate_replica ld r) (fun _ => validate_replicas ld rs')
  end.

(** [_validate_experimental_features] *)
Definition feature_enabled (features : option json) (k : string) : res bool :=
  match features with
  | None => Ok false
  | Some (JDict d) => Ok (match dict_get d k with Some j => truthy j | None => false end)
  | Some j => if truthy j then Err AttributeError else Ok false
  end.
Definition validate_experimental_features (ld : loader) (e : EvictionPolicyConfig) : res unit :=
  res_bind (if bool_decide (upper (policy e) = "MRU")
            then res_bind (feature_enabled (experimental_features ld) "cache_mru_eviction") (fun on =>
                 if on then Ok tt else Err ValueError)
            else Ok tt) (fun _ =>
  if (purge_factor e =? 0)%Z then Ok tt
  else if (purge_factor e <? 0)%Z || (100 <? purge_factor e)%Z then Err ValueError
  else
    res_bind (feature_enabled (experimental_features ld) "cache_purge_factor") (fun on =>
    if on then Ok tt else Err ValueError)).

(** *** The cache of a profile *)
(** [location], [cache_backend.cache_path] or the default; [None] for [null] *)
Definition cache_location (cache : dict) : res (option string) :=
  res_bind (match dict_get cache "cache_backend" with
            | Some (JDict d) => Ok (default JNull (dict_get d "cache_path"))
            | Some j => if truthy j then Err AttributeError else Ok JNull
            | None => Ok JNull
            end) (fun backend_path =>
  let location := default (JStr (path_join tempdir "msc_cache")) (dict_get cache "location") in
  let used := if truthy backend_path && match dict_get cache "location" with None | Some JNull => true | _ => false end
              then backend_path else location in
  match used with
  | JStr l =>
      if negb (isabs l) then Err ValueError
      else
        match default used (dict_get cache "location") with
        | JStr l => Ok (Some l)
        | JNull => Ok None
        | _ => Err TypeError
        end
  | _ => Err TypeError
  end).
Definition eviction_of (cache : dict) : res EvictionPolicyConfig :=
  match dict_get cache "eviction_policy" with
  | None => Ok (mkEvictionPolicyConfig "fifo" DEFAULT_CACHE_REFRESH_INTERVAL 0)
  | Some (JDict d) =>
      res_bind (item_str d "policy") (fun p =>
      res_bind (get_int d "purge_factor" 0) (fun f =>
      res_bind (get_int d "refresh_interval" DEFAULT_CACHE_REFRESH_INTERVAL) (fun r =>
      Ok (mkEvictionPolicyConfig (lower p) r f))))
  | Some _ => Err TypeError
  end.
(** The flag [check_source_version], formerly [use_etag] *)
Definition check_version_of (cache : dict) : bool :=
  match dict_get cache "check_source_version" with
  | Some j => truthy j
  | None => match dict_get cache "use_etag" with Some j => truthy j | None => true end
  end.
Definition build_cache (ld : loader) (cache : dict) : res (CacheConfig * CacheManager.cfg) :=
  res_bind (cache_location cache) (fun location =>
  res_bind (verify_cache_config cache) (fun _ =>
  res_bind (eviction_of cache) (fun e =>
  res_bind (validate_experimental_features ld e) (fun _ =>
  res_bind (get_str cache "size" DEFAULT_CACHE_SIZE) (fun size =>
  res_bind (get_str cache "cache_line_size" DEFAULT_CACHE_LINE_SIZE) (fun line =>
  let c := mkCacheConfig size line (check_version_of cache)
             (match dict_get cache "prefetch_file" with Some j => truthy j | None => true end) location e in
  res_bind (CacheManager.init py_float cwd tempdir (ld_profile ld) c) (fun m => Ok (c, m)))))))).
Definition caching_enabled (ld : loader) : bool :=
  match dict_get (profile_dict ld) "caching_enabled" with Some j => truthy j | None => false end.
Definition cache_of (ld : loader) : res (option (CacheConfig * CacheManager.cfg)) :=
  match cache_dict ld with
  | None | Some JNull => Ok None
  | Some j =>
      if negb (caching_enabled ld) then Ok None
      else
        match j with
        | JDict cache => res_bind (build_cache ld cache) (fun x => Ok (Some x))
        | _ => Err AttributeError
        end
  end.

(** *** [__init__] *)
Definition config_profiles (c : dict) : res dict :=
  match dict_get c "profiles" with Some (JDict ps) => Ok ps | None => Ok [] | Some _ => Err TypeError end.
(** The reserved profile is added, or it must be the default one *)
Definition add_posix_profile (posix : json) (ps : dict) : res (dict * bool) :=
  match dict_get ps RESERVED_POSIX_PROFILE_NAME with
  | None => Ok (ps ++ [(RESERVED_POSIX_PROFILE_NAME, posix)], true)
  | Some p => if py_eqb p posix then Ok (ps, false) else Err ValueError
  end.
Definition find_profile (ps : dict) (profile : string) : res dict :=
  match dict_get ps profile with
  | Some (JDict (y :: p)) => Ok (y :: p)
  | Some j => if truthy j then Err TypeError else Err ValueError
  | None => Err ValueError
  end.
Definition load_profile (config_dict : dict) (profile : string) : M globals loader :=
  let! j := mlift (expand_env_vars env (JDict config_dict)) in
  match j with
  | JDict c =>
      let! g := mget in
      mlift (
        res_bind (config_profiles c) (fun ps =>
        res_bind (add_posix_profile (posix_profile g) ps) (fun x =>
        res_bind (find_profile x.1 profile) (fun p =>
        Ok (mkLoader c x.1 x.2 profile p (dict_get c "cache") (dict_get c "experimental_features"))))))
  | _ => mraise TypeError
  end.

(** [_inject_profiles_from_bundle]: the profiles of the backends *)
Definition child_profile (b : StorageBackend CP) : json :=
  JDict [("type", JStr (sp_type (storage_provider_config b))); ("options", JDict (sp_options (storage_provider_config b)))].
Fixpoint inject_profiles (backends : list (string * StorageBackend CP)) (ps : dict) : res dict :=
  match backends with
  | [] => Ok ps
  | (name, b) :: rest =>
      match dict_get ps name with
      | Some (JDict p) =>
          match dict_get p "storage_provider" with
          | Some sp => if py_eqb sp (child_profile b) then inject_profiles rest ps else Err ValueError
          | None => Err ValueError
          end
      | Some _ => Err AttributeError
      | None => inject_profiles rest (ps ++ [(name, JDict [("storage_provider", child_profile b)])])
      end
  end.
Fixpoint build_children (resolved : dict) (retry : RetryConfig) (backends : list (string * StorageBackend CP))
    : res (list (string * child_config)) :=
  match backends with
  | [] => Ok []
  | (name, b) :: rest =>
      res_bind (build_storage_provider resolved (sp_type (storage_provider_config b)) (sp_options (storage_provider_config b))
                  (backend_credentials b)) (fun sp =>
      res_bind (build_children resolved retry rest) (fun cs =>
      Ok ((name, mkChildConfig sp (backend_credentials b) retry (backend_replicas b) resolved) :: cs)))
  end.
Definition inject_profiles_from_bundle (ld : loader) (b : ProviderBundle CP MP) : res (loader * list (string * child_config)) :=
  if (length (storage_backends b) <=? 1)%nat then Ok (ld, [])
  else
    res_bind (inject_profiles (storage_backends b) (profiles ld)) (fun ps =>
    let resolved := dict_set (resolved_config_dict ld) "profiles" (JDict ps) in
    res_bind (build_retry_config ld) (fun retry =>
    res_bind (build_children resolved retry (storage_backends b)) (fun cs =>
    Ok (mkLoader resolved ps (posix_is_shared ld) (ld_profile ld) (profile_dict ld) (cache_dict ld) (experimental_features ld), cs)))).
Definition new_loader (config_dict : dict) (profile : string) (bundle : option (ProviderBundle CP MP))
    : M globals (loader * ProviderBundle CP MP * list (string * child_config)) :=
  let! ld := load_profile config_dict profile in
  let! b := build_provider_bundle ld bundle in
  let! x := mlift (inject_profiles_from_bundle ld b) in
  mret (x.1, b, x.2).

(** *** [build_config] *)
Definition build_config (ld : loader) (b : ProviderBundle CP MP) (children : list (string * child_config)) : res client_config :=
  match storage_backends b with
  | [] => Err IndexError
  | [(_, backend)] =>
      res_bind (build_storage_provider (resolved_config_dict ld) (sp_type (storage_provider_config backend))
                  (sp_options (storage_provider_config backend)) (backend_credentials backend)) (fun sp =>
      res_bind (validate_replicas ld (backend_replicas backend)) (fun _ =>
      res_bind (cache_of ld) (fun cache =>
      res_bind (build_retry_config ld) (fun retry =>
      res_bind (build_autocommit_config ld) (fun autocommit =>
      make_client_config (mkClientConfig (ld_profile ld) (Some sp) (backend_credentials backend) [] []
        (bundle_metadata_provider b) (fst <$> cache) (snd <$> cache) retry (backend_replicas backend) autocommit
        (Some (resolved_config_dict ld))))))))
  | backends =>
      match bundle_metadata_provider b with
      | None => Err ValueError
      | Some m =>
          res_bind (build_retry_config ld) (fun retry =>
          res_bind (build_autocommit_config ld) (fun autocommit =>
          make_client_config (mkClientConfig (ld_profile ld) None None backends.*1 children (Some m) None None retry [] autocommit
            (Some (resolved_config_dict ld)))))
      end
  end.
Definition load_config (config_dict : dict) (profile : string) (bundle : option (ProviderBundle CP MP)) : M globals client_config :=
  let! x := new_loader config_dict profile bundle in
  mlift (build_config x.1.1 x.1.2 x.2).
End Loader.
Arguments child_config : clear implicits.
Arguments client_config : clear implicits.

(** ** [StorageClientConfig] *)
Section ClientConfig.
Context {SP CP MP : Type} `{!Providers SP CP MP}.
Context (env : gmap string string) (cwd tempdir : string) (py_float : string -> option Q).
Context (schema_valid : json -> bool).
Abbreviation config := (client_config SP CP MP).
Abbreviation load_config := (load_config env cwd tempdir py_float).

(** [from_dict] *)
Definition from_dict (config_dict : dict) (profile : string) (skip_validation : bool) : M globals config :=
  (if skip_validation then mret tt else let! _ := mlift (validate_config schema_valid (JDict config_dict)) in mret tt) ;;;
  let! p := mlift (normalize_profile_name profile config_dict) in
  load_config config_dict p None.
(** [from_json] and [from_yaml] *)
Definition from_json (config_json profile : string) : M globals config :=
  match loads config_json with
  | Some (JDict d) => from_dict d profile false
  | Some j => let! _ := mlift (validate_config schema_valid j) in mraise AttributeError
  | None => mraise ValueError
  end.
Definition from_yaml (yaml_load : string -> res json) (config_yaml profile : string) : M globals config :=
  let! j := mlift (yaml_load config_yaml) in
  match j with
  | JDict d => from_dict d profile false
  | _ => if truthy j then let! _ := mlift (validate_config schema_valid j) in mraise AttributeError
         else from_dict [] profile false
  end.

(** [read_rclone_config] with its [@cache]: the result of the first call that returns *)
Definition cached_rclone_config (rclone : res (option (dict * string))) : M globals (option dict) :=
  let! g := mget in
  match rclone_cache g with
  | Some d => mret d
  | None =>
      let! r := mlift rclone in
      let d := fst <$> r in
      mput (mkGlobals (posix_profile g) (Some d)) ;;; mret d
  end.

(** The profile that [from_file] adds when no file defines it: the dictionary
    under ["profiles"] of [implicit_profile_config] *)
Definition implicit_profiles (g : globals) (profile : string) : res dict :=
  if bool_decide (profile ∈ [RESERVED_POSIX_PROFILE_NAME; LEGACY_POSIX_PROFILE_NAME])
  then Ok [(RESERVED_POSIX_PROFILE_NAME, posix_profile g)]
  else
    match profile with
    | String "_" rest =>
        match split1 "-" rest with
        | (protocol, Some bucket) =>
            if bool_decide (protocol ∈ SUPPORTED_IMPLICIT_PROFILE_PROTOCOLS)
            then res_bind (create_implicit_profile_config profile protocol bucket) (fun c => get_dict c "profiles")
            else Err ValueError
        | (_, None) => Err ValueError
        end
    | _ => Err ValueError
    end.

(** [from_file]; [msc] is the result of [read_msc_config] *)
Definition from_file (msc : res (json * option string)) (rclone : res (option (dict * string))) (profile : string)
    : M globals config :=
  let! m := mlift msc in
  let! r := cached_rclone_config rclone in
  let! d1 := match m.1 with
             | JDict d => mret d
             | JNull => mret []
             | _ => match r with Some (_ :: _) => mraise TypeError | _ => mraise AttributeError end
             end in
  match merge_dictionaries_no_overwrite (Some d1) r None false with
  | (_, _ :: _) => mraise ValueError
  | (merged, []) =>
      let! ps := mlift (match dict_get merged "profiles" with
                        | Some (JDict ps) => Ok (Some ps) | None => Ok None | Some _ => Err TypeError end) in
      if match ps with Some ps => dmem ps profile | None => false end then from_dict merged profile false
      else
        let! g := mget in
        let! implicit := mlift (implicit_profiles g profile) in
        match ps with
        | None => from_dict (merged ++ [("profiles", JDict implicit)]) profile true
        | Some ps =>
            match dict_get implicit profile with
            | None => mraise KeyError
            | Some p =>
                let ps' := dict_set ps profile p in
                (** without profiles of its own the merged dictionary holds the cached object *)
                (match r with
                 | Some rd => if dmem d1 "profiles" then mret tt
                              else mput (mkGlobals (posix_profile g) (Some (Some (dict_set rd "profiles" (JDict ps')))))
                 | None => mret tt
                 end) ;;;
                from_dict (dict_set merged "profiles" (JDict ps')) profile true
            end
        end
  end.

(** [from_provider_bundle] *)
Definition with_config_dict (d : option dict) (c : config) : config :=
  mkClientConfig (cf_profile c) (cf_storage_provider c) (cf_credentials c) (cf_storage_provider_profiles c) (cf_child_configs c)
    (cf_metadata_provider c) (cf_cache_config c) (cf_cache_manager c) (cf_retry c) (cf_replicas c) (cf_autocommit c) d.
Definition from_provider_bundle (config_dict : dict) (bundle : ProviderBundle CP MP) : M globals config :=
  let! c := load_config config_dict RESERVED_POSIX_PROFILE_NAME (Some bundle) in mret (with_config_dict None c).

(** [__getstate__] and [__setstate__]: what is pickled, and the configuration
    rebuilt from it *)
Definition getstate (c : config) : res (dict * string) :=
  match cf_config_dict c with
  | Some (x :: d) => Ok (x :: d, cf_profile c)
  | _ => Err ValueError
  end.
Definition setstate (st : dict * string) : M globals config :=
  let! c := load_config st.1 st.2 None in mret (with_config_dict (Some st.1) c).
End ClientConfig.
