(* ===== verification/ConfigProofs.v ===== *)
(** * What a client's configuration guarantees

    Theorems about [ConfigLoader]: the configurations that are built are well
    formed, pickling rebuilds them, and the cases in which the loaders disagree
    with the schema or with each other. *)
From S2P Require Import Prelude PyDict PyPath Types Utils Json Url PathMapping Config Rclone Eviction Cache ConfigLoader.
From Stdlib Require Import QArith_base.
Local Close Scope Q_scope.

(** ** Helpers *)
Lemma mbind_Ok {W A B} (m : M W A) (f : A -> M W B) w b w' :
  mbind m f w = (Ok b, w') -> exists a w1, m w = (Ok a, w1) /\ f a w1 = (Ok b, w').
Proof. unfold mbind. destruct (m w) as [[a|e] w1]; [|done]. intros H. by exists a, w1. Qed.
Lemma res_bind_Ok {A B} (r : res A) (f : A -> res B) b : res_bind r f = Ok b -> exists a, r = Ok a /\ f a = Ok b.
Proof. destruct r as [a|e]; [|done]. intros H. by exists a. Qed.
Lemma mlift_Ok {W A} (r : res A) (w w' : W) a : mlift r w = (Ok a, w') -> r = Ok a /\ w' = w.
Proof. unfold mlift. by intros [= -> ->]. Qed.
Ltac res_inv :=
  repeat match goal with
         | H : res_bind _ _ = Ok _ |- _ => apply res_bind_Ok in H; destruct H as (? & ? & ?)
         | H : mbind _ _ _ = (Ok _, _) |- _ => apply mbind_Ok in H; destruct H as (? & ? & ? & ?)
         | H : mlift _ _ = (Ok _, _) |- _ => apply mlift_Ok in H; destruct H as [? ?]
         end.

(** A call made twice returns the same. *)
Ltac same_calls :=
  repeat match goal with
         | H1 : ?a = Ok ?x, H2 : ?a = Ok ?y |- _ => assert (x = y) by congruence; clear H2; subst
         end.

Section Built.
Context {SP CP MP : Type} `{!Providers SP CP MP}.
Context (env : gmap string string) (cwd tempdir : string) (py_float : string -> option Q).
Abbreviation config := (client_config SP CP MP).
Abbreviation load_config := (load_config env cwd tempdir py_float).

Lemma load_profile_inv d profile g ld g' :
  load_profile env d profile g = (Ok ld, g') ->
  g' = g /\ ld_profile ld = profile /\ experimental_features ld = dict_get (resolved_config_dict ld) "experimental_features" /\
  expand_env_vars env (JDict d) = Ok (JDict (resolved_config_dict ld)) /\
  (forall k p, dict_get (profiles ld) k = Some p -> entry_in (resolved_config_dict ld) "profiles" k = Some p \/
     k = RESERVED_POSIX_PROFILE_NAME).
Proof.
  unfold load_profile. intros H. res_inv. destruct x as [| | | | |c]; try done. res_inv. unfold mget in *. simplify_eq.
  cbn. split_and!; try done. intros k p Hk. unfold entry_in.
  match goal with H : config_profiles c = Ok ?ps |- _ => rename H into Hc; rename ps into ps0 end.
  match goal with H : add_posix_profile _ _ = Ok ?x |- _ => rename H into Ha; destruct x as [ps b] end. cbn in *.
  assert (dict_get ps0 k = match dict_get c "profiles" with Some (JDict x) => dict_get x k | _ => None end) as <-.
  { unfold config_profiles in Hc. by destruct (dict_get c "profiles") as [[]|]; simplify_eq. }
  unfold add_posix_profile in Ha. destruct (dict_get ps0 RESERVED_POSIX_PROFILE_NAME) eqn:E.
  - destruct (py_eqb _ _); simplify_eq. by left.
  - simplify_eq. rewrite dict_get_app in Hk. destruct (dict_get ps0 k); [by left|]. right. cbn in Hk. by destruct (decide _).
Qed.

(** ** Well-formed configurations *)
Record cache_wf (features : option json) (cc : CacheConfig) (m : CacheManager.cfg) : Prop := {
  wf_line : (CacheManager.cache_line_size m <= CacheManager.max_cache_size m)%Z;
  wf_location : forall l, cc_location cc = Some l -> isabs l = true;
  wf_policy : eviction_policy_is_valid (policy (CacheManager.eviction_policy m)) = true;
  wf_mru : upper (policy (CacheManager.eviction_policy m)) = "MRU" -> feature_enabled features "cache_mru_eviction" = Ok true;
  wf_purge : (0 <= purge_factor (CacheManager.eviction_policy m) <= 100)%Z;
  wf_purge_enabled : purge_factor (CacheManager.eviction_policy m) <> 0%Z -> feature_enabled features "cache_purge_factor" = Ok true;
}.
Record config_wf (resolved : dict) (c : config) : Prop := {
  wf_one_kind : is_Some (cf_storage_provider c) <-> cf_storage_provider_profiles c = [];
  wf_attempts : (1 <= attempts (cf_retry c))%Z;
  wf_delay : (0 <= delay (cf_retry c))%Q;
  wf_backoff : (1 <= backoff_multiplier (cf_retry c))%Q;
  wf_replicas : forall r, r ∈ cf_replicas c -> replica_profile r <> cf_profile c /\
    (replica_profile r = RESERVED_POSIX_PROFILE_NAME \/
     exists p, entry_in resolved "profiles" (replica_profile r) = Some (JDict p) /\
       forall j, dict_get p "replicas" = Some j -> truthy j = false);
  wf_cache : forall cc m, cf_cache_config c = Some cc -> cf_cache_manager c = Some m ->
    cache_wf (dict_get resolved "experimental_features") cc m;
}.

Lemma make_RetryConfig_wf a d b r :
  make_RetryConfig a d b = Ok r -> (1 <= attempts r)%Z /\ (0 <= delay r)%Q /\ (1 <= backoff_multiplier r)%Q.
Proof.
  unfold make_RetryConfig. destruct (a <? 1)%Z eqn:E; [done|]. destruct (Qle_bool 0 d) eqn:Ed; [|done].
  destruct (Qle_bool 1 b) eqn:Eb; [|done]. intros [= <-]. cbn. apply Qle_bool_iff in Ed, Eb. bool_to_prop. done.
Qed.
Lemma build_retry_config_wf ld r :
  build_retry_config ld = Ok r -> (1 <= attempts r)%Z /\ (0 <= delay r)%Q /\ (1 <= backoff_multiplier r)%Q.
Proof.
  unfold build_retry_config. intros H. res_inv. destruct x; res_inv; by eapply make_RetryConfig_wf.
Qed.
Lemma validate_replicas_wf ld rs r :
  validate_replicas ld rs = Ok tt -> r ∈ rs -> replica_profile r <> ld_profile ld /\
  exists p, dict_get (profiles ld) (replica_profile r) = Some (JDict p) /\ forall j, dict_get p "replicas" = Some j -> truthy j = false.
Proof.
  induction rs as [|r0 rs IH]; [by intros _ ?%elem_of_nil|]. cbn [validate_replicas]. intros H. res_inv.
  intros [->|Hr]%elem_of_cons; [|by apply IH]. unfold validate_replica in *. case_bool_decide; [done|]. split; [done|].
  destruct (dict_get (profiles ld) (replica_profile r0)) as [[]|]; try done. eexists. split; [done|].
  intros j Hj. rewrite Hj in *. by destruct (truthy j).
Qed.
Lemma validate_experimental_wf ld e :
  validate_experimental_features ld e = Ok tt ->
  (upper (policy e) = "MRU" -> feature_enabled (experimental_features ld) "cache_mru_eviction" = Ok true) /\
  (0 <= purge_factor e <= 100)%Z /\
  (purge_factor e <> 0%Z -> feature_enabled (experimental_features ld) "cache_purge_factor" = Ok true).
Proof.
  unfold validate_experimental_features. intros H. res_inv. split.
  - intros Hp. match goal with H : (if bool_decide _ then _ else _) = _ |- _ => rename H into Hm end.
    rewrite bool_decide_true in Hm by done. res_inv. by destruct x0.
  - match goal with H : (if (_ =? 0)%Z then _ else _) = _ |- _ => rename H into Hm end.
    destruct (purge_factor e =? 0)%Z eqn:E0; [bool_to_prop; split; [lia|done]|].
    destruct ((purge_factor e <? 0)%Z || (100 <? purge_factor e)%Z) eqn:E1; [done|]. bool_to_prop. res_inv.
    split; [lia|]. intros _. by destruct x0.
Qed.
Lemma build_cache_wf ld cache cc m :
  build_cache cwd tempdir py_float ld cache = Ok (cc, m) -> cache_wf (experimental_features ld) cc m.
Proof.
  unfold build_cache. intros H. res_inv. simplify_eq.
  match goal with H : cache_location _ _ = Ok ?l |- _ => rename H into Hl, l into loc end.
  match goal with H : verify_cache_config _ _ = _ |- _ => rename H into Hv end.
  match goal with H : CacheManager.init _ _ _ _ _ = _ |- _ => rename H into Hi end.
  match goal with H : validate_experimental_features _ _ = _ |- _ => rename H into He end.
  unfold CacheManager.init in Hi. cbn in Hi. res_inv. destruct (eviction_policy_is_valid _) eqn:Ep; [|done]. simplify_eq. cbn.
  match type of He with _ = Ok ?x => destruct x end. destruct (validate_experimental_wf ld _ He) as (Hmru & Hpurge & Hon).
  split; cbn; [|intros l ->|done..].
  - unfold verify_cache_config in Hv. destruct (dmem cache "size_mb"); [done|]. res_inv. same_calls.
    destruct (_ <? _)%Z eqn:E; [done|]. by bool_to_prop.
  - unfold cache_location in Hl. apply res_bind_Ok in Hl as (bp & _ & Hu). cbn zeta in Hu.
    match type of Hu with (match (if ?b then _ else _) with _ => _ end) = _ => destruct b eqn:Eb end.
    + apply andb_true_iff in Eb as [_ Eb]. destruct bp as [| | |s| |]; try done. destruct (isabs s) eqn:Es; [|done].
      destruct (dict_get cache "location") as [[]|]; try done. cbn in Hu. by simplify_eq.
    + destruct (dict_get cache "location") as [[| | |s| |]|]; cbn [default from_option id] in Hu; try done.
      * by destruct (isabs s) eqn:Es; simplify_eq/=.
      * by destruct (isabs (path_join tempdir "msc_cache")) eqn:Es; simplify_eq/=.
Qed.

(** C20: a configuration that is built is well formed: it is either a single
    storage provider or a list of child profiles, its retries make at least one
    attempt, every replica is another existing profile without replicas of its
    own, and its cache holds at least one cache line, has an absolute location
    and a known policy, and uses the experimental options only when they are
    enabled. *)
Theorem built_config_well_formed (config_dict resolved : dict) (profile : string) (bundle : option (ProviderBundle CP MP))
    (g g' : globals) (c : config)
    (Hload : load_config config_dict profile bundle g = (Ok c, g')) (Hresolved : cf_config_dict c = Some resolved) :
  cf_profile c = profile /\ config_wf resolved c.
Proof.
  unfold ConfigLoader.load_config, new_loader in Hload. res_inv. destruct x as [[ld b] cs]. cbn [fst snd] in *.
  match goal with H : load_profile _ _ _ _ = _ |- _ => apply load_profile_inv in H as (-> & Hp & Hx & _ & Hps) end.
  match goal with H : inject_profiles_from_bundle _ _ = Ok ?x |- _ => rename H into Hi; destruct x as [ld' cs'] end.
  unfold mret in *. simplify_eq. cbn [fst snd] in *.
  match goal with H : build_config _ _ _ _ _ _ = _ |- _ => rename H into Hb end.
  unfold build_config in Hb. unfold inject_profiles_from_bundle in Hi.
  destruct (storage_backends b) as [|[n1 b1] [|b2 bs]]; [done| |]; cbn [length Nat.leb] in Hi.
  - simplify_eq. res_inv. unfold make_client_config in *. cbn in *. simplify_eq. cbn in *. simplify_eq.
    match goal with H : build_retry_config _ = Ok _ |- _ => apply build_retry_config_wf in H as (? & ? & ?) end.
    split; [done|]. split; cbn; try done.
    + intros r Hr. match goal with H : validate_replicas _ _ = Ok ?x |- _ => destruct x; rename H into Hv end.
      destruct (validate_replicas_wf _ _ _ Hv Hr) as (? & p & Hp & ?). split; [done|].
      destruct (Hps _ _ Hp); [right; by exists p|by left].
    + match goal with H : cache_of _ _ _ _ = Ok ?x |- _ => rename H into Hc, x into o end.
      intros cc m Hcc Hm. destruct o as [[cc' m']|]; [|done]. cbn in Hcc, Hm. simplify_eq.
      unfold cache_of in Hc. destruct (cache_dict _) as [[| | | | |cache]|]; try done; destruct (caching_enabled _); try done.
      cbn in Hc. res_inv. simplify_eq. rewrite <- Hx. by eapply build_cache_wf.
  - destruct (bundle_metadata_provider b); [|done]. res_inv. unfold make_client_config in *. cbn in *. simplify_eq. cbn in *. simplify_eq.
    match goal with H : build_retry_config _ = Ok _ |- _ => apply build_retry_config_wf in H as (? & ? & ?) end.
    split; [done|]. split; cbn; try done; [split; [by intros [? ?]|done] || by intros r ?%elem_of_nil..].
Qed.

(** ** Pickling *)
Lemma load_profile_expanded d d' profile g :
  expand_env_vars env (JDict d) = expand_env_vars env (JDict d') -> load_profile env d profile g = load_profile env d' profile g.
Proof. intros H. unfold load_profile. by rewrite H. Qed.
Lemma load_config_expanded d d' profile bundle g :
  expand_env_vars env (JDict d) = expand_env_vars env (JDict d') -> load_config d profile bundle g = load_config d' profile bundle g.
Proof.
  intros H. unfold ConfigLoader.load_config, new_loader, mbind. by rewrite (load_profile_expanded d d' profile g H).
Qed.
(** The dictionary that a single client keeps is its own configuration, expanded *)
Lemma load_config_dict d profile bundle g c g' :
  load_config d profile bundle g = (Ok c, g') -> is_Some (cf_storage_provider c) ->
  exists resolved, cf_config_dict c = Some resolved /\ cf_profile c = profile /\ expand_env_vars env (JDict d) = Ok (JDict resolved).
Proof.
  intros Hload [sp Hsp]. unfold ConfigLoader.load_config, new_loader in Hload. res_inv. destruct x as [[ld b] cs]. cbn [fst snd] in *.
  match goal with H : load_profile _ _ _ _ = _ |- _ => apply load_profile_inv in H as (-> & Hp & Hx & He & Hps) end.
  match goal with H : inject_profiles_from_bundle _ _ = Ok ?x |- _ => rename H into Hi; destruct x as [ld' cs'] end.
  unfold mret in *. simplify_eq. cbn [fst snd] in *.
  match goal with H : build_config _ _ _ _ _ _ = _ |- _ => rename H into Hb end.
  unfold build_config in Hb. unfold inject_profiles_from_bundle in Hi.
  destruct (storage_backends b) as [|[n1 b1] [|b2 bs]]; [done| |]; cbn [length Nat.leb] in Hi.
  - simplify_eq. res_inv. unfold make_client_config in *. cbn in *. simplify_eq. cbn. by eexists.
  - destruct (bundle_metadata_provider b); [|done]. res_inv. unfold make_client_config in *. cbn in *. by simplify_eq.
Qed.

(** A pickled configuration is rebuilt as it was: the state of a
    configuration of a single storage provider, restored in a process with the
    same environment, gives the same configuration, although the environment
    variables in it are expanded a second time. *)
Theorem pickled_config_rebuilt (config_dict : dict) (profile : string) (g g' : globals) (c : config) (st : dict * string)
    (Henv : well_named env) (Hload : load_config config_dict profile None g = (Ok c, g'))
    (Hsingle : is_Some (cf_storage_provider c)) (Hstate : getstate c = Ok st) :
  setstate env cwd tempdir py_float st g = (Ok c, g').
Proof.
  destruct (load_config_dict _ _ _ _ _ _ Hload Hsingle) as (resolved & Hd & Hp & He).
  assert (st = (resolved, profile)) as ->.
  { unfold getstate in Hstate. rewrite Hd, Hp in Hstate. by destruct resolved; simplify_eq. }
  unfold setstate. cbn [fst snd]. unfold mbind. rewrite (load_config_expanded resolved config_dict).
  - rewrite Hload. unfold mret. do 2 f_equal. unfold with_config_dict. destruct c. cbn in *. by simplify_eq.
  - rewrite He. apply expand_env_vars_idempotent; [done|]. by apply expand_env_vars_resolved in He.
Qed.
End Built.

(** ** Examples *)
(** Providers that record how they were built *)
#[local] Instance recording_providers : Providers (string * dict) dict unit := {|
  new_storage_provider cls options c resolved := Ok (cls, options);
  credentials_params cls := Ok [];
  new_credentials cls options := Ok options;
  new_manifest_provider sp options := Ok tt;
  new_metadata_provider cls options := Ok tt;
  new_bundle cls options := Err ValueError;
|}.
Definition no_float (s : string) : option Q := None.
Definition load_in (env : gmap string string) (d : dict) (profile : string) (g : globals) :=
  ConfigLoader.load_config env "/" "/tmp" no_float d profile None g.

Definition sample_config : dict :=
  [("profiles", JDict
     [("main", JDict [("storage_provider", JDict [("type", JStr "s3"); ("options", JDict [("base_path", JStr "${BUCKET}/x")])]);
                      ("caching_enabled", JBool true);
                      ("replicas", JList [JDict [("replica_profile", JStr "copy"); ("read_priority", JInt 1)]]);
                      ("retry", JDict [("attempts", JInt 5)])]);
      ("copy", implicit_profile "file" "/copy")]);
   ("cache", JDict [("size", JStr "1G"); ("location", JStr "/cache")])].
Definition sample_env : gmap string string := {[ "BUCKET" := "data" ]}.
Definition sample_loaded : client_config (string * dict) dict unit :=
  match (load_in sample_env sample_config "main" initial_globals).1 with
  | Ok c => c
  | Err _ => mkClientConfig "" None None [] [] None None None default_RetryConfig [] (mkAutoCommit JNull JNull) None
  end.
Example sample_provider : cf_storage_provider sample_loaded = Some ("S3StorageProvider", [("base_path", JStr "data/x")]).
Proof. vm_compute. reflexivity. Qed.

Lemma built_config_well_formed_witness :
  config_wf (default [] (cf_config_dict sample_loaded)) sample_loaded.
Proof.
  apply (built_config_well_formed sample_env "/" "/tmp" no_float sample_config (default [] (cf_config_dict sample_loaded)) "main" None
    initial_globals initial_globals sample_loaded); vm_compute; reflexivity.
Defined.
Lemma pickled_config_rebuilt_witness :
  match getstate sample_loaded with
  | Ok st => setstate sample_env "/" "/tmp" no_float st initial_globals = (Ok sample_loaded, initial_globals)
  | Err _ => False
  end.
Proof.
  destruct (getstate sample_loaded) as [st|] eqn:E.
  - apply (pickled_config_rebuilt sample_env "/" "/tmp" no_float sample_config "main").
    + unfold sample_env. intros n v [<- <-]%lookup_singleton_Some. by eexists _, _.
    + vm_compute. reflexivity.
    + vm_compute. eauto.
    + exact E.
  - vm_compute in E. discriminate E.
Defined.

(** ** Divergences *)
(** The part of the schema that the examples need: names of profiles do not
    start with an underscore *)
Definition schema_names (j : json) : bool :=
  match j with
  | JDict d => match dict_get d "profiles" with
               | Some (JDict ps) => forallb (fun kv => negb (startswith kv.1 "_") || bool_decide (kv.1 = RESERVED_POSIX_PROFILE_NAME)) ps
               | _ => true
               end
  | _ => false
  end.
Definition from_file_in (msc : dict) (rclone : option (dict * string)) (profile : string) :=
  from_file ∅ "/" "/tmp" no_float schema_names (Ok (JDict msc, None)) (Ok rclone) profile.

(** The deprecated name [default] of the POSIX profile works only without a
    configuration: any file with profiles makes it a [KeyError]. *)
Theorem legacy_default_profile_lost :
  is_ok (from_file_in [] None "default" initial_globals).1 = true /\
  (from_file_in [("profiles", JDict [("a", implicit_profile "s3" "b")])] None "default" initial_globals).1 = Err KeyError.
Proof. vm_compute. split; reflexivity. Qed.

(** An implicit profile is stored in the cached rclone configuration when the
    MSC configuration has no profiles; afterwards the profiles of rclone are
    rejected by the schema, which allows no underscore. *)
Theorem implicit_profile_pollutes_rclone :
  let rclone := Some (parse_from_config_parser [("remote", [("type", "s3")])], "/rclone.conf") in
  match from_file_in [] rclone "remote" initial_globals with
  | (Ok _, g1) =>
      match from_file_in [] rclone "_s3-bucket" g1 with
      | (Ok _, g2) => (from_file_in [] rclone "remote" g2).1 = Err RuntimeError /\
                      (from_file_in [] rclone "_s3-bucket" g2).1 = Err RuntimeError
      | _ => False
      end
  | _ => False
  end.
Proof. vm_compute. split; reflexivity. Qed.

(** A manifest that is read through the reserved POSIX profile changes the
    shared dictionary of that profile: a configuration that spells the reserved
    profile out with its own settings is rejected from then on. *)
Theorem reserved_profile_polluted :
  let spelled := [("profiles", JDict [(RESERVED_POSIX_PROFILE_NAME, DEFAULT_POSIX_PROFILE)])] in
  let manifest := [("profiles", JDict [("m", JDict
    [("storage_provider", JDict [("type", JStr "s3"); ("options", JDict [("base_path", JStr "b")])]);
     ("metadata_provider", JDict [("type", JStr "manifest");
       ("options", JDict [("storage_provider_profile", JStr RESERVED_POSIX_PROFILE_NAME)])])])])] in
  is_ok (load_in ∅ spelled RESERVED_POSIX_PROFILE_NAME initial_globals).1 = true /\
  match load_in ∅ manifest "m" initial_globals with
  | (Ok _, g) => (load_in ∅ spelled RESERVED_POSIX_PROFILE_NAME g).1 = Err ValueError
  | _ => False
  end.
Proof. vm_compute. split; reflexivity. Qed.

(** A profile with [storage_provider_profiles] and a metadata provider, which
    the schema accepts, cannot be loaded. *)
Theorem child_profiles_not_supported :
  (load_in ∅ [("profiles", JDict [("a", implicit_profile "s3" "a"); ("b", implicit_profile "s3" "b");
     ("both", JDict [("storage_provider_profiles", JList [JStr "a"; JStr "b"]);
                     ("metadata_provider", JDict [("type", JStr "x.Y")])])])] "both" initial_globals).1 = Err ValueError.
Proof. vm_compute. reflexivity. Qed.

(** An eviction policy section without [policy], whose default the schema
    names, is a [KeyError]. *)
Theorem policy_without_name_fails :
  (load_in ∅ [("profiles", JDict [("a", JDict [("storage_provider", JDict [("type", JStr "file"); ("options", JDict [("base_path", JStr "/")])]);
                                               ("caching_enabled", JBool true)])]);
              ("cache", JDict [("eviction_policy", JDict [("refresh_interval", JInt 60)])])] "a" initial_globals).1 = Err KeyError.
Proof. vm_compute. reflexivity. Qed.
