(* ===== verification/ProviderRegistry.v ===== *)
(** * Lazy imports of the providers ([providers/__init__.py])

    The classes that the package [providers] imports when they are asked for,
    and the classes that a configuration can name. *)
From S2P Require Import Prelude PyDict PyPath Types Utils Json Url PathMapping Config Rclone Eviction Cache ConfigLoader.

(** ** Definitions *)
Definition module_map : list (string * string) :=
  [("AzureBlobStorageProvider", ".azure"); ("StaticAzureCredentialsProvider", ".azure"); ("DefaultAzureCredentialsProvider", ".azure");
   ("GoogleStorageProvider", ".gcs"); ("GoogleIdentityPoolCredentialsProvider", ".gcs"); ("GoogleServiceAccountCredentialsProvider", ".gcs");
   ("GoogleS3StorageProvider", ".gcs_s3"); ("OracleStorageProvider", ".oci"); ("S3StorageProvider", ".s3"); ("StaticS3CredentialsProvider", ".s3");
   ("S8KStorageProvider", ".s8k"); ("AIStoreStorageProvider", ".ais"); ("AIStoreS3StorageProvider", ".ais_s3"); ("StaticAISCredentialProvider", ".ais");
   ("HuggingFaceStorageProvider", ".huggingface"); ("HuggingFaceCredentialsProvider", ".huggingface"); ("FileBasedCredentialsProvider", ".file_credentials")].
Definition package_map : list (string * list string) :=
  [(".azure", ["azure-storage-blob"]); (".gcs", ["google-cloud-storage"]); (".gcs_s3", ["boto3"]); (".oci", ["oci"]); (".s3", ["boto3"]); (".s8k", ["boto3"]);
   (".ais", ["aistore"]); (".ais_s3", ["boto3"; "aistore"]); (".huggingface", ["huggingface"])].
Definition provider_names : list (string * string) :=
  [(".azure", "Azure Blob Storage"); (".gcs", "Google Cloud Storage"); (".gcs_s3", "Google Cloud Storage with S3 API"); (".oci", "Oracle Cloud Infrastructure");
   (".s3", "Amazon S3 or other S3-compatible storage"); (".s8k", "S8K storage"); (".ais", "NVIDIA AIStore"); (".ais_s3", "NVIDIA AIStore with S3 API");
   (".huggingface", "HuggingFace Hub")].
(** The names that the package imports itself *)
Definition eager_names : list string := ["ManifestMetadataProvider"; "PosixFileStorageProvider"].
Definition install_hint (module_name : string) : string :=
  let required_packages := join "," (default [lstrip "." module_name] (dget package_map module_name)) in
  let provider_name := default "this storage provider" (dget provider_names module_name) in
  join (String "010" "") [""; "Accessing " +:+ provider_name +:+ " requires additional dependencies.";
    "To use this storage provider, please install the optional dependency:"; ""; "    pip install multi-storage-client[" +:+ required_packages +:+ "]"; ""].
Section Registry.
(** A class, and the import of a class from a module of the package: [None]
    when a package that the module needs is not installed *)
Context {K : Type} (import_from : string -> string -> option K).
Record imports := mkImports { imported : gmap string K; logged : list string }.
(** [__getattr__]; [ImportError] is [ModuleNotFoundError] *)
Definition getattr (name : string) : M imports K :=
  fun s =>
  match imported s !! name with
  | Some k => (Ok k, s)
  | None =>
      match dget module_map name with
      | Some module_name =>
          match import_from module_name name with
          | Some k => (Ok k, mkImports (<[ name := k ]> (imported s)) (logged s))
          | None => (Err ImportError, mkImports (imported s) (logged s ++ [install_hint module_name]))
          end
      | None => (Err AttributeError, s)
      end
  end.
(** [import_class] from this package *)
Definition import_class (eager : string -> K) (class_name : string) : M imports K :=
  if bool_decide (class_name ∈ eager_names) then mret (eager class_name) else getattr class_name.
End Registry.
Arguments imports : clear implicits.

(** ** Every class that a configuration names can be imported *)
(** For every type of storage and of credentials that the loader accepts the
    package knows the module of its class: the import gives the class, or the
    packages of that module are missing, which is logged; it is never an
    unknown name. *)
Theorem configured_classes_known {K : Type} (import_from : string -> string -> option K) (eager : string -> K) (kind class_name : string) (s : imports K)
    (Hclass : (kind, class_name) ∈ STORAGE_PROVIDER_MAPPING ++ CREDENTIALS_PROVIDER_MAPPING) :
  (exists k s', import_class import_from eager class_name s = (Ok k, s')) \/
  (exists s' hint, import_class import_from eager class_name s = (Err ImportError, s') /\ logged s' = logged s ++ [hint]).
Proof.
  assert (forall c, c ∈ map snd (STORAGE_PROVIDER_MAPPING ++ CREDENTIALS_PROVIDER_MAPPING) -> c ∈ eager_names \/ is_Some (dget module_map c)) as H.
  { intros c Hc. cbn in Hc. repeat (apply elem_of_cons in Hc as [->|Hc]; [first [right; by eexists|left; by right; left]|]). by apply elem_of_nil in Hc. }
  destruct (H class_name) as [He|[m Hm]]; [apply list_elem_of_fmap; by exists (kind, class_name)| |].
  - left. unfold import_class. rewrite bool_decide_true by done. by eexists _, _.
  - unfold import_class. case_bool_decide; [left; by eexists _, _|]. unfold getattr. destruct (imported s !! class_name) as [k|]; [left; by eexists _, _|].
    rewrite Hm. destruct (import_from m class_name) as [k|]; [left; by eexists _, _|right; by eexists _, _].
Qed.
Lemma configured_classes_known_witness :
  (exists (k : nat) s', import_class (fun _ _ => Some 1) (fun _ => 0) "S3StorageProvider" (mkImports ∅ []) = (Ok k, s')) \/
  (exists s' hint, import_class (fun _ _ => Some 1) (fun _ => 0) "S3StorageProvider" (mkImports ∅ []) = (Err ImportError, s') /\ logged s' = [] ++ [hint]).
Proof. apply (configured_classes_known (fun _ _ => Some 1) (fun _ => 0) "s3" "S3StorageProvider" (mkImports ∅ [])). right. left. Defined.
(** A class is imported once: the next access returns it without an import. *)
Theorem imported_once {K : Type} (import_from : string -> string -> option K) (name : string) (s s' : imports K) (k : K)
    (Hget : getattr import_from name s = (Ok k, s')) (import_later : string -> string -> option K) :
  getattr import_later name s' = (Ok k, s').
Proof.
  revert Hget. unfold getattr at 1. destruct (imported s !! name) as [k0|] eqn:E; [intros [= <- <-]; unfold getattr; by rewrite E|].
  destruct (dget module_map name); [|done]. destruct (import_from _ _) as [k0|]; [|done]. intros [= <- <-]. unfold getattr. cbn. by rewrite lookup_insert_eq.
Qed.
