(* ===== verification/Shortcuts.v ===== *)
(** * Shortcuts ([multistorageclient/shortcuts.py])

    The functions that take URLs: the resolution of a URL to a profile and a
    path, and the module's caches of clients and path mappings.  Parameters: the
    process id, the value of [MSC_CONFIG], the current path mapping, symbolic
    links of relative paths, and the construction of a client for a profile. *)
From S2P Require Import Prelude PyDict PyPath Types Utils Json Url PathMapping Config Rclone Eviction Cache ConfigLoader ConfigProofs.
From Stdlib Require Import QArith_base.
Local Close Scope Q_scope.

(** ** URLs *)
(** [_build_full_path] *)
Definition build_full_path (original_url : string) (pr : ParseResult) : string :=
  let path := url_path pr in
  let path := if bool_decide (query pr = "") then if endswith original_url "?" then path +:+ "?" else path
              else path +:+ "?" +:+ query pr in
  if bool_decide (fragment pr = "") then path else path +:+ "#" +:+ fragment pr.

(** [re.sub(r"/+", "/", s)] *)
Fixpoint collapse_slashes (s : string) : string :=
  match s with
  | EmptyString => ""
  | String a s' =>
      if bool_decide (a = slash) && startswith s' "/" then collapse_slashes s' else String a (collapse_slashes s')
  end.
Definition with_path (p : string) (pr : ParseResult) : ParseResult :=
  mkParseResult (scheme pr) (netloc pr) p (query pr) (fragment pr).
(** [_resolve_msc_url] *)
Definition resolve_msc_url (url : string) : res (string * string) :=
  res_bind (urlparse url) (fun pr =>
  let path := build_full_path url (with_path (collapse_slashes (url_path pr)) pr) in
  Ok (netloc pr, drop_slash path)).

(** [_resolve_non_msc_url]; [realpath] is [os.path.realpath] *)
Definition resolve_non_msc_url (realpath : string -> string) (m : path_mapping) (url : string) : res (string * string) :=
  res_bind (find_mapping m url) (fun possible_mapping =>
  match possible_mapping with
  | Some x => Ok x
  | None =>
      if startswith url "file://" then
        res_bind (urlparse url) (fun pr => Ok (RESERVED_POSIX_PROFILE_NAME, build_full_path url pr))
      else if startswith url "/" then Ok (RESERVED_POSIX_PROFILE_NAME, normpath url)
      else
        res_bind (urlparse url) (fun pr =>
        let protocol := lower (scheme pr) in
        if bool_decide (protocol = "") then Ok (RESERVED_POSIX_PROFILE_NAME, realpath url)
        else if negb (bool_decide (protocol ∈ SUPPORTED_IMPLICIT_PROFILE_PROTOCOLS)) then Err ValueError
        else if bool_decide (netloc pr = "") then Err ValueError
        else Ok ("_" +:+ protocol +:+ "-" +:+ netloc pr, drop_slash (url_path pr)))
  end).

(** [url.replace("msc:/", "msc://")] *)
Fixpoint double_slashes (fuel : nat) (s : string) : string :=
  match fuel, s with
  | S n, String a s' => if startswith s "msc:/" then "msc://" +:+ double_slashes n (str_drop 5 s) else String a (double_slashes n s')
  | _, _ => s
  end.
Definition normalize_msc_url (url : string) : string :=
  if startswith url "msc:/" && negb (startswith url MSC_PROTOCOL) then double_slashes (String.length url) url else url.

(** ** The module's state *)
Section Module.
Context {W C : Type} (new_client : string -> M W C) (read_mapping : path_mapping) (realpath : string -> string).

Record shortcuts := mkShortcuts {
  client_cache : gmap string C;
  mapping_cache : gmap (option string) path_mapping;
  process_id : Z;
  sc_world : W;
}.

(** [_reinitialize_after_fork] and [_check_and_reinitialize_if_forked] *)
Definition reinitialize_after_fork (pid : Z) (s : shortcuts) : shortcuts := mkShortcuts ∅ ∅ pid (sc_world s).
Definition check_and_reinitialize_if_forked (pid : Z) (s : shortcuts) : shortcuts :=
  if (pid =? process_id s)%Z then s else reinitialize_after_fork pid s.

(** [_read_cached_path_mapping]; [cache_key] is the value of [MSC_CONFIG] *)
Definition read_cached_path_mapping (cache_key : option string) (s : shortcuts) : path_mapping * shortcuts :=
  match mapping_cache s !! cache_key with
  | Some m => (m, s)
  | None => (read_mapping, mkShortcuts (client_cache s) (<[cache_key := read_mapping]> (mapping_cache s)) (process_id s) (sc_world s))
  end.

(** The profile and the path of a URL, and the mapping cache after it *)
Definition resolve_url (cache_key : option string) (url : string) (s : shortcuts) : res (string * string) * shortcuts :=
  let url := normalize_msc_url url in
  if startswith url MSC_PROTOCOL then (resolve_msc_url url, s)
  else let '(m, s') := read_cached_path_mapping cache_key s in (resolve_non_msc_url realpath m url, s').

(** The cached client of a profile, or a new one *)
Definition client_of (profile : string) (s : shortcuts) : res C * shortcuts :=
  match client_cache s !! profile with
  | Some c => (Ok c, s)
  | None =>
      match new_client profile (sc_world s) with
      | (Ok c, w) => (Ok c, mkShortcuts (<[profile := c]> (client_cache s)) (mapping_cache s) (process_id s) w)
      | (Err e, w) => (Err e, mkShortcuts (client_cache s) (mapping_cache s) (process_id s) w)
      end
  end.
Definition resolve_storage_client (pid : Z) (cache_key : option string) (url : string) : M shortcuts (C * string) := fun s =>
  match resolve_url cache_key url (check_and_reinitialize_if_forked pid s) with
  | (Ok (profile, path), s1) =>
      match client_of profile s1 with
      | (Ok c, s2) => (Ok (c, path), s2)
      | (Err e, s2) => (Err e, s2)
      end
  | (Err e, s1) => (Err e, s1)
  end.

(** [open], [upload_file], [download_file], [is_empty], [is_file], [write],
    [delete], [info], [commit_metadata], [generate_presigned_url], [list] and
    [list_recursive] call the method of the client with the path *)
Definition shortcut {A} (method : C -> string -> M W A) (pid : Z) (cache_key : option string) (url : string) : M shortcuts A :=
  let! x := resolve_storage_client pid cache_key url in fun s =>
  let '(r, w) := method x.1 x.2 (sc_world s) in (r, mkShortcuts (client_cache s) (mapping_cache s) (process_id s) w).
(** [glob]: keys are URLs unless the pattern is a plain path of the file system *)
Definition glob_shortcut (profile_of : C -> string) (client_glob : C -> string -> bool -> M W (list string))
    (pid : Z) (cache_key : option string) (pattern : string) : M shortcuts (list string) :=
  shortcut (fun c path => client_glob c path
              (negb (negb (startswith pattern MSC_PROTOCOL) && bool_decide (profile_of c = RESERVED_POSIX_PROFILE_NAME))))
    pid cache_key pattern.
(** [make_symlink]: [same_client] is [is] *)
Definition make_symlink_shortcut (same_client : C -> C -> bool) (client_symlink : C -> string -> string -> M W unit)
    (pid : Z) (cache_key : option string) (url target_url : string) : M shortcuts unit :=
  let! x := resolve_storage_client pid cache_key url in
  let! y := resolve_storage_client pid cache_key target_url in
  if negb (same_client x.1 y.1) then mraise ValueError
  else fun s =>
    let '(r, w) := client_symlink x.1 x.2 y.2 (sc_world s) in
    (r, mkShortcuts (client_cache s) (mapping_cache s) (process_id s) w).
(** [sync]: both URLs are resolved, then the target client syncs *)
Definition sync_shortcut {A} (sync_from : C -> C -> string -> string -> M W A)
    (pid : Z) (cache_key : option string) (source_url target_url : string) : M shortcuts A :=
  let! x := resolve_storage_client pid cache_key source_url in
  let! y := resolve_storage_client pid cache_key target_url in fun s =>
  let '(r, w) := sync_from y.1 x.1 x.2 y.2 (sc_world s) in (r, mkShortcuts (client_cache s) (mapping_cache s) (process_id s) w).
End Module.
Arguments shortcuts : clear implicits.

(** ** One client per profile *)
Section Caching.
Context {W C : Type} (new_client : string -> M W C) (read_mapping : path_mapping) (realpath : string -> string).
Abbreviation resolve_storage_client := (resolve_storage_client new_client read_mapping realpath).

Lemma resolve_url_clients key url (s : shortcuts W C) r s' :
  resolve_url read_mapping realpath key url s = (r, s') ->
  client_cache s' = client_cache s /\ process_id s' = process_id s /\ sc_world s' = sc_world s.
Proof.
  unfold resolve_url, read_cached_path_mapping. destruct (startswith _ _); [by intros [= _ <-]|].
  destruct (mapping_cache s !! key); by intros [= _ <-].
Qed.

(** C24: within a process there is one client per profile: a resolution that
    returns a client has put it in the cache under the profile of the URL, a
    profile that already had a client gets that one and nothing is created, and
    no client is replaced; in a forked process the clients of the parent are
    gone before the URL is resolved. *)
Theorem one_client_per_profile (pid : Z) (cache_key : option string) (url : string) (s s' : shortcuts W C) (c : C) (path : string)
    (Hresolve : resolve_storage_client pid cache_key url s = (Ok (c, path), s')) :
  let before := if (pid =? process_id s)%Z then client_cache s else ∅ in
  exists profile, (resolve_url read_mapping realpath cache_key url (check_and_reinitialize_if_forked pid s)).1 = Ok (profile, path) /\
    process_id s' = pid /\ client_cache s' = <[profile := c]> before /\
    match before !! profile with
    | Some c0 => c = c0 /\ sc_world s' = sc_world s
    | None => exists w, new_client profile (sc_world s) = (Ok c, w) /\ sc_world s' = w
    end.
Proof.
  cbn zeta. set (s0 := check_and_reinitialize_if_forked pid s).
  assert (client_cache s0 = (if (pid =? process_id s)%Z then client_cache s else ∅) /\ process_id s0 = pid /\ sc_world s0 = sc_world s)
    as (<- & Hpid & Hw).
  { unfold s0, check_and_reinitialize_if_forked. destruct (pid =? process_id s)%Z eqn:E; [|done]. by bool_to_prop. }
  unfold Shortcuts.resolve_storage_client in Hresolve. fold s0 in Hresolve.
  destruct (resolve_url read_mapping realpath cache_key url s0) as [[[profile p]|e] s1] eqn:Er; [|done].
  apply resolve_url_clients in Er as (Hc & Hp & Hw1). exists profile. unfold client_of in Hresolve.
  rewrite <- Hc, <- Hw, <- Hw1. destruct (client_cache s1 !! profile) as [c0|] eqn:Ec.
  - simplify_eq. split_and!; try done; [congruence|]. by rewrite insert_id.
  - destruct (new_client profile (sc_world s1)) as [[c1|e] w] eqn:En; [|done]. simplify_eq. cbn.
    split_and!; try done; [congruence|]. by exists w.
Qed.
End Caching.

(** ** URLs of listed objects resolve back *)
Lemma endswith_char_snoc x c : endswith (x +:+ String c "") (String c "") = true.
Proof. unfold endswith. rewrite str_rev_append. cbn. by rewrite decide_True. Qed.
Lemma has_char_rev c s : has_char c (str_rev s) = has_char c s.
Proof.
  rewrite <- (negb_involutive (has_char c s)), <- (negb_involutive (has_char c (str_rev s))).
  by rewrite <- !all_chars_has_char, all_chars_rev.
Qed.
Lemma endswith_absent c s : has_char c s = false -> endswith s (String c "") = false.
Proof.
  rewrite <- has_char_rev. unfold endswith. destruct (str_rev s) as [|a r]; [done|]. cbn.
  destruct (decide (a = c)); [done|]. by rewrite decide_False by congruence.
Qed.
(** No two slashes in a row *)
Fixpoint no_double (s : string) : bool := negb (startswith s "//") && match s with String _ s' => no_double s' | "" => true end.
Lemma no_double_app a b : no_double (a +:+ b) = true -> no_double a = true.
Proof.
  induction a as [|x a IH]; [done|]. cbn. intros [H1 H2]%andb_true_iff. rewrite (IH H2), andb_true_r.
  destruct (decide _); [|done]. by destruct a.
Qed.
Lemma collapse_slashes_id s : no_double s = true -> collapse_slashes s = s.
Proof.
  induction s as [|a s IH]; [done|]. cbn. intros [H1 H2]%andb_true_iff. rewrite (IH H2).
  case_bool_decide as Ha; [|done]. subst a. rewrite decide_True in H1 by done.
  destruct s as [|b s]; [done|]. by destruct (decide _).
Qed.

(** The keys that a URL can carry: no line breaks, no hash, no empty components *)
Definition url_key_ok (key : string) : bool := all_chars line_char key && negb (has_char "#" key) && no_double ("/" +:+ key).
Lemma join_paths_url profile key :
  profile <> "" -> all_chars location_char profile = true -> no_double ("/" +:+ key) = true ->
  join_paths (MSC_PROTOCOL +:+ profile) key = "msc" +:+ "://" +:+ profile +:+ "/" +:+ key.
Proof.
  intros Hne Hp Hk. assert (has_char slash profile = false) as Hsl.
  { apply negb_true_iff. rewrite <- all_chars_has_char. eapply all_chars_mono; [|exact Hp].
    intros [[] [] [] [] [] [] [] []] H; vm_compute in H |- *; done. }
  assert (startswith key "/" = false) as Hk1. { destruct key as [|b k]; [done|]. cbn in Hk |- *. by destruct (decide ("/"%char = b)). }
  unfold join_paths. rewrite rstrip_app by done. rewrite lstrip_id by done. unfold path_join.
  change (isabs key) with (startswith key "/"). rewrite Hk1, ends_slash_app by done. rewrite bool_decide_false by done.
  cbn [orb]. unfold MSC_PROTOCOL. by rewrite !str_app_assoc.
Qed.

Lemma resolve_listed_url (profile key : string)
    (Hne : profile <> "") (Hprofile : all_chars location_char profile = true) (Hkey : url_key_ok key = true) :
  resolve_msc_url (join_paths (MSC_PROTOCOL +:+ profile) key) = Ok (profile, key).
Proof.
  unfold url_key_ok in Hkey. apply andb_true_iff in Hkey as [[Hline Hhash]%andb_true_iff Hnd]. apply negb_true_iff in Hhash.
  rewrite join_paths_url by done. set (url := "msc" +:+ _). unfold resolve_msc_url.
  assert (has_char "?" profile = false) as Hq.
  { apply negb_true_iff. rewrite <- all_chars_has_char. eapply all_chars_mono; [|exact Hprofile].
    intros [[] [] [] [] [] [] [] []] H; vm_compute in H |- *; done. }
  assert (has_char "?" url = has_char "?" ("/" +:+ key)) as Hurl.
  { unfold url. rewrite !has_char_app, Hq. done. }
  unfold url at 1. rewrite urlparse_url; [|done|done|done|done|done|right; by exists key].
  rewrite split_at_absent by (cbn; exact Hhash). cbn [res_bind].
  destruct (has_char "?" ("/" +:+ key)) eqn:Eq.
  - pose proof (split_at_spec "?" _ Eq) as Hsp. destruct (split_at "?" ("/" +:+ key)) as [p q]. cbn [fst snd] in Hsp.
    change (bool_decide (lower "msc" ∈ uses_params)) with false. cbn [res_bind netloc url_path with_path].
    rewrite collapse_slashes_id by (apply (no_double_app p (String "?" q)); by rewrite <- Hsp).
    assert (build_full_path url (mkParseResult (lower "msc") profile p q "") = "/" +:+ key) as Hb.
    { unfold build_full_path. cbn [url_path query fragment]. rewrite (bool_decide_true ("" = "")) by done.
      case_bool_decide as Hqe; [|by rewrite Hsp]. subst q. rewrite Hsp. unfold url. rewrite Hsp, <- !str_app_assoc.
      by rewrite endswith_char_snoc. }
    unfold with_path. cbn [scheme netloc query fragment]. rewrite Hb. by destruct key.
  - rewrite split_at_absent by done. change (bool_decide (lower "msc" ∈ uses_params)) with false.
    cbn [res_bind netloc url_path with_path]. rewrite collapse_slashes_id by done.
    unfold build_full_path. cbn [url_path query fragment with_path]. rewrite !(bool_decide_true ("" = "")) by done.
    change "?" with (String "?" "") at 1. rewrite endswith_absent by done. by destruct key.
Qed.

(** The URLs that listings return lead back to the objects: the URL that a
    client with profile [profile] makes of a key resolves to this profile and
    key, question marks included. *)
Theorem listed_url_resolves (profile key : string)
    (Hne : profile <> "") (Hprofile : all_chars location_char profile = true) (Hkey : url_key_ok key = true) :
  resolve_msc_url (join_paths (MSC_PROTOCOL +:+ profile) key) = Ok (profile, key).
Proof. by apply resolve_listed_url. Qed.
Lemma listed_url_resolves_witness : resolve_msc_url "msc://p/a/b?c.txt" = Ok ("p", "a/b?c.txt").
Proof. exact (listed_url_resolves "p" "a/b?c.txt" ltac:(done) eq_refl eq_refl). Defined.

(** ** Implicit profiles *)
(** Protocol, type of the storage provider and class *)
Definition implicit_providers : list (string * string * string) :=
  [("s3", "s3", "S3StorageProvider"); ("gs", "gcs", "GoogleStorageProvider"); ("ais", "ais", "AIStoreStorageProvider")].
Definition implicit_name (protocol bucket : string) : string := "_" +:+ protocol +:+ "-" +:+ bucket.
Definition implicit_config (t name bucket : string) : dict := [("profiles", JDict [(name, implicit_profile t bucket)])].

Section Implicit.
Context {SP CP MP : Type} `{!Providers SP CP MP}.
Context (env : gmap string string) (cwd tempdir : string) (py_float : string -> option Q) (schema_valid : json -> bool).

Lemma implicit_names protocol t cls bucket :
  (protocol, t, cls) ∈ implicit_providers -> bucket <> "" ->
  let name := implicit_name protocol bucket in
  name <> RESERVED_POSIX_PROFILE_NAME /\ name <> LEGACY_POSIX_PROFILE_NAME /\
  (forall g, implicit_profiles g name = Ok [(name, implicit_profile t bucket)]) /\
  dget STORAGE_PROVIDER_MAPPING t = Some cls /\ has_unresolved t = false.
Proof.
  unfold implicit_providers. rewrite !elem_of_cons, elem_of_nil. intros [[= -> -> ->]|[[= -> -> ->]|[[= -> -> ->]|[]]]] _; cbn zeta.
  all: (split; [discriminate|]); (split; [discriminate|]); (split; [|split; reflexivity]); intros g; unfold implicit_profiles;
    rewrite bool_decide_false; [reflexivity|]; rewrite !elem_of_cons, elem_of_nil; intros [H|[H|[]]]; discriminate H.
Qed.

Lemma load_implicit name t cls bucket g :
  well_named env -> name <> RESERVED_POSIX_PROFILE_NAME -> dget STORAGE_PROVIDER_MAPPING t = Some cls -> has_unresolved t = false ->
  has_unresolved bucket = false ->
  match new_storage_provider cls [("base_path", JStr bucket)] None (implicit_config t name bucket) with
  | Ok sp => exists c, load_config env cwd tempdir py_float (implicit_config t name bucket) name None g = (Ok c, g) /\
      cf_storage_provider c = Some sp /\ cf_profile c = name
  | Err e => load_config env cwd tempdir py_float (implicit_config t name bucket) name None g = (Err e, g)
  end.
Proof.
  intros Henv Hname Hcls Ht Hb.
  set (ld := mkLoader (implicit_config t name bucket)
     [(name, implicit_profile t bucket); (RESERVED_POSIX_PROFILE_NAME, posix_profile g)] true name
     [("storage_provider", JDict [("type", JStr t); ("options", JDict [("base_path", JStr bucket)])])] None None).
  assert (load_profile env (implicit_config t name bucket) name g = (Ok ld, g)) as Hld.
  { unfold load_profile, mbind, mlift. rewrite expand_env_vars_idempotent; [|done|].
    - change (config_profiles (implicit_config t name bucket)) with (Ok (A := dict) [(name, implicit_profile t bucket)]). cbn [res_bind mget].
      unfold add_posix_profile. cbn [dict_get]. rewrite decide_False by congruence. cbn [res_bind fst snd app].
      unfold find_profile. cbn [dict_get]. rewrite decide_True by done. reflexivity.
    - unfold implicit_config, implicit_profile. cbn [json_has_unresolved]. by rewrite Ht, Hb. }
  unfold load_config, new_loader, mbind. rewrite Hld.
  assert (build_provider_bundle ld None g =
    (Ok (mkBundle [(name, mkBackend (mkStorageProviderConfig t [("base_path", JStr bucket)]) None [])] None), g)) as -> by reflexivity.
  cbn [mlift inject_profiles_from_bundle storage_backends length Nat.leb mret fst snd].
  unfold build_config, mlift. cbn [storage_backends sp_type sp_options storage_provider_config backend_credentials].
  unfold build_storage_provider. rewrite Hcls. change (resolved_config_dict ld) with (implicit_config t name bucket).
  destruct (new_storage_provider cls _ None _) as [sp|e]; [|done]. cbn [res_bind].
  eexists. split; [reflexivity|]. done.
Qed.

(** C22: a URL of an object store without a configured profile opens its bucket:
    [protocol://bucket/key], with no [?] and no [#] in the key and where no path
    mapping applies, resolves to the implicit profile of the bucket and the key;
    and without any configuration file, of this library or of rclone, this
    profile is a client of the protocol's storage provider with the bucket as
    its base path (or raises what the provider raises). *)
Theorem implicit_url_opens_bucket (realpath : string -> string) (m : path_mapping) (protocol t cls bucket key : string) (g : globals)
    (Hprotocol : (protocol, t, cls) ∈ implicit_providers) (Hne : bucket <> "") (Hbucket : all_chars location_char bucket = true)
    (Hkey : all_chars line_char key = true) (Hplain : has_char "#" key = false /\ has_char "?" key = false)
    (Henv : well_named env) (Hvars : has_unresolved bucket = false) (Hrclone : rclone_cache g = Some None)
    (Hmap : find_mapping m (protocol +:+ "://" +:+ bucket +:+ "/" +:+ key) = Ok None) :
  let name := implicit_name protocol bucket in
  resolve_non_msc_url realpath m (protocol +:+ "://" +:+ bucket +:+ "/" +:+ key) = Ok (name, key) /\
  match new_storage_provider cls [("base_path", JStr bucket)] None (implicit_config t name bucket) with
  | Ok sp => exists c, from_file env cwd tempdir py_float schema_valid (Ok (JDict [], None)) (Ok None) name g = (Ok c, g) /\
      cf_storage_provider c = Some sp /\ cf_profile c = name
  | Err e => from_file env cwd tempdir py_float schema_valid (Ok (JDict [], None)) (Ok None) name g = (Err e, g)
  end.
Proof.
  cbn zeta. destruct (implicit_names protocol t cls bucket Hprotocol Hne) as (Hres & Hleg & Himp & Hcls & Ht). split.
  - unfold resolve_non_msc_url. rewrite Hmap. cbn [res_bind]. destruct Hplain as [Hh Hq].
    assert (startswith (protocol +:+ "://" +:+ bucket +:+ "/" +:+ key) "file://" = false /\
      startswith (protocol +:+ "://" +:+ bucket +:+ "/" +:+ key) "/" = false /\ lower protocol = protocol /\ protocol <> "" /\
      protocol ∈ SUPPORTED_IMPLICIT_PROFILE_PROTOCOLS /\ bool_decide (protocol ∈ uses_params) = false /\
      is_letter (match protocol with String a _ => a | _ => " " end) = true /\ all_chars scheme_char protocol = true)
      as (-> & -> & Hlow & Hp & Hsup & Hup & Hlet & Hsc).
    { clear -Hprotocol. unfold implicit_providers in Hprotocol. rewrite !elem_of_cons, elem_of_nil in Hprotocol.
      destruct Hprotocol as [[= -> -> ->]|[[= -> -> ->]|[[= -> -> ->]|[]]]].
      all: split_and!; try reflexivity; try discriminate; unfold SUPPORTED_IMPLICIT_PROFILE_PROTOCOLS; set_solver. }
    rewrite urlparse_url; [|done|done|done|done|done|right; by exists key].
    rewrite split_at_absent by (cbn; exact Hh). rewrite split_at_absent by (cbn; exact Hq). cbn [res_bind scheme netloc url_path].
    rewrite Hlow, Hlow, Hup, (bool_decide_false (protocol = "")), (bool_decide_false (bucket = "")) by done.
    rewrite bool_decide_true by done. unfold implicit_name. by destruct key.
  - pose proof (load_implicit (implicit_name protocol bucket) t cls bucket g Henv Hres Hcls Ht Hvars) as Hl.
    assert (from_file env cwd tempdir py_float schema_valid (Ok (JDict [], None)) (Ok None) (implicit_name protocol bucket) g =
      load_config env cwd tempdir py_float (implicit_config t (implicit_name protocol bucket) bucket) (implicit_name protocol bucket) None g) as ->;
      [|exact Hl].
    unfold from_file, mbind, mlift, cached_rclone_config, mbind, mget, mret. cbv beta iota. rewrite Hrclone. cbn [merge_dictionaries_no_overwrite].
    cbn. rewrite Himp. unfold from_dict, mbind, mlift, mret. unfold normalize_profile_name. rewrite bool_decide_false by done. done.
Qed.
End Implicit.

(** The path of an implicit profile or of a mapping loses what looks like a
    query or a fragment, so such keys, and patterns with a question mark, name
    other objects; the same keys in a [msc://] URL are kept. *)
Theorem implicit_url_truncates_keys (realpath : string -> string) :
  resolve_non_msc_url realpath [] "s3://bucket/part#1.txt" = Ok ("_s3-bucket", "part") /\
  resolve_non_msc_url realpath [] "s3://bucket/img?.png" = Ok ("_s3-bucket", "img") /\
  resolve_msc_url "msc://p/img?.png" = Ok ("p", "img?.png").
Proof. vm_compute. split_and!; reflexivity. Qed.

(** ** Witnesses *)
Definition no_rclone : globals := mkGlobals DEFAULT_POSIX_PROFILE (Some None).
Lemma implicit_url_opens_bucket_witness :
  resolve_non_msc_url id [] "s3://my-bucket/a/b" = Ok ("_s3-my-bucket", "a/b") /\
  exists c, from_file (Providers0 := recording_providers) ∅ "/" "/tmp" no_float schema_names (Ok (JDict [], None)) (Ok None)
      "_s3-my-bucket" no_rclone = (Ok c, no_rclone) /\
    cf_storage_provider c = Some ("S3StorageProvider", [("base_path", JStr "my-bucket")]) /\ cf_profile c = "_s3-my-bucket".
Proof.
  apply (implicit_url_opens_bucket (Providers0 := recording_providers) ∅ "/" "/tmp" no_float schema_names id [] "s3" "s3"
    "S3StorageProvider" "my-bucket" "a/b" no_rclone); try (vm_compute; reflexivity).
  - left.
  - discriminate.
  - split; reflexivity.
  - intros n v H. by rewrite lookup_empty in H.
Defined.

(** Clients that are the numbers of their creation *)
Definition counting_client (profile : string) : M nat nat := fun n => (Ok n, S n).
Definition fresh_module : shortcuts nat nat := mkShortcuts ∅ ∅ 1 0.
Definition after_first : shortcuts nat nat :=
  (resolve_storage_client counting_client [] id 1 None "msc://a/x" fresh_module).2.
Lemma one_client_per_profile_witness :
  exists profile, (resolve_url [] id None "msc://a/y" (check_and_reinitialize_if_forked 1 after_first)).1 = Ok (profile, "y") /\
    process_id after_first = 1%Z /\ client_cache after_first = <[profile := 0]> (client_cache after_first) /\
    match client_cache after_first !! profile with
    | Some c0 => 0 = c0 /\ sc_world after_first = sc_world after_first
    | None => exists w, counting_client profile (sc_world after_first) = (Ok 0, w) /\ sc_world after_first = w
    end.
Proof.
  exact (one_client_per_profile counting_client [] id 1 None "msc://a/y" after_first after_first 0 "y" ltac:(vm_compute; reflexivity)).
Defined.
