(* ===== verification/Cli.v ===== *)
(** * The command line ([commands/cli])

    The actions [rm], [ls] and [sync] between the parsed arguments and the
    calls of the library, with what they print and the exit code.  argparse,
    the pretty printer of tables and Ray are outside; the calls of the library
    are parameters. *)
From S2P Require Import Prelude PyPath Types Utils Json Listing.

(** ** Definitions: output *)
Inductive line := Out (s : string) | ErrOut (s : string) | Table (header : list string) (rows : list (list string)).
(** A command changes the storage and prints; its result is the exit code *)
Definition C (W A : Type) : Type := M (W * list line) A.
Definition newline : string := String "010"%char "".
Definition print {W} (l : line) : C W unit := fun '(w, ls) => (Ok tt, (w, ls ++ [l])).
Definition on_storage {W A} (m : M W A) : C W A := fun '(w, ls) => let '(r, w') := m w in (r, (w', ls)).
Definition when {W} (b : bool) (m : C W unit) : C W unit := if b then m else mret tt.
(** [except ValueError] and [except Exception]: what is printed before 1 *)
Definition report {W} (message : exc -> string) (action : string) (m : C W Z) : C W Z :=
  mtry (fun _ => true) m (fun e =>
    match e with
    | ValueError => print (ErrOut ("Error in command arguments: " +:+ message e)) ;;; mret 1%Z
    | _ => print (ErrOut ("Error during " +:+ action +:+ ": " +:+ message e)) ;;; mret 1%Z
    end).

(** ** Definitions: [rm] *)
Record rm_args := mkRmArgs { rm_debug : bool; rm_dryrun : bool; rm_quiet : bool; rm_recursive : bool; rm_only_show_errors : bool; rm_yes : bool; rm_path : string }.
Definition verbose (a : rm_args) : bool := negb (rm_quiet a) && negb (rm_only_show_errors a).
Definition is_yes (response : string) : bool := let r := lower (strip_spaces response) in bool_decide (r = "y" \/ r = "yes").
Section Rm.
Context {W : Type} (message : exc -> string) (vars : rm_args -> string).
Context (msc_list : string -> bool -> W -> res listing) (msc_delete : string -> bool -> M W unit) (input : res string).
Definition rm_dryrun_lines (l : listing) : C W unit :=
  print (Out (newline +:+ "Files that would be deleted:")) ;;;
  mfor (yielded l) (fun o => print (Out ("  " +:+ key o))) ;;;
  match raised l with
  | Some e => mraise e
  | None => print (Out (newline +:+ "Total: " +:+ pretty (Z.of_nat (length (yielded l))) +:+ " file(s)"))
  end.
Definition rm_confirmed (a : rm_args) : C W bool :=
  if rm_yes a then mret true
  else
    print (Out (if rm_recursive a then "This will delete everything under the path: " +:+ rm_path a +:+ " (recursively)"
                else "This will delete the file: " +:+ rm_path a)) ;;;
    let! response := mlift input in
    if is_yes response then mret true else (print (Out "Deletion cancelled.") ;;; mret false).
Definition rm_run (a : rm_args) : C W Z :=
  when (rm_debug a && verbose a) (print (Out ("Arguments: " +:+ vars a))) ;;;
  report message "deletion"
    (if rm_dryrun a then
       let! l := (fun s => (msc_list (rm_path a) (negb (rm_recursive a)) s.1, s)) in
       when (verbose a) (rm_dryrun_lines l) ;;; mret 0%Z
     else
       let! go := rm_confirmed a in
       if go : bool then
         when (verbose a) (print (Out ("Deleting: " +:+ rm_path a))) ;;;
         on_storage (msc_delete (rm_path a) (rm_recursive a)) ;;;
         when (verbose a) (print (Out ("Successfully deleted: " +:+ rm_path a))) ;;;
         mret 0%Z
       else mret 0%Z).
End Rm.

(** ** Definitions: [ls] *)
(** [_remove_path_prefix] *)
Definition remove_path_prefix (path k : string) : string :=
  if bool_decide (path = k) then path
  else if startswith path "/" && bool_decide (lstrip slash path = k) then path
  else
    let path := if startswith path "/" then lstrip slash path else path in
    let k := if startswith k path then str_drop (String.length path) k else k in
    if startswith k "/" then lstrip slash k else k.
(** [f"{n / d:.1f}"]: the nearest tenth, ties to even *)
Definition tenths (n d : Z) : Z :=
  let q := (10 * n / d)%Z in let r := (10 * n mod d)%Z in
  if (2 * r <? d)%Z then q else if (d <? 2 * r)%Z then (q + 1)%Z else if Z.even q then q else (q + 1)%Z.
Definition show_tenths (t : Z) : string := pretty (t / 10)%Z +:+ "." +:+ pretty (t mod 10)%Z.
(** [_format_size]: a float holds every size below [2 ^ 53], and its division
    by 1024 is exact *)
Fixpoint format_loop (units : list string) (size d : Z) : string :=
  match units with
  | [] => show_tenths (tenths size d) +:+ "PB"
  | u :: us => if (size <? 1024 * d)%Z then show_tenths (tenths size d) +:+ u else format_loop us size (1024 * d)%Z
  end.
Definition SIZE_UNITS : list string := ["B"; "KB"; "MB"; "GB"; "TB"].
Definition format_size (size : Z) : string := format_loop SIZE_UNITS size 1.
(** [_format_listing]; [strftime] is the date format; the attributes come in
    the order of the map *)
Definition format_listing (strftime : Z -> string) (path : string) (human_readable show_attributes : bool) (o : ObjectMetadata) : list string :=
  let date := if (AWARE_DATETIME_MIN <? last_modified o)%Z then strftime (last_modified o) else "" in
  let size := if bool_decide (date = "") then "" else if human_readable then format_size (content_length o) else pretty (content_length o) in
  let k := remove_path_prefix path (key o) in
  let k := if bool_decide (type o = "directory") then k +:+ "/" else k in
  [date; size; k] ++
  (if show_attributes then [match metadata o with Some a => if bool_decide (a = ∅) then "" else dumps (JDict (map_to_list a)) | None => "" end] else []).
Record ls_args := mkLsArgs { ls_debug : bool; ls_recursive : bool; ls_human_readable : bool; ls_summarize : bool; ls_limit : option Z; ls_show_attributes : bool;
  ls_attribute_filter_expression : option string; ls_patterns : PatternList; ls_path : string }.
(** The loop over the results: [args.limit and count == args.limit] *)
Definition at_limit (limit : option Z) (count : Z) : bool :=
  match limit with Some l => negb (l =? 0)%Z && (count =? l)%Z | None => false end.
Fixpoint ls_loop (limit : option Z) (l : list ObjectMetadata) (e : option exc) (count total : Z) (acc : list ObjectMetadata)
    : res (list ObjectMetadata * Z * Z) :=
  match l with
  | [] => match e with Some e => Err e | None => Ok (acc, count, total) end
  | o :: l' =>
      let count := (count + 1)%Z in let total := (total + content_length o)%Z in
      if at_limit limit count then Ok (acc ++ [o], count, total) else ls_loop limit l' e count total (acc ++ [o])
  end.
Section Ls.
Context {W : Type} (message : exc -> string) (vars : ls_args -> string) (strftime : Z -> string).
(** [msc.resolve_storage_client] followed by [client.list] *)
Context (resolve_and_list : ls_args -> W -> res (string * listing)).
Definition ls_run (a : ls_args) : C W Z :=
  report message "file listing"
    (when (ls_debug a) (print (Out ("Arguments: " +:+ vars a))) ;;;
     let! pl := (fun s => (resolve_and_list a s.1, s)) in
     let! result := mlift (ls_loop (ls_limit a) (yielded pl.2) (raised pl.2) 0 0 []) in
     let '(os, count, total) := result in
     when (negb (bool_decide (os = [])))
       (print (Table (["Last Modified"; "Size"; "Name"] ++ (if ls_show_attributes a then ["Attributes"] else []))
                     (map (format_listing strftime pl.1 (ls_human_readable a) (ls_show_attributes a)) os))) ;;;
     if negb (at_limit (ls_limit a) count) && (count =? 0)%Z then
       print (Out "No files found matching the specified criteria.") ;;; mret 0%Z
     else
       when (at_limit (ls_limit a) count) (print (Out (newline +:+ "(Output limited to " +:+ pretty count +:+ " results)"))) ;;;
       when (ls_summarize a)
         (print (Out (newline +:+ "Summary:")) ;;;
          print (Out ("Total Objects: " +:+ pretty count)) ;;;
          print (Out ("Total Size: " +:+ (if ls_human_readable a then format_size total else pretty total +:+ " bytes")))) ;;;
       mret 0%Z).
End Ls.

(** ** Definitions: [sync] *)
Record sync_args := mkSyncArgs {
  sy_verbose : bool; sy_delete_unmatched_files : bool; sy_ray_cluster : option string; sy_target_url : option string;
  sy_replica_indices : option string; sy_patterns : PatternList; sy_no_ignore_hidden : bool; sy_symlink_handling : SymlinkHandling;
  sy_dryrun : bool; sy_dryrun_output_path : option string; sy_source_url : string;
}.
Definition given (s : option string) : option string := truthy s.
Section Sync.
Context {W : Type} (message : exc -> string) (ray_init : string -> M W unit) (ray_shutdown : M W unit).
(** The arguments of [msc.sync] and [msc.sync_replicas] that the command sets *)
Context (msc_sync : ExecutionMode -> string -> string -> bool -> option PatternList -> bool -> bool -> option string -> SymlinkHandling -> M W string).
Context (msc_sync_replicas : ExecutionMode -> string -> option (list Z) -> bool -> option PatternList -> bool -> SymlinkHandling -> M W unit).
Fixpoint parse_indices (l : list string) : res (list Z) :=
  match l with
  | [] => Ok []
  | s :: l' => match py_int s with Some z => res_bind (parse_indices l') (fun zs => Ok (z :: zs)) | None => Err ValueError end
  end.
Definition sync_body (a : sync_args) (mode : ExecutionMode) : C W Z :=
  let patterns := if bool_decide (sy_patterns a = []) then None else Some (sy_patterns a) in
  mtry (fun _ => true)
    (match given (sy_target_url a) with
     | Some target =>
         let! r := on_storage (msc_sync mode (sy_source_url a) target (sy_delete_unmatched_files a) patterns (negb (sy_no_ignore_hidden a))
                                 (sy_dryrun a) (sy_dryrun_output_path a) (sy_symlink_handling a)) in
         when (sy_dryrun a) (print (Out r)) ;;;
         when (sy_verbose a) (print (Out "Synchronization completed successfully")) ;;; mret 0%Z
     | None =>
         match (match given (sy_replica_indices a) with Some s => res_bind (parse_indices (split ","%char s)) (fun l => Ok (Some l)) | None => Ok None end) with
         | Err _ => print (ErrOut ("Invalid --replica-indices value. Use a comma-separated list of integers, e.g. " +:+ quote "0,2" +:+ ".")) ;;; mret 1%Z
         | Ok indices =>
             on_storage (msc_sync_replicas mode (sy_source_url a) indices (sy_delete_unmatched_files a) patterns (negb (sy_no_ignore_hidden a))
                           (sy_symlink_handling a)) ;;;
             when (sy_verbose a) (print (Out "Synchronization completed successfully")) ;;; mret 0%Z
         end
     end)
    (fun e => print (ErrOut ("Error during synchronization: " +:+ message e)) ;;; mret 1%Z).
Definition sync_run (a : sync_args) : C W Z :=
  when (sy_verbose a)
    (print (Out ("Synchronizing files from " +:+ sy_source_url a +:+ " to " +:+
       match given (sy_target_url a) with Some t => t | None => "replicas" end +:+ " ..."))) ;;;
  match given (sy_ray_cluster a) with
  | None => sync_body a LOCAL
  | Some cluster =>
      let! up := mtry (fun e => match e with ImportError => true | _ => false end)
                   (on_storage (ray_init cluster) ;;; mret true)
                   (fun _ => print (Out "Ray is not installed. Please install it with 'pip install ray'.") ;;; mret false) in
      if up : bool then
        mfinally (sync_body a RAY)
          (mtry (fun _ => true) (on_storage ray_shutdown) (fun e => print (ErrOut ("Error shutting down Ray: " +:+ message e))))
      else mret 1%Z
  end.
End Sync.

(** ** Deletion is confirmed *)
Section Confirmed.
Context {W : Type} (message : exc -> string) (vars : rm_args -> string).
Context (msc_list : string -> bool -> W -> res listing) (msc_delete : string -> bool -> M W unit) (input : res string).
(** A computation that leaves the storage as it is *)
Definition harmless {A} (m : C W A) : Prop := forall s, (m s).2.1 = s.1.
Lemma harmless_ret {A} (a : A) : harmless (mret a).
Proof. done. Qed.
Lemma harmless_raise {A} e : harmless (mraise (A := A) e).
Proof. done. Qed.
Lemma harmless_lift {A} (r : res A) : harmless (mlift r).
Proof. done. Qed.
Lemma harmless_print l : harmless (print l).
Proof. by intros [w ls]. Qed.
Lemma harmless_bind {A B} (m : C W A) (k : A -> C W B) : harmless m -> (forall a, harmless (k a)) -> harmless (mbind m k).
Proof. intros Hm Hk s. unfold mbind. specialize (Hm s). destruct (m s) as [[a|e] s1]; [|done]. by rewrite Hk. Qed.
Lemma harmless_try {A} catches (m : C W A) h : harmless m -> (forall e, harmless (h e)) -> harmless (mtry catches m h).
Proof. intros Hm Hh s. unfold mtry. specialize (Hm s). destruct (m s) as [[a|e] s1]; [done|]. destruct (catches e); [by rewrite Hh|done]. Qed.
Lemma harmless_for {A} (l : list A) (f : A -> C W unit) : (forall x, harmless (f x)) -> harmless (mfor l f).
Proof. intros Hf. induction l as [|x l IH]; [done|]. cbn [mfor]. by apply harmless_bind. Qed.
Lemma harmless_when b (m : C W unit) : harmless m -> harmless (when b m).
Proof. by destruct b. Qed.
Lemma harmless_report action (m : C W Z) : harmless m -> harmless (report message action m).
Proof.
  intros Hm. apply harmless_try; [done|]. intros e. assert (forall x, harmless (print (ErrOut x) ;;; mret 1%Z)) as H by by intros x [w ls].
  destruct e; apply H.
Qed.
Lemma harmless_dryrun l : harmless (rm_dryrun_lines l).
Proof.
  apply harmless_bind; [apply harmless_print|]. intros _. apply harmless_bind; [apply harmless_for; intros o; apply harmless_print|].
  intros _. destruct (raised l); [apply harmless_raise|apply harmless_print].
Qed.
(** Whether the command may delete *)
Definition may_delete (a : rm_args) : bool :=
  negb (rm_dryrun a) && (rm_yes a || match input with Ok r => is_yes r | Err _ => false end).
Lemma confirmed_harmless a : harmless (rm_confirmed (W := W) input a).
Proof.
  unfold rm_confirmed. destruct (rm_yes a); [done|]. apply harmless_bind; [apply harmless_print|]. intros _.
  apply harmless_bind; [apply harmless_lift|]. intros r. destruct (is_yes r); [done|]. apply harmless_bind; [apply harmless_print|done].
Qed.
Lemma confirmed_says a (s : W * list line) b s' : rm_confirmed input a s = (Ok b, s') -> b = true -> rm_yes a || match input with Ok r => is_yes r | Err _ => false end = true.
Proof.
  unfold rm_confirmed. destruct (rm_yes a); [done|]. destruct s as [w ls]. unfold mbind, mlift. cbn. destruct input as [r|e]; [|done].
  destruct (is_yes r); [done|]. cbn. by intros [= <- _].
Qed.
End Confirmed.

(** [rm] deletes only what it was asked to: without a dry run, and when the
    option or the answer to the prompt says so; otherwise the storage is as it
    was, whatever the listing and the input do. *)
Theorem rm_deletes_only_confirmed {W : Type} (message : exc -> string) (vars : rm_args -> string)
    (msc_list : string -> bool -> W -> res listing) (msc_delete : string -> bool -> M W unit) (input : res string) (a : rm_args) (w : W) (ls : list line)
    (Hno : may_delete input a = false) :
  (rm_run message vars msc_list msc_delete input a (w, ls)).2.1 = w.
Proof.
  change w with ((w, ls).1) at 2. revert w ls. cut (harmless (rm_run message vars msc_list msc_delete input a)).
  { intros H w ls. apply H. }
  apply harmless_bind; [apply harmless_when, harmless_print|]. intros _. apply harmless_report. unfold may_delete in Hno.
  destruct (rm_dryrun a).
  - apply harmless_bind; [by intros s|]. intros l. apply harmless_bind; [apply harmless_when, harmless_dryrun|done].
  - intros s. unfold mbind at 1. pose proof (confirmed_harmless input a s) as Hc.
    destruct (rm_confirmed input a s) as [[[]|e] s1] eqn:E; [|done|done].
    apply confirmed_says in E; [|done]. cbn [negb andb] in Hno. congruence.
Qed.
Lemma rm_deletes_only_confirmed_witness :
  (rm_run (W := nat) (fun _ => "") (fun _ => "") (fun _ _ _ => Ok (mkListing [] None)) (fun _ _ w => (Ok tt, S w)) (Ok "no")
     (mkRmArgs false false false true false false "d") (7, [])).2.1 = 7.
Proof. apply rm_deletes_only_confirmed. vm_compute. reflexivity. Defined.
(** The dry run of a directory without [--recursive] names its children; the
    command itself does not delete a directory. *)
Theorem rm_dryrun_names_children :
  let children := mkListing [new_ObjectMetadata "d/a" 1 0] None in
  (rm_run (W := nat) (fun _ => "") (fun _ => "") (fun _ _ _ => Ok children) (fun _ recursive w => if recursive : bool then (Ok tt, S w) else (Err ValueError, w))
     (Ok "y") (mkRmArgs false true false false false true "d") (7, [])) =
  (Ok 0%Z, (7, [Out (newline +:+ "Files that would be deleted:"); Out "  d/a"; Out (newline +:+ "Total: 1 file(s)")])) /\
  (rm_run (W := nat) (fun _ => "") (fun _ => "") (fun _ _ _ => Ok children) (fun _ recursive w => if recursive : bool then (Ok tt, S w) else (Err ValueError, w))
     (Ok "y") (mkRmArgs false false false false false true "d") (7, [])).1 = Ok 1%Z.
Proof. vm_compute. done. Qed.

(** ** The dry run of a sync to replicas is not dry *)
Definition with_dryrun (b : bool) (a : sync_args) : sync_args :=
  mkSyncArgs (sy_verbose a) (sy_delete_unmatched_files a) (sy_ray_cluster a) (sy_target_url a) (sy_replica_indices a) (sy_patterns a)
    (sy_no_ignore_hidden a) (sy_symlink_handling a) b (sy_dryrun_output_path a) (sy_source_url a).
(** Without a target URL [--dryrun] has no effect: the replicas are synced. *)
Theorem sync_replicas_ignores_dryrun {W : Type} (message : exc -> string) (ray_init : string -> M W unit) (ray_shutdown : M W unit) msc_sync msc_sync_replicas
    (a : sync_args) (s : W * list line) (Htarget : given (sy_target_url a) = None) :
  sync_run message ray_init ray_shutdown msc_sync msc_sync_replicas (with_dryrun true a) s =
  sync_run message ray_init ray_shutdown msc_sync msc_sync_replicas (with_dryrun false a) s.
Proof. unfold sync_run, sync_body. cbn [with_dryrun sy_verbose sy_ray_cluster sy_target_url sy_replica_indices sy_patterns sy_no_ignore_hidden sy_symlink_handling sy_dryrun_output_path sy_source_url sy_delete_unmatched_files]. by rewrite Htarget. Qed.
Definition replica_sync : sync_args := mkSyncArgs false true None None None [] false FOLLOW true None "msc://p/d".
Lemma sync_replicas_ignores_dryrun_witness :
  (sync_run (W := nat) (fun _ => "") (fun _ => mret tt) (mret tt) (fun _ _ _ _ _ _ _ _ _ => mret "") (fun _ _ _ _ _ _ _ w => (Ok tt, S w)) (with_dryrun true replica_sync) (7, [])).2.1 = 8.
Proof.
  rewrite (sync_replicas_ignores_dryrun (W := nat) (fun _ => "") (fun _ => mret tt) (mret tt) (fun _ _ _ _ _ _ _ _ _ => mret "") (fun _ _ _ _ _ _ _ w => (Ok tt, S w))
    replica_sync (7, [])); reflexivity.
Defined.
