(* ===== verification/CliMain.v ===== *)
(** * The entry point of the command line ([commands/cli/main.py], [actions])

    The registry of actions, the dispatch of a command, the actions [help] and
    [config validate], and the order of include and exclude patterns.  argparse
    is a parameter: what it makes of the arguments of a command, or the exit
    status of a usage error. *)
From S2P Require Import Prelude PyDict PyPath Types Utils Json Listing Cli.

(** ** Definitions: the registry *)
(** An action: its help text and, for the arguments after the command, the exit
    status of the parser or the run *)
Record action (W : Type) := mkAction { ac_help : string; ac_usage : list line; ac_parse : list string -> Z + C W Z }.
Arguments mkAction {W}. Arguments ac_help {W}. Arguments ac_usage {W}. Arguments ac_parse {W}.
(** [register_action] and [get_action] *)
Definition register_action {W} (name : string) (a : action W) (r : list (string * action W)) : list (string * action W) := dset r name a.
Definition get_action {W} (r : list (string * action W)) (name : string) : option (action W) := dget r name.

Section Main.
Context {W : Type} (message : exc -> string) (version_line : string).
(** [f"{name:<8}"] *)
Definition pad8 (s : string) : string := s +:+ String.string_of_list_ascii (replicate (8 - String.length s) " "%char).
Definition blank : C W unit := print (Out "").
(** [print_main_help] *)
Definition print_main_help (r : list (string * action W)) : C W unit :=
  blank ;;; print (Out "usage: msc <command> [options] [parameters]") ;;; print (Out "To see help text, you can run:") ;;; blank ;;;
  print (Out "  msc help") ;;; print (Out "  msc help <command>") ;;; blank ;;; print (Out "commands:") ;;;
  mfor (sort_by (fun a b => str_leb a.1 b.1) r) (fun na => print (Out ("  " +:+ pad8 na.1 +:+ " " +:+ ac_help na.2))) ;;; blank.
(** [HelpAction.run] *)
Definition help_run (r : list (string * action W)) (command : option string) : C W Z :=
  match truthy command with
  | None => print_main_help r ;;; mret 0%Z
  | Some name =>
      match get_action r name with
      | Some a => blank ;;; mfor (ac_usage a) print ;;; blank ;;; mret 0%Z
      | None => print (Out ("Unknown command: " +:+ name)) ;;; mret 1%Z
      end
  end.
(** [ConfigAction._run_validate]; [load] is [from_file] and [show] the dump in
    the format *)
Definition run_validate (load : option (list string) -> M W json) (show : bool -> json -> string) (config_file : option string) (as_json : bool) : C W Z :=
  mtry (fun _ => true)
    (let! config := on_storage (load (match truthy config_file with Some f => Some [f] | None => None end)) in
     print (Out (show as_json config)) ;;; mret 0%Z)
    (fun e => print (ErrOut ("Error: " +:+ message e)) ;;; mret 1%Z).
(** [main] after the options: a usage error exits with the status of argparse *)
Definition main_run (r : list (string * action W)) (version : bool) (command : string) (args : list string) : C W Z :=
  if version then blank ;;; print (Out version_line) ;;; blank ;;; mret 0%Z
  else
    match get_action r command with
    | None => blank ;;; print (Out ("Unknown command: " +:+ command)) ;;; print (Out "Run 'msc help' to see available commands.") ;;; blank ;;; mret 1%Z
    | Some a =>
        if bool_decide (args = ["--help"]) || bool_decide (args = ["-h"]) then mfor (ac_usage a) print ;;; mret 0%Z
        else
          match ac_parse a args with
          | inl status => mret status
          | inr run => mtry (fun _ => true) run (fun e => blank ;;; print (ErrOut ("msc: error: " +:+ message e)) ;;; blank ;;; mret 1%Z)
          end
    end.
End Main.
(** [OrderedPatternAction]: the pattern options in the order of the command line *)
Definition add_pattern (ps : PatternList) (t : PatternType) (value : string) : PatternList := ps ++ [(t, value)].

(** ** Every command ends with an exit status *)
Lemma total_bind {W A B} (m : C W A) (k : A -> C W B) : (forall s, exists a s', m s = (Ok a, s')) -> (forall a s, exists b s', k a s = (Ok b, s')) -> forall s, exists b s', mbind m k s = (Ok b, s').
Proof. intros Hm Hk s. destruct (Hm s) as (a & s1 & E). unfold mbind. rewrite E. apply Hk. Qed.
Lemma total_print {W} l : forall s : W * list line, exists u s', print l s = (Ok u, s').
Proof. intros [w ls]. by eexists _, _. Qed.
Lemma total_for {W A} (l : list A) (f : A -> C W unit) : (forall x s, exists u s', f x s = (Ok u, s')) -> forall s, exists u s', mfor l f s = (Ok u, s').
Proof. intros Hf. induction l as [|x l IH]; intros s; [by eexists _, _|]. cbn [mfor]. apply total_bind; auto. Qed.
Lemma total_ret {W A} (a : A) : forall s : W, exists b s', mret a s = (Ok b, s').
Proof. intros s. by eexists _, _. Qed.
Lemma total_try {W A} (m : C W A) (h : exc -> C W A) : (forall e s, exists a s', h e s = (Ok a, s')) -> forall s, exists a s', mtry (fun _ => true) m h s = (Ok a, s').
Proof. intros Hh s. unfold mtry. destruct (m s) as [[a|e] s1]; [by eexists _, _|apply Hh]. Qed.
Create HintDb total.
#[export] Hint Resolve total_bind total_print total_for total_ret total_try : total.
(** Whatever the command and whatever its action raises, the program ends with
    an exit status; an exception of the action is status 1. *)
Theorem main_always_exits {W : Type} (message : exc -> string) (version_line : string) (r : list (string * action W)) (version : bool) (command : string) (args : list string)
    (s : W * list line) :
  (exists status s', main_run message version_line r version command args s = (Ok status, s')) /\
  (forall a run e s1, version = false -> get_action r command = Some a -> args <> ["--help"] -> args <> ["-h"] -> ac_parse a args = inr run -> run s = (Err e, s1) ->
     (main_run message version_line r version command args s).1 = Ok 1%Z).
Proof.
  split.
  - revert s. unfold main_run, blank. destruct version; [eauto 12 with total|]. destruct (get_action r command) as [a|]; [|eauto 12 with total].
    destruct (_ || _); [eauto 12 with total|]. destruct (ac_parse a args); [eauto with total|]. apply total_try. eauto 12 with total.
  - intros a run e s1 -> Ha H1 H2 Hp Hrun. unfold main_run. rewrite Ha, !bool_decide_false by done. cbn [orb]. rewrite Hp. unfold mtry. rewrite Hrun. by destruct s1.
Qed.
(** [help] of a command that is registered shows its usage; every other name is
    status 1. *)
Theorem help_status {W : Type} (r : list (string * action W)) (name : string) (s : W * list line) (Hname : name <> "") :
  exists s', help_run r (Some name) s = (Ok (if bool_decide (is_Some (get_action r name)) then 0 else 1)%Z, s').
Proof.
  unfold help_run. assert (truthy (Some name) = Some name) as -> by (by destruct name). destruct (get_action r name) as [a|].
  - rewrite bool_decide_true by done.
    assert (exists u s', (blank ;;; mfor (ac_usage a) print ;;; blank) s = (Ok u, s')) as (u & s' & E) by (revert s; unfold blank; eauto 12 with total).
    exists s'. revert E. unfold mbind. destruct (blank s) as [[[]|?] s1]; [|done]. destruct (mfor _ _ s1) as [[[]|?] s2]; [|done].
    destruct (blank s2) as [[[]|?] s3]; [|done]. by intros [= _ <-].
  - rewrite bool_decide_false by (by intros [? [=]]). by destruct s; eexists.
Qed.
