(* ===== verification/Benchmark.v ===== *)
(** * The benchmark ([commands/msc_benchmark.py])

    [BenchmarkRunner] uploads, downloads and deletes objects with a pool of
    processes, each with a pool of threads, and reports sizes and times.  A
    storage client has a part [L] that belongs to a process and is made anew when
    the client is unpickled there, and the world [W] that all processes share.
    Times are integers in a unit of the clock; the order in which the pools run the tasks
    is an argument that may depend on the world. *)
From S2P Require Import Prelude PyDict PyPath Types Utils Json Rclone Cli.

(** ** Definitions: sizes and times *)
Definition DEFAULT_SIZES : list (string * Z) := [("4MB", 12800%Z); ("64MB", 800%Z)].
Definition DEFAULT_PROCESSES : list Z := [8%Z].
Definition DEFAULT_THREADS : list Z := [4%Z].
Definition DEFAULT_TEST_DIR : string := "/tmp/msc_benchmark".
(** [load_config]; the file is parsed and validated by [load] *)
Definition load_config {W} (exists_ : string -> W -> bool) (load : string -> M W json) (default : json) (config_path : option string) : M W json :=
  match config_path with
  | None => mret default
  | Some p => fun w => if exists_ p w then load p w else (Err FileNotFoundError, w)
  end.
(** [size_to_bytes]: the key is looked up after the number was read *)
Definition unit_power (u : string) : option Z :=
  if bool_decide (u = "KB") then Some 1%Z else if bool_decide (u = "MB") then Some 2%Z else if bool_decide (u = "GB") then Some 3%Z
  else if bool_decide (u = "TB") then Some 4%Z else if bool_decide (u = "PB") then Some 5%Z else None.
Definition size_to_bytes (size : string) : res Z :=
  let n := (String.length size - 2)%nat in
  match py_int (str_take n size) with
  | None => Err ValueError
  | Some z => match unit_power (str_drop n size) with Some k => Ok (z * 1024 ^ k)%Z | None => Err KeyError end
  end.
(** [PerformanceMetrics]: four lists that grow together *)
Record metrics := mkMetrics { start_times : list Z; end_times : list Z; response_times : list Z; object_sizes : list Z }.
Definition no_metrics : metrics := mkMetrics [] [] [] [].
Definition record (start_time end_time size : Z) (m : metrics) : metrics :=
  mkMetrics (start_times m ++ [start_time]) (end_times m ++ [end_time]) (response_times m ++ [(end_time - start_time)%Z]) (object_sizes m ++ [size]).
(** [statistics.median] and the last of [statistics.quantiles(l, n=n)], as
    fractions; the latter raises for less than two values *)
Definition nth_Z (l : list Z) (i : nat) : Z := default 0%Z (l !! i).
Definition sum_Z (l : list Z) : Z := foldr Z.add 0%Z l.
Definition sort_Z (l : list Z) : list Z := merge_sort Z.le l.
Definition median (l : list Z) : Z * Z :=
  let d := sort_Z l in let n := length d in
  if Nat.odd n then (nth_Z d (n / 2), 1%Z) else ((nth_Z d (n / 2 - 1) + nth_Z d (n / 2))%Z, 2%Z).
Definition last_quantile (n : Z) (l : list Z) : res (Z * Z) :=
  let d := sort_Z l in let ld := Z.of_nat (length d) in
  if (ld <? 2)%Z then Err ValueError
  else
    let im := ((n - 1) * (ld + 1))%Z in
    let j := (im / n)%Z in
    let j := if (j <? 1)%Z then 1%Z else if (ld - 1 <? j)%Z then (ld - 1)%Z else j in
    let delta := (im - j * n)%Z in
    Ok ((nth_Z d (Z.to_nat j - 1) * (n - delta) + nth_Z d (Z.to_nat j) * delta)%Z, n).
Record summary := mkSummary { su_total_size : Z; su_total_time : Z; su_average : Z * Z; su_median : Z * Z; su_90 : Z * Z; su_99 : Z * Z }.
(** [calculate] without the text: [max] and [min] raise for empty lists, and the
    throughput divides by the total time *)
Definition calculate (m : metrics) : res summary :=
  match end_times m, start_times m with
  | e :: es, s :: ss =>
      let total_time := (foldr Z.max e es - foldr Z.min s ss)%Z in
      res_bind (last_quantile 10 (response_times m)) (fun q90 =>
      res_bind (last_quantile 100 (response_times m)) (fun q99 =>
      if (total_time =? 0)%Z then Err ZeroDivisionError
      else Ok (mkSummary (sum_Z (object_sizes m)) total_time (sum_Z (response_times m), Z.of_nat (length (response_times m)))
                 (median (response_times m)) q90 q99)))
  | _, _ => Err ValueError
  end.
(** [pretty_print_bytes] of the fraction [n / d]; the nearest hundredth without
    trailing zeros *)
Definition two_digits (z : Z) : string := if (z <? 10)%Z then "0" +:+ pretty z else pretty z.
Definition show_hundredths (t : Z) : string := rstrip "." (rstrip "0" (pretty (t / 100)%Z +:+ "." +:+ two_digits (t mod 100)%Z)).
Fixpoint pretty_loop (suffix : string) (suffixes : list string) (n d : Z) : string :=
  match suffixes with
  | [] => show_hundredths (tenths (10 * n) d) +:+ " " +:+ suffix
  | u :: us => if (1024 * d <=? n)%Z then pretty_loop u us n (1024 * d)%Z else show_hundredths (tenths (10 * n) d) +:+ " " +:+ suffix
  end.
Definition pretty_print_bytes (n d : Z) : string := pretty_loop "B" ["KB"; "MB"; "GB"; "TB"; "PB"] n d.

(** ** Definitions: the runner *)
Class BenchmarkClient (L W : Type) := {
  (** the client of a new process *)
  bc_unpickle : W -> L;
  bc_write : string -> bytes -> M (L * W) unit;
  bc_read : string -> M (L * W) bytes;
  bc_delete : string -> M (L * W) unit;
  bc_upload_file : string -> string -> M (L * W) unit;
  bc_download_file : string -> string -> M (L * W) unit;
  bc_commit_metadata : M (L * W) unit;
  (** the clock and the local disk *)
  bc_time : W -> Z;
  bc_makedirs : string -> M W unit;
  bc_free : string -> W -> Z;
  bc_write_local : string -> bytes -> M W unit;
  bc_rmtree : string -> M W unit;
}.
Record runner := mkRunner {
  test_sizes : list (string * Z);
  processes : list Z;
  threads : list Z;
  rn_prefix : string;
  include_file_tests : bool;
  file_tests_dir : string;
  random_data : list (string * bytes);
}.
Fixpoint generate_data (urandom : Z -> bytes) (sizes : list (string * Z)) : res (list (string * bytes)) :=
  match sizes with
  | [] => Ok []
  | (k, _) :: l => res_bind (size_to_bytes k) (fun n => res_bind (generate_data urandom l) (fun r => Ok ((k, urandom n) :: r)))
  end.
(** [BenchmarkRunner.__init__] *)
Definition or_default {A} (o : option (list A)) (d : list A) : list A := match o with Some ((_ :: _) as l) => l | _ => d end.
Definition new_runner (urandom : Z -> bytes) (sizes : option (list (string * Z))) (ps ts : option (list Z)) (prefix : string) (files : bool) (dir : string) : res runner :=
  let sizes := or_default sizes DEFAULT_SIZES in
  res_bind (generate_data urandom sizes) (fun data =>
  Ok (mkRunner sizes (or_default ps DEFAULT_PROCESSES) (or_default ts DEFAULT_THREADS) prefix files dir data)).

(** [range(start, stop, step)] *)
Definition py_range (start stop step : Z) : res (list Z) :=
  if (step =? 0)%Z then Err ValueError
  else
    let count := if (0 <? step)%Z then ((stop - start + step - 1) / step)%Z else ((start - stop - step - 1) / - step)%Z in
    Ok (map (fun k => (start + k * step)%Z) (seqZ 0 count)).
Definition batches (num_objects n_processes : Z) : res (list (list Z)) :=
  if (n_processes =? 0)%Z then Err ZeroDivisionError
  else
    let batch_size := (num_objects / n_processes + 1)%Z in
    res_bind (py_range 0 num_objects batch_size) (fun starts =>
    Ok (map (fun i => seqZ i (Z.min (i + batch_size) num_objects - i)) starts)).

Section Runner.
Context {L W : Type} `{!BenchmarkClient L W}.
Context (r : runner).
(** The state of a process: its client, the world, and the shared lists *)
Notation task_state := ((L * W) * metrics)%type.
(** An operation whose exceptions are printed; between two readings of the clock *)
Definition timed (m : M (L * W) Z) (failed : Z) (s : task_state) : (Z * Z * Z) * (L * W) :=
  let start := bc_time s.1.2 in
  let '(x, c) := m s.1 in
  ((start, bc_time c.2, match x with Ok n => n | Err _ => failed end), c).
Definition recorded (m : M (L * W) Z) (failed : Z) : M task_state unit := fun s =>
  let '((a, b, n), c) := timed m failed s in (Ok tt, (c, record a b n s.2)).
(** [size_to_bytes(size)] is computed after the operation *)
Definition recorded_size (m : M (L * W) unit) (size : string) : M task_state unit := fun s =>
  let '((a, b, _), c) := timed (let! _ := m in mret 0%Z) 0 s in
  match size_to_bytes size with Ok n => (Ok tt, (c, record a b n s.2)) | Err e => (Err e, (c, s.2)) end.
Definition upload_object (size path : string) : M task_state unit :=
  let! data := mlift (match dget (random_data r) size with Some d => Ok d | None => Err KeyError end) in
  recorded_size (bc_write path data) size.
Definition download_object (path : string) : M task_state unit :=
  recorded (let! d := bc_read path in mret (Z.of_nat (length d))) 0.
Definition delete_object (path : string) : M task_state unit := fun s =>
  let '(_, c) := bc_delete path s.1 in (Ok tt, (c, s.2)).
Definition upload_file (size remote_path local_path : string) : M task_state unit := recorded_size (bc_upload_file remote_path local_path) size.
Definition download_file (size remote_path local_path : string) : M task_state unit := recorded_size (bc_download_file remote_path local_path) size.
Definition test_name (size : string) (i : Z) : string := "test-" +:+ size +:+ "-" +:+ pretty i.
Definition task (test_type bucket size : string) (i : Z) : M task_state unit :=
  let object_path := path_join bucket (test_name size i) in
  let local_path := path_join (file_tests_dir r) (test_name size i) in
  if bool_decide (test_type = "upload") then upload_object size object_path
  else if bool_decide (test_type = "download") then download_object object_path
  else if bool_decide (test_type = "delete") then delete_object object_path
  else if bool_decide (test_type = "upload_file") then upload_file size object_path local_path
  else if bool_decide (test_type = "download_file") then download_file size object_path local_path
  else mraise ValueError.
(** The tasks of the batches, as the pools run them: each is run in the process
    of its batch, whose client is unpickled when it starts; what it raises stays
    in its future *)
Fixpoint run_schedule (test_type bucket size : string) (l : list (nat * Z)) (clients : gmap nat L) (w : W) (m : metrics) : W * metrics :=
  match l with
  | [] => (w, m)
  | (b, i) :: l' =>
      let client := default (bc_unpickle w) (clients !! b) in
      let '(_, ((client', w'), m')) := task test_type bucket size i ((client, w), m) in
      run_schedule test_type bucket size l' (<[b := client']> clients) w' m'
  end.
(** The tasks of the batches; a schedule is an order of them *)
Definition all_tasks (bs : list (list Z)) : list (nat * Z) := concat (imap (fun b l => map (pair b) l) bs).
Context (schedule : string -> W -> list (list Z) -> list (nat * Z)).
(** [run_test]: the client of the parent is pickled for each batch *)
Definition run_test (test_type bucket size : string) (num_objects n_processes n_threads : Z) : M (L * W) (option summary) := fun s =>
  match batches num_objects n_processes with
  | Err e => (Err e, s)
  | Ok bs =>
      if (n_processes <? 1)%Z then (Err ValueError, s)
      else if (n_threads <=? 0)%Z && negb (bool_decide (bs = [])) then (Err ValueError, s)
      else
        let '(w, m) := run_schedule test_type bucket size (schedule test_type s.2 bs) ∅ s.2 no_metrics in
        if bool_decide (test_type = "delete") then (Ok None, (s.1, w))
        else match calculate m with Ok x => (Ok (Some x), (s.1, w)) | Err e => (Err e, (s.1, w)) end
  end.
Definition on_disk {A} (m : M W A) : M (L * W) A := fun s => let '(x, w) := m s.2 in (x, (s.1, w)).
(** [create_files]: the limit of 90% is compared without rounding *)
Definition create_files (size : string) (num_files : Z) : M (L * W) unit :=
  on_disk (bc_makedirs (file_tests_dir r)) ;;;
  let! n := mlift (size_to_bytes size) in
  fun s =>
  if (9 * bc_free (file_tests_dir r) s.2 <? 10 * (n * num_files))%Z then (Err RuntimeError, s)
  else
    mfor (seqZ 0 num_files) (fun i =>
      let! data := mlift (match dget (random_data r) size with Some d => Ok d | None => Err KeyError end) in
      on_disk (bc_write_local (path_join (file_tests_dir r) (test_name size i)) data)) s.
(** [cleanup_test_dir]; [home] is [os.path.expanduser] of a tilde *)
Definition cleanup_test_dir (abspath : string -> string) (home : string) : M (L * W) unit :=
  let abs_dir := abspath (file_tests_dir r) in
  if bool_decide (abs_dir ∈ ["/"; ""; "/home"; "/var"; "/etc"; home]) then mraise ValueError
  else fun s => let '(_, w) := bc_rmtree abs_dir s.2 in (Ok tt, (s.1, w)).
Definition run_round (size : string) (n p t : Z) : M (L * W) unit :=
  run_test "upload" (rn_prefix r) size n p t ;;;
  bc_commit_metadata ;;;
  run_test "download" (rn_prefix r) size n p t ;;;
  (if include_file_tests r then
     run_test "upload_file" (rn_prefix r) size n p t ;;; bc_commit_metadata ;;; run_test "download_file" (rn_prefix r) size n p t ;;; mret tt
   else mret tt) ;;;
  run_test "delete" (rn_prefix r) size n p t ;;;
  bc_commit_metadata.
(** [run_all_tests] *)
Definition run_size (abspath : string -> string) (home : string) (x : string * Z) : M (L * W) unit :=
  mfinally
    ((if include_file_tests r then create_files x.1 x.2 else mret tt) ;;;
     mfor (processes r) (fun p => mfor (threads r) (fun t => run_round x.1 x.2 p t)))
    (if include_file_tests r then cleanup_test_dir abspath home else mret tt).
Definition run_all_tests (abspath : string -> string) (home : string) : M (L * W) unit := mfor (test_sizes r) (run_size abspath home).
End Runner.

(** ** Every object belongs to one batch *)
Lemma seqZ_join m a b : (0 <= a)%Z -> (0 <= b)%Z -> seqZ m a ++ seqZ (m + a) b = seqZ m (a + b).
Proof. intros. symmetry. by apply seqZ_app. Qed.
Lemma concat_chunks (n b : Z) (c : nat) : (0 <= n)%Z -> (0 < b)%Z ->
  concat (map (fun i => seqZ i (Z.min (i + b) n - i)) (map (fun k => (0 + k * b)%Z) (seqZ 0 (Z.of_nat c)))) = seqZ 0 (Z.min (Z.of_nat c * b) n).
Proof.
  intros Hn Hb. induction c as [|c IH]; [by rewrite Z.mul_0_l, Z.min_l by lia|].
  rewrite seqZ_S, Nat2Z.inj_succ. rewrite !map_app, concat_app, IH. cbn [map concat]. rewrite app_nil_r.
  rewrite !Z.add_0_l. destruct (decide (Z.of_nat c * b <= n)%Z) as [Hle|Hgt].
  - rewrite (Z.min_l _ n) at 1 by lia. replace (seqZ (Z.of_nat c * b)) with (seqZ (0 + Z.of_nat c * b)) by (f_equal; lia).
    rewrite seqZ_join by lia. f_equal. lia.
  - rewrite (Z.min_r (Z.of_nat c * b)), (Z.min_r (Z.succ _ * b)) by lia. rewrite (seqZ_nil _ (_ - _)) by lia. apply app_nil_r.
Qed.
(** The batches contain every index once, in order, and there is at most one
    for each process. *)
Theorem batches_partition (num_objects n_processes : Z) (Hn : (0 <= num_objects)%Z) (Hp : (0 < n_processes)%Z) :
  exists bs, batches num_objects n_processes = Ok bs /\ concat bs = seqZ 0 num_objects /\ (Z.of_nat (length bs) <= n_processes)%Z.
Proof.
  unfold batches, py_range. rewrite (proj2 (Z.eqb_neq n_processes 0)) by lia. set (b := (num_objects / n_processes + 1)%Z).
  assert (0 <= num_objects / n_processes)%Z by (apply Z.div_pos; lia). rewrite (proj2 (Z.eqb_neq b 0)) by lia. rewrite (proj2 (Z.ltb_lt 0 b)) by lia.
  cbn [res_bind]. eexists. split; [reflexivity|]. set (c := ((num_objects - 0 + b - 1) / b)%Z).
  assert (0 <= c)%Z by (apply Z.div_pos; lia).
  assert (num_objects <= c * b)%Z. { pose proof (Z.div_mod (num_objects - 0 + b - 1) b). pose proof (Z.mod_pos_bound (num_objects - 0 + b - 1) b). unfold c. lia. }
  split.
  - rewrite <- (Z2Nat.id c) by lia. rewrite concat_chunks by lia. f_equal. lia.
  - rewrite !length_map, length_seqZ, Z2Nat.id by lia. apply Z.lt_succ_r. apply Z.div_lt_upper_bound; [lia|].
    pose proof (Z.div_mod num_objects n_processes). pose proof (Z.mod_pos_bound num_objects n_processes). unfold b. nia.
Qed.
Lemma batches_partition_witness : exists bs, batches 10 4 = Ok bs /\ concat bs = seqZ 0 10 /\ (Z.of_nat (length bs) <= 4)%Z.
Proof. apply (batches_partition 10 4); lia. Defined.

(** ** The benchmark cleans up after itself *)
Section Restore.
Context {L W X : Type} `{!BenchmarkClient L W} (contents : W -> gmap string X).
(** What the client promises: an upload changes only its object, a deletion
    removes it, and everything else leaves the objects alone *)
Record client_laws : Prop := {
  cl_write p d c q : q <> p -> contents (bc_write p d c).2.2 !! q = contents c.2 !! q;
  cl_upload p l c q : q <> p -> contents (bc_upload_file p l c).2.2 !! q = contents c.2 !! q;
  cl_delete p c : contents (bc_delete p c).2.2 = delete p (contents c.2);
  cl_read p c : contents (bc_read p c).2.2 = contents c.2;
  cl_download p l c : contents (bc_download_file p l c).2.2 = contents c.2;
  cl_commit c : contents (bc_commit_metadata c).2.2 = contents c.2;
  cl_makedirs d w : contents (bc_makedirs (L := L) d w).2 = contents w;
  cl_write_local p d w : contents (bc_write_local (L := L) p d w).2 = contents w;
  cl_rmtree d w : contents (bc_rmtree (L := L) d w).2 = contents w;
}.
Context (Hlaws : client_laws) (r : runner) (schedule : string -> W -> list (list Z) -> list (nat * Z)).
Context (Hschedule : forall t w bs, schedule t w bs ≡ₚ all_tasks bs).
Definition object_of (size : string) (n : Z) (q : string) : Prop := exists i, (0 <= i < n)%Z /\ q = path_join (rn_prefix r) (test_name size i).
Lemma object_of_iff size n q : q ∈ map (fun i => path_join (rn_prefix r) (test_name size i)) (seqZ 0 n) <-> object_of size n q.
Proof.
  rewrite list_elem_of_fmap. unfold object_of. split.
  - intros (i & -> & Hi%elem_of_seqZ). exists i. split; [lia|done].
  - intros (i & Hi & ->). exists i. split; [done|]. apply elem_of_seqZ. lia.
Qed.
#[local] Instance object_of_dec size n q : Decision (object_of size n q) :=
  match decide (q ∈ map (fun i => path_join (rn_prefix r) (test_name size i)) (seqZ 0 n)) with
  | left H => left (proj1 (object_of_iff size n q) H)
  | right H => right (fun H' => H (proj2 (object_of_iff size n q) H'))
  end.

Lemma elem_of_all_tasks bs i : (exists b, (b, i) ∈ all_tasks bs) <-> i ∈ concat bs.
Proof.
  unfold all_tasks. rewrite list_elem_of_In, in_concat. setoid_rewrite list_elem_of_In. setoid_rewrite in_concat. setoid_rewrite <- list_elem_of_In. split.
  - intros (b & l & Hl & Hi). apply elem_of_lookup_imap in Hl as (k & l0 & -> & Hk). apply list_elem_of_fmap in Hi as (j & [= -> ->] & Hj).
    exists l0. split; [|done]. by eapply list_elem_of_lookup_2.
  - intros (l & Hl & Hi). apply list_elem_of_lookup_1 in Hl as [b Hb]. exists b, (map (pair b) l). split; [|by apply list_elem_of_fmap_2].
    apply elem_of_lookup_imap. by exists b, l.
Qed.
Lemma scheduled t w n p bs i : (0 <= n)%Z -> (0 < p)%Z -> batches n p = Ok bs -> (exists b, (b, i) ∈ schedule t w bs) <-> (0 <= i < n)%Z.
Proof.
  intros Hn Hp Hb. destruct (batches_partition n p Hn Hp) as (bs' & E & Hc & _). rewrite E in Hb. injection Hb as ->.
  setoid_rewrite (Hschedule t w bs). rewrite elem_of_all_tasks, Hc, elem_of_seqZ. lia.
Qed.

(** A task changes only its object, and a deletion removes it *)
Lemma task_frame t bucket size i s q : q <> path_join bucket (test_name size i) -> contents (task r t bucket size i s).2.1.2 !! q = contents s.1.2 !! q.
Proof.
  intros Hq. destruct s as [c m]. unfold task.
  repeat case_bool_decide; unfold upload_object, download_object, delete_object, upload_file, download_file, recorded_size, recorded, timed, mbind, mlift, mret; cbn [fst snd].
  - destruct (dget (random_data r) size) as [d|]; [|done]. pose proof (cl_write Hlaws _ d c _ Hq) as H0.
    destruct (bc_write _ d c) as [[[]|e] c']; cbn in *; by destruct (size_to_bytes size).
  - pose proof (cl_read Hlaws (path_join bucket (test_name size i)) c) as H1. destruct (bc_read _ c) as [[d|e] c']; cbn in *; by rewrite H1.
  - pose proof (cl_delete Hlaws (path_join bucket (test_name size i)) c) as H2. destruct (bc_delete _ c) as [x c']. cbn in *. rewrite H2. by apply lookup_delete_ne.
  - pose proof (cl_upload Hlaws _ (path_join (file_tests_dir r) (test_name size i)) c _ Hq) as H3.
    destruct (bc_upload_file _ _ c) as [[[]|e] c']; cbn in *; by destruct (size_to_bytes size).
  - pose proof (cl_download Hlaws (path_join bucket (test_name size i)) (path_join (file_tests_dir r) (test_name size i)) c) as H4.
    destruct (bc_download_file _ _ c) as [[[]|e] c']; cbn in *; rewrite <- H4; by destruct (size_to_bytes size).
  - done.
Qed.
Lemma delete_task bucket size i s : contents (task r "delete" bucket size i s).2.1.2 = delete (path_join bucket (test_name size i)) (contents s.1.2).
Proof.
  unfold task. rewrite !bool_decide_false, bool_decide_true by done. unfold delete_object.
  pose proof (cl_delete Hlaws (path_join bucket (test_name size i)) s.1) as H. by destruct (bc_delete _ s.1).
Qed.
Lemma schedule_frame t bucket size l clients w m q :
  (forall b i, (b, i) ∈ l -> q <> path_join bucket (test_name size i)) ->
  contents (run_schedule r t bucket size l clients w m).1 !! q = contents w !! q.
Proof.
  revert clients w m. induction l as [|[b i] l IH]; intros clients w m Hq; cbn [run_schedule]; [done|].
  pose proof (task_frame t bucket size i ((default (bc_unpickle w) (clients !! b), w), m) q (Hq b i ltac:(left))) as H.
  destruct (task r t bucket size i _) as [x [[c' w'] m']]. cbn in H. rewrite IH; [done|]. intros b' i' Hin. apply (Hq b'). by right.
Qed.
Lemma deleted_stays bucket size l clients w m q : contents w !! q = None -> contents (run_schedule r "delete" bucket size l clients w m).1 !! q = None.
Proof.
  revert clients w m. induction l as [|[b i] l IH]; intros clients w m Hq; cbn [run_schedule]; [done|].
  pose proof (delete_task bucket size i ((default (bc_unpickle w) (clients !! b), w), m)) as H.
  destruct (task r "delete" bucket size i _) as [x [[c' w'] m']]. cbn in H. apply IH. rewrite H. apply lookup_delete_None. by right.
Qed.
Lemma schedule_deletes bucket size l clients w m b i :
  (b, i) ∈ l -> contents (run_schedule r "delete" bucket size l clients w m).1 !! path_join bucket (test_name size i) = None.
Proof.
  revert clients w m. induction l as [|[b' i'] l IH]; intros clients w m Hin; [by apply elem_of_nil in Hin|]. cbn [run_schedule].
  pose proof (delete_task bucket size i' ((default (bc_unpickle w) (clients !! b'), w), m)) as H.
  destruct (task r "delete" bucket size i' _) as [x [[c' w'] m']]. cbn in H. apply elem_of_cons in Hin as [[= <- <-]|Hin]; [|by apply IH].
  apply deleted_stays. rewrite H. apply lookup_delete_eq.
Qed.
Lemma test_frame t size n p k s q : (0 <= n)%Z -> ~ object_of size n q -> contents (run_test r schedule t (rn_prefix r) size n p k s).2.2 !! q = contents s.2 !! q.
Proof.
  intros Hn Hq. unfold run_test. destruct (batches n p) as [bs|] eqn:Eb; [|done]. destruct (p <? 1)%Z eqn:Ep; [done|]. destruct (_ && _); [done|].
  pose proof (schedule_frame t (rn_prefix r) size (schedule t s.2 bs) ∅ s.2 no_metrics q) as H.
  destruct (run_schedule _ _ _ _ _ _ _ _) as [w m]. assert (contents w !! q = contents s.2 !! q).
  { apply H. intros b i Hin ->. apply Hq. exists i. split; [|done]. apply (scheduled t s.2 n p bs); [done|lia|done|]. by exists b. }
  case_bool_decide; [done|]. by destruct (calculate m).
Qed.
Lemma test_deletes size n p k s x s' q : (0 <= n)%Z -> run_test r schedule "delete" (rn_prefix r) size n p k s = (Ok x, s') ->
  object_of size n q -> contents s'.2 !! q = None.
Proof.
  intros Hn. unfold run_test. destruct (batches n p) as [bs|] eqn:Eb; [|done]. destruct (p <? 1)%Z eqn:Ep; [done|]. destruct (_ && _); [done|].
  intros Hrun (i & Hi & ->). assert (exists b, (b, i) ∈ schedule "delete" s.2 bs) as [b Hb] by (by apply (scheduled _ _ n p); [|lia|..]).
  pose proof (schedule_deletes (rn_prefix r) size _ ∅ s.2 no_metrics b i Hb) as H.
  destruct (run_schedule _ _ _ _ _ _ _ _) as [w m]. rewrite bool_decide_true in Hrun by done. by injection Hrun as <- <-.
Qed.

(** Computations that change only the objects of a set *)
Definition only {A} (T : string -> Prop) (m : M (L * W) A) : Prop := forall s q, ~ T q -> contents (m s).2.2 !! q = contents s.2 !! q.
Lemma only_bind {A B} T (m : M (L * W) A) (k : A -> M (L * W) B) : only T m -> (forall a, only T (k a)) -> only T (mbind m k).
Proof. intros Hm Hk s q Hq. unfold mbind. specialize (Hm s q Hq). destruct (m s) as [[a|e] s1]; [by rewrite Hk|done]. Qed.
Lemma only_same {A} T (m : M (L * W) A) : (forall s, contents (m s).2.2 = contents s.2) -> only T m.
Proof. intros Hm s q _. by rewrite Hm. Qed.
Lemma only_for {A} T (l : list A) f : (forall a, only T (f a)) -> only T (mfor l f).
Proof. intros Hf. induction l as [|a l IH]; cbn [mfor]; [by apply only_same|]. by apply only_bind. Qed.
Lemma only_finally {A} T (m : M (L * W) A) f : only T m -> only T f -> only T (mfinally m f).
Proof.
  intros Hm Hf s q Hq. unfold mfinally. specialize (Hm s q Hq). destruct (m s) as [x s1]. specialize (Hf s1 q Hq). cbn in Hm.
  rewrite <- Hm. by destruct (f s1) as [[[]|e] s2].
Qed.
Lemma only_disk {A} T (m : M W A) : (forall w, contents (m w).2 = contents w) -> only T (on_disk m).
Proof. intros Hm. apply only_same. intros s. unfold on_disk. specialize (Hm s.2). by destruct (m s.2). Qed.
Lemma only_commit T : only T bc_commit_metadata.
Proof. apply only_same, (cl_commit Hlaws). Qed.
Lemma round_frame size n p t : (0 <= n)%Z -> only (object_of size n) (run_round r schedule size n p t).
Proof.
  intros Hn. unfold run_round. repeat (apply only_bind; [|intros _]); try apply only_commit; try (by intros s q Hq; apply test_frame).
  destruct (include_file_tests r); [|by apply only_same].
  repeat (apply only_bind; [|intros _]); try apply only_commit; try (by intros s q Hq; apply test_frame). by apply only_same.
Qed.
Lemma cleanup_same abspath home s : contents (cleanup_test_dir r abspath home s).2.2 = contents s.2.
Proof.
  unfold cleanup_test_dir. destruct (bool_decide _); [done|]. pose proof (cl_rmtree Hlaws (abspath (file_tests_dir r)) s.2) as H. by destruct (bc_rmtree _ _).
Qed.
Lemma create_frame size n T : only T (create_files r size n).
Proof.
  unfold create_files. apply only_bind; [apply only_disk, (cl_makedirs Hlaws)|]. intros _. apply only_bind; [by apply only_same|]. intros z s q Hq.
  destruct (_ <? _)%Z; [done|]. revert s q Hq. apply (only_for T). intros i. apply only_bind; [by apply only_same|]. intros d.
  apply only_disk, (cl_write_local Hlaws).
Qed.
Lemma size_frame abspath home x : (0 <= x.2)%Z -> only (object_of x.1 x.2) (run_size r schedule abspath home x).
Proof.
  intros Hn. unfold run_size. apply only_finally.
  - apply only_bind; [destruct (include_file_tests r); [apply create_frame|by apply only_same]|]. intros _.
    apply only_for. intros p. apply only_for. intros t. by apply round_frame.
  - destruct (include_file_tests r); [apply only_same, cleanup_same|by apply only_same].
Qed.

(** Computations that, when they return, have removed the objects of a set *)
Definition clears {A} (T : string -> Prop) (m : M (L * W) A) : Prop := forall s x s' q, m s = (Ok x, s') -> T q -> contents s'.2 !! q = None.
Lemma clears_seq {A B} T (m : M (L * W) A) (k : M (L * W) B) : clears T k -> clears T (mbind m (fun _ => k)).
Proof. intros Hk s x s' q. unfold mbind. destruct (m s) as [[a|e] s1]; [apply Hk|done]. Qed.
Lemma clears_then {A B} T (m : M (L * W) A) (k : A -> M (L * W) B) : clears T m -> (forall a s, contents (k a s).2.2 = contents s.2) -> clears T (mbind m k).
Proof.
  intros Hm Hk s x s' q E Hq. unfold mbind in E. destruct (m s) as [[a|e] s1] eqn:Em; [|done]. specialize (Hk a s1). rewrite E in Hk. cbn in Hk.
  rewrite Hk. by eapply Hm.
Qed.
Lemma clears_for {A} T (l : list A) f : l <> [] -> (forall a, clears T (f a)) -> clears T (mfor l f).
Proof.
  intros Hl Hf. induction l as [|a l IH]; [done|]. cbn [mfor]. destruct l as [|b l]; [by apply clears_then|]. by apply clears_seq, IH.
Qed.
Lemma clears_finally {A} T (m : M (L * W) A) f : clears T m -> (forall s, contents (f s).2.2 = contents s.2) -> clears T (mfinally m f).
Proof.
  intros Hm Hf s x s' q E Hq. unfold mfinally in E. destruct (m s) as [z s1] eqn:Em. specialize (Hf s1). destruct (f s1) as [[[]|e] s2]; [|done].
  injection E as -> <-. cbn in Hf. rewrite Hf. by eapply Hm.
Qed.
Lemma round_clears size n p t : (0 <= n)%Z -> clears (object_of size n) (run_round r schedule size n p t).
Proof.
  intros Hn. unfold run_round. do 4 apply clears_seq. apply clears_then; [|intros _; apply (cl_commit Hlaws)].
  intros s x s' q E Hq. by eapply test_deletes.
Qed.
Lemma size_clears abspath home x : (0 <= x.2)%Z -> processes r <> [] -> threads r <> [] -> clears (object_of x.1 x.2) (run_size r schedule abspath home x).
Proof.
  intros Hn Hp Ht. apply clears_finally; [|destruct (include_file_tests r); [apply cleanup_same|done]].
  apply clears_seq, clears_for; [done|]. intros p. apply clears_for; [done|]. intros t. by apply round_clears.
Qed.
Definition test_object (q : string) : Prop := exists size n, (size, n) ∈ test_sizes r /\ object_of size n q.
Lemma all_tests abspath home l s x s' : (forall y, y ∈ l -> (0 <= y.2)%Z) -> processes r <> [] -> threads r <> [] ->
  mfor l (run_size r schedule abspath home) s = (x, s') ->
  (forall q, (forall size n, (size, n) ∈ l -> ~ object_of size n q) -> contents s'.2 !! q = contents s.2 !! q) /\
  (x = Ok tt -> forall q size n, (size, n) ∈ l -> object_of size n q -> contents s'.2 !! q = None).
Proof.
  intros Hn Hp Ht. revert s. induction l as [|[size n] l IH]; intros s E.
  { injection E as <- <-. split; [done|]. intros _ q size n Hin. by apply elem_of_nil in Hin. }
  cbn [mfor] in E. unfold mbind in E. pose proof (Hn (size, n) ltac:(left)) as H0.
  pose proof (size_frame abspath home (size, n) H0 s) as Hf. destruct (run_size r schedule abspath home (size, n) s) as [[y|e] s1] eqn:Es; cbn in Hf.
  - destruct (IH (fun y Hy => Hn y (list_elem_of_further _ _ _ Hy)) s1 E) as [I1 I2]. split.
    + intros q Hq. rewrite I1 by (intros; apply Hq; by right). apply Hf, Hq. left.
    + intros -> q size0 n0 [[= -> ->]|Hin]%elem_of_cons Ho; [|by eapply I2].
      destruct (decide (Exists (fun y => object_of y.1 y.2 q) l)) as [([size1 n1] & Hin & H1)%Exists_exists|Hno]; [by eapply I2|].
      rewrite I1; [by eapply (size_clears abspath home (size, n))|]. intros size1 n1 Hin H1. apply Hno, Exists_exists. by exists (size1, n1).
  - injection E as <- <-. split; [|done]. intros q Hq. apply Hf, Hq. left.
Qed.
End Restore.

(** A benchmark, with any number of processes and threads and in every order of
    their tasks, changes no object but those that it names after its sizes,
    however it ends; when it returns, it has removed all of these. *)
Theorem benchmark_restores_storage {L W X : Type} `{!BenchmarkClient L W} (contents : W -> gmap string X) (Hlaws : client_laws (L := L) contents)
    (schedule : string -> W -> list (list Z) -> list (nat * Z)) (Hschedule : forall t w bs, schedule t w bs ≡ₚ all_tasks bs)
    (urandom : Z -> bytes) (sizes : option (list (string * Z))) (ps ts : option (list Z)) (prefix dir home : string) (files : bool) (abspath : string -> string)
    (r : runner) (s s' : L * W) (x : res unit) (Hnew : new_runner urandom sizes ps ts prefix files dir = Ok r)
    (Hsizes : forall size n, (size, n) ∈ test_sizes r -> (0 <= n)%Z) (Hrun : run_all_tests r schedule abspath home s = (x, s')) :
  (forall q, ~ test_object r q -> contents s'.2 !! q = contents s.2 !! q) /\ (x = Ok tt -> forall q, test_object r q -> contents s'.2 !! q = None).
Proof.
  assert (processes r <> [] /\ threads r <> []) as [Hp Ht].
  { unfold new_runner in Hnew. destruct (generate_data _ _); [|done]. injection Hnew as <-. cbn. split; by destruct ps as [[]|], ts as [[]|]. }
  destruct (all_tests contents Hlaws r schedule Hschedule abspath home (test_sizes r) s x s') as [H1 H2]; [by intros [size n]; apply (Hsizes size)|done|done|done|].
  split.
  - intros q Hq. apply H1. intros size n Hin Ho. apply Hq. by exists size, n.
  - intros Hx q (size & n & Hin & Ho). by eapply H2.
Qed.

(** ** A client in memory *)
(** Objects, those that the manifest tracks, whether uploads fail, and the
    clock; under a manifest a process keeps the files that it has to commit *)
Record demo_world := mkDemoWorld { dw_objects : gmap string bytes; dw_tracked : list string; dw_failing : bool; dw_clock : Z }.
Definition tick (w : demo_world) : demo_world := mkDemoWorld (dw_objects w) (dw_tracked w) (dw_failing w) (dw_clock w + 1).
Definition with_objects (o : gmap string bytes) (w : demo_world) : demo_world := mkDemoWorld o (dw_tracked w) (dw_failing w) (dw_clock w + 1).
Definition found (manifest : bool) (p : string) (w : demo_world) : bool := negb manifest || bool_decide (p ∈ dw_tracked w).
Definition demo_client (manifest : bool) : BenchmarkClient (list string) demo_world := {|
  bc_unpickle := fun _ => [];
  bc_write := fun p d '(l, w) => if dw_failing w then (Err RuntimeError, (l, tick w)) else (Ok tt, (p :: l, with_objects (<[p := d]> (dw_objects w)) w));
  bc_read := fun p '(l, w) => (if found manifest p w then match dw_objects w !! p with Some d => Ok d | None => Err FileNotFoundError end else Err FileNotFoundError, (l, tick w));
  bc_delete := fun p '(l, w) => if found manifest p w then (Ok tt, (l, with_objects (delete p (dw_objects w)) w)) else (Err FileNotFoundError, (l, tick w));
  bc_upload_file := fun p _ '(l, w) => (Ok tt, (p :: l, with_objects (<[p := []]> (dw_objects w)) w));
  bc_download_file := fun _ _ '(l, w) => (Ok tt, (l, tick w));
  bc_commit_metadata := fun '(l, w) => (Ok tt, ([], mkDemoWorld (dw_objects w) (l ++ dw_tracked w) (dw_failing w) (dw_clock w)));
  bc_time := dw_clock;
  bc_makedirs := fun _ => mret tt;
  bc_free := fun _ _ => 1000000%Z;
  bc_write_local := fun _ _ => mret tt;
  bc_rmtree := fun _ => mret tt;
|}.
Lemma demo_laws : client_laws (L := list string) (BenchmarkClient0 := demo_client false) dw_objects.
Proof.
  split; intros; repeat match goal with c : (list string * demo_world)%type |- _ => destruct c as [? ?] end; cbn; try done.
  - destruct (dw_failing _); [done|]. cbn. by rewrite lookup_insert_ne.
  - by rewrite lookup_insert_ne.
Qed.
Definition demo_runner (n : Z) : runner := mkRunner [("1KB", n)] [2%Z] [1%Z] "b" true "/tmp/x" [("1KB", [Byte.x00])].
Definition in_order (t : string) (w : demo_world) (bs : list (list Z)) : list (nat * Z) := all_tasks bs.
Definition demo_start (failing : bool) : list string * demo_world := ([], mkDemoWorld {[ "other" := [] ]} [] failing 0).
Definition demo_run (manifest : bool) (n : Z) : res unit * (list string * demo_world) :=
  run_all_tests (BenchmarkClient0 := demo_client manifest) (demo_runner n) in_order id "/root" (demo_start false).
Lemma benchmark_restores_storage_witness :
  (forall q, ~ test_object (demo_runner 3) q -> dw_objects (demo_run false 3).2.2 !! q = dw_objects (demo_start false).2 !! q) /\
  ((demo_run false 3).1 = Ok tt -> forall q, test_object (demo_runner 3) q -> dw_objects (demo_run false 3).2.2 !! q = None).
Proof.
  eapply (benchmark_restores_storage (BenchmarkClient0 := demo_client false) dw_objects demo_laws in_order (fun _ _ _ => reflexivity _) (fun _ => [Byte.x00])
    (Some [("1KB", 3%Z)]) (Some [2%Z]) (Some [1%Z]) "b" "/tmp/x" "/root" true id).
  - reflexivity.
  - intros size n [= -> ->]%list_elem_of_singleton. lia.
  - apply surjective_pairing.
Defined.
(** ** What the benchmark gets wrong *)
(** Under a manifest the files are registered in the processes of the pool,
    whose clients are gone when the parent commits: nothing is tracked, nothing
    can be read or deleted, and the objects stay. *)
Theorem manifest_benchmark_leaves_objects :
  (demo_run true 3).1 = Ok tt /\ dw_tracked (demo_run true 3).2.2 = [] /\ is_Some (dw_objects (demo_run true 3).2.2 !! "b/test-1KB-0").
Proof. vm_compute. split_and!; [done|done|by eexists]. Qed.
(** Uploads that fail are counted as transferred. *)
Theorem failed_uploads_counted :
  exists x s', run_test (BenchmarkClient0 := demo_client false) (demo_runner 3) in_order "upload" "b" "1KB" 3 2 1 (demo_start true) = (Ok (Some x), s') /\
    su_total_size x = 3072%Z /\ dw_objects s'.2 = dw_objects (demo_start true).2.
Proof. eexists _, _. split; [vm_compute; reflexivity|]. split; reflexivity. Qed.
(** With one object the percentiles raise, and the object stays. *)
Theorem single_object_not_measured :
  (demo_run false 1).1 = Err ValueError /\ is_Some (dw_objects (demo_run false 1).2.2 !! "b/test-1KB-0").
Proof. vm_compute. split; [done|by eexists]. Qed.
(** The percentiles extrapolate: the 99% response time can be above every
    response time. *)
Theorem percentile_above_maximum : last_quantile 100 [0; 0; 0; 0; 0; 0; 0; 0; 0; 100]%Z = Ok (18900, 100)%Z.
Proof. vm_compute. reflexivity. Qed.
