(* ===== verification/Explorer.v ===== *)
(** * The explorer server ([explorer/api/server.py])

    The request handlers of the web interface: the uploaded configuration, the
    cache of clients, the operations on files and the files of the front end.
    FastAPI, the parsers of the configuration files and the storage clients are
    parameters; a request runs to its end before the next one, as far as the
    module's own state goes, since that state is only used between two awaits. *)
From S2P Require Import Prelude PyDict PyPath Types Utils Json CloudFront Url PathMapping Config Rclone Eviction Cache ConfigLoader ConfigProofs Shortcuts.

(** ** Definitions: texts *)
(** [t in s] *)
Fixpoint in_str (t s : string) : bool :=
  startswith s t || match s with EmptyString => false | String _ s' => in_str t s' end.
Definition last_of (l : list string) : string := default "" (last l).
Definition opt_str (o : option string) : json := match o with Some s => JStr s | None => JNull end.
Definition DEFAULT_ORIGINS : list string :=
  ["http://localhost:5173"; "http://localhost:5174"; "http://localhost:5175"; "http://localhost:3000"; "http://localhost:8080";
   "http://127.0.0.1:5173"; "http://127.0.0.1:5174"; "http://127.0.0.1:5175"; "http://127.0.0.1:3000"; "http://127.0.0.1:8080"].
(** [get_cors_origins] *)
Definition get_cors_origins (custom_origins : option string) : list string :=
  match custom_origins with
  | Some s =>
      let origins := filter (fun o => o <> "") (map strip_spaces (split ","%char s)) in
      if bool_decide (origins = []) then DEFAULT_ORIGINS else origins
  | None => DEFAULT_ORIGINS
  end.

(** ** Definitions: the server *)
Inductive reply := RJson (j : json) | RFile (path filename : string) | RStatic (path : string) | RHtml.
(** The client of a profile, the operations of a client that the handlers call,
    and the temporary files *)
Class ExplorerBackend (W C : Type) := {
  xp_client_eq : EqDecision C;
  xp_new_client : json -> string -> M W C;
  xp_list : C -> string -> option string -> option string -> bool -> M W listing;
  xp_info : C -> string -> M W ObjectMetadata;
  xp_read : C -> string -> option dict -> M W bytes;
  xp_upload_file : C -> string -> string -> M W unit;
  xp_download_file : C -> string -> string -> M W unit;
  xp_delete : C -> string -> bool -> M W unit;
  xp_copy : C -> string -> string -> M W unit;
  xp_sync_from : C -> C -> string -> string -> bool -> bool -> M W json;
  xp_mkstemp : M W string;
  xp_write : string -> bytes -> M W unit;
  xp_exists : string -> W -> bool;
  xp_unlink : string -> M W unit;
}.
#[export] Existing Instance xp_client_eq.

Section Server.
Context {W C : Type} `{!ExplorerBackend W C} (message : exc -> string) (isoformat : Z -> string).
Context (json_loads yaml_safe_load : bytes -> res json) (decode_utf8 : bytes -> option string).
Record server := mkServer { msc_config : option json; client_cache : gmap string C; world : W }.
Definition on_world {A} (m : M W A) : M server A :=
  fun s => let '(r, w) := m (world s) in (r, mkServer (msc_config s) (client_cache s) w).
Definition http {A} (status : Z) (detail : string) : M server A := mraise (HTTPException status detail).

(** [config.get("profiles", {})] *)
Definition profiles_of (config : json) : res json :=
  match config with JDict d => Ok (default (JDict []) (dict_get d "profiles")) | _ => Err AttributeError end.
Definition profile_in (profile : string) (profiles : json) : res bool :=
  match profiles with
  | JDict d => Ok (bool_decide (profile ∈ map fst d))
  | JList l => Ok (existsb (fun j => match j with JStr s => bool_decide (s = profile) | _ => false end) l)
  | JStr s => Ok (in_str profile s)
  | _ => Err TypeError
  end.
Definition profile_names (profiles : json) : res (list string) :=
  match profiles with JDict d => Ok (map fst d) | _ => Err AttributeError end.

(** [get_msc_client_and_path] *)
Definition get_msc_client_and_path (url : string) : M server (C * string) :=
  fun s =>
  match msc_config s with
  | None => http 400 "MSC configuration not loaded. Please upload a configuration first." s
  | Some config =>
      if negb (startswith url "msc://") then http 400 "URL must start with msc://" s
      else
        (let! pp := mlift (resolve_msc_url url) in
         let! profiles := mlift (profiles_of config) in
         let! found := mlift (profile_in pp.1 profiles) in
         if negb found then http 400 ("Profile '" +:+ pp.1 +:+ "' not found in configuration")
         else
           fun s =>
           match client_cache s !! pp.1 with
           | Some c => (Ok (c, pp.2), s)
           | None =>
               match xp_new_client config pp.1 (world s) with
               | (Ok c, w) => (Ok (c, pp.2), mkServer (msc_config s) (<[ pp.1 := c ]> (client_cache s)) w)
               | (Err e, w) =>
                   (Err (HTTPException 500 ("Failed to create StorageClient for profile '" +:+ pp.1 +:+ "': " +:+ message e)),
                    mkServer (msc_config s) (client_cache s) w)
               end
           end) s
  end.

(** [health] and [get_profiles] *)
Definition health (frontend : bool) : M server reply :=
  fun s => (Ok (RJson (JDict [("status", JStr "healthy"); ("config_loaded", JBool (bool_decide (is_Some (msc_config s)))); ("frontend_available", JBool frontend)])), s).
Definition get_profiles : M server reply :=
  fun s =>
  match msc_config s with
  | None => http 400 "No configuration loaded. Please upload a config file first." s
  | Some config =>
      (let! names := mlift (res_bind (profiles_of config) profile_names) in
       mret (RJson (JDict [("profiles", JList (map JStr names)); ("count", JInt (Z.of_nat (length names)))]))) s
  end.
(** [upload_config] *)
Definition set_config (config : json) : M server unit :=
  fun s => (Ok tt, mkServer (match config with JNull => None | _ => Some config end) ∅ (world s)).
Definition upload_config (filename : option string) (content : bytes) : M server reply :=
  mtry (fun _ => true)
    (let! config :=
       match filename with
       | None => http 400 "Uploaded file must have a filename"
       | Some f =>
           if endswith f ".json" then mlift (json_loads content)
           else if endswith f ".yaml" || endswith f ".yml" then mlift (yaml_safe_load content)
           else http 400 "Invalid file type. Please upload a JSON or YAML file."
       end in
     set_config config ;;;
     let! names := mlift (res_bind (profiles_of config) profile_names) in
     mret (RJson (JDict [("status", JStr "success");
       ("message", JStr ("Configuration loaded successfully. Found " +:+ pretty (Z.of_nat (length names)) +:+ " profile(s)."));
       ("profiles", JList (map JStr names))])))
    (fun e => http 400 ("Failed to load configuration: " +:+ message e)).

(** The [except] clauses that most handlers end with *)
Definition translated {A} (not_found : string) (others : exc -> M server A) (m : M server A) : M server A :=
  mtry (fun _ => true) m (fun e =>
    match e with
    | FileNotFoundError => http 404 not_found
    | PermissionError => http 403 ("Permission denied: " +:+ message e)
    | _ => others e
    end).
Definition unexpected {A} (e : exc) : M server A := http 500 ("Unexpected error: " +:+ message e).

(** [list_files] *)
Definition islice (limit : option Z) (l : listing) : res (list ObjectMetadata) :=
  let all := match raised l with Some e => Err e | None => Ok (yielded l) end in
  match limit with
  | None => all
  | Some n =>
      if (n =? 0)%Z then all
      else if (n <? 0)%Z then Err ValueError
      else if (Z.to_nat n <=? length (yielded l))%nat then Ok (take (Z.to_nat n) (yielded l)) else all
  end.
Definition list_item (o : ObjectMetadata) : json :=
  let name := if has_char slash (key o) then last_of (split slash (key o)) else key o in
  JDict [("name", JStr (if bool_decide (name = "") then key o else name)); ("key", JStr (key o)); ("type", JStr (type o));
         ("size", JInt (content_length o)); ("last_modified", JStr (isoformat (last_modified o)));
         ("is_directory", JBool (bool_decide (type o = "directory")))].
Definition list_files (url : string) (start_after end_at : option string) (include_directories : bool) (limit : option Z) : M server reply :=
  let! cp := get_msc_client_and_path url in
  translated ("Directory not found: " +:+ url) unexpected
    (let! l := on_world (xp_list cp.1 cp.2 start_after end_at include_directories) in
     let! os := mlift (islice limit l) in
     mret (RJson (JDict [("items", JList (map list_item os)); ("count", JInt (Z.of_nat (length os)))]))).

(** [get_file_info] *)
Definition get_file_info (url : string) : M server reply :=
  let! cp := get_msc_client_and_path url in
  translated ("File not found: " +:+ url) unexpected
    (let! m := on_world (xp_info cp.1 cp.2) in
     mret (RJson (JDict [("key", JStr (key m)); ("content_length", JInt (content_length m)); ("last_modified", JStr (isoformat (last_modified m)));
       ("type", JStr (type m)); ("content_type", opt_str (content_type m)); ("etag", opt_str (etag m)); ("storage_class", opt_str (storage_class m));
       ("metadata", match metadata m with Some a => JDict (map_to_list a) | None => JNull end)]))).

(** [preview_file] *)
Definition IMAGE_EXTENSIONS : list string := ["png"; "jpg"; "jpeg"; "gif"; "bmp"; "svg"; "webp"].
Definition TEXT_TYPES : list string := ["application/json"; "application/xml"; "application/javascript"].
Definition TEXT_EXTENSIONS : list string :=
  ["txt"; "md"; "py"; "js"; "jsx"; "ts"; "tsx"; "json"; "xml"; "yaml"; "yml"; "html"; "css"; "sh"; "bash"; "c"; "cpp"; "h"; "java"; "rs"; "go"; "rb";
   "php"; "sql"; "csv"; "log"; "ini"; "cfg"; "conf"; "toml"].
Definition content_type_map (ext : string) : string :=
  if bool_decide (ext = "jpg" \/ ext = "jpeg") then "image/jpeg"
  else if bool_decide (ext = "svg") then "image/svg+xml"
  else if bool_decide (ext ∈ IMAGE_EXTENSIONS) then "image/" +:+ ext else "image/png".
Record preview := mkPreview { pv_content_type : string; pv_content : option string; pv_is_text : bool; pv_is_image : bool }.
(** What is shown of the bytes, by the content type and the extension of the name *)
Definition preview_of (content_type name : string) (file_bytes : bytes) : preview :=
  let ct := lower content_type in
  let file_ext := if has_char "." name then last_of (split "." (lower name)) else "" in
  if startswith ct "image/" || bool_decide (file_ext ∈ IMAGE_EXTENSIONS) then
    mkPreview (if startswith ct "image/" then content_type else content_type_map file_ext) (Some (b64encode file_bytes)) false true
  else if startswith ct "text/" || bool_decide (ct ∈ TEXT_TYPES) || bool_decide (file_ext ∈ TEXT_EXTENSIONS) then
    match decode_utf8 file_bytes with
    | Some s => mkPreview content_type (Some s) true false
    | None => mkPreview content_type None false false
    end
  else mkPreview content_type None false false.
(** [file_bytes[:max_bytes]] where it is longer *)
Definition truncate (max_bytes : Z) (l : bytes) : bytes :=
  if (max_bytes <? Z.of_nat (length l))%Z then
    if (0 <=? max_bytes)%Z then take (Z.to_nat max_bytes) l else take (Z.to_nat (Z.of_nat (length l) + max_bytes)) l
  else l.
(** [do_read], and [do_read_full] when it raises; the range is passed as a dictionary *)
Definition preview_read (c : C) (path : string) (truncated : bool) (max_bytes : Z) : M W bytes :=
  let range := if truncated then Some [("start", JInt 0); ("end", JInt (max_bytes - 1))] else None in
  mtry (fun _ => true) (xp_read c path range)
    (fun e => mtry (fun _ => true) (let! l := xp_read c path None in mret (truncate max_bytes l)) (fun _ => mraise e)).
Definition preview_file (url : string) (max_bytes : Z) : M server reply :=
  let! cp := get_msc_client_and_path url in
  translated ("File not found: " +:+ url) mraise
    (let! m := on_world (xp_info cp.1 cp.2) in
     let name := last_of (split slash url) in
     let content_type := match content_type m with Some t => if bool_decide (t = "") then "application/octet-stream" else t | None => "application/octet-stream" end in
     let size := content_length m in
     let truncated := (max_bytes <? size)%Z in
     let! pv :=
       (if (0 <? size)%Z then
          let! l := on_world (preview_read cp.1 cp.2 truncated max_bytes) in mret (preview_of content_type name l)
        else mret (mkPreview content_type None false false)) in
     mret (RJson (JDict [
       ("file_info", JDict [("name", JStr name); ("size", JInt size); ("last_modified", JStr (isoformat (last_modified m))); ("type", JStr (type m));
                            ("content_type", JStr (pv_content_type pv)); ("etag", opt_str (etag m))]);
       ("content", opt_str (pv_content pv)); ("content_truncated", JBool truncated); ("is_text", JBool (pv_is_text pv)); ("is_image", JBool (pv_is_image pv));
       ("can_preview", JBool true);
       ("preview_message", match pv_content pv with
                           | None => if pv_is_text pv || pv_is_image pv then JNull else JStr "Preview not available for this file type"
                           | Some _ => JNull end)]))).

(** [upload_file] and [download_file]: through a temporary file *)
Definition remove_temp (path : string) : M W unit := fun w => if xp_exists path w then xp_unlink path w else (Ok tt, w).
Definition permission_denied {A} (m : M server A) : M server A :=
  mtry (fun e => match e with PermissionError => true | _ => false end) m (fun e => http 403 ("Permission denied: " +:+ message e)).
Definition upload_file (url : string) (filename : option string) (content : bytes) : M server reply :=
  let! cp := get_msc_client_and_path url in
  let! temp := permission_denied (on_world xp_mkstemp) in
  mfinally
    (permission_denied
       (on_world (xp_write temp content) ;;;
        on_world (xp_upload_file cp.1 cp.2 temp) ;;;
        mret (RJson (JDict [("status", JStr "success"); ("message", JStr ("File '" +:+ default "None" filename +:+ "' uploaded successfully")); ("result", JNull)]))))
    (on_world (remove_temp temp)).
Definition download_file (url : string) : M server reply :=
  let! cp := get_msc_client_and_path url in
  let missing := "File not found: " +:+ url in
  let! temp := translated missing mraise (on_world xp_mkstemp) in
  mtry (fun _ => true)
    (on_world (xp_download_file cp.1 cp.2 temp) ;;;
     let name := last_of (split slash url) in
     mret (RFile temp (if bool_decide (name = "") then "download" else name)))
    (fun e => on_world (remove_temp temp) ;;; translated missing mraise (mraise e)).

(** [delete_file], [copy_file] and [sync_files] *)
Definition done_reply (what : string) (result : json) : reply :=
  RJson (JDict [("status", JStr "success"); ("message", JStr what); ("result", result)]).
Definition delete_file (url : string) (recursive : bool) : M server reply :=
  let! cp := get_msc_client_and_path url in
  translated ("File or directory not found: " +:+ url) mraise
    (on_world (xp_delete cp.1 cp.2 recursive) ;;; mret (done_reply ("Successfully deleted '" +:+ url +:+ "'") JNull)).
Definition copy_file (source_url target_url : string) : M server reply :=
  let! source := get_msc_client_and_path source_url in
  let! target := get_msc_client_and_path target_url in
  translated ("Source file or directory not found: " +:+ source_url)
    (fun e => match e with ValueError => http 400 (message e) | _ => mraise e end)
    ((if bool_decide (source.1 = target.1) then on_world (xp_copy source.1 source.2 target.2) else mraise ValueError) ;;;
     mret (done_reply ("Successfully copied from '" +:+ source_url +:+ "' to '" +:+ target_url +:+ "'") JNull)).
Definition sync_files (source_url target_url : string) (delete_unmatched_files preserve_source_attributes : bool) : M server reply :=
  let! source := get_msc_client_and_path source_url in
  let! target := get_msc_client_and_path target_url in
  translated ("Source directory not found: " +:+ source_url) mraise
    (let! r := on_world (xp_sync_from target.1 source.1 source.2 target.2 delete_unmatched_files preserve_source_attributes) in
     mret (done_reply ("Successfully synced from '" +:+ source_url +:+ "' to '" +:+ target_url +:+ "'") r)).

(** [serve_frontend]; [resolve] is [Path.resolve] *)
Definition inside (dir path : string) : bool := bool_decide (path = dir) || startswith path (dir +:+ "/").
Definition serve_frontend (static_dir : string) (available : bool) (resolve : string -> string) (is_file : string -> bool) (full_path : string) : M server reply :=
  if startswith full_path "api/" then http 404 "API endpoint not found"
  else if available then
    let file_path := resolve (path_join static_dir full_path) in
    if negb (inside static_dir file_path) then http 404 "File not found"
    else if is_file file_path then mret (RStatic file_path)
    else
      let index_path := resolve (path_join static_dir "index.html") in
      if negb (inside static_dir index_path) then http 404 "File not found" else mret (RStatic index_path)
  else mret RHtml.

(** [global_exception_handler], with FastAPI's handler of [HTTPException]: the
    status and the detail *)
Definition exception_status (e : exc) : Z * string :=
  match e with
  | HTTPException status detail => (status, detail)
  | _ =>
      let error_msg := message e in
      let has t := in_str t (lower error_msg) in
      if has "permission" || has "forbidden" then (403, "Permission denied: " +:+ error_msg)
      else if has "not found" || has "does not exist" then (404, "Resource not found: " +:+ error_msg)
      else if has "timeout" then (504, "Operation timed out: " +:+ error_msg)
      else if has "invalid" || has "bad" then (400, "Invalid request: " +:+ error_msg)
      else (500, "An error occurred: " +:+ error_msg)
  end%Z.

(** ** Definitions: requests *)
Inductive api_request :=
  | Health
  | UploadConfig (filename : option string) (content : bytes)
  | GetProfiles
  | ListFiles (url : string) (start_after end_at : option string) (include_directories : bool) (limit : option Z)
  | FileInfo (url : string)
  | PreviewFile (url : string) (max_bytes : Z)
  | UploadFile (url : string) (filename : option string) (content : bytes)
  | DownloadFile (url : string)
  | DeleteFile (url : string) (recursive : bool)
  | CopyFile (source_url target_url : string)
  | SyncFiles (source_url target_url : string) (delete_unmatched_files preserve_source_attributes : bool).
Definition handler (frontend : bool) (r : api_request) : M server reply :=
  match r with
  | Health => health frontend
  | UploadConfig f c => upload_config f c
  | GetProfiles => get_profiles
  | ListFiles u a e d l => list_files u a e d l
  | FileInfo u => get_file_info u
  | PreviewFile u n => preview_file u n
  | UploadFile u f c => upload_file u f c
  | DownloadFile u => download_file u
  | DeleteFile u r => delete_file u r
  | CopyFile s t => copy_file s t
  | SyncFiles s t d p => sync_files s t d p
  end.
(** The status and the content of the response *)
Definition respond (frontend : bool) (r : api_request) (s : server) : (Z * reply) * server :=
  match handler frontend r s with
  | (Ok x, s') => ((200%Z, x), s')
  | (Err e, s') => let '(status, detail) := exception_status e in ((status, RJson (JDict [("detail", JStr detail)])), s')
  end.
Fixpoint respond_all (frontend : bool) (rs : list api_request) (s : server) : list (Z * reply) * server :=
  match rs with
  | [] => ([], s)
  | r :: rs' => let '(a, s1) := respond frontend r s in let '(l, s2) := respond_all frontend rs' s1 in (a :: l, s2)
  end.
End Server.

(** ** Requests are served by clients of the configuration in force *)
Section Current.
Context {W C : Type} `{!ExplorerBackend W C} (message : exc -> string) (isoformat : Z -> string).
Context (json_loads yaml_safe_load : bytes -> res json) (decode_utf8 : bytes -> option string).
Definition made (config : json) (profile : string) (c : C) : Prop := exists w w', xp_new_client config profile w = (Ok c, w').
Definition current (s : server (W := W) (C := C)) : Prop :=
  forall p c, client_cache s !! p = Some c -> exists config, msc_config s = Some config /\ made config p c.
Definition preserves {A} (m : M (server (W := W) (C := C)) A) : Prop := forall s, current s -> current (m s).2.
Lemma preserves_ret {A} (a : A) : preserves (mret a).
Proof. by intros s. Qed.
Lemma preserves_raise {A} e : preserves (mraise (A := A) e).
Proof. by intros s. Qed.
Lemma preserves_lift {A} (r : res A) : preserves (mlift r).
Proof. by intros s. Qed.
Lemma preserves_http {A} n d : preserves (http (A := A) n d).
Proof. by intros s. Qed.
Lemma preserves_world {A} (m : M W A) : preserves (on_world m).
Proof. intros s H. unfold on_world. by destruct (m (world s)). Qed.
Lemma preserves_bind {A B} (m : M server A) (k : A -> M server B) : preserves m -> (forall a, preserves (k a)) -> preserves (mbind m k).
Proof. intros Hm Hk s H. unfold mbind. specialize (Hm s H). destruct (m s) as [[a|e] s1]; [by apply Hk|done]. Qed.
Lemma preserves_try {A} catches (m : M server A) h : preserves m -> (forall e, preserves (h e)) -> preserves (mtry catches m h).
Proof. intros Hm Hh s H. unfold mtry. specialize (Hm s H). destruct (m s) as [[a|e] s1]; [done|]. destruct (catches e); [by apply Hh|done]. Qed.
Lemma preserves_finally {A} (m : M server A) f : preserves m -> preserves f -> preserves (mfinally m f).
Proof.
  intros Hm Hf s H. unfold mfinally. specialize (Hm s H). destruct (m s) as [r s1]. specialize (Hf s1 Hm). by destruct (f s1) as [[[]|e] s2].
Qed.
Lemma preserves_translated {A} nf (others : exc -> M server A) m :
  preserves m -> (forall e, preserves (others e)) -> preserves (translated message nf others m).
Proof. intros Hm Ho. apply preserves_try; [done|]. intros e. destruct e; done || apply preserves_http || apply Ho. Qed.
Lemma preserves_set_config config : preserves (set_config (W := W) (C := C) config).
Proof. intros s _ p c H. cbn in H. by rewrite lookup_empty in H. Qed.
Lemma preserves_permission {A} (m : M server A) : preserves m -> preserves (permission_denied message m).
Proof. intros Hm. apply preserves_try; [done|]. intros e. apply preserves_http. Qed.
(** What a handler works on *)
Lemma get_client_current url s c path s' :
  current s -> get_msc_client_and_path message url s = (Ok (c, path), s') ->
  current s' /\ exists config profile, msc_config s' = Some config /\ resolve_msc_url url = Ok (profile, path) /\ made config profile c.
Proof.
  intros Hc. unfold get_msc_client_and_path. destruct (msc_config s) as [config|] eqn:Ec; [|done]. destruct (negb _); [done|].
  unfold mbind, mlift. destruct (resolve_msc_url url) as [[profile p]|] eqn:Er; [|done]. cbn [fst snd].
  destruct (profiles_of config) as [ps|]; [|done]. destruct (profile_in profile ps) as [[]|]; [|done|done]. cbn [negb].
  destruct (client_cache s !! profile) as [c0|] eqn:El.
  - intros [= <- <- <-]. split; [done|]. destruct (Hc _ _ El) as (config' & E' & Hm). by exists config', profile.
  - destruct (xp_new_client config profile (world s)) as [[c1|e] w] eqn:En; [|done]. intros [= <- <- <-]. split.
    + intros p' c' H. cbn in H |- *. apply lookup_insert_Some in H as [[<- <-]|[_ H]]; [by exists config; split; [|exists (world s), w]|]. destruct (Hc _ _ H) as (config' & E' & Hm).
      by exists config'.
    + exists config, profile. split; [done|]. split; [done|]. by exists (world s), w.
Qed.
Lemma preserves_get_client url : preserves (get_msc_client_and_path message url).
Proof.
  intros s Hc. destruct (get_msc_client_and_path message url s) as [[[c p]|e] s'] eqn:E; [by destruct (get_client_current _ _ _ _ _ Hc E)|].
  revert E. unfold get_msc_client_and_path. destruct (msc_config s) as [config|]; [|by intros [= _ <-]]. destruct (negb _); [by intros [= _ <-]|].
  unfold mbind, mlift. destruct (resolve_msc_url url) as [[profile p]|]; [|by intros [= _ <-]]. cbn [fst snd].
  destruct (profiles_of config) as [ps|]; [|by intros [= _ <-]]. destruct (profile_in profile ps) as [[]|]; [|by intros [= _ <-]|by intros [= _ <-]]. cbn [negb].
  destruct (client_cache s !! profile) as [c0|]; [done|]. destruct (xp_new_client _ _ _) as [[c1|e1] w]; [done|]. by intros [= _ <-].
Qed.
Create HintDb explorer.
#[local] Hint Resolve preserves_ret preserves_raise preserves_lift preserves_http preserves_world preserves_bind preserves_try preserves_finally
  preserves_translated preserves_permission preserves_set_config preserves_get_client : explorer.
Lemma handler_preserves frontend r : preserves (handler message isoformat json_loads yaml_safe_load decode_utf8 frontend r).
Proof.
  destruct r; cbn [handler]; unfold health, get_profiles, upload_config, list_files, get_file_info, preview_file, upload_file, download_file, delete_file, copy_file, sync_files, unexpected.
  1: by intros s.
  2: { intros s H. destruct (msc_config s); [|done]. by apply preserves_bind; eauto with explorer. }
  all: repeat (first [apply preserves_bind|apply preserves_translated|apply preserves_permission|apply preserves_finally|apply preserves_try]; intros);
    eauto with explorer; repeat case_match; eauto with explorer.
Qed.
Lemma respond_all_current frontend rs s :
  current s -> current (respond_all message isoformat json_loads yaml_safe_load decode_utf8 frontend rs s).2.
Proof.
  revert s. induction rs as [|r rs IH]; intros s H; [done|]. cbn [respond_all]. unfold respond.
  pose proof (handler_preserves frontend r s H) as Hr. destruct (handler _ _ _ _ _ _ _ s) as [[x|e] s1]; cbn in Hr.
  - specialize (IH s1 Hr). by destruct (respond_all _ _ _ _ _ _ rs s1).
  - destruct (exception_status message e). specialize (IH s1 Hr). by destruct (respond_all _ _ _ _ _ _ rs s1).
Qed.
End Current.

(** C37: whatever requests came before, with new configurations among them, a
    request is carried out by a client that was made from the configuration in
    force, for the profile of its URL and with the path of its URL. *)
Theorem explorer_clients_current {W C : Type} `{!ExplorerBackend W C} (message : exc -> string) (isoformat : Z -> string)
    (json_loads yaml_safe_load : bytes -> res json) (decode_utf8 : bytes -> option string) (frontend : bool) (rs : list api_request) (w : W)
    (url : string) (c : C) (path : string) (s' : server)
    (Hget : get_msc_client_and_path message url
              (respond_all message isoformat json_loads yaml_safe_load decode_utf8 frontend rs (mkServer None ∅ w)).2 = (Ok (c, path), s')) :
  exists config profile, msc_config s' = Some config /\ resolve_msc_url url = Ok (profile, path) /\ made (W := W) config profile c.
Proof.
  eapply get_client_current; [|exact Hget]. apply respond_all_current. intros p c0 H. cbn in H. by rewrite lookup_empty in H.
Qed.

(** ** A backend *)
(** A client is its configuration; the world is the temporary files and the
    number of bytes read *)
Record demo := mkDemo { demo_temps : list string; demo_read : nat }.
#[export] Instance demo_backend : ExplorerBackend demo (json * string) := {
  xp_client_eq := _;
  xp_new_client config profile := mret (config, profile);
  xp_list _ _ _ _ _ := mret (mkListing [] None);
  xp_info _ p := mret (new_ObjectMetadata p 3 0);
  xp_read _ _ range w := match range with Some _ => (Err AttributeError, w) | None => (Ok [Byte.x61; Byte.x62; Byte.x63], mkDemo (demo_temps w) (3 + demo_read w)) end;
  xp_upload_file _ _ _ := mret tt;
  xp_download_file _ _ _ := mret tt;
  xp_delete _ _ _ := mret tt;
  xp_copy _ _ _ := mret tt;
  xp_sync_from _ _ _ _ _ _ := mret JNull;
  xp_mkstemp w := (Ok "/tmp/t", mkDemo (demo_temps w ++ ["/tmp/t"]) (demo_read w));
  xp_write _ _ := mret tt;
  xp_exists p w := bool_decide (p ∈ demo_temps w);
  xp_unlink p w := (Ok tt, mkDemo (filter (fun q => q <> p) (demo_temps w)) (demo_read w));
}.
Definition demo_config (version : string) : json := JDict [("profiles", JDict [("p", JStr version)])].
Definition demo_loads (l : bytes) : res json :=
  match l with [] => Ok (JList []) | [_] => Ok (demo_config "1") | _ => Ok (demo_config "2") end.
Definition demo_server : server (W := demo) (C := json * string) := mkServer None ∅ (mkDemo [] 0).
Definition demo_all (rs : list api_request) : list (Z * reply) * server (W := demo) (C := json * string) :=
  respond_all (fun _ => "error") (fun _ => "") demo_loads demo_loads (fun _ => Some "text") false rs demo_server.
Lemma explorer_clients_current_witness :
  exists config profile, msc_config (demo_all [UploadConfig (Some "a.json") [Byte.x00]; FileInfo "msc://p/x"; UploadConfig (Some "b.json") [Byte.x00; Byte.x00]; FileInfo "msc://p/x"]).2 = Some config /\
    resolve_msc_url "msc://p/d/f" = Ok (profile, "d/f") /\ made (W := demo) config profile (demo_config "2", "p").
Proof.
  eapply (explorer_clients_current (W := demo) (fun _ => "error") (fun _ => "") demo_loads demo_loads (fun _ => Some "text") false
    [UploadConfig (Some "a.json") [Byte.x00]; FileInfo "msc://p/x"; UploadConfig (Some "b.json") [Byte.x00; Byte.x00]; FileInfo "msc://p/x"]
    (mkDemo [] 0) "msc://p/d/f" (demo_config "2", "p") "d/f").
  vm_compute. reflexivity.
Defined.

(** ** Temporary files *)
(** An upload removes its temporary file, whether it succeeds or fails, where
    an existing file can be unlinked. *)
Theorem upload_removes_temp {W C : Type} `{!ExplorerBackend W C} (message : exc -> string) (url : string) (filename : option string) (content : bytes)
    (s s1 s' : server (W := W) (C := C)) (c : C) (path temp : string) (w1 : W) (r : res reply)
    (Hunlink : forall p w, exists w', xp_unlink p w = (Ok tt, w') /\ xp_exists p w' = false)
    (Hclient : get_msc_client_and_path message url s = (Ok (c, path), s1)) (Htemp : xp_mkstemp (world s1) = (Ok temp, w1))
    (Hup : upload_file message url filename content s = (r, s')) :
  xp_exists temp (world s') = false.
Proof.
  unfold upload_file, mbind at 1 in Hup. rewrite Hclient in Hup. unfold mbind at 1 in Hup. unfold permission_denied at 1, mtry, on_world at 1 in Hup.
  rewrite Htemp in Hup. unfold mfinally in Hup. destruct (permission_denied _ _ _) as [r1 s2].
  unfold on_world, remove_temp in Hup. destruct (xp_exists temp (world s2)) eqn:Ex.
  - destruct (Hunlink temp (world s2)) as (w' & E & Hn). rewrite E in Hup. by injection Hup as <- <-.
  - by injection Hup as <- <-.
Qed.
Lemma upload_removes_temp_witness : xp_exists "/tmp/t" (world (upload_file (W := demo) (fun _ => "error") "msc://p/x" None [] (demo_all [UploadConfig (Some "a.json") [Byte.x00]]).2).2) = false.
Proof.
  eapply (upload_removes_temp (W := demo) (fun _ => "error") "msc://p/x" None [] (demo_all [UploadConfig (Some "a.json") [Byte.x00]]).2 _ _ (demo_config "1", "p") "x" "/tmp/t").
  - intros p w. eexists. split; [reflexivity|]. apply bool_decide_eq_false. intros [H _]%list_elem_of_filter. by apply H.
  - vm_compute. reflexivity.
  - vm_compute. reflexivity.
  - apply surjective_pairing.
Defined.
(** A download that succeeds leaves the temporary file: nothing removes it once
    the response was sent. *)
Theorem download_leaves_temp : demo_temps (world (demo_all [UploadConfig (Some "a.json") [Byte.x00]; DownloadFile "msc://p/x"]).2) = ["/tmp/t"].
Proof. vm_compute. reflexivity. Qed.

(** ** Previews read whole objects *)
(** The range is passed as a dictionary, which has no offset: where such a read
    fails, the preview of an object that is longer than the limit reads all of
    it, and shows its first bytes. *)
Theorem preview_reads_whole_object {W C : Type} `{!ExplorerBackend W C} (c : C) (path : string) (max_bytes : Z) (w w1 w' : W) (d : bytes)
    (Hdict : forall r, exists e, xp_read c path (Some r) w = (Err e, w1)) (Hread : xp_read c path None w1 = (Ok d, w')) (Hlong : (0 <= max_bytes < Z.of_nat (length d))%Z) :
  preview_read c path true max_bytes w = (Ok (take (Z.to_nat max_bytes) d), w').
Proof.
  unfold preview_read, mtry, mbind. destruct (Hdict [("start", JInt 0); ("end", JInt (max_bytes - 1))]) as [e ->]. rewrite Hread. cbn.
  unfold truncate. rewrite (proj2 (Z.ltb_lt _ _)) by lia. by rewrite (proj2 (Z.leb_le _ _)) by lia.
Qed.
Lemma preview_reads_whole_object_witness : preview_read (W := demo) (demo_config "1", "p") "x" true 2 (mkDemo [] 0) = (Ok [Byte.x61; Byte.x62], mkDemo [] 3).
Proof.
  apply (preview_reads_whole_object (W := demo) (demo_config "1", "p") "x" 2 (mkDemo [] 0) (mkDemo [] 0) (mkDemo [] 3) [Byte.x61; Byte.x62; Byte.x63]).
  - intros r. exists AttributeError. reflexivity.
  - reflexivity.
  - cbn. lia.
Defined.

(** ** A refused configuration is in force *)
(** A file that is no mapping is answered with 400, but it has replaced the
    configuration: the requests after it fail. *)
Theorem refused_config_replaces :
  let l := demo_all [UploadConfig (Some "a.json") [Byte.x00]; FileInfo "msc://p/x"; UploadConfig (Some "b.json") []; FileInfo "msc://p/x"] in
  map fst l.1 = [200; 200; 400; 500]%Z /\ msc_config l.2 = Some (JList []).
Proof. vm_compute. done. Qed.

(** ** The front end *)
(** Only files of the static directory are served, whatever the path and the
    links it leads through. *)
Theorem static_files_inside {W C : Type} `{!ExplorerBackend W C} (static_dir : string) (available : bool) (resolve : string -> string) (is_file : string -> bool)
    (full_path path : string) (s s' : server (W := W) (C := C))
    (Hserve : serve_frontend static_dir available resolve is_file full_path s = (Ok (RStatic path), s')) :
  inside static_dir path = true /\ (path = resolve (path_join static_dir full_path) \/ path = resolve (path_join static_dir "index.html")).
Proof.
  unfold serve_frontend in Hserve. destruct (startswith full_path "api/"); [done|]. destruct available; [|done].
  destruct (inside static_dir (resolve (path_join static_dir full_path))) eqn:E1; [|done]. cbn [negb] in Hserve.
  destruct (is_file _); [by injection Hserve as <- _; auto|].
  destruct (inside static_dir (resolve (path_join static_dir "index.html"))) eqn:E2; [|done]. injection Hserve as <- _. auto.
Qed.
Lemma static_files_inside_witness :
  inside "/static" "/static/a.js" = true /\ ("/static/a.js" = id (path_join "/static" "a.js") \/ "/static/a.js" = id (path_join "/static" "index.html")).
Proof.
  apply (static_files_inside (W := demo) "/static" true id (fun _ => true) "a.js" "/static/a.js" demo_server demo_server). vm_compute. reflexivity.
Defined.
