(* ===== verification/Mcp.v ===== *)
(** * The tools of the MCP server ([mcp/tools.py], [mcp/utils.py])

    Every tool answers with the text of a JSON object, here the object: what
    was done, or the error.  A client is made for each call; its operations are
    an interface. *)
From S2P Require Import Prelude PyDict PyPath Types Utils Json Url PathMapping Config Rclone Eviction Cache ConfigLoader ConfigProofs Shortcuts.

(** ** Definitions *)
Class ToolClient (W C : Type) := {
  tc_new : option string -> string -> M W C;
  tc_profile : C -> string;
  tc_replicas : C -> nat;
  tc_list : C -> string -> option string -> option string -> bool -> option string -> bool -> M W listing;
  tc_info : C -> string -> M W ObjectMetadata;
  tc_upload_file : C -> string -> string -> option dict -> M W unit;
  tc_download_file : C -> string -> string -> M W unit;
  tc_delete : C -> string -> bool -> M W unit;
  tc_copy : C -> string -> string -> M W unit;
  tc_is_file : C -> string -> M W bool;
  tc_is_empty : C -> string -> M W bool;
  tc_sync_from : C -> C -> string -> string -> bool -> bool -> M W unit;
  tc_sync_replicas : C -> string -> option (list Z) -> bool -> M W unit;
}.
Section Tools.
Context {W C : Type} `{!ToolClient W C} (message : exc -> string) (isoformat : Z -> string) (realpath : string -> string).
(** The path of the configuration the server was started with, and the path
    mapping *)
Context (config_path : option string) (mapping : path_mapping).
(** [metadata_to_dict] *)
Definition text (o : option string) : json := match o with Some s => JStr s | None => JNull end.
Definition metadata_to_dict (m : ObjectMetadata) : json :=
  JDict [("key", JStr (key m)); ("type", JStr (type m)); ("content_length", JInt (content_length m)); ("last_modified", JStr (isoformat (last_modified m)));
         ("content_type", text (content_type m)); ("etag", text (etag m)); ("storage_class", text (storage_class m));
         ("metadata", match metadata m with Some a => JDict (map_to_list a) | None => JNull end)].
(** [get_msc_config_paths] *)
Definition get_msc_config_paths : option string :=
  match config_path with Some p => if bool_decide (p = "") then None else Some p | None => None end.
(** [get_storage_client_for_url] *)
Definition get_storage_client_for_url (url : string) : M W (C * string) :=
  let url := normalize_msc_url url in
  let! pp := mlift (if startswith url MSC_PROTOCOL then resolve_msc_url url else resolve_non_msc_url realpath mapping url) in
  let! c := tc_new get_msc_config_paths pp.1 in
  mret (c, pp.2).

(** The frame of every tool: the fields of the answer, or the error *)
Definition tool (error_fields : dict) (body : M W dict) : W -> json * W :=
  fun w =>
  match body w with
  | (Ok fields, w') => (JDict fields, w')
  | (Err e, w') => (JDict ([("success", JBool false); ("error", JStr (message e))] ++ error_fields), w')
  end.
Definition success (fields : dict) : dict := ("success", JBool true) :: fields.

(** [msc_list] *)
Definition limited (limit : option Z) (count : Z) : bool := match limit with Some l => negb (l =? 0)%Z && (l <=? count)%Z | None => false end.
Fixpoint list_loop (limit : option Z) (l : list ObjectMetadata) (e : option exc) (objects : list ObjectMetadata) : res (list ObjectMetadata) :=
  match l with
  | [] => match e with Some e => Err e | None => Ok objects end
  | o :: l' => let objects := objects ++ [o] in if limited limit (Z.of_nat (length objects)) then Ok objects else list_loop limit l' e objects
  end.
Definition msc_list (url : string) (start_after end_at : option string) (include_directories : bool) (attribute_filter_expression : option string)
    (show_attributes : bool) (limit : option Z) : W -> json * W :=
  tool [("url", JStr url)]
    (let! cp := get_storage_client_for_url url in
     let! l := tc_list cp.1 cp.2 start_after end_at include_directories attribute_filter_expression show_attributes in
     let! objects := mlift (list_loop limit (yielded l) (raised l) []) in
     let count := Z.of_nat (length objects) in
     mret (success ([("url", JStr url); ("count", JInt count); ("objects", JList (map metadata_to_dict objects))] ++
       match limit with
       | Some n => if limited limit count then [("truncated", JBool true); ("message", JStr ("Results limited to " +:+ pretty n +:+ " objects"))] else []
       | None => []
       end))).
(** [msc_info] *)
Definition msc_info (url : string) : W -> json * W :=
  tool [("url", JStr url)]
    (let! cp := get_storage_client_for_url url in
     let! m := tc_info cp.1 cp.2 in
     mret (success [("url", JStr url); ("metadata", metadata_to_dict m)])).
(** [msc_upload_file] and [msc_download_file] *)
Definition msc_upload_file (url local_path : string) (attributes : option dict) : W -> json * W :=
  let attrs := match attributes with Some [] => None | o => o end in
  tool [("url", JStr url); ("local_path", JStr local_path)]
    (let! cp := get_storage_client_for_url url in
     tc_upload_file cp.1 cp.2 local_path attrs ;;;
     let! m := tc_info cp.1 cp.2 in
     mret (success ([("url", JStr url); ("local_path", JStr local_path); ("uploaded_metadata", metadata_to_dict m)] ++
                    match attrs with Some a => [("attributes", JDict a)] | None => [] end))).
Definition msc_download_file (url local_path : string) : W -> json * W :=
  tool [("url", JStr url); ("local_path", JStr local_path)]
    (let! cp := get_storage_client_for_url url in
     let! m := tc_info cp.1 cp.2 in
     tc_download_file cp.1 cp.2 local_path ;;;
     mret (success [("url", JStr url); ("local_path", JStr local_path); ("downloaded_metadata", metadata_to_dict m)])).
(** [msc_delete] *)
Definition msc_delete (url : string) (recursive : bool) : W -> json * W :=
  tool [("url", JStr url); ("recursive", JBool recursive)]
    (let! cp := get_storage_client_for_url url in
     tc_delete cp.1 cp.2 recursive ;;;
     mret (success [("url", JStr url); ("recursive", JBool recursive); ("message", JStr ("Successfully deleted " +:+ url))])).
(** [msc_copy] *)
Definition cross_profile (source target : string) : string :=
  "Cross-profile copy not supported. Source profile '" +:+ source +:+ "' differs from target profile '" +:+ target +:+
  "'. Use msc_sync for directory-level cross-profile copies, or use msc_download then msc_upload for single-file transfers.".
Definition msc_copy (source_url target_url : string) : W -> json * W :=
  tool [("source_url", JStr source_url); ("target_url", JStr target_url)]
    (let! s := get_storage_client_for_url source_url in
     let! t := get_storage_client_for_url target_url in
     let sp := tc_profile s.1 in let tp := tc_profile t.1 in
     if negb (bool_decide (sp = tp)) then
       mret [("success", JBool false); ("error", JStr (cross_profile sp tp)); ("source_url", JStr source_url); ("target_url", JStr target_url);
             ("source_profile", JStr sp); ("target_profile", JStr tp)]
     else
       let! m := tc_info s.1 s.2 in
       tc_copy s.1 s.2 t.2 ;;;
       let! m' := tc_info s.1 t.2 in
       mret (success [("source_url", JStr source_url); ("target_url", JStr target_url); ("source_metadata", metadata_to_dict m);
                      ("target_metadata", metadata_to_dict m'); ("message", JStr ("Successfully copied " +:+ source_url +:+ " to " +:+ target_url))])).
(** [msc_is_file] and [msc_is_empty] *)
Definition msc_is_file (url : string) : W -> json * W :=
  tool [("url", JStr url)]
    (let! cp := get_storage_client_for_url url in
     let! b := tc_is_file cp.1 cp.2 in
     mret (success [("url", JStr url); ("is_file", JBool b); ("message", JStr ("URL " +:+ url +:+ " " +:+ (if b : bool then "is" else "is not") +:+ " a file"))])).
Definition msc_is_empty (url : string) : W -> json * W :=
  tool [("url", JStr url)]
    (let! cp := get_storage_client_for_url url in
     let! b := tc_is_empty cp.1 cp.2 in
     mret (success [("url", JStr url); ("is_empty", JBool b); ("message", JStr ("URL " +:+ url +:+ " " +:+ (if b : bool then "is empty" else "contains objects")))])).
(** [msc_sync] and [msc_sync_replicas] *)
Definition msc_sync (source_url target_url : string) (delete_unmatched_files preserve_source_attributes : bool) : W -> json * W :=
  tool [("source_url", JStr source_url); ("target_url", JStr target_url)]
    (let! s := get_storage_client_for_url source_url in
     let! t := get_storage_client_for_url target_url in
     tc_sync_from t.1 s.1 s.2 t.2 delete_unmatched_files preserve_source_attributes ;;;
     mret (success [("source_url", JStr source_url); ("target_url", JStr target_url); ("delete_unmatched_files", JBool delete_unmatched_files);
                    ("preserve_source_attributes", JBool preserve_source_attributes); ("message", JStr ("Successfully synced " +:+ source_url +:+ " to " +:+ target_url))])).
Definition indices (l : option (list Z)) : json := match l with Some l => JList (map JInt l) | None => JNull end.
Definition msc_sync_replicas (source_url : string) (replica_indices : option (list Z)) (delete_unmatched_files : bool) : W -> json * W :=
  tool [("source_url", JStr source_url); ("replica_indices", indices replica_indices)]
    (let! cp := get_storage_client_for_url source_url in
     if (tc_replicas cp.1 =? 0)%nat then
       mret (success [("source_url", JStr source_url); ("message", JStr "No replicas configured for profile. Sync operation skipped."); ("replicas_synced", JInt 0)])
     else
       tc_sync_replicas cp.1 cp.2 replica_indices delete_unmatched_files ;;;
       let n := Z.of_nat (match replica_indices with Some (i :: l) => length (i :: l) | _ => tc_replicas cp.1 end) in
       mret (success [("source_url", JStr source_url); ("replica_indices", indices replica_indices); ("delete_unmatched_files", JBool delete_unmatched_files);
                      ("replicas_synced", JInt n); ("message", JStr ("Successfully synced " +:+ source_url +:+ " to " +:+ pretty n +:+ " replica(s)"))])).
End Tools.

(** ** Listings are limited *)
(** The loop returns the first objects of the listing up to a positive limit,
    and raises only when the listing ends before that. *)
Lemma list_loop_take limit l e acc :
  (0 < limit)%Z -> (Z.of_nat (length acc) < limit)%Z ->
  list_loop (Some limit) l e acc =
    if (Z.to_nat limit <=? length acc + length l)%nat then Ok (acc ++ take (Z.to_nat limit - length acc) l)
    else match e with Some e => Err e | None => Ok (acc ++ l) end.
Proof.
  intros Hpos. revert acc. induction l as [|o l IH]; intros acc Hacc; cbn [list_loop length].
  - rewrite (proj2 (Nat.leb_gt _ _)) by lia. destruct e; [done|]. by rewrite app_nil_r.
  - unfold limited. rewrite (proj2 (Z.eqb_neq _ _)) by lia. cbn [negb andb]. rewrite length_app. cbn [length].
    destruct (Z.leb_spec limit (Z.of_nat (length acc + 1))) as [Hle|Hgt].
    + rewrite (proj2 (Nat.leb_le _ _)) by lia. replace (Z.to_nat limit - length acc) with 1 by lia. cbn [take]. by rewrite ?take_0.
    + rewrite IH by (rewrite length_app; cbn [length]; lia). rewrite length_app, <- !app_assoc. cbn [length].
      replace (length acc + 1 + length l) with (length acc + S (length l)) by lia.
      destruct (_ <=? _)%nat eqn:El; [|done]. apply Nat.leb_le in El.
      by replace (Z.to_nat limit - length acc) with (S (Z.to_nat limit - (length acc + 1))) by lia.
Qed.
(** A listing with a positive limit never has more objects than that, and has
    all of them when there are fewer. *)
Theorem mcp_list_limited (limit : Z) (l : listing) (objects : list ObjectMetadata) (Hpos : (0 < limit)%Z)
    (Hloop : list_loop (Some limit) (yielded l) (raised l) [] = Ok objects) :
  objects = take (Z.to_nat limit) (yielded l).
Proof.
  rewrite list_loop_take in Hloop by (cbn; lia). cbn [length app Nat.add] in Hloop. rewrite Nat.sub_0_r in Hloop.
  destruct (Nat.leb_spec (Z.to_nat limit) (length (yielded l))); [by injection Hloop as <-|].
  destruct (raised l); [done|]. injection Hloop as <-. by rewrite take_ge by lia.
Qed.
Lemma mcp_list_limited_witness : [new_ObjectMetadata "a" 1 0] = take (Z.to_nat 1) [new_ObjectMetadata "a" 1 0; new_ObjectMetadata "b" 1 0].
Proof. apply (mcp_list_limited 1 (mkListing [new_ObjectMetadata "a" 1 0; new_ObjectMetadata "b" 1 0] (Some OSError))); [lia|vm_compute; reflexivity]. Defined.
(** With a negative limit one object is returned, as many as with limit 1. *)
Theorem negative_limit_returns_one (limit : Z) (o : ObjectMetadata) (l : list ObjectMetadata) (e : option exc) (Hneg : (limit < 0)%Z) :
  list_loop (Some limit) (o :: l) e [] = Ok [o].
Proof. cbn. rewrite (proj2 (Z.eqb_neq _ _)) by lia. by rewrite (proj2 (Z.leb_le _ _)) by lia. Qed.
(** A listing that has just as many objects as the limit is called truncated,
    although nothing is missing. *)
Theorem complete_listing_called_truncated :
  list_loop (Some 1%Z) [new_ObjectMetadata "a" 1 0] None [] = Ok [new_ObjectMetadata "a" 1 0] /\ limited (Some 1%Z) 1 = true.
Proof. done. Qed.

(** ** Answers tell what happened *)
(** What a tool answers *)
Definition says_success (j : json) : bool := match j with JDict d => match dict_get d "success" with Some (JBool b) => b | _ => false end | _ => false end.
Section Copy.
Context {W C : Type} `{!ToolClient W C} (message : exc -> string) (isoformat : Z -> string) (realpath : string -> string) (config_path : option string) (mapping : path_mapping).
(** A copy that is answered with success was made by the client of one profile,
    between the paths of the two URLs. *)
Theorem copy_within_profile (source_url target_url : string) (w w' : W) (j : json)
    (Hcopy : msc_copy message isoformat realpath config_path mapping source_url target_url w = (j, w')) (Hsuccess : says_success j = true) :
  exists (s t : C) sp tp w1 w2 w3 w4, tc_profile s = tc_profile t /\
    get_storage_client_for_url realpath config_path mapping source_url w = (Ok (s, sp), w1) /\
    get_storage_client_for_url realpath config_path mapping target_url w1 = (Ok (t, tp), w2) /\ tc_copy s sp tp w3 = (Ok tt, w4).
Proof.
  revert Hcopy. unfold msc_copy, tool, mbind at 1. destruct (get_storage_client_for_url _ _ _ source_url w) as [[[s sp]|e] w1] eqn:E1; [|by intros [= <- _]].
  unfold mbind at 1. destruct (get_storage_client_for_url _ _ _ target_url w1) as [[[t tp]|e] w2] eqn:E2; [|by intros [= <- _]]. cbn [fst snd].
  case_bool_decide as Ep; cbn [negb]; [|by intros [= <- _]]. unfold mbind at 1. destruct (tc_info s sp w2) as [[m|e] w3] eqn:E3; [|by intros [= <- _]].
  unfold mbind at 1. destruct (tc_copy s sp tp w3) as [[[]|e] w4] eqn:E4; [|by intros [= <- _]]. intros _. by exists s, t, sp, tp, w1, w2, w3, w4.
Qed.
End Copy.
