(* ===== verification/Adapters.v ===== *)
(** * Adapters to other libraries ([contrib/zarr.py], [contrib/async_fs.py], [contrib/hydra.py])

    The Zarr store, the fsspec file system and the configuration source for
    Hydra, over an interface for the storage client and the resolution of URLs.
    What zarr, fsspec and Hydra themselves do is a parameter. *)
From S2P Require Import Prelude PyDict PyPath Types Utils Json Url PathMapping Config Rclone Eviction Cache ConfigLoader ConfigProofs Listing Provider Shortcuts.

(** ** Definitions: the client *)
Class AdapterClient (W C : Type) := {
  ac_eq : EqDecision C;
  ac_resolve : string -> M W (C * string);
  ac_profile : C -> string;
  ac_read : C -> string -> M W bytes;
  ac_write : C -> string -> bytes -> option dict -> M W unit;
  ac_delete : C -> string -> bool -> M W unit;
  ac_info : C -> string -> M W ObjectMetadata;
  ac_list : C -> string -> bool -> M W listing;
  ac_copy : C -> string -> string -> M W unit;
  ac_download_file : C -> string -> string -> M W unit;
  ac_upload_file : C -> string -> string -> option dict -> M W unit;
}.
#[export] Existing Instance ac_eq.
(** The items of a listing that is read to its end *)
Definition exhaust {W} (l : listing) : M W (list ObjectMetadata) := match raised l with Some e => mraise e | None => mret (yielded l) end.

(** ** Definitions: [LazyZarrStore] *)
Module Zarr.
Section Store.
Context {W C : Type} `{!AdapterClient W C} (client : C) (prefix : string).
Definition getitem (k : string) : M W bytes := ac_read client (prefix +:+ k).
Definition setitem (k : string) (value : bytes) : M W unit := ac_write client (prefix +:+ k) value None.
Definition delitem (k : string) : M W unit := ac_delete client (prefix +:+ k) false.
Definition contains (k : string) : M W bool := mtry (fun _ => true) (ac_info client (prefix +:+ k) ;;; mret true) (fun _ => mret false).
Definition keys : M W (list string) := let! l := ac_list client prefix false in let! os := exhaust l in mret (map (fun o => removeprefix prefix (key o)) os).
Definition len : M W Z := let! ks := keys in mret (Z.of_nat (length ks)).
(** [getitems]: the results in the order in which the reads complete *)
Fixpoint collect_items (completed : list string) (results : gmap string bytes) : M W (gmap string bytes) :=
  match completed with
  | [] => mret results
  | k :: ks => let! v := getitem k in collect_items ks (<[ k := v ]> results)
  end.
Definition getitems (order : list string -> list string) (ks : list string) : M W (gmap string bytes) := collect_items (order ks) ∅.
End Store.
(** [open_consolidated] on a string, as the first argument or as [store]: the
    store that zarr is given, [None] when zarr opens the path itself *)
Definition open_consolidated {W C} `{!AdapterClient W C} (positional : option string) (store : option string) : M W (option (C * string)) :=
  match (match positional with Some p => Some p | None => store end) with
  | Some path =>
      if startswith path MSC_PROTOCOL then
        let! cp := ac_resolve path in
        match positional with Some _ => mret (Some cp) | None => mraise IndexError end
      else mret None
  | None => mret None
  end.
End Zarr.

(** ** Definitions: [MultiStorageAsyncFileSystem] *)
Module AsyncFs.
Section FileSystem.
Context {W C : Type} `{!AdapterClient W C} (unstrip_protocol : string -> string) (isoformat : Z -> string).
Definition resolve_path_and_storage_client (path : string) : M W (C * string) := ac_resolve (unstrip_protocol (lstrip slash path)).
Definition opt (o : option string) : json := match o with Some s => JStr s | None => JNull end.
Definition name_of (c : C) (o : ObjectMetadata) : string := path_join (ac_profile c) (key o).
Definition details (c : C) (o : ObjectMetadata) : dict :=
  [("name", JStr (name_of c o)); ("ETag", opt (etag o)); ("LastModified", JStr (isoformat (last_modified o))); ("size", JInt (content_length o));
   ("ContentType", opt (content_type o)); ("type", JStr (type o))].
Definition list_dir (path : string) : M W (C * list ObjectMetadata) :=
  let! cp := resolve_path_and_storage_client path in
  let dir_path := if bool_decide (cp.2 = "") || endswith cp.2 "/" then cp.2 else cp.2 +:+ "/" in
  let! l := ac_list cp.1 dir_path true in let! os := exhaust l in mret (cp.1, os).
Definition ls (path : string) (detail : bool) : M W (list dict + list string) :=
  let! r := list_dir path in
  mret (if detail then inl (map (details r.1) r.2) else inr (map (name_of r.1) r.2)).
Definition fs_info (path : string) : M W dict :=
  let! cp := resolve_path_and_storage_client path in let! m := ac_info cp.1 cp.2 in mret (details cp.1 m).
Definition rm_file (path : string) (recursive : bool) : M W unit :=
  let! cp := resolve_path_and_storage_client path in ac_delete cp.1 cp.2 recursive.
Definition cp_file (path1 path2 : string) : M W unit :=
  let! src := resolve_path_and_storage_client path1 in
  let! dest := resolve_path_and_storage_client path2 in
  if bool_decide (src.1 = dest.1) then ac_copy src.1 src.2 dest.2 else mraise AttributeError.
Definition get_file (rpath lpath : string) : M W unit :=
  let! cp := resolve_path_and_storage_client rpath in ac_download_file cp.1 cp.2 lpath.
Definition put_file (lpath rpath : string) (attributes : option dict) : M W unit :=
  let! cp := resolve_path_and_storage_client rpath in ac_upload_file cp.1 cp.2 lpath (Some (default [] attributes)).
Definition pipe_file (path : string) (value : bytes) (attributes : option dict) : M W unit :=
  let! cp := resolve_path_and_storage_client path in ac_write cp.1 cp.2 value (Some (default [] attributes)).
Definition cat_file (path : string) : M W bytes :=
  let! cp := resolve_path_and_storage_client path in ac_read cp.1 cp.2.
End FileSystem.
End AsyncFs.

(** ** Definitions: [MSCConfigSource] and [MSCSearchPathPlugin] *)
Module Hydra.
(** [s.find(t)]: the text up to the first [t], and the text from it on *)
Fixpoint find_str (t s : string) : option (string * string) :=
  if startswith s t then Some ("", s)
  else match s with
       | EmptyString => None
       | String a s' => match find_str t s' with Some (b, r) => Some (String a b, r) | None => None end
       end.
(** [__init__]: the base URL *)
Definition base_url (path : string) : string := match find_str "://" path with None => MSC_PROTOCOL +:+ path | Some _ => path end.
(** [_resolve_full_url] *)
Definition resolve_full_url (base config_path : string) : string :=
  if startswith config_path MSC_PROTOCOL then config_path
  else
    let config_path := match find_str ": " config_path with Some (group, r) => group +:+ "/" +:+ str_drop 2 r | None => config_path end in
    join_paths base config_path.
Section Source.
Context {W C : Type} `{!AdapterClient W C} (base : string) (normalize_file_name : string -> string) (is_file : string -> M W bool).
(** [available], [is_group] and [is_config] *)
Definition available : M W bool := mtry (fun _ => true) (ac_resolve base ;;; mret true) (fun _ => mret false).
Definition info_url (url : string) : M W ObjectMetadata := let! cp := ac_resolve url in ac_info cp.1 cp.2.
Definition is_group (config_path : string) : M W bool :=
  mtry (fun _ => true)
    (let! m := info_url (rstrip slash (resolve_full_url base config_path) +:+ "/") in mret (bool_decide (type m = "directory")))
    (fun _ => mret false).
Definition is_config (config_path : string) : M W bool :=
  let! group := is_group config_path in
  if group : bool then mret false
  else mtry (fun _ => true) (is_file (normalize_file_name (resolve_full_url base config_path))) (fun _ => mret false).
(** [load_config]: reading and parsing the file is [load] *)
Definition load_config {A} (load : string -> M W A) (config_path : string) : M W A :=
  mtry (fun _ => true) (load (normalize_file_name (resolve_full_url base config_path))) (fun _ => mraise ConfigLoadError).
(** One item of [list]: the name below the path *)
Definition child_name (path list_path k : string) : option string :=
  let relative :=
    if startswith k list_path then Some (str_drop (String.length list_path) k)
    else if negb (bool_decide (path = "")) && startswith k (path +:+ "/") then Some (str_drop (String.length path + 1) k)
    else None in
  match relative with
  | Some r =>
      if bool_decide (r = "") || endswith r "/" then None
      else let name := default "" (head (split slash r)) in if bool_decide (name = "") then None else Some name
  | None => None
  end.
(** [list]; [list_add_result] is Hydra's, which keeps groups or configurations.
    An exception ends the loop with the files that were added before it. *)
Fixpoint add_items (list_add_result : list string -> string -> string -> M W (list string)) (config_path path list_path : string)
    (os : list ObjectMetadata) (files : list string) : W -> list string * W :=
  fun w =>
  match os with
  | [] => (files, w)
  | o :: os' =>
      match child_name path list_path (key o) with
      | None => add_items list_add_result config_path path list_path os' files w
      | Some name =>
          match list_add_result files (if bool_decide (config_path = "") then name else join_paths config_path name) name w with
          | (Ok files', w') => add_items list_add_result config_path path list_path os' files' w'
          | (Err _, w') => (files, w')
          end
      end
  end.
Definition list_configs (list_add_result : list string -> string -> string -> M W (list string)) (config_path : string) : W -> list string * W :=
  fun w =>
  let '(files, w') :=
    match ac_resolve (resolve_full_url base config_path) w with
    | (Ok (c, path), w1) =>
        let list_path := if bool_decide (path = "") then "" else rstrip slash path +:+ "/" in
        match ac_list c list_path true w1 with
        | (Ok l, w2) => add_items list_add_result config_path path list_path (yielded l) [] w2
        | (Err _, w2) => ([], w2)
        end
    | (Err _, w1) => ([], w1)
    end in
  (sorted_str (remove_dups files), w').
End Source.
(** [manipulate_search_path]: an element is its provider and its path *)
Definition fix_element (e : string * option string) : string * option string :=
  match e.2 with
  | Some path =>
      if bool_decide (path = "") || startswith path MSC_PROTOCOL then e
      else match find_str "msc:/" path with
           | Some (_, msc_part) =>
               (e.1, Some (if startswith msc_part MSC_PROTOCOL then msc_part else MSC_PROTOCOL +:+ str_drop 5 msc_part))
           | None => e
           end
  | None => e
  end.
Definition is_msc (e : string * option string) : bool :=
  match e.2 with Some path => negb (bool_decide (path = "")) && startswith path MSC_PROTOCOL | None => false end.
Definition manipulate_search_path (elements : list (string * option string)) : list (string * option string) :=
  let l := map fix_element elements in
  if existsb is_msc l then l else l ++ [("msc-universal", Some MSC_PROTOCOL)].
End Hydra.

(** ** The Zarr store is a map *)
Section ZarrMap.
Context {W C : Type} `{!AdapterClient W C} (client : C) (contents : W -> gmap string bytes) (is_dir : W -> string -> bool).
(** What the client promises: a read returns the bytes of the object, and
    reading does not change the objects; [info] knows objects and directories;
    a listing of a directory yields the objects below it *)
Record adapter_laws : Prop := {
  al_read k w : exists w', contents w' = contents w /\
    ac_read client k w = (match contents w !! k with Some d => Ok d | None => Err FileNotFoundError end, w');
  al_write k d a w w' : ac_write client k d a w = (Ok tt, w') -> contents w' = <[ k := d ]> (contents w);
  al_delete k w w' : ac_delete client k false w = (Ok tt, w') -> contents w' = delete k (contents w);
  al_info k w : exists r w', ac_info client k w = (r, w') /\ contents w' = contents w /\
    ((exists m, r = Ok m) <-> is_Some (contents w !! k) \/ is_dir w k = true);
  al_list p w l w' : endswith p "/" = true -> ac_list client p false w = (Ok l, w') -> contents w' = contents w /\
    (raised l = None -> NoDup (map key (yielded l)) /\ forall k, k ∈ map key (yielded l) <-> is_Some (contents w !! k) /\ startswith k p = true);
}.
Context (laws : adapter_laws) (prefix : string).
(** The mapping that the store stands for *)
Definition item (w : W) (k : string) : option bytes := contents w !! (prefix +:+ k).
Lemma prefix_inj k k' : prefix +:+ k = prefix +:+ k' -> k = k'.
Proof. intros H. rewrite <- (str_drop_app prefix k), H. apply str_drop_app. Qed.
Lemma getitem_spec k w : exists w', contents w' = contents w /\
  Zarr.getitem client prefix k w = (match item w k with Some d => Ok d | None => Err FileNotFoundError end, w').
Proof using laws. apply (al_read laws). Qed.
Lemma setitem_spec k d w w' : Zarr.setitem client prefix k d w = (Ok tt, w') -> forall k', item w' k' = if decide (k' = k) then Some d else item w k'.
Proof using laws.
  intros H%(al_write laws) k'. unfold item. rewrite H. case_decide as E; [subst; by rewrite lookup_insert_eq|].
  rewrite lookup_insert_ne; [done|]. by intros ->%prefix_inj.
Qed.
Lemma delitem_spec k w w' : Zarr.delitem client prefix k w = (Ok tt, w') -> forall k', item w' k' = if decide (k' = k) then None else item w k'.
Proof using laws.
  intros H%(al_delete laws) k'. unfold item. rewrite H. case_decide as E; [subst; by rewrite lookup_delete_eq|].
  rewrite lookup_delete_ne; [done|]. by intros ->%prefix_inj.
Qed.
Lemma zarr_contains_spec k w : exists b w', Zarr.contains client prefix k w = (Ok b, w') /\ contents w' = contents w /\
  (b = true <-> is_Some (item w k) \/ is_dir w (prefix +:+ k) = true).
Proof using laws.
  destruct (al_info laws (prefix +:+ k) w) as (r & w' & E & Hc & Hr). unfold Zarr.contains, mtry, mbind. rewrite E.
  destruct r as [m|e]; cbn.
  - exists true, w'. split_and!; [done|done|]. split; [|done]. intros _. apply Hr. by exists m.
  - exists false, w'. split_and!; [done|done|]. split; [done|]. by intros [m Hm]%Hr.
Qed.
Lemma keys_spec w ks w' :
  endswith prefix "/" = true -> Zarr.keys client prefix w = (Ok ks, w') -> contents w' = contents w /\ NoDup ks /\ forall k, k ∈ ks <-> is_Some (item w k).
Proof using laws.
  intros Hp. unfold Zarr.keys, mbind. destruct (ac_list client prefix false w) as [[l|e] w1] eqn:El; [|done].
  destruct (al_list laws _ _ _ _ Hp El) as [Hc Hl]. unfold exhaust. destruct (raised l); [done|]. destruct (Hl eq_refl) as [Hnd Hin].
  intros [= <- <-]. assert (forall o, o ∈ yielded l -> key o = prefix +:+ removeprefix prefix (key o)) as Hpre.
  { intros o Ho. assert (key o ∈ map key (yielded l)) as Hk by (apply list_elem_of_fmap; by exists o). apply Hin in Hk as [_ Hk].
    unfold removeprefix. rewrite Hk. apply startswith_spec in Hk as [t ->]. by rewrite str_drop_app. }
  assert (map key (yielded l) = map (fun k => prefix +:+ k) (map (fun o => removeprefix prefix (key o)) (yielded l))) as Emap.
  { rewrite map_map. apply map_ext_in. intros o Ho%list_elem_of_In. by apply Hpre. }
  rewrite Emap in Hnd, Hin. split_and!; [done|by eapply NoDup_fmap_1|]. intros k. unfold item. split.
  - intros Hk. apply (Hin (prefix +:+ k)). apply list_elem_of_fmap. by exists k.
  - intros Hk. assert (prefix +:+ k ∈ map (fun k => prefix +:+ k) (map (fun o => removeprefix prefix (key o)) (yielded l))) as Hm.
    { apply Hin. split; [done|]. apply startswith_app. }
    apply list_elem_of_fmap in Hm as (k' & E & Hk'). by apply prefix_inj in E as ->.
Qed.
(** The reads of [getitems] in any order *)
Lemma collect_items_spec ks results w r w' :
  Zarr.collect_items client prefix ks results w = (r, w') -> contents w' = contents w /\
  match r with
  | Ok m => (forall k, k ∈ ks -> is_Some (item w k)) /\ forall k, m !! k = if decide (k ∈ ks) then item w k else results !! k
  | Err _ => exists k, k ∈ ks /\ item w k = None
  end.
Proof using laws.
  revert results w. induction ks as [|k ks IH]; intros results w; cbn [Zarr.collect_items].
  { intros [= <- <-]. split_and!; [done| |done]. by intros k ?%elem_of_nil. }
  unfold mbind. destruct (getitem_spec k w) as (w1 & Hc & ->). destruct (item w k) as [d|] eqn:Ed.
  - intros H. destruct (IH _ _ H) as [Hc' Hr]. assert (forall k', item w1 k' = item w k') as Hi by (intros k'; unfold item; by rewrite Hc).
    split; [congruence|]. destruct r as [m|e].
    + destruct Hr as [Hall Hr]. split.
      { intros k' [->|Hin]%elem_of_cons; [by rewrite Ed|]. rewrite <- Hi. by apply Hall. }
      intros k'. rewrite Hr, Hi. destruct (decide (k' ∈ ks)) as [Hin|Hin].
      { rewrite decide_True by (by right). done. }
      destruct (decide (k' = k)) as [->|Hne]; [rewrite decide_True by (by left); by rewrite lookup_insert_eq|].
      rewrite decide_False by (by intros [?|?]%elem_of_cons). by rewrite lookup_insert_ne.
    + destruct Hr as (k' & Hin & Hn). exists k'. rewrite Hi in Hn. split; [by right|done].
  - intros [= <- <-]. split; [done|]. exists k. split; [left|done].
Qed.
End ZarrMap.

(** A key that is not there raises what the client raises and not the [KeyError]
    of a mapping, and so does a batch of which one key is not there. *)
Theorem zarr_missing_key {W C : Type} `{!AdapterClient W C} (client : C) (contents : W -> gmap string bytes) (is_dir : W -> string -> bool)
    (prefix : string) (order : list string -> list string) (ks : list string) (k : string) (w : W)
    (Hlaws : adapter_laws client contents is_dir) (Horder : order ks ≡ₚ ks) (Hk : k ∈ ks) (Hmissing : item contents prefix w k = None) :
  (Zarr.getitem client prefix k w).1 = Err FileNotFoundError /\ exists e, (Zarr.getitems client prefix order ks w).1 = Err e.
Proof.
  split.
  - destruct (getitem_spec client contents is_dir Hlaws prefix k w) as (w' & _ & ->). by rewrite Hmissing.
  - unfold Zarr.getitems. destruct (Zarr.collect_items _ _ _ _ _) as [[m|e] w'] eqn:E; [|by exists e].
    destruct (collect_items_spec client contents is_dir Hlaws prefix _ _ _ _ _ E) as [_ [Hall _]].
    assert (k ∈ order ks) as Hin by by rewrite Horder. specialize (Hall k Hin). rewrite Hmissing in Hall. by destruct Hall.
Qed.

(** ** A client in memory *)
#[export] Instance memory_client : AdapterClient (gmap string bytes) string := {
  ac_eq := _;
  ac_resolve url w := (resolve_msc_url url, w);
  ac_profile c := c;
  ac_read _ k w := (match w !! k with Some d => Ok d | None => Err FileNotFoundError end, w);
  ac_write _ k d _ w := (Ok tt, <[ k := d ]> w);
  ac_delete _ k _ w := (Ok tt, delete k w);
  ac_info _ k w := (match w !! k with Some d => Ok (new_ObjectMetadata k (Z.of_nat (length d)) 0) | None => Err FileNotFoundError end, w);
  ac_list _ p _ w := (Ok (mkListing (map (fun kv => new_ObjectMetadata kv.1 (Z.of_nat (length kv.2)) 0) (filter (fun kv => startswith kv.1 p = true) (map_to_list w))) None), w);
  ac_copy _ k k' w := match w !! k with Some d => (Ok tt, <[ k' := d ]> w) | None => (Err FileNotFoundError, w) end;
  ac_download_file _ _ _ := mret tt;
  ac_upload_file _ _ _ _ := mret tt;
}.
Lemma memory_laws c : adapter_laws (W := gmap string bytes) (C := string) c id (fun _ _ => false).
Proof.
  split.
  - intros k w. by exists w.
  - by intros k d a w w' [= <-].
  - by intros k w w' [= <-].
  - intros k w. eexists _, w. split; [reflexivity|]. split; [done|]. cbn. unfold id. destruct (w !! k) as [d|]; split.
    + intros _. left. by exists d.
    + intros _. by eexists.
    + by intros [m [=]].
    + by intros [[d [=]]|[=]].
  - intros p w l w' _ [= <- <-]. split; [done|]. cbn. intros _. rewrite map_map. cbn.
    assert (forall l : list (string * bytes), NoDup l.*1 -> NoDup (map fst (filter (fun kv => startswith kv.1 p = true) l))) as Hnd.
    { intros l H. eapply sublist_NoDup; [exact H|]. apply fmap_sublist. induction l as [|x l IH]; [constructor|].
      apply NoDup_cons in H as [_ H]. rewrite filter_cons. case_decide; [by constructor; apply IH|]. by constructor; apply IH. }
    split; [apply Hnd, NoDup_fst_map_to_list|]. intros k. change (map fst ?x) with (x.*1). rewrite list_elem_of_fmap. split.
    + intros ([k' d] & -> & Hin%list_elem_of_filter). cbn in *. destruct Hin as [Hs Hin%elem_of_map_to_list]. split; [by exists d|done].
    + intros [[d Hd] Hs]. exists (k, d). split; [done|]. apply list_elem_of_filter. split; [done|]. by apply elem_of_map_to_list.
Qed.
(** ** The documented URL of a store *)
(** The store of a URL without a slash at its end looks for its metadata beside
    the directory and not in it. *)
Theorem store_url_needs_slash :
  let w := {["abc.zarr/.zmetadata" := [Byte.x01]]} : gmap string bytes in
  (Zarr.open_consolidated (Some "msc://p/abc.zarr") None w).1 = Ok (Some ("p", "abc.zarr")) /\
  (Zarr.getitem (W := gmap string bytes) "p" "abc.zarr" ".zmetadata" w).1 = Err FileNotFoundError /\
  (Zarr.open_consolidated (Some "msc://p/abc.zarr/") None w).1 = Ok (Some ("p", "abc.zarr/")) /\
  (Zarr.getitem (W := gmap string bytes) "p" "abc.zarr/" ".zmetadata" w).1 = Ok [Byte.x01].
Proof. vm_compute. done. Qed.
(** A store given as the keyword argument is never opened. *)
Theorem store_keyword_raises {W C : Type} `{!AdapterClient W C} (url : string) (w w' : W) (cp : C * string)
    (Hmsc : startswith url MSC_PROTOCOL = true) (Hresolve : ac_resolve url w = (Ok cp, w')) :
  Zarr.open_consolidated None (Some url) w = (Err IndexError, w').
Proof. unfold Zarr.open_consolidated. rewrite Hmsc. unfold mbind. by rewrite Hresolve. Qed.

(** ** Names of the fsspec file system *)
(** [unstrip_protocol] of fsspec *)
Definition unstrip (path : string) : string := if startswith path MSC_PROTOCOL then path else MSC_PROTOCOL +:+ path.
Lemma name_unstripped profile k :
  profile <> "" -> all_chars location_char profile = true -> no_double ("/" +:+ k) = true ->
  unstrip (lstrip slash (path_join profile k)) = join_paths (MSC_PROTOCOL +:+ profile) k.
Proof.
  intros Hne Hp Hk. assert (has_char slash profile = false) as Hsl.
  { apply negb_true_iff. rewrite <- all_chars_has_char. eapply all_chars_mono; [|exact Hp].
    intros [[] [] [] [] [] [] [] []] H; vm_compute in H |- *; done. }
  assert (startswith k "/" = false) as Hk1. { destruct k as [|b k]; [done|]. cbn in Hk |- *. by destruct (decide ("/"%char = b)). }
  rewrite join_paths_url by done. unfold path_join. change (isabs k) with (startswith k "/"). rewrite Hk1.
  rewrite bool_decide_false by done. assert (ends_slash profile = false) as ->.
  { by apply (ends_slash_app ""). }
  cbn [orb]. rewrite lstrip_id.
  2: { destruct profile as [|a profile]; [done|]. cbn in Hsl |- *. destruct (decide (a = slash)); [done|]. by rewrite decide_False by congruence. }
  unfold unstrip. destruct (startswith (profile +:+ "/" +:+ k) MSC_PROTOCOL) eqn:E; [exfalso|done].
  apply startswith_spec in E as [t E].
  do 4 (destruct profile as [|? profile]; [done|cbn in E; injection E as -> E]).
  destruct profile as [|a profile]; cbn in E; [injection E as ->; by cbn in Hk1|]. injection E as -> E. by cbn in Hsl.
Qed.
(** The name under which an object is listed leads back to its client and its
    key, with or without a slash before it. *)
Theorem listed_name_resolves (profile : string) (o : ObjectMetadata) (lead : bool)
    (Hne : profile <> "") (Hprofile : all_chars location_char profile = true) (Hkey : url_key_ok (key o) = true) :
  (AsyncFs.resolve_path_and_storage_client (W := gmap string bytes) unstrip ((if lead then "/" else "") +:+ AsyncFs.name_of (W := gmap string bytes) profile o) ∅).1 =
  Ok (profile, key o).
Proof.
  unfold url_key_ok in Hkey. pose proof Hkey as Hkey'. apply andb_true_iff in Hkey' as [_ Hnd].
  unfold AsyncFs.resolve_path_and_storage_client, AsyncFs.name_of. cbn [ac_resolve ac_profile memory_client fst].
  replace (lstrip slash ((if lead then "/" else "") +:+ path_join profile (key o))) with (lstrip slash (path_join profile (key o))) by (by destruct lead).
  rewrite name_unstripped by done. by apply resolve_listed_url.
Qed.
Lemma listed_name_resolves_witness :
  (AsyncFs.resolve_path_and_storage_client (W := gmap string bytes) unstrip ("/" +:+ AsyncFs.name_of (W := gmap string bytes) "s3" (new_ObjectMetadata "d/a?b" 1 0)) ∅).1 =
  Ok ("s3", "d/a?b").
Proof. apply (listed_name_resolves "s3" (new_ObjectMetadata "d/a?b" 1 0) true); [discriminate|reflexivity|reflexivity]. Defined.

(** ** The search path of Hydra *)
Lemma fix_element_msc e : Hydra.fix_element (Hydra.fix_element e) = Hydra.fix_element e.
Proof.
  unfold Hydra.fix_element at 2 3. destruct e as [p [path|]]; cbn [fst snd]; [|done].
  destruct (bool_decide (path = "") || startswith path MSC_PROTOCOL) eqn:E; [unfold Hydra.fix_element; cbn [fst snd]; by rewrite E|].
  destruct (Hydra.find_str "msc:/" path) as [[b r]|] eqn:F; [|unfold Hydra.fix_element; cbn [fst snd]; by rewrite E, F].
  unfold Hydra.fix_element. cbn [fst snd].
  assert (startswith (if startswith r MSC_PROTOCOL then r else MSC_PROTOCOL +:+ str_drop 5 r) MSC_PROTOCOL = true) as ->; [|by rewrite orb_true_r].
  destruct (startswith r MSC_PROTOCOL) eqn:G; [done|apply startswith_app].
Qed.
(** The plugin ends with a source for MSC URLs, and running it again changes
    nothing. *)
Theorem search_path_has_source (elements : list (string * option string)) :
  existsb Hydra.is_msc (Hydra.manipulate_search_path elements) = true /\
  Hydra.manipulate_search_path (Hydra.manipulate_search_path elements) = Hydra.manipulate_search_path elements.
Proof.
  assert (forall l, map Hydra.fix_element (map Hydra.fix_element l) = map Hydra.fix_element l) as Hidem.
  { intros l. rewrite map_map. apply map_ext. intros e. apply fix_element_msc. }
  unfold Hydra.manipulate_search_path at 1 3 4. destruct (existsb Hydra.is_msc (map Hydra.fix_element elements)) eqn:E.
  - split; [done|]. unfold Hydra.manipulate_search_path. by rewrite Hidem, E.
  - split; [by rewrite existsb_app, E|]. unfold Hydra.manipulate_search_path. rewrite map_app, Hidem.
    change (map Hydra.fix_element [("msc-universal", Some MSC_PROTOCOL)]) with [("msc-universal", Some MSC_PROTOCOL)].
    by rewrite existsb_app, E.
Qed.
(** A URL that was taken for a relative path is restored. *)
Theorem mangled_url_restored (provider cwd rest : string) (Hcwd : Hydra.find_str "msc:/" (cwd +:+ "/msc:/" +:+ rest) = Some (cwd +:+ "/", "msc:/" +:+ rest))
    (Hrest : startswith rest "/" = false) (Hplain : startswith (cwd +:+ "/msc:/" +:+ rest) MSC_PROTOCOL = false) :
  Hydra.fix_element (provider, Some (cwd +:+ "/msc:/" +:+ rest)) = (provider, Some (MSC_PROTOCOL +:+ rest)).
Proof.
  unfold Hydra.fix_element. cbn [fst snd]. rewrite Hplain, Hcwd. rewrite bool_decide_false by (by destruct cwd). cbn [orb].
  assert (startswith ("msc:/" +:+ rest) MSC_PROTOCOL = false) as ->; [|done].
  unfold MSC_PROTOCOL. cbn. destruct rest as [|a r]; [done|]. cbn in Hrest |- *. done.
Qed.
Lemma mangled_url_restored_witness : Hydra.fix_element ("main", Some "/home/u/msc:/p/conf") = ("main", Some "msc://p/conf").
Proof. apply (mangled_url_restored "main" "/home/u" "p/conf"); reflexivity. Defined.
