(* ===== verification/Pathlib.v ===== *)
(** * Paths ([multistorageclient/pathlib.py])

    [MultiStoragePath] over the shortcuts and a client, and the part of Python's
    [PurePosixPath] that it uses.  The operations on local files (the reserved
    POSIX profile) are calls of [pathlib.Path], an interface here. *)
From S2P Require Import Prelude PyDict PyPath Types Utils Json Url PathMapping Config Shortcuts Eviction.
From Stdlib Require Import Floats.SpecFloat.

(** ** [PurePosixPath] *)
(** The root is empty, one slash, or two *)
Record PurePosixPath := mkPure { root : string; parts : list string }.
#[export] Instance PurePosixPath_eq_dec : EqDecision PurePosixPath.
Proof. solve_decision. Defined.

Definition proper_part (c : string) : bool := negb (bool_decide (c = "")) && negb (bool_decide (c = ".")).
Definition pure_path (s : string) : PurePosixPath :=
  mkPure (initial_slashes s) (List.filter proper_part (split slash s)).
Definition path_str (p : PurePosixPath) : string :=
  if bool_decide (p = mkPure "" []) then "." else root p +:+ join "/" (parts p).
(** [p.joinpath] *)
Definition joinpath (p : PurePosixPath) (segments : list string) : PurePosixPath :=
  pure_path (fold_left path_join segments (path_str p)).
Definition name (p : PurePosixPath) : string := default "" (last (parts p)).
Definition parent (p : PurePosixPath) : PurePosixPath := mkPure (root p) (take (length (parts p) - 1) (parts p)).
(** [p.parents]: all shorter paths, the longest first *)
Definition parents (p : PurePosixPath) : list PurePosixPath :=
  map (fun n => mkPure (root p) (take n (parts p))) (rev (seq 0 (length (parts p)))).
(** [p.suffix]: from the last dot on, unless it is the first or the last character *)
Definition suffix (p : PurePosixPath) : string :=
  match rsplit_dot (name p) with
  | Some (stem, ext) => if bool_decide (stem = "") || bool_decide (ext = ".") then "" else ext
  | None => ""
  end.
Definition stem (p : PurePosixPath) : string := str_take (String.length (name p) - String.length (suffix p)) (name p).
Definition pure_with_name (p : PurePosixPath) (n : string) : res PurePosixPath :=
  if bool_decide (name p = "") then Err ValueError
  else if bool_decide (n = "") || has_char slash n || bool_decide (n = ".") then Err ValueError
  else Ok (mkPure (root p) (take (length (parts p) - 1) (parts p) ++ [n])).
Definition pure_with_suffix (p : PurePosixPath) (s : string) : res PurePosixPath :=
  if has_char slash s || negb (bool_decide (s = "")) && negb (startswith s ".") || bool_decide (s = ".") then Err ValueError
  else pure_with_name p (stem p +:+ s).
Definition pure_is_relative_to (p q : PurePosixPath) : bool := bool_decide (q = p) || bool_decide (q ∈ parents p).
Definition pure_relative_to (p q : PurePosixPath) : res PurePosixPath :=
  if pure_is_relative_to p q then Ok (mkPure "" (drop (length (parts q)) (parts p))) else Err ValueError.

(** ** [StatResult] *)
Record StatResult := mkStat { st_mode : Z; st_size : Z; st_mtime : spec_float; st_mtime_ns : Z }.
(** [int(f)] of a float that is not negative *)
Definition float_trunc (f : spec_float) : Z :=
  match f with S754_finite _ m e => Z.shiftl (Zpos m) e | _ => 0%Z end.
(** [last_modified.timestamp()]; [last_modified] counts microseconds *)
Definition timestamp (microseconds : Z) : spec_float := fdiv (float_of_Z microseconds) (float_of_Z 1000000).
Definition stat_result (m : ObjectMetadata) : StatResult :=
  let mtime := timestamp (last_modified m) in
  mkStat (if bool_decide (type m = "directory") then Z.lor 16384 493 else Z.lor 32768 420) (content_length m) mtime
    (float_trunc (fmul mtime (float_of_Z 1000000000))).

(** ** [MultiStoragePath] *)
(** The methods of a client, and those of [pathlib.Path] on local files *)
Class PathClient (C W : Type) := {
  pc_profile : C -> string;
  pc_info : C -> string -> bool -> M W ObjectMetadata;
  pc_read : C -> string -> M W bytes;
  pc_write : C -> string -> bytes -> M W unit;
  pc_copy : C -> string -> string -> M W unit;
  pc_delete : C -> string -> M W unit;
  pc_list : C -> string -> M W (list ObjectMetadata);
  pc_glob : C -> string -> M W (list string);
}.
Class LocalPaths (W : Type) := {
  lp_stat : string -> M W StatResult;
  lp_lstat : string -> M W StatResult;
  lp_resolve : string -> bool -> M W string;
  lp_samefile : string -> string -> M W bool;
  lp_exists : string -> M W bool;
  lp_is_file : string -> M W bool;
  lp_is_dir : string -> M W bool;
  lp_iterdir : string -> M W (list string);
  lp_glob : string -> string -> M W (list string);
  lp_touch : string -> bool -> M W unit;
  lp_mkdir : string -> bool -> bool -> M W unit;
  lp_rename : string -> string -> M W unit;
  lp_unlink : string -> bool -> M W unit;
}.

Section Paths.
Context {W C : Type} `{!PathClient C W, !LocalPaths W}.
Context (new_client : string -> M W C) (read_mapping : path_mapping) (realpath : string -> string).
Context (pid : Z) (cache_key : option string).
Abbreviation state := (shortcuts W C).

Record MultiStoragePath := mkPath { storage_client : C; internal_path : PurePosixPath; raw_path : string }.
Definition profile_of (p : MultiStoragePath) : string := pc_profile (storage_client p).
Definition is_default_profile (p : MultiStoragePath) : bool := bool_decide (profile_of p = RESERVED_POSIX_PROFILE_NAME).

(** Effects of a client or of the operating system *)
Definition outside {A} (m : M W A) : M state A := fun s =>
  let '(r, w) := m (sc_world s) in (r, mkShortcuts (client_cache s) (mapping_cache s) (process_id s) w).

(** [__init__] *)
Definition new_path (path : string) : M state MultiStoragePath :=
  let! x := resolve_storage_client new_client read_mapping realpath pid cache_key path in
  let p := pure_path x.2 in
  mret (mkPath x.1 (if bool_decide (pc_profile x.1 = RESERVED_POSIX_PROFILE_NAME) then joinpath (mkPure "/" []) [path_str p] else p) path).
(** [str] of a path with this client and internal path *)
Definition url_of (profile : string) (p : PurePosixPath) : string :=
  if bool_decide (profile = RESERVED_POSIX_PROFILE_NAME) then path_str p else join_paths (MSC_PROTOCOL +:+ profile) (path_str p).
Definition str_of_path (p : MultiStoragePath) : string := url_of (profile_of p) (internal_path p).

(** [__eq__] and [__lt__]; [PurePosixPath] orders by root and parts *)
Definition path_eqb (p q : MultiStoragePath) : bool :=
  bool_decide (profile_of p = profile_of q) && bool_decide (internal_path p = internal_path q).
Fixpoint parts_ltb (a b : list string) : bool :=
  match a, b with
  | _, [] => false
  | [], _ :: _ => true
  | x :: a', y :: b' => str_ltb x y || bool_decide (x = y) && parts_ltb a' b'
  end.
Definition pure_key (p : PurePosixPath) : list string := if bool_decide (root p = "") then parts p else root p :: parts p.
Definition path_ltb (p q : MultiStoragePath) : bool :=
  str_ltb (profile_of p) (profile_of q) ||
  bool_decide (profile_of p = profile_of q) && parts_ltb (pure_key (internal_path p)) (pure_key (internal_path q)).

(** A new path with another internal path and the same profile *)
Definition derive (p : MultiStoragePath) (q : PurePosixPath) : M state MultiStoragePath := new_path (url_of (profile_of p) q).
Definition with_segments (p : MultiStoragePath) (segments : list string) : M state MultiStoragePath :=
  derive p (joinpath (internal_path p) segments).
(** [p / key] and [key / p] *)
Definition truediv (p : MultiStoragePath) (key : string) : M state MultiStoragePath := with_segments p [key].
Definition rtruediv (p : MultiStoragePath) (key : string) : M state MultiStoragePath := with_segments p [key; str_of_path p].
Definition path_parent (p : MultiStoragePath) : M state MultiStoragePath := derive p (parent (internal_path p)).
Fixpoint derive_all (p : MultiStoragePath) (qs : list PurePosixPath) : M state (list MultiStoragePath) :=
  match qs with
  | [] => mret []
  | q :: qs' => let! x := derive p q in let! xs := derive_all p qs' in mret (x :: xs)
  end.
Definition path_parents (p : MultiStoragePath) : M state (list MultiStoragePath) := derive_all p (parents (internal_path p)).
Definition with_name (p : MultiStoragePath) (n : string) : M state MultiStoragePath :=
  let! q := mlift (pure_with_name (internal_path p) n) in derive p q.
Definition with_stem (p : MultiStoragePath) (s : string) : M state MultiStoragePath :=
  let! q := mlift (pure_with_name (internal_path p) (s +:+ suffix (internal_path p))) in derive p q.
Definition with_suffix (p : MultiStoragePath) (s : string) : M state MultiStoragePath :=
  let! q := mlift (pure_with_suffix (internal_path p) s) in derive p q.
Definition is_relative_to (p q : MultiStoragePath) : bool := pure_is_relative_to (internal_path p) (internal_path q).
Definition relative_to (p q : MultiStoragePath) : res PurePosixPath :=
  if negb (bool_decide (profile_of p = profile_of q)) then Err ValueError
  else pure_relative_to (internal_path p) (internal_path q).
(** [__getstate__] and [__setstate__] *)
Definition path_getstate (p : MultiStoragePath) : string * PurePosixPath := (raw_path p, internal_path p).
Definition path_setstate (st : string * PurePosixPath) : M state MultiStoragePath :=
  let! x := resolve_storage_client new_client read_mapping realpath pid cache_key st.1 in mret (mkPath x.1 st.2 st.1).

(** *** Querying *)
Definition key_of (p : MultiStoragePath) : string := path_str (internal_path p).
Definition stat (p : MultiStoragePath) : M state StatResult :=
  if is_default_profile p then outside (lp_stat (key_of p))
  else let! m := outside (pc_info (storage_client p) (key_of p) true) in mret (stat_result m).
Definition lstat (p : MultiStoragePath) : M state StatResult :=
  if is_default_profile p then outside (lp_lstat (key_of p))
  else let! m := outside (pc_info (storage_client p) (key_of p) true) in mret (stat_result m).
Definition path_resolve (p : MultiStoragePath) (strict : bool) : M state MultiStoragePath :=
  if is_default_profile p then let! r := outside (lp_resolve (key_of p) strict) in new_path r
  else derive p (internal_path p).
Definition samefile (p other : MultiStoragePath) : M state bool :=
  if is_default_profile p then outside (lp_samefile (key_of p) (str_of_path other)) else mret (path_eqb p other).
Definition is_FileNotFoundError (e : exc) : bool := match e with FileNotFoundError => true | _ => false end.
Definition exists_path (p : MultiStoragePath) : M state bool :=
  if is_default_profile p then outside (lp_exists (key_of p))
  else mtry is_FileNotFoundError (let! _ := outside (pc_info (storage_client p) (key_of p) true) in mret true) (fun _ => mret false).
Definition path_is_file (p : MultiStoragePath) (strict : bool) : M state bool :=
  if is_default_profile p then outside (lp_is_file (key_of p))
  else if ends_slash (key_of p) then mret false
  else mtry (fun _ => true) (let! m := outside (pc_info (storage_client p) (key_of p) strict) in mret (bool_decide (type m = "file")))
         (fun _ => mret false).
Definition directory_key (k : string) : string := if ends_slash k then k else k +:+ "/".
Definition path_is_dir (p : MultiStoragePath) (strict : bool) : M state bool :=
  if is_default_profile p then outside (lp_is_dir (key_of p))
  else mtry (fun _ => true)
         (let! m := outside (pc_info (storage_client p) (directory_key (key_of p)) strict) in mret (bool_decide (type m = "directory")))
         (fun _ => mret false).

(** *** Reading and writing *)
Definition read_bytes (p : MultiStoragePath) : M state bytes := outside (pc_read (storage_client p) (key_of p)).
Definition write_bytes (p : MultiStoragePath) (data : bytes) : M state unit := outside (pc_write (storage_client p) (key_of p) data).
(** The codecs are those of Python; [errors] is ignored as in the code *)
Definition read_text (decode : string -> bytes -> res string) (p : MultiStoragePath) (encoding : string) : M state string :=
  let! b := read_bytes p in mlift (decode encoding b).
Definition write_text (encode : string -> string -> res bytes) (p : MultiStoragePath) (data encoding : string) : M state unit :=
  let! b := mlift (encode encoding data) in write_bytes p b.
Fixpoint new_paths (l : list string) : M state (list MultiStoragePath) :=
  match l with
  | [] => mret []
  | x :: l' => let! p := new_path x in let! ps := new_paths l' in mret (p :: ps)
  end.
Definition iterdir (p : MultiStoragePath) : M state (list MultiStoragePath) :=
  let! names := if is_default_profile p then outside (lp_iterdir (key_of p))
                else let! os := outside (pc_list (storage_client p) (directory_key (key_of p))) in mret (map key os) in
  new_paths names.
Definition path_glob (p : MultiStoragePath) (pattern : string) : M state (list MultiStoragePath) :=
  let! names := if is_default_profile p then outside (lp_glob (key_of p) pattern)
                else outside (pc_glob (storage_client p) (path_str (joinpath (internal_path p) [pattern]))) in
  new_paths names.
Definition path_rglob (p : MultiStoragePath) (pattern : string) : M state (list MultiStoragePath) := path_glob p ("**/" +:+ pattern).
Definition touch (p : MultiStoragePath) (exist_ok : bool) : M state unit :=
  if is_default_profile p then outside (lp_touch (key_of p) exist_ok)
  else let! e := exists_path p in if e then mret tt else outside (pc_write (storage_client p) (key_of p) []).
Definition mkdir (p : MultiStoragePath) (make_parents exist_ok : bool) : M state unit :=
  if is_default_profile p then outside (lp_mkdir (key_of p) make_parents exist_ok) else mret tt.

(** *** Renaming and deleting *)
Definition rename (p target : MultiStoragePath) : M state MultiStoragePath :=
  (if is_default_profile p then outside (lp_rename (key_of p) (key_of target))
   else outside (pc_copy (storage_client p) (key_of p) (key_of target)) ;;; outside (pc_delete (storage_client p) (key_of p))) ;;;
  mret target.
Definition unlink (p : MultiStoragePath) (missing_ok : bool) : M state unit :=
  if is_default_profile p then outside (lp_unlink (key_of p) missing_ok)
  else mtry (fun e => is_FileNotFoundError e && missing_ok) (outside (pc_delete (storage_client p) (key_of p))) (fun _ => mret tt).
(** [is_reserved], [expanduser], [readlink], [is_symlink], [is_mount],
    [is_socket], [is_fifo], [is_block_device], [is_char_device], [walk],
    [symlink_to], [replace], [rmdir], [owner], [group], [chmod] and [lchmod] *)
Definition local_only {A} (op : M W A) (p : MultiStoragePath) : M state A :=
  if is_default_profile p then outside op else mraise NotImplementedError.
End Paths.

(** ** Lemmas on paths *)
(** A component that survives the way through a URL *)
Definition good_part (c : string) : bool :=
  proper_part c && negb (has_char slash c) && all_chars line_char c && negb (has_char "#" c).
Abbreviation good_parts cs := (Forall (fun c => good_part c = true) cs).

Lemma good_part_spec c :
  good_part c = true -> c <> "" /\ c <> "." /\ has_char slash c = false /\ all_chars line_char c = true /\ has_char "#" c = false.
Proof.
  unfold good_part, proper_part. rewrite !andb_true_iff, !negb_true_iff, !bool_decide_eq_false. tauto.
Qed.
Lemma join_last cs c : exists a, join "/" (cs ++ [c]) = a +:+ c.
Proof.
  destruct cs as [|b cs]; [by exists ""|]. exists (join "/" (b :: cs) +:+ "/"). by rewrite join_app_slash, str_app_assoc.
Qed.
Lemma good_join_relative cs : cs <> [] -> good_parts cs -> startswith (join "/" cs) "/" = false.
Proof.
  intros Hne Hg. destruct cs as [|c cs]; [done|]. inversion Hg as [|? ? Hc _]; subst.
  apply good_part_spec in Hc as (Hc & _ & Hs & _). destruct c as [|a c]; [done|].
  assert (a <> slash) as Ha. { intros ->. cbn in Hs. by rewrite decide_True in Hs. }
  destruct cs; cbn; rewrite decide_False; done.
Qed.
Lemma good_join_ends cs : cs <> [] -> good_parts cs -> ends_slash (join "/" cs) = false /\ join "/" cs <> "".
Proof.
  intros Hne Hg. destruct cs as [|c cs] using rev_ind; [done|]. clear IHcs. apply Forall_app in Hg as [_ Hc].
  inversion Hc as [|? ? Hc' _]; subst. apply good_part_spec in Hc' as (Hc1 & _ & Hs & _).
  destruct (join_last cs c) as [a ->]. split; [by apply ends_slash_app|]. destruct a; [done|done].
Qed.
Lemma filter_proper cs : good_parts cs -> List.filter proper_part cs = cs.
Proof.
  induction 1 as [|c cs Hc _ IH]; [done|]. cbn. unfold good_part in Hc. destruct (proper_part c); [by rewrite IH|done].
Qed.
Lemma split_good cs : cs <> [] -> good_parts cs -> split slash (join "/" cs) = cs.
Proof.
  intros Hne Hg. apply split_join; [done|]. eapply Forall_impl; [exact Hg|]. intros c Hc. by apply good_part_spec in Hc as (_ & _ & ? & _).
Qed.
Lemma pure_path_join cs : cs <> [] -> good_parts cs -> pure_path (join "/" cs) = mkPure "" cs.
Proof.
  intros Hne Hg. unfold pure_path. rewrite initial_slashes_rel by by apply good_join_relative.
  by rewrite split_good, filter_proper.
Qed.
Lemma path_str_join cs : path_str (mkPure "" cs) = match cs with [] => "." | _ => join "/" cs end.
Proof. unfold path_str. case_bool_decide as H; [by injection H as ->|]. by destruct cs. Qed.
Lemma pure_path_str cs : good_parts cs -> pure_path (path_str (mkPure "" cs)) = mkPure "" cs.
Proof. intros Hg. rewrite path_str_join. destruct cs; [done|]. by apply pure_path_join. Qed.
Lemma joinpath_parts ps cs : good_parts ps -> good_parts cs -> cs <> [] -> joinpath (mkPure "" ps) [join "/" cs] = mkPure "" (ps ++ cs).
Proof.
  intros Hp Hc Hne. unfold joinpath. cbn [fold_left]. rewrite path_str_join. unfold path_join.
  change (isabs (join "/" cs)) with (startswith (join "/" cs) "/"). rewrite (good_join_relative cs Hne Hc).
  destruct ps as [|p ps].
  - cbn [app]. change (bool_decide ("." = "") || ends_slash ".") with false. cbv iota. unfold pure_path.
    change ("." +:+ "/" +:+ join "/" cs) with (String "." (String "/" (join "/" cs))).
    assert (split slash (String "." (String "/" (join "/" cs))) = "." :: cs) as ->.
    { change (String "." (String "/" (join "/" cs))) with ("." +:+ String slash (join "/" cs)).
      rewrite split_app_sep by done. by rewrite split_good. }
    cbn [List.filter]. by rewrite filter_proper.
  - destruct (good_join_ends (p :: ps) ltac:(done) Hp) as [He Hn]. rewrite He, bool_decide_false by done. cbn [orb].
    rewrite <- join_app_slash by done. apply pure_path_join; [done|]. by apply Forall_app.
Qed.
Lemma no_double_slash s : no_double (String "/" s) = negb (startswith s "/") && no_double s.
Proof. cbn [no_double startswith]. by rewrite decide_True. Qed.
Lemma no_double_skip c r : has_char slash c = false -> no_double (c +:+ r) = no_double r.
Proof.
  induction c as [|a c IH]; [done|]. intros Hc. cbn [has_char] in Hc. destruct (decide (a = slash)) as [|Ha]; [done|].
  rewrite str_app_cons. cbn [no_double startswith]. rewrite decide_False by (intros H; by apply Ha). cbn [negb andb]. by apply IH.
Qed.
Lemma no_double_join cs : cs <> [] -> good_parts cs -> no_double ("/" +:+ join "/" cs) = true.
Proof.
  intros Hne Hg. change ("/" +:+ join "/" cs) with (String "/" (join "/" cs)).
  induction Hg as [|c cs Hc Hg IH]; [done|]. rewrite no_double_slash, good_join_relative by (done || by constructor). cbn [negb andb].
  apply good_part_spec in Hc as (_ & _ & Hs & _). destruct cs as [|d cs].
  - cbn [join]. rewrite <- (str_app_nil_r c). by rewrite no_double_skip.
  - rewrite join_cons by done. rewrite no_double_skip by done. by apply IH.
Qed.
Lemma all_chars_join_slash P cs : P slash = true -> Forall (fun c => all_chars P c = true) cs -> all_chars P (join "/" cs) = true.
Proof.
  intros Hp Hg. induction Hg as [|c cs Hc Hg IH]; [done|]. destruct cs as [|d cs]; [done|].
  rewrite join_cons by done. rewrite !all_chars_app, Hc, IH. cbn [all_chars]. change (P "/"%char) with (P slash). by rewrite Hp.
Qed.
Lemma path_str_url_key cs : good_parts cs -> url_key_ok (path_str (mkPure "" cs)) = true.
Proof.
  intros Hg. rewrite path_str_join. destruct cs as [|c cs]; [done|]. unfold url_key_ok.
  rewrite no_double_join by done. rewrite andb_true_r, andb_true_iff. rewrite <- all_chars_has_char.
  split; apply all_chars_join_slash; try done; (eapply Forall_impl; [exact Hg|]); intros x Hx;
    apply good_part_spec in Hx as (_ & _ & _ & H1 & H2); [done|]. by rewrite all_chars_has_char, H2.
Qed.

(** ** Derived paths *)
Section Derived.
Context {W C : Type} `{!PathClient C W, !LocalPaths W}.
Context (new_client : string -> M W C) (read_mapping : path_mapping) (realpath : string -> string).
Context (pid : Z) (cache_key : option string).
Abbreviation new_path := (new_path new_client read_mapping realpath pid cache_key).
Abbreviation derive := (derive new_client read_mapping realpath pid cache_key).

(** A path of a remote profile whose client is the cached one *)
Record remote_path (s : shortcuts W C) (p : MultiStoragePath) : Prop := {
  rp_process : process_id s = pid;
  rp_client : client_cache s !! profile_of p = Some (storage_client p);
  rp_profile : profile_of p <> "" /\ profile_of p <> RESERVED_POSIX_PROFILE_NAME /\ all_chars location_char (profile_of p) = true;
  rp_root : root (internal_path p) = "";
  rp_parts : good_parts (parts (internal_path p));
}.

(** A path with the same client and other good components is found again *)
Lemma derive_remote s p cs :
  remote_path s p -> good_parts cs ->
  derive p (mkPure "" cs) s = (Ok (mkPath (storage_client p) (mkPure "" cs) (url_of (profile_of p) (mkPure "" cs))), s).
Proof.
  intros [Hpid Hc (Hne & Hres & Hp) _ _] Hg. unfold Pathlib.derive, Pathlib.new_path. unfold mbind.
  set (url := url_of (profile_of p) (mkPure "" cs)).
  assert (url = join_paths (MSC_PROTOCOL +:+ profile_of p) (path_str (mkPure "" cs))) as Hurl.
  { unfold url, url_of. by rewrite bool_decide_false. }
  assert (resolve_storage_client new_client read_mapping realpath pid cache_key url s =
    (Ok (storage_client p, path_str (mkPure "" cs)), s)) as ->.
  { unfold resolve_storage_client, check_and_reinitialize_if_forked. rewrite Hpid, Z.eqb_refl.
    unfold resolve_url, normalize_msc_url.
    assert (startswith url MSC_PROTOCOL = true) as Hs.
    { pose proof (path_str_url_key cs Hg) as Hk. unfold url_key_ok in Hk. apply andb_true_iff in Hk as [_ Hk].
      rewrite Hurl, join_paths_url by done. done. }
    rewrite Hs, andb_false_r, Hs, Hurl, resolve_listed_url by (done || by apply path_str_url_key).
    unfold client_of. by rewrite Hc. }
  unfold mret. cbn [fst snd]. rewrite bool_decide_false by done. by rewrite pure_path_str.
Qed.
Lemma remote_path_derived s p cs :
  remote_path s p -> good_parts cs -> remote_path s (mkPath (storage_client p) (mkPure "" cs) (url_of (profile_of p) (mkPure "" cs))).
Proof. intros [? ? ? _ _] Hg. by split. Qed.

Lemma parents_prefix r ps cs : cs <> [] -> mkPure r ps ∈ parents (mkPure r (ps ++ cs)).
Proof.
  intros Hne. unfold parents. cbn [root parts]. apply list_elem_of_fmap. exists (length ps). split.
  - by rewrite take_app_length.
  - apply list_elem_of_In. rewrite <- in_rev, in_seq, length_app. destruct cs; [done|]. cbn. lia.
Qed.
Lemma path_eqb_refl p q : profile_of p = profile_of q -> internal_path p = internal_path q -> path_eqb p q = true.
Proof. intros H1 H2. unfold path_eqb. by rewrite !bool_decide_true. Qed.

(** C23: joining is consistent: [p / "a/b"] is a path of the same profile with
    the components of [p] followed by those of the key; its string leads back
    to it, it is relative to [p] by just these components, and if the key is a
    single name, it is its name and its parent is [p]. *)
Theorem joined_path_consistent (s : shortcuts W C) (p : MultiStoragePath) (cs : list string)
    (Hp : remote_path s p) (Hcs : good_parts cs) (Hne : cs <> []) :
  exists q, truediv new_client read_mapping realpath pid cache_key p (join "/" cs) s = (Ok q, s) /\
    profile_of q = profile_of p /\ internal_path q = mkPure "" (parts (internal_path p) ++ cs) /\
    relative_to q p = Ok (mkPure "" cs) /\ is_relative_to q p = true /\
    (exists q', new_path (str_of_path q) s = (Ok q', s) /\ path_eqb q' q = true) /\
    (forall n, cs = [n] -> name (internal_path q) = n /\
       exists r, path_parent new_client read_mapping realpath pid cache_key q s = (Ok r, s) /\ path_eqb r p = true).
Proof.
  pose proof Hp as [_ _ _ Hroot Hparts]. destruct (internal_path p) as [rt ps] eqn:Ei. cbn [root parts] in *. subst rt.
  assert (good_parts (ps ++ cs)) as Hall by by apply Forall_app.
  set (q := mkPath (storage_client p) (mkPure "" (ps ++ cs)) (url_of (profile_of p) (mkPure "" (ps ++ cs)))).
  pose proof (remote_path_derived s p _ Hp Hall) as Hq. fold q in Hq. exists q. split_and!.
  - unfold truediv, with_segments. rewrite Ei, joinpath_parts by done. by apply derive_remote.
  - done.
  - done.
  - unfold relative_to. rewrite bool_decide_true by done. cbn [negb]. unfold pure_relative_to, pure_is_relative_to. rewrite Ei.
    cbn [internal_path q parts]. rewrite (bool_decide_true (mkPure "" ps ∈ _)) by by apply parents_prefix.
    rewrite orb_true_r. by rewrite drop_app_length.
  - unfold is_relative_to, pure_is_relative_to. rewrite Ei. cbn [internal_path q].
    rewrite (bool_decide_true (mkPure "" ps ∈ _)) by by apply parents_prefix. apply orb_true_r.
  - eexists. split; [exact (derive_remote s q (ps ++ cs) Hq Hall)|]. by apply path_eqb_refl.
  - intros n ->. split; [unfold name; cbn; by rewrite last_snoc|].
    assert (parent (mkPure "" (ps ++ [n])) = mkPure "" ps) as Hpar.
    { unfold parent. cbn [root parts]. rewrite length_app. cbn. by replace (length ps + 1 - 1) with (length ps) by lia; rewrite take_app_length. }
    eexists. split; [unfold path_parent; cbn [internal_path q]; rewrite Hpar; by apply derive_remote|].
    apply path_eqb_refl; [done|]. by rewrite Ei.
Qed.
End Derived.

(** ** Examples and divergences *)
(** Profiles as clients of one store *)
Abbreviation shelf := (gmap (string * string) bytes).
#[local] Instance shelf_path_client : PathClient string shelf := {|
  pc_profile c := c;
  pc_info c k strict := fun w => (match w !! (c, k) with
                                  | Some d => Ok (new_ObjectMetadata k (Z.of_nat (length d)) 0)
                                  | None => Err FileNotFoundError end, w);
  pc_read c k := fun w => (match w !! (c, k) with Some d => Ok d | None => Err FileNotFoundError end, w);
  pc_write c k d := fun w => (Ok tt, <[(c, k) := d]> w);
  pc_copy c a b := fun w => match w !! (c, a) with Some d => (Ok tt, <[(c, b) := d]> w) | None => (Err FileNotFoundError, w) end;
  pc_delete c k := fun w => (Ok tt, delete (c, k) w);
  pc_list c prefix := fun w =>
    (Ok (map (fun kv => new_ObjectMetadata kv.1.2 0 0) (List.filter (fun kv => startswith kv.1.2 prefix) (map_to_list w))), w);
  pc_glob c pattern := mret [];
|}.
#[local] Instance no_local_paths : LocalPaths shelf := {|
  lp_stat _ := mraise OSError; lp_lstat _ := mraise OSError; lp_resolve k _ := mret k; lp_samefile _ _ := mret false; lp_exists _ := mret false; lp_is_file _ := mret false; lp_is_dir _ := mret false;
  lp_iterdir _ := mret []; lp_glob _ _ := mret []; lp_touch _ _ := mret tt; lp_mkdir _ _ _ := mret tt;
  lp_rename _ _ := mraise OSError; lp_unlink _ _ := mraise OSError;
|}.
Definition shelf_client (profile : string) : M shelf string := mret profile.
Definition shelf_state (w : shelf) : shortcuts shelf string := mkShortcuts {[ "a" := "a" ]} ∅ 1 w.
Definition shelf_path (c k : string) : MultiStoragePath := mkPath c (pure_path k) ("msc://" +:+ c +:+ "/" +:+ k).

Lemma joined_path_consistent_witness :
  exists q, truediv shelf_client [] id 1 None (shelf_path "a" "x") "y" (shelf_state ∅) = (Ok q, shelf_state ∅) /\
    profile_of q = "a" /\ internal_path q = mkPure "" ["x"; "y"] /\ relative_to q (shelf_path "a" "x") = Ok (mkPure "" ["y"]) /\
    is_relative_to q (shelf_path "a" "x") = true /\
    (exists q', new_path shelf_client [] id 1 None (str_of_path q) (shelf_state ∅) = (Ok q', shelf_state ∅) /\ path_eqb q' q = true) /\
    (forall n, ["y"] = [n] -> name (internal_path q) = n /\
       exists r, path_parent shelf_client [] id 1 None q (shelf_state ∅) = (Ok r, shelf_state ∅) /\
         path_eqb r (shelf_path "a" "x") = true).
Proof.
  refine (joined_path_consistent shelf_client [] id 1 None (shelf_state ∅) (shelf_path "a" "x") ["y"] _ _ _).
  - split; [done|vm_compute; reflexivity|split_and!; try done; vm_compute; reflexivity|vm_compute; reflexivity|].
    vm_compute. repeat constructor.
  - repeat constructor.
  - discriminate.
Defined.

(** Renaming to a path of another profile stores the object in the profile of
    the source and returns a path that does not exist. *)
Theorem rename_ignores_target_profile :
  match rename (shelf_path "a" "x") (shelf_path "b" "y") (shelf_state {[ ("a", "x") := [x61] ]}) with
  | (Ok t, s') => t = shelf_path "b" "y" /\ sc_world s' = {[ ("a", "y") := [x61] ]} /\ (exists_path t s').1 = Ok false
  | _ => False
  end.
Proof. vm_compute. split_and!; reflexivity. Qed.
(** Renaming an object to its own path deletes it. *)
Theorem rename_to_itself_deletes :
  sc_world (rename (shelf_path "a" "x") (shelf_path "a" "x") (shelf_state {[ ("a", "x") := [x61] ]})).2 = ∅.
Proof. vm_compute. reflexivity. Qed.
(** [is_relative_to] does not look at the profiles, [relative_to] does. *)
Theorem is_relative_to_ignores_profile :
  is_relative_to (shelf_path "a" "x/y") (shelf_path "b" "x") = true /\
  relative_to (shelf_path "a" "x/y") (shelf_path "b" "x") = Err ValueError.
Proof. vm_compute. split; reflexivity. Qed.
(** ["k" / p] for a remote path is below [p] and contains its URL. *)
Theorem rtruediv_nests_url :
  match rtruediv shelf_client [] id 1 None (shelf_path "a" "x") "k" (shelf_state ∅) with
  | (Ok q, _) => str_of_path q = "msc://a/x/k/msc:/a/x"
  | _ => False
  end.
Proof. vm_compute. reflexivity. Qed.
(** A local path that is mapped to a profile has an absolute internal path: it
    differs from the path that its own string gives. *)
Theorem mapped_path_not_equal_to_its_string :
  let mapping := [("file", [("", [("/data/", "a")])])] in
  match new_path shelf_client mapping id 1 None "/data/x" (shelf_state ∅) with
  | (Ok p, s1) => str_of_path p = "msc://a/x" /\
      match new_path shelf_client mapping id 1 None (str_of_path p) s1 with
      | (Ok q, _) => path_eqb p q = false
      | _ => False
      end
  | _ => False
  end.
Proof. vm_compute. split; reflexivity. Qed.
(** The root of a profile lists the keys that start with ["./"]. *)
Theorem root_lists_nothing :
  (iterdir shelf_client [] id 1 None (shelf_path "a" "") (shelf_state {[ ("a", "x") := [x61] ]})).1 = Ok [].
Proof. vm_compute. reflexivity. Qed.
(** The nanoseconds of [stat] go through a float and miss the time: here
    by 24. *)
Theorem stat_ns_inexact :
  st_mtime_ns (stat_result (new_ObjectMetadata "k" 0 1700000000123457)) = (1700000000123457 * 1000 + 24)%Z.
Proof. vm_compute. reflexivity. Qed.
