(* ===== verification/Codecs.v ===== *)
(** * Loading and saving objects ([contrib/pickle.py], [contrib/torch], [contrib/numpy.py])

    The adapters of [pickle], [torch] and [numpy]: a file is given by a URL, by
    a path object or as an open file.  Then the file system that
    [torch.distributed.checkpoint] is given, over the path class, and the reader
    that fetches the files of a load plan before it reads them.  The encodings
    themselves, opening a file and the reader of torch are parameters. *)
From S2P Require Import Prelude PyDict PyPath Types Utils Json Url PathMapping Config Rclone Eviction Cache ConfigLoader ConfigProofs Shortcuts Pathlib.

(** ** Definitions *)
Inductive file_arg (P F : Type) := AUrl (url : string) | APath (p : P) | AFile (f : F) | AMissing.
Arguments AUrl {P F} url. Arguments APath {P F} p. Arguments AFile {P F} f. Arguments AMissing {P F}.
(** [shortcuts.open], [MultiStoragePath.open] and the close at the end of the
    block; reading to the end and writing *)
Class Openable (W P F : Type) := {
  op_open_url : string -> string -> option bool -> option attributes -> M W F;
  op_open_path : P -> string -> option bool -> option attributes -> M W F;
  op_close : F -> M W unit;
  op_read : F -> M W bytes;
  op_write : F -> bytes -> M W unit;
  op_resolve_filesystem_path : F -> M W string;
  op_path_of_url : string -> P;
  op_as_posix : P -> M W string;
}.
Section Codecs.
Context {W P F X : Type} `{!Openable W P F} (encode : X -> bytes) (decode : bytes -> res X).
(** [with ... as fp: use(fp)] *)
Definition with_open {A} (open : M W F) (use : F -> M W A) : M W A := let! fp := open in mfinally (use fp) (op_close fp).
Definition load_from (fp : F) : M W X := let! d := op_read fp in mlift (decode d).
Definition save_to (x : X) (fp : F) : M W unit := op_write fp (encode x).
(** [pickle.load] and [pickle.dump] *)
Definition pickle_load (file : file_arg P F) : M W X :=
  match file with
  | AUrl url => with_open (op_open_url url "rb" None None) load_from
  | APath p => with_open (op_open_path p "rb" None None) load_from
  | AFile f => load_from f
  | AMissing => mraise TypeError
  end.
Definition pickle_dump (x : X) (file : file_arg P F) (a : option attributes) : M W unit :=
  let a := Some (default ∅ a) in
  match file with
  | AUrl url => with_open (op_open_url url "wb" None a) (save_to x)
  | APath p => with_open (op_open_path p "wb" None a) (save_to x)
  | AFile _ => mraise NotImplementedError
  | AMissing => mraise TypeError
  end.
(** [torch.load] and [torch.save] *)
Definition torch_load (file : file_arg P F) : M W X :=
  match file with
  | AUrl url => with_open (op_open_url url "rb" (Some true) None) load_from
  | _ => pickle_load file
  end.
Definition torch_save (x : X) (file : file_arg P F) (a : option attributes) : M W unit :=
  let a := Some (default ∅ a) in
  match file with
  | AUrl url => with_open (op_open_url url "wb" None a) (save_to x)
  | APath p => with_open (op_open_path p "wb" None a) (save_to x)
  | AFile f => save_to x f
  | AMissing => mraise TypeError
  end.
(** [numpy.save]; [numpy.load] and [numpy.memmap] read a local path *)
Definition numpy_save (x : X) (file : file_arg P F) (a : option attributes) : M W unit := torch_save x file a.
Definition numpy_load (load_path : string -> M W X) (file : file_arg P F) : M W X :=
  let resolve p := let! path := op_as_posix p in if bool_decide (path = "") then mraise ValueError else load_path path in
  match file with
  | AUrl url => resolve (op_path_of_url url)
  | APath p => resolve p
  | AFile f => load_from f
  | AMissing => mraise TypeError
  end.
Definition numpy_memmap (map_path : string -> string -> M W X) (map_file : F -> option string -> M W X) (file : file_arg P F) (mode : option string) : M W X :=
  let m := default "r" mode in
  match file with
  | AUrl url => let! path := with_open (op_open_url url m None None) op_resolve_filesystem_path in map_path path m
  | APath p => let! path := with_open (op_open_path p m None None) op_resolve_filesystem_path in map_path path m
  | AFile f => map_file f mode
  | AMissing => mraise TypeError
  end.
End Codecs.

(** ** What is saved is loaded *)
Section RoundTrip.
Context {W P F X : Type} `{!Openable W P F} (encode : X -> bytes) (decode : bytes -> res X) (contents : W -> gmap string bytes).
(** What opening promises: a file that was opened for writing, written once and
    closed has these bytes, and a file opened for reading reads the bytes of
    the object *)
Record open_laws : Prop := {
  ol_write url prefetch a d w w' : with_open (op_open_url url "wb" prefetch a) (fun f => op_write f d) w = (Ok tt, w') -> contents w' = <[ url := d ]> (contents w);
  ol_read url prefetch w d : contents w !! url = Some d -> exists f w1 w2 w3,
    op_open_url url "rb" prefetch None w = (Ok f, w1) /\ op_read f w1 = (Ok d, w2) /\ op_close f w2 = (Ok tt, w3) /\ contents w3 = contents w;
}.
(** An object that [pickle.dump] or [torch.save] wrote to a URL is what
    [pickle.load] and [torch.load] return for it, where decoding inverts
    encoding. *)
Theorem saved_object_loads (laws : open_laws) (x : X) (url : string) (a : option attributes) (w w' : W)
    (Hcodec : decode (encode x) = Ok x) (Hdump : pickle_dump encode x (AUrl url) a w = (Ok tt, w')) :
  (pickle_load decode (AUrl url) w').1 = Ok x /\ (torch_load decode (AUrl url) w').1 = Ok x.
Proof.
  apply (ol_write laws) in Hdump. assert (contents w' !! url = Some (encode x)) as Hc by (rewrite Hdump; apply lookup_insert_eq).
  assert (forall prefetch, (with_open (op_open_url url "rb" prefetch None) (load_from decode) w').1 = Ok x) as H; [|by split; apply H].
  intros prefetch. destruct (ol_read laws url prefetch w' _ Hc) as (f & w1 & w2 & w3 & E1 & E2 & E3 & _).
  unfold with_open, mbind at 1. rewrite E1. unfold mfinally, load_from, mbind. rewrite E2. unfold mlift. by rewrite E3, Hcodec.
Qed.
End RoundTrip.

(** ** Memory maps *)
(** The modes in which an object can be opened *)
Definition OBJECT_MODES : list string := ["r"; "w"; "rb"; "wb"; "a"; "ab"].
(** Of the modes of a memory map only the one for reading opens an object, and
    as a text file; the others are refused by the file. *)
Theorem memmap_modes_refused {W P F X : Type} `{!Openable W P F} (map_path : string -> string -> M W X) (map_file : F -> option string -> M W X) (url mode : string) (w : W)
    (Hopen : forall m w, m ∉ OBJECT_MODES -> op_open_url url m None None w = (Err ValueError, w)) (Hmode : mode ∈ ["r+"; "w+"; "c"]) :
  numpy_memmap map_path map_file (AUrl url) (Some mode) w = (Err ValueError, w).
Proof.
  assert (mode ∉ OBJECT_MODES) as Hn.
  { repeat (apply elem_of_cons in Hmode as [->|Hmode]; [by intros H; vm_compute in H; repeat (apply elem_of_cons in H as [H|H]; [done|]); apply elem_of_nil in H|]).
    by apply elem_of_nil in Hmode. }
  unfold numpy_memmap, mbind, with_open, mbind. cbn [default]. by rewrite Hopen.
Qed.
(** A store in memory *)
Definition shelf_file : Type := string * bool.
#[export] Instance shelf_open : Openable (gmap string bytes) string shelf_file := {
  op_open_url url m _ _ w := if bool_decide (m ∈ OBJECT_MODES) then (Ok (url, bool_decide (m = "r")), w) else (Err ValueError, w);
  op_open_path p m _ _ w := (Ok (p, bool_decide (m = "r")), w);
  op_close _ w := (Ok tt, w);
  op_read f w := match w !! f.1 with Some d => (Ok d, w) | None => (Err FileNotFoundError, w) end;
  op_write f d w := (Ok tt, <[ f.1 := d ]> w);
  op_resolve_filesystem_path f w := (Ok (if f.2 then "text" else "binary"), w);
  op_path_of_url u := u;
  op_as_posix p w := (Ok p, w);
}.
Lemma saved_object_loads_witness :
  (pickle_load (P := string) (F := shelf_file) (fun d => Ok d) (AUrl "u") {[ "u" := [Byte.x01] ]}).1 = Ok [Byte.x01] /\
  (torch_load (P := string) (F := shelf_file) (fun d => Ok d) (AUrl "u") {[ "u" := [Byte.x01] ]}).1 = Ok [Byte.x01].
Proof.
  apply (saved_object_loads (W := gmap string bytes) (P := string) (F := shelf_file) id (fun d => Ok d) id) with (a := None) (w := ∅); [split| |].
  - intros url p a d w w' [= <-]. reflexivity.
  - intros url p w d Hd. exists (url, false), w, w, w. cbn. unfold id in Hd. rewrite Hd. repeat split.
  - reflexivity.
  - vm_compute. reflexivity.
Defined.
(** A memory map of an object opens it as text by default. *)
Theorem memmap_opens_text (map_file : shelf_file -> option string -> M (gmap string bytes) string) :
  (numpy_memmap (P := string) (fun path _ => mret path) map_file (AUrl "u") None ∅).1 = Ok "text".
Proof. vm_compute. reflexivity. Qed.

(** ** Definitions: the file system of checkpoints *)
Section FileSystem.
Context {W C F : Type} `{!PathClient C W, !LocalPaths W}.
Context (new_client : string -> M W C) (read_mapping : path_mapping) (realpath : string -> string).
Context (pid : Z) (cache_key : option string).
(** [MultiStoragePath.open(mode, prefetch_file)] and [close] *)
Context (open_path : MultiStoragePath (C := C) -> string -> bool -> M (shortcuts W C) F) (close : F -> M (shortcuts W C) unit).
Notation fs A := (M (shortcuts W C) A).
(** A path is given as a string; that of a path object is [str_of_path] *)
Notation multi_path path := (new_path new_client read_mapping realpath pid cache_key path).
Definition create_stream {A} (path mode : string) (use : F -> fs A) : fs A :=
  let! p := multi_path path in
  let! fp := open_path p mode true in
  mfinally (use fp) (close fp).
Definition concat_path (path suffix : string) : fs MultiStoragePath := let! p := multi_path path in truediv new_client read_mapping realpath pid cache_key p suffix.
Definition fs_rename (path new_name : string) : fs unit :=
  let! p := multi_path path in let! q := multi_path new_name in let! _ := rename p q in mret tt.
Definition init_path (path : string) : fs MultiStoragePath := multi_path path.
Definition fs_mkdir (path : string) : fs unit := let! p := multi_path path in mkdir p true true.
Definition validate_checkpoint_id (checkpoint_id : string) : fs bool :=
  mtry (fun e => match e with ValueError => true | _ => false end) (let! _ := multi_path checkpoint_id in mret true) (fun _ => mret false).
Definition fs_exists (path : string) : fs bool := let! p := multi_path path in exists_path p.
Definition fs_rm_file (path : string) : fs unit := let! p := multi_path path in unlink p false.
Definition fs_ls (path : string) : fs (list string) :=
  let! p := multi_path path in let! ps := iterdir new_client read_mapping realpath pid cache_key p in mret (map str_of_path ps).

(** ** Definitions: the reader *)
Context {I : Type} (storage_data : I -> option string).
(** The items of the plan by the file that holds them, in the order in which
    the files come up; [storage_data] gives the relative path of an item *)
Definition add_item (d : list (string * list I)) (path : string) (x : I) : list (string * list I) :=
  dset d path (default [] (dget d path) ++ [x]).
Fixpoint per_file (items : list I) (d : list (string * list I)) : res (list (string * list I)) :=
  match items with
  | [] => Ok d
  | x :: l => match storage_data x with Some path => per_file l (add_item d path x) | None => Err KeyError end
  end.
Definition prefetch (url : MultiStoragePath) : fs unit := create_stream (str_of_path url) "rb" (fun _ => mret tt).
(** The threads of the pool: every task runs, in the order [completion]; then
    the first exception in the order of the futures is raised *)
Fixpoint run_futures (tasks : list (nat * fs unit)) (s : shortcuts W C) : list (nat * exc) * shortcuts W C :=
  match tasks with
  | [] => ([], s)
  | (i, m) :: l =>
      let '(r, s1) := m s in
      let '(es, s2) := run_futures l s1 in
      (match r with Ok _ => es | Err e => (i, e) :: es end, s2)
  end.
Definition first_error (es : list (nat * exc)) (n : nat) : option exc :=
  head (omap (fun i => snd <$> list_find (fun x => x.1 = i) es ≫= fun y => Some y.2) (seq 0 n)).
Context (completion : list (nat * fs unit) -> list (nat * fs unit)).
Definition prefetch_objects (urls : list MultiStoragePath) : fs unit := fun s =>
  let '(es, s') := run_futures (completion (imap (fun i u => (i, prefetch u)) urls)) s in
  match first_error es (length urls) with Some e => (Err e, s') | None => (Ok tt, s') end.
Fixpoint join_all (p : MultiStoragePath) (names : list string) : fs (list MultiStoragePath) :=
  match names with
  | [] => mret []
  | n :: ns => let! u := truediv new_client read_mapping realpath pid cache_key p n in let! us := join_all p ns in mret (u :: us)
  end.
(** [read_data]; [read] is the method of torch's reader *)
Definition read_data {A} (path : MultiStoragePath) (thread_count : Z) (items : list I) (read : fs A) : fs A :=
  (if (1 <? thread_count)%Z then
     let! d := mlift (per_file items []) in
     let! urls := join_all path (map fst d) in
     prefetch_objects urls
   else mret tt) ;;;
  read.
End FileSystem.

(** ** The plan is grouped without loss *)
Section Group.
Context {I : Type} (storage_data : I -> option string).
Lemma per_file_spec items d d' :
  wf_dict d -> per_file storage_data items d = Ok d' ->
  wf_dict d' /\
  (forall p, default [] (dget d' p) = default [] (dget d p) ++ filter (fun x => storage_data x = Some p) items) /\
  (forall p, p ∈ d'.*1 <-> p ∈ d.*1 \/ exists x, x ∈ items /\ storage_data x = Some p).
Proof.
  revert d. induction items as [|x l IH]; intros d Hw; cbn [per_file].
  { intros [= <-]. split; [done|]. split; [intros p; by rewrite app_nil_r|]. intros p. split; [by left|]. intros [?|(x & Hx & _)]; [done|]. by apply elem_of_nil in Hx. }
  destruct (storage_data x) as [q|] eqn:Ex; [|done]. intros H. apply IH in H as (H1 & H2 & H3); [|by apply wf_dset]. split; [done|]. split.
  - intros p. rewrite H2. unfold add_item. rewrite dget_dset, filter_cons, Ex. destruct (decide (p = q)) as [->|Hne].
    + rewrite decide_True by done. cbn. by rewrite <- app_assoc.
    + rewrite decide_False by (intros [=]; done). done.
  - intros p. rewrite H3. unfold add_item. rewrite dset_fst. split.
    + intros [Hp|(y & Hy & E)]; [|right; exists y; split; [by right|done]]. case_bool_decide; [by left|].
      apply elem_of_app in Hp as [Hp|<-%list_elem_of_singleton]; [by left|]. right. exists x. split; [left|done].
    + intros [Hp|(y & [->|Hy]%elem_of_cons & E)]; [left; case_bool_decide; set_solver| |right; by exists y].
      rewrite E in Ex. injection Ex as ->. left. case_bool_decide; set_solver.
Qed.
(** Every file of a plan is fetched once: the files are those that hold an item,
    without repetition, and each has its items in the order of the plan. *)
Theorem plan_grouped (items : list I) (d : list (string * list I)) (Hplan : per_file storage_data items [] = Ok d) :
  NoDup (map fst d) /\ (forall p, p ∈ map fst d <-> exists x, x ∈ items /\ storage_data x = Some p) /\
  forall p l, (p, l) ∈ d -> l = filter (fun x => storage_data x = Some p) items.
Proof.
  destruct (per_file_spec items [] d (NoDup_nil_2) Hplan) as (H1 & H2 & H3). split; [done|]. split.
  - intros p. rewrite (H3 p). split; [intros [Hp|?]; [by apply elem_of_nil in Hp|done]|by right].
  - intros p l Hl. apply (elem_of_dget d p l H1) in Hl. specialize (H2 p). rewrite Hl in H2. by cbn in H2.
Qed.
End Group.

(** ** A prefetch that returns has opened every file *)
Section Prefetch.
Context {W C F : Type} `{!PathClient C W, !LocalPaths W}.
Lemma futures_no_error (tasks : list (nat * M (shortcuts W C) unit)) s s' :
  run_futures tasks s = ([], s') -> mfor (map snd tasks) id s = (Ok tt, s').
Proof.
  revert s. induction tasks as [|[i m] l IH]; intros s; cbn [run_futures map mfor snd]; [by intros [= <-]|]. unfold mbind, id at 1.
  destruct (m s) as [[[]|e] s1]; destruct (run_futures l s1) as [es s2] eqn:E; [|done]. intros [= -> ->]. by apply IH.
Qed.
Lemma futures_indices (tasks : list (nat * M (shortcuts W C) unit)) s i e : (i, e) ∈ (run_futures tasks s).1 -> i ∈ map fst tasks.
Proof.
  revert s. induction tasks as [|[j m] l IH]; intros s; cbn [run_futures map fst]; [by intros H%elem_of_nil|].
  destruct (m s) as [r s1]. specialize (IH s1). destruct (run_futures l s1) as [es s2]. cbn in IH.
  destruct r; cbn; [|intros [[= <- <-]|H]%elem_of_cons]; [by intros H; right; apply IH|left|right; by apply IH].
Qed.
Lemma first_error_None es n i e : first_error es n = None -> (i, e) ∈ es -> (n <= i)%nat.
Proof.
  intros H Hin. destruct (decide (n <= i)%nat); [done|]. exfalso. unfold first_error in H. apply head_None in H.
  assert (exists y, list_find (fun x : nat * exc => x.1 = i) es = Some y) as [y Hy].
  { apply (list_find_elem_of (fun x : nat * exc => x.1 = i) es (i, e)); done. }
  assert (y.2.2 ∈ omap (fun i => snd <$> list_find (fun x : nat * exc => x.1 = i) es ≫= fun y => Some y.2) (seq 0 n)) as Hmem.
  { apply list_elem_of_omap. exists i. split; [apply elem_of_seq; lia|]. by rewrite Hy. }
  rewrite H in Hmem. by apply elem_of_nil in Hmem.
Qed.
Theorem prefetch_all_or_raise (new_client : string -> M W C) (read_mapping : path_mapping) (realpath : string -> string) (pid : Z) (cache_key : option string)
    (open_path : MultiStoragePath (C := C) -> string -> bool -> M (shortcuts W C) F) (close : F -> M (shortcuts W C) unit)
    (completion : list (nat * M (shortcuts W C) unit) -> list (nat * M (shortcuts W C) unit)) (Hcompletion : forall ts, completion ts ≡ₚ ts)
    (urls : list MultiStoragePath) (s s' : shortcuts W C)
    (Hok : prefetch_objects new_client read_mapping realpath pid cache_key open_path close completion urls s = (Ok tt, s')) :
  exists order, order ≡ₚ urls /\ mfor order (prefetch new_client read_mapping realpath pid cache_key open_path close) s = (Ok tt, s').
Proof.
  unfold prefetch_objects in Hok. set (pf := prefetch _ _ _ _ _ _ _) in *. set (ts := imap _ urls) in Hok.
  destruct (run_futures (completion ts) s) as [es s1] eqn:E. destruct (first_error es (length urls)) as [e|] eqn:Ef; [done|]. injection Hok as <-.
  assert (es = []) as ->.
  { destruct es as [|[i e] es]; [done|]. exfalso. pose proof (first_error_None _ _ i e Ef ltac:(left)) as Hle.
    assert (i ∈ map fst ts) as Hi. { rewrite <- (Permutation_map fst (Hcompletion ts)). apply (futures_indices _ s i e). rewrite E. left. }
    apply list_elem_of_fmap in Hi as ([j m] & -> & Hj). apply elem_of_lookup_imap in Hj as (k & u & [= -> ->] & Hk). apply lookup_lt_Some in Hk. cbn in Hle. lia. }
  apply futures_no_error in E.
  assert (map snd ts = map pf urls) as Hts.
  { unfold ts. clear. change (map snd) with (fmap (M := list) (snd (A := nat) (B := M (shortcuts W C) unit))). rewrite fmap_imap. cbn. apply (imap_const pf). }
  assert (map snd (completion ts) ≡ₚ map pf urls) as Hp by (rewrite <- Hts; by apply Permutation_map, Hcompletion).
  destruct (Permutation_map_inv pf _ Hp) as (order & Eo & Ho). exists order. split; [by symmetry|]. rewrite Eo in E.
  clear -E. revert s E. induction order as [|u l IH]; intros s E; cbn in *; [done|]. unfold mbind, id in E |- *. destruct (pf u s) as [[[]|e] s2]; [by apply IH|done].
Qed.
End Prefetch.
