(* ===== verification/Manifest.v ===== *)
(** * The manifest metadata provider

    [providers/manifest_metadata.py], [manifest_object_metadata.py] and
    [manifest_formats.py]: the committed and pending files of a manifest, the
    queries on them, and the manifest files written to and read from storage.

    The storage provider below the manifest is an interface
    ([ManifestStorage]) with its laws; the parsers of timestamps and of filter
    expressions are arguments, as in [Types] and [Utils].  Parquet tables are
    encoded by a third-party library, an argument too. *)
From S2P Require Import Prelude PyDict PyPath Types Utils Json.

(** ** Definitions: manifest entries *)

(** [ManifestObjectMetadata]: the inherited fields, and the physical path *)
Record ManifestObjectMetadata := mkManifestObjectMetadata {
  base_metadata : ObjectMetadata;
  mom_physical_path : option string;
}.
Definition mom_key (m : ManifestObjectMetadata) : string := key (base_metadata m).

(** The constructor with [__post_init__] *)
Definition new_ManifestObjectMetadata (o : ObjectMetadata) (physical : option string)
    : ManifestObjectMetadata :=
  mkManifestObjectMetadata o
    (Some (match physical with Some p => p | None => key o end)).

(** [to_object_metadata]: the storage class is not passed on *)
Definition to_object_metadata (m : ManifestObjectMetadata) : ObjectMetadata :=
  let o := base_metadata m in
  mkObjectMetadata (key o) (content_length o) (last_modified o) (type o) (content_type o)
    (etag o) None (metadata o) (symlink_target o).

(** [from_object_metadata]; [attr] is the [physical_path] attribute that the
    readers of manifest parts may have set on the object *)
Definition from_object_metadata (o : ObjectMetadata) (attr physical : option string)
    : ManifestObjectMetadata :=
  let final := match attr, physical with
               | Some p, _ => p
               | None, Some p => p
               | None, None => key o
               end in
  new_ManifestObjectMetadata
    (mkObjectMetadata (key o) (content_length o) (last_modified o) (type o) (content_type o)
       (etag o) None (metadata o) (symlink_target o))
    (Some final).

(** ** Definitions: manifest parts *)
Inductive ManifestFormat := JSONL | PARQUET.
Definition format_value (f : ManifestFormat) : string :=
  match f with JSONL => "jsonl" | PARQUET => "parquet" end.
(** [get_format_handler] and [get_file_suffix] *)
Definition get_format_handler (s : string) : res ManifestFormat :=
  if bool_decide (s = "parquet") then Ok PARQUET
  else if bool_decide (s = "jsonl") then Ok JSONL
  else Err ValueError.
Definition get_file_suffix (f : ManifestFormat) : string := "." +:+ format_value f.

(** [str.encode("utf-8")] and [bytes.decode("utf-8")] on ASCII text; longer
    encodings have no character here *)
Definition encode_utf8 (s : string) : bytes := String.list_byte_of_string s.
Definition decode_utf8 (b : bytes) : res string :=
  let s := String.string_of_list_byte b in
  if all_chars (fun c => (Ascii.nat_of_ascii c <? 128)%nat) s then Ok s else Err ValueError.

(** [asdict] of a manifest entry without its [None] fields *)
Definition mom_to_dict (m : ManifestObjectMetadata) : dict :=
  to_dict (base_metadata m) ++ opt_field "physical_path" (JStr <$> mom_physical_path m).
(** [_metadata_to_manifest_dict] *)
Definition metadata_to_manifest_dict (m : ManifestObjectMetadata) : dict :=
  let d := mom_to_dict m in
  dict_del d "content_length" ++ [("size_bytes", JInt (content_length (base_metadata m)))].

(** Iterating over a [TextIOWrapper]: universal newlines; a newline at the end
    does not start another line *)
Fixpoint normalize_newlines (s : string) : string :=
  match s with
  | EmptyString => EmptyString
  | String c s' =>
      if decide (c = "013"%char) then
        match s' with
        | String c' s'' => if decide (c' = "010"%char) then String "010" (normalize_newlines s'')
                           else String "010" (normalize_newlines s')
        | EmptyString => String "010" EmptyString
        end
      else String c (normalize_newlines s')
  end.
Fixpoint drop_last_empty (l : list string) : list string :=
  match l with
  | [] => []
  | [s] => if bool_decide (s = "") then [] else [s]
  | s :: l' => s :: drop_last_empty l'
  end.
Definition text_lines (s : string) : list string :=
  drop_last_empty (split "010"%char (normalize_newlines s)).

(** [JsonlManifestFormatHandler.write_part] *)
Definition jsonl_write_part (l : list ManifestObjectMetadata) : bytes :=
  encode_utf8 (join (String "010" "") (map (fun m => dumps (JDict (metadata_to_manifest_dict m))) l)).

Fixpoint res_map {A B} (f : A -> res B) (l : list A) : res (list B) :=
  match l with
  | [] => Ok []
  | x :: l' => res_bind (f x) (fun y => res_bind (res_map f l') (fun ys => Ok (y :: ys)))
  end.

Section Parsers.
Context (dateutil_parser : string -> option Z).

(** One line of [JsonlManifestFormatHandler.read_part]: the object and the
    physical path set on it *)
Definition read_line (line : string) : res (ObjectMetadata * option string) :=
  match loads line with
  | Some (JDict d) =>
      match dict_get d "size_bytes" with
      | None => Err KeyError
      | Some n =>
          let d1 := dict_set (dict_del d "size_bytes") "content_length" n in
          res_bind (match dict_get d1 "physical_path" with
                    | None | Some JNull => Ok None
                    | Some (JStr p) => Ok (Some p)
                    | Some _ => Err TypeError
                    end) (fun attr =>
          res_bind (from_dict dateutil_parser (dict_del d1 "physical_path")) (fun o => Ok (o, attr)))
      end
  | Some _ => Err TypeError
  | None => Err ValueError
  end.
Definition jsonl_read_part (content : bytes) : res (list (ObjectMetadata * option string)) :=
  res_bind (decode_utf8 content) (fun s => res_map read_line (text_lines s)).

(** The rows of [ParquetManifestFormatHandler.write_part]: only these columns *)
Record ParquetRow := mkParquetRow {
  row_key : string;
  row_size_bytes : Z;
  row_last_modified : string;
  row_metadata : option string;
  row_physical_path : option string;
}.
Context (isoformat : Z -> string) (isoparse : string -> option Z).
Context (write_table : list ParquetRow -> bytes) (read_table : bytes -> res (list ParquetRow)).

Definition parquet_row (m : ManifestObjectMetadata) : ParquetRow :=
  let o := base_metadata m in
  mkParquetRow (key o) (content_length o) (isoformat (last_modified o))
    (match metadata o with
     | Some a => if bool_decide (a = ∅) then None else Some (dumps (JDict (map_to_list a)))
     | None => None
     end)
    (mom_physical_path m).
Definition parquet_write_part (l : list ManifestObjectMetadata) : bytes :=
  write_table (map parquet_row l).
Definition parquet_object (r : ParquetRow) : res (ObjectMetadata * option string) :=
  res_bind (match row_metadata r with
            | Some s => if bool_decide (s = "") then Ok None
                        else match loads s with
                             | Some (JDict a) => Ok (Some (list_to_map a))
                             | Some _ => Err TypeError
                             | None => Err ValueError
                             end
            | None => Ok None
            end) (fun md =>
  match isoparse (row_last_modified r) with
  | None => Err ValueError
  | Some t => Ok (mkObjectMetadata (row_key r) (row_size_bytes r) t "file" None None None md None,
                  row_physical_path r)
  end).
Definition parquet_read_part (content : bytes) : res (list (ObjectMetadata * option string)) :=
  res_bind (read_table content) (res_map parquet_object).

Definition write_part (f : ManifestFormat) (l : list ManifestObjectMetadata) : bytes :=
  match f with JSONL => jsonl_write_part l | PARQUET => parquet_write_part l end.
Definition read_part (f : ManifestFormat) (content : bytes) : res (list (ObjectMetadata * option string)) :=
  match f with JSONL => jsonl_read_part content | PARQUET => parquet_read_part content end.
End Parsers.

(** ** Definitions: the main manifest *)
Record Manifest := mkManifest {
  version : json;
  parts : list string;
  format : string;
}.
(** [ManifestPartReference.from_dict] *)
Definition part_from_dict (j : json) : res string :=
  match j with
  | JDict d => match dict_get d "path" with
               | None => Err ValueError
               | Some (JStr p) => Ok p
               | Some _ => Err TypeError
               end
  | _ => Err TypeError
  end.
(** [Manifest.from_dict] *)
Definition manifest_from_dict (d : dict) : res Manifest :=
  match dict_get d "version" with
  | None => Err ValueError
  | Some v =>
      match dict_get d "parts" with
      | None => Err ValueError
      | Some (JList ps) =>
          res_bind (res_map part_from_dict ps) (fun parts =>
          match dict_get d "format" with
          | None => Ok (mkManifest v parts "jsonl")
          | Some (JStr f) => Ok (mkManifest v parts f)
          | Some _ => Err TypeError
          end)
      | Some _ => Err TypeError
      end
  end.
(** [Manifest.to_json] *)
Definition manifest_to_json (m : Manifest) : string :=
  dumps (JDict [("version", version m);
                ("parts", JList (map (fun p => JDict [("path", JStr p)]) (parts m)));
                ("format", JStr (format m))]).

Definition DEFAULT_MANIFEST_BASE_DIR : string := ".msc_manifests".
Definition MANIFEST_INDEX_FILENAME : string := "msc_manifest_index.json".
Definition MANIFEST_PARTS_CHILD_DIR : string := "parts".
Definition MANIFEST_PART_PREFIX : string := "msc_manifest_part".
Definition SEQUENCE_PADDING : nat := 6.

(** ** The storage interface *)
Class ManifestStorage (W : Type) := {
  sp_is_file : string -> W -> bool;
  sp_glob : string -> W -> list string;
  sp_get_object : string -> W -> res bytes;
  sp_put_object : string -> bytes -> M W unit;
}.
(** What the manifest relies on: an object that was put is read back, a put
    changes nothing else, and a [*] in a pattern stands for one component that
    is not hidden. *)
Class ManifestStorageLaws (W : Type) `{!ManifestStorage W} := {
  get_put_same : forall k b w w', sp_put_object k b w = (Ok tt, w') ->
    sp_get_object k w' = Ok b /\ sp_is_file k w' = true;
  get_put_other : forall k b w w' k', sp_put_object k b w = (Ok tt, w') -> k' <> k ->
    sp_get_object k' w' = sp_get_object k' w /\ sp_is_file k' w' = sp_is_file k' w;
  glob_children : forall ds name w x,
    Forall (fun c => clean c = true /\ is_glob_part c = false) (ds ++ [name]) ->
    x ∈ sp_glob (join "/" (ds ++ ["*"; name])) w <->
    exists c, clean c = true /\ startswith c "." = false /\
              x = join "/" (ds ++ [c; name]) /\ sp_is_file x w = true;
}.

(** ** Definitions: [ManifestMetadataProvider] *)
Module ManifestMetadataProvider.

Abbreviation file_dict := (list (string * ManifestObjectMetadata)).

Record provider := mkProvider {
  files : file_dict;
  pending_adds : file_dict;
  pending_removes : gset string;
  manifest_path : string;
  writable : bool;
  allow_overwrites : bool;
  manifest_format : ManifestFormat;
}.
Definition with_files (f : file_dict) (p : provider) : provider :=
  mkProvider f (pending_adds p) (pending_removes p) (manifest_path p) (writable p)
    (allow_overwrites p) (manifest_format p).
Definition with_pending (a : file_dict) (r : gset string) (p : provider) : provider :=
  mkProvider (files p) a r (manifest_path p) (writable p) (allow_overwrites p) (manifest_format p).

Section Provider.
Context {W : Type} `{!ManifestStorage W}.
Context (dateutil_parser isoparse : string -> option Z) (isoformat : Z -> string).
Context (write_table : list ParquetRow -> bytes) (read_table : bytes -> res (list ParquetRow)).

(** *** Loading *)

(** [helper_find_manifest_file] *)
Definition find_manifest_file (path : string) (w : W) : string :=
  if sp_is_file path w then path
  else if sp_is_file (path_join path MANIFEST_INDEX_FILENAME) w
       then path_join path MANIFEST_INDEX_FILENAME
  else
    let dir := if bool_decide (DEFAULT_MANIFEST_BASE_DIR ∈ split slash path) then path
               else path_join path DEFAULT_MANIFEST_BASE_DIR in
    match last (sorted_str (sp_glob (path_join (path_join dir "*") MANIFEST_INDEX_FILENAME) w)) with
    | Some c => c
    | None => ""
    end.

(** [_load_manifest_part_file]: the extension without its dot
    decides the format, and the manifest's format is the fallback *)
Definition load_manifest_part_file (manifest_base path fmt : string) (w : W)
    : res (list ManifestObjectMetadata) :=
  let remote := if isabs path then path else path_join manifest_base path in
  res_bind (sp_get_object remote w) (fun content =>
  let ext := splitext_ext remote in
  let detected := if bool_decide (ext = "") then fmt else str_drop 1 ext in
  res_bind (get_format_handler detected) (fun h =>
  res_bind (read_part dateutil_parser isoparse read_table h content) (fun objs =>
  Ok (map (fun oa => from_object_metadata oa.1 oa.2 None) objs)))).

(** The loop over [manifest.parts]: the entries of every part in order *)
Fixpoint load_parts (manifest_base fmt : string) (paths : list string) (fs : file_dict) (w : W)
    : res file_dict :=
  match paths with
  | [] => Ok fs
  | p :: ps =>
      res_bind (load_manifest_part_file manifest_base p fmt w) (fun ms =>
      load_parts manifest_base fmt ps (dset_all fs mom_key ms) w)
  end.

(** [_load_manifest_file] *)
Definition load_manifest_file (content : bytes) (manifest_base file_type : string) (fs : file_dict)
    (w : W) : res file_dict :=
  if bool_decide (file_type = "json") then
    res_bind (decode_utf8 content) (fun s =>
    match loads s with
    | Some (JDict d) =>
        res_bind (manifest_from_dict d) (fun m =>
        if negb (json_eqb (version m) (JStr "1")) then Err ValueError
        else load_parts manifest_base (format m) (parts m) fs w)
    | Some _ => Err TypeError
    | None => Err ValueError
    end)
  else Err NotImplementedError.

(** [_load_manifest]: no manifest is not an error *)
Definition load_manifest (path : string) (w : W) : res file_dict :=
  let resolved := find_manifest_file path w in
  if bool_decide (resolved = "") then Ok []
  else res_bind (sp_get_object resolved w) (fun content =>
       load_manifest_file content (dirname resolved) (str_drop 1 (splitext_ext resolved)) [] w).

(** [__init__] *)
Definition init (path : string) (wr ow : bool) (fmt : string) (w : W) : res provider :=
  res_bind (get_format_handler fmt) (fun f =>
  res_bind (load_manifest path w) (fun fs => Ok (mkProvider fs [] ∅ path wr ow f))).

(** *** Writing *)

(** [os.path.join] of several arguments *)
Definition path_join_all (parts : list string) : string :=
  match parts with [] => "" | p :: ps => fold_left path_join ps p end.

Fixpoint index_of (x : string) (l : list string) : nat :=
  match l with
  | [] => 0
  | y :: l' => if decide (y = x) then 0 else S (index_of x l')
  end.

(** The directory that holds the manifests directory *)
Definition manifest_base_path (base_path : string) : string :=
  let ps := split slash base_path in
  if bool_decide (DEFAULT_MANIFEST_BASE_DIR ∈ ps) then
    let i := index_of DEFAULT_MANIFEST_BASE_DIR ps in
    let b := if (0 <? i)%nat then path_join_all (take i ps) else "" in
    if startswith base_path "/" then "/" +:+ b else b
  else base_path.

Definition part_file_path (f : ManifestFormat) : string :=
  path_join MANIFEST_PARTS_CHILD_DIR
    (MANIFEST_PART_PREFIX +:+ pad SEQUENCE_PADDING 1 +:+ get_file_suffix f).

(** [_write_manifest_files]; [time] is the current time in ISO format *)
Definition write_manifest_files (time path : string) (ms : list ManifestObjectMetadata)
    (f : ManifestFormat) : M W unit :=
  if bool_decide (ms = []) then mret tt
  else
    let folder := path_join (path_join (manifest_base_path path) DEFAULT_MANIFEST_BASE_DIR) time in
    let m := mkManifest (JStr "1") [part_file_path f] (format_value f) in
    sp_put_object (path_join folder (part_file_path f)) (write_part isoformat write_table f ms) ;;;
    sp_put_object (path_join folder MANIFEST_INDEX_FILENAME) (encode_utf8 (manifest_to_json m)).

(** *** Updates *)
Inductive AnyMetadata := Plain (o : ObjectMetadata) | Extended (m : ManifestObjectMetadata).

(** [add_file] *)
Definition add_file (path : string) (md : AnyMetadata) : M provider unit :=
  fun p =>
  if negb (writable p) then (Err RuntimeError, p)
  else if negb (allow_overwrites p) && dmem (files p) path then (Err FileExistsError, p)
  else
    let add m := (Ok tt, with_pending (dset (pending_adds p) path m) (pending_removes p) p) in
    match md with
    | Extended m => if bool_decide (mom_key m = path) then add m else (Err ValueError, p)
    | Plain o =>
        add (new_ManifestObjectMetadata
               (mkObjectMetadata path (content_length o) (last_modified o) (type o) (content_type o)
                  (etag o) None (metadata o) None)
               (Some (key o)))
    end.

(** [remove_file] *)
Definition remove_file (path : string) : M provider unit :=
  fun p =>
  if negb (writable p) then (Err RuntimeError, p)
  else if negb (dmem (files p) path) then (Err FileNotFoundError, p)
  else (Ok tt, with_pending (pending_adds p) ({[path]} ∪ pending_removes p) p).

(** [self._files.pop(path)] for every pending removal *)
Fixpoint pop_all (paths : list string) : M provider unit :=
  match paths with
  | [] => mret tt
  | x :: xs => fun p => if dmem (files p) x then pop_all xs (with_files (ddel (files p) x) p)
                        else (Err KeyError, p)
  end.

(** [commit_updates] *)
Definition commit_updates (time : string) : M (provider * W) unit :=
  fun '(p, w) =>
  if bool_decide (pending_adds p = []) && bool_decide (pending_removes p = ∅) then (Ok tt, (p, w))
  else
    let p1 := if bool_decide (pending_adds p = []) then p
              else with_pending [] (pending_removes p)
                     (with_files (dupdate (files p) (pending_adds p)) p) in
    match pop_all (elements (pending_removes p1)) p1 with
    | (Err e, p2) => (Err e, (p2, w))
    | (Ok _, p2) =>
        let p3 := with_pending (pending_adds p2) ∅ p2 in
        let '(r, w') := write_manifest_files time (manifest_path p3) (map snd (files p3))
                          (manifest_format p3) w in
        (r, (p3, w'))
    end.

(** *** Queries *)

(** [_get_directory_metadata] *)
Definition get_directory_metadata (p : provider) (path : string) (include_pending : bool)
    : res ObjectMetadata :=
  let dir_prefix := rstrip slash path +:+ "/" in
  let has_committed := existsb (fun kv => startswith kv.1 dir_prefix &&
    (negb include_pending || negb (bool_decide (kv.1 ∈ pending_removes p)))) (files p) in
  let has_pending := include_pending && existsb (fun kv => startswith kv.1 dir_prefix) (pending_adds p) in
  if negb has_committed && negb has_pending then Err FileNotFoundError
  else Ok (mkObjectMetadata dir_prefix 0 AWARE_DATETIME_MIN "directory" None None None None None).

(** [get_object_metadata] *)
Definition get_object_metadata (p : provider) (path : string) (include_pending : bool)
    : res ObjectMetadata :=
  match dget (files p) path with
  | Some m => if include_pending && bool_decide (path ∈ pending_removes p) then Err FileNotFoundError
              else Ok (base_metadata m)
  | None =>
      match (if include_pending then dget (pending_adds p) path else None) with
      | Some m => Ok (base_metadata m)
      | None => get_directory_metadata p path include_pending
      end
  end.

(** What [realpath] raises [ValueError] for, with the path that its message
    names; after the last iteration this is the path it was called with *)
Inductive realpath_failure := NoPhysicalPath (p : string) | SymlinkCycle (p : string) | TooManyLevels.
(** The loop of [realpath], [left] iterations remaining *)
Fixpoint realpath_loop (fs : file_dict) (left : nat) (visited : gset string) (current : string)
    : ResolvedPath + realpath_failure :=
  match left with
  | 0 => inr TooManyLevels
  | S left' =>
      match dget fs current with
      | None => inl (mkResolvedPath current UNTRACKED None)
      | Some m =>
          match symlink_target (base_metadata m) with
          | Some t =>
              if bool_decide (t = "") then
                match mom_physical_path m with
                | None => inr (NoPhysicalPath current)
                | Some q => inl (mkResolvedPath q EXISTS None)
                end
              else if bool_decide (current ∈ visited) then inr (SymlinkCycle current)
              else realpath_loop fs left' ({[current]} ∪ visited) (resolve_symlink_target current t)
          | None =>
              match mom_physical_path m with
              | None => inr (NoPhysicalPath current)
              | Some q => inl (mkResolvedPath q EXISTS None)
              end
          end
      end
  end.
Definition realpath (p : provider) (logical_path : string) : res ResolvedPath :=
  match realpath_loop (files p) MAX_SYMLINK_DEPTH ∅ logical_path with
  | inl r => Ok r
  | inr _ => Err ValueError
  end.

(** [generate_physical_path] *)
Definition generate_physical_path (logical_path : string) (for_overwrite : bool) : ResolvedPath :=
  mkResolvedPath logical_path UNTRACKED None.

(** *** Listing *)
Definition after_start (start_after : option string) (k : string) : bool :=
  match start_after with None => true | Some s => str_ltb s k end.
Definition before_end (end_at : option string) (k : string) : bool :=
  match end_at with None => true | Some e => str_leb k e end.

(** The accumulator of the directory view: the directories, those of them that
    no manifest entry describes, and the files *)
Record DirView := mkDirView {
  directories : list (string * ObjectMetadata);
  synthetic_directories : gset string;
  dir_files : list ObjectMetadata;
}.

(** One iteration over [sorted(self._files.items())] *)
Definition dir_step (path : string) (start_after end_at : option string)
    (evaluator : option (attributes -> res bool)) (v : DirView) (kv : string * ManifestObjectMetadata)
    : res DirView :=
  let '(k, m) := kv in
  let o := base_metadata m in
  if negb (startswith k path) then Ok v
  else
    res_bind (matches_attribute_filter_expression o evaluator) (fun ok =>
    if negb ok then Ok v
    else
      let relative := lstrip slash (str_drop (String.length path) k) in
      if negb (has_char slash relative) then
        if negb (after_start start_after k) || negb (before_end end_at k) then Ok v
        else if bool_decide (type o = "directory") then
          let dk := rstrip slash (key o) in
          Ok (mkDirView
                (dset (directories v) dk
                   (mkObjectMetadata dk 0 (last_modified o) "directory" (content_type o) (etag o)
                      (storage_class o) (metadata o) (symlink_target o)))
                (synthetic_directories v ∖ {[dk]}) (dir_files v))
        else Ok (mkDirView (directories v) (synthetic_directories v) (dir_files v ++ [o]))
      else
        let dk := rstrip slash (path +:+ (split1 slash relative).1) in
        match dget (directories v) dk with
        | None =>
            Ok (mkDirView
                  (dset (directories v) dk
                     (mkObjectMetadata dk 0 (last_modified o) "directory" None None None None None))
                  ({[dk]} ∪ synthetic_directories v) (dir_files v))
        | Some e =>
            if bool_decide (dk ∈ synthetic_directories v) then
              Ok (mkDirView
                    (dset (directories v) dk
                       (mkObjectMetadata (key e) (content_length e)
                          (Z.max (last_modified e) (last_modified o)) (type e) (content_type e) (etag e)
                          (storage_class e) (metadata e) (symlink_target e)))
                    (synthetic_directories v) (dir_files v))
            else Ok v
        end).
Fixpoint dir_loop (path : string) (start_after end_at : option string)
    (evaluator : option (attributes -> res bool)) (v : DirView) (l : file_dict) : res DirView :=
  match l with
  | [] => Ok v
  | kv :: l' => res_bind (dir_step path start_after end_at evaluator v kv) (fun v' =>
                dir_loop path start_after end_at evaluator v' l')
  end.

Definition sorted_items (d : file_dict) : file_dict := sort_by (fun a b => str_leb a.1 b.1) d.

(** The keys of the flat view, filtered; the filter may raise *)
Fixpoint flat_keys (path : string) (start_after end_at : option string)
    (evaluator : option (attributes -> res bool)) (l : file_dict) : res (list string) :=
  match l with
  | [] => Ok []
  | (k, m) :: l' =>
      let o := base_metadata m in
      res_bind (if startswith k path && negb (bool_decide (type o = "directory"))
                   && after_start start_after k && before_end end_at k
                then matches_attribute_filter_expression o evaluator else Ok false) (fun keep =>
      res_bind (flat_keys path start_after end_at evaluator l') (fun ks =>
      Ok (if keep then k :: ks else ks)))
  end.

(** [list_objects]; [compile] is [create_attribute_filter_evaluator] *)
Definition list_objects (compile : string -> res (attributes -> res bool)) (p : provider)
    (path0 : string) (start_after end_at : option string) (include_directories : bool)
    (filter_expression : option string) : res (list ObjectMetadata) :=
  if (match start_after, end_at with Some s, Some e => negb (str_ltb s e) | _, _ => false end)
  then Err ValueError
  else
    let path := if bool_decide (path0 = "") || endswith path0 "/" then path0 else path0 +:+ "/" in
    res_bind (match filter_expression with
              | Some e => if bool_decide (e = "") then Ok None
                          else res_bind (compile e) (fun ev => Ok (Some ev))
              | None => Ok None
              end) (fun evaluator =>
    if include_directories then
      res_bind (dir_loop path start_after end_at evaluator (mkDirView [] ∅ []) (sorted_items (files p)))
        (fun v =>
      Ok (omap (fun k => dget (directories v) k)
            (filter (fun k => after_start start_after k && before_end end_at k = true)
               (sorted_str (map fst (directories v))))
          ++ sort_by (fun a b => str_leb (key a) (key b)) (dir_files v)))
    else
      res_bind (flat_keys path start_after end_at evaluator (files p)) (fun ks =>
      Ok (omap (fun k => base_metadata <$> dget (files p) k) (sorted_str ks)))).

(** [glob] of the provider *)
Definition manifest_glob (globmatch : string -> string -> bool)
    (compile : string -> res (attributes -> res bool)) (p : provider) (pattern : string)
    (filter_expression : option string) : res (list string) :=
  res_bind (list_objects compile p "" None None false filter_expression) (fun l =>
  Ok (glob globmatch (map key l) pattern)).
End Provider.
End ManifestMetadataProvider.
