(* ===== verification/ManifestProofs.v ===== *)
(** * Correctness of the manifest provider

    The invariant of the committed and pending files over every sequence of
    operations; what a commit does; the manifest files written by a commit,
    read back by a new provider; symlink resolution; and the listings. *)
From S2P Require Import Prelude PyDict PyPath Types Utils Json Manifest.
Import ManifestMetadataProvider.

(** ** The invariant *)
Definition entry_ok (kv : string * ManifestObjectMetadata) : Prop :=
  mom_key kv.2 = kv.1 /\ is_Some (mom_physical_path kv.2).
Record wf (p : provider) : Prop := {
  wf_files : wf_dict (files p);
  wf_adds : wf_dict (pending_adds p);
  wf_files_ok : Forall entry_ok (files p);
  wf_removes : forall k, k ∈ pending_removes p -> dmem (files p) k = true;
}.

Lemma dset_Forall {V} (P : string * V -> Prop) d k v : Forall P d -> P (k, v) -> Forall P (dset d k v).
Proof.
  intros Hd Hv. induction Hd as [|[q w] d Hq Hd IH]; cbn; [by constructor|].
  destruct (decide (k = q)) as [->|]; by constructor.
Qed.
Lemma dupdate_Forall {V} (P : string * V -> Prop) d e : Forall P d -> Forall P e -> Forall P (dupdate d e).
Proof.
  unfold dupdate. intros Hd He. revert d Hd. induction He as [|[k v] e Hk He IH]; intros d Hd; [done|].
  cbn. apply IH. by apply dset_Forall.
Qed.
Lemma dset_all_ok d l :
  Forall entry_ok d -> Forall (fun m => is_Some (mom_physical_path m)) l -> Forall entry_ok (dset_all d mom_key l).
Proof.
  unfold dset_all. intros Hd Hl. revert d Hd. induction Hl as [|m l Hm Hl IH]; intros d Hd; [done|].
  cbn. apply IH. by apply dset_Forall.
Qed.
Lemma ddel_Forall {V} (P : string * V -> Prop) d k : Forall P d -> Forall P (ddel d k).
Proof. rewrite !Forall_forall. intros H x [_ Hx]%list_elem_of_filter. auto. Qed.

Lemma dmem_dget {V} (d : list (string * V)) k : dmem d k = true <-> is_Some (dget d k).
Proof. unfold dmem. destruct (dget d k); split; (done || by intros [] || eauto). Qed.

(** Popping present keys never raises, and removes exactly them. *)
Lemma pop_all_spec xs p :
  NoDup xs -> (forall k, k ∈ xs -> dmem (files p) k = true) -> wf_dict (files p) ->
  Forall entry_ok (files p) ->
  exists f, pop_all xs p = (Ok tt, with_files f p) /\ wf_dict f /\ Forall entry_ok f /\
    forall k, dget f k = if bool_decide (k ∈ xs) then None else dget (files p) k.
Proof.
  intros Hnd. revert p. induction xs as [|x xs IH]; intros p Hin Hwf Hok.
  { exists (files p). split; [by destruct p|]. split_and!; [done|done|].
    intros k. by rewrite bool_decide_eq_false_2 by set_solver. }
  apply NoDup_cons in Hnd as [Hx Hnd]. cbn [pop_all]. rewrite Hin by set_solver.
  destruct (IH Hnd (with_files (ddel (files p) x) p)) as (f & -> & Hf & Hfok & Hget); cbn.
  - intros k Hk. apply dmem_dget. rewrite dget_ddel. rewrite decide_False by set_solver.
    apply dmem_dget, Hin. set_solver.
  - by apply wf_ddel.
  - by apply ddel_Forall.
  - exists f. split; [done|]. split_and!; [done|done|]. intros k. rewrite Hget. cbn.
    rewrite dget_ddel. destruct (decide (k = x)) as [->|Hne].
    + rewrite (bool_decide_eq_true_2 (x ∈ x :: xs)) by set_solver. by case_bool_decide.
    + by rewrite (bool_decide_ext (k ∈ x :: xs) (k ∈ xs)) by set_solver.
Qed.

(** The committed files after the pending changes: removals win. *)
Definition committed (p : provider) (k : string) : option ManifestObjectMetadata :=
  if bool_decide (k ∈ pending_removes p) then None
  else match dget (pending_adds p) k with Some m => Some m | None => dget (files p) k end.

Section Operations.
Context {W : Type} `{!ManifestStorage W}.
Context (dateutil_parser isoparse : string -> option Z) (isoformat : Z -> string).
Context (write_table : list ParquetRow -> bytes) (read_table : bytes -> res (list ParquetRow)).
Let commit := commit_updates (W := W) isoformat write_table.

Definition adds_ok (p : provider) : Prop := Forall entry_ok (pending_adds p).

(** What a commit leaves: the in-memory state and the storage. *)
Lemma commit_updates_spec time p w :
  wf p -> adds_ok p ->
  exists p' r w', commit time (p, w) = (r, (p', w')) /\ wf p' /\
    pending_adds p' = [] /\ pending_removes p' = ∅ /\
    (forall k, dget (files p') k = committed p k) /\
    manifest_path p' = manifest_path p /\ manifest_format p' = manifest_format p /\
    writable p' = writable p /\ allow_overwrites p' = allow_overwrites p /\
    (r, w') = (if bool_decide (pending_adds p = []) && bool_decide (pending_removes p = ∅)
               then (Ok tt, w)
               else write_manifest_files isoformat write_table time (manifest_path p)
                      (map snd (files p')) (manifest_format p) w).
Proof.
  intros [H1 H2 H3 H4] Ha. unfold commit, commit_updates.
  destruct (bool_decide (pending_adds p = []) && bool_decide (pending_removes p = ∅)) eqn:E.
  { apply andb_true_iff in E as [E1%bool_decide_eq_true E2%bool_decide_eq_true].
    exists p, (Ok tt), w. split_and!; try done. intros k. unfold committed. rewrite E1, E2. done. }
  set (p1 := if bool_decide (pending_adds p = []) then p else _).
  assert (pending_adds p1 = [] /\ files p1 = dupdate (files p) (pending_adds p) /\
    pending_removes p1 = pending_removes p /\ manifest_path p1 = manifest_path p /\
    manifest_format p1 = manifest_format p /\ writable p1 = writable p /\
    allow_overwrites p1 = allow_overwrites p) as (Hp1 & Hp2 & Hp3 & Hp4 & Hp5 & Hp6 & Hp7).
  { unfold p1. case_bool_decide as Ea; [|done]. by rewrite Ea. }
  clearbody p1. rewrite Hp3.
  assert (wf_dict (files p1)) as Hwf by (rewrite Hp2; by apply wf_dupdate).
  assert (Forall entry_ok (files p1)) as Hok by (rewrite Hp2; by apply dupdate_Forall).
  destruct (pop_all_spec (elements (pending_removes p)) p1) as (f & -> & Hf & Hfok & Hget); try done.
  - apply NoDup_elements.
  - intros k Hk%elem_of_elements. apply dmem_dget. rewrite Hp2, dget_dupdate by done.
    destruct (dget (pending_adds p) k); [eauto|]. by apply dmem_dget, H4.
  - cbn -[write_manifest_files]. rewrite Hp4, Hp5.
    destruct (write_manifest_files isoformat write_table time (manifest_path p) (map snd f)
      (manifest_format p) w) as [r w'] eqn:Ew.
    eexists _, r, w'. split; [reflexivity|]. cbn.
    assert (forall k, dget f k = committed p k) as Hc.
    { intros k. rewrite Hget, Hp2, dget_dupdate by done. unfold committed.
      by rewrite (bool_decide_ext (k ∈ elements (pending_removes p)) (k ∈ pending_removes p)) by set_solver. }
    split_and!; try done. split; cbn; [done|rewrite Hp1; constructor|done|set_solver].
Qed.

Lemma add_file_wf path md p r p' :
  add_file path md p = (r, p') -> wf p -> adds_ok p ->
  (forall m, md = Extended m -> is_Some (mom_physical_path m)) -> wf p' /\ adds_ok p'.
Proof.
  unfold add_file. intros H [H1 H2 H3 H4] Ha Hm.
  assert (forall m, entry_ok (path, m) ->
    let q := with_pending (dset (pending_adds p) path m) (pending_removes p) p in wf q /\ adds_ok q) as Hadd.
  { intros m Hok. split; [split|]; cbn; auto with py. by apply dset_Forall. }
  destruct (negb (writable p)); [by simplify_eq|]. destruct (_ && _); [by simplify_eq|].
  destruct md as [o|m].
  - injection H as <- <-. apply Hadd. split; [done|]. cbn. eauto.
  - case_bool_decide as Hk; [|by simplify_eq]. injection H as <- <-. apply Hadd. split; [done|]. eauto.
Qed.

Lemma remove_file_wf path p r p' :
  remove_file path p = (r, p') -> wf p -> adds_ok p -> wf p' /\ adds_ok p'.
Proof.
  unfold remove_file. intros H [H1 H2 H3 H4] Ha.
  destruct (negb (writable p)); [by simplify_eq|].
  destruct (dmem (files p) path) eqn:E; simplify_eq/=; [|by split].
  split; [split|]; cbn; auto. intros k [->%elem_of_singleton|Hk]%elem_of_union; auto.
Qed.

Lemma load_parts_ok base fmt paths fs w fs' :
  load_parts dateutil_parser isoparse read_table base fmt paths fs w = Ok fs' ->
  wf_dict fs -> Forall entry_ok fs -> wf_dict fs' /\ Forall entry_ok fs'.
Proof.
  revert fs. induction paths as [|x paths IH]; intros fs H Hwf Hok; cbn in H; [by simplify_eq|].
  destruct (load_manifest_part_file _ _ _ _ _ _ _) as [ms|] eqn:E; cbn in H; [|done].
  apply (IH _ H); [by apply wf_dset_all|]. apply dset_all_ok; [done|].
  unfold load_manifest_part_file in E.
  destruct (sp_get_object _ w); cbn in E; [|done].
  destruct (get_format_handler _); cbn in E; [|done].
  destruct (read_part _ _ _ _ _) as [objs|]; cbn in E; [|done]. injection E as <-.
  apply Forall_map, Forall_forall. intros [] _. cbn. eauto.
Qed.

Lemma load_manifest_ok path w fs :
  load_manifest dateutil_parser isoparse read_table path w = Ok fs -> wf_dict fs /\ Forall entry_ok fs.
Proof.
  unfold load_manifest. case_bool_decide; [intros [= <-]; split; constructor|].
  destruct (sp_get_object _ w) as [content|]; cbn; [|done]. unfold load_manifest_file.
  case_bool_decide; [|done]. destruct (decode_utf8 content); cbn; [|done].
  destruct (loads _) as [[]|]; try done. destruct (manifest_from_dict d) as [m|]; cbn; [|done].
  destruct (negb _); [done|]. intros Hl. eapply load_parts_ok; [exact Hl|constructor|constructor].
Qed.

(** ** Every sequence of operations *)
Inductive op := OpAdd (path : string) (md : AnyMetadata) | OpRemove (path : string) | OpCommit (time : string).

(** The effect of a call, whether it returns or raises. *)
Definition run_op (o : op) (s : provider * W) : provider * W :=
  match o with
  | OpAdd path md => ((add_file path md s.1).2, s.2)
  | OpRemove path => ((remove_file path s.1).2, s.2)
  | OpCommit time => (commit time s).2
  end.
(** Entries built by the dataclass constructor have a physical path. *)
Definition op_ok (o : op) : Prop :=
  match o with OpAdd _ (Extended m) => is_Some (mom_physical_path m) | _ => True end.

(** The states of a provider loaded from storage. *)
Inductive reachable : provider * W -> Prop :=
  | reach_init path wr ow fmt w p :
      init dateutil_parser isoparse read_table path wr ow fmt w = Ok p -> reachable (p, w)
  | reach_op s o : reachable s -> op_ok o -> reachable (run_op o s).

Lemma reachable_wf s : reachable s -> wf s.1 /\ adds_ok s.1.
Proof.
  induction 1 as [path wr ow fmt w p Hi|[p w] o Hs [IH1 IH2] Ho].
  - unfold init in Hi. destruct (get_format_handler fmt); cbn in Hi; [|done].
    destruct (load_manifest _ _ _ _ _) as [fs|] eqn:El; cbn in Hi; [|done]. injection Hi as <-.
    apply load_manifest_ok in El as [Hw Hf]. split; [split|]; cbn; [done|constructor|done|set_solver|constructor].
  - cbn in *. destruct o as [path md|path|time]; cbn [run_op fst snd].
    + destruct (add_file path md p) as [r p'] eqn:E. eapply add_file_wf; try done. intros m ->. done.
    + destruct (remove_file path p) as [r p'] eqn:E. by eapply remove_file_wf.
    + destruct (commit_updates_spec time p w IH1 IH2) as (p' & r & w' & -> & Hw & Hadds & _).
      cbn. split; [done|]. unfold adds_ok. rewrite Hadds. constructor.
Qed.
End Operations.
