(* ===== verification/ManifestFiles.v ===== *)
(** * Manifest files: what a commit writes, a new provider reads

    The JSONL round trip of manifest parts, the search for the newest manifest,
    and their composition through the storage interface. *)
From S2P Require Import Prelude PyDict PyPath Types Utils Json Manifest ManifestProofs.
Import ManifestMetadataProvider.

(** ** Dictionaries by lookup *)
Lemma dict_get_del (d : dict) k k' : dict_get (dict_del d k) k' = if decide (k' = k) then None else dict_get d k'.
Proof.
  unfold dict_del. induction d as [|[q w] d IH]; [by case_decide|]. rewrite filter_cons. cbn [fst].
  destruct (decide (q <> k)) as [Hq|Hq]; cbn.
  - rewrite IH. destruct (decide (k' = q)), (decide (k' = k)); congruence.
  - rewrite IH. destruct (decide (k' = q)), (decide (k' = k)); try done. subst. by destruct Hq.
Qed.

Lemma from_dict_ext parser d d' :
  (forall k, dict_get d k = dict_get d' k) -> from_dict parser d = from_dict parser d'.
Proof. intros H. unfold from_dict, get_type, get_opt_str, get_opt_attrs. by rewrite !H. Qed.

(** ** One line *)
Definition attributes_wf (o : ObjectMetadata) : Prop :=
  match metadata o with
  | Some a => fold_right (fun kv P => wf_json kv.2 /\ P) True (map_to_list a)
  | None => True
  end.

Lemma manifest_dict_keys m :
  NoDup (metadata_to_manifest_dict m).*1.
Proof.
  destruct m as [[k n t ty ct et sc md sl] ph].
  destruct ct, et, sc, md, sl, ph; apply (bool_decide_unpack _); vm_compute; exact I.
Qed.

Lemma manifest_dict_wf m :
  attributes_wf (base_metadata m) -> wf_json (JDict (metadata_to_manifest_dict m)).
Proof.
  intros Ha. split; [apply manifest_dict_keys|].
  destruct m as [[k n t ty ct et sc md sl] ph]. unfold attributes_wf in Ha. cbn [base_metadata metadata] in Ha.
  assert (forall a, md = Some a -> NoDup (map_to_list a).*1) as Hnd.
  { intros a _. apply NoDup_fst_map_to_list. }
  destruct ct, et, sc, md, sl, ph;
    cbn -[map_to_list strftime_utc]; repeat split; auto; by apply Hnd.
Qed.

Lemma manifest_dict_get m k :
  dict_get (metadata_to_manifest_dict m) k =
  if decide (k = "size_bytes") then Some (JInt (content_length (base_metadata m)))
  else if decide (k = "content_length") then None
  else if decide (k = "physical_path") then JStr <$> mom_physical_path m
  else dict_get (to_dict (base_metadata m)) k.
Proof.
  unfold metadata_to_manifest_dict, mom_to_dict.
  rewrite dict_get_app, dict_get_del, dict_get_app, dict_get_opt_field.
  assert (forall o, dict_get (to_dict o) "size_bytes" = None) as Hs.
  { intros [? ? ? ? [] [] [] [] []]; reflexivity. }
  assert (forall o, dict_get (to_dict o) "physical_path" = None) as Hp.
  { intros [? ? ? ? [] [] [] [] []]; reflexivity. }
  destruct (decide (k = "size_bytes")) as [->|H1].
  { rewrite Hs. cbn. done. }
  destruct (decide (k = "content_length")) as [->|H2]; [done|].
  destruct (decide (k = "physical_path")) as [->|H3].
  { rewrite Hp. destruct (mom_physical_path m); done. }
  destruct (dict_get (to_dict (base_metadata m)) k); [done|]. cbn. by rewrite decide_False.
Qed.

Section Files.
Context (dateutil_parser : string -> option Z).

(** The timestamp parser inverts the written timestamp. *)
Definition loadable (m : ManifestObjectMetadata) : Prop :=
  dateutil_parser (strftime_utc (last_modified (base_metadata m))) = Some (last_modified (base_metadata m)) /\
  attributes_wf (base_metadata m).

Definition manifest_line (m : ManifestObjectMetadata) : string := dumps (JDict (metadata_to_manifest_dict m)).

Lemma read_line_roundtrip m :
  loadable m -> read_line dateutil_parser (manifest_line m) = Ok (base_metadata m, mom_physical_path m).
Proof.
  intros [Ht Ha]. unfold read_line, manifest_line. rewrite loads_dumps by (by apply manifest_dict_wf).
  rewrite manifest_dict_get, decide_True by done. cbv zeta.
  rewrite dict_get_set, decide_False by done.
  rewrite dict_get_del, decide_False by done. rewrite manifest_dict_get.
  rewrite !decide_False, decide_True by done.
  rewrite (from_dict_ext _ _ (to_dict (base_metadata m))).
  - rewrite from_dict_to_dict by done. by destruct (mom_physical_path m).
  - intros k. rewrite dict_get_del, dict_get_set, dict_get_del, manifest_dict_get.
    destruct (decide (k = "physical_path")) as [->|H1].
    { by destruct m as [[? ? ? ? [] [] [] [] []] ?]. }
    destruct (decide (k = "content_length")) as [->|H2]; [done|].
    destruct (decide (k = "size_bytes")) as [->|H3]; [|done].
    by destruct m as [[? ? ? ? [] [] [] [] []] ?].
Qed.

(** ** A part *)
Lemma normalize_no_cr s : has_char "013" s = false -> normalize_newlines s = s.
Proof.
  induction s as [|c s IH]; [done|]. cbn. destruct (decide (c = "013"%char)); [done|].
  intros H. by rewrite IH.
Qed.

Lemma drop_last_id l : Forall (fun s => s <> "") l -> drop_last_empty l = l.
Proof.
  induction 1 as [|s l Hs Hl IH]; [done|]. destruct l as [|t l].
  - cbn. by rewrite bool_decide_eq_false_2.
  - change (drop_last_empty (s :: t :: l)) with (s :: drop_last_empty (t :: l)). by rewrite IH.
Qed.

Lemma has_char_join c sep l :
  has_char c sep = false -> Forall (fun s => has_char c s = false) l -> has_char c (join sep l) = false.
Proof.
  intros Hc. induction 1 as [|s l Hs Hl IH]; [done|]. destruct l as [|t l]; [done|].
  rewrite join_cons by done. by rewrite !has_char_app, Hs, Hc, IH.
Qed.

Lemma text_lines_join l :
  Forall (fun s => all_chars printable s = true /\ s <> "") l ->
  text_lines (join (String "010" "") l) = l.
Proof.
  intros Hl. unfold text_lines.
  assert (forall c, printable c = false -> Forall (fun s => has_char c s = false) l) as Hc.
  { intros c Hc. eapply Forall_impl; [exact Hl|]. intros s [Hs _]. by apply (has_char_all printable). }
  rewrite normalize_no_cr by (apply has_char_join; [done|by apply Hc]).
  destruct l as [|s l]; [done|]. rewrite split_join; [|done|by apply Hc].
  apply drop_last_id. eapply Forall_impl; [exact Hl|]. by intros ? [_ ?].
Qed.

Definition is_ascii (c : ascii) : bool := (Ascii.nat_of_ascii c <? 128)%nat.
Lemma printable_ascii s : all_chars printable s = true -> all_chars is_ascii s = true.
Proof.
  induction s as [|c s IH]; [done|]. cbn [all_chars]. intros [Hc Hs]%andb_true_iff. rewrite (IH Hs), andb_true_r.
  unfold printable in Hc. unfold is_ascii. bool_to_prop. apply Nat.ltb_lt. lia.
Qed.

Lemma decode_encode s : all_chars is_ascii s = true -> decode_utf8 (encode_utf8 s) = Ok s.
Proof.
  intros H. unfold decode_utf8, encode_utf8. rewrite String.string_of_list_byte_of_string.
  unfold is_ascii in H. by rewrite H.
Qed.

Lemma dumps_not_nil j : dumps j <> "".
Proof. intros H. destruct (jsize_length j) as [_ Hl]. rewrite H in Hl. cbn in Hl. lia. Qed.

Lemma res_map_Ok {A B} (f : A -> res B) (g : A -> B) l :
  Forall (fun x => f x = Ok (g x)) l -> res_map f l = Ok (map g l).
Proof. induction 1 as [|x l Hx Hl IH]; [done|]. cbn. by rewrite Hx, IH. Qed.

Lemma jsonl_roundtrip ms :
  Forall loadable ms ->
  jsonl_read_part dateutil_parser (jsonl_write_part ms) =
  Ok (map (fun m => (base_metadata m, mom_physical_path m)) ms).
Proof.
  intros Hms. unfold jsonl_read_part, jsonl_write_part.
  change (map (fun m => dumps (JDict (metadata_to_manifest_dict m))) ms) with (map manifest_line ms).
  assert (Forall (fun s => all_chars printable s = true /\ s <> "") (map manifest_line ms)) as Hl.
  { apply Forall_map, Forall_forall. intros m _. split; [apply dumps_printable|apply dumps_not_nil]. }
  rewrite decode_encode.
  - cbn [res_bind]. rewrite text_lines_join by done.
    clear Hl. induction Hms as [|m ms Hm Hms IH]; [done|].
    cbn [map res_map]. by rewrite read_line_roundtrip, IH.
  - generalize dependent (map manifest_line ms). intros l Hl.
    induction Hl as [|s l [Hs _] Hl IH]; [done|]. apply printable_ascii in Hs.
    destruct l as [|t l]; [done|]. rewrite join_cons by done. by rewrite !all_chars_app, Hs, IH.
Qed.
End Files.

(** ** The manifest on storage *)
Section Reload.
Context {W : Type} `{!ManifestStorage W, !ManifestStorageLaws W}.
Context (dateutil_parser isoparse : string -> option Z) (isoformat : Z -> string).
Context (write_table : list ParquetRow -> bytes) (read_table : bytes -> res (list ParquetRow)).
Context (bs : list string) (time : string).
Hypothesis bs_ne : bs <> [].
Hypothesis bs_clean : Forall (fun c => clean c = true) bs.
Hypothesis bs_literal : Forall (fun c => is_glob_part c = false) bs.
Hypothesis bs_base : DEFAULT_MANIFEST_BASE_DIR ∉ bs.
Hypothesis time_clean : clean time = true.
Hypothesis time_visible : startswith time "." = false.

Let base := join "/" bs.
Let dir := bs ++ [DEFAULT_MANIFEST_BASE_DIR].
Let folder := dir ++ [time].

Lemma path_join_rel ds cs :
  ds <> [] -> Forall (fun c => clean c = true) ds -> cs <> [] -> isabs (join "/" cs) = false ->
  path_join (join "/" ds) (join "/" cs) = join "/" (ds ++ cs).
Proof.
  intros Hd Hds Hc Hcs. unfold path_join. rewrite Hcs.
  rewrite bool_decide_eq_false_2 by (by apply join_not_nil).
  pose proof (ends_slash_join "" ds Hd Hds) as E. cbn in E. rewrite E. cbn [orb].
  by rewrite join_app_slash.
Qed.

Lemma path_join_one ds c :
  ds <> [] -> Forall (fun c => clean c = true) ds -> clean c = true ->
  path_join (join "/" ds) c = join "/" (ds ++ [c]).
Proof. intros. apply (path_join_rel ds [c]); auto. by apply (join_not_abs [c]); repeat constructor. Qed.

Lemma dir_clean : Forall (fun c => clean c = true) dir.
Proof. apply Forall_app. split; [done|]. by repeat constructor. Qed.
Lemma folder_clean : Forall (fun c => clean c = true) folder.
Proof. apply Forall_app. split; [apply dir_clean|]. by repeat constructor. Qed.
Lemma dir_ne : dir <> [].
Proof. unfold dir. by destruct bs. Qed.
Lemma folder_ne : folder <> [].
Proof. unfold folder, dir. by destruct bs. Qed.

(** The two files of a commit. *)
Definition index_path : string := join "/" (folder ++ [MANIFEST_INDEX_FILENAME]).
Definition part_path : string := join "/" (folder ++ [MANIFEST_PARTS_CHILD_DIR; "msc_manifest_part000001.jsonl"]).
Definition candidates (w : W) : list string := sp_glob (join "/" (dir ++ ["*"; MANIFEST_INDEX_FILENAME])) w.

Lemma folder_eq : path_join (path_join (manifest_base_path base) DEFAULT_MANIFEST_BASE_DIR) time = join "/" folder.
Proof.
  unfold manifest_base_path. assert (split slash base = bs) as -> by (by apply split_join_clean).
  rewrite bool_decide_eq_false_2 by done. unfold base.
  rewrite path_join_one by done. rewrite path_join_one; [done|apply dir_ne|apply dir_clean|done].
Qed.

Lemma part_join : path_join (join "/" folder) (part_file_path JSONL) = part_path.
Proof.
  change (part_file_path JSONL) with (join "/" [MANIFEST_PARTS_CHILD_DIR; "msc_manifest_part000001.jsonl"]).
  apply path_join_rel; [apply folder_ne|apply folder_clean|done|done].
Qed.

Lemma index_join : path_join (join "/" folder) MANIFEST_INDEX_FILENAME = index_path.
Proof. apply path_join_one; [apply folder_ne|apply folder_clean|done]. Qed.

Definition written_manifest : Manifest := mkManifest (JStr "1") [part_file_path JSONL] "jsonl".

(** A successful commit has put both files. *)
Lemma write_manifest_files_spec ms w w' :
  ms <> [] ->
  write_manifest_files isoformat write_table time base ms JSONL w = (Ok tt, w') ->
  exists w1, sp_put_object part_path (jsonl_write_part ms) w = (Ok tt, w1) /\
    sp_put_object index_path (encode_utf8 (manifest_to_json written_manifest)) w1 = (Ok tt, w').
Proof.
  intros Hms. unfold write_manifest_files. rewrite bool_decide_eq_false_2 by done. cbv zeta.
  rewrite folder_eq, part_join, index_join. unfold mbind. cbn [write_part format_value].
  destruct (sp_put_object part_path _ w) as [[[]|] w1]; [|done]. intros H. by exists w1.
Qed.

Lemma last_sorted l x : x ∈ l -> (forall y, y ∈ l -> str_leb y x = true) -> last (sorted_str l) = Some x.
Proof.
  intros Hx Hmax. destruct (last (sorted_str l)) as [z|] eqn:E.
  - f_equal. apply last_Some in E as [pre E].
    assert (z ∈ l) as Hz by (rewrite <- (sorted_str_perm l), E; set_solver).
    apply str_leb_antisym; [by apply Hmax|].
    pose proof (sorted_str_sorted l) as Hs. rewrite E in Hs.
    assert (x ∈ pre ++ [z]) as Hin by (rewrite <- E, sorted_str_perm; done).
    apply elem_of_app in Hin as [Hin|Hin]; [|by apply list_elem_of_singleton in Hin as ->; apply str_leb_refl].
    apply StronglySorted_app in Hs as [Hs _]. apply Hs; set_solver.
  - apply last_None in E. exfalso. rewrite <- (sorted_str_perm l), E in Hx. by apply elem_of_nil in Hx.
Qed.

(** The newest manifest is found again. *)
Lemma find_written ms w w' :
  ms <> [] -> write_manifest_files isoformat write_table time base ms JSONL w = (Ok tt, w') ->
  sp_is_file base w = false -> sp_is_file (base +:+ "/" +:+ MANIFEST_INDEX_FILENAME) w = false ->
  (forall x, x ∈ candidates w -> str_leb x index_path = true) ->
  find_manifest_file base w' = index_path.
Proof.
  intros Hms Hw Hbase Hidx Hnew. destruct (write_manifest_files_spec ms w w' Hms Hw) as (w1 & Hp1 & Hp2).
  assert (forall k, k <> part_path -> k <> index_path -> sp_is_file k w' = sp_is_file k w) as Hother.
  { intros k H1 H2. rewrite (proj2 (get_put_other _ _ _ _ k Hp2 H2)).
    apply (get_put_other _ _ _ _ k Hp1 H1). }
  assert (forall cs ds, cs <> [] -> ds <> [] -> Forall (fun c => clean c = true) cs ->
    Forall (fun c => clean c = true) ds -> length cs <> length ds -> join "/" cs <> join "/" ds) as Hlen.
  { intros cs ds H1 H2 H3 H4 H5 H. apply join_inj_clean in H; [by subst|done..]. }
  assert (Forall (fun c => clean c = true) (folder ++ [MANIFEST_INDEX_FILENAME]) /\
    Forall (fun c => clean c = true) (folder ++ [MANIFEST_PARTS_CHILD_DIR; "msc_manifest_part000001.jsonl"])) as [Hc1 Hc2].
  { split; (apply Forall_app; split; [apply folder_clean|by repeat constructor]). }
  assert (forall l, folder ++ l <> []) as Hfne by (intros l [H _]%app_eq_nil; by apply folder_ne).
  assert (length folder = length bs + 2) as Hlf by (unfold folder, dir; rewrite !length_app; cbn; lia).
  unfold find_manifest_file. rewrite Hother, Hbase.
  2,3: apply Hlen; auto; rewrite length_app, Hlf; cbn; lia.
  assert (path_join base MANIFEST_INDEX_FILENAME = join "/" (bs ++ [MANIFEST_INDEX_FILENAME])) as ->
    by (by apply path_join_one).
  rewrite Hother; [rewrite join_app_slash by done; cbn [join]; fold base; rewrite Hidx| |].
  2,3: apply Hlen; auto; [by intros [? _]%app_eq_nil|apply Forall_app; split; [done|by repeat constructor]|
    rewrite !length_app, Hlf; cbn; lia].
  assert (split slash base = bs) as -> by (by apply split_join_clean).
  rewrite bool_decide_eq_false_2 by done. cbv zeta.
  assert (path_join (path_join (path_join base DEFAULT_MANIFEST_BASE_DIR) "*") MANIFEST_INDEX_FILENAME
          = join "/" (dir ++ ["*"; MANIFEST_INDEX_FILENAME])) as ->.
  { unfold base. rewrite path_join_one by done. fold dir.
    rewrite path_join_one; [|apply dir_ne|apply dir_clean|done].
    rewrite path_join_one; [|by intros [? _]%app_eq_nil; apply dir_ne| |done].
    - by rewrite <- app_assoc.
    - apply Forall_app. split; [apply dir_clean|by repeat constructor]. }
  assert (index_path = join "/" (dir ++ [time; MANIFEST_INDEX_FILENAME])) as Hidx_eq.
  { unfold index_path, folder. by rewrite <- app_assoc. }
  assert (Forall (fun c => clean c = true /\ is_glob_part c = false) (dir ++ [MANIFEST_INDEX_FILENAME])) as Hdc.
  { apply Forall_app. split; [|by repeat constructor]. apply Forall_and. split; [apply dir_clean|].
    apply Forall_app. split; [done|by repeat constructor]. }
  fold (candidates w'). rewrite (last_sorted _ index_path); [done| |].
  - apply glob_children; [done|]. exists time. split_and!; [done|done|by rewrite Hidx_eq|].
    by apply (get_put_same _ _ _ _ Hp2).
  - intros y Hy. apply glob_children in Hy as (c & Hc & Hv & -> & Hf); [|done].
    destruct (decide (join "/" (dir ++ [c; MANIFEST_INDEX_FILENAME]) = index_path)) as [->|Hne];
      [apply str_leb_refl|].
    apply Hnew. apply glob_children; [done|]. exists c. split_and!; [done|done|done|].
    rewrite <- Hother; [done| |done]. apply Hlen; auto.
    + intros [? _]%app_eq_nil. by apply dir_ne.
    + apply Forall_app. split; [apply dir_clean|]. by repeat constructor.
    + unfold folder. rewrite !length_app. cbn. lia.
Qed.

(** A reloaded entry: the storage class is lost. *)
Definition reloaded (m : ManifestObjectMetadata) : ManifestObjectMetadata :=
  from_object_metadata (base_metadata m) (mom_physical_path m) None.

Lemma ext_of_name d name : has_char slash name = false ->
  splitext_ext (d +:+ "/" +:+ name) = splitext_ext name.
Proof. intros H. unfold splitext_ext. by rewrite basename_app, basename_no_slash. Qed.

Lemma load_part_written ms w' :
  sp_get_object part_path w' = Ok (jsonl_write_part ms) -> Forall (loadable dateutil_parser) ms ->
  load_manifest_part_file dateutil_parser isoparse read_table (join "/" folder) (part_file_path JSONL) "jsonl" w'
  = Ok (map reloaded ms).
Proof.
  intros Hget Hms. unfold load_manifest_part_file.
  assert (isabs (part_file_path JSONL) = false) as -> by reflexivity.
  rewrite part_join, Hget. cbn [res_bind].
  assert (splitext_ext part_path = ".jsonl") as ->.
  { unfold part_path. change [MANIFEST_PARTS_CHILD_DIR; "msc_manifest_part000001.jsonl"] with
      ([MANIFEST_PARTS_CHILD_DIR] ++ ["msc_manifest_part000001.jsonl"]).
    rewrite app_assoc, join_app_slash; [|by intros [? _]%app_eq_nil; apply folder_ne|done].
    cbn [join]. by rewrite ext_of_name. }
  cbv zeta. rewrite bool_decide_eq_false_2 by done. change (str_drop 1 ".jsonl") with "jsonl".
  change (get_format_handler "jsonl") with (Ok JSONL). cbn [res_bind read_part].
  rewrite jsonl_roundtrip by done. cbn [res_bind]. by rewrite map_map.
Qed.

Lemma load_written ms w w' :
  ms <> [] -> write_manifest_files isoformat write_table time base ms JSONL w = (Ok tt, w') ->
  Forall (loadable dateutil_parser) ms -> NoDup (map mom_key ms) ->
  find_manifest_file base w' = index_path ->
  load_manifest dateutil_parser isoparse read_table base w' =
    Ok (map (fun m => (mom_key m, reloaded m)) ms).
Proof.
  intros Hne Hw Hms Hnd Hfind. destruct (write_manifest_files_spec ms w w' Hne Hw) as (w1 & Hp1 & Hp2).
  assert (index_path = join "/" folder +:+ "/" +:+ MANIFEST_INDEX_FILENAME) as Hidx.
  { unfold index_path. rewrite join_app_slash; [done|apply folder_ne|done]. }
  unfold load_manifest. rewrite Hfind.
  rewrite bool_decide_eq_false_2 by (rewrite Hidx; by destruct (join "/" folder)).
  rewrite (proj1 (get_put_same _ _ _ _ Hp2)). cbn [res_bind].
  assert (str_drop 1 (splitext_ext index_path) = "json") as ->.
  { rewrite Hidx, ext_of_name by done. reflexivity. }
  assert (dirname index_path = join "/" folder) as ->.
  { unfold index_path. apply dirname_join; [apply folder_ne|].
    apply Forall_app. split; [apply folder_clean|by repeat constructor]. }
  unfold load_manifest_file. rewrite bool_decide_eq_true_2 by done.
  rewrite decode_encode by (apply printable_ascii, dumps_printable). cbn [res_bind].
  unfold manifest_to_json. rewrite loads_dumps.
  2:{ cbn. repeat split. apply (bool_decide_unpack _). vm_compute. exact I. repeat constructor; set_solver. }
  match goal with |- context [manifest_from_dict ?d] =>
    change (manifest_from_dict d) with (Ok written_manifest) end.
  cbn [res_bind]. change (negb (json_eqb (version written_manifest) (JStr "1"))) with false.
  cbn [parts format written_manifest load_parts].
  rewrite (load_part_written ms w').
  - cbn [res_bind]. rewrite dset_all_fresh; rewrite map_map; done.
  - assert (part_path <> index_path) as Hpi.
    { intros H. apply join_inj_clean in H; try (by intros [? _]%app_eq_nil; apply folder_ne).
      - apply app_inv_head in H. done.
      - apply Forall_app. split; [apply folder_clean|by repeat constructor].
      - apply Forall_app. split; [apply folder_clean|by repeat constructor]. }
    rewrite (proj1 (get_put_other _ _ _ _ part_path Hp2 Hpi)).
    by apply (get_put_same _ _ _ _ Hp1).
  - done.
Qed.
End Reload.

(** ** An in-memory storage provider *)

(** A pattern whose components are literal or [*]. *)
Fixpoint star_match (pat comps : list string) : bool :=
  match pat, comps with
  | [], [] => true
  | q :: pat', c :: comps' =>
      (if bool_decide (q = "*") then clean c && negb (startswith c ".") else bool_decide (q = c)) &&
      star_match pat' comps'
  | _, _ => false
  end.
#[export] Instance memory_storage : ManifestStorage (gmap string bytes) := {
  sp_is_file k w := bool_decide (is_Some (w !! k));
  sp_glob pat w := filter (fun k => star_match (split slash pat) (split slash k) = true)
                     (map fst (map_to_list w));
  sp_get_object k w := match w !! k with Some b => Ok b | None => Err FileNotFoundError end;
  sp_put_object k b w := (Ok tt, <[k := b]> w);
}.

Lemma star_match_literal ds pat cs :
  Forall (fun c => clean c = true /\ c <> "*") ds ->
  star_match (ds ++ pat) cs = true <-> exists cs', cs = ds ++ cs' /\ star_match pat cs' = true.
Proof.
  intros Hds. revert cs. induction Hds as [|d ds [_ Hd] Hds IH]; intros cs; cbn [app star_match].
  { split; [by exists cs|]. by intros (cs' & -> & H). }
  destruct cs as [|c cs]; [split; [done|by intros (? & ? & _)]|].
  rewrite (bool_decide_eq_false_2 (d = "*")) by done. rewrite andb_true_iff, bool_decide_eq_true, IH.
  split; [intros [-> (cs' & -> & H)]; by exists cs'|]. intros (cs' & [= -> ->] & H). eauto.
Qed.

Lemma literal_not_star c : is_glob_part c = false -> c <> "*".
Proof. by intros H ->. Qed.

Lemma memory_glob_children ds name (w : gmap string bytes) x :
  Forall (fun c => clean c = true /\ is_glob_part c = false) (ds ++ [name]) ->
  x ∈ sp_glob (join "/" (ds ++ ["*"; name])) w <->
  exists c, clean c = true /\ startswith c "." = false /\
            x = join "/" (ds ++ [c; name]) /\ sp_is_file x w = true.
Proof.
  intros Hall. pose proof Hall as [Hds Hname]%Forall_app.
  assert (name <> "*") as Hn by (inversion Hname as [|? ? []]; by apply literal_not_star).
  assert (Forall (fun c => clean c = true) (ds ++ ["*"; name])) as Hpat.
  { apply Forall_app. split; [by eapply Forall_impl; [exact Hds|intros ? []]|].
    repeat constructor. by inversion Hname as [|? ? []]. }
  assert (star_match [name] [name] = true) as Hn1.
  { cbn. rewrite (bool_decide_eq_false_2 (name = "*")) by done.
    by rewrite bool_decide_eq_true_2. }
  cbn [sp_glob sp_is_file memory_storage]. rewrite list_elem_of_filter.
  rewrite split_join_clean; [|by intros [_ ?]%app_eq_nil|done].
  rewrite star_match_literal.
  2:{ eapply Forall_impl; [exact Hds|]. intros c []. split; [done|by apply literal_not_star]. }
  setoid_rewrite bool_decide_eq_true.
  assert (x ∈ map fst (map_to_list w) <-> is_Some (w !! x)) as Hin.
  { rewrite list_elem_of_fmap. split.
    - intros ([k b] & -> & H%elem_of_map_to_list). eauto.
    - intros [b Hb]. exists (x, b). split; [done|]. by apply elem_of_map_to_list. }
  rewrite Hin. split.
  - intros [(cs' & Hs & Hm) Hx].
    destruct cs' as [|c [|n [|? ?]]]; cbn [star_match] in Hm; rewrite ?andb_false_r in Hm; try done.
    rewrite andb_true_r in Hm. apply andb_true_iff in Hm as [Hc Hm].
    rewrite (bool_decide_eq_true_2 ("*" = "*")) in Hc by done. bool_to_prop.
    rewrite (bool_decide_eq_false_2 (name = "*")) in Hm by done. apply bool_decide_eq_true in Hm as <-.
    exists c. split_and!; try done. rewrite <- Hs. symmetry. apply (join_split slash).
  - intros (c & Hc & Hv & -> & Hx). split; [|done]. exists [c; name].
    assert (Forall (fun c => clean c = true) (ds ++ [c; name])) as Hcl.
    { apply Forall_app in Hpat as [H1 H2]. apply Forall_app. split; [done|].
      repeat constructor; [done|]. by inversion H2 as [|? ? _ H3]; inversion H3. }
    rewrite split_join_clean; [|by intros [_ ?]%app_eq_nil|done]. split; [done|].
    change (clean c && negb (startswith c ".") && star_match [name] [name] = true).
    by rewrite Hc, Hv, Hn1.
Qed.

#[export] Instance memory_storage_laws : ManifestStorageLaws (gmap string bytes).
Proof.
  split.
  - intros k b w w' [= <-]. cbn. rewrite lookup_insert_eq. split; [done|]. by apply bool_decide_eq_true_2.
  - intros k b w w' k' [= <-] Hk. cbn. by rewrite lookup_insert_ne.
  - apply memory_glob_children.
Qed.

(** ** Commit and reload *)

(** A manifest directory [bs] and the time of a commit later than every
    manifest stored there. *)
Record manifest_location {W : Type} `{!ManifestStorage W} (bs : list string) (time : string) (w : W)
    : Prop := {
  loc_ne : bs <> [];
  loc_clean : Forall (fun c => clean c = true /\ is_glob_part c = false) bs;
  loc_base : DEFAULT_MANIFEST_BASE_DIR ∉ bs;
  loc_time : clean time = true;
  loc_visible : startswith time "." = false;
  loc_no_file : sp_is_file (join "/" bs) w = false;
  loc_no_index : sp_is_file (join "/" bs +:+ "/" +:+ MANIFEST_INDEX_FILENAME) w = false;
  loc_newest : forall x, x ∈ candidates bs w -> str_leb x (index_path bs time) = true;
}.

(** C32: what a commit wrote, a provider created later on the same storage reads
    back: exactly the committed files, each with its metadata and physical
    path (the storage class excepted), whatever older manifests the storage
    holds. *)
Theorem commit_then_reload {W : Type} `{!ManifestStorage W, !ManifestStorageLaws W}
    (dateutil_parser isoparse : string -> option Z) (isoformat : Z -> string)
    (write_table : list ParquetRow -> bytes) (read_table : bytes -> res (list ParquetRow))
    (bs : list string) (time : string) (wr ow : bool) (p p' : provider) (w w' : W)
    (Hreach : reachable dateutil_parser isoparse isoformat write_table read_table (p, w))
    (Hformat : manifest_format p = JSONL) (Hpath : manifest_path p = join "/" bs)
    (Hloc : manifest_location bs time w)
    (Hpending : pending_adds p <> [] \/ pending_removes p <> ∅)
    (Hcommit : commit_updates isoformat write_table time (p, w) = (Ok tt, (p', w')))
    (Hfiles : files p' <> []) (Hload : Forall (fun kv => loadable dateutil_parser kv.2) (files p')) :
  exists q, init dateutil_parser isoparse read_table (join "/" bs) wr ow "jsonl" w' = Ok q /\
    files q = map (fun kv => (kv.1, reloaded kv.2)) (files p') /\
    pending_adds q = [] /\ pending_removes q = ∅.
Proof.
  apply reachable_wf in Hreach as [Hw Ha]. cbn in Hw, Ha.
  destruct (commit_updates_spec dateutil_parser isoparse isoformat write_table time p w Hw Ha)
    as (p1 & r & w1 & Hrun & [Hd _ Hok _] & _ & _ & _ & _ & _ & _ & _ & Hwrite).
  rewrite Hcommit in Hrun. injection Hrun as <- <- <-.
  assert (bool_decide (pending_adds p = []) && bool_decide (pending_removes p = ∅) = false) as E.
  { destruct Hpending; [rewrite bool_decide_eq_false_2 by done; done|].
    by rewrite (bool_decide_eq_false_2 (pending_removes p = ∅)), andb_false_r by done. }
  rewrite E, Hformat, Hpath in Hwrite. symmetry in Hwrite. destruct Hloc as [L1 L2 L3 L4 L5 L6 L7 L8].
  assert (Forall (fun c => clean c = true) bs) as L2' by (eapply Forall_impl; [exact L2|by intros ? []]).
  set (ms := map snd (files p')) in *.
  assert (ms <> []) as Hms by (unfold ms; by destruct (files p')).
  assert (map mom_key ms = (files p').*1) as Hkeys.
  { unfold ms. rewrite map_map. clear -Hok. induction Hok as [|[k m] l [Hk _] Hl IH]; [done|].
    cbn in *. by rewrite Hk, IH. }
  unfold init. change (get_format_handler "jsonl") with (Ok JSONL). cbn [res_bind].
  assert (Forall (fun c => is_glob_part c = false) bs) as L2'' by (eapply Forall_impl; [exact L2|by intros ? []]).
  erewrite (load_written dateutil_parser isoparse isoformat write_table read_table bs time) with (w := w) (ms := ms);
    try done.
  - cbn [res_bind]. eexists. split; [reflexivity|]. cbn. split; [|done].
    unfold ms. rewrite map_map. apply map_ext_Forall. eapply Forall_impl; [exact Hok|].
    intros [k m] [Hk _]. cbn in *. by rewrite Hk.
  - by apply Forall_map.
  - by rewrite Hkeys.
  - eapply find_written; done.
Qed.

(** A writable provider on an empty storage, with one pending file. *)
Definition example_time : Z := 1700000000123456%Z.
Definition example_parser (s : string) : option Z :=
  if decide (s = "2023-11-14T22:13:20.123456Z") then Some example_time else None.
Definition example_object : ObjectMetadata :=
  mkObjectMetadata "bucket/a.txt" 42 example_time "file" None (Some "v1") None (Some {["k" := JStr "v"]}) None.
Definition example_provider : provider := mkProvider [] [] ∅ "data" true false JSONL.
Definition example_state : provider * gmap string bytes :=
  run_op (fun _ => "") (fun _ => []) (OpAdd "a.txt" (Plain example_object)) (example_provider, ∅).
Definition example_reachable :
  reachable example_parser (fun _ => None) (fun _ => "") (fun _ => []) (fun _ => Err ValueError) example_state.
Proof. apply reach_op; [|exact I]. by eapply (reach_init _ _ _ _ _ "data" true false "jsonl"). Defined.

Lemma commit_then_reload_witness :
  let '(_, (p', w')) := commit_updates (fun _ => "") (fun _ => []) "2024-01-01T00:00:00+00:00" example_state in
  exists q, init example_parser (fun _ => None) (fun _ => Err ValueError) "data" false false "jsonl" w' = Ok q /\
    files q = map (fun kv => (kv.1, reloaded kv.2)) (files p').
Proof.
  destruct (commit_updates (fun _ => "") (fun _ => []) "2024-01-01T00:00:00+00:00" example_state)
    as [r [p' w']] eqn:E.
  assert (r = Ok tt) as ->.
  { transitivity (commit_updates (fun _ => "") (fun _ => []) "2024-01-01T00:00:00+00:00" example_state).1;
      [rewrite E; reflexivity|vm_compute; reflexivity]. }
  assert (files p' = pending_adds example_state.1) as Hp'.
  { transitivity (files (commit_updates (fun _ => "") (fun _ => []) "2024-01-01T00:00:00+00:00" example_state).2.1);
      [rewrite E; reflexivity|vm_compute; reflexivity]. }
  destruct (commit_then_reload example_parser (fun _ => None) (fun _ => "") (fun _ => [])
    (fun _ => Err ValueError) ["data"] "2024-01-01T00:00:00+00:00" false false
    example_state.1 p' example_state.2 w') as (q & Hq & Hf & _).
  - exact example_reachable.
  - reflexivity.
  - reflexivity.
  - split; try (repeat constructor; reflexivity); try discriminate; try reflexivity.
    + intros H. apply list_elem_of_singleton in H. discriminate.
    + intros x Hx. apply elem_of_nil in Hx. destruct Hx.
  - left. discriminate.
  - exact E.
  - rewrite Hp'. discriminate.
  - rewrite Hp'. apply Forall_singleton. split; [vm_compute; reflexivity|].
    vm_compute. split; exact I.
  - exists q. split; [exact Hq|exact Hf].
Defined.

(** whatever calls were made on a manifest provider since it was loaded,
    and whether they returned or raised, a commit applies exactly the pending
    changes to the committed files, leaves nothing pending and raises only
    what the storage raised: a removed path is gone, an added path has its new
    metadata, every other path is unchanged. *)
Theorem commit_applies_pending {W : Type} `{!ManifestStorage W}
    (dateutil_parser isoparse : string -> option Z) (isoformat : Z -> string)
    (write_table : list ParquetRow -> bytes) (read_table : bytes -> res (list ParquetRow))
    (time : string) (p : provider) (w : W)
    (Hreach : reachable dateutil_parser isoparse isoformat write_table read_table (p, w)) :
  exists p' r w', commit_updates isoformat write_table time (p, w) = (r, (p', w')) /\
    pending_adds p' = [] /\ pending_removes p' = ∅ /\
    (forall k, dget (files p') k =
       if bool_decide (k ∈ pending_removes p) then None
       else match dget (pending_adds p) k with Some m => Some m | None => dget (files p) k end) /\
    (r, w') = (if bool_decide (pending_adds p = []) && bool_decide (pending_removes p = ∅)
               then (Ok tt, w)
               else write_manifest_files isoformat write_table time (manifest_path p)
                      (map snd (files p')) (manifest_format p) w).
Proof.
  apply reachable_wf in Hreach as [Hw Ha]. cbn in *.
  destruct (commit_updates_spec dateutil_parser isoparse isoformat write_table time p w Hw Ha)
    as (p' & r & w' & Hrun & _ & H1 & H2 & H3 & _ & _ & _ & _ & H4).
  exists p', r, w'. by split_and!.
Qed.

Lemma commit_applies_pending_witness :
  exists p' r w', commit_updates (fun _ => "") (fun _ => []) "2024-01-01T00:00:00+00:00" example_state
                  = (r, (p', w')) /\ pending_adds p' = [] /\
    mom_physical_path <$> dget (files p') "a.txt" = Some (Some "bucket/a.txt").
Proof.
  destruct (commit_applies_pending example_parser (fun _ => None) (fun _ => "") (fun _ => [])
    (fun _ => Err ValueError) "2024-01-01T00:00:00+00:00" example_state.1 example_state.2)
    as (p' & r & w' & Hrun & Ha & _ & Hf & _); [exact example_reachable|].
  exists p', r, w'. split; [exact Hrun|]. split; [exact Ha|]. rewrite Hf. reflexivity.
Defined.

(** A commit whose storage write raises has already applied and dropped the
    pending changes in memory, so that calling it again reports success
    although nothing is written. *)
Theorem failed_commit_not_retried {W : Type} `{!ManifestStorage W}
    (dateutil_parser isoparse : string -> option Z) (isoformat : Z -> string)
    (write_table : list ParquetRow -> bytes) (read_table : bytes -> res (list ParquetRow))
    (time time' : string) (p p' : provider) (w w' : W) (e : exc)
    (Hreach : reachable dateutil_parser isoparse isoformat write_table read_table (p, w))
    (Hfail : commit_updates isoformat write_table time (p, w) = (Err e, (p', w'))) :
  commit_updates isoformat write_table time' (p', w') = (Ok tt, (p', w')).
Proof.
  apply reachable_wf in Hreach as [Hw Ha]. cbn [fst] in Hw, Ha.
  destruct (commit_updates_spec dateutil_parser isoparse isoformat write_table time p w Hw Ha)
    as (p1 & r & w1 & Hrun & _ & H1 & H2 & _).
  rewrite Hfail in Hrun. injection Hrun as <- <- <-.
  unfold commit_updates. by rewrite H1, H2, !bool_decide_eq_true_2.
Qed.

(** A storage that rejects every write. *)
Definition read_only_storage : ManifestStorage unit := {|
  sp_is_file _ _ := false;
  sp_glob _ _ := [];
  sp_get_object _ _ := Err FileNotFoundError;
  sp_put_object _ _ w := (Err OSError, w);
|}.

Lemma failed_commit_not_retried_witness :
  let p := (add_file "a.txt" (Plain example_object) example_provider).2 in
  let '(r, s) := @commit_updates unit read_only_storage (fun _ => "") (fun _ => []) "t1" (p, tt) in
  r = Err OSError /\
  @commit_updates unit read_only_storage (fun _ => "") (fun _ => []) "t2" s = (Ok tt, s).
Proof.
  cbv zeta. destruct (@commit_updates unit read_only_storage (fun _ => "") (fun _ => []) "t1"
    ((add_file "a.txt" (Plain example_object) example_provider).2, tt)) as [r [p' w']] eqn:E.
  assert (r = Err OSError) as ->.
  { transitivity (@commit_updates unit read_only_storage (fun _ => "") (fun _ => []) "t1"
      ((add_file "a.txt" (Plain example_object) example_provider).2, tt)).1;
      [rewrite E; reflexivity|vm_compute; reflexivity]. }
  split; [reflexivity|].
  apply (@failed_commit_not_retried unit read_only_storage example_parser (fun _ => None) (fun _ => "")
    (fun _ => []) (fun _ => Err ValueError) "t1" "t2" (add_file "a.txt" (Plain example_object) example_provider).2
    p' tt w' OSError); [|exact E].
  apply (@reach_op unit read_only_storage _ _ _ _ _ (example_provider, tt)
    (OpAdd "a.txt" (Plain example_object))); [|exact I].
  by eapply (@reach_init unit read_only_storage _ _ _ _ _ "data" true false "jsonl").
Defined.

(** A commit that removes the last file writes no manifest at all, so a
    provider created later still finds the removed files in the previous
    manifest. *)
Theorem emptied_manifest_not_written {W : Type} `{!ManifestStorage W}
    (dateutil_parser isoparse : string -> option Z) (isoformat : Z -> string)
    (write_table : list ParquetRow -> bytes) (read_table : bytes -> res (list ParquetRow))
    (time : string) (p : provider) (w : W)
    (Hreach : reachable dateutil_parser isoparse isoformat write_table read_table (p, w))
    (Hadds : pending_adds p = []) (Hall : forall k, dmem (files p) k = true -> k ∈ pending_removes p) :
  exists p', commit_updates isoformat write_table time (p, w) = (Ok tt, (p', w)) /\ files p' = [].
Proof.
  apply reachable_wf in Hreach as [Hw Ha]. cbn [fst] in Hw, Ha.
  destruct (commit_updates_spec dateutil_parser isoparse isoformat write_table time p w Hw Ha)
    as (p1 & r & w1 & Hrun & _ & _ & _ & Hf & _ & _ & _ & _ & Hwrite).
  assert (files p1 = []) as Hnil.
  { destruct (files p1) as [|[k m] l] eqn:E; [done|]. specialize (Hf k). cbn [dget] in Hf.
    rewrite decide_True in Hf by done. unfold committed in Hf. rewrite Hadds in Hf. cbn [dget] in Hf.
    destruct (bool_decide (k ∈ pending_removes p)) eqn:Hk; [done|].
    apply bool_decide_eq_false in Hk. destruct Hk. apply Hall. unfold dmem. by rewrite <- Hf. }
  rewrite Hnil in Hwrite. exists p1. rewrite Hrun. split; [|done].
  destruct (_ && _); unfold write_manifest_files in Hwrite; cbn in Hwrite;
    rewrite ?bool_decide_eq_true_2 in Hwrite by done; unfold mret in Hwrite; by injection Hwrite as -> ->.
Qed.

Definition removal_state : provider * gmap string bytes :=
  run_op (fun _ => "") (fun _ => []) (OpRemove "a.txt")
    (commit_updates (fun _ => "") (fun _ => []) "2024-01-01T00:00:00+00:00" example_state).2.

Lemma emptied_manifest_not_written_witness :
  (exists p', commit_updates (fun _ => "") (fun _ => []) "2024-01-02T00:00:00+00:00"
               (removal_state.1, removal_state.2) = (Ok tt, (p', removal_state.2)) /\ files p' = []) /\
  (exists q, init example_parser (fun _ => None) (fun _ => Err ValueError) "data" false false "jsonl"
     removal_state.2 = Ok q /\ map fst (files q) = ["a.txt"]).
Proof.
  split.
  - apply (emptied_manifest_not_written example_parser (fun _ => None) (fun _ => "") (fun _ => [])
      (fun _ => Err ValueError) "2024-01-02T00:00:00+00:00" removal_state.1 removal_state.2).
    + rewrite <- (surjective_pairing removal_state). apply reach_op; [|exact I].
      apply (reach_op _ _ _ _ _ example_state (OpCommit "2024-01-01T00:00:00+00:00"));
        [exact example_reachable|exact I].
    + vm_compute. reflexivity.
    + intros k Hk. unfold dmem in Hk. revert Hk.
      assert (files removal_state.1 = pending_adds example_state.1) as -> by (vm_compute; reflexivity).
      cbn. case_decide; [|done]. subst. intros _. vm_compute. reflexivity.
  - eexists. split; [vm_compute; reflexivity|reflexivity].
Defined.
