(* ===== verification/ManifestQueries.v ===== *)
(** * Queries on a manifest

    Symlink resolution against chains of links, the flat and the directory
    listings, the view that includes pending changes, and the order in which
    pending changes are applied. *)
From S2P Require Import Prelude PyDict PyPath Types Utils Json Manifest ManifestProofs ManifestFiles.
Import ManifestMetadataProvider.

(** ** Symbolic links *)
Section Links.
Context (fs : file_dict).

(** [a] is a symlink entry that points to [b]. *)
Definition link (a b : string) : Prop :=
  exists m t, dget fs a = Some m /\ symlink_target (base_metadata m) = Some t /\ t <> "" /\
              b = resolve_symlink_target a t.
(** [n] links lead from [a] to [b]; [q] is no link. *)
Definition chain : nat -> string -> string -> Prop := nsteps link.
Definition terminal (q : string) : Prop := nf link q.

Lemma link_fun : deterministic link.
Proof. intros a b b' (m & t & H1 & H2 & _ & ->) (m' & t' & H1' & H2' & _ & ->). congruence. Qed.

(** What a terminal node resolves to. *)
Definition resolution (q : string) : ResolvedPath :=
  match dget fs q with
  | None => mkResolvedPath q UNTRACKED None
  | Some m => mkResolvedPath (default q (mom_physical_path m)) EXISTS None
  end.

(** *** Chains of links *)
Lemma chain_fun n a b c : chain n a b -> chain n a c -> b = c.
Proof.
  unfold chain. revert a. induction n as [|n IH]; intros a H1 H2; inversion H1; inversion H2; subst; [done|].
  match goal with X : link a ?u, Y : link a ?v |- _ => rewrite (link_fun _ _ _ X Y) in * end. by eapply IH.
Qed.
(** A chain that goes on has not ended. *)
Lemma chain_not_terminal n m a b q : n < m -> chain m a b -> chain n a q -> ~ terminal q.
Proof.
  intros Hn Hm Hc Hq. replace m with (n + S (m - n - 1)) in Hm by lia.
  apply nsteps_add_inv in Hm as (q' & H1 & H2). rewrite (chain_fun _ _ _ _ H1 Hc) in H2.
  inversion H2; subst. apply Hq. by eexists.
Qed.
Lemma cycle_goes_on n a m : chain (S n) a a -> exists b, m <= b /\ chain b a a.
Proof.
  intros Hc. induction m as [|m (b & Hb & IH)]; [exists 0; split; [lia|constructor]|].
  exists (S n + b). split; [lia|]. by eapply nsteps_trans.
Qed.

(** *** The loop *)

(** [k] iterations from [start] on: they have come to [cur] over the different
    paths [visited]. *)
Record trail (start : string) (k : nat) (visited : gset string) (cur : string) : Prop := {
  trail_chain : chain k start cur;
  trail_visited : forall a, a ∈ visited <-> exists i, i < k /\ chain i start a;
  trail_distinct : forall i j a, i < j -> j < k -> chain i start a -> chain j start a -> False;
}.
Lemma trail_start start : trail start 0 ∅ start.
Proof. split; [constructor| |intros; lia]. intros a. split; [set_solver|]. intros (i & Hi & _). lia. Qed.
Lemma trail_next start k visited cur nxt :
  trail start k visited cur -> link cur nxt -> cur ∉ visited -> trail start (S k) ({[cur]} ∪ visited) nxt.
Proof.
  intros [H1 H2 H3] Hl Hv. split.
  - by eapply nsteps_r.
  - intros a. rewrite elem_of_union, elem_of_singleton, H2. split.
    + intros [->|(i & Hi & Hc)]; [by exists k; split; [lia|]|by exists i; split; [lia|]].
    + intros (i & Hi & Hc). destruct (decide (i = k)) as [->|]; [left; by eapply chain_fun|right; exists i; split; [lia|done]].
  - intros i j a Hij Hj Hi Hj'. destruct (decide (j = k)) as [->|]; [|by apply (H3 i j a); [lia|lia| |]].
    apply Hv, H2. exists i. split; [done|]. by rewrite (chain_fun _ _ _ _ H1 Hj').
Qed.

Lemma realpath_loop_spec left start k visited cur :
  Forall entry_ok fs -> trail start k visited cur ->
  match realpath_loop fs left visited cur with
  | inl r => exists n q, n < k + left /\ chain n start q /\ terminal q /\ r = resolution q
  | inr (SymlinkCycle a) => exists i n, i + S n < k + left /\ chain i start a /\ chain (S n) a a
  | inr TooManyLevels => exists v q, trail start (k + left) v q
  | inr (NoPhysicalPath _) => False
  end.
Proof.
  intros Hok. revert k visited cur. induction left as [|left IH]; intros k visited cur Ht; cbn [realpath_loop].
  { rewrite Nat.add_0_r. by exists visited, cur. }
  assert (forall r, terminal cur -> r = resolution cur ->
    exists n q, n < k + S left /\ chain n start q /\ terminal q /\ r = resolution q) as Hstop.
  { intros r H1 H2. exists k, cur. split_and!; [lia|apply Ht|done|done]. }
  destruct (dget fs cur) as [m|] eqn:Em.
  2:{ apply Hstop; [|unfold resolution; by rewrite Em]. intros [b (? & ? & ? & _)]. congruence. }
  assert (is_Some (mom_physical_path m)) as [ph Hph].
  { apply dget_Some in Em. rewrite Forall_forall in Hok. by apply (Hok _ Em). }
  assert (forall s, symlink_target (base_metadata m) = s -> s = None \/ s = Some "" -> terminal cur) as Hterm.
  { intros s Hs Hcase [b (m' & t & H1 & H2 & H3 & _)]. rewrite Em in H1. injection H1 as <-.
    rewrite H2 in Hs. subst. destruct Hcase; congruence. }
  assert (resolution cur = mkResolvedPath ph EXISTS None) as Hres by (unfold resolution; by rewrite Em, Hph).
  destruct (symlink_target (base_metadata m)) as [t|] eqn:Et.
  2:{ rewrite Hph. apply Hstop; [by apply (Hterm None); auto|done]. }
  case_bool_decide as He.
  { subst. rewrite Hph. apply Hstop; [by apply (Hterm (Some "")); auto|done]. }
  case_bool_decide as Hv.
  - apply (trail_visited _ _ _ _ Ht) in Hv as (i & Hi & Hc). exists i, (k - i - 1). split_and!; [lia|done|].
    pose proof (trail_chain _ _ _ _ Ht) as Hk. replace k with (i + S (k - i - 1)) in Hk by lia.
    apply nsteps_add_inv in Hk as (a & H1 & H2). by rewrite (chain_fun _ _ _ _ H1 Hc) in H2.
  - replace (k + S left) with (S k + left) by lia.
    apply IH, trail_next; [done| |done]. by exists m, t.
Qed.
End Links.

(** C40: [realpath] follows the symlinks of a manifest whose entries have physical
    paths and always ends.  It returns the resolution of the entry at the end of
    the chain of links when the chain has at most seven links.  It reports a
    cycle at a path that the chain leads to and that leads back to itself, and
    too many levels after eight links over different paths; in both cases it
    raises [ValueError], and no entry within seven links ends the chain. *)
Theorem realpath_spec (p : provider) (logical_path : string) (Hok : Forall entry_ok (files p)) :
  match realpath_loop (files p) MAX_SYMLINK_DEPTH ∅ logical_path with
  | inl r => realpath p logical_path = Ok r /\
      exists n q, n <= 7 /\ chain (files p) n logical_path q /\ terminal (files p) q /\ r = resolution (files p) q
  | inr failure => realpath p logical_path = Err ValueError /\
      (forall n q, n <= 7 -> chain (files p) n logical_path q -> ~ terminal (files p) q) /\
      match failure with
      | SymlinkCycle a => exists i n, i + S n <= 7 /\ chain (files p) i logical_path a /\ chain (files p) (S n) a a
      | TooManyLevels => (exists q, chain (files p) 8 logical_path q) /\
          forall i j a, i < j -> j <= 7 -> chain (files p) i logical_path a -> chain (files p) j logical_path a -> False
      | NoPhysicalPath _ => False
      end
  end.
Proof.
  pose proof (realpath_loop_spec (files p) MAX_SYMLINK_DEPTH logical_path 0 ∅ logical_path Hok (trail_start _ _)) as H.
  unfold realpath. unfold MAX_SYMLINK_DEPTH in *. destruct (realpath_loop _ _ _ _) as [r|[a|a|]]; [|done| |].
  - split; [done|]. destruct H as (n & q & Hn & H). exists n, q. split; [lia|done].
  - destruct H as (i & n & Hn & Hi & Hc). split_and!; [done| |exists i, n; split; [lia|done]].
    intros m q Hm Hq. destruct (cycle_goes_on (files p) n a 8 Hc) as (b & Hb & Hbc).
    apply (chain_not_terminal (files p) m (i + b) logical_path a); [lia|by eapply nsteps_trans|done].
  - destruct H as (v & q & [Hc _ Hd]). split_and!; [done| |by exists q|].
    + intros m q' Hm Hq. apply (chain_not_terminal (files p) m 8 logical_path q); [lia|done|done].
    + intros i j b Hij Hj. apply (Hd i j b); lia.
Qed.

Definition symlink_entry (k t : string) : string * ManifestObjectMetadata :=
  (k, new_ManifestObjectMetadata
        (mkObjectMetadata k 0 0 "file" None None None None (Some t)) None).
Definition symlink_provider : provider :=
  mkProvider [symlink_entry "dir/a" "../b"; symlink_entry "b" "c"; symlink_entry "x" "y"; symlink_entry "y" "x"]
    [] ∅ "data" false false JSONL.

Lemma realpath_spec_witness :
  (exists r, realpath symlink_provider "dir/a" = Ok r /\
     exists n q, n <= 7 /\ chain (files symlink_provider) n "dir/a" q /\ r = resolution (files symlink_provider) q) /\
  (exists i n, i + S n <= 7 /\ chain (files symlink_provider) i "x" "x" /\ chain (files symlink_provider) (S n) "x" "x").
Proof.
  assert (Forall entry_ok (files symlink_provider)) as Hok.
  { repeat (apply Forall_cons; split; [split; [reflexivity|eexists; reflexivity]|]). apply Forall_nil. exact I. }
  pose proof (realpath_spec symlink_provider "dir/a" Hok) as Ha. pose proof (realpath_spec symlink_provider "x" Hok) as Hx.
  replace (realpath_loop (files symlink_provider) MAX_SYMLINK_DEPTH ∅ "dir/a")
    with (inl (mkResolvedPath "c" UNTRACKED None) : ResolvedPath + realpath_failure) in Ha by (vm_compute; reflexivity).
  replace (realpath_loop (files symlink_provider) MAX_SYMLINK_DEPTH ∅ "x")
    with (inr (SymlinkCycle "x") : ResolvedPath + realpath_failure) in Hx by (vm_compute; reflexivity).
  split.
  - destruct Ha as (Hr & n & q & Hn & Hc & _ & Hq). eexists. split; [exact Hr|]. exists n, q. split; [exact Hn|]. split; [exact Hc|exact Hq].
  - destruct Hx as (_ & _ & H). exact H.
Defined.

(** Seven links are followed and eight are refused, although
    [MAX_SYMLINK_DEPTH] is the number of hops that are allowed and the message
    says that there are more than eight. *)
Definition chain_provider : provider :=
  mkProvider (map (fun n => symlink_entry (pretty n) (pretty (S n))) (seq 0 8)) [] ∅ "data" false false JSONL.
Theorem eighth_link_refused :
  realpath chain_provider "1" = Ok (mkResolvedPath "8" UNTRACKED None) /\
  realpath_loop (files chain_provider) MAX_SYMLINK_DEPTH ∅ "0" = inr TooManyLevels.
Proof. split; vm_compute; reflexivity. Qed.

(** ** The flat listing *)

(** The outcome of an optional filter expression on every object. *)
Definition filter_accepts (compile : string -> res (attributes -> res bool)) (fe : option string)
    (accepts : ObjectMetadata -> bool) : Prop :=
  match fe with
  | None => forall o, accepts o = true
  | Some e => e <> "" /\ exists ev, compile e = Ok ev /\
                forall o, matches_attribute_filter_expression o (Some ev) = Ok (accepts o)
  end.

Definition listing_path (path : string) : string :=
  if bool_decide (path = "") || endswith path "/" then path else path +:+ "/".

Lemma flat_keys_spec path sa ea ev accepts l :
  (forall o, matches_attribute_filter_expression o ev = Ok (accepts o)) ->
  flat_keys path sa ea ev l = Ok (map fst (filter (fun kv =>
    startswith kv.1 path && negb (bool_decide (type (base_metadata kv.2) = "directory"))
    && after_start sa kv.1 && before_end ea kv.1 && accepts (base_metadata kv.2) = true) l)).
Proof.
  intros Hev. induction l as [|[k m] l IH]; [done|]. cbn [flat_keys]. rewrite IH, filter_cons.
  cbn [fst snd]. destruct (_ && _ && _ && before_end ea k); cbn [andb].
  - rewrite Hev. cbn [res_bind]. destruct (accepts _); [by rewrite decide_True|by rewrite decide_False].
  - cbn [res_bind]. by rewrite decide_False.
Qed.

Lemma compiled_filter compile fe accepts :
  filter_accepts compile fe accepts ->
  exists ev, (match fe with
              | Some e => if bool_decide (e = "") then Ok None
                          else res_bind (compile e) (fun ev => Ok (Some ev))
              | None => Ok None
              end) = Ok ev /\ forall o, matches_attribute_filter_expression o ev = Ok (accepts o).
Proof.
  destruct fe as [e|]; cbn.
  - intros [He (ev & Hc & Hev)]. rewrite bool_decide_eq_false_2 by done. rewrite Hc. by exists (Some ev).
  - intros H. exists None. split; [done|]. intros o. cbn. by rewrite H.
Qed.

(** the flat listing returns, in strictly ascending key order, exactly the
    committed entries that are not directories, lie below the path and within
    the bounds and satisfy the filter. *)
Theorem list_objects_flat (compile : string -> res (attributes -> res bool)) (p : provider)
    (path : string) (start_after end_at fe : option string) (accepts : ObjectMetadata -> bool)
    (Hwf : wf p) (Hfilter : filter_accepts compile fe accepts)
    (Hbounds : forall s e, start_after = Some s -> end_at = Some e -> str_lt s e) :
  exists l, list_objects compile p path start_after end_at false fe = Ok l /\
    StronglySorted str_lt (map key l) /\
    forall o, o ∈ l <-> exists k m, dget (files p) k = Some m /\ o = base_metadata m /\
      startswith k (listing_path path) = true /\ type o <> "directory" /\
      (forall s, start_after = Some s -> str_lt s k) /\
      (forall e, end_at = Some e -> str_leb k e = true) /\ accepts o = true.
Proof.
  unfold list_objects.
  assert ((match start_after, end_at with Some s, Some e => negb (str_ltb s e) | _, _ => false end) = false) as ->.
  { destruct start_after as [s|], end_at as [e|]; try done. by rewrite (Hbounds s e). }
  destruct (compiled_filter compile fe accepts Hfilter) as (ev & -> & Hev). cbn [res_bind].
  fold (listing_path path). rewrite (flat_keys_spec _ _ _ _ accepts) by done. cbn [res_bind].
  destruct Hwf as [Hd _ Hok _]. set (sel := filter _ (files p)).
  assert (forall k m, (k, m) ∈ sel -> dget (files p) k = Some m) as Hsel.
  { intros k m [_ Hin]%list_elem_of_filter. by apply elem_of_dget. }
  assert (NoDup (map fst sel)) as Hnd.
  { clear -Hd. unfold sel. induction (files p) as [|x l IH]; [constructor|].
    unfold wf_dict in Hd. rewrite fmap_cons in Hd. apply NoDup_cons in Hd as [Hx Hl].
    rewrite filter_cons. case_decide; [|auto]. cbn [map]. apply NoDup_cons. split; [|auto].
    intros (y & Hy & Hin)%list_elem_of_fmap. apply list_elem_of_filter in Hin as [_ Hin].
    apply Hx. rewrite Hy. by apply list_elem_of_fmap_2. }
  set (ks := sorted_str (map fst sel)).
  assert (forall k, k ∈ ks <-> exists m, (k, m) ∈ sel) as Hks.
  { intros k. unfold ks. rewrite sorted_str_perm, list_elem_of_fmap. split.
    - intros ([k' m] & -> & H). eauto.
    - intros [m H]. by exists (k, m). }
  assert (forall k m, dget (files p) k = Some m -> key (base_metadata m) = k) as Hkey.
  { intros k m Hin%dget_Some. rewrite Forall_forall in Hok. by apply (Hok _ Hin). }
  assert (map key (omap (fun k => base_metadata <$> dget (files p) k) ks) = ks) as Hmap.
  { assert (forall k, k ∈ ks -> exists m, dget (files p) k = Some m) as Hall.
    { intros k [m Hm]%Hks. eauto. }
    clearbody ks. clear -Hall Hkey. induction ks as [|k ks IH]; [done|].
    destruct (Hall k) as [m Hm]; [set_solver|]. cbn. rewrite Hm. cbn. rewrite (Hkey k m) by done.
    f_equal. apply IH. set_solver. }
  eexists. split; [reflexivity|]. split.
  { rewrite Hmap. by apply sorted_str_strict. }
  intros o. rewrite list_elem_of_omap. split.
  - intros (k & Hk & Ho). apply Hks in Hk as [m Hm]. pose proof (Hsel _ _ Hm) as Hget.
    rewrite Hget in Ho. injection Ho as <-. exists k, m. split; [done|]. split; [done|].
    apply list_elem_of_filter in Hm as [Hc _]. cbn [fst snd] in Hc. bool_to_prop.
    apply bool_decide_eq_false in H3. split_and!; try done.
    + intros s ->. done.
    + intros e ->. done.
  - intros (k & m & Hget & -> & H1 & H2 & H3 & H4 & H5). exists k. split; [|by rewrite Hget].
    apply Hks. exists m. apply list_elem_of_filter. split; [|by apply dget_Some]. cbn [fst snd].
    rewrite H1, H5, bool_decide_eq_false_2 by done. cbn [negb andb].
    destruct start_after as [s|], end_at as [e|]; cbn; rewrite ?(H3 _ eq_refl), ?(H4 _ eq_refl); done.
Qed.

Lemma list_objects_flat_witness :
  exists l, list_objects (fun _ => Err ValueError) symlink_provider "" None (Some "dir/a") false None = Ok l /\
    map key l = ["b"; "dir/a"].
Proof.
  destruct (list_objects_flat (fun _ => Err ValueError) symlink_provider "" None (Some "dir/a") None
    (fun _ => true)) as (l & Hl & _).
  - split; cbn.
    + apply (bool_decide_unpack _). vm_compute. exact I.
    + apply NoDup_nil_2.
    + repeat (apply Forall_cons; split; [split; [reflexivity|eexists; reflexivity]|]). apply Forall_nil. exact I.
    + intros k Hk. apply elem_of_empty in Hk. destruct Hk.
  - intros o. reflexivity.
  - intros s e Hs. discriminate Hs.
  - exists l. split; [exact Hl|]. vm_compute in Hl. injection Hl as <-. reflexivity.
Defined.

(** ** The directory listing *)
Section DirView.
Context (path : string).

(** What an entry contributes to the directory view of [path]. *)
Definition relative_to (k : string) : string := lstrip slash (str_drop (String.length path) k).
Definition file_of (kv : string * ManifestObjectMetadata) : option ObjectMetadata :=
  if startswith kv.1 path && negb (has_char slash (relative_to kv.1)) &&
     negb (bool_decide (type (base_metadata kv.2) = "directory"))
  then Some (base_metadata kv.2) else None.
Definition dir_of (kv : string * ManifestObjectMetadata) : option string :=
  if startswith kv.1 path then
    if has_char slash (relative_to kv.1)
    then Some (rstrip slash (path +:+ (split1 slash (relative_to kv.1)).1))
    else if bool_decide (type (base_metadata kv.2) = "directory")
         then Some (rstrip slash (key (base_metadata kv.2))) else None
  else None.

Definition dir_entry_ok (kv : string * ObjectMetadata) : Prop :=
  key kv.2 = kv.1 /\ type kv.2 = "directory".

Lemma dir_step_spec v kv :
  Forall dir_entry_ok (directories v) -> wf_dict (directories v) ->
  exists v', dir_step path None None None v kv = Ok v' /\
    Forall dir_entry_ok (directories v') /\ wf_dict (directories v') /\
    dir_files v' = dir_files v ++ option_list (file_of kv) /\
    forall d, d ∈ (directories v').*1 <-> d ∈ (directories v).*1 \/ dir_of kv = Some d.
Proof.
  destruct kv as [k m]. intros Hok Hwf. unfold dir_step, file_of, dir_of, relative_to. cbn [fst snd].
  assert (forall dk o sy fl, dir_entry_ok (dk, o) ->
    Forall dir_entry_ok (directories (mkDirView (dset (directories v) dk o) sy fl)) /\
    wf_dict (directories (mkDirView (dset (directories v) dk o) sy fl)) /\
    forall d, d ∈ (directories (mkDirView (dset (directories v) dk o) sy fl)).*1 <->
              d ∈ (directories v).*1 \/ Some dk = Some d) as Hset.
  { intros dk o sy fl Ho. cbn. split_and!; [by apply dset_Forall|by apply wf_dset|].
    intros d. rewrite dset_fst. case_bool_decide; set_solver. }
  destruct (startswith k path); cbn [negb andb].
  2:{ exists v. rewrite app_nil_r. split_and!; try done. intros d. split; [by left|by intros [|]]. }
  cbn [matches_attribute_filter_expression res_bind negb after_start before_end orb].
  destruct (has_char slash _); cbn [negb andb].
  - set (dk := rstrip slash _). destruct (dget (directories v) dk) as [e|] eqn:Ed.
    + pose proof (dget_Some _ _ _ Ed) as Hin. rewrite Forall_forall in Hok.
      destruct (Hok _ Hin) as [Hk Ht]. rewrite <- Forall_forall in Hok.
      case_bool_decide.
      * eexists. split; [reflexivity|]. rewrite app_nil_r.
        destruct (Hset dk (mkObjectMetadata (key e) (content_length e)
          (Z.max (last_modified e) (last_modified (base_metadata m))) (type e) (content_type e) (etag e)
          (storage_class e) (metadata e) (symlink_target e)) (synthetic_directories v) (dir_files v))
          as (H1 & H2 & H3); [done|]. by split_and!.
      * exists v. rewrite app_nil_r. split_and!; try done. intros d. split; [by left|].
        intros [Hd|[= <-]]; [done|]. by apply (list_elem_of_fmap_2 fst) in Hin.
    + eexists. split; [reflexivity|]. rewrite app_nil_r.
      destruct (Hset dk (mkObjectMetadata dk 0 (last_modified (base_metadata m)) "directory" None None None None None)
        ({[dk]} ∪ synthetic_directories v) (dir_files v)) as (H1 & H2 & H3); [done|]. by split_and!.
  - case_bool_decide; cbn [negb].
    + eexists. split; [reflexivity|]. rewrite app_nil_r.
      set (dk := rstrip slash _).
      destruct (Hset dk (mkObjectMetadata dk 0 (last_modified (base_metadata m)) "directory"
        (content_type (base_metadata m)) (etag (base_metadata m)) (storage_class (base_metadata m))
        (metadata (base_metadata m)) (symlink_target (base_metadata m)))
        (synthetic_directories v ∖ {[dk]}) (dir_files v)) as (H1 & H2 & H3); [done|]. by split_and!.
    + eexists. split; [reflexivity|]. cbn. split_and!; try done. intros d. split; [by left|by intros [|]].
Qed.

Lemma dir_loop_spec l v :
  Forall dir_entry_ok (directories v) -> wf_dict (directories v) ->
  exists v', dir_loop path None None None v l = Ok v' /\
    Forall dir_entry_ok (directories v') /\ wf_dict (directories v') /\
    dir_files v' = dir_files v ++ omap file_of l /\
    forall d, d ∈ (directories v').*1 <-> d ∈ (directories v).*1 \/ exists kv, kv ∈ l /\ dir_of kv = Some d.
Proof.
  revert v. induction l as [|kv l IH]; intros v Hok Hwf; cbn [dir_loop].
  { exists v. cbn. rewrite app_nil_r. split_and!; try done. intros d. set_solver. }
  destruct (dir_step_spec v kv Hok Hwf) as (v1 & -> & H1 & H2 & H3 & H4). cbn [res_bind].
  destruct (IH v1 H1 H2) as (v2 & -> & H5 & H6 & H7 & H8). exists v2. split; [done|].
  split_and!; [done|done| |].
  - rewrite H7, H3, <- app_assoc. f_equal. cbn. by destruct (file_of kv).
  - intros d. rewrite H8, H4. set_solver.
Qed.
End DirView.

Lemma dir_keys l :
  Forall dir_entry_ok l -> forall ks, (forall k, k ∈ ks -> k ∈ l.*1) -> 
  map key (omap (fun k => dget l k) ks) = ks /\ Forall (fun o => type o = "directory") (omap (fun k => dget l k) ks).
Proof.
  intros Hl ks. induction ks as [|k ks IH]; intros Hks; [done|].
  destruct IH as [IH1 IH2]; [set_solver|].
  assert (k ∈ l.*1) as Hk by set_solver. apply dmem_true, dmem_dget in Hk as [o Ho].
  rewrite Forall_forall in Hl. destruct (Hl _ (dget_Some _ _ _ Ho)) as [H1 H2]. cbn in *.
  rewrite Ho. cbn. rewrite IH1, H1. split; [done|]. by constructor.
Qed.

(** The directory listing returns first the immediate child directories,
    once each and in ascending order, then the immediate child files in
    ascending order: a directory is listed iff some entry lies below it or is
    it, a file iff it is an entry of the manifest directly below the path. *)
Theorem list_objects_directories (compile : string -> res (attributes -> res bool)) (p : provider)
    (path : string) (Hwf : wf p) :
  let q := listing_path path in
  exists ds fs, list_objects compile p path None None true None = Ok (ds ++ fs) /\
    StronglySorted str_lt (map key ds) /\ Forall (fun o => type o = "directory") ds /\
    (forall d, d ∈ map key ds <-> exists k m, dget (files p) k = Some m /\ dir_of q (k, m) = Some d) /\
    StronglySorted (fun a b => str_leb (key a) (key b) = true) fs /\
    (forall o, o ∈ fs <-> exists k m, dget (files p) k = Some m /\ file_of q (k, m) = Some o).
Proof.
  intros q. unfold list_objects. cbn [res_bind]. fold (listing_path path). fold q.
  destruct (dir_loop_spec q (sorted_items (files p)) (mkDirView [] ∅ [])) as (v & -> & H1 & H2 & H3 & H4);
    [constructor|constructor|]. cbn [res_bind].
  assert (forall kv, kv ∈ sorted_items (files p) <-> dget (files p) kv.1 = Some kv.2) as Hitems.
  { intros [k m]. unfold sorted_items. rewrite sort_by_perm. apply elem_of_dget. apply Hwf. }
  assert (filter (fun k => after_start None k && before_end None k = true)
    (sorted_str (map fst (directories v))) = sorted_str (map fst (directories v))) as ->.
  { generalize (sorted_str (map fst (directories v))). intros l.
    induction l as [|k l IH]; [done|]. by rewrite filter_cons_True, IH. }
  destruct (dir_keys (directories v) H1 (sorted_str (map fst (directories v)))) as [Hk1 Hk2].
  { intros k. by rewrite sorted_str_perm. }
  eexists _, _. split; [reflexivity|]. rewrite Hk1. split_and!; [|done| | |].
  - by apply sorted_str_strict.
  - intros d. rewrite sorted_str_perm. change (map fst (directories v)) with ((directories v).*1).
    rewrite H4. cbn. split.
    + intros [[]%elem_of_nil|([k m] & Hkv%Hitems & Hd)]. eauto.
    + intros (k & m & Hkm & Hd). right. exists (k, m). split; [by apply Hitems|done].
  - apply sort_by_sorted; intros *; [apply str_leb_total|apply str_leb_trans].
  - intros o. rewrite sort_by_perm, H3. cbn. rewrite list_elem_of_omap. split.
    + intros ([k m] & Hkv%Hitems & Hf). eauto.
    + intros (k & m & Hkm & Hf). exists (k, m). split; [by apply Hitems|done].
Qed.

Definition tree_provider : provider :=
  mkProvider [symlink_entry "dir/sub/a" "b"; symlink_entry "dir/z" "b"; symlink_entry "top" "b"]
    [] ∅ "data" false false JSONL.

Lemma list_objects_directories_witness :
  exists ds fs, list_objects (fun _ => Err ValueError) tree_provider "dir" None None true None = Ok (ds ++ fs) /\
    Forall (fun o => type o = "directory") ds /\ map key (ds ++ fs) = ["dir/sub"; "dir/z"].
Proof.
  destruct (list_objects_directories (fun _ => Err ValueError) tree_provider "dir")
    as (ds & fs & Hl & _ & Hd & _).
  - split; cbn.
    + apply (bool_decide_unpack _). vm_compute. exact I.
    + apply NoDup_nil_2.
    + repeat (apply Forall_cons; split; [split; [reflexivity|eexists; reflexivity]|]). apply Forall_nil. exact I.
    + intros k Hk. apply elem_of_empty in Hk. destruct Hk.
  - exists ds, fs. split; [exact Hl|]. split; [exact Hd|].
    change (match Ok (ds ++ fs) with Ok l => map key l | Err _ => [] end = ["dir/sub"; "dir/z"]).
    rewrite <- Hl. vm_compute. reflexivity.
Defined.

(** ** Pending changes *)

(** Without overwrites no path is both committed and added. *)
Definition no_overlap (p : provider) : Prop :=
  allow_overwrites p = false -> forall k, dmem (pending_adds p) k = true -> dmem (files p) k = false.

Section Pending.
Context {W : Type} `{!ManifestStorage W}.
Context (dateutil_parser isoparse : string -> option Z) (isoformat : Z -> string).
Context (write_table : list ParquetRow -> bytes) (read_table : bytes -> res (list ParquetRow)).

Lemma add_file_overlap path md p r p' :
  add_file path md p = (r, p') -> no_overlap p -> no_overlap p'.
Proof.
  unfold add_file. intros H Hno.
  destruct (negb (writable p)); [by simplify_eq|].
  destruct (negb (allow_overwrites p) && dmem (files p) path) eqn:E; [by simplify_eq|].
  assert (forall m, no_overlap (with_pending (dset (pending_adds p) path m) (pending_removes p) p)) as Hadd.
  { intros m Ha k. cbn in Ha |- *. unfold dmem at 1. rewrite dget_dset. case_decide as Hk.
    - intros _. subst. rewrite Ha in E. done.
    - intros Hm. by apply Hno. }
  destruct md as [o|m]; [by simplify_eq|]. case_bool_decide; by simplify_eq.
Qed.

Lemma reachable_no_overlap s :
  reachable (W := W) dateutil_parser isoparse isoformat write_table read_table s -> no_overlap s.1.
Proof.
  intros Hr. induction Hr as [path wr ow fmt w p Hi|[p w] o Hs IH Ho].
  - unfold init in Hi. destruct (get_format_handler fmt); cbn in Hi; [|done].
    destruct (load_manifest _ _ _ _ _) as [fs|]; cbn in Hi; [|done]. injection Hi as <-. by intros _ k.
  - cbn in IH. destruct o as [path md|path|time]; cbn [run_op fst snd].
    + destruct (add_file path md p) as [r p'] eqn:E. by eapply add_file_overlap.
    + unfold remove_file. destruct (negb _); [done|]. by destruct (negb _).
    + apply reachable_wf in Hs as [Hw Ha].
      destruct (commit_updates_spec dateutil_parser isoparse isoformat write_table time p w Hw Ha)
        as (p' & r & w' & -> & _ & Hadds & _). cbn. intros _ k. by rewrite Hadds.
Qed.
End Pending.

Lemma existsb_dict {V} (P : string -> bool) (d : list (string * V)) :
  existsb (fun kv => P kv.1) d = true <-> exists k, dmem d k = true /\ P k = true.
Proof.
  rewrite existsb_exists. split.
  - intros ([k v] & Hin%list_elem_of_In & HP). exists k. split; [|done]. apply dmem_true.
    by apply (list_elem_of_fmap_2 fst) in Hin.
  - intros (k & [v Hv]%dmem_dget & HP). exists (k, v). split; [|done]. by apply list_elem_of_In, dget_Some.
Qed.

(** where overwrites are not allowed, the view that includes pending changes
    is the view after the commit: every path has the same metadata, exists or
    is missing alike, directories included, unless a removed file has the name
    of a directory. *)
Theorem pending_view_is_committed_view {W : Type} `{!ManifestStorage W}
    (dateutil_parser isoparse : string -> option Z) (isoformat : Z -> string)
    (write_table : list ParquetRow -> bytes) (read_table : bytes -> res (list ParquetRow))
    (time path : string) (p : provider) (w : W)
    (Hreach : reachable dateutil_parser isoparse isoformat write_table read_table (p, w))
    (Hno : allow_overwrites p = false)
    (Hfile : path ∈ pending_removes p -> get_directory_metadata p path true = Err FileNotFoundError) :
  exists r p' w', commit_updates isoformat write_table time (p, w) = (r, (p', w')) /\
    get_object_metadata p' path false = get_object_metadata p path true.
Proof.
  pose proof (reachable_no_overlap _ _ _ _ _ _ Hreach Hno) as Hdis. cbn [fst] in Hdis.
  apply reachable_wf in Hreach as [Hw Ha]. cbn [fst] in Hw, Ha.
  destruct (commit_updates_spec dateutil_parser isoparse isoformat write_table time p w Hw Ha)
    as (p' & r & w' & Hrun & _ & _ & _ & Hf & _).
  exists r, p', w'. split; [done|]. clear Hrun. unfold committed in Hf.
  assert (forall k, k ∈ pending_removes p -> dget (pending_adds p) k = None) as Hra.
  { intros k Hk. destruct (dget (pending_adds p) k) eqn:E; [|done].
    pose proof (wf_removes p Hw k Hk) as Hm. rewrite (Hdis k) in Hm; [done|]. unfold dmem. by rewrite E. }
  assert (get_directory_metadata p' path false = get_directory_metadata p path true) as Hdir.
  { unfold get_directory_metadata. set (pre := rstrip slash path +:+ "/"). cbn [negb orb andb].
    assert (existsb (fun kv => startswith kv.1 pre && true) (files p') =
      existsb (fun kv => startswith kv.1 pre && negb (bool_decide (kv.1 ∈ pending_removes p))) (files p)
      || existsb (fun kv => startswith kv.1 pre) (pending_adds p)) as ->; [|by destruct (existsb _ _), (existsb _ _)].
    apply eq_bool_prop_intro. rewrite !Is_true_true, orb_true_iff.
    rewrite (existsb_dict (fun k => startswith k pre && true) (files p')).
    pose proof (existsb_dict (fun k => startswith k pre && negb (bool_decide (k ∈ pending_removes p))) (files p))
      as Hc. cbv beta in Hc. rewrite Hc. clear Hc.
    rewrite (existsb_dict (fun k => startswith k pre) (pending_adds p)). setoid_rewrite dmem_dget. setoid_rewrite Hf. split.
    - intros (k & Hk & HP). rewrite andb_true_r in HP. case_bool_decide as Hr; [by destruct Hk|].
      destruct (dget (pending_adds p) k) eqn:E; [right|left]; exists k.
      + rewrite E. eauto.
      + split; [done|]. by rewrite HP, bool_decide_eq_false_2.
    - intros [(k & Hk & HP)|(k & Hk & HP)]; exists k; rewrite ?HP.
      + bool_to_prop. apply bool_decide_eq_false in H0.
        rewrite (bool_decide_eq_false_2 (k ∈ pending_removes p)) by done. rewrite H. split; [|done]. destruct (dget (pending_adds p) k); [eauto|done].
      + split; [|done]. destruct Hk as [m Hk]. case_bool_decide as Hr; [by rewrite Hra in Hk|]. rewrite Hk. eauto. }
  unfold get_object_metadata. rewrite Hf, Hdir. cbn [andb].
  case_bool_decide as Hr.
  - pose proof (wf_removes p Hw path Hr) as Hm. apply dmem_dget in Hm as [m ->].
    by rewrite Hfile.
  - destruct (dget (pending_adds p) path) as [m|] eqn:E.
    + assert (dget (files p) path = None) as ->; [|done].
      specialize (Hdis path). unfold dmem in Hdis. rewrite E in Hdis. by destruct (dget (files p) path); [specialize (Hdis eq_refl)|].
    + by destruct (dget (files p) path).
Qed.

Lemma pending_view_is_committed_view_witness :
  exists r p' w', commit_updates (fun _ => "") (fun _ => []) "2024-01-01T00:00:00+00:00" example_state
                  = (r, (p', w')) /\
    get_object_metadata p' "a.txt" false = get_object_metadata example_state.1 "a.txt" true /\
    is_ok (get_object_metadata example_state.1 "a.txt" true) = true.
Proof.
  destruct (pending_view_is_committed_view example_parser (fun _ => None) (fun _ => "") (fun _ => [])
    (fun _ => Err ValueError) "2024-01-01T00:00:00+00:00" "a.txt" example_state.1 example_state.2)
    as (r & p' & w' & Hrun & Hv).
  - exact example_reachable.
  - reflexivity.
  - intros H. apply elem_of_empty in H. destruct H.
  - exists r, p', w'. split; [exact Hrun|]. split; [exact Hv|]. reflexivity.
Defined.

(** Removing a committed file and then adding it again loses the file: both
    calls return, and the commit applies the additions before the removals. *)
Theorem remove_then_add_is_lost {W : Type} `{!ManifestStorage W}
    (dateutil_parser isoparse : string -> option Z) (isoformat : Z -> string)
    (write_table : list ParquetRow -> bytes) (read_table : bytes -> res (list ParquetRow))
    (time path : string) (o : ObjectMetadata) (p : provider) (w : W)
    (Hreach : reachable dateutil_parser isoparse isoformat write_table read_table (p, w))
    (Hwritable : writable p = true) (Hover : allow_overwrites p = true)
    (Hfile : dmem (files p) path = true) :
  exists p2 r p' w',
    (remove_file path ;;; add_file path (Plain o)) p = (Ok tt, p2) /\
    commit_updates isoformat write_table time (p2, w) = (r, (p', w')) /\ dget (files p') path = None.
Proof.
  set (p1 := with_pending (pending_adds p) ({[path]} ∪ pending_removes p) p).
  assert (remove_file path p = (Ok tt, p1)) as H1 by (unfold remove_file; by rewrite Hwritable, Hfile).
  destruct (add_file path (Plain o) p1) as [r2 p2] eqn:H2.
  apply (reach_op _ _ _ _ _ _ (OpRemove path)) in Hreach; [|exact I].
  apply (reach_op _ _ _ _ _ _ (OpAdd path (Plain o))) in Hreach; [|exact I].
  cbn [run_op fst snd] in Hreach. rewrite H1 in Hreach. cbn [snd] in Hreach. rewrite H2 in Hreach. cbn [snd] in Hreach.
  unfold add_file in H2. change (writable p1) with (writable p) in H2.
  change (allow_overwrites p1) with (allow_overwrites p) in H2. rewrite Hwritable, Hover in H2.
  cbn [negb andb] in H2. injection H2 as <- H2.
  apply reachable_wf in Hreach as [Hw Ha]. cbn [fst] in Hw, Ha.
  destruct (commit_updates_spec dateutil_parser isoparse isoformat write_table time p2 w Hw Ha)
    as (p' & r & w' & Hrun & _ & _ & _ & Hf & _).
  exists p2, r, p', w'. split; [|split; [done|]].
  - unfold mbind. rewrite H1. unfold add_file. change (writable p1) with (writable p).
    change (allow_overwrites p1) with (allow_overwrites p). rewrite Hwritable, Hover. cbn [negb andb]. by subst p2.
  - rewrite Hf. unfold committed. rewrite bool_decide_eq_true_2; [done|]. subst p2. cbn. set_solver.
Qed.

Definition overwrite_state : provider * gmap string bytes :=
  (mkProvider [] [] ∅ "data" true true JSONL, ∅).

Lemma remove_then_add_is_lost_witness :
  let s := (commit_updates (fun _ => "") (fun _ => []) "t1"
              (run_op (fun _ => "") (fun _ => []) (OpAdd "a.txt" (Plain example_object)) overwrite_state)).2 in
  exists p2 r p' w',
    (remove_file "a.txt" ;;; add_file "a.txt" (Plain example_object)) s.1 = (Ok tt, p2) /\
    commit_updates (fun _ => "") (fun _ => []) "t2" (p2, s.2) = (r, (p', w')) /\
    dget (files p') "a.txt" = None.
Proof.
  intros s. apply (remove_then_add_is_lost example_parser (fun _ => None) (fun _ => "") (fun _ => [])
    (fun _ => Err ValueError) "t2" "a.txt" example_object s.1 s.2).
  - rewrite <- (surjective_pairing s).
    apply (reach_op _ _ _ _ _ (run_op _ _ _ _) (OpCommit "t1")); [|exact I].
    apply reach_op; [|exact I]. by eapply (reach_init _ _ _ _ _ "data" true true "jsonl").
  - vm_compute. reflexivity.
  - vm_compute. reflexivity.
  - vm_compute. reflexivity.
Defined.
