(* ===== verification/Generator.v ===== *)
(** * The manifest generator ([generators/manifest_metadata.py])

    A manifest is generated by listing a storage provider, whole or in
    partitions that are listed concurrently, adding every object to a manifest
    provider and committing it.  The threads of the partitions interleave as a
    schedule says: each entry picks the partition that handles its next
    object. *)
From S2P Require Import Prelude PyDict PyPath Types Utils Json Listing ListingProofs Manifest ManifestProofs ManifestFiles.
Import ManifestMetadataProvider.

(** ** Definitions *)
(** [_generate_manifest_part_body]: the spread copies the dictionary before
    [pop] takes the length from it *)
Definition part_dict (o : ObjectMetadata) : dict := to_dict o ++ [("size_bytes", JInt (content_length o))].
Definition generate_manifest_part_body (l : list ObjectMetadata) : bytes :=
  encode_utf8 (join (String "010" "") (map (fun o => dumps (JDict (part_dict o))) l)).

(** [list(zip([""] + partition_keys, partition_keys + [None]))] *)
Definition boundaries (ks : list string) : list (option string * option string) :=
  zip (map Some ("" :: ks)) (map Some ks ++ [None]).

(** Manifest files are not tracked *)
Definition tracked (o : ObjectMetadata) : bool := bool_decide (DEFAULT_MANIFEST_BASE_DIR ∉ split slash (key o)).
Definition add_object (o : ObjectMetadata) : M provider unit :=
  if tracked o then add_file (key o) (Plain o) else mret tt.

(** A thread of [process_partition]: the objects its listing still yields, the
    exception the listing ends with, and the exception that ended the thread *)
Record partition := mkPartition { todo : list ObjectMetadata; ending : option exc; failed : option exc }.
Definition start_partition (l : listing) : partition := mkPartition (yielded l) (raised l) None.
(** One iteration of its loop *)
Definition partition_step (t : partition) (p : provider) : partition * provider :=
  match todo t with
  | [] => (t, p)
  | o :: os =>
      match add_object o p with
      | (Ok _, p') => (mkPartition os (ending t) None, p')
      | (Err e, p') => (mkPartition [] None (Some e), p')
      end
  end.
Fixpoint drain (n : nat) (t : partition) (p : provider) : partition * provider :=
  match n with 0 => (t, p) | S n' => let '(t', p') := partition_step t p in drain n' t' p' end.
(** What [future.result()] raises *)
Definition partition_error (t : partition) : option exc := match failed t with Some e => Some e | None => ending t end.

Definition pick (i : nat) (s : list partition * provider) : list partition * provider :=
  match s.1 !! i with
  | Some t => let '(t', p') := partition_step t s.2 in (<[ i := t' ]> s.1, p')
  | None => s
  end.
(** The threads run by the schedule, then to their ends one after the other *)
Fixpoint finish_all (ts : list partition) (p : provider) : list partition * provider :=
  match ts with
  | [] => ([], p)
  | t :: ts' => let '(t', p1) := drain (length (todo t)) t p in
                let '(ts'', p2) := finish_all ts' p1 in (t' :: ts'', p2)
  end.
Definition run_partitions (schedule : list nat) (ts : list partition) (p : provider) : list partition * provider :=
  let '(ts', p') := fold_left (fun s i => pick i s) schedule (ts, p) in finish_all ts' p'.

Section Generate.
Context {W : Type} `{!ManifestStorage W}.
Context (dateutil_parser isoparse : string -> option Z) (isoformat : Z -> string).
Context (write_table : list ParquetRow -> bytes) (read_table : bytes -> res (list ParquetRow)).
(** [data_storage_provider.list_objects("", start_after, end_at, show_attributes=True)] *)
Context (list_objects : option string -> option string -> listing).

Definition first_error (l : list (option exc)) : option exc := head (omap id l).
Definition generate_entries (schedule : list nat) (partition_keys : option (list string)) : M provider unit :=
  fun p =>
  match partition_keys with
  | Some ks =>
      let '(ts, p') := run_partitions schedule (map (fun b => start_partition (list_objects b.1 b.2)) (boundaries ks)) p in
      match first_error (map partition_error ts) with Some e => (Err e, p') | None => (Ok tt, p') end
  | None =>
      let l := list_objects None None in
      match mfor (yielded l) add_object p with
      | (Err e, p') => (Err e, p')
      | (Ok _, p') => match raised l with Some e => (Err e, p') | None => (Ok tt, p') end
      end
  end.

(** [generate_and_write_manifest]; a composite client has no storage provider *)
Definition generate_and_write_manifest (single_clients : bool) (time : string) (schedule : list nat) (partition_keys : option (list string))
    (format : ManifestFormat) (allow_overwrites : bool) (w : W) : res unit * option provider * W :=
  if negb single_clients then (Err ValueError, None, w)
  else match init dateutil_parser isoparse read_table "" true allow_overwrites (format_value format) w with
  | Err e => (Err e, None, w)
  | Ok p =>
      match generate_entries schedule partition_keys p with
      | (Err e, p') => (Err e, Some p', w)
      | (Ok _, p') => let '(r, (p'', w')) := commit_updates isoformat write_table time (p', w) in (r, Some p'', w')
      end
  end.
End Generate.

(** ** The listing of the partitions *)
(** What a listing promises: the objects in the range, when the range is one *)
Definition lists (os : list ObjectMetadata) (list_objects : option string -> option string -> listing) : Prop :=
  forall s e, (forall x y, s = Some x -> e = Some y -> str_lt x y) ->
    raised (list_objects s e) = None /\
    forall o, o ∈ yielded (list_objects s e) <-> o ∈ os /\ in_range s e (key o).

Lemma boundaries_cons k ks : boundaries (k :: ks) = (Some "", Some k) :: zip (map Some (k :: ks)) (map Some ks ++ [None]).
Proof. done. Qed.
Lemma boundaries_from s ks b : b ∈ zip (map Some (s :: ks)) (map Some ks ++ [None]) -> StronglySorted str_lt (s :: ks) ->
  forall x y, b.1 = Some x -> b.2 = Some y -> str_lt x y.
Proof.
  revert s. induction ks as [|k ks IH]; intros s; cbn [map app zip zip_with].
  - intros ->%list_elem_of_singleton _ x y _. done.
  - intros [->|Hin]%elem_of_cons [Hs Hk]%StronglySorted_inv; [|by apply (IH k)].
    intros x y [= <-] [= <-]. by apply Forall_cons in Hk as [? _].
Qed.
(** Every key is in one of the partitions, however the keys are chosen *)
Lemma boundaries_cover s ks k : skipped (Some s) k = false -> exists b, b ∈ zip (map Some (s :: ks)) (map Some ks ++ [None]) /\ in_range b.1 b.2 k.
Proof.
  revert s. induction ks as [|q ks IH]; intros s Hs; cbn [map app zip zip_with].
  - exists (Some s, None). split; [by apply list_elem_of_singleton|done].
  - destruct (past_end (Some q) k) eqn:Eq.
    + destruct (IH q) as (b & Hb & Hin); [|exists b; split; [by right|done]].
      unfold skipped, past_end in *. destruct q as [|a q]; [done|]. cbn in *. by rewrite str_ltb_leb in Eq; apply negb_true_iff in Eq.
    + exists (Some s, Some q). split; [by left|done].
Qed.

(** ** What is added *)
(** The entry of an object in the manifest *)
Definition entry (o : ObjectMetadata) : ManifestObjectMetadata :=
  new_ManifestObjectMetadata (mkObjectMetadata (key o) (content_length o) (last_modified o) (type o) (content_type o) (etag o) None (metadata o) None)
    (Some (key o)).
Section Adds.
Context (p0 : provider) (Hwritable : writable p0 = true).
Context (os : list ObjectMetadata) (Hkeys : forall a b, a ∈ os -> b ∈ os -> key a = key b -> a = b).
Context (Hfree : allow_overwrites p0 = true \/ forall o, o ∈ os -> tracked o = true -> dmem (files p0) (key o) = false).
(** The provider with the entries of [done] pending *)
Record added (done : ObjectMetadata -> Prop) (p : provider) : Prop := {
  ad_files : files p = files p0;
  ad_removes : pending_removes p = pending_removes p0;
  ad_writable : writable p = writable p0;
  ad_overwrites : allow_overwrites p = allow_overwrites p0;
  ad_path : manifest_path p = manifest_path p0;
  ad_format : manifest_format p = manifest_format p0;
  ad_wf : wf p /\ adds_ok p;
  ad_some o : o ∈ os -> done o -> tracked o = true -> dget (pending_adds p) (key o) = Some (entry o);
  ad_only k m : dget (pending_adds p) k = Some m -> dget (pending_adds p0) k = Some m \/
    exists o, o ∈ os /\ done o /\ tracked o = true /\ key o = k /\ m = entry o;
}.
Lemma add_object_added done p o :
  added done p -> o ∈ os -> exists p', add_object o p = (Ok tt, p') /\ added (fun x => done x \/ x = o) p'.
Proof using Hwritable Hkeys Hfree.
  intros A Ho. unfold add_object. destruct (tracked o) eqn:Et.
  - unfold add_file. rewrite (ad_writable _ _ A), Hwritable. cbn [negb].
    assert (negb (allow_overwrites p) && dmem (files p) (key o) = false) as ->.
    { rewrite (ad_overwrites _ _ A), (ad_files _ _ A). destruct Hfree as [->|Hf]; [done|]. by rewrite Hf, andb_false_r. }
    eexists. split; [reflexivity|]. destruct A as [A1 A2 A3 A4 A5 A6 [A7 A8] A9 A10]. split; try done; cbn [pending_adds with_pending].
    + eapply (add_file_wf (key o) (Plain o) p (Ok tt)); [|done|done|done]. unfold add_file. rewrite A3, Hwritable. cbn [negb].
      assert (negb (allow_overwrites p) && dmem (files p) (key o) = false) as ->; [|done].
      rewrite A4, A1. destruct Hfree as [->|Hf]; [done|]. by rewrite Hf, andb_false_r.
    + intros o' Ho' Hd Ht. rewrite dget_dset. destruct (decide (key o' = key o)) as [E|Hne].
      * by rewrite (Hkeys o' o).
      * apply A9; [done| |done]. by destruct Hd as [Hd| ->].
    + intros k m. rewrite dget_dset. destruct (decide (k = key o)) as [->|]; [intros [= <-]; right; exists o; naive_solver|].
      intros [H|(o' & H)]%A10; [by left|right; exists o'; naive_solver].
  - exists p. split; [done|]. destruct A as [A1 A2 A3 A4 A5 A6 A7 A9 A10]. split; try done.
    + intros o' Ho' [Hd| ->] Ht; [by apply A9|congruence].
    + intros k m [H|(o' & H)]%A10; [by left|right; exists o'; naive_solver].
Qed.
Lemma added_ext done done' p : (forall o, o ∈ os -> done o <-> done' o) -> added done p -> added done' p.
Proof.
  intros Hiff [A1 A2 A3 A4 A5 A6 A7 A9 A10]. split; try done.
  - intros o Ho Hd. apply A9; [done|]. by apply Hiff.
  - intros k m [H|(o' & H1 & H2 & H3)]%A10; [by left|right]. exists o'. split; [done|]. split; [by apply Hiff|done].
Qed.
Lemma add_all_added done l p :
  added done p -> (forall o, o ∈ l -> o ∈ os) -> exists p', mfor l add_object p = (Ok tt, p') /\ added (fun x => done x \/ x ∈ l) p'.
Proof using Hwritable Hkeys Hfree.
  revert done p. induction l as [|o l IH]; intros done p A Hl; cbn [mfor].
  { exists p. split; [done|]. eapply added_ext; [|exact A]. set_solver. }
  unfold mbind. destruct (add_object_added done p o A) as (p1 & -> & A1); [by apply Hl; left|].
  destruct (IH _ p1 A1) as (p2 & -> & A2); [set_solver|]. exists p2. split; [done|]. eapply added_ext; [|exact A2]. set_solver.
Qed.

(** ** The threads *)
Definition part_ok (t : partition) : Prop := failed t = None /\ ending t = None /\ forall o, o ∈ todo t -> o ∈ os.
Lemma partition_step_ok done t p :
  added done p -> part_ok t ->
  exists done' t' p', partition_step t p = (t', p') /\ added done' p' /\ part_ok t' /\ length (todo t') = pred (length (todo t)) /\
    (forall o, done o -> done' o) /\ forall o, o ∈ todo t -> done' o \/ o ∈ todo t'.
Proof using Hwritable Hkeys Hfree.
  intros A (Hf & He & Ht). unfold partition_step. destruct t as [[|o l] en fa]; cbn in *.
  { exists done, (mkPartition [] en fa), p. split_and!; try done. set_solver. }
  destruct (add_object_added done p o A) as (p1 & -> & A1); [set_solver|].
  exists (fun x => done x \/ x = o), (mkPartition l en None), p1. split_and!; try done; [|set_solver|set_solver].
  split_and!; [done|done|set_solver].
Qed.
Lemma drain_ok n done t p :
  added done p -> part_ok t -> length (todo t) <= n ->
  exists done' t' p', drain n t p = (t', p') /\ added done' p' /\ part_ok t' /\
    (forall o, done o -> done' o) /\ forall o, o ∈ todo t -> done' o.
Proof using Hwritable Hkeys Hfree.
  revert done t p. induction n as [|n IH]; intros done t p A Hok Hn; cbn [drain].
  { exists done, t, p. split_and!; try done. destruct (todo t); [set_solver|cbn in Hn; lia]. }
  destruct (partition_step_ok done t p A Hok) as (d1 & t1 & p1 & -> & A1 & Hok1 & Hlen & Hm1 & Hc1).
  destruct (IH d1 t1 p1 A1 Hok1) as (d2 & t2 & p2 & -> & A2 & Hok2 & Hm2 & Hc2); [lia|].
  exists d2, t2, p2. split_and!; try done; [by auto|]. intros o [?|?]%Hc1; auto.
Qed.
Lemma finish_all_ok done ts p :
  added done p -> Forall part_ok ts ->
  exists done' ts' p', finish_all ts p = (ts', p') /\ added done' p' /\ Forall part_ok ts' /\
    (forall o, done o -> done' o) /\ forall t o, t ∈ ts -> o ∈ todo t -> done' o.
Proof using Hwritable Hkeys Hfree.
  intros A Hts. revert done p A. induction Hts as [|t ts Hok Hts IH]; intros done p A; cbn [finish_all].
  { exists done, [], p. split_and!; try done. set_solver. }
  destruct (drain_ok (length (todo t)) done t p A Hok) as (d1 & t1 & p1 & -> & A1 & Hok1 & Hm1 & Hc1); [done|].
  destruct (IH d1 p1 A1) as (d2 & ts2 & p2 & -> & A2 & Hok2 & Hm2 & Hc2).
  exists d2, (t1 :: ts2), p2. split_and!; try done; [by constructor|by auto|]. intros t' o [->|Ht]%elem_of_cons; eauto.
Qed.
Lemma pick_ok i done ts p :
  added done p -> Forall part_ok ts ->
  exists done' ts' p', pick i (ts, p) = (ts', p') /\ added done' p' /\ Forall part_ok ts' /\
    (forall o, done o -> done' o) /\ forall t o, t ∈ ts -> o ∈ todo t -> done' o \/ exists t', t' ∈ ts' /\ o ∈ todo t'.
Proof using Hwritable Hkeys Hfree.
  intros A Hts. unfold pick. cbn [fst snd]. destruct (ts !! i) as [t|] eqn:Ei; [|exists done, ts, p; split_and!; eauto].
  assert (part_ok t) as Hok by by eapply Forall_lookup_1.
  destruct (partition_step_ok done t p A Hok) as (d1 & t1 & p1 & -> & A1 & Hok1 & Hlen & Hm1 & Hc1).
  exists d1, (<[ i := t1 ]> ts), p1. split_and!; try done; [by apply Forall_insert|].
  assert (i < length ts) as Hi by by eapply lookup_lt_Some.
  intros t' o (j & Hj)%list_elem_of_lookup Ho. destruct (decide (j = i)) as [->|Hne].
  - simplify_eq. destruct (Hc1 o Ho) as [|Ho1]; [by left|right]. exists t1. split; [|done].
    apply list_elem_of_lookup. exists i. by apply list_lookup_insert_eq.
  - right. exists t'. split; [|done]. apply list_elem_of_lookup. exists j. by rewrite list_lookup_insert_ne.
Qed.
Lemma schedule_ok schedule done ts p :
  added done p -> Forall part_ok ts ->
  exists done' ts' p', fold_left (fun s i => pick i s) schedule (ts, p) = (ts', p') /\ added done' p' /\ Forall part_ok ts' /\
    (forall o, done o -> done' o) /\ forall t o, t ∈ ts -> o ∈ todo t -> done' o \/ exists t', t' ∈ ts' /\ o ∈ todo t'.
Proof using Hwritable Hkeys Hfree.
  revert done ts p. induction schedule as [|i l IH]; intros done ts p A Hts; cbn [fold_left]; [exists done, ts, p; split_and!; eauto|].
  destruct (pick_ok i done ts p A Hts) as (d1 & ts1 & p1 & -> & A1 & Hts1 & Hm1 & Hc1).
  destruct (IH d1 ts1 p1 A1 Hts1) as (d2 & ts2 & p2 & -> & A2 & Hts2 & Hm2 & Hc2).
  exists d2, ts2, p2. split_and!; try done; [by auto|]. intros t o Ht Ho. destruct (Hc1 t o Ht Ho) as [|(t' & Ht' & Ho')]; eauto.
Qed.
Lemma run_partitions_ok schedule ts p :
  added (fun _ => False) p -> Forall part_ok ts -> (forall o, o ∈ os -> exists t, t ∈ ts /\ o ∈ todo t) ->
  exists ts' p', run_partitions schedule ts p = (ts', p') /\ added (fun _ => True) p' /\ Forall part_ok ts'.
Proof using Hwritable Hkeys Hfree.
  intros A Hts Hcover. unfold run_partitions.
  destruct (schedule_ok schedule _ ts p A Hts) as (d1 & ts1 & p1 & -> & A1 & Hts1 & Hm1 & Hc1).
  destruct (finish_all_ok d1 ts1 p1 A1 Hts1) as (d2 & ts2 & p2 & -> & A2 & Hts2 & Hm2 & Hc2).
  exists ts2, p2. split_and!; try done. eapply added_ext; [|exact A2]. intros o Ho. split; [done|]. intros _.
  destruct (Hcover o Ho) as (t & Ht & Hot). destruct (Hc1 t o Ht Hot) as [|(t' & Ht' & Ho')]; eauto.
Qed.
Lemma no_errors ts : Forall part_ok ts -> first_error (map partition_error ts) = None.
Proof.
  induction 1 as [|t ts (Hf & He & _) _ IH]; [done|]. cbn. unfold partition_error. by rewrite Hf, He.
Qed.
End Adds.

Lemma init_state {W : Type} `{!ManifestStorage W} dateutil_parser isoparse read_table path overwrites format (w : W) p0 :
  init dateutil_parser isoparse read_table path true overwrites (format_value format) w = Ok p0 ->
  (forall os, added p0 os (fun _ => False) p0) /\ writable p0 = true /\ allow_overwrites p0 = overwrites /\ manifest_path p0 = path /\
  manifest_format p0 = format /\ pending_removes p0 = ∅ /\ pending_adds p0 = [].
Proof.
  intros Hi. pose proof (reach_init dateutil_parser isoparse (fun _ => "") (fun _ => []) read_table _ _ _ _ w p0 Hi) as Hr%reachable_wf.
  unfold init in Hi. destruct (get_format_handler _) as [f|] eqn:Ef; cbn in Hi; [|done].
  destruct (load_manifest _ _ _ _ _); cbn in Hi; [|done]. injection Hi as <-. split.
  - intros os. split; done.
  - split_and!; try done. destruct format; vm_compute in Ef; by injection Ef as <-.
Qed.
Lemma generate_entries_added list_objects schedule partition_keys p0 (Hw : writable p0 = true) os
    (Hkeys : forall a b, a ∈ os -> b ∈ os -> key a = key b -> a = b)
    (Hfree : allow_overwrites p0 = true \/ forall o, o ∈ os -> tracked o = true -> dmem (files p0) (key o) = false) :
  lists os list_objects -> (forall ks, partition_keys = Some ks -> StronglySorted str_lt ("" :: ks)) -> added p0 os (fun _ => False) p0 ->
  exists p, generate_entries list_objects schedule partition_keys p0 = (Ok tt, p) /\ added p0 os (fun _ => True) p.
Proof.
  intros Hlists Hsort A. unfold generate_entries. destruct partition_keys as [ks|].
  - specialize (Hsort ks eq_refl). destruct (run_partitions_ok p0 Hw os Hkeys Hfree schedule
      (map (fun b => start_partition (list_objects b.1 b.2)) (boundaries ks)) p0 A) as (ts & p & -> & A' & Hok).
    + apply Forall_map, Forall_forall. intros b Hb. destruct (Hlists b.1 b.2) as [Hr Ho]; [by apply (boundaries_from "" ks)|].
      split_and!; [done|done|]. intros o [? _]%Ho. done.
    + intros o Ho. destruct (boundaries_cover "" ks (key o)) as (b & Hb & Hin); [done|]. exists (start_partition (list_objects b.1 b.2)).
      split; [apply list_elem_of_fmap; by exists b|]. apply Hlists; [by apply (boundaries_from "" ks)|done].
    + exists p. by rewrite (no_errors os ts Hok).
  - destruct (Hlists None None) as [Hr Ho]; [done|]. 
    destruct (add_all_added p0 Hw os Hkeys Hfree _ (yielded (list_objects None None)) p0 A) as (p & -> & A'); [by intros o [? _]%Ho|].
    exists p. rewrite Hr. split; [done|]. eapply added_ext; [|exact A']. intros o Hos. split; [done|]. intros _. right. by apply Ho.
Qed.


Definition range_listing (os : list ObjectMetadata) (s e : option string) : listing :=
  mkListing (filter (fun o => skipped s (key o) = false /\ past_end e (key o) = false) os) None.
Lemma range_listing_lists os : lists os (range_listing os).
Proof. intros s e _. split; [done|]. intros o. cbn [yielded range_listing]. rewrite list_elem_of_filter. unfold in_range. tauto. Qed.
Definition generated_objects : list ObjectMetadata :=
  [new_ObjectMetadata ".msc_manifests/t/i.json" 9 0; new_ObjectMetadata "a" 1 0; new_ObjectMetadata "b" 2 0; new_ObjectMetadata "c/d" 3 0].
Definition empty_manifest : provider := mkProvider [] [] ∅ "" true false JSONL.

(** The keys are not sorted: the providers refuse a range whose end is not after
    its start, and with keys in another order nothing is generated. *)
Definition checked_listing (os : list ObjectMetadata) (s e : option string) : listing :=
  match s, e with
  | Some a, Some b => if str_ltb a b then range_listing os s e else mkListing [] (Some ValueError)
  | _, _ => range_listing os s e
  end.
Theorem unsorted_partitions_raise :
  (generate_entries (checked_listing generated_objects) [] (Some ["a"; "b"]) empty_manifest).1 = Ok tt /\
  (generate_entries (checked_listing generated_objects) [] (Some ["b"; "a"]) empty_manifest).1 = Err ValueError.
Proof. split; vm_compute; reflexivity. Qed.
