(* ===== verification/Client.v ===== *)
(** * The single storage client ([client/single.py])

    [SingleStorageClient] over a storage provider, an optional metadata
    provider, an optional cache and optional replicas.  The providers are
    interfaces, as in [types.py]: [StorageProvider] and [MetadataProvider];
    [base_provider], [posix_provider] and [manifest_provider] are their
    instances.

    The state of a client is that of its parts.  Reading the clock and the
    mode of the current directory are parameters.  The sync that a recursive
    delete runs is a parameter too: it is modelled in [Sync]. *)
From S2P Require Import Prelude PyPath Types Utils Retry Listing Provider PosixFs PosixFile Cache Manifest Replica.

(** ** Interfaces *)
Class StorageProvider (W : Type) := {
  pv_get_object : string -> option Range -> W -> res bytes;
  pv_put_object : string -> bytes -> option attributes -> M W unit;
  pv_copy_object : string -> string -> M W unit;
  pv_delete_object : string -> M W unit;
  pv_delete_objects : list string -> M W unit;
  pv_make_symlink : string -> string -> M W unit;
  pv_get_object_metadata : string -> bool -> W -> res ObjectMetadata;
  pv_is_file : string -> W -> res bool;
  pv_glob : string -> option string -> W -> res (list string);
  pv_list_objects : string -> option string -> option string -> bool -> option string -> bool -> SymlinkHandling ->
    W -> listing;
  pv_list_objects_recursive : string -> option string -> option string -> nat -> nat -> SymlinkHandling ->
    W -> option listing;
  pv_upload_file : string -> io -> option attributes -> M W unit;
  pv_download_file : string -> string -> option ObjectMetadata -> M W unit;
  pv_download_buffer : string -> option ObjectMetadata -> W -> bytes * res unit;
  pv_upload_files : list string -> list string -> option (list (option attributes)) -> Z -> M W unit;
  pv_download_files : list string -> list string -> option (list (option ObjectMetadata)) -> Z -> M W unit;
  (** only of the POSIX provider *)
  pv_rmtree : string -> M W unit;
}.

Class MetadataProvider (P W : Type) := {
  mp_realpath : P -> string -> res ResolvedPath;
  mp_generate_physical_path : P -> string -> bool -> ResolvedPath;
  mp_get_object_metadata : P -> string -> bool -> res ObjectMetadata;
  mp_list_objects : P -> string -> option string -> option string -> bool -> option string -> listing;
  mp_glob : P -> string -> option string -> res (list string);
  mp_add_file : string -> ObjectMetadata -> M P unit;
  mp_remove_file : string -> M P unit;
  mp_commit_updates : M (P * W) unit;
  mp_allow_overwrites : P -> bool;
  mp_should_use_soft_delete : P -> bool;
  (** what an assignment to the key of an object does that the provider has
      returned: nothing, if it returns copies *)
  mp_set_key : ObjectMetadata -> string -> P -> P;
}.

(** ** Instances *)
(** [BaseStorageProvider]; the thread pools complete as [completion] says, and
    [fuel] bounds a recursive listing *)
Section BaseInstance.
Context {W : Type} `{!StorageBackend W} (base_path : string).
Context (compile : string -> res (attributes -> res bool)) (globmatch : string -> string -> bool).
Context (completion : list (nat * M W unit) -> list (nat * M W unit)) (finished : nat -> string -> bool) (fuel : nat).

Definition base_provider : StorageProvider W := {|
  pv_get_object := get_object base_path;
  pv_put_object := fun p b => put_object base_path p b None None;
  pv_copy_object := copy_object base_path;
  pv_delete_object := fun p => delete_object base_path p None;
  pv_delete_objects := delete_objects base_path;
  pv_make_symlink := Provider.make_symlink base_path;
  pv_get_object_metadata := Provider.get_object_metadata base_path;
  pv_is_file := Provider.is_file base_path;
  pv_glob := provider_glob base_path globmatch compile;
  pv_list_objects := list_objects base_path compile;
  pv_list_objects_recursive := fun p s e n a h => list_objects_recursive base_path p s e n a h finished fuel;
  pv_upload_file := Provider.upload_file base_path;
  pv_download_file := Provider.download_file base_path;
  pv_download_buffer := download_buffer base_path;
  pv_upload_files := Provider.upload_files base_path completion;
  pv_download_files := Provider.download_files base_path completion;
  pv_rmtree := fun _ => mraise NotImplementedError;
|}.
End BaseInstance.

(** [PosixFileStorageProvider] overrides [is_file], [glob] and [rmtree]. *)
Definition posix_provider (base_path : string) (limit : nat) (compile : string -> res (attributes -> res bool))
    (glob_glob : string -> posix -> list string)
    (completion : list (nat * M posix unit) -> list (nat * M posix unit)) (finished : nat -> string -> bool) (fuel : nat)
    : StorageProvider posix :=
  let _ := posix_backend base_path limit in
  let b := base_provider base_path compile (fun _ _ => false) completion finished fuel in {|
    pv_get_object := pv_get_object; pv_put_object := pv_put_object; pv_copy_object := pv_copy_object;
    pv_delete_object := pv_delete_object; pv_delete_objects := pv_delete_objects; pv_make_symlink := pv_make_symlink;
    pv_get_object_metadata := pv_get_object_metadata;
    pv_is_file := fun p w => Ok (posix_is_file base_path p w);
    pv_glob := posix_glob base_path glob_glob compile;
    pv_list_objects := pv_list_objects; pv_list_objects_recursive := pv_list_objects_recursive;
    pv_upload_file := pv_upload_file; pv_download_file := pv_download_file; pv_download_buffer := pv_download_buffer;
    pv_upload_files := pv_upload_files; pv_download_files := pv_download_files;
    pv_rmtree := posix_rmtree base_path;
  |}.

(** [ManifestMetadataProvider].  Its listings and [get_object_metadata] hand out
    the stored entries of files themselves, which differ in their keys, and
    copies of directories. *)
Definition set_entry_key (o : ObjectMetadata) (k : string) (m : ManifestObjectMetadata) : ManifestObjectMetadata :=
  if bool_decide (mom_key m = key o) && negb (bool_decide (type (base_metadata m) = "directory"))
  then mkManifestObjectMetadata (with_key k (base_metadata m)) (mom_physical_path m) else m.
Definition manifest_set_key (o : ObjectMetadata) (k : string) (p : ManifestMetadataProvider.provider)
    : ManifestMetadataProvider.provider :=
  ManifestMetadataProvider.with_files
    (map (fun e => (e.1, set_entry_key o k e.2)) (ManifestMetadataProvider.files p)) p.

Section ManifestInstance.
Context {W : Type} `{!ManifestStorage W}.
Context (compile : string -> res (attributes -> res bool)) (globmatch : string -> string -> bool).
Context (isoformat : Z -> string) (write_table : list ParquetRow -> bytes) (time : string).

Definition listing_of (r : res (list ObjectMetadata)) : listing :=
  match r with Ok l => mkListing l None | Err e => mkListing [] (Some e) end.
Definition manifest_provider : MetadataProvider ManifestMetadataProvider.provider W := {|
  mp_realpath := ManifestMetadataProvider.realpath;
  mp_generate_physical_path := fun _ => ManifestMetadataProvider.generate_physical_path;
  mp_get_object_metadata := ManifestMetadataProvider.get_object_metadata;
  mp_list_objects := fun p path s e d f => listing_of (ManifestMetadataProvider.list_objects compile p path s e d f);
  mp_glob := ManifestMetadataProvider.manifest_glob globmatch compile;
  mp_add_file := fun path o => ManifestMetadataProvider.add_file path (ManifestMetadataProvider.Plain o);
  mp_remove_file := ManifestMetadataProvider.remove_file;
  mp_commit_updates := ManifestMetadataProvider.commit_updates isoformat write_table time;
  mp_allow_overwrites := ManifestMetadataProvider.allow_overwrites;
  mp_should_use_soft_delete := fun _ => false;
  mp_set_key := manifest_set_key;
|}.
End ManifestInstance.

(** ** Definitions: the client *)

(** [_initialize_replicas]: the replicas in order of priority *)
Definition sorted_replicas (replicas : list Replica) : list Replica :=
  sort_by (fun a b => (read_priority a <=? read_priority b)%Z) replicas.

Section Client.
Context {W P : Type} `{!StorageProvider W} `{!MetadataProvider P W} `{!TempFiles W}.

Record config := mkConfig {
  cfg_profile : string;
  cfg_posix : bool;
  cfg_cache : option CacheManager.cfg;
  cfg_retry : option RetryConfig;
  cfg_replicas : list (replica_client W);
  (** [_replica_manager] is not [None] *)
  cfg_replica_manager : bool;
}.
Record client := mkClient {
  store : W;
  meta : option P;
  cache : Cache.world;
  uploads : manager W;
}.
Context (cfg : config).

(** Operations of the parts on the state of the client *)
Definition on_store {A} (m : M W A) : M client A := fun s =>
  let '(r, w) := m (store s) in (r, mkClient w (meta s) (cache s) (uploads s)).
Definition from_store {A} (f : W -> res A) : M client A := fun s => (f (store s), s).
Definition on_cache {A} (m : M Cache.world A) : M client A := fun s =>
  let '(r, c) := m (cache s) in (r, mkClient (store s) (meta s) c (uploads s)).
(** [None] raises: the metadata provider is not configured *)
Definition on_meta {A} (m : M P A) : M client A := fun s =>
  match meta s with
  | None => (Err RuntimeError, s)
  | Some p => let '(r, p') := m p in (r, mkClient (store s) (Some p') (cache s) (uploads s))
  end.
Definition from_meta {A} (f : P -> res A) : M client A := fun s =>
  match meta s with None => (Err RuntimeError, s) | Some p => (f p, s) end.
Definition has_meta (s : client) : bool := match meta s with Some _ => true | None => false end.
(** [if self._metadata_provider: m1 else: m2] *)
Definition if_meta {A} (m1 m2 : M client A) : M client A := fun s => if has_meta s then m1 s else m2 s.

(** [_is_cache_enabled] with the cache manager *)
Definition enabled_cache : option CacheManager.cfg := if cfg_posix cfg then None else cfg_cache cfg.

(** *** Path resolution *)
Definition resolve_read_path (logical_path : string) : M client string :=
  let! r := from_meta (fun p => mp_realpath p logical_path) in
  if resolved_exists r then mret (physical_path r) else mraise FileNotFoundError.

Definition resolve_write_path (logical_path : string) : M client string :=
  let! r := from_meta (fun p => mp_realpath p logical_path) in
  from_meta (fun p =>
    match state r with
    | EXISTS | DELETED =>
        if mp_allow_overwrites p then Ok (physical_path (mp_generate_physical_path p logical_path true))
        else Err FileExistsError
    | UNTRACKED => Ok (physical_path (mp_generate_physical_path p logical_path false))
    end).

(** [(obj_metadata.metadata or {}) | attributes] *)
Definition with_attributes (a : option attributes) (o : ObjectMetadata) : ObjectMetadata :=
  match a with
  | Some a =>
      if bool_decide (a = ∅) then o
      else mkObjectMetadata (key o) (content_length o) (last_modified o) (type o) (content_type o) (etag o)
             (storage_class o) (Some (a ∪ default ∅ (metadata o))) (symlink_target o)
  | None => o
  end.
Definition register_written_file (virtual_path physical : string) (a : option attributes) : M client unit :=
  let! o := from_store (pv_get_object_metadata physical true) in
  on_meta (mp_add_file virtual_path (with_attributes a o)).

(** [_register_written_files]: every task runs; the first failure to complete
    raises *)
Definition register_written_files (completion : list (nat * M client unit) -> list (nat * M client unit))
    (virtual_paths physical_paths : list string) (a : option (list (option attributes))) : M client unit :=
  fun s =>
  let tasks := imap (fun i '(v, p) =>
    (i, register_written_file v p (a ≫= fun l => default None (l !! i)))) (zip virtual_paths physical_paths) in
  let '(fs, s') := run_tasks (completion tasks) s in
  match fs with [] => (Ok tt, s') | (_, e) :: _ => (Err e, s') end.

(** *** Reading *)
Definition get_source_version (path : string) : M client (option string) :=
  let! o := if_meta (from_meta (fun p => mp_get_object_metadata p path false))
                    (from_store (pv_get_object_metadata path true)) in
  mret (etag o).

(** Whether the mode asks for the source version *)
Definition checks_version (c : CacheManager.cfg) (mode : SourceVersionCheckMode) : bool :=
  match mode with ENABLE => true | INHERIT => CacheManager.check_source_version c | DISABLE => false end.

Definition direct_read (path : string) (byte_range : option Range) : M client bytes :=
  from_store (pv_get_object path byte_range).

(** [_read_from_replica_or_primary] *)
Definition read_from_replica_or_primary (path : string) : M client bytes := fun s =>
  let '(r, (m, w)) := download_from_replica_or_primary (cfg_replicas cfg) path ToBuffer
    (fun f => pv_download_file path f None) (pv_download_buffer path None) (uploads s) (store s) in
  (r, mkClient w (meta s) (cache s) m).

(** A range read through the cache *)
Definition cached_range (c : CacheManager.cfg) (path : string) (r : Range) (mode : SourceVersionCheckMode) : M client bytes :=
  let! m := if checks_version c mode
            then let! o := from_store (pv_get_object_metadata path true) in mret (Some o)
            else mret None in
  let version := m ≫= etag in
  match m with
  | Some o =>
      if (offset r =? 0)%Z && (content_length o <=? size r)%Z then
        let! d := direct_read path None in
        on_cache (CacheManager.set c path (CacheManager.FromBytes d) version) ;;;
        mret (slice d 0 (content_length o))
      else
        let! d := (fun s => on_cache (CacheManager.read c (fun k r => pv_get_object k (Some r) (store s)) path version
                              (Some r) (Some (content_length o))) s) in
        match d with Some d => mret d | None => direct_read path (Some r) end
  | None =>
      let! d := (fun s => on_cache (CacheManager.read c (fun k r => pv_get_object k (Some r) (store s)) path version
                            (Some r) None) s) in
      match d with Some d => mret d | None => direct_read path (Some r) end
  end.

(** A read of a whole object through the cache *)
Definition cached_read (c : CacheManager.cfg) (path : string) (mode : SourceVersionCheckMode) : M client bytes :=
  let! version := if checks_version c mode then get_source_version path else mret None in
  let! d := (fun s => on_cache (CacheManager.read c (fun k r => pv_get_object k (Some r) (store s)) path version None None) s) in
  match d with
  | Some d => mret d
  | None =>
      let! d := if cfg_replica_manager cfg then read_from_replica_or_primary path else direct_read path None in
      on_cache (CacheManager.set c path (CacheManager.FromBytes d) version) ;;;
      mret d
  end.

(** [read] without its decorator *)
Definition read_body (path : string) (byte_range : option Range) (mode : SourceVersionCheckMode) : M client bytes :=
  let! path := if_meta (resolve_read_path path) (mret path) in
  match enabled_cache with
  | Some c =>
      match byte_range with
      | Some r => mtry (fun _ => true) (cached_range c path r mode) (fun _ => direct_read path byte_range)
      | None => cached_read c path mode
      end
  | None =>
      if cfg_replica_manager cfg then read_from_replica_or_primary path else direct_read path byte_range
  end.
Definition read (path : string) (byte_range : option Range) (mode : SourceVersionCheckMode) (s : client)
    : RetryOutcome bytes client := retry (cfg_retry cfg) (read_body path byte_range mode) s.

(** [info]; [cwd_mtime] is [os.path.getmtime(".")] *)
Definition info (cwd_mtime : Z) (path : string) (strict : bool) : M client ObjectMetadata :=
  if bool_decide (path = "") || bool_decide (path = ".") then
    mret (mkObjectMetadata "" 0 (if cfg_posix cfg then cwd_mtime else AWARE_DATETIME_MIN) "directory" None None None None None)
  else
    if_meta (from_meta (fun p => mp_get_object_metadata p path (negb strict)))
            (from_store (pv_get_object_metadata path strict)).

Definition is_file (path : string) : M client bool :=
  if_meta (let! r := from_meta (fun p => mp_realpath p path) in mret (resolved_exists r))
          (from_store (pv_is_file path)).

Definition is_empty (path : string) : M client bool := fun s =>
  let l := match meta s with
           | Some p => mp_list_objects p path None None false None
           | None => pv_list_objects path None None false None false FOLLOW (store s)
           end in
  match yielded l, raised l with
  | _ :: _, _ => (Ok false, s)
  | [], Some e => (Err e, s)
  | [], None => (Ok true, s)
  end.

(** *** Transfers *)

(** [download_file] to a local path, without its decorator *)
Definition download_file_body (remote_path local_path : string) : M client unit :=
  if_meta
    (let! p := resolve_read_path remote_path in
     let! m := from_meta (fun x => mp_get_object_metadata x remote_path false) in
     on_store (pv_download_file p local_path (Some m)))
    (if cfg_replica_manager cfg then
       (fun s =>
        let '(r, (m, w)) := download_from_replica_or_primary (cfg_replicas cfg) remote_path (ToPath local_path)
          (fun f => pv_download_file remote_path f None) (pv_download_buffer remote_path None) (uploads s) (store s) in
        (res_bind r (fun _ => Ok tt), mkClient w (meta s) (cache s) m))
     else on_store (pv_download_file remote_path local_path None)).
Definition download_file (remote_path local_path : string) (s : client) : RetryOutcome unit client :=
  retry (cfg_retry cfg) (download_file_body remote_path local_path) s.

(** [download_file] to a file object, without its decorator: the object is
    part of the state, so that another attempt appends to what a failed one
    wrote *)
Definition download_buffer_body (remote_path : string) : M (client * bytes) unit := fun '(s, buf) =>
  if has_meta s then
    match (let! p := resolve_read_path remote_path in
           let! m := from_meta (fun x => mp_get_object_metadata x remote_path false) in mret (p, m)) s with
    | (Err e, s1) => (Err e, (s1, buf))
    | (Ok (p, m), s1) => let '(b, r) := pv_download_buffer p (Some m) (store s1) in (r, (s1, buf ++ b))
    end
  else if cfg_replica_manager cfg then
    let '(r, (m, (w, buf'))) := download_into (cfg_replicas cfg) remote_path ToBuffer
      (fun f => pv_download_file remote_path f None) (pv_download_buffer remote_path None) (uploads s) (store s, buf) in
    (r, (mkClient w (meta s) (cache s) m, buf'))
  else let '(b, r) := pv_download_buffer remote_path None (store s) in (r, (s, buf ++ b)).
Definition download_fileobj (remote_path : string) (s : client) : RetryOutcome unit (client * bytes) :=
  retry (cfg_retry cfg) (download_buffer_body remote_path) (s, []).

(** [[l[i] for i in indices]] *)
Fixpoint select {A} (l : list A) (indices : list Z) : res (list A) :=
  match indices with
  | [] => Ok []
  | i :: js => match py_nth l i with
               | None => Err IndexError
               | Some x => res_bind (select l js) (fun xs => Ok (x :: xs))
               end
  end.
Definition select_opt {A} (l : option (list A)) (indices : list Z) : res (option (list A)) :=
  match l with None => Ok None | Some l => res_bind (select l indices) (fun x => Ok (Some x)) end.

(** [_download_files_batch] and [_upload_files_batch] without their decorator *)
Definition download_files_batch (remote_paths local_paths : list string)
    (ms : option (list (option ObjectMetadata))) (max_workers : Z) (indices : list Z) : M W unit :=
  let! rps := mlift (select remote_paths indices) in
  let! lps := mlift (select local_paths indices) in
  let! m := mlift (select_opt ms indices) in
  pv_download_files rps lps m max_workers.
Definition upload_files_batch (local_paths remote_paths : list string)
    (a : option (list (option attributes))) (max_workers : Z) (indices : list Z) : M W unit :=
  let! lps := mlift (select local_paths indices) in
  let! rps := mlift (select remote_paths indices) in
  let! x := mlift (select_opt a indices) in
  pv_upload_files lps rps x max_workers.

(** [list(range(len(l)))] *)
Definition all_indices {A} (l : list A) : list Z := map Z.of_nat (seq 0 (length l)).
(** A decorated batch on the state of the client; the batch functions return
    [None] when no attempt is made *)
Definition on_batch (batch : list Z -> M W unit) (indices : list Z) : M client unit := fun s =>
  let r := batch_retry batch (cfg_retry cfg) indices (store s) in
  (default (Ok tt) (outcome r), mkClient (Retry.world (final_state r)) (meta s) (cache s) (uploads s)).

(** A loop of calls that each return a value *)
Fixpoint mmap {S A B} (f : A -> M S B) (l : list A) : M S (list B) :=
  match l with
  | [] => mret []
  | x :: xs => let! y := f x in let! ys := mmap f xs in mret (y :: ys)
  end.

(** [download_files] *)
Definition download_files (remote_paths local_paths : list string) (ms : option (list (option ObjectMetadata)))
    (max_workers : Z) : M client unit :=
  if negb (length remote_paths =? length local_paths)%nat then mraise ValueError
  else if match ms with Some l => negb (length l =? length remote_paths)%nat | None => false end then mraise ValueError
  else
    if_meta
      (let! ps := mmap resolve_read_path remote_paths in
       on_batch (download_files_batch ps local_paths ms max_workers) (all_indices remote_paths))
      (if cfg_replica_manager cfg then
         mfor (zip remote_paths local_paths) (fun '(rp, lp) => fun s =>
           let r := download_file rp lp s in (default (Ok tt) (outcome r), final_state r))
       else on_batch (download_files_batch remote_paths local_paths ms max_workers) (all_indices remote_paths)).

(** [upload_file] without its decorator *)
Definition upload_file_body (remote_path : string) (f : io) (a : option attributes) : M client unit :=
  if_meta
    (let! p := resolve_write_path remote_path in
     on_store (pv_upload_file p f None) ;;;
     register_written_file remote_path p a)
    (on_store (pv_upload_file remote_path f a)).
Definition upload_file (remote_path : string) (f : io) (a : option attributes) (s : client) : RetryOutcome unit client :=
  retry (cfg_retry cfg) (upload_file_body remote_path f a) s.

(** [upload_files] *)
Definition upload_files (completion : list (nat * M client unit) -> list (nat * M client unit))
    (remote_paths local_paths : list string) (a : option (list (option attributes))) (max_workers : Z) : M client unit :=
  if negb (length remote_paths =? length local_paths)%nat then mraise ValueError
  else if match a with Some l => negb (length l =? length remote_paths)%nat | None => false end then mraise ValueError
  else
    if_meta
      (let! ps := mmap resolve_write_path remote_paths in
       on_batch (upload_files_batch local_paths ps None max_workers) (all_indices remote_paths) ;;;
       register_written_files completion remote_paths ps a)
      (on_batch (upload_files_batch local_paths remote_paths a max_workers) (all_indices remote_paths)).

(** *** Writing *)

(** [write] without its decorator *)
Definition write_body (path : string) (body : bytes) (a : option attributes) : M client unit :=
  if_meta
    (let! p := resolve_write_path path in
     on_store (pv_put_object p body None) ;;;
     register_written_file path p a)
    (on_store (pv_put_object path body a)).
Definition write (path : string) (body : bytes) (a : option attributes) (s : client) : RetryOutcome unit client :=
  retry (cfg_retry cfg) (write_body path body a) s.

Definition copy (src_path dest_path : string) : M client unit :=
  if_meta
    (let! src := resolve_read_path src_path in
     let! dest := resolve_write_path dest_path in
     on_store (pv_copy_object src dest) ;;;
     register_written_file dest_path dest None)
    (on_store (pv_copy_object src_path dest_path)).

(** [make_symlink]; [now] is [datetime.now] and [cwd] the current directory *)
Definition make_symlink (now : Z) (cwd : string) (path target : string) : M client unit :=
  if_meta
    (mtry is_FileNotFoundError
       (from_meta (fun p => res_bind (mp_get_object_metadata p path false) (fun _ =>
          if mp_allow_overwrites p then Ok tt else Err FileExistsError)))
       (fun _ => mret tt) ;;;
     let! t := mlift (encode_symlink_target cwd path target) in
     on_meta (mp_add_file path (mkObjectMetadata path 0 now "file" None None None None (Some t))))
    (on_store (pv_make_symlink path target)).

(** *** Deleting *)

(** What follows the deletion of a file: the cache and the replicas *)
Definition forget (virtual_path : string) : M client unit :=
  match enabled_cache with
  | Some c => on_cache (CacheManager.delete c virtual_path)
  | None => mret tt
  end ;;;
  if cfg_replica_manager cfg then on_store (delete_from_replicas (cfg_replicas cfg) virtual_path) else mret tt.

(** [delete]; [sync_delete] deletes what is below a path by a sync *)
Definition delete (cwd_mtime : Z) (sync_delete : string -> M client unit) (path : string) (recursive : bool) : M client unit :=
  let! o := info cwd_mtime path true in
  if recursive && bool_decide (type o = "directory") then
    sync_delete path ;;;
    if cfg_posix cfg then on_store (pv_rmtree path) else mret tt
  else if bool_decide (type o = "file") then
    if_meta
      (let! r := from_meta (fun p => mp_realpath p path) in
       (if resolved_exists r then mret tt else mraise FileNotFoundError) ;;;
       (fun s => if match meta s with Some p => mp_should_use_soft_delete p | None => false end
                 then (Ok tt, s) else on_store (pv_delete_object (physical_path r)) s) ;;;
       on_meta (mp_remove_file path))
      (on_store (pv_delete_object path)) ;;;
    forget path
  else if bool_decide (type o = "directory") then mraise ValueError
  else mraise FileNotFoundError.

(** The first loop of [delete_many]: the physical paths, and the entries to
    remove *)
Fixpoint collect_deletions (paths : list string) : M client (list string * gset string) :=
  match paths with
  | [] => mret ([], ∅)
  | p :: ps =>
      let! step := if_meta
        (let! r := from_meta (fun x => mp_realpath x p) in
         (fun s => (Ok (if resolved_exists r
                        then (if match meta s with Some x => mp_should_use_soft_delete x | None => false end
                              then [] else [physical_path r], {[p]})
                        else ([], ∅)), s)))
        (mret ([p], ∅)) in
      let! rest := collect_deletions ps in
      mret (step.1 ++ rest.1, step.2 ∪ rest.2)
  end.
Definition delete_many (paths : list string) : M client unit :=
  let! d := collect_deletions paths in
  (if bool_decide (d.1 = []) then mret tt else on_store (pv_delete_objects d.1)) ;;;
  mfor paths (fun p =>
    (if bool_decide (p ∈ d.2) then on_meta (mp_remove_file p) else mret tt) ;;;
    forget p).

(** *** Listing *)

(** [str(PurePosixPath("/") / key)] *)
Definition rooted (k : string) : string :=
  (if startswith k "//" && negb (startswith k "///") then "//" else "/") +:+ join "/" (names k).
(** The key that [_prepend_url_prefix] assigns *)
Definition url_key (k : string) : string :=
  if bool_decide (cfg_profile cfg = "__filesystem__") then rooted k
  else join_paths (MSC_PROTOCOL +:+ cfg_profile cfg) k.
(** [_prepend_url_prefix]: the object may be an entry of the metadata provider *)
Definition prepend_url_prefix (o : ObjectMetadata) : M client ObjectMetadata := fun s =>
  (Ok (with_key (url_key (key o)) o),
   mkClient (store s) (mp_set_key o (url_key (key o)) <$> meta s) (cache s) (uploads s)).

(** [PatternMatcher(patterns) if patterns else None] on a key *)
Definition excluded (patterns : PatternList) (k : string) : bool :=
  negb (bool_decide (patterns = [])) && negb (should_include_file patterns k).

(** [_filter_and_decorate] *)
Fixpoint decorate (include_url_prefix : bool) (patterns : PatternList) (os : list ObjectMetadata) : M client (list ObjectMetadata) :=
  match os with
  | [] => mret []
  | o :: os' =>
      if excluded patterns (key o) then decorate include_url_prefix patterns os'
      else
        let! o' := if include_url_prefix then prepend_url_prefix o else mret o in
        let! r := decorate include_url_prefix patterns os' in
        mret (o' :: r)
  end.
Definition filter_and_decorate (include_url_prefix : bool) (patterns : PatternList) (l : listing) (s : client) : listing * client :=
  match decorate include_url_prefix patterns (yielded l) s with
  | (Ok os, s') => (mkListing os (raised l), s')
  | (Err e, s') => (mkListing [] (Some e), s')
  end.

(** [_resolve_single_file] *)
Definition directory_path (path : string) : string := rstrip slash path +:+ "/".
Definition resolve_single_file (cwd_mtime : Z) (path : string) (start_after end_at : option string)
    (include_url_prefix : bool) (patterns : PatternList) : M client (option ObjectMetadata * option string) :=
  if bool_decide (path = "") then mret (None, Some path)
  else
    let! file := is_file path in
    if negb file then mret (None, Some (directory_path path))
    else if excluded patterns path then mret (None, None)
    else
      mtry is_FileNotFoundError
        (let! o := info cwd_mtime path true in
         if skipped start_after (key o) then mret (None, None)
         else if past_end end_at (key o) then mret (None, None)
         else
           let! o' := if include_url_prefix then prepend_url_prefix o else mret o in
           mret (Some o', Some path))
        (fun _ => mret (None, Some (directory_path path))).

(** A listing of a path that may be a single file; [objects] lists a directory *)
Definition list_path (cwd_mtime : Z) (path : string) (start_after end_at : option string) (include_url_prefix : bool)
    (patterns : PatternList) (objects : string -> client -> option listing) (s : client) : option (listing * client) :=
  match resolve_single_file cwd_mtime path start_after end_at include_url_prefix patterns s with
  | (Err e, s1) => Some (mkListing [] (Some e), s1)
  | (Ok (Some o, _), s1) => Some (mkListing [o] None, s1)
  | (Ok (None, None), s1) => Some (mkListing [] None, s1)
  | (Ok (None, Some p), s1) =>
      match objects p s1 with
      | None => None
      | Some l => Some (filter_and_decorate include_url_prefix patterns l s1)
      end
  end.

(** [list_recursive] *)
Definition list_recursive (cwd_mtime : Z) (path : string) (start_after end_at : option string)
    (max_workers look_ahead : nat) (include_url_prefix : bool) (follow_symlinks : option bool)
    (patterns : PatternList) (symlink_handling : SymlinkHandling) (s : client) : option (listing * client) :=
  match resolve_symlink_handling follow_symlinks symlink_handling with
  | Err e => Some (mkListing [] (Some e), s)
  | Ok h =>
      list_path cwd_mtime path start_after end_at include_url_prefix patterns
        (fun p s => match meta s with
                    | Some x => Some (mp_list_objects x p start_after end_at false None)
                    | None => pv_list_objects_recursive p start_after end_at max_workers look_ahead h (store s)
                    end) s
  end.

(** [list] *)
Definition list_files (cwd_mtime : Z) (prefix path : string) (start_after end_at : option string)
    (include_directories include_url_prefix : bool) (filter_expression : option string) (show_attributes : bool)
    (follow_symlinks : option bool) (patterns : PatternList) (symlink_handling : SymlinkHandling) (s : client)
    : option (listing * client) :=
  match resolve_symlink_handling follow_symlinks symlink_handling with
  | Err e => Some (mkListing [] (Some e), s)
  | Ok h =>
      if negb (bool_decide (path = "")) && negb (bool_decide (prefix = "")) then Some (mkListing [] (Some ValueError), s)
      else
        list_path cwd_mtime (if bool_decide (path = "") then prefix else path) start_after end_at include_url_prefix patterns
          (fun p s => Some match meta s with
                           | Some x => mp_list_objects x p start_after end_at include_directories filter_expression
                           | None => pv_list_objects p start_after end_at include_directories filter_expression
                                       show_attributes h (store s)
                           end) s
  end.

(** [glob] *)
Definition client_glob (pattern : string) (include_url_prefix : bool) (filter_expression : option string) : M client (list string) :=
  let! l := if_meta (from_meta (fun p => mp_glob p pattern filter_expression))
                    (from_store (pv_glob pattern filter_expression)) in
  mret (if include_url_prefix then map (join_paths (MSC_PROTOCOL +:+ cfg_profile cfg)) l else l).

(** *** Metadata, files and replicas *)

(** The loop of [commit_metadata] over the objects below a prefix *)
Definition add_objects (physical_base : string) (l : listing) : M client unit :=
  mfor (yielded l) (fun o =>
    on_meta (mp_add_file (lstrip slash (str_drop (String.length physical_base) (key o))) o)) ;;;
  match raised l with Some e => mraise e | None => mret tt end.
(** [commit_metadata] *)
Definition commit_metadata (prefix : option string) : M client unit := fun s =>
  match meta s with
  | None => (Ok tt, s)
  | Some p =>
      (match truthy prefix with
       | None => mret tt
       | Some x =>
           fun s => add_objects (physical_path (mp_generate_physical_path p "" false))
             (pv_list_objects (physical_path (mp_generate_physical_path p x false)) None None false None false FOLLOW (store s)) s
       end ;;;
       (fun s => match meta s with
                 | None => (Ok tt, s)
                 | Some p => let '(r, (p', w)) := mp_commit_updates (p, store s) in
                             (r, mkClient w (Some p') (cache s) (uploads s))
                 end)) s
  end.

(** Which file object [open] returns *)
Inductive opened := OpenPosixFile (path : string) | OpenObjectFile (remote_path : string).
Definition open_file (path : string) : opened := if cfg_posix cfg then OpenPosixFile path else OpenObjectFile path.
(** [get_posix_path]; [prepend] is [_prepend_base_path] of the provider *)
Definition get_posix_path (prepend : string -> string) (path : string) : M client (option string) :=
  if negb (cfg_posix cfg) then mret None
  else
    let! p := if_meta (let! r := from_meta (fun x => mp_realpath x path) in mret (physical_path r)) (mret path) in
    mret (Some (prepend p)).

(** The checks of [sync_from] *)
Definition sync_from_check (source_files : option (list string)) (patterns : option PatternList)
    (follow_symlinks : option bool) (symlink_handling : SymlinkHandling) : res SymlinkHandling :=
  if match source_files with Some (_ :: _) => true | _ => false end && match patterns with Some (_ :: _) => true | _ => false end
  then Err ValueError else resolve_symlink_handling follow_symlinks symlink_handling.

(** The replicas that [sync_replicas] copies to: none without replicas; no
    indices mean all of them *)
Definition sync_targets (replica_indices : option (list Z)) : res (list (replica_client W)) :=
  if bool_decide (length (cfg_replicas cfg) = 0) then Ok [] else
  match replica_indices with
  | Some ((_ :: _) as l) =>
      match select (cfg_replicas cfg) l with Ok rs => Ok rs | Err _ => Err ValueError end
  | _ => Ok (cfg_replicas cfg)
  end.
End Client.
Arguments config : clear implicits.
Arguments client : clear implicits.
