(* ===== verification/ClientProofs.v ===== *)
(** * Properties of the single storage client

    Reads through the cache return the provider's bytes, batches transfer every
    file or name it, what is written under a metadata provider is read back
    after a commit, and a deleted file is gone. *)
From S2P Require Import Prelude PyDict PyPath Types Utils Retry Listing Provider MemStore TransferProofs PosixFs PosixFile.
From S2P Require Import Cache RangeCache Manifest ManifestProofs Replica Client.

(** ** Decorated calls *)
Definition retry_ok (config : option RetryConfig) : Prop := forall c, config = Some c -> (1 <= attempts c)%Z.

Lemma retry_success {S A} (config : option RetryConfig) (f : M S A) (s s' : S) a :
  retry_ok config -> f s = (Ok a, s') ->
  outcome (retry config f s) = Some (Ok a) /\ final_state (retry config f s) = s'.
Proof.
  intros Hc Hf. unfold retry, run_with_retry. destruct config as [c|].
  - specialize (Hc c eq_refl). destruct (Z.to_nat (attempts c)) as [|n] eqn:E; [lia|]. cbn [retry_loop]. by rewrite Hf.
  - cbn [retry_loop]. by rewrite Hf.
Qed.

(** ** Reading through the cache *)
Section Reading.
Context {W P : Type} `{!StorageProvider W} `{!MetadataProvider P W} `{!TempFiles W}.
Context (cfg : config W) (c : CacheManager.cfg) (path : string) (obj : bytes) (o : ObjectMetadata) (v : string).

(** The provider holds the object [obj] with the metadata [o]; past the end of
    it a range gives nothing or raises. *)
Record holds_object (w : W) : Prop := {
  holds_metadata : pv_get_object_metadata path true w = Ok o;
  holds_data : pv_get_object path None w = Ok obj;
  holds_ranges : forall off n, (0 <= off)%Z -> (0 < n)%Z ->
    pv_get_object path (Some (mkRange off n)) w = Ok (slice obj off n) \/
    ((Z.of_nat (length obj) <= off)%Z /\ exists e, pv_get_object path (Some (mkRange off n)) w = Err e);
}.
Context (Hetag : etag o = Some v) (Hv : v <> "") (Hlen : content_length o = Z.of_nat (length obj)).
Context (Hline : (0 < CacheManager.cache_line_size c)%Z) (Hchecks : CacheManager.check_source_version c = true).

Abbreviation coh := (coherent c obj v (CacheManager.get_cache_file_path c path)).

Lemma set_coherent w :
  coh w -> exists w', CacheManager.set c path (CacheManager.FromBytes obj) (Some v) w = (Ok tt, w') /\ coh w'.
Proof using Type.
  intros [H1 H2]. destruct (set_bytes_spec c path obj (Some v) w) as (f & w' & Hs & Hf & Hd & _ & _ & Ho & _).
  exists w'. split; [done|]. split.
  - intros i g s Hi Hg. rewrite Ho in Hg by (by apply chunk_path_ne). eauto.
  - intros g Hg _. congruence.
Qed.

Lemma slice_all (r : Range) :
  (offset r = 0)%Z -> (content_length o <= size r)%Z -> slice obj 0 (content_length o) = slice obj (offset r) (size r).
Proof using Hlen.
  intros -> Hsz. unfold slice. cbn. rewrite drop_0. rewrite !take_ge; [done|lia|lia].
Qed.

Lemma cached_range_ok (r : Range) (mode : SourceVersionCheckMode) (s : client W P) :
  checks_version c mode = true -> holds_object (store s) -> coh (cache s) ->
  (0 <= offset r < Z.of_nat (length obj))%Z -> (0 < size r)%Z ->
  exists w', cached_range c path r mode s =
    (Ok (slice obj (offset r) (size r)), mkClient (store s) (meta s) w' (uploads s)) /\ coh w'.
Proof using Hetag Hv Hlen Hline.
  intros Hm [H1 H2 H3] Hcoh Hoff Hsize. unfold cached_range, mbind, from_store. rewrite Hm, H1.
  assert ((Some o ≫= etag) = Some v) as Hb by done. cbv beta iota zeta delta [mret]. rewrite Hb. destruct ((offset r =? 0)%Z && (content_length o <=? size r)%Z) eqn:E; bool_to_prop.
  - unfold direct_read, from_store. rewrite H2. unfold on_cache. destruct (set_coherent (cache s) Hcoh) as (w' & -> & Hw').
    exists w'. split; [|done]. cbn [mret]. by rewrite (slice_all r).
  - unfold on_cache. destruct (cached_range_read c (fun k r => pv_get_object k (Some r) (store s)) path obj v r
      (Some (content_length o)) (cache s)) as (w' & -> & Hw'); try done; [right; by rewrite Hlen|].
    exists w'. split; [destruct s; done|done].
Qed.

Lemma cached_read_ok (mode : SourceVersionCheckMode) (s : client W P) :
  checks_version c mode = true -> meta s = None -> cfg_replica_manager cfg = false ->
  holds_object (store s) -> coh (cache s) ->
  exists w', cached_read cfg c path mode s = (Ok obj, mkClient (store s) (meta s) w' (uploads s)) /\ coh w'.
Proof using Hetag Hv Hchecks.
  intros Hm Hmeta Hrep [H1 H2 H3] Hcoh. unfold cached_read, get_source_version, if_meta, has_meta, mbind, from_store.
  rewrite Hm, Hmeta, H1, Hetag. cbn [mret]. unfold on_cache, CacheManager.read.
  destruct (CacheManager.contains c (cache s) path INHERIT (Some v)) eqn:Econt.
  - unfold CacheManager.contains in Econt. destruct (negb (path_exists _ _)) eqn:Ep; [done|]. bool_to_prop.
    apply path_exists_true in Ep as [f Hf]. rewrite Hchecks in Econt. cbn [negb] in Econt.
    unfold getxattr in Econt. rewrite Hf in Econt.
    assert (f_data f = obj) as Hd.
    { destruct (xattr_supported (cache s)); [|done]. destruct (f_xattr f !! "user.etag") as [e|] eqn:Ee; [|done].
      apply bool_decide_eq_true in Econt. injection Econt as ->. by apply (proj2 Hcoh f). }
    unfold mtry, mbind, os_read_all. rewrite Hf.
    destruct (update_access_time_spec (CacheManager.get_cache_file_path c path) (cache s) f Hf) as (m & -> & Hfm & Hom).
    cbn. rewrite Hd, Hmeta. eexists. split; [done|]. destruct Hcoh as [C1 C2]. split.
    + intros i g sx Hi Hg. cbn in Hg. rewrite Hom in Hg by (by apply chunk_path_ne). eauto.
    + intros g Hg He. cbn in Hg. rewrite Hfm in Hg. injection Hg as <-. by cbn.
  - rewrite Hrep. unfold direct_read, from_store. cbn [store cache]. rewrite H2.
    destruct (set_coherent (cache s) Hcoh) as (w' & -> & Hw'). rewrite Hmeta. by exists w'.
Qed.
End Reading.

(** C1: for a client without metadata provider and replicas, a read through a
    coherent cache that checks source versions (the configuration does, and the
    caller does not disable it) returns exactly what the storage provider holds
    of an object with a non-empty etag: the whole object, or a requested range
    of it that starts below its length, whether it is served from a cached file,
    from chunks, or from the provider, and whichever of these the client
    chooses.  The cache is coherent afterwards and nothing but the cache has
    changed. *)
Theorem client_read_exact {W P} `{!StorageProvider W} `{!MetadataProvider P W} `{!TempFiles W}
    (cfg : config W) (c : CacheManager.cfg) (path : string) (obj : bytes) (o : ObjectMetadata) (v : string)
    (byte_range : option Range) (mode : SourceVersionCheckMode) (s : client W P)
    (Hretry : retry_ok (cfg_retry cfg)) (Hcache : enabled_cache cfg = Some c) (Hmeta : meta s = None)
    (Hreplicas : cfg_replica_manager cfg = false)
    (Hmode : mode <> DISABLE) (Hchecks : CacheManager.check_source_version c = true)
    (Hline : (0 < CacheManager.cache_line_size c)%Z)
    (Hobject : holds_object path obj o (store s))
    (Hetag : etag o = Some v) (Hv : v <> "") (Hlen : content_length o = Z.of_nat (length obj))
    (Hcoherent : coherent c obj v (CacheManager.get_cache_file_path c path) (cache s))
    (Hrange : forall r, byte_range = Some r -> (0 <= offset r < Z.of_nat (length obj))%Z /\ (0 < size r)%Z) :
  let run := read cfg path byte_range mode s in
  outcome run = Some (Ok (match byte_range with Some r => slice obj (offset r) (size r) | None => obj end)) /\
  exists w', final_state run = mkClient (store s) (meta s) w' (uploads s) /\
             coherent c obj v (CacheManager.get_cache_file_path c path) w'.
Proof.
  cbn zeta. assert (checks_version c mode = true) as Hm by (by destruct mode).
  assert (exists w', read_body cfg path byte_range mode s =
    (Ok (match byte_range with Some r => slice obj (offset r) (size r) | None => obj end),
     mkClient (store s) (meta s) w' (uploads s)) /\
    coherent c obj v (CacheManager.get_cache_file_path c path) w') as (w' & Hrun & Hw').
  - unfold read_body, if_meta, has_meta, mbind. rewrite Hmeta, Hcache. cbn [mret]. rewrite <- Hmeta.
    destruct byte_range as [r|].
    + destruct (Hrange r eq_refl) as [Hr1 Hr2]. unfold mtry.
      destruct (cached_range_ok (P := P) c path obj o v Hetag Hv Hlen Hline r mode s) as (w' & Hr & Hw'); try done.
      exists w'. unfold mret. by rewrite Hr.
    + destruct (cached_read_ok (P := P) cfg c path obj o v Hetag Hv Hchecks mode s) as (w' & Hr & Hw'); try done.
      exists w'. unfold mret. by rewrite Hr.
  - destruct (retry_success (cfg_retry cfg) (read_body cfg path byte_range mode) s _ _ Hretry Hrun) as [Ho Hf].
    split; [exact Ho|]. exists w'. split; [exact Hf|exact Hw'].
Qed.

(** ** Batch downloads *)
Lemma py_nth_index {A} (l : list A) i x :
  py_nth l i = Some x ->
  exists k, l !! k = Some x /\ forall B (l' : list B), length l' = length l -> py_nth l' i = l' !! k.
Proof.
  unfold py_nth. destruct (0 <=? i)%Z; [intros H; by exists (Z.to_nat i)|].
  destruct (_ <=? i)%Z eqn:E; [|done]. intros H. exists (Z.to_nat (Z.of_nat (length l) + i)). split; [done|].
  intros B l' ->. by rewrite E.
Qed.
Lemma py_nth_nat {A} (l : list A) k : py_nth l (Z.of_nat k) = l !! k.
Proof. unfold py_nth. rewrite (proj2 (Z.leb_le 0 _)) by lia. by rewrite Nat2Z.id. Qed.

Lemma select_spec {A} (l : list A) idxs xs :
  select l idxs = Ok xs -> length xs = length idxs /\ forall p i, idxs !! p = Some i -> py_nth l i = xs !! p.
Proof.
  revert xs. induction idxs as [|j idxs IH]; intros xs; cbn; [intros [= <-]; by split|].
  destruct (py_nth l j) as [x|] eqn:E; [|done]. destruct (select l idxs) as [ys|]; cbn; [|done]. intros [= <-].
  destruct (IH ys eq_refl) as [H1 H2]. split; [cbn; lia|]. intros [|p] i Hp; cbn in *; [congruence|auto].
Qed.

Section Batches.
Context {W : Type} `{HL : DownloadLaws W stored} (base_path : string).
Context (compile : string -> res (attributes -> res bool)) (globmatch : string -> string -> bool).
Context (completion : list (nat * M W unit) -> list (nat * M W unit)) (finished : nat -> string -> bool) (fuel : nat).
#[local] Instance batch_provider : StorageProvider W := base_provider base_path compile globmatch completion finished fuel.
Context (remote_paths local_paths : list string) (ms : option (list (option ObjectMetadata))) (max_workers : Z).
Context (Hcompletion : forall ts, completion ts ≡ₚ ts) (Hpool : be_rust_download = None).
Context (Hargs : batch_args_ok remote_paths local_paths ms max_workers) (Hlocal : NoDup local_paths).

Definition all_metadata : list (option ObjectMetadata) := default (map (fun _ => None) remote_paths) ms.
(** The item [i] of the request has been downloaded. *)
Definition item_done (w : W) (i : Z) : Prop :=
  exists rp lp m, py_nth remote_paths i = Some rp /\ py_nth local_paths i = Some lp /\ py_nth all_metadata i = Some m /\
    TransferProofs.downloaded (stored := stored) base_path w rp lp m.

Lemma length_metadata : length all_metadata = length remote_paths.
Proof using Hargs.
  destruct Hargs as (_ & H & _). unfold all_metadata. destruct ms as [l|]; cbn; [by apply H|by rewrite length_map].
Qed.

(** The lists hold the items [idxs] of the request. *)
Definition part_of (idxs : list Z) (rps lps : list string) (m : list (option ObjectMetadata)) : Prop :=
  forall p, p < length rps -> exists i k rp lp x,
    idxs !! p = Some i /\ download_item rps lps m p = (rp, lp, x) /\
    remote_paths !! k = Some rp /\ local_paths !! k = Some lp /\ all_metadata !! k = Some x /\
    py_nth remote_paths i = Some rp /\ py_nth local_paths i = Some lp /\ py_nth all_metadata i = Some x.

Lemma select_items idxs rps lps m :
  select remote_paths idxs = Ok rps -> select local_paths idxs = Ok lps -> select_opt ms idxs = Ok m ->
  batch_args_ok rps lps m max_workers /\ length rps = length idxs /\
  part_of idxs rps lps (default (map (fun _ => None) rps) m).
Proof using Hargs.
  intros Hr Hl Hm. destruct (select_spec _ _ _ Hr) as [Hr1 Hr2]. destruct (select_spec _ _ _ Hl) as [Hl1 Hl2].
  pose proof length_metadata as Hlen. destruct Hargs as (Ha1 & _ & Ha3).
  assert (length (default (map (fun _ => None) rps) m) = length idxs /\
    forall p i, idxs !! p = Some i -> py_nth all_metadata i = default (map (fun _ => None) rps) m !! p) as [Hm1 Hm2].
  { unfold all_metadata, select_opt in *. destruct ms as [l|]; cbn in Hm |- *.
    - destruct (select l idxs) as [xs|] eqn:Es; cbn in Hm; [|done]. injection Hm as <-. cbn. by apply select_spec in Es.
    - injection Hm as <-. cbn. rewrite length_map. split; [done|]. intros p i Hp.
      assert (p < length rps) as Hlt by (rewrite Hr1; by eapply lookup_lt_Some).
      destruct (lookup_lt_is_Some_2 rps p Hlt) as [rp Hrp]. rewrite <- (Hr2 p i Hp) in Hrp.
      apply py_nth_index in Hrp as (k & Hk & Hnth). rewrite (Hnth _ (map (fun _ => None) remote_paths)) by (by rewrite length_map).
      rewrite !list_lookup_fmap, Hk. rewrite <- (Hr2 p i Hp), (Hnth _ remote_paths eq_refl), Hk. done. }
  split; [|split; [done|]].
  { split; [congruence|]. split; [|done]. intros l ->. cbn in Hm1. congruence. }
  intros p Hp. destruct (lookup_lt_is_Some_2 idxs p ltac:(lia)) as [i Hi].
  destruct (lookup_lt_is_Some_2 rps p Hp) as [rp Hrp].
  destruct (lookup_lt_is_Some_2 lps p ltac:(lia)) as [lp Hlp].
  destruct (lookup_lt_is_Some_2 (default (map (fun _ => None) rps) m) p ltac:(lia)) as [x Hx].
  pose proof (Hr2 p i Hi) as Er. rewrite Hrp in Er. destruct (py_nth_index _ _ _ Er) as (k & Hk & Hnth).
  pose proof (Hl2 p i Hi) as El. pose proof (Hm2 p i Hi) as Em. rewrite Hlp in El. rewrite Hx in Em.
  exists i, k, rp, lp, x. split; [done|]. split.
  { unfold download_item. by rewrite (nth_lookup_Some _ _ _ _ Hrp), (nth_lookup_Some _ _ _ _ Hlp), (nth_lookup_Some _ _ _ _ Hx). }
  rewrite <- (Hnth _ local_paths), <- (Hnth _ all_metadata) by congruence. done.
Qed.

(** An item that is done stays so: no item of a batch has its local file
    except itself. *)
Lemma item_done_fin rps lps (m : list (option ObjectMetadata)) idxs w i :
  part_of idxs rps lps m -> item_done w i ->
  exists rp lp x, py_nth remote_paths i = Some rp /\ py_nth local_paths i = Some lp /\ py_nth all_metadata i = Some x /\
    download_done (stored := stored) base_path rps lps m w (rp, lp, x).
Proof using Hargs Hlocal.
  intros Hitems (rp & lp & x & H1 & H2 & H3 & Hd). exists rp, lp, x. split; [done|]. split; [done|]. split; [done|].
  split; [done|]. intros p Hp Hnth.
  destruct (Hitems p Hp) as (j & k & rp' & lp' & x' & _ & Hitem & K1 & K2 & K3 & _).
  rewrite Hitem. assert (lp' = lp) as ->. { unfold download_item in Hitem. cbn in Hnth. congruence. }
  destruct (py_nth_index _ _ _ H2) as (k' & Hk' & Hn).
  rewrite Hn in H1, H3 by (rewrite ?length_metadata; by destruct Hargs as (-> & _)).
  assert (k = k') as -> by (by eapply NoDup_lookup). congruence.
Qed.

Lemma download_batch_contract :
  batch_contract (download_files_batch remote_paths local_paths ms max_workers) item_done.
Proof using Hargs Hlocal Hpool Hcompletion HL.
  assert (forall idxs w r w', download_files_batch remote_paths local_paths ms max_workers idxs w = (r, w') ->
    (forall i, item_done w i -> item_done w' i) /\
    match r with
    | Ok _ => forall i, i ∈ idxs -> item_done w' i
    | Err (BatchTransferError fs) => forall p i, idxs !! p = Some i -> Z.of_nat p ∈ map failure_index fs \/ item_done w' i
    | Err _ => True
    end) as H.
  2: { split.
       - intros idxs w r w' i Hr Ht. by apply (H idxs w r w' Hr).
       - intros idxs w a w' i Hr Hi. destruct (H _ _ _ _ Hr) as [_ G]. by apply G.
       - intros idxs w fs w' p i Hr Hp. destruct (H _ _ _ _ Hr) as [_ G]. by apply G. }
  intros idxs w r w' Hrun. unfold download_files_batch, mbind, mlift in Hrun.
  assert (forall A (l : list A) e, select l idxs = Err e -> e = IndexError) as Hsel.
  { intros A l. clear. induction idxs as [|j idxs IH]; intros e; cbn; [done|]. destruct (py_nth l j); [|congruence].
    destruct (select l idxs); cbn; [done|]. intros [= ->]. auto. }
  destruct (select remote_paths idxs) as [rps|e] eqn:Er; [|injection Hrun as <- <-; by rewrite (Hsel _ _ _ Er)].
  destruct (select local_paths idxs) as [lps|e] eqn:El; [|injection Hrun as <- <-; by rewrite (Hsel _ _ _ El)].
  destruct (select_opt ms idxs) as [m|e] eqn:Em.
  2: { injection Hrun as <- <-. unfold select_opt in Em. destruct ms as [l|]; [|done].
       destruct (select l idxs) eqn:Es; cbn in Em; [done|]. injection Em as <-. by rewrite (Hsel _ _ _ Es). }
  destruct (select_items idxs rps lps m Er El Em) as (Hok & Hlen & Hitems).
  cbn [pv_download_files batch_provider base_provider] in Hrun.
  assert (forall p i, idxs !! p = Some i ->
    download_done (stored := stored) base_path rps lps (default (map (fun _ => None) rps) m) w'
      (download_item rps lps (default (map (fun _ => None) rps) m) p) -> item_done w' i) as Hdone.
  { intros p i Hp [Hd _]. destruct (Hitems p) as (i' & k & rp & lp & x & Hi' & Hitem & _ & _ & _ & N1 & N2 & N3).
    { rewrite Hlen. by eapply lookup_lt_Some. }
    rewrite Hitem in Hd. assert (i' = i) as -> by congruence. by exists rp, lp, x. }
  pose proof (download_files_result (stored := stored) base_path completion rps lps m max_workers w Hcompletion Hpool Hok) as Hres.
  cbn zeta in Hres. rewrite Hrun in Hres. destruct Hres as [Hmono Hres].
  { intros p q Hp Hq Hpq. destruct (Hitems p Hp) as (i & k & rp & lp & x & _ & E1 & K1 & K2 & K3 & _).
    destruct (Hitems q Hq) as (i' & k' & rp' & lp' & x' & _ & E2 & K1' & K2' & K3' & _). rewrite E1, E2.
    assert (lp = lp') as <- by (unfold download_item in E1, E2; congruence).
    assert (k = k') as -> by (by eapply NoDup_lookup). congruence. }
  split.
  { intros i Hi. destruct (item_done_fin _ _ _ _ _ _ Hitems Hi) as (rp & lp & x & N1 & N2 & N3 & [Hd _]%Hmono).
    by exists rp, lp, x. }
  destruct r as [u|e].
  - intros i [p Hp]%list_elem_of_lookup. apply (Hdone p i Hp), Hres. rewrite Hlen. by eapply lookup_lt_Some.
  - destruct e; try done. destruct Hres as (_ & _ & Hres). intros p i Hp.
    destruct (Hres p) as [Hin|Hd]; [rewrite Hlen; by eapply lookup_lt_Some|by left|right; by apply (Hdone p)].
Qed.
End Batches.

(** A batch download of the client, with its retries, is complete: if it
    returns, every file has been downloaded to its local path; if it raises a
    [BatchTransferError], the failures carry indices of the request and every
    file that they do not name has been downloaded.  This holds for any retry
    configuration and whatever order the transfers complete in. *)
Theorem client_download_complete {W P} `{HL : DownloadLaws W stored} `{!TempFiles W} (base_path : string)
    (compile : string -> res (attributes -> res bool)) (globmatch : string -> string -> bool)
    (completion : list (nat * M W unit) -> list (nat * M W unit)) (finished : nat -> string -> bool) (fuel : nat)
    (provider := base_provider base_path compile globmatch completion finished fuel) `{!MetadataProvider P W}
    (cfg : config W) (remote_paths local_paths : list string) (ms : option (list (option ObjectMetadata)))
    (max_workers : Z) (s : client W P)
    (Hretry : retry_ok (cfg_retry cfg)) (Hmeta : meta s = None) (Hreplicas : cfg_replica_manager cfg = false)
    (Hcompletion : forall ts, completion ts ≡ₚ ts) (Hpool : be_rust_download = None)
    (Hargs : batch_args_ok remote_paths local_paths ms max_workers) (Hlocal : NoDup local_paths) :
  let done w i := exists rp lp m, remote_paths !! i = Some rp /\ local_paths !! i = Some lp /\
    default (map (fun _ => None) remote_paths) ms !! i = Some m /\
    TransferProofs.downloaded (stored := stored) base_path w rp lp m in
  let '(r, s') := download_files cfg remote_paths local_paths ms max_workers s in
  match r with
  | Ok _ => forall i, i < length remote_paths -> done (store s') i
  | Err (BatchTransferError fs) =>
      (forall f, f ∈ fs -> exists i, i < length remote_paths /\ failure_index f = Z.of_nat i) /\
      (forall i, i < length remote_paths -> Z.of_nat i ∈ map failure_index fs \/ done (store s') i)
  | Err _ => True
  end.
Proof.
  cbn zeta. unfold download_files. destruct (batch_args_checked _ _ _ _ Hargs) as (-> & -> & _). cbn [negb].
  unfold if_meta, has_meta. rewrite Hmeta, Hreplicas. unfold on_batch.
  assert (forall i, i ∈ all_indices remote_paths <-> exists k, k < length remote_paths /\ i = Z.of_nat k) as Hidx.
  { intros i. unfold all_indices. rewrite list_elem_of_In, in_map_iff. setoid_rewrite in_seq. naive_solver lia. }
  pose proof (batch_retry_outcome (download_files_batch remote_paths local_paths ms max_workers)
    (item_done (stored := stored) base_path remote_paths local_paths ms) (cfg_retry cfg) (all_indices remote_paths) (store s)
    (download_batch_contract base_path compile globmatch completion finished fuel remote_paths local_paths ms max_workers
       Hcompletion Hpool Hargs Hlocal) Hretry) as Hrun. cbn zeta in Hrun.
  set (run := batch_retry _ _ _ _) in *.
  assert (forall i w, item_done (stored := stored) base_path remote_paths local_paths ms w (Z.of_nat i) ->
    exists rp lp m, remote_paths !! i = Some rp /\ local_paths !! i = Some lp /\
      default (map (fun _ => None) remote_paths) ms !! i = Some m /\
      TransferProofs.downloaded (stored := stored) base_path w rp lp m) as Hdone.
  { intros i w (rp & lp & m & H1 & H2 & H3 & Hd). rewrite py_nth_nat in H1, H2. rewrite py_nth_nat in H3. by exists rp, lp, m. }
  destruct (outcome run) as [[u|e]|]; cbn [default]; [| |done].
  - intros i Hi. apply Hdone, Hrun, Hidx. eauto.
  - destruct e; try done. destruct Hrun as [H1 H2]. split.
    + intros f Hf. apply Hidx, H1. by apply (list_elem_of_fmap_2 failure_index).
    + intros i Hi. destruct (H2 (Z.of_nat i)) as [|Hd]; [apply Hidx; eauto|by left|right; by apply Hdone].
Qed.

(** ** Writing under a manifest *)
Section Manifested.
Context {W : Type} `{!StorageProvider W} `{!ManifestStorage W} `{!TempFiles W}.
Context (compile : string -> res (attributes -> res bool)) (globmatch : string -> string -> bool).
Context (isoformat : Z -> string) (write_table : list ParquetRow -> bytes) (time : string).
#[local] Instance metadata_provider : MetadataProvider ManifestMetadataProvider.provider W :=
  manifest_provider compile globmatch isoformat write_table time.
Abbreviation provider := ManifestMetadataProvider.provider.
Context (cfg : config W) (path : string) (body : bytes) (a : option attributes).

(** A path that may be written: the manifest does not know it, or it may be
    overwritten *)
Definition may_write (p : provider) : Prop :=
  ManifestMetadataProvider.writable p = true /\
  (dget (ManifestMetadataProvider.files p) path = None \/
   ManifestMetadataProvider.allow_overwrites p = true /\ is_ok (ManifestMetadataProvider.realpath p path) = true).

(** The entry of a file that was written *)
Definition written_entry (o : ObjectMetadata) : ManifestObjectMetadata :=
  let o' := with_attributes a o in
  new_ManifestObjectMetadata
    (mkObjectMetadata path (content_length o') (last_modified o') (type o') (content_type o') (etag o') None (metadata o') None)
    (Some (key o')).

Lemma resolve_write_path_ok p (s : client W provider) :
  meta s = Some p -> may_write p -> resolve_write_path path s = (Ok path, s).
Proof using Type.
  intros Hm [_ Hp]. unfold resolve_write_path, mbind, from_meta. rewrite Hm.
  cbn [mp_realpath mp_allow_overwrites mp_generate_physical_path metadata_provider manifest_provider].
  destruct Hp as [Hno|[Hov Hok]].
  - assert (ManifestMetadataProvider.realpath p path = Ok (mkResolvedPath path UNTRACKED None)) as ->.
    { unfold ManifestMetadataProvider.realpath, MAX_SYMLINK_DEPTH. cbn [ManifestMetadataProvider.realpath_loop]. by rewrite Hno. }
    by rewrite Hm.
  - destruct (ManifestMetadataProvider.realpath p path) as [r|]; [|done]. rewrite Hm, Hov. by destruct (state r).
Qed.

Lemma write_body_manifest p (s : client W provider) w1 o :
  meta s = Some p -> may_write p ->
  pv_put_object path body None (store s) = (Ok tt, w1) -> pv_get_object_metadata path true w1 = Ok o ->
  write_body path body a s =
  (Ok tt, mkClient w1 (Some (ManifestMetadataProvider.with_pending
     (dset (ManifestMetadataProvider.pending_adds p) path (written_entry o)) (ManifestMetadataProvider.pending_removes p) p))
     (cache s) (uploads s)).
Proof using Type.
  intros Hm Hw Hput Ho. pose proof Hw as [Hwr Hov].
  unfold write_body, if_meta, has_meta. rewrite Hm. unfold mbind. rewrite (resolve_write_path_ok p) by done.
  unfold on_store. rewrite Hput. unfold register_written_file, from_store, mbind. cbn [store]. rewrite Ho.
  unfold on_meta. cbn [meta]. rewrite Hm. cbn [mp_add_file metadata_provider manifest_provider].
  unfold ManifestMetadataProvider.add_file. rewrite Hwr. cbn [negb].
  assert (negb (ManifestMetadataProvider.allow_overwrites p) && dmem (ManifestMetadataProvider.files p) path = false) as ->.
  { destruct Hov as [Hno|[-> _]]; [|done]. unfold dmem. by rewrite Hno, andb_false_r. }
  done.
Qed.

Lemma realpath_entry p m q :
  dget (ManifestMetadataProvider.files p) path = Some m -> symlink_target (base_metadata m) = None ->
  mom_physical_path m = Some q -> ManifestMetadataProvider.realpath p path = Ok (mkResolvedPath q EXISTS None).
Proof using Type.
  intros H1 H2 H3. unfold ManifestMetadataProvider.realpath, MAX_SYMLINK_DEPTH.
  cbn [ManifestMetadataProvider.realpath_loop]. by rewrite H1, H2, H3.
Qed.
End Manifested.

(** C2: for a client without cache and replicas, what is written under a manifest
    is found after a commit: the write succeeds, and once a commit has returned,
    which left the object as it was, a read of the path returns the body and
    [info] gives the object's size and its metadata with the caller's
    attributes, for a path that the manifest does not know or may overwrite and
    that is not among its pending removals, whatever other changes are
    pending. *)
Theorem write_commit_read {W} `{!StorageProvider W} `{!ManifestStorage W} `{!TempFiles W}
    (compile : string -> res (attributes -> res bool)) (globmatch : string -> string -> bool)
    (isoformat : Z -> string) (write_table : list ParquetRow -> bytes) (time : string)
    (mp := metadata_provider compile globmatch isoformat write_table time)
    (cfg : config W) (path : string) (body : bytes) (a : option attributes) (cwd_mtime : Z)
    (s s2 : client W ManifestMetadataProvider.provider) (p : ManifestMetadataProvider.provider) (w1 : W) (o : ObjectMetadata)
    (Hretry : retry_ok (cfg_retry cfg)) (Hcache : enabled_cache cfg = None) (Hreplicas : cfg_replica_manager cfg = false)
    (Hmeta : meta s = Some p) (Hwf : wf p) (Hadds : adds_ok p) (Hpath : path <> "" /\ path <> ".")
    (Hwrite : may_write path p) (Hremoves : path ∉ ManifestMetadataProvider.pending_removes p)
    (Hput : pv_put_object path body None (store s) = (Ok tt, w1))
    (Hobject : pv_get_object_metadata path true w1 = Ok o /\ key o = path /\ pv_get_object path None w1 = Ok body)
    (Hcommit : commit_metadata None (final_state (write cfg path body a s)) = (Ok tt, s2))
    (Hframe : forall r, pv_get_object path r (store s2) = pv_get_object path r w1) :
  outcome (write cfg path body a s) = Some (Ok tt) /\
  outcome (read cfg path None INHERIT s2) = Some (Ok body) /\
  exists m, info cfg cwd_mtime path true s2 = (Ok m, s2) /\ key m = path /\ content_length m = content_length o /\
    metadata m = metadata (with_attributes a o).
Proof.
  subst mp. destruct Hobject as (Ho & Hkey & Hget).
  pose proof (write_body_manifest compile globmatch isoformat write_table time path body a p s w1 o Hmeta Hwrite Hput Ho) as Hw.
  destruct (retry_success (cfg_retry cfg) (write_body path body a) s _ _ Hretry Hw) as [Hout Hfin].
  split; [exact Hout|]. unfold write in Hcommit. rewrite Hfin in Hcommit. clear Hout Hfin.
  set (p1 := ManifestMetadataProvider.with_pending _ _ p) in Hcommit.
  assert (wf p1 /\ adds_ok p1) as [Hwf1 Hadds1].
  { assert (p1 = (ManifestMetadataProvider.add_file path (ManifestMetadataProvider.Plain (with_attributes a o)) p).2) as ->.
    { unfold ManifestMetadataProvider.add_file. destruct Hwrite as [-> Hov]. cbn [negb].
      assert (negb (ManifestMetadataProvider.allow_overwrites p) && dmem (ManifestMetadataProvider.files p) path = false) as ->;
        [|done]. destruct Hov as [Hno|[-> _]]; [|done]. unfold dmem. by rewrite Hno, andb_false_r. }
    destruct (ManifestMetadataProvider.add_file _ _ p) as [r p'] eqn:E. by eapply add_file_wf. }
  unfold commit_metadata in Hcommit. cbn [meta truthy] in Hcommit. unfold mbind, mret in Hcommit. cbn [meta store cache uploads] in Hcommit.
  cbn [mp_commit_updates metadata_provider manifest_provider] in Hcommit.
  destruct (commit_updates_spec (fun _ => None) (fun _ => None) isoformat write_table time p1 w1 Hwf1 Hadds1)
    as (p2 & r & w2 & Hc & _ & _ & _ & Hfiles & _). rewrite Hc in Hcommit. injection Hcommit as -> <-.
  assert (dget (ManifestMetadataProvider.files p2) path = Some (written_entry path a o)) as Hentry.
  { rewrite Hfiles. unfold committed, p1. cbn. rewrite bool_decide_eq_false_2 by done. by rewrite dget_dset, decide_True. }
  assert (key (with_attributes a o) = path) as Hkey'.
  { unfold with_attributes. destruct a as [x|]; [|done]. by destruct (bool_decide _). }
  split.
  - unfold read. eapply (fun H => proj1 (retry_success _ _ _ (mkClient w2 (Some p2) (cache s) (uploads s)) _ Hretry H)).
    unfold read_body, if_meta, has_meta, mbind. cbn [meta]. unfold resolve_read_path, mbind, from_meta. cbn [meta].
    cbn [mp_realpath metadata_provider manifest_provider].
    rewrite (realpath_entry path p2 (written_entry path a o) path) by (done || (cbn; by rewrite Hkey')).
    cbn [resolved_exists state physical_path mret]. rewrite Hcache, Hreplicas. unfold direct_read, from_store. cbn [store].
    cbn [store] in Hframe. by rewrite Hframe, Hget.
  - exists (base_metadata (written_entry path a o)). split.
    + unfold info. destruct Hpath as [Hp1 Hp2]. rewrite !bool_decide_eq_false_2 by done. cbn [orb].
      unfold if_meta, has_meta, from_meta. cbn [meta mp_get_object_metadata metadata_provider manifest_provider negb].
      unfold ManifestMetadataProvider.get_object_metadata. by rewrite Hentry.
    + split; [done|]. split; [|done]. cbn. unfold with_attributes. destruct a as [x|]; [|done]. by destruct (bool_decide _).
Qed.

(** ** A client of the store in memory *)
Section Examples.
#[local] Instance ex_backend : StorageBackend mem := mem_backend None.
#[local] Instance ex_store : StorageProvider mem :=
  base_provider "b" (fun _ => Err ValueError) (fun _ _ => false) (fun ts => ts) (fun _ _ => false) 100.
#[local] Instance ex_manifest_store : ManifestStorage mem := {|
  sp_is_file := fun p w => match pv_is_file p w with Ok x => x | Err _ => false end;
  sp_glob := fun p w => match pv_glob p None w with Ok l => l | Err _ => [] end;
  sp_get_object := fun p w => pv_get_object p None w;
  sp_put_object := fun p d => pv_put_object p d None;
|}.
#[local] Instance ex_manifest : MetadataProvider ManifestMetadataProvider.provider mem :=
  manifest_provider (fun _ => Err ValueError) (fun _ _ => false) (fun _ => "") (fun _ => []) "now".

Abbreviation ex_client := (client mem ManifestMetadataProvider.provider).
Definition ex_config (c : option CacheManager.cfg) (rs : list (replica_client mem)) : config mem :=
  mkConfig "prof" false c (Some default_RetryConfig) rs (negb (bool_decide (rs = []))).
Definition ex_state (w : mem) (p : option ManifestMetadataProvider.provider) : ex_client :=
  mkClient w p empty_world new_manager.

(** Reading an object that is no symlink *)
Lemma ex_get_plain w p x r :
  objects w !! prepend_base_path "b" p = Some x -> target x = None -> pv_get_object p r w = Ok (ranged r (data x)).
Proof.
  intros Hx Ht. cbn [pv_get_object ex_store base_provider]. unfold get_object, MAX_SYMLINK_DEPTH.
  cbn [get_object_following_symlinks be_get_object be_get_object_metadata ex_backend mem_backend].
  unfold mem_metadata. rewrite Hx. cbn [res_bind]. case_bool_decide as E; cbn [negb]; [|done].
  unfold link_of, object_metadata. cbn [symlink_target]. by rewrite Ht.
Qed.

Definition versioned (d : bytes) : object := mkObject d None (Some {[ "etag" := "v1" ]}).

Lemma client_read_exact_witness :
  outcome (read (ex_config (Some example_cfg) []) "x" (Some (mkRange 3 6)) INHERIT
    (ex_state (mem_put [("b/x", versioned example_obj)]) None)) = Some (Ok (String.list_byte_of_string "defghi")).
Proof.
  assert (holds_object "x" example_obj (mkObjectMetadata "x" 10 0 "file" None (Some "v1") None None None)
    (mem_put [("b/x", versioned example_obj)])) as Hobj.
  { split; [reflexivity|reflexivity|]. intros off n Hoff Hn. left.
    apply (ex_get_plain _ "x" (versioned example_obj) (Some (mkRange off n))); reflexivity. }
  destruct (client_read_exact (ex_config (Some example_cfg) []) example_cfg "x" example_obj
    (mkObjectMetadata "x" 10 0 "file" None (Some "v1") None None None) "v1" (Some (mkRange 3 6)) INHERIT
    (ex_state (mem_put [("b/x", versioned example_obj)]) None)) as [H _]; [..|exact H]; try reflexivity.
  - intros c [= <-]. vm_compute. discriminate.
  - discriminate.
  - exact Hobj.
  - discriminate.
  - split; intros; discriminate.
  - intros r [= <-]. cbn. lia.
Defined.

Lemma client_download_complete_witness :
  exists fs s', download_files (ex_config None []) ["x"; "none"; "y"] ["/x"; "/n"; "/y"]
      (Some [None; Some (new_ObjectMetadata "none" 1 0); None]) 4
      (ex_state (mem_put [("b/x", versioned [x61]); ("b/y", versioned [x62])]) None) = (Err (BatchTransferError fs), s') /\
    map failure_index fs = [1%Z] /\ TransferProofs.downloaded (stored := mem_stored) "b" (store s') "y" "/y" None.
Proof.
  pose proof (client_download_complete (stored := mem_stored) (HL := mem_DownloadLaws) "b" (fun _ => Err ValueError)
    (fun _ _ => false) (fun ts => ts) (fun _ _ => false) 100 (ex_config None []) ["x"; "none"; "y"] ["/x"; "/n"; "/y"]
    (Some [None; Some (new_ObjectMetadata "none" 1 0); None]) 4
    (ex_state (mem_put [("b/x", versioned [x61]); ("b/y", versioned [x62])]) None)) as H.
  cbn zeta in H.
  specialize (H ltac:(intros c [= <-]; vm_compute; discriminate) eq_refl eq_refl ltac:(intros ts; reflexivity) eq_refl).
  assert (batch_args_ok ["x"; "none"; "y"] ["/x"; "/n"; "/y"] (Some [None; Some (new_ObjectMetadata "none" 1 0); None]) 4) as Ha.
  { split; [reflexivity|]. split; [by intros l [= <-]|lia]. }
  assert (NoDup ["/x"; "/n"; "/y"]) as Hn by (repeat constructor; set_solver).
  specialize (H Ha Hn).
  match type of H with (let '(_, _) := ?d in _) => destruct d as [r s'] eqn:E end.
  assert (option_map (fun fs => map failure_index fs) (match r with Err (BatchTransferError fs) => Some fs | _ => None end) =
    Some [1%Z]) as Hr by (apply (f_equal fst) in E; cbn [fst] in E; rewrite <- E; vm_compute; reflexivity).
  destruct r as [u|[]]; try discriminate. injection Hr as Hfs. eexists _, s'. split; [exact E|]. split; [exact Hfs|].
  destruct H as [_ H]. destruct (H 2) as [Hin|(rp & lp & m & [= <-] & [= <-] & [= <-] & Hd)]; [cbn; lia| |exact Hd].
  rewrite Hfs in Hin. set_solver.
Defined.

(** A manifest with the file [t], stored under [data/t] *)
Definition ex_entry (k q : string) (t : option string) : string * ManifestObjectMetadata :=
  (k, mkManifestObjectMetadata (mkObjectMetadata k 1 0 "file" None (Some "v1") None None t) (Some q)).
Definition ex_provider (es : list (string * ManifestObjectMetadata)) : ManifestMetadataProvider.provider :=
  ManifestMetadataProvider.mkProvider es [] ∅ "manifest" true true JSONL.
Definition ex_objects : mem := mem_put [("b/data/t", versioned [x61]); ("b/t", versioned [x61])].

Lemma write_commit_read_witness :
  exists s2, commit_metadata None (final_state (write (ex_config None []) "new" [x61; x62] None
      (ex_state ex_objects (Some (ex_provider []))))) = (Ok tt, s2) /\
    outcome (read (ex_config None []) "new" None INHERIT s2) = Some (Ok [x61; x62]).
Proof.
  assert (wf (ex_provider [])) as Hwf by (split; cbn; [constructor|constructor|constructor|set_solver]).
  assert ("new" ∉ ManifestMetadataProvider.pending_removes (ex_provider [])) as Hrm by (cbn; set_solver).
  set (s := ex_state ex_objects (Some (ex_provider []))).
  set (s1 := final_state (write (ex_config None []) "new" [x61; x62] None s)).
  pose proof (write_commit_read (fun _ => Err ValueError) (fun _ _ => false) (fun _ => "") (fun _ => []) "now"
    (ex_config None []) "new" [x61; x62] None 0 s (commit_metadata None s1).2 (ex_provider [])
    (store s1) (mkObjectMetadata "new" 2 0 "file" None None None None None)) as H.
  specialize (H ltac:(intros c [= <-]; vm_compute; discriminate) eq_refl eq_refl eq_refl).
  specialize (H Hwf ltac:(constructor) ltac:(split; discriminate)).
  specialize (H ltac:(split; [reflexivity|left; reflexivity]) Hrm).
  assert (pv_put_object "new" [x61; x62] None (store s) = (Ok tt, store s1)) as Hput by (vm_compute; reflexivity).
  assert (commit_metadata None s1 = (Ok tt, (commit_metadata None s1).2)) as Hcommit by (vm_compute; reflexivity).
  assert (forall w r, objects w !! "b/new" = Some (mkObject [x61; x62] None None) ->
    pv_get_object "new" r w = Ok (ranged r [x61; x62])) as Hnew.
  { intros w r Hw. exact (ex_get_plain w "new" _ r Hw eq_refl). }
  specialize (H Hput). specialize (H ltac:(split; [vm_compute; reflexivity|split; vm_compute; reflexivity])).
  specialize (H Hcommit). destruct H as (_ & H & _).
  - intros r. rewrite !Hnew; vm_compute; reflexivity.
  - exists (commit_metadata None s1).2. exact (conj Hcommit H).
Defined.

(** ** Behaviour that differs from what is intended *)

(** A symlink made under a manifest is lost: [add_file] does not take over the
    target, so that after a commit the path resolves to itself, where there is
    no object. *)
Theorem manifest_symlink_lost :
  let s := ex_state ex_objects (Some (ex_provider [ex_entry "t" "t" None])) in
  let '(r1, s1) := make_symlink 0 "/" "l" "t" s in
  let '(r2, s2) := commit_metadata None s1 in
  r1 = Ok tt /\ r2 = Ok tt /\
  outcome (read (ex_config None []) "t" None INHERIT s2) = Some (Ok [x61]) /\
  outcome (read (ex_config None []) "l" None INHERIT s2) = Some (Err FileNotFoundError).
Proof. vm_compute. repeat split. Qed.

(** A listing with URL prefixes changes the entries of the manifest: the same
    listing a second time gives doubled prefixes. *)
Theorem url_prefix_corrupts_manifest :
  let s := ex_state ex_objects (Some (ex_provider [ex_entry "t" "t" None])) in
  let ls s := list_recursive (ex_config None []) 0 "" None None 1 1 true None [] FOLLOW s in
  let keys := option_map (fun x => map key (yielded x.1)) in
  keys (ls s) = Some ["msc://prof/t"] /\ keys (ls s ≫= fun x => ls x.2) = Some ["msc://prof/msc://prof/t"].
Proof. split; vm_compute; reflexivity. Qed.

(** A replica of the example store *)
Definition mem_replica (base : string) : replica_client mem :=
  let sp := base_provider base (fun _ => Err ValueError) (fun _ _ => false) (fun ts => ts) (fun _ _ => false) 100 in
  mkReplicaClient base (@pv_is_file _ sp) (fun p f => @pv_download_file _ sp p f None)
    (fun p => @pv_download_buffer _ sp p None) (fun p f => @pv_upload_file _ sp p (PathIO f) None)
    (fun p => @pv_delete_object _ sp p).

(** With replicas and without a cache, a range read returns the whole object. *)
Theorem replica_read_ignores_range :
  outcome (read (ex_config None [mem_replica "r"]) "x" (Some (mkRange 1 1)) INHERIT
    (ex_state (mem_put [("b/x", versioned [x61; x62; x63])]) None)) = Some (Ok [x61; x62; x63]).
Proof. vm_compute. reflexivity. Qed.

(** A read that is asked to check the source version returns stale data when
    the configuration of the cache does not check versions. *)
Theorem enable_mode_returns_stale
    (cfg := ex_config (Some (CacheManager.mkCfg "/cache" "prof" 100 false false Eviction.default_eviction_policy 4)) []) :
  let s := ex_state (mem_put [("b/x", versioned [x61])]) None in
  let s1 := final_state (read cfg "x" None ENABLE s) in
  let s2 := mkClient (mem_put [("b/x", mkObject [x62] None (Some {[ "etag" := "v2" ]}))]) (meta s1) (cache s1) (uploads s1) in
  outcome (read cfg "x" None ENABLE s2) = Some (Ok [x61]).
Proof. vm_compute. reflexivity. Qed.

(** The source version is looked up in the manifest by the physical path: with
    a cache that checks versions, a file whose physical path differs from its
    logical one cannot be read. *)
Theorem cached_read_of_mapped_file_fails :
  let s := ex_state ex_objects (Some (ex_provider [ex_entry "t" "data/t" None])) in
  outcome (read (ex_config None []) "t" None INHERIT s) = Some (Ok [x61]) /\
  outcome (read (ex_config (Some example_cfg) []) "t" None INHERIT s) = Some (Err FileNotFoundError).
Proof. vm_compute. repeat split. Qed.

(** Deleting a symlink of a manifest deletes the object that it points to, and
    leaves the entry of that object. *)
Theorem delete_symlink_deletes_target :
  let s := ex_state ex_objects (Some (ex_provider [ex_entry "t" "t" None; ex_entry "l" "l" (Some "t")])) in
  let '(r, s1) := delete (ex_config None []) 0 (fun _ => mret tt) "l" false s in
  r = Ok tt /\ objects (store s1) !! "b/t" = None /\
  outcome (read (ex_config None []) "t" None INHERIT s1) = Some (Err FileNotFoundError).
Proof. vm_compute. repeat split. Qed.
End Examples.
