(* ===== verification/Files.v ===== *)
(** * Open files ([multistorageclient/file.py])

    [RemoteFileReader] and [ObjectFile]: file objects over a storage client.
    [PosixFile] is in [PosixHandle].

    What the files use of a storage client is the interface [FileClient].  Its
    state holds the local disk, where the cache directory and temporary files
    are.  The download thread of an [ObjectFile] is a task that runs once, at
    any time after the file was opened: an operation that waits for it runs it
    if it has not run, and blocks forever ([None]) if the thread ended without
    setting its event.  An exception of the thread is lost, as Python only
    prints it.  Text files hold single-byte characters, so that their content
    is a list of bytes as well. *)
From S2P Require Import Prelude PyPath Types Utils Provider Cache.
From Stdlib Require Import Strings.Byte.

(** ** File objects in memory: [BytesIO] and [StringIO] *)
Inductive whence := SEEK_SET | SEEK_CUR | SEEK_END.
Record memory_file := mkMemoryFile { buffer : bytes; position : Z }.

Definition blen (b : bytes) : Z := Z.of_nat (length b).
Definition memory_read (n : Z) (f : memory_file) : bytes * memory_file :=
  let d := if (n <? 0)%Z then drop (Z.to_nat (position f)) (buffer f) else slice (buffer f) (position f) n in
  (d, mkMemoryFile (buffer f) (position f + blen d)).
(** A write past the end fills the gap with zeros. *)
Definition memory_write (b : bytes) (f : memory_file) : memory_file :=
  let p := Z.to_nat (position f) in
  mkMemoryFile (take p (buffer f) ++ replicate (p - length (buffer f)) x00 ++ b ++ drop (p + length b) (buffer f))
    (position f + blen b).
(** A position below zero raises if it is absolute, and is zero otherwise. *)
Definition memory_seek (p : Z) (w : whence) (f : memory_file) : res memory_file :=
  let moved q := Ok (mkMemoryFile (buffer f) (Z.max 0 q)) in
  match w with
  | SEEK_SET => if (p <? 0)%Z then Err ValueError else moved p
  | SEEK_CUR => moved (position f + p)%Z
  | SEEK_END => moved (blen (buffer f) + p)%Z
  end.
Definition memory_truncate (size : option Z) (f : memory_file) : res (Z * memory_file) :=
  let n := default (position f) size in
  if (n <? 0)%Z then Err ValueError else Ok (n, mkMemoryFile (take (Z.to_nat n) (buffer f)) (position f)).
(** A file of the local disk: its positions are never below zero *)
Definition local_seek (p : Z) (w : whence) (f : memory_file) : res memory_file :=
  let q := match w with SEEK_SET => p | SEEK_CUR => position f + p | SEEK_END => blen (buffer f) + p end%Z in
  if (q <? 0)%Z then Err OSError else Ok (mkMemoryFile (buffer f) q).

(** ** The client *)
Class FileClient (S : Type) := {
  fc_cache : option CacheManager.cfg;
  (** the local disk *)
  fc_disk : S -> world;
  fc_set_disk : world -> S -> S;
  (** a name that [tempfile] gives *)
  fc_temp_name : S -> string;
  fc_info : string -> M S ObjectMetadata;
  fc_read : string -> Range -> SourceVersionCheckMode -> M S bytes;
  (** to a local path *)
  fc_download_path : string -> string -> M S unit;
  (** to a file object: what is appended to it *)
  fc_download_buffer : string -> S -> bytes * res unit * S;
  fc_upload : string -> io -> option attributes -> M S unit;
}.

Section Files.
Context {S : Type} `{!FileClient S}.

Definition on_disk {A} (m : M world A) : M S A := fun s =>
  let '(r, w) := m (fc_disk s) in (r, fc_set_disk w s).

(** ** [RemoteFileReader] *)
Record remote_reader := mkReader {
  rr_remote_path : string;
  rr_file_size : Z;
  rr_pos : Z;
  rr_check : SourceVersionCheckMode;
}.
Definition at_pos (r : remote_reader) (p : Z) : remote_reader :=
  mkReader (rr_remote_path r) (rr_file_size r) p (rr_check r).

Definition reader_seek (p : Z) (w : whence) (r : remote_reader) : remote_reader :=
  at_pos r match w with SEEK_SET => p | SEEK_CUR => rr_pos r + p | SEEK_END => rr_file_size r + p end%Z.
Definition reader_read (n : Z) (r : remote_reader) : M S (bytes * remote_reader) :=
  let offset := rr_pos r in
  if (n =? 0)%Z || (rr_file_size r <=? offset)%Z then mret ([], r)
  else
    let length := if (n =? -1)%Z then (rr_file_size r - offset)%Z else Z.min n (rr_file_size r - offset) in
    let! d := fc_read (rr_remote_path r) (mkRange offset length) (rr_check r) in
    mret (d, at_pos r (rr_pos r + blen d)).
(** [readinto]: the buffer after the call, and the number of bytes read; an
    assignment of more bytes than the buffer holds raises *)
Definition reader_readinto (b : bytes) (r : remote_reader) : M S (Z * bytes * remote_reader) :=
  let! x := reader_read (blen b) r in
  if (blen b <? blen x.1)%Z then mraise ValueError
  else mret (blen x.1, x.1 ++ drop (length x.1) b, x.2).
(** [__next__]: [None] is [StopIteration] *)
Definition reader_next (r : remote_reader) : M S (option bytes * remote_reader) :=
  let! x := reader_read 1 r in
  mret (match x.1 with [] => None | b => Some b end, x.2).

(** ** [ObjectFile] *)

(** [_file]: a file in memory, a file of the cache, or a reader; [text] says
    whether it reads [str] or [bytes] *)
Inductive handle :=
  | MemoryFile (text : bool) (f : memory_file)
  | LocalFile (text : bool) (name : string) (f : memory_file)
  | RemoteFile (r : remote_reader).
Inductive value := PyBytes (b : bytes) | PyStr (b : bytes).
Definition py_value (text : bool) (b : bytes) : value := if text then PyStr b else PyBytes b.
(** The target of the download thread *)
Inductive task := DownloadFile | DownloadFileobj.

Record object_file := mkObjectFile {
  of_mode : string;
  of_remote_path : string;
  of_cache : option CacheManager.cfg;
  of_prefetch : bool;
  of_memory_load_limit : Z;
  of_check : SourceVersionCheckMode;
  of_attributes : option attributes;
  of_metadata : option ObjectMetadata;
  (** a thread that has not run yet *)
  of_thread : option task;
  (** [None]: the attribute [_file] is not set *)
  of_file : option handle;
  (** [_download_complete] *)
  of_complete : bool;
  of_closed : bool;
  (** temporary files that are open, with what is still in their buffers *)
  of_temp_files : list (string * bytes);
}.
Definition with_handle (h : handle) (f : object_file) : object_file :=
  mkObjectFile (of_mode f) (of_remote_path f) (of_cache f) (of_prefetch f) (of_memory_load_limit f) (of_check f)
    (of_attributes f) (of_metadata f) (of_thread f) (Some h) (of_complete f) (of_closed f) (of_temp_files f).
Definition with_metadata (m : ObjectMetadata) (f : object_file) : object_file :=
  mkObjectFile (of_mode f) (of_remote_path f) (of_cache f) (of_prefetch f) (of_memory_load_limit f) (of_check f)
    (of_attributes f) (Some m) (of_thread f) (of_file f) (of_complete f) (of_closed f) (of_temp_files f).
Definition with_thread (t : option task) (f : object_file) : object_file :=
  mkObjectFile (of_mode f) (of_remote_path f) (of_cache f) (of_prefetch f) (of_memory_load_limit f) (of_check f)
    (of_attributes f) (of_metadata f) t (of_file f) (of_complete f) (of_closed f) (of_temp_files f).
Definition completed (f : object_file) : object_file :=
  mkObjectFile (of_mode f) (of_remote_path f) (of_cache f) (of_prefetch f) (of_memory_load_limit f) (of_check f)
    (of_attributes f) (of_metadata f) (of_thread f) (of_file f) true (of_closed f) (of_temp_files f).
Definition closed_file (f : object_file) : object_file :=
  mkObjectFile (of_mode f) (of_remote_path f) (of_cache f) (of_prefetch f) (of_memory_load_limit f) (of_check f)
    (of_attributes f) (of_metadata f) (of_thread f) (of_file f) (of_complete f) true [].

Definition with_temp_file (t : string * bytes) (f : object_file) : object_file :=
  mkObjectFile (of_mode f) (of_remote_path f) (of_cache f) (of_prefetch f) (of_memory_load_limit f) (of_check f)
    (of_attributes f) (of_metadata f) (of_thread f) (of_file f) (of_complete f) (of_closed f) (of_temp_files f ++ [t]).

Definition readable (f : object_file) : bool := bool_decide (of_mode f ∈ ["r"; "rb"]).
Definition writable (f : object_file) : bool := bool_decide (of_mode f ∈ ["w"; "wb"; "a"; "ab"]).
Definition is_text (mode : string) : bool := negb (bool_decide (mode ∈ ["rb"; "wb"; "ab"])).

Definition create_fileobj (f : object_file) : object_file :=
  with_handle (MemoryFile (is_text (of_mode f)) (mkMemoryFile [] 0)) f.

(** [_open_large_file] *)
Definition open_large_file (f : object_file) : res object_file :=
  if bool_decide (of_mode f = "r") then Err ValueError
  else
    match of_metadata f with
    | None => Err AttributeError
    | Some m => Ok (completed (with_handle
        (RemoteFile (mkReader (of_remote_path f) (content_length m) 0 (of_check f))) f))
    end.

(** Whether the mode asks for the source version *)
Definition version_checked (c : CacheManager.cfg) (mode : SourceVersionCheckMode) : bool :=
  match mode with ENABLE => true | INHERIT => CacheManager.check_source_version c | DISABLE => false end.

(** The [try] block of [_download_file]: the file of the cache, downloaded and
    moved there if it is missing *)
Definition fetch_through_cache (c : CacheManager.cfg) (m : ObjectMetadata) (f : object_file) : M S handle :=
  let path := of_remote_path f in
  let version := if version_checked c (of_check f) then etag m else None in
  (fun s =>
     if CacheManager.contains c (fc_disk s) path (of_check f) version then (Ok tt, s)
     else (on_disk (fun w => (Ok tt, with_locks ({[CacheManager.acquire_lock_path c path]} ∪ locks w) w)) ;;;
           (fun s => let t := fc_temp_name s in
                     (fc_download_path path t ;;;
                      on_disk (CacheManager.set c path (CacheManager.FromPath t) version)) s)) s) ;;;
  let! d := on_disk (CacheManager.open c path version (of_check f)) in
  match d with
  | Some d => mret (LocalFile (is_text (of_mode f)) (CacheManager.get_cache_file_path c path) (mkMemoryFile d 0))
  | None => mraise FileNotFoundError
  end.

(** [_download_file] and [_download_fileobj]: the file when the thread ends, by
    whatever exception *)
Definition download_file (f : object_file) (s : S) : object_file * S :=
  match of_cache f, of_metadata f with
  | Some c, Some m =>
      if (CacheManager.max_cache_size c <=? content_length m)%Z
      then (match open_large_file f with Ok f' => f' | Err _ => f end, s)
      else
        match fetch_through_cache c m f s with
        | (Ok h, s') => (completed (with_handle h f), s')
        | (Err _, s') => (completed f, s')
        end
  | _, _ => (f, s)
  end.
Definition download_fileobj (f : object_file) (s : S) : object_file * S :=
  match of_metadata f with
  | None => (f, s)
  | Some m =>
      if (of_memory_load_limit f <? content_length m)%Z
      then (match open_large_file f with Ok f' => f' | Err _ => f end, s)
      else
        let '(b, r, s') := fc_download_buffer (of_remote_path f) s in
        (completed (with_handle (MemoryFile (is_text (of_mode f))
           (mkMemoryFile b (match r with Ok _ => 0 | Err _ => blen b end))) f), s')
  end.
Definition run_thread (f : object_file) (s : S) : object_file * S :=
  match of_thread f with
  | None => (f, s)
  | Some DownloadFile => download_file (with_thread None f) s
  | Some DownloadFileobj => download_fileobj (with_thread None f) s
  end.

(** [__init__] with the download thread not run yet *)
Definition fetch_metadata (f : object_file) : M S object_file :=
  let! m := fc_info (of_remote_path f) in
  let f := with_metadata m f in
  if of_prefetch f || bool_decide (of_mode f = "r") then mret (with_thread (Some DownloadFile) f)
  else mlift (open_large_file f).
Definition open_object_file (remote_path mode : string) (disable_read_cache : bool) (memory_load_limit : Z)
    (check : SourceVersionCheckMode) (a : option attributes) (prefetch_file : option bool) : M S object_file :=
  if negb (bool_decide (mode ∈ ["r"; "w"; "rb"; "wb"; "a"; "ab"])) then mraise ValueError
  else if bool_decide (remote_path = "") then mraise ValueError
  else
    let c := if disable_read_cache then None else fc_cache in
    let prefetch := match prefetch_file, c with
                    | Some b, _ => b
                    | None, Some c => CacheManager.prefetch_file c
                    | None, None => true
                    end in
    let a := match a with Some a => if bool_decide (a = ∅) then None else Some a | None => None end in
    let f := mkObjectFile mode remote_path c prefetch memory_load_limit check a None None None false false [] in
    if readable f then
      match c with
      | Some c =>
          fun s =>
          if negb (version_checked c check) && CacheManager.contains c (fc_disk s) remote_path DISABLE None then
            (let! d := on_disk (CacheManager.open c remote_path None DISABLE) in
             match d with
             | Some d => mret (completed (with_handle
                 (LocalFile false (CacheManager.get_cache_file_path c remote_path) (mkMemoryFile d 0)) f))
             | None => fetch_metadata f
             end) s
          else fetch_metadata f s
      | None =>
          let! m := fc_info remote_path in
          mret (with_thread (Some DownloadFileobj) (with_metadata m f))
      end
    else mret (create_fileobj f).

(** [if self.readable(): self._download_complete.wait()]: [None] blocks *)
Definition wait (f : object_file) (s : S) : option (object_file * S) :=
  if negb (readable f) || of_complete f then Some (f, s)
  else let '(f', s') := run_thread f s in if of_complete f' then Some (f', s') else None.

(** An operation on [_file] after the wait *)
Definition with_file {A} (op : handle -> M S (A * handle)) (f : object_file) (s : S) : option (res A * (object_file * S)) :=
  match wait f s with
  | None => None
  | Some (f', s') =>
      Some match of_file f' with
           | None => (Err AttributeError, (f', s'))
           | Some h =>
               match op h s' with
               | (Ok (a, h'), s'') => (Ok a, (with_handle h' f', s''))
               | (Err e, s'') => (Err e, (f', s''))
               end
           end
  end.

Definition handle_read (n : Z) (h : handle) : M S (value * handle) :=
  match h with
  | MemoryFile t f => let '(d, f') := memory_read n f in mret (py_value t d, MemoryFile t f')
  | LocalFile t p f => let '(d, f') := memory_read n f in mret (py_value t d, LocalFile t p f')
  | RemoteFile r => let! x := reader_read n r in mret (PyBytes x.1, RemoteFile x.2)
  end.
Definition handle_seek (p : Z) (w : whence) (h : handle) : M S (Z * handle) :=
  match h with
  | MemoryFile t f => let! f' := mlift (memory_seek p w f) in mret (position f', MemoryFile t f')
  | LocalFile t q f => let! f' := mlift (local_seek p w f) in mret (position f', LocalFile t q f')
  | RemoteFile r => mret (rr_pos (reader_seek p w r), RemoteFile (reader_seek p w r))
  end.
Definition handle_tell (h : handle) : M S (Z * handle) :=
  mret (match h with MemoryFile _ f | LocalFile _ _ f => position f | RemoteFile r => rr_pos r end, h).
Definition handle_readinto (b : bytes) (h : handle) : M S (Z * bytes * handle) :=
  match h with
  | MemoryFile true _ | LocalFile true _ _ => mraise UnsupportedOperation
  | MemoryFile false f =>
      let '(d, f') := memory_read (blen b) f in mret (blen d, d ++ drop (length d) b, MemoryFile false f')
  | LocalFile false p f =>
      let '(d, f') := memory_read (blen b) f in mret (blen d, d ++ drop (length d) b, LocalFile false p f')
  | RemoteFile r => let! x := reader_readinto b r in mret (x.1, RemoteFile x.2)
  end.
(** Files opened for reading are not written to: the handles then raise. *)
Definition handle_write (b : bytes) (h : handle) : M S (Z * handle) :=
  match h with
  | MemoryFile t f => mret (blen b, MemoryFile t (memory_write b f))
  | _ => mraise UnsupportedOperation
  end.
Definition handle_truncate (n : option Z) (h : handle) : M S (Z * handle) :=
  match h with
  | MemoryFile t f => let! x := mlift (memory_truncate n f) in mret (x.1, MemoryFile t x.2)
  | _ => mraise UnsupportedOperation
  end.

Definition file_read (n : Z) := with_file (handle_read n).
Definition file_readall := file_read (-1).
Definition file_seek (p : Z) (w : whence) := with_file (handle_seek p w).
Definition file_tell := with_file handle_tell.
Definition file_readinto (b : bytes) := with_file (handle_readinto b).
(** [write] and [truncate] do not wait *)
Definition unwaited {A} (op : handle -> M S (A * handle)) (f : object_file) : M S (A * object_file) :=
  match of_file f with
  | None => mraise AttributeError
  | Some h => let! x := op h in mret (x.1, with_handle x.2 f)
  end.
Definition file_write (b : bytes) := unwaited (handle_write b).
Definition file_truncate (n : option Z) := unwaited (handle_truncate n).
Fixpoint file_writelines (lines : list bytes) (f : object_file) : M S object_file :=
  match lines with
  | [] => mret f
  | b :: bs => let! x := file_write b f in file_writelines bs x.2
  end.

(** What a handle holds from its start *)
Definition handle_content (h : handle) : bytes :=
  match h with MemoryFile _ f | LocalFile _ _ f => buffer f | RemoteFile _ => [] end.

(** [fp.write] on a local file opened to append, which creates it *)
Definition append_local (p : string) (b : bytes) : M world unit := fun w =>
  match fs w !! p with
  | Some f => (Ok tt, with_fs (<[p := mkFile (f_data f ++ b) (f_xattr f) (f_atime f) (now w) (f_writable f)]> (fs w)) w)
  | None => (Ok tt, with_fs (<[p := new_file w b]> (fs w)) w)
  end.
(** [_upload_file] *)
Definition upload_file (f : object_file) (content : bytes) : M S unit :=
  if bool_decide (of_mode f ∈ ["w"; "wb"]) then fc_upload (of_remote_path f) (BytesIO content) (of_attributes f)
  else if bool_decide (of_mode f ∈ ["a"; "ab"]) then
    fun s =>
    let t := fc_temp_name s in
    (mtry is_FileNotFoundError
       (fc_download_path (of_remote_path f) t ;;; on_disk (os_getsize t) ;;; mret tt)
       (fun _ => mret tt) ;;;
     on_disk (append_local t content) ;;;
     fc_upload (of_remote_path f) (PathIO t) (of_attributes f) ;;;
     on_disk (os_unlink t)) s
  else mret tt.

(** [close] of the temporary files, which writes their buffers *)
Fixpoint flush_temp_files (l : list (string * bytes)) (s : S) : S :=
  match l with
  | [] => s
  | (p, b) :: l' => flush_temp_files l' (on_disk (append_local p b) s).2
  end.
(** [close] *)
Definition close_file (f : object_file) (s : S) : option (res unit * (object_file * S)) :=
  match wait f s with
  | None => None
  | Some (f', s') =>
      Some match of_file f' with
           | None => (Err AttributeError, (f', s'))
           | Some h =>
               if of_closed f' && negb (match h with RemoteFile _ => true | _ => false end) then (Ok tt, (f', s'))
               else if readable f' then (Ok tt, (closed_file f', flush_temp_files (of_temp_files f') s'))
               else match upload_file f' (handle_content h) s' with
                    | (Ok _, s'') => (Ok tt, (closed_file f', s''))
                    | (Err e, s'') => (Err e, (f', s''))
                    end
           end
  end.

(** [BufferedWriter.write] on a new file: no more than the buffer holds stays
    there until the file is flushed or closed *)
Definition DEFAULT_BUFFER_SIZE : nat := 8192.
Definition buffered (b : bytes) : bytes * bytes := if (length b <=? DEFAULT_BUFFER_SIZE)%nat then ([], b) else (b, []).

(** [resolve_filesystem_path] without a cache: the content in a temporary file
    that stays open *)
Definition write_temp_copy (h : handle) (f : object_file) : M S (string * object_file) :=
  let! x := handle_seek 0 SEEK_SET h in
  let! v := handle_read (-1) x.2 in
  fun s =>
  let t := fc_temp_name s in
  let '(written, pending) := buffered (match v.1 with PyBytes b | PyStr b => b end) in
  (let! _ := on_disk (append_local t written) in
   mret (t, with_temp_file (t, pending) (with_handle v.2 f))) s.
Definition resolve_filesystem_path (f : object_file) (s : S) : option (res string * (object_file * S)) :=
  if negb (readable f) then Some (Err ValueError, (f, s))
  else
    match wait f s with
    | None => None
    | Some (f', s') =>
        Some match of_file f', of_cache f' with
             | None, _ => (Err AttributeError, (f', s'))
             | Some (LocalFile _ p _), Some _ => (Ok p, (f', s'))
             | Some (RemoteFile r), Some _ => (Ok (rr_remote_path r), (f', s'))
             | Some (MemoryFile _ _), Some _ => (Err AttributeError, (f', s'))
             | Some h, None =>
                 match write_temp_copy h f' s' with
                 | (Ok (t, f''), s'') => (Ok t, (f'', s''))
                 | (Err e, s'') => (Err e, (f', s''))
                 end
             end
    end.
End Files.
