(* ===== verification/FileProofs.v ===== *)
(** * Properties of open files

    A remote reader and an [ObjectFile] opened for reading behave like a file in
    memory that holds the object; what is written to an [ObjectFile] is
    uploaded when it is closed. *)
From S2P Require Import Prelude PyPath Types Utils Provider Cache RangeCache Files.

(** ** Laws of the client *)
Definition disk_agrees {S} `{!FileClient S} (path : string) (d : bytes) (v : string) (w : world) : Prop :=
  forall c, fc_cache = Some c -> coherent c d v (CacheManager.get_cache_file_path c path) w.

(** [holds path d v s]: the client has the object [d] with the version [v] at
    [path], and the files of the cache that carry this version agree with it;
    reads with the given version check then return its bytes. *)
Class FileClientLaws (S : Type) `{!FileClient S} (check : SourceVersionCheckMode)
    (holds : string -> bytes -> string -> S -> Prop) := {
  fl_disk : forall w s, fc_disk (fc_set_disk w s) = w;
  fl_temp : forall s, fs (fc_disk s) !! fc_temp_name s = None;
  fl_agrees : forall p d v s, holds p d v s -> disk_agrees p d v (fc_disk s);
  fl_set_disk : forall p d v w s, holds p d v s -> disk_agrees p d v w -> holds p d v (fc_set_disk w s);
  fl_info : forall p d v s, holds p d v s ->
    exists m, fc_info p s = (Ok m, s) /\ content_length m = blen d /\ etag m = Some v;
  fl_read : forall p d v r s, holds p d v s -> (0 <= offset r < blen d)%Z -> (0 < size r)%Z ->
    exists s', fc_read p r check s = (Ok (slice d (offset r) (size r)), s') /\ holds p d v s';
  fl_download_path : forall p d v t s, holds p d v s ->
    exists s', fc_download_path p t s = (Ok tt, s') /\ holds p d v s' /\
      fc_disk s' = with_fs (<[t := new_file (fc_disk s) d]> (fs (fc_disk s))) (fc_disk s);
  fl_download_buffer : forall p d v s, holds p d v s ->
    exists s', fc_download_buffer p s = (d, Ok tt, s') /\ holds p d v s' /\ fc_disk s' = fc_disk s;
}.
(** An upload gives the object a new version. *)
Class FileUploadLaws (S : Type) `{!FileClient S} (holds : string -> bytes -> string -> S -> Prop) := {
  fl_upload : forall p f d a s,
    match f with BytesIO b => d = b | PathIO t => exists x, fs (fc_disk s) !! t = Some x /\ d = f_data x end ->
    exists v s', v <> "" /\ fc_upload p f a s = (Ok tt, s') /\ holds p d v s' /\ fc_disk s' = fc_disk s;
}.

(** ** A sequence of operations on a file that is read *)
Inductive file_op := OpRead (n : Z) | OpSeek (p : Z) (w : whence) | OpTell.
Inductive op_result := ReadBytes (b : bytes) | AtPosition (p : Z).

Definition seek_target (p : Z) (w : whence) (m : memory_file) : Z :=
  match w with SEEK_SET => p | SEEK_CUR => position m + p | SEEK_END => blen (buffer m) + p end%Z.
(** The reference: a file in memory *)
Definition memory_op (op : file_op) (m : memory_file) : op_result * memory_file :=
  match op with
  | OpRead n => let '(b, m') := memory_read n m in (ReadBytes b, m')
  | OpSeek p w => let q := seek_target p w m in (AtPosition q, mkMemoryFile (buffer m) q)
  | OpTell => (AtPosition (position m), m)
  end.
(** Sizes from -1 on, and positions that are not negative *)
Definition valid_op (op : file_op) (m : memory_file) : Prop :=
  match op with OpRead n => (-1 <= n)%Z | OpSeek p w => (0 <= seek_target p w m)%Z | OpTell => True end.
Fixpoint memory_ops (ops : list file_op) (m : memory_file) : list op_result :=
  match ops with [] => [] | op :: ops' => let '(r, m') := memory_op op m in r :: memory_ops ops' m' end.
Fixpoint valid_ops (ops : list file_op) (m : memory_file) : Prop :=
  match ops with [] => True | op :: ops' => valid_op op m /\ valid_ops ops' (memory_op op m).2 end.

Section Ops.
Context {S : Type} `{!FileClient S}.
Definition handle_op (op : file_op) (h : handle) : M S (op_result * handle) :=
  match op with
  | OpRead n =>
      let! x := handle_read n h in
      match x.1 with PyBytes b => mret (ReadBytes b, x.2) | PyStr _ => mraise TypeError end
  | OpSeek p w => let! x := handle_seek p w h in mret (AtPosition x.1, x.2)
  | OpTell => let! x := handle_tell h in mret (AtPosition x.1, x.2)
  end.
Fixpoint file_ops (ops : list file_op) (f : object_file) (s : S) : option (res (list op_result) * (object_file * S)) :=
  match ops with
  | [] => Some (Ok [], (f, s))
  | op :: ops' =>
      match with_file (handle_op op) f s with
      | None => None
      | Some (Err e, x) => Some (Err e, x)
      | Some (Ok r, (f', s')) =>
          match file_ops ops' f' s' with
          | Some (Ok rs, x) => Some (Ok (r :: rs), x)
          | y => y
          end
      end
  end.
Fixpoint reader_ops (ops : list file_op) (r : remote_reader) : M S (list op_result) :=
  match ops with
  | [] => mret []
  | op :: ops' =>
      let! x := handle_op op (RemoteFile r) in
      match x.2 with
      | RemoteFile r' => let! rs := reader_ops ops' r' in mret (x.1 :: rs)
      | _ => mraise TypeError
      end
  end.
End Ops.

(** ** Files of the cache *)
Lemma set_path_bytes c key t d v w :
  fs w !! t = Some (new_file w d) ->
  CacheManager.set c key (CacheManager.FromPath t) v w =
    CacheManager.set c key (CacheManager.FromBytes d) v (with_fs (delete t (fs w)) w).
Proof. intros H. unfold CacheManager.set, mbind at 1. unfold os_rename. by rewrite H. Qed.

Section CacheFiles.
Context (c : CacheManager.cfg) (path : string) (d : bytes) (v : string) (check : SourceVersionCheckMode).
Abbreviation p := (CacheManager.get_cache_file_path c path).
Abbreviation version := (if version_checked c check then Some v else None).
Abbreviation coh := (coherent c d v p).

(** What the entry of the cache must satisfy for it to be used *)
Definition usable (w : world) : Prop :=
  if version_checked c check then xattr_supported w = true
  else forall f, fs w !! p = Some f -> f_data f = d.

Lemma contains_entry w :
  CacheManager.contains c w path check version = true ->
  exists f, fs w !! p = Some f /\ (version_checked c check = true -> f_xattr f !! "user.etag" = Some v).
Proof.
  unfold CacheManager.contains. destruct (path_exists w p) eqn:E; [|done]. cbn [negb].
  apply path_exists_true in E as [f Hf]. intros H. exists f. split; [done|]. intros Hv. rewrite Hv in H.
  assert ((match check with INHERIT => negb (CacheManager.check_source_version c) | DISABLE => true | ENABLE => false end) = false)
    as E by (destruct check; cbn in Hv |- *; [by rewrite Hv|done|done]).
  rewrite E in H. unfold getxattr in H. rewrite Hf in H. destruct (xattr_supported w); [|done].
  destruct (f_xattr f !! "user.etag") as [e|]; [|done]. by apply bool_decide_eq_true in H.
Qed.

Lemma stored_contains w f :
  fs w !! p = Some f ->
  (version_checked c check = true -> xattr_supported w = true /\ f_xattr f !! "user.etag" = Some v) ->
  CacheManager.contains c w path check version = true.
Proof.
  intros Hf Hv. unfold CacheManager.contains. rewrite (proj2 (path_exists_true w _)) by eauto. cbn [negb].
  destruct (match check with INHERIT => _ | DISABLE => true | ENABLE => false end) eqn:E; [done|].
  assert (version_checked c check = true) as Hc by (destruct check; cbn in E |- *; [by apply negb_false_iff in E|done|done]).
  rewrite Hc. destruct (Hv Hc) as [Hx He]. unfold getxattr. rewrite Hf, Hx, He. by apply bool_decide_eq_true.
Qed.

Lemma open_hit w f :
  CacheManager.contains c w path check version = true -> fs w !! p = Some f ->
  exists m, CacheManager.open c path version check w = (Ok (Some (f_data f)), with_fs m w) /\
    m !! p = Some (touched (now w) f) /\ forall q, q <> p -> m !! q = fs w !! q.
Proof.
  intros Hc Hf. unfold CacheManager.open. rewrite Hc. unfold mtry, mbind.
  destruct (update_access_time_spec p w f Hf) as (m & -> & Hm & Ho). unfold os_read_all. cbn [fs with_fs]. rewrite Hm.
  by exists m.
Qed.

Lemma open_data w :
  coh w -> usable w -> CacheManager.contains c w path check version = true ->
  exists w', CacheManager.open c path version check w = (Ok (Some d), w') /\ coh w' /\ usable w'.
Proof.
  intros [C1 C2] Hu Hc. destruct (contains_entry w Hc) as (f & Hf & He).
  assert (f_data f = d) as Hd.
  { unfold usable in Hu. destruct (version_checked c check); [|by apply Hu]. apply C2; [done|]. by apply He. }
  destruct (open_hit w f Hc Hf) as (m & -> & Hm & Ho). rewrite Hd. eexists. split; [done|]. split; [split|].
  - intros i g s Hi Hg. cbn in Hg. rewrite Ho in Hg by (by apply chunk_path_ne). eauto.
  - intros g Hg _. cbn in Hg. rewrite Hm in Hg. by injection Hg as <-.
  - unfold usable in *. destruct (version_checked c check); [done|]. intros g Hg. cbn in Hg. rewrite Hm in Hg.
    by injection Hg as <-.
Qed.

(** Moving a downloaded file into the cache and opening it *)
Lemma set_open w t :
  v <> "" -> (version_checked c check = true -> xattr_supported w = true) -> coh w ->
  fs w !! t = Some (new_file w d) ->
  exists w1 w2, CacheManager.set c path (CacheManager.FromPath t) version w = (Ok tt, w1) /\
    CacheManager.open c path version check w1 = (Ok (Some d), w2) /\ coh w1 /\ coh w2 /\ usable w2.
Proof.
  intros Hv Hx [C1 C2] Ht. rewrite (set_path_bytes c path t d version w Ht).
  destruct (set_bytes_spec c path d version (with_fs (delete t (fs w)) w)) as (f & w1 & Hs & Hf & Hd & _ & Hx1 & Ho & He).
  exists w1. cbn [xattr_supported with_fs] in Hx1, He.
  assert (coh w1) as Hcoh.
  { split.
    - intros i g s Hi Hg. rewrite Ho in Hg by (by apply chunk_path_ne). cbn in Hg.
      apply lookup_delete_Some in Hg as [_ Hg]. eauto.
    - intros g Hg _. congruence. }
  assert (usable w1) as Hu.
  { unfold usable. destruct (version_checked c check); [by rewrite Hx1, Hx|]. intros g Hg. congruence. }
  destruct (open_data w1 Hcoh Hu) as (w2 & Hopen & Hcoh2 & Hu2).
  { apply (stored_contains w1 f Hf). intros Hc. split; [by rewrite Hx1, Hx|]. rewrite He by (by apply Hx). rewrite Hc.
    by rewrite bool_decide_eq_false_2 by congruence. }
  exists w2. by rewrite Hs.
Qed.
End CacheFiles.

(** ** Handles and files in memory *)
Section Sim.
Context {S : Type} `{!FileClient S} {holds : string -> bytes -> string -> S -> Prop} {check : SourceVersionCheckMode}.
Context `{!FileClientLaws S check holds} (path : string) (d : bytes) (v : string).

Definition reads_as (h : handle) (m : memory_file) : Prop :=
  match h with
  | MemoryFile t f | LocalFile t _ f => t = false /\ f = m
  | RemoteFile r => rr_remote_path r = path /\ rr_file_size r = blen d /\ rr_pos r = position m /\ rr_check r = check
  end.

Lemma memory_read_buffer n m : buffer (memory_read n m).2 = buffer m.
Proof. done. Qed.
Lemma memory_op_valid op m :
  valid_op op m -> (0 <= position m)%Z -> (0 <= position (memory_op op m).2)%Z /\ buffer (memory_op op m).2 = buffer m.
Proof. destruct op as [n|q w|]; cbn; unfold blen; intros H1 H2; (split; [lia|done]). Qed.

Lemma reader_read_sim n r m s :
  holds path d v s -> buffer m = d -> (0 <= position m)%Z -> (-1 <= n)%Z -> reads_as (RemoteFile r) m ->
  exists r' s', reader_read n r s = (Ok ((memory_read n m).1, r'), s') /\
    reads_as (RemoteFile r') (memory_read n m).2 /\ holds path d v s'.
Proof using All.
  intros Hh Hb Hp Hn (Hr1 & Hr2 & Hr3 & Hr4). unfold reader_read. rewrite Hr2, Hr3.
  assert ((memory_read n m).1 = slice d (position m) (if (n =? -1)%Z then blen d - position m else n)) as Hd.
  { unfold memory_read. cbn [fst]. rewrite Hb. destruct (Z.ltb_spec n 0).
    - assert (n = -1)%Z as -> by lia. unfold slice, blen. rewrite take_ge; [done|]. rewrite length_drop. cbn [Z.eqb Pos.eqb]. lia.
    - by destruct (Z.eqb_spec n (-1)); [lia|]. }
  assert (position (memory_read n m).2 = position m + blen (memory_read n m).1)%Z as Hpos by done.
  destruct ((n =? 0)%Z || (blen d <=? position m)%Z) eqn:E.
  - assert ((memory_read n m).1 = []) as Hnil.
    { rewrite Hd. apply orb_true_iff in E as [E|E]; [|apply Z.leb_le in E; by apply slice_past].
      apply Z.eqb_eq in E. subst n. by apply slice_nonpos. }
    exists r, s. rewrite Hnil. split; [done|]. split; [|done]. split_and!; [done|done| |done]. rewrite Hpos, Hnil, Hr3. unfold blen. cbn. lia.
  - apply orb_false_iff in E as [E1 E2]. apply Z.eqb_neq in E1. apply Z.leb_gt in E2.
    set (len := if (n =? -1)%Z then (blen d - position m)%Z else Z.min n (blen d - position m)).
    assert (0 < len)%Z as Hlen by (subst len; destruct (Z.eqb_spec n (-1)); lia).
    assert ((memory_read n m).1 = slice d (position m) len) as Hd'.
    { rewrite Hd. subst len. destruct (n =? -1)%Z; [done|]. by apply slice_clamp. }
    destruct (fl_read path d v (mkRange (position m) len) s) as (s' & Hread & Hs'); [done|cbn; lia|cbn; lia|].
    unfold mbind. rewrite Hr1, Hr4, Hread. cbn [offset size].
    eexists _, s'. split; [by rewrite Hd'|]. split; [|done]. split_and!; [done|done| |done]. change (position m + blen (slice d (position m) len) = position (memory_read n m).2)%Z. by rewrite Hpos, Hd'.
Qed.

Lemma handle_op_sim op h m s :
  holds path d v s -> buffer m = d -> (0 <= position m)%Z -> valid_op op m -> reads_as h m ->
  exists h' s', handle_op op h s = (Ok ((memory_op op m).1, h'), s') /\ reads_as h' (memory_op op m).2 /\ holds path d v s'.
Proof using All.
  intros Hh Hb Hp Hv Hr. destruct op as [n|q w|]; cbn [valid_op] in Hv.
  - destruct h as [t f|t x f|r].
    + destruct Hr as [-> ->]. by eexists _, s.
    + destruct Hr as [-> ->]. by eexists _, s.
    + destruct (reader_read_sim n r m s Hh Hb Hp Hv Hr) as (r' & s' & Hread & Hr' & Hs').
      cbn [handle_op handle_read]. unfold mbind. rewrite Hread. by exists (RemoteFile r'), s'.
  - destruct h as [t f|t x f|r]; cbn in Hv.
    + destruct Hr as [-> ->].
      assert (memory_seek q w m = Ok (mkMemoryFile (buffer m) (seek_target q w m))) as Hseek.
      { destruct w; cbn in Hv |- *; [rewrite (proj2 (Z.ltb_ge _ _)) by done| |]; by rewrite Z.max_r by done. }
      cbn [handle_op handle_seek]. unfold mbind, mlift. rewrite Hseek. by eexists _, s.
    + destruct Hr as [-> ->].
      assert (local_seek q w m = Ok (mkMemoryFile (buffer m) (seek_target q w m))) as Hseek.
      { unfold local_seek. fold (seek_target q w m). by rewrite (proj2 (Z.ltb_ge _ _)) by done. }
      cbn [handle_op handle_seek]. unfold mbind, mlift. rewrite Hseek. by eexists _, s.
    + destruct Hr as (H1 & H2 & H3 & H4).
      assert (rr_pos (reader_seek q w r) = seek_target q w m) as Hseek by (destruct w; cbn; by rewrite ?H2, ?H3, ?Hb).
      cbn [handle_op handle_seek]. unfold mbind, mret. cbn [fst snd]. rewrite Hseek.
      exists (RemoteFile (reader_seek q w r)), s. by split_and!.
  - cbn [handle_op handle_tell]. exists h, s. unfold mbind, mret. cbn [fst snd]. split; [|done].
    destruct h; cbn in Hr |- *; [by destruct Hr as [_ ->]|by destruct Hr as [_ ->]|by destruct Hr as (_ & _ & -> & _)].
Qed.

Lemma reader_ops_sim ops r m s :
  holds path d v s -> buffer m = d -> (0 <= position m)%Z -> valid_ops ops m -> reads_as (RemoteFile r) m ->
  exists s', reader_ops ops r s = (Ok (memory_ops ops m), s') /\ holds path d v s'.
Proof using All.
  revert r m s. induction ops as [|op ops IH]; intros r m s Hh Hb Hp Hv Hr; [by exists s|]. destruct Hv as [Hv Hvs].
  destruct (handle_op_sim op (RemoteFile r) m s Hh Hb Hp Hv Hr) as (h' & s' & Hop & Hr' & Hs').
  destruct (memory_op_valid op m Hv Hp) as [Hp' Hb'].
  assert (exists r', h' = RemoteFile r') as [r' ->].
  { destruct op; cbn [handle_op handle_read handle_seek handle_tell] in Hop; unfold mbind, mret in Hop;
      [destruct (reader_read n r s) as [[]]; [|done]|..]; cbn in Hop; naive_solver. }
  cbn [reader_ops memory_ops]. unfold mbind at 1. rewrite Hop. cbn [fst snd].
  destruct (IH r' (memory_op op m).2 s') as (s2 & Hrun & Hs2); [done|by rewrite Hb'|done|done|done|].
  unfold mbind. rewrite Hrun. exists s2. split; [|done]. by destruct (memory_op op m).
Qed.
End Sim.

(** ** Files opened for reading *)
Section Reading.
Context {S : Type} `{!FileClient S} {holds : string -> bytes -> string -> S -> Prop} {check : SourceVersionCheckMode}.
Context `{HL : !FileClientLaws S check holds} (path : string) (d : bytes) (v : string) (Hv : v <> "").

(** The cache can be used with this kind of version check. *)
Definition cache_usable (w : world) : Prop := forall c, fc_cache = Some c -> usable c path d check w.
Definition good (s : S) : Prop := holds path d v s /\ cache_usable (fc_disk s).

Definition opened_rb (f : object_file) : Prop :=
  of_mode f = "rb" /\ of_remote_path f = path /\ of_check f = check /\ (of_cache f = None \/ of_cache f = fc_cache).
(** The file is there and positioned at its start. *)
Definition ready (f : object_file) : Prop :=
  opened_rb f /\ of_complete f = true /\ of_thread f = None /\ exists h, of_file f = Some h /\ reads_as (check := check) path d h (mkMemoryFile d 0).
(** The thread is still to run. *)
Definition loading (f : object_file) : Prop :=
  opened_rb f /\ of_complete f = false /\ exists t m, of_thread f = Some t /\ of_metadata f = Some m /\
    content_length m = blen d /\ etag m = Some v /\ (t = DownloadFile -> exists c, of_cache f = Some c /\ fc_cache = Some c).

Lemma good_set_disk s w : good s -> disk_agrees path d v w -> cache_usable w -> good (fc_set_disk w s).
Proof using HL. intros [H1 _] Hd Hu. split; [by apply fl_set_disk|]. by rewrite fl_disk. Qed.
Lemma agrees_one c w : fc_cache = Some c -> coherent c d v (CacheManager.get_cache_file_path c path) w -> disk_agrees path d v w.
Proof. intros Hc Hw c' Hc'. congruence. Qed.
Lemma usable_one c w : fc_cache = Some c -> usable c path d check w -> cache_usable w.
Proof. intros Hc Hw c' Hc'. congruence. Qed.

Lemma open_large_ready f m :
  opened_rb f -> of_thread f = None -> of_metadata f = Some m -> content_length m = blen d ->
  exists f', open_large_file f = Ok f' /\ ready f'.
Proof.
  intros Hf Ht Hm Hl. pose proof Hf as (H1 & H2 & H3 & _). unfold open_large_file. rewrite H1, Hm. rewrite bool_decide_eq_false_2 by done.
  eexists. split; [done|]. split; [by destruct f|]. split; [done|]. split; [done|]. eexists. split; [done|]. by split_and!.
Qed.

Lemma fetch_ok c m f s :
  fc_cache = Some c -> opened_rb f -> etag m = Some v -> good s ->
  exists h s', fetch_through_cache c m f s = (Ok h, s') /\ reads_as (check := check) path d h (mkMemoryFile d 0) /\ good s'.
Proof using HL Hv.
  intros Hc (Hmode & Hpath & Hcheck & _) He [Hh Hu]. unfold fetch_through_cache. rewrite Hpath, Hcheck, He, Hmode.
  specialize (Hu c Hc). pose proof (fl_agrees _ _ _ _ Hh c Hc) as Hcoh. unfold mbind at 1.
  destruct (CacheManager.contains c (fc_disk s) path check _) eqn:Econt.
  - destruct (open_data c path d v check (fc_disk s) Hcoh Hu Econt) as (w' & Hopen & Hcoh' & Hu').
    unfold mbind, on_disk. rewrite Hopen. eexists _, _. split; [done|]. split; [done|].
    apply good_set_disk; [by split; [|by apply (usable_one c)]|by apply (agrees_one c)|by apply (usable_one c)].
  - unfold mbind at 1, on_disk at 1. set (w0 := with_locks _ (fc_disk s)). set (s0 := fc_set_disk w0 s).
    assert (holds path d v s0) as Hh0 by (apply fl_set_disk; [done|by apply (agrees_one c)]).
    destruct (fl_download_path path d v (fc_temp_name s0) s0 Hh0) as (s1 & Hdl & Hh1 & Hd1).
    unfold mbind at 1. rewrite Hdl. unfold on_disk at 1.
    assert (fc_disk s0 = w0) as E0 by apply fl_disk. rewrite E0 in Hd1.
    destruct (set_open c path d v check (fc_disk s1) (fc_temp_name s0) Hv) as (w1 & w2 & Hset & Hopen & Hc1 & Hc2 & Hu2).
    { intros Hvc. unfold usable in Hu. rewrite Hvc in Hu. by rewrite Hd1. }
    { by apply (fl_agrees _ _ _ _ Hh1 c). }
    { rewrite Hd1. cbn. rewrite lookup_insert_eq. done. }
    rewrite Hset. unfold mbind, on_disk. rewrite fl_disk, Hopen. eexists _, _. split; [done|]. split; [done|].
    assert (holds path d v (fc_set_disk w1 s1)) as Hh2 by (apply fl_set_disk; [done|by apply (agrees_one c)]).
    split; [apply fl_set_disk; [done|by apply (agrees_one c)]|]. rewrite fl_disk. by apply (usable_one c).
Qed.

Lemma run_thread_ready f s : loading f -> good s -> exists f' s', run_thread f s = (f', s') /\ ready f' /\ good s'.
Proof using HL Hv.
  intros (Hf & Hn & t & m & Ht & Hm & Hl & He & Hc) Hg. unfold run_thread. rewrite Ht.
  assert (opened_rb (with_thread None f)) as Hf' by done.
  destruct t.
  - destruct (Hc eq_refl) as (c & Hcf & Hcc). unfold download_file. cbn [of_cache of_metadata with_thread]. rewrite Hcf, Hm.
    destruct (_ <=? _)%Z.
    + destruct (open_large_ready (with_thread None f) m Hf' eq_refl Hm Hl) as (f' & -> & Hr). by eexists _, _.
    + destruct (fetch_ok c m (with_thread None f) s Hcc Hf' He Hg) as (h & s' & -> & Hh & Hg').
      eexists _, _. split; [done|]. split; [|done]. split; [done|]. split; [done|]. split; [done|]. by exists h.
  - unfold download_fileobj. cbn [of_metadata with_thread]. rewrite Hm. destruct (_ <? _)%Z.
    + destruct (open_large_ready (with_thread None f) m Hf' eq_refl Hm Hl) as (f' & -> & Hr). by eexists _, _.
    + destruct Hf as (H1 & H2 & H3 & H4). change (of_remote_path (with_thread None f)) with (of_remote_path f). rewrite H2. destruct Hg as [Hh Hu].
      destruct (fl_download_buffer path d v s Hh) as (s' & -> & Hh' & Hd').
      eexists _, _. split; [done|]. split; [|by split; [|rewrite Hd']]. split; [done|]. split; [done|]. split; [done|]. eexists. split; [done|].
      cbn. by rewrite H1.
Qed.

Lemma run_thread_complete f s : ready f -> run_thread f s = (f, s).
Proof. intros (_ & _ & H & _). unfold run_thread. by rewrite H. Qed.

Lemma fetch_metadata_ok f c s :
  opened_rb f -> of_complete f = false -> of_thread f = None -> of_cache f = Some c -> fc_cache = Some c -> good s ->
  exists f' s', fetch_metadata f s = (Ok f', s') /\ (ready f' \/ loading f') /\ good s'.
Proof using HL.
  intros Hf Hn Ht Hcf Hc Hg. pose proof Hf as (_ & Hp & _). unfold fetch_metadata, mbind. rewrite Hp.
  destruct (fl_info path d v s (proj1 Hg)) as (m & -> & Hl & He). destruct (_ || _).
  - eexists _, _. split; [done|]. split; [|done]. right. split; [done|]. split; [done|]. exists DownloadFile, m.
    split_and!; try done. intros _. by exists c.
  - destruct (open_large_ready (with_metadata m f) m) as (f' & -> & Hr); [done|done|done|done|]. eexists _, _. by split; [|split; [left|]].
Qed.

Lemma open_ok disable limit a prefetch s :
  path <> "" -> good s ->
  exists f s', open_object_file path "rb" disable limit check a prefetch s = (Ok f, s') /\ (ready f \/ loading f) /\ good s'.
Proof using HL.
  intros Hp Hg. unfold open_object_file. rewrite (bool_decide_eq_false_2 (path = "")) by done. cbn [negb].
  replace (bool_decide ("rb" ∈ ["r"; "w"; "rb"; "wb"; "a"; "ab"])) with true by reflexivity. cbn [negb].
  assert (forall c0, (if disable then None else fc_cache) = Some c0 -> fc_cache = Some c0) as Hcc by (by destruct disable).
  assert ((if disable then None else fc_cache) = None \/ (if disable then None else fc_cache) = fc_cache) as Hcd
    by (destruct disable; auto).
  revert Hcc Hcd. generalize (if disable then None else fc_cache). intros cc Hcc Hcd.
  set (f := mkObjectFile _ _ _ _ _ _ _ _ _ _ _ _ _). assert (opened_rb f) as Hf by done.
  replace (readable f) with true by reflexivity. destruct cc as [c|].
  - pose proof (Hcc c eq_refl) as Hc.
    destruct (negb _ && _) eqn:E; [|by apply (fetch_metadata_ok f c)].
    apply andb_true_iff in E as [E1 E2]. apply negb_true_iff in E1. unfold mbind, on_disk. destruct Hg as [Hh Hu].
    pose proof (Hu c Hc) as Huc.
    assert (usable c path d DISABLE (fc_disk s)) as Hud by (unfold usable in Huc |- *; by rewrite E1 in Huc).
    destruct (open_data c path d v DISABLE (fc_disk s) (fl_agrees _ _ _ _ Hh c Hc) Hud E2) as (w' & Hopen & Hcoh & Hu').
    cbn [version_checked] in Hopen. rewrite Hopen. eexists _, _. split; [done|]. split.
    + left. split; [done|]. split; [done|]. split; [done|]. by eexists.
    + apply good_set_disk; [by split|by apply (agrees_one c)|]. apply (usable_one c); [done|]. unfold usable in Hu' |- *. by rewrite E1.
  - unfold mbind. destruct (fl_info path d v s (proj1 Hg)) as (m & -> & Hl & He). eexists _, _. split; [done|]. split; [|done].
    right. split; [done|]. split; [done|]. by exists DownloadFileobj, m.
Qed.

Lemma file_ops_ok ops f m s h :
  opened_rb f -> of_complete f = true -> of_file f = Some h -> reads_as (check := check) path d h m -> buffer m = d -> (0 <= position m)%Z ->
  valid_ops ops m -> holds path d v s ->
  exists f' s', file_ops ops f s = Some (Ok (memory_ops ops m), (f', s')) /\ holds path d v s'.
Proof using HL.
  revert f m s h. induction ops as [|op ops IH]; intros f m s h Hf Hcomp Hfile Hr Hb Hp Hvs Hh; [by eexists _, _|].
  destruct Hvs as [Hvo Hvs]. destruct (handle_op_sim path d v op h m s Hh Hb Hp Hvo Hr) as (h' & s' & Hop & Hr' & Hs').
  destruct (memory_op_valid op m Hvo Hp) as [Hp' Hb'].
  cbn [file_ops memory_ops]. unfold with_file, wait. rewrite Hcomp, orb_true_r, Hfile, Hop.
  destruct (IH (with_handle h' f) (memory_op op m).2 s' h') as (f2 & s2 & Hrun & Hs2); try done; [by rewrite Hb'|].
  rewrite Hrun. exists f2, s2. split; [|done]. by destruct (memory_op op m).
Qed.

(** A file that is loading is ready when an operation has waited for it. *)
Lemma loading_ops ops f s :
  loading f -> good s -> ops <> [] ->
  exists f' s', wait f s = Some (f', s') /\ ready f' /\ good s' /\ file_ops ops f s = file_ops ops f' s'.
Proof using HL Hv.
  intros Hl Hg Hne. destruct (run_thread_ready f s Hl Hg) as (f' & s' & Hrun & Hr & Hg'). exists f', s'.
  pose proof Hl as ((Hm & _) & Hn & _). pose proof Hr as (_ & Hc & _).
  assert (wait f s = Some (f', s')) as Hw.
  { unfold wait, readable. rewrite Hm, Hn, Hrun, Hc. reflexivity. }
  split; [done|]. split; [done|]. split; [done|]. destruct ops as [|op ops]; [done|]. cbn [file_ops]. unfold with_file. rewrite Hw.
  assert (wait f' s' = Some (f', s')) as -> by (unfold wait; by rewrite Hc, orb_true_r). done.
Qed.
End Reading.

(** C4: a file opened in mode [rb] on an object with a non-empty version, without
    a cache, with one that checks versions on a disk with extended attributes, or
    with one that holds nothing but the object for the path,
    behaves like a file in memory that holds the object: opening it succeeds,
    and every sequence of reads (of -1 or more bytes), seeks (not before the start) and tells
    gives the results of the same sequence on the object's bytes, whether the
    file is read from the cache, through the cache, into memory or by range
    requests, and whether the download thread has run before the first
    operation or not. *)
Theorem object_file_reads_like_memory {S} `{!FileClient S} {holds : string -> bytes -> string -> S -> Prop}
    {check : SourceVersionCheckMode} `{HL : !FileClientLaws S check holds} (path : string) (d : bytes) (v : string)
    (disable_read_cache : bool) (memory_load_limit : Z) (a : option attributes) (prefetch_file : option bool)
    (early : bool) (ops : list file_op) (s : S)
    (Hv : v <> "") (Hpath : path <> "") (Hholds : holds path d v s) (Hcache : cache_usable (check := check) path d (fc_disk s))
    (Hops : valid_ops ops (mkMemoryFile d 0)) :
  exists f s1, open_object_file path "rb" disable_read_cache memory_load_limit check a prefetch_file s = (Ok f, s1) /\
    let '(f1, s2) := if early then run_thread f s1 else (f, s1) in
    exists f2 s3, file_ops ops f1 s2 = Some (Ok (memory_ops ops (mkMemoryFile d 0)), (f2, s3)) /\ holds path d v s3.
Proof.
  destruct (open_ok path d v disable_read_cache memory_load_limit a prefetch_file s Hpath (conj Hholds Hcache))
    as (f & s1 & Hopen & Hf & Hg). exists f, s1. split; [done|].
  assert (exists f1 s2, (if early then run_thread f s1 else (f, s1)) = (f1, s2) /\
    (ready (check := check) path d f1 \/ loading (check := check) path d v f1) /\ good (holds := holds) path d v (check := check) s2) as (f1 & s2 & -> & Hf1 & Hg1).
  { destruct early; [|by exists f, s1]. destruct Hf as [Hr|Hl].
    - rewrite (run_thread_complete path d f s1 Hr). exists f, s1. auto.
    - destruct (run_thread_ready path d v Hv f s1 Hl Hg) as (f1 & s2 & -> & Hr & Hg'). exists f1, s2. auto. }
  destruct ops as [|op ops]; [by exists f1, s2; split; [|apply Hg1]|].
  assert (exists f2 s3, file_ops (op :: ops) f1 s2 = file_ops (op :: ops) f2 s3 /\ ready (check := check) path d f2 /\ holds path d v s3)
    as (f2 & s3 & -> & (Hrb & Hc & _ & h & Hh & Hr) & Hs3).
  { destruct Hf1 as [Hr|Hl]; [exists f1, s2; split; [done|]; split; [done|apply Hg1]|].
    destruct (loading_ops path d v Hv (op :: ops) f1 s2 Hl Hg1) as (f2 & s3 & _ & Hr & Hg2 & ->); [done|].
    exists f2, s3. split; [done|]. split; [done|]. apply Hg2. }
  by apply (file_ops_ok path d v (op :: ops) f2 (mkMemoryFile d 0) s3 h).
Qed.

(** ** Files opened for writing *)
Lemma memory_write_end b m :
  position m = blen (buffer m) -> memory_write b m = mkMemoryFile (buffer m ++ b) (blen (buffer m ++ b)).
Proof.
  intros Hp. unfold memory_write. rewrite Hp. unfold blen. rewrite Nat2Z.id, Nat.sub_diag. cbn [replicate app].
  rewrite take_ge, drop_ge, app_nil_r by lia. f_equal. rewrite length_app. lia.
Qed.

Section Writing.
Context {S : Type} `{!FileClient S}.
(** Every write goes to the end of the file in memory. *)
Lemma file_writelines_ok lines f t m (s : S) :
  of_file f = Some (MemoryFile t m) -> position m = blen (buffer m) ->
  exists m', file_writelines lines f s = (Ok (with_handle (MemoryFile t m') f), s) /\ buffer m' = buffer m ++ concat lines.
Proof.
  revert f m. induction lines as [|b lines IH]; intros f m Hf Hp.
  - exists m. cbn. rewrite app_nil_r. split; [|done]. destruct f; cbn in Hf |- *. by subst.
  - cbn [file_writelines]. unfold file_write, unwaited. rewrite Hf. unfold mbind. cbn. rewrite memory_write_end by done.
    destruct (IH (with_handle (MemoryFile t (mkMemoryFile (buffer m ++ b) (blen (buffer m ++ b)))) f)
      (mkMemoryFile (buffer m ++ b) (blen (buffer m ++ b)))) as (m' & Hw & Hb); [done|done|].
    exists m'. split; [by rewrite Hw|]. rewrite Hb. cbn [buffer concat]. by rewrite app_assoc.
Qed.

(** The file that opening a path to write or append gives *)
Lemma open_write_ok path mode disable limit check a prefetch (s : S) :
  path <> "" -> mode = "wb" \/ mode = "ab" ->
  exists f, open_object_file path mode disable limit check a prefetch s = (Ok f, s) /\ of_mode f = mode /\
    of_remote_path f = path /\ of_closed f = false /\ of_file f = Some (MemoryFile false (mkMemoryFile [] 0)).
Proof.
  intros Hp Hm. unfold open_object_file. rewrite (bool_decide_eq_false_2 (path = "")) by done.
  replace (bool_decide (mode ∈ ["r"; "w"; "rb"; "wb"; "a"; "ab"])) with true by (by destruct Hm as [->| ->]).
  cbn [negb]. set (f := mkObjectFile _ _ _ _ _ _ _ _ _ _ _ _ _).
  replace (readable f) with false by (by destruct Hm as [->| ->]).
  exists (create_fileobj f). by destruct Hm as [->| ->].
Qed.

Lemma close_written f t m (s : S) :
  of_mode f = "wb" \/ of_mode f = "ab" -> of_closed f = false -> of_file f = Some (MemoryFile t m) ->
  close_file f s = Some match upload_file f (buffer m) s with
                        | (Ok _, s') => (Ok tt, (closed_file f, s'))
                        | (Err e, s') => (Err e, (f, s'))
                        end.
Proof.
  intros Hm Hc Hf. assert (readable f = false) as Hr by (unfold readable; by destruct Hm as [->| ->]).
  unfold close_file, wait. rewrite Hr. cbn [negb orb]. by rewrite Hf, Hc, Hr.
Qed.
End Writing.

(** What an upload on close of a file opened to append replaces: the object, or
    nothing if there is none *)
Definition replaced {S} `{!FileClient S} (holds : string -> bytes -> string -> S -> Prop) (path : string) (d : bytes) (s : S) : Prop :=
  (exists v, holds path d v s) \/
  (d = [] /\ forall t, exists s', fc_download_path path t s = (Err FileNotFoundError, s') /\ fc_disk s' = fc_disk s).

Section Uploading.
Context {S : Type} `{!FileClient S} {holds : string -> bytes -> string -> S -> Prop} {check : SourceVersionCheckMode}.
Context `{HL : !FileClientLaws S check holds} `{HU : !FileUploadLaws S holds}.

Lemma download_replaced path d t s :
  replaced holds path d s -> fs (fc_disk s) !! t = None ->
  exists s', mtry is_FileNotFoundError
      (fc_download_path path t ;;; on_disk (os_getsize t) ;;; mret tt) (fun _ => mret tt) s = (Ok tt, s') /\
    xattr_supported (fc_disk s') = xattr_supported (fc_disk s) /\
    match fs (fc_disk s') !! t with Some x => f_data x = d | None => d = [] end.
Proof using HL.
  intros [[v Hh]|[-> Hmiss]] Ht; unfold mtry, mbind.
  - destruct (fl_download_path path d v t s Hh) as (s' & -> & Hh' & Hd). unfold on_disk, os_getsize. rewrite Hd. cbn [fs with_fs].
    rewrite lookup_insert_eq. eexists. split; [done|]. rewrite fl_disk. split; [done|]. cbn. by rewrite lookup_insert_eq.
  - destruct (Hmiss t) as (s' & -> & Hd). cbn. exists s'. rewrite Hd, Ht. done.
Qed.

Lemma upload_append f path d b s :
  of_mode f = "ab" -> of_remote_path f = path -> replaced holds path d s ->
  exists s' v, upload_file f b s = (Ok tt, s') /\ v <> "" /\ holds path (d ++ b) v s' /\
    xattr_supported (fc_disk s') = xattr_supported (fc_disk s).
Proof using HL HU.
  intros Hm Hp Hr. unfold upload_file. rewrite Hm, Hp.
  replace (bool_decide ("ab" ∈ ["w"; "wb"])) with false by reflexivity.
  replace (bool_decide ("ab" ∈ ["a"; "ab"])) with true by reflexivity. set (t := fc_temp_name s).
  destruct (download_replaced path d t s Hr (fl_temp s)) as (s1 & Hd & Hx1 & Ht). unfold mbind at 1. rewrite Hd.
  unfold mbind at 1, on_disk at 1.
  assert (exists x, append_local t b (fc_disk s1) = (Ok tt, with_fs (<[t := x]> (fs (fc_disk s1))) (fc_disk s1)) /\ f_data x = d ++ b)
    as (x & -> & Hx).
  { unfold append_local. destruct (fs (fc_disk s1) !! t) as [y|]; [rewrite <- Ht|rewrite Ht]; by eexists. }
  set (s2 := fc_set_disk _ s1).
  destruct (fl_upload path (PathIO t) (d ++ b) (of_attributes f) s2) as (v & s3 & Hv & Hup & Hh & Hd3).
  { unfold s2. rewrite fl_disk. cbn. rewrite lookup_insert_eq. eauto. }
  unfold mbind. rewrite Hup. unfold on_disk, os_unlink. rewrite Hd3. unfold s2. rewrite fl_disk. cbn [fs with_fs].
  rewrite lookup_insert_eq. eexists _, v. split; [done|]. split; [done|]. split; [|by rewrite fl_disk].
  apply fl_set_disk; [done|]. intros c Hc. pose proof (fl_agrees _ _ _ _ Hh c Hc) as Hcoh. rewrite Hd3 in Hcoh.
  unfold s2 in Hcoh. rewrite fl_disk in Hcoh. eapply coherent_delete; [exact Hcoh|]. cbn.
  intros q g [_ Hg]%lookup_delete_Some. done.
Qed.

Lemma upload_written f path b s :
  of_mode f = "wb" -> of_remote_path f = path ->
  exists s' v, upload_file f b s = (Ok tt, s') /\ v <> "" /\ holds path b v s' /\
    xattr_supported (fc_disk s') = xattr_supported (fc_disk s).
Proof using HU.
  intros Hm Hp. unfold upload_file. rewrite Hm, Hp. replace (bool_decide ("wb" ∈ ["w"; "wb"])) with true by reflexivity.
  destruct (fl_upload path (BytesIO b) b (of_attributes f) s eq_refl) as (v & s' & Hv & -> & Hh & Hd).
  exists s', v. by rewrite Hd.
Qed.
End Uploading.

(** C5: what is written to a file in the binary modes is stored when it is
    closed: in mode [wb] the object is the concatenation of what was written, in
    mode [ab] it is the old object followed by it (no object counts as an empty
    one); a file opened on the path afterwards in mode [rb], without a cache or
    with a cache that checks versions on a disk with extended attributes, reads
    exactly these bytes. *)
Theorem written_file_reads_back {S} `{!FileClient S} {holds : string -> bytes -> string -> S -> Prop}
    {check : SourceVersionCheckMode} `{HL : !FileClientLaws S check holds} `{HU : !FileUploadLaws S holds}
    (path mode : string) (lines : list bytes) (old : bytes) (disable : bool) (limit : Z) (a : option attributes)
    (prefetch : option bool) (s : S)
    (Hpath : path <> "") (Hmode : mode = "wb" \/ mode = "ab") (Hold : mode = "ab" -> replaced holds path old s)
    (Hcache : forall c, fc_cache = Some c -> version_checked c check = true /\ xattr_supported (fc_disk s) = true) :
  let content := (if bool_decide (mode = "ab") then old else []) ++ concat lines in
  exists f f1 f2 s1 v, open_object_file path mode disable limit check a prefetch s = (Ok f, s) /\
    file_writelines lines f s = (Ok f1, s) /\ close_file f1 s = Some (Ok tt, (f2, s1)) /\ holds path content v s1 /\
    exists g g' s2 s3, open_object_file path "rb" disable limit check None prefetch s1 = (Ok g, s2) /\
      file_readall g s2 = Some (Ok (PyBytes content), (g', s3)).
Proof.
  cbn zeta. destruct (open_write_ok path mode disable limit check a prefetch s Hpath Hmode) as (f & Hopen & Hm & Hp & Hc & Hf).
  destruct (file_writelines_ok lines f false (mkMemoryFile [] 0) s Hf eq_refl) as (m & Hw & Hb). cbn [buffer app] in Hb.
  set (f1 := with_handle (MemoryFile false m) f) in Hw.
  assert (exists s1 v, upload_file f1 (buffer m) s = (Ok tt, s1) /\ v <> "" /\
    holds path ((if bool_decide (mode = "ab") then old else []) ++ concat lines) v s1 /\
    xattr_supported (fc_disk s1) = xattr_supported (fc_disk s)) as (s1 & v & Hup & Hv & Hh & Hx).
  { rewrite Hb. destruct Hmode as [->| ->]; cbn [bool_decide].
    - rewrite bool_decide_eq_false_2 by done. by apply upload_written.
    - rewrite bool_decide_eq_true_2 by done. apply upload_append; [done|done|by apply Hold]. }
  exists f, f1, (closed_file f1), s1, v. split; [done|]. split; [done|]. split.
  { rewrite (close_written f1 false m); [by rewrite Hup|by unfold f1; rewrite <- Hm in Hmode|done|done]. }
  split; [done|]. set (d := _ ++ _) in Hh |- *.
  assert (good (holds := holds) (check := check) path d v s1) as Hg.
  { split; [done|]. intros c Hcc. unfold usable. destruct (Hcache c Hcc) as [-> Hs]. by rewrite Hx. }
  destruct (open_ok path d v disable limit None prefetch s1 Hpath Hg) as (g & s2 & Hog & Hr & Hg2).
  assert (exists g1 s3, wait g s2 = Some (g1, s3) /\ ready (check := check) path d g1 /\ holds path d v s3)
    as (g1 & s3 & Hwait & (_ & _ & _ & h & Hh1 & Hr1) & Hs3).
  { destruct Hr as [Hr|Hl].
    - exists g, s2. split; [|split; [done|apply Hg2]]. unfold wait. destruct Hr as (_ & -> & _). by rewrite orb_true_r.
    - destruct (loading_ops path d v Hv [OpTell] g s2 Hl Hg2) as (g1 & s3 & ? & ? & [? _] & _); [done|]. by exists g1, s3. }
  destruct (handle_op_sim path d v (OpRead (-1)) h (mkMemoryFile d 0) s3 Hs3 eq_refl) as (h' & s4 & Hop & _); [done|cbn; lia|done|].
  exists g, (with_handle h' g1), s2, s4. split; [done|]. unfold file_readall, file_read, with_file. rewrite Hwait, Hh1.
  cbn [handle_op] in Hop. unfold mbind in Hop. destruct (handle_read (-1) h s3) as [[[[b|b] h1]|e] s5]; cbn in Hop; [|done|done].
  injection Hop as -> -> ->. by rewrite drop_0.
Qed.

(** ** A client in memory *)
Record shelf := mkShelf { sh_objects : gmap string (bytes * string); sh_disk : world }.
(** The versions that files of the disk carry *)
Definition disk_versions (w : world) : gset string :=
  list_to_set (omap (fun kf => f_xattr kf.2 !! "user.etag") (map_to_list (fs w))).
Definition shelf_version (s : shelf) : string := fresh ({[""]} ∪ disk_versions (sh_disk s)).
Definition shelf_put (p : string) (d : bytes) (s : shelf) : shelf :=
  mkShelf (<[p := (d, shelf_version s)]> (sh_objects s)) (sh_disk s).
Definition shelf_get (p : string) (s : shelf) : res bytes :=
  match sh_objects s !! p with Some x => Ok x.1 | None => Err FileNotFoundError end.

Definition shelf_client (c : option CacheManager.cfg) : FileClient shelf := {|
  fc_cache := c;
  fc_disk := sh_disk;
  fc_set_disk := fun w s => mkShelf (sh_objects s) w;
  fc_temp_name := fun s => fresh (dom (fs (sh_disk s)));
  fc_info := fun p s =>
    (match sh_objects s !! p with
     | Some (d, v) => Ok (mkObjectMetadata p (blen d) 0 "file" None (Some v) None None None)
     | None => Err FileNotFoundError
     end, s);
  fc_read := fun p r _ s => (res_bind (shelf_get p s) (fun d => Ok (slice d (offset r) (size r))), s);
  fc_download_path := fun p t s =>
    match shelf_get p s with
    | Ok d => (Ok tt, mkShelf (sh_objects s)
                (with_fs (<[t := new_file (sh_disk s) d]> (fs (sh_disk s))) (sh_disk s)))
    | Err e => (Err e, s)
    end;
  fc_download_buffer := fun p s =>
    match shelf_get p s with Ok d => (d, Ok tt, s) | Err e => ([], Err e, s) end;
  fc_upload := fun p f _ s =>
    match f with
    | BytesIO b => (Ok tt, shelf_put p b s)
    | PathIO t =>
        match fs (sh_disk s) !! t with
        | Some x => (Ok tt, shelf_put p (f_data x) s)
        | None => (Err FileNotFoundError, s)
        end
    end;
|}.
Definition shelf_holds (c : option CacheManager.cfg) (p : string) (d : bytes) (v : string) (s : shelf) : Prop :=
  sh_objects s !! p = Some (d, v) /\ disk_agrees (FileClient0 := shelf_client c) p d v (sh_disk s).

#[global] Instance shelf_laws c check : FileClientLaws shelf (FileClient0 := shelf_client c) check (shelf_holds c).
Proof.
  split; unfold shelf_holds; cbn.
  - done.
  - intros s. apply not_elem_of_dom, is_fresh.
  - by intros p d v s [_ H].
  - by intros p d v w s [H _] Hw.
  - intros p d v s [-> _]. by eexists.
  - intros p d v r s [H1 H2] _ _. unfold shelf_get. rewrite H1. by exists s.
  - intros p d v t s [H1 H2]. unfold shelf_get. rewrite H1. eexists. split; [done|]. split; [|done]. split; [done|].
    intros c' Hc. destruct (H2 c' Hc) as [C1 C2]. split; cbn.
    + intros i f sx Hi Hf He. apply lookup_insert_Some in Hf as [[_ <-]|[_ Hf]]; [done|]. eauto.
    + intros f Hf He. apply lookup_insert_Some in Hf as [[_ <-]|[_ Hf]]; [done|]. eauto.
  - intros p d v s [H1 H2]. unfold shelf_get. rewrite H1. by exists s.
Qed.

Lemma shelf_version_fresh s q f : fs (sh_disk s) !! q = Some f -> f_xattr f !! "user.etag" <> Some (shelf_version s).
Proof.
  intros Hq He. assert (shelf_version s ∉ {[""]} ∪ disk_versions (sh_disk s)) as Hn by exact (is_fresh ({[""]} ∪ disk_versions (sh_disk s))). apply Hn.
  apply elem_of_union_r, elem_of_list_to_set, list_elem_of_omap. exists (q, f). split; [by apply elem_of_map_to_list|done].
Qed.

#[global] Instance shelf_upload_laws c : FileUploadLaws shelf (FileClient0 := shelf_client c) (shelf_holds c).
Proof.
  split. intros p f d a s Hd. exists (shelf_version s), (shelf_put p d s).
  assert (shelf_version s <> "") as Hne.
  { assert (shelf_version s ∉ {[""]} ∪ disk_versions (sh_disk s)) as Hn by exact (is_fresh ({[""]} ∪ disk_versions (sh_disk s))). set_solver. }
  assert (shelf_holds c p d (shelf_version s) (shelf_put p d s)) as Hh.
  { split; [apply lookup_insert_eq|]. intros c' _. split.
    - intros i g sx _ Hg He. by destruct (shelf_version_fresh s _ _ Hg).
    - intros g Hg He. by destruct (shelf_version_fresh s _ _ Hg). }
  split; [done|]. destruct f as [t|b]; cbn.
  - destruct Hd as (x & Hx & ->). cbn in Hx. by rewrite Hx.
  - by subst d.
Qed.

(** ** Examples *)
Section Examples.
Definition file_cfg (prefetch : bool) : CacheManager.cfg :=
  CacheManager.mkCfg "/cache" "prof" 100 true prefetch Eviction.default_eviction_policy 4.
Definition unchecked_cfg : CacheManager.cfg :=
  CacheManager.mkCfg "/cache" "prof" 100 false true Eviction.default_eviction_policy 4.
Definition one_object (d : bytes) : shelf := mkShelf {[ "k" := (d, "v1") ]} empty_world.
Definition abc : bytes := String.list_byte_of_string "abc".

Lemma one_object_holds c d : shelf_holds c "k" d "v1" (one_object d).
Proof. split; [done|]. intros c' _. split; [intros i f sx _ Hf|intros f Hf]; cbn in Hf; by rewrite lookup_empty in Hf. Qed.

Lemma object_file_reads_like_memory_witness :
  exists f s1 f2 s3, open_object_file (FileClient0 := shelf_client (Some (file_cfg true))) "k" "rb" false 1000 INHERIT None None
      (one_object abc) = (Ok f, s1) /\
    file_ops (FileClient0 := shelf_client (Some (file_cfg true))) [OpRead 1; OpSeek (-1) SEEK_END; OpRead (-1); OpTell] f s1 =
      Some (Ok (memory_ops [OpRead 1; OpSeek (-1) SEEK_END; OpRead (-1); OpTell] (mkMemoryFile abc 0)), (f2, s3)).
Proof.
  destruct (object_file_reads_like_memory (FileClient0 := shelf_client (Some (file_cfg true)))
    (holds := shelf_holds (Some (file_cfg true))) (check := INHERIT) "k" abc "v1" false 1000 None None false
    [OpRead 1; OpSeek (-1) SEEK_END; OpRead (-1); OpTell] (one_object abc)) as (f & s1 & H1 & f2 & s3 & H2 & _).
  - discriminate.
  - discriminate.
  - apply one_object_holds.
  - intros c [= <-]. reflexivity.
  - vm_compute. repeat split; discriminate.
  - exists f, s1, f2, s3. exact (conj H1 H2).
Defined.

Lemma written_file_reads_back_witness :
  exists f f1 f2 s1 g g' s2 s3,
    open_object_file (FileClient0 := shelf_client None) "k" "ab" false 1000 INHERIT None None (one_object abc) = (Ok f, one_object abc) /\
    file_writelines [abc; abc] f (one_object abc) = (Ok f1, one_object abc) /\
    close_file (FileClient0 := shelf_client None) f1 (one_object abc) = Some (Ok tt, (f2, s1)) /\
    open_object_file (FileClient0 := shelf_client None) "k" "rb" false 1000 INHERIT None None s1 = (Ok g, s2) /\
    file_readall (FileClient0 := shelf_client None) g s2 =
      Some (Ok (PyBytes (String.list_byte_of_string "abcabcabc")), (g', s3)).
Proof.
  destruct (written_file_reads_back (FileClient0 := shelf_client None) (holds := shelf_holds None) (check := INHERIT)
    "k" "ab" [abc; abc] abc false 1000 None None (one_object abc))
    as (f & f1 & f2 & s1 & v & H1 & H2 & H3 & _ & g & g' & s2 & s3 & H4 & H5).
  - discriminate.
  - right. reflexivity.
  - intros _. left. exists "v1". apply one_object_holds.
  - discriminate.
  - exists f, f1, f2, s1, g, g', s2, s3. exact (conj H1 (conj H2 (conj H3 (conj H4 H5)))).
Defined.

(** *** Behaviour that differs from what is intended *)

(** The file [k] with its thread still to run *)
Definition loading_file (mode : string) (c : option CacheManager.cfg) (prefetch : bool) (limit : Z)
    (check : SourceVersionCheckMode) (t : task) : object_file :=
  mkObjectFile mode "k" c prefetch limit check None
    (Some (mkObjectMetadata "k" 3 0 "file" None (Some "v1") None None None)) (Some t) None false false [].
Definition failing_client (d : bytes) : FileClient shelf :=
  let k := shelf_client None in
  {| fc_cache := None; fc_disk := @fc_disk _ k; fc_set_disk := @fc_set_disk _ k; fc_temp_name := @fc_temp_name _ k;
     fc_info := @fc_info _ k; fc_read := @fc_read _ k; fc_upload := @fc_upload _ k;
     fc_download_path := fun _ _ => mraise RetryableError;
     fc_download_buffer := fun _ s => (d, Err RetryableError, s) |}.

(** A download without a cache that fails in the background goes unnoticed:
    the file reads as empty, without an exception. *)
Theorem failed_download_reads_empty (partial : bytes) :
  exists f s1 f2 s2, open_object_file (FileClient0 := failing_client partial) "k" "rb" false 1000 INHERIT None None
      (one_object abc) = (Ok f, s1) /\
    file_readall (FileClient0 := failing_client partial) f s1 = Some (Ok (PyBytes []), (f2, s2)).
Proof.
  exists (loading_file "rb" None true 1000 INHERIT DownloadFileobj). exists (one_object abc). eexists _, _.
  split; [vm_compute; reflexivity|]. unfold file_readall, file_read, with_file, wait.
  replace (readable (loading_file "rb" None true 1000 INHERIT DownloadFileobj)) with true by reflexivity. cbn.
  rewrite drop_ge; [done|]. unfold blen. lia.
Qed.

(** A text file that is too large is never read and never fails: the thread
    ends before it sets the event that every operation waits for. *)
Theorem large_text_file_blocks (c : option CacheManager.cfg) :
  (forall x, c = Some x -> (CacheManager.max_cache_size x <= 3)%Z) ->
  exists f s1, open_object_file (FileClient0 := shelf_client c) "k" "r" false 2 ENABLE None None (one_object abc) = (Ok f, s1) /\
    file_readall (FileClient0 := shelf_client c) f s1 = None /\ close_file (FileClient0 := shelf_client c) f s1 = None.
Proof.
  intros Hc. destruct c as [c|].
  - exists (loading_file "r" (Some c) (CacheManager.prefetch_file c) 2 ENABLE DownloadFile), (one_object abc). split.
    + unfold open_object_file, fetch_metadata, mbind. cbn. by rewrite orb_true_r.
    + unfold file_readall, file_read, with_file, close_file, wait.
      replace (readable _) with true by reflexivity. unfold run_thread, download_file. cbn. specialize (Hc c eq_refl).
      by rewrite (proj2 (Z.leb_le _ _)) by done.
  - exists (loading_file "r" None true 2 ENABLE DownloadFileobj), (one_object abc). vm_compute. repeat split.
Qed.

(** Opening the file [k], and what follows *)
Definition opening (c : option CacheManager.cfg) (mode : string) (s : shelf) (P : object_file -> shelf -> Prop) : Prop :=
  match open_object_file (FileClient0 := shelf_client c) "k" mode false 1000 INHERIT None None s with
  | (Ok f, s') => P f s'
  | (Err _, _) => False
  end.

(** A file in text mode reads [bytes] when it is opened from a cache that does
    not check versions, and [str] when it is downloaded. *)
Theorem cached_text_file_is_binary (k := shelf_client (Some unchecked_cfg)) :
  opening (Some unchecked_cfg) "r" (one_object abc) (fun f s =>
    match file_readall (FileClient0 := k) f s with
    | Some (Ok v, (_, s1)) => v = PyStr abc /\ opening (Some unchecked_cfg) "r" s1 (fun g s2 =>
        option_map fst (file_readall (FileClient0 := k) g s2) = Some (Ok (PyBytes abc)))
    | _ => False
    end).
Proof. vm_compute. split; reflexivity. Qed.

(** Where extended attributes are not supported, a cache that checks versions
    cannot be read through at all. *)
Theorem unversioned_cache_not_readable (k := shelf_client (Some (file_cfg true))) :
  opening (Some (file_cfg true)) "rb" (mkShelf {[ "k" := (abc, "v1") ]} (mkWorld ∅ ∅ 0 0 false false false)) (fun f s =>
    option_map fst (file_readall (FileClient0 := k) f s) = Some (Err AttributeError)).
Proof. vm_compute. reflexivity. Qed.

(** The path that is returned for a file in memory leads to an empty file until
    the file object is closed: the copy is not flushed. *)
Theorem resolved_path_not_flushed (k := shelf_client None) :
  opening None "rb" (one_object abc) (fun f s =>
    match resolve_filesystem_path (FileClient0 := k) f s with
    | Some (Ok t, (f1, s1)) =>
        f_data <$> fs (sh_disk s1) !! t = Some [] /\
        match close_file (FileClient0 := k) f1 s1 with
        | Some (Ok _, (_, s2)) => f_data <$> fs (sh_disk s2) !! t = Some abc
        | _ => False
        end
    | _ => False
    end).
Proof. vm_compute. split; reflexivity. Qed.

(** Without prefetching, the path returned for a file under a cache is that of
    the remote object. *)
Theorem resolved_path_is_remote (k := shelf_client (Some (file_cfg false))) :
  opening (Some (file_cfg false)) "rb" (one_object abc) (fun f s =>
    option_map fst (resolve_filesystem_path (FileClient0 := k) f s) = Some (Ok "k")).
Proof. vm_compute. reflexivity. Qed.
End Examples.
