(* ===== verification/ClientFiles.v ===== *)
(** * Files over the single storage client

    [SingleStorageClient] as the client of open files: the interface
    [FileClient] implemented by the operations of [Client], and its laws for a
    client of the store in memory. *)
From S2P Require Import Prelude PyPath Types Utils Retry Provider MemStore Cache RangeCache Replica Client ClientProofs.
From S2P Require Import Files FileProofs.

(** The local disk of a store, where downloads put their files *)
Class LocalDisk (W : Type) := {
  ld_get : string -> W -> option bytes;
  ld_put : string -> bytes -> W -> W;
}.

Section SingleClient.
Context {W P : Type} `{!StorageProvider W} `{!MetadataProvider P W} `{!TempFiles W} `{!LocalDisk W} (cfg : config W).

(** A decorated call; without an attempt it returns [None], which nobody reads *)
Definition decorated {A S} (d : res A) (o : RetryOutcome A S) : res A * S := (default d (outcome o), final_state o).

(** The disk of the cache is the one that downloads write to: a file that was
    downloaded is there, and a file to be uploaded is read from there. *)
Definition mount (t : string) (s : client W P) : client W P :=
  match ld_get t (store s) with
  | Some d => mkClient (store s) (meta s) (with_fs (<[t := new_file (cache s) d]> (fs (cache s))) (cache s)) (uploads s)
  | None => s
  end.
Definition unmount (f : io) (s : client W P) : client W P :=
  match f with
  | PathIO t =>
      match fs (cache s) !! t with
      | Some x => mkClient (ld_put t (f_data x) (store s)) (meta s) (cache s) (uploads s)
      | None => s
      end
  | BytesIO _ => s
  end.

Definition single_file_client : FileClient (client W P) := {|
  fc_cache := cfg_cache cfg;
  fc_disk := cache;
  fc_set_disk := fun w s => mkClient (store s) (meta s) w (uploads s);
  fc_temp_name := fun s => fresh (dom (fs (cache s)));
  fc_info := fun p => info cfg 0 p true;
  fc_read := fun p r mode s => decorated (Err RuntimeError) (read cfg p (Some r) mode s);
  fc_download_path := fun p t s =>
    let '(r, s') := decorated (Ok tt) (Client.download_file cfg p t s) in
    (r, if is_ok r then mount t s' else s');
  fc_download_buffer := fun p s =>
    let '(r, (s', b)) := decorated (Ok tt) (Client.download_fileobj cfg p s) in (b, r, s');
  fc_upload := fun p f a s => decorated (Ok tt) (Client.upload_file cfg p f a (unmount f s));
|}.
End SingleClient.

#[global] Instance mem_local_disk : LocalDisk mem := {|
  ld_get := fun t w => disk w !! t;
  ld_put := store_file;
|}.

(** ** The laws, for a client of the store in memory *)
Section Laws.
Context {P : Type} `{!MetadataProvider P mem} (base_path : string).
Context (compile : string -> res (attributes -> res bool)) (globmatch : string -> string -> bool).
Context (completion : list (nat * M mem unit) -> list (nat * M mem unit)) (finished : nat -> string -> bool) (fuel : nat).
#[local] Instance laws_backend : StorageBackend mem := mem_backend None.
#[local] Instance laws_store : StorageProvider mem := base_provider base_path compile globmatch completion finished fuel.
Context (cfg : config mem) (check : SourceVersionCheckMode).
Context (Hretry : retry_ok (cfg_retry cfg)) (Hposix : cfg_posix cfg = false) (Hreplicas : cfg_replica_manager cfg = false).
Context (Hcache : forall c, cfg_cache cfg = Some c -> checks_version c check = true /\ (0 < CacheManager.cache_line_size c)%Z).
#[local] Instance laws_client : FileClient (client mem P) := single_file_client cfg.

Definition mem_object (d : bytes) (v : string) : object := mkObject d None (Some {[ "etag" := v ]}).
Definition client_holds (p : string) (d : bytes) (v : string) (s : client mem P) : Prop :=
  p <> "" /\ p <> "." /\ v <> "" /\ meta s = None /\
  objects (store s) !! prepend_base_path base_path p = Some (mem_object d v) /\ disk_agrees p d v (cache s).
Definition held_metadata (p : string) (d : bytes) (v : string) : ObjectMetadata :=
  strip_key base_path (object_metadata (prepend_base_path base_path p) (mem_object d v)).

Lemma held_object p d v w :
  objects w !! prepend_base_path base_path p = Some (mem_object d v) ->
  holds_object p d (held_metadata p d v) w.
Proof.
  intros Hp. assert (forall r, pv_get_object p r w = Ok (ranged r d)) as Hget.
  { intros r. cbn [pv_get_object laws_store base_provider]. unfold get_object, MAX_SYMLINK_DEPTH.
    cbn [get_object_following_symlinks be_get_object be_get_object_metadata laws_backend mem_backend].
    unfold mem_metadata. rewrite Hp. cbn [res_bind]. by case_bool_decide. }
  split.
  - cbn. unfold Provider.get_object_metadata. cbn. unfold mem_metadata. by rewrite Hp.
  - apply Hget.
  - intros off n _ _. left. apply Hget.
Qed.

Lemma download_plain p d v t w :
  objects w !! prepend_base_path base_path p = Some (mem_object d v) ->
  download_source base_path p None w = Ok (prepend_base_path base_path p) /\
  pv_download_file p t None w = (Ok tt, store_file t d w) /\ pv_download_buffer p None w = (d, Ok tt).
Proof.
  intros Hp.
  assert (download_source base_path p None w = Ok (prepend_base_path base_path p)) as Hs.
  { unfold download_source, resolve_symlink_path, MAX_SYMLINK_DEPTH. cbn. unfold mem_metadata. by rewrite Hp. }
  split; [done|]. cbn. unfold Provider.download_file, download_buffer, mbind, mlift. rewrite Hs. cbn.
  unfold mem_download. by rewrite Hp.
Qed.

#[global] Instance single_client_laws : FileClientLaws (client mem P) check client_holds.
Proof using Hretry Hposix Hreplicas Hcache.
  split; unfold client_holds.
  - done.
  - intros s. cbn. apply not_elem_of_dom, is_fresh.
  - naive_solver.
  - intros p d v w s (H1 & H2 & H3 & H4 & H5 & _) Hw. done.
  - intros p d v s (H1 & H2 & H3 & H4 & H5 & _). exists (held_metadata p d v). split; [|done].
    cbn [fc_info laws_client single_file_client]. unfold info, if_meta, has_meta, from_store. rewrite !bool_decide_eq_false_2 by done.
    cbn [orb]. rewrite H4. by rewrite (holds_metadata _ _ _ _ (held_object p d v _ H5)).
  - intros p d v r s (H1 & H2 & H3 & H4 & H5 & H6) Hoff Hsize. cbn [fc_read laws_client single_file_client].
    pose proof (held_object p d v _ H5) as Hobj. unfold decorated.
    assert (exists s', read_body cfg p (Some r) check s = (Ok (slice d (offset r) (size r)), s') /\ client_holds p d v s')
      as (s' & Hbody & Hs').
    { unfold read_body, if_meta, has_meta, mbind. rewrite H4. unfold mret. cbn [meta]. unfold enabled_cache. rewrite Hposix, Hreplicas.
      destruct (cfg_cache cfg) as [c|] eqn:Ec.
      - destruct (Hcache c eq_refl) as [Hm Hline]. unfold mtry.
        destruct (cached_range_ok c p d (held_metadata p d v) v eq_refl H3 eq_refl Hline r check s Hm Hobj) as (w' & -> & Hw');
          [by apply H6|done|done|].
        eexists. split; [done|]. split_and!; try done. intros c' Hc'. cbn in Hc'. rewrite Ec in Hc'. by injection Hc' as <-.
      - unfold direct_read, from_store. destruct r as [off n]. destruct (holds_ranges _ _ _ _ Hobj off n) as [->|[Hpast _]];
          [cbn in Hoff; lia|done|by exists s|cbn in Hoff; unfold blen in Hoff; lia]. }
    destruct (retry_success (cfg_retry cfg) (read_body cfg p (Some r) check) s s' _ Hretry Hbody) as [Ho Hf].
    unfold read. rewrite Ho, Hf. by exists s'.
  - intros p d v t s (H1 & H2 & H3 & H4 & H5 & H6). cbn [fc_download_path laws_client single_file_client].
    destruct (download_plain p d v t _ H5) as (_ & Hdl & _).
    assert (download_file_body cfg p t s = (Ok tt, mkClient (store_file t d (store s)) None (cache s) (uploads s))) as Hbody.
    { unfold download_file_body, if_meta, has_meta, on_store. rewrite H4, Hreplicas. rewrite Hdl. by rewrite H4. }
    destruct (retry_success (cfg_retry cfg) (download_file_body cfg p t) s _ _ Hretry Hbody) as [Ho Hf].
    unfold decorated, Client.download_file. rewrite Ho, Hf. cbn [default is_ok]. unfold mount. cbn. rewrite lookup_insert_eq.
    eexists. split; [done|]. split; [|done]. split_and!; try done. intros c Hc. destruct (H6 c Hc) as [C1 C2]. split; cbn.
    + intros i f sx Hi Hg He. apply lookup_insert_Some in Hg as [[_ <-]|[_ Hg]]; [done|]. eauto.
    + intros f Hg He. apply lookup_insert_Some in Hg as [[_ <-]|[_ Hg]]; [done|]. eauto.
  - intros p d v s Hh. pose proof Hh as (H1 & H2 & H3 & H4 & H5 & H6). cbn [fc_download_buffer laws_client single_file_client].
    destruct (download_plain p d v "" _ H5) as (_ & _ & Hdl).
    assert (download_buffer_body cfg p (s, []) = (Ok tt, (s, d))) as Hbody.
    { unfold download_buffer_body, has_meta. rewrite H4, Hreplicas. by rewrite Hdl. }
    destruct (retry_success (cfg_retry cfg) (download_buffer_body cfg p) (s, []) _ _ Hretry Hbody) as [Ho Hf].
    unfold decorated, Client.download_fileobj. rewrite Ho, Hf. by exists s.
Qed.
End Laws.

(** Every attempt of a download to a file object appends to what the object
    holds: what a failed attempt has written stays in front of the data. *)
Theorem attempt_appends {W P} `{!StorageProvider W} `{!MetadataProvider P W} `{!TempFiles W} (cfg : config W)
    (path : string) (d partial : bytes) (s : client W P) :
  meta s = None -> cfg_replica_manager cfg = false -> pv_download_buffer path None (store s) = (d, Ok tt) ->
  download_buffer_body cfg path (s, partial) = (Ok tt, (s, partial ++ d)).
Proof. intros Hm Hr Hd. unfold download_buffer_body, has_meta. by rewrite Hm, Hr, Hd. Qed.
