(* ===== verification/PosixHandle.v ===== *)
(** * Open files of a POSIX store ([multistorageclient/file.py], [PosixFile])

    A [PosixFile] over the file system of [PosixFs], in the modes that the
    client documents ([r], [w] and [a], in text or binary).  With [atomic] a
    file is written under a temporary name and renamed when it is closed.  What
    is written is on the disk at once; how long it stays in a buffer matters
    only to readers of the file that is being written.  The metadata provider
    is given by its [realpath]. *)
From S2P Require Import Prelude PyPath Types Utils Json Provider PosixFs PosixFile PosixProofs Files FileProofs.

(** ** Definitions *)
Record posix_handle := mkHandle {
  ph_path : string;
  ph_real_path : string;
  ph_mode : string;
  ph_atomic : bool;
  ph_temp_path : string;
  (** the node that is open *)
  ph_node : list string;
  ph_position : Z;
  ph_attributes : option attributes;
  ph_closed : bool;
}.
Definition at_position (p : Z) (h : posix_handle) : posix_handle :=
  mkHandle (ph_path h) (ph_real_path h) (ph_mode h) (ph_atomic h) (ph_temp_path h) (ph_node h) p (ph_attributes h) (ph_closed h).
Definition closed_handle (h : posix_handle) : posix_handle :=
  mkHandle (ph_path h) (ph_real_path h) (ph_mode h) (ph_atomic h) (ph_temp_path h) (ph_node h) (ph_position h)
    (ph_attributes h) true.

(** [open(p, mode)]: the node, and the position *)
Definition os_open (p mode : string) : M posix (list string * Z) := fun w =>
  match locate w true p with
  | Err e => (Err e, w)
  | Ok cs =>
      match node_at w cs with
      | Some (NFile d x t) =>
          if ends_slash p then (Err OSError, w)
          else if has_char "w" mode then (Ok (cs, 0%Z), put_node cs (NFile [] x (clock w)) w)
          else (Ok (cs, if has_char "a" mode then blen d else 0%Z), w)
      | Some _ => (Err OSError, w)
      | None =>
          if has_char "r" mode then (Err FileNotFoundError, w)
          else if ends_slash p then (Err OSError, w)
          else (Ok (cs, 0%Z), put_node cs (NFile [] ∅ (clock w)) w)
      end
  end.

Definition temp_path (real_path : string) : string :=
  path_join (dirname real_path) ("." +:+ basename real_path +:+ ".tmp").
Definition open_posix_file (realpath : option (string -> res ResolvedPath)) (base_path path mode : string) (atomic : bool)
    (a : option attributes) : M posix posix_handle :=
  let! rp := mlift (match realpath with
                    | Some f => res_bind (f path) (fun r =>
                        if resolved_exists r then Ok (physical_path r) else Err FileNotFoundError)
                    | None => Ok path
                    end) in
  let real := prepend_base_path base_path rp in
  (if has_char "w" mode || has_char "a" mode then posix_makedirs (dirname real) else mret tt) ;;;
  let temp := temp_path real in
  let! x := os_open (if has_char "w" mode && atomic then temp else real) mode in
  mret (mkHandle path real mode atomic temp x.1 x.2 a false).

(** The content of the open file *)
Definition open_content (h : posix_handle) (w : posix) : bytes :=
  match nodes w !! ph_node h with Some (NFile d _ _) => d | _ => [] end.
Definition set_content (h : posix_handle) (d : bytes) (w : posix) : posix :=
  match nodes w !! ph_node h with
  | Some (NFile _ x _) => put_node (ph_node h) (NFile d x (clock w)) w
  | _ => w
  end.

Definition posix_file_read (n : Z) (h : posix_handle) : M posix (bytes * posix_handle) := fun w =>
  if ph_closed h then (Err ValueError, w)
  else if negb (has_char "r" (ph_mode h)) then (Err UnsupportedOperation, w)
  else let '(d, f) := memory_read n (mkMemoryFile (open_content h w) (ph_position h)) in
       (Ok (d, at_position (position f) h), w).
(** A file opened to append writes to its end. *)
Definition posix_file_write (b : bytes) (h : posix_handle) : M posix (Z * posix_handle) := fun w =>
  if ph_closed h then (Err ValueError, w)
  else if has_char "r" (ph_mode h) then (Err UnsupportedOperation, w)
  else
    let d := open_content h w in
    let f := memory_write b (mkMemoryFile d (if has_char "a" (ph_mode h) then blen d else ph_position h)) in
    (Ok (blen b, at_position (position f) h), set_content h (buffer f) w).
Definition posix_file_seek (p : Z) (wh : whence) (h : posix_handle) : M posix (Z * posix_handle) := fun w =>
  if ph_closed h then (Err ValueError, w)
  else match local_seek p wh (mkMemoryFile (open_content h w) (ph_position h)) with
       | Ok f => (Ok (position f, at_position (position f) h), w)
       | Err e => (Err e, w)
       end.
Fixpoint posix_file_writelines (lines : list bytes) (h : posix_handle) : M posix posix_handle :=
  match lines with
  | [] => mret h
  | b :: bs => let! x := posix_file_write b h in posix_file_writelines bs x.2
  end.

(** [os.rename] by paths, and [xattr.setxattr] *)
Definition rename_path (src dst : string) : M posix unit := fun w =>
  match locate w false src with Ok cs => os_rename cs dst w | Err e => (Err e, w) end.
Definition set_json (p : string) (a : attributes) : M posix unit := fun w =>
  match found w true p with
  | Ok (cs, NFile d x t) =>
      if xattr_works w then (Ok tt, put_node cs (NFile d (<["user.json" := dumps (JDict (map_to_list a))]> x) t) w)
      else (Err OSError, w)
  | Ok _ => (Err OSError, w)
  | Err e => (Err e, w)
  end.

(** [close] *)
Definition close_posix_file (h : posix_handle) : M posix posix_handle :=
  if ph_closed h then mret h
  else
    (if ph_atomic h && has_char "w" (ph_mode h) then rename_path (ph_temp_path h) (ph_real_path h) else mret tt) ;;;
    (match ph_attributes h with
     | Some a =>
         if negb (bool_decide (a = ∅)) && (has_char "w" (ph_mode h) || has_char "a" (ph_mode h)) then
           let! v := mlift (validate_attributes (Some a)) in
           match v with
           | Some v => mtry is_OSError (set_json (ph_real_path h) v) (fun _ => mret tt)
           | None => mret tt
           end
         else mret tt
     | None => mret tt
     end) ;;;
    mret (closed_handle h).
(** [discard] *)
Definition discard_posix_file (h : posix_handle) : M posix posix_handle :=
  if ph_closed h then mret h
  else if ph_atomic h && has_char "w" (ph_mode h) then os_remove (ph_temp_path h) ;;; mret (closed_handle h)
  else mret h.

(** ** Writing under a temporary name *)
Definition temp_child (c : string) : string := "." +:+ c +:+ ".tmp".

Lemma has_char_app_false a s t : has_char a s = false -> has_char a t = false -> has_char a (s +:+ t) = false.
Proof. intros H1 H2. by rewrite has_char_app, H1, H2. Qed.
Lemma temp_child_clean c : clean c = true -> clean (temp_child c) = true.
Proof.
  intros [Hs _]%clean_spec. apply clean_spec. split.
  - unfold temp_child. apply has_char_app_false; [done|]. by apply has_char_app_false.
  - unfold temp_child. split_and!; [done| |].
    + intros [= H]. by destruct c.
    + intros [= H]. destruct c as [|x c]; [done|]. injection H as _ H. by destruct c.
Qed.
Lemma temp_child_ne c : temp_child c <> c.
Proof. intros H. apply (f_equal String.length) in H. unfold temp_child in H. rewrite !str_length_app in H. cbn in H. lia. Qed.

Lemma basename_abs ds c : all_clean (ds ++ [c]) -> basename (abs (ds ++ [c])) = c.
Proof.
  intros [_ [Hc _]%Forall_cons]%Forall_app. apply clean_spec in Hc as (Hs & _).
  destruct (decide (ds = [])) as [->|Hne]; [by apply (basename_app "")|]. rewrite abs_snoc by done. by apply basename_app.
Qed.
Lemma temp_path_abs ds c : all_clean (ds ++ [c]) -> temp_path (abs (ds ++ [c])) = abs (ds ++ [temp_child c]).
Proof.
  intros Hcs. unfold temp_path. rewrite dirname_abs, basename_abs by done. fold (temp_child c).
  pose proof Hcs as [Hds [Hc _]%Forall_cons]%Forall_app. apply temp_child_clean in Hc.
  destruct (decide (ds = [])) as [->|Hne]; [done|].
  by apply (path_join_abs ds [temp_child c] Hne Hds); [|by repeat constructor].
Qed.

Section Atomic.
Context (ds : list string) (c : string) (Hclean : all_clean (ds ++ [c])).
Abbreviation temp := (ds ++ [temp_child c]).
Abbreviation file := (ds ++ [c]).

Lemma temp_all_clean : all_clean temp.
Proof using Hclean.
  pose proof Hclean as [Hds [Hc _]%Forall_cons]%Forall_app. apply Forall_app. split; [done|].
  repeat constructor. by apply temp_child_clean.
Qed.
Lemma temp_ne : temp <> file.
Proof. intros H. apply app_inv_head in H. injection H as H. by apply temp_child_ne in H. Qed.

(** A handle that writes to the temporary file, at its end *)
Definition writing (h : posix_handle) (w : posix) (d : bytes) : Prop :=
  ph_real_path h = abs file /\ ph_mode h = "wb" /\ ph_atomic h = true /\ ph_temp_path h = abs temp /\
  ph_node h = temp /\ ph_closed h = false /\ ph_position h = blen d /\ exists x t, nodes w !! temp = Some (NFile d x t).
(** Only the temporary file differs. *)
Definition only_temp (w w' : posix) : Prop :=
  clock w' = clock w /\ forall cs, cs <> temp -> nodes w' !! cs = nodes w !! cs.

Lemma only_temp_real w w' : only_temp w w' -> real_dir w ds -> real_dir w' ds.
Proof.
  intros [_ H] Hr. eapply real_dir_mono; [done|]. intros cs Hp. apply H. intros ->. by apply snoc_not_prefix in Hp.
Qed.

Lemma open_temp w :
  real_dir w ds -> (forall n, nodes w !! temp = Some n -> exists d x t, n = NFile d x t) ->
  exists w', os_open (abs temp) "wb" w = (Ok (temp, 0%Z), w') /\ only_temp w w' /\ exists x t, nodes w' !! temp = Some (NFile [] x t).
Proof using Hclean.
  intros Hr Hn. unfold os_open. rewrite locate_child; [|apply temp_all_clean|done|intros _ t Ht; by destruct (Hn _ Ht) as (? & ? & ? & ?)].
  assert (node_at w temp = nodes w !! temp) as -> by (by destruct ds).
  rewrite abs_ends by (apply temp_all_clean || by destruct ds).
  destruct (nodes w !! temp) as [n|] eqn:E.
  - destruct (Hn n eq_refl) as (d & x & t & ->). eexists. split; [reflexivity|]. split.
    + split; [done|]. intros cs Hne. by apply put_other.
    + eexists _, _. cbn. by rewrite lookup_insert_eq.
  - eexists. split; [reflexivity|]. split.
    + split; [done|]. intros cs Hne. by apply put_other.
    + eexists _, _. cbn. by rewrite lookup_insert_eq.
Qed.

Lemma writelines_temp lines h w d :
  writing h w d ->
  exists h' w', posix_file_writelines lines h w = (Ok h', w') /\ writing h' w' (d ++ concat lines) /\ only_temp w w' /\
    ph_attributes h' = ph_attributes h.
Proof.
  revert h w d. induction lines as [|b lines IH]; intros h w d Hw.
  { exists h, w. cbn. rewrite app_nil_r. by split_and!. }
  pose proof Hw as (H1 & H2 & H3 & H4 & H5 & H6 & H7 & x & t & Hn).
  cbn [posix_file_writelines]. unfold mbind, posix_file_write, open_content, set_content. rewrite H6, H2, H5, Hn.
  change (has_char "r" "wb") with false. change (has_char "a" "wb") with false. cbv iota. rewrite H7, memory_write_end by done.
  cbn [buffer position]. set (w1 := put_node temp _ w). set (h1 := at_position _ h).
  assert (writing h1 w1 (d ++ b)) as Hw1.
  { split_and!; try done. eexists _, _. cbn. by rewrite lookup_insert_eq. }
  destruct (IH h1 w1 (d ++ b) Hw1) as (h' & w' & Hrun & Hw' & [Hc Ho] & Ha). exists h', w'. cbn [snd]. rewrite Hrun.
  split; [done|]. cbn [concat]. rewrite app_assoc. split; [done|]. split; [|done]. split; [by rewrite Hc|].
  intros cs Hne. rewrite Ho by done. by apply put_other.
Qed.

Lemma remove_temp w d x t :
  real_dir w ds -> nodes w !! temp = Some (NFile d x t) ->
  os_remove (abs temp) w = (Ok tt, with_nodes (delete temp (nodes w)) w).
Proof using Hclean. intros Hr Hn. unfold os_remove. by rewrite (found_child w false ds _ _ temp_all_clean Hr Hn) by done. Qed.

Lemma rename_temp w n :
  real_dir w ds -> nodes w !! temp = Some n -> (forall t, nodes w !! file <> Some (NDir t)) ->
  rename_path (abs temp) (abs file) w = (Ok tt, put_node file n (with_nodes (delete temp (nodes w)) w)).
Proof using Hclean.
  intros Hr Hn Hf. unfold rename_path. rewrite locate_child; [|apply temp_all_clean|done|done].
  unfold os_rename. rewrite Hn. rewrite locate_child by done.
  assert (node_at w file = nodes w !! file) as -> by (by destruct ds).
  destruct (nodes w !! file) as [[]|] eqn:E; try done. by destruct (Hf mtime).
Qed.
End Atomic.

(** The attributes that [close] sets on the renamed file *)
Lemma close_renamed ds c h w d :
  all_clean (ds ++ [c]) -> writing ds c h w d -> real_dir w ds -> (forall t, nodes w !! (ds ++ [c]) <> Some (NDir t)) ->
  is_ok (validate_attributes (ph_attributes h)) = true ->
  exists h' w' x t, close_posix_file h w = (Ok h', w') /\ nodes w' !! (ds ++ [c]) = Some (NFile d x t) /\
    forall cs, cs <> ds ++ [c] -> nodes w' !! cs = delete (ds ++ [temp_child c]) (nodes w) !! cs.
Proof.
  intros Hcs (H1 & H2 & H3 & H4 & H5 & H6 & H7 & x & t & Hn) Hr Hf Ha.
  unfold close_posix_file. rewrite H6, H3, H2, H4, H1. change (has_char "w" "wb") with true. cbn [andb orb].
  unfold mbind at 1. rewrite (rename_temp ds c Hcs w _ Hr Hn Hf). set (w1 := put_node _ _ _).
  assert (nodes w1 !! (ds ++ [c]) = Some (NFile d x t)) as Hn1 by (cbn; by rewrite lookup_insert_eq).
  assert (forall cs, cs <> ds ++ [c] -> nodes w1 !! cs = delete (ds ++ [temp_child c]) (nodes w) !! cs) as Ho1.
  { intros cs Hne. unfold w1. by rewrite put_other. }
  assert (real_dir w1 ds) as Hr1.
  { eapply real_dir_mono; [done|]. intros cs Hp. rewrite Ho1 by (intros ->; by apply snoc_not_prefix in Hp).
    apply lookup_delete_ne. intros <-. by apply snoc_not_prefix in Hp. }
  destruct (ph_attributes h) as [a|]; [|by eexists _, _, _, _].
  destruct (negb _ && true); [|by eexists _, _, _, _]. unfold mbind, mlift.
  destruct (validate_attributes (Some a)) as [[v|]|]; [| by eexists _, _, _, _|done]. unfold mtry, set_json.
  rewrite (found_child w1 true ds c _ Hcs Hr1 Hn1) by done.
  destruct (xattr_works w1); [|by eexists _, _, _, _]. eexists _, _, _, _. split; [done|]. split; [cbn; by rewrite lookup_insert_eq|].
  intros cs Hne. rewrite put_other by done. by apply Ho1.
Qed.

(** C6: a file of a POSIX store is written atomically: until it is closed the
    file under its path is as it was before it was opened; closing it puts
    exactly what was written under the path; discarding it leaves the path as
    it was.  Either way the temporary file is gone and no other file has
    changed. *)
Theorem posix_file_atomic (base_path path : string) (ds : list string) (c : string) (lines : list bytes)
    (a : option attributes) (w : posix)
    (Hpath : prepend_base_path base_path path = abs (ds ++ [c])) (Hclean : all_clean (ds ++ [c])) (Hway : free_way w ds)
    (Hfile : forall t, nodes w !! (ds ++ [c]) <> Some (NDir t))
    (Htemp : forall n, nodes w !! (ds ++ [temp_child c]) = Some n -> exists d x t, n = NFile d x t)
    (Ha : is_ok (validate_attributes a) = true) :
  let unchanged w' := forall cs d x t, cs <> ds ++ [c] -> cs <> ds ++ [temp_child c] ->
    nodes w !! cs = Some (NFile d x t) -> nodes w' !! cs = Some (NFile d x t) in
  exists h h' w1 w2, open_posix_file None base_path path "wb" true a w = (Ok h, w1) /\
    posix_file_writelines lines h w1 = (Ok h', w2) /\ nodes w2 !! (ds ++ [c]) = nodes w !! (ds ++ [c]) /\ unchanged w2 /\
    (exists hc wc x t, close_posix_file h' w2 = (Ok hc, wc) /\ nodes wc !! (ds ++ [c]) = Some (NFile (concat lines) x t) /\
       nodes wc !! (ds ++ [temp_child c]) = None /\ unchanged wc) /\
    (exists hd wd, discard_posix_file h' w2 = (Ok hd, wd) /\ nodes wd !! (ds ++ [c]) = nodes w !! (ds ++ [c]) /\
       nodes wd !! (ds ++ [temp_child c]) = None /\ unchanged wd).
Proof.
  cbn zeta. pose proof Hclean as [Hds _]%Forall_app. pose proof (temp_ne ds c) as Hne.
  destruct (posix_makedirs_spec w ds Hds Hway) as (w0 & Hmk & Hr0 & Hc0 & Hadd).
  assert (forall x, nodes w0 !! (ds ++ [x]) = nodes w !! (ds ++ [x])) as Hsame.
  { intros x. destruct (Hadd (ds ++ [x])) as [E|(_ & Hp & _)]; [done|by apply snoc_not_prefix in Hp]. }
  destruct (open_temp ds c Hclean w0 Hr0) as (w1 & Hopen & Hot & x & t & Hn1); [by rewrite Hsame|].
  set (h := mkHandle path (abs (ds ++ [c])) "wb" true (abs (ds ++ [temp_child c])) (ds ++ [temp_child c]) 0 a false).
  assert (writing ds c h w1 []) as Hw by (split_and!; eauto).
  destruct (writelines_temp ds c lines h w1 [] Hw) as (h' & w2 & Hrun & Hw' & Hot2 & Ha'). cbn [app] in Hw'.
  pose proof (only_temp_real ds c _ _ Hot2 (only_temp_real ds c _ _ Hot Hr0)) as Hr2.
  assert (forall cs, cs <> ds ++ [temp_child c] -> nodes w2 !! cs = nodes w0 !! cs) as Ho2.
  { intros cs Hcs. destruct Hot as [_ Hot], Hot2 as [_ Hot2]. by rewrite Hot2, Hot. }
  assert (forall cs d y u, cs <> ds ++ [temp_child c] -> nodes w !! cs = Some (NFile d y u) -> nodes w2 !! cs = Some (NFile d y u)) as Hkeep.
  { intros cs d y u Hcs Hn. rewrite Ho2 by done. destruct (Hadd cs) as [->|(Hno & _)]; [done|congruence]. }
  assert (nodes w2 !! (ds ++ [c]) = nodes w !! (ds ++ [c])) as Hf2 by (rewrite Ho2 by done; apply Hsame).
  exists h, h', w1, w2. split.
  { unfold open_posix_file, mbind, mlift. rewrite Hpath, dirname_abs by done. change (has_char "w" "wb") with true. cbn [orb andb].
    by rewrite Hmk, temp_path_abs, Hopen by done. }
  split; [done|]. split; [done|]. split; [intros; by apply Hkeep|]. split.
  - destruct (close_renamed ds c h' w2 (concat lines) Hclean Hw' Hr2) as (hc & wc & y & u & Hcl & Hnc & Hoc);
      [by rewrite Hf2|by rewrite Ha'|].
    exists hc, wc, y, u. split; [done|]. split; [done|]. split; [rewrite Hoc by done; apply lookup_delete_eq|].
    intros cs d z v H1 H2 Hn. rewrite Hoc, lookup_delete_ne by done. by apply Hkeep.
  - destruct Hw' as (H1 & H2 & H3 & H4 & H5 & H6 & H7 & y & u & Hn2). unfold discard_posix_file. rewrite H6, H3, H2, H4.
    change (has_char "w" "wb") with true. cbn [andb]. unfold mbind. rewrite (remove_temp ds c Hclean w2 _ _ _ Hr2 Hn2).
    eexists _, _. split; [done|]. cbn [nodes with_nodes]. split; [by rewrite lookup_delete_ne by done|].
    split; [apply lookup_delete_eq|]. intros cs d z v G1 G2 Hn. rewrite lookup_delete_ne by done. by apply Hkeep.
Qed.

Definition empty_posix : posix := mkPosix ∅ [] 0 true.
Lemma posix_file_atomic_witness :
  exists h h' w1 w2 hc wc x t, open_posix_file None "/d" "a/x" "wb" true None empty_posix = (Ok h, w1) /\
    posix_file_writelines [[x61]; [x62]] h w1 = (Ok h', w2) /\ nodes w2 !! ["d"; "a"; "x"] = None /\
    close_posix_file h' w2 = (Ok hc, wc) /\ nodes wc !! ["d"; "a"; "x"] = Some (NFile [x61; x62] x t).
Proof.
  destruct (posix_file_atomic "/d" "a/x" ["d"; "a"] "x" [[x61]; [x62]] None empty_posix)
    as (h & h' & w1 & w2 & H1 & H2 & H3 & _ & (hc & wc & x & t & H4 & H5 & _) & _).
  - reflexivity.
  - by repeat constructor.
  - intros k n _ H. cbn [nodes empty_posix] in H. by rewrite lookup_empty in H.
  - intros t H. cbn [nodes empty_posix] in H. by rewrite lookup_empty in H.
  - intros n H. cbn [nodes empty_posix] in H. by rewrite lookup_empty in H.
  - reflexivity.
  - exists h, h', w1, w2, hc, wc, x, t. exact (conj H1 (conj H2 (conj H3 (conj H4 H5)))).
Defined.

(** ** Behaviour that differs from what is intended *)

(** With a metadata provider, a file that it does not know cannot be opened
    for writing. *)
Theorem unknown_file_not_writable (realpath : string -> res ResolvedPath) (base_path path mode : string) (atomic : bool)
    (a : option attributes) (w : posix) (r : ResolvedPath) :
  realpath path = Ok r -> state r = UNTRACKED ->
  open_posix_file (Some realpath) base_path path mode atomic a w = (Err FileNotFoundError, w).
Proof. intros Hr Hs. unfold open_posix_file, mbind, mlift. rewrite Hr. cbn. unfold resolved_exists. by rewrite Hs. Qed.

(** The attributes are validated after the file has been replaced: closing a
    file with invalid attributes raises, but the new content is in place. *)
Theorem rejected_attributes_after_rename (bad := {[ "k" := JStr (String.string_of_list_ascii (replicate 129 "x"%char)) ]}) :
  match open_posix_file None "/d" "x" "wb" true (Some bad) empty_posix with
  | (Ok h, w1) =>
      match posix_file_write [x61] h w1 with
      | (Ok (_, h'), w2) =>
          let '(r, w3) := close_posix_file h' w2 in
          r = Err ValueError /\ (os_open_read w3 "/d/x") = Ok [x61]
      | _ => False
      end
  | _ => False
  end.
Proof. vm_compute. split; reflexivity. Qed.

(** Two files open for writing on the same path share their temporary file: the
    second truncates what the first has written, and closing the first puts
    this partial content under the path. *)
Theorem shared_temp_file_truncates :
  match open_posix_file None "/d" "x" "wb" true None empty_posix with
  | (Ok h1, w1) =>
      match posix_file_write [x61; x62] h1 w1 with
      | (Ok (_, h1), w2) =>
          match open_posix_file None "/d" "x" "wb" true None w2 with
          | (Ok _, w3) => os_open_read (close_posix_file h1 w3).2 "/d/x" = Ok []
          | _ => False
          end
      | _ => False
      end
  | _ => False
  end.
Proof. vm_compute. reflexivity. Qed.
