(* ===== verification/Composite.v ===== *)
(** * The composite storage client and the facade ([client/composite.py],
    [client/client.py], [client/types.py])

    [CompositeStorageClient] reads from several storage clients, one for each
    profile; its metadata provider says which one holds a file.  A child is
    given by the operations that the composite client calls, all of which act on
    one state [W].  [StorageClient] delegates to a single or a composite client,
    depending on the configuration. *)
From S2P Require Import Prelude PyDict PyPath Types Utils Manifest Client.

(** ** Definitions *)
Record child_client (W F : Type) := mkChild {
  cc_read : string -> option Range -> SourceVersionCheckMode -> M W bytes;
  (** [open] with the arguments that are passed on *)
  cc_open : string -> string -> M W F;
  cc_download_file : string -> string -> M W unit;
  cc_download_files : list string -> list string -> option (list (option ObjectMetadata)) -> Z -> M W unit;
  cc_generate_presigned_url : string -> M W string;
  cc_rust_client_enabled : bool;
}.
Arguments mkChild {W F} _ _ _ _ _ _.
Arguments cc_read {W F} _.
Arguments cc_open {W F} _.
Arguments cc_download_file {W F} _.
Arguments cc_download_files {W F} _.
Arguments cc_generate_presigned_url {W F} _.
Arguments cc_rust_client_enabled {W F} _.

Section Composite.
Context {W P F : Type} `{!MetadataProvider P W}.

Record composite_config := mkComposite {
  cm_profile : string;
  cm_children : list (string * child_client W F);
}.
Record composite := mkState { cm_meta : P; cm_world : W }.
Context (cfg : composite_config).

(** [__init__]: the configuration that is accepted *)
Definition composite_init (storage_provider_profiles : list string) (has_metadata_provider : bool)
    (child_configs : option (list string)) (has_config_dict : bool) : res (list string) :=
  if bool_decide (storage_provider_profiles = []) then Err ValueError
  else if negb has_metadata_provider then Err ValueError
  else
    match child_configs with
    | Some ((_ :: _) as names) => Ok names
    | _ => if has_config_dict then Ok storage_provider_profiles else Err ValueError
    end.

Definition on_world {A} (m : M W A) : M composite A := fun s =>
  let '(r, w) := m (cm_world s) in (r, mkState (cm_meta s) w).
Definition from_metadata {A} (f : P -> res A) : M composite A := fun s => (f (cm_meta s), s).

Definition all_rust_clients : bool := forallb (fun kc => cc_rust_client_enabled kc.2) (cm_children cfg).

(** [_get_child_client] *)
Definition get_child_client (profile : option string) : res (child_client W F) :=
  match profile with
  | None => Err ValueError
  | Some p => match dget (cm_children cfg) p with Some c => Ok c | None => Err ValueError end
  end.

(** The child that holds a path, and the path there *)
Definition route (path : string) : M composite (child_client W F * string) :=
  let! r := from_metadata (fun p => mp_realpath p path) in
  if negb (resolved_exists r) then mraise FileNotFoundError
  else let! c := mlift (get_child_client (profile r)) in mret (c, physical_path r).

Definition composite_read (path : string) (byte_range : option Range) (mode : SourceVersionCheckMode) : M composite bytes :=
  let! x := route path in on_world (cc_read x.1 x.2 byte_range mode).
Definition composite_open (path mode : string) : M composite F :=
  if negb (bool_decide (mode ∈ ["r"; "rb"])) then mraise NotImplementedError
  else let! x := route path in on_world (cc_open x.1 x.2 mode).
Definition composite_download_file (remote_path local_path : string) : M composite unit :=
  let! x := route remote_path in on_world (cc_download_file x.1 x.2 local_path).
Definition composite_presigned_url (path : string) : M composite string :=
  let! x := route path in on_world (cc_generate_presigned_url x.1 x.2).

(** *** [download_files] *)
Definition group : Type := list string * list string * list (option ObjectMetadata).
Definition add_to_group (g : group) (p l : string) (m : option ObjectMetadata) : group :=
  (g.1.1 ++ [p], g.1.2 ++ [l], g.2 ++ [m]).
(** The loop that sorts the items by profile; the dictionary keeps the order in
    which the profiles came up *)
Fixpoint group_items (meta : P) (items : list (string * string)) (i : nat) (ms : option (list (option ObjectMetadata)))
    (groups : list (string * group)) : res (list (string * group)) :=
  match items with
  | [] => Ok groups
  | (remote_path, local_path) :: items' =>
      res_bind (mp_realpath meta remote_path) (fun r =>
      if negb (resolved_exists r) then Err FileNotFoundError
      else
        match profile r with
        | None => Err ValueError
        | Some p =>
            res_bind (match ms with
                      | None => Ok None
                      | Some l => match l !! i with Some m => Ok m | None => Err IndexError end
                      end) (fun m =>
            group_items meta items' (S i) ms
              (dset groups p (add_to_group (default ([], [], []) (dget groups p)) (physical_path r) local_path m)))
        end)
  end.
Definition has_any_metadata (l : list (option ObjectMetadata)) : bool :=
  existsb (fun m => match m with Some _ => true | None => false end) l.
Fixpoint download_groups (groups : list (string * group)) (max_workers : Z) : M composite unit :=
  match groups with
  | [] => mret tt
  | (p, (paths, locals, ms)) :: gs =>
      let! c := mlift (get_child_client (Some p)) in
      on_world (cc_download_files c paths locals (if has_any_metadata ms then Some ms else None) max_workers) ;;;
      download_groups gs max_workers
  end.
Definition composite_download_files (remote_paths local_paths : list string) (ms : option (list (option ObjectMetadata)))
    (max_workers : Z) : M composite unit :=
  if negb (length remote_paths =? length local_paths)%nat then mraise ValueError
  else
    let! groups := from_metadata (fun p => group_items p (zip remote_paths local_paths) 0 ms []) in
    download_groups groups max_workers.

(** *** Metadata *)
Definition composite_glob (pattern : string) (include_url_prefix : bool) (filter_expression : option string) : M composite (list string) :=
  let! l := from_metadata (fun p => mp_glob p pattern filter_expression) in
  mret (if include_url_prefix then map (join_paths (MSC_PROTOCOL +:+ cm_profile cfg)) l else l).
Definition composite_is_file (path : string) : M composite bool :=
  let! r := from_metadata (fun p => mp_realpath p path) in mret (resolved_exists r).
Definition composite_is_empty (path : string) : M composite bool := fun s =>
  let l := mp_list_objects (cm_meta s) path None None false None in
  match yielded l, raised l with
  | _ :: _, _ => (Ok false, s)
  | [], Some e => (Err e, s)
  | [], None => (Ok true, s)
  end.
Definition composite_info (path : string) (strict : bool) : M composite ObjectMetadata :=
  from_metadata (fun p => mp_get_object_metadata p path (negb strict)).

(** The loop of [list]; an assignment to a key may change the metadata provider *)
Fixpoint composite_decorate (include_url_prefix : bool) (patterns : PatternList) (os : list ObjectMetadata) (s : composite)
    : list ObjectMetadata * composite :=
  match os with
  | [] => ([], s)
  | o :: os' =>
      if excluded patterns (key o) then composite_decorate include_url_prefix patterns os' s
      else
        let k := join_paths (MSC_PROTOCOL +:+ cm_profile cfg) (key o) in
        let '(o', s1) := if include_url_prefix
                         then (Provider.with_key k o, mkState (mp_set_key o k (cm_meta s)) (cm_world s)) else (o, s) in
        let '(r, s2) := composite_decorate include_url_prefix patterns os' s1 in (o' :: r, s2)
  end.
Definition composite_list (prefix path : string) (start_after end_at : option string) (include_directories include_url_prefix : bool)
    (filter_expression : option string) (patterns : PatternList) (s : composite) : listing * composite :=
  if negb (bool_decide (path = "")) && negb (bool_decide (prefix = "")) then (mkListing [] (Some ValueError), s)
  else
    let l := mp_list_objects (cm_meta s) (if bool_decide (path = "") then prefix else path) start_after end_at
               include_directories filter_expression in
    let '(os, s') := composite_decorate include_url_prefix patterns (yielded l) s in
    (mkListing os (raised l), s').
Definition composite_list_recursive (path : string) (start_after end_at : option string) (include_url_prefix : bool)
    (patterns : PatternList) (s : composite) : listing * composite :=
  composite_list "" path start_after end_at false include_url_prefix None patterns s.

(** [write], [delete], [delete_many], [copy], [make_symlink], [upload_file],
    [upload_files] and [sync_from] *)
Definition composite_write_operation {A} : M composite A := mraise NotImplementedError.
(** [commit_metadata] and [sync_replicas] *)
Definition composite_no_operation : M composite unit := mret tt.
End Composite.
Arguments composite_config : clear implicits.
Arguments composite : clear implicits.

(** ** The facade *)
Inductive delegate := SingleDelegate | CompositeDelegate.
(** [StorageClient.__init__] and [__setstate__] *)
Definition choose_delegate (storage_provider_profiles : list string) : delegate :=
  if bool_decide (storage_provider_profiles = []) then SingleDelegate else CompositeDelegate.

(** ** Downloads reach the children *)
Section Routing.
Context {W P F : Type} `{!MetadataProvider P W} (cfg : composite_config W F).
(** The files of each profile, and the local files *)
Context (remote : W -> string -> gmap string bytes) (local : W -> gmap string bytes).

(** A batch download of a child to different local files: if it returns, every
    local file holds the bytes of the child's file; no other local file and no
    stored file changes, whatever happens. *)
Definition children_download : Prop :=
  forall p c, dget (cm_children cfg) p = Some c -> forall ps ls ms k w, length ps = length ls -> NoDup ls ->
  let '(r, w') := cc_download_files c ps ls ms k w in
  (forall q, remote w' q = remote w q) /\ (forall b, b ∉ ls -> local w' !! b = local w !! b) /\
  (r = Ok tt -> forall a b, (a, b) ∈ zip ps ls -> exists d, remote w p !! a = Some d /\ local w' !! b = Some d).

Definition group_ok (g : group) : Prop := length g.1.1 = length g.1.2.
Definition groups_ok (groups : list (string * group)) : Prop := forall p g, dget groups p = Some g -> group_ok g.
Definition grouped (groups : list (string * group)) (p a b : string) : Prop :=
  exists g, dget groups p = Some g /\ (a, b) ∈ zip g.1.1 g.1.2.
(** Where a path leads *)
Definition routed (meta : P) (remote_path p a : string) : Prop :=
  exists r, mp_realpath meta remote_path = Ok r /\ resolved_exists r = true /\ profile r = Some p /\ physical_path r = a.

Lemma add_to_group_ok g a b m : group_ok g -> group_ok (add_to_group g a b m).
Proof. unfold group_ok, add_to_group. cbn. rewrite !length_app. cbn. lia. Qed.
Lemma zip_add_to_group g a b m :
  group_ok g -> zip (add_to_group g a b m).1.1 (add_to_group g a b m).1.2 = zip g.1.1 g.1.2 ++ [(a, b)].
Proof. intros H. unfold add_to_group. cbn. by rewrite zip_with_app. Qed.

(** The local files of all the groups *)
Definition group_locals (groups : list (string * group)) : list string := concat (map (fun kg => kg.2.1.2) groups).
Lemma group_locals_add groups p a b m :
  group_locals (dset groups p (add_to_group (default ([], [], []) (dget groups p)) a b m)) ≡ₚ b :: group_locals groups.
Proof.
  unfold group_locals. induction groups as [|[q g] groups IH]; [done|]. cbn [dset dget].
  destruct (decide (p = q)) as [<-|Hq]; cbn [map concat snd default id].
  - unfold add_to_group. cbn [fst snd]. rewrite <- app_assoc. symmetry. apply Permutation_middle.
  - rewrite IH. symmetry. apply Permutation_middle.
Qed.

Lemma group_items_ok meta items i ms groups groups' :
  groups_ok groups -> wf_dict groups -> group_items meta items i ms groups = Ok groups' ->
  groups_ok groups' /\ wf_dict groups' /\ (forall p a b, grouped groups p a b -> grouped groups' p a b) /\
  (forall rp lp, (rp, lp) ∈ items -> exists p a, routed meta rp p a /\ grouped groups' p a lp) /\
  group_locals groups' ≡ₚ group_locals groups ++ items.*2 /\
  (forall p, p ∈ groups'.*1 -> p ∈ groups.*1 \/ exists rp a, rp ∈ items.*1 /\ routed meta rp p a).
Proof.
  revert i groups. induction items as [|[rp lp] items IH]; intros i groups Hg Hwf H; cbn in H.
  { injection H as <-. split_and!; try done; [|by rewrite app_nil_r|by left]. intros rp lp Hin. by apply elem_of_nil in Hin. }
  destruct (mp_realpath meta rp) as [r|e] eqn:Er; [|done]. cbn in H. destruct (resolved_exists r) eqn:Ex; [|done]. cbn in H.
  destruct (profile r) as [p|] eqn:Ep; [|done].
  destruct (match ms with None => Ok None | Some l => _ end) as [m|e]; [|done]. cbn in H.
  set (g0 := default ([], [], []) (dget groups p)) in H. set (g := add_to_group g0 (physical_path r) lp m) in H.
  assert (group_locals (dset groups p g) ≡ₚ lp :: group_locals groups) as Hloc by apply group_locals_add.
  assert (group_ok g0) as Hg0 by (unfold g0; destruct (dget groups p) eqn:E; [by apply (Hg p)|done]).
  destruct (IH (S i) (dset groups p g)) as (H1 & H2 & H3 & H4 & H5 & H6); [|by apply wf_dset|done|].
  { intros q g' Hq. rewrite dget_dset in Hq. case_decide; [|by apply (Hg q)]. injection Hq as <-. by apply add_to_group_ok. }
  assert (forall q a b, grouped groups q a b -> grouped (dset groups p g) q a b) as Hkeep.
  { intros q a b (g' & Hq & Hin). unfold grouped. rewrite dget_dset. case_decide as E; [|by exists g']. subst q.
    exists g. split; [done|]. unfold g. rewrite zip_add_to_group by done. apply elem_of_app. left. unfold g0. by rewrite Hq. }
  assert (routed meta rp p (physical_path r)) as Hr by by exists r.
  split_and!; [done|done|intros q a b Hq; by apply H3, Hkeep| | |].
  - intros rp' lp' [E|Hin]%elem_of_cons; [|by apply H4]. injection E as -> ->. exists p, (physical_path r).
    split; [done|]. apply H3. exists g. rewrite dget_dset, decide_True by done. split; [done|].
    unfold g. rewrite zip_add_to_group by done. apply elem_of_app. right. by apply list_elem_of_singleton.
  - rewrite H5, Hloc. cbn. solve_Permutation.
  - intros q Hq. destruct (H6 q Hq) as [Hin|(rp' & a & Hin & Hr')].
    + rewrite dset_fst in Hin. case_bool_decide; [by left|]. apply elem_of_app in Hin as [Hin|Hin%list_elem_of_singleton]; [by left|].
      subst q. right. exists rp, (physical_path r). split; [by left|done].
    + right. exists rp', a. split; [by right|done].
Qed.

Lemma download_groups_ok groups k (s : composite W P) :
  children_download -> groups_ok groups -> wf_dict groups -> NoDup (group_locals groups) ->
  let '(r, s') := download_groups cfg groups k s in
  (forall q, remote (cm_world s') q = remote (cm_world s) q) /\
  (forall b, b ∉ group_locals groups -> local (cm_world s') !! b = local (cm_world s) !! b) /\
  (r = Ok tt -> forall p a b, grouped groups p a b ->
     is_Some (dget (cm_children cfg) p) /\ exists d, remote (cm_world s) p !! a = Some d /\ local (cm_world s') !! b = Some d) /\
  (forall e, r = Err e -> (e = ValueError /\ exists p, p ∈ groups.*1 /\ dget (cm_children cfg) p = None) \/
     exists p c ps ls ms w w', dget (cm_children cfg) p = Some c /\ cc_download_files c ps ls ms k w = (Err e, w')).
Proof.
  intros Hc. revert s. induction groups as [|[p [[ps ls] ms]] groups IH]; intros s Hg Hwf Hnd.
  { cbn. split_and!; [done|done| |done]. intros _ p a b (g & Hd & _). done. }
  cbn [download_groups]. unfold mbind, mlift, get_child_client.
  apply NoDup_cons in Hwf as [Hnp Hwf]. fold (wf_dict groups) in Hwf.
  destruct (dget (cm_children cfg) p) as [c|] eqn:Ec.
  2:{ split_and!; [done|done|done|]. intros e [= <-]. left. split; [done|]. exists p. split; [by left|done]. }
  specialize (Hc p c Ec) as Hcp.
  assert (length ps = length ls) as Hlen by (apply (Hg p (ps, ls, ms)); cbn; by rewrite decide_True).
  change (group_locals ((p, (ps, ls, ms)) :: groups)) with (ls ++ group_locals groups) in *.
  apply NoDup_app in Hnd as (Hls & Hdis & Hnd).
  specialize (Hcp ps ls (if has_any_metadata ms then Some ms else None) k (cm_world s) Hlen Hls). unfold on_world.
  destruct (cc_download_files c ps ls _ k (cm_world s)) as [[[]|e] w1] eqn:Ed; destruct Hcp as (Hrem & Hloc & Hdone).
  2:{ split_and!; [done|intros b Hb; apply Hloc; set_solver|done|].
      intros e' [= <-]. right. by exists p, c, ps, ls, (if has_any_metadata ms then Some ms else None), (cm_world s), w1. }
  assert (groups_ok groups) as Hg'.
  { intros q g Hq. apply (Hg q). cbn. case_decide as E; [|done]. subst q. destruct Hnp.
    apply dget_Some in Hq. apply list_elem_of_fmap. by exists (p, g). }
  specialize (IH (mkState (cm_meta s) w1) Hg' Hwf Hnd).
  destruct (download_groups cfg groups k (mkState (cm_meta s) w1)) as [r s'] eqn:Er.
  destruct IH as (I1 & I2 & I3 & I4). cbn [cm_world] in I1, I2, I3.
  split_and!; [intros q; by rewrite I1|intros b Hb; rewrite I2, Hloc by set_solver; done| |].
  - intros Hr q a b (g & Hq & Hin). cbn in Hq. case_decide as E.
    + subst q. injection Hq as <-. split; [by rewrite Ec|]. destruct (Hdone eq_refl a b Hin) as (d & Hd1 & Hd2).
      exists d. split; [done|]. rewrite I2; [done|]. apply Hdis. by eapply elem_of_zip_r.
    + rewrite <- Hrem. apply (I3 Hr). by exists g.
  - intros e He. destruct (I4 e He) as [(-> & q & Hin & Hq)|Hch]; [|by right]. left. split; [done|]. exists q.
    split; [by right|done].
Qed.
End Routing.

(** C7: a batch download of a composite client to different local files gets
    every file from the child that its metadata provider names: if it returns,
    each path resolved to a path of a profile that has a child and its local
    file holds the bytes stored there.  Whatever happens, no stored file and no
    other local file changes.  If it raises, then before anything was
    downloaded, or because a path resolved to a profile without a child, or
    with the error of a child.  A child is assumed to download what it is asked
    for, as the batch download of a single client does. *)
Theorem composite_downloads_routed {W P F} `{!MetadataProvider P W} (cfg : composite_config W F)
    (remote : W -> string -> gmap string bytes) (local : W -> gmap string bytes) (remote_paths local_paths : list string)
    (ms : option (list (option ObjectMetadata))) (max_workers : Z) (s : composite W P)
    (Hchildren : children_download cfg remote local) (Hlocals : NoDup local_paths) :
  let '(r, s') := composite_download_files cfg remote_paths local_paths ms max_workers s in
  (forall q, remote (cm_world s') q = remote (cm_world s) q) /\
  (forall b, b ∉ local_paths -> local (cm_world s') !! b = local (cm_world s) !! b) /\
  match r with
  | Ok _ => forall i rp lp, remote_paths !! i = Some rp -> local_paths !! i = Some lp ->
      exists p a d, routed (cm_meta s) rp p a /\ is_Some (dget (cm_children cfg) p) /\
        remote (cm_world s) p !! a = Some d /\ local (cm_world s') !! lp = Some d
  | Err e => s' = s \/
      (e = ValueError /\ exists rp p a, rp ∈ remote_paths /\ routed (cm_meta s) rp p a /\ dget (cm_children cfg) p = None) \/
      exists p c ps ls m w w', dget (cm_children cfg) p = Some c /\ cc_download_files c ps ls m max_workers w = (Err e, w')
  end.
Proof.
  unfold composite_download_files. destruct (_ =? _)%nat eqn:El; cbn [negb]; [|split_and!; [done|done|by left]].
  apply Nat.eqb_eq in El.
  unfold mbind, from_metadata. destruct (group_items _ _ _ _ _) as [groups|e] eqn:Eg; [|split_and!; [done|done|by left]].
  destruct (group_items_ok (cm_meta s) _ _ _ [] groups ltac:(done) ltac:(constructor) Eg) as (H1 & H2 & _ & H4 & H5 & H6).
  cbn [group_locals map concat app] in H5. rewrite snd_zip in H5 by lia. rewrite fst_zip in H6 by lia.
  assert (NoDup (group_locals groups)) as Hnd by by rewrite H5.
  pose proof (download_groups_ok cfg remote local groups max_workers s Hchildren H1 H2 Hnd) as Hd.
  destruct (download_groups cfg groups max_workers s) as [r s']; destruct Hd as (D1 & D2 & D3 & D4).
  split_and!; [done|intros b Hb; apply D2; by rewrite H5|]. destruct r as [[]|e].
  - intros i rp lp Hr Hl. destruct (H4 rp lp) as (p & a & Hroute & Hin).
    { apply list_elem_of_lookup. exists i. by rewrite lookup_zip_with, Hr, Hl. }
    destruct (D3 eq_refl p a lp Hin) as (Hchild & d & Hd1 & Hd2). by exists p, a, d.
  - right. destruct (D4 e eq_refl) as [(-> & p & Hp & Hn)|Hch]; [left|by right]. split; [done|].
    destruct (H6 p Hp) as [Hnil|(rp & a & Hin & Hr)]; [by apply elem_of_nil in Hnil|by exists rp, p, a].
Qed.

(** A composite client with a manifest cannot read anything: a manifest names
    no profiles. *)
Lemma manifest_no_profile fs left visited path r :
  ManifestMetadataProvider.realpath_loop fs left visited path = inl r -> profile r = None.
Proof.
  revert visited path. induction left as [|left IH]; intros visited path H; cbn in H; [done|].
  destruct (dget fs path) as [m|]; [|by injection H as <-].
  destruct (symlink_target _) as [t|]; [|by destruct (mom_physical_path m); [injection H as <-|]].
  case_bool_decide; [by destruct (mom_physical_path m); [injection H as <-|]|]. case_bool_decide; [done|]. by eapply IH.
Qed.
Theorem manifest_never_routes {W F} `{!ManifestStorage W} (compile : string -> res (attributes -> res bool))
    (globmatch : string -> string -> bool) (isoformat : Z -> string) (write_table : list ParquetRow -> bytes) (time : string)
    (mp := manifest_provider compile globmatch isoformat write_table time) (cfg : composite_config W F)
    (path : string) (s : composite W ManifestMetadataProvider.provider) :
  exists e, route cfg path s = (Err e, s).
Proof.
  unfold route, mbind, from_metadata. cbn [mp_realpath mp manifest_provider].
  unfold ManifestMetadataProvider.realpath.
  destruct (ManifestMetadataProvider.realpath_loop _ _ _ path) as [r|e] eqn:E; [|by eexists].
  apply manifest_no_profile in E. destruct (resolved_exists r); cbn [negb]; [|by eexists]. rewrite E. by eexists.
Qed.

(** ** Two children in memory *)
Section Examples.
(** The files of the profiles, and the local files *)
Record library := mkLibrary { shelves : gmap (string * string) bytes; local_files : gmap string bytes }.
Fixpoint fetch_all (p : string) (ps ls : list string) (i : nat) (w : library) : list BatchTransferFailure * library :=
  match ps, ls with
  | a :: ps', b :: ls' =>
      match shelves w !! (p, a) with
      | Some d => fetch_all p ps' ls' (S i) (mkLibrary (shelves w) (<[b := d]> (local_files w)))
      | None => let '(fs, w') := fetch_all p ps' ls' (S i) w in
                (mkBatchTransferFailure (Z.of_nat i) a b FileNotFoundError :: fs, w')
      end
  | _, _ => ([], w)
  end.
Definition library_child (p : string) : child_client library unit :=
  mkChild (fun a _ _ w => (match shelves w !! (p, a) with Some d => Ok d | None => Err FileNotFoundError end, w))
    (fun _ _ => mret tt) (fun _ _ => mret tt)
    (fun ps ls _ _ w => let '(fs, w') := fetch_all p ps ls 0 w in
                        (match fs with [] => Ok tt | _ => Err (BatchTransferError fs) end, w'))
    (fun _ => mret "") false.
Definition two_children : composite_config library unit :=
  mkComposite "all" [("us", library_child "us"); ("eu", library_child "eu")].
(** A metadata provider that is a table of profiles *)
#[local] Instance table_provider : MetadataProvider (gmap string string) library := {|
  mp_realpath := fun t p => Ok match t !! p with
                               | Some x => mkResolvedPath p EXISTS (Some x)
                               | None => mkResolvedPath p UNTRACKED None
                               end;
  mp_generate_physical_path := fun _ p _ => mkResolvedPath p UNTRACKED None;
  mp_get_object_metadata := fun _ p _ => Ok (new_ObjectMetadata p 0 0);
  mp_list_objects := fun _ _ _ _ _ _ => mkListing [] None;
  mp_glob := fun _ _ _ => Ok [];
  mp_add_file := fun _ _ => mret tt;
  mp_remove_file := fun _ => mret tt;
  mp_commit_updates := mret tt;
  mp_allow_overwrites := fun _ => true;
  mp_should_use_soft_delete := fun _ => false;
  mp_set_key := fun _ _ t => t;
|}.
Definition example_state (files : list (string * string)) : composite library (gmap string string) :=
  mkState {[ "a" := "us"; "b" := "eu" ]} (mkLibrary (list_to_map (map (fun f => (f, [x61])) files)) ∅).

(** The shelf of a profile *)
Definition shelf (w : library) (p : string) : gmap string bytes :=
  list_to_map (omap (fun kd => if decide (kd.1.1 = p) then Some (kd.1.2, kd.2) else None) (map_to_list (shelves w))).
Lemma shelf_lookup w p a : shelf w p !! a = shelves w !! (p, a).
Proof.
  unfold shelf. apply option_eq. intros d. rewrite <- elem_of_list_to_map.
  - rewrite list_elem_of_omap, <- elem_of_map_to_list. split.
    + intros ([[q x] y] & Hin & E). cbn in E. case_decide; [|done]. by simplify_eq.
    + intros Hin. exists (p, a, d). cbn. by rewrite decide_True.
  - pose proof (NoDup_fst_map_to_list (shelves w)) as Hnd. induction (map_to_list (shelves w)) as [|[[q x] y] l IH]; [constructor|].
    cbn in Hnd |- *. apply NoDup_cons in Hnd as [Hn Hnd]. specialize (IH Hnd). case_decide as E; [|done]. subst q. cbn.
    constructor; [|done]. intros ([x' y'] & -> & ([[q' x''] y''] & Hin & E')%list_elem_of_omap)%list_elem_of_fmap.
    cbn in E'. case_decide; [|done]. simplify_eq. apply Hn. apply list_elem_of_fmap. by eexists (_, _, _).
Qed.
Lemma fetch_all_ok p ps ls i w :
  length ps = length ls -> NoDup ls ->
  let '(fs, w') := fetch_all p ps ls i w in
  shelves w' = shelves w /\ (forall b, b ∉ ls -> local_files w' !! b = local_files w !! b) /\
  (fs = [] -> forall a b, (a, b) ∈ zip ps ls -> exists d, shelves w !! (p, a) = Some d /\ local_files w' !! b = Some d).
Proof.
  revert ls i w. induction ps as [|a ps IH]; intros [|b ls] i w Hl Hnd; try done.
  { cbn. split_and!; [done|done|]. intros _ a b Hin. by apply elem_of_nil in Hin. }
  cbn in Hl. injection Hl as Hl. apply NoDup_cons in Hnd as [Hb Hnd]. cbn [fetch_all].
  destruct (shelves w !! (p, a)) as [d|] eqn:Ed.
  - specialize (IH ls (S i) (mkLibrary (shelves w) (<[b := d]> (local_files w))) Hl Hnd).
    destruct (fetch_all p ps ls (S i) _) as [fs w']. destruct IH as (I1 & I2 & I3). cbn [shelves local_files] in *. split_and!; [done| |].
    + intros x [Hx1 Hx2]%not_elem_of_cons. rewrite I2, lookup_insert_ne by done. done.
    + intros Hfs x y [E|Hin]%elem_of_cons; [|by eapply I3]. injection E as -> ->. exists d. split; [done|].
      rewrite I2 by done. by rewrite lookup_insert_eq.
  - specialize (IH ls (S i) w Hl Hnd). destruct (fetch_all p ps ls (S i) w) as [fs w']. destruct IH as (I1 & I2 & _).
    split_and!; [done| |done]. intros x [_ Hx]%not_elem_of_cons. by apply I2.
Qed.
Lemma two_children_download : children_download two_children shelf local_files.
Proof.
  intros p c Hc ps ls ms k w Hl Hnd.
  assert (c = library_child p) as -> by (cbn in Hc; repeat case_decide; try done; by injection Hc as <-; subst).
  cbn. pose proof (fetch_all_ok p ps ls 0 w Hl Hnd) as H. destruct (fetch_all p ps ls 0 w) as [fs w']. destruct H as (H1 & H2 & H3).
  split_and!; [intros q; unfold shelf; by rewrite H1|done|]. destruct fs; [|done]. intros _ a b Hin.
  setoid_rewrite shelf_lookup. by apply H3.
Qed.

(** Both profiles have files [a] and [b], with different contents. *)
Definition two_shelves : composite library (gmap string string) :=
  mkState {[ "a" := "us"; "b" := "eu" ]}
    (mkLibrary (list_to_map [(("us", "a"), [x61]); (("us", "b"), [x62]); (("eu", "a"), [x63]); (("eu", "b"), [x64])]) ∅).
Lemma composite_downloads_routed_witness :
  let '(r, s') := composite_download_files two_children ["a"; "b"] ["/a"; "/b"] None 4 two_shelves in
  r = Ok tt /\ local_files (cm_world s') !! "/a" = Some [x61] /\ local_files (cm_world s') !! "/b" = Some [x64].
Proof.
  pose proof (composite_downloads_routed two_children shelf local_files ["a"; "b"] ["/a"; "/b"] None 4
    two_shelves two_children_download ltac:(by apply (bool_decide_unpack _); vm_compute)) as H.
  destruct (composite_download_files two_children ["a"; "b"] ["/a"; "/b"] None 4 _) as [r s'] eqn:E.
  assert (r = Ok tt) as -> by (apply (f_equal fst) in E; vm_compute in E; symmetry; exact E).
  destruct H as (_ & _ & H). split; [reflexivity|].
  destruct (H 0 "a" "/a" eq_refl eq_refl) as (p & a & d & (x & [= <-] & _ & [= <-] & <-) & _ & Hs & Hl).
  destruct (H 1 "b" "/b" eq_refl eq_refl) as (p' & a' & d' & (x' & [= <-] & _ & [= <-] & <-) & _ & Hs' & Hl').
  rewrite shelf_lookup in Hs, Hs'. vm_compute in Hs, Hs'. rewrite Hl, Hl', <- Hs, <- Hs'. split; reflexivity.
Defined.

(** The failures of a child carry the indices of the child's part of the
    request, not those of the request: the file [b] with the index 1 is
    reported under the index 0. *)
Theorem composite_failure_index :
  exists fs s', composite_download_files two_children ["a"; "b"] ["/a"; "/b"] None 4 (example_state [("us", "a")]) =
    (Err (BatchTransferError fs), s') /\ fs = [mkBatchTransferFailure 0 "b" "/b" FileNotFoundError].
Proof. eexists _, _. split; [vm_compute; reflexivity|reflexivity]. Qed.
(** After the failure of one child the others are not tried: the file [b] is
    neither downloaded nor reported. *)
Theorem composite_failure_stops :
  exists fs s', composite_download_files two_children ["a"; "b"] ["/a"; "/b"] None 4 (example_state [("eu", "b")]) =
    (Err (BatchTransferError fs), s') /\ fs = [mkBatchTransferFailure 0 "a" "/a" FileNotFoundError] /\
    local_files (cm_world s') !! "/b" = None.
Proof. eexists _, _. split; [vm_compute; reflexivity|]. split; reflexivity. Qed.
End Examples.
