(* ===== verification/Producer.v ===== *)
(** * The sync producer ([sync/types.py], [sync/producer.py])

    The thread that merges the sorted listings of source and target and puts
    batches of operations into the file queue.

    A listing is the objects it yields and, possibly, the exception it raises
    after them.  The shutdown event is an oracle: its value at each check.
    Clients are arguments through the calls the producer makes. *)
From S2P Require Import Prelude PyPath Types Utils Json.

(** ** Definitions *)
Inductive OperationType := ADD | DELETE | SYMLINK | STOP.
Definition item : Type := ObjectMetadata * option ObjectMetadata.
Record OperationBatch := mkOperationBatch { operation : OperationType; items : list item }.
#[export] Instance OperationType_eq_dec : EqDecision OperationType.
Proof. solve_decision. Defined.

Definition MIN_BATCH_SIZE : Z := 10.
Definition MAX_BATCH_SIZE : Z := 1000.
Definition SIZE_SMALL_THRESHOLD : Z := (1 * 1024 * 1024)%Z.
Definition SIZE_MEDIUM_THRESHOLD : Z := (64 * 1024 * 1024)%Z.
Definition SIZE_LARGE_THRESHOLD : Z := (1024 * 1024 * 1024)%Z.
Inductive SizeBucket := SMALL | MEDIUM | LARGE | VERY_LARGE.
#[export] Instance SizeBucket_eq_dec : EqDecision SizeBucket.
Proof. solve_decision. Defined.

(** The fields set by [ProducerThread.__init__] that do not change *)
Record config := mkConfig {
  source_path : string;
  target_path : string;
  num_workers : nat;
  delete_unmatched_files : bool;
  pattern_matcher : option PatternList;
  preserve_source_attributes : bool;
  target_has_metadata_provider : bool;
  ignore_hidden : bool;
  batch_size : Z;
}.
(** The check of [__init__] *)
Definition make_config (c : config) : res config :=
  if (batch_size c <? MIN_BATCH_SIZE)%Z || (MAX_BATCH_SIZE <? batch_size c)%Z then Err ValueError else Ok c.

(** The fields that change, and the queue the batches go to *)
Record producer := mkProducer {
  file_queue : list OperationBatch;
  total_work_units : Z;
  current_batch : list item;
  current_batch_type : option OperationType;
  current_batch_size_bucket : option SizeBucket;
  progress : Z;
}.
Definition initial_producer : producer := mkProducer [] 0 [] None None 0.

(** [_get_size_bucket] *)
Definition get_size_bucket (content_length : Z) : SizeBucket :=
  if (content_length <=? SIZE_SMALL_THRESHOLD)%Z then SMALL
  else if (content_length <=? SIZE_MEDIUM_THRESHOLD)%Z then MEDIUM
  else if (content_length <=? SIZE_LARGE_THRESHOLD)%Z then LARGE
  else VERY_LARGE.

(** [_flush_batch] *)
Definition flush_batch (p : producer) : producer :=
  match current_batch p, current_batch_type p with
  | _ :: _, Some op =>
      mkProducer (file_queue p ++ [mkOperationBatch op (current_batch p)]) (total_work_units p)
        [] None None (progress p)
  | _, _ => p
  end.

(** The operation and bucket [_enqueue_operation] uses *)
Definition promote (op : OperationType) (source : ObjectMetadata) : OperationType * SizeBucket :=
  match op, symlink_target source with
  | ADD, Some _ => (SYMLINK, SMALL)
  | _, _ => (op, get_size_bucket (content_length source))
  end.

(** [_enqueue_operation] *)
Definition enqueue_operation (c : config) (op : OperationType) (source : ObjectMetadata)
    (target : option ObjectMetadata) (p : producer) : producer :=
  let '(op, bucket) := promote op source in
  let p1 := if negb (bool_decide (current_batch_type p = Some op)) ||
               negb (bool_decide (current_batch_size_bucket p = Some bucket))
            then let q := flush_batch p in
                 mkProducer (file_queue q) (total_work_units q) (current_batch q) (Some op) (Some bucket)
                   (progress q)
            else p in
  let p2 := mkProducer (file_queue p1) (total_work_units p1) (current_batch p1 ++ [(source, target)])
              (current_batch_type p1) (current_batch_size_bucket p1) (progress p1) in
  if (batch_size c <=? Z.of_nat (length (current_batch p2)))%Z then flush_batch p2 else p2.

Definition count_unit (p : producer) : producer :=
  mkProducer (file_queue p) (total_work_units p + 1) (current_batch p) (current_batch_type p)
    (current_batch_size_bucket p) (progress p).
Definition update_progress (p : producer) : producer :=
  mkProducer (file_queue p) (total_work_units p) (current_batch p) (current_batch_type p)
    (current_batch_size_bucket p) (progress p + 1).

(** [dt.replace(microsecond=0)] in seconds *)
Definition to_seconds (t : Z) : Z := (t / 1000000)%Z.

(** [_match_file_metadata] *)
Definition match_file_metadata (c : config) (s t : ObjectMetadata) : bool :=
  match symlink_target s, symlink_target t with
  | None, None =>
      if negb (content_length s =? content_length t)%Z ||
         (to_seconds (last_modified t) <? to_seconds (last_modified s))%Z then false
      else if preserve_source_attributes c && target_has_metadata_provider c
           then bool_decide (default ∅ (metadata s) = default ∅ (metadata t))
           else true
  | a, b => bool_decide (a = b)
  end.

(** [_is_hidden] *)
Definition is_hidden (c : config) (path : string) : bool :=
  if negb (ignore_hidden c) then false
  else existsb (fun part => startswith part ".") (split slash path).

(** [key[len(path):].lstrip("/")] *)
Definition relative_key (path k : string) : string := lstrip slash (str_drop (String.length path) k).

(** [_create_listing_iterator]; [list_fn] and [list_recursive_fn] are the two
    methods of the client, [env_disabled] says whether the environment variable is set *)
Definition create_listing_iterator (env_disabled : bool) (list_fn list_recursive_fn : string -> listing)
    (path : string) (show_attributes : bool) : listing :=
  if show_attributes || env_disabled then list_fn path else list_recursive_fn path.

Definition strip_metadata (c : config) (o : ObjectMetadata) : ObjectMetadata :=
  if preserve_source_attributes c then o
  else mkObjectMetadata (key o) (content_length o) (last_modified o) (type o) (content_type o) (etag o)
         (storage_class o) None (symlink_target o).

(** [_create_source_iterator] for an explicit list of files *)
Fixpoint source_files_iterator (c : config) (info : string -> res ObjectMetadata) (files : list string)
    : listing :=
  match files with
  | [] => mkListing [] None
  | f :: fs =>
      let path := lstrip slash (path_join (source_path c) (lstrip slash f)) in
      match info path with
      | Ok o => let r := source_files_iterator c info fs in
                mkListing (strip_metadata c o :: yielded r) (raised r)
      | Err FileNotFoundError => source_files_iterator c info fs
      | Err e => mkListing [] (Some e)
      end
  end.
(** [_create_source_iterator] *)
Definition create_source_iterator (c : config) (env_disabled : bool) (info : string -> res ObjectMetadata)
    (list_fn list_recursive_fn : string -> listing) (source_files : option (list string)) : listing :=
  match source_files with
  | Some fs => source_files_iterator c info fs
  | None =>
      let l := create_listing_iterator env_disabled list_fn list_recursive_fn (source_path c)
                 (preserve_source_attributes c) in
      mkListing (map (strip_metadata c) (yielded l)) (raised l)
  end.

(** [should_include_file] where a pattern matcher is given *)
Definition included (c : config) (k : string) : bool :=
  match pattern_matcher c with None => true | Some ps => should_include_file ps k end.

(** The state of [run] inside its [try]: what is left of the two listings, the
    objects fetched but not treated yet included. *)
Section Loop.
Context (c : config) (source_error target_error : option exc) (is_set : nat -> bool).

(** [next(iter, None)] once the object at the head was treated: the remaining
    objects, or the exception the listing ends with *)
Definition advance (err : option exc) (l : list ObjectMetadata) : res (list ObjectMetadata) :=
  match tail l, err with
  | [], Some e => Err e
  | l', _ => Ok l'
  end.

(** The [while] loop; [i] counts the checks of the shutdown event.  The result
    is [self.error] and the state; [None] is out of fuel. *)
Fixpoint run_loop (fuel i : nat) (ss ts : list ObjectMetadata) (p : producer)
    : option (option exc * producer) :=
  match fuel with
  | 0 => None
  | S fuel' =>
      let next_source p' := match advance source_error ss with
                            | Ok ss' => run_loop fuel' (S i) ss' ts p'
                            | Err e => Some (Some e, p')
                            end in
      let next_target p' := match advance target_error ts with
                            | Ok ts' => run_loop fuel' (S i) ss ts' p'
                            | Err e => Some (Some e, p')
                            end in
      match ss, ts with
      | [], [] => Some (None, p)
      | _, _ =>
      if is_set i then Some (None, p)
      else
        match ss, ts with
        | s :: _, t :: _ =>
            let source_key := relative_key (source_path c) (key s) in
            let target_key := relative_key (target_path c) (key t) in
            if is_hidden c source_key then next_source p
            else if is_hidden c target_key then next_target p
            else if str_ltb source_key target_key then
              next_source (if included c source_key then count_unit (enqueue_operation c ADD s None p) else p)
            else if str_ltb target_key source_key then
              next_target (if delete_unmatched_files c then count_unit (enqueue_operation c DELETE t None p) else p)
            else
              let p' := if negb (match_file_metadata c s t)
                        then if included c source_key then enqueue_operation c ADD s (Some t) p else p
                        else update_progress p in
              match advance source_error ss with
              | Err e => Some (Some e, p')
              | Ok ss' =>
                  match advance target_error ts with
                  | Err e => Some (Some e, p')
                  | Ok ts' => run_loop fuel' (S i) ss' ts' (count_unit p')
                  end
              end
        | s :: _, [] =>
            let source_key := relative_key (source_path c) (key s) in
            if is_hidden c source_key then next_source p
            else next_source (if included c source_key then count_unit (enqueue_operation c ADD s None p) else p)
        | [], t :: _ =>
            let target_key := relative_key (target_path c) (key t) in
            if is_hidden c target_key then next_target p
            else next_target (if delete_unmatched_files c then count_unit (enqueue_operation c DELETE t None p) else p)
        | [], [] => Some (None, p)
        end
      end
  end.
End Loop.

(** The [finally] clause: the last batch, then one sentinel per worker *)
Definition finish (c : config) (p : producer) : producer :=
  let q := flush_batch p in
  mkProducer (file_queue q ++ replicate (num_workers c) (mkOperationBatch STOP [])) (total_work_units q)
    (current_batch q) (current_batch_type q) (current_batch_size_bucket q) (progress q).

(** [run]: [self.error] and the final state *)
Definition run (c : config) (source target : listing) (is_set : nat -> bool) : option (option exc * producer) :=
  let outcome :=
    match yielded source, raised source with
    | [], Some e => Some (Some e, initial_producer)
    | _, _ =>
        match yielded target, raised target with
        | [], Some e => Some (Some e, initial_producer)
        | _, _ => run_loop c (raised source) (raised target) is_set
                    (S (length (yielded source) + length (yielded target))) 0
                    (yielded source) (yielded target) initial_producer
        end
    end in
  match outcome with
  | Some (e, p) => Some (e, finish c p)
  | None => None
  end.
