(* ===== verification/ProducerProofs.v ===== *)
(** * Correctness of the sync producer

    The merge emits exactly the difference of the two listings, and the
    batches partition it: non-empty, bounded, homogeneous, followed by one
    sentinel per worker, on every path through the thread. *)
From S2P Require Import Prelude PyPath Types Utils Json Producer.

(** ** Batching *)
Definition tagged : Type := OperationType * item.
Definition batch_ops (b : OperationBatch) : list tagged := map (fun it => (operation b, it)) (items b).
(** Everything enqueued so far, in order. *)
Definition emitted (p : producer) : list tagged :=
  concat (map batch_ops (file_queue p)) ++
  match current_batch_type p with Some op => map (fun it => (op, it)) (current_batch p) | None => [] end.

(** The bucket and operation an item is batched under. *)
Definition tag_ok (op : OperationType) (bk : SizeBucket) (it : item) : Prop :=
  promote (match op with SYMLINK => ADD | _ => op end) it.1 = (op, bk).
Definition batch_ok (c : config) (b : OperationBatch) : Prop :=
  operation b <> STOP /\ items b <> [] /\ (Z.of_nat (length (items b)) <= batch_size c)%Z /\
  exists bk, Forall (tag_ok (operation b) bk) (items b).
Definition current_ok (c : config) (p : producer) : Prop :=
  match current_batch p with
  | [] => True
  | its => (Z.of_nat (length its) < batch_size c)%Z /\
           exists op bk, current_batch_type p = Some op /\ current_batch_size_bucket p = Some bk /\
                         op <> STOP /\ Forall (tag_ok op bk) its
  end.
Definition batches_ok (c : config) (p : producer) : Prop :=
  Forall (batch_ok c) (file_queue p) /\ current_ok c p.

Lemma promote_tag op s t op' bk :
  op = ADD \/ op = DELETE -> promote op s = (op', bk) -> op' <> STOP /\ tag_ok op' bk (s, t).
Proof.
  unfold tag_ok, promote. cbn. intros [->| ->]; destruct (symlink_target s) eqn:E;
    intros [= <- <-]; cbn; by rewrite ?E.
Qed.

Lemma flush_emitted p : emitted (flush_batch p) = emitted p.
Proof.
  unfold flush_batch. destruct (current_batch p) as [|it its] eqn:E; [done|].
  destruct (current_batch_type p) as [op|] eqn:Et; [|done]. unfold emitted. cbn. rewrite E, Et.
  rewrite map_app, concat_app. cbn. by rewrite !app_nil_r.
Qed.

Lemma flush_ok c p : batches_ok c p -> batches_ok c (flush_batch p) /\ current_batch (flush_batch p) = [].
Proof.
  intros [Hq Hc]. unfold flush_batch, current_ok in *.
  destruct (current_batch p) as [|it its] eqn:E.
  - split; [|done]. split; [done|]. unfold current_ok. by rewrite E.
  - destruct Hc as (Hlen & op & bk & -> & Hb & Hop & Hits). cbn. split; [|done]. split; [|done]. cbn.
    apply Forall_app. split; [done|]. apply Forall_singleton. split_and!; cbn in *; [done|done|lia|eauto].
Qed.

(** One enqueued operation: emitted at the end, batches stay well formed. *)
Lemma enqueue_spec c op s t p :
  (1 < batch_size c)%Z -> op = ADD \/ op = DELETE -> batches_ok c p ->
  let q := enqueue_operation c op s t p in
  batches_ok c q /\ emitted q = emitted p ++ [((promote op s).1, (s, t))] /\
  total_work_units q = total_work_units p.
Proof.
  intros Hsize Hop Hok q. unfold q, enqueue_operation. clear q.
  destruct (promote op s) as [op' bk] eqn:Ep. destruct (promote_tag op s t op' bk Hop Ep) as [Hstop Htag].
  match goal with |- context [if ?b then ?x else p] => set (p1 := if b then x else p) end.
  assert (Forall (batch_ok c) (file_queue p1) /\ emitted p1 = emitted p /\
    current_batch_type p1 = Some op' /\ current_batch_size_bucket p1 = Some bk /\
    total_work_units p1 = total_work_units p /\
    (Z.of_nat (length (current_batch p1)) < batch_size c)%Z /\ Forall (tag_ok op' bk) (current_batch p1))
    as (H1 & H2 & H3 & H4 & H5 & H6 & H7).
  { unfold p1. destruct (negb _ || negb _) eqn:E.
    - destruct (flush_ok c p Hok) as [[Hf1 Hf2] Hf3]. rewrite Hf3. cbn. split_and!; try done; try lia.
      + rewrite <- (flush_emitted p). unfold emitted. cbn. rewrite Hf3. cbn.
        destruct (current_batch_type (flush_batch p)); done.
      + unfold flush_batch. destruct (current_batch p), (current_batch_type p); done.
    - apply orb_false_iff in E as [E1%negb_false_iff%bool_decide_eq_true E2%negb_false_iff%bool_decide_eq_true].
      destruct Hok as [Hq Hc]. unfold current_ok in Hc.
      destruct (current_batch p) as [|it its]; [split_and!; try done; cbn; lia|].
      destruct Hc as (Hlen & o & b & Ho & Hb & _ & Hits). rewrite E1 in Ho. rewrite E2 in Hb. by simplify_eq. }
  clearbody p1. set (p2 := mkProducer _ _ _ _ _ _).
  assert (emitted p2 = emitted p ++ [(op', (s, t))]) as Hem.
  { rewrite <- H2. unfold emitted, p2. cbn. rewrite H3, map_app. cbn. by rewrite app_assoc. }
  assert (Forall (tag_ok op' bk) (current_batch p2)) as Htags by (cbn; apply Forall_app; by split; [|constructor]).
  assert (length (current_batch p2) = S (length (current_batch p1))) as Hlen by (cbn; rewrite length_app; cbn; lia).
  destruct (batch_size c <=? Z.of_nat (length (current_batch p2)))%Z eqn:E; bool_to_prop.
  - unfold flush_batch. destruct (current_batch p2) as [|it its] eqn:Eb; [cbn in Hlen; lia|].
    change (current_batch_type p2) with (current_batch_type p1). rewrite H3.
    assert (emitted (mkProducer (file_queue p2 ++ [mkOperationBatch op' (it :: its)]) (total_work_units p2)
      [] None None (progress p2)) = emitted p2) as Heq.
    { pose proof (flush_emitted p2) as Hf. unfold flush_batch in Hf. rewrite Eb in Hf.
      change (current_batch_type p2) with (current_batch_type p1) in Hf. by rewrite H3 in Hf. }
    split; [|split; [by rewrite Heq|done]]. split; [|done]. cbn. apply Forall_app. split; [done|].
    apply Forall_singleton. split_and!; cbn in *; [done|done|lia|eauto].
  - split; [|done]. split; [done|]. unfold current_ok.
    destruct (current_batch p2) as [|it its]; [done|]. split; [done|]. exists op', bk. by split_and!.
Qed.

(** ** Visible keys *)
Section Diff.
Context (c : config).
Hypothesis batch_size_ok : (1 < batch_size c)%Z.

Definition skey (s : ObjectMetadata) : string := relative_key (source_path c) (key s).
Definition tkey (t : ObjectMetadata) : string := relative_key (target_path c) (key t).
Definition visible_s (s : ObjectMetadata) : Prop := is_hidden c (skey s) = false.
Definition visible_t (t : ObjectMetadata) : Prop := is_hidden c (tkey t) = false.

Definition add_op (s : ObjectMetadata) (t : option ObjectMetadata) : tagged := ((promote ADD s).1, (s, t)).
Definition delete_op (t : ObjectMetadata) : tagged := (DELETE, (t, None)).

(** The operations that make the target agree with the source. *)
Definition expected (ss ts : list ObjectMetadata) (o : tagged) : Prop :=
  (exists s, s ∈ ss /\ visible_s s /\ included c (skey s) = true /\
     (forall t, t ∈ ts -> visible_t t -> tkey t <> skey s) /\ o = add_op s None) \/
  (exists s t, s ∈ ss /\ t ∈ ts /\ visible_s s /\ skey s = tkey t /\ match_file_metadata c s t = false /\
     included c (skey s) = true /\ o = add_op s (Some t)) \/
  (delete_unmatched_files c = true /\ exists t, t ∈ ts /\ visible_t t /\
     (forall s, s ∈ ss -> visible_s s -> skey s <> tkey t) /\ o = delete_op t).

Lemma expected_nil o : ~ expected [] [] o.
Proof. intros [(s & H & _)|[(s & t & H & _)|(_ & t & H & _)]]; by apply elem_of_nil in H. Qed.

(** Hidden files never matter. *)
Lemma expected_hidden_s s ss ts o :
  is_hidden c (skey s) = true -> expected (s :: ss) ts o <-> expected ss ts o.
Proof.
  intros Hh. unfold expected, visible_s. setoid_rewrite elem_of_cons. split.
  - intros [(x & [->|H] & H1 & H2)|[(x & t & [->|H] & H1 & H2 & H3)|(Hd & t & H1 & H2 & H3 & H4)]].
    + congruence.
    + left. eauto.
    + congruence.
    + right. left. eauto 10.
    + right. right. split; [done|]. exists t. split_and!; eauto.
  - intros [(x & H & H1 & H2)|[(x & t & H & H1 & H2 & H3)|(Hd & t & H1 & H2 & H3 & H4)]].
    + left. eauto.
    + right. left. eauto 10.
    + right. right. split; [done|]. exists t. split_and!; auto. intros x [->|Hx] Hv; [congruence|auto].
Qed.
Lemma expected_hidden_t t ss ts o :
  is_hidden c (tkey t) = true -> expected ss (t :: ts) o <-> expected ss ts o.
Proof.
  intros Hh. unfold expected, visible_t. setoid_rewrite elem_of_cons. split.
  - intros [(x & H & H1 & H2 & H3 & H4)|[(s & x & H & [->|Hx] & H1 & H2 & H3)|(Hd & x & [->|H] & H2 & H3)]].
    + left. exists x. split_and!; eauto.
    + unfold visible_s in H1. rewrite H2 in H1. congruence.
    + right. left. eauto 10.
    + congruence.
    + right. right. eauto 10.
  - intros [(x & H & H1 & H2 & H3 & H4)|[(s & x & H & Hx & H1 & H2 & H3)|(Hd & x & H & H2 & H3)]].
    + left. exists x. split_and!; auto. intros y [->|Hy] Hv; [congruence|auto].
    + right. left. eauto 10.
    + right. right. eauto 10.
Qed.

(** A source file without a counterpart is added. *)
Lemma expected_source s ss ts o :
  visible_s s -> (forall t, t ∈ ts -> tkey t <> skey s) -> (forall x, x ∈ ss -> skey x <> skey s) ->
  expected (s :: ss) ts o <-> (included c (skey s) = true /\ o = add_op s None) \/ expected ss ts o.
Proof.
  intros Hv Ht Hs. unfold expected. setoid_rewrite elem_of_cons. split.
  - intros [(x & [->|H] & H1 & H2 & H3 & H4)|[(x & t & [->|H] & H1 & H2 & H3 & H4)|(Hd & t & H1 & H2 & H3 & H4)]].
    + by left.
    + right. left. eauto 10.
    + by apply Ht in H1.
    + right. right. left. eauto 10.
    + right. right. right. split; [done|]. exists t. split_and!; eauto.
  - intros [[H1 H2]|[(x & H & H1 & H2)|[(x & t & H & H1 & H2 & H3)|(Hd & t & H1 & H2 & H3 & H4)]]].
    + left. exists s. split_and!; auto.
    + left. eauto 10.
    + right. left. eauto 10.
    + right. right. split; [done|]. exists t. split_and!; auto.
      intros x [->|Hx] Hxv; [|auto]. intros E. by apply (Ht t).
Qed.

(** A target file without a counterpart is deleted, if unmatched files are. *)
Lemma expected_target t ss ts o :
  visible_t t -> (forall s, s ∈ ss -> skey s <> tkey t) -> (forall x, x ∈ ts -> tkey x <> tkey t) ->
  expected ss (t :: ts) o <->
  (delete_unmatched_files c = true /\ o = delete_op t) \/ expected ss ts o.
Proof.
  intros Hv Hs Ht. unfold expected. setoid_rewrite elem_of_cons. split.
  - intros [(x & H & H1 & H2 & H3 & H4)|[(s & x & H & [->|Hx] & H1 & H2 & H3)|(Hd & x & [->|H] & H2 & H3 & H4)]].
    + right. left. exists x. split_and!; eauto.
    + by apply Hs in H.
    + right. right. left. eauto 10.
    + by left.
    + right. right. right. eauto 10.
  - intros [[H1 H2]|[(x & H & H1 & H2 & H3 & H4)|[(s & x & H & Hx & H1 & H2 & H3)|(Hd & x & H & H2 & H3)]]].
    + right. right. split; [done|]. exists t. split_and!; auto.
    + left. exists x. split_and!; auto. intros y [->|Hy] Hyv; [|auto]. intros E. by apply (Hs x).
    + right. left. eauto 10.
    + right. right. eauto 10.
Qed.

(** A pair with the same key is updated when it differs. *)
Lemma expected_pair s t ss ts o :
  visible_s s -> skey s = tkey t ->
  (forall x, x ∈ ss -> skey x <> skey s) -> (forall x, x ∈ ts -> tkey x <> tkey t) ->
  expected (s :: ss) (t :: ts) o <->
  (match_file_metadata c s t = false /\ included c (skey s) = true /\ o = add_op s (Some t)) \/ expected ss ts o.
Proof.
  intros Hv Hk Hs Ht. assert (visible_t t) as Hvt by (unfold visible_t; by rewrite <- Hk).
  unfold expected. setoid_rewrite elem_of_cons. split.
  - intros [(x & [->|H] & H1 & H2 & H3 & H4)|[(x & y & [->|H] & [->|Hy] & H1 & H2 & H3)|(Hd & x & [->|H] & H2 & H3 & H4)]].
    + exfalso. apply (H3 t); auto.
    + right. left. exists x. split_and!; eauto.
    + by left; destruct H3 as (? & ? & ?).
    + exfalso. apply (Ht y); congruence.
    + exfalso. apply (Hs x); congruence.
    + right. right. left. eauto 10.
    + exfalso. apply (H3 s); auto.
    + right. right. right. split; [done|]. exists x. split_and!; eauto.
  - intros [(H1 & H2 & H3)|[(x & H & H1 & H2 & H3 & H4)|[(x & y & H & Hy & H1 & H2 & H3)|(Hd & x & H & H2 & H3 & H4)]]].
    + right. left. exists s, t. split_and!; auto.
    + left. exists x. split_and!; auto. intros y [->|Hy] Hyv; [|auto]. intros E. apply (Hs x); congruence.
    + right. left. eauto 10.
    + right. right. split; [done|]. exists x. split_and!; auto.
      intros y [->|Hy] Hyv; [|auto]. intros E. apply (Ht x); congruence.
Qed.

(** ** The merge *)
Definition op_key (o : tagged) : string :=
  match o with (DELETE, (t, _)) => tkey t | (_, (s, _)) => skey s end.

Lemma op_key_add s t : op_key (add_op s t) = skey s.
Proof. unfold add_op, promote. by destruct (symlink_target s). Qed.

Lemma expected_key ss ts o :
  expected ss ts o -> (exists s, s ∈ ss /\ op_key o = skey s) \/ (exists t, t ∈ ts /\ op_key o = tkey t).
Proof.
  intros [(s & H & _ & _ & _ & ->)|[(s & t & H & _ & _ & _ & _ & _ & ->)|(_ & t & H & _ & _ & ->)]].
  - left. exists s. by rewrite op_key_add.
  - left. exists s. by rewrite op_key_add.
  - right. by exists t.
Qed.

Definition sorted_s : list ObjectMetadata -> Prop := StronglySorted (fun a b => str_lt (skey a) (skey b)).
Definition sorted_t : list ObjectMetadata -> Prop := StronglySorted (fun a b => str_lt (tkey a) (tkey b)).

(** What a run of the loop adds to the emitted operations. *)
Definition emits (ss ts : list ObjectMetadata) (p p' : producer) : Prop :=
  batches_ok c p' /\ exists ops, emitted p' = emitted p ++ ops /\
    StronglySorted str_lt (map op_key ops) /\ forall o, o ∈ ops <-> expected ss ts o.

Lemma emits_nil p : batches_ok c p -> emits [] [] p p.
Proof.
  intros Hok. split; [done|]. exists []. rewrite app_nil_r. split_and!; [done|constructor|].
  intros o. split; [by intros ?%elem_of_nil|]. intros H. by apply expected_nil in H.
Qed.

(** One step in front of the rest: nothing, or one operation with a smaller key. *)
Lemma emits_skip ss ts ss' ts' p p' :
  (forall o, expected ss ts o <-> expected ss' ts' o) -> emits ss' ts' p p' -> emits ss ts p p'.
Proof.
  intros Hiff (Hok & ops & He & Hs & Ho). split; [done|]. exists ops. split_and!; try done.
  intros o. by rewrite Ho, Hiff.
Qed.
Lemma emits_op ss ts ss' ts' op x y p q p' :
  op = ADD \/ op = DELETE -> batches_ok c p ->
  q = enqueue_operation c op x y p \/ q = count_unit (enqueue_operation c op x y p) ->
  let o1 := ((promote op x).1, (x, y)) in
  (forall o, expected ss ts o <-> o = o1 \/ expected ss' ts' o) ->
  (forall s, s ∈ ss' -> str_lt (op_key o1) (skey s)) ->
  (forall t, t ∈ ts' -> str_lt (op_key o1) (tkey t)) ->
  emits ss' ts' q p' -> emits ss ts p p'.
Proof using batch_size_ok.
  intros Hop Hok Hq o1 Hiff Hs Ht (Hok' & ops & He & Hsort & Ho).
  destruct (enqueue_spec c op x y p batch_size_ok Hop Hok) as (_ & Hem & _).
  assert (emitted q = emitted p ++ [o1]) as Hq1 by (by destruct Hq as [->| ->]).
  split; [done|]. exists (o1 :: ops). rewrite He, Hq1, <- app_assoc. split; [done|]. split.
  - cbn. constructor; [done|]. apply Forall_map, Forall_forall. intros o Hin%Ho.
    destruct (expected_key _ _ _ Hin) as [(s & Hin' & ->)|(t & Hin' & ->)]; auto.
  - intros o. rewrite elem_of_cons, Ho, Hiff. done.
Qed.

Lemma batches_ok_enqueue op x y p :
  op = ADD \/ op = DELETE -> batches_ok c p -> batches_ok c (enqueue_operation c op x y p).
Proof using batch_size_ok. intros. by apply enqueue_spec. Qed.

Lemma sorted_ne (f : ObjectMetadata -> string) x l :
  StronglySorted (fun a b => str_lt (f a) (f b)) (x :: l) ->
  (forall y, y ∈ l -> str_lt (f x) (f y)) /\ (forall y, y ∈ l -> f y <> f x).
Proof.
  intros H. apply StronglySorted_inv in H as [_ H]. rewrite Forall_forall in H. split; [done|].
  intros y Hy E. specialize (H y Hy). rewrite E in H. by apply str_lt_irrefl in H.
Qed.

Lemma str_ltb_neq a b : str_ltb a b = false -> str_ltb b a = false -> a = b.
Proof.
  intros H1 H2. destruct (str_lt_trichotomy a b) as [H|[H|H]]; [|done|];
    unfold str_lt in H; congruence.
Qed.

(** A source file before every remaining target file. *)
Lemma emits_source s ss ts p p' :
  visible_s s -> batches_ok c p -> sorted_s (s :: ss) -> (forall t, t ∈ ts -> str_lt (skey s) (tkey t)) ->
  emits ss ts (if included c (skey s) then count_unit (enqueue_operation c ADD s None p) else p) p' ->
  emits (s :: ss) ts p p'.
Proof using batch_size_ok.
  intros Hv Hok Hss Ht He. destruct (sorted_ne skey s ss Hss) as [Hlt Hne].
  assert (forall t, t ∈ ts -> tkey t <> skey s) as Hnt.
  { intros t Hin E. specialize (Ht t Hin). rewrite E in Ht. by apply str_lt_irrefl in Ht. }
  pose proof (fun o => expected_source s ss ts o Hv Hnt Hne) as Hiff.
  destruct (included c (skey s)).
  - eapply (emits_op _ _ _ _ ADD s None); [by left|done|by right| | | |exact He].
    + intros o. rewrite Hiff. unfold add_op. naive_solver.
    + change (op_key _) with (op_key (add_op s None)). by rewrite op_key_add.
    + change (op_key _) with (op_key (add_op s None)). by rewrite op_key_add.
  - eapply emits_skip; [|exact He]. intros o. rewrite Hiff. naive_solver.
Qed.

(** A target file before every remaining source file. *)
Lemma emits_target t ss ts p p' :
  visible_t t -> batches_ok c p -> sorted_t (t :: ts) -> (forall s, s ∈ ss -> str_lt (tkey t) (skey s)) ->
  emits ss ts (if delete_unmatched_files c then count_unit (enqueue_operation c DELETE t None p) else p) p' ->
  emits ss (t :: ts) p p'.
Proof using batch_size_ok.
  intros Hv Hok Hts Hs He. destruct (sorted_ne tkey t ts Hts) as [Hlt Hne].
  assert (forall s, s ∈ ss -> skey s <> tkey t) as Hns.
  { intros s Hin E. specialize (Hs s Hin). rewrite E in Hs. by apply str_lt_irrefl in Hs. }
  pose proof (fun o => expected_target t ss ts o Hv Hns Hne) as Hiff.
  destruct (delete_unmatched_files c).
  - eapply (emits_op _ _ _ _ DELETE t None); [by right|done|by right| |exact Hs|exact Hlt|exact He].
    intros o. rewrite Hiff. unfold delete_op. cbn. naive_solver.
  - eapply emits_skip; [|exact He]. intros o. rewrite Hiff. naive_solver.
Qed.

(** A pair with the same key. *)
Lemma emits_pair s t ss ts p p' :
  visible_s s -> skey s = tkey t -> batches_ok c p -> sorted_s (s :: ss) -> sorted_t (t :: ts) ->
  emits ss ts (count_unit (if negb (match_file_metadata c s t)
                           then if included c (skey s) then enqueue_operation c ADD s (Some t) p else p
                           else update_progress p)) p' ->
  emits (s :: ss) (t :: ts) p p'.
Proof using batch_size_ok.
  intros Hv Hk Hok Hss Hts He. destruct (sorted_ne skey s ss Hss) as [Hlts Hnes].
  destruct (sorted_ne tkey t ts Hts) as [Hltt Hnet].
  pose proof (fun o => expected_pair s t ss ts o Hv Hk Hnes Hnet) as Hiff.
  destruct (match_file_metadata c s t); cbn [negb] in He.
  - eapply emits_skip; [|exact He]. intros o. rewrite Hiff. naive_solver.
  - destruct (included c (skey s)).
    + eapply (emits_op _ _ _ _ ADD s (Some t)); [by left|done|by right| | | |exact He].
      * intros o. rewrite Hiff. unfold add_op. naive_solver.
      * change (op_key _) with (op_key (add_op s (Some t))). by rewrite op_key_add.
      * change (op_key _) with (op_key (add_op s (Some t))). rewrite op_key_add, Hk. exact Hltt.
    + eapply emits_skip; [|exact He]. intros o. rewrite Hiff. naive_solver.
Qed.

Lemma run_loop_emits fuel i ss ts p :
  length ss + length ts < fuel -> sorted_s ss -> sorted_t ts -> batches_ok c p ->
  exists p', run_loop c None None (fun _ => false) fuel i ss ts p = Some (None, p') /\ emits ss ts p p'.
Proof using batch_size_ok.
  revert i ss ts p. induction fuel as [|fuel IH]; intros i ss ts p Hlen Hss Hts Hok; [lia|].
  assert (forall b x p, batches_ok c p ->
    batches_ok c (if b : bool then count_unit (enqueue_operation c ADD x None p) else p)) as Hadd.
  { intros [] x q Hq; [|done]. by apply (batches_ok_enqueue ADD x None q); [left|]. }
  assert (forall b x p, batches_ok c p ->
    batches_ok c (if b : bool then count_unit (enqueue_operation c DELETE x None p) else p)) as Hdel.
  { intros [] x q Hq; [|done]. by apply (batches_ok_enqueue DELETE x None q); [right|]. }
  assert (forall l, advance None l = Ok (tail l)) as Hadv by (intros [|? []]; done).
  destruct ss as [|s ss], ts as [|t ts]; cbn [run_loop]; rewrite ?Hadv; cbn [tail].
  - exists p. split; [done|]. by apply emits_nil.
  - fold (tkey t). pose proof (StronglySorted_inv Hts) as [Hts' _]. cbn in Hlen.
    destruct (is_hidden c (tkey t)) eqn:Eh.
    + destruct (IH (S i) [] ts p) as (p' & -> & He); [cbn; lia|done..|]. exists p'. split; [done|].
      eapply emits_skip; [|exact He]. intros o. by apply expected_hidden_t.
    + destruct (IH (S i) [] ts _ ltac:(cbn; lia) Hss Hts' (Hdel (delete_unmatched_files c) t p Hok)) as (p' & -> & He).
      exists p'. split; [done|]. apply emits_target; try done. by intros s ?%elem_of_nil.
  - fold (skey s). pose proof (StronglySorted_inv Hss) as [Hss' _]. cbn in Hlen.
    destruct (is_hidden c (skey s)) eqn:Eh.
    + destruct (IH (S i) ss [] p) as (p' & -> & He); [cbn; lia|done..|]. exists p'. split; [done|].
      eapply emits_skip; [|exact He]. intros o. by apply expected_hidden_s.
    + destruct (IH (S i) ss [] _ ltac:(cbn; lia) Hss' Hts (Hadd (included c (skey s)) s p Hok)) as (p' & -> & He).
      exists p'. split; [done|]. apply emits_source; try done. by intros t ?%elem_of_nil.
  - fold (skey s) (tkey t). pose proof (StronglySorted_inv Hss) as [Hss' _].
    pose proof (StronglySorted_inv Hts) as [Hts' _]. cbn in Hlen.
    destruct (is_hidden c (skey s)) eqn:Ehs.
    { destruct (IH (S i) ss (t :: ts) p) as (p' & -> & He); [cbn; lia|done..|]. exists p'. split; [done|].
      eapply emits_skip; [|exact He]. intros o. by apply expected_hidden_s. }
    destruct (is_hidden c (tkey t)) eqn:Eht.
    { destruct (IH (S i) (s :: ss) ts p) as (p' & -> & He); [cbn; lia|done..|]. exists p'. split; [done|].
      eapply emits_skip; [|exact He]. intros o. by apply expected_hidden_t. }
    destruct (str_ltb (skey s) (tkey t)) eqn:Elt.
    { destruct (IH (S i) ss (t :: ts) _ ltac:(cbn; lia) Hss' Hts (Hadd (included c (skey s)) s p Hok)) as (p' & -> & He).
      exists p'. split; [done|]. apply emits_source; try done.
      intros x [->|Hx]%elem_of_cons; [done|]. eapply str_lt_trans; [exact Elt|]. by apply (sorted_ne tkey t ts). }
    destruct (str_ltb (tkey t) (skey s)) eqn:Egt.
    { destruct (IH (S i) (s :: ss) ts _ ltac:(cbn; lia) Hss Hts' (Hdel (delete_unmatched_files c) t p Hok)) as (p' & -> & He).
      exists p'. split; [done|]. apply emits_target; try done.
      intros x [->|Hx]%elem_of_cons; [done|]. eapply str_lt_trans; [exact Egt|]. by apply (sorted_ne skey s ss). }
    assert (batches_ok c (count_unit (if negb (match_file_metadata c s t)
      then if included c (skey s) then enqueue_operation c ADD s (Some t) p else p else update_progress p))) as Hq.
    { destruct (negb _); [|done]. destruct (included c (skey s)); [|done].
      by apply (batches_ok_enqueue ADD s (Some t) p); [left|]. }
    destruct (IH (S i) ss ts _ ltac:(cbn; lia) Hss' Hts' Hq) as (p' & -> & He). exists p'. split; [done|].
    apply emits_pair; try done. by apply str_ltb_neq.
Qed.
End Diff.

(** ** The thread *)
Definition stop_batch : OperationBatch := mkOperationBatch STOP [].

Lemma finish_spec c p :
  batches_ok c p ->
  exists bs, file_queue (finish c p) = bs ++ replicate (num_workers c) stop_batch /\
    Forall (batch_ok c) bs /\ concat (map batch_ops bs) = emitted p.
Proof.
  intros Hok. destruct (flush_ok c p Hok) as [[Hq _] Hb]. exists (file_queue (flush_batch p)).
  split; [done|]. split; [done|]. rewrite <- flush_emitted. unfold emitted. rewrite Hb.
  destruct (current_batch_type (flush_batch p)); cbn; by rewrite app_nil_r.
Qed.

Lemma initial_ok c : batches_ok c initial_producer.
Proof. by split. Qed.

Lemma make_config_size c c' : make_config c = Ok c' -> c' = c /\ (1 < batch_size c)%Z.
Proof.
  unfold make_config, MIN_BATCH_SIZE. destruct (_ || _) eqn:E; [done|]. intros [= <-]. bool_to_prop. split; [done|lia].
Qed.

(** The run on sorted listings, with everything that is known of its batches. *)
Lemma run_emits (c : config) (source target : list ObjectMetadata) :
  make_config c = Ok c -> sorted_s c source -> sorted_t c target ->
  exists p bs, run c (mkListing source None) (mkListing target None) (fun _ => false) = Some (None, p) /\
    file_queue p = bs ++ replicate (num_workers c) stop_batch /\ Forall (batch_ok c) bs /\
    StronglySorted str_lt (map (op_key c) (concat (map batch_ops bs))) /\
    forall o, o ∈ concat (map batch_ops bs) <-> expected c source target o.
Proof.
  intros [_ Hsize]%make_config_size Hs Ht.
  destruct (run_loop_emits c Hsize (S (length source + length target)) 0 source target initial_producer)
    as (p & Hrun & Hok & ops & Hem & Hsort & Hops); [lia|done|done|apply initial_ok|].
  destruct (finish_spec c p Hok) as (bs & Hq & Hbok & Hbs).
  exists (finish c p), bs. unfold run. cbn [yielded raised].
  assert ((match source, None : option exc with [], Some e => Some (Some e, initial_producer) | _, _ =>
    match target, None : option exc with [], Some e => Some (Some e, initial_producer) | _, _ =>
      run_loop c None None (fun _ => false) (S (length source + length target)) 0 source target initial_producer
    end end) = Some (None, p)) as ->; [destruct source, target; done|].
  split; [done|]. split; [done|]. split; [done|]. rewrite Hbs, Hem. cbn. by split.
Qed.

(** Given listings sorted by relative key, the producer emits exactly the
    difference of source and target, each operation once and in key order, in
    batches followed by the sentinels: new and changed source files that the
    patterns include are added (symlinks as symlinks, with the outdated target
    if there is one), target files without a source file are deleted if that
    was asked for, and hidden files are never touched. *)
Theorem producer_emits_difference (c : config) (source target : list ObjectMetadata)
    (Hconfig : make_config c = Ok c) (Hs : sorted_s c source) (Ht : sorted_t c target) :
  exists p bs, run c (mkListing source None) (mkListing target None) (fun _ => false) = Some (None, p) /\
    file_queue p = bs ++ replicate (num_workers c) stop_batch /\
    StronglySorted str_lt (map (op_key c) (concat (map batch_ops bs))) /\
    forall o, o ∈ concat (map batch_ops bs) <-> expected c source target o.
Proof. destruct (run_emits c source target) as (p & bs & H1 & H2 & _ & H3); eauto. Qed.

Definition example_config : config := mkConfig "src" "dst" 2 true None false false true 32.
Definition obj (k : string) (n t : Z) : ObjectMetadata := new_ObjectMetadata k n t.
Definition example_source : list ObjectMetadata :=
  [obj "src/.hidden" 1 0; obj "src/a" 1 0; obj "src/b" 2 5000000; obj "src/c" 3 0].
Definition example_target : list ObjectMetadata := [obj "dst/b" 2 4999999; obj "dst/c" 3 9; obj "dst/z" 4 0].

Lemma producer_emits_difference_witness :
  exists p bs, run example_config (mkListing example_source None) (mkListing example_target None) (fun _ => false)
               = Some (None, p) /\
    file_queue p = bs ++ [stop_batch; stop_batch] /\
    (forall o, o ∈ concat (map batch_ops bs) <-> expected example_config example_source example_target o) /\
    map operation (file_queue p) = [ADD; DELETE; STOP; STOP].
Proof.
  destruct (producer_emits_difference example_config example_source example_target) as (p & bs & Hr & Hq & _ & Ho).
  - reflexivity.
  - repeat (apply SSorted_cons; [|repeat (apply Forall_cons; split; [vm_compute; reflexivity|]); apply Forall_nil; exact I]).
    apply SSorted_nil.
  - repeat (apply SSorted_cons; [|repeat (apply Forall_cons; split; [vm_compute; reflexivity|]); apply Forall_nil; exact I]).
    apply SSorted_nil.
  - exists p, bs. split; [exact Hr|]. split; [exact Hq|]. split; [exact Ho|].
    transitivity (match run example_config (mkListing example_source None) (mkListing example_target None)
      (fun _ => false) with Some (_, p) => map operation (file_queue p) | None => [] end).
    + rewrite Hr. reflexivity.
    + vm_compute. reflexivity.
Defined.

(** A run of the loop in general: listings may raise, the event may be set. *)
Lemma run_loop_batches c se te is_set fuel i ss ts p :
  (1 < batch_size c)%Z -> length ss + length ts < fuel -> batches_ok c p ->
  exists e p', run_loop c se te is_set fuel i ss ts p = Some (e, p') /\ batches_ok c p' /\
    (e = None \/ e = se \/ e = te).
Proof.
  intros Hsize. revert i ss ts p. induction fuel as [|fuel IH]; intros i ss ts p Hlen Hok; [lia|].
  cbn [run_loop].
  assert (forall op x y q, op = ADD \/ op = DELETE -> batches_ok c q ->
    batches_ok c (enqueue_operation c op x y q)) as Henq by (intros; by apply enqueue_spec).
  assert (forall x q, batches_ok c q -> x :: tail ss = ss ->
    exists e p', (match advance se ss with
     | Ok ss' => run_loop c se te is_set fuel (S i) ss' ts q
     | Err e => Some (Some e, q)
     end) = Some (e, p') /\ batches_ok c p' /\ (e = None \/ e = se \/ e = te)) as Hsrc.
  { intros x q Hq Hss. rewrite <- Hss in Hlen. cbn in Hlen. unfold advance.
    destruct (tail ss) eqn:E; [destruct se; [by eauto 10|]|]; (apply IH; [|done]); rewrite ?E in Hlen; cbn in *; lia. }
  assert (forall x q, batches_ok c q -> x :: tail ts = ts ->
    exists e p', (match advance te ts with
     | Ok ts' => run_loop c se te is_set fuel (S i) ss ts' q
     | Err e => Some (Some e, q)
     end) = Some (e, p') /\ batches_ok c p' /\ (e = None \/ e = se \/ e = te)) as Htgt.
  { intros x q Hq Hts. rewrite <- Hts in Hlen. cbn in Hlen. unfold advance.
    destruct (tail ts) eqn:E; [destruct te; [by eauto 10|]|]; (apply IH; [|done]); rewrite ?E in Hlen; cbn in *; lia. }
  assert (exists e p', Some (None : option exc, p) = Some (e, p') /\ batches_ok c p' /\ (e = None \/ e = se \/ e = te))
    as Hstop by eauto 10.
  destruct ss as [|s ss], ts as [|t ts]; [done| | |]; (destruct (is_set i); [done|]).
  - destruct (is_hidden _ _); [by apply (Htgt t)|]. apply (Htgt t); [|done].
    destruct (delete_unmatched_files c); [|done]. apply Henq; auto.
  - destruct (is_hidden _ _); [by apply (Hsrc s)|]. apply (Hsrc s); [|done].
    destruct (included c _); [|done]. apply Henq; auto.
  - destruct (is_hidden _ _); [by apply (Hsrc s)|]. destruct (is_hidden _ _); [by apply (Htgt t)|].
    destruct (str_ltb _ _); [apply (Hsrc s); [|done]; destruct (included c _); [|done]; apply Henq; auto|].
    destruct (str_ltb _ _); [apply (Htgt t); [|done]; destruct (delete_unmatched_files c); [|done]; apply Henq; auto|].
    set (q := if negb _ then _ else _).
    assert (batches_ok c q) as Hq.
    { unfold q. destruct (negb _); [|done]. destruct (included c _); [|done]. apply Henq; auto. }
    clearbody q. cbn in Hlen. unfold advance. cbn [tail].
    destruct ss as [|s' ss]; [destruct se as [e|]; [by eauto 10|]|];
      (destruct ts as [|t' ts]; [destruct te as [e'|]; [by eauto 10|]|]); apply IH; try done; cbn in *; lia.
Qed.

(** Whatever the listings hold, whether they raise, and whenever shutdown is
    signalled, the producer thread ends, and the queue then holds well-formed
    batches (non-empty, at most [batch_size] items, one operation and one size
    bucket each, never a sentinel) followed by exactly one sentinel per
    worker; its error, if any, is the one a listing raised. *)
Theorem producer_always_stops_workers (c : config) (source target : listing) (is_set : nat -> bool)
    (Hconfig : make_config c = Ok c) :
  exists e p bs, run c source target is_set = Some (e, p) /\
    file_queue p = bs ++ replicate (num_workers c) stop_batch /\ Forall (batch_ok c) bs /\
    (e = None \/ e = raised source \/ e = raised target).
Proof.
  apply make_config_size in Hconfig as [_ Hsize].
  destruct source as [ss se], target as [ts te]. unfold run. cbn [yielded raised].
  assert (forall e p, batches_ok c p -> e = None \/ e = se \/ e = te ->
    exists e' p' bs, Some (e, finish c p) = Some (e', p') /\
      file_queue p' = bs ++ replicate (num_workers c) stop_batch /\ Forall (batch_ok c) bs /\
      (e' = None \/ e' = se \/ e' = te)) as Hfin.
  { intros e p Hok He. destruct (finish_spec c p Hok) as (bs & H1 & H2 & _). eauto 10. }
  destruct (run_loop_batches c se te is_set (S (length ss + length ts)) 0 ss ts initial_producer Hsize)
    as (e & p & Hrun & Hok & He); [lia|apply initial_ok|].
  rewrite Hrun.
  destruct ss as [|s ss], ts as [|t ts], se as [e1|], te as [e2|]; try by apply Hfin.
  all: apply Hfin; [apply initial_ok|by auto].
Qed.

Lemma producer_always_stops_workers_witness :
  exists e p bs, run example_config (mkListing example_source (Some OSError)) (mkListing [] None) (fun _ => false)
                 = Some (e, p) /\
    file_queue p = bs ++ [stop_batch; stop_batch] /\ Forall (batch_ok example_config) bs /\ e = Some OSError.
Proof.
  destruct (producer_always_stops_workers example_config (mkListing example_source (Some OSError)) (mkListing [] None)
    (fun _ => false) eq_refl) as (e & p & bs & Hr & Hq & Hb & _).
  exists e, p, bs. split; [exact Hr|]. split; [exact Hq|]. split; [exact Hb|].
  transitivity (match run example_config (mkListing example_source (Some OSError)) (mkListing [] None)
    (fun _ => false) with Some (e, _) => e | None => None end).
  - rewrite Hr. reflexivity.
  - vm_compute. reflexivity.
Defined.

(** ** Convergence *)
Section Converge.
Context (c : config) (source target target' : list ObjectMetadata) (copied : ObjectMetadata -> ObjectMetadata).
Hypothesis source_sorted : sorted_s c source.
Hypothesis target_sorted : sorted_t c target.
Hypothesis copied_key : forall s, s ∈ source -> tkey c (copied s) = skey c s.
Hypothesis copied_match : forall s, s ∈ source -> match_file_metadata c s (copied s) = true.
(** The target once the operations were carried out: what no operation is
    about, and the copies. *)
Hypothesis applied : forall t, t ∈ target' <->
  (t ∈ target /\ forall o, expected c source target o -> op_key c o <> tkey c t) \/
  (exists s y, expected c source target (add_op s y) /\ t = copied s).

(** An added file comes from the source. *)
Lemma expected_add s y : expected c source target (add_op s y) -> s ∈ source /\ visible_s c s.
Proof.
  assert (forall t, add_op s y <> delete_op t) as Hnd.
  { intros t H. unfold add_op, promote, delete_op in H. by destruct (symlink_target s). }
  assert (forall s' y', add_op s y = add_op s' y' -> s = s') as Hinj.
  { intros s' y' H. unfold add_op in H. congruence. }
  intros [(s' & H & Hv & _ & _ & E)|[(s' & t & H & _ & Hv & _ & _ & _ & E)|(_ & t & _ & _ & _ & E)]].
  - apply Hinj in E as ->. done.
  - apply Hinj in E as ->. done.
  - by apply Hnd in E.
Qed.

(** A matching pair is the subject of no operation. *)
Lemma matched_untouched s t :
  s ∈ source -> visible_s c s -> t ∈ target -> skey c s = tkey c t -> match_file_metadata c s t = true ->
  forall o, expected c source target o -> op_key c o <> tkey c t.
Proof using source_sorted target_sorted.
  intros Hs Hv Ht Hk Hm o [(s' & H & Hv' & _ & Hno & ->)|[(s' & t' & H & H' & Hv' & Hk' & Hm' & _ & ->)|(_ & t' & H & Hv' & Hno & ->)]] E.
  - rewrite op_key_add in E. apply (Hno t); [done| |by rewrite E]. unfold visible_t. by rewrite <- Hk.
  - rewrite op_key_add in E.
    assert (s' = s) as -> by (apply (sorted_inj (skey c) source); [done..|by rewrite E]).
    assert (t' = t) as -> by (apply (sorted_inj (tkey c) target); [done..|by rewrite <- Hk']). by rewrite Hm in Hm'.
  - cbn in E. apply (Hno s); [done|done|by rewrite E].
Qed.

Lemma nothing_left o : ~ expected c source target' o.
Proof using All.
  intros [(s & Hs & Hv & Hi & Hno & ->)|[(s & t & Hs & Ht & Hv & Hk & Hm & Hi & ->)|(Hd & t & Ht & Hv & Hno & ->)]].
  - assert (forall y, ~ expected c source target (add_op s y)) as Hnone.
    { intros y Hy. apply (Hno (copied s)); [apply applied; eauto| |by apply copied_key].
      unfold visible_t. by rewrite copied_key. }
    assert (forall t, t ∈ target -> visible_t c t -> tkey c t <> skey c s) as Hnt.
    { intros t Ht Hvt E. destruct (match_file_metadata c s t) eqn:Em.
      - apply (Hno t); [|done|done]. apply applied. left. split; [done|]. by apply (matched_untouched s t).
      - apply (Hnone (Some t)). right. left. exists s, t. split_and!; auto. }
    apply (Hnone None). left. exists s. by split_and!.
  - apply applied in Ht as [[Ht Hun]|(s2 & y & He & ->)].
    + apply (Hun (add_op s (Some t))); [|by rewrite op_key_add]. right. left. exists s, t. by split_and!.
    + apply expected_add in He as [Hs2 _]. rewrite copied_key in Hk by done.
      assert (s = s2) as <- by (apply (sorted_inj (skey c) source); done).
      rewrite copied_match in Hm; done.
  - apply applied in Ht as [[Ht Hun]|(s2 & y & He & ->)].
    + apply (Hun (delete_op t)); [|done]. right. right. split; [done|]. exists t. by split_and!.
    + apply expected_add in He as [Hs2 Hv2]. apply (Hno s2); [done|done|]. by rewrite copied_key.
Qed.
End Converge.

(** C36: sync converges: once the operations of a run have been carried out, with
    every copy recognised as matching its source, another run with the same
    settings emits nothing but the sentinels. *)
Theorem sync_converges (c : config) (source target target' : list ObjectMetadata)
    (copied : ObjectMetadata -> ObjectMetadata)
    (Hconfig : make_config c = Ok c) (Hs : sorted_s c source) (Ht : sorted_t c target) (Ht' : sorted_t c target')
    (Hkey : forall s, s ∈ source -> tkey c (copied s) = skey c s)
    (Hmatch : forall s, s ∈ source -> match_file_metadata c s (copied s) = true)
    (Happlied : forall t, t ∈ target' <->
       (t ∈ target /\ forall o, expected c source target o -> op_key c o <> tkey c t) \/
       (exists s y, expected c source target (add_op s y) /\ t = copied s)) :
  exists p, run c (mkListing source None) (mkListing target' None) (fun _ => false) = Some (None, p) /\
    file_queue p = replicate (num_workers c) stop_batch.
Proof.
  destruct (run_emits c source target' Hconfig Hs Ht') as (p & bs & Hrun & Hq & Hbs & _ & Hops).
  exists p. split; [done|]. rewrite Hq. destruct Hbs as [|b bs (_ & Hne & _) _]; [done|]. exfalso.
  destruct (items b) as [|it its] eqn:Eit; [done|].
  apply (nothing_left c source target target' copied Hs Ht Hkey Hmatch Happlied (operation b, it)), Hops.
  cbn. unfold batch_ops at 1. rewrite Eit. cbn. set_solver.
Qed.

(** One new source file, copied with its size and time. *)
Definition copy_to_target (s : ObjectMetadata) : ObjectMetadata :=
  obj ("dst/" +:+ skey example_config s) (content_length s) (last_modified s).

Lemma sync_converges_witness :
  exists p, run example_config (mkListing [obj "src/a" 1 0] None) (mkListing [obj "dst/a" 1 0] None) (fun _ => false)
            = Some (None, p) /\ file_queue p = [stop_batch; stop_batch].
Proof.
  assert (forall o, expected example_config [obj "src/a" 1 0] [] o <-> o = add_op (obj "src/a" 1 0) None) as Hexp.
  { intros o. split.
    - intros [(s & H & _ & _ & _ & E)|[(s & t & _ & H & _)|(_ & t & H & _)]];
        [|apply elem_of_nil in H; destruct H|apply elem_of_nil in H; destruct H].
      apply list_elem_of_singleton in H. rewrite H in E. exact E.
    - intros E. left. exists (obj "src/a" 1 0). split; [apply list_elem_of_singleton; reflexivity|].
      split; [reflexivity|]. split; [reflexivity|]. split; [|exact E]. intros t H. apply elem_of_nil in H. destruct H. }
  apply (sync_converges example_config [obj "src/a" 1 0] [] [obj "dst/a" 1 0] copy_to_target).
  - reflexivity.
  - repeat constructor.
  - constructor.
  - repeat constructor.
  - intros s H. apply list_elem_of_singleton in H. rewrite H. reflexivity.
  - intros s H. apply list_elem_of_singleton in H. rewrite H. reflexivity.
  - intros t. split.
    + intros H. apply list_elem_of_singleton in H. right. exists (obj "src/a" 1 0), None.
      split; [apply Hexp; reflexivity|rewrite H; reflexivity].
    + intros [[H _]|(s & y & H & Hc)]; [apply elem_of_nil in H; destruct H|].
      apply Hexp in H. assert (s = obj "src/a" 1 0) as Hs by (unfold add_op in H; congruence).
      rewrite Hc, Hs. apply list_elem_of_singleton. reflexivity.
Defined.
