(* ===== verification/Worker.v ===== *)
(** * Sync workers ([sync/worker.py], [sync/metadata_proxy.py])

    The batch handlers of the sync workers: what is transferred, what is
    reported to the result queue and what to the error queue.

    The two clients are an interface ([SyncClients]) over a state that holds
    everything they change.  The target's metadata provider is seen through
    the queue-backed proxy that a worker installs; the target's uploads and
    symlinks may call it, so they run with the queues in reach.  The thread pool that
    checks the items of a batch runs them one after the other, in an order
    that is an argument. *)
From S2P Require Import Prelude PyPath Types Utils Json Producer.

(** ** The queues *)
(** [ErrorInfo], with the exception for its type, message and traceback *)
Record ErrorInfo := mkErrorInfo {
  worker_id : string;
  exception : exc;
  file_key : option string;
  failed_operation : OperationType;
}.

(** A message of the result queue *)
Definition result : Type := OperationType * string * ObjectMetadata.

(** The clients' state and the two queues *)
Record wstate (W : Type) := mkWState {
  clients : W;
  result_queue : list result;
  error_queue : list ErrorInfo;
}.
Arguments mkWState {W} _ _ _.
Arguments clients {W} _.
Arguments result_queue {W} _.
Arguments error_queue {W} _.

Definition on_clients {W A} (m : M W A) : M (wstate W) A :=
  fun s => let '(r, w) := m (clients s) in (r, mkWState w (result_queue s) (error_queue s)).
Definition put_result {W} (r : result) : M (wstate W) unit :=
  fun s => (Ok tt, mkWState (clients s) (result_queue s ++ [r]) (error_queue s)).
(** [_report_error]: the queue object is always true *)
Definition report_error {W} (worker : string) (e : exc) (k : option string) (op : OperationType)
    : M (wstate W) unit :=
  fun s => (Ok tt, mkWState (clients s) (result_queue s) (error_queue s ++ [mkErrorInfo worker e k op])).

(** ** The interface to the storage clients *)
Class SyncClients (W : Type) := {
  (** the source *)
  source_get_posix_path : string -> option string;
  source_download_files : list string -> list string -> list ObjectMetadata -> M W unit;
  source_is_posix : bool;
  (** the target *)
  target_is_posix : bool;
  target_get_posix_path : string -> option string;
  target_upload_files : list string -> list string -> list (option attributes) -> M (wstate W) unit;
  target_delete_many : list string -> M W unit;
  target_make_symlink : string -> string -> M (wstate W) unit;
  target_storage_metadata : string -> M W ObjectMetadata;
  (** the wrapped metadata provider of the target, where there is one *)
  has_metadata_provider : bool;
  mp_allow_overwrites : bool;
  mp_realpath : string -> M W ResolvedPath;
  mp_generate_physical_path : string -> bool -> M W ResolvedPath;
  mp_add_file : string -> ObjectMetadata -> M W unit;
  (** the local file system *)
  os_copy2 : string -> string -> M W unit;
  os_makedirs : string -> M W unit;
  os_path_getsize : string -> M W Z;
  os_path_getmtime : string -> M W Z;
  os_set_json_attribute : string -> string -> M W unit;
  os_utime : string -> Z -> M W unit;
  mkdtemp : M W string;
  rmtree : string -> M W unit;
}.

(** Without a metadata provider the clients do not touch the queues. *)
Class SyncClientsLaws (W : Type) `{!SyncClients W} := {
  upload_queues : forall ts ps ms s, has_metadata_provider = false ->
    result_queue (target_upload_files ts ps ms s).2 = result_queue s /\
    error_queue (target_upload_files ts ps ms s).2 = error_queue s;
  symlink_queues : forall p t s, has_metadata_provider = false ->
    result_queue (target_make_symlink p t s).2 = result_queue s /\
    error_queue (target_make_symlink p t s).2 = error_queue s;
}.

(** ** Definitions *)
Definition METADATA_LOOKUP_MIN_CONTENT_LENGTH : Z := (16 * 1024 * 1024)%Z.

(** [build_target_file_path] *)
Definition build_target_file_path (source_path target_path : string) (m : ObjectMetadata) : string :=
  let source_key := relative_key source_path (key m) in
  if bool_decide (source_key = "") then path_join target_path (basename (key m))
  else path_join target_path source_key.

Section Worker.
Context {W : Type} `{!SyncClients W}.
Context (source_path target_path : string) (preserve : bool).

Definition build (m : ObjectMetadata) : string := build_target_file_path source_path target_path m.

(** [dict(m.metadata) if m.metadata else None] *)
Definition copy_metadata (a : option attributes) : option attributes :=
  match a with Some x => if bool_decide (x = ∅) then None else Some x | None => None end.
Definition with_metadata (a : option attributes) (o : ObjectMetadata) : ObjectMetadata :=
  mkObjectMetadata (key o) (content_length o) (last_modified o) (type o) (content_type o) (etag o)
    (storage_class o) a (symlink_target o).

(** [QueueBackedMetadataProvider.add_file] *)
Definition proxy_add_file (path : string) (o : ObjectMetadata) : M (wstate W) unit :=
  on_clients (mp_add_file path o) ;;;
  put_result (ADD, path, with_metadata (copy_metadata (metadata o)) o).

Definition is_FileNotFound (e : exc) : bool := match e with FileNotFoundError => true | _ => false end.

(** [check_skip_and_track_with_metadata_provider] *)
Definition check_skip_and_track (target_file_path : string) (m : ObjectMetadata) : M (wstate W) bool :=
  if (content_length m <=? METADATA_LOOKUP_MIN_CONTENT_LENGTH)%Z && mp_allow_overwrites then mret false
  else
    let! target :=
      mtry is_FileNotFound
        (let! resolved := on_clients (mp_realpath target_file_path) in
         let! physical :=
           if resolved_exists resolved then mret (physical_path resolved)
           else (let! g := on_clients (mp_generate_physical_path target_file_path false) in
                 mret (physical_path g)) in
         let! o := on_clients (target_storage_metadata physical) in mret (Some o))
        (fun _ => mret None) in
    match target with
    | None => mret false
    | Some t =>
        if (content_length t =? content_length m)%Z && (last_modified m <=? last_modified t)%Z then
          (proxy_add_file target_file_path
             (if preserve then with_metadata (copy_metadata (metadata m)) t else t) ;;; mret true)
        else if negb mp_allow_overwrites then mraise FileExistsError
        else mret false
    end.

(** [update_posix_metadata] *)
Definition update_posix_metadata (physical target_file_path : string) (m : ObjectMetadata) : M (wstate W) unit :=
  if has_metadata_provider then
    let! n := on_clients (os_path_getsize physical) in
    let! t := on_clients (os_path_getmtime physical) in
    proxy_add_file target_file_path
      (mkObjectMetadata target_file_path n t "file" None None None (copy_metadata (metadata m)) None)
  else
    match copy_metadata (metadata m) with
    | Some a => mtry is_OSError (on_clients (os_set_json_attribute physical (dumps (JDict (map_to_list a)))))
                  (fun _ => mret tt)
    | None => mret tt
    end ;;;
    mtry is_OSError (on_clients (os_utime physical (last_modified m))) (fun _ => mret tt).

(** *** The four transfers ([_execute_batch_transfer]) *)
Inductive SyncHandler := PosixToPosix | PosixToRemote | RemoteToPosix | RemoteToRemote.

(** [create_sync_handler] *)
Definition create_sync_handler : SyncHandler :=
  if source_is_posix && target_is_posix then PosixToPosix
  else if source_is_posix then PosixToRemote
  else if target_is_posix then RemoteToPosix
  else RemoteToRemote.

Definition transfer_item : Type := ObjectMetadata * string.
Definition or_ValueError {A B} (o : option A) (k : A -> M (wstate W) B) : M (wstate W) B :=
  match o with Some a => k a | None => mraise ValueError end.

Definition posix_to_posix (transfers : list transfer_item) : M (wstate W) unit :=
  mfor transfers (fun it =>
    match source_get_posix_path (key it.1), target_get_posix_path it.2 with
    | Some s, Some t =>
        on_clients (os_makedirs (dirname t)) ;;; on_clients (os_copy2 s t) ;;;
        update_posix_metadata t it.2 it.1
    | _, _ => mraise ValueError
    end).

Fixpoint collect {A} (f : transfer_item -> option A) (l : list transfer_item) : option (list A) :=
  match l with
  | [] => Some []
  | it :: l' => match f it, collect f l' with Some a, Some xs => Some (a :: xs) | _, _ => None end
  end.

Definition posix_to_remote (transfers : list transfer_item) : M (wstate W) unit :=
  match collect (fun it => source_get_posix_path (key it.1)) transfers with
  | None => mraise ValueError
  | Some paths => target_upload_files (map snd transfers) paths (map (fun it => metadata it.1) transfers)
  end.

Fixpoint make_directories (l : list transfer_item) : M (wstate W) (list string) :=
  match l with
  | [] => mret []
  | it :: l' =>
      match target_get_posix_path it.2 with
      | None => mraise ValueError
      | Some t => on_clients (os_makedirs (dirname t)) ;;;
                  (let! ts := make_directories l' in mret (t :: ts))
      end
  end.
Definition remote_to_posix (transfers : list transfer_item) : M (wstate W) unit :=
  let! physical := make_directories transfers in
  on_clients (source_download_files (map (fun it => key it.1) transfers) physical (map fst transfers)) ;;;
  mfor (zip transfers physical) (fun itp => update_posix_metadata itp.2 itp.1.2 itp.1.1).

Definition remote_to_remote (transfers : list transfer_item) : M (wstate W) unit :=
  let! dir := on_clients mkdtemp in
  let temp := map (fun i => path_join dir (pretty (Z.of_nat i))) (seq 0 (length transfers)) in
  mfinally
    (on_clients (source_download_files (map (fun it => key it.1) transfers) temp (map fst transfers)) ;;;
     target_upload_files (map snd transfers) temp (map (fun it => metadata it.1) transfers))
    (on_clients (rmtree dir)).

Definition execute_batch_transfer (h : SyncHandler) (transfers : list transfer_item) : M (wstate W) unit :=
  match h with
  | PosixToPosix => posix_to_posix transfers
  | PosixToRemote => posix_to_remote transfers
  | RemoteToPosix => remote_to_posix transfers
  | RemoteToRemote => remote_to_remote transfers
  end.

(** *** The batches *)

(** [_report_result]: with a metadata provider the proxy has already reported *)
Definition report_result (m : ObjectMetadata) (path : string) : M (wstate W) unit :=
  if has_metadata_provider then mret tt
  else put_result (ADD, path, mkObjectMetadata path (content_length m) (last_modified m) "file" None None None
                               (metadata m) None).

(** [_filter_with_metadata_provider]; [its] is the batch in completion order *)
Fixpoint filter_with_metadata_provider (worker : string) (op : OperationType) (its : list item)
    : M (wstate W) (list transfer_item) :=
  match its with
  | [] => mret []
  | (m, _) :: its' =>
      let! keep :=
        mtry (fun _ => true)
          (let! skip := check_skip_and_track (build m) m in
           mret (if skip : bool then None else Some (m, build m)))
          (fun e => report_error worker e (Some (key m)) op ;;; mret None) in
      let! rest := filter_with_metadata_provider worker op its' in
      mret (match keep with Some x => x :: rest | None => rest end)
  end.

(** [process_add_batch]; [completion] orders the items as their checks complete *)
Definition process_add_batch (h : SyncHandler) (completion : list item -> list item) (worker : string)
    (b : OperationBatch) : M (wstate W) unit :=
  let! transfers :=
    if has_metadata_provider then filter_with_metadata_provider worker (operation b) (completion (items b))
    else mret (map (fun it => (it.1, build it.1)) (items b)) in
  match transfers with
  | [] => mret tt
  | (m0, _) :: _ =>
      mtry (fun _ => true)
        (execute_batch_transfer h transfers ;;; mfor transfers (fun it => report_result it.1 it.2))
        (fun e => report_error worker e (Some (key m0)) (operation b))
  end.

(** [process_delete_batch] *)
Definition process_delete_batch (b : OperationBatch) : M (wstate W) unit :=
  on_clients (target_delete_many (map (fun it => key it.1) (items b))) ;;;
  mfor (items b) (fun it => put_result (DELETE, build it.1, it.1)).

(** [process_symlink_batch] *)
Definition process_symlink_batch (worker : string) (b : OperationBatch) : M (wstate W) unit :=
  mfor (items b) (fun it =>
    let m := it.1 in
    mtry (fun _ => true)
      (match symlink_target m with
       | None => mraise RuntimeError
       | Some t =>
           target_make_symlink (build m) (resolve_symlink_target (build m) t) ;;;
           if has_metadata_provider then mret tt
           else put_result (ADD, build m, mkObjectMetadata (build m) 0 (last_modified m) (type m) None None None
                                            (metadata m) (Some t))
       end)
      (fun e => report_error worker e (Some (key m)) (operation b))).

(** The body of [_worker_loop] for a batch that is not a sentinel *)
Definition process_batch (h : SyncHandler) (completion : list item -> list item) (worker : string)
    (b : OperationBatch) : M (wstate W) unit :=
  match operation b with
  | DELETE => process_delete_batch b
  | ADD => process_add_batch h completion worker b
  | SYMLINK => process_symlink_batch worker b
  | STOP => mret tt
  end.
End Worker.
