(* ===== verification/WorkerProofs.v ===== *)
(** * Correctness of the sync workers

    Every item of an ADD or SYMLINK batch ends in the result queue or its
    failure in the error queue, and the worker survives; the paths a transfer
    goes to; and the two ways in which DELETE batches differ. *)
From S2P Require Import Prelude PyPath Types Utils Json Producer Worker.

(** ** Target paths *)
(** A source file is written to the target path under the same relative key,
    so that the next comparison pairs the two. *)
Theorem build_target_relative_key (source_path target_path : string) (m : ObjectMetadata)
    (Hkey : relative_key source_path (key m) <> "") :
  relative_key target_path (build_target_file_path source_path target_path m)
  = relative_key source_path (key m).
Proof.
  unfold build_target_file_path. rewrite bool_decide_eq_false_2 by done.
  assert (startswith (relative_key source_path (key m)) "/" = false) as Habs by apply lstrip_no_lead.
  set (r := relative_key source_path (key m)) in *. clearbody r. clear Hkey.
  unfold path_join, isabs. rewrite Habs. unfold relative_key.
  destruct (_ || _).
  - rewrite str_drop_app. by apply lstrip_id.
  - rewrite str_drop_app. change ("/" +:+ r) with (String slash r). cbn [lstrip].
    rewrite decide_True by done. by apply lstrip_id.
Qed.

Lemma build_target_relative_key_witness :
  relative_key "dst" (build_target_file_path "src/data" "dst" (new_ObjectMetadata "src/data/a/b" 1 0)) = "a/b".
Proof.
  rewrite (build_target_relative_key "src/data" "dst" (new_ObjectMetadata "src/data/a/b" 1 0)); [reflexivity|].
  vm_compute. discriminate.
Defined.

(** ** ADD and SYMLINK batches *)
Section Reports.
Context {W : Type} `{!SyncClients W, !SyncClientsLaws W}.
Context (source_path target_path : string) (preserve : bool).
Hypothesis no_provider : has_metadata_provider = false.

(** A computation that leaves both queues as they are. *)
Definition quiet {A} (m : M (wstate W) A) : Prop :=
  forall s, result_queue (m s).2 = result_queue s /\ error_queue (m s).2 = error_queue s.

Lemma quiet_ret {A} (a : A) : quiet (mret a).
Proof. done. Qed.
Lemma quiet_raise {A} e : quiet (mraise (A := A) e).
Proof. done. Qed.
Lemma quiet_clients {A} (m : M W A) : quiet (on_clients m).
Proof. intros s. unfold on_clients. by destruct (m (clients s)). Qed.
Lemma quiet_bind {A B} (m : M (wstate W) A) (k : A -> M (wstate W) B) :
  quiet m -> (forall a, quiet (k a)) -> quiet (mbind m k).
Proof.
  intros Hm Hk s. unfold mbind. specialize (Hm s). destruct (m s) as [[a|e] s1]; [|done].
  cbn in Hm. destruct (Hk a s1) as [-> ->]. done.
Qed.
Lemma quiet_try {A} catches (m : M (wstate W) A) h :
  quiet m -> (forall e, quiet (h e)) -> quiet (mtry catches m h).
Proof.
  intros Hm Hh s. unfold mtry. specialize (Hm s). destruct (m s) as [[a|e] s1]; [done|].
  destruct (catches e); [|done]. cbn in Hm. destruct (Hh e s1) as [-> ->]. done.
Qed.
Lemma quiet_finally {A} (m : M (wstate W) A) f : quiet m -> quiet f -> quiet (mfinally m f).
Proof.
  intros Hm Hf s. unfold mfinally. specialize (Hm s). destruct (m s) as [r s1].
  specialize (Hf s1). destruct (f s1) as [[?|?] s2]; cbn in *; destruct Hm, Hf; split; congruence.
Qed.
Lemma quiet_for {A} (l : list A) (f : A -> M (wstate W) unit) : (forall x, quiet (f x)) -> quiet (mfor l f).
Proof. intros Hf. induction l as [|x l IH]; [done|]. cbn. by apply quiet_bind. Qed.
Lemma quiet_upload ts ps ms : quiet (target_upload_files ts ps ms).
Proof using no_provider SyncClientsLaws0. intros s. by apply upload_queues. Qed.
Lemma quiet_symlink p t : quiet (target_make_symlink p t).
Proof using no_provider SyncClientsLaws0. intros s. by apply symlink_queues. Qed.
#[local] Hint Resolve quiet_ret quiet_raise quiet_clients quiet_upload quiet_symlink : quiet.

(** Split a computation into its calls. *)
Ltac quiet_step :=
  repeat (intros; first
    [ apply quiet_bind | apply quiet_try | apply quiet_finally | apply quiet_for | solve [eauto with quiet]
    | match goal with |- quiet (match ?x with _ => _ end) => destruct x end ]).

Lemma quiet_update_posix p t m : quiet (update_posix_metadata p t m).
Proof using no_provider SyncClientsLaws0. unfold update_posix_metadata. rewrite no_provider. quiet_step. Qed.
#[local] Hint Resolve quiet_update_posix : quiet.

Lemma quiet_transfer h l : quiet (execute_batch_transfer h l).
Proof using no_provider SyncClientsLaws0.
  destruct h; cbn [execute_batch_transfer]; unfold posix_to_posix, posix_to_remote, remote_to_posix, remote_to_remote.
  - quiet_step.
  - quiet_step.
  - apply quiet_bind; [|quiet_step]. induction l as [|it l IH]; cbn; quiet_step.
  - quiet_step.
Qed.

Lemma report_results l s :
  mfor l (fun it : transfer_item => report_result (W := W) it.1 it.2) s =
  (Ok tt, mkWState (clients s)
     (result_queue s ++ map (fun it : transfer_item => (ADD, it.2,
        mkObjectMetadata it.2 (content_length it.1) (last_modified it.1) "file" None None None
          (metadata it.1) None)) l) (error_queue s)).
Proof using no_provider.
  revert s. induction l as [|it l IH]; intros s; cbn [mfor map].
  - rewrite app_nil_r. by destruct s.
  - unfold mbind, report_result at 1. rewrite no_provider. unfold put_result. rewrite IH. cbn.
    by rewrite <- app_assoc.
Qed.
End Reports.

(** The result a transferred item is reported with. *)
Definition add_result (source_path target_path : string) (m : ObjectMetadata) : result :=
  let p := build_target_file_path source_path target_path m in
  (ADD, p, mkObjectMetadata p (content_length m) (last_modified m) "file" None None None (metadata m) None).

(** a worker survives every ADD batch: either every item of it was
    transferred and is reported once, with its target path and size, or exactly
    one error is reported for the batch and no result, for each of the four
    combinations of local and remote storage. *)
Theorem add_batch_reported {W : Type} `{!SyncClients W, !SyncClientsLaws W}
    (source_path target_path : string) (preserve : bool) (h : SyncHandler) (completion : list item -> list item)
    (worker : string) (b : OperationBatch) (s : wstate W)
    (Hprovider : has_metadata_provider = false) (Hitems : items b <> []) :
  let '(r, s') := process_add_batch source_path target_path preserve h completion worker b s in
  r = Ok tt /\
  ((error_queue s' = error_queue s /\
    result_queue s' = result_queue s ++ map (fun it => add_result source_path target_path it.1) (items b)) \/
   (result_queue s' = result_queue s /\
    exists e k, error_queue s' = error_queue s ++ [mkErrorInfo worker e (Some k) (operation b)])).
Proof.
  unfold process_add_batch. rewrite Hprovider. unfold mbind at 1, mret.
  destruct (items b) as [|it its] eqn:Ei; [done|]. cbn [map].
  set (transfers := (it.1, build source_path target_path it.1) :: _). unfold mtry, mbind.
  destruct (quiet_transfer Hprovider h transfers s) as [Hq1 Hq2].
  destruct (execute_batch_transfer h transfers s) as [[[]|e] s1]; cbn in Hq1, Hq2.
  - rewrite (report_results Hprovider). split; [done|]. left. cbn. rewrite Hq1, Hq2. split; [done|].
    unfold transfers. cbn. by rewrite map_map.
  - cbn. split; [done|]. right. rewrite Hq1, Hq2. eauto.
Qed.

(** A worker survives every SYMLINK batch, and every item of it is accounted
    for: one result or one error each, in order. *)
Theorem symlink_batch_reported {W : Type} `{!SyncClients W, !SyncClientsLaws W}
    (source_path target_path worker : string) (b : OperationBatch) (s : wstate W)
    (Hprovider : has_metadata_provider = false) :
  let '(r, s') := process_symlink_batch source_path target_path worker b s in
  r = Ok tt /\ exists rs es,
    result_queue s' = result_queue s ++ rs /\ error_queue s' = error_queue s ++ es /\
    length rs + length es = length (items b).
Proof.
  unfold process_symlink_batch. revert s. induction (items b) as [|it its IH]; intros s; cbn [mfor].
  { split; [done|]. exists [], []. by rewrite !app_nil_r. }
  unfold mbind at 1. set (m := mtry _ _ _).
  assert (exists s1 rs es, m s = (Ok tt, s1) /\ result_queue s1 = result_queue s ++ rs /\
    error_queue s1 = error_queue s ++ es /\ length rs + length es = 1) as (s1 & rs & es & -> & Hr & He & Hl).
  { unfold m, mtry. destruct (symlink_target it.1) as [t|].
    - unfold mbind. destruct (quiet_symlink Hprovider (build source_path target_path it.1)
        (resolve_symlink_target (build source_path target_path it.1) t) s) as [H1 H2].
      destruct (target_make_symlink _ _ s) as [[[]|e] s1]; cbn in H1, H2; rewrite ?Hprovider.
      + eexists _, [_], []. split; [reflexivity|]. cbn. by rewrite H1, H2, app_nil_r.
      + eexists _, [], [_]. split; [reflexivity|]. cbn. by rewrite H1, H2, app_nil_r.
    - eexists _, [], [_]. split; [reflexivity|]. cbn. by rewrite app_nil_r. }
  specialize (IH s1). destruct (mfor its _ s1) as [r s2]. destruct IH as (-> & rs' & es' & -> & -> & Hl').
  split; [done|]. exists (rs ++ rs'), (es ++ es'). rewrite Hr, He, <- !app_assoc, !length_app.
  split_and!; [done|done|]. cbn. lia.
Qed.

(** ** Survival: only deletions can end a worker *)
Section Survival.
Context {W : Type} `{!SyncClients W} (source_path target_path : string) (preserve : bool).

(** A computation that never raises. *)
Definition survives {A} (m : M (wstate W) A) : Prop := forall s, exists a s', m s = (Ok a, s').

Lemma survives_ret {A} (a : A) : survives (mret a).
Proof. intros s. by eexists _, _. Qed.
Lemma survives_bind {A B} (m : M (wstate W) A) (k : A -> M (wstate W) B) :
  survives m -> (forall a, survives (k a)) -> survives (mbind m k).
Proof. intros Hm Hk s. unfold mbind. destruct (Hm s) as (a & s1 & ->). apply Hk. Qed.
Lemma survives_try {A} (m : M (wstate W) A) h : (forall e, survives (h e)) -> survives (mtry (fun _ => true) m h).
Proof. intros Hh s. unfold mtry. destruct (m s) as [[a|e] s1]; [by eexists _, _|apply Hh]. Qed.
Lemma survives_for {A} (l : list A) (f : A -> M (wstate W) unit) : (forall x, survives (f x)) -> survives (mfor l f).
Proof.
  intros Hf. induction l as [|x l IH]; [apply survives_ret|]. cbn [mfor]. by apply survives_bind.
Qed.
Lemma survives_report worker e k op : survives (report_error worker e k op).
Proof. intros s. by eexists _, _. Qed.

Lemma survives_filter worker op its :
  survives (filter_with_metadata_provider source_path target_path preserve worker op its).
Proof.
  induction its as [|[m t] its IH]; cbn [filter_with_metadata_provider]; [apply survives_ret|].
  apply survives_bind.
  - apply survives_try. intros e. apply survives_bind; [apply survives_report|intros []; apply survives_ret].
  - intros keep. apply survives_bind; [done|intros rest; apply survives_ret].
Qed.

Lemma process_batch_survives h completion worker b :
  operation b <> DELETE -> survives (process_batch source_path target_path preserve h completion worker b).
Proof.
  unfold process_batch. destruct (operation b); [|done| |]; intros _.
  - unfold process_add_batch. apply survives_bind.
    + destruct has_metadata_provider; [apply survives_filter|apply survives_ret].
    + intros [|[m0 q] l]; [apply survives_ret|]. apply survives_try. intros e. apply survives_report.
  - unfold process_symlink_batch. apply survives_for. intros it. apply survives_try. intros e. apply survives_report.
  - apply survives_ret.
Qed.
End Survival.

(** ** DELETE batches *)

(** When deleting raises, the exception leaves the worker loop: neither queue
    receives anything, so the failure of a DELETE batch is not among the errors
    of the sync. *)
Theorem delete_failure_unreported {W : Type} `{!SyncClients W}
    (source_path target_path : string) (b : OperationBatch) (s : wstate W) (e : exc)
    (Hfail : (target_delete_many (map (fun it => key it.1) (items b)) (clients s)).1 = Err e) :
  let '(r, s') := process_delete_batch source_path target_path b s in
  r = Err e /\ error_queue s' = error_queue s /\ result_queue s' = result_queue s.
Proof.
  unfold process_delete_batch, mbind, on_clients.
  destruct (target_delete_many _ _) as [r w]. cbn in Hfail. by subst.
Qed.

Lemma delete_results source_path target_path {W : Type} its (s : wstate W) :
  mfor its (fun it : item => put_result (DELETE, build source_path target_path it.1, it.1)) s =
  (Ok tt, mkWState (clients s)
     (result_queue s ++ map (fun it : item => (DELETE, build source_path target_path it.1, it.1)) its) (error_queue s)).
Proof.
  revert s. induction its as [|it its IH]; intros s; cbn [mfor map].
  - rewrite app_nil_r. by destruct s.
  - unfold mbind, put_result at 1. rewrite IH. cbn. by rewrite <- app_assoc.
Qed.

(** With source and target paths of the same length, as in a recursive
    delete, a DELETE batch that succeeds reports every deleted key once, and
    nothing else. *)
Theorem delete_batch_reported {W : Type} `{!SyncClients W}
    (source_path target_path : string) (b : OperationBatch) (s : wstate W) (w : W)
    (Hdelete : target_delete_many (map (fun it => key it.1) (items b)) (clients s) = (Ok tt, w))
    (Hlen : String.length source_path = String.length target_path)
    (Htarget : target_path <> "" /\ ends_slash target_path = false)
    (Hkeys : Forall (fun it => exists rel, rel <> "" /\ startswith rel "/" = false /\
                       key it.1 = target_path +:+ "/" +:+ rel) (items b)) :
  process_delete_batch source_path target_path b s =
  (Ok tt, mkWState w (result_queue s ++ map (fun it => (DELETE, key it.1, it.1)) (items b)) (error_queue s)).
Proof.
  unfold process_delete_batch, mbind, on_clients. rewrite Hdelete, delete_results. cbn. do 3 f_equal.
  destruct Htarget as [Hne Hslash].
  apply map_ext_Forall. eapply Forall_impl; [exact Hkeys|]. intros [m t] (rel & Hrel & Habs & Hk). cbn [fst snd] in *.
  do 2 f_equal. unfold build, build_target_file_path, relative_key. rewrite Hk, Hlen, str_drop_app.
  change ("/" +:+ rel) with (String slash rel). cbn [lstrip]. rewrite decide_True by done.
  rewrite lstrip_id by done. rewrite bool_decide_eq_false_2 by done.
  unfold path_join, isabs. rewrite Habs, (bool_decide_eq_false_2 (target_path = "")), Hslash by done. done.
Qed.

(** With paths of different lengths the reported path is another one: the
    target key is cut at the length of the source path. *)
Theorem delete_reports_other_path :
  build_target_file_path "src" "backup" (new_ObjectMetadata "backup/a.txt" 1 0) = "backup/kup/a.txt".
Proof. reflexivity. Qed.

(** ** Clients over a set of remote paths *)
#[export] Instance memory_clients : SyncClients (gset string) := {
  source_get_posix_path k := Some k;
  source_download_files _ _ _ := mret tt;
  source_is_posix := true;
  target_is_posix := false;
  target_get_posix_path _ := None;
  target_upload_files ts _ _ s := (Ok tt, mkWState (list_to_set ts ∪ clients s) (result_queue s) (error_queue s));
  target_delete_many ks w := if forallb (fun k => bool_decide (k ∈ w)) ks then (Ok tt, w ∖ list_to_set ks)
                             else (Err FileNotFoundError, w);
  target_make_symlink p _ s := (Ok tt, mkWState ({[p]} ∪ clients s) (result_queue s) (error_queue s));
  target_storage_metadata _ := mraise FileNotFoundError;
  has_metadata_provider := false;
  mp_allow_overwrites := false;
  mp_realpath p := mret (mkResolvedPath p UNTRACKED None);
  mp_generate_physical_path p _ := mret (mkResolvedPath p UNTRACKED None);
  mp_add_file _ _ := mret tt;
  os_copy2 _ _ := mret tt;
  os_makedirs _ := mret tt;
  os_path_getsize _ := mret 0%Z;
  os_path_getmtime _ := mret 0%Z;
  os_set_json_attribute _ _ := mret tt;
  os_utime _ _ := mret tt;
  mkdtemp := mret "/tmp/x";
  rmtree _ := mret tt;
}.
#[export] Instance memory_clients_laws : SyncClientsLaws (gset string).
Proof. split; intros; split; reflexivity. Qed.

Definition empty_wstate : wstate (gset string) := mkWState ∅ [] [].
Definition example_batch (op : OperationType) : OperationBatch :=
  mkOperationBatch op [(new_ObjectMetadata "src/a" 1 0, None)].

Lemma add_batch_reported_witness :
  let '(r, s') := process_add_batch "src" "dst" false create_sync_handler id "w" (example_batch ADD) empty_wstate in
  r = Ok tt /\ map (fun x => x.1.2) (result_queue s') = ["dst/a"].
Proof.
  pose proof (add_batch_reported "src" "dst" false create_sync_handler id "w" (example_batch ADD) empty_wstate
    eq_refl ltac:(discriminate)) as H.
  destruct (process_add_batch "src" "dst" false create_sync_handler id "w" (example_batch ADD) empty_wstate)
    as [r s'] eqn:E.
  destruct H as [Hr _]. split; [exact Hr|].
  transitivity (map (fun x => x.1.2) (result_queue (process_add_batch "src" "dst" false create_sync_handler id "w"
    (example_batch ADD) empty_wstate).2)); [rewrite E; reflexivity|vm_compute; reflexivity].
Defined.

Lemma symlink_batch_reported_witness :
  let '(r, s') := process_symlink_batch "src" "dst" "w" (example_batch SYMLINK) empty_wstate in
  r = Ok tt /\ exists rs es, result_queue s' = rs /\ error_queue s' = es /\ length rs + length es = 1.
Proof.
  pose proof (symlink_batch_reported "src" "dst" "w" (example_batch SYMLINK) empty_wstate eq_refl) as H.
  destruct (process_symlink_batch "src" "dst" "w" (example_batch SYMLINK) empty_wstate) as [r s'].
  destruct H as (Hr & rs & es & H1 & H2 & H3). split; [exact Hr|]. exists rs, es.
  split; [exact H1|]. split; [exact H2|exact H3].
Defined.

Lemma delete_failure_unreported_witness :
  let '(r, s') := process_delete_batch "src" "dst" (example_batch DELETE) empty_wstate in
  r = Err FileNotFoundError /\ error_queue s' = [].
Proof.
  pose proof (delete_failure_unreported "src" "dst" (example_batch DELETE) empty_wstate FileNotFoundError eq_refl) as H.
  destruct (process_delete_batch "src" "dst" (example_batch DELETE) empty_wstate) as [r s'].
  destruct H as (Hr & He & _). split; [exact Hr|exact He].
Defined.

Lemma delete_batch_reported_witness :
  process_delete_batch "src" "src" (example_batch DELETE) (mkWState {["src/a"]} [] []) =
  (Ok tt, mkWState ({["src/a"]} ∖ list_to_set ["src/a"])
            [(DELETE, "src/a", new_ObjectMetadata "src/a" 1 0)] []).
Proof.
  apply (delete_batch_reported "src" "src" (example_batch DELETE) (mkWState {["src/a"]} [] [])).
  - vm_compute. reflexivity.
  - reflexivity.
  - split; [discriminate|reflexivity].
  - apply Forall_singleton. exists "a". split; [discriminate|]. split; reflexivity.
Defined.
