(* ===== verification/Sync.v ===== *)
(** * Sync orchestration ([sync/worker.py], [sync/monitors.py], [sync/manager.py])

    The workers around the shared file queue as a step relation, the result
    and error monitors, the check of the paths, the dry run and the outcome of
    a sync. *)
From S2P Require Import Prelude PyPath Types Utils Json Producer Worker.

(** ** Definitions: the worker loops

    A worker checks the shutdown event, then waits for the queue.  The
    producer's output is put in order; the event is set by the error monitor
    once an error was reported.  How the processing of a batch ends is left
    open, since it depends on the clients: it returns ([POk]), it returns after
    reporting an error ([PError]), or it raises and ends the thread
    ([PRaised]). *)
Inductive phase := Checking | Waiting | Done.
Inductive processing := POk | PError | PRaised.

Record system := mkSystem {
  to_put : list OperationBatch;
  queue : list OperationBatch;
  workers : list phase;
  shutdown : bool;
  reported_errors : nat;
  log : list (OperationBatch * processing);
}.

Definition is_stop (b : OperationBatch) : bool := bool_decide (operation b = STOP).

(** One iteration of [_worker_loop] after [file_queue.get()] returned [b] *)
Definition after_get (b : OperationBatch) (o : processing) (q : list OperationBatch) (s : system) (i : nat) : system :=
  if is_stop b then
    mkSystem (to_put s) (q ++ [b]) (<[i := Done]> (workers s)) (shutdown s) (reported_errors s) (log s)
  else
    mkSystem (to_put s) q (<[i := match o with PRaised => Done | _ => Checking end]> (workers s)) (shutdown s)
      (match o with PError => S (reported_errors s) | _ => reported_errors s end) (log s ++ [(b, o)]).

Inductive step : system -> system -> Prop :=
  | step_put s b bs :
      to_put s = b :: bs ->
      step s (mkSystem bs (queue s ++ [b]) (workers s) (shutdown s) (reported_errors s) (log s))
  | step_check s i :
      workers s !! i = Some Checking ->
      step s (mkSystem (to_put s) (queue s) (<[i := if shutdown s then Done else Waiting]> (workers s))
                (shutdown s) (reported_errors s) (log s))
  | step_get s i b q o :
      workers s !! i = Some Waiting -> queue s = b :: q -> step s (after_get b o q s i)
  | step_shutdown s :
      reported_errors s > 0 -> shutdown s = false ->
      step s (mkSystem (to_put s) (queue s) (workers s) true (reported_errors s) (log s)).

(** How a batch ends, as the worker loop sees it *)
Definition processing_of {W} (before : wstate W) (out : res unit * wstate W) : processing :=
  match out.1 with
  | Err _ => PRaised
  | Ok _ => if (length (error_queue before) <? length (error_queue out.2))%nat then PError else POk
  end.

(** The start: what the producer will put, and the idle workers *)
Definition initial_system (out : list OperationBatch) (n : nat) : system :=
  mkSystem out [] (replicate n Checking) false 0 [].
Definition all_done (s : system) : Prop := Forall (fun p => p = Done) (workers s).
#[export] Instance phase_eq_dec : EqDecision phase.
Proof. solve_decision. Defined.
#[export] Instance processing_eq_dec : EqDecision processing.
Proof. solve_decision. Defined.
#[export] Instance all_done_dec s : Decision (all_done s).
Proof. unfold all_done. apply _. Defined.

(** ** Definitions: the monitors *)
Record counts := mkCounts {
  files_added : Z;
  files_deleted : Z;
  bytes_added : Z;
  bytes_deleted : Z;
}.
Definition zero_counts : counts := mkCounts 0 0 0 0.

(** [ResultMonitorThread.run] on the messages up to the sentinel; [add_file]
    and [remove_file] are those of the real metadata provider, where there is
    one.  The result is [self.error], the counters and the provider's state. *)
Section ResultMonitor.
Context {P : Type} (add_file : string -> ObjectMetadata -> M P unit) (remove_file : string -> M P unit).
Context (has_provider : bool).
Fixpoint result_monitor (msgs : list result) (c : counts) (p : P) : option exc * counts * P :=
  match msgs with
  | [] => (None, c, p)
  | (op, path, m) :: msgs' =>
      match op with
      | STOP => (None, c, p)
      | ADD =>
          match (if has_provider then add_file path m p else (Ok tt, p)) with
          | (Err e, p') => (Some e, c, p')
          | (Ok _, p') => result_monitor msgs' (mkCounts (files_added c + 1) (files_deleted c)
                            (bytes_added c + content_length m) (bytes_deleted c)) p'
          end
      | DELETE =>
          match (if has_provider then remove_file path p else (Ok tt, p)) with
          | (Err e, p') => (Some e, c, p')
          | (Ok _, p') => result_monitor msgs' (mkCounts (files_added c) (files_deleted c + 1)
                            (bytes_added c) (bytes_deleted c + content_length m)) p'
          end
      | SYMLINK => result_monitor msgs' c p
      end
  end.
End ResultMonitor.

(** [ErrorMonitorThread.run]: the errors collected up to the [None] sentinel,
    and whether shutdown was signalled *)
Fixpoint error_monitor (msgs : list (option ErrorInfo)) (errors : list ErrorInfo) (set : bool)
    : list ErrorInfo * bool :=
  match msgs with
  | [] => (errors, set)
  | None :: _ => (errors, set)
  | Some e :: msgs' => error_monitor msgs' (errors ++ [e]) (if (length errors =? 0)%nat then true else set)
  end.

(** ** Definitions: [SyncManager] *)
Record manager := mkManager { mgr_source_path : string; mgr_target_path : string }.

(** [__init__]: the check uses the paths as given, the fields are stripped *)
Definition make_manager (same_client : bool) (source target : string) : res manager :=
  if same_client && (startswith source target || startswith target source) then Err ValueError
  else Ok (mkManager (lstrip slash source) (lstrip slash target)).

(** The end of [sync_objects]: the result, and whether [SyncError] is raised *)
Definition sync_outcome (producer_error monitor_error error_monitor_error : option exc) (worker_errors : list ErrorInfo)
    (work_units : Z) (c : counts) : SyncResult + SyncResult :=
  let r := mkSyncResult work_units (files_added c) (files_deleted c) (bytes_added c) (bytes_deleted c) None in
  match producer_error, monitor_error, error_monitor_error, worker_errors with
  | None, None, None, [] => inl r
  | _, _, _, _ => inr r
  end.

(** The loop of [_sync_objects_dryrun]: the lines of the two files and the counters *)
Record dryrun_state := mkDryrun { add_lines : list string; delete_lines : list string; dry_counts : counts }.
Definition dryrun_line (m : ObjectMetadata) : string := dumps (JDict (to_dict m)) +:+ String "010" "".
Definition dryrun_add (d : dryrun_state) (it : item) : dryrun_state :=
  let c := dry_counts d in
  mkDryrun (add_lines d ++ [dryrun_line it.1]) (delete_lines d)
    (mkCounts (files_added c + 1) (files_deleted c) (bytes_added c + content_length it.1) (bytes_deleted c)).
Definition dryrun_delete (d : dryrun_state) (it : item) : dryrun_state :=
  let c := dry_counts d in
  mkDryrun (add_lines d) (delete_lines d ++ [dryrun_line it.1])
    (mkCounts (files_added c) (files_deleted c + 1) (bytes_added c) (bytes_deleted c + content_length it.1)).
Fixpoint dryrun_loop (batches : list OperationBatch) (d : dryrun_state) : dryrun_state :=
  match batches with
  | [] => d
  | b :: bs =>
      match operation b with
      | STOP => d
      | ADD | SYMLINK => dryrun_loop bs (fold_left dryrun_add (items b) d)
      | DELETE => dryrun_loop bs (fold_left dryrun_delete (items b) d)
      end
  end.
(** [_sync_objects_dryrun] once the producer ended with [producer_error]:
    [inr] is [SyncError] *)
Definition sync_objects_dryrun (batches : list OperationBatch) (producer_error : option exc) (work_units : Z)
    (add_path delete_path : string) : dryrun_state * (SyncResult + SyncResult) :=
  let d := dryrun_loop batches (mkDryrun [] [] zero_counts) in
  let c := dry_counts d in
  let dry := Some (mkDryrunResult add_path delete_path) in
  (d, match producer_error with
      | Some _ => inr (mkSyncResult work_units 0 0 0 0 dry)
      | None => inl (mkSyncResult work_units (files_added c) (files_deleted c) (bytes_added c) (bytes_deleted c) dry)
      end).
