(* ===== verification/SyncProofs.v ===== *)
(** * Correctness of the sync protocol

    No deadlock, termination, and each batch taken exactly once; the counters
    of the monitors and of the dry run; the path check. *)
From Stdlib Require Import Relations Wellfounded.
From S2P Require Import Prelude PyPath Types Utils Json Producer ProducerProofs Worker WorkerProofs Sync.

(** ** The invariant of the queue *)
Definition stops (l : list OperationBatch) : nat := length (filter (fun b => is_stop b = true) l).
Definition batches (l : list OperationBatch) : list OperationBatch := filter (fun b => is_stop b = false) l.

#[local] Arguments batches : simpl never.
#[local] Arguments stops : simpl never.

Lemma batches_app l1 l2 : batches (l1 ++ l2) = batches l1 ++ batches l2.
Proof. apply filter_app. Qed.
Lemma stops_app l1 l2 : stops (l1 ++ l2) = stops l1 + stops l2.
Proof. unfold stops. by rewrite filter_app, length_app. Qed.
Lemma batches_stop n : batches (replicate n stop_batch) = [].
Proof. induction n; [done|]. cbn [replicate]. unfold batches. by rewrite filter_cons_False. Qed.
Lemma stops_replicate n : stops (replicate n stop_batch) = n.
Proof. induction n; [done|]. cbn [replicate]. unfold stops in *. rewrite filter_cons_True by done. cbn. lia. Qed.
Lemma batches_all bs : Forall (fun b => is_stop b = false) bs -> batches bs = bs /\ stops bs = 0.
Proof.
  induction 1 as [|b bs Hb Hbs [IH1 IH2]]; [done|]. unfold batches, stops in *.
  rewrite filter_cons_True, filter_cons_False by congruence. split; [by f_equal|done].
Qed.

Lemma batch_ok_not_stop c b : batch_ok c b -> is_stop b = false.
Proof. intros [H _]. by apply bool_decide_eq_false. Qed.

Lemma batches_not_stop c bs : Forall (batch_ok c) bs -> Forall (fun b => is_stop b = false) bs.
Proof. intros H. eapply Forall_impl; [exact H|]. intros b. apply batch_ok_not_stop. Qed.

Section Protocol.
Context (all : list OperationBatch) (n : nat).
Hypothesis all_batches : Forall (fun b => is_stop b = false) all.

(** The batches are taken in order; a sentinel in the queue means that
    everything was put before it; no sentinel is lost. *)
Record inv (s : system) : Prop := {
  inv_order : map fst (log s) ++ batches (queue s ++ to_put s) = all;
  inv_last : exists k, queue s ++ to_put s = batches (queue s ++ to_put s) ++ replicate k stop_batch;
  inv_stops : stops (queue s ++ to_put s) = n;
  inv_done : (exists i, workers s !! i = Some Done) -> shutdown s = false ->
             Forall (fun bo => bo.2 <> PRaised) (log s) -> batches (queue s ++ to_put s) = [];
}.

Lemma inv_initial : inv (initial_system (all ++ replicate n stop_batch) n).
Proof using all_batches.
  destruct (batches_all all all_batches) as [H1 H2].
  assert (batches (all ++ replicate n stop_batch) = all) as Hb.
  { by rewrite batches_app, H1, batches_stop, app_nil_r. }
  split; cbn.
  - done.
  - exists n. by rewrite Hb.
  - rewrite stops_app, H2, stops_replicate. done.
  - intros [i Hi]. apply lookup_replicate in Hi as [? _]. done.
Qed.

Lemma head_stop b l k :
  is_stop b = true -> b :: l = batches (b :: l) ++ replicate k stop_batch ->
  b = stop_batch /\ batches l = [] /\ exists k', l = replicate k' stop_batch.
Proof.
  intros Hb. unfold batches at 1. rewrite filter_cons_False by congruence. fold (batches l).
  destruct (batches l) as [|x xs] eqn:E; cbn.
  - destruct k as [|k]; [done|]. cbn. intros [= -> ->]. eauto.
  - intros [= <- _]. assert (b ∈ batches l) as Hin by (rewrite E; set_solver).
    unfold batches in Hin. apply list_elem_of_filter in Hin as [Hb' _]. congruence.
Qed.

Lemma inv_step s s' : inv s -> step s s' -> inv s'.
Proof using all_batches.
  intros [H1 H2 H3 H4] Hstep.
  assert (forall i ph, i < length (workers s) -> ph <> Done ->
    (exists j, <[i := ph]> (workers s) !! j = Some Done) -> exists j, workers s !! j = Some Done) as Hins.
  { intros i ph Hi Hph [j Hj]. destruct (decide (j = i)) as [->|Hne].
    - rewrite list_lookup_insert_eq in Hj by done. congruence.
    - rewrite list_lookup_insert_ne in Hj by done. eauto. }
  destruct Hstep as [s b bs Hput|s i Hi|s i b q o Hi Hq|s Herr Hsh].
  - assert ((queue s ++ [b]) ++ bs = queue s ++ to_put s) as E by (rewrite Hput, <- app_assoc; done).
    split; cbn; rewrite E; done.
  - split; cbn; try done. intros Hdone Hsh. rewrite Hsh in Hdone.
    apply H4; [|done]. apply (Hins i Waiting); [by eapply lookup_lt_Some|done|exact Hdone].
  - unfold after_get. destruct H2 as [k Hk]. rewrite Hq in *. cbn [app] in *.
    destruct (is_stop b) eqn:Eb.
    + destruct (head_stop b (q ++ to_put s) k Eb Hk) as (-> & Hnil & k' & Hk').
      assert (batches (stop_batch :: q ++ to_put s) = []) as Hb.
      { unfold batches. rewrite filter_cons_False by done. exact Hnil. }
      assert (batches (q ++ stop_batch :: to_put s) = []) as Hb'.
      { rewrite batches_app in Hnil |- *. apply app_eq_nil in Hnil as [-> Hp]. cbn.
        unfold batches in *. by rewrite filter_cons_False. }
      split; cbn; rewrite <- ?app_assoc; cbn.
      * rewrite Hb'. by rewrite Hb in H1.
      * exists (S k'). rewrite Hb'. cbn.
        assert (q ++ stop_batch :: to_put s = stop_batch :: q ++ to_put s) as ->; [|by rewrite Hk'].
        assert (Forall (fun x => x = stop_batch) (q ++ to_put s)) as Hall.
        { rewrite Hk'. apply Forall_replicate. done. }
        apply Forall_app in Hall as [Hall _]. clear -Hall. induction Hall as [|x q -> Hq IH]; [done|].
        cbn. by rewrite IH.
      * rewrite stops_app. change (stop_batch :: to_put s) with ([stop_batch] ++ to_put s). rewrite stops_app.
        change (stop_batch :: q ++ to_put s) with ([stop_batch] ++ q ++ to_put s) in H3.
        rewrite !stops_app in H3. lia.
      * done.
    + assert (batches (b :: q ++ to_put s) = b :: batches (q ++ to_put s)) as Hb.
      { unfold batches. by rewrite filter_cons_True. }
      split; cbn.
      * rewrite map_app, <- app_assoc. cbn. by rewrite <- Hb.
      * exists k. rewrite Hb in Hk. cbn in Hk. by injection Hk.
      * unfold stops in *. rewrite filter_cons_False in H3 by congruence. done.
      * intros Hdone Hsh Hno. apply Forall_app in Hno as [Hno Ho]. apply Forall_inv in Ho. cbn in Ho.
        assert (batches (b :: q ++ to_put s) = []) as Habs.
        { apply H4; try done. apply (Hins i (match o with PRaised => Done | _ => Checking end));
            [by eapply lookup_lt_Some| |exact Hdone]. destruct o; [discriminate|discriminate|]. by destruct Ho. }
        by rewrite Hb in Habs.
  - split; cbn; done.
Qed.

Lemma inv_steps s s' : inv s -> rtc step s s' -> inv s'.
Proof using all_batches. intros Hinv. induction 1; [done|]. eauto using inv_step. Qed.
End Protocol.

(** ** Termination *)
Definition weight (p : phase) : nat := match p with Checking => 2 | Waiting => 1 | Done => 0 end.
Definition measure (s : system) : nat :=
  4 * length (to_put s) + 3 * length (batches (queue s)) + sum_list_with weight (workers s) +
  (if shutdown s then 0 else 1).

Lemma sum_insert l i p q :
  l !! i = Some p -> sum_list_with weight (<[i := q]> l) + weight p = sum_list_with weight l + weight q.
Proof.
  revert i. induction l as [|x l IH]; intros [|i] H; [done|done| |].
  - injection H as ->. cbn. lia.
  - change (<[S i := q]> (x :: l)) with (x :: <[i := q]> l). cbn [sum_list_with]. specialize (IH i H). lia.
Qed.

Lemma step_measure s s' : step s s' -> measure s' < measure s.
Proof.
  unfold measure. destruct 1 as [s b bs Hput|s i Hi|s i b q o Hi Hq|s Herr Hsh]; cbn.
  - rewrite Hput, batches_app, length_app. cbn. unfold batches.
    assert (length (filter (fun b => is_stop b = false) [b]) <= 1) by (rewrite filter_cons; case_decide; cbn; lia).
    lia.
  - pose proof (sum_insert _ _ _ (if shutdown s then Done else Waiting) Hi) as H. cbn in H.
    destruct (shutdown s); cbn in *; lia.
  - unfold after_get. rewrite Hq. destruct (is_stop b) eqn:Eb; cbn.
    + pose proof (sum_insert _ _ _ Done Hi) as H. cbn in H.
      assert (batches [b] = []) as Hb by (unfold batches; by rewrite filter_cons_False by congruence).
      change (b :: q) with ([b] ++ q). rewrite !batches_app, Hb, app_nil_r. cbn. lia.
    + pose proof (sum_insert _ _ _ (match o with PRaised => Done | _ => Checking end) Hi) as H. cbn in H.
      assert (batches [b] = [b]) as Hb by (unfold batches; by rewrite filter_cons_True by done).
      change (b :: q) with ([b] ++ q). rewrite !batches_app, Hb, length_app. cbn. destruct o; cbn in *; lia.
  - rewrite Hsh. lia.
Qed.

(** ** Progress *)
Lemma progress_step all n s :
  n > 0 -> inv all n s -> ~ all_done s -> exists s', step s s'.
Proof.
  intros Hn [_ _ Hst _] Hnd.
  assert (exists i p, workers s !! i = Some p /\ p <> Done) as (i & p & Hi & Hp).
  { unfold all_done in Hnd. apply not_Forall_Exists in Hnd; [|apply _].
    apply Exists_exists in Hnd as (p & Hin & Hp). apply list_elem_of_lookup in Hin as [i Hi]. eauto. }
  destruct p; [|destruct (queue s) as [|b q] eqn:Eq|done].
  - eexists. by eapply step_check.
  - destruct (to_put s) as [|b bs] eqn:Et; [change (stops ([] ++ [])) with 0 in Hst; lia|]. eexists. by eapply step_put.
  - eexists. by eapply (step_get s i b q POk).
Qed.

(** C34: the worker threads neither deadlock nor run forever: as long as a worker
    is not done some step is possible, every step decreases a measure, and so
    every execution ends with all workers done, whatever the interleaving, the
    failures and the moment of the shutdown. *)
Theorem workers_terminate (c : config) (bs : list OperationBatch) (s : system)
    (Hworkers : num_workers c > 0) (Hbatches : Forall (batch_ok c) bs)
    (Hreach : rtc step (initial_system (bs ++ replicate (num_workers c) stop_batch) (num_workers c)) s) :
  Acc (fun y x => step x y) s /\ ((forall s', ~ step s s') -> all_done s).
Proof.
  split.
  - assert (well_founded (fun y x : system => measure y < measure x)) as Hwf
      by apply (wf_inverse_image _ _ lt measure lt_wf).
    clear -Hwf. induction (Hwf s) as [s _ IH]. constructor. intros s' Hstep. apply IH. by apply step_measure.
  - intros Hstuck. destruct (decide (all_done s)) as [|Hnd]; [done|].
    destruct (progress_step bs (num_workers c) s Hworkers) as [s' Hs']; [|done|by apply Hstuck in Hs'].
    eapply inv_steps; [|apply inv_initial|exact Hreach]; by eapply batches_not_stop.
Qed.

Lemma workers_length s s' : rtc step s s' -> length (workers s') = length (workers s).
Proof.
  induction 1 as [|x y z Hxy _ IH]; [done|]. rewrite IH.
  destruct Hxy as [ | | x i b q o Hi Hq| ]; cbn; rewrite ?length_insert; try done.
  unfold after_get. destruct (is_stop b); cbn; by rewrite length_insert.
Qed.

Lemma processed_all c bs s :
  num_workers c > 0 -> Forall (batch_ok c) bs ->
  rtc step (initial_system (bs ++ replicate (num_workers c) stop_batch) (num_workers c)) s ->
  all_done s -> shutdown s = false -> Forall (fun bo => bo.2 <> PRaised) (log s) -> map fst (log s) = bs.
Proof.
  intros Hn Hbs%batches_not_stop Hreach Hdone Hsh Hno.
  pose proof (workers_length _ _ Hreach) as Hlen. cbn in Hlen. rewrite length_replicate in Hlen.
  destruct (inv_steps bs (num_workers c) Hbs _ _ (inv_initial bs (num_workers c) Hbs) Hreach) as [H1 _ _ H4].
  rewrite H4, app_nil_r in H1; [done| |done|done].
  destruct (workers s) as [|p ps] eqn:Ew; [cbn in Hlen; lia|]. exists 0. cbn.
  inversion Hdone as [Hw|p' ps' Hp Hps Hw]; rewrite Ew in Hw; [done|]. by injection Hw as -> _; subst.
Qed.

(** batches are taken in the order in which they were produced and at most
    once each; when all workers are done without a shutdown and without a
    worker that died, every batch was taken exactly once. *)
Theorem batches_exactly_once (c : config) (bs : list OperationBatch) (s : system)
    (Hworkers : num_workers c > 0) (Hbatches : Forall (batch_ok c) bs)
    (Hreach : rtc step (initial_system (bs ++ replicate (num_workers c) stop_batch) (num_workers c)) s) :
  (exists rest, bs = map fst (log s) ++ rest) /\
  (all_done s -> shutdown s = false -> Forall (fun bo => bo.2 <> PRaised) (log s) -> map fst (log s) = bs).
Proof.
  split; [|by apply (processed_all c)]. pose proof (batches_not_stop c bs Hbatches) as Hns.
  destruct (inv_steps bs (num_workers c) Hns _ _ (inv_initial bs (num_workers c) Hns) Hreach) as [H1 _ _ _]. eauto.
Qed.

Lemma workers_terminate_witness :
  Acc (fun y x => step x y) (initial_system [stop_batch; stop_batch] 2) /\
  ((forall s', ~ step (initial_system [stop_batch; stop_batch] 2) s') ->
   all_done (initial_system [stop_batch; stop_batch] 2)).
Proof.
  apply (workers_terminate example_config [] (initial_system [stop_batch; stop_batch] 2)).
  - cbn. lia.
  - constructor.
  - apply rtc_refl.
Defined.

(** A batch of one file *)
Definition one_batch (op : OperationType) (k : string) : OperationBatch := mkOperationBatch op [(obj k 1 0, None)].
(** The end of a sync of one file by two workers: the first takes the batch,
    both then see a sentinel. *)
Definition example_final : system :=
  mkSystem [] [stop_batch; stop_batch] [Done; Done] false 0 [(one_batch ADD "src/a", POk)].
Lemma example_final_reached :
  rtc step (initial_system [one_batch ADD "src/a"; stop_batch; stop_batch] 2) example_final.
Proof.
  eapply rtc_l; [eapply step_put; reflexivity|]. eapply rtc_l; [eapply step_put; reflexivity|].
  eapply rtc_l; [eapply step_put; reflexivity|]. cbn.
  eapply rtc_l; [eapply (step_check _ 0); reflexivity|]. eapply rtc_l; [eapply (step_check _ 1); reflexivity|]. cbn.
  eapply rtc_l; [eapply (step_get _ 0 _ _ POk); reflexivity|]. unfold after_get. cbn.
  eapply rtc_l; [eapply (step_check _ 0); reflexivity|]. cbn.
  eapply rtc_l; [eapply (step_get _ 0 _ _ POk); reflexivity|]. unfold after_get. cbn.
  eapply rtc_l; [eapply (step_get _ 1 _ _ POk); reflexivity|]. unfold after_get. cbn. apply rtc_refl.
Qed.

Lemma batches_exactly_once_witness :
  (exists rest, [one_batch ADD "src/a"] = map fst (log example_final) ++ rest) /\
  map fst (log example_final) = [one_batch ADD "src/a"].
Proof.
  destruct (batches_exactly_once example_config [one_batch ADD "src/a"] example_final) as [H1 H2].
  - cbn. lia.
  - repeat constructor; [discriminate|discriminate|discriminate|].
    exists SMALL. repeat constructor.
  - exact example_final_reached.
  - split; [exact H1|apply H2]; repeat constructor. discriminate.
Defined.

(** ** From the listings to the workers *)

(** A sync carries out exactly the difference of source and target: however
    the workers interleave, once all of them are done and none was stopped by
    an error, the operations of the batches that were processed are, in key
    order and each once, the additions and deletions that make the target
    agree with the source. *)
Theorem sync_processes_difference (c : config) (source target : list ObjectMetadata)
    (Hconfig : make_config c = Ok c) (Hworkers : num_workers c > 0)
    (Hs : sorted_s c source) (Ht : sorted_t c target) :
  exists p, run c (mkListing source None) (mkListing target None) (fun _ => false) = Some (None, p) /\
    forall s, rtc step (initial_system (file_queue p) (num_workers c)) s -> all_done s -> shutdown s = false ->
      Forall (fun bo => bo.2 <> PRaised) (log s) ->
      StronglySorted str_lt (map (op_key c) (concat (map batch_ops (map fst (log s))))) /\
      forall o, o ∈ concat (map batch_ops (map fst (log s))) <-> expected c source target o.
Proof.
  destruct (run_emits c source target Hconfig Hs Ht) as (p & bs & Hrun & Hq & Hbs & Hsort & Hops).
  exists p. split; [done|]. intros s Hreach Hdone Hsh Hno. rewrite Hq in Hreach.
  rewrite (processed_all c bs s) by done. done.
Qed.

Lemma sync_processes_difference_witness :
  exists p, run example_config (mkListing [obj "src/a" 1 0] None) (mkListing [] None) (fun _ => false) = Some (None, p) /\
    forall o, o ∈ batch_ops (one_batch ADD "src/a") <-> expected example_config [obj "src/a" 1 0] [] o.
Proof.
  destruct (sync_processes_difference example_config [obj "src/a" 1 0] []) as (p & Hr & H).
  - reflexivity.
  - cbn. lia.
  - repeat constructor.
  - constructor.
  - exists p. split; [exact Hr|].
    assert (file_queue p = [one_batch ADD "src/a"; stop_batch; stop_batch]) as Hq.
    { transitivity (match run example_config (mkListing [obj "src/a" 1 0] None) (mkListing [] None) (fun _ => false)
        with Some (_, p) => file_queue p | None => [] end); [rewrite Hr|vm_compute]; reflexivity. }
    rewrite Hq in H. apply (H example_final example_final_reached); repeat constructor. discriminate.
Defined.

(** A worker thread that dies goes unnoticed: two workers each take a batch
    of deletions whose processing raises, the third batch is never taken, and
    yet all workers are done, no error was reported and the sync succeeds. *)
Theorem dead_workers_unnoticed :
  let bs := [one_batch DELETE "dst/a"; one_batch DELETE "dst/b"; one_batch ADD "src/c"] in
  exists s, rtc step (initial_system (bs ++ replicate 2 stop_batch) 2) s /\ all_done s /\ (forall s', ~ step s s') /\
    reported_errors s = 0 /\ one_batch ADD "src/c" ∉ map fst (log s) /\
    sync_outcome None None None (error_monitor [None] [] false).1 3 zero_counts = inl (mkSyncResult 3 0 0 0 0 None).
Proof.
  cbn. exists (mkSystem [] [one_batch ADD "src/c"; stop_batch; stop_batch] [Done; Done] false 0
    [(one_batch DELETE "dst/a", PRaised); (one_batch DELETE "dst/b", PRaised)]).
  split_and!.
  - do 5 (eapply rtc_l; [eapply step_put; reflexivity|]). cbn.
    do 2 (eapply rtc_l; [eapply (step_check _ 0); reflexivity|
          eapply rtc_l; [eapply (step_check _ 1); reflexivity|]] || idtac). cbn.
    eapply rtc_l; [eapply (step_get _ 0 _ _ PRaised); reflexivity|]. unfold after_get. cbn.
    eapply rtc_l; [eapply (step_get _ 1 _ _ PRaised); reflexivity|]. unfold after_get. cbn. apply rtc_refl.
  - repeat constructor.
  - intros s' Hstep. inversion Hstep as [s b bs Hp| s i Hi|s i b q o Hi _|s Herr _]; subst; cbn in *; [done| | |lia].
    + destruct i as [|[|i]]; done.
    + destruct i as [|[|i]]; done.
  - done.
  - cbn. set_solver.
  - done.
Qed.

(** ** Nothing is lost silently *)
Definition failures (l : list (OperationBatch * processing)) : nat := length (filter (fun bo => bo.2 = PError) l).

#[local] Arguments failures : simpl never.

Lemma failures_snoc l bo : failures (l ++ [bo]) = failures l + (if decide (bo.2 = PError) then 1 else 0).
Proof. unfold failures. rewrite filter_app, length_app, filter_cons. case_decide; cbn; lia. Qed.

(** Every processing that failed reported an error; a shutdown has a reason. *)
Lemma errors_counted out n s :
  rtc step (initial_system out n) s ->
  reported_errors s = failures (log s) /\ (shutdown s = true -> reported_errors s > 0).
Proof.
  assert (forall x y, step x y ->
    reported_errors x = failures (log x) /\ (shutdown x = true -> reported_errors x > 0) ->
    reported_errors y = failures (log y) /\ (shutdown y = true -> reported_errors y > 0)) as Hstep.
  { intros x y Hxy [H1 H2]. destruct Hxy as [x b bs Hp|x i Hi|x i b q o Hi Hq|x Herr Hsh]; cbn; try done.
    unfold after_get. destruct (is_stop b); cbn; [done|]. rewrite failures_snoc, <- H1. cbn.
    destruct o; cbn; case_decide; try done; (split; [lia|]); intros Hs; specialize (H2 Hs); lia. }
  assert (forall x y, rtc step x y ->
    reported_errors x = failures (log x) /\ (shutdown x = true -> reported_errors x > 0) ->
    reported_errors y = failures (log y) /\ (shutdown y = true -> reported_errors y > 0)) as Hsteps.
  { intros x y Hxy. induction Hxy as [|x y z Hxy _ IH]; [done|]. intros Hx. by apply IH, (Hstep x). }
  intros H. apply (Hsteps _ _ H). by split.
Qed.

Section Silent.
Context {W : Type} `{!SyncClients W} (source_path target_path : string) (preserve : bool).
(** The logged outcome is one that the processing of the batch has. *)
Definition realised (bo : OperationBatch * processing) : Prop :=
  exists h completion worker (s : wstate W),
    bo.2 = processing_of s (process_batch source_path target_path preserve h completion worker bo.1 s).

Lemma realised_survives bo : realised bo -> operation bo.1 <> DELETE -> bo.2 <> PRaised.
Proof.
  intros (h & completion & worker & s & ->) Hop.
  destruct (process_batch_survives source_path target_path preserve h completion worker bo.1 Hop s) as (a & s' & ->).
  unfold processing_of. cbn. by case_match.
Qed.
End Silent.

(** Without deletions in the difference there are no DELETE batches. *)
Lemma no_delete_batches c source target bs :
  delete_unmatched_files c = false -> Forall (batch_ok c) bs ->
  (forall o, o ∈ concat (map batch_ops bs) <-> expected c source target o) ->
  Forall (fun b => operation b <> DELETE) bs.
Proof.
  intros Hd Hok Hops. rewrite !Forall_forall in Hok |- *. intros b Hb Hop.
  destruct (Hok b Hb) as (_ & Hne & _). destruct (items b) as [|it its] eqn:Ei; [done|].
  assert ((DELETE, it) ∈ concat (map batch_ops bs)) as Hin.
  { apply list_elem_of_In, in_concat. exists (batch_ops b). split; [by apply in_map, list_elem_of_In|].
    unfold batch_ops. rewrite Hop, Ei. by left. }
  apply Hops in Hin as [(s & _ & _ & _ & _ & E)|[(s & t & _ & _ & _ & _ & _ & _ & E)|(Hd' & _)]].
  - unfold add_op, promote in E. by destruct (symlink_target s).
  - unfold add_op, promote in E. by destruct (symlink_target s).
  - congruence.
Qed.

(** C26: an additive sync never loses a file silently: with the clients behaving
    in any way whatsoever, when all workers are done either an error was
    reported, so that the sync fails, or every addition of the difference was
    processed and each processing succeeded. *)
Theorem additive_sync_never_silent {W : Type} `{!SyncClients W} (c : config) (source target : list ObjectMetadata)
    (preserve : bool) (Hconfig : make_config c = Ok c) (Hworkers : num_workers c > 0)
    (Hadditive : delete_unmatched_files c = false) (Hs : sorted_s c source) (Ht : sorted_t c target) :
  exists p, run c (mkListing source None) (mkListing target None) (fun _ => false) = Some (None, p) /\
    forall s, rtc step (initial_system (file_queue p) (num_workers c)) s -> all_done s ->
      Forall (realised (W := W) (source_path c) (target_path c) preserve) (log s) ->
      reported_errors s > 0 \/
      (Forall (fun bo => bo.2 = POk) (log s) /\
       forall o, o ∈ concat (map batch_ops (map fst (log s))) <-> expected c source target o).
Proof.
  destruct (run_emits c source target Hconfig Hs Ht) as (p & bs & Hrun & Hq & Hbs & _ & Hops).
  exists p. split; [done|]. intros s Hreach Hdone Hreal. rewrite Hq in Hreach.
  pose proof (no_delete_batches c source target bs Hadditive Hbs Hops) as Hnd.
  destruct (errors_counted _ _ _ Hreach) as [Hcount Hsh].
  destruct (decide (reported_errors s = 0)) as [Hz|]; [right|left; lia].
  assert (shutdown s = false) as Hns by (destruct (shutdown s); [specialize (Hsh eq_refl); lia|done]).
  assert (Forall (fun bo => bo.2 <> PRaised) (log s)) as Hno.
  { pose proof (batches_not_stop c bs Hbs) as Hstop.
    destruct (inv_steps bs (num_workers c) Hstop _ _ (inv_initial bs (num_workers c) Hstop) Hreach) as [H1 _ _ _].
    rewrite <- H1 in Hnd. apply Forall_app in Hnd as [Hnd _]. rewrite Forall_map in Hnd.
    rewrite !Forall_forall in Hreal, Hnd |- *. intros bo Hbo.
    apply (realised_survives (W := W) (source_path c) (target_path c) preserve); [by apply Hreal|by apply (Hnd bo)]. }
  split; [|by rewrite (processed_all c bs s)].
  assert (filter (fun bo => bo.2 = PError) (log s) = []) as Hnil by (apply length_zero_iff_nil; unfold failures in Hcount; lia).
  rewrite !Forall_forall in Hno |- *. intros bo Hbo. destruct (bo.2) eqn:E; [done| |by destruct (Hno bo Hbo)].
  assert (bo ∈ filter (fun bo => bo.2 = PError) (log s)) as Hin by (by apply list_elem_of_filter).
  rewrite Hnil in Hin. by apply elem_of_nil in Hin.
Qed.

Definition additive_config : config := mkConfig "src" "dst" 2 false None false false true 32.
Lemma additive_sync_never_silent_witness :
  exists p, run additive_config (mkListing [obj "src/a" 1 0] None) (mkListing [] None) (fun _ => false) = Some (None, p) /\
    (reported_errors example_final > 0 \/
     forall o, o ∈ batch_ops (one_batch ADD "src/a") <-> expected additive_config [obj "src/a" 1 0] [] o).
Proof.
  destruct (additive_sync_never_silent (W := gset string) additive_config [obj "src/a" 1 0] [] false) as (p & Hr & H).
  - reflexivity.
  - cbn. lia.
  - reflexivity.
  - repeat constructor.
  - constructor.
  - exists p. split; [exact Hr|].
    assert (file_queue p = [one_batch ADD "src/a"; stop_batch; stop_batch]) as Hq.
    { transitivity (match run additive_config (mkListing [obj "src/a" 1 0] None) (mkListing [] None) (fun _ => false)
        with Some (_, p) => file_queue p | None => [] end); [rewrite Hr|vm_compute]; reflexivity. }
    rewrite Hq in H. destruct (H example_final example_final_reached) as [He|[_ Ho]].
    + repeat constructor.
    + constructor; [|constructor]. exists RemoteToRemote, (fun l => l), "worker", empty_wstate. vm_compute. reflexivity.
    + left. exact He.
    + right. exact Ho.
Defined.

(** ** The monitors *)
Definition total (op : OperationType) (f : ObjectMetadata -> Z) (msgs : list result) : Z :=
  foldr Z.add 0%Z (map (fun r => f r.2) (filter (fun r => r.1.1 = op) msgs)).
#[local] Arguments total : simpl never.
Definition totals (msgs : list result) : counts :=
  mkCounts (total ADD (fun _ => 1%Z) msgs) (total DELETE (fun _ => 1%Z) msgs)
           (total ADD content_length msgs) (total DELETE content_length msgs).

Section Monitor.
Context {P : Type} (add_file : string -> ObjectMetadata -> M P unit) (remove_file : string -> M P unit).
(** What one message asks of the metadata provider *)
Definition replay (r : result) : M P unit :=
  match r with
  | (ADD, path, m) => add_file path m
  | (DELETE, path, _) => remove_file path
  | _ => mret tt
  end.
Definition plus_counts (c d : counts) : counts :=
  mkCounts (files_added c + files_added d) (files_deleted c + files_deleted d)
           (bytes_added c + bytes_added d) (bytes_deleted c + bytes_deleted d).

Lemma total_cons op f r msgs :
  total op f (r :: msgs) = ((if decide (r.1.1 = op) then f r.2 else 0) + total op f msgs)%Z.
Proof. unfold total. rewrite filter_cons. case_decide; [done|by rewrite Z.add_0_l]. Qed.
Lemma total_nil op f : total op f [] = 0%Z.
Proof. done. Qed.
Lemma counts_eq (c d : counts) :
  files_added c = files_added d -> files_deleted c = files_deleted d -> bytes_added c = bytes_added d ->
  bytes_deleted c = bytes_deleted d -> c = d.
Proof. destruct c, d; cbn. congruence. Qed.
Ltac totals_solve := apply counts_eq; cbn; rewrite ?total_cons, ?total_nil; cbn; repeat case_decide; first [lia|congruence|done].

Lemma plus_totals_cons c r msgs : plus_counts c (totals (r :: msgs)) = plus_counts (plus_counts c (totals [r])) (totals msgs).
Proof.
  destruct r as [[op path] m]. destruct op; totals_solve.
Qed.

Lemma result_monitor_replays msgs last rest c p :
  Forall (fun r => r.1.1 <> STOP) msgs -> last.1.1 = STOP ->
  match mfor msgs replay p with
  | (Ok _, p') => result_monitor add_file remove_file true (msgs ++ last :: rest) c p =
                  (None, plus_counts c (totals msgs), p')
  | (Err e, p') => exists pre r post, msgs = pre ++ r :: post /\
      result_monitor add_file remove_file true (msgs ++ last :: rest) c p = (Some e, plus_counts c (totals pre), p')
  end.
Proof.
  intros Hm Hlast. revert c p. induction Hm as [|r msgs Hr Hm IH]; intros c p.
  - cbn. destruct last as [[op path] m]. cbn in Hlast. rewrite Hlast. f_equal. f_equal. totals_solve.
  - destruct r as [[op path] m]. cbn [mfor]. unfold mbind.
    destruct (replay (op, path, m) p) as [[[]|e] p'] eqn:E.
    + specialize (IH (plus_counts c (totals [(op, path, m)])) p').
      assert (result_monitor add_file remove_file true (((op, path, m) :: msgs) ++ last :: rest) c p =
        result_monitor add_file remove_file true (msgs ++ last :: rest) (plus_counts c (totals [(op, path, m)])) p') as Hstep.
      { destruct op; [| | |done]; cbn in E |- *.
        - rewrite E. f_equal. totals_solve.
        - rewrite E. f_equal. totals_solve.
        - injection E as ->. f_equal. totals_solve. }
      rewrite Hstep. destruct (mfor msgs replay p') as [[u|e] p''].
      * rewrite IH. by rewrite <- plus_totals_cons.
      * destruct IH as (pre & r & post & -> & ->). exists ((op, path, m) :: pre), r, post.
        by rewrite <- plus_totals_cons.
    + exists [], (op, path, m), msgs. split; [done|].
      replace (plus_counts c (totals _)) with c by totals_solve.
      destruct op; cbn in E |- *; try done; by rewrite E.
Qed.
End Monitor.

(** the result monitor replays every message up to the sentinel on the real
    metadata provider, in order, and its counters are the numbers and the total
    sizes of the added and deleted files; if the provider raises, the monitor
    keeps that error and the counters of the messages before it. *)
Theorem result_monitor_totals {P : Type} (add_file : string -> ObjectMetadata -> M P unit)
    (remove_file : string -> M P unit) (msgs rest : list result) (last : result) (p : P)
    (Hmsgs : Forall (fun r => r.1.1 <> STOP) msgs) (Hlast : last.1.1 = STOP) :
  match mfor msgs (replay add_file remove_file) p with
  | (Ok _, p') => result_monitor add_file remove_file true (msgs ++ last :: rest) zero_counts p = (None, totals msgs, p')
  | (Err e, p') => exists pre r post, msgs = pre ++ r :: post /\
      result_monitor add_file remove_file true (msgs ++ last :: rest) zero_counts p = (Some e, totals pre, p')
  end.
Proof.
  assert (forall l, plus_counts zero_counts (totals l) = totals l) as Hz by (intros l; by apply counts_eq).
  pose proof (result_monitor_replays add_file remove_file msgs last rest zero_counts p Hmsgs Hlast) as H.
  destruct (mfor _ _ p) as [[u|e] p']; [by rewrite Hz in H|].
  destruct H as (pre & r & post & Hm & H). rewrite Hz in H. eauto.
Qed.

Definition example_messages : list result :=
  [(ADD, "dst/a", obj "dst/a" 5 0); (ADD, "dst/b", obj "dst/b" 1 0); (DELETE, "dst/b", obj "dst/b" 7 0)].

Lemma result_monitor_totals_witness :
  result_monitor (fun k _ (p : list string) => (Ok tt, k :: p)) (fun _ p => (Ok tt, tail p)) true
    (example_messages ++ (STOP, "", obj "" 0 0) :: []) zero_counts [] = (None, totals example_messages, ["dst/a"]) /\
  totals example_messages = mkCounts 2 1 6 7.
Proof.
  split; [|reflexivity].
  refine (result_monitor_totals (fun k _ (p : list string) => (Ok tt, k :: p)) (fun _ p => (Ok tt, tail p))
    example_messages [] (STOP, "", obj "" 0 0) [] _ _).
  - repeat constructor; discriminate.
  - reflexivity.
Defined.

Lemma error_monitor_collects errs rest acc set :
  error_monitor (map Some errs ++ None :: rest) acc set =
  (acc ++ errs, set || bool_decide (acc = []) && negb (bool_decide (errs = []))).
Proof.
  revert acc set. induction errs as [|e errs IH]; intros acc set; cbn.
  - by rewrite app_nil_r, andb_false_r, orb_false_r.
  - rewrite IH, <- app_assoc. cbn. f_equal. rewrite (bool_decide_eq_false_2 (acc ++ [e] = [])); [|by destruct acc].
    destruct acc as [|a acc]; cbn; [by rewrite orb_true_r|]. by rewrite !orb_false_r.
Qed.

(** Errors are never lost: the error monitor keeps every reported error in
    order and signals shutdown exactly when there is one, and [sync_objects]
    returns normally exactly when no worker reported an error and neither the
    producer nor a monitor failed; the result it returns or attaches to the
    error carries the counters either way. *)
Theorem errors_fail_the_sync (errs : list ErrorInfo) (rest : list (option ErrorInfo)) (pe me ee : option exc)
    (work : Z) (c : counts) :
  error_monitor (map Some errs ++ None :: rest) [] false = (errs, negb (bool_decide (errs = []))) /\
  let r := mkSyncResult work (files_added c) (files_deleted c) (bytes_added c) (bytes_deleted c) None in
  let out := sync_outcome pe me ee (error_monitor (map Some errs ++ None :: rest) [] false).1 work c in
  (out = inl r <-> pe = None /\ me = None /\ ee = None /\ errs = []) /\ (out = inl r \/ out = inr r).
Proof.
  rewrite error_monitor_collects. cbn. split; [done|].
  destruct pe, me, ee, errs; cbn; split; try (by left); try (by right); split; try done; by intros (? & ? & ? & ?).
Qed.

(** ** The dry run *)
Definition is_delete (o : tagged) : bool := bool_decide (o.1 = DELETE).
Definition dry_adds (ops : list tagged) : list ObjectMetadata := map (fun o => o.2.1) (filter (fun o => is_delete o = false) ops).
Definition dry_deletes (ops : list tagged) : list ObjectMetadata := map (fun o => o.2.1) (filter (fun o => is_delete o = true) ops).
Definition sizes (l : list ObjectMetadata) : Z := foldr Z.add 0%Z (map content_length l).
(** The state after a list of operations *)
Definition dry_after (d : dryrun_state) (ops : list tagged) : dryrun_state :=
  let c := dry_counts d in
  mkDryrun (add_lines d ++ map dryrun_line (dry_adds ops)) (delete_lines d ++ map dryrun_line (dry_deletes ops))
    (mkCounts (files_added c + Z.of_nat (length (dry_adds ops))) (files_deleted c + Z.of_nat (length (dry_deletes ops)))
       (bytes_added c + sizes (dry_adds ops)) (bytes_deleted c + sizes (dry_deletes ops))).

Lemma sizes_app l1 l2 : sizes (l1 ++ l2) = (sizes l1 + sizes l2)%Z.
Proof. unfold sizes. induction l1 as [|x l1 IH]; cbn in *; lia. Qed.
Lemma dry_adds_app ops1 ops2 : dry_adds (ops1 ++ ops2) = dry_adds ops1 ++ dry_adds ops2.
Proof. unfold dry_adds. by rewrite filter_app, map_app. Qed.
Lemma dry_deletes_app ops1 ops2 : dry_deletes (ops1 ++ ops2) = dry_deletes ops1 ++ dry_deletes ops2.
Proof. unfold dry_deletes. by rewrite filter_app, map_app. Qed.
Lemma dry_after_app d ops1 ops2 : dry_after (dry_after d ops1) ops2 = dry_after d (ops1 ++ ops2).
Proof.
  unfold dry_after. cbn [dry_counts add_lines delete_lines files_added files_deleted bytes_added bytes_deleted].
  rewrite dry_adds_app, dry_deletes_app, !map_app, !length_app, !sizes_app, !app_assoc. f_equal. f_equal; lia.
Qed.
Lemma dry_after_nil d : dry_after d [] = d.
Proof. destruct d as [a b [c1 c2 c3 c4]]. unfold dry_after. cbn. rewrite !app_nil_r. f_equal. f_equal; unfold sizes; cbn; lia. Qed.
Lemma dry_after_one d op it : dry_after d [(op, it)] = if is_delete (op, it) then dryrun_delete d it else dryrun_add d it.
Proof.
  unfold dry_after.
  assert (dry_adds [(op, it)] = if is_delete (op, it) then [] else [it.1]) as -> by (by destruct op).
  assert (dry_deletes [(op, it)] = if is_delete (op, it) then [it.1] else []) as -> by (by destruct op).
  destruct (is_delete (op, it)); cbn [map length]; rewrite app_nil_r; unfold dryrun_delete, dryrun_add, sizes;
    cbn [map foldr]; (f_equal; [..|apply counts_eq; cbn; lia]); done.
Qed.
Lemma dry_fold its op d :
  fold_left (if is_delete (op, (obj "" 0 0, None)) then dryrun_delete else dryrun_add) its d =
  dry_after d (map (fun it => (op, it)) its).
Proof.
  revert d. induction its as [|it its IH]; intros d; cbn; [by rewrite dry_after_nil|].
  rewrite IH. change ((op, it) :: map (fun it => (op, it)) its) with ([(op, it)] ++ map (fun it => (op, it)) its).
  rewrite <- dry_after_app, dry_after_one. change (is_delete (op, it)) with (is_delete (op, (obj "" 0 0, None))).
  by destruct (is_delete _).
Qed.

Lemma dryrun_loop_spec bs k d :
  Forall (fun b => is_stop b = false) bs ->
  dryrun_loop (bs ++ replicate (S k) stop_batch) d = dry_after d (concat (map batch_ops bs)).
Proof.
  intros H. revert d. induction H as [|b bs Hb _ IH]; intros d; [cbn; by rewrite dry_after_nil|].
  cbn [app map concat dryrun_loop]. rewrite <- dry_after_app. unfold batch_ops at 1. rewrite <- dry_fold, <- IH.
  apply bool_decide_eq_false in Hb. by destruct (operation b).
Qed.

(** A dry run writes exactly what a sync would do: one JSON line per file
    that would be added (or linked) and per file that would be deleted, in key
    order, with the counters of both; nothing is written for other files. *)
Theorem dryrun_lists_difference (c : config) (source target : list ObjectMetadata) (work : Z)
    (add_path delete_path : string)
    (Hconfig : make_config c = Ok c) (Hone : num_workers c = 1) (Hs : sorted_s c source) (Ht : sorted_t c target) :
  exists p (ops : list tagged), run c (mkListing source None) (mkListing target None) (fun _ => false) = Some (None, p) /\
    StronglySorted str_lt (map (op_key c) ops) /\ (forall o, o ∈ ops <-> expected c source target o) /\
    let (d, out) := sync_objects_dryrun (file_queue p) None work add_path delete_path in
    add_lines d = map dryrun_line (dry_adds ops) /\ delete_lines d = map dryrun_line (dry_deletes ops) /\
    out = inl (mkSyncResult work (Z.of_nat (length (dry_adds ops))) (Z.of_nat (length (dry_deletes ops)))
      (sizes (dry_adds ops)) (sizes (dry_deletes ops)) (Some (mkDryrunResult add_path delete_path))).
Proof.
  destruct (run_emits c source target Hconfig Hs Ht) as (p & bs & Hrun & Hq & Hbs & Hsort & Hops).
  exists p, (concat (map batch_ops bs)). split; [done|]. split; [done|]. split; [done|].
  unfold sync_objects_dryrun. rewrite Hq, Hone, dryrun_loop_spec by (by eapply batches_not_stop).
  split; [done|]. split; [done|]. done.
Qed.

Definition dry_config : config := mkConfig "src" "dst" 1 true None false false true 32.
Lemma dryrun_lists_difference_witness :
  exists p (ops : list tagged), run dry_config (mkListing [obj "src/a" 3 0] None) (mkListing [obj "dst/z" 4 0] None) (fun _ => false)
                = Some (None, p) /\
    (forall o, o ∈ ops <-> expected dry_config [obj "src/a" 3 0] [obj "dst/z" 4 0] o) /\
    (sync_objects_dryrun (file_queue p) None 2 "add" "del").2 =
    inl (mkSyncResult 2 1 1 3 4 (Some (mkDryrunResult "add" "del"))).
Proof.
  destruct (dryrun_lists_difference dry_config [obj "src/a" 3 0] [obj "dst/z" 4 0] 2 "add" "del")
    as (p & ops & Hr & _ & Ho & _).
  - reflexivity.
  - reflexivity.
  - repeat constructor.
  - repeat constructor.
  - exists p, ops. split; [exact Hr|]. split; [exact Ho|].
    transitivity (match run dry_config (mkListing [obj "src/a" 3 0] None) (mkListing [obj "dst/z" 4 0] None)
      (fun _ => false) with
      | Some (_, p) => (sync_objects_dryrun (file_queue p) None 2 "add" "del").2
      | None => inr (mkSyncResult 0 0 0 0 0 None) end); [rewrite Hr|vm_compute]; reflexivity.
Defined.

(** ** The path check *)
Lemma startswith_both k a b : startswith k a = true -> startswith k b = true -> startswith a b || startswith b a = true.
Proof.
  revert a b. induction k as [|x k IH]; intros [|y a] [|z b]; cbn; try done.
  destruct (decide (y = x)) as [->|]; [|done]. destruct (decide (z = x)) as [->|]; [|done].
  intros Ha Hb. rewrite !decide_True by done. auto.
Qed.

(** A manager that was constructed for one client never reads what it
    writes: when the paths are given without leading slashes, no key lies
    under both the source and the target path. *)
Theorem accepted_paths_disjoint (source target : string) (m : manager)
    (Hm : make_manager true source target = Ok m)
    (Hs : startswith source "/" = false) (Ht : startswith target "/" = false) (k : string) :
  ~ (startswith k (mgr_source_path m) = true /\ startswith k (mgr_target_path m) = true).
Proof.
  unfold make_manager in Hm. cbn in Hm. destruct (_ || _) eqn:E; [done|]. injection Hm as <-. cbn.
  rewrite !lstrip_id by done. intros [H1 H2]. pose proof (startswith_both _ _ _ H1 H2). congruence.
Qed.

Lemma accepted_paths_disjoint_witness :
  ~ (startswith "data/x" "data" = true /\ startswith "data/x" "copy" = true).
Proof.
  apply (accepted_paths_disjoint "data" "copy" (mkManager "data" "copy")); reflexivity.
Defined.

(** With a leading slash on one path only, overlapping paths are accepted:
    the check compares the paths as given, the sync uses them stripped. *)
Theorem overlap_missed :
  exists m, make_manager true "/data" "data/copy" = Ok m /\
    startswith (mgr_target_path m) (mgr_source_path m) = true /\
    make_manager true (mgr_source_path m) (mgr_target_path m) = Err ValueError.
Proof. by exists (mkManager "data" "data/copy"). Qed.
