(* ===== verification/SyncRun.v ===== *)
(** * A whole sync ([sync/manager.py], [sync/worker.py])

    What the workers do to the storage clients, batch by batch, and the end of
    [sync_objects].  The contents of source and target are views of the state of
    the clients; with laws for the calls of the clients, a sync that ends
    without errors has copied the contents of every file that differs. *)
From S2P Require Import Prelude PyPath Types Utils Json Producer ProducerProofs Worker WorkerProofs Sync SyncProofs.

(** ** Definitions *)
(** The batches in the order in which they are processed, each by some handler
    and worker, with how each one ended *)
Section Processed.
Context {W : Type} `{!SyncClients W} (source_path target_path : string) (preserve : bool).
Inductive processed : list (OperationBatch * processing) -> wstate W -> wstate W -> Prop :=
  | processed_nil s : processed [] s s
  | processed_cons b log completion worker s r s1 s2 :
      process_batch source_path target_path preserve create_sync_handler completion worker b s = (r, s1) ->
      processed log s1 s2 ->
      processed ((b, processing_of s (r, s1)) :: log) s s2.
End Processed.

(** The end of [sync_objects], once producer and workers have ended: the
    monitors get their sentinels, the metadata is committed, and the errors
    decide; [inr] is [SyncError] *)
Section Finish.
Context {W P : Type} (add_file : string -> ObjectMetadata -> M P unit) (remove_file : string -> M P unit).
Context (has_provider : bool) (commit_metadata : option (M P unit)).
Definition stop_result : result := (STOP, "", new_ObjectMetadata "" 0 0).
Definition finish_sync (producer_error : option exc) (p : producer) (s : wstate W) : M P (SyncResult + SyncResult) :=
  fun provider =>
  let '(monitor_error, c, provider) :=
    result_monitor add_file remove_file has_provider (result_queue s ++ [stop_result]) zero_counts provider in
  let errors := (error_monitor (map Some (error_queue s) ++ [None]) [] false).1 in
  (default (mret tt) commit_metadata ;;;
   mret (sync_outcome producer_error monitor_error None errors (total_work_units p) c)) provider.
End Finish.

(** ** The contents of source and target *)
Section Contents.
Context {W : Type} `{!SyncClients W}.
(** The local files, and the objects of a remote source and target *)
Context (files sobjects tobjects : W -> gmap string bytes).
Definition scontent (w : W) (k : string) : option bytes :=
  if source_is_posix then source_get_posix_path k ≫= fun p => files w !! p else sobjects w !! k.
Definition tcontent (w : W) (t : string) : option bytes :=
  if target_is_posix then target_get_posix_path t ≫= fun p => files w !! p else tobjects w !! t.
Definition same (w w' : W) : Prop := files w' = files w /\ sobjects w' = sobjects w /\ tobjects w' = tobjects w.
Definition keeps {A} (m : M W A) : Prop := forall w, same w (m w).2.

(** What the clients and the local file system promise of a call that returns *)
Record content_laws : Prop := {
  cl_makedirs d : keeps (os_makedirs d);
  cl_getsize p : keeps (os_path_getsize p);
  cl_getmtime p : keeps (os_path_getmtime p);
  cl_set_attribute p a : keeps (os_set_json_attribute p a);
  cl_utime p t : keeps (os_utime p t);
  cl_add_file p m : keeps (mp_add_file p m);
  cl_mkdtemp : keeps mkdtemp;
  cl_rmtree d w : sobjects (rmtree d w).2 = sobjects w /\ tobjects (rmtree d w).2 = tobjects w;
  cl_copy2 p q w w' : os_copy2 p q w = (Ok tt, w') -> exists d, files w !! p = Some d /\
    files w' = <[ q := d ]> (files w) /\ sobjects w' = sobjects w /\ tobjects w' = tobjects w;
  cl_download ks ps ms w w' : source_download_files ks ps ms w = (Ok tt, w') -> NoDup ps ->
    sobjects w' = sobjects w /\ tobjects w' = tobjects w /\
    (forall i k p, ks !! i = Some k -> ps !! i = Some p -> exists d, sobjects w !! k = Some d /\ files w' !! p = Some d) /\
    (forall f, f ∉ ps -> files w' !! f = files w !! f);
  cl_upload ts ps ms s s' : target_upload_files ts ps ms s = (Ok tt, s') -> NoDup ts ->
    files (clients s') = files (clients s) /\ sobjects (clients s') = sobjects (clients s) /\
    (forall i t p, ts !! i = Some t -> ps !! i = Some p ->
       exists d, files (clients s) !! p = Some d /\ tobjects (clients s') !! t = Some d) /\
    (forall t, t ∉ ts -> tobjects (clients s') !! t = tobjects (clients s) !! t);
  cl_delete ks w w' : target_delete_many ks w = (Ok tt, w') ->
    (forall k, scontent w' k = scontent w k) /\ (forall t, tcontent w' t = if decide (t ∈ ks) then None else tcontent w t);
  cl_symlink p x s s' : target_make_symlink p x s = (Ok tt, s') ->
    (forall k, scontent (clients s') k = scontent (clients s) k) /\
    (forall t, t <> p -> tcontent (clients s') t = tcontent (clients s) t);
  (** keys name different files, and no file is in both source and target *)
  cl_target_files t t' p : target_get_posix_path t = Some p -> target_get_posix_path t' = Some p -> t = t';
  cl_separate k t p q : source_get_posix_path k = Some p -> target_get_posix_path t = Some q -> p <> q;
}.
Context (Hlaws : content_laws).

(** What a transfer of [items] does *)
Definition copies (l : list transfer_item) (w w' : W) : Prop :=
  (forall it, it ∈ l -> exists d, scontent w (key it.1) = Some d /\ tcontent w' it.2 = Some d) /\
  (forall t, t ∉ map snd l -> tcontent w' t = tcontent w t) /\
  (forall k, scontent w' k = scontent w k).

Lemma same_contents w w' : same w w' -> (forall k, scontent w' k = scontent w k) /\ (forall t, tcontent w' t = tcontent w t).
Proof. intros (Hf & Hs & Ht). unfold scontent, tcontent. rewrite Hf, Hs, Ht. done. Qed.
Lemma same_refl w : same w w.
Proof. done. Qed.
Lemma same_trans w w1 w2 : same w w1 -> same w1 w2 -> same w w2.
Proof. unfold same. intuition congruence. Qed.

(** A computation of the worker that changes no content *)
Definition still {A} (m : M (wstate W) A) : Prop := forall s, same (clients s) (clients (m s).2).
Lemma still_clients {A} (m : M W A) : keeps m -> still (on_clients m).
Proof. intros H s. unfold on_clients. specialize (H (clients s)). by destruct (m (clients s)). Qed.
Lemma still_put r : still (put_result r).
Proof. done. Qed.
Lemma still_ret {A} (a : A) : still (mret a).
Proof. done. Qed.
Lemma still_bind {A B} (m : M (wstate W) A) (k : A -> M (wstate W) B) : still m -> (forall a, still (k a)) -> still (mbind m k).
Proof.
  intros Hm Hk s. unfold mbind. specialize (Hm s). destruct (m s) as [[a|e] s1]; [|done]. cbn [snd] in Hm.
  eapply same_trans; [exact Hm|apply Hk].
Qed.
Lemma still_try {A} catches (m : M (wstate W) A) h : still m -> (forall e, still (h e)) -> still (mtry catches m h).
Proof.
  intros Hm Hh s. unfold mtry. specialize (Hm s). destruct (m s) as [[a|e] s1]; [done|]. destruct (catches e); [|done].
  cbn [snd] in Hm. eapply same_trans; [exact Hm|apply Hh].
Qed.
Lemma still_for {A} (l : list A) (f : A -> M (wstate W) unit) : (forall x, still (f x)) -> still (mfor l f).
Proof. intros Hf. induction l as [|x l IH]; [done|]. cbn [mfor]. by apply still_bind. Qed.
Lemma still_update physical path m : still (update_posix_metadata physical path m).
Proof using Hlaws.
  unfold update_posix_metadata, proxy_add_file. destruct has_metadata_provider.
  - repeat (intros; apply still_bind || apply still_put || (apply still_clients; first [apply cl_getsize|apply cl_getmtime|apply cl_add_file]; exact Hlaws)).
  - apply still_bind.
    + destruct (copy_metadata (metadata m)); [|done]. apply still_try; [apply still_clients, cl_set_attribute, Hlaws|done].
    + intros _. apply still_try; [apply still_clients, cl_utime, Hlaws|done].
Qed.

(** ** The four transfers *)
Lemma copies_nil w w' : same w w' -> copies [] w w'.
Proof. intros [H1 H2]%same_contents. split; [by intros it ?%not_elem_of_nil|done]. Qed.
Lemma posix_to_posix_copies l s s' :
  source_is_posix = true -> target_is_posix = true -> NoDup (map snd l) ->
  posix_to_posix l s = (Ok tt, s') -> copies l (clients s) (clients s').
Proof using Hlaws.
  intros Hsp Htp. unfold posix_to_posix. revert s. induction l as [|it l IH]; intros s Hnd.
  { intros [= <-]. by apply copies_nil. }
  cbn [mfor]. cbn [map] in Hnd. apply NoDup_cons in Hnd as [Hni Hnd]. unfold mbind at 1.
  destruct (source_get_posix_path (key it.1)) as [p|] eqn:Ep; [|by intros [=]].
  destruct (target_get_posix_path it.2) as [q|] eqn:Eq; [|by intros [=]].
  pose proof (still_clients (os_makedirs (dirname q)) (cl_makedirs Hlaws _) s) as H1.
  unfold mbind at 1. destruct (on_clients (os_makedirs (dirname q)) s) as [[[]|e] s1]; [|by intros [=]]. cbn [snd] in H1.
  unfold mbind at 1. unfold on_clients at 1. destruct (os_copy2 p q (clients s1)) as [[[]|e] w2] eqn:E2; [|by intros [=]].
  apply (cl_copy2 Hlaws) in E2 as (d & Hd & Hf & Hs2 & Ht2).
  set (s2 := mkWState w2 (result_queue s1) (error_queue s1)). assert (clients s2 = w2) as Ew by done. clearbody s2. subst w2.
  pose proof (still_update q it.2 it.1 s2) as H3. destruct (update_posix_metadata q it.2 it.1 s2) as [[[]|e] s3]; [|by intros [=]]. cbn [snd] in H3.
  intros Hrest. specialize (IH s3 Hnd Hrest) as (C1 & C2 & C3).
  apply same_contents in H3 as [H3s H3t]. destruct H1 as (H1f & H1s & H1t). rewrite H1f in Hd, Hf.
  assert (forall k, scontent (clients s2) k = scontent (clients s) k) as Hsc.
  { intros k. unfold scontent. rewrite Hsp, Hf. destruct (source_get_posix_path k) as [p'|] eqn:Ek; [|done]. cbn.
    apply lookup_insert_ne. intros ->. by apply (cl_separate Hlaws k it.2 p' p' Ek Eq). }
  assert (forall t, tcontent (clients s2) t = if decide (t = it.2) then Some d else tcontent (clients s) t) as Htc.
  { intros t. unfold tcontent. rewrite Htp, Hf. destruct (decide (t = it.2)) as [->|Hne]; [rewrite Eq; apply lookup_insert_eq|].
    destruct (target_get_posix_path t) as [q'|] eqn:Et; [|done]. cbn. apply lookup_insert_ne. intros ->. by apply Hne, (cl_target_files Hlaws t it.2 q'). }
  split_and!.
  - intros it' [->|Hin]%elem_of_cons.
    + exists d. split; [unfold scontent; by rewrite Hsp, Ep|]. rewrite C2, H3t, Htc by done. by rewrite decide_True.
    + destruct (C1 it' Hin) as (d' & Hd' & Ht'). exists d'. split; [|done]. by rewrite <- Hd', H3s, Hsc.
  - cbn [map]. intros t [Hne Hnin]%not_elem_of_cons. rewrite C2, H3t, Htc by done. by rewrite decide_False.
  - intros k. by rewrite C3, H3s, Hsc.
Qed.
Lemma collect_spec {A} (f : transfer_item -> option A) l xs :
  collect f l = Some xs -> forall i it, l !! i = Some it -> exists x, xs !! i = Some x /\ f it = Some x.
Proof.
  revert xs. induction l as [|it l IH]; intros xs; cbn; [done|].
  destruct (f it) as [x|] eqn:Ef; [|done]. destruct (collect f l) as [ys|]; [|done]. intros [= <-] [|i] it' H; cbn in *.
  - injection H as <-. by exists x.
  - by apply (IH ys).
Qed.
Lemma elem_of_transfers (l : list transfer_item) it : it ∈ l -> exists i, l !! i = Some it /\ map snd l !! i = Some it.2 /\ map (fun it => key it.1) l !! i = Some (key it.1).
Proof.
  intros [i Hi]%list_elem_of_lookup. exists i. split; [done|].
  split; apply list_lookup_fmap_Some; by exists it.
Qed.
Lemma posix_to_remote_copies l s s' :
  source_is_posix = true -> target_is_posix = false -> NoDup (map snd l) ->
  posix_to_remote l s = (Ok tt, s') -> copies l (clients s) (clients s').
Proof using Hlaws.
  intros Hsp Htp Hnd. unfold posix_to_remote. destruct (collect _ l) as [ps|] eqn:Ec; [|by intros [=]].
  intros Hu. apply (cl_upload Hlaws) in Hu as (Hf & Hs & Hput & Hout); [|done]. split_and!.
  - intros it (i & Hi & Ht & _)%elem_of_transfers. destruct (collect_spec _ _ _ Ec i it Hi) as (p & Hp & Hsrc).
    destruct (Hput i it.2 p Ht Hp) as (d & Hd & Hd'). exists d. unfold scontent, tcontent. rewrite Hsp, Htp, Hsrc. done.
  - intros t Hn. unfold tcontent. rewrite Htp. by apply Hout.
  - intros k. unfold scontent. by rewrite Hsp, Hf.
Qed.
Lemma make_directories_spec l s ts s' :
  make_directories l s = (Ok ts, s') -> same (clients s) (clients s') /\ Forall2 (fun it t => target_get_posix_path it.2 = Some t) l ts.
Proof using Hlaws.
  revert s ts. induction l as [|it l IH]; intros s ts; cbn [make_directories]; [by intros [= <- <-]|].
  destruct (target_get_posix_path it.2) as [t|] eqn:Et; [|by intros [=]].
  pose proof (still_clients (os_makedirs (dirname t)) (cl_makedirs Hlaws _) s) as H1.
  unfold mbind at 1. destruct (on_clients (os_makedirs (dirname t)) s) as [[[]|e] s1]; [|by intros [=]]. cbn [snd] in H1.
  unfold mbind. destruct (make_directories l s1) as [[ts1|e] s2] eqn:E; [|by intros [=]]. intros [= <- <-].
  apply IH in E as [H2 Hall]. split; [by eapply same_trans|by constructor].
Qed.
Lemma posix_paths_nodup l ts :
  Forall2 (fun (it : transfer_item) t => target_get_posix_path it.2 = Some t) l ts -> NoDup (map snd l) -> NoDup ts.
Proof using Hlaws.
  induction 1 as [|it t l ts Ht Hl IH]; [constructor|]. cbn [map]. intros [Hn Hnd]%NoDup_cons. constructor; [|by apply IH].
  intros (i & Hi)%list_elem_of_lookup. destruct (Forall2_lookup_r _ _ _ _ _ Hl Hi) as (it' & Hi' & Ht').
  apply Hn. rewrite (cl_target_files Hlaws it.2 it'.2 t) by done. apply list_elem_of_fmap. exists it'. split; [done|]. by eapply list_elem_of_lookup_2.
Qed.
Lemma remote_to_posix_copies l s s' :
  source_is_posix = false -> target_is_posix = true -> NoDup (map snd l) ->
  remote_to_posix l s = (Ok tt, s') -> copies l (clients s) (clients s').
Proof using Hlaws.
  intros Hsp Htp Hnd. unfold remote_to_posix, mbind at 1. destruct (make_directories l s) as [[ts|e] s1] eqn:E1; [|by intros [=]].
  apply make_directories_spec in E1 as [H1 Hts]. pose proof (posix_paths_nodup l ts Hts Hnd) as Hndt.
  unfold mbind. unfold on_clients at 1. destruct (source_download_files _ ts _ (clients s1)) as [[[]|e] w2] eqn:E2; [|by intros [=]].
  apply (cl_download Hlaws) in E2 as (Hs2 & Ht2 & Hget & Hout); [|done].
  set (s2 := mkWState w2 (result_queue s1) (error_queue s1)). assert (clients s2 = w2) as Ew by done. clearbody s2. subst w2.
  intros Hupd. assert (same (clients s2) (clients s')) as H3.
  { change s' with ((Ok tt, s') : res unit * wstate W).2. rewrite <- Hupd. apply still_for. intros itp. apply still_update. }
  apply same_contents in H3 as [H3s H3t]. destruct H1 as (H1f & H1s & H1t). split_and!.
  - intros it (i & Hi & Ht & Hk)%elem_of_transfers. destruct (Forall2_lookup_l _ _ _ _ _ Hts Hi) as (t & Hti & Hpath).
    destruct (Hget i (key it.1) t Hk Hti) as (d & Hd & Hf). exists d. rewrite H3t. unfold scontent, tcontent.
    rewrite Hsp, Htp, Hpath, <- H1s. done.
  - intros t Hn. rewrite H3t. unfold tcontent. rewrite Htp. destruct (target_get_posix_path t) as [q|] eqn:Eq; [|done]. cbn.
    rewrite Hout, H1f; [done|]. intros (i & Hi)%list_elem_of_lookup. destruct (Forall2_lookup_r _ _ _ _ _ Hts Hi) as (it' & Hi' & Ht').
    apply Hn. rewrite (cl_target_files Hlaws t it'.2 q) by done. apply list_elem_of_fmap. exists it'. split; [done|]. by eapply list_elem_of_lookup_2.
  - intros k. rewrite H3s. unfold scontent. by rewrite Hsp, Hs2, H1s.
Qed.
Definition temp_names (dir : string) (n : nat) : list string := map (fun i => path_join dir (pretty (Z.of_nat i))) (seq 0 n).
Lemma temp_names_nodup dir n : NoDup (temp_names dir n).
Proof.
  apply NoDup_fmap_2; [|apply NoDup_seq]. intros i j. unfold path_join.
  assert (forall k : nat, isabs (pretty (Z.of_nat k)) = false) as Habs.
  { intros k. unfold isabs. destruct (pretty_Z_nonneg (Z.of_nat k)) as [H _]; [lia|]. destruct (pretty (Z.of_nat k)) as [|a s]; [done|].
    cbn. destruct (decide _) as [Ha|]; [|done]. subst a. by destruct s. }
  rewrite !Habs. destruct (_ || _); intros H; repeat apply str_app_inj_l in H; by apply (inj pretty), (inj Z.of_nat) in H.
Qed.
Lemma remote_to_remote_copies l s s' :
  source_is_posix = false -> target_is_posix = false -> NoDup (map snd l) ->
  remote_to_remote l s = (Ok tt, s') -> copies l (clients s) (clients s').
Proof using Hlaws.
  intros Hsp Htp Hnd. unfold remote_to_remote, mbind at 1. unfold on_clients at 1.
  pose proof (cl_mkdtemp Hlaws (clients s)) as H1. destruct (mkdtemp (clients s)) as [[dir|e] w1]; [|by intros [=]]. cbn [snd] in H1.
  cbv zeta. change (map (fun i => path_join dir (pretty (Z.of_nat i))) (seq 0 (length l))) with (temp_names dir (length l)).
  unfold mfinally, mbind, on_clients. cbn [clients result_queue error_queue].
  destruct (source_download_files _ _ _ w1) as [[[]|e] w2] eqn:E2.
  2: { cbn [clients]. destruct (rmtree dir w2) as [[[]|] w3]; by intros [=]. }
  apply (cl_download Hlaws) in E2 as (Hs2 & Ht2 & Hget & Hout); [|apply temp_names_nodup].
  set (s2 := mkWState w2 (result_queue s) (error_queue s)). assert (clients s2 = w2) as Ew by done. clearbody s2. subst w2.
  destruct (target_upload_files _ _ _ s2) as [[[]|e] s3] eqn:E3.
  2: { destruct (rmtree dir (clients s3)) as [[[]|] w4]; by intros [=]. }
  apply (cl_upload Hlaws) in E3 as (Hf3 & Hs3 & Hput & Hkeep); [|done].
  destruct (cl_rmtree Hlaws dir (clients s3)) as [Hs4 Ht4].
  destruct (rmtree dir (clients s3)) as [[[]|] w4]; [|by intros [=]]. intros [= <-]. cbn [snd clients] in *.
  destruct H1 as (H1f & H1s & H1t). split_and!.
  - intros it (i & Hi & Ht & Hk)%elem_of_transfers. assert (i < length l) as Hlt by by eapply lookup_lt_Some.
    assert (temp_names dir (length l) !! i = Some (path_join dir (pretty (Z.of_nat i)))) as Htemp.
    { unfold temp_names. rewrite list_lookup_fmap, lookup_seq_lt by done. done. }
    destruct (Hget i _ _ Hk Htemp) as (d & Hd & Hfd). destruct (Hput i _ _ Ht Htemp) as (d' & Hd' & Htd). exists d.
    unfold scontent, tcontent. rewrite Hsp, Htp, Ht4. split; [congruence|]. rewrite Htd. congruence.
  - intros t Hn. unfold tcontent. rewrite Htp, Ht4, Hkeep by done. congruence.
  - intros k. unfold scontent. rewrite Hsp. congruence.
Qed.
Lemma transfer_copies l s s' :
  NoDup (map snd l) -> execute_batch_transfer create_sync_handler l s = (Ok tt, s') -> copies l (clients s) (clients s').
Proof using Hlaws.
  unfold create_sync_handler. intros Hnd. destruct source_is_posix eqn:Es, target_is_posix eqn:Et; cbn [andb execute_batch_transfer].
  - by apply posix_to_posix_copies.
  - by apply posix_to_remote_copies.
  - by apply remote_to_posix_copies.
  - by apply remote_to_remote_copies.
Qed.

(** ** Batches *)
Context (source_path target_path : string) (preserve : bool) `{!SyncClientsLaws W} (no_provider : has_metadata_provider = false).
Abbreviation build := (build source_path target_path).
(** The path of the target that an operation touches, and what it leaves there *)
Definition touched (o : tagged) : string := match o with (DELETE, (t, _)) => key t | (_, (m, _)) => build m end.
Definition op_done (o : tagged) (w w' : W) : Prop :=
  match o with
  | (ADD, (m, _)) => exists d, scontent w (key m) = Some d /\ tcontent w' (build m) = Some d
  | (DELETE, (t, _)) => tcontent w' (key t) = None
  | _ => True
  end.
Definition applied (ops : list tagged) (w w' : W) : Prop :=
  (forall o, o ∈ ops -> op_done o w w') /\
  (forall x, x ∉ map touched ops -> tcontent w' x = tcontent w x) /\
  (forall k, scontent w' k = scontent w k).

Lemma applied_nil w w' : same w w' -> applied [] w w'.
Proof. intros [H1 H2]%same_contents. split; [by intros o ?%not_elem_of_nil|done]. Qed.
Lemma applied_app ops1 ops2 w w1 w2 :
  NoDup (map touched (ops1 ++ ops2)) -> applied ops1 w w1 -> applied ops2 w1 w2 -> applied (ops1 ++ ops2) w w2.
Proof.
  rewrite List.map_app. intros (_ & Hdis & _)%NoDup_app (D1 & F1 & S1) (D2 & F2 & S2). split_and!.
  - intros o [Ho|Ho]%elem_of_app.
    + specialize (D1 o Ho). assert (touched o ∉ map touched ops2) as Hn by (apply Hdis, list_elem_of_fmap; by exists o).
      destruct o as [op [m t]]. unfold op_done in *. cbn [touched] in Hn. destruct op; try done; by rewrite F2.
    + specialize (D2 o Ho). destruct o as [op [m t]]. unfold op_done in *. destruct op; try done. by rewrite <- S1.
  - intros x. rewrite List.map_app. intros [H1 H2]%not_elem_of_app. by rewrite F2, F1.
  - intros k. by rewrite S2, S1.
Qed.
Lemma processing_ok (s : wstate W) (r : res unit) (s1 : wstate W) :
  processing_of s (r, s1) = POk -> r = Ok tt /\ length (error_queue s1) <= length (error_queue s).
Proof.
  unfold processing_of. cbn [fst snd]. destruct r as [[]|e]; [|done].
  destruct (Nat.ltb_spec (length (error_queue s)) (length (error_queue s1))); done.
Qed.
Lemma add_batch_applied completion worker its s r s1 :
  its <> [] -> NoDup (map touched (map (pair ADD) its)) ->
  process_add_batch source_path target_path preserve create_sync_handler completion worker (mkOperationBatch ADD its) s = (r, s1) ->
  processing_of s (r, s1) = POk -> applied (map (pair ADD) its) (clients s) (clients s1).
Proof using Hlaws no_provider SyncClientsLaws0.
  intros Hne Hnd. unfold process_add_batch. rewrite no_provider. cbn [items operation]. unfold mbind at 1, mret at 1.
  match goal with |- (match map ?f its with _ => _ end) _ = _ -> _ => set (l := map f its) end.
  assert (map snd l = map touched (map (pair ADD) its)) as Hl.
  { unfold l. rewrite !map_map. apply map_ext. by intros [m t]. }
  assert (forall m t, (m, t) ∈ its -> (m, build m) ∈ l) as Hin.
  { intros m t H. unfold l. apply list_elem_of_fmap. by exists (m, t). }
  assert (l <> []) as Hl0 by by destruct its. clearbody l. destruct l as [|[m0 t0] l']; [done|].
  set (l := (m0, t0) :: l') in *. clearbody l. clear Hl0.
  unfold mtry. pose proof (quiet_transfer no_provider create_sync_handler l s) as [_ Hq].
  unfold mbind. destruct (execute_batch_transfer create_sync_handler l s) as [[[]|e] s2] eqn:E; cbn [snd] in Hq.
  - rewrite (report_results no_provider). intros [= <- <-] _. cbn [clients]. rewrite <- Hl in Hnd.
    apply transfer_copies in E as (C1 & C2 & C3); [|done]. split_and!; [|by rewrite <- Hl|done].
    intros o (it & -> & Hit)%list_elem_of_fmap. destruct it as [m t]. cbn [op_done].
    destruct (C1 (m, build m)) as (d & ? & ?); [by apply (Hin m t)|by exists d].
  - unfold report_error. intros [= <- <-] [_ Hlen]%processing_ok. revert Hlen. cbn [error_queue]. rewrite Hq, length_app. cbn. lia.
Qed.
(** Loops whose iterations may report errors but never raise *)
Lemma symlink_batch_frame worker its s :
  let s1 := (process_symlink_batch source_path target_path worker (mkOperationBatch SYMLINK its) s).2 in
  length (error_queue s) <= length (error_queue s1) /\
  (length (error_queue s1) <= length (error_queue s) -> applied (map (pair SYMLINK) its) (clients s) (clients s1)).
Proof using Hlaws no_provider SyncClientsLaws0.
  unfold process_symlink_batch. cbv zeta. cbn [items operation]. revert s. induction its as [|[m t] its IH]; intros s; cbn [mfor].
  { split; [done|]. intros _. by apply applied_nil. }
  set (body := mtry _ _ _).
  assert (exists s1, body s = (Ok tt, s1) /\ length (error_queue s) <= length (error_queue s1) /\
    (length (error_queue s1) <= length (error_queue s) -> (forall x, x <> build m -> tcontent (clients s1) x = tcontent (clients s) x) /\
       forall k, scontent (clients s1) k = scontent (clients s) k)) as (s1 & Hbody & Hle & Hok).
  { unfold body, mtry. cbn [fst]. destruct (symlink_target m) as [x|].
    - unfold mbind. destruct (symlink_queues (build m) (resolve_symlink_target (build m) x) s no_provider) as [_ He].
      destruct (target_make_symlink _ _ s) as [[[]|e] s1] eqn:E; cbn [snd] in He; rewrite ?no_provider; (eexists; split; [reflexivity|]).
      + cbn [clients error_queue]. rewrite He. split; [done|]. intros _. apply (cl_symlink Hlaws) in E as [H1 H2]. done.
      + cbn [error_queue]. rewrite He, length_app. cbn. lia.
    - eexists. split; [reflexivity|]. cbn [error_queue]. rewrite length_app. cbn. lia. }
  match goal with |- context [mbind body ?k s] => assert (mbind body k s = k tt s1) as -> by (unfold mbind at 1; by rewrite Hbody) end.
  specialize (IH s1) as [IH1 IH2]. split; [lia|]. intros Hlen.
  destruct Hok as [Ht Hs]; [lia|]. destruct IH2 as (D & F & S); [lia|]. cbn [map]. split_and!.
  - intros o [->|Ho]%elem_of_cons; [done|]. apply list_elem_of_fmap in Ho as (it & -> & _). by destruct it.
  - intros x [Hx1 Hx2]%not_elem_of_cons. rewrite F by done. by apply Ht.
  - intros k. by rewrite S, Hs.
Qed.
Lemma delete_batch_applied its s r s1 :
  process_delete_batch source_path target_path (mkOperationBatch DELETE its) s = (r, s1) ->
  r = Ok tt -> applied (map (pair DELETE) its) (clients s) (clients s1).
Proof using Hlaws.
  unfold process_delete_batch, mbind, on_clients. cbn [items].
  destruct (target_delete_many _ _) as [[[]|e] w] eqn:E; [|by intros [= <- _]].
  rewrite delete_results. intros [= <- <-] _. cbn [clients]. apply (cl_delete Hlaws) in E as [Hs Ht].
  assert (map touched (map (pair DELETE) its) = map (fun it : item => key it.1) its) as Hm.
  { rewrite map_map. apply map_ext. by intros [m t]. }
  split_and!; [|by rewrite Hm; intros x Hx; rewrite Ht, decide_False|done].
  intros o (it & -> & Hit)%list_elem_of_fmap. destruct it as [m t]. cbn [op_done]. rewrite Ht, decide_True; [done|].
  apply list_elem_of_fmap. by exists (m, t).
Qed.
Lemma batch_applied completion worker b s r s1 :
  items b <> [] -> NoDup (map touched (batch_ops b)) ->
  process_batch source_path target_path preserve create_sync_handler completion worker b s = (r, s1) ->
  processing_of s (r, s1) = POk -> applied (batch_ops b) (clients s) (clients s1).
Proof using Hlaws no_provider SyncClientsLaws0.
  destruct b as [op its]. unfold batch_ops, process_batch. cbn [items operation]. intros Hne Hnd Hrun Hok. destruct op.
  - by eapply add_batch_applied.
  - eapply delete_batch_applied; [exact Hrun|]. by apply processing_ok in Hok as [-> _].
  - pose proof (symlink_batch_frame worker its s) as H. rewrite Hrun in H. apply processing_ok in Hok as [_ Hlen].
    destruct H as [_ H]. by apply H.
  - injection Hrun as <- <-. split_and!; [|done|done]. intros o (it & -> & _)%list_elem_of_fmap. by destruct it.
Qed.
Lemma log_applied log s s' :
  processed source_path target_path preserve log s s' -> Forall (fun b => items b.1 <> []) log ->
  Forall (fun bo => bo.2 = POk) log -> NoDup (map touched (concat (map batch_ops (map fst log)))) ->
  applied (concat (map batch_ops (map fst log))) (clients s) (clients s').
Proof using Hlaws no_provider SyncClientsLaws0.
  induction 1 as [s|b log completion worker s r s1 s2 Hb Hlog IH]; [by intros; apply applied_nil|].
  intros [Hne Hnes]%Forall_cons [Hok Hoks]%Forall_cons. cbn [map concat fst snd] in *. intros Hnd.
  rewrite List.map_app in Hnd. pose proof Hnd as (Hnd1 & _ & Hnd2)%NoDup_app. rewrite <- List.map_app in Hnd.
  eapply applied_app; [done|by eapply batch_applied|by apply IH].
Qed.

(** ** Errors are never lost *)
Definition grows {A} (m : M (wstate W) A) : Prop := forall s, length (error_queue s) <= length (error_queue (m s).2).
Lemma grows_quiet {A} (m : M (wstate W) A) : quiet m -> grows m.
Proof. intros H s. by destruct (H s) as [_ ->]. Qed.
Lemma grows_bind {A B} (m : M (wstate W) A) (k : A -> M (wstate W) B) : grows m -> (forall a, grows (k a)) -> grows (mbind m k).
Proof.
  intros Hm Hk s. unfold mbind. specialize (Hm s). destruct (m s) as [[a|e] s1]; [|done]. cbn [snd] in Hm. etrans; [exact Hm|apply Hk].
Qed.
Lemma grows_try {A} catches (m : M (wstate W) A) h : grows m -> (forall e, grows (h e)) -> grows (mtry catches m h).
Proof.
  intros Hm Hh s. unfold mtry. specialize (Hm s). destruct (m s) as [[a|e] s1]; [done|]. destruct (catches e); [|done].
  cbn [snd] in Hm. etrans; [exact Hm|apply Hh].
Qed.
Lemma grows_for {A} (l : list A) (f : A -> M (wstate W) unit) : (forall x, grows (f x)) -> grows (mfor l f).
Proof. intros Hf. induction l as [|x l IH]; [by intros s|]. cbn [mfor]. by apply grows_bind. Qed.
Lemma grows_report worker e k op : grows (report_error (W := W) worker e k op).
Proof. intros s. unfold report_error. cbn [snd error_queue]. rewrite length_app. lia. Qed.
Lemma grows_put r : grows (put_result (W := W) r).
Proof. by intros s. Qed.
Lemma batch_grows h completion worker b : grows (process_batch source_path target_path preserve h completion worker b).
Proof using no_provider SyncClientsLaws0.
  unfold process_batch. destruct (operation b).
  - unfold process_add_batch. rewrite no_provider. apply grows_bind; [by intros s|]. intros [|[m0 t0] l]; [by intros s|].
    apply grows_try; [|intros e; apply grows_report]. apply grows_bind; [by apply grows_quiet, quiet_transfer|].
    intros _. apply grows_for. intros it. unfold report_result. rewrite no_provider. apply grows_put.
  - unfold process_delete_batch. apply grows_bind; [apply grows_quiet, quiet_clients|]. intros _. apply grows_for. intros it. apply grows_put.
  - unfold process_symlink_batch. apply grows_for. intros it. cbv zeta. apply grows_try; [|intros e; apply grows_report].
    destruct (symlink_target it.1); [|by intros s]. apply grows_bind; [by apply grows_quiet, quiet_symlink|].
    intros _. rewrite no_provider. apply grows_put.
  - by intros s.
Qed.
Lemma log_errors log s s' :
  processed source_path target_path preserve log s s' ->
  length (error_queue s) <= length (error_queue s') /\
  (length (error_queue s') <= length (error_queue s) -> Forall (fun bo => bo.2 <> PError) log).
Proof using no_provider SyncClientsLaws0.
  induction 1 as [s|b log completion worker s r s1 s2 Hb Hlog [IH1 IH2]]; [by split|].
  pose proof (batch_grows create_sync_handler completion worker b s) as Hg. rewrite Hb in Hg. cbn [snd] in Hg. split; [lia|].
  intros Hle. constructor; [|apply IH2; lia]. unfold processing_of. cbn [fst snd]. destruct r; [|done].
  destruct (Nat.ltb_spec (length (error_queue s)) (length (error_queue s1))); [lia|done].
Qed.
End Contents.

(** ** The whole sync *)
Lemma sorted_str_lt_nodup (l : list string) : StronglySorted str_lt l -> NoDup l.
Proof.
  induction 1 as [|x l Hl IH Hx]; constructor; [|done]. intros Hin. rewrite Forall_forall in Hx. specialize (Hx x Hin). by apply str_lt_irrefl in Hx.
Qed.

(** Different operations touch different paths of the target. *)
Lemma touched_key c source target o :
  Forall (fun s => skey c s <> "") source -> expected c source target o ->
  relative_key (target_path c) (touched (source_path c) (target_path c) o) = op_key c o.
Proof.
  rewrite Forall_forall. intros Hkeys.
  assert (forall s t, s ∈ source -> relative_key (target_path c) (touched (source_path c) (target_path c) (add_op s t)) = op_key c (add_op s t)) as H.
  { intros s t Hin. rewrite op_key_add. unfold add_op, promote. specialize (Hkeys s Hin).
    destruct (symlink_target s); cbn [fst touched]; by apply build_target_relative_key. }
  intros [(s & Hin & _ & _ & _ & ->)|[(s & t & Hin & _ & _ & _ & _ & _ & ->)|(_ & t & _ & _ & _ & ->)]]; [by apply H|by apply H|done].
Qed.
Lemma touched_nodup c source target ops :
  Forall (fun s => skey c s <> "") source -> (forall o, o ∈ ops -> expected c source target o) ->
  StronglySorted str_lt (map (op_key c) ops) -> NoDup (map (touched (source_path c) (target_path c)) ops).
Proof.
  intros Hkeys Hops Hsort%sorted_str_lt_nodup. apply (NoDup_fmap_1 (relative_key (target_path c))).
  assert (map (op_key c) ops = map (relative_key (target_path c)) (map (touched (source_path c) (target_path c)) ops)) as E.
  2: { change (NoDup (map (relative_key (target_path c)) (map (touched (source_path c) (target_path c)) ops))). by rewrite <- E. }
  rewrite map_map. apply map_ext_in. intros o Ho%list_elem_of_In. symmetry. eapply touched_key; [done|]. by apply Hops.
Qed.
Lemma finish_sync_ok {W P} add_file remove_file has_provider (commit : option (M P unit)) error p (s : wstate W) prov r :
  (finish_sync add_file remove_file has_provider commit error p s prov).1 = Ok (inl r) -> error_queue s = [].
Proof.
  unfold finish_sync. destruct (result_monitor _ _ _ _ _ _) as [[e c] prov']. rewrite error_monitor_collects. cbn [fst app].
  unfold mbind. destruct (default _ commit prov') as [[[]|e'] prov'']; [|done]. cbn. unfold sync_outcome.
  destruct error, e, (error_queue s); done.
Qed.

Lemma no_error_no_shutdown out n s :
  rtc step (initial_system out n) s -> Forall (fun bo => bo.2 <> PError) (log s) -> shutdown s = false.
Proof.
  intros Hreach Hnoerr. destruct (errors_counted _ _ _ Hreach) as [Hcount Hsh]. destruct (shutdown s); [|done]. specialize (Hsh eq_refl).
  assert (failures (log s) = 0) as Hz; [|lia]. unfold failures. apply length_zero_iff_nil, elem_of_nil_inv.
  intros bo [Hbo Hin]%list_elem_of_filter. rewrite Forall_forall in Hnoerr. by apply (Hnoerr bo).
Qed.

(** A sync that returns has made the target agree with the source, for
    every combination of local and remote storage and every interleaving of
    the workers in which none of them died: each file of the difference has in
    the target the contents it has in the source, each file to delete is gone,
    and neither the source nor anything else of the target has changed. *)
Theorem sync_copies_content {W P : Type} `{!SyncClients W, !SyncClientsLaws W} (files sobjects tobjects : W -> gmap string bytes)
    (add_file : string -> ObjectMetadata -> M P unit) (remove_file : string -> M P unit) (commit : option (M P unit))
    (c : config) (source target : list ObjectMetadata) (preserve : bool)
    (Hconfig : make_config c = Ok c) (Hworkers : num_workers c > 0) (Hs : sorted_s c source) (Ht : sorted_t c target)
    (Hkeys : Forall (fun s => skey c s <> "") source) (Hprovider : has_metadata_provider = false)
    (Hlaws : content_laws files sobjects tobjects) :
  exists p, run c (mkListing source None) (mkListing target None) (fun _ => false) = Some (None, p) /\
    forall s st st' prov r,
      rtc step (initial_system (file_queue p) (num_workers c)) s -> all_done s -> Forall (fun bo => bo.2 <> PRaised) (log s) ->
      processed (source_path c) (target_path c) preserve (log s) st st' -> error_queue st = [] ->
      (finish_sync add_file remove_file has_metadata_provider commit None p st' prov).1 = Ok (inl r) ->
      (forall m t, expected c source target (ADD, (m, t)) -> exists d, scontent files sobjects (clients st) (key m) = Some d /\
         tcontent files tobjects (clients st') (build_target_file_path (source_path c) (target_path c) m) = Some d) /\
      (forall t, expected c source target (DELETE, (t, None)) -> tcontent files tobjects (clients st') (key t) = None) /\
      (forall x, (forall o, expected c source target o -> touched (source_path c) (target_path c) o <> x) ->
         tcontent files tobjects (clients st') x = tcontent files tobjects (clients st) x) /\
      (forall k, scontent files sobjects (clients st') k = scontent files sobjects (clients st) k).
Proof.
  destruct (run_emits c source target Hconfig Hs Ht) as (p & bs & Hrun & Hq & Hbs & Hsort & Hops).
  exists p. split; [done|]. intros s st st' prov r Hreach Hdone Hno Hproc He Hfin%finish_sync_ok. rewrite Hq in Hreach.
  destruct (log_errors _ _ _ Hprovider _ _ _ Hproc) as [_ Hnoerr]. rewrite He, Hfin in Hnoerr. specialize (Hnoerr (le_n _)).
  pose proof (no_error_no_shutdown _ _ _ Hreach Hnoerr) as Hsh.
  pose proof (processed_all c bs s Hworkers Hbs Hreach Hdone Hsh Hno) as Hlog.
  assert (Forall (fun bo => bo.2 = POk) (log s)) as Hok.
  { rewrite !Forall_forall in Hnoerr, Hno |- *. intros bo Hbo. specialize (Hnoerr bo Hbo). specialize (Hno bo Hbo). by destruct (bo.2). }
  destruct (log_applied files sobjects tobjects Hlaws _ _ _ Hprovider _ _ _ Hproc) as (D & F & S).
  - rewrite <- Hlog, Forall_map in Hbs. eapply Forall_impl; [exact Hbs|]. by intros bo (_ & Hne & _).
  - done.
  - rewrite Hlog. eapply touched_nodup; [done|by apply Hops|done].
  - rewrite Hlog in D, F. split_and!; [|by intros t Ho%Hops; apply (D _ Ho)| |done].
    + intros m t Ho%Hops. apply (D _ Ho).
    + intros x Hx. apply F. intros (o & E & Ho%Hops)%list_elem_of_fmap. by apply (Hx o Ho).
Qed.

(** ** A local source and a remote target *)
Definition stores : Type := gmap string bytes * gmap string bytes.
Fixpoint upload_all (l : list (string * string)) (w : stores) : option stores :=
  match l with
  | [] => Some w
  | (t, p) :: l' => match w.1 !! p with Some d => upload_all l' (w.1, <[ t := d ]> w.2) | None => None end
  end.
#[export] Instance stores_clients : SyncClients stores := {
  source_get_posix_path k := Some k;
  source_download_files _ _ _ := mraise ValueError;
  source_is_posix := true;
  target_is_posix := false;
  target_get_posix_path _ := None;
  target_upload_files ts ps _ s :=
    match upload_all (zip ts ps) (clients s) with
    | Some w => if (length ts =? length ps)%nat then (Ok tt, mkWState w (result_queue s) (error_queue s)) else (Err ValueError, s)
    | None => (Err FileNotFoundError, s)
    end;
  target_delete_many ks w := (Ok tt, (w.1, filter (fun kv => kv.1 ∉ ks) w.2));
  target_make_symlink p x s := (Ok tt, mkWState ((clients s).1, <[ p := [] ]> (clients s).2) (result_queue s) (error_queue s));
  target_storage_metadata _ := mraise FileNotFoundError;
  has_metadata_provider := false;
  mp_allow_overwrites := false;
  mp_realpath p := mret (mkResolvedPath p UNTRACKED None);
  mp_generate_physical_path p _ := mret (mkResolvedPath p UNTRACKED None);
  mp_add_file _ _ := mret tt;
  os_copy2 p q w := match w.1 !! p with Some d => (Ok tt, (<[ q := d ]> w.1, w.2)) | None => (Err FileNotFoundError, w) end;
  os_makedirs _ := mret tt;
  os_path_getsize _ := mret 0%Z;
  os_path_getmtime _ := mret 0%Z;
  os_set_json_attribute _ _ := mret tt;
  os_utime _ _ := mret tt;
  mkdtemp := mret "/tmp/x";
  rmtree _ := mret tt;
}.
#[export] Instance stores_clients_laws : SyncClientsLaws stores.
Proof. split; intros; [|done]. cbn. destruct (upload_all _ _); [|done]. by destruct (_ =? _)%nat. Qed.
Lemma upload_all_spec l w w' :
  upload_all l w = Some w' -> NoDup l.*1 ->
  w'.1 = w.1 /\ (forall t p, (t, p) ∈ l -> exists d, w.1 !! p = Some d /\ w'.2 !! t = Some d) /\ (forall t, t ∉ l.*1 -> w'.2 !! t = w.2 !! t).
Proof.
  revert w. induction l as [|[t p] l IH]; intros w; cbn; [intros [= <-] _; split_and!; [done| |done]; by intros ?? ?%not_elem_of_nil|].
  destruct (w.1 !! p) as [d|] eqn:Ed; [|done]. intros Hu [Hn Hnd]%NoDup_cons. destruct (IH _ Hu Hnd) as (H1 & H2 & H3). cbn [fst snd] in *.
  split_and!; [done| |].
  - intros t' p' [[= -> ->]|Hin]%elem_of_cons; [|by apply H2]. exists d. split; [done|]. rewrite H3 by done. by rewrite lookup_insert_eq.
  - intros t' [Hne Hnin]%not_elem_of_cons. rewrite H3 by done. by rewrite lookup_insert_ne.
Qed.
Lemma stores_content_laws : content_laws (W := stores) fst (fun _ => ∅) snd.
Proof.
  split; try done.
  - intros p q w w'. cbn. destruct (w.1 !! p) as [d|]; [|done]. intros [= <-]. by exists d.
  - intros ts ps ms s s'. cbn. destruct (upload_all _ _) as [w|] eqn:Eu; [|done].
    destruct (Nat.eqb_spec (length ts) (length ps)) as [Hlen|]; [|done]. intros [= <-] Hnd.
    assert (fmap (M := list) fst (zip ts ps) = ts) as Hfst by (apply fst_zip; lia).
    apply upload_all_spec in Eu as (H1 & H2 & H3); [|by rewrite Hfst]. rewrite Hfst in H3. cbn [clients]. split_and!; [done|done| |done].
    intros i t p Hi Hp. apply H2. apply list_elem_of_lookup. exists i. by apply lookup_zip_with_Some; exists t, p.
  - intros ks w w' [= <-]. split; [done|]. intros t. unfold tcontent. cbn. case_decide as Ht.
    + apply map_lookup_filter_None. right. cbn. intros x _ Hn. done.
    + destruct (w.2 !! t) as [d|] eqn:Ed.
      * by apply map_lookup_filter_Some.
      * apply map_lookup_filter_None. by left.
  - intros p x s s' [= <-]. split; [done|]. intros t Hne. unfold tcontent. cbn. by rewrite lookup_insert_ne.
Qed.

Definition whole_batches : list OperationBatch := [one_batch ADD "src/a"; one_batch DELETE "dst/z"].
Definition whole_final : system := mkSystem [] [stop_batch; stop_batch] [Done; Done] false 0 [(one_batch ADD "src/a", POk); (one_batch DELETE "dst/z", POk)].
Lemma whole_final_reached : rtc step (initial_system (whole_batches ++ [stop_batch; stop_batch]) 2) whole_final.
Proof.
  do 4 (eapply rtc_l; [eapply step_put; reflexivity|]; cbn).
  do 2 (eapply rtc_l; [eapply (step_check _ 0); reflexivity|]; cbn; eapply rtc_l; [eapply (step_get _ 0 _ _ POk); reflexivity|]; unfold after_get; cbn).
  eapply rtc_l; [eapply (step_check _ 0); reflexivity|]. eapply rtc_l; [eapply (step_check _ 1); reflexivity|]. cbn.
  do 1 (eapply rtc_l; [eapply (step_get _ 0 _ _ POk); reflexivity|]; unfold after_get; cbn).
  do 1 (eapply rtc_l; [eapply (step_get _ 1 _ _ POk); reflexivity|]; unfold after_get; cbn). apply rtc_refl.
Qed.
Definition whole_before : wstate stores := mkWState ({["src/a" := [Byte.x01]]}, {["dst/z" := [Byte.x02]]}) [] [].
Definition whole_step (b : OperationBatch) (s : wstate stores) : wstate stores := (process_batch "src" "dst" false create_sync_handler id "w" b s).2.
Definition whole_after : wstate stores := whole_step (one_batch DELETE "dst/z") (whole_step (one_batch ADD "src/a") whole_before).
Lemma whole_processed : processed "src" "dst" false (log whole_final) whole_before whole_after.
Proof.
  apply (processed_cons "src" "dst" false (one_batch ADD "src/a") [(one_batch DELETE "dst/z", POk)] id "w" whole_before (Ok tt)
    (whole_step (one_batch ADD "src/a") whole_before) whole_after); [vm_compute; reflexivity|].
  apply (processed_cons "src" "dst" false (one_batch DELETE "dst/z") [] id "w" _ (Ok tt) whole_after whole_after); [vm_compute; reflexivity|].
  constructor.
Qed.
Lemma sync_copies_content_witness :
  exists p, run example_config (mkListing [obj "src/a" 1 0] None) (mkListing [obj "dst/z" 1 0] None) (fun _ => false) = Some (None, p) /\
    (forall t, expected example_config [obj "src/a" 1 0] [obj "dst/z" 1 0] (DELETE, (t, None)) -> (clients whole_after).2 !! key t = None) /\
    (clients whole_after).2 !! "dst/a" = Some [Byte.x01].
Proof.
  destruct (sync_copies_content (P := unit) (fst : stores -> _) (fun _ => ∅) snd (fun _ _ => mret tt) (fun _ => mret tt) None
    example_config [obj "src/a" 1 0] [obj "dst/z" 1 0] false) as (p & Hr & H).
  - reflexivity.
  - cbn. lia.
  - repeat constructor.
  - repeat constructor.
  - repeat constructor. discriminate.
  - reflexivity.
  - exact stores_content_laws.
  - exists p. split; [exact Hr|].
    assert (file_queue p = whole_batches ++ [stop_batch; stop_batch]) as Hq.
    { transitivity (match run example_config (mkListing [obj "src/a" 1 0] None) (mkListing [obj "dst/z" 1 0] None) (fun _ => false)
        with Some (_, p) => file_queue p | None => [] end); [rewrite Hr|vm_compute]; reflexivity. }
    rewrite Hq in H.
    destruct (H whole_final whole_before whole_after tt (mkSyncResult (total_work_units p) 1 1 1 1 None) whole_final_reached) as (H1 & H2 & _).
    + repeat constructor.
    + repeat constructor; discriminate.
    + exact whole_processed.
    + reflexivity.
    + vm_compute. reflexivity.
    + split; [exact H2|]. destruct (H1 (obj "src/a" 1 0) None) as (d & Hd & Hd').
      * left. exists (obj "src/a" 1 0). split; [left|]. split; [reflexivity|]. split; [reflexivity|]. split; [|reflexivity].
        intros t Ht _. apply list_elem_of_singleton in Ht. subst t. vm_compute. discriminate.
      * change (tcontent fst snd (clients whole_after) "dst/a" = Some [Byte.x01]).
        transitivity (Some d); [exact Hd'|]. symmetry. exact Hd.
Defined.

(** ** The number of workers *)
(** How many loops a worker process runs *)
Definition worker_loops (num_worker_threads : Z) : nat := if (num_worker_threads <=? 1)%Z then 1 else Z.to_nat num_worker_threads.
(** The sentinels that the producer puts and the loops that take them *)
Definition sentinels (processes threads : Z) : nat := Z.to_nat (processes * threads).
Definition all_loops (processes threads : Z) : nat := Z.to_nat processes * worker_loops threads.
(** With at least one thread there is a sentinel for every loop. *)
Theorem one_sentinel_per_loop (processes threads : Z) (Hp : (1 <= processes)%Z) (Ht : (1 <= threads)%Z) :
  all_loops processes threads = sentinels processes threads.
Proof.
  unfold all_loops, sentinels, worker_loops. rewrite Z2Nat.inj_mul by lia. f_equal.
  destruct (Z.leb_spec threads 1); [|done]. by replace threads with 1%Z by lia.
Qed.
Lemma one_sentinel_per_loop_witness : all_loops 4 16 = sentinels 4 16.
Proof. apply (one_sentinel_per_loop 4 16); lia. Defined.
(** With [MSC_NUM_THREADS_PER_PROCESS=0] one loop runs and no sentinel is put:
    it waits for ever. *)
Theorem no_threads_never_ends :
  exists s, rtc step (initial_system (replicate (sentinels 1 0) stop_batch) (all_loops 1 0)) s /\ ~ all_done s /\ forall s', ~ step s s'.
Proof.
  exists (mkSystem [] [] [Waiting] false 0 []). split_and!.
  - eapply rtc_l; [apply (step_check _ 0); reflexivity|]. apply rtc_refl.
  - intros H. by apply Forall_cons in H as [[=] _].
  - intros s' H. inversion H; subst; cbn in *; try done; [|lia]. destruct i as [|i]; cbn in *; done.
Qed.

(** ** Recursive deletion *)
(** The sync that [delete] with [recursive] starts: from a client without
    files, to the path itself *)
Definition DEFAULT_SYNC_BATCH_SIZE : Z := 32.
Definition delete_config (path : string) (num_workers : nat) (has_provider : bool) : config :=
  mkConfig path path num_workers true None false has_provider true DEFAULT_SYNC_BATCH_SIZE.
(** It deletes every file below the path whose relative key has no component
    that starts with a dot, and nothing else. *)
Theorem recursive_delete_exact (path : string) (n : nat) (has_provider : bool) (target : list ObjectMetadata)
    (Ht : sorted_t (delete_config path n has_provider) target) :
  exists p bs, run (delete_config path n has_provider) (mkListing [] None) (mkListing target None) (fun _ => false) = Some (None, p) /\
    file_queue p = bs ++ replicate n stop_batch /\
    forall o, o ∈ concat (map batch_ops bs) <->
      exists t, t ∈ target /\ is_hidden (delete_config path n has_provider) (relative_key path (key t)) = false /\ o = (DELETE, (t, None)).
Proof.
  destruct (run_emits (delete_config path n has_provider) [] target) as (p & bs & Hrun & Hq & _ & _ & Hops); [done|constructor|done|].
  exists p, bs. split_and!; [done|done|]. intros o. rewrite Hops. unfold expected. split.
  - intros [(s & H & _)|[(s & t & H & _)|(_ & t & Hin & Hv & _ & ->)]]; [by apply elem_of_nil in H|by apply elem_of_nil in H|]. by exists t.
  - intros (t & Hin & Hv & ->). right. right. split; [done|]. exists t. split_and!; [done|done| |done]. intros s H. by apply elem_of_nil in H.
Qed.
Lemma recursive_delete_exact_witness :
  exists p bs, run (delete_config "d" 2 false) (mkListing [] None) (mkListing [obj "d/.git/a" 1 0; obj "d/a" 1 0] None) (fun _ => false) = Some (None, p) /\
    file_queue p = bs ++ replicate 2 stop_batch /\
    forall o, o ∈ concat (map batch_ops bs) <->
      exists t, t ∈ [obj "d/.git/a" 1 0; obj "d/a" 1 0] /\ is_hidden (delete_config "d" 2 false) (relative_key "d" (key t)) = false /\ o = (DELETE, (t, None)).
Proof. apply (recursive_delete_exact "d" 2 false). repeat constructor. Defined.
(** Hidden files stay: of a directory with a hidden file only the other one is
    deleted. *)
Theorem recursive_delete_keeps_hidden :
  exists p, run (delete_config "d" 1 false) (mkListing [] None) (mkListing [obj "d/.env" 1 0; obj "d/a" 1 0] None) (fun _ => false) = Some (None, p) /\
    file_queue p = [one_batch DELETE "d/a"; stop_batch].
Proof. eexists. split; vm_compute; reflexivity. Qed.
