(* ===== verification/SyncManager.v ===== *)
(** * The sync manager ([sync/manager.py])

    [SyncManager.sync_objects] from its arguments to its result: the number of
    workers, the queues, the producer, the worker loops in some interleaving,
    and the end of the sync or of the dry run.  A sync is a relation between the
    states before and after it, since the scheduling of the workers is open. *)
From S2P Require Import Prelude PyPath Types Utils Json Producer ProducerProofs Worker WorkerProofs Sync SyncProofs SyncRun.

(** ** Definitions *)
(** The arguments of [sync_objects]; the configuration is the producer's, whose
    number of workers is set below *)
Record request := mkRequest {
  rq_config : config;
  rq_mode : ExecutionMode;
  rq_processes : option Z;
  rq_commit_metadata : bool;
  rq_dryrun : bool;
  rq_output_path : option string;
}.
Definition with_workers (n : nat) (c : config) : config :=
  mkConfig (source_path c) (target_path c) n (delete_unmatched_files c) (pattern_matcher c) (preserve_source_attributes c)
    (target_has_metadata_provider c) (ignore_hidden c) (batch_size c).
(** What the machine provides: the processors, the environment, the kinds of
    the clients, whether Ray is installed, and [tempfile.mkdtemp] *)
Record machine := mkMachine {
  cpu_count : Z;
  environ : gmap string string;
  source_kind : option ClientKind;
  target_kind : option ClientKind;
  have_ray : bool;
  temp_dir : string;
}.

(** The number of processes and threads, and the checks before the producer
    starts *)
Definition sync_setup (mc : machine) (rq : request) : res (Z * Z) :=
  res_bind (calculate_worker_processes_and_threads (cpu_count mc) (environ mc) (rq_processes rq) (rq_mode rq) (source_kind mc) (target_kind mc))
    (fun pt =>
     if bool_decide (rq_mode rq = RAY) && negb (have_ray mc) then Err RuntimeError
     else res_bind (make_config (with_workers (sentinels pt.1 pt.2) (rq_config rq))) (fun _ => Ok pt)).

(** The paths of the two files of a dry run *)
Definition dryrun_paths (mc : machine) (rq : request) : string * string :=
  let dir := match rq_output_path rq with Some d => if bool_decide (d = "") then temp_dir mc else d | None => temp_dir mc end in
  (path_join dir "files_to_add.jsonl", path_join dir "files_to_delete.jsonl").

(** Whether a batch that raises ends [sync_objects] itself: its loop runs in the
    calling thread, or in a Ray task whose result is awaited *)
Definition raises_to_caller (mode : ExecutionMode) (pt : Z * Z) : bool :=
  (pt.2 <=? 1)%Z && match mode with LOCAL => (pt.1 =? 1)%Z | RAY => true end.

Section SyncObjects.
Context {W P : Type} `{!SyncClients W} (add_file : string -> ObjectMetadata -> M P unit) (remove_file : string -> M P unit) (commit : M P unit).
Context (mc : machine) (source target : listing).

(** [sync_objects]: the batches that the workers processed and how each of them
    ended, the result, where [inr] is [SyncError], and the state of the clients
    and of the metadata provider after it *)
Inductive sync_objects (rq : request) (st : wstate W) (prov : P) :
    list (OperationBatch * processing) -> res (SyncResult + SyncResult) -> wstate W -> P -> Prop :=
  | sync_dryrun_refused e :
      rq_dryrun rq = true -> make_config (with_workers 1 (rq_config rq)) = Err e ->
      sync_objects rq st prov [] (Err e) st prov
  | sync_dryrun e p :
      rq_dryrun rq = true -> make_config (with_workers 1 (rq_config rq)) = Ok (with_workers 1 (rq_config rq)) ->
      run (with_workers 1 (rq_config rq)) source target (fun _ => false) = Some (e, p) ->
      sync_objects rq st prov []
        (Ok (sync_objects_dryrun (file_queue p) e (total_work_units p) (dryrun_paths mc rq).1 (dryrun_paths mc rq).2).2) st prov
  | sync_refused e :
      rq_dryrun rq = false -> sync_setup mc rq = Err e -> sync_objects rq st prov [] (Err e) st prov
  | sync_ran pt is_set e p s st' :
      rq_dryrun rq = false -> sync_setup mc rq = Ok pt ->
      run (with_workers (sentinels pt.1 pt.2) (rq_config rq)) source target is_set = Some (e, p) ->
      rtc step (initial_system (file_queue p) (all_loops pt.1 pt.2)) s -> all_done s ->
      (forall i, is_set i = true -> shutdown s = true) ->
      (raises_to_caller (rq_mode rq) pt = true -> Forall (fun bo => bo.2 <> PRaised) (log s)) ->
      processed (source_path (rq_config rq)) (target_path (rq_config rq)) (preserve_source_attributes (rq_config rq)) (log s) st st' ->
      let out := finish_sync add_file remove_file has_metadata_provider (if rq_commit_metadata rq then Some commit else None) e p st' prov in
      sync_objects rq st prov (log s) out.1 st' out.2
  | sync_worker_raised pt is_set e p s st' ex :
      rq_dryrun rq = false -> sync_setup mc rq = Ok pt ->
      run (with_workers (sentinels pt.1 pt.2) (rq_config rq)) source target is_set = Some (e, p) ->
      rtc step (initial_system (file_queue p) (all_loops pt.1 pt.2)) s ->
      raises_to_caller (rq_mode rq) pt = true -> Exists (fun bo => bo.2 = PRaised) (log s) ->
      processed (source_path (rq_config rq)) (target_path (rq_config rq)) (preserve_source_attributes (rq_config rq)) (log s) st st' ->
      sync_objects rq st prov (log s) (Err ex) st' prov.
End SyncObjects.

(** ** Every sync ends *)
Section Ends.
Context {W : Type} `{!SyncClients W} (source_path target_path : string) (preserve : bool).
Lemma processed_snoc l st st1 b r st2 :
  processed source_path target_path preserve l st st1 ->
  process_batch source_path target_path preserve create_sync_handler id "worker" b st1 = (r, st2) ->
  processed source_path target_path preserve (l ++ [(b, processing_of st1 (r, st2))]) st st2.
Proof.
  induction 1 as [s|b0 log completion worker s r0 s1 s2 Hp _ IH]; intros Hb.
  - apply (processed_cons _ _ _ b [] id "worker" s r st2 st2); [done|constructor].
  - rewrite <- app_comm_cons. eapply processed_cons; [done|]. by apply IH.
Qed.
(** A step can be taken such that the batch ends as the clients have it *)
Lemma step_processed s s' st st1 :
  step s s' -> processed source_path target_path preserve (log s) st st1 ->
  exists s2 st2, step s s2 /\ processed source_path target_path preserve (log s2) st st2.
Proof.
  intros [s0 b bs Hput|s0 i Hi|s0 i b q o Hi Hq|s0 Herr Hsh] Hp.
  - eexists _, st1. split; [by eapply step_put|done].
  - eexists _, st1. split; [by apply (step_check s0 i)|done].
  - destruct (process_batch source_path target_path preserve create_sync_handler id "worker" b st1) as [r st2] eqn:Eb.
    destruct (is_stop b) eqn:Es.
    + exists (after_get b o q s0 i), st1. split; [by apply step_get|]. unfold after_get. by rewrite Es.
    + exists (after_get b (processing_of st1 (r, st2)) q s0 i), st2. split; [by apply step_get|].
      unfold after_get. rewrite Es. cbn [log]. by apply processed_snoc.
  - eexists _, st1. split; [by apply step_shutdown|done].
Qed.
Lemma workers_finish all n s st st1 :
  n > 0 -> Forall (fun b => is_stop b = false) all -> inv all n s -> processed source_path target_path preserve (log s) st st1 ->
  exists s2 st2, rtc step s s2 /\ all_done s2 /\ processed source_path target_path preserve (log s2) st st2.
Proof.
  intros Hn Hall. remember (measure s) as m eqn:Em. revert s st1 Em. induction (lt_wf m) as [m _ IH]. intros s st1 -> Hinv Hp.
  destruct (decide (all_done s)) as [Hd|Hnd]; [by exists s, st1; split; [apply rtc_refl|]|].
  destruct (progress_step all n s Hn Hinv Hnd) as [s' Hs']. destruct (step_processed s s' st st1 Hs' Hp) as (s2 & st2 & Hstep & Hp2).
  destruct (IH _ (step_measure _ _ Hstep) s2 st2 eq_refl) as (s3 & st3 & Hr & Hd & Hp3); [|done|].
  - eapply inv_steps; [done|exact Hinv|by apply rtc_once].
  - exists s3, st3. split; [by eapply rtc_l|done].
Qed.
End Ends.

(** The producer asks for the shutdown event only at its iterations *)
Lemma run_loop_never c es et is_set fuel i ss ts p :
  (forall j, is_set j = false) -> run_loop c es et is_set fuel i ss ts p = run_loop c es et (fun _ => false) fuel i ss ts p.
Proof.
  intros Hn. revert i ss ts p. induction fuel as [|fuel IH]; intros i ss ts p; [done|]. cbn [run_loop]. rewrite Hn.
  destruct ss as [|s ss], ts as [|t ts]; try done; repeat case_match; done || apply IH.
Qed.
Lemma run_never c source target is_set : (forall j, is_set j = false) -> run c source target is_set = run c source target (fun _ => false).
Proof. intros Hn. unfold run. by rewrite run_loop_never. Qed.

(** A pool of workers with at least one process and one thread *)
Lemma pool_setup mc rq pt :
  (1 <= pt.1)%Z -> (1 <= pt.2)%Z -> sync_setup mc rq = Ok pt ->
  sentinels pt.1 pt.2 > 0 /\ all_loops pt.1 pt.2 = sentinels pt.1 pt.2 /\
  make_config (with_workers (sentinels pt.1 pt.2) (rq_config rq)) = Ok (with_workers (sentinels pt.1 pt.2) (rq_config rq)).
Proof.
  intros Hp Hth. unfold sync_setup. destruct (calculate_worker_processes_and_threads _ _ _ _ _ _) as [pt'|]; [|done].
  cbn [res_bind]. destruct (_ && _); [done|].
  destruct (make_config _) as [c|] eqn:Em; [|done]. cbn [res_bind]. intros [= ->].
  assert (c = with_workers (sentinels pt.1 pt.2) (rq_config rq)) as ->.
  { revert Em. unfold make_config. by destruct (_ || _); intros [= <-]. }
  split_and!; [unfold sentinels; nia|by apply one_sentinel_per_loop; lia|done].
Qed.

(** A sync that has run to its end returns, unless a worker died in the calling
    thread. *)
Lemma sync_objects_ends {W P : Type} `{!SyncClients W} (add_file : string -> ObjectMetadata -> M P unit) (remove_file : string -> M P unit)
    (commit : M P unit) (mc : machine) (rq : request) (source target : list ObjectMetadata) (pt : Z * Z) (st : wstate W) (prov : P)
    (Hprocesses : (1 <= pt.1)%Z) (Hthreads : (1 <= pt.2)%Z) (Hwet : rq_dryrun rq = false) (Hsetup : sync_setup mc rq = Ok pt)
    (Hs : sorted_s (rq_config rq) source) (Ht : sorted_t (rq_config rq) target) :
  exists log out st' prov',
    sync_objects add_file remove_file commit mc (mkListing source None) (mkListing target None) rq st prov log out st' prov'.
Proof.
  destruct (pool_setup mc rq pt Hprocesses Hthreads Hsetup) as (Hn & Hloops & Hmake).
  set (c := with_workers (sentinels pt.1 pt.2) (rq_config rq)) in *.
  destruct (run_emits c source target Hmake Hs Ht) as (p & bs & Hrun & Hq & Hbs & _).
  destruct (workers_finish (source_path c) (target_path c) (preserve_source_attributes c) bs (num_workers c)
    (initial_system (bs ++ replicate (num_workers c) stop_batch) (num_workers c)) st st) as (s & st' & Hr & Hd & Hp);
    [done|by eapply batches_not_stop|apply inv_initial; by eapply batches_not_stop|constructor|].
  exists (log s). destruct (decide (Forall (fun bo => bo.2 <> PRaised) (log s))) as [Hno|Hno].
  - eexists _, st', _. eapply (sync_ran _ _ _ _ _ _ _ _ _ pt (fun _ => false) None p s); try done.
    rewrite Hq, Hloops. exact Hr.
  - destruct (raises_to_caller (rq_mode rq) pt) eqn:Hcaller.
    + exists (Err RuntimeError), st', prov. eapply (sync_worker_raised _ _ _ _ _ _ _ _ _ pt (fun _ => false) None p s); try done.
      * rewrite Hq, Hloops. exact Hr.
      * apply not_Forall_Exists in Hno; [|apply _]. eapply Exists_impl; [exact Hno|].
        intros bo Hbo. by destruct (decide (bo.2 = PRaised)).
    + eexists _, st', _. eapply (sync_ran _ _ _ _ _ _ _ _ _ pt (fun _ => false) None p s); try done.
      * rewrite Hq, Hloops. exact Hr.
      * by rewrite Hcaller.
Qed.

Definition example_request : request := mkRequest example_config LOCAL None false false None.
Definition example_machine : machine := mkMachine 4 ∅ None None false "/tmp/d".
Definition example_sync : wstate stores -> unit -> list (OperationBatch * processing) -> res (SyncResult + SyncResult) -> wstate stores -> unit -> Prop :=
  sync_objects (fun _ _ => mret tt) (fun _ => mret tt) (mret tt) example_machine (mkListing [obj "src/a" 1 0] None) (mkListing [obj "dst/z" 1 0] None) example_request.

(** ** Dry runs *)
(** A dry run changes neither the clients nor the metadata and reports the
    numbers of the operations that the sync itself performs. *)
Theorem dryrun_predicts_sync {W P : Type} `{!SyncClients W} (add_file : string -> ObjectMetadata -> M P unit) (remove_file : string -> M P unit) (commit : M P unit)
    (mc : machine) (rq : request) (source target : list ObjectMetadata) (st st' : wstate W) (prov prov' : P) (log : list (OperationBatch * processing)) (r : SyncResult)
    (Hdry : rq_dryrun rq = true) (Hs : sorted_s (rq_config rq) source) (Ht : sorted_t (rq_config rq) target)
    (Hrun : sync_objects add_file remove_file commit mc (mkListing source None) (mkListing target None) rq st prov log (Ok (inl r)) st' prov') :
  st' = st /\ prov' = prov /\
  exists ops, (forall o, o ∈ ops <-> expected (with_workers 1 (rq_config rq)) source target o) /\
    StronglySorted str_lt (map (op_key (rq_config rq)) ops) /\
    total_files_added r = Z.of_nat (length (dry_adds ops)) /\ total_files_deleted r = Z.of_nat (length (dry_deletes ops)) /\
    total_bytes_added r = sizes (dry_adds ops) /\ total_bytes_deleted r = sizes (dry_deletes ops).
Proof.
  inversion Hrun as [|e p _ Hmake Hp Elog Eout| | |]; subst; try congruence. split_and!; [done|done|].
  destruct (run_emits (with_workers 1 (rq_config rq)) source target Hmake Hs Ht) as (p0 & bs & Hp0 & Hq & Hbs & Hsort & Hops).
  rewrite Hp0 in Hp. injection Hp as <- <-. exists (concat (map batch_ops bs)). split; [exact Hops|]. split; [exact Hsort|].
  revert Eout. unfold sync_objects_dryrun. rewrite Hq. change (num_workers (with_workers 1 (rq_config rq))) with 1.
  rewrite dryrun_loop_spec by (by eapply batches_not_stop). cbn. intros [= <-]. done.
Qed.
