(* ===== verification/RayShared.v ===== *)
(** * Shared objects of Ray tasks ([contrib/ray/utils.py])

    The queue and the event through which the processes of a distributed sync
    communicate.  A Ray actor runs one call at a time; a blocking call that
    cannot be served waits until another call has changed the queue. *)
From S2P Require Import Prelude PyPath Types Utils.

(** ** Definitions: [SharedQueue] *)
Section Queue.
Context {A : Type}.
Record queue_actor := mkQueueActor { maxsize : Z; queue_items : list A }.
Definition new_queue (maxsize : Z) : queue_actor := mkQueueActor maxsize [].
Definition qsize (q : queue_actor) : Z := Z.of_nat (length (queue_items q)).
Definition empty (q : queue_actor) : bool := (qsize q =? 0)%Z.
(** A size that is not positive is no limit *)
Definition full (q : queue_actor) : bool := (0 <? maxsize q)%Z && (maxsize q <=? qsize q)%Z.
(** How a call is made: without blocking, with a timeout that may have passed,
    or blocking; [None] is a call that still waits *)
Inductive blocking := NoWait | Waiting (timed_out : bool).
Definition queue_put (x : A) (b : blocking) (q : queue_actor) : option (res unit * queue_actor) :=
  if full q then
    match b with NoWait | Waiting true => Some (Err QueueFull, q) | Waiting false => None end
  else Some (Ok tt, mkQueueActor (maxsize q) (queue_items q ++ [x])).
Definition queue_get (b : blocking) (q : queue_actor) : option (res A * queue_actor) :=
  match queue_items q with
  | [] => match b with NoWait | Waiting true => Some (Err QueueEmpty, q) | Waiting false => None end
  | x :: l => Some (Ok x, mkQueueActor (maxsize q) l)
  end.
(** The calls in the order in which the actor serves them, what was put and
    what was returned *)
Inductive queue_op := Put (x : A) (b : blocking) | Get (b : blocking).
Definition serve (o : queue_op) (s : queue_actor * list A * list A) : queue_actor * list A * list A :=
  let '(q, ps, gs) := s in
  match o with
  | Put x b => match queue_put x b q with Some (Ok _, q') => (q', ps ++ [x], gs) | _ => s end
  | Get b => match queue_get b q with Some (Ok x, q') => (q', ps, gs ++ [x]) | _ => s end
  end.
Definition serve_all (os : list queue_op) (s : queue_actor * list A * list A) : queue_actor * list A * list A := fold_left (fun s o => serve o s) os s.
End Queue.
Arguments queue_actor : clear implicits.
Arguments queue_op : clear implicits.

(** ** Definitions: [SharedEvent] *)
(** A handle is copied to every worker: its cached state, and the time of its
    last call of the actor, in microseconds *)
Record handle := mkHandle { cache_ttl : Z; local_state : bool; last_check : Z }.
Definition new_handle (ttl : Z) : handle := mkHandle ttl false 0.
Record event := mkEvent { event_flag : bool; handles : list handle }.
Definition event_set (i : nat) (h : handle) (e : event) : event := mkEvent true (<[ i := mkHandle (cache_ttl h) true (last_check h) ]> (handles e)).
Definition event_clear (i : nat) (h : handle) (e : event) : event := mkEvent false (<[ i := mkHandle (cache_ttl h) false 0 ]> (handles e)).
Definition event_is_set (i : nat) (h : handle) (now : Z) (e : event) : bool * event :=
  if local_state h then (true, e)
  else if (now - last_check h <? cache_ttl h)%Z then (false, e)
  else (event_flag e, mkEvent (event_flag e) (<[ i := mkHandle (cache_ttl h) (event_flag e) now ]> (handles e))).
Inductive event_op := Set_ (i : nat) | IsSet (i : nat) (now : Z).
Definition event_step (o : event_op) (e : event) : event :=
  match o with
  | Set_ i => match handles e !! i with Some h => event_set i h e | None => e end
  | IsSet i now => match handles e !! i with Some h => (event_is_set i h now e).2 | None => e end
  end.

(** ** The queue is first in, first out *)
Section QueueProofs.
Context {A : Type}.
Definition within (q : queue_actor A) : Prop := (0 < maxsize q)%Z -> (qsize q <= maxsize q)%Z.
Lemma serve_inv (o : queue_op A) q ps gs q' ps' gs' :
  serve o (q, ps, gs) = (q', ps', gs') -> gs ++ queue_items q = ps -> within q ->
  gs' ++ queue_items q' = ps' /\ within q' /\ maxsize q' = maxsize q.
Proof.
  intros H E Hw. destruct o as [x b|b]; cbn in H.
  - unfold queue_put in H. destruct (full q) eqn:Ef; [by destruct b as [|[]]; injection H as <- <- <-|]. injection H as <- <- <-.
    cbn [queue_items maxsize]. split_and!; [by rewrite app_assoc, E| |done]. intros Hpos. unfold qsize in *. cbn [queue_items maxsize] in *.
    rewrite length_app. cbn [length]. unfold full in Ef. rewrite (proj2 (Z.ltb_lt _ _) Hpos) in Ef. cbn in Ef. unfold qsize in Ef. apply Z.leb_gt in Ef. lia.
  - unfold queue_get in H. destruct (queue_items q) as [|x l] eqn:Eq; [by destruct b as [|[]]; injection H as <- <- <-; rewrite Eq|]. injection H as <- <- <-.
    cbn [queue_items maxsize]. split_and!; [by rewrite <- app_assoc|  |done]. intros Hpos. specialize (Hw Hpos). unfold qsize in *. rewrite Eq in Hw. cbn in *. lia.
Qed.
(** Whatever calls come from whichever workers: what was returned, followed by
    what is queued, is what was put, in order; and a limit is never exceeded. *)
Theorem shared_queue_fifo (limit : Z) (os : list (queue_op A)) :
  let '(q, ps, gs) := serve_all os (new_queue limit, [], []) in
  gs ++ queue_items q = ps /\ ((0 < limit)%Z -> (qsize q <= limit)%Z).
Proof.
  assert (forall s, s.2 ++ queue_items s.1.1 = s.1.2 -> within s.1.1 ->
    (serve_all os s).2 ++ queue_items (serve_all os s).1.1 = (serve_all os s).1.2 /\ within (serve_all os s).1.1 /\ maxsize (serve_all os s).1.1 = maxsize s.1.1) as H.
  { induction os as [|o os IH]; intros s Hs Hw; [done|]. destruct s as [[q ps] gs]. cbn [serve_all fold_left]. fold (serve_all os (serve o (q, ps, gs))).
    destruct (serve o (q, ps, gs)) as [[q' ps'] gs'] eqn:Eo. destruct (serve_inv _ _ _ _ _ _ _ Eo Hs Hw) as (H1 & H2 & H3).
    destruct (IH (q', ps', gs') H1 H2) as (K1 & K2 & K3). split_and!; [done|done|]. rewrite K3. exact H3. }
  destruct (H (new_queue limit, [], [])) as (H1 & H2 & H3); [done|intros Hpos; unfold qsize; cbn in *; lia|]. destruct (serve_all _ _) as [[q ps] gs]. cbn in *. split; [done|].
  intros Hpos. rewrite <- H3. apply H2. by rewrite H3.
Qed.
End QueueProofs.

(** ** The event is seen in time *)
Definition sets (os : list event_op) : bool := existsb (fun o => match o with Set_ _ => true | _ => false end) os.
Definition believed (e : event) : Prop := Forall (fun h => local_state h = true -> event_flag e = true) (handles e).
Definition events (os : list event_op) (e : event) : event := fold_left (fun e o => event_step o e) os e.
Lemma believed_insert e i h b : believed e -> (event_flag e = true -> b = true) -> (local_state h = true -> b = true) -> believed (mkEvent b (<[ i := h ]> (handles e))).
Proof.
  intros He Hb Hh. unfold believed. cbn [handles event_flag]. apply Forall_insert; [|done]. eapply Forall_impl; [exact He|]. intros h' H H'. by apply Hb, H.
Qed.
Lemma event_step_inv o e :
  believed e -> believed (event_step o e) /\ length (handles (event_step o e)) = length (handles e).
Proof.
  intros He. destruct o as [i|i now]; cbn; destruct (handles e !! i) as [h|] eqn:Ei; try done.
  - split; [by apply believed_insert|]. cbn. by rewrite length_insert.
  - unfold event_is_set. destruct (local_state h) eqn:El; [done|]. case_match; [done|]. cbn. split; [|by rewrite length_insert].
    by apply believed_insert.
Qed.
(** Where no handle clears the event: once a worker has set it, every check of
    another worker that comes [cache_ttl] after its last call of the actor
    answers true; and no check answers true before some worker has set it. *)
Theorem shared_event_timely (ttl now : Z) (n i : nat) (os : list event_op) (h : handle)
    (Hset : forall j, Set_ j ∈ os -> j < n)
    (Hhandle : handles (events os (mkEvent false (replicate n (new_handle ttl)))) !! i = Some h) :
  let e := events os (mkEvent false (replicate n (new_handle ttl))) in
  event_flag e = sets os /\
  ((event_is_set i h now e).1 = true -> sets os = true) /\
  (sets os = true -> (last_check h + cache_ttl h <= now)%Z -> (event_is_set i h now e).1 = true).
Proof.
  assert (forall e, believed e -> (forall j, Set_ j ∈ os -> j < length (handles e)) ->
    believed (events os e) /\ event_flag (events os e) = event_flag e || sets os) as H.
  { clear. induction os as [|o os IH]; intros e He Hj; [by rewrite orb_false_r|]. cbn [events fold_left]. fold (events os (event_step o e)).
    destruct (event_step_inv o e He) as [He' Hlen]. destruct (IH (event_step o e) He') as [Hb Hf].
    { intros j Hin. rewrite Hlen. apply Hj. by right. }
    split; [done|]. rewrite Hf. destruct o as [k|k t]; cbn [event_step sets existsb].
    - destruct (lookup_lt_is_Some_2 (handles e) k) as [h Eh]; [apply Hj; left|]. rewrite Eh. cbn. by rewrite orb_true_r.
    - destruct (handles e !! k) as [h|]; [|done]. unfold event_is_set. destruct (local_state h); [done|]. by case_match. }
  destruct (H (mkEvent false (replicate n (new_handle ttl)))) as [Hb Hf].
  { unfold believed. cbn. apply Forall_replicate. done. }
  { cbn. rewrite length_replicate. exact Hset. }
  cbn zeta. cbn [event_flag orb] in Hf. split; [done|]. unfold event_is_set.
  assert (local_state h = true -> sets os = true) as Hl.
  { intros Hl. rewrite <- Hf. unfold believed in Hb. rewrite Forall_lookup in Hb. by apply (Hb i h). }
  split.
  - destruct (local_state h); [auto|]. case_match; [done|]. by rewrite Hf.
  - intros Hs Ht. destruct (local_state h); [done|]. rewrite (proj2 (Z.ltb_ge _ _)) by lia. cbn. by rewrite Hf.
Qed.
Lemma shared_event_timely_witness :
  let e := events [IsSet 1 5; Set_ 0] (mkEvent false [new_handle 10; new_handle 10]) in
  event_flag e = sets [IsSet 1 5; Set_ 0] /\
  ((event_is_set 1 (new_handle 10) 20 e).1 = true -> sets [IsSet 1 5; Set_ 0] = true) /\
  (sets [IsSet 1 5; Set_ 0] = true -> (0 + 10 <= 20)%Z -> (event_is_set 1 (new_handle 10) 20 e).1 = true).
Proof.
  apply (shared_event_timely 10 20 2 1 [IsSet 1 5; Set_ 0] (new_handle 10)).
  - intros j Hj. apply elem_of_cons in Hj as [Hj|Hj]; [discriminate|]. apply elem_of_cons in Hj as [Hj|Hj]; [injection Hj as ->; lia|].
    apply elem_of_nil in Hj. destruct Hj.
  - reflexivity.
Defined.
(** [clear] resets the actor and the handle it is called on: a worker that has
    seen the event keeps saying that it is set. *)
Theorem clear_not_seen :
  let e := events [Set_ 0; IsSet 1 20] (mkEvent false [new_handle 10; new_handle 10]) in
  let e' := event_clear 0 (mkHandle 10 true 0) e in
  event_flag e' = false /\ forall now, match handles e' !! 1 with Some h => (event_is_set 1 h now e').1 | None => false end = true.
Proof. done. Qed.
