(* ===== verification/ProgressBar.v ===== *)
(** * The progress bar ([sync/progress_bar.py])

    The bar of tqdm is a parameter: what matters of it is its counters, when it
    was drawn and whether it is closed.  Times are integers, in microseconds. *)
From S2P Require Import Prelude Types.

(** ** Definitions *)
Record bar := mkBar { bar_n : Z; bar_total : Z; bar_postfix : string; bar_drawn : list Z; bar_closed : bool }.
(** [drawn_for_total] are the times at which a change of the total drew the bar *)
Record progress_bar := mkProgressBar { pbar : option bar; last_total_update_time : Z; drawn_for_total : list Z }.
Definition SECOND : Z := 1000000.
(** [__init__]: [suppress] is whether [MSC_SUPPRESS_PROGRESS_BAR] is set *)
Definition new_progress_bar (suppress show_progress : bool) (total_items now : Z) : progress_bar :=
  if suppress || negb show_progress then mkProgressBar None 0 [] else mkProgressBar (Some (mkBar 0 total_items "" [] false)) now [].
Definition on_bar (f : bar -> bar) (p : progress_bar) : progress_bar :=
  mkProgressBar (f <$> pbar p) (last_total_update_time p) (drawn_for_total p).
Definition draw (now : Z) (b : bar) : bar := mkBar (bar_n b) (bar_total b) (bar_postfix b) (bar_drawn b ++ [now]) (bar_closed b).
Definition update_total (now new_total : Z) (p : progress_bar) : progress_bar :=
  match pbar p with
  | None => p
  | Some b =>
      let b := mkBar (bar_n b) new_total (bar_postfix b) (bar_drawn b) (bar_closed b) in
      if (SECOND <=? now - last_total_update_time p)%Z then mkProgressBar (Some (draw now b)) now (drawn_for_total p ++ [now])
      else mkProgressBar (Some b) (last_total_update_time p) (drawn_for_total p)
  end.
(** [pbar.update] draws when tqdm decides to: [draws] *)
Definition update_bar (draws : bool) (now items_completed : Z) : progress_bar -> progress_bar :=
  on_bar (fun b => let b := mkBar (bar_n b + items_completed) (bar_total b) (bar_postfix b) (bar_drawn b) (bar_closed b) in if draws then draw now b else b).
Definition reset_progress (now items_completed : Z) : progress_bar -> progress_bar :=
  on_bar (fun b => draw now (mkBar items_completed (bar_total b) (bar_postfix b) (bar_drawn b) (bar_closed b))).
Definition set_postfix_str (now : Z) (s : string) (refresh : bool) : progress_bar -> progress_bar :=
  on_bar (fun b => let b := mkBar (bar_n b) (bar_total b) s (bar_drawn b) (bar_closed b) in if refresh then draw now b else b).
Definition refresh_bar (now : Z) : progress_bar -> progress_bar := on_bar (draw now).
Definition close_bar (now : Z) : progress_bar -> progress_bar :=
  on_bar (fun b => let b := draw now b in mkBar (bar_n b) (bar_total b) (bar_postfix b) (bar_drawn b) true).
(** [str.replace(old, new)] with a non-empty [old]; the fuel is the length *)
Fixpoint replace_all (fuel : nat) (old new s : string) : string :=
  match fuel with
  | O => s
  | S fuel' =>
      if startswith s old then new +:+ replace_all fuel' old new (str_drop (String.length old) s)
      else match s with EmptyString => EmptyString | String c s' => String c (replace_all fuel' old new s') end
  end.
(** [CappedProgressBar.format_meter]; [meter] is the text of tqdm *)
Definition format_meter (meter : Z -> Z -> string) (n total : Z) : string :=
  let result := meter n total in
  if (0 <? total)%Z && (n <? total)%Z then replace_all (String.length result) "100.0%" "99.9%" result else result.

(** ** Operations *)
Inductive bar_op :=
  | UpdateTotal (new_total : Z)
  | UpdateProgress (draws : bool) (items_completed : Z)
  | ResetProgress (items_completed : Z)
  | SetPostfix (s : string) (refresh : bool)
  | Refresh
  | Close.
Definition bar_step (now : Z) (o : bar_op) (p : progress_bar) : progress_bar :=
  match o with
  | UpdateTotal t => update_total now t p
  | UpdateProgress d n => update_bar d now n p
  | ResetProgress n => reset_progress now n p
  | SetPostfix s r => set_postfix_str now s r p
  | Refresh => refresh_bar now p
  | Close => close_bar now p
  end.
Fixpoint bar_run (l : list (Z * bar_op)) (p : progress_bar) : progress_bar :=
  match l with [] => p | (now, o) :: l' => bar_run l' (bar_step now o p) end.

(** ** The total draws the bar at most once a second *)
Definition spaced (l : list Z) : Prop := forall i a b, l !! i = Some a -> l !! S i = Some b -> (a + SECOND <= b)%Z.
Definition throttled (p : progress_bar) : Prop :=
  spaced (drawn_for_total p) /\ (forall t, last (drawn_for_total p) = Some t -> t = last_total_update_time p).
Lemma spaced_snoc l t : spaced l -> (forall a, last l = Some a -> (a + SECOND <= t)%Z) -> spaced (l ++ [t]).
Proof.
  intros Hl Ht i a b Ha Hb. destruct (decide (S i < length l)%nat).
  - rewrite !lookup_app_l in * by lia. by eapply Hl.
  - apply lookup_lt_Some in Hb as Hlt. rewrite length_app in Hlt. cbn in Hlt. assert (S i = length l) as E by lia. rewrite E in Hb.
    rewrite lookup_app_r, Nat.sub_diag in Hb by lia. injection Hb as <-. rewrite lookup_app_l in Ha by lia. apply Ht. rewrite last_lookup, <- E. done.
Qed.
Lemma step_throttled now o p : throttled p -> throttled (bar_step now o p).
Proof.
  intros [H1 H2]. destruct o; try by split. cbn. unfold update_total. destruct (pbar p); [|by split].
  destruct (Z.leb_spec SECOND (now - last_total_update_time p)); [|by split]. split; cbn.
  - apply spaced_snoc; [done|]. intros a ->%H2. lia.
  - intros t. rewrite last_snoc. by intros [= <-].
Qed.
(** Whatever is done with the bar, and however the clock goes, the bar is drawn
    for a new total at most once a second. *)
Theorem total_draws_spaced (suppress show_progress : bool) (total now : Z) (l : list (Z * bar_op)) :
  spaced (drawn_for_total (bar_run l (new_progress_bar suppress show_progress total now))).
Proof.
  assert (forall p, throttled p -> throttled (bar_run l p)) as H.
  { induction l as [|[t o] l IH]; intros p Hp; [done|]. cbn. by apply IH, step_throttled. }
  apply H. unfold new_progress_bar. destruct (_ || _); by split.
Qed.
(** A bar that is not shown never is. *)
Theorem hidden_bar_stays_hidden (show_progress : bool) (total now : Z) (l : list (Z * bar_op)) :
  pbar (bar_run l (new_progress_bar true show_progress total now)) = None.
Proof.
  assert (forall p, pbar p = None -> pbar (bar_run l p) = None) as H; [|by apply H].
  induction l as [|[t o] l IH]; intros p Hp; [done|]. cbn. apply IH. destruct o; cbn; unfold update_total; by rewrite Hp.
Qed.
Example meter_capped : format_meter (fun _ _ => "Syncing: 100.0%|##| 9999/10000") 9999 10000 = "Syncing: 99.9%|##| 9999/10000".
Proof. reflexivity. Qed.
