(* ===== verification/ClientLifecycle.v ===== *)
(** * The life of a client ([client/single.py], [client/client.py])

    Construction with the automatic commit, pickling between processes, the
    thread that commits, and the operations that start a sync.  A client is made
    from a configuration of [ConfigLoader]; pickling it pickles its
    configuration, which the other process rebuilds with its own loader.  An
    attribute that an object may lack is an option; the clients of the replicas
    are known by their profiles. *)
From Stdlib Require Import QArith_base.
From S2P Require Import Prelude PyPath Types Utils Json Listing Producer Sync SyncRun SyncManager Composite.
From S2P Require Client Config ConfigLoader ConfigProofs.

(** ** Definitions: construction *)
(** The attribute [_replica_manager]: [None], or a manager *)
Inductive replica_manager := NoManager | Manager.

Section Lifecycle.
Context {SP CP MP : Type} `{!ConfigLoader.Providers SP CP MP}.
Context (env : gmap string string) (cwd tempdir : string) (py_float : string -> option Q).
(** The construction of the client of a replica, from the dictionary of the
    configuration and the profile *)
Context (new_replica : dict -> string -> res unit).
Abbreviation client_config := (ConfigLoader.client_config SP CP MP).

Record instance := mkInstance {
  in_config : client_config;
  in_lock : bool;
  in_stop_event : option bool;
  in_commit_thread : bool;
  in_at_exit : bool;
  in_replicas : option (list string);
  in_replica_manager : option replica_manager;
}.
Definition is_some {A} (o : option A) : bool := match o with Some _ => true | None => false end.
(** The truth of [interval_minutes] and of [at_exit] *)
Definition interval (c : client_config) : bool := Config.truthy (ConfigLoader.interval_minutes (ConfigLoader.cf_autocommit c)).
Definition commits_at_exit (c : client_config) : bool := Config.truthy (ConfigLoader.at_exit (ConfigLoader.cf_autocommit c)).
(** [_initialize_providers] *)
Definition initialize_providers (c : client_config) : res instance :=
  if negb (bool_decide (ConfigLoader.cf_storage_provider_profiles c = [])) then Err ValueError
  else if negb (is_some (ConfigLoader.cf_storage_provider c)) then Err ValueError
  else if is_some (ConfigLoader.cf_metadata_provider c)
  then Ok (mkInstance c true (if interval c then Some false else None) (interval c) (commits_at_exit c) None None)
  else Ok (mkInstance c false None false false None None).
(** [_initialize_replicas] *)
Fixpoint replica_clients (config_dict : option dict) (l : list Replica) : res (list string) :=
  match l with
  | [] => Ok []
  | r :: l' =>
      match config_dict with
      | None => Err ValueError
      | Some d => res_bind (new_replica d (replica_profile r)) (fun _ =>
                  res_bind (replica_clients config_dict l') (fun ps => Ok (replica_profile r :: ps)))
      end
  end.
Definition with_replicas (ps : option (list string)) (m : option replica_manager) (i : instance) : instance :=
  mkInstance (in_config i) (in_lock i) (in_stop_event i) (in_commit_thread i) (in_at_exit i) ps m.
Definition initialize_replicas (i : instance) : res instance :=
  res_bind (replica_clients (ConfigLoader.cf_config_dict (in_config i)) (Client.sorted_replicas (ConfigLoader.cf_replicas (in_config i)))) (fun ps =>
  Ok (with_replicas (Some ps) (Some (if bool_decide (ps = []) then NoManager else Manager)) i)).
Definition new_instance (c : client_config) : res instance := res_bind (initialize_providers c) initialize_replicas.
(** The property [replicas] *)
Definition replicas (i : instance) : res (list string) := match in_replicas i with Some ps => Ok ps | None => Err AttributeError end.
(** The instance that a sync reads from: its replica manager is [None] *)
Definition without_manager (i : instance) : instance := with_replicas (in_replicas i) (Some NoManager) i.

(** ** Definitions: pickling *)
(** The entries of the state of [__getstate__] that [__setstate__] reads or that
    cannot be pickled *)
Record pickled := mkPickled {
  ps_config : client_config;
  ps_stop_event : option bool;
  ps_commit_thread : bool;
  ps_replica_manager : option replica_manager;
}.
Definition getstate (i : instance) : pickled :=
  mkPickled (in_config i) (in_stop_event i) (in_commit_thread i)
    (match in_replica_manager i with Some NoManager => Some NoManager | _ => None end).
(** [pickle.dumps] of the state: of the configuration, only its dictionary and
    its profile are written, by its own [__getstate__]; events and threads hold
    locks, which cannot be pickled *)
Definition dumps_state (p : pickled) : res (dict * string * option replica_manager) :=
  res_bind (ConfigLoader.getstate (ps_config p)) (fun st =>
  if ps_commit_thread p then Err TypeError
  else match ps_stop_event p with Some _ => Err TypeError | None => Ok (st, ps_replica_manager p) end).
(** [pickle.loads]: the configuration is built again by the loader *)
Definition loads_state (x : dict * string * option replica_manager) : M ConfigLoader.globals pickled :=
  let! c := ConfigLoader.setstate env cwd tempdir py_float x.1 in mret (mkPickled c None false x.2).
(** [__setstate__] *)
Definition setstate (p : pickled) : res instance :=
  res_bind (initialize_providers (ps_config p)) (fun i =>
  res_bind (match ps_replica_manager p with
            | Some NoManager => Ok (with_replicas (in_replicas i) (Some NoManager) i)
            | _ => initialize_replicas i
            end) (fun i =>
  Ok (mkInstance (in_config i) (in_lock i || is_some (ConfigLoader.cf_metadata_provider (ps_config p))) (in_stop_event i)
        (in_commit_thread i) (in_at_exit i) (in_replicas i) (in_replica_manager i)))).
(** A client that is sent to another process *)
Definition send (i : instance) : M ConfigLoader.globals instance :=
  let! x := mlift (dumps_state (getstate i)) in let! p := loads_state x in mlift (setstate p).

(** The facade: it pickles as its delegate, and chooses the class again *)
Inductive facade := Single (i : instance) | CompositeClient (c : client_config).
Definition new_facade (c : client_config) : res facade :=
  match choose_delegate (ConfigLoader.cf_storage_provider_profiles c) with
  | CompositeDelegate => Ok (CompositeClient c)
  | SingleDelegate => res_bind (new_instance c) (fun i => Ok (Single i))
  end.
Definition facade_getstate (f : facade) : pickled :=
  match f with Single i => getstate i | CompositeClient c => mkPickled c None false None end.
Definition facade_setstate (p : pickled) : res facade :=
  match choose_delegate (ConfigLoader.cf_storage_provider_profiles (ps_config p)) with
  | CompositeDelegate => Ok (CompositeClient (ps_config p))
  | SingleDelegate => res_bind (setstate p) (fun i => Ok (Single i))
  end.
Definition send_facade (f : facade) : M ConfigLoader.globals facade :=
  let! x := mlift (dumps_state (facade_getstate f)) in let! p := loads_state x in mlift (facade_setstate p).

(** ** Clients are sent between processes *)

(** No thread commits: there is nothing to commit, or no interval. *)
Definition no_interval (c : client_config) : Prop := ConfigLoader.cf_metadata_provider c = None \/ interval c = false.
Lemma providers_spec c i : initialize_providers c = Ok i ->
  in_config i = c /\ in_replicas i = None /\ in_replica_manager i = None /\
  (no_interval c -> in_stop_event i = None /\ in_commit_thread i = false) /\
  in_lock i = is_some (ConfigLoader.cf_metadata_provider c) /\
  is_Some (ConfigLoader.cf_storage_provider c) /\ ConfigLoader.cf_storage_provider_profiles c = [].
Proof using Type.
  unfold initialize_providers, no_interval. case_bool_decide as Hp; cbn [negb]; [|done].
  destruct (ConfigLoader.cf_storage_provider c); cbn [is_some negb]; [|done].
  destruct (ConfigLoader.cf_metadata_provider c); cbn [is_some]; intros [= <-]; cbn; split_and!; try done.
  by intros [?| ->].
Qed.
Lemma replica_clients_nil d l ps : replica_clients d l = Ok ps -> ps = [] <-> l = [].
Proof using Type.
  destruct l as [|r l]; cbn; [by intros [= <-]|]. destruct d as [d|]; [|done]. destruct (new_replica _ _); [|done]. cbn.
  destruct (replica_clients (Some d) l); [|done]. cbn. by intros [= <-].
Qed.
Lemma sorted_replicas_nil l : Client.sorted_replicas l = [] <-> l = [].
Proof using Type.
  split; [|by intros ->]. intros Hl. unfold Client.sorted_replicas in Hl. apply Permutation_nil_r.
  rewrite <- Hl. symmetry. apply sort_by_perm.
Qed.
(** The instance that a construction makes *)
Lemma new_instance_spec c i : new_instance c = Ok i -> exists i0 ps,
  initialize_providers c = Ok i0 /\ replica_clients (ConfigLoader.cf_config_dict c) (Client.sorted_replicas (ConfigLoader.cf_replicas c)) = Ok ps /\
  i = with_replicas (Some ps) (Some (if bool_decide (ConfigLoader.cf_replicas c = []) then NoManager else Manager)) i0.
Proof using Type.
  unfold new_instance. destruct (initialize_providers c) as [i0|] eqn:Ei; [|done]. cbn [res_bind]. unfold initialize_replicas.
  destruct (providers_spec c i0 Ei) as (-> & _). destruct (replica_clients _ _) as [ps|] eqn:Er; [|done]. cbn [res_bind]. intros [= <-].
  exists i0, ps. split_and!; [done|done|]. by rewrite (bool_decide_ext _ _ (iff_trans (replica_clients_nil _ _ _ Er) (sorted_replicas_nil _))).
Qed.
(** What arrives is what [__setstate__] makes of the configuration, where the
    loader builds the configuration again as it was. *)
Lemma send_spec c i i0 m g g' st :
  initialize_providers c = Ok i0 -> no_interval c -> ConfigLoader.getstate c = Ok st ->
  ConfigLoader.setstate env cwd tempdir py_float st g = (Ok c, g') ->
  in_config i = c -> in_stop_event i = in_stop_event i0 -> in_commit_thread i = in_commit_thread i0 -> in_replica_manager i = Some m ->
  send i g = (setstate (mkPickled c None false (match m with NoManager => Some NoManager | Manager => None end)), g').
Proof using Type.
  intros Hi Hn Hst Hset Hc Hs Ht Hm. destruct (providers_spec c i0 Hi) as (_ & _ & _ & Hno & _). destruct (Hno Hn) as [Hs0 Ht0].
  unfold send, mbind, mlift, dumps_state, getstate. cbn [ps_config ps_commit_thread ps_stop_event ps_replica_manager].
  rewrite Hc, Hst, Hs, Ht, Hs0, Ht0, Hm. cbn [res_bind]. unfold loads_state, mbind. cbn [fst snd]. rewrite Hset. unfold mret. by destruct m.
Qed.
End Lifecycle.
Arguments instance : clear implicits.
Arguments pickled : clear implicits.
Arguments facade : clear implicits.


(** The sample configuration of [ConfigProofs]: one profile with a replica, and
    providers that record how they were built *)
#[local] Instance recording : ConfigLoader.Providers (string * dict) dict unit := ConfigProofs.recording_providers.
Definition sample_instance : instance (string * dict) dict unit :=
  mkInstance ConfigProofs.sample_loaded false None false false (Some ["copy"]) (Some Manager).
(** A client without replicas arrives without the attribute of its replicas:
    asking for them raises. *)
Theorem sent_client_loses_replicas {SP CP MP : Type} `{!ConfigLoader.Providers SP CP MP} env cwd tempdir py_float new_replica
    (c : ConfigLoader.client_config SP CP MP) (i i' : instance SP CP MP) g g'
    (Hnew : new_instance new_replica c = Ok i) (Hreplicas : ConfigLoader.cf_replicas c = [])
    (Hsend : send env cwd tempdir py_float new_replica i g = (Ok i', g')) :
  replicas i = Ok [] /\ replicas i' = Err AttributeError.
Proof.
  destruct (new_instance_spec new_replica c i Hnew) as (i0 & ps & Hi & Hr & Ei). rewrite Hreplicas in Hr, Ei. cbn in Hr. injection Hr as <-.
  subst i. split; [done|]. revert Hsend. unfold send, mbind, mlift. destruct (dumps_state _) as [x|] eqn:Ex; [|done].
  assert (x.2 = Some NoManager) as Hx.
  { revert Ex. unfold dumps_state, getstate. cbn [in_replica_manager with_replicas bool_decide ps_replica_manager ps_commit_thread ps_stop_event ps_config].
    destruct (ConfigLoader.getstate _); [|done]. cbn [res_bind]. destruct (in_commit_thread _); [done|]. destruct (in_stop_event _); [done|]. by intros [= <-]. }
  unfold loads_state, mbind. destruct (ConfigLoader.setstate _ _ _ _ _ _) as [[c'|] g1]; [|done]. unfold mret, setstate. cbn [ps_config ps_replica_manager].
  destruct (initialize_providers c') as [i1|] eqn:Ei1; [|done]. cbn [res_bind]. rewrite Hx. cbn. intros [= <- _]. unfold replicas. cbn.
  by destruct (providers_spec c' i1 Ei1) as (_ & -> & _).
Qed.
(** A client that commits at an interval cannot be sent at all. *)
Theorem committing_client_not_picklable {SP CP MP : Type} `{!ConfigLoader.Providers SP CP MP} env cwd tempdir py_float new_replica
    (c : ConfigLoader.client_config SP CP MP) (i : instance SP CP MP) st g
    (Hnew : new_instance new_replica c = Ok i) (Hstate : ConfigLoader.getstate c = Ok st)
    (Hmeta : is_Some (ConfigLoader.cf_metadata_provider c)) (Hint : interval c = true) :
  send env cwd tempdir py_float new_replica i g = (Err TypeError, g).
Proof.
  destruct (new_instance_spec new_replica c i Hnew) as (i0 & ps & Hi & _ & ->).
  revert Hi. unfold initialize_providers. destruct (negb _); [done|]. destruct (negb _); [done|]. destruct Hmeta as [mp ->]. cbn [is_some].
  intros [= <-]. rewrite Hint. unfold send, mbind, mlift, dumps_state. cbn. by rewrite Hstate.
Qed.
(** Nor can one whose configuration has no dictionary, as from a bundle of providers. *)
Theorem bundled_client_not_picklable {SP CP MP : Type} `{!ConfigLoader.Providers SP CP MP} env cwd tempdir py_float new_replica
    (i : instance SP CP MP) g (Hdict : ConfigLoader.cf_config_dict (in_config i) = None) :
  send env cwd tempdir py_float new_replica i g = (Err ValueError, g).
Proof. unfold send, mbind, mlift, dumps_state, getstate, ConfigLoader.getstate. cbn. by rewrite Hdict. Qed.

(** ** Definitions: the committer *)
(** [_committer_thread]: what each wait for the stop event returns, in order;
    the thread still waits after the last one *)
Fixpoint committer_thread {S} (commit_metadata : M S unit) (waits : list bool) : M S unit :=
  match waits with
  | [] => mret tt
  | true :: _ => mret tt
  | false :: ws => commit_metadata ;;; committer_thread commit_metadata ws
  end.

(** ** Definitions: syncs *)
(** [SyncManager.__init__]: whether source and target are one storage; the null
    client of a recursive deletion has no profile *)
Definition same_client (identical : bool) (source_profile target_profile : option string) : bool :=
  identical || match source_profile, target_profile with Some a, Some b => bool_decide (a = b) | _, _ => false end.
Definition batch_size_of (environ : gmap string string) : res Z :=
  getenv_int environ "MSC_SYNC_BATCH_SIZE" DEFAULT_SYNC_BATCH_SIZE.
(** [sync_from] up to the call of [sync_objects]: its request *)
Definition sync_from_request (environ : gmap string string) (identical : bool) (source_profile target_profile : option string)
    (source target : string) (delete_unmatched_files : bool) (processes : option Z) (mode : ExecutionMode) (patterns : option PatternList)
    (preserve : bool) (follow_symlinks : option bool) (source_files : option (list string)) (ignore_hidden commit_metadata has_provider dryrun : bool)
    (output_path : option string) (symlink_handling : SymlinkHandling) : res (request * SymlinkHandling) :=
  res_bind (Client.sync_from_check source_files patterns follow_symlinks symlink_handling) (fun handling =>
  let matcher := match patterns with Some [] => None | p => p end in
  res_bind (make_manager (same_client identical source_profile target_profile) source target) (fun m =>
  res_bind (batch_size_of environ) (fun size =>
  Ok (mkRequest (Producer.mkConfig (mgr_source_path m) (mgr_target_path m) 0 delete_unmatched_files matcher preserve has_provider ignore_hidden size)
        mode processes commit_metadata dryrun output_path, handling)))).
(** [sync_replicas]: the replicas one after the other *)
Definition sync_replicas {W R} (targets : res (list R)) (sync_from : R -> M W unit) : M W unit :=
  let! rs := mlift targets in mfor rs sync_from.

(** ** The committer *)
(** The thread commits once for every interval that passes before the stop. *)
Fixpoint times {S} (n : nat) (m : M S unit) : M S unit := match n with 0 => mret tt | S n' => m ;;; times n' m end.
Theorem commits_until_stopped {S} (commit : M S unit) (n : nat) (later : list bool) (s : S) :
  committer_thread commit (replicate n false ++ true :: later) s = times n commit s.
Proof. revert s. induction n as [|n IH]; intros s; [done|]. cbn. unfold mbind. destruct (commit s) as [[[]|e] s']; [apply IH|done]. Qed.
(** A commit that fails ends it: the intervals after it commit nothing. *)
Theorem failed_commit_ends_committer {S} (commit : M S unit) (waits : list bool) (s s' : S) (e : exc) (Hfail : commit s = (Err e, s')) :
  committer_thread commit (false :: waits) s = (Err e, s').
Proof. cbn. unfold mbind. by rewrite Hfail. Qed.

(** ** Syncs within one storage *)
(** Between clients of one profile [sync_from] starts no sync of paths of which
    one is a prefix of the other, and what it starts has batches of the
    configured size. *)
Theorem sync_paths_disjoint environ identical sp tp source target del procs mode pats pres fl files hid com prov dry out sh rq h
    (Hreq : sync_from_request environ identical sp tp source target del procs mode pats pres fl files hid com prov dry out sh = Ok (rq, h))
    (Hsame : same_client identical sp tp = true) :
  startswith source target = false /\ startswith target source = false /\
  source_path (rq_config rq) = lstrip slash source /\ target_path (rq_config rq) = lstrip slash target /\
  batch_size_of environ = Ok (batch_size (rq_config rq)).
Proof.
  revert Hreq. unfold sync_from_request. destruct (Client.sync_from_check _ _ _ _) as [hd|]; [|done]. cbn [res_bind]. unfold make_manager. rewrite Hsame. cbn [andb].
  destruct (startswith source target); [done|]. destruct (startswith target source); [done|]. cbn [orb res_bind].
  destruct (batch_size_of environ) as [n|]; [|done]. cbn [res_bind]. by intros [= <- <-].
Qed.
