(* ===== verification/Facade.v ===== *)
(** * The client interface and the facade ([client/types.py], [client/client.py])

    [AbstractStorageClient] is the interface of every storage client; the single
    and the composite client implement it with the operations of [Client] and
    [Composite].  [StorageClient] holds one of the two and forwards every call
    to it.  The file objects of [open], the sync of [sync_from], the signer of
    the storage provider and the clock are parameters of the two instances. *)
From S2P Require Import Prelude PyPath Types Utils Retry Replica Provider Manifest Cache Client Files ClientFiles Composite.

(** ** Definitions: the interface *)
Record sync_from_args (C : Type) := mkSyncFrom {
  sf_source_client : C;
  sf_source_path : string;
  sf_target_path : string;
  sf_delete_unmatched_files : bool;
  sf_description : string;
  sf_num_worker_processes : option Z;
  sf_execution_mode : ExecutionMode;
  sf_patterns : option PatternList;
  sf_preserve_source_attributes : bool;
  sf_follow_symlinks : option bool;
  sf_source_files : option (list string);
  sf_ignore_hidden : bool;
  sf_commit_metadata : bool;
  sf_dryrun : bool;
  sf_dryrun_output_path : option string;
  sf_symlink_handling : SymlinkHandling;
}.
Record open_args := mkOpenArgs {
  oa_mode : string;
  oa_buffering : Z;
  oa_encoding : option string;
  oa_disable_read_cache : bool;
  oa_memory_load_limit : Z;
  oa_atomic : bool;
  oa_check_source_version : SourceVersionCheckMode;
  oa_attributes : option attributes;
  oa_prefetch_file : option bool;
}.
(** [AbstractStorageClient]: its state is [S], the files that it opens are [F] *)
Record AbstractStorageClient (S F C : Type) := mkAbstractStorageClient {
  ac_profile : string;
  ac_replicas : list string;
  ac_is_default_profile : bool;
  ac_is_rust_client_enabled : bool;
  ac_is_posix_file_storage_provider : bool;
  ac_get_posix_path : string -> M S (option string);
  ac_read : string -> option Range -> SourceVersionCheckMode -> M S bytes;
  ac_open : string -> open_args -> M S F;
  ac_download_file : string -> string -> M S unit;
  ac_download_files : list string -> list string -> option (list (option ObjectMetadata)) -> Z -> M S unit;
  ac_glob : string -> bool -> option string -> M S (list string);
  ac_list_recursive : string -> option string -> option string -> nat -> nat -> bool -> option bool -> PatternList -> SymlinkHandling ->
    S -> option (listing * S);
  ac_is_file : string -> M S bool;
  ac_is_empty : string -> M S bool;
  ac_info : string -> bool -> M S ObjectMetadata;
  ac_write : string -> bytes -> option attributes -> M S unit;
  ac_delete : string -> bool -> M S unit;
  ac_delete_many : list string -> M S unit;
  ac_copy : string -> string -> M S unit;
  ac_make_symlink : string -> string -> M S unit;
  ac_upload_file : string -> io -> option attributes -> M S unit;
  ac_upload_files : list string -> list string -> option (list (option attributes)) -> Z -> M S unit;
  ac_commit_metadata : option string -> M S unit;
  ac_sync_from : sync_from_args C -> M S SyncResult;
  ac_sync_replicas : string -> option (list Z) -> M S unit;
  ac_list : string -> string -> option string -> option string -> bool -> bool -> option string -> bool -> option bool -> PatternList ->
    SymlinkHandling -> S -> option (listing * S);
  ac_generate_presigned_url : string -> string -> option SignerType -> M S string;
}.
Arguments mkAbstractStorageClient {S F C}.
Arguments ac_profile {S F C}.
Arguments ac_replicas {S F C}.
Arguments ac_is_default_profile {S F C}.
Arguments ac_is_rust_client_enabled {S F C}.
Arguments ac_is_posix_file_storage_provider {S F C}.
Arguments ac_get_posix_path {S F C}.
Arguments ac_read {S F C}.
Arguments ac_open {S F C}.
Arguments ac_download_file {S F C}.
Arguments ac_download_files {S F C}.
Arguments ac_glob {S F C}.
Arguments ac_list_recursive {S F C}.
Arguments ac_is_file {S F C}.
Arguments ac_is_empty {S F C}.
Arguments ac_info {S F C}.
Arguments ac_write {S F C}.
Arguments ac_delete {S F C}.
Arguments ac_delete_many {S F C}.
Arguments ac_copy {S F C}.
Arguments ac_make_symlink {S F C}.
Arguments ac_upload_file {S F C}.
Arguments ac_upload_files {S F C}.
Arguments ac_commit_metadata {S F C}.
Arguments ac_sync_from {S F C}.
Arguments ac_sync_replicas {S F C}.
Arguments ac_list {S F C}.
Arguments ac_generate_presigned_url {S F C}.

Section Facade.
Context {W P F C : Type} `{!StorageProvider W} `{!MetadataProvider P W} `{!TempFiles W}.

(** ** Definitions: the two clients *)
(** What the single client takes from its surroundings: the mode time of the
    working directory and its path, the clock, the provider's native client, its
    base path and its signer, the file objects, and the syncs *)
Record surroundings := mkSurroundings {
  su_cwd_mtime : Z;
  su_cwd : string;
  su_now : Z;
  su_rust : bool;
  su_prepend : string -> string;
  su_completion : list (nat * M (client W P) unit) -> list (nat * M (client W P) unit);
  su_open : string -> open_args -> M (client W P) F;
  su_sync_delete : string -> M (client W P) unit;
  su_sync_from : sync_from_args C -> M (client W P) SyncResult;
  su_sync_replica : string -> replica_client W -> M (client W P) unit;
  su_generate_presigned_url : string -> string -> option SignerType -> M (client W P) string;
}.
Definition single_client (cfg : config W) (su : surroundings) : AbstractStorageClient (client W P) F C := {|
  ac_profile := cfg_profile cfg;
  ac_replicas := map (rc_profile (W := W)) (cfg_replicas cfg);
  ac_is_default_profile := bool_decide (cfg_profile cfg = "__filesystem__");
  ac_is_rust_client_enabled := su_rust su;
  ac_is_posix_file_storage_provider := cfg_posix cfg;
  ac_get_posix_path := get_posix_path cfg (su_prepend su);
  ac_read p r m s := decorated (Err RuntimeError) (Client.read cfg p r m s);
  ac_open := su_open su;
  ac_download_file p l s := decorated (Ok tt) (Client.download_file cfg p l s);
  ac_download_files := Client.download_files cfg;
  ac_glob := client_glob cfg;
  ac_list_recursive := list_recursive cfg (su_cwd_mtime su);
  ac_is_file := Client.is_file;
  ac_is_empty := Client.is_empty;
  ac_info := Client.info cfg (su_cwd_mtime su);
  ac_write p d a s := decorated (Ok tt) (Client.write cfg p d a s);
  ac_delete := Client.delete cfg (su_cwd_mtime su) (su_sync_delete su);
  ac_delete_many := delete_many cfg;
  ac_copy := copy;
  ac_make_symlink := make_symlink (su_now su) (su_cwd su);
  ac_upload_file p f a s := decorated (Ok tt) (Client.upload_file cfg p f a s);
  ac_upload_files := Client.upload_files cfg (su_completion su);
  ac_commit_metadata := commit_metadata;
  ac_sync_from := su_sync_from su;
  ac_sync_replicas p indices := let! rs := mlift (sync_targets cfg indices) in mfor rs (su_sync_replica su p);
  ac_list := list_files cfg (su_cwd_mtime su);
  ac_generate_presigned_url := su_generate_presigned_url su;
|}.
(** The other arguments of [open] and [generate_presigned_url] are those that
    the operations of the children are given *)
Definition composite_client (cfg : composite_config W F) : AbstractStorageClient (composite W P) F C := {|
  ac_profile := cm_profile cfg;
  ac_replicas := [];
  ac_is_default_profile := bool_decide (cm_profile cfg = "__filesystem__");
  ac_is_rust_client_enabled := all_rust_clients cfg;
  ac_is_posix_file_storage_provider := false;
  ac_get_posix_path _ := mret None;
  ac_read := composite_read cfg;
  ac_open p a := composite_open cfg p (oa_mode a);
  ac_download_file := composite_download_file cfg;
  ac_download_files := composite_download_files cfg;
  ac_glob := composite_glob cfg;
  ac_list_recursive p sa ea _ _ up _ ps _ s := Some (composite_list_recursive cfg p sa ea up ps s);
  ac_is_file := composite_is_file;
  ac_is_empty := composite_is_empty;
  ac_info := composite_info;
  ac_write _ _ _ := composite_write_operation;
  ac_delete _ _ := composite_write_operation;
  ac_delete_many _ := composite_write_operation;
  ac_copy _ _ := composite_write_operation;
  ac_make_symlink _ _ := composite_write_operation;
  ac_upload_file _ _ _ := composite_write_operation;
  ac_upload_files _ _ _ _ := composite_write_operation;
  ac_commit_metadata _ := composite_no_operation;
  ac_sync_from _ := composite_write_operation;
  ac_sync_replicas _ _ := composite_no_operation;
  ac_list pf p sa ea d up fe _ _ ps _ s := Some (composite_list cfg pf p sa ea d up fe ps s);
  ac_generate_presigned_url p _ _ := composite_presigned_url cfg p;
|}.

(** ** Definitions: the facade *)
Inductive StorageClient := SingleOf (s : client W P) | CompositeOf (s : composite W P).
Definition delegate_of (f : StorageClient) : delegate := match f with SingleOf _ => SingleDelegate | CompositeOf _ => CompositeDelegate end.
Context (cfg : config W) (su : surroundings) (cm : composite_config W F).
(** [self._delegate] *)
Definition attribute {A} (get : forall S, AbstractStorageClient S F C -> A) (f : StorageClient) : A :=
  match f with SingleOf _ => get _ (single_client cfg su) | CompositeOf _ => get _ (composite_client cm) end.
Definition forward {A} (call : forall S, AbstractStorageClient S F C -> M S A) : M StorageClient A := fun f =>
  match f with
  | SingleOf s => let '(r, s') := call _ (single_client cfg su) s in (r, SingleOf s')
  | CompositeOf s => let '(r, s') := call _ (composite_client cm) s in (r, CompositeOf s')
  end.
Definition forward_list (call : forall S, AbstractStorageClient S F C -> S -> option (listing * S)) (f : StorageClient)
    : option (listing * StorageClient) :=
  match f with
  | SingleOf s => '(l, s') ← call _ (single_client cfg su) s; Some (l, SingleOf s')
  | CompositeOf s => '(l, s') ← call _ (composite_client cm) s; Some (l, CompositeOf s')
  end.
Definition fa_profile := attribute (fun S => ac_profile).
Definition fa_replicas := attribute (fun S => ac_replicas).
Definition fa_is_default_profile := attribute (fun S => ac_is_default_profile).
Definition fa_is_rust_client_enabled := attribute (fun S => ac_is_rust_client_enabled).
Definition fa_is_posix := attribute (fun S => ac_is_posix_file_storage_provider).
Definition fa_get_posix_path (path : string) := forward (fun S c => ac_get_posix_path c path).
Definition fa_read (path : string) (r : option Range) (m : SourceVersionCheckMode) := forward (fun S c => ac_read c path r m).
Definition fa_open (path : string) (a : open_args) := forward (fun S c => ac_open c path a).
Definition fa_download_file (remote_path local_path : string) := forward (fun S c => ac_download_file c remote_path local_path).
Definition fa_download_files (remote_paths local_paths : list string) (ms : option (list (option ObjectMetadata))) (max_workers : Z) :=
  forward (fun S c => ac_download_files c remote_paths local_paths ms max_workers).
Definition fa_glob (pattern : string) (include_url_prefix : bool) (filter_expression : option string) :=
  forward (fun S c => ac_glob c pattern include_url_prefix filter_expression).
Definition fa_list_recursive (path : string) (start_after end_at : option string) (max_workers look_ahead : nat) (include_url_prefix : bool)
    (follow_symlinks : option bool) (patterns : PatternList) (symlink_handling : SymlinkHandling) :=
  forward_list (fun S c => ac_list_recursive c path start_after end_at max_workers look_ahead include_url_prefix follow_symlinks patterns symlink_handling).
Definition fa_is_file (path : string) := forward (fun S c => ac_is_file c path).
Definition fa_is_empty (path : string) := forward (fun S c => ac_is_empty c path).
Definition fa_info (path : string) (strict : bool) := forward (fun S c => ac_info c path strict).
Definition fa_write (path : string) (body : bytes) (a : option attributes) := forward (fun S c => ac_write c path body a).
Definition fa_delete (path : string) (recursive : bool) := forward (fun S c => ac_delete c path recursive).
Definition fa_delete_many (paths : list string) := forward (fun S c => ac_delete_many c paths).
Definition fa_copy (src_path dest_path : string) := forward (fun S c => ac_copy c src_path dest_path).
Definition fa_make_symlink (path target : string) := forward (fun S c => ac_make_symlink c path target).
Definition fa_upload_file (remote_path : string) (f : io) (a : option attributes) := forward (fun S c => ac_upload_file c remote_path f a).
Definition fa_upload_files (remote_paths local_paths : list string) (a : option (list (option attributes))) (max_workers : Z) :=
  forward (fun S c => ac_upload_files c remote_paths local_paths a max_workers).
Definition fa_commit_metadata (prefix : option string) := forward (fun S c => ac_commit_metadata c prefix).
Definition fa_sync_from (a : sync_from_args C) := forward (fun S c => ac_sync_from c a).
Definition fa_sync_replicas (source_path : string) (replica_indices : option (list Z)) := forward (fun S c => ac_sync_replicas c source_path replica_indices).
Definition fa_list (prefix path : string) (start_after end_at : option string) (include_directories include_url_prefix : bool)
    (filter_expression : option string) (show_attributes : bool) (follow_symlinks : option bool) (patterns : PatternList) (symlink_handling : SymlinkHandling) :=
  forward_list (fun S c => ac_list c prefix path start_after end_at include_directories include_url_prefix filter_expression show_attributes
                             follow_symlinks patterns symlink_handling).
Definition fa_generate_presigned_url (path method : string) (signer : option SignerType) := forward (fun S c => ac_generate_presigned_url c path method signer).
(** The setter of [_metadata_provider]: a composite client cannot be without *)
Definition fa_set_metadata_provider (value : option P) : M StorageClient unit := fun f =>
  match f, value with
  | CompositeOf _, None => (Err ValueError, f)
  | CompositeOf s, Some p => (Ok tt, CompositeOf (mkState p (cm_world s)))
  | SingleOf s, _ => (Ok tt, SingleOf (mkClient (store s) value (cache s) (uploads s)))
  end.
End Facade.
Arguments StorageClient : clear implicits.
Arguments surroundings : clear implicits.

(** ** Sequences of calls *)
Section Calls.
Context {W P F C : Type} `{!StorageProvider W} `{!MetadataProvider P W} `{!TempFiles W}.
Inductive call :=
  | GetPosixPath (path : string)
  | Read (path : string) (r : option Range) (m : SourceVersionCheckMode)
  | Open (path : string) (a : open_args)
  | DownloadFile (remote_path local_path : string)
  | DownloadFiles (remote_paths local_paths : list string) (ms : option (list (option ObjectMetadata))) (max_workers : Z)
  | Glob (pattern : string) (include_url_prefix : bool) (filter_expression : option string)
  | ListRecursive (path : string) (start_after end_at : option string) (max_workers look_ahead : nat) (include_url_prefix : bool)
      (follow_symlinks : option bool) (patterns : PatternList) (h : SymlinkHandling)
  | IsFile (path : string)
  | IsEmpty (path : string)
  | Info (path : string) (strict : bool)
  | Write (path : string) (body : bytes) (a : option attributes)
  | Delete (path : string) (recursive : bool)
  | DeleteMany (paths : list string)
  | Copy (src_path dest_path : string)
  | MakeSymlink (path target : string)
  | UploadFile (remote_path : string) (f : io) (a : option attributes)
  | UploadFiles (remote_paths local_paths : list string) (a : option (list (option attributes))) (max_workers : Z)
  | CommitMetadata (prefix : option string)
  | SyncFrom (a : sync_from_args C)
  | SyncReplicas (source_path : string) (replica_indices : option (list Z))
  | List (list_prefix path : string) (start_after end_at : option string) (include_directories include_url_prefix : bool) (filter_expression : option string)
      (show_attributes : bool) (follow_symlinks : option bool) (patterns : PatternList) (h : SymlinkHandling)
  | GeneratePresignedUrl (path method : string) (signer : option SignerType)
  | SetMetadataProvider (value : option P).
Context (cfg : config W) (su : surroundings W P F C) (cm : composite_config W F).
Definition discard {A} (m : M (StorageClient W P) A) : M (StorageClient W P) unit := let! _ := m in mret tt.
(** A listing that does not end leaves the client as it is *)
Definition consume (l : StorageClient W P -> option (listing * StorageClient W P)) : M (StorageClient W P) unit := fun f =>
  match l f with
  | Some (l, f') => (match raised l with Some e => Err e | None => Ok tt end, f')
  | None => (Ok tt, f)
  end.
Definition run_call (c : call) : M (StorageClient W P) unit :=
  match c with
  | GetPosixPath p => discard (fa_get_posix_path cfg su cm p)
  | Read p r m => discard (fa_read cfg su cm p r m)
  | Open p a => discard (fa_open cfg su cm p a)
  | DownloadFile r l => fa_download_file cfg su cm r l
  | DownloadFiles rs ls ms n => fa_download_files cfg su cm rs ls ms n
  | Glob p u e => discard (fa_glob cfg su cm p u e)
  | ListRecursive p sa ea mw la u fs ps h => consume (fa_list_recursive cfg su cm p sa ea mw la u fs ps h)
  | IsFile p => discard (fa_is_file cfg su cm p)
  | IsEmpty p => discard (fa_is_empty cfg su cm p)
  | Info p st => discard (fa_info cfg su cm p st)
  | Write p b a => fa_write cfg su cm p b a
  | Delete p r => fa_delete cfg su cm p r
  | DeleteMany ps => fa_delete_many cfg su cm ps
  | Copy s d => fa_copy cfg su cm s d
  | MakeSymlink p t => fa_make_symlink cfg su cm p t
  | UploadFile r f a => fa_upload_file cfg su cm r f a
  | UploadFiles rs ls a n => fa_upload_files cfg su cm rs ls a n
  | CommitMetadata p => fa_commit_metadata cfg su cm p
  | SyncFrom a => discard (fa_sync_from cfg su cm a)
  | SyncReplicas p indices => fa_sync_replicas cfg su cm p indices
  | List pf p sa ea d u fe sh fs ps h => consume (fa_list cfg su cm pf p sa ea d u fe sh fs ps h)
  | GeneratePresignedUrl p m s => discard (fa_generate_presigned_url cfg su cm p m s)
  | SetMetadataProvider v => fa_set_metadata_provider v
  end.
(** A program that goes on whatever its calls raise *)
Fixpoint run_calls (cs : list call) (f : StorageClient W P) : StorageClient W P :=
  match cs with [] => f | c :: cs' => run_calls cs' (run_call c f).2 end.
Definition writes (c : call) : bool :=
  match c with
  | Write _ _ _ | Delete _ _ | DeleteMany _ | Copy _ _ | MakeSymlink _ _ | UploadFile _ _ _ | UploadFiles _ _ _ _ | SyncFrom _ => true
  | _ => false
  end.

(** What the children promise: their reading operations leave the objects
    alone *)
Context {X : Type} (contents : W -> X).
Definition keeps {A} (m : M W A) : Prop := forall w, contents (m w).2 = contents w.
Definition child_reads (c : child_client W F) : Prop :=
  (forall p r m, keeps (cc_read c p r m)) /\ (forall p m, keeps (cc_open c p m)) /\ (forall p l, keeps (cc_download_file c p l)) /\
  (forall ps ls ms n, keeps (cc_download_files c ps ls ms n)) /\ (forall p, keeps (cc_generate_presigned_url c p)).
Context (Hchildren : forall p c, get_child_client cm p = Ok c -> child_reads c).
Definition still {A} (m : M (composite W P) A) : Prop := forall s, contents (cm_world (m s).2) = contents (cm_world s).
Lemma composite_still_ret {A} (a : A) : still (mret a).
Proof. by intros s. Qed.
Lemma still_raise {A} e : still (mraise (A := A) e).
Proof. by intros s. Qed.
Lemma still_meta {A} (f : P -> res A) : still (from_metadata f).
Proof. by intros s. Qed.
Lemma still_lift {A} (r : res A) : still (mlift r).
Proof. by intros s. Qed.
Lemma composite_still_bind {A B} (m : M (composite W P) A) (k : A -> M (composite W P) B) : still m -> (forall a, still (k a)) -> still (mbind m k).
Proof. intros Hm Hk s. unfold mbind. specialize (Hm s). destruct (m s) as [[a|e] s1]; [by rewrite Hk|done]. Qed.
Lemma still_world {A} (m : M W A) : keeps m -> still (on_world m).
Proof. intros Hm s. unfold on_world. specialize (Hm (cm_world s)). by destruct (m (cm_world s)). Qed.
Lemma still_route {A} path (k : child_client W F * string -> M (composite W P) A) :
  (forall c p, child_reads c -> still (k (c, p))) -> still (let! x := route cm path in k x).
Proof.
  intros Hk s. unfold route, mbind, from_metadata, mlift. destruct (mp_realpath (cm_meta s) path) as [r|]; [|done].
  destruct (negb _); [done|]. destruct (get_child_client cm (profile r)) as [c|] eqn:E; [|done]. by apply Hk, (Hchildren _ _ E).
Qed.
Lemma still_groups gs n : still (download_groups cm gs n).
Proof.
  induction gs as [|[p [[ps ls] ms]] gs IH]; cbn [download_groups]; [apply composite_still_ret|].
  intros s. unfold mbind at 1, mlift. destruct (get_child_client cm (Some p)) as [c|] eqn:E; [|done].
  destruct (Hchildren _ _ E) as (_ & _ & _ & H & _). by apply composite_still_bind; [apply still_world|intros; apply IH].
Qed.
Lemma still_decorate u ps os s : cm_world (composite_decorate cm u ps os s).2 = cm_world s.
Proof.
  revert s. induction os as [|o os IH]; intros s; cbn [composite_decorate]; [done|]. destruct (excluded ps (key o)); [apply IH|].
  destruct u.
  - specialize (IH (mkState (mp_set_key o (join_paths (MSC_PROTOCOL +:+ cm_profile cm) (key o)) (cm_meta s)) (cm_world s))).
    by destruct (composite_decorate cm true ps os _).
  - specialize (IH s). by destruct (composite_decorate cm false ps os s).
Qed.
Lemma still_list pf p sa ea d u fe ps s : cm_world (composite_list cm pf p sa ea d u fe ps s).2 = cm_world s.
Proof.
  unfold composite_list. destruct (_ && _); [done|]. match goal with |- context [composite_decorate cm u ps ?os s] => pose proof (still_decorate u ps os s) as H end.
  by destruct (composite_decorate cm u ps _ s).
Qed.
Lemma forward_still {A} (k : forall S, AbstractStorageClient S F C -> M S A) s :
  still (k _ (composite_client cm)) -> exists s', (forward cfg su cm k (CompositeOf s)).2 = CompositeOf s' /\ contents (cm_world s') = contents (cm_world s).
Proof. intros H. specialize (H s). unfold forward. destruct (k _ (composite_client cm) s) as [r s']. by exists s'. Qed.
Lemma discard_state {A} (m : M (StorageClient W P) A) f : (discard m f).2 = (m f).2.
Proof. unfold discard, mbind. by destruct (m f) as [[]]. Qed.
Lemma call_still c s : exists s', (run_call c (CompositeOf s)).2 = CompositeOf s' /\ contents (cm_world s') = contents (cm_world s).
Proof.
  destruct c; cbn [run_call]; rewrite ?discard_state; try (apply forward_still; cbn; intros s0; done).
  - apply forward_still, still_route. intros c p (H & _). by apply still_world.
  - apply forward_still. cbn. unfold composite_open. destruct (negb _); [by intros s0|]. apply still_route. intros c p (_ & H & _). by apply still_world.
  - apply forward_still, still_route. intros c p (_ & _ & H & _). by apply still_world.
  - apply forward_still. cbn. unfold composite_download_files. destruct (negb _); [by intros s0|]. apply composite_still_bind; [apply still_meta|intros; apply still_groups].
  - apply forward_still. by apply composite_still_bind; [apply still_meta|intros]; intros s0.
  - unfold consume, fa_list_recursive, forward_list. cbn. unfold composite_list_recursive.
    pose proof (still_list "" path start_after end_at false include_url_prefix None patterns s) as H. destruct (composite_list cm _ _ _ _ _ _ _ _ s) as [l s'].
    exists s'. by rewrite <- H.
  - apply forward_still. by apply composite_still_bind; [apply still_meta|intros]; intros s0.
  - apply forward_still. intros s0. cbn. unfold composite_is_empty. by repeat case_match.
  - unfold consume, fa_list, forward_list. cbn.
    pose proof (still_list list_prefix path start_after end_at include_directories include_url_prefix filter_expression patterns s) as H.
    destruct (composite_list cm _ _ _ _ _ _ _ _ s) as [l s']. exists s'. by rewrite <- H.
  - apply forward_still, still_route. intros c p (_ & _ & _ & _ & H). by apply still_world.
  - destruct value; by eexists.
Qed.
End Calls.

(** ** A composite client is read-only *)
(** Every call that writes raises [NotImplementedError] on a composite client,
    and after any sequence of calls, of the setter too, the facade still has the
    composite client and the objects are as they were, where reading from the
    children does not change them. *)
Theorem composite_facade_read_only {W P F C X : Type} `{!StorageProvider W} `{!MetadataProvider P W} `{!TempFiles W}
    (cfg : config W) (su : surroundings W P F C) (cm : composite_config W F) (contents : W -> X) (s : composite W P) (cs : list call)
    (Hchildren : forall p c, get_child_client cm p = Ok c -> child_reads contents c) :
  (forall c s0, writes c = true -> run_call cfg su cm c (CompositeOf s0) = (Err NotImplementedError, CompositeOf s0)) /\
  exists s', run_calls cfg su cm cs (CompositeOf s) = CompositeOf s' /\ contents (cm_world s') = contents (cm_world s).
Proof.
  split; [by intros [] s0|]. revert s. induction cs as [|c cs IH]; intros s; cbn [run_calls]; [by exists s|].
  destruct (call_still cfg su cm contents Hchildren c s) as (s1 & -> & E1). destruct (IH s1) as (s' & -> & E). exists s'. by rewrite E.
Qed.
(** The class of the delegate, which the configuration chose, never changes. *)
Lemma call_keeps_delegate {W P F C : Type} `{!StorageProvider W} `{!MetadataProvider P W} `{!TempFiles W}
    (cfg : config W) (su : surroundings W P F C) (cm : composite_config W F) c f :
  delegate_of (run_call cfg su cm c f).2 = delegate_of f.
Proof.
  assert (forall A (k : forall S, AbstractStorageClient S F C -> M S A), delegate_of (forward cfg su cm k f).2 = delegate_of f) as Hf.
  { intros A k. unfold forward. destruct f as [s|s]; by destruct (k _ _ s). }
  assert (forall k : forall S, AbstractStorageClient S F C -> S -> option (listing * S), delegate_of (consume (forward_list cfg su cm k) f).2 = delegate_of f) as Hl.
  { intros k. unfold consume, forward_list. destruct f as [s|s]; by destruct (k _ _ s) as [[]|]. }
  destruct c; cbn [run_call]; rewrite ?discard_state; try apply Hf; try apply Hl. by destruct f, value.
Qed.
Theorem facade_keeps_delegate {W P F C : Type} `{!StorageProvider W} `{!MetadataProvider P W} `{!TempFiles W}
    (cfg : config W) (su : surroundings W P F C) (cm : composite_config W F) (cs : list call) (f : StorageClient W P) :
  delegate_of (run_calls cfg su cm cs f) = delegate_of f.
Proof. revert f. induction cs as [|c cs IH]; intros f; cbn [run_calls]; [done|]. by rewrite IH, call_keeps_delegate. Qed.
